(* ===== verification/_CoqProject ===== *)
-Q . S2P
Prelude.v
Coordinator.v
Encoding.v
Schedule.v
Cryptorand.v
UserPassword.v
Rbac.v
RbacProps.v
Models.v
Net.v
NetUrl.v
Queries.v
ModelMethods.v
Store.v
StoreUsers.v
StoreOrgs.v
StoreMisc.v
StoreJobs.v
StoreTemplates.v
StoreWorkspaces.v
StoreJobsProps.v
StoreProps.v
World.v
Auditing.v
AuditingProps.v
ParamCompute.v
ParamProps.v
ProvisionerdProto.v
FilePath.v
Runner.v
RunnerProps.v
RunnerJob.v
RunnerJobProps.v
Daemon.v
ProvisionerdServer.v
ProvisionerdProps.v
Terraform.v
TerraformProps.v
TerraformExec.v
TerraformExecProps.v
Autobuild.v
AutobuildProps.v
Sdk.v
License.v
LicenseProps.v
Http.v
HttpMw.v
QueryParams.v
AppUrl.v
AppUrlProps.v
RealIP.v
InstanceIdentity.v
Api.v
ApiUsers.v
ApiKeys.v
Scenario.v
HttpProps.v
ApiAudit.v
ApiOrgs.v
ApiMisc.v
ApiJobs.v
Follow.v
ApiBuilds.v
ApiWorkspaces.v
ApiTemplates.v
ApiApps.v
ApiAppsProps.v
ApiOAuth.v
ApiGitAuth.v
ApiAgents.v
ApiVersions.v
Enterprise.v
Endpoints.v
ApiProps.v
EnterpriseProps.v
QuotaProps.v
ApiOAuthProps.v
ApiGitAuthProps.v
ApiAgentsProps.v
ApiAuditProps.v
