(* ===== verification/Prelude.v ===== *)
(** * Coder control plane: verification library

    Coder provisions remote workspaces from templates. Its control plane,
    [coderd], serves an HTTP API, stores its state in a database, decides every
    request by roles, hands provisioning jobs to provisioner daemons, starts and
    stops workspaces on a schedule, and keeps an audit log. This library models
    these parts of it and proves what makes them correct. The definitions keep the
    names of the Go code; all of them are executable.

    ** How Go is modelled

    [Prelude] (this file) has the scalars (times and durations in nanoseconds,
    UUIDs as numbers, fixed-width integers with their wrap-around), [nullable]
    columns, JSON messages, and the monad [GoM S A := S → res A * S] of code that
    reads and changes a state of type [S] and returns a value, an error or a panic.
    A panic is a result and not an error: it ends a computation, and no
    code recovers from it. Rows of the store are values, and their slices lists; a nil slice
    and an empty one differ where the code tells them apart, in the roles the audit diff
    compares ([row_roles] in [Auditing]). Numbers in JSON are integers, or fractions by what
    they truncate to. Code that keeps a pointer into shared state is
    modelled where it matters: the audit entries under way are a heap in [Http].
    Third-party code is a class or a function argument (the clock, random bytes, UUID text, PBKDF2,
    SHA-256, cron expressions, OPA's partial evaluation, the HCL parser, the struct validator, regular expressions a user
    gives, JWT, JOSE, RSA, X.509 and PKCS7, tar, SCIM, semantic versions, the Terraform program and
    the readers of its graphs, attributes and modules, the accepting of
    websockets, transport errors, the GitHub, OpenID Connect and git providers, the mail parser);
    what is assumed of it is a class of laws, and the examples have instances of both. A transaction
    is the sequence of its statements, as in [databasefake], which neither isolates nor rolls back,
    and which ignores the context of a call. Goroutines that share state under a mutex are transition
    systems whose steps are the sections under the mutex.

    ** The files

    - [Coordinator]: [tailnet/coordinator.go], as a transition system
      of clients, agents and their sockets.
    - [Encoding], [Schedule], [Cryptorand], [UserPassword]: base64 and hexadecimal
      text, [coderd/autobuild/schedule], [cryptorand], [coderd/userpassword].
    - [Rbac], [RbacProps]: [coderd/rbac], with the policy of [policy.rego].
    - [Models], [Net], [NetUrl], [Queries], [ModelMethods]: the rows, enums and
      query parameters of [coderd/database], and addresses and URLs.
    - [Store], [StoreUsers], [StoreOrgs], [StoreMisc], [StoreJobs], [StoreTemplates],
      [StoreWorkspaces]: [databasefake.go]. The state is the record [data] of its tables,
      each method a definition of its name. [StoreJobsProps] and [StoreProps] have the theorems.
    - [World]: what a server component runs in, the store with the clock, the
      sources of UUIDs and random bytes, and the messages published.
    - [Auditing], [AuditingProps]: [coderd/audit] and [enterprise/audit].
    - [ParamCompute], [ParamProps]: [coderd/parameter/compute.go].
    - [ProvisionerdProto], [ProvisionerdServer], [ProvisionerdProps]: the protocol
      messages and [coderd/provisionerdserver].
    - [FilePath], [Runner], [RunnerProps], [RunnerJob], [RunnerJobProps]: [provisionerd/runner].
      [Runner] is the state its goroutines share, [RunnerJob] what a job does, as a program over
      the calls it makes to the server, the provisioner and the file system.
    - [Daemon]: [provisionerd/provisionerd.go], the daemon over its runners.
    - [Terraform], [TerraformProps]: [provisioner/terraform/resources.go], from a Terraform state
      and its graph to the resources of a workspace.
    - [TerraformExec], [TerraformExecProps]: the other files of [provisioner/terraform] that run
      Terraform, as programs over the calls they make, and [provisionersdk/agent.go].
    - [Autobuild], [AutobuildProps]: [lifecycle_executor.go] and [activitybump.go].
    - [Sdk]: the request and response types of [codersdk].
    - [License], [LicenseProps]: [enterprise/coderd/license].
    - [AppUrl], [AppUrlProps], [RealIP], [InstanceIdentity]: the URLs of applications and the
      cookies of [coderd/httpapi], [httpmw/realip.go], [coderd/awsidentity] and
      [coderd/azureidentity].
    - [Http], [HttpMw], [QueryParams], [HttpProps]: the vocabulary of the handlers
      ([coderd/httpapi], [authorize.go], [audit.InitRequest]) and the middleware of [coderd/httpmw].
    - [Api], [ApiUsers], [ApiKeys], [ApiOrgs], [ApiMisc], [ApiJobs], [ApiBuilds],
      [ApiWorkspaces], [ApiTemplates], [ApiVersions]: the handlers of [users.go],
      [apikey.go], [organizations.go], [members.go], [roles.go], [gitsshkey.go],
      [files.go], [parameters.go], [authorize.go], [provisionerjobs.go],
      [workspacebuilds.go], [workspaces.go], [templates.go] and
      [templateversions.go], one definition each, with the objects the middleware
      found and the decoded body as arguments.
    - [ApiAudit], [ApiAuditProps]: [audit.go], listing and searching the audit log.
    - [Follow]: following the logs of a job in [provisionerjobs.go], as a
      transition system of the handler, the goroutines of its listener and the server.
    - [ApiApps], [ApiOAuth], [ApiGitAuth], [ApiAgents] with their [Props]: [workspaceapps.go];
      [userauth.go] and [httpmw/oauth2.go]; [coderd/gitauth] and the git handlers of
      [workspaceagents.go]; its other handlers and [workspaceresourceauth.go].
    - [Enterprise], [EnterpriseProps], [QuotaProps]: the handlers of [enterprise/coderd]
      and the hooks it sets on the server.
    - [Endpoints], [ApiProps]: the theorems about the handlers. [Scenario] is a
      deployment the examples run on.

    ** What is proved

    - Access control. The policy decides by levels, with negative permissions before
      positive ones; filters keep exactly what may be read, decided one by one or by the
      queries OPA leaves of the policy; built-in roles only add access;
      organizations are isolated; a restricted key does nothing else. A handler
      runs behind [ExtractAPIKey] as somebody only for a live key of an active user, and
      as nobody only where the key is optional; a key
      that is created does authenticate. Every route of [endpoint] that succeeds, or
      changes the store beyond the audit log, had all its permissions. Nobody but
      an owner hands out a privileged role, and a password change ends the
      sessions of the user. Access lists of templates stay well typed.
    - Identity. A session from GitHub or OpenID Connect is that of the linked user, of the
      user with the address or of
      a new one, and only for those who may sign in; a key for the subdomains of
      applications is the caller's and good for nothing else; an application is served
      only to those it is shared with; git gets only tokens of the workspace's owner; an
      AWS instance gets only the token of the agent of the latest build, for a document that
      a certificate verifies; a terminal opens only for those who may run commands.
    - Enterprise. Entitlements are what the licenses say, the hooks follow them, and
      quotas permit what the budget allows or what reduces the consumption; the builds over
      the budget that the code permits as well are left out.
    - The store. The methods on API keys implement a finite map, by lemmas about any keyed
      table; lists show authorized rows only;
      the latest build has the highest number; the names of an owner's workspaces
      stay unique under renames.
    - Jobs and builds. A job is handed out once and in order, and is settled before
      the call returns; a daemon cannot touch another's job; completing and failing
      leave what they should; log lines stay in order. A build request queues
      one job and one build, numbered next. A run of the executor builds a
      workspace at most once in whatever order its transactions run, and only what
      is due; deadlines only move forward by activity and by request. The runner of a
      job reports it over once, with all its lines, in every interleaving; the daemon
      settles every job it acquires; a build plans, asks for quota and applies just its plan,
      an import only plans, and a failure names its job. Terraform is run without the secrets of the server and its
      outcome is reported once; agents, applications and metadata go to the resources they
      belong to, in whatever order Go visits its maps. Who follows the logs of a job gets lines of that job only, and all of them when the
      messages are handled in order and the buffer does not run over. Statistics of an agent are stored when they change, and
      its row follows its connection.
    - Coordination. The tailnet coordinator forgets what ended and passes nodes on.
    - Values. Computed parameters are well formed and cannot be overridden where
      the schema says so; the audit diff has exactly the changed fields, without
      secrets, each audited response is exported as it was sent, and the audit log is
      shown as it was recorded, for the days that were asked for up to the last second. Random
      choices are unbiased, generated strings have their length and alphabet,
      password hashes verify, and the shortest interval of a schedule is found.

    ** Bounds

    Four loops of the code have no structural bound. [findResourcesInGraph] descends as far as
    its graph goes; its fuel is the room of the stack, and [conversion_returns] proves that it
    is enough for a graph without cycles that is not deeper. [Schedule_Min] walks the
    times of a schedule through one week; they are at least a minute apart, so the
    10,081 steps of [min_fuel] are enough, which [Schedule_Min_spec] proves. The
    redraws of [Int63n] and [UnbiasedModulo32] are bounded by [redraws] of the
    random source, an arbitrary number; [StringCharset_total] holds for every
    source that is accepted once within it. Streams and connections are finite lists, of
    any length, of what arrives on them before they end; the cleaning up of a job tries
    five times and the search for a free username ten times, as the code does.

    ** What is not modelled

    The SQL of the PostgreSQL store, its transactions and the contexts of its calls; the
    router, the JSON codec and reflection; the bytes of sockets (watching
    workspaces, proxying to applications, dialling over the tailnet); the loops and tickers around
    what is modelled (polling of the daemon and of entitlements); telemetry and metrics; the
    replicas of the enterprise networking; the agent and the command line; how Terraform is
    installed. They
    are services, input and output, or run third-party programs. Logging has no effect in
    the model. *)

From Stdlib Require Import Ascii Strings.Byte.
From stdpp Require Import prelude gmap strings sorting.

Declare Scope go_scope.
Delimit Scope go_scope with go.
Open Scope go_scope.

(** Go's [==] and [!=] on comparable types. *)
Notation "a == b" := (bool_decide (a = b)) (at level 70, no associativity) : go_scope.
Notation "a != b" := (negb (bool_decide (a = b))) (at level 70, no associativity) : go_scope.

(** * Go scalars *)

(** A [time.Time] is its distance in nanoseconds from the zero time
    (January 1 of year 1, UTC), so that [time.Time{}] is [0]. *)
Abbreviation time := Z (only parsing).
(** A [time.Duration] is a 64-bit count of nanoseconds. *)
Abbreviation duration := Z (only parsing).
(** A [uuid.UUID] is a 16-byte array, read as a big-endian number;
    [uuid.Nil] is the zero array. *)
Abbreviation uuid := N (only parsing).

Definition uuid_Nil : uuid := 0%N.

Section scalars.
Local Open Scope Z_scope.

Definition time_zero : time := 0.
Definition IsZero (t : time) : bool := t =? time_zero.
Definition Before (t u : time) : bool := t <? u.
Definition After (t u : time) : bool := u <? t.

Definition wrap_signed (bits : Z) (z : Z) : Z :=
    (z + 2 ^ (bits - 1)) mod 2 ^ bits - 2 ^ (bits - 1).
Definition int32_wrap (z : Z) : Z := wrap_signed 32 z.
Definition int64_wrap (z : Z) : Z := wrap_signed 64 z.

Definition min_int64 : Z := - 2 ^ 63.
Definition max_int64 : Z := 2 ^ 63 - 1.

  (** [t.Sub(u)] saturates at the bounds of [time.Duration]. *)
Definition Sub (t u : time) : duration :=
    Z.max min_int64 (Z.min max_int64 (t - u)).
Definition Add (t : time) (d : duration) : time := t + d.

Definition Nanosecond : duration := 1.
Definition Microsecond : duration := 1000 * Nanosecond.
Definition Second : duration := 1000 * 1000 * 1000 * Nanosecond.
Definition Minute : duration := 60 * Second.
Definition Hour : duration := 60 * Minute.

  (** [t.Truncate(d)]: round down to a multiple of [d] since the zero time;
      a non-positive [d] leaves [t] alone. *)
Definition Truncate (t : time) (d : duration) : time :=
    if d <=? 0 then t else t - t mod d.

  (** [t.Round(d)]: to the nearest multiple of [d], halfway values up. *)
Definition Round (t : time) (d : duration) : time :=
    if d <=? 0 then t
    else let r := t mod d in if r + r <? d then t - r else t + (d - r).

  (** The Unix epoch, [t.UnixMilli()] and [time.UnixMilli(ms)]. *)
Definition unix_epoch : time := 62135596800 * Second.
Definition UnixMilli (t : time) : Z := int64_wrap ((t - unix_epoch) / (1000 * Microsecond)).
Definition time_UnixMilli (ms : Z) : time := unix_epoch + ms * (1000 * Microsecond).

  (** [time.Duration(n) * time.Second] on 64 bits. *)
Definition seconds (n : Z) : duration := int64_wrap (n * Second).
End scalars.

(** * Nullable columns: [sql.NullTime], [sql.NullString], [uuid.NullUUID] ...
    A null value still carries a payload, which the code sometimes reads
    without looking at [Valid]. *)
Record nullable (A : Type) := mkNull { null_val : A; Valid : bool }.
Arguments mkNull {A} _ _.
Arguments null_val {A} _.
Arguments Valid {A} _.

Definition null_of {A} (zero : A) : nullable A := mkNull zero false.
Definition non_null {A} (a : A) : nullable A := mkNull a true.

#[global] Instance nullable_eq_dec `{EqDecision A} : EqDecision (nullable A).
Proof. solve_decision. Defined.

#[global] Instance byte_eq_dec : EqDecision Byte.byte := Byte.byte_eq_dec.

(** * Errors and results *)

Inductive error :=
| ErrNoRows
| ErrDuplicateKey
| ErrEOF
| ErrCanceled
| ErrNew (msg : string)
(** An error with the response it is to be reported with. *)
| ErrHTTP (code : Z) (msg detail : string)
| ErrWrap (msg : string) (cause : error).

#[global] Instance error_eq_dec : EqDecision error.
Proof. solve_decision. Defined.

(** [errors.Is]: the target is the error or one it wraps. *)
Fixpoint errors_Is (e target : error) : bool :=
  bool_decide (e = target) ||
  match e with ErrWrap _ c => errors_Is c target | _ => false end.

(** [err.Error()]. *)
Fixpoint error_string (e : error) : string :=
  match e with
  | ErrNoRows => "sql: no rows in result set"
  | ErrDuplicateKey => "pq: duplicate key value violates unique constraint"
  | ErrEOF => "EOF"
  | ErrCanceled => "context canceled"
  | ErrNew m => m
  | ErrHTTP _ msg detail => if bool_decide (detail = EmptyString) then msg else detail
  | ErrWrap m c => (m +:+ ": " +:+ error_string c)%string
  end.

(** The outcome of a Go call: a value, an error, or a panic. *)
Inductive res (A : Type) :=
| Ok (a : A)
| Err (e : error)
| Panic (msg : string).
Arguments Ok {A} _.
Arguments Err {A} _.
Arguments Panic {A} _.

#[global] Instance res_eq_dec `{EqDecision A} : EqDecision (res A).
Proof. solve_decision. Defined.
#[global] Instance res_ret : MRet res := λ _ a, Ok a.
#[global] Instance res_bind : MBind res := λ _ _ f r,
  match r with Ok a => f a | Err e => Err e | Panic m => Panic m end.
#[global] Instance res_fmap : FMap res := λ _ _ f r,
  match r with Ok a => Ok (f a) | Err e => Err e | Panic m => Panic m end.

Definition of_option {A} (e : error) (o : option A) : res A :=
  match o with Some a => Ok a | None => Err e end.

Definition is_ok {A} (r : res A) : bool := match r with Ok _ => true | _ => false end.

(** State passing with errors: an error or a panic keeps the state reached
    so far, as Go code does. *)
Definition GoM (S A : Type) : Type := S → res A * S.

#[global] Instance gom_ret S : MRet (GoM S) := λ _ a s, (Ok a, s).
#[global] Instance gom_bind S : MBind (GoM S) := λ _ _ k m s,
  match m s with
  | (Ok a, s') => k a s'
  | (Err e, s') => (Err e, s')
  | (Panic p, s') => (Panic p, s')
  end.

Section gom.
Context {S : Type}.

Definition throw {A} (e : error) : GoM S A := λ s, (Err e, s).
Definition lift_res {A} (r : res A) : GoM S A := λ s, (r, s).
Definition asks {A} (f : S → res A) : GoM S A := λ s, (f s, s).
Definition modify (f : S → S) : GoM S unit := λ s, (Ok tt, f s).

  (** [if err != nil { return xerrors.Errorf("msg: %w", err) }] *)
Definition wrap {A} (msg : string) (m : GoM S A) : GoM S A := λ s,
    match m s with
    | (Err e, s') => (Err (ErrWrap msg e), s')
    | r => r
    end.

  (** Look at the error of a call instead of returning it. *)
Definition attempt {A} (m : GoM S A) : GoM S (error + A) := λ s,
    match m s with
    | (Ok a, s') => (Ok (inr a), s')
    | (Err e, s') => (Ok (inl e), s')
    | (Panic p, s') => (Panic p, s')
    end.

  (** [for _, x := range l { body }], stopping at the first error. *)
Fixpoint for_each {A} (l : list A) (body : A → GoM S unit) : GoM S unit :=
    match l with
    | [] => mret tt
    | x :: l' => _ ← body x; for_each l' body
    end.
End gom.

(** Run a computation on a component of a larger state. *)
Definition zoom {S T A} (get : S → T) (put : T → S → S) (m : GoM T A) : GoM S A :=
  λ s, let '(r, t) := m (get s) in (r, put t s).

(** * Record update: [r <| field := v |>] *)

Class Eta (R : Type) := eta : R → R.
Class Setter {R T : Type} (proj : R → T) := set_field : (T → T) → R → R.
Arguments set_field {R T} proj {_} _ _.

(** Abstract the projection out of the record's eta-expansion and put the
    updated value in its place. *)
Ltac solve_setter :=
  match goal with
  | |- @Setter ?R _ ?proj =>
      let e := eval cbv beta delta [eta] in (@eta R _) in
      let e := eval hnf in e in
      match eval pattern proj in e with
      | ?F _ => exact (fun f => F (fun r => f (proj r)))
      end
  end.
#[global] Hint Extern 1 (Setter _) => solve_setter : typeclass_instances.

(** Reading the field that was set. *)
Class SetterLaw {R T : Type} (proj : R → T) `{!Setter proj} :=
  get_set : ∀ f r, proj (set_field proj f r) = f (proj r).
#[global] Hint Extern 1 (SetterLaw _) => (intros ??; reflexivity) : typeclass_instances.

Notation "r <| f := v |>" := (set_field f (λ _, v) r)
  (at level 1, f at level 0, v at level 99, left associativity,
   format "r  <| f  :=  v |>").

(** * Strings, for ASCII text *)

Definition ascii_lower (c : Ascii.ascii) : Ascii.ascii :=
  let n := Ascii.N_of_ascii c in
  if ((65 <=? n) && (n <=? 90))%N then Ascii.ascii_of_N (n + 32) else c.

(** [strings.ToLower] *)
Fixpoint ToLower (s : string) : string :=
  match s with
  | EmptyString => EmptyString
  | String c s' => String (ascii_lower c) (ToLower s')
  end.

(** [strings.EqualFold] *)
Definition EqualFold (s t : string) : bool := bool_decide (ToLower s = ToLower t).

(** [strings.HasPrefix] *)
Definition HasPrefix (s pre : string) : bool := String.prefix pre s.

(** [strings.Contains] *)
Fixpoint Contains (s sub : string) : bool :=
  String.prefix sub s ||
  match s with EmptyString => false | String _ s' => Contains s' sub end.

(** [strings.Split] at a one-character separator: always at least one part. *)
Fixpoint Split (s : string) (sep : Ascii.ascii) : list string :=
  match s with
  | EmptyString => [EmptyString]
  | String c s' =>
      if bool_decide (c = sep) then EmptyString :: Split s' sep
      else match Split s' sep with
           | [] => [String c EmptyString]
           | p :: ps => String c p :: ps
           end
  end.

Definition is_space (c : Ascii.ascii) : bool :=
  let n := Ascii.N_of_ascii c in
  ((n =? 32) || ((9 <=? n) && (n <=? 13)))%N.

(** [strings.Fields]: the maximal runs of non-space characters. *)
Fixpoint fields_from (s : string) (cur : string) : list string :=
  match s with
  | EmptyString => match cur with EmptyString => [] | _ => [cur] end
  | String c s' =>
      if is_space c then
        match cur with
        | EmptyString => fields_from s' EmptyString
        | _ => cur :: fields_from s' EmptyString
        end
      else fields_from s' (cur +:+ String c EmptyString)
  end.
Definition Fields (s : string) : list string := fields_from s EmptyString.

(** [strings.Join] *)
Fixpoint Join (l : list string) (sep : string) : string :=
  match l with
  | [] => EmptyString
  | [x] => x
  | x :: l' => x +:+ sep +:+ Join l' sep
  end.

(** [%q] for text with nothing to escape. *)
Definition quote (s : string) : string :=
  String (ascii_of_nat 34) (s +:+ String (ascii_of_nat 34) EmptyString).

(** [strings.Trim] of the quotes around a text. *)
Fixpoint trim_left (s : string) : string :=
  match s with
  | String c s' => if bool_decide (c = ascii_of_nat 34) then trim_left s' else s
  | EmptyString => EmptyString
  end.
Fixpoint trim_right (s : string) : string :=
  match s with
  | EmptyString => EmptyString
  | String c s' =>
      let t := trim_right s' in
      if (t == EmptyString) && bool_decide (c = ascii_of_nat 34) then EmptyString else String c t
  end.
Definition trim_quotes (s : string) : string := trim_right (trim_left s).

(** Byte-wise order of Go strings. *)
Definition string_lt (s t : string) : bool := String.ltb s t.

(** * JSON: a [json.RawMessage] is nil, a text that is not JSON, or the value
    its text encodes. A number is an integer, or has a fraction: the integer it
    truncates to, and the rest of its text. *)

Inductive json :=
| JNull
| JBool (b : bool)
| JNumber (n : Z)
| JFraction (n : Z) (rest : string)
| JString (s : string)
| JArray (l : list json)
| JObject (fields : list (string * json)).
Inductive RawMessage := RawNil | RawInvalid | RawValue (j : json).

(** What [json.Unmarshal] sees: a nil text is not JSON either. *)
Definition raw_json (m : RawMessage) : option json :=
  match m with RawValue j => Some j | _ => None end.

(** The last member of a JSON object with a given key; keys match up to case,
    as [encoding/json] does. *)
Definition json_member (key : string) (fields : list (string * json)) : option json :=
  snd <$> last (filter (λ kv, EqualFold kv.1 key = true) fields).

(** * UUID text: [uuid.UUID.String] and [uuid.Parse] are third-party code.
    The laws are the documented ones: parsing inverts printing, and the printed
    form is hexadecimal digits and dashes, so it is not empty and has no colon. *)
Class UuidText := {
  uuid_String : uuid → string;
  uuid_Parse : string → option uuid;
}.

Class UuidTextLaws `{UuidText} := {
  uuid_Parse_String : ∀ u, uuid_Parse (uuid_String u) = Some u;
  uuid_String_no_colon : ∀ u, ":"%char ∉ String.list_ascii_of_string (uuid_String u);
  uuid_String_not_empty : ∀ u, uuid_String u ≠ EmptyString;
}.

(** A text for concrete runs of the model: one mark per unit. *)
Definition unary_uuid_text : UuidText := {|
  uuid_String u := String "u" (String.string_of_list_ascii (repeat "1"%char (N.to_nat u)));
  uuid_Parse s := match s with
                  | String "u" s => Some (N.of_nat (String.length s))
                  | _ => None
                  end
|}.

Lemma unary_uuid_text_laws : @UuidTextLaws unary_uuid_text.
Proof.
  split.
  - intros u. simpl. f_equal.
    assert (∀ n, String.length (String.string_of_list_ascii (repeat "1"%char n)) = n) as ->
      by (intros n; induction n; simpl; congruence). lia.
  - intros u Hin. simpl in Hin. rewrite String.list_ascii_of_string_of_list_ascii in Hin.
    apply elem_of_cons in Hin as [Hin|Hin]; [done|].
    apply list_elem_of_In, repeat_spec in Hin. done.
  - done.
Qed.

(** * Slices *)

(** [sort.Slice], [slices.SortFunc]. *)
Definition not_after {A} (less : A → A → bool) (a b : A) : Prop := less b a = false.
#[global] Instance not_after_dec {A} (less : A → A → bool) : RelDecision (not_after less).
Proof. intros a b. apply bool_eq_dec. Defined.
Definition sort_by {A} (less : A → A → bool) (l : list A) : list A :=
  merge_sort (not_after less) l.

Section table.
Context {A : Type}.

(** [for _, x := range l { if P(x) { return x } }] *)
Fixpoint find_first (P : A → bool) (l : list A) : option A :=
  match l with
  | [] => None
  | x :: l' => if P x then Some x else find_first P l'
  end.

(** [for i, x := range l { if P(x) { x = f(x); l[i] = x; return x } }] *)
Fixpoint update_first (P : A → bool) (f : A → A) (l : list A) : option (A * list A) :=
  match l with
  | [] => None
  | x :: l' =>
      if P x then Some (f x, f x :: l')
      else match update_first P f l' with
           | Some (y, l'') => Some (y, x :: l'')
           | None => None
           end
  end.

(** The index of the first match. *)
Fixpoint index_first (P : A → bool) (l : list A) : option nat :=
  match l with
  | [] => None
  | x :: l' => if P x then Some 0 else S <$> index_first P l'
  end.

(** [l[i] = l[len(l)-1]; l = l[:len(l)-1]] *)
Definition swap_remove (i : nat) (l : list A) : list A :=
  match last l with
  | Some x => take (length l - 1) (<[i := x]> l)
  | None => l
  end.

(** [l = append(l[:i], l[i+1:]...)] *)
Definition shift_remove (i : nat) (l : list A) : list A :=
  take i l ++ drop (S i) l.

(** [for i, x := range l { if P(x) { l = append(l[:i], l[i+1:]...) } }].
    The loop runs over the length the slice had at its start and reads the
    backing array, in which each deletion shifts the tail left in place.
    [arr] is the backing array, [len] the current length of the slice, [i] the
    loop index, [n] the number of iterations left. Slicing from beyond the
    current length panics. *)
Fixpoint range_delete_loop (P : A → bool) (arr : list A) (len i n : nat) :
    res unit * list A :=
  match n with
  | 0 => (Ok tt, take len arr)
  | S n' =>
      match arr !! i with
      | None => (Panic "index out of range", take len arr)
      | Some x =>
          if P x then
            if decide (S i ≤ len) then
              range_delete_loop P
                (take i arr ++ take (len - S i) (drop (S i) arr) ++ drop (len - 1) arr)
                (len - 1) (S i) n'
            else (Panic "slice bounds out of range", take len arr)
          else range_delete_loop P arr len (S i) n'
      end
  end.
Definition range_delete (P : A → bool) (l : list A) : res unit * list A :=
  range_delete_loop P l (length l) 0 (length l).
End table.

(** What a successful sequence did. *)
Lemma bind_step {S A B} (m : GoM S A) (k : A → GoM S B) s a s' : m s = (Ok a, s') → (m ≫= k) s = k a s'.
Proof. intros Hm. unfold mbind, gom_bind. by rewrite Hm. Qed.
Lemma attempt_step {S A} (m : GoM S A) s a s' : m s = (Ok a, s') → attempt m s = (Ok (inr a), s').
Proof. intros Hm. unfold attempt. by rewrite Hm. Qed.
Lemma lift_res_ok {S A} (r : res A) (s : S) a s' : lift_res r s = (Ok a, s') → r = Ok a ∧ s' = s.
Proof. by intros [= -> <-]. Qed.
Lemma bind_ok {S A B} (m : GoM S A) (k : A → GoM S B) s b s' :
  (m ≫= k) s = (Ok b, s') → ∃ a s1, m s = (Ok a, s1) ∧ k a s1 = (Ok b, s').
Proof. unfold mbind, gom_bind. destruct (m s) as [[a|e|p] s1]; naive_solver. Qed.

Lemma wrap_ok {S A} msg (m : GoM S A) s a s' : wrap msg m s = (Ok a, s') → m s = (Ok a, s').
Proof. unfold wrap. by destruct (m s) as [[]]. Qed.

(** * Frames: a computation leaves a part of the state alone *)

Definition preserves {S A T} (f : S → T) (m : GoM S A) : Prop := ∀ s, f (m s).2 = f s.

Create HintDb frame.

Section preserves.
Context {S T : Type} (f : S → T).

Lemma preserves_run {A} (m : GoM S A) s r s' : preserves f m → m s = (r, s') → f s' = f s.
Proof. intros Hm Hrun. specialize (Hm s). by rewrite Hrun in Hm. Qed.
Lemma preserves_ret {A} (a : A) : preserves f (mret a).
Proof. done. Qed.
Lemma preserves_throw {A} e : preserves f (throw (A := A) e).
Proof. done. Qed.
Lemma preserves_lift_res {A} (r : res A) : preserves f (lift_res r).
Proof. done. Qed.
Lemma preserves_asks {A} (g : S → res A) : preserves f (asks g).
Proof. done. Qed.
Lemma preserves_bind {A B} (m : GoM S A) (k : A → GoM S B) :
  preserves f m → (∀ a, preserves f (k a)) → preserves f (m ≫= k).
Proof.
  intros Hm Hk s. unfold mbind, gom_bind. specialize (Hm s).
  destruct (m s) as [[a|e|p] s']; simpl in *; [by rewrite Hk|done..].
Qed.
Lemma preserves_wrap {A} msg (m : GoM S A) : preserves f m → preserves f (wrap msg m).
Proof. intros Hm s. unfold wrap. specialize (Hm s). by destruct (m s) as [[]]. Qed.
Lemma preserves_attempt {A} (m : GoM S A) : preserves f m → preserves f (attempt m).
Proof. intros Hm s. unfold attempt. specialize (Hm s). by destruct (m s) as [[]]. Qed.
Lemma preserves_for_each {A} (l : list A) body :
  (∀ x, preserves f (body x)) → preserves f (for_each l body).
Proof.
  intros Hbody. induction l as [|x l IH]; simpl; [apply preserves_ret|].
  by apply preserves_bind.
Qed.
End preserves.
#[export] Hint Resolve preserves_ret preserves_throw preserves_lift_res preserves_asks
  preserves_wrap preserves_attempt preserves_for_each : frame.
#[export] Hint Extern 2 (preserves _ (_ ≫= _)) => apply preserves_bind; [|intros ?] : frame.
#[export] Hint Extern 3 (preserves _ (match ?x with _ => _ end)) => destruct x : frame.
#[export] Hint Extern 1 (∀ _, preserves _ _) => intros ? : frame.

(** * Computations that never panic *)

Definition panics {A} (r : res A) : bool := match r with Panic _ => true | _ => false end.
Definition no_panic {S A} (m : GoM S A) : Prop := ∀ s, panics (m s).1 = false.

Create HintDb no_panic.

Section no_panic.
Context {S : Type}.

Lemma no_panic_ret {A} (a : A) : no_panic (mret (M := GoM S) a).
Proof. done. Qed.
Lemma no_panic_throw {A} e : no_panic (throw (S := S) (A := A) e).
Proof. done. Qed.
Lemma no_panic_lift_res {A} (r : res A) : panics r = false → no_panic (lift_res (S := S) r).
Proof. by intros ? ?. Qed.
Lemma no_panic_bind {A B} (m : GoM S A) (k : A → GoM S B) :
  no_panic m → (∀ a, no_panic (k a)) → no_panic (m ≫= k).
Proof.
  intros Hm Hk s. unfold mbind, gom_bind. specialize (Hm s).
  destruct (m s) as [[a|e|p] s']; simpl in *; [apply Hk|done..].
Qed.
Lemma no_panic_wrap {A} msg (m : GoM S A) : no_panic m → no_panic (wrap msg m).
Proof. intros Hm s. unfold wrap. specialize (Hm s). by destruct (m s) as [[]]. Qed.
Lemma no_panic_attempt {A} (m : GoM S A) : no_panic m → no_panic (attempt m).
Proof. intros Hm s. unfold attempt. specialize (Hm s). by destruct (m s) as [[]]. Qed.
End no_panic.
#[export] Hint Resolve no_panic_ret no_panic_throw no_panic_lift_res no_panic_wrap
  no_panic_attempt : no_panic.
#[export] Hint Extern 2 (no_panic (_ ≫= _)) => apply no_panic_bind; [|intros ?] : no_panic.
#[export] Hint Extern 3 (no_panic (match ?x with _ => _ end)) => destruct x : no_panic.

(** * Shared lemmas *)

Lemma list_filter_iff_in {A} (P Q : A → Prop) `{!∀ x, Decision (P x), !∀ x, Decision (Q x)} (l : list A) :
  (∀ x, x ∈ l → P x ↔ Q x) → filter P l = filter Q l.
Proof.
  induction l as [|x l IH]; intros Hiff; [done|]. rewrite !filter_cons.
  rewrite IH by set_solver. specialize (Hiff x ltac:(set_solver)).
  repeat case_decide; tauto || done.
Qed.

Lemma sort_by_perm {A} (less : A → A → bool) l : sort_by less l ≡ₚ l.
Proof. apply merge_sort_Permutation. Qed.
Lemma sort_by_sorted {A} (less : A → A → bool) l :
  (∀ x y, less x y = true → less y x = false) → Sorted (not_after less) (sort_by less l).
Proof.
  intros Hasym. assert (Total (not_after less)).
  { intros x y. unfold not_after. destruct (less y x) eqn:Hyx; [right; auto|by left]. }
  apply (Sorted_merge_sort _).
Qed.

Lemma string_app_assoc (a b c : string) : (a +:+ b) +:+ c = a +:+ (b +:+ c).
Proof. induction a as [|d a IH]; [done|]. exact (f_equal (String d) IH). Qed.
Lemma string_app_length (a b : string) : String.length (a +:+ b) = (String.length a + String.length b)%nat.
Proof. induction a as [|c a IH]; [done|]. simpl. by rewrite IH. Qed.

Lemma int64_wrap_small z : (min_int64 <= z <= max_int64)%Z → int64_wrap z = z.
Proof.
  unfold int64_wrap, wrap_signed, min_int64, max_int64. intros ?.
  rewrite Z.mod_small; lia.
Qed.

Lemma int32_wrap_small z : (- 2 ^ 31 <= z < 2 ^ 31)%Z → int32_wrap z = z.
Proof. unfold int32_wrap, wrap_signed. intros ?. rewrite Z.mod_small; lia. Qed.

(** The search loops, split at the row they stop at. *)
Section table_lemmas.
Context {A : Type} (P : A → bool).

Lemma find_first_snoc (l : list A) (x : A) :
  find_first P (l ++ [x]) = match find_first P l with
                            | Some y => Some y
                            | None => if P x then Some x else None
                            end.
Proof. induction l as [|y l IH]; simpl; [done|]. by destruct (P y). Qed.
Lemma find_first_spec (l : list A) :
  (∃ pre x post, l = pre ++ x :: post ∧ Forall (λ y, P y = false) pre ∧ P x = true
     ∧ find_first P l = Some x)
  ∨ (Forall (λ y, P y = false) l ∧ find_first P l = None).
Proof.
  induction l as [|x l IH]; [right; by split|]. simpl. destruct (P x) eqn:Hx.
  - left. exists [], x, l. by rewrite Forall_nil.
  - destruct IH as [(pre & y & post & -> & Hpre & Hy & ->)|[Hall ->]].
    + left. exists (x :: pre), y, post. by rewrite Forall_cons.
    + right. by rewrite Forall_cons.
Qed.

Lemma update_first_app f pre x post :
  Forall (λ y, P y = false) pre → P x = true →
  update_first P f (pre ++ x :: post) = Some (f x, pre ++ f x :: post).
Proof. induction 1 as [|y pre Hy _ IH]; intros Hx; simpl; [by rewrite Hx|by rewrite Hy, IH]. Qed.

Lemma update_first_none f l :
  Forall (λ y, P y = false) l → update_first P f l = None.
Proof. induction 1 as [|y l Hy _ IH]; simpl; [done|by rewrite Hy, IH]. Qed.

Lemma index_first_app pre x post :
  Forall (λ y, P y = false) pre → P x = true →
  index_first P (pre ++ x :: post) = Some (length pre).
Proof. induction 1 as [|y pre Hy _ IH]; intros Hx; simpl; [by rewrite Hx|by rewrite Hy, IH]. Qed.

Lemma index_first_none l : Forall (λ y, P y = false) l → index_first P l = None.
Proof. induction 1 as [|y l Hy _ IH]; simpl; [done|by rewrite Hy, IH]. Qed.

Lemma shift_remove_app (pre post : list A) x :
  shift_remove (length pre) (pre ++ x :: post) = pre ++ post.
Proof.
  unfold shift_remove. rewrite take_app_length. rewrite drop_app_ge by lia.
  by replace (S (length pre) - length pre) with 1 by lia.
Qed.

Lemma insert_at_app (pre post : list A) x y :
  <[length pre := y]> (pre ++ x :: post) = pre ++ y :: post.
Proof. by rewrite insert_app_r_alt, Nat.sub_diag by lia. Qed.

(** Swapping the last row in reorders the rows, no more. *)
Lemma swap_remove_app (pre post : list A) x :
  swap_remove (length pre) (pre ++ x :: post) ≡ₚ pre ++ post.
Proof.
  unfold swap_remove. destruct post as [|z post _] using rev_ind.
  - rewrite last_snoc, insert_at_app, length_app, app_nil_r. simpl.
    replace (length pre + 1 - 1) with (length pre) by lia. by rewrite take_app_length.
  - rewrite app_comm_cons, app_assoc, last_snoc.
    rewrite <-app_assoc, <-app_comm_cons, insert_at_app, !length_app. simpl.
    rewrite length_app. simpl. rewrite app_comm_cons, app_assoc.
    replace (length pre + S (length post + 1) - 1) with (length (pre ++ z :: post))
      by (rewrite length_app; simpl; lia).
    rewrite take_app_length. rewrite (Permutation_app_comm post [z]). done.
Qed.
End table_lemmas.

Lemma NoDup_key_inj {A K} (key : A → K) (l : list A) (x y : A) :
  NoDup (key <$> l) → x ∈ l → y ∈ l → key x = key y → x = y.
Proof.
  induction l as [|z l IH]; [by intros _ ?%not_elem_of_nil|]. rewrite fmap_cons, NoDup_cons. intros [Hz Hl].
  assert (∀ w, w ∈ l → key z ≠ key w) as Hne by (intros w Hw Heq; apply Hz, list_elem_of_fmap; by exists w).
  rewrite !elem_of_cons. intros [->|Hx] [->|Hy] Heq; [done|by destruct (Hne y Hy)|by destruct (Hne x Hx)|by apply IH].
Qed.

(** When no two rows have the same key, the first row with a key is the only one. *)
Lemma update_first_split {A K} `{!EqDecision K} (key : A → K) (f : A → A) (l : list A) x :
  NoDup (key <$> l) → x ∈ l →
  ∃ pre post, l = pre ++ x :: post ∧
    update_first (λ y, bool_decide (key y = key x)) f l = Some (f x, pre ++ f x :: post).
Proof.
  intros Hdup (pre & post & ->)%list_elem_of_split. exists pre, post. split; [done|].
  rewrite fmap_app, NoDup_app in Hdup. destruct Hdup as (_ & Hpre & _).
  apply update_first_app; [|by apply bool_decide_eq_true_2].
  apply Forall_forall. intros y Hy. apply bool_decide_eq_false_2. intros Heq.
  destruct (Hpre (key y)); [by apply list_elem_of_fmap_2|]. rewrite Heq. simpl. by left.
Qed.
(** When no two rows have the same key, updating the first row with a key is
    updating every row with it. *)
Lemma update_first_unique {A K} `{!EqDecision K} (key : A → K) (f : A → A) (l : list A) (x : A) :
  NoDup (key <$> l) → x ∈ l →
  update_first (λ y, bool_decide (key y = key x)) f l = Some (f x, (λ y, if bool_decide (key y = key x) then f y else y) <$> l).
Proof.
  intros Hnd (pre & post & ->)%list_elem_of_split. rewrite fmap_app, fmap_cons in Hnd.
  apply NoDup_app in Hnd as (_ & Hpre & Hpost). apply NoDup_cons in Hpost as [Hpost _].
  assert (∀ m : list A, key x ∉ key <$> m → (λ y, if bool_decide (key y = key x) then f y else y) <$> m = m) as Hid.
  { intros m Hm. rewrite <- (list_fmap_id m) at 2. apply list_fmap_ext. intros k y Hy%list_elem_of_lookup_2.
    rewrite bool_decide_eq_false_2; [done|]. intros Heq. apply Hm. apply list_elem_of_fmap. by exists y. }
  assert (key x ∉ key <$> pre) as Hpre'.
  { intros Hin. apply (Hpre _ Hin). by left. }
  rewrite update_first_app; [|apply Forall_forall; intros y Hy; apply bool_decide_eq_false_2; intros Heq;
    apply Hpre', list_elem_of_fmap; by exists y|by apply bool_decide_eq_true_2].
  by rewrite fmap_app, fmap_cons, bool_decide_eq_true_2, !Hid by done.
Qed.
