(* ===== verification/Coordinator.v ===== *)
(** * The tailnet coordinator

    [tailnet/coordinator.go]: the in-memory coordinator that introduces the
    clients of a workspace agent to it. Every call of [ServeClient] and
    [ServeAgent] is a goroutine, a [task] here, and the calls share the maps of
    the coordinator. What a call does between taking the mutex and releasing it is
    one function on the maps; [exec] runs one such section, or one write to a
    socket, of one call, so that a run of the coordinator is an interleaving of
    them. The environment chooses which call goes on, what is read from a socket
    and how a write ends. A [Node] always encodes to JSON.

    The invariant of the maps the calls share, in every interleaving: they hold
    exactly the clients being served, and nothing of a call that has returned. The
    IDs of clients are fresh, as those [uuid.New] draws for them; nothing is
    assumed of the IDs of agents, which connect again under the same one. With one
    call per agent at a time, what a client sends reaches the agent; two examples
    show what is lost otherwise. *)

From stdpp Require Import prelude gmap strings sorting.
From S2P Require Import Prelude.

Local Open Scope Z_scope.

(** ** Data *)

(** A [net.Conn], by its identity. *)
Abbreviation conn := N (only parsing).

(** The keys, prefixes and latencies as text and JSON; the latencies are in the
    order the map of them is ranged over. *)
Record Node := mkNode {
  Node_ID : Z;
  Node_AsOf : time;
  Node_Key : string;
  Node_DiscoKey : string;
  Node_PreferredDERP : Z;
  Node_DERPLatency : list (string * json);
  Node_Addresses : list string;
  Node_AllowedIPs : list string;
  Node_Endpoints : list string;
}.

Record coordinator := mkCoordinator {
  closed : bool;
  nodes : gmap uuid Node;
  agentSockets : gmap uuid conn;
  agentToConnectionSockets : gmap uuid (gmap uuid conn);
}.
#[global] Instance coordinator_eta : Eta coordinator := λ c,
  mkCoordinator c.(closed) c.(nodes) c.(agentSockets) c.(agentToConnectionSockets).

Definition NewCoordinator : coordinator := mkCoordinator false ∅ ∅ ∅.

(** [coordinator.Node] *)
Definition in_memory_Node (c : coordinator) (id : uuid) : option Node := c.(nodes) !! id.

Definition errClosed : error := ErrNew "coordinator is closed".

(** ** The critical sections *)

(** The node of the agent a new client is greeted with. *)
Definition client_enter (agent : uuid) (c : coordinator) : res (option Node) :=
  if c.(closed) then Err errClosed else Ok (c.(nodes) !! agent).

Definition sockets_of (agent : uuid) (c : coordinator) : gmap uuid conn :=
  default ∅ (c.(agentToConnectionSockets) !! agent).

Definition client_join (sock : conn) (id agent : uuid) (c : coordinator) : coordinator :=
  c <| agentToConnectionSockets :=
       <[agent := <[id := sock]> (sockets_of agent c)]> c.(agentToConnectionSockets) |>.

(** The deferred function of [ServeClient]. *)
Definition client_leave (id agent : uuid) (c : coordinator) : coordinator :=
  let c := c <| nodes := delete id c.(nodes) |> in
  match c.(agentToConnectionSockets) !! agent with
  | None => c
  | Some connectionSockets =>
      let connectionSockets := delete id connectionSockets in
      if connectionSockets != ∅
      then c <| agentToConnectionSockets := <[agent := connectionSockets]> c.(agentToConnectionSockets) |>
      else c <| agentToConnectionSockets := delete agent c.(agentToConnectionSockets) |>
  end.

(** [handleNextClientMessage] after a node was read: where it is to be forwarded. *)
Definition client_message (id agent : uuid) (node : Node) (c : coordinator) : coordinator * option conn :=
  let c := c <| nodes := <[id := node]> c.(nodes) |> in
  (c, c.(agentSockets) !! agent).

(** The nodes a new agent is greeted with, when somebody waits for it. *)
Definition agent_enter (id : uuid) (c : coordinator) : res (option (list Node)) :=
  if c.(closed) then Err errClosed else
  Ok (match c.(agentToConnectionSockets) !! id with
      | None => None
      | Some sockets => Some (omap (λ '(targetID, _), c.(nodes) !! targetID) (map_to_list sockets))
      end).

(** The socket of an agent that is connected already is to be closed. *)
Definition agent_join (sock : conn) (id : uuid) (c : coordinator) : coordinator * option conn :=
  (c <| agentSockets := <[id := sock]> c.(agentSockets) |>, c.(agentSockets) !! id).

(** The deferred function of [ServeAgent]. *)
Definition agent_leave (id : uuid) (c : coordinator) : coordinator :=
  c <| agentSockets := delete id c.(agentSockets) |> <| nodes := delete id c.(nodes) |>.

(** [handleNextAgentMessage] after a node was read: the sockets to publish it to. *)
Definition agent_message (id : uuid) (node : Node) (c : coordinator) : coordinator * list conn :=
  let c := c <| nodes := <[id := node]> c.(nodes) |> in
  (c, (map_to_list (sockets_of id c)).*2).

(** [coordinator.Close]: the sockets it closes. *)
Definition coordinator_Close (c : coordinator) : coordinator * list conn :=
  if c.(closed) then (c, []) else
  (c <| closed := true |>,
   (map_to_list c.(agentSockets)).*2
   ++ ((map_to_list c.(agentToConnectionSockets)).*2 ≫= λ connMap, (map_to_list connMap).*2)).

(** ** The calls *)

(** Where a call of [ServeClient] or [ServeAgent] stands. *)
Inductive task :=
| ClientEnter (sock : conn) (id agent : uuid)
| ClientGreet (sock : conn) (id agent : uuid) (node : Node)
| ClientJoin (sock : conn) (id agent : uuid)
| ClientRead (sock : conn) (id agent : uuid)
| ClientForward (sock : conn) (id agent : uuid) (node : Node) (agentSocket : conn)
| ClientLeave (sock : conn) (id agent : uuid) (err : option error)
| AgentEnter (sock : conn) (id : uuid)
| AgentGreet (sock : conn) (id : uuid) (greeting : list Node)
| AgentJoin (sock : conn) (id : uuid)
| AgentRead (sock : conn) (id : uuid)
| AgentPublish (sock : conn) (id : uuid) (node : Node) (pending : list conn)
| AgentLeave (sock : conn) (id : uuid) (err : option error)
| Returned (err : option error).

(** The coordinator, the calls of it, what was written to the sockets, and the
    sockets it closed. *)
Record system := mkSystem {
  shared : coordinator;
  tasks : gmap nat task;
  written : list (conn * list Node);
  shut : list conn;
}.
#[global] Instance system_eta : Eta system := λ s, mkSystem s.(shared) s.(tasks) s.(written) s.(shut).

(** What the environment answers to a call: the lock is free, an operation on a
    socket succeeds or fails, a node is read, the ranged map has this order, or the
    goroutine that writes to one of the pending sockets is done. *)
Inductive outcome :=
| Proceed
| Failure (e : error)
| Message (node : Node)
| Order (ks : list nat)
| Pick (k : nat) (failed : bool).

Inductive event :=
| Serve (i : nat) (t : task)
| Go (i : nat) (o : outcome)
| Shutdown.

Definition becomes (i : nat) (t : task) (s : system) : system := s <| tasks := <[i := t]> s.(tasks) |>.
Definition update_shared (c : coordinator) (s : system) : system := s <| shared := c |>.
Definition write (sock : conn) (l : list Node) (s : system) : system :=
  s <| written := s.(written) ++ [(sock, l)] |>.

(** How the loop of [ServeClient] and that of [ServeAgent] end. *)
Definition client_error (e : error) : option error :=
  if errors_Is e ErrEOF then None else Some (ErrWrap "handle next client message" e).
Definition agent_error (e : error) : option error :=
  if errors_Is e ErrEOF || errors_Is e ErrCanceled then None
  else Some (ErrWrap "handle next agent message" e).

Definition client_step (t : task) (o : outcome) (s : system) : option (task * system) :=
  let c := s.(shared) in
  match t, o with
  | ClientEnter sock id agent, Proceed =>
      Some (match client_enter agent c with
            | Ok (Some node) => ClientGreet sock id agent node
            | Ok None => ClientJoin sock id agent
            | Err e => Returned (Some e)
            | Panic p => Returned None
            end, s)
  | ClientGreet sock id agent node, Proceed => Some (ClientJoin sock id agent, write sock [node] s)
  | ClientGreet sock id agent node, Failure e => Some (Returned (Some (ErrWrap "write nodes" e)), s)
  | ClientJoin sock id agent, Proceed =>
      Some (ClientRead sock id agent, update_shared (client_join sock id agent c) s)
  | ClientRead sock id agent, Message node =>
      let '(c, agentSocket) := client_message id agent node c in
      Some (match agentSocket with
            | Some agentSocket => ClientForward sock id agent node agentSocket
            | None => ClientRead sock id agent
            end, update_shared c s)
  | ClientRead sock id agent, Failure e =>
      Some (ClientLeave sock id agent (client_error (ErrWrap "read json" e)), s)
  | ClientForward sock id agent node agentSocket, Proceed =>
      Some (ClientRead sock id agent, write agentSocket [node] s)
  | ClientForward sock id agent node agentSocket, Failure e =>
      Some (if errors_Is e ErrEOF then ClientRead sock id agent
            else ClientLeave sock id agent (client_error (ErrWrap "write json" e)), s)
  | ClientLeave sock id agent err, Proceed =>
      Some (Returned err, update_shared (client_leave id agent c) s)
  | _, _ => None
  end.

Definition agent_step (t : task) (o : outcome) (s : system) : option (task * system) :=
  let c := s.(shared) in
  match t, o with
  | AgentEnter sock id, Order ks =>
      match agent_enter id c with
      | Ok (Some l) => if decide (ks ≡ₚ seq 0 (length l))
                       then Some (AgentGreet sock id (omap (l !!.) ks), s) else None
      | Ok None => Some (AgentJoin sock id, s)
      | Err e => Some (Returned (Some e), s)
      | Panic p => None
      end
  | AgentGreet sock id greeting, Proceed => Some (AgentJoin sock id, write sock greeting s)
  | AgentGreet sock id greeting, Failure e => Some (Returned (Some (ErrWrap "write nodes" e)), s)
  | AgentJoin sock id, Proceed =>
      let '(c, oldAgentSocket) := agent_join sock id c in
      Some (AgentRead sock id, update_shared c (s <| shut := s.(shut) ++ option_list oldAgentSocket |>))
  | AgentRead sock id, Message node =>
      let '(c, connectionSockets) := agent_message id node c in
      Some (AgentPublish sock id node connectionSockets, update_shared c s)
  | AgentRead sock id, Failure e => Some (AgentLeave sock id (agent_error (ErrWrap "read json" e)), s)
  | AgentPublish sock id node pending, Pick k failed =>
      match pending !! k with
      | None => None
      | Some target =>
          Some (AgentPublish sock id node (delete k pending), if failed then s else write target [node] s)
      end
  | AgentPublish sock id node [], Proceed => Some (AgentRead sock id, s)
  | AgentLeave sock id err, Proceed => Some (Returned err, update_shared (agent_leave id c) s)
  | _, _ => None
  end.

(** A call begins at its start. *)
Definition starts (t : task) : bool :=
  match t with ClientEnter _ _ _ | AgentEnter _ _ => true | _ => false end.

Definition exec (e : event) (s : system) : option system :=
  match e with
  | Serve i t =>
      match s.(tasks) !! i with
      | None => if starts t then Some (becomes i t s) else None
      | Some _ => None
      end
  | Go i o =>
      t ← s.(tasks) !! i;
      r ← (match client_step t o s with Some r => Some r | None => agent_step t o s end);
      let '(t', s') := r in Some (becomes i t' s')
  | Shutdown =>
      let '(c, sockets) := coordinator_Close s.(shared) in
      Some (update_shared c (s <| shut := s.(shut) ++ sockets |>))
  end.

Fixpoint execs (l : list event) (s : system) : option system :=
  match l with [] => Some s | e :: l => s' ← exec e s; execs l s' end.

Definition idle : system := mkSystem NewCoordinator ∅ [] [].

(** ** Properties *)

Local Close Scope Z_scope.

(** ** What a call holds *)

(** The client a call has registered. *)
Definition client_of (t : task) : option (uuid * uuid * conn) :=
  match t with
  | ClientRead sock id agent | ClientForward sock id agent _ _ | ClientLeave sock id agent _ =>
      Some (agent, id, sock)
  | _ => None
  end.
(** The agent a call serves. *)
Definition agent_of (t : task) : option (uuid * conn) :=
  match t with
  | AgentRead sock id | AgentPublish sock id _ _ | AgentLeave sock id _ => Some (id, sock)
  | _ => None
  end.
(** The client a call is about, until it returns. *)
Definition client_id (t : task) : option uuid :=
  match t with
  | ClientEnter _ id _ | ClientGreet _ id _ _ | ClientJoin _ id _ | ClientRead _ id _
  | ClientForward _ id _ _ _ | ClientLeave _ id _ _ => Some id
  | _ => None
  end.

Definition some_task (s : system) (P : task → Prop) : Prop := ∃ i t, s.(tasks) !! i = Some t ∧ P t.

(** [uuid.New] *)
Definition new_ids (e : event) (s : system) : Prop :=
  match e with
  | Serve _ t => ∀ id, client_id t = Some id → ¬ some_task s (λ u, client_id u = Some id)
  | _ => True
  end.

Definition step (s s' : system) : Prop := ∃ e, exec e s = Some s' ∧ new_ids e s.
Definition reachable : system → Prop := rtc step idle.

Record inv (s : system) : Prop := {
  inv_ids : ∀ i j t u id, s.(tasks) !! i = Some t → s.(tasks) !! j = Some u →
    client_id t = Some id → client_id u = Some id → i = j;
  inv_sockets : ∀ agent id sock, sockets_of agent s.(shared) !! id = Some sock ↔
    some_task s (λ t, client_of t = Some (agent, id, sock));
  inv_nonempty : ∀ agent, s.(shared).(agentToConnectionSockets) !! agent ≠ Some ∅;
  inv_nodes : ∀ k n, s.(shared).(nodes) !! k = Some n →
    some_task s (λ t, (∃ agent sock, client_of t = Some (agent, k, sock)) ∨
                      ∃ sock, agent_of t = Some (k, sock));
  inv_agents : ∀ id sock, s.(shared).(agentSockets) !! id = Some sock →
    some_task s (λ t, agent_of t = Some (id, sock));
}.

(** ** The maps after each section *)

Lemma sockets_of_join sock id agent c agent' :
  sockets_of agent' (client_join sock id agent c) =
    if decide (agent' = agent) then <[id := sock]> (sockets_of agent c) else sockets_of agent' c.
Proof.
  unfold sockets_of at 1, client_join. simpl. case_decide as Heq; [subst; by rewrite lookup_insert_eq|].
  by rewrite lookup_insert_ne.
Qed.
Lemma sockets_of_leave id agent c agent' :
  sockets_of agent' (client_leave id agent c) =
    if decide (agent' = agent) then delete id (sockets_of agent c) else sockets_of agent' c.
Proof.
  unfold client_leave. simpl.
  destruct (agentToConnectionSockets c !! agent) as [m|] eqn:Hm.
  - destruct (decide (delete id m = ∅)) as [He|He].
    + rewrite bool_decide_true by done. unfold sockets_of. simpl.
      case_decide; subst; [by rewrite lookup_delete_eq, Hm|by rewrite lookup_delete_ne].
    + rewrite bool_decide_false by done. unfold sockets_of. simpl.
      case_decide; subst; [by rewrite lookup_insert_eq, Hm|by rewrite lookup_insert_ne].
  - unfold sockets_of. simpl. case_decide; subst; [by rewrite Hm|done].
Qed.
Lemma leave_nonempty id agent c :
  (∀ a, agentToConnectionSockets c !! a ≠ Some ∅) →
  ∀ a, agentToConnectionSockets (client_leave id agent c) !! a ≠ Some ∅.
Proof.
  intros Hc a. unfold client_leave. simpl.
  destruct (agentToConnectionSockets c !! agent) as [m|] eqn:Hm; [|done].
  destruct (decide (delete id m = ∅)) as [He|He].
  - rewrite bool_decide_true by done. simpl. rewrite lookup_delete_Some. naive_solver.
  - rewrite bool_decide_false by done. simpl. rewrite lookup_insert_Some. naive_solver.
Qed.
Lemma leave_maps id agent c :
  nodes (client_leave id agent c) = delete id (nodes c) ∧
  agentSockets (client_leave id agent c) = agentSockets c.
Proof. unfold client_leave. simpl. destruct (_ !! agent); [destruct (negb _)|]; done. Qed.

(** ** The calls after one of them went on *)

Section calls.
Context (s : system) (i : nat) (t : task) (Ht : s.(tasks) !! i = Some t).

(** The other calls. *)
Definition others (P : task → Prop) : Prop := ∃ j u, j ≠ i ∧ s.(tasks) !! j = Some u ∧ P u.

Lemma some_task_split P : some_task s P ↔ P t ∨ others P.
Proof using Ht.
  split.
  - intros (j & u & Hj & HP). destruct (decide (j = i)); [left; congruence|right; by exists j, u].
  - intros [HP|(j & u & _ & Hj & HP)]; [by exists i, t|by exists j, u].
Qed.
Lemma some_task_becomes t' c P :
  some_task (becomes i t' (update_shared c s)) P ↔ P t' ∨ others P.
Proof using Type.
  split.
  - intros (j & u & Hj & HP). cbn in Hj. apply lookup_insert_Some in Hj as [[<- <-]|[Hne Hj]]; [by left|].
    right. exists j, u. naive_solver.
  - intros [HP|(j & u & Hne & Hj & HP)]; [exists i, t'|exists j, u]; (split; [|done]); cbn;
      [by rewrite lookup_insert_eq|by rewrite lookup_insert_ne].
Qed.

Lemma others_unique id : inv s → client_id t = Some id → ¬ others (λ u, client_id u = Some id).
Proof using Ht. intros Hinv Hid (j & u & Hne & Hj & Hu). by apply Hne; eapply (inv_ids s Hinv j i). Qed.

Lemma becomes_ids t' c :
  inv s → (∀ id, client_id t' = Some id → client_id t = Some id) →
  ∀ j1 j2 u1 u2 id, tasks (becomes i t' (update_shared c s)) !! j1 = Some u1 →
    tasks (becomes i t' (update_shared c s)) !! j2 = Some u2 →
    client_id u1 = Some id → client_id u2 = Some id → j1 = j2.
Proof using Ht.
  intros Hinv Hid j1 j2 u1 u2 id H1 H2. cbn in H1, H2.
  apply lookup_insert_Some in H1 as [[<- <-]|[Hn1 H1]], H2 as [[<- <-]|[Hn2 H2]]; intros Hu1 Hu2; [done|..].
  - symmetry. eapply (inv_ids s Hinv); eauto.
  - eapply (inv_ids s Hinv); eauto.
  - eapply (inv_ids s Hinv); eauto.
Qed.
End calls.

(** ** Every step keeps the invariant *)

Lemma client_of_id t agent id sock : client_of t = Some (agent, id, sock) → client_id t = Some id.
Proof. destruct t; naive_solver. Qed.

Lemma inv_ext s s' : inv s → shared s' = shared s → tasks s' = tasks s → inv s'.
Proof.
  intros [] Hsh Hta.
  assert (∀ P, some_task s' P ↔ some_task s P) as Hst by (intros P; unfold some_task; by rewrite Hta).
  split; intros *; rewrite ?Hsh, ?Hta, ?Hst; eauto.
Qed.

Section preserved.
Context (s : system) (i : nat) (t t' : task) (Hinv : inv s) (Ht : s.(tasks) !! i = Some t).
Context (Hid : ∀ id, client_id t' = Some id → client_id t = Some id).

Lemma inv_keep c :
  client_of t' = client_of t → agent_of t' = agent_of t →
  agentSockets c = agentSockets s.(shared) →
  agentToConnectionSockets c = agentToConnectionSockets s.(shared) →
  (∀ k n, nodes c !! k = Some n → nodes s.(shared) !! k = Some n ∨
     (∃ agent sock, client_of t = Some (agent, k, sock)) ∨ ∃ sock, agent_of t = Some (k, sock)) →
  inv (becomes i t' (update_shared c s)).
Proof using Hinv Ht Hid.
  intros Hc Ha Hsock Ha2c Hnodes. split.
  - by eapply becomes_ids.
  - intros agent id sock. rewrite some_task_becomes, Hc, <-(some_task_split s i t Ht
      (λ t, client_of t = Some (agent, id, sock))). simpl.
    unfold sockets_of. rewrite Ha2c. apply (inv_sockets s Hinv).
  - intros agent. simpl. rewrite Ha2c. apply (inv_nonempty s Hinv).
  - intros k n. simpl. intros [Hk%(inv_nodes s Hinv)|Hk]%Hnodes; rewrite some_task_becomes, Hc, Ha;
      [by apply (some_task_split s i t Ht) in Hk|by left].
  - intros id sock. simpl. rewrite Hsock. intros Hk%(inv_agents s Hinv).
    rewrite some_task_becomes, Ha. by apply (some_task_split s i t Ht) in Hk.
Qed.

Lemma inv_client_join sock id agent :
  client_of t = None → client_id t = Some id → agent_of t = None →
  client_of t' = Some (agent, id, sock) → agent_of t' = None →
  inv (becomes i t' (update_shared (client_join sock id agent s.(shared)) s)).
Proof using Hinv Ht Hid.
  intros Hc Hcid Ha Hc' Ha'.
  assert (∀ P, (P t → False) → some_task s P → others s i P) as Hoth.
  { intros P HP. rewrite (some_task_split s i t Ht). tauto. }
  split.
  - by eapply becomes_ids.
  - intros agent1 id1 sock1. rewrite some_task_becomes, Hc'. simpl. rewrite sockets_of_join.
    assert (sockets_of agent1 s.(shared) !! id1 = Some sock1 ↔
            others s i (λ t, client_of t = Some (agent1, id1, sock1))) as Hold.
    { rewrite (inv_sockets s Hinv), (some_task_split s i t Ht), Hc. naive_solver. }
    case_decide as Hag; subst; [|rewrite Hold; naive_solver].
    rewrite lookup_insert_Some, Hold. split; [naive_solver|].
    intros [?|Ho]; [left; naive_solver|]. destruct (decide (id = id1)) as [->|]; [|by right].
    exfalso. apply (others_unique s i t Ht id1 Hinv Hcid).
    destruct Ho as (j & u & ? & ? & ?%client_of_id). by exists j, u.
  - intros agent1. simpl. unfold client_join. simpl. rewrite lookup_insert_Some.
    intros [[_ Hemp]|[_ Hemp]]; [by apply insert_non_empty in Hemp|by eapply inv_nonempty].
  - intros k n Hk%(inv_nodes s Hinv). rewrite some_task_becomes. right. apply Hoth; [|done].
    rewrite Hc, Ha. naive_solver.
  - intros id1 sock1 Hk%(inv_agents s Hinv). rewrite some_task_becomes. right. apply Hoth; [|done].
    by rewrite Ha.
Qed.

Lemma inv_client_leave sock id agent :
  client_of t = Some (agent, id, sock) → agent_of t = None → client_of t' = None → agent_of t' = None →
  inv (becomes i t' (update_shared (client_leave id agent s.(shared)) s)).
Proof using Hinv Ht Hid.
  intros Hc Ha Hc' Ha'. pose proof (client_of_id _ _ _ _ Hc) as Hcid.
  pose proof (leave_maps id agent s.(shared)) as [Hn Hs].
  split.
  - by eapply becomes_ids.
  - intros agent1 id1 sock1. rewrite some_task_becomes, Hc'. simpl. rewrite sockets_of_leave.
    assert (id1 ≠ id → sockets_of agent1 s.(shared) !! id1 = Some sock1 ↔
            others s i (λ t, client_of t = Some (agent1, id1, sock1))) as Hold.
    { intros Hne. rewrite (inv_sockets s Hinv), (some_task_split s i t Ht), Hc. naive_solver. }
    assert (others s i (λ t, client_of t = Some (agent1, id1, sock1)) → id1 ≠ id) as Hne.
    { intros (j & u & ? & ? & ?%client_of_id) ->. apply (others_unique s i t Ht id Hinv Hcid). by exists j, u. }
    case_decide as Hag; subst; [rewrite lookup_delete_Some; naive_solver|].
    destruct (decide (id1 = id)) as [->|Hid1]; [|rewrite Hold by done; naive_solver].
    rewrite (inv_sockets s Hinv), (some_task_split s i t Ht), Hc. naive_solver.
  - apply leave_nonempty, Hinv.
  - intros k n. simpl. rewrite Hn. intros [Hne Hk%(inv_nodes s Hinv)]%lookup_delete_Some.
    rewrite some_task_becomes. right. apply (some_task_split s i t Ht) in Hk as [Hk|Hk]; [|done].
    rewrite Hc, Ha in Hk. naive_solver.
  - intros id1 sock1. simpl. rewrite Hs. intros Hk%(inv_agents s Hinv). rewrite some_task_becomes. right.
    apply (some_task_split s i t Ht) in Hk as [Hk|Hk]; [|done]. by rewrite Ha in Hk.
Qed.

Lemma inv_agent_join sock id :
  client_of t = None → agent_of t = None → client_of t' = None → agent_of t' = Some (id, sock) →
  inv (becomes i t' (update_shared (agent_join sock id s.(shared)).1 s)).
Proof using Hinv Ht Hid.
  intros Hc Ha Hc' Ha'.
  split.
  - by eapply becomes_ids.
  - intros agent1 id1 sock1. rewrite some_task_becomes, Hc'. simpl.
    change (sockets_of agent1 _) with (sockets_of agent1 s.(shared)).
    rewrite (inv_sockets s Hinv), (some_task_split s i t Ht), Hc. naive_solver.
  - apply Hinv.
  - intros k n Hk%(inv_nodes s Hinv). rewrite some_task_becomes. right.
    apply (some_task_split s i t Ht) in Hk as [Hk|Hk]; [|done]. rewrite Hc, Ha in Hk. naive_solver.
  - intros id1 sock1. simpl. rewrite some_task_becomes, Ha'.
    intros [[-> ->]|[_ Hk%(inv_agents s Hinv)]]%lookup_insert_Some; [by left|right].
    apply (some_task_split s i t Ht) in Hk as [Hk|Hk]; [by rewrite Ha in Hk|done].
Qed.

Lemma inv_agent_leave sock id :
  client_of t = None → agent_of t = Some (id, sock) → client_of t' = None → agent_of t' = None →
  inv (becomes i t' (update_shared (agent_leave id s.(shared)) s)).
Proof using Hinv Ht Hid.
  intros Hc Ha Hc' Ha'.
  split.
  - by eapply becomes_ids.
  - intros agent1 id1 sock1. rewrite some_task_becomes, Hc'. simpl.
    change (sockets_of agent1 _) with (sockets_of agent1 s.(shared)).
    rewrite (inv_sockets s Hinv), (some_task_split s i t Ht), Hc. naive_solver.
  - apply Hinv.
  - intros k n. simpl. intros [Hne Hk%(inv_nodes s Hinv)]%lookup_delete_Some. rewrite some_task_becomes. right.
    apply (some_task_split s i t Ht) in Hk as [Hk|Hk]; [|done]. rewrite Hc, Ha in Hk. naive_solver.
  - intros id1 sock1. simpl. rewrite some_task_becomes.
    intros [Hne Hk%(inv_agents s Hinv)]%lookup_delete_Some. right.
    apply (some_task_split s i t Ht) in Hk as [Hk|Hk]; [|done]. rewrite Ha in Hk. naive_solver.
Qed.
End preserved.

Lemma inv_same s i t t' s1 :
  inv s → s.(tasks) !! i = Some t → (∀ id, client_id t' = Some id → client_id t = Some id) →
  client_of t' = client_of t → agent_of t' = agent_of t →
  shared s1 = shared s → tasks s1 = tasks s → inv (becomes i t' s1).
Proof.
  intros Hinv Ht Hid Hc Ha Hsh Hta. apply inv_ext with (becomes i t' (update_shared s.(shared) s)).
  - apply (inv_keep s i t); auto.
  - done.
  - unfold becomes. simpl. by rewrite Hta.
Qed.
Ltac same := eapply inv_same; [eassumption|eassumption|try done; naive_solver|done..].

Lemma client_step_inv s i t o t' s1 :
  inv s → s.(tasks) !! i = Some t → client_step t o s = Some (t', s1) → inv (becomes i t' s1).
Proof.
  intros Hinv Ht Hstep. destruct t, o; simplify_eq/=.
  - unfold client_enter. destruct (closed _); [|destruct (_ !! agent)]; same.
  - same.
  - same.
  - by apply (inv_client_join s i _ _ Hinv Ht).
  - same.
  - destruct (agentSockets _ !! agent); apply (inv_keep s i _ _ Hinv Ht); try done;
    simpl; intros k node1 [[-> _]|[_ ?]]%lookup_insert_Some; eauto 6.
  - same.
  - destruct (errors_Is _ _); same.
  - by eapply (inv_client_leave s i _ _ Hinv Ht).
Qed.

Lemma agent_step_inv s i t o t' s1 :
  inv s → s.(tasks) !! i = Some t → agent_step t o s = Some (t', s1) → inv (becomes i t' s1).
Proof.
  intros Hinv Ht Hstep. destruct t, o; simplify_eq/=; try (repeat case_match; simplify_eq; same).
  - by apply inv_ext with (1 := inv_agent_join s i _ (AgentRead sock id) Hinv Ht ltac:(done)
                                  sock id eq_refl eq_refl eq_refl eq_refl).
  - apply (inv_keep s i _ _ Hinv Ht); try done.
    simpl. intros k n [[-> _]|[_ ?]]%lookup_insert_Some; eauto 6.
  - by eapply (inv_agent_leave s i _ _ Hinv Ht).
Qed.

Lemma inv_serve s i t :
  inv s → s.(tasks) !! i = None → starts t = true → new_ids (Serve i t) s → inv (becomes i t s).
Proof.
  intros Hinv Hi Hst Hnew.
  assert (client_of t = None ∧ agent_of t = None) as [Hc Ha] by by destruct t.
  assert (∀ P, some_task (becomes i t s) P ↔ P t ∨ some_task s P) as Hsome.
  { intros P. split.
    - intros (j & u & Hj & HP). cbn in Hj. apply lookup_insert_Some in Hj as [[<- <-]|[_ Hj]]; [by left|].
      right. by exists j, u.
    - intros [HP|(j & u & Hj & HP)]; [exists i, t|exists j, u]; (split; [|done]); cbn;
        [by rewrite lookup_insert_eq|]. rewrite lookup_insert_ne; congruence. }
  split.
  - intros j1 j2 u1 u2 id H1 H2. cbn in H1, H2.
    apply lookup_insert_Some in H1 as [[<- <-]|[Hn1 H1]], H2 as [[<- <-]|[Hn2 H2]]; intros Hu1 Hu2; [done|..].
    + exfalso. apply (Hnew id Hu1). by exists j2, u2.
    + exfalso. apply (Hnew id Hu2). by exists j1, u1.
    + eapply (inv_ids s Hinv); eauto.
  - intros agent id sock. rewrite Hsome, Hc, (inv_sockets s Hinv). naive_solver.
  - apply Hinv.
  - intros k n Hk%(inv_nodes s Hinv). rewrite Hsome. by right.
  - intros id sock Hk%(inv_agents s Hinv). rewrite Hsome. by right.
Qed.

Lemma exec_inv e s s' : inv s → exec e s = Some s' → new_ids e s → inv s'.
Proof.
  intros Hinv Hex Hnew. destruct e as [i t|i o|]; simpl in Hex.
  - destruct (tasks s !! i) eqn:Hi; [done|]. destruct (starts t) eqn:Hst; simplify_eq.
    by apply inv_serve.
  - destruct (tasks s !! i) as [t|] eqn:Ht; [|done]. simpl in Hex.
    destruct (client_step t o s) as [[t' s1]|] eqn:Hc; simplify_eq/=; [by eapply client_step_inv|].
    destruct (agent_step t o s) as [[t' s1]|] eqn:Ha; simplify_eq/=. by eapply agent_step_inv.
  - unfold coordinator_Close in Hex. destruct (closed _); simplify_eq; [by eapply inv_ext|].
    destruct Hinv. by split.
Qed.

Lemma idle_inv : inv idle.
Proof.
  assert (∀ P, ¬ some_task idle P) as Hno by by intros P (i & t & Hi & _).
  split; try done. intros agent id sock. split; [done|]. by intros ?%Hno.
Qed.

Lemma reachable_inv s : reachable s → inv s.
Proof.
  intros Hr. apply (rtc_ind_r (R := step) inv idle); [apply idle_inv| |done].
  intros s1 s2 _ (e & He & Hnew) Hinv. by eapply exec_inv.
Qed.

(** ** What it gives *)

(** C31: the coordinator keeps nothing of the calls that have returned. In every
    interleaving of clients and agents that come, send, fail and go, once all calls
    have returned the maps of the coordinator are empty again. *)
Theorem coordinator_cleans_up (s : system) (Hr : reachable s)
    (Hall : ∀ i t, s.(tasks) !! i = Some t → ∃ err, t = Returned err) :
  s.(shared).(nodes) = ∅ ∧ s.(shared).(agentSockets) = ∅ ∧ s.(shared).(agentToConnectionSockets) = ∅.
Proof.
  apply reachable_inv in Hr as Hinv.
  assert (∀ P, (∀ err, ¬ P (Returned err)) → ¬ some_task s P) as Hno.
  { intros P HP (i & t & [err ->]%Hall & Ht). by eapply HP. }
  split_and!; apply map_empty; intros k.
  - destruct (_ !! k) eqn:Hk; [|done]. apply (inv_nodes s Hinv), Hno in Hk; naive_solver.
  - destruct (_ !! k) eqn:Hk; [|done]. apply (inv_agents s Hinv), Hno in Hk; naive_solver.
  - destruct (_ !! k) as [m|] eqn:Hk; [|done]. exfalso. apply (inv_nonempty s Hinv k). rewrite Hk. f_equal.
    apply map_empty. intros id. destruct (m !! id) as [sock|] eqn:Hm; [|done].
    assert (sockets_of k s.(shared) !! id = Some sock) as Hs by (unfold sockets_of; by rewrite Hk).
    apply (inv_sockets s Hinv), Hno in Hs; naive_solver.
Qed.

(** An update of an agent goes to exactly the clients being served for it. When
    a call of [ServeAgent] reads a node, the sockets it publishes the node to are
    those of the clients of the agent whose calls have registered and not returned,
    and it reads on only when it has tried each of them. *)
Theorem publish_reaches_clients (s s' : system) (i : nat) (sock : conn) (id : uuid) (node : Node)
    (Hr : reachable s) (Ht : s.(tasks) !! i = Some (AgentRead sock id))
    (Hread : exec (Go i (Message node)) s = Some s') :
  ∃ pending,
    s'.(tasks) !! i = Some (AgentPublish sock id node pending) ∧
    s'.(shared).(nodes) !! id = Some node ∧
    (∀ target, target ∈ pending ↔ ∃ client, some_task s (λ t, client_of t = Some (id, client, target))) ∧
    (∀ o s1, exec (Go i o) s' = Some s1 → s1.(tasks) !! i = Some (AgentRead sock id) → pending = []).
Proof.
  apply reachable_inv in Hr as Hinv. simpl in Hread. rewrite Ht in Hread. simplify_eq/=.
  eexists. split_and!.
  - by rewrite lookup_insert_eq.
  - by rewrite lookup_insert_eq.
  - intros target. rewrite list_elem_of_fmap. split.
    + intros ([client ?] & -> & Hin%elem_of_map_to_list). exists client. by apply (inv_sockets s Hinv).
    + intros [client Hc%(inv_sockets s Hinv)]. exists (client, target). by rewrite elem_of_map_to_list.
  - intros o s1. rewrite lookup_insert_eq. simpl. destruct ((map_to_list _).*2) as [|x l]; [done|].
    destruct o; simpl; try done. destruct ((x :: l) !! k); [|done]. simpl. intros [= <-]. simpl.
    by rewrite lookup_insert_eq.
Qed.

(** ** One call per agent *)

(** The agent a call is about, until it returns. *)
Definition agent_id (t : task) : option uuid :=
  match t with
  | AgentEnter _ id | AgentGreet _ id _ | AgentJoin _ id | AgentRead _ id
  | AgentPublish _ id _ _ | AgentLeave _ id _ => Some id
  | _ => None
  end.

(** The comment of [ServeAgent]: one agent is running. *)
Definition exclusive (s : system) : Prop := ∀ i j t u id,
  s.(tasks) !! i = Some t → s.(tasks) !! j = Some u →
  agent_id t = Some id → agent_id u = Some id → i = j.

Definition lone : system → Prop := rtc (λ s s', step s s' ∧ exclusive s ∧ exclusive s') idle.

Definition all_registered (s : system) : Prop := ∀ i t id sock,
  s.(tasks) !! i = Some t → agent_of t = Some (id, sock) → s.(shared).(agentSockets) !! id = Some sock.

Lemma agent_of_id t id sock : agent_of t = Some (id, sock) → agent_id t = Some id.
Proof. destruct t; naive_solver. Qed.

(** What a step does to the sockets of the agents. *)
Lemma step_sockets s t o t' s1 :
  client_step t o s = Some (t', s1) ∨ agent_step t o s = Some (t', s1) →
  tasks s1 = tasks s ∧
  (∀ id, agent_id t ≠ Some id → s1.(shared).(agentSockets) !! id = s.(shared).(agentSockets) !! id) ∧
  (∀ id sock, agent_of t' = Some (id, sock) →
     s1.(shared).(agentSockets) !! id = Some sock ∨
     agent_of t = Some (id, sock) ∧ s1.(shared).(agentSockets) = s.(shared).(agentSockets)).
Proof.
  intros [Hs|Hs]; destruct t, o; simplify_eq/=;
    try (repeat case_match; simplify_eq/=; (split_and!; [done|done|naive_solver])).
  - destruct (leave_maps id agent s.(shared)) as [_ ->]. split_and!; done.
  - split_and!; [done|..].
    + intros id1 Hne. rewrite lookup_insert_ne; [done|congruence].
    + intros id1 sock1 [= <- <-]. left. by rewrite lookup_insert_eq.
  - split_and!; [done| |done]. intros id1 Hne. rewrite lookup_delete_ne; [done|congruence].
Qed.

Lemma exec_registered e s s' :
  exclusive s → all_registered s → exec e s = Some s' → all_registered s'.
Proof.
  intros Hex Hall Hrun. destruct e as [i t|i o|]; simpl in Hrun.
  - destruct (tasks s !! i) eqn:Hi; [done|]. destruct (starts t) eqn:Hst; simplify_eq.
    intros j u id sock Hj Hu. cbn in Hj.
    apply lookup_insert_Some in Hj as [[<- <-]|[_ Hj]]; [by destruct t|by eapply Hall].
  - destruct (tasks s !! i) as [t|] eqn:Ht; [|done]. simpl in Hrun.
    destruct (match client_step t o s with Some r => Some r | None => agent_step t o s end)
      as [[t' s1]|] eqn:Hr; simplify_eq/=.
    assert (client_step t o s = Some (t', s1) ∨ agent_step t o s = Some (t', s1)) as Hstep.
    { destruct (client_step t o s); simplify_eq; auto. }
    apply step_sockets in Hstep as (Hta & Hother & Hown). intros j u id sock Hj Hu. cbn in Hj |- *.
    rewrite Hta in Hj. apply lookup_insert_Some in Hj as [[<- <-]|[Hne Hj]].
    + destruct (Hown id sock Hu) as [?|[Ht' ->]]; [done|by eapply Hall].
    + rewrite Hother; [by eapply Hall|]. intros Hid. apply Hne.
      eapply Hex; eauto using agent_of_id.
  - unfold coordinator_Close in Hrun. destruct (closed _); simplify_eq; exact Hall.
Qed.

Lemma lone_registered s : lone s → reachable s ∧ all_registered s.
Proof.
  intros Hr. apply (rtc_ind_r (R := λ s s', step s s' ∧ exclusive s ∧ exclusive s')
    (λ s, reachable s ∧ all_registered s) idle); [|  |done].
  - split; [apply rtc_refl|done].
  - intros s1 s2 _ ((e & He & Hnew) & Hex & _) [Hreach Hreg]. split.
    + eapply rtc_r; [done|]. by exists e.
    + by eapply exec_registered.
Qed.

(** With one call of [ServeAgent] per agent at a time, what a client sends is
    written to its agent. When the call of a client reads a node and a call serves
    its agent, the node is stored and then written to that call's socket, and to no
    other one. *)
Theorem client_reaches_agent (s : system) (i j : nat) (sock asock : conn) (id agent : uuid) (t : task)
    (node : Node) (Hr : lone s) (Hi : s.(tasks) !! i = Some (ClientRead sock id agent))
    (Hj : s.(tasks) !! j = Some t) (Ht : agent_of t = Some (agent, asock)) :
  ∃ s1 s2, exec (Go i (Message node)) s = Some s1 ∧ exec (Go i Proceed) s1 = Some s2 ∧
    s2.(shared).(nodes) !! id = Some node ∧ s2.(tasks) !! i = Some (ClientRead sock id agent) ∧
    s2.(written) = s.(written) ++ [(asock, [node])].
Proof.
  apply lone_registered in Hr as [_ Hreg]. specialize (Hreg j t agent asock Hj Ht).
  eexists _, _. split_and!.
  - simpl. rewrite Hi. simpl. rewrite Hreg. reflexivity.
  - simpl. rewrite lookup_insert_eq. reflexivity.
  - simpl. by rewrite lookup_insert_eq.
  - simpl. by rewrite lookup_insert_eq.
  - done.
Qed.

(** ** Runs *)

Module CoordinatorExamples.

Definition node (n : Z) : Node := mkNode n 0 EmptyString EmptyString 0 [] [] [] [].

(** Runs in which the IDs of clients are new and agents are alone. *)
Definition new_idsb (e : event) (s : system) : bool :=
  match e with
  | Serve _ t => match client_id t with
                 | None => true
                 | Some id => bool_decide (map_Forall (λ _ u, client_id u ≠ Some id) s.(tasks))
                 end
  | _ => true
  end.
Definition exclusiveb (s : system) : bool :=
  bool_decide (map_Forall (λ i t, map_Forall (λ j u,
    agent_id t = None ∨ agent_id t ≠ agent_id u ∨ i = j) s.(tasks)) s.(tasks)).
Fixpoint lone_run (l : list event) (s : system) : option system :=
  match l with
  | [] => Some s
  | e :: l => if new_idsb e s && exclusiveb s then
                s' ← exec e s; if exclusiveb s' then lone_run l s' else None
              else None
  end.

Lemma new_idsb_sound e s : new_idsb e s = true → new_ids e s.
Proof.
  destruct e as [i t| |]; simpl; [|done..]. intros Hb id Hid (j & u & Hj & Hu).
  rewrite Hid in Hb. apply bool_decide_eq_true in Hb. by apply (Hb j u Hj).
Qed.
Lemma exclusiveb_sound s : exclusiveb s = true → exclusive s.
Proof.
  intros Hb%bool_decide_eq_true i j t u id Hi Hj Ht Hu.
  destruct (Hb i t Hi j u Hj) as [?|[?|?]]; congruence.
Qed.
Lemma lone_run_sound l s s' : lone s → lone_run l s = Some s' → lone s'.
Proof.
  revert s. induction l as [|e l IH]; intros s Hs Hl; simplify_eq/=; [done|].
  destruct (new_idsb e s) eqn:Hn, (exclusiveb s) eqn:Hx; simplify_eq/=.
  destruct (exec e s) as [s1|] eqn:He; simplify_eq/=. destruct (exclusiveb s1) eqn:Hx1; simplify_eq/=.
  apply (IH s1); [|done]. eapply rtc_r; [done|].
  split; [exists e; auto using new_idsb_sound|auto using exclusiveb_sound].
Qed.
Lemma lone_run_lone l s : lone_run l idle = Some s → lone s.
Proof. apply lone_run_sound, rtc_refl. Qed.
Lemma lone_run_reachable l s : lone_run l idle = Some s → reachable s.
Proof. intros Hl%lone_run_lone. by apply lone_registered. Qed.

(** An agent that connects and serves, and one that also publishes and leaves. *)
Definition serve : list event := [Serve 0 (AgentEnter 10 1); Go 0 (Order []); Go 0 Proceed].
Definition visit : list event :=
  serve ++ [Go 0 (Message (node 5)); Go 0 Proceed; Go 0 (Failure ErrEOF); Go 0 Proceed].
(** The agent, and a client of it. *)
Definition meet : list event := serve ++ [Serve 1 (ClientEnter 20 2 1); Go 1 Proceed; Go 1 Proceed].

Definition after (l : list event) : system := default idle (lone_run l idle).

Lemma coordinator_cleans_up_witness :
  tasks (after visit) !! 0%nat = Some (Returned None) ∧ agentSockets (after visit).(shared) = ∅.
Proof.
  split; [vm_compute; reflexivity|]. apply (coordinator_cleans_up (after visit)).
  - apply (lone_run_reachable visit). vm_compute. reflexivity.
  - assert (map_Forall (λ _ t, t = Returned None) (tasks (after visit))) as Hall.
    { change (tasks (after visit)) with ({[0%nat := Returned None]} : gmap nat task).
      by apply map_Forall_singleton. }
    intros i t Hi. exists None. by apply (Hall i t).
Defined.

Lemma publish_reaches_clients_witness :
  ∃ s' pending, exec (Go 0 (Message (node 5))) (after meet) = Some s' ∧ 20%N ∈ pending ∧
    s'.(tasks) !! 0%nat = Some (AgentPublish 10 1 (node 5) pending).
Proof.
  destruct (exec (Go 0 (Message (node 5))) (after meet)) as [s'|] eqn:He; [|by vm_compute in He].
  destruct (publish_reaches_clients (after meet) s' 0 10 1 (node 5)) as (pending & Hp & _ & Hc & _).
  - apply (lone_run_reachable meet). vm_compute. reflexivity.
  - vm_compute. reflexivity.
  - exact He.
  - exists s', pending. split; [done|]. split; [|exact Hp]. apply Hc. exists 2%N, 1%nat, (ClientRead 20 2 1).
    split; vm_compute; reflexivity.
Defined.

Lemma client_reaches_agent_witness :
  ∃ s1 s2, exec (Go 1 (Message (node 7))) (after meet) = Some s1 ∧ exec (Go 1 Proceed) s1 = Some s2 ∧
    s2.(written) = [(10%N, [node 7])].
Proof.
  destruct (client_reaches_agent (after meet) 1 0 20 10 2 1 (AgentRead 10 1) (node 7))
    as (s1 & s2 & H1 & H2 & _ & _ & H3).
  - apply (lone_run_lone meet). vm_compute. reflexivity.
  - vm_compute. reflexivity.
  - vm_compute. reflexivity.
  - vm_compute. reflexivity.
  - exists s1, s2. split; [exact H1|]. split; [exact H2|]. rewrite H3. vm_compute. reflexivity.
Defined.

(** An agent that connects again while its old call is still served: the old call
    takes the registration of the new one with it, and nothing a client sends
    reaches the agent any more. *)
Example reconnect_lost :
  ∃ s, execs (serve ++ [Serve 1 (AgentEnter 11 1); Go 1 (Order []); Go 1 Proceed;
                        Go 0 (Failure ErrEOF); Go 0 Proceed]) idle = Some s ∧
    s.(tasks) !! 1%nat = Some (AgentRead 11 1) ∧ agentSockets s.(shared) !! 1%N = None.
Proof. eexists. split; [vm_compute; reflexivity|]. split; vm_compute; reflexivity. Qed.

(** A client is greeted with a node that the agent replaces before the client has
    registered: the client is served without ever hearing of the new node. *)
Example greeting_stale :
  ∃ s, lone_run (serve ++ [Go 0 (Message (node 5)); Go 0 Proceed; Serve 1 (ClientEnter 20 2 1); Go 1 Proceed;
                        Go 0 (Message (node 6)); Go 0 Proceed; Go 1 Proceed; Go 1 Proceed]) idle = Some s ∧
    nodes s.(shared) !! 1%N = Some (node 6) ∧ s.(written) = [(20%N, [node 5])] ∧
    s.(tasks) !! 1%nat = Some (ClientRead 20 2 1) ∧ s.(tasks) !! 0%nat = Some (AgentRead 10 1).
Proof. eexists. split; [vm_compute; reflexivity|]. split_and!; vm_compute; reflexivity. Qed.
End CoordinatorExamples.
