(* ===== verification/Encoding.v ===== *)
(** * Text encodings

    What the program uses of Go's [strconv], [encoding/base64], [encoding/hex]
    and of [strings] beyond the prelude: decimal integers, the unpadded standard
    base64 alphabet, hexadecimal, and splitting at a separator. *)

From Stdlib Require Import Ascii String Strings.Byte.
From stdpp Require Import prelude strings pretty.
From S2P Require Import Prelude.

Local Open Scope N_scope.

Definition byte_of (n : N) : Byte.byte := default x00 (Byte.of_N (n mod 256)).

Lemma byte_of_to_N b : byte_of (Byte.to_N b) = b.
Proof.
  unfold byte_of. pose proof (Byte.to_N_bounded b).
  rewrite N.mod_small by lia. by rewrite Byte.of_to_N.
Qed.

(** [[]byte(s)] and [string(b)] *)
Definition bytes_of (s : string) : list Byte.byte := String.list_byte_of_string s.
Definition string_of (b : list Byte.byte) : string := String.string_of_list_byte b.

Lemma string_of_bytes_of s : string_of (bytes_of s) = s.
Proof. apply String.string_of_list_byte_of_string. Qed.

(** ** [strconv] *)

Definition dec_digit (c : ascii) : option N :=
  let n := N_of_ascii c in
  if (48 <=? n) && (n <=? 57) then Some (n - 48) else None.

Fixpoint digits (s : string) (acc : N) : option N :=
  match s with
  | EmptyString => Some acc
  | String c s =>
      match dec_digit c with Some d => digits s (10 * acc + d) | None => None end
  end.

Definition syntax_error (fn s : string) : error :=
  ErrNew ("strconv." +:+ fn +:+ ": parsing " +:+ quote s +:+ ": invalid syntax").
Definition range_error (fn s : string) : error :=
  ErrNew ("strconv." +:+ fn +:+ ": parsing " +:+ quote s +:+ ": value out of range").

(** An optional sign, at least one digit, and the range of [bits] bits. *)
Definition parse_int (fn : string) (bits : Z) (s : string) : res Z :=
  let '(neg, body) :=
    match s with
    | String "-" s' => (true, s')
    | String "+" s' => (false, s')
    | _ => (false, s)
    end in
  match body with
  | EmptyString => Err (syntax_error fn s)
  | _ =>
      match digits body 0 with
      | None => Err (syntax_error fn s)
      | Some n =>
          let z := if (neg : bool) then (- Z.of_N n)%Z else Z.of_N n in
          if bool_decide (- 2 ^ (bits - 1) <= z < 2 ^ (bits - 1))%Z then Ok z
          else Err (range_error fn s)
      end
  end.

(** [strconv.Atoi], and [strconv.ParseInt] in base 10. *)
Definition Atoi (s : string) : res Z := parse_int "Atoi" 64 s.
Definition ParseInt (s : string) (bits : Z) : res Z := parse_int "ParseInt" bits s.

(** [strconv.Itoa], [%d] *)
Definition Itoa (z : Z) : string := pretty z.

(** ** [strings] *)

(** [strings.SplitN] at a one-character separator, for a positive count: the last
    part keeps the rest of the text. *)
Fixpoint SplitN (n : nat) (s : string) (sep : ascii) {struct s} : list string :=
  match s with
  | EmptyString => [EmptyString]
  | String c s' =>
      if bool_decide (c = sep) && Nat.ltb 1 n then EmptyString :: SplitN (pred n) s' sep
      else match SplitN n s' sep with
           | [] => [String c EmptyString]
           | p :: ps => String c p :: ps
           end
  end.

Fixpoint has_char (c : ascii) (s : string) : bool :=
  match s with EmptyString => false | String c' s => bool_decide (c' = c) || has_char c s end.

Lemma SplitN_last s sep : SplitN 1 s sep = [s].
Proof. induction s as [|c s IH]; [done|]. simpl. by rewrite andb_false_r, IH. Qed.

Lemma SplitN_cons n a b sep : has_char sep a = false →
  SplitN (S (S n)) (a +:+ String sep b) sep = a :: SplitN (S n) b sep.
Proof.
  induction a as [|c a IH]; simpl; intros Hc; [by rewrite bool_decide_eq_true_2|].
  apply orb_false_iff in Hc as [Hc Ha]. rewrite Hc. simpl. by rewrite IH.
Qed.

Lemma Split_cons a b sep : has_char sep a = false →
  Split (a +:+ String sep b) sep = a :: Split b sep.
Proof.
  induction a as [|c a IH]; simpl; intros Hc; [by rewrite bool_decide_eq_true_2|].
  apply orb_false_iff in Hc as [Hc Ha]. rewrite Hc. by rewrite IH.
Qed.

Lemma Split_whole a sep : has_char sep a = false → Split a sep = [a].
Proof.
  induction a as [|c a IH]; simpl; intros Hc; [done|].
  apply orb_false_iff in Hc as [Hc Ha]. rewrite Hc. by rewrite IH.
Qed.

Lemma has_char_app c a b : has_char c (a +:+ b) = has_char c a || has_char c b.
Proof. induction a as [|d a IH]; [done|]. simpl. by rewrite IH, orb_assoc. Qed.

Lemma has_char_list c s : has_char c s = bool_decide (c ∈ String.list_ascii_of_string s).
Proof.
  induction s as [|d s IH]; [done|]. simpl. rewrite IH.
  repeat case_bool_decide; simpl; set_solver.
Qed.

(** ** [base64.RawStdEncoding] *)

Definition b64_alphabet : string :=
  "ABCDEFGHIJKLMNOPQRSTUVWXYZabcdefghijklmnopqrstuvwxyz0123456789+/".
Definition b64_char (n : N) : ascii := default "A"%char (String.get (N.to_nat n) b64_alphabet).
Definition b64_val (c : ascii) : option N :=
  let n := N_of_ascii c in
  if (65 <=? n) && (n <=? 90) then Some (n - 65)
  else if (97 <=? n) && (n <=? 122) then Some (n - 71)
  else if (48 <=? n) && (n <=? 57) then Some (n + 4)
  else if n =? 43 then Some 62 else if n =? 47 then Some 63 else None.

Fixpoint b64_encode (l : list Byte.byte) : string :=
  match l with
  | [] => EmptyString
  | [a] =>
      let a := Byte.to_N a in
      String (b64_char (a / 4)) (String (b64_char (a mod 4 * 16)) EmptyString)
  | [a; b] =>
      let a := Byte.to_N a in let b := Byte.to_N b in
      String (b64_char (a / 4)) (String (b64_char (a mod 4 * 16 + b / 16))
        (String (b64_char (b mod 16 * 4)) EmptyString))
  | a :: b :: c :: l =>
      let a := Byte.to_N a in let b := Byte.to_N b in let c := Byte.to_N c in
      String (b64_char (a / 4)) (String (b64_char (a mod 4 * 16 + b / 16))
        (String (b64_char (b mod 16 * 4 + c / 64)) (String (b64_char (c mod 64))
          (b64_encode l))))
  end.

(** The values of the characters; line ends are skipped. *)
Fixpoint b64_values (s : string) : option (list N) :=
  match s with
  | EmptyString => Some []
  | String c s =>
      if (N_of_ascii c =? 10) || (N_of_ascii c =? 13) then b64_values s else
      match b64_val c, b64_values s with
      | Some v, Some vs => Some (v :: vs)
      | _, _ => None
      end
  end.

Fixpoint b64_bytes (l : list N) : option (list Byte.byte) :=
  match l with
  | [] => Some []
  | [w; x] => Some [byte_of (w * 4 + x / 16)]
  | [w; x; y] => Some [byte_of (w * 4 + x / 16); byte_of (x mod 16 * 16 + y / 4)]
  | w :: x :: y :: z :: l =>
      match b64_bytes l with
      | Some bs =>
          Some (byte_of (w * 4 + x / 16) :: byte_of (x mod 16 * 16 + y / 4)
                  :: byte_of (y mod 4 * 64 + z) :: bs)
      | None => None
      end
  | [_] => None
  end.

Definition b64_decode (s : string) : option (list Byte.byte) :=
  match b64_values s with Some l => b64_bytes l | None => None end.

(** [base64.StdEncoding.DecodeString]: groups of four characters, the last one padded. *)
Definition b64std_decode (s : string) : option (list Byte.byte) :=
  let l := filter (λ c, negb ((N_of_ascii c =? 10) || (N_of_ascii c =? 13)) = true) (String.list_ascii_of_string s) in
  if negb (Nat.eqb (length l mod 4) 0) then None
  else b64_decode (String.string_of_list_ascii
         (match reverse l with
          | "="%char :: "="%char :: l => reverse l
          | "="%char :: l => reverse l
          | _ => l
          end)).

Lemma b64_char_facts n : n < 64 →
  b64_val (b64_char n) = Some n ∧ (N_of_ascii (b64_char n) =? 10) = false ∧
  (N_of_ascii (b64_char n) =? 13) = false ∧ b64_char n ≠ "$"%char.
Proof.
  intros Hn. rewrite <-(N2Nat.id n). assert (N.to_nat n < 64)%nat as Hlt by lia.
  revert Hlt. generalize (N.to_nat n) as k. clear n Hn. intros k Hk.
  do 64 (destruct k as [|k]; [vm_compute; repeat split; discriminate|]). lia.
Qed.

Lemma b64_values_char n s : n < 64 →
  b64_values (String (b64_char n) s) = cons n <$> b64_values s.
Proof.
  intros Hn. destruct (b64_char_facts n Hn) as (Hv & H1 & H2 & _).
  simpl. rewrite H1, H2, Hv. simpl. by destruct (b64_values s).
Qed.

Lemma byte_of_eq n b : n = Byte.to_N b → byte_of n = b.
Proof. intros ->. apply byte_of_to_N. Qed.

(** Linear arithmetic with division by constants. *)
Ltac dlia := zify; Z.to_euclidean_division_equations; lia.

(** Three bytes at a time. *)
Lemma list_ind3 {A} (P : list A → Prop) :
  P [] → (∀ a, P [a]) → (∀ a b, P [a; b]) →
  (∀ a b c l, P l → P (a :: b :: c :: l)) → ∀ l, P l.
Proof.
  intros H0 H1 H2 H3 l. remember (length l) as n eqn:Hn. revert l Hn.
  induction (lt_wf n) as [n _ IH]. intros [|a [|b [|c l]]] ->; [done..|].
  apply H3, (IH (length l)); [simpl; lia|done].
Qed.

(** Decoding inverts encoding. *)
Lemma b64_decode_encode l : b64_decode (b64_encode l) = Some l.
Proof.
  unfold b64_decode. induction l as [|a|a b|a b c l IH] using list_ind3; [done|..];
    try pose proof (Byte.to_N_bounded a); try pose proof (Byte.to_N_bounded b);
    try pose proof (Byte.to_N_bounded c); cbn [b64_encode];
    rewrite !b64_values_char by dlia.
  - simpl. by rewrite (byte_of_eq _ a) by dlia.
  - simpl. by rewrite (byte_of_eq _ a), (byte_of_eq _ b) by dlia.
  - destruct (b64_values (b64_encode l)) as [vs|]; [|done]. simpl in IH |- *. rewrite IH.
    by rewrite (byte_of_eq _ a), (byte_of_eq _ b), (byte_of_eq _ c) by dlia.
Qed.

(** [base64.RawURLEncoding]: the standard alphabet with two characters
    exchanged. *)
Definition url_char (c : ascii) : ascii :=
  if c == "-"%char then "+"%char else if c == "_"%char then "/"%char
  else if (c == "+"%char) || (c == "/"%char) then "*"%char else c.
Definition to_url_char (c : ascii) : ascii :=
  if c == "+"%char then "-"%char else if c == "/"%char then "_"%char else c.
Fixpoint map_string (f : ascii → ascii) (s : string) : string :=
  match s with EmptyString => EmptyString | String c s => String (f c) (map_string f s) end.
Definition b64url_decode (s : string) : option (list Byte.byte) := b64_decode (map_string url_char s).
Definition b64url_encode (l : list Byte.byte) : string := map_string to_url_char (b64_encode l).

(** The encoder keeps to its alphabet. *)
Lemma get_has_char n s c : String.get n s = Some c → has_char c s = true.
Proof.
  revert n. induction s as [|d s IH]; intros [|n] Hn; simpl in *; [done..| |].
  - injection Hn as ->. by rewrite bool_decide_eq_true_2.
  - rewrite (IH _ Hn). apply orb_true_r.
Qed.
Lemma b64_char_alphabet n : has_char (b64_char n) b64_alphabet = true.
Proof. unfold b64_char. destruct (String.get _ _) as [c|] eqn:Hc; [by eapply get_has_char|done]. Qed.
Lemma b64_encode_alphabet c l : has_char c b64_alphabet = false → has_char c (b64_encode l) = false.
Proof.
  intros Hc. assert (∀ n, bool_decide (b64_char n = c) = false) as Hn.
  { intros n. apply bool_decide_eq_false_2. intros <-. by rewrite b64_char_alphabet in Hc. }
  induction l as [|a|a b|a b d l IH] using list_ind3; cbn [b64_encode has_char]; by rewrite ?Hn, ?IH.
Qed.

Lemma url_char_round s : has_char "-" s = false → has_char "_" s = false → map_string url_char (map_string to_url_char s) = s.
Proof.
  induction s as [|c s IH]; [done|]. simpl. intros [Hc Hs]%orb_false_iff [Hc' Hs']%orb_false_iff. rewrite IH by done.
  f_equal. unfold url_char, to_url_char. apply bool_decide_eq_false in Hc, Hc'. by repeat case_bool_decide; simplify_eq.
Qed.
Lemma b64url_decode_encode l : b64url_decode (b64url_encode l) = Some l.
Proof.
  unfold b64url_decode, b64url_encode. by rewrite url_char_round, b64_decode_encode by by apply b64_encode_alphabet.
Qed.

Lemma b64_encode_no_dollar l : has_char "$" (b64_encode l) = false.
Proof. by apply b64_encode_alphabet. Qed.

(** [EncodedLen] *)
Lemma b64_encode_length l : String.length (b64_encode l) = ((length l * 8 + 5) / 6)%nat.
Proof.
  induction l as [|a|a b|a b c l IH] using list_ind3; [done..|].
  cbn [b64_encode String.length length]. rewrite IH.
  replace (S (S (S (length l))) * 8 + 5)%nat with (length l * 8 + 5 + 4 * 6)%nat by lia.
  rewrite Nat.div_add by lia. lia.
Qed.

(** ** [hex.EncodeToString] *)

Definition hex_char (n : N) : ascii := default "0"%char (String.get (N.to_nat n) "0123456789abcdef").
Fixpoint hex_EncodeToString (l : list Byte.byte) : string :=
  match l with
  | [] => EmptyString
  | b :: l =>
      let b := Byte.to_N b in
      String (hex_char (b / 16)) (String (hex_char (b mod 16)) (hex_EncodeToString l))
  end.
