(* ===== verification/Schedule.v ===== *)
(** * Autostart schedules

    [coderd/autobuild/schedule/schedule.go]: a weekly schedule is a cron
    expression with a time zone. The cron parser and its search for the next
    time are third-party code ([robfig/cron]) and parameters; [CronLaws] states
    what its documentation says of a schedule whose day of month and month are
    both any: the next time is a later whole minute, at most eight days away.
    [Time], which prints a clock time, is left out. *)

From Stdlib Require Import Ascii.
From stdpp Require Import prelude strings.
From S2P Require Import Prelude Encoding.

Local Open Scope Z_scope.

(** The parser with minutes, hours, days of month, months and days of week. A
    text may parse to a schedule of another Go type, which is named. *)
Class Cron := {
  SpecSchedule : Type;
  cron_Parse : string → res (string + SpecSchedule);
  cron_Location : SpecSchedule → string;
  cron_is_Local : SpecSchedule → bool;
  cron_Next : SpecSchedule → time → time;
}.

Section schedule.
Context `{!Cron}.

Record Schedule := mkSchedule { sched : SpecSchedule; cronStr : string }.

(** The day of month and the month are both any. *)
Definition validateWeeklySpec (spec : string) : res unit :=
  let parts := Fields spec in
  if (length parts <? 5)%nat then
    Err (ErrNew "expected schedule to consist of 5 fields with an optional CRON_TZ=<timezone> prefix")
  else
    let parts := if (length parts =? 6)%nat then drop 1 parts else parts in
    match parts !! 2%nat, parts !! 3%nat with
    | Some dom, Some month =>
        if (dom != "*") || (month != "*") then Err (ErrNew "expected month and dom to be *") else Ok tt
    | _, _ => Panic "index out of range"
    end.

Definition Weekly (raw : string) : res Schedule :=
  match validateWeeklySpec raw with
  | Err e => Err (ErrWrap "validate weekly schedule" e)
  | Panic p => Panic p
  | Ok _ =>
      let raw := if HasPrefix raw "CRON_TZ=" then raw else "CRON_TZ=UTC " +:+ raw in
      match cron_Parse raw with
      | Err e => Err (ErrWrap "parse schedule" e)
      | Panic p => Panic p
      | Ok (inl type) => Err (ErrNew ("expected *cron.SpecSchedule but got " +:+ type))
      | Ok (inr schedule) =>
          if cron_is_Local schedule
          then Err (ErrNew "schedules scoped to time.Local are not supported")
          else Ok (mkSchedule schedule
                     (if HasPrefix raw "CRON_TZ=" then Join (drop 1 (Fields raw)) " " else raw))
      end
  end.

Definition Schedule_String (s : Schedule) : string :=
  "CRON_TZ=" +:+ cron_Location s.(sched) +:+ " " +:+ s.(cronStr).

Definition Schedule_Next (s : Schedule) (t : time) : time := cron_Next s.(sched) t.

(** One week from 1970-01-01 01:01:01. *)
Definition t0 : time := unix_epoch + Hour + Minute + Second.
Definition tMax : time := t0 + 168 * Hour.

(** The loop of [Min]; [None] when the fuel runs out. *)
Fixpoint min_loop (fuel : nat) (s : Schedule) (durMin : duration) (tPrev tCurr : time) : option duration :=
  match fuel with
  | O => None
  | S fuel =>
      let dur := Sub tCurr tPrev in
      let durMin := if dur <? durMin then dur else durMin in
      let tNext := Schedule_Next s tCurr in
      if After tNext tMax then Some durMin else min_loop fuel s durMin tCurr tNext
  end.

(** A schedule has at most one time per minute of the week. *)
Definition min_fuel : nat := Z.to_nat 10081.

Definition Schedule_Min (s : Schedule) : option duration :=
  let tPrev := Schedule_Next s t0 in
  min_loop min_fuel s (Sub tMax t0) tPrev (Schedule_Next s tPrev).

(** [strings.Replace(s, old, new, 1)] for a one-character [old]. *)
Fixpoint replace_first (s : string) (old : ascii) (new : string) : string :=
  match s with
  | EmptyString => EmptyString
  | String c s' => if bool_decide (c = old) then new +:+ s' else String c (replace_first s' old new)
  end.

Definition weekdays : list (ascii * string) :=
  [("0"%char, "Sun"); ("1"%char, "Mon"); ("2"%char, "Tue"); ("3"%char, "Wed");
   ("4"%char, "Thu"); ("5"%char, "Fri"); ("6"%char, "Sat")].

Definition DaysOfWeek (s : Schedule) : res string :=
  match Fields s.(cronStr) !! 4%nat with
  | None => Panic "index out of range"
  | Some dow => Ok (if dow == "*" then "daily"
                    else foldl (λ dow d, replace_first dow d.1 d.2) dow weekdays)
  end.
End schedule.

(** What the callers rely on: the next time is later, and the resolution of a
    schedule is one minute. *)
Class CronLaws `{!Cron} := {
  cron_Next_after : ∀ s t, t < cron_Next s t;
  cron_Next_minute : ∀ s t, cron_Next s t + Minute <= cron_Next s (cron_Next s t);
}.

Section min.
Context `{!Cron, !CronLaws}.

(** The times of a schedule after [t]. *)
Fixpoint times (s : Schedule) (t : time) (n : nat) : time :=
  match n with
  | O => Schedule_Next s t
  | S n => times s (Schedule_Next s t) n
  end.
Lemma times_S s t n : times s t (S n) = Schedule_Next s (times s t n).
Proof. revert t. induction n as [|n IH]; intros t; [done|]. exact (IH (Schedule_Next s t)). Qed.
Lemma times_grow s t n : times s t n + Minute <= times s t (S n).
Proof.
  rewrite times_S. unfold Schedule_Next. destruct n as [|n]; [apply cron_Next_minute|].
  rewrite times_S. apply cron_Next_minute.
Qed.
Lemma times_le s t n : times s t n <= times s t (S n).
Proof. pose proof (times_grow s t n). assert (0 < Minute) by done. lia. Qed.

(** The interval between two times of the schedule. *)
Definition gap (s : Schedule) (t : time) (n : nat) : duration := times s t (S n) - times s t n.
(** The least of a bound and the first [n] intervals. *)
Fixpoint least_gap (s : Schedule) (t : time) (bound : duration) (n : nat) : duration :=
  match n with
  | O => bound
  | S n => Z.min (least_gap s t bound n) (gap s t n)
  end.

Lemma least_gap_shift s t bound n :
  least_gap s t bound (S n) = least_gap s (Schedule_Next s t) (Z.min bound (gap s t 0)) n.
Proof.
  induction n as [|n IH]; [done|].
  change (Z.min (least_gap s t bound (S n)) (gap s t (S n)) =
          Z.min (least_gap s (Schedule_Next s t) (Z.min bound (gap s t 0)) n) (gap s t (S n))).
  by rewrite IH.
Qed.

(** A comparison with the saturating difference is one with the exact one. *)
Lemma Sub_min t u bound : u <= t → bound <= max_int64 →
  (if Sub t u <? bound then Sub t u else bound) = Z.min bound (t - u).
Proof.
  intros ? ?. unfold Sub. assert (min_int64 <= 0) by done.
  destruct (Z.ltb_spec (Z.max min_int64 (Z.min max_int64 (t - u))) bound); lia.
Qed.

Lemma min_loop_run s fuel t bound :
  bound <= max_int64 → tMax < times s t 2 + Z.of_nat fuel * Minute →
  ∃ n, min_loop (S fuel) s bound (times s t 0) (times s t 1) = Some (least_gap s t bound (S n)) ∧
    tMax < times s t (S (S n)) ∧ ∀ k, (0 < k <= n)%nat → times s t (S k) <= tMax.
Proof.
  revert t bound. induction fuel as [|fuel IH]; intros t bound Hb Hfuel.
  - exists 0%nat. split_and!; [|lia|lia]. cbn [min_loop]. rewrite Sub_min; [|apply (times_le s t 0)|done].
    rewrite <-times_S. unfold After. destruct (Z.ltb_spec tMax (times s t 2)); [done|lia].
  - remember (S fuel) as m. cbn [min_loop]. rewrite Sub_min; [|apply (times_le s t 0)|done].
    rewrite <-times_S. unfold After. destruct (Z.ltb_spec tMax (times s t 2)) as [Hend|Hgo].
    + exists 0%nat. split_and!; [done|done|lia].
    + subst m. destruct (IH (Schedule_Next s t) (Z.min bound (gap s t 0))) as (n & Hrun & Hlast & Hbefore); [lia| |].
      { change (times s (Schedule_Next s t) 2) with (times s t 3). pose proof (times_grow s t 2). lia. }
      exists (S n). split_and!; [|exact Hlast|].
      * rewrite least_gap_shift. exact Hrun.
      * intros [|[|k]] Hk; [lia|exact Hgo|]. apply (Hbefore (S k)). lia.
Qed.

Lemma least_gap_spec s t bound n :
  least_gap s t bound n <= bound ∧ (∀ k, (k < n)%nat → least_gap s t bound n <= gap s t k) ∧
  (least_gap s t bound n = bound ∨ ∃ k, (k < n)%nat ∧ least_gap s t bound n = gap s t k).
Proof.
  induction n as [|n (Hb & Hall & Hone)]; [split_and!; [done|lia|by left]|]. cbn [least_gap]. split_and!.
  - lia.
  - intros k Hk. destruct (decide (k = n)) as [->|]; [lia|]. specialize (Hall k). lia.
  - destruct (Z.min_spec (least_gap s t bound n) (gap s t n)) as [[? ->]|[? ->]].
    + destruct Hone as [?|(k & ? & ?)]; [by left|]. right. exists k. split; [lia|done].
    + right. exists n. split; [lia|done].
Qed.

(** The loop of [Min] ends, and computes the shortest interval between two
    consecutive times of the schedule in the week it looks at: no interval that
    ends in the week is shorter, and the result is one of the intervals or the
    week itself. The result is at least a minute. *)
Theorem Schedule_Min_spec s :
  ∃ d, Schedule_Min s = Some d ∧ Minute <= d <= 168 * Hour ∧
    (∀ k, times s t0 (S k) <= tMax → d <= gap s t0 k) ∧
    (d = 168 * Hour ∨ ∃ k, d = gap s t0 k).
Proof.
  destruct (min_loop_run s (Z.to_nat 10080) t0 (168 * Hour)) as (n & Hrun & Hlast & _).
  { done. }
  { pose proof (times_grow s t0 0). pose proof (times_grow s t0 1). pose proof (cron_Next_after s.(sched) t0).
    change (times s t0 0) with (cron_Next s.(sched) t0) in *. rewrite Z2Nat.id by lia.
    unfold tMax, Hour. assert (0 < Minute) by done. lia. }
  exists (least_gap s t0 (168 * Hour) (S n)). unfold Schedule_Min, min_fuel.
  destruct (least_gap_spec s t0 (168 * Hour) (S n)) as (Hb & Hall & Hone).
  split_and!; [exact Hrun| |done| |].
  - destruct Hone as [->|(k & _ & ->)]; [done|]. unfold gap. pose proof (times_grow s t0 k). lia.
  - intros k Hk. apply Hall. destruct (decide (k < S n)%nat); [done|]. exfalso.
    assert (∀ j, (S (S n) <= j)%nat → tMax < times s t0 j) as Hafter.
    { intros j Hj. induction Hj as [|j _ IH]; [done|]. pose proof (times_grow s t0 j). assert (0 < Minute) by done. lia. }
    specialize (Hafter (S k)). lia.
  - destruct Hone as [?|(k & _ & ?)]; [by left|right; by exists k].
Qed.
End min.

(** ** Examples *)

Module ScheduleExamples.
(** Every schedule is once a day at midnight. *)
Definition daily : Cron := {|
  SpecSchedule := unit;
  cron_Parse _ := Ok (inr tt);
  cron_Location _ := "UTC";
  cron_is_Local _ := false;
  cron_Next _ t := (t / (24 * Hour) + 1) * (24 * Hour) |}.
Lemma daily_laws : @CronLaws daily.
Proof.
  assert (0 < 24 * Hour) as Hday by done. split; intros s t; simpl.
  - pose proof (Z.mod_pos_bound t (24 * Hour) Hday). pose proof (Z.div_mod t (24 * Hour)). lia.
  - rewrite Z.div_mul by lia. assert (Minute <= 24 * Hour) by done. lia.
Qed.

Lemma Schedule_Min_spec_witness :
  ∃ d, @Schedule_Min daily (@mkSchedule daily tt "0 0 * * *") = Some d ∧ d = 24 * Hour.
Proof.
  destruct (@Schedule_Min_spec daily daily_laws (@mkSchedule daily tt "0 0 * * *")) as (d & Hd & _).
  exists d. split; [exact Hd|]. vm_compute in Hd. injection Hd as [= <-]. reflexivity.
Defined.
End ScheduleExamples.
