(* ===== verification/Cryptorand.v ===== *)
(** * Random values

    [cryptorand/numbers.go] and [cryptorand/strings.go]: integers and strings
    drawn from the operating system's random source. The source is a stream of
    bytes read from a position that advances; a read may fail. The functions that
    redraw a rejected value loop until one is accepted; [redraws] bounds how often
    the model does so, and a run that would need more ends in [Panic out_of_draws],
    which the code does not have. [accepting] says a source never gets there.
    [Float64] and [Float32] are not modelled. *)

From Stdlib Require Import Strings.Byte.
From stdpp Require Import prelude strings list.
From S2P Require Import Prelude.
Local Open Scope Z_scope.

(** [crypto/rand.Reader] *)
Class RandomSource := {
  random_byte : nat → Byte.byte;
  random_error : nat → option error;
  redraws : nat;
}.

Abbreviation RandM := (GoM nat) (only parsing).

Definition byte_val (b : Byte.byte) : Z := Z.of_N (Byte.to_N b).
Definition uint32 (z : Z) : Z := z mod 2 ^ 32.
Definition uint64 (z : Z) : Z := z mod 2 ^ 64.
(** [binary.BigEndian] *)
Definition big_endian (l : list Byte.byte) : Z :=
  foldl (λ acc b, 256 * acc + byte_val b) 0 l.
Definition out_of_draws : string := "random source keeps being rejected".

Section cryptorand.
Context `{!RandomSource}.

(** [rand.Read]: fill a buffer of [n] bytes. *)
Definition rand_Read (n : nat) : RandM (list Byte.byte) := λ pos,
  match random_error pos with
  | Some e => (Err e, pos)
  | None => (Ok (random_byte <$> seq pos n), (pos + n)%nat)
  end.

Definition Int63 : RandM Z :=
  buf ← wrap "read binary" (rand_Read 8);
  let i := int64_wrap (big_endian buf) in
  mret (if i <? 0 then int64_wrap (- i) else i).

Definition Uint64 : RandM Z :=
  upper ← wrap "read upper" Int63;
  lower ← wrap "read lower" Int63;
  mret (Z.lor (Z.shiftr (uint64 lower) 31) (uint64 (Z.shiftl (uint64 upper) 32))).

Definition Int31 : RandM Z := i ← Int63; mret (int32_wrap (Z.shiftr i 32)).

Definition Uint32 : RandM Z := i ← Int63; mret (uint32 (Z.shiftr i 31)).

Definition Int : RandM Z := i ← Int63; mret (if i <? 0 then int64_wrap (- i) else i).

(** [for i > trueMax { i = Int63() }] *)
Fixpoint int63n_loop (fuel : nat) (trueMax i : Z) : RandM Z :=
  if i >? trueMax then
    match fuel with
    | O => lift_res (Panic out_of_draws)
    | S fuel => i ← Int63; int63n_loop fuel trueMax i
    end
  else mret i.

Definition Int63n (max : Z) : RandM Z :=
  if max <=? 0 then lift_res (Panic "invalid argument to Int63n") else
  let trueMax := int64_wrap (uint64 (2 ^ 63 - 1 - 2 ^ 63 mod uint64 max)) in
  i ← Int63;
  i ← int63n_loop redraws trueMax i;
  mret (Z.rem i max).

(** [for low < thresh { v = Uint32(); prod = v * n; low = uint32(prod) }],
    returning the product it ends with. *)
Fixpoint modulo_loop (fuel : nat) (thresh n prod : Z) : RandM Z :=
  if uint32 prod <? thresh then
    match fuel with
    | O => lift_res (Panic out_of_draws)
    | S fuel => v ← Uint32; modulo_loop fuel thresh n (uint64 (v * uint64 n))
    end
  else mret prod.

Definition UnbiasedModulo32 (v n : Z) : RandM Z :=
  let prod := uint64 (v * uint64 n) in
  prod ←
    (if uint32 prod <? uint32 n
     then modulo_loop redraws (uint32 (- n) mod uint32 n) n prod
     else mret prod);
  mret (int32_wrap (Z.shiftr prod 32)).

Definition Int31n (max : Z) : RandM Z := i ← Uint32; UnbiasedModulo32 i max.

Definition Intn (max : Z) : RandM Z :=
  if max <=? 0 then lift_res (Panic "n must be a positive nonzero number") else
  if max <=? 2 ^ 31 - 1 then Int31n (int32_wrap max) else Int63n max.

Definition rand_Bool : RandM bool := i ← Uint64; mret (Z.land i 1 =? 1).

Definition rand_Duration : RandM duration := Int63.

(** ** Strings *)

Definition Numeric : string := "0123456789".
Definition Upper : string := "ABCDEFGHIJKLMNOPQRSTUVWXYZ".
Definition Lower : string := "abcdefghijklmnopqrstuvwxyz".
Definition Alpha : string := Upper +:+ Lower.
Definition Default : string := Numeric +:+ Alpha.
Definition Hex : string := "0123456789abcdef".
Definition Human : string := "23456789abcdefghjkmnpqrstuvwxyz".

(** The characters drawn for the 4-byte words of the buffer. *)
Fixpoint draw_chars (charSet : list Ascii.ascii) (words : list (list Byte.byte)) :
    RandM (list Ascii.ascii) :=
  match words with
  | [] => mret []
  | w :: words =>
      count ← UnbiasedModulo32 (big_endian w) (int32_wrap (Z.of_nat (length charSet)));
      c ← lift_res (match charSet !! Z.to_nat count with
                    | Some c => Ok c
                    | None => Panic "index out of range"
                    end);
      cs ← draw_chars charSet words;
      mret (c :: cs)
  end.

Fixpoint words4 (size : nat) (ibuf : list Byte.byte) : list (list Byte.byte) :=
  match size with
  | O => []
  | S size => take 4 ibuf :: words4 size (drop 4 ibuf)
  end.

Definition StringCharset (charSetStr : string) (size : nat) : RandM string :=
  let charSet := String.list_ascii_of_string charSetStr in
  if (Nat.eqb (length charSet) 0 || Nat.eqb size 0)%bool then mret EmptyString else
  ibuf ← rand_Read (4 * size);
  cs ← draw_chars charSet (words4 size ibuf);
  mret (String.string_of_list_ascii cs).

Definition cryptorand_String (size : nat) : RandM string := StringCharset Default size.
Definition HexString (size : nat) : RandM string := StringCharset Hex size.
Definition Sha1String : RandM string := StringCharset Hex 40.
End cryptorand.

(** ** Redrawing *)

(** The random value is kept: its low half is not below the bias threshold. *)
Definition accepted (n v : Z) : bool := 2 ^ 32 mod n <=? (v * n) mod 2 ^ 32.

Section laws.
Context `{!RandomSource}.

(** [Uint32] at a position of the source. *)
Definition draw_at (pos : nat) : Z :=
  let i := int64_wrap (big_endian (random_byte <$> seq pos 8)) in
  uint32 (Z.shiftr (if i <? 0 then int64_wrap (- i) else i) 31).

(** A source that does not fail, and yields an acceptable value for [n] within
    the allowed number of redraws, wherever one starts. *)
Definition accepting (n : Z) : Prop := ∀ pos,
  random_error pos = None ∧
  ∃ k, (k < redraws)%nat ∧ accepted n (draw_at (pos + 8 * k)) = true.
End laws.

(** The threshold of the code is [2^32 mod n]. *)
Lemma thresh_mod n : 0 < n < 2 ^ 31 → uint32 (- n) mod uint32 n = 2 ^ 32 mod n.
Proof.
  intros Hn. unfold uint32. rewrite (Z.mod_small n) by lia.
  replace ((- n) mod 2 ^ 32) with (2 ^ 32 - n).
  - rewrite <-(Z_mod_plus_full (2 ^ 32 - n) 1 n). f_equal; lia.
  - apply (Z.mod_unique _ _ (-1)); lia.
Qed.

Lemma prod_small n v : 0 < n < 2 ^ 31 → 0 <= v < 2 ^ 32 → uint64 (v * uint64 n) = v * n.
Proof. intros Hn Hv. unfold uint64. rewrite (Z.mod_small n) by lia. apply Z.mod_small. nia. Qed.

Lemma prod_outcome n v : 0 < n < 2 ^ 31 → 0 <= v < 2 ^ 32 →
  int32_wrap (Z.shiftr (v * n) 32) = v * n / 2 ^ 32 ∧ 0 <= v * n / 2 ^ 32 < n.
Proof.
  intros Hn Hv. rewrite Z.shiftr_div_pow2 by lia.
  assert (0 <= v * n / 2 ^ 32 < n) as Hk.
  { split; [apply Z.div_pos; nia|]. apply Z.div_lt_upper_bound; nia. }
  split; [apply int32_wrap_small; lia|done].
Qed.

(** The values of [v] that land on [k] and are kept: as many for every [k]. *)
Lemma accepted_run n k : 0 < n < 2 ^ 31 → 0 <= k < n →
  ∃ c, 0 <= c ∧ c + 2 ^ 32 / n <= 2 ^ 32 ∧
    ∀ v, 0 <= v < 2 ^ 32 →
      (accepted n v = true ∧ v * n / 2 ^ 32 = k) ↔ c <= v < c + 2 ^ 32 / n.
Proof.
  intros Hn Hk. set (t := 2 ^ 32 mod n). set (q := 2 ^ 32 / n).
  assert (2 ^ 32 = n * q + t ∧ 0 <= t < n) as [Hq Ht].
  { split; [apply Z.div_mod; lia|apply Z.mod_pos_bound; lia]. }
  set (a := k * 2 ^ 32 + t). set (c := (a + n - 1) / n).
  assert (n * c <= a + n - 1 < n * c + n) as Hc.
  { pose proof (Z.div_mod (a + n - 1) n ltac:(lia)).
    pose proof (Z.mod_pos_bound (a + n - 1) n ltac:(lia)). subst c. lia. }
  exists c. assert (0 <= c) by nia. assert (c + q <= 2 ^ 32) by nia.
  split; [done|]. split; [done|]. intros v Hv. unfold accepted. fold t.
  rewrite Z.leb_le.
  pose proof (Z.div_mod (v * n) (2 ^ 32) ltac:(lia)) as Hdm.
  pose proof (Z.mod_pos_bound (v * n) (2 ^ 32) ltac:(lia)) as Hm.
  split.
  - intros [Hacc Hkv]. nia.
  - intros [Hlo Hhi].
    assert (a <= v * n < k * 2 ^ 32 + 2 ^ 32) as Hvn by nia.
    assert (v * n / 2 ^ 32 = k) as Hkv by (symmetry; apply (Z.div_unique _ _ _ (v * n - k * 2 ^ 32)); lia).
    split; [|done]. lia.
Qed.

Section theorems.
Context `{!RandomSource}.

Lemma rand_Read_run n pos l pos' :
  rand_Read n pos = (Ok l, pos') → l = random_byte <$> seq pos n ∧ pos' = (pos + n)%nat.
Proof. unfold rand_Read. destruct (random_error pos); naive_solver. Qed.

Lemma Uint32_eq pos :
  Uint32 pos = match random_error pos with
               | Some e => (Err (ErrWrap "read binary" e), pos)
               | None => (Ok (draw_at pos), (pos + 8)%nat)
               end.
Proof.
  unfold Uint32, Int63, draw_at, wrap, rand_Read, mbind, gom_bind, mret, gom_ret.
  destruct (random_error pos); reflexivity.
Qed.

Lemma Uint32_run pos v pos' :
  Uint32 pos = (Ok v, pos') → v = draw_at pos ∧ pos' = (pos + 8)%nat.
Proof.
  rewrite Uint32_eq. generalize (draw_at pos) as d. intros d.
  destruct (random_error pos); naive_solver.
Qed.

Lemma Uint32_ok pos : random_error pos = None → Uint32 pos = (Ok (draw_at pos), (pos + 8)%nat).
Proof. intros Herr. rewrite Uint32_eq, Herr. reflexivity. Qed.

Lemma draw_at_range pos : 0 <= draw_at pos < 2 ^ 32.
Proof. apply Z.mod_pos_bound. lia. Qed.

Lemma accepted_test n v : 0 < n < 2 ^ 31 → 0 <= v < 2 ^ 32 →
  (uint32 (v * n) <? 2 ^ 32 mod n) = negb (accepted n v).
Proof. intros _ _. unfold accepted, uint32. by rewrite Z.ltb_antisym. Qed.

(** The loop ends with the product of an accepted value. *)
Lemma modulo_loop_run fuel n v pos prod pos' :
  0 < n < 2 ^ 31 → 0 <= v < 2 ^ 32 →
  modulo_loop fuel (2 ^ 32 mod n) n (v * n) pos = (Ok prod, pos') →
  ∃ v', 0 <= v' < 2 ^ 32 ∧ accepted n v' = true ∧ prod = v' * n
        ∧ (pos' = pos → v' = v).
Proof.
  intros Hn. revert v pos. induction fuel as [|fuel IH]; intros v pos Hv; simpl;
    rewrite accepted_test by done; destruct (accepted n v) eqn:Hacc; simpl; try done.
  1, 2: intros [= <- <-]; by exists v.
  intros Hrun. apply bind_ok in Hrun as (v1 & pos1 & Hdraw & Hrun).
  apply Uint32_run in Hdraw as [-> ->]. pose proof (draw_at_range pos) as Hd.
  rewrite prod_small in Hrun by done.
  assert (pos + 8 <= pos')%nat as Hle.
  { clear -Hrun Hn. revert Hrun. generalize (draw_at pos * n) as p. generalize (pos + 8)%nat as pos1.
    induction fuel as [|fuel IH]; intros pos1 p; simpl; destruct (_ <? _); try done.
    1, 3: by intros [= _ <-].
    intros Hrun. apply bind_ok in Hrun as (v & pos2 & Hdraw & Hrun).
    apply Uint32_run in Hdraw as [-> ->]. apply IH in Hrun. lia. }
  destruct (IH _ _ Hd Hrun) as (v' & ? & ? & ? & _). exists v'. repeat split; try done; lia.
Qed.

Lemma UnbiasedModulo32_run v n pos k pos' :
  0 < n < 2 ^ 31 → 0 <= v < 2 ^ 32 →
  UnbiasedModulo32 v n pos = (Ok k, pos') →
  ∃ v', 0 <= v' < 2 ^ 32 ∧ accepted n v' = true ∧ k = v' * n / 2 ^ 32 ∧ (pos' = pos → v' = v).
Proof.
  intros Hn Hv. unfold UnbiasedModulo32. rewrite prod_small, thresh_mod by done.
  intros Hrun. apply bind_ok in Hrun as (prod & pos1 & Hprod & [= <- <-]).
  destruct (uint32 (v * n) <? uint32 n) eqn:Hlow.
  - apply modulo_loop_run in Hprod as (v' & Hv' & Hacc & -> & Hpos); [|done..].
    exists v'. by rewrite (proj1 (prod_outcome n v' Hn Hv')).
  - injection Hprod as [= <- <-]. exists v. rewrite (proj1 (prod_outcome n v Hn Hv)).
    repeat split; try done; try lia. unfold accepted. apply Z.leb_le. fold (uint32 (v * n)).
    apply Z.ltb_ge in Hlow. unfold uint32 in Hlow at 1. rewrite Z.mod_small in Hlow by lia.
    pose proof (Z.mod_pos_bound (2 ^ 32) n ltac:(lia)). lia.
Qed.

Lemma UnbiasedModulo32_keeps v n pos : 0 < n < 2 ^ 31 → 0 <= v < 2 ^ 32 →
  accepted n v = true → UnbiasedModulo32 v n pos = (Ok (v * n / 2 ^ 32), pos).
Proof.
  intros Hn Hv Hacc. unfold UnbiasedModulo32. rewrite prod_small, thresh_mod by done.
  assert (∀ fuel, modulo_loop fuel (2 ^ 32 mod n) n (v * n) pos = (Ok (v * n), pos)) as Hloop.
  { intros fuel. destruct fuel; simpl; by rewrite accepted_test, Hacc. }
  unfold mbind, gom_bind. destruct (_ <? _); rewrite ?Hloop; unfold mret, gom_ret;
    by rewrite (proj1 (prod_outcome n v Hn Hv)).
Qed.

(** [UnbiasedModulo32] is unbiased. For every outcome [k] below [n] the random
    words that give [k] without a redraw are a run of exactly [2^32 / n]
    consecutive words, as many for each [k]. *)
Theorem UnbiasedModulo32_uniform (n k : Z) (Hn : 0 < n < 2 ^ 31) (Hk : 0 <= k < n) :
  ∃ c, 0 <= c ∧ c + 2 ^ 32 / n <= 2 ^ 32 ∧
    ∀ v pos, 0 <= v < 2 ^ 32 →
      UnbiasedModulo32 v n pos = (Ok k, pos) ↔ c <= v < c + 2 ^ 32 / n.
Proof.
  destruct (accepted_run n k Hn Hk) as (c & Hc & Hcq & Hrun). exists c.
  split; [done|]. split; [done|]. intros v pos Hv. rewrite <-Hrun by done. split.
  - intros Hmod. apply UnbiasedModulo32_run in Hmod as (v' & _ & Hacc & -> & Hsame); [|done..].
    by rewrite Hsame in Hacc |- * by done.
  - intros [Hacc <-]. by apply UnbiasedModulo32_keeps.
Qed.

(** With an accepting source the redraw loop ends. *)
Lemma modulo_loop_ends n pos prod : 0 < n < 2 ^ 31 → accepting n →
  ∃ prod' pos', modulo_loop redraws (2 ^ 32 mod n) n prod pos = (Ok prod', pos').
Proof.
  intros Hn Hsrc. destruct (Hsrc pos) as [_ (k & Hk & Hacc)].
  revert pos prod k Hk Hacc. generalize redraws as fuel.
  induction fuel as [|fuel IH]; intros pos prod k Hk Hacc; [lia|]. simpl.
  destruct (_ <? _); [|by eauto].
  unfold mbind, gom_bind. rewrite Uint32_ok by apply Hsrc.
  rewrite prod_small by (done || apply draw_at_range).
  destruct k as [|k].
  - replace (pos + 8 * 0)%nat with pos in Hacc by lia.
    revert Hacc. pose proof (draw_at_range pos) as Hd. revert Hd. generalize (draw_at pos) as d.
    intros d Hd Hacc. exists (d * n), (pos + 8)%nat.
    destruct fuel; cbn [modulo_loop]; rewrite accepted_test, Hacc by done; reflexivity.
  - apply (IH _ _ k); [lia|]. by replace (pos + 8 + 8 * k)%nat with (pos + 8 * S k)%nat by lia.
Qed.

Lemma UnbiasedModulo32_total v n pos : 0 < n < 2 ^ 31 → 0 <= v < 2 ^ 32 → accepting n →
  ∃ k pos', UnbiasedModulo32 v n pos = (Ok k, pos').
Proof.
  intros Hn Hv Hsrc. unfold UnbiasedModulo32. rewrite prod_small, thresh_mod by done.
  unfold mbind, gom_bind. destruct (_ <? _); [|by eauto].
  destruct (modulo_loop_ends n pos (v * n) Hn Hsrc) as (prod & pos' & ->). by eauto.
Qed.

Lemma big_endian_bound l : 0 <= big_endian l < 256 ^ Z.of_nat (length l).
Proof.
  unfold big_endian. induction l as [|b l IH] using rev_ind; [simpl; lia|].
  rewrite foldl_snoc, length_app, Nat2Z.inj_add, Z.pow_add_r by lia. simpl (256 ^ Z.of_nat (length [b])).
  assert (0 <= byte_val b < 256).
  { unfold byte_val. pose proof (Byte.to_N_bounded b). lia. }
  lia.
Qed.

Lemma words4_spec size ibuf : length ibuf = (4 * size)%nat →
  length (words4 size ibuf) = size ∧ Forall (λ w, 0 <= big_endian w < 2 ^ 32) (words4 size ibuf).
Proof.
  revert ibuf. induction size as [|size IH]; intros ibuf Hlen; [done|]. cbn [words4].
  destruct (IH (drop 4 ibuf)) as [IHlen IHall]; [rewrite length_drop; lia|].
  split; [simpl; by rewrite IHlen|]. constructor; [|done].
  pose proof (big_endian_bound (take 4 ibuf)) as Hb. rewrite length_take in Hb.
  replace (4 `min` length ibuf)%nat with 4%nat in Hb by lia. done.
Qed.

Section chars.
Context (charSet : list Ascii.ascii) (Hset : (0 < length charSet)%nat ∧ Z.of_nat (length charSet) < 2 ^ 31).

Lemma charSet_range : 0 < int32_wrap (Z.of_nat (length charSet)) < 2 ^ 31.
Proof. rewrite int32_wrap_small; lia. Qed.

Lemma draw_chars_run words pos cs pos' :
  Forall (λ w, 0 <= big_endian w < 2 ^ 32) words →
  draw_chars charSet words pos = (Ok cs, pos') →
  length cs = length words ∧ Forall (.∈ charSet) cs.
Proof.
  intros Hwords. revert pos cs. induction Hwords as [|w words Hw _ IH]; intros pos cs.
  { intros [= <- <-]. done. }
  cbn [draw_chars]. intros Hrun. apply bind_ok in Hrun as (k & pos1 & _ & Hrun).
  apply bind_ok in Hrun as (c & pos2 & Hc & Hrun). apply bind_ok in Hrun as (cs' & pos3 & Hcs & [= <- <-]).
  apply IH in Hcs as [Hlen Hall]. split; [simpl; by rewrite Hlen|]. constructor; [|done].
  unfold lift_res in Hc. destruct (charSet !! Z.to_nat k) eqn:Hk; [|done].
  injection Hc as [= <- <-]. by apply list_elem_of_lookup_2 in Hk.
Qed.

Lemma draw_chars_total words pos :
  accepting (Z.of_nat (length charSet)) →
  Forall (λ w, 0 <= big_endian w < 2 ^ 32) words →
  ∃ cs pos', draw_chars charSet words pos = (Ok cs, pos').
Proof.
  intros Hsrc Hwords. revert pos. induction Hwords as [|w words Hw _ IH]; intros pos; [by do 2 eexists|].
  cbn [draw_chars]. rewrite int32_wrap_small by lia.
  destruct (UnbiasedModulo32_total (big_endian w) (Z.of_nat (length charSet)) pos) as (k & pos1 & Hk);
    [lia|done..|].
  unfold mbind, gom_bind. rewrite Hk.
  apply UnbiasedModulo32_run in Hk as (v & Hv & _ & -> & _); [|lia|done].
  destruct (prod_outcome (Z.of_nat (length charSet)) v ltac:(lia) Hv) as [_ Hlt].
  destruct (lookup_lt_is_Some_2 charSet (Z.to_nat (v * Z.of_nat (length charSet) / 2 ^ 32))) as [c Hc]; [lia|].
  unfold lift_res. rewrite Hc. destruct (IH pos1) as (cs & pos2 & ->). by do 2 eexists.
Qed.
End chars.

Lemma string_of_list_length l : String.length (String.string_of_list_ascii l) = length l.
Proof. induction l; simpl; congruence. Qed.

(** What a drawn string looks like. *)
Lemma StringCharset_run charSetStr size pos s pos' :
  (0 < String.length charSetStr)%nat → Z.of_nat (String.length charSetStr) < 2 ^ 31 →
  StringCharset charSetStr size pos = (Ok s, pos') →
  String.length s = size ∧
  Forall (.∈ String.list_ascii_of_string charSetStr) (String.list_ascii_of_string s).
Proof.
  intros Hlo Hhi. unfold StringCharset.
  assert (length (String.list_ascii_of_string charSetStr) = String.length charSetStr) as Hlen
    by (clear; induction charSetStr; simpl; congruence).
  destruct (Nat.eqb_spec (length (String.list_ascii_of_string charSetStr)) 0); [lia|].
  destruct (Nat.eqb_spec size 0) as [->|Hsize]; cbn [orb].
  { intros [= <- <-]. done. }
  intros Hrun. apply bind_ok in Hrun as (ibuf & pos1 & Hread & Hrun).
  apply bind_ok in Hrun as (cs & pos2 & Hdraw & [= <- <-]).
  apply rand_Read_run in Hread as [-> ->].
  destruct (words4_spec size (random_byte <$> seq pos (4 * size))) as [Hwl Hwords].
  { by rewrite length_fmap, length_seq. }
  apply draw_chars_run in Hdraw as [Hcl Hall]; [|done].
  rewrite string_of_list_length, String.list_ascii_of_string_of_list_ascii. split; [lia|done].
Qed.

(** With a source that does not fail and does not reject forever,
    [StringCharset] returns, and what it returns has the length asked for and only
    characters of the character set. *)
Theorem StringCharset_total (charSetStr : string) (size pos : nat)
    (Hlo : (0 < String.length charSetStr)%nat) (Hhi : Z.of_nat (String.length charSetStr) < 2 ^ 31)
    (Hsrc : accepting (Z.of_nat (String.length charSetStr))) :
  ∃ s pos', StringCharset charSetStr size pos = (Ok s, pos') ∧ String.length s = size ∧
    Forall (.∈ String.list_ascii_of_string charSetStr) (String.list_ascii_of_string s).
Proof.
  assert (∃ s pos', StringCharset charSetStr size pos = (Ok s, pos')) as (s & pos' & Hrun).
  { unfold StringCharset. destruct (_ || _); [by do 2 eexists|].
    assert (length (String.list_ascii_of_string charSetStr) = String.length charSetStr) as Hlen
      by (clear; induction charSetStr; simpl; congruence).
    unfold mbind, gom_bind, rand_Read. destruct (Hsrc pos) as [-> _].
    destruct (draw_chars_total (String.list_ascii_of_string charSetStr) ltac:(rewrite Hlen; lia)
      (words4 size (random_byte <$> seq pos (4 * size))) (pos + 4 * size)) as (cs & pos' & Hcs).
    - by rewrite Hlen.
    - apply words4_spec. by rewrite length_fmap, length_seq.
    - rewrite Hcs. by do 2 eexists. }
  exists s, pos'. split; [done|]. by eapply StringCharset_run.
Qed.

(** [Int63] is documented to be non-negative; it is, except when the eight
    bytes read are the smallest 64-bit integer, whose negation overflows to
    itself. *)
Theorem Int63_negative (pos : nat) (i : Z) (pos' : nat) (Hrun : Int63 pos = (Ok i, pos')) :
  i < 0 ↔ big_endian (random_byte <$> seq pos 8) = 2 ^ 63.
Proof.
  apply bind_ok in Hrun as (buf & pos1 & Hread & Hi).
  assert (buf = random_byte <$> seq pos 8) as ->.
  { unfold wrap in Hread. destruct (rand_Read 8 pos) as [[l|e|e] pos2] eqn:Hr; try done.
    apply rand_Read_run in Hr as [-> ->]. by injection Hread as [= <- <-]. }
  pose proof (big_endian_bound (random_byte <$> seq pos 8)) as Hb.
  rewrite length_fmap, length_seq in Hb. change (256 ^ Z.of_nat 8) with (2 ^ 64) in Hb.
  revert Hi Hb. generalize (big_endian (random_byte <$> seq pos 8)) as z. intros z.
  unfold mret, gom_ret. intros [= <- <-] Hb.
  assert (int64_wrap z = if z <? 2 ^ 63 then z else z - 2 ^ 64) as ->.
  { destruct (Z.ltb_spec z (2 ^ 63)); unfold int64_wrap, wrap_signed; change (64 - 1) with 63.
    - rewrite Z.mod_small; lia.
    - rewrite <-(Z.mod_unique (z + 2 ^ 63) (2 ^ 64) 1 (z + 2 ^ 63 - 2 ^ 64)); lia. }
  destruct (Z.ltb_spec z (2 ^ 63)).
  - destruct (Z.ltb_spec z 0); lia.
  - destruct (Z.ltb_spec (z - 2 ^ 64) 0); [|lia].
    destruct (decide (z = 2 ^ 63)) as [->|]; [done|].
    rewrite int64_wrap_small; unfold min_int64, max_int64; lia.
Qed.
End theorems.

(** ** Examples *)
Module RandomExamples.

(** A source that repeats one byte. *)
Definition constant_source (b : Byte.byte) : RandomSource :=
  {| random_byte _ := b; random_error _ := None; redraws := 1 |}.

Lemma constant_accepting : @accepting (constant_source "j"%byte) 62.
Proof. intros pos. split; [done|]. exists 0%nat. split; [cbn; lia|]. vm_compute. reflexivity. Qed.

Lemma UnbiasedModulo32_uniform_witness :
  ∃ c, 0 <= c ∧ c + 2 ^ 32 / 62 <= 2 ^ 32 ∧
    ∀ v pos, 0 <= v < 2 ^ 32 →
      @UnbiasedModulo32 (constant_source "j"%byte) v 62 pos = (Ok 5, pos) ↔ c <= v < c + 2 ^ 32 / 62.
Proof. apply (@UnbiasedModulo32_uniform (constant_source "j"%byte) 62 5); lia. Defined.

Lemma StringCharset_total_witness :
  ∃ s pos', @StringCharset (constant_source "j"%byte) Default 10%nat 0%nat = (Ok s, pos') ∧
    String.length s = 10%nat ∧
    Forall (.∈ String.list_ascii_of_string Default) (String.list_ascii_of_string s).
Proof.
  apply (@StringCharset_total (constant_source "j"%byte) Default 10%nat 0%nat);
    [simpl; lia | by vm_compute | exact constant_accepting].
Defined.

(** The smallest 64-bit integer, read from the source. *)
Definition min_source : RandomSource :=
  {| random_byte pos := if decide (pos = 0%nat) then x80 else x00;
     random_error _ := None; redraws := 1 |}.

Lemma Int63_negative_witness :
  @Int63 min_source 0%nat = (Ok (- 2 ^ 63), 8%nat) ∧ - 2 ^ 63 < 0.
Proof.
  assert (@Int63 min_source 0%nat = (Ok (- 2 ^ 63), 8%nat)) as Hrun by (vm_compute; reflexivity).
  split; [exact Hrun|]. apply (@Int63_negative min_source 0%nat _ _ Hrun). vm_compute. reflexivity.
Defined.
End RandomExamples.
