(* ===== verification/UserPassword.v ===== *)
(** * Password hashes

    [coderd/userpassword/userpassword.go]. PBKDF2 is third-party code: it is a
    parameter, with the documented length of the derived key as its law. The
    package variable [simulatedHash] is an argument of [Compare]; it is a hash of
    a fixed password, made when the package is initialised. *)

From Stdlib Require Import Ascii Strings.Byte.
From stdpp Require Import prelude strings.
From S2P Require Import Prelude Encoding Cryptorand.

Local Open Scope Z_scope.

(** [pbkdf2.Key(password, salt, iter, keyLen, sha256.New)] *)
Class Pbkdf2 := pbkdf2_Key : list Byte.byte → list Byte.byte → Z → nat → list Byte.byte.
Class Pbkdf2Laws `{!Pbkdf2} :=
  pbkdf2_length : ∀ password salt iter keyLen,
    length (pbkdf2_Key password salt iter keyLen) = keyLen.

Definition defaultHashIter : Z := 65535.
Definition hashLength : nat := 64.
Definition hashScheme : string := "pbkdf2-sha256".
Definition defaultSaltSize : nat := 16.

(** [subtle.ConstantTimeCompare(x, y) != 1] is inequality. *)
Section userpassword.
Context `{!Pbkdf2, !RandomSource}.

(** [fmt.Sprintf("$%s$%d$%s$%s", hashScheme, iter, encSalt, encHash)] *)
Definition hashWithSaltAndIter (password : string) (salt : list Byte.byte) (iter : Z) : string :=
  let hash := pbkdf2_Key (bytes_of password) salt iter hashLength in
  String "$" (hashScheme +:+ String "$" (Itoa iter +:+ String "$" (b64_encode salt +:+
    String "$" (b64_encode hash)))).

Definition Hash (password : string) : RandM string :=
  salt ← wrap "read random bytes for salt" (rand_Read defaultSaltSize);
  mret (hashWithSaltAndIter password salt defaultHashIter).

Definition Compare (simulatedHash hashed password : string) : res bool :=
  let hashed := if hashed == EmptyString then simulatedHash else hashed in
  if Nat.ltb (String.length hashed) hashLength
  then Err (ErrNew ("hash too short: " +:+ Itoa (Z.of_nat (String.length hashed)))) else
  let parts := SplitN 5 hashed "$" in
  match parts with
  | [prefix; scheme; iter; salt; _] =>
      if prefix != EmptyString then Err (ErrNew "hash prefix is invalid") else
      if scheme != hashScheme
      then Err (ErrNew ("hash isn't " +:+ quote hashScheme +:+ " scheme: " +:+ quote scheme)) else
      match Atoi iter with
      | Err e => Err (ErrWrap "parse iter from hash" e)
      | Panic p => Panic p
      | Ok iter =>
          match b64_decode salt with
          | None => Err (ErrWrap "decode salt" (ErrNew "illegal base64 data"))
          | Some salt => Ok (hashWithSaltAndIter password salt iter == hashed)
          end
      end
  | _ => Err (ErrNew ("hash has too many parts: " +:+ Itoa (Z.of_nat (length parts))))
  end.

Definition userpassword_Validate (password : string) : option error :=
  if Nat.ltb (String.length password) 8
  then Some (ErrNew "Password must be at least 8 characters.")
  else if Nat.ltb 64 (String.length password)
  then Some (ErrNew "Password must be no more than 64 characters.")
  else None.
End userpassword.

(** ** What a comparison decides *)

Section compare.
Context `{!Pbkdf2, !Pbkdf2Laws}.

Lemma hash_not_empty password salt iter : hashWithSaltAndIter password salt iter ≠ EmptyString.
Proof. done. Qed.


Lemma hash_long password salt iter :
  (hashLength ≤ String.length (hashWithSaltAndIter password salt iter))%nat.
Proof.
  unfold hashWithSaltAndIter. cbn [String.length].
  rewrite !string_app_length. cbn [String.length]. rewrite !string_app_length.
  cbn [String.length]. rewrite !string_app_length. cbn [String.length].
  rewrite (b64_encode_length (pbkdf2_Key _ _ _ _)), pbkdf2_length.
  change ((hashLength * 8 + 5) / 6)%nat with 86%nat. unfold hashLength. lia.
Qed.

Lemma hash_parts password salt iter : has_char "$" (Itoa iter) = false →
  SplitN 5 (hashWithSaltAndIter password salt iter) "$" =
    [EmptyString; hashScheme; Itoa iter; b64_encode salt;
     b64_encode (pbkdf2_Key (bytes_of password) salt iter hashLength)].
Proof.
  intros Hiter. unfold hashWithSaltAndIter. set (h := b64_encode (pbkdf2_Key _ _ _ _)).
  etrans; [by apply (SplitN_cons 3 EmptyString)|]. f_equal.
  rewrite (SplitN_cons 2 hashScheme) by reflexivity.
  rewrite (SplitN_cons 1 (Itoa iter)) by done.
  rewrite (SplitN_cons 0 (b64_encode salt)) by apply b64_encode_no_dollar.
  by rewrite SplitN_last.
Qed.

(** Two texts of the scheme with the same salt and count agree when the keys do. *)
Lemma hash_inj p q salt iter :
  hashWithSaltAndIter q salt iter = hashWithSaltAndIter p salt iter ↔
  pbkdf2_Key (bytes_of q) salt iter hashLength = pbkdf2_Key (bytes_of p) salt iter hashLength.
Proof.
  split; [|by intros Heq; unfold hashWithSaltAndIter; rewrite Heq].
  unfold hashWithSaltAndIter. intros Heq.
  repeat first [injection Heq as Heq | apply (inj (String.append _)) in Heq].
  apply (f_equal b64_decode) in Heq. rewrite !b64_decode_encode in Heq. congruence.
Qed.

(** The check of a password against a hash made with a known salt. *)
Lemma Compare_salted simulatedHash password other salt :
  Compare simulatedHash (hashWithSaltAndIter password salt defaultHashIter) other =
    Ok (bool_decide (pbkdf2_Key (bytes_of other) salt defaultHashIter hashLength =
                     pbkdf2_Key (bytes_of password) salt defaultHashIter hashLength)).
Proof.
  unfold Compare.
  rewrite (bool_decide_eq_false_2 (hashWithSaltAndIter password salt defaultHashIter = EmptyString)) by done.
  destruct (Nat.ltb_spec (String.length (hashWithSaltAndIter password salt defaultHashIter)) hashLength)
    as [Hlt|_]; [pose proof (hash_long password salt defaultHashIter); lia|].
  rewrite hash_parts by (vm_compute; reflexivity).
  rewrite bool_decide_eq_true_2 by done. rewrite bool_decide_eq_true_2 by done.
  cbn [negb]. change (Atoi (Itoa defaultHashIter)) with (Ok 65535).
  cbn iota beta. rewrite b64_decode_encode. f_equal. apply bool_decide_ext, hash_inj.
Qed.

Lemma Hash_run `{!RandomSource} password pos hashed pos' :
  Hash password pos = (Ok hashed, pos') →
  hashed = hashWithSaltAndIter password (random_byte <$> seq pos defaultSaltSize) defaultHashIter.
Proof.
  unfold Hash. generalize defaultHashIter as iter. generalize defaultSaltSize as n. intros n iter Hhash.
  apply bind_ok in Hhash as (salt & pos1 & Hsalt & Hret).
  unfold wrap in Hsalt. destruct (rand_Read n pos) as [[l|e|e] pos2] eqn:Hr; [|discriminate..].
  apply rand_Read_run in Hr as [-> ->].
  injection Hsalt as [= <- <-]. by injection Hret as [= <- <-].
Qed.

(** Checking a password against the hash of one accepts exactly the passwords
    with the same derived key for the salt that was drawn: the password itself
    always, another one only when PBKDF2 collides. The check never fails, whatever
    the hash simulated for users without a password is. *)
Theorem Compare_Hash `{!RandomSource} (simulatedHash password other hashed : string) (pos pos' : nat)
    (Hhash : Hash password pos = (Ok hashed, pos')) :
  let salt := random_byte <$> seq pos defaultSaltSize in
  Compare simulatedHash hashed other =
    Ok (bool_decide (pbkdf2_Key (bytes_of other) salt defaultHashIter hashLength =
                     pbkdf2_Key (bytes_of password) salt defaultHashIter hashLength)).
Proof. apply Hash_run in Hhash as ->. apply Compare_salted. Qed.

(** Whoever has no password hash is compared with the simulated one. *)
Lemma Compare_empty simulatedHash password :
  Compare simulatedHash EmptyString password =
  if simulatedHash == EmptyString then Err (ErrNew "hash too short: 0")
  else Compare simulatedHash simulatedHash password.
Proof.
  unfold Compare. rewrite (bool_decide_eq_true_2 (EmptyString = EmptyString)) by done.
  destruct (decide (simulatedHash = EmptyString)) as [->|Hne]; [done|].
  by rewrite !(bool_decide_eq_false_2 (simulatedHash = EmptyString)).
Qed.
End compare.

(** ** Examples *)
Module PasswordExamples.

(** A key derivation that pads or cuts its input: enough for a run. *)
Definition pad_key : Pbkdf2 := λ password salt iter keyLen,
  take keyLen (password ++ salt ++ repeat x00 keyLen).
Lemma pad_key_laws : @Pbkdf2Laws pad_key.
Proof.
  intros password salt iter keyLen. unfold pbkdf2_Key, pad_key.
  rewrite length_take, !length_app, repeat_length. lia.
Qed.

Definition hunter2 : string :=
  @hashWithSaltAndIter pad_key "hunter2" (repeat "j"%byte 16) defaultHashIter.

Lemma Compare_Hash_witness :
  @Compare pad_key EmptyString hunter2 "wrong" =
    Ok (bool_decide (@pbkdf2_Key pad_key (bytes_of "wrong") (repeat "j"%byte 16) defaultHashIter hashLength =
                     @pbkdf2_Key pad_key (bytes_of "hunter2") (repeat "j"%byte 16) defaultHashIter hashLength)).
Proof.
  apply (@Compare_Hash pad_key pad_key_laws (RandomExamples.constant_source "j"%byte)
           EmptyString "hunter2" "wrong" hunter2 0%nat 16%nat).
  vm_compute. reflexivity.
Defined.

(** The password behind the simulated hash passes for everybody without one. *)
Example simulated_password :
  @Compare pad_key hunter2 EmptyString "hunter2" = Ok true ∧
  @Compare pad_key hunter2 EmptyString "guess" = Ok false.
Proof. vm_compute. split; reflexivity. Qed.
End PasswordExamples.
