(* ===== verification/Rbac.v ===== *)
(** * Role-based access control

    [coderd/rbac]: objects ([object.go]), permissions and roles ([role.go],
    [builtin.go], [scopes.go]), the Rego policy ([policy.rego]) and the
    authorizer that evaluates it ([authz.go], [partial.go]). The definitions
    are here, the theorems in [RbacProps]. *)

From Stdlib Require Import Ascii.
From stdpp Require Import prelude gmap strings.
From S2P Require Import Prelude.

(** ** Objects: [object.go], [action.go] *)

Definition WildcardSymbol : string := "*".

Definition ActionCreate : string := "create".
Definition ActionRead : string := "read".
Definition ActionUpdate : string := "update".
Definition ActionDelete : string := "delete".

(** [map[string][]Action]; a nil map reads as the empty one. *)
Abbreviation ACL := (gmap string (list string)) (only parsing).

Record Object := mkObject {
  Object_Owner : string;
  Object_OrgID : string;
  Object_Type : string;
  Object_ACLUserList : ACL;
  Object_ACLGroupList : ACL;
}.
#[global] Instance Object_eta : Eta Object := λ z,
  mkObject z.(Object_Owner) z.(Object_OrgID) z.(Object_Type)
    z.(Object_ACLUserList) z.(Object_ACLGroupList).

Definition resource (type : string) : Object := mkObject EmptyString EmptyString type ∅ ∅.

Definition ResourceWorkspace : Object := resource "workspace".
Definition ResourceWorkspaceExecution : Object := resource "workspace_execution".
Definition ResourceWorkspaceApplicationConnect : Object := resource "application_connect".
Definition ResourceAuditLog : Object := resource "audit_log".
Definition ResourceTemplate : Object := resource "template".
Definition ResourceGroup : Object := resource "group".
Definition ResourceFile : Object := resource "file".
Definition ResourceProvisionerDaemon : Object := resource "provisioner_daemon".
Definition ResourceOrganization : Object := resource "organization".
Definition ResourceRoleAssignment : Object := resource "assign_role".
Definition ResourceOrgRoleAssignment : Object := resource "assign_org_role".
Definition ResourceAPIKey : Object := resource "api_key".
Definition ResourceUser : Object := resource "user".
Definition ResourceUserData : Object := resource "user_data".
Definition ResourceOrganizationMember : Object := resource "organization_member".
Definition ResourceWildcard : Object := resource WildcardSymbol.
Definition ResourceLicense : Object := resource "license".
Definition ResourceDeploymentConfig : Object := resource "deployment_config".
Definition ResourceReplicas : Object := resource "replicas".

Section object_methods.
Context `{!UuidText}.

Definition All (z : Object) : Object := mkObject EmptyString EmptyString z.(Object_Type) ∅ ∅.
Definition InOrg (orgID : uuid) (z : Object) : Object :=
  z <| Object_OrgID := uuid_String orgID |>.
Definition WithOwner (ownerID : string) (z : Object) : Object := z <| Object_Owner := ownerID |>.
Definition WithACLUserList (acl : ACL) (z : Object) : Object := z <| Object_ACLUserList := acl |>.
Definition WithGroupACL (groups : ACL) (z : Object) : Object :=
  z <| Object_ACLGroupList := groups |>.
End object_methods.

(** ** Permissions and roles: [role.go], [builtin.go] *)

Record Permission := mkPermission {
  Permission_Negate : bool;
  Permission_ResourceType : string;
  Permission_Action : string;
}.

Record Role := mkRole {
  Role_Name : string;
  Role_DisplayName : string;
  Role_Site : list Permission;
  Role_Org : gmap string (list Permission);
  Role_User : list Permission;
}.

(** The map literal the callers pass is a list of its entries, in the order
    they are written; the code ranges over it in an arbitrary order. *)
Definition permissions (perms : list (string * list string)) : list Permission :=
  '(k, actions) ← perms;
  act ← actions;
  [mkPermission false k act].

Definition owner : string := "owner".
Definition member : string := "member".
Definition templateAdmin : string := "template-admin".
Definition userAdmin : string := "user-admin".
Definition auditor : string := "auditor".
Definition orgAdmin : string := "organization-admin".
Definition orgMember : string := "organization-member".

Definition roleName (name orgID : string) : string :=
  if orgID == "" then name else name +:+ ":" +:+ orgID.

Definition roleSplit (role : string) : res (string * string) :=
  let arr := Split role ":"%char in
  if bool_decide (2 < length arr) then Err (ErrNew "too many colons in role name")
  else match arr with
       | name :: rest =>
           if name == "" then Err (ErrNew "role cannot be the empty string")
           else match rest with
                | [orgID] => Ok (name, orgID)
                | _ => Ok (name, EmptyString)
                end
       | [] => Panic "index out of range"
       end.

Definition crud : list string := [ActionCreate; ActionRead; ActionUpdate; ActionDelete].

Definition role_owner (_ : string) : Role :=
  mkRole owner "Owner" (permissions [(ResourceWildcard.(Object_Type), [WildcardSymbol])]) ∅ [].

Definition role_member (_ : string) : Role :=
  mkRole member ""
    (permissions [
       (ResourceUser.(Object_Type), [ActionRead]);
       (ResourceRoleAssignment.(Object_Type), [ActionRead]);
       (ResourceProvisionerDaemon.(Object_Type), [ActionRead])])
    ∅
    (permissions [(ResourceWildcard.(Object_Type), [WildcardSymbol])]).

Definition role_auditor (_ : string) : Role :=
  mkRole auditor "Auditor"
    (permissions [
       (ResourceTemplate.(Object_Type), [ActionRead]);
       (ResourceAuditLog.(Object_Type), [ActionRead])])
    ∅ [].

Definition role_templateAdmin (_ : string) : Role :=
  mkRole templateAdmin "Template Admin"
    (permissions [
       (ResourceTemplate.(Object_Type), crud);
       (ResourceFile.(Object_Type), crud);
       (ResourceWorkspace.(Object_Type), [ActionRead]);
       (ResourceProvisionerDaemon.(Object_Type), crud)])
    ∅ [].

Definition role_userAdmin (_ : string) : Role :=
  mkRole userAdmin "User Admin"
    (permissions [
       (ResourceRoleAssignment.(Object_Type), crud);
       (ResourceUser.(Object_Type), crud);
       (ResourceOrganizationMember.(Object_Type), crud);
       (ResourceGroup.(Object_Type), crud)])
    ∅ [].

Definition role_orgAdmin (organizationID : string) : Role :=
  mkRole (roleName orgAdmin organizationID) "Organization Admin" []
    {[ organizationID := [mkPermission false "*" "*"] ]} [].

Definition role_orgMember (organizationID : string) : Role :=
  mkRole (roleName orgMember organizationID) "" []
    {[ organizationID := [
         mkPermission false ResourceOrganizationMember.(Object_Type) ActionRead;
         mkPermission false ResourceOrganization.(Object_Type) ActionRead;
         mkPermission false ResourceOrgRoleAssignment.(Object_Type) ActionRead;
         mkPermission false ResourceGroup.(Object_Type) ActionRead] ]} [].

(** The [builtInRoles] map, as the list of its entries. *)
Definition builtInRoles : list (string * (string → Role)) := [
  (owner, role_owner);
  (member, role_member);
  (auditor, role_auditor);
  (templateAdmin, role_templateAdmin);
  (userAdmin, role_userAdmin);
  (orgAdmin, role_orgAdmin);
  (orgMember, role_orgMember)].

Definition lookup_name {V} (name : string) (m : list (string * V)) : option V :=
  snd <$> find_first (λ kv, kv.1 == name) m.

(** [assignRoles]: the roles an actor role can assign. *)
Definition assignRoles : list (string * list string) := [
  (owner, [owner; auditor; member; orgAdmin; orgMember; templateAdmin; userAdmin]);
  (userAdmin, [member; orgMember]);
  (orgAdmin, [orgAdmin; orgMember])].

Definition CanAssignRole (roles : list string) (assignedRole : string) : bool :=
  match roleSplit assignedRole with
  | Ok (assigned, assignedOrg) =>
      existsb (λ longRole,
        match roleSplit longRole with
        | Ok (role, orgID) =>
            if (orgID != "") && (orgID != assignedOrg) then false
            else match lookup_name role assignRoles with
                 | Some allowed => bool_decide (assigned ∈ allowed)
                 | None => false
                 end
        | _ => false
        end) roles
  | _ => false
  end.

Definition RoleByName (name : string) : res Role :=
  match roleSplit name with
  | Ok (roleName, orgID) =>
      match lookup_name roleName builtInRoles with
      | None => Err (ErrNew ("role " +:+ quote roleName +:+ " not found"))
      | Some roleFunc =>
          let role := roleFunc orgID in
          if bool_decide (role.(Role_Org) ≠ ∅) && (orgID == "")
          then Err (ErrNew ("expect a org id for role " +:+ quote roleName))
          else Ok role
      end
  | Err e => Err (ErrWrap "parse role name" e)
  | Panic m => Panic m
  end.

Fixpoint RolesByNames (roleNames : list string) : res (list Role) :=
  match roleNames with
  | [] => Ok []
  | n :: ns =>
      match RoleByName n with
      | Ok r => rs ← RolesByNames ns; Ok (r :: rs)
      | Err e => Err (ErrWrap "get role permissions" e)
      | Panic m => Panic m
      end
  end.

Definition IsOrgRole (roleName : string) : string * bool :=
  match roleSplit roleName with
  | Ok (_, orgID) => if orgID != "" then (orgID, true) else (EmptyString, false)
  | _ => (EmptyString, false)
  end.

(** The roles whose scope is [scope], built for the organization [org]. *)
Definition roles_scoped (org scope : string) : list Role :=
  '(_, roleF) ← builtInRoles;
  match roleSplit (roleF org).(Role_Name) with
  | Ok (_, s) => if s == scope then [roleF org] else []
  | _ => []
  end.

Section role_lists.
Context `{!UuidText}.
Definition RoleOwner : string := roleName owner "".
Definition RoleTemplateAdmin : string := roleName templateAdmin "".
Definition RoleUserAdmin : string := roleName userAdmin "".
Definition RoleMember : string := roleName member "".
Definition RoleOrgAdmin (organizationID : uuid) : string :=
  roleName orgAdmin (uuid_String organizationID).
Definition RoleOrgMember (organizationID : uuid) : string :=
  roleName orgMember (uuid_String organizationID).

Definition OrganizationRoles (organizationID : uuid) : list Role :=
  roles_scoped (uuid_String organizationID) (uuid_String organizationID).
Definition SiteRoles : list Role := roles_scoped "random" "".
End role_lists.

(** The second loop of [ChangeRoleSet]: the roles of [to] that [has] lacks,
    and what is left of [has]. *)
Fixpoint change_roles (has : gset string) (to : list string) : list string * gset string :=
  match to with
  | [] => ([], has)
  | r :: to' =>
      if decide (r ∈ has) then change_roles (has ∖ {[r]}) to'
      else let '(added, rest) := change_roles has to' in (r :: added, rest)
  end.

(** The removed roles come out in map order, which Go leaves open; here they
    are a set. *)
Definition ChangeRoleSet (from to : list string) : list string * gset string :=
  change_roles (list_to_set from) to.

(** ** Scopes: [scopes.go] *)

Definition ScopeAll : string := "all".
Definition ScopeApplicationConnect : string := "application_connect".

Definition builtinScopes : list (string * Role) := [
  (ScopeAll,
   mkRole ("Scope_" +:+ ScopeAll) "All operations"
     (permissions [(ResourceWildcard.(Object_Type), [WildcardSymbol])]) ∅ []);
  (ScopeApplicationConnect,
   mkRole ("Scope_" +:+ ScopeApplicationConnect) "Ability to connect to applications"
     (permissions [(ResourceWorkspaceApplicationConnect.(Object_Type), [ActionCreate])]) ∅ [])].

Definition ScopeRole (scope : string) : res Role :=
  of_option (ErrNew ("no scope named " +:+ quote scope)) (lookup_name scope builtinScopes).

(** ** The policy: [policy.rego] *)

(** [authSubject] of [authz.go], the [input.subject] of the policy. *)
Record authSubject := mkSubject {
  subject_ID : string;
  subject_Roles : list Role;
  subject_Groups : list string;
  subject_Scope : Role;
}.

(** The policy input. The document has the keys [subject], [object] and
    [action] only: [input.scope] is undefined. *)
Record policy_input := mkInput {
  input_subject : authSubject;
  input_object : Object;
  input_action : string;
}.

(** [bool_flip] *)
Definition bool_flip (b : bool) : bool := negb b.

(** [number]: -1 when the set has [false], 0 when it is empty, 1 otherwise. *)
Definition number (s : gset bool) : Z :=
  if decide (s = ∅) then 0 else if decide (false ∈ s) then (-1) else 1.

(** [perm.action in [input.action, "*"]; perm.resource_type in [input.object.type, "*"]] *)
Definition perm_matches (i : policy_input) (perm : Permission) : bool :=
  bool_decide (perm.(Permission_Action) ∈ [i.(input_action); "*"]) &&
  bool_decide (perm.(Permission_ResourceType) ∈ [i.(input_object).(Object_Type); "*"]).

(** The comprehension [{ x | ... ; x := bool_flip(perm.negate) }] *)
Definition verdicts (i : policy_input) (perms : list Permission) : gset bool :=
  list_to_set (bool_flip ∘ Permission_Negate <$> filter (λ p, perm_matches i p) perms).

(** [site_allow] *)
Definition site_allow (i : policy_input) (roles : list Role) : Z :=
  number (verdicts i (roles ≫= Role_Site)).

(** [org_members]: the organizations some role of the subject mentions. *)
Definition org_members (i : policy_input) : gset string :=
  ⋃ ((λ r, dom r.(Role_Org)) <$> i.(input_subject).(subject_Roles)).

(** [org_allow]: undefined when the object's organization is not one of
    [org_members]. *)
Definition org_allow (i : policy_input) (roles : list Role) : option Z :=
  let id := i.(input_object).(Object_OrgID) in
  if decide (id ∈ org_members i)
  then Some (number (verdicts i (roles ≫= λ r, default [] (r.(Role_Org) !! id))))
  else None.

(** [user_allow]: undefined unless the subject owns the object. *)
Definition user_allow (i : policy_input) (roles : list Role) : option Z :=
  if (i.(input_object).(Object_Owner) != "") &&
     (i.(input_subject).(subject_ID) == i.(input_object).(Object_Owner))
  then Some (number (verdicts i (roles ≫= Role_User)))
  else None.

(** [org_mem], [org_ok] *)
Definition org_mem (i : policy_input) : bool :=
  (i.(input_object).(Object_OrgID) != "") &&
  bool_decide (i.(input_object).(Object_OrgID) ∈ org_members i).
Definition org_ok (i : policy_input) : bool :=
  org_mem i || (i.(input_object).(Object_OrgID) == "").

(** [site], [org], [user] with their defaults. *)
Definition site (i : policy_input) : Z := site_allow i i.(input_subject).(subject_Roles).
Definition org (i : policy_input) : Z := default 0%Z (org_allow i i.(input_subject).(subject_Roles)).
Definition user (i : policy_input) : Z := default 0%Z (user_allow i i.(input_subject).(subject_Roles)).

(** [[input.scope]] is undefined, so [scope_org] takes its default and
    [scope_user], whose default is declared under another name, is undefined. *)
Definition input_scope (i : policy_input) : option Role := None.
Definition scope_site (i : policy_input) : Z := site_allow i [i.(input_subject).(subject_Scope)].
Definition scope_org (i : policy_input) : Z :=
  default 0%Z (s ← input_scope i; org_allow i [s]).
Definition scope_user (i : policy_input) : option Z :=
  s ← input_scope i; user_allow i [s].

(** [role_allow], [scope_allow] *)
Definition role_allow (i : policy_input) : bool :=
  (site i == 1%Z)
  || ((site i != (-1)%Z) && (org i == 1%Z))
  || ((site i != (-1)%Z) && (org i != (-1)%Z) && org_ok i && (user i == 1%Z)).

Definition scope_allow (i : policy_input) : bool :=
  (scope_site i == 1%Z)
  || ((scope_site i != (-1)%Z) && (scope_org i == 1%Z))
  || ((scope_site i != (-1)%Z) && (scope_org i != (-1)%Z) && org_ok i
      && (scope_user i == Some 1%Z)).

(** [[input.action, "*"][_] in perms] *)
Definition acl_grants (i : policy_input) (perms : list string) : bool :=
  bool_decide (i.(input_action) ∈ perms) || bool_decide ("*" ∈ perms).

(** The three [acl_allow] rules. *)
Definition acl_allow (i : policy_input) : bool :=
  let o := i.(input_object) in
  let grants (acl : ACL) (key : string) :=
    match acl !! key with Some perms => acl_grants i perms | None => false end in
  grants o.(Object_ACLUserList) i.(input_subject).(subject_ID)
  || (org_mem i && existsb (grants o.(Object_ACLGroupList)) i.(input_subject).(subject_Groups))
  || (org_mem i && grants o.(Object_ACLGroupList) o.(Object_OrgID)).

(** [allow] *)
Definition allow (i : policy_input) : bool :=
  (role_allow i && scope_allow i) || (acl_allow i && scope_allow i).

(** ** The authorizer: [authz.go] *)

Definition errUnauthorized : error := ErrNew "forbidden".

(** [RegoAuthorizer.Authorize]. Evaluating the policy itself does not fail. *)
Definition Authorize (subjectID : string) (roles : list Role) (scope : Role)
    (groups : list string) (action : string) (object : Object) : res unit :=
  if allow (mkInput (mkSubject subjectID roles groups scope) object action)
  then Ok tt else Err errUnauthorized.

(** [RegoAuthorizer.ByRoleName] *)
Definition rego_ByRoleName (subjectID : string) (roleNames : list string) (scope : string)
    (groups : list string) (action : string) (object : Object) : res unit :=
  roles ← RolesByNames roleNames;
  scopeRole ← ScopeRole scope;
  Authorize subjectID roles scopeRole groups action object.

(** ** Prepared queries: [partial.go] *)

(** A result of evaluating a query: its number of bindings and the values of its
    expressions, [None] for one that is not a boolean. *)
Record query_result := mkResult { Bindings : nat; Expressions : list (option bool) }.

(** The request a policy is partially evaluated for: of the object only the type is
    known, its owner, organization and access lists are not. *)
Record partial_input := mkPartialInput {
  partial_subject : authSubject;
  partial_type : string;
  partial_action : string;
}.

(** The policy engine, [opa/rego]. [rego_Partial] evaluates a policy as far as the
    request is known and returns the queries that are left over; one of them is
    compiled by [PrepareForEval] and then evaluated on an object. *)
Class Opa := {
  ast_Body : Type;
  Body_String : ast_Body → string;
  rego_Partial : (policy_input → bool) → partial_input → res (list ast_Body);
  PrepareForEval : ast_Body → res (Object → res (list query_result));
}.

(** What the engine documents. Every query means something on an object; partial
    evaluation keeps the meaning of a policy, in that an object of the given type is
    allowed exactly if one of the queries holds of it; the query without conditions
    holds always. A query left over has conditions only and no variables: its
    evaluation has one result, with conditions that are all true, or none if it does
    not hold. *)
Class OpaLaws `{!Opa} := {
  Body_holds : ast_Body → Object → bool;
  partial_keeps : ∀ policy known queries o,
    rego_Partial policy known = Ok queries → o.(Object_Type) = known.(partial_type) →
    policy (mkInput known.(partial_subject) o known.(partial_action)) =
    existsb (λ q, Body_holds q o) queries;
  empty_holds : ∀ q o, Body_String q = EmptyString → Body_holds q o = true;
  eval_condition : ∀ policy known queries q eval o,
    rego_Partial policy known = Ok queries → q ∈ queries → PrepareForEval q = Ok eval →
    if Body_holds q o then ∃ n, eval o = Ok [mkResult 0 (replicate n (Some true))]
    else eval o = Ok [];
}.

Record PartialAuthorizer := mkPartial {
  preparedQueries : list (Object → res (list query_result));
  alwaysTrue : bool;
}.

(** [PartialAuthorizer.Authorize]: a query that fails, has no result or more than one,
    binds a variable or has an expression that is not true is passed over. *)
Definition query_true (object : Object) (q : Object → res (list query_result)) : bool :=
  match q object with
  | Ok [r] =>
      (Bindings r =? 0)%nat && forallb (λ v, v == Some true) (Expressions r)
  | _ => false
  end.

Definition PartialAuthorizer_Authorize (pa : PartialAuthorizer) (object : Object) : res unit :=
  if pa.(alwaysTrue) then Ok tt
  else if existsb (query_true object) pa.(preparedQueries) then Ok tt
  else Err errUnauthorized.

Section prepare.
Context `{!Opa}.

(** The loop of [newPartialAuthorizer] over the queries; one without conditions makes
    the others superfluous. *)
Fixpoint prepare_queries (prepared : list (Object → res (list query_result))) (queries : list ast_Body) :
    res PartialAuthorizer :=
  match queries with
  | [] => Ok (mkPartial prepared false)
  | q :: queries =>
      if Body_String q == EmptyString then Ok (mkPartial [] true)
      else match PrepareForEval q with
           | Ok results => prepare_queries (prepared ++ [results]) queries
           | Err e => Err (ErrWrap ("prepare query " +:+ Body_String q) e)
           | Panic m => Panic m
           end
  end.

Definition newPartialAuthorizer (subjectID : string) (roles : list Role) (scope : Role)
    (groups : list string) (action objectType : string) : res PartialAuthorizer :=
  match rego_Partial allow (mkPartialInput (mkSubject subjectID roles groups scope) objectType action) with
  | Ok queries => prepare_queries [] queries
  | Err e => Err (ErrWrap "prepare" e)
  | Panic m => Panic m
  end.

(** [RegoAuthorizer.Prepare] *)
Definition rego_Prepare (subjectID : string) (roles : list Role) (scope : Role)
    (groups : list string) (action objectType : string) : res PartialAuthorizer :=
  match newPartialAuthorizer subjectID roles scope groups action objectType with
  | Err e => Err (ErrWrap "new partial authorizer" e)
  | auth => auth
  end.

(** [RegoAuthorizer.PrepareByRoleName] *)
Definition rego_PrepareByRoleName (subjectID : string) (roleNames : list string) (scope : string)
    (groups : list string) (action objectType : string) : res PartialAuthorizer :=
  roles ← RolesByNames roleNames;
  scopeRole ← ScopeRole scope;
  rego_Prepare subjectID roles scopeRole groups action objectType.
End prepare.

(** The [Authorizer] interface, and what its clients rely on: a prepared
    authorizer decides as [ByRoleName] does on objects of its type. *)
Class Authorizer := {
  ByRoleName : string → list string → string → list string → string → Object → res unit;
  PrepareByRoleName :
    string → list string → string → list string → string → string → res (Object → res unit);
}.

Class AuthorizerLaws `{!Authorizer} := {
  prepared_agrees : ∀ subj roles scope groups action type p o,
    PrepareByRoleName subj roles scope groups action type = Ok p →
    o.(Object_Type) = type →
    p o = Ok tt ↔ ByRoleName subj roles scope groups action o = Ok tt;
}.

(** The authorizer of the server, [RegoAuthorizer]. *)
Definition rego_authorizer `{!Opa} : Authorizer := {|
  ByRoleName := rego_ByRoleName;
  PrepareByRoleName subj roles scope groups action ty :=
    pa ← rego_PrepareByRoleName subj roles scope groups action ty;
    Ok (PartialAuthorizer_Authorize pa)
|}.

Section filter.
Context `{!Authorizer} {O : Type} (RBACObject : O → Object).
Context (subjID : string) (subjRoles : list string) (scope : string).
Context (groups : list string) (action : string).

(** The loop of [Filter], with the check to run on each object. *)
Fixpoint filter_loop (objectType : string) (check : Object → res unit) (objects : list O) :
    res (list O) :=
  match objects with
  | [] => Ok []
  | o :: objects' =>
      if (RBACObject o).(Object_Type) != objectType
      then Err (ErrNew "object types must be uniform across the set")
      else rest ← filter_loop objectType check objects';
           Ok (if is_ok (check (RBACObject o)) then o :: rest else rest)
  end.

Definition Filter (objects : list O) : res (list O) :=
  match objects with
  | [] => Ok []
  | o :: _ =>
      let objectType := (RBACObject o).(Object_Type) in
      if bool_decide (length objects < 10) then
        filter_loop objectType (ByRoleName subjID subjRoles scope groups action) objects
      else
        match PrepareByRoleName subjID subjRoles scope groups action objectType with
        | Ok prepared => filter_loop objectType prepared objects
        | Err e => Err (ErrWrap "prepare" e)
        | Panic m => Panic m
        end
  end.
End filter.
