(* ===== verification/RbacProps.v ===== *)
(** * Role-based access control: theorems

    What the policy decides (levels, negative permissions, organizations,
    scopes), what the built-in roles grant, that filtering a list agrees with
    checking its elements, and the role-name and role-difference helpers. *)

From Stdlib Require Import Ascii.
From stdpp Require Import prelude gmap strings.
From S2P Require Import Prelude Rbac.

(** ** Sets of verdicts *)

Lemma number_range s : number s = 0%Z ∨ number s = 1%Z ∨ number s = (-1)%Z.
Proof. unfold number. repeat case_decide; auto. Qed.

Lemma number_pos s : number s = 1%Z ↔ true ∈ s ∧ false ∉ s.
Proof.
  unfold number. repeat case_decide; subst; split; try done; try set_solver.
  intros _. split; [|done].
  destruct (set_choose_or_empty s) as [[[] ?]|?]; set_solver.
Qed.

Lemma number_neg s : number s = (-1)%Z ↔ false ∈ s.
Proof. unfold number. repeat case_decide; subst; split; try done; set_solver. Qed.

Lemma elem_of_verdicts i perms b :
  b ∈ verdicts i perms ↔
  ∃ p, p ∈ perms ∧ perm_matches i p = true ∧ b = negb p.(Permission_Negate).
Proof.
  unfold verdicts. rewrite elem_of_list_to_set, list_elem_of_fmap.
  setoid_rewrite list_elem_of_filter. setoid_rewrite Is_true_true.
  unfold bool_flip, compose. naive_solver.
Qed.

(** A list of permissions with no negative one. *)
Definition positive (perms : list Permission) : Prop :=
  ∀ p, p ∈ perms → p.(Permission_Negate) = false.

Lemma number_positive i perms :
  positive perms →
  number (verdicts i perms) ≠ (-1)%Z ∧
  (number (verdicts i perms) = 1%Z ↔ ∃ p, p ∈ perms ∧ perm_matches i p = true).
Proof.
  intros Hpos.
  assert (false ∉ verdicts i perms) as Hf.
  { rewrite elem_of_verdicts. intros (p & Hp & _ & E). by rewrite (Hpos p Hp) in E. }
  rewrite number_neg, number_pos. split; [done|]. rewrite elem_of_verdicts.
  split; [naive_solver|]. intros (p & Hp & Hm). split; [|done].
  exists p. by rewrite (Hpos p Hp).
Qed.

(** ** Levels *)

(** What a list of permissions says of a request: some matching permission
    allows it, or some matching permission denies it. *)
Definition grants (i : policy_input) (perms : list Permission) : Prop :=
  ∃ p, p ∈ perms ∧ perm_matches i p = true ∧ p.(Permission_Negate) = false.
Definition denies (i : policy_input) (perms : list Permission) : Prop :=
  ∃ p, p ∈ perms ∧ perm_matches i p = true ∧ p.(Permission_Negate) = true.

(** The permissions the subject holds at each level for the object. *)
Definition site_perms (i : policy_input) : list Permission :=
  i.(input_subject).(subject_Roles) ≫= Role_Site.
Definition org_perms (i : policy_input) : list Permission :=
  i.(input_subject).(subject_Roles) ≫=
    λ r, default [] (r.(Role_Org) !! i.(input_object).(Object_OrgID)).
Definition owns (i : policy_input) : Prop :=
  i.(input_object).(Object_Owner) ≠ "" ∧
  i.(input_subject).(subject_ID) = i.(input_object).(Object_Owner).
Definition user_perms (i : policy_input) : list Permission :=
  i.(input_subject).(subject_Roles) ≫= Role_User.
Definition in_org (i : policy_input) : Prop :=
  i.(input_object).(Object_OrgID) = "" ∨ i.(input_object).(Object_OrgID) ∈ org_members i.

Lemma number_grants i perms :
  number (verdicts i perms) = 1%Z ↔ grants i perms ∧ ¬ denies i perms.
Proof.
  rewrite number_pos, !elem_of_verdicts. unfold grants, denies.
  split; intros [H1 H2]; split.
  - destruct H1 as (p & ? & ? & E). exists p. by destruct (Permission_Negate p).
  - intros (p & ? & ? & E). apply H2. exists p. by rewrite E.
  - destruct H1 as (p & ? & ? & E). exists p. by rewrite E.
  - intros (p & ? & ? & E). apply H2. exists p. by destruct (Permission_Negate p).
Qed.

Lemma number_denies i perms : number (verdicts i perms) = (-1)%Z ↔ denies i perms.
Proof.
  rewrite number_neg, elem_of_verdicts. unfold denies.
  split; intros (p & ? & ? & E); exists p; split_and!; try done;
    destruct (Permission_Negate p); done.
Qed.

Lemma grants_nil i : ¬ grants i []. Proof. intros (p & ?%elem_of_nil & _); done. Qed.
Lemma denies_nil i : ¬ denies i []. Proof. intros (p & ?%elem_of_nil & _); done. Qed.

(** An organization no role mentions has no permissions. *)
Lemma org_perms_outside i :
  i.(input_object).(Object_OrgID) ∉ org_members i → org_perms i = [].
Proof.
  unfold org_perms, org_members. intros H.
  induction i.(input_subject).(subject_Roles) as [|r rs IH]; [done|].
  rewrite bind_cons, IH by (simpl in H; set_solver). rewrite app_nil_r.
  rewrite (not_elem_of_dom_1 (Role_Org r)); [done|simpl in H; set_solver].
Qed.

Lemma org_number i : org i = number (verdicts i (org_perms i)).
Proof.
  unfold org, org_allow. case_decide; [done|].
  by rewrite org_perms_outside.
Qed.

Lemma org_ok_iff i : org_ok i = true ↔ in_org i.
Proof.
  unfold org_ok, org_mem, in_org. repeat case_bool_decide; simpl; naive_solver.
Qed.

Lemma user_pos i : user i = 1%Z ↔ owns i ∧ grants i (user_perms i) ∧ ¬ denies i (user_perms i).
Proof.
  unfold user, user_allow, owns, user_perms.
  repeat case_bool_decide; simpl; try (split; [done|naive_solver]).
  rewrite number_grants. naive_solver.
Qed.

Lemma role_allow_iff i :
  role_allow i = true ↔
  ¬ denies i (site_perms i) ∧
  (grants i (site_perms i) ∨
   ¬ denies i (org_perms i) ∧
   (grants i (org_perms i) ∨
    owns i ∧ in_org i ∧ grants i (user_perms i) ∧ ¬ denies i (user_perms i))).
Proof.
  unfold role_allow. rewrite !orb_true_iff, !andb_true_iff, !negb_true_iff.
  rewrite !bool_decide_eq_true, !bool_decide_eq_false, org_ok_iff, user_pos.
  unfold site, site_allow. fold (site_perms i). rewrite org_number.
  rewrite !number_grants, !number_denies. tauto.
Qed.

(** C4: how the role rules of the policy decide. A higher level overrides a lower one,
    and at one level a negative permission overrides a positive one: a request is allowed
    when no site permission denies it and either a site permission grants it, or no
    permission of the object's organization denies it and either one of these grants it,
    or the subject owns the object, is in its organization if it has one, and a user
    permission grants it that none denies. *)
Theorem role_allow_levels i :
  role_allow i = true ↔
  ¬ denies i (site_perms i) ∧
  (grants i (site_perms i) ∨
   ¬ denies i (org_perms i) ∧
   (grants i (org_perms i) ∨
    owns i ∧ in_org i ∧ grants i (user_perms i) ∧ ¬ denies i (user_perms i))).
Proof. apply role_allow_iff. Qed.

Lemma scope_allow_iff i :
  scope_allow i = true ↔
  grants i i.(input_subject).(subject_Scope).(Role_Site) ∧
  ¬ denies i i.(input_subject).(subject_Scope).(Role_Site).
Proof.
  unfold scope_allow, scope_org, scope_user. simpl.
  rewrite !andb_false_r, !orb_false_r, bool_decide_eq_true.
  unfold scope_site, site_allow. rewrite number_grants. simpl. by rewrite app_nil_r.
Qed.

(** An API key scope limits by its site permissions only. The rules for
    its organization and user permissions read an undefined part of the input
    and never hold. *)
Theorem scope_allow_site_only i :
  scope_allow i = true ↔
  grants i i.(input_subject).(subject_Scope).(Role_Site) ∧
  ¬ denies i i.(input_subject).(subject_Scope).(Role_Site).
Proof. apply scope_allow_iff. Qed.

Lemma allow_iff i :
  allow i = true ↔ scope_allow i = true ∧ (role_allow i = true ∨ acl_allow i = true).
Proof. unfold allow. rewrite orb_true_iff, !andb_true_iff. tauto. Qed.

(** C12: isolation of organizations. A subject with no role in the object's
    organization, no site permission that grants the request, and no entry in
    the object's user list is not allowed, whatever its groups, user
    permissions and scope are. *)
Theorem org_isolation i
  (Horg : i.(input_object).(Object_OrgID) ≠ "")
  (Hout : i.(input_object).(Object_OrgID) ∉ org_members i)
  (Hsite : ¬ grants i (site_perms i))
  (Hacl : i.(input_object).(Object_ACLUserList) !! i.(input_subject).(subject_ID) = None) :
  allow i = false.
Proof.
  apply not_true_iff_false. rewrite allow_iff. intros [_ [Hr|Ha]].
  - rewrite role_allow_iff, org_perms_outside in Hr by done.
    unfold in_org in Hr. pose proof (grants_nil i). tauto.
  - unfold acl_allow, org_mem in Ha. rewrite Hacl in Ha.
    rewrite (bool_decide_eq_false_2 _ Hout), andb_false_r in Ha. done.
Qed.
Lemma org_isolation_witness :
  allow (mkInput
    (mkSubject "alice" [role_member ""; role_orgMember "org1"] ["g"]
       (mkRole "s" "" [mkPermission false "*" "*"] ∅ []))
    (mkObject "alice" "org2" "workspace" ∅ {[ "g" := ["*"] ]}) "read") = false.
Proof.
  apply org_isolation; [done | vm_compute; set_solver | | done].
  intros (p & Hp & Hm & _). vm_compute in Hp.
  repeat (apply elem_of_cons in Hp as [->|Hp]; [by vm_compute in Hm|]).
  by apply elem_of_nil in Hp.
Defined.

(** ** Built-in roles *)

Lemma lookup_name_elem {V} k (m : list (string * V)) v :
  lookup_name k m = Some v → (k, v) ∈ m.
Proof.
  unfold lookup_name. induction m as [|[k' v'] m IH]; simpl; [done|].
  case_bool_decide; simpl; intros; simplify_eq; [by left|right; auto].
Qed.

(** A role with no negative permission. *)
Definition role_positive (r : Role) : Prop :=
  positive r.(Role_Site) ∧ (∀ o, positive (default [] (r.(Role_Org) !! o))) ∧
  positive r.(Role_User).

Lemma positive_dec perms : forallb (λ p, negb p.(Permission_Negate)) perms = true → positive perms.
Proof.
  intros H p Hp. rewrite forallb_forall in H.
  specialize (H p). rewrite <-list_elem_of_In in H. by destruct (Permission_Negate p); [naive_solver|].
Qed.

Lemma positive_singleton k ps o :
  positive ps → positive (default [] (({[k := ps]} : gmap string (list Permission)) !! o)).
Proof.
  intros. destruct (decide (k = o)) as [->|].
  - by rewrite lookup_singleton_eq.
  - rewrite lookup_singleton_ne by done. by apply positive_dec.
Qed.

Lemma positive_empty o : positive (default [] ((∅ : gmap string (list Permission)) !! o)).
Proof. rewrite lookup_empty. by apply positive_dec. Qed.

Lemma builtin_positive k f o : (k, f) ∈ builtInRoles → role_positive (f o).
Proof.
  intros H. repeat (apply elem_of_cons in H as [H|H]; [simplify_eq|]).
  8: by apply elem_of_nil in H.
  all: split_and!; try (by apply positive_dec); intros o'.
  all: first [apply positive_empty | by apply positive_singleton, positive_dec].
Qed.

Lemma RoleByName_builtin n r :
  RoleByName n = Ok r →
  ∃ name orgID f, roleSplit n = Ok (name, orgID) ∧ (name, f) ∈ builtInRoles ∧ r = f orgID ∧
    (r.(Role_Org) ≠ ∅ → orgID ≠ "").
Proof.
  unfold RoleByName. destruct (roleSplit n) as [[name orgID]| |]; [|done..].
  destruct (lookup_name name builtInRoles) as [f|] eqn:Hf; [|done].
  apply lookup_name_elem in Hf. intros H. exists name, orgID, f.
  repeat case_bool_decide; simpl in H; simplify_eq; split_and!; naive_solver.
Qed.

Lemma RolesByNames_elem names rs :
  RolesByNames names = Ok rs → ∀ r, r ∈ rs ↔ ∃ n, n ∈ names ∧ RoleByName n = Ok r.
Proof.
  revert rs. induction names as [|n names IH]; simpl; intros rs H r.
  { simplify_eq. set_solver. }
  destruct (RoleByName n) as [r0| |] eqn:Hn; [|done..].
  destruct (RolesByNames names) as [rs0| |] eqn:Hrs; simpl in H; simplify_eq.
  rewrite elem_of_cons, (IH rs0 eq_refl). setoid_rewrite elem_of_cons.
  split; [naive_solver|]. intros (n' & [->|?] & ?); [left; congruence|naive_solver].
Qed.

Lemma RolesByNames_positive names rs r :
  RolesByNames names = Ok rs → r ∈ rs → role_positive r.
Proof.
  intros H Hr. rewrite (RolesByNames_elem _ _ H) in Hr. destruct Hr as (n & _ & Hn).
  apply RoleByName_builtin in Hn as (name & orgID & f & _ & ? & -> & _).
  by eapply builtin_positive.
Qed.

Lemma grants_bind {i} {f : Role → list Permission} {roles} :
  grants i (roles ≫= f) ↔ ∃ r, r ∈ roles ∧ grants i (f r).
Proof. unfold grants. setoid_rewrite list_elem_of_bind. naive_solver. Qed.
Lemma denies_bind {i} {f : Role → list Permission} {roles} :
  denies i (roles ≫= f) ↔ ∃ r, r ∈ roles ∧ denies i (f r).
Proof. unfold denies. setoid_rewrite list_elem_of_bind. naive_solver. Qed.
Lemma denies_positive i perms : positive perms → ¬ denies i perms.
Proof. intros Hp (p & Hin & _ & E). by rewrite (Hp p Hin) in E. Qed.

(** Without negative permissions the levels add up. *)
Lemma role_allow_positive i :
  (∀ r, r ∈ i.(input_subject).(subject_Roles) → role_positive r) →
  role_allow i = true ↔
  grants i (site_perms i) ∨ grants i (org_perms i) ∨
  owns i ∧ in_org i ∧ grants i (user_perms i).
Proof.
  intros Hpos. rewrite role_allow_iff. unfold site_perms, org_perms, user_perms.
  rewrite !denies_bind.
  assert (∀ f : Role → list Permission,
    (∀ r, role_positive r → positive (f r)) →
    ¬ ∃ r, r ∈ subject_Roles (input_subject i) ∧ denies i (f r)) as Hno.
  { intros f Hf (r & Hr & Hd). by eapply denies_positive, Hd; apply Hf, Hpos. }
  pose proof (Hno Role_Site (λ r H, proj1 H)).
  pose proof (Hno (λ r, default [] (r.(Role_Org) !! i.(input_object).(Object_OrgID)))
    (λ r H, proj1 (proj2 H) _)).
  pose proof (Hno Role_User (λ r H, proj2 (proj2 H))).
  tauto.
Qed.

Lemma elem_of_org_members i o :
  o ∈ org_members i ↔
  ∃ r, r ∈ i.(input_subject).(subject_Roles) ∧ o ∈ dom r.(Role_Org).
Proof.
  unfold org_members. rewrite elem_of_union_list. setoid_rewrite list_elem_of_fmap. naive_solver.
Qed.

(** The input for a subject's roles. *)
Definition request (subj : string) (roles : list Role) (scope : Role) (groups : list string)
    (action : string) (o : Object) : policy_input :=
  mkInput (mkSubject subj roles groups scope) o action.

Lemma ByRoleName_ok subj names scope groups action o :
  rego_ByRoleName subj names scope groups action o = Ok tt ↔
  ∃ rs sr, RolesByNames names = Ok rs ∧ ScopeRole scope = Ok sr ∧
    allow (request subj rs sr groups action o) = true.
Proof.
  unfold rego_ByRoleName, Authorize, request.
  destruct (RolesByNames names) as [rs| |]; simpl; [|naive_solver..].
  destruct (ScopeRole scope) as [sr| |]; simpl; [|naive_solver..].
  destruct (allow _) eqn:E; split; try done.
  - intros _. by exists rs, sr.
  - intros (rs' & sr' & ? & ? & ?). simplify_eq. congruence.
Qed.

(** More roles, as sets, never lose a permission without negative ones. *)
Lemma allow_mono subj rs rs' sr groups action o :
  (∀ r, r ∈ rs → role_positive r) → (∀ r, r ∈ rs' → role_positive r) → rs ⊆ rs' →
  allow (request subj rs sr groups action o) = true →
  allow (request subj rs' sr groups action o) = true.
Proof.
  intros Hp Hp' Hsub. rewrite !allow_iff. intros [Hs Ha].
  assert (org_members (request subj rs sr groups action o) ⊆
          org_members (request subj rs' sr groups action o)) as Hm.
  { intros x. rewrite !elem_of_org_members. simpl. set_solver. }
  split; [by rewrite scope_allow_iff in *|]. destruct Ha as [Ha|Ha].
  - left. rewrite role_allow_positive in Ha |- * by done.
    unfold site_perms, org_perms, user_perms, in_org, owns in *.
    rewrite !grants_bind in Ha. rewrite !grants_bind. unfold grants in *.
    change (perm_matches (request subj rs' sr groups action o))
      with (perm_matches (request subj rs sr groups action o)).
    simpl in *. set_solver.
  - right. revert Ha. unfold acl_allow, org_mem. simpl.
    rewrite !orb_true_iff, !andb_true_iff, !bool_decide_eq_true. set_solver.
Qed.

(** Built-in roles only add access. If a subject is allowed with some
    role names, it is allowed with any list of valid role names that contains
    them. *)
Theorem ByRoleName_monotone subj names names' scope groups action o rs'
  (Hok : rego_ByRoleName subj names scope groups action o = Ok tt)
  (Hsub : names ⊆ names')
  (Hvalid : RolesByNames names' = Ok rs') :
  rego_ByRoleName subj names' scope groups action o = Ok tt.
Proof.
  apply ByRoleName_ok in Hok as (rs & sr & Hrs & Hsr & Ha).
  apply ByRoleName_ok. exists rs', sr. split_and!; try done.
  revert Ha. apply allow_mono.
  - intros r. by apply (RolesByNames_positive names).
  - intros r. by apply (RolesByNames_positive names').
  - intros r. rewrite (RolesByNames_elem _ _ Hrs), (RolesByNames_elem _ _ Hvalid). set_solver.
Qed.
Lemma ByRoleName_monotone_witness :
  rego_ByRoleName "u" ["member"; "auditor"] ScopeAll [] "read" ResourceAuditLog = Ok tt.
Proof.
  apply (ByRoleName_monotone "u" ["auditor"] ["member"; "auditor"] ScopeAll [] "read"
           ResourceAuditLog [role_member ""; role_auditor ""]);
    [by vm_compute | set_solver | by vm_compute].
Defined.

(** An owner with an unrestricted key can do anything to anything. *)
Theorem owner_allowed subj names groups action o rs
  (Hvalid : RolesByNames names = Ok rs) (Howner : RoleOwner ∈ names) :
  rego_ByRoleName subj names ScopeAll groups action o = Ok tt.
Proof.
  apply ByRoleName_ok. eexists rs, _. split_and!; [done|by vm_compute|].
  apply allow_iff. rewrite scope_allow_iff, role_allow_positive.
  2: { intros r. by apply (RolesByNames_positive names). }
  assert (∀ i, grants i [mkPermission false "*" "*"]) as Hg.
  { intros i. exists (mkPermission false "*" "*"). split_and!; [set_solver| |done].
    unfold perm_matches. rewrite !bool_decide_eq_true_2; set_solver. }
  assert (∀ i, ¬ denies i [mkPermission false "*" "*"]) as Hd.
  { intros i. by apply denies_positive, positive_dec. }
  split; [split; [apply Hg|apply Hd]|]. left. left.
  unfold site_perms. rewrite grants_bind. exists (role_owner ""). split; [|apply Hg].
  apply (RolesByNames_elem _ _ Hvalid). by exists RoleOwner.
Qed.
Lemma owner_allowed_witness :
  rego_ByRoleName "u" ["member"; "owner"] ScopeAll [] "delete"
    (mkObject "v" "org" "workspace" ∅ ∅) = Ok tt.
Proof.
  apply (owner_allowed "u" ["member"; "owner"] [] "delete" _ [role_member ""; role_owner ""]);
    [by vm_compute | vm_compute; set_solver].
Defined.

(** A key scoped to application connections can connect to applications
    and nothing else: whatever the roles and groups, an allowed request is a
    [create] on an [application_connect] object. *)
Theorem application_connect_only subj names groups action o
  (Hok : rego_ByRoleName subj names ScopeApplicationConnect groups action o = Ok tt) :
  action = ActionCreate ∧ o.(Object_Type) = "application_connect".
Proof.
  apply ByRoleName_ok in Hok as (rs & sr & _ & Hsr & Ha).
  vm_compute in Hsr. simplify_eq. apply allow_iff in Ha as [Hs _].
  apply scope_allow_iff in Hs as [(p & Hp & Hm & _) _]. simpl in Hp.
  apply list_elem_of_singleton in Hp as ->. unfold perm_matches in Hm. simpl in Hm.
  apply andb_true_iff in Hm as [H1%bool_decide_eq_true H2%bool_decide_eq_true].
  unfold ActionCreate. set_solver.
Qed.
Lemma application_connect_only_witness :
  "create" = ActionCreate ∧
  ResourceWorkspaceApplicationConnect.(Object_Type) = "application_connect".
Proof.
  apply (application_connect_only "u" ["owner"] [] "create" ResourceWorkspaceApplicationConnect).
  by vm_compute.
Defined.

(** A member has full control of what it owns: with the member role and,
    for an object of an organization, a role in that organization, every
    action on an object the subject owns is allowed. *)
Theorem member_owns subj names groups action o rs
  (Hvalid : RolesByNames names = Ok rs) (Hmember : RoleMember ∈ names)
  (Hsubj : subj ≠ "") (Howner : o.(Object_Owner) = subj)
  (Horg : o.(Object_OrgID) = "" ∨ roleName orgMember o.(Object_OrgID) ∈ names ∧
          roleSplit (roleName orgMember o.(Object_OrgID)) = Ok (orgMember, o.(Object_OrgID))) :
  rego_ByRoleName subj names ScopeAll groups action o = Ok tt.
Proof.
  apply ByRoleName_ok. eexists rs, _. split_and!; [done|by vm_compute|].
  set (i := request _ _ _ _ _ _).
  assert (grants i [mkPermission false "*" "*"]) as Hg.
  { exists (mkPermission false "*" "*"). split_and!; [set_solver| |done].
    unfold perm_matches. rewrite !bool_decide_eq_true_2; set_solver. }
  apply allow_iff. rewrite scope_allow_iff, role_allow_positive.
  2: { intros r. by apply (RolesByNames_positive names). }
  split; [split; [done|by apply denies_positive, positive_dec]|].
  left. right. right. split_and!.
  - by rewrite <-Howner in *.
  - unfold in_org. destruct Horg as [|[Hin Hsplit]]; [by left|].
    destruct (decide (o.(Object_OrgID) = "")) as [|Hne]; [by left|]. right.
    apply elem_of_org_members. exists (role_orgMember o.(Object_OrgID)). split.
    + apply (RolesByNames_elem _ _ Hvalid). eexists. split; [done|].
      unfold RoleByName. rewrite Hsplit. simpl.
      by rewrite (bool_decide_eq_false_2 _ Hne), andb_false_r.
    + simpl. set_solver.
  - unfold user_perms. rewrite grants_bind. exists (role_member ""). split; [|done].
    apply (RolesByNames_elem _ _ Hvalid). by exists RoleMember.
Qed.
Lemma member_owns_witness :
  rego_ByRoleName "u" ["member"; "organization-member:o1"] ScopeAll [] "update"
    (mkObject "u" "o1" "workspace" ∅ ∅) = Ok tt.
Proof.
  apply (member_owns "u" ["member"; "organization-member:o1"] [] "update" _
           [role_member ""; role_orgMember "o1"]); try done.
  - vm_compute. set_solver.
  - right. split; [vm_compute; set_solver | by vm_compute].
Defined.

(** ** Role names *)

Definition no_colon (s : string) : Prop := ":"%char ∉ String.list_ascii_of_string s.

Lemma Split_no_colon s : no_colon s → Split s ":"%char = [s].
Proof.
  unfold no_colon. induction s as [|c s IH]; simpl; [done|]. intros H.
  rewrite bool_decide_eq_false_2 by set_solver. by rewrite IH by set_solver.
Qed.
Lemma Split_app_colon s t :
  no_colon s → no_colon t → Split (s +:+ ":" +:+ t) ":"%char = [s; t].
Proof.
  intros Hs Ht. induction s as [|c s IH].
  - simpl. by rewrite Split_no_colon.
  - unfold no_colon in *. simpl in *. rewrite bool_decide_eq_false_2 by set_solver.
    by rewrite IH by set_solver.
Qed.

(** A role name built from a name and an organization splits back into
    them. *)
Theorem roleSplit_roleName name orgID
  (Hname : no_colon name) (Horg : no_colon orgID) (Hne : name ≠ "") :
  roleSplit (roleName name orgID) = Ok (name, orgID).
Proof.
  unfold roleSplit, roleName. destruct (decide (orgID = "")) as [->|H].
  - rewrite (bool_decide_eq_true_2 _ eq_refl), Split_no_colon by done. simpl.
    by rewrite (bool_decide_eq_false_2 (name = "")).
  - rewrite (bool_decide_eq_false_2 _ H), Split_app_colon by done. simpl.
    by rewrite (bool_decide_eq_false_2 (name = "")).
Qed.
Lemma roleSplit_roleName_witness :
  roleSplit (roleName orgAdmin "a1") = Ok (orgAdmin, "a1").
Proof. apply roleSplit_roleName; [..|done]; vm_compute; set_solver. Defined.

Lemma CanAssignRole_privileged roles assignedRole assigned assignedOrg :
  roleSplit assignedRole = Ok (assigned, assignedOrg) →
  assigned ∈ [owner; auditor; templateAdmin; userAdmin] →
  CanAssignRole roles assignedRole = true →
  ∃ longRole orgID, longRole ∈ roles ∧ roleSplit longRole = Ok (owner, orgID) ∧
    (orgID = "" ∨ orgID = assignedOrg).
Proof.
  intros Hsplit Hpriv Hcan. unfold CanAssignRole in Hcan. rewrite Hsplit, existsb_exists in Hcan.
  destruct Hcan as (lr & Hin%list_elem_of_In & H).
  destruct (roleSplit lr) as [[role orgID]| |] eqn:Hlr; [|done..].
  exists lr, orgID.
  assert (orgID = "" ∨ orgID = assignedOrg) as Ho.
  { repeat case_bool_decide; simpl in H; naive_solver. }
  assert (∃ allowed, lookup_name role assignRoles = Some allowed ∧ assigned ∈ allowed)
    as (allowed & Hl & Ha).
  { destruct (_ && _); [done|]. destruct (lookup_name role assignRoles); [|done].
    apply bool_decide_eq_true in H. eauto. }
  apply lookup_name_elem in Hl.
  repeat (apply elem_of_cons in Hl as [Hl|Hl]; [simplify_eq|]);
    [done| exfalso; vm_compute in Hpriv, Ha; set_solver..|by apply elem_of_nil in Hl].
Qed.

(** Only an owner can assign or remove the owner, auditor, template-admin
    and user-admin roles. *)
Theorem privileged_roles_owner_only roles assignedRole assigned assignedOrg
  (Hsplit : roleSplit assignedRole = Ok (assigned, assignedOrg))
  (Hpriv : assigned ∈ [owner; auditor; templateAdmin; userAdmin])
  (Hcan : CanAssignRole roles assignedRole = true) :
  ∃ longRole orgID, longRole ∈ roles ∧ roleSplit longRole = Ok (owner, orgID) ∧
    (orgID = "" ∨ orgID = assignedOrg).
Proof. by apply (CanAssignRole_privileged roles assignedRole assigned). Qed.
Lemma privileged_roles_owner_only_witness :
  ∃ longRole orgID, longRole ∈ ["member"; "owner"] ∧ roleSplit longRole = Ok (owner, orgID) ∧
    (orgID = "" ∨ orgID = "").
Proof.
  apply (privileged_roles_owner_only ["member"; "owner"] "user-admin" userAdmin "");
    [by vm_compute | vm_compute; set_solver | by vm_compute].
Defined.

Lemma change_roles_spec has to :
  NoDup to →
  change_roles has to = (filter (λ r, r ∉ has) to, has ∖ list_to_set to).
Proof.
  revert has. induction to as [|r to IH]; intros has Hnd.
  { simpl. f_equal. set_solver. }
  apply NoDup_cons in Hnd as [Hr Hnd]. simpl. case_decide as Hin.
  - rewrite IH, filter_cons_False by (done || tauto). f_equal.
    + apply list_filter_iff_in. set_solver.
    + set_solver.
  - rewrite IH, filter_cons_True by done. f_equal. set_solver.
Qed.

(** [ChangeRoleSet] computes the two differences: a role is added when it
    is wanted and not held, in the order wanted, and removed when it is held
    and not wanted. *)
Theorem ChangeRoleSet_difference from to (Hto : NoDup to) :
  ChangeRoleSet from to =
    (filter (λ r, r ∉ from) to, (list_to_set from : gset string) ∖ list_to_set to).
Proof.
  unfold ChangeRoleSet. rewrite change_roles_spec by done. f_equal.
  apply list_filter_iff. intros r. by rewrite elem_of_list_to_set.
Qed.
Lemma ChangeRoleSet_difference_witness :
  ChangeRoleSet ["a"; "b"] ["b"; "c"] =
    (filter (λ r, r ∉ ["a"; "b"]) ["b"; "c"],
     (list_to_set ["a"; "b"] : gset string) ∖ list_to_set ["b"; "c"]).
Proof. apply ChangeRoleSet_difference. by apply (bool_decide_unpack _). Defined.

(** ** Filtering *)

Section filter_props.
Context `{!Authorizer} {O : Type} (RBACObject : O → Object).
Context (subjID : string) (subjRoles : list string) (scope : string).
Context (groups : list string) (action : string).

Lemma filter_loop_uniform ty check objects :
  (∀ o, o ∈ objects → (RBACObject o).(Object_Type) = ty) →
  filter_loop RBACObject ty check objects =
    Ok (filter (λ o, is_ok (check (RBACObject o))) objects).
Proof.
  induction objects as [|o objects IH]; intros Hu; simpl; [done|].
  rewrite bool_decide_eq_true_2 by (apply Hu; set_solver). simpl.
  rewrite IH by set_solver. simpl. rewrite filter_cons.
  destruct (is_ok (check (RBACObject o))) eqn:E; by case_decide; rewrite ?E in *.
Qed.

Lemma filter_loop_mixed ty check objects o l :
  o ∈ objects → (RBACObject o).(Object_Type) ≠ ty →
  filter_loop RBACObject ty check objects ≠ Ok l.
Proof.
  intros Ho Hty. revert l. induction objects as [|o' objects IH]; [by apply elem_of_nil in Ho|].
  intros l. simpl. apply elem_of_cons in Ho as [<-|Ho].
  - by rewrite bool_decide_eq_false_2.
  - case_bool_decide; simpl; [|done].
    specialize (IH Ho). destruct (filter_loop _ _ _ _) as [l'| |]; simpl; [|done..].
    by destruct (IH l').
Qed.

(** A list of objects of more than one type is refused. *)
Theorem Filter_mixed objects o o' l
  (Ho : o ∈ objects) (Ho' : o' ∈ objects)
  (Hne : (RBACObject o).(Object_Type) ≠ (RBACObject o').(Object_Type)) :
  Filter RBACObject subjID subjRoles scope groups action objects ≠ Ok l.
Proof.
  destruct objects as [|h objects]; [by apply elem_of_nil in Ho|]. unfold Filter.
  assert (∃ x, x ∈ h :: objects ∧ (RBACObject x).(Object_Type) ≠ (RBACObject h).(Object_Type))
    as (x & Hx & Hxne).
  { destruct (decide ((RBACObject o).(Object_Type) = (RBACObject h).(Object_Type))).
    - exists o'. split; [done|congruence].
    - by exists o. }
  case_bool_decide; [by eapply filter_loop_mixed|].
  destruct (PrepareByRoleName _ _ _ _ _ _); [by eapply filter_loop_mixed|done..].
Qed.
End filter_props.

(** ** The prepared authorizer *)

Section rego_authorizer.
Context `{!Opa, !OpaLaws}.

Lemma query_true_holds policy known queries q eval o :
  rego_Partial policy known = Ok queries → q ∈ queries → PrepareForEval q = Ok eval →
  query_true o eval = Body_holds q o.
Proof.
  intros Hpart Hq Hprep. pose proof (eval_condition _ _ _ _ _ o Hpart Hq Hprep) as Heval.
  unfold query_true. destruct (Body_holds q o); [|by rewrite Heval].
  destruct Heval as [n ->]. simpl. by induction n as [|n IH].
Qed.

Lemma existsb_snoc {A} (f : A → bool) l x : existsb f (l ++ [x]) = existsb f l || f x.
Proof. rewrite existsb_app. simpl. by rewrite orb_false_r. Qed.

(** The loop keeps what its queries mean: those it has prepared and those to come. *)
Lemma prepare_queries_decide policy known all queries prepared pa o :
  rego_Partial policy known = Ok all → (∀ q, q ∈ queries → q ∈ all) →
  prepare_queries prepared queries = Ok pa →
  pa.(alwaysTrue) || existsb (query_true o) pa.(preparedQueries) =
  existsb (query_true o) prepared || existsb (λ q, Body_holds q o) queries.
Proof.
  intros Hpart. revert prepared. induction queries as [|q queries IH]; intros prepared Hall; simpl.
  - intros [= <-]. simpl. by rewrite orb_false_r.
  - case_bool_decide as Hempty.
    + intros [= <-]. rewrite (empty_holds q o Hempty). simpl. by rewrite orb_true_r.
    + destruct (PrepareForEval q) as [eval|e|m] eqn:Hprep; [|done..]. intros Hrun.
      rewrite (IH (prepared ++ [eval])) by (done || set_solver). rewrite existsb_snoc.
      rewrite (query_true_holds policy known all q eval o) by (done || set_solver).
      by rewrite orb_assoc.
Qed.

(** The decision of the policy on a request of a subject by the names of its roles. *)
Definition policy_allows subj names scope groups action (o : Object) : bool :=
  match RolesByNames names, ScopeRole scope with
  | Ok roles, Ok scopeRole => allow (mkInput (mkSubject subj roles groups scopeRole) o action)
  | _, _ => false
  end.

Lemma rego_ByRoleName_allows subj names scope groups action o :
  rego_ByRoleName subj names scope groups action o = Ok tt ↔
  policy_allows subj names scope groups action o = true.
Proof.
  unfold rego_ByRoleName, policy_allows. destruct (RolesByNames names); simpl; [|done..].
  destruct (ScopeRole scope); simpl; [|done..]. unfold Authorize. by destruct (allow _).
Qed.

Lemma rego_prepared subj names scope groups action ty pa o :
  rego_PrepareByRoleName subj names scope groups action ty = Ok pa →
  o.(Object_Type) = ty →
  PartialAuthorizer_Authorize pa o = rego_ByRoleName subj names scope groups action o.
Proof.
  unfold rego_PrepareByRoleName, rego_ByRoleName.
  destruct (RolesByNames names) as [rs| |]; simpl; [|done..].
  destruct (ScopeRole scope) as [sr| |]; simpl; [|done..].
  unfold rego_Prepare, newPartialAuthorizer.
  destruct (rego_Partial allow _) as [queries|e|m] eqn:Hpart; simpl; [|done..].
  destruct (prepare_queries [] queries) as [pa'| |] eqn:Hloop; simpl; [|done..].
  intros [= <-] Hty.
  pose proof (prepare_queries_decide _ _ _ _ _ _ o Hpart (λ q Hq, Hq) Hloop) as Hdec.
  pose proof (partial_keeps _ _ _ o Hpart Hty) as Hkeep. simpl in Hdec, Hkeep.
  unfold PartialAuthorizer_Authorize, Authorize. rewrite Hkeep, <-Hdec.
  by destruct (alwaysTrue pa'), (existsb _ _).
Qed.

(** The authorizer of the server keeps the promise of the interface. *)
#[export] Instance rego_authorizer_laws : @AuthorizerLaws rego_authorizer.
Proof.
  split. intros subj roles scope groups action ty p o Hprep Hty. simpl in Hprep.
  destruct (rego_PrepareByRoleName _ _ _ _ _ _) as [pa| |] eqn:Hpa; simpl in Hprep; [|done..].
  injection Hprep as <-. by rewrite (rego_prepared _ _ _ _ _ _ _ _ Hpa Hty).
Qed.

(** C11: what filtering a list with the authorizer of the server returns, for objects of
    one type. It is the list of just the objects the policy, evaluated in full on each,
    lets the subject act on, in order; the object by object decision for fewer than ten
    objects and the queries [newPartialAuthorizer] prepares for more come to the same.
    Only if there are ten objects or more and preparing the queries fails is the
    result an error, the one of preparing. *)
Theorem Filter_exact {O : Type} (RBACObject : O → Object) subj names scope groups action objects ty
    (Hty : ∀ o, o ∈ objects → (RBACObject o).(Object_Type) = ty) :
  @Filter rego_authorizer O RBACObject subj names scope groups action objects =
    let allowed := filter (λ o, policy_allows subj names scope groups action (RBACObject o)) objects in
    if bool_decide (length objects < 10) then Ok allowed
    else match rego_PrepareByRoleName subj names scope groups action ty with
         | Ok _ => Ok allowed
         | Err e => Err (ErrWrap "prepare" e)
         | Panic m => Panic m
         end.
Proof.
  cbv zeta. destruct objects as [|o objects]; [done|]. unfold Filter.
  rewrite (Hty o) by set_solver. case_bool_decide.
  - rewrite filter_loop_uniform by done. f_equal. apply list_filter_iff. intros x.
    pose proof (rego_ByRoleName_allows subj names scope groups action (RBACObject x)) as Hx. simpl.
    rewrite !Is_true_true, <-Hx. destruct (rego_ByRoleName _ _ _ _ _ _) as [[]| |]; by split.
  - cbn [PrepareByRoleName rego_authorizer].
    destruct (rego_PrepareByRoleName _ _ _ _ _ _) as [pa|e|m] eqn:Hpa; [|done..].
    cbv [mbind res_bind]. rewrite filter_loop_uniform by done. f_equal. apply list_filter_iff_in. intros x Hx.
    rewrite (rego_prepared _ _ _ _ _ _ _ _ Hpa (Hty x Hx)).
    pose proof (rego_ByRoleName_allows subj names scope groups action (RBACObject x)) as Hallow.
    rewrite !Is_true_true, <-Hallow. destruct (rego_ByRoleName _ _ _ _ _ _) as [[]| |]; by split.
Qed.
End rego_authorizer.

(** An engine that keeps the whole policy as one query. *)
Definition whole_query : Opa := {|
  ast_Body := Object → bool;
  Body_String _ := "allow";
  rego_Partial policy known :=
    Ok [λ o, policy (mkInput known.(partial_subject) o known.(partial_action))];
  PrepareForEval q := Ok (λ o, Ok (if q o then [mkResult 0 [Some true]] else []))
|}.
Definition whole_query_laws : @OpaLaws whole_query.
Proof.
  refine (@Build_OpaLaws whole_query (λ q o, q o) _ _ _); simpl.
  - intros policy known queries o [= <-] _. simpl. by rewrite orb_false_r.
  - done.
  - intros policy known queries q eval o _ _ [= <-]. destruct (q o); [by exists 1|done].
Defined.

Lemma Filter_exact_witness :
  let objs := ResourceWorkspace :: replicate 10 (mkObject "v" "" "workspace" ∅ ∅)
              ++ [mkObject "u" "" "workspace" ∅ ∅] in
  @Filter (@rego_authorizer whole_query) Object id "u" ["member"] ScopeAll [] "read" objs =
    Ok [mkObject "u" "" "workspace" ∅ ∅].
Proof.
  intros objs.
  rewrite (@Filter_exact whole_query whole_query_laws Object id "u" ["member"] ScopeAll [] "read" objs "workspace").
  - vm_compute. reflexivity.
  - intros o. unfold objs. rewrite elem_of_cons, elem_of_app, elem_of_replicate. simpl. set_solver.
Defined.

Lemma Filter_mixed_witness :
  @Filter (@rego_authorizer whole_query) Object id "u" ["owner"] ScopeAll [] "read"
    [ResourceWorkspace; ResourceTemplate] ≠ Ok [].
Proof.
  apply (@Filter_mixed (@rego_authorizer whole_query) Object id "u" ["owner"] ScopeAll [] "read"
    [ResourceWorkspace; ResourceTemplate] ResourceWorkspace ResourceTemplate);
    [set_solver | set_solver | done].
Defined.
