(* ===== verification/Models.v ===== *)
(** * Database rows

    The column types and the rows of [coderd/database/models.go]. A Go string
    type with declared constants is an inductive type with one constructor per
    constant; [X_other s] stands for any other string, the zero value being
    [X_other ""]. A [[]byte] is a list of bytes, a [map[string]string] a finite
    map. *)

From Stdlib Require Import Init.Byte.
From stdpp Require Import prelude gmap strings.
From S2P Require Import Prelude.

Abbreviation bytes := (list Byte.byte) (only parsing).
Abbreviation StringMap := (gmap string string) (only parsing).
(** [map[string][]rbac.Action] *)
Abbreviation TemplateACL := (gmap string (list string)) (only parsing).

(** [pqtype.Inet]: a [net.IPNet] and a validity flag. *)
Record Inet := mkInet { Inet_IP : bytes; Inet_Mask : bytes; Inet_Valid : bool }.
Definition Inet_zero : Inet := mkInet [] [] false.

(** ** Column types *)

Inductive APIKeyScope :=
| APIKeyScopeAll
| APIKeyScopeApplicationConnect
| APIKeyScope_other (s : string).
#[global] Instance APIKeyScope_eq_dec : EqDecision APIKeyScope.
Proof. solve_decision. Defined.

Inductive AppSharingLevel :=
| AppSharingLevelOwner
| AppSharingLevelAuthenticated
| AppSharingLevelPublic
| AppSharingLevel_other (s : string).
#[global] Instance AppSharingLevel_eq_dec : EqDecision AppSharingLevel.
Proof. solve_decision. Defined.

Inductive AuditAction :=
| AuditActionCreate
| AuditActionWrite
| AuditActionDelete
| AuditActionStart
| AuditActionStop
| AuditAction_other (s : string).
#[global] Instance AuditAction_eq_dec : EqDecision AuditAction.
Proof. solve_decision. Defined.

Inductive BuildReason :=
| BuildReasonInitiator
| BuildReasonAutostart
| BuildReasonAutostop
| BuildReason_other (s : string).
#[global] Instance BuildReason_eq_dec : EqDecision BuildReason.
Proof. solve_decision. Defined.

Inductive LogLevel :=
| LogLevelTrace
| LogLevelDebug
| LogLevelInfo
| LogLevelWarn
| LogLevelError
| LogLevel_other (s : string).
#[global] Instance LogLevel_eq_dec : EqDecision LogLevel.
Proof. solve_decision. Defined.

Inductive LogSource :=
| LogSourceProvisionerDaemon
| LogSourceProvisioner
| LogSource_other (s : string).
#[global] Instance LogSource_eq_dec : EqDecision LogSource.
Proof. solve_decision. Defined.

Inductive LoginType :=
| LoginTypePassword
| LoginTypeGithub
| LoginTypeOIDC
| LoginTypeToken
| LoginType_other (s : string).
#[global] Instance LoginType_eq_dec : EqDecision LoginType.
Proof. solve_decision. Defined.

Inductive ParameterDestinationScheme :=
| ParameterDestinationSchemeNone
| ParameterDestinationSchemeEnvironmentVariable
| ParameterDestinationSchemeProvisionerVariable
| ParameterDestinationScheme_other (s : string).
#[global] Instance ParameterDestinationScheme_eq_dec : EqDecision ParameterDestinationScheme.
Proof. solve_decision. Defined.

Inductive ParameterScope :=
| ParameterScopeTemplate
| ParameterScopeImportJob
| ParameterScopeWorkspace
| ParameterScope_other (s : string).
#[global] Instance ParameterScope_eq_dec : EqDecision ParameterScope.
Proof. solve_decision. Defined.

Inductive ParameterSourceScheme :=
| ParameterSourceSchemeNone
| ParameterSourceSchemeData
| ParameterSourceScheme_other (s : string).
#[global] Instance ParameterSourceScheme_eq_dec : EqDecision ParameterSourceScheme.
Proof. solve_decision. Defined.

Inductive ParameterTypeSystem :=
| ParameterTypeSystemNone
| ParameterTypeSystemHCL
| ParameterTypeSystem_other (s : string).
#[global] Instance ParameterTypeSystem_eq_dec : EqDecision ParameterTypeSystem.
Proof. solve_decision. Defined.

Inductive ProvisionerJobType :=
| ProvisionerJobTypeTemplateVersionImport
| ProvisionerJobTypeWorkspaceBuild
| ProvisionerJobTypeTemplateVersionDryRun
| ProvisionerJobType_other (s : string).
#[global] Instance ProvisionerJobType_eq_dec : EqDecision ProvisionerJobType.
Proof. solve_decision. Defined.

Inductive ProvisionerStorageMethod :=
| ProvisionerStorageMethodFile
| ProvisionerStorageMethod_other (s : string).
#[global] Instance ProvisionerStorageMethod_eq_dec : EqDecision ProvisionerStorageMethod.
Proof. solve_decision. Defined.

Inductive ProvisionerType :=
| ProvisionerTypeEcho
| ProvisionerTypeTerraform
| ProvisionerType_other (s : string).
#[global] Instance ProvisionerType_eq_dec : EqDecision ProvisionerType.
Proof. solve_decision. Defined.

Inductive ResourceType :=
| ResourceTypeOrganization
| ResourceTypeTemplate
| ResourceTypeTemplateVersion
| ResourceTypeUser
| ResourceTypeWorkspace
| ResourceTypeGitSshKey
| ResourceTypeApiKey
| ResourceTypeGroup
| ResourceTypeWorkspaceBuild
| ResourceType_other (s : string).
#[global] Instance ResourceType_eq_dec : EqDecision ResourceType.
Proof. solve_decision. Defined.

Inductive UserStatus :=
| UserStatusActive
| UserStatusSuspended
| UserStatus_other (s : string).
#[global] Instance UserStatus_eq_dec : EqDecision UserStatus.
Proof. solve_decision. Defined.

Inductive WorkspaceAppHealth :=
| WorkspaceAppHealthDisabled
| WorkspaceAppHealthInitializing
| WorkspaceAppHealthHealthy
| WorkspaceAppHealthUnhealthy
| WorkspaceAppHealth_other (s : string).
#[global] Instance WorkspaceAppHealth_eq_dec : EqDecision WorkspaceAppHealth.
Proof. solve_decision. Defined.

Inductive WorkspaceTransition :=
| WorkspaceTransitionStart
| WorkspaceTransitionStop
| WorkspaceTransitionDelete
| WorkspaceTransition_other (s : string).
#[global] Instance WorkspaceTransition_eq_dec : EqDecision WorkspaceTransition.
Proof. solve_decision. Defined.

(** A column type and its text: [string(x)] and [X(s)]. *)

Definition APIKeyScope_string (s : APIKeyScope) : string :=
  match s with
  | APIKeyScopeAll => "all"
  | APIKeyScopeApplicationConnect => "application_connect"
  | APIKeyScope_other s => s
  end.
Definition APIKeyScope_of_string (s : string) : APIKeyScope :=
  if s == "all" then APIKeyScopeAll else
  if s == "application_connect" then APIKeyScopeApplicationConnect else
  APIKeyScope_other s.

Definition AppSharingLevel_string (s : AppSharingLevel) : string :=
  match s with
  | AppSharingLevelOwner => "owner"
  | AppSharingLevelAuthenticated => "authenticated"
  | AppSharingLevelPublic => "public"
  | AppSharingLevel_other s => s
  end.
Definition AppSharingLevel_of_string (s : string) : AppSharingLevel :=
  if s == "owner" then AppSharingLevelOwner else
  if s == "authenticated" then AppSharingLevelAuthenticated else
  if s == "public" then AppSharingLevelPublic else
  AppSharingLevel_other s.

Definition AuditAction_string (s : AuditAction) : string :=
  match s with
  | AuditActionCreate => "create"
  | AuditActionWrite => "write"
  | AuditActionDelete => "delete"
  | AuditActionStart => "start"
  | AuditActionStop => "stop"
  | AuditAction_other s => s
  end.
Definition AuditAction_of_string (s : string) : AuditAction :=
  if s == "create" then AuditActionCreate else
  if s == "write" then AuditActionWrite else
  if s == "delete" then AuditActionDelete else
  if s == "start" then AuditActionStart else
  if s == "stop" then AuditActionStop else
  AuditAction_other s.

Definition BuildReason_string (s : BuildReason) : string :=
  match s with
  | BuildReasonInitiator => "initiator"
  | BuildReasonAutostart => "autostart"
  | BuildReasonAutostop => "autostop"
  | BuildReason_other s => s
  end.
Definition BuildReason_of_string (s : string) : BuildReason :=
  if s == "initiator" then BuildReasonInitiator else
  if s == "autostart" then BuildReasonAutostart else
  if s == "autostop" then BuildReasonAutostop else
  BuildReason_other s.

Definition LogLevel_string (s : LogLevel) : string :=
  match s with
  | LogLevelTrace => "trace"
  | LogLevelDebug => "debug"
  | LogLevelInfo => "info"
  | LogLevelWarn => "warn"
  | LogLevelError => "error"
  | LogLevel_other s => s
  end.
Definition LogLevel_of_string (s : string) : LogLevel :=
  if s == "trace" then LogLevelTrace else
  if s == "debug" then LogLevelDebug else
  if s == "info" then LogLevelInfo else
  if s == "warn" then LogLevelWarn else
  if s == "error" then LogLevelError else
  LogLevel_other s.

Definition LogSource_string (s : LogSource) : string :=
  match s with
  | LogSourceProvisionerDaemon => "provisioner_daemon"
  | LogSourceProvisioner => "provisioner"
  | LogSource_other s => s
  end.
Definition LogSource_of_string (s : string) : LogSource :=
  if s == "provisioner_daemon" then LogSourceProvisionerDaemon else
  if s == "provisioner" then LogSourceProvisioner else
  LogSource_other s.

Definition LoginType_string (s : LoginType) : string :=
  match s with
  | LoginTypePassword => "password"
  | LoginTypeGithub => "github"
  | LoginTypeOIDC => "oidc"
  | LoginTypeToken => "token"
  | LoginType_other s => s
  end.
Definition LoginType_of_string (s : string) : LoginType :=
  if s == "password" then LoginTypePassword else
  if s == "github" then LoginTypeGithub else
  if s == "oidc" then LoginTypeOIDC else
  if s == "token" then LoginTypeToken else
  LoginType_other s.

Definition ParameterDestinationScheme_string (s : ParameterDestinationScheme) : string :=
  match s with
  | ParameterDestinationSchemeNone => "none"
  | ParameterDestinationSchemeEnvironmentVariable => "environment_variable"
  | ParameterDestinationSchemeProvisionerVariable => "provisioner_variable"
  | ParameterDestinationScheme_other s => s
  end.
Definition ParameterDestinationScheme_of_string (s : string) : ParameterDestinationScheme :=
  if s == "none" then ParameterDestinationSchemeNone else
  if s == "environment_variable" then ParameterDestinationSchemeEnvironmentVariable else
  if s == "provisioner_variable" then ParameterDestinationSchemeProvisionerVariable else
  ParameterDestinationScheme_other s.

Definition ParameterScope_string (s : ParameterScope) : string :=
  match s with
  | ParameterScopeTemplate => "template"
  | ParameterScopeImportJob => "import_job"
  | ParameterScopeWorkspace => "workspace"
  | ParameterScope_other s => s
  end.
Definition ParameterScope_of_string (s : string) : ParameterScope :=
  if s == "template" then ParameterScopeTemplate else
  if s == "import_job" then ParameterScopeImportJob else
  if s == "workspace" then ParameterScopeWorkspace else
  ParameterScope_other s.

Definition ParameterSourceScheme_string (s : ParameterSourceScheme) : string :=
  match s with
  | ParameterSourceSchemeNone => "none"
  | ParameterSourceSchemeData => "data"
  | ParameterSourceScheme_other s => s
  end.
Definition ParameterSourceScheme_of_string (s : string) : ParameterSourceScheme :=
  if s == "none" then ParameterSourceSchemeNone else
  if s == "data" then ParameterSourceSchemeData else
  ParameterSourceScheme_other s.

Definition ParameterTypeSystem_string (s : ParameterTypeSystem) : string :=
  match s with
  | ParameterTypeSystemNone => "none"
  | ParameterTypeSystemHCL => "hcl"
  | ParameterTypeSystem_other s => s
  end.
Definition ParameterTypeSystem_of_string (s : string) : ParameterTypeSystem :=
  if s == "none" then ParameterTypeSystemNone else
  if s == "hcl" then ParameterTypeSystemHCL else
  ParameterTypeSystem_other s.

Definition ProvisionerJobType_string (s : ProvisionerJobType) : string :=
  match s with
  | ProvisionerJobTypeTemplateVersionImport => "template_version_import"
  | ProvisionerJobTypeWorkspaceBuild => "workspace_build"
  | ProvisionerJobTypeTemplateVersionDryRun => "template_version_dry_run"
  | ProvisionerJobType_other s => s
  end.
Definition ProvisionerJobType_of_string (s : string) : ProvisionerJobType :=
  if s == "template_version_import" then ProvisionerJobTypeTemplateVersionImport else
  if s == "workspace_build" then ProvisionerJobTypeWorkspaceBuild else
  if s == "template_version_dry_run" then ProvisionerJobTypeTemplateVersionDryRun else
  ProvisionerJobType_other s.

Definition ProvisionerStorageMethod_string (s : ProvisionerStorageMethod) : string :=
  match s with
  | ProvisionerStorageMethodFile => "file"
  | ProvisionerStorageMethod_other s => s
  end.
Definition ProvisionerStorageMethod_of_string (s : string) : ProvisionerStorageMethod :=
  if s == "file" then ProvisionerStorageMethodFile else
  ProvisionerStorageMethod_other s.

Definition ProvisionerType_string (s : ProvisionerType) : string :=
  match s with
  | ProvisionerTypeEcho => "echo"
  | ProvisionerTypeTerraform => "terraform"
  | ProvisionerType_other s => s
  end.
Definition ProvisionerType_of_string (s : string) : ProvisionerType :=
  if s == "echo" then ProvisionerTypeEcho else
  if s == "terraform" then ProvisionerTypeTerraform else
  ProvisionerType_other s.

Definition ResourceType_string (s : ResourceType) : string :=
  match s with
  | ResourceTypeOrganization => "organization"
  | ResourceTypeTemplate => "template"
  | ResourceTypeTemplateVersion => "template_version"
  | ResourceTypeUser => "user"
  | ResourceTypeWorkspace => "workspace"
  | ResourceTypeGitSshKey => "git_ssh_key"
  | ResourceTypeApiKey => "api_key"
  | ResourceTypeGroup => "group"
  | ResourceTypeWorkspaceBuild => "workspace_build"
  | ResourceType_other s => s
  end.
Definition ResourceType_of_string (s : string) : ResourceType :=
  if s == "organization" then ResourceTypeOrganization else
  if s == "template" then ResourceTypeTemplate else
  if s == "template_version" then ResourceTypeTemplateVersion else
  if s == "user" then ResourceTypeUser else
  if s == "workspace" then ResourceTypeWorkspace else
  if s == "git_ssh_key" then ResourceTypeGitSshKey else
  if s == "api_key" then ResourceTypeApiKey else
  if s == "group" then ResourceTypeGroup else
  if s == "workspace_build" then ResourceTypeWorkspaceBuild else
  ResourceType_other s.

Definition UserStatus_string (s : UserStatus) : string :=
  match s with
  | UserStatusActive => "active"
  | UserStatusSuspended => "suspended"
  | UserStatus_other s => s
  end.
Definition UserStatus_of_string (s : string) : UserStatus :=
  if s == "active" then UserStatusActive else
  if s == "suspended" then UserStatusSuspended else
  UserStatus_other s.

Definition WorkspaceAppHealth_string (s : WorkspaceAppHealth) : string :=
  match s with
  | WorkspaceAppHealthDisabled => "disabled"
  | WorkspaceAppHealthInitializing => "initializing"
  | WorkspaceAppHealthHealthy => "healthy"
  | WorkspaceAppHealthUnhealthy => "unhealthy"
  | WorkspaceAppHealth_other s => s
  end.
Definition WorkspaceAppHealth_of_string (s : string) : WorkspaceAppHealth :=
  if s == "disabled" then WorkspaceAppHealthDisabled else
  if s == "initializing" then WorkspaceAppHealthInitializing else
  if s == "healthy" then WorkspaceAppHealthHealthy else
  if s == "unhealthy" then WorkspaceAppHealthUnhealthy else
  WorkspaceAppHealth_other s.

Definition WorkspaceTransition_string (s : WorkspaceTransition) : string :=
  match s with
  | WorkspaceTransitionStart => "start"
  | WorkspaceTransitionStop => "stop"
  | WorkspaceTransitionDelete => "delete"
  | WorkspaceTransition_other s => s
  end.
Definition WorkspaceTransition_of_string (s : string) : WorkspaceTransition :=
  if s == "start" then WorkspaceTransitionStart else
  if s == "stop" then WorkspaceTransitionStop else
  if s == "delete" then WorkspaceTransitionDelete else
  WorkspaceTransition_other s.


(** ** Rows *)

Record APIKey := mkAPIKey {
  APIKey_ID : string;
  APIKey_HashedSecret : bytes;
  APIKey_UserID : uuid;
  APIKey_LastUsed : time;
  APIKey_ExpiresAt : time;
  APIKey_CreatedAt : time;
  APIKey_UpdatedAt : time;
  APIKey_LoginType : LoginType;
  APIKey_LifetimeSeconds : Z;
  APIKey_IPAddress : Inet;
  APIKey_Scope : APIKeyScope;
}.
#[global] Instance APIKey_eta : Eta APIKey := λ r,
  mkAPIKey r.(APIKey_ID) r.(APIKey_HashedSecret) r.(APIKey_UserID) r.(APIKey_LastUsed)
    r.(APIKey_ExpiresAt) r.(APIKey_CreatedAt) r.(APIKey_UpdatedAt) r.(APIKey_LoginType)
    r.(APIKey_LifetimeSeconds) r.(APIKey_IPAddress) r.(APIKey_Scope).
Definition APIKey_zero : APIKey :=
  mkAPIKey EmptyString [] uuid_Nil time_zero time_zero time_zero time_zero
    (LoginType_other EmptyString) 0%Z Inet_zero (APIKeyScope_other EmptyString).

Record AgentStat := mkAgentStat {
  AgentStat_ID : uuid;
  AgentStat_CreatedAt : time;
  AgentStat_UserID : uuid;
  AgentStat_AgentID : uuid;
  AgentStat_WorkspaceID : uuid;
  AgentStat_TemplateID : uuid;
  AgentStat_Payload : RawMessage;
}.
#[global] Instance AgentStat_eta : Eta AgentStat := λ r,
  mkAgentStat r.(AgentStat_ID) r.(AgentStat_CreatedAt) r.(AgentStat_UserID)
    r.(AgentStat_AgentID) r.(AgentStat_WorkspaceID) r.(AgentStat_TemplateID)
    r.(AgentStat_Payload).
Definition AgentStat_zero : AgentStat :=
  mkAgentStat uuid_Nil time_zero uuid_Nil uuid_Nil uuid_Nil uuid_Nil RawNil.

Record AuditLog := mkAuditLog {
  AuditLog_ID : uuid;
  AuditLog_Time : time;
  AuditLog_UserID : uuid;
  AuditLog_OrganizationID : uuid;
  AuditLog_Ip : Inet;
  AuditLog_UserAgent : nullable string;
  AuditLog_ResourceType : ResourceType;
  AuditLog_ResourceID : uuid;
  AuditLog_ResourceTarget : string;
  AuditLog_Action : AuditAction;
  AuditLog_Diff : RawMessage;
  AuditLog_StatusCode : Z;
  AuditLog_AdditionalFields : RawMessage;
  AuditLog_RequestID : uuid;
  AuditLog_ResourceIcon : string;
}.
#[global] Instance AuditLog_eta : Eta AuditLog := λ r,
  mkAuditLog r.(AuditLog_ID) r.(AuditLog_Time) r.(AuditLog_UserID) r.(AuditLog_OrganizationID)
    r.(AuditLog_Ip) r.(AuditLog_UserAgent) r.(AuditLog_ResourceType) r.(AuditLog_ResourceID)
    r.(AuditLog_ResourceTarget) r.(AuditLog_Action) r.(AuditLog_Diff) r.(AuditLog_StatusCode)
    r.(AuditLog_AdditionalFields) r.(AuditLog_RequestID) r.(AuditLog_ResourceIcon).

Record File := mkFile {
  File_Hash : string;
  File_CreatedAt : time;
  File_CreatedBy : uuid;
  File_Mimetype : string;
  File_Data : bytes;
  File_ID : uuid;
}.
#[global] Instance File_eta : Eta File := λ r,
  mkFile r.(File_Hash) r.(File_CreatedAt) r.(File_CreatedBy) r.(File_Mimetype) r.(File_Data)
    r.(File_ID).

Record GitAuthLink := mkGitAuthLink {
  GitAuthLink_ProviderID : string;
  GitAuthLink_UserID : uuid;
  GitAuthLink_CreatedAt : time;
  GitAuthLink_UpdatedAt : time;
  GitAuthLink_OAuthAccessToken : string;
  GitAuthLink_OAuthRefreshToken : string;
  GitAuthLink_OAuthExpiry : time;
}.
#[global] Instance GitAuthLink_eta : Eta GitAuthLink := λ r,
  mkGitAuthLink r.(GitAuthLink_ProviderID) r.(GitAuthLink_UserID) r.(GitAuthLink_CreatedAt)
    r.(GitAuthLink_UpdatedAt) r.(GitAuthLink_OAuthAccessToken) r.(GitAuthLink_OAuthRefreshToken)
    r.(GitAuthLink_OAuthExpiry).

Record GitSSHKey := mkGitSSHKey {
  GitSSHKey_UserID : uuid;
  GitSSHKey_CreatedAt : time;
  GitSSHKey_UpdatedAt : time;
  GitSSHKey_PrivateKey : string;
  GitSSHKey_PublicKey : string;
}.
#[global] Instance GitSSHKey_eta : Eta GitSSHKey := λ r,
  mkGitSSHKey r.(GitSSHKey_UserID) r.(GitSSHKey_CreatedAt) r.(GitSSHKey_UpdatedAt)
    r.(GitSSHKey_PrivateKey) r.(GitSSHKey_PublicKey).
Definition GitSSHKey_zero : GitSSHKey :=
  mkGitSSHKey uuid_Nil time_zero time_zero EmptyString EmptyString.

Record Group := mkGroup {
  Group_ID : uuid;
  Group_Name : string;
  Group_OrganizationID : uuid;
  Group_AvatarURL : string;
  Group_QuotaAllowance : Z;
}.
#[global] Instance Group_eta : Eta Group := λ r,
  mkGroup r.(Group_ID) r.(Group_Name) r.(Group_OrganizationID) r.(Group_AvatarURL)
    r.(Group_QuotaAllowance).
Definition Group_zero : Group :=
  mkGroup uuid_Nil EmptyString uuid_Nil EmptyString 0%Z.

Record GroupMember := mkGroupMember {
  GroupMember_UserID : uuid;
  GroupMember_GroupID : uuid;
}.
#[global] Instance GroupMember_eta : Eta GroupMember := λ r,
  mkGroupMember r.(GroupMember_UserID) r.(GroupMember_GroupID).

Record License := mkLicense {
  License_ID : Z;
  License_UploadedAt : time;
  License_JWT : string;
  License_Exp : time;
  License_Uuid : nullable uuid;
}.
#[global] Instance License_eta : Eta License := λ r,
  mkLicense r.(License_ID) r.(License_UploadedAt) r.(License_JWT) r.(License_Exp)
    r.(License_Uuid).

Record Organization := mkOrganization {
  Organization_ID : uuid;
  Organization_Name : string;
  Organization_Description : string;
  Organization_CreatedAt : time;
  Organization_UpdatedAt : time;
}.
#[global] Instance Organization_eta : Eta Organization := λ r,
  mkOrganization r.(Organization_ID) r.(Organization_Name) r.(Organization_Description)
    r.(Organization_CreatedAt) r.(Organization_UpdatedAt).
Definition Organization_zero : Organization :=
  mkOrganization uuid_Nil EmptyString EmptyString time_zero time_zero.

Record OrganizationMember := mkOrganizationMember {
  OrganizationMember_UserID : uuid;
  OrganizationMember_OrganizationID : uuid;
  OrganizationMember_CreatedAt : time;
  OrganizationMember_UpdatedAt : time;
  OrganizationMember_Roles : list string;
}.
#[global] Instance OrganizationMember_eta : Eta OrganizationMember := λ r,
  mkOrganizationMember r.(OrganizationMember_UserID) r.(OrganizationMember_OrganizationID)
    r.(OrganizationMember_CreatedAt) r.(OrganizationMember_UpdatedAt)
    r.(OrganizationMember_Roles).
Definition OrganizationMember_zero : OrganizationMember :=
  mkOrganizationMember uuid_Nil uuid_Nil time_zero time_zero [].

Record ParameterSchema := mkParameterSchema {
  ParameterSchema_ID : uuid;
  ParameterSchema_CreatedAt : time;
  ParameterSchema_JobID : uuid;
  ParameterSchema_Name : string;
  ParameterSchema_Description : string;
  ParameterSchema_DefaultSourceScheme : ParameterSourceScheme;
  ParameterSchema_DefaultSourceValue : string;
  ParameterSchema_AllowOverrideSource : bool;
  ParameterSchema_DefaultDestinationScheme : ParameterDestinationScheme;
  ParameterSchema_AllowOverrideDestination : bool;
  ParameterSchema_DefaultRefresh : string;
  ParameterSchema_RedisplayValue : bool;
  ParameterSchema_ValidationError : string;
  ParameterSchema_ValidationCondition : string;
  ParameterSchema_ValidationTypeSystem : ParameterTypeSystem;
  ParameterSchema_ValidationValueType : string;
  ParameterSchema_Index : Z;
}.
#[global] Instance ParameterSchema_eta : Eta ParameterSchema := λ r,
  mkParameterSchema r.(ParameterSchema_ID) r.(ParameterSchema_CreatedAt)
    r.(ParameterSchema_JobID) r.(ParameterSchema_Name) r.(ParameterSchema_Description)
    r.(ParameterSchema_DefaultSourceScheme) r.(ParameterSchema_DefaultSourceValue)
    r.(ParameterSchema_AllowOverrideSource) r.(ParameterSchema_DefaultDestinationScheme)
    r.(ParameterSchema_AllowOverrideDestination) r.(ParameterSchema_DefaultRefresh)
    r.(ParameterSchema_RedisplayValue) r.(ParameterSchema_ValidationError)
    r.(ParameterSchema_ValidationCondition) r.(ParameterSchema_ValidationTypeSystem)
    r.(ParameterSchema_ValidationValueType) r.(ParameterSchema_Index).

Record ParameterValue := mkParameterValue {
  ParameterValue_ID : uuid;
  ParameterValue_CreatedAt : time;
  ParameterValue_UpdatedAt : time;
  ParameterValue_Scope : ParameterScope;
  ParameterValue_ScopeID : uuid;
  ParameterValue_Name : string;
  ParameterValue_SourceScheme : ParameterSourceScheme;
  ParameterValue_SourceValue : string;
  ParameterValue_DestinationScheme : ParameterDestinationScheme;
}.
#[global] Instance ParameterValue_eta : Eta ParameterValue := λ r,
  mkParameterValue r.(ParameterValue_ID) r.(ParameterValue_CreatedAt)
    r.(ParameterValue_UpdatedAt) r.(ParameterValue_Scope) r.(ParameterValue_ScopeID)
    r.(ParameterValue_Name) r.(ParameterValue_SourceScheme) r.(ParameterValue_SourceValue)
    r.(ParameterValue_DestinationScheme).

Record ProvisionerDaemon := mkProvisionerDaemon {
  ProvisionerDaemon_ID : uuid;
  ProvisionerDaemon_CreatedAt : time;
  ProvisionerDaemon_UpdatedAt : nullable time;
  ProvisionerDaemon_Name : string;
  ProvisionerDaemon_Provisioners : list ProvisionerType;
  ProvisionerDaemon_ReplicaID : nullable uuid;
  ProvisionerDaemon_Tags : StringMap;
}.
#[global] Instance ProvisionerDaemon_eta : Eta ProvisionerDaemon := λ r,
  mkProvisionerDaemon r.(ProvisionerDaemon_ID) r.(ProvisionerDaemon_CreatedAt)
    r.(ProvisionerDaemon_UpdatedAt) r.(ProvisionerDaemon_Name)
    r.(ProvisionerDaemon_Provisioners) r.(ProvisionerDaemon_ReplicaID)
    r.(ProvisionerDaemon_Tags).

Record ProvisionerJob := mkProvisionerJob {
  ProvisionerJob_ID : uuid;
  ProvisionerJob_CreatedAt : time;
  ProvisionerJob_UpdatedAt : time;
  ProvisionerJob_StartedAt : nullable time;
  ProvisionerJob_CanceledAt : nullable time;
  ProvisionerJob_CompletedAt : nullable time;
  ProvisionerJob_Error : nullable string;
  ProvisionerJob_OrganizationID : uuid;
  ProvisionerJob_InitiatorID : uuid;
  ProvisionerJob_Provisioner : ProvisionerType;
  ProvisionerJob_StorageMethod : ProvisionerStorageMethod;
  ProvisionerJob_Type : ProvisionerJobType;
  ProvisionerJob_Input : RawMessage;
  ProvisionerJob_WorkerID : nullable uuid;
  ProvisionerJob_FileID : uuid;
  ProvisionerJob_Tags : StringMap;
}.
#[global] Instance ProvisionerJob_eta : Eta ProvisionerJob := λ r,
  mkProvisionerJob r.(ProvisionerJob_ID) r.(ProvisionerJob_CreatedAt)
    r.(ProvisionerJob_UpdatedAt) r.(ProvisionerJob_StartedAt) r.(ProvisionerJob_CanceledAt)
    r.(ProvisionerJob_CompletedAt) r.(ProvisionerJob_Error) r.(ProvisionerJob_OrganizationID)
    r.(ProvisionerJob_InitiatorID) r.(ProvisionerJob_Provisioner)
    r.(ProvisionerJob_StorageMethod) r.(ProvisionerJob_Type) r.(ProvisionerJob_Input)
    r.(ProvisionerJob_WorkerID) r.(ProvisionerJob_FileID) r.(ProvisionerJob_Tags).
Definition ProvisionerJob_zero : ProvisionerJob :=
  mkProvisionerJob uuid_Nil time_zero time_zero (null_of time_zero) (null_of time_zero)
    (null_of time_zero) (null_of EmptyString) uuid_Nil uuid_Nil
    (ProvisionerType_other EmptyString) (ProvisionerStorageMethod_other EmptyString)
    (ProvisionerJobType_other EmptyString) RawNil (null_of uuid_Nil) uuid_Nil ∅.

Record ProvisionerJobLog := mkProvisionerJobLog {
  ProvisionerJobLog_JobID : uuid;
  ProvisionerJobLog_CreatedAt : time;
  ProvisionerJobLog_Source : LogSource;
  ProvisionerJobLog_Level : LogLevel;
  ProvisionerJobLog_Stage : string;
  ProvisionerJobLog_Output : string;
  ProvisionerJobLog_ID : Z;
}.
#[global] Instance ProvisionerJobLog_eta : Eta ProvisionerJobLog := λ r,
  mkProvisionerJobLog r.(ProvisionerJobLog_JobID) r.(ProvisionerJobLog_CreatedAt)
    r.(ProvisionerJobLog_Source) r.(ProvisionerJobLog_Level) r.(ProvisionerJobLog_Stage)
    r.(ProvisionerJobLog_Output) r.(ProvisionerJobLog_ID).

Record Replica := mkReplica {
  Replica_ID : uuid;
  Replica_CreatedAt : time;
  Replica_StartedAt : time;
  Replica_StoppedAt : nullable time;
  Replica_UpdatedAt : time;
  Replica_Hostname : string;
  Replica_RegionID : Z;
  Replica_RelayAddress : string;
  Replica_DatabaseLatency : Z;
  Replica_Version : string;
  Replica_Error : string;
}.
#[global] Instance Replica_eta : Eta Replica := λ r,
  mkReplica r.(Replica_ID) r.(Replica_CreatedAt) r.(Replica_StartedAt) r.(Replica_StoppedAt)
    r.(Replica_UpdatedAt) r.(Replica_Hostname) r.(Replica_RegionID) r.(Replica_RelayAddress)
    r.(Replica_DatabaseLatency) r.(Replica_Version) r.(Replica_Error).

Record Template := mkTemplate {
  Template_ID : uuid;
  Template_CreatedAt : time;
  Template_UpdatedAt : time;
  Template_OrganizationID : uuid;
  Template_Deleted : bool;
  Template_Name : string;
  Template_Provisioner : ProvisionerType;
  Template_ActiveVersionID : uuid;
  Template_Description : string;
  Template_DefaultTTL : Z;
  Template_CreatedBy : uuid;
  Template_Icon : string;
  Template_UserACL : TemplateACL;
  Template_GroupACL : TemplateACL;
  Template_DisplayName : string;
  Template_AllowUserCancelWorkspaceJobs : bool;
}.
#[global] Instance Template_eta : Eta Template := λ r,
  mkTemplate r.(Template_ID) r.(Template_CreatedAt) r.(Template_UpdatedAt)
    r.(Template_OrganizationID) r.(Template_Deleted) r.(Template_Name) r.(Template_Provisioner)
    r.(Template_ActiveVersionID) r.(Template_Description) r.(Template_DefaultTTL)
    r.(Template_CreatedBy) r.(Template_Icon) r.(Template_UserACL) r.(Template_GroupACL)
    r.(Template_DisplayName) r.(Template_AllowUserCancelWorkspaceJobs).
Definition Template_zero : Template :=
  mkTemplate uuid_Nil time_zero time_zero uuid_Nil false EmptyString
    (ProvisionerType_other EmptyString) uuid_Nil EmptyString 0%Z uuid_Nil EmptyString ∅ ∅
    EmptyString false.

Record TemplateVersion := mkTemplateVersion {
  TemplateVersion_ID : uuid;
  TemplateVersion_TemplateID : nullable uuid;
  TemplateVersion_OrganizationID : uuid;
  TemplateVersion_CreatedAt : time;
  TemplateVersion_UpdatedAt : time;
  TemplateVersion_Name : string;
  TemplateVersion_Readme : string;
  TemplateVersion_JobID : uuid;
  TemplateVersion_CreatedBy : uuid;
}.
#[global] Instance TemplateVersion_eta : Eta TemplateVersion := λ r,
  mkTemplateVersion r.(TemplateVersion_ID) r.(TemplateVersion_TemplateID)
    r.(TemplateVersion_OrganizationID) r.(TemplateVersion_CreatedAt)
    r.(TemplateVersion_UpdatedAt) r.(TemplateVersion_Name) r.(TemplateVersion_Readme)
    r.(TemplateVersion_JobID) r.(TemplateVersion_CreatedBy).
Definition TemplateVersion_zero : TemplateVersion :=
  mkTemplateVersion uuid_Nil (null_of uuid_Nil) uuid_Nil time_zero time_zero EmptyString
    EmptyString uuid_Nil uuid_Nil.

Record User := mkUser {
  User_ID : uuid;
  User_Email : string;
  User_Username : string;
  User_HashedPassword : bytes;
  User_CreatedAt : time;
  User_UpdatedAt : time;
  User_Status : UserStatus;
  User_RBACRoles : list string;
  User_LoginType : LoginType;
  User_AvatarURL : nullable string;
  User_Deleted : bool;
  User_LastSeenAt : time;
}.
#[global] Instance User_eta : Eta User := λ r,
  mkUser r.(User_ID) r.(User_Email) r.(User_Username) r.(User_HashedPassword) r.(User_CreatedAt)
    r.(User_UpdatedAt) r.(User_Status) r.(User_RBACRoles) r.(User_LoginType) r.(User_AvatarURL)
    r.(User_Deleted) r.(User_LastSeenAt).
Definition User_zero : User :=
  mkUser uuid_Nil EmptyString EmptyString [] time_zero time_zero (UserStatus_other EmptyString)
    [] (LoginType_other EmptyString) (null_of EmptyString) false time_zero.

Record UserLink := mkUserLink {
  UserLink_UserID : uuid;
  UserLink_LoginType : LoginType;
  UserLink_LinkedID : string;
  UserLink_OAuthAccessToken : string;
  UserLink_OAuthRefreshToken : string;
  UserLink_OAuthExpiry : time;
}.
#[global] Instance UserLink_eta : Eta UserLink := λ r,
  mkUserLink r.(UserLink_UserID) r.(UserLink_LoginType) r.(UserLink_LinkedID)
    r.(UserLink_OAuthAccessToken) r.(UserLink_OAuthRefreshToken) r.(UserLink_OAuthExpiry).
Definition UserLink_zero : UserLink :=
  mkUserLink uuid_Nil (LoginType_other EmptyString) EmptyString EmptyString EmptyString
    time_zero.

Record Workspace := mkWorkspace {
  Workspace_ID : uuid;
  Workspace_CreatedAt : time;
  Workspace_UpdatedAt : time;
  Workspace_OwnerID : uuid;
  Workspace_OrganizationID : uuid;
  Workspace_TemplateID : uuid;
  Workspace_Deleted : bool;
  Workspace_Name : string;
  Workspace_AutostartSchedule : nullable string;
  Workspace_Ttl : nullable Z;
  Workspace_LastUsedAt : time;
}.
#[global] Instance Workspace_eta : Eta Workspace := λ r,
  mkWorkspace r.(Workspace_ID) r.(Workspace_CreatedAt) r.(Workspace_UpdatedAt)
    r.(Workspace_OwnerID) r.(Workspace_OrganizationID) r.(Workspace_TemplateID)
    r.(Workspace_Deleted) r.(Workspace_Name) r.(Workspace_AutostartSchedule) r.(Workspace_Ttl)
    r.(Workspace_LastUsedAt).
Definition Workspace_zero : Workspace :=
  mkWorkspace uuid_Nil time_zero time_zero uuid_Nil uuid_Nil uuid_Nil false EmptyString
    (null_of EmptyString) (null_of 0%Z) time_zero.

Record WorkspaceAgent := mkWorkspaceAgent {
  WorkspaceAgent_ID : uuid;
  WorkspaceAgent_CreatedAt : time;
  WorkspaceAgent_UpdatedAt : time;
  WorkspaceAgent_Name : string;
  WorkspaceAgent_FirstConnectedAt : nullable time;
  WorkspaceAgent_LastConnectedAt : nullable time;
  WorkspaceAgent_DisconnectedAt : nullable time;
  WorkspaceAgent_ResourceID : uuid;
  WorkspaceAgent_AuthToken : uuid;
  WorkspaceAgent_AuthInstanceID : nullable string;
  WorkspaceAgent_Architecture : string;
  WorkspaceAgent_EnvironmentVariables : nullable RawMessage;
  WorkspaceAgent_OperatingSystem : string;
  WorkspaceAgent_StartupScript : nullable string;
  WorkspaceAgent_InstanceMetadata : nullable RawMessage;
  WorkspaceAgent_ResourceMetadata : nullable RawMessage;
  WorkspaceAgent_Directory : string;
  WorkspaceAgent_Version : string;
  WorkspaceAgent_LastConnectedReplicaID : nullable uuid;
  WorkspaceAgent_ConnectionTimeoutSeconds : Z;
  WorkspaceAgent_TroubleshootingURL : string;
  WorkspaceAgent_MOTDFile : string;
}.
#[global] Instance WorkspaceAgent_eta : Eta WorkspaceAgent := λ r,
  mkWorkspaceAgent r.(WorkspaceAgent_ID) r.(WorkspaceAgent_CreatedAt)
    r.(WorkspaceAgent_UpdatedAt) r.(WorkspaceAgent_Name) r.(WorkspaceAgent_FirstConnectedAt)
    r.(WorkspaceAgent_LastConnectedAt) r.(WorkspaceAgent_DisconnectedAt)
    r.(WorkspaceAgent_ResourceID) r.(WorkspaceAgent_AuthToken) r.(WorkspaceAgent_AuthInstanceID)
    r.(WorkspaceAgent_Architecture) r.(WorkspaceAgent_EnvironmentVariables)
    r.(WorkspaceAgent_OperatingSystem) r.(WorkspaceAgent_StartupScript)
    r.(WorkspaceAgent_InstanceMetadata) r.(WorkspaceAgent_ResourceMetadata)
    r.(WorkspaceAgent_Directory) r.(WorkspaceAgent_Version)
    r.(WorkspaceAgent_LastConnectedReplicaID) r.(WorkspaceAgent_ConnectionTimeoutSeconds)
    r.(WorkspaceAgent_TroubleshootingURL) r.(WorkspaceAgent_MOTDFile).
Definition WorkspaceAgent_zero : WorkspaceAgent :=
  mkWorkspaceAgent uuid_Nil time_zero time_zero EmptyString (null_of time_zero)
    (null_of time_zero) (null_of time_zero) uuid_Nil uuid_Nil (null_of EmptyString) EmptyString
    (null_of RawNil) EmptyString (null_of EmptyString) (null_of RawNil) (null_of RawNil)
    EmptyString EmptyString (null_of uuid_Nil) 0%Z EmptyString EmptyString.

Record WorkspaceApp := mkWorkspaceApp {
  WorkspaceApp_ID : uuid;
  WorkspaceApp_CreatedAt : time;
  WorkspaceApp_AgentID : uuid;
  WorkspaceApp_DisplayName : string;
  WorkspaceApp_Icon : string;
  WorkspaceApp_Command : nullable string;
  WorkspaceApp_Url : nullable string;
  WorkspaceApp_HealthcheckUrl : string;
  WorkspaceApp_HealthcheckInterval : Z;
  WorkspaceApp_HealthcheckThreshold : Z;
  WorkspaceApp_Health : WorkspaceAppHealth;
  WorkspaceApp_Subdomain : bool;
  WorkspaceApp_SharingLevel : AppSharingLevel;
  WorkspaceApp_Slug : string;
}.
#[global] Instance WorkspaceApp_eta : Eta WorkspaceApp := λ r,
  mkWorkspaceApp r.(WorkspaceApp_ID) r.(WorkspaceApp_CreatedAt) r.(WorkspaceApp_AgentID)
    r.(WorkspaceApp_DisplayName) r.(WorkspaceApp_Icon) r.(WorkspaceApp_Command)
    r.(WorkspaceApp_Url) r.(WorkspaceApp_HealthcheckUrl) r.(WorkspaceApp_HealthcheckInterval)
    r.(WorkspaceApp_HealthcheckThreshold) r.(WorkspaceApp_Health) r.(WorkspaceApp_Subdomain)
    r.(WorkspaceApp_SharingLevel) r.(WorkspaceApp_Slug).

Record WorkspaceBuild := mkWorkspaceBuild {
  WorkspaceBuild_ID : uuid;
  WorkspaceBuild_CreatedAt : time;
  WorkspaceBuild_UpdatedAt : time;
  WorkspaceBuild_WorkspaceID : uuid;
  WorkspaceBuild_TemplateVersionID : uuid;
  WorkspaceBuild_BuildNumber : Z;
  WorkspaceBuild_Transition : WorkspaceTransition;
  WorkspaceBuild_InitiatorID : uuid;
  WorkspaceBuild_ProvisionerState : bytes;
  WorkspaceBuild_JobID : uuid;
  WorkspaceBuild_Deadline : time;
  WorkspaceBuild_Reason : BuildReason;
  WorkspaceBuild_DailyCost : Z;
}.
#[global] Instance WorkspaceBuild_eta : Eta WorkspaceBuild := λ r,
  mkWorkspaceBuild r.(WorkspaceBuild_ID) r.(WorkspaceBuild_CreatedAt)
    r.(WorkspaceBuild_UpdatedAt) r.(WorkspaceBuild_WorkspaceID)
    r.(WorkspaceBuild_TemplateVersionID) r.(WorkspaceBuild_BuildNumber)
    r.(WorkspaceBuild_Transition) r.(WorkspaceBuild_InitiatorID)
    r.(WorkspaceBuild_ProvisionerState) r.(WorkspaceBuild_JobID) r.(WorkspaceBuild_Deadline)
    r.(WorkspaceBuild_Reason) r.(WorkspaceBuild_DailyCost).
Definition WorkspaceBuild_zero : WorkspaceBuild :=
  mkWorkspaceBuild uuid_Nil time_zero time_zero uuid_Nil uuid_Nil 0%Z
    (WorkspaceTransition_other EmptyString) uuid_Nil [] uuid_Nil time_zero
    (BuildReason_other EmptyString) 0%Z.

Record WorkspaceResource := mkWorkspaceResource {
  WorkspaceResource_ID : uuid;
  WorkspaceResource_CreatedAt : time;
  WorkspaceResource_JobID : uuid;
  WorkspaceResource_Transition : WorkspaceTransition;
  WorkspaceResource_Type : string;
  WorkspaceResource_Name : string;
  WorkspaceResource_Hide : bool;
  WorkspaceResource_Icon : string;
  WorkspaceResource_InstanceType : nullable string;
  WorkspaceResource_DailyCost : Z;
}.
#[global] Instance WorkspaceResource_eta : Eta WorkspaceResource := λ r,
  mkWorkspaceResource r.(WorkspaceResource_ID) r.(WorkspaceResource_CreatedAt)
    r.(WorkspaceResource_JobID) r.(WorkspaceResource_Transition) r.(WorkspaceResource_Type)
    r.(WorkspaceResource_Name) r.(WorkspaceResource_Hide) r.(WorkspaceResource_Icon)
    r.(WorkspaceResource_InstanceType) r.(WorkspaceResource_DailyCost).
Definition WorkspaceResource_zero : WorkspaceResource :=
  mkWorkspaceResource uuid_Nil time_zero uuid_Nil (WorkspaceTransition_other EmptyString)
    EmptyString EmptyString false EmptyString (null_of EmptyString) 0%Z.

Record WorkspaceResourceMetadatum := mkWorkspaceResourceMetadatum {
  WorkspaceResourceMetadatum_WorkspaceResourceID : uuid;
  WorkspaceResourceMetadatum_Key : string;
  WorkspaceResourceMetadatum_Value : nullable string;
  WorkspaceResourceMetadatum_Sensitive : bool;
}.
#[global] Instance WorkspaceResourceMetadatum_eta : Eta WorkspaceResourceMetadatum := λ r,
  mkWorkspaceResourceMetadatum r.(WorkspaceResourceMetadatum_WorkspaceResourceID)
    r.(WorkspaceResourceMetadatum_Key) r.(WorkspaceResourceMetadatum_Value)
    r.(WorkspaceResourceMetadatum_Sensitive).

