(* ===== verification/Net.v ===== *)
(** * IP addresses

    What the program uses of Go's [net] package: [net.ParseIP], [net.IPv4] and
    full-length [net.CIDRMask], on 16-byte addresses. *)

From Stdlib Require Import Ascii Init.Byte.
From stdpp Require Import prelude strings.
From S2P Require Import Prelude Models Encoding.

Local Open Scope N_scope.

Definition hex_digit (c : ascii) : option N :=
  let n := N_of_ascii c in
  if (48 <=? n) && (n <=? 57) then Some (n - 48)
  else if (97 <=? n) && (n <=? 102) then Some (n - 87)
  else if (65 <=? n) && (n <=? 70) then Some (n - 55)
  else None.

(** A run of digits: its value, its length and the text after it. A value of
    [0xFFFFFF] or more is refused, and so is an empty run. *)
Fixpoint scan_digits (digit : ascii → option N) (base : N) (s : string) (n : N) (c : nat) :
    option (N * nat * string) :=
  match s with
  | EmptyString => Some (n, c, EmptyString)
  | String ch s' =>
      match digit ch with
      | None => Some (n, c, s)
      | Some d =>
          let n := n * base + d in
          if 16777215 <=? n then None else scan_digits digit base s' n (S c)
      end
  end.
Definition scan_number (digit : ascii → option N) (base : N) (s : string) :
    option (N * nat * string) :=
  match scan_digits digit base s 0 0 with
  | Some (_, O, _) | None => None
  | r => r
  end.

(** The text after a given first character. *)
Definition skip (c : ascii) (s : string) : option string :=
  match s with
  | String c' s' => if c' == c then Some s' else None
  | EmptyString => None
  end.

(** [k] dotted octets; every one but the first follows a dot. *)
Fixpoint octets (k : nat) (first : bool) (s : string) : option (list N * string) :=
  match k with
  | O => Some ([], s)
  | S k =>
      match (if first then Some s else skip "." s) with
      | None => None
      | Some s =>
          match scan_number dec_digit 10 s with
          | None => None
          | Some (n, c, rest) =>
              if 255 <? n then None
              else if bool_decide (1 < c)%nat && HasPrefix s "0" then None
              else '(l, rest) ← octets k false rest; Some (n :: l, rest)
          end
      end
  end.

Definition parseIPv4 (s : string) : option (list N) :=
  match octets 4 true s with
  | Some (l, EmptyString) => Some l
  | _ => None
  end.

(** The groups of an IPv6 address: the bytes read, where the ellipsis was, and
    the text left. The loop ends after eight groups. *)
Fixpoint groups6 (k : nat) (ip : list N) (ellipsis : option nat) (s : string) :
    option (list N * option nat * string) :=
  match k with
  | O => Some (ip, ellipsis, s)
  | S k =>
      match scan_number hex_digit 16 s with
      | None => None
      | Some (n, _, rest) =>
          if 65535 <? n then None else
          let ip' := (ip ++ [n / 256; n mod 256])%list in
          if rest == "" then Some (ip', ellipsis, rest) else
          match skip "." rest, skip ":" rest with
          | Some _, _ =>
              if bool_decide (ellipsis = None) && (length ip != 12%nat) then None
              else if bool_decide (16 < length ip + 4)%nat then None
              else p ← parseIPv4 s; Some ((ip ++ p)%list, ellipsis, EmptyString)
          | None, None | None, Some EmptyString => None
          | None, Some rest =>
              match skip ":" rest with
              | None => groups6 k ip' ellipsis rest
              | Some rest =>
                  if bool_decide (ellipsis = None) then
                    if rest == "" then Some (ip', Some (length ip'), rest)
                    else groups6 k ip' (Some (length ip')) rest
                  else None
              end
          end
      end
  end.

(** Fill the ellipsis with zeroes. *)
Definition expand6 (r : list N * option nat * string) : option (list N) :=
  let '(ip, ellipsis, rest) := r in
  if rest != "" then None
  else if bool_decide (length ip < 16)%nat then
    match ellipsis with
    | None => None
    | Some e => Some (take e ip ++ repeat 0 (16 - length ip) ++ drop e ip)%list
    end
  else if bool_decide (ellipsis = None) then Some ip else None.

Definition parseIPv6 (s : string) : option (list N) :=
  if HasPrefix s "::" then
    match String.substring 2 (String.length s - 2) s with
    | EmptyString => Some (repeat 0 16)
    | s => groups6 8 [] (Some 0%nat) s ≫= expand6
    end
  else groups6 8 [] None s ≫= expand6.

(** The first dot or colon decides the kind of address. *)
Fixpoint ip_kind (s : string) : option bool :=
  match s with
  | EmptyString => None
  | String "."%char _ => Some true
  | String ":"%char _ => Some false
  | String _ s => ip_kind s
  end.

(** [net.IPv4]: the 16-byte form of an IPv4 address. *)
Definition IPv4 (p : list N) : bytes :=
  (repeat x00 10 ++ [xff; xff] ++ (byte_of <$> p))%list.

Definition ParseIP (s : string) : option bytes :=
  match ip_kind s with
  | Some true => IPv4 <$> parseIPv4 s
  | Some false => fmap (M := list) byte_of <$> parseIPv6 s
  | None => None
  end.

(** [net.CIDRMask(len(ip)*8, len(ip)*8)] of a 16-byte address. *)
Definition full_mask : bytes := repeat xff 16.

(** Every parsed address has 16 bytes, the length the mask is built for. *)
Lemma octets_length k first s l rest : octets k first s = Some (l, rest) → length l = k.
Proof.
  revert first s l rest. induction k as [|k IH]; intros first s l rest Hrun; simpl in Hrun.
  - by injection Hrun as <- <-.
  - destruct (if first then _ else _) as [s'|]; [|done].
    destruct (scan_number dec_digit 10 s') as [[[n c] rest1]|]; [|done].
    destruct (255 <? n); [done|].
    destruct (bool_decide (1 < c)%nat && HasPrefix s' "0"); [done|].
    destruct (octets k false rest1) as [[l' rest']|] eqn:Hk; simpl in Hrun; [|done].
    injection Hrun as <- <-. simpl. by rewrite (IH _ _ _ _ Hk).
Qed.

Lemma parseIPv4_length s l : parseIPv4 s = Some l → length l = 4%nat.
Proof.
  unfold parseIPv4. destruct (octets 4 true s) as [[l' []]|] eqn:Ho; intros [= <-].
  by eapply octets_length.
Qed.

Lemma groups6_length k ip e s ip' e' rest :
  groups6 k ip e s = Some (ip', e', rest) → (length ip + 2 * k = 16)%nat →
  (∀ i, e = Some i → i <= length ip)%nat →
  (length ip' <= 16)%nat ∧ (∀ i, e' = Some i → i <= length ip')%nat.
Proof.
  revert ip e s. induction k as [|k IH]; intros ip e s Hrun Hlen He; simpl in Hrun.
  { injection Hrun as <- <- <-. split; [lia|done]. }
  destruct (scan_number hex_digit 16 s) as [[[n c] r]|]; [|done].
  destruct (65535 <? n); [done|].
  set (ip2 := (ip ++ [n / 256; n mod 256])%list) in *.
  assert (length ip2 = length ip + 2)%nat as Hip by (unfold ip2; by rewrite length_app).
  assert (∀ i, e = Some i → i <= length ip2)%nat as He2 by (intros i Hi; specialize (He i Hi); lia).
  case_bool_decide; [injection Hrun as <- <- _; split; [lia|done]|].
  destruct (skip "." r) as [r1|].
  { destruct (_ && _); [done|]. case_bool_decide; [done|].
    destruct (parseIPv4 s) as [p|] eqn:Hp; simpl in Hrun; [|done].
    injection Hrun as <- <- _. apply parseIPv4_length in Hp. rewrite length_app.
    split; [lia|]. intros i Hi. specialize (He i Hi). lia. }
  destruct (skip ":" r) as [[|ch r1]|]; [done| |done].
  destruct (skip ":" (String ch r1)) as [r2|]; [|by eapply IH; [done|lia|]].
  case_bool_decide; [|done]. case_bool_decide.
  - injection Hrun as <- <- _. split; [lia|]. intros i [= <-]. lia.
  - eapply IH; [done|lia|]. intros i [= <-]. lia.
Qed.

Lemma expand6_length ip e rest l :
  expand6 (ip, e, rest) = Some l → (length ip <= 16)%nat →
  (∀ i, e = Some i → i <= length ip)%nat → length l = 16%nat.
Proof.
  unfold expand6. intros Hrun Hle He. case_bool_decide; simpl in Hrun; [|done].
  case_bool_decide; [|case_bool_decide; [injection Hrun as <-; lia|done]].
  destruct e as [i|]; [|done]. injection Hrun as <-. specialize (He i eq_refl).
  rewrite !length_app, length_take, length_drop, repeat_length. lia.
Qed.

Lemma parseIPv6_length s l : parseIPv6 s = Some l → length l = 16%nat.
Proof.
  assert (∀ e s, (∀ i, e = Some i → i = 0)%nat → groups6 8 [] e s ≫= expand6 = Some l →
            length l = 16%nat) as Hgroups.
  { intros e t He Hrun. destruct (groups6 8 [] e t) as [[[ip e'] rest]|] eqn:Hg; [|done].
    destruct (groups6_length _ _ _ _ _ _ _ Hg) as [Hle He']; [done| |].
    - intros i Hi. simpl. rewrite (He i Hi). lia.
    - by eapply expand6_length. }
  unfold parseIPv6. destruct (HasPrefix s "::"); [|by apply Hgroups].
  destruct (String.substring _ _ s); [by intros [= <-]|]. apply Hgroups. by intros i [= <-].
Qed.

Lemma ParseIP_length s ip : ParseIP s = Some ip → length ip = length full_mask.
Proof.
  unfold ParseIP. destruct (ip_kind s) as [[]|]; [| |done].
  - destruct (parseIPv4 s) as [p|] eqn:Hp; intros [= <-].
    apply parseIPv4_length in Hp. unfold IPv4. simpl. by rewrite length_fmap, Hp.
  - destruct (parseIPv6 s) as [p|] eqn:Hp; intros [= <-].
    apply parseIPv6_length in Hp. by rewrite length_fmap.
Qed.
