(* ===== verification/NetUrl.v ===== *)
(** * URLs

    What the program uses of Go's [net/url] and of the host and port functions of
    [net]: [url.Parse], [URL.String], [URL.Port], [Values.Encode] and
    [net.SplitHostPort], as of Go 1.19. *)

From Stdlib Require Import Ascii.
From stdpp Require Import prelude gmap strings.
From S2P Require Import Prelude Encoding Net.

(** ** Searching text *)

(** [strings.Cut] at a character: the text before and after its first occurrence. *)
Fixpoint Cut (s : string) (sep : ascii) : option (string * string) :=
  match s with
  | EmptyString => None
  | String c s => if c == sep then Some (EmptyString, s)
                  else match Cut s sep with Some (a, b) => Some (String c a, b) | None => None end
  end.
(** The text before and after the last occurrence. *)
Fixpoint CutLast (s : string) (sep : ascii) : option (string * string) :=
  match s with
  | EmptyString => None
  | String c s =>
      match CutLast s sep with
      | Some (a, b) => Some (String c a, b)
      | None => if c == sep then Some (EmptyString, s) else None
      end
  end.
(** The text before the first occurrence, or all of it. *)
Definition before (s : string) (sep : ascii) : string := match Cut s sep with Some (a, _) => a | None => s end.

Fixpoint all_chars (P : ascii → bool) (s : string) : bool :=
  match s with EmptyString => true | String c s => P c && all_chars P s end.

Definition is_digit (c : ascii) : bool := let n := N_of_ascii c in ((48 <=? n) && (n <=? 57))%N.
Definition is_letter (c : ascii) : bool :=
  let n := N_of_ascii c in ((65 <=? n) && (n <=? 90) || (97 <=? n) && (n <=? 122))%N.

(** ** Escaping *)

Inductive encoding := encodePath | encodeUserPassword | encodeHost | encodeZone | encodeQueryComponent | encodeFragment.
#[global] Instance encoding_eq_dec : EqDecision encoding.
Proof. solve_decision. Defined.

Definition one_of (chars : string) (c : ascii) : bool := has_char c chars.
Definition quote_char : ascii := ascii_of_nat 34.

Definition shouldEscape (c : ascii) (mode : encoding) : bool :=
  if is_letter c || is_digit c then false
  else if ((mode == encodeHost) || (mode == encodeZone)) && (one_of "!$&'()*+,;=:[]<>" c || (c == quote_char)) then false
  else if one_of "-_.~" c then false
  else if one_of "$&+,/:;=?@" c && negb ((mode == encodeHost) || (mode == encodeZone)) then
    match mode with
    | encodePath => c == "?"%char
    | encodeUserPassword => one_of "@/?:" c
    | encodeQueryComponent => true
    | _ => false
    end
  else negb ((mode == encodeFragment) && one_of "!()*" c).

Definition invalid_escape (s : string) : error := ErrNew ("invalid URL escape " +:+ quote s).
Definition invalid_host (s : string) : error := ErrNew ("invalid character " +:+ quote s +:+ " in host name").

Fixpoint first_chars (n : nat) (s : string) : string :=
  match n, s with S n, String c s => String c (first_chars n s) | _, _ => EmptyString end.

Fixpoint unescape (s : string) (mode : encoding) : res string :=
  match s with
  | EmptyString => Ok EmptyString
  | String "%"%char s' =>
      match s' with
      | String h (String l rest) =>
          match hex_digit h, hex_digit l with
          | Some a, Some b =>
              let v := ascii_of_N (16 * a + b) in
              if ((mode == encodeHost) && (a <? 8)%N || (mode == encodeZone) && (v != " "%char) && shouldEscape v encodeHost)
                 && negb ((h == "2"%char) && (l == "5"%char))
              then Err (invalid_escape (first_chars 3 s))
              else t ← unescape rest mode; Ok (String v t)
          | _, _ => Err (invalid_escape (first_chars 3 s))
          end
      | _ => Err (invalid_escape (first_chars 3 s))
      end
  | String c s' =>
      if ((mode == encodeHost) || (mode == encodeZone)) && (N_of_ascii c <? 128)%N && shouldEscape c mode
      then Err (invalid_host (String c EmptyString))
      else t ← unescape s' mode;
           Ok (String (if (mode == encodeQueryComponent) && (c == "+"%char) then " "%char else c) t)
  end.

Definition hex_upper (n : N) : ascii := default "0"%char (String.get (N.to_nat n) "0123456789ABCDEF").
Fixpoint escape (s : string) (mode : encoding) : string :=
  match s with
  | EmptyString => EmptyString
  | String c s =>
      let t := escape s mode in
      if shouldEscape c mode then
        if (c == " "%char) && (mode == encodeQueryComponent) then String "+"%char t
        else let n := N_of_ascii c in String "%"%char (String (hex_upper (n / 16)) (String (hex_upper (n mod 16)) t))
      else String c t
  end.
Definition QueryEscape (s : string) : string := escape s encodeQueryComponent.

(** ** URLs *)

(** [url.URL]; the user information is its text. *)
Record url_URL := mkURL {
  url_Scheme : string;
  url_Opaque : string;
  url_User : option string;
  url_Host : string;
  url_Path : string;
  url_RawPath : string;
  url_OmitHost : bool;
  url_ForceQuery : bool;
  url_RawQuery : string;
  url_Fragment : string;
}.
#[global] Instance url_URL_eta : Eta url_URL := λ u,
  mkURL u.(url_Scheme) u.(url_Opaque) u.(url_User) u.(url_Host) u.(url_Path) u.(url_RawPath) u.(url_OmitHost)
    u.(url_ForceQuery) u.(url_RawQuery) u.(url_Fragment).
Definition url_zero : url_URL :=
  mkURL EmptyString EmptyString None EmptyString EmptyString EmptyString false false EmptyString EmptyString.

(** [validEncoded] *)
Definition validEncoded (s : string) (mode : encoding) : bool :=
  all_chars (λ c, one_of "!$&'()*+,;=:@[]%" c || negb (shouldEscape c mode)) s.

(** The scheme, in the case it is written in, and the rest. *)
Fixpoint scheme_from (first : bool) (s : string) : option (string * string) :=
  match s with
  | EmptyString => None
  | String c s =>
      if is_letter c || negb first && (is_digit c || one_of "+-." c) then
        match scheme_from false s with Some (a, b) => Some (String c a, b) | None => None end
      else if c == ":"%char then Some (EmptyString, s) else None
  end.
Definition getScheme (s : string) : res (string * string) :=
  match scheme_from true s with
  | Some (EmptyString, _) => Err (ErrNew "missing protocol scheme")
  | Some (scheme, rest) => Ok (scheme, rest)
  | None => Ok (EmptyString, s)
  end.

Definition validOptionalPort (port : string) : bool :=
  match port with
  | EmptyString => true
  | String c digits => (c == ":"%char) && all_chars is_digit digits
  end.
Definition invalid_port (port : string) : error := ErrNew ("invalid port " +:+ quote port +:+ " after host").

(** The text before and from the first ["%25"]. *)
Fixpoint cut_zone (s : string) : option (string * string) :=
  if HasPrefix s "%25" then Some (EmptyString, s)
  else match s with
       | EmptyString => None
       | String c s => match cut_zone s with Some (a, b) => Some (String c a, b) | None => None end
       end.

Definition parseHost (host : string) : res string :=
  if HasPrefix host "[" then
    match CutLast host "]"%char with
    | None => Err (ErrNew "missing ']' in host")
    | Some (inner, colonPort) =>
        if negb (validOptionalPort colonPort) then Err (invalid_port colonPort)
        else match cut_zone inner with
             | Some (host1, zone) =>
                 host1 ← unescape host1 encodeHost;
                 host2 ← unescape zone encodeZone;
                 host3 ← unescape (String "]"%char colonPort) encodeHost;
                 Ok (host1 +:+ host2 +:+ host3)
             | None => unescape host encodeHost
             end
    end
  else match CutLast host ":"%char with
       | Some (_, port) =>
           if negb (validOptionalPort (String ":"%char port)) then Err (invalid_port (String ":"%char port))
           else unescape host encodeHost
       | None => unescape host encodeHost
       end.

Definition validUserinfo (s : string) : bool :=
  all_chars (λ c, is_letter c || is_digit c || one_of "-._:~!$&'()*+,;=%@" c) s.

Definition parseAuthority (authority : string) : res (option string * string) :=
  match CutLast authority "@"%char with
  | None => host ← parseHost authority; Ok (None, host)
  | Some (userinfo, host) =>
      host ← parseHost host;
      if negb (validUserinfo userinfo) then Err (ErrNew "net/url: invalid userinfo")
      else match Cut userinfo ":"%char with
           | None => u ← unescape userinfo encodeUserPassword; Ok (Some (escape u encodeUserPassword), host)
           | Some (name, password) =>
               name ← unescape name encodeUserPassword;
               password ← unescape password encodeUserPassword;
               Ok (Some (escape name encodeUserPassword +:+ ":" +:+ escape password encodeUserPassword), host)
           end
  end.

Definition setPath (p : string) (u : url_URL) : res url_URL :=
  path ← unescape p encodePath;
  Ok (u <| url_Path := path |> <| url_RawPath := if p == escape path encodePath then EmptyString else p |>).

Definition is_ctl (c : ascii) : bool := let n := N_of_ascii c in ((n <? 32) || (n =? 127))%N.

(** What follows the query is cut off: a single question mark at the end is kept
    as such. *)
Definition parse_query (rest : string) (u : url_URL) : string * url_URL :=
  match Cut rest "?"%char with
  | Some (a, EmptyString) => (a, u <| url_ForceQuery := true |>)
  | Some (a, b) => (a, u <| url_RawQuery := b |>)
  | None => (rest, u)
  end.

(** [parse(rawURL, false)] *)
Definition parse_url (rawURL : string) : res url_URL :=
  if negb (all_chars (λ c, negb (is_ctl c)) rawURL)
  then Err (ErrNew "net/url: invalid control character in URL")
  else if rawURL == "*" then Ok (url_zero <| url_Path := "*" |>)
  else
  scheme ← getScheme rawURL;
  let u := url_zero <| url_Scheme := ToLower scheme.1 |> in
  let '(rest, u) := parse_query scheme.2 u in
  let rooted := HasPrefix rest "/" in
  if negb rooted && (u.(url_Scheme) != EmptyString) then Ok (u <| url_Opaque := rest |>)
  else if negb rooted && has_char ":"%char (before rest "/"%char)
  then Err (ErrNew "first path segment in URL cannot contain colon")
  else if ((u.(url_Scheme) != EmptyString) || negb (HasPrefix rest "///")) && HasPrefix rest "//" then
    let authority := String.substring 2 (String.length rest) rest in
    let '(authority, path) := match Cut authority "/"%char with
                              | Some (a, b) => (a, String "/"%char b)
                              | None => (authority, EmptyString)
                              end in
    user_host ← parseAuthority authority;
    setPath path (u <| url_User := user_host.1 |> <| url_Host := user_host.2 |>)
  else if (u.(url_Scheme) != EmptyString) && HasPrefix rest "/" then setPath rest (u <| url_OmitHost := true |>)
  else setPath rest u.

(** The error names the text that was parsed. *)
Definition url_Parse (rawURL : string) : res url_URL :=
  let '(text, frag) := default (rawURL, EmptyString) (Cut rawURL "#"%char) in
  match parse_url text with
  | Ok u =>
      if frag == EmptyString then Ok u
      else match unescape frag encodeFragment with
           | Ok fragment => Ok (u <| url_Fragment := fragment |>)
           | Err e => Err (ErrWrap ("parse " +:+ quote rawURL) e)
           | Panic p => Panic p
           end
  | Err e => Err (ErrWrap ("parse " +:+ quote text) e)
  | Panic p => Panic p
  end.

Definition EscapedPath (u : url_URL) : string :=
  if (u.(url_RawPath) != EmptyString) && validEncoded u.(url_RawPath) encodePath
     && match unescape u.(url_RawPath) encodePath with Ok p => p == u.(url_Path) | _ => false end
  then u.(url_RawPath)
  else if u.(url_Path) == "*" then "*" else escape u.(url_Path) encodePath.

Definition url_String (u : url_URL) : string :=
  let scheme := if u.(url_Scheme) != EmptyString then u.(url_Scheme) +:+ ":" else EmptyString in
  let tail :=
    if u.(url_Opaque) != EmptyString then scheme +:+ u.(url_Opaque)
    else
      let authority :=
        if ((u.(url_Scheme) != EmptyString) || (u.(url_Host) != EmptyString) || bool_decide (is_Some u.(url_User)))
           && negb (u.(url_OmitHost) && (u.(url_Host) == EmptyString) && bool_decide (u.(url_User) = None))
        then (if (u.(url_Host) != EmptyString) || (u.(url_Path) != EmptyString) || bool_decide (is_Some u.(url_User))
              then "//" else EmptyString)
             +:+ match u.(url_User) with Some ui => ui +:+ "@" | None => EmptyString end
             +:+ escape u.(url_Host) encodeHost
        else EmptyString in
      let path := EscapedPath u in
      let start := scheme +:+ authority
        +:+ (if (path != EmptyString) && negb (HasPrefix path "/") && (u.(url_Host) != EmptyString) then "/" else EmptyString) in
      start +:+ (if (start == EmptyString) && has_char ":"%char (before path "/"%char) then "./" else EmptyString) +:+ path in
  tail +:+ (if u.(url_ForceQuery) || (u.(url_RawQuery) != EmptyString) then "?" +:+ u.(url_RawQuery) else EmptyString)
       +:+ (if u.(url_Fragment) != EmptyString then "#" +:+ escape u.(url_Fragment) encodeFragment else EmptyString).

(** [splitHostPort] and [stripPort] *)
Definition url_host_port (hostPort : string) : string * string :=
  let '(host, port) :=
    match CutLast hostPort ":"%char with
    | Some (host, port) => if validOptionalPort (String ":"%char port) then (host, port) else (hostPort, EmptyString)
    | None => (hostPort, EmptyString)
    end in
  (if HasPrefix host "[" then match CutLast host "]"%char with
                              | Some (inner, EmptyString) => String.substring 1 (String.length inner - 1) inner
                              | _ => host
                              end else host, port).
Definition url_Hostname (u : url_URL) : string := (url_host_port u.(url_Host)).1.
Definition url_Port (u : url_URL) : string := (url_host_port u.(url_Host)).2.

(** [Values.Encode]: sorted by key. *)
Definition Values_Encode (v : gmap string (list string)) : string :=
  Join (kv ← sort_by (λ a b : string * list string, string_lt a.1 b.1) (map_to_list v);
        value ← kv.2; [QueryEscape kv.1 +:+ "=" +:+ QueryEscape value]) "&".

(** One [key=value] of a query; one with a semicolon or that cannot be unescaped is
    left out. *)
Definition query_pair (s : string) : option (string * string) :=
  if (s == EmptyString) || has_char ";"%char s then None
  else
    let '(k, v) := default (s, EmptyString) (Cut s "="%char) in
    match unescape k encodeQueryComponent, unescape v encodeQueryComponent with
    | Ok k, Ok v => Some (k, v)
    | _, _ => None
    end.
(** [u.Query()] *)
Definition ParseQuery (rawQuery : string) : gmap string (list string) :=
  foldl (λ m kv, <[kv.1 := default [] (m !! kv.1) ++ [kv.2]]> m) ∅
    (s ← Split rawQuery "&"%char; match query_pair s with Some kv => [kv] | None => [] end).

(** ** [net.SplitHostPort] *)
Definition SplitHostPort (hostport : string) : res (string * string) :=
  let fail why := Err (ErrNew ("address " +:+ hostport +:+ ": " +:+ why)) in
  match CutLast hostport ":"%char with
  | None => fail "missing port in address"
  | Some (front, port) =>
      if HasPrefix hostport "[" then
        match Cut hostport "]"%char with
        | None => fail "missing ']' in address"
        | Some (inner, after) =>
            match after with
            | EmptyString => fail "missing port in address"
            | String c rest =>
                if (c == ":"%char) && (rest == port) then
                  let host := String.substring 1 (String.length inner - 1) inner in
                  if has_char "["%char host || has_char "["%char rest then fail "unexpected '[' in address"
                  else if has_char "]"%char rest then fail "unexpected ']' in address"
                  else Ok (host, port)
                else if c == ":"%char then fail "too many colons in address"
                else fail "missing port in address"
            end
        end
      else if has_char ":"%char front then fail "too many colons in address"
      else if has_char "["%char hostport then fail "unexpected '[' in address"
      else if has_char "]"%char hostport then fail "unexpected ']' in address"
      else Ok (front, port)
  end.

(** ** Examples *)
Module UrlExamples.
Example parse_port :
  url_Port <$> url_Parse "http://me:pw@localhost:8080/a%20b?x=1&y=a+b#top" = Ok "8080".
Proof. by vm_compute. Qed.
Example parse_print :
  (url_String <$> url_Parse "https://[::1]:3000/a%2Fb?q#f") = Ok "https://[::1]:3000/a%2Fb?q#f" ∧
  (url_String <$> url_Parse "mailto:a@b") = Ok "mailto:a@b" ∧
  (url_String <$> url_Parse "/x y?") = Ok "/x%20y?" ∧
  url_Parse "a:b:c" ≠ url_Parse "//a:b/".
Proof. by vm_compute. Qed.
Example query_encoding :
  Values_Encode (ParseQuery "b=2&a=x+y&b=%26&bad=%zz&c;d=1") = "a=x+y&b=2&b=%26".
Proof. by vm_compute. Qed.
Example host_port :
  SplitHostPort "[::1]:80" = Ok ("::1", "80") ∧ SplitHostPort "10.0.0.1:80" = Ok ("10.0.0.1", "80") ∧
  (∃ e, SplitHostPort "::1" = Err e) ∧ (∃ e, SplitHostPort "host" = Err e).
Proof. vm_compute. split_and!; eauto. Qed.
End UrlExamples.
