(* ===== verification/Queries.v ===== *)
(** * Query parameters

    The parameter and row structures of [coderd/database/queries.sql.go] that
    the store operations take and return. *)

From stdpp Require Import prelude gmap strings.
From S2P Require Import Prelude Models.

(** ** Rows built by queries *)

Record GetUsersRow := mkGetUsersRow {
  GetUsersRow_ID : uuid;
  GetUsersRow_Email : string;
  GetUsersRow_Username : string;
  GetUsersRow_HashedPassword : bytes;
  GetUsersRow_CreatedAt : time;
  GetUsersRow_UpdatedAt : time;
  GetUsersRow_Status : UserStatus;
  GetUsersRow_RBACRoles : list string;
  GetUsersRow_LoginType : LoginType;
  GetUsersRow_AvatarURL : nullable string;
  GetUsersRow_Deleted : bool;
  GetUsersRow_LastSeenAt : time;
  GetUsersRow_Count : Z;
}.

Record GetWorkspacesRow := mkGetWorkspacesRow {
  GetWorkspacesRow_ID : uuid;
  GetWorkspacesRow_CreatedAt : time;
  GetWorkspacesRow_UpdatedAt : time;
  GetWorkspacesRow_OwnerID : uuid;
  GetWorkspacesRow_OrganizationID : uuid;
  GetWorkspacesRow_TemplateID : uuid;
  GetWorkspacesRow_Deleted : bool;
  GetWorkspacesRow_Name : string;
  GetWorkspacesRow_AutostartSchedule : nullable string;
  GetWorkspacesRow_Ttl : nullable Z;
  GetWorkspacesRow_LastUsedAt : time;
  GetWorkspacesRow_Count : Z;
}.

Record GetAuthorizationUserRolesRow := mkGetAuthorizationUserRolesRow {
  GetAuthorizationUserRolesRow_ID : uuid;
  GetAuthorizationUserRolesRow_Username : string;
  GetAuthorizationUserRolesRow_Status : UserStatus;
  GetAuthorizationUserRolesRow_Roles : list string;
  GetAuthorizationUserRolesRow_Groups : list string;
}.

Record GetOrganizationIDsByMemberIDsRow := mkGetOrganizationIDsByMemberIDsRow {
  GetOrganizationIDsByMemberIDsRow_UserID : uuid;
  GetOrganizationIDsByMemberIDsRow_OrganizationIDs : list uuid;
}.

Record GetWorkspaceOwnerCountsByTemplateIDsRow := mkGetWorkspaceOwnerCountsByTemplateIDsRow {
  GetWorkspaceOwnerCountsByTemplateIDsRow_TemplateID : uuid;
  GetWorkspaceOwnerCountsByTemplateIDsRow_Count : Z;
}.

Record GetTemplateDAUsRow := mkGetTemplateDAUsRow {
  GetTemplateDAUsRow_Date : time;
  GetTemplateDAUsRow_UserID : uuid;
}.

Record GetAuditLogsOffsetRow := mkGetAuditLogsOffsetRow {
  GetAuditLogsOffsetRow_ID : uuid;
  GetAuditLogsOffsetRow_Time : time;
  GetAuditLogsOffsetRow_UserID : uuid;
  GetAuditLogsOffsetRow_OrganizationID : uuid;
  GetAuditLogsOffsetRow_Ip : Inet;
  GetAuditLogsOffsetRow_UserAgent : nullable string;
  GetAuditLogsOffsetRow_ResourceType : ResourceType;
  GetAuditLogsOffsetRow_ResourceID : uuid;
  GetAuditLogsOffsetRow_ResourceTarget : string;
  GetAuditLogsOffsetRow_Action : AuditAction;
  GetAuditLogsOffsetRow_Diff : RawMessage;
  GetAuditLogsOffsetRow_StatusCode : Z;
  GetAuditLogsOffsetRow_AdditionalFields : RawMessage;
  GetAuditLogsOffsetRow_RequestID : uuid;
  GetAuditLogsOffsetRow_ResourceIcon : string;
  GetAuditLogsOffsetRow_UserUsername : nullable string;
  GetAuditLogsOffsetRow_UserEmail : nullable string;
  GetAuditLogsOffsetRow_UserCreatedAt : nullable time;
  GetAuditLogsOffsetRow_UserStatus : UserStatus;
  GetAuditLogsOffsetRow_UserRoles : list string;
  GetAuditLogsOffsetRow_UserAvatarUrl : nullable string;
  GetAuditLogsOffsetRow_Count : Z;
}.
#[global] Instance GetAuditLogsOffsetRow_eta : Eta GetAuditLogsOffsetRow := λ r,
  mkGetAuditLogsOffsetRow r.(GetAuditLogsOffsetRow_ID) r.(GetAuditLogsOffsetRow_Time)
    r.(GetAuditLogsOffsetRow_UserID) r.(GetAuditLogsOffsetRow_OrganizationID)
    r.(GetAuditLogsOffsetRow_Ip) r.(GetAuditLogsOffsetRow_UserAgent)
    r.(GetAuditLogsOffsetRow_ResourceType) r.(GetAuditLogsOffsetRow_ResourceID)
    r.(GetAuditLogsOffsetRow_ResourceTarget) r.(GetAuditLogsOffsetRow_Action)
    r.(GetAuditLogsOffsetRow_Diff) r.(GetAuditLogsOffsetRow_StatusCode)
    r.(GetAuditLogsOffsetRow_AdditionalFields) r.(GetAuditLogsOffsetRow_RequestID)
    r.(GetAuditLogsOffsetRow_ResourceIcon) r.(GetAuditLogsOffsetRow_UserUsername)
    r.(GetAuditLogsOffsetRow_UserEmail) r.(GetAuditLogsOffsetRow_UserCreatedAt)
    r.(GetAuditLogsOffsetRow_UserStatus) r.(GetAuditLogsOffsetRow_UserRoles)
    r.(GetAuditLogsOffsetRow_UserAvatarUrl) r.(GetAuditLogsOffsetRow_Count).

(** ** Parameters *)

Record AcquireProvisionerJobParams := mkAcquireProvisionerJobParams {
  AcquireProvisionerJobParams_StartedAt : nullable time;
  AcquireProvisionerJobParams_WorkerID : nullable uuid;
  AcquireProvisionerJobParams_Types : list ProvisionerType;
  AcquireProvisionerJobParams_Tags : RawMessage;
}.

Record GetAuditLogsOffsetParams := mkGetAuditLogsOffsetParams {
  GetAuditLogsOffsetParams_Limit : Z;
  GetAuditLogsOffsetParams_Offset : Z;
  GetAuditLogsOffsetParams_ResourceType : string;
  GetAuditLogsOffsetParams_ResourceID : uuid;
  GetAuditLogsOffsetParams_ResourceTarget : string;
  GetAuditLogsOffsetParams_Action : string;
  GetAuditLogsOffsetParams_Username : string;
  GetAuditLogsOffsetParams_Email : string;
  GetAuditLogsOffsetParams_DateFrom : time;
  GetAuditLogsOffsetParams_DateTo : time;
}.

Record GetFileByHashAndCreatorParams := mkGetFileByHashAndCreatorParams {
  GetFileByHashAndCreatorParams_Hash : string;
  GetFileByHashAndCreatorParams_CreatedBy : uuid;
}.

Record GetFilteredUserCountParams := mkGetFilteredUserCountParams {
  GetFilteredUserCountParams_Deleted : bool;
  GetFilteredUserCountParams_Search : string;
  GetFilteredUserCountParams_Status : list UserStatus;
  GetFilteredUserCountParams_RbacRole : list string;
}.

Record GetGitAuthLinkParams := mkGetGitAuthLinkParams {
  GetGitAuthLinkParams_ProviderID : string;
  GetGitAuthLinkParams_UserID : uuid;
}.

Record GetGroupByOrgAndNameParams := mkGetGroupByOrgAndNameParams {
  GetGroupByOrgAndNameParams_OrganizationID : uuid;
  GetGroupByOrgAndNameParams_Name : string;
}.

Record GetOrganizationMemberByUserIDParams := mkGetOrganizationMemberByUserIDParams {
  GetOrganizationMemberByUserIDParams_OrganizationID : uuid;
  GetOrganizationMemberByUserIDParams_UserID : uuid;
}.

Record GetParameterValueByScopeAndNameParams := mkGetParameterValueByScopeAndNameParams {
  GetParameterValueByScopeAndNameParams_Scope : ParameterScope;
  GetParameterValueByScopeAndNameParams_ScopeID : uuid;
  GetParameterValueByScopeAndNameParams_Name : string;
}.

Record GetProvisionerLogsByIDBetweenParams := mkGetProvisionerLogsByIDBetweenParams {
  GetProvisionerLogsByIDBetweenParams_JobID : uuid;
  GetProvisionerLogsByIDBetweenParams_CreatedAfter : Z;
  GetProvisionerLogsByIDBetweenParams_CreatedBefore : Z;
}.

Record GetTemplateAverageBuildTimeParams := mkGetTemplateAverageBuildTimeParams {
  GetTemplateAverageBuildTimeParams_TemplateID : nullable uuid;
  GetTemplateAverageBuildTimeParams_StartTime : nullable time;
}.

Record GetTemplateByOrganizationAndNameParams := mkGetTemplateByOrganizationAndNameParams {
  GetTemplateByOrganizationAndNameParams_OrganizationID : uuid;
  GetTemplateByOrganizationAndNameParams_Deleted : bool;
  GetTemplateByOrganizationAndNameParams_Name : string;
}.

Record GetTemplateVersionByOrganizationAndNameParams := mkGetTemplateVersionByOrganizationAndNameParams {
  GetTemplateVersionByOrganizationAndNameParams_OrganizationID : uuid;
  GetTemplateVersionByOrganizationAndNameParams_Name : string;
}.

Record GetTemplateVersionByTemplateIDAndNameParams := mkGetTemplateVersionByTemplateIDAndNameParams {
  GetTemplateVersionByTemplateIDAndNameParams_TemplateID : nullable uuid;
  GetTemplateVersionByTemplateIDAndNameParams_Name : string;
}.

Record GetTemplateVersionsByTemplateIDParams := mkGetTemplateVersionsByTemplateIDParams {
  GetTemplateVersionsByTemplateIDParams_TemplateID : uuid;
  GetTemplateVersionsByTemplateIDParams_AfterID : uuid;
  GetTemplateVersionsByTemplateIDParams_OffsetOpt : Z;
  GetTemplateVersionsByTemplateIDParams_LimitOpt : Z;
}.

Record GetTemplatesWithFilterParams := mkGetTemplatesWithFilterParams {
  GetTemplatesWithFilterParams_Deleted : bool;
  GetTemplatesWithFilterParams_OrganizationID : uuid;
  GetTemplatesWithFilterParams_ExactName : string;
  GetTemplatesWithFilterParams_IDs : list uuid;
}.

Record GetUserByEmailOrUsernameParams := mkGetUserByEmailOrUsernameParams {
  GetUserByEmailOrUsernameParams_Username : string;
  GetUserByEmailOrUsernameParams_Email : string;
  GetUserByEmailOrUsernameParams_Deleted : bool;
}.

Record GetUserLinkByUserIDLoginTypeParams := mkGetUserLinkByUserIDLoginTypeParams {
  GetUserLinkByUserIDLoginTypeParams_UserID : uuid;
  GetUserLinkByUserIDLoginTypeParams_LoginType : LoginType;
}.

Record GetUsersParams := mkGetUsersParams {
  GetUsersParams_Deleted : bool;
  GetUsersParams_AfterID : uuid;
  GetUsersParams_Search : string;
  GetUsersParams_Status : list UserStatus;
  GetUsersParams_RbacRole : list string;
  GetUsersParams_OffsetOpt : Z;
  GetUsersParams_LimitOpt : Z;
}.
#[global] Instance GetUsersParams_eta : Eta GetUsersParams := λ r,
  mkGetUsersParams r.(GetUsersParams_Deleted) r.(GetUsersParams_AfterID)
    r.(GetUsersParams_Search) r.(GetUsersParams_Status) r.(GetUsersParams_RbacRole)
    r.(GetUsersParams_OffsetOpt) r.(GetUsersParams_LimitOpt).
Definition GetUsersParams_zero : GetUsersParams :=
  mkGetUsersParams false uuid_Nil EmptyString [] [] 0%Z 0%Z.

Record GetWorkspaceAppByAgentIDAndSlugParams := mkGetWorkspaceAppByAgentIDAndSlugParams {
  GetWorkspaceAppByAgentIDAndSlugParams_AgentID : uuid;
  GetWorkspaceAppByAgentIDAndSlugParams_Slug : string;
}.

Record GetWorkspaceBuildByWorkspaceIDAndBuildNumberParams := mkGetWorkspaceBuildByWorkspaceIDAndBuildNumberParams {
  GetWorkspaceBuildByWorkspaceIDAndBuildNumberParams_WorkspaceID : uuid;
  GetWorkspaceBuildByWorkspaceIDAndBuildNumberParams_BuildNumber : Z;
}.

Record GetWorkspaceBuildsByWorkspaceIDParams := mkGetWorkspaceBuildsByWorkspaceIDParams {
  GetWorkspaceBuildsByWorkspaceIDParams_WorkspaceID : uuid;
  GetWorkspaceBuildsByWorkspaceIDParams_Since : time;
  GetWorkspaceBuildsByWorkspaceIDParams_AfterID : uuid;
  GetWorkspaceBuildsByWorkspaceIDParams_OffsetOpt : Z;
  GetWorkspaceBuildsByWorkspaceIDParams_LimitOpt : Z;
}.

Record GetWorkspaceByOwnerIDAndNameParams := mkGetWorkspaceByOwnerIDAndNameParams {
  GetWorkspaceByOwnerIDAndNameParams_OwnerID : uuid;
  GetWorkspaceByOwnerIDAndNameParams_Deleted : bool;
  GetWorkspaceByOwnerIDAndNameParams_Name : string;
}.

Record GetWorkspacesParams := mkGetWorkspacesParams {
  GetWorkspacesParams_Deleted : bool;
  GetWorkspacesParams_Status : string;
  GetWorkspacesParams_OwnerID : uuid;
  GetWorkspacesParams_OwnerUsername : string;
  GetWorkspacesParams_TemplateName : string;
  GetWorkspacesParams_TemplateIds : list uuid;
  GetWorkspacesParams_Name : string;
  GetWorkspacesParams_HasAgent : string;
  GetWorkspacesParams_AgentInactiveDisconnectTimeoutSeconds : Z;
  GetWorkspacesParams_Offset : Z;
  GetWorkspacesParams_Limit : Z;
}.
#[global] Instance GetWorkspacesParams_eta : Eta GetWorkspacesParams := λ r,
  mkGetWorkspacesParams r.(GetWorkspacesParams_Deleted) r.(GetWorkspacesParams_Status)
    r.(GetWorkspacesParams_OwnerID) r.(GetWorkspacesParams_OwnerUsername)
    r.(GetWorkspacesParams_TemplateName) r.(GetWorkspacesParams_TemplateIds)
    r.(GetWorkspacesParams_Name) r.(GetWorkspacesParams_HasAgent)
    r.(GetWorkspacesParams_AgentInactiveDisconnectTimeoutSeconds) r.(GetWorkspacesParams_Offset)
    r.(GetWorkspacesParams_Limit).
Definition GetWorkspacesParams_zero : GetWorkspacesParams :=
  mkGetWorkspacesParams false EmptyString uuid_Nil EmptyString EmptyString [] EmptyString
    EmptyString 0%Z 0%Z 0%Z.

Record InsertAPIKeyParams := mkInsertAPIKeyParams {
  InsertAPIKeyParams_ID : string;
  InsertAPIKeyParams_LifetimeSeconds : Z;
  InsertAPIKeyParams_HashedSecret : bytes;
  InsertAPIKeyParams_IPAddress : Inet;
  InsertAPIKeyParams_UserID : uuid;
  InsertAPIKeyParams_LastUsed : time;
  InsertAPIKeyParams_ExpiresAt : time;
  InsertAPIKeyParams_CreatedAt : time;
  InsertAPIKeyParams_UpdatedAt : time;
  InsertAPIKeyParams_LoginType : LoginType;
  InsertAPIKeyParams_Scope : APIKeyScope;
}.

Record InsertAgentStatParams := mkInsertAgentStatParams {
  InsertAgentStatParams_ID : uuid;
  InsertAgentStatParams_CreatedAt : time;
  InsertAgentStatParams_UserID : uuid;
  InsertAgentStatParams_WorkspaceID : uuid;
  InsertAgentStatParams_TemplateID : uuid;
  InsertAgentStatParams_AgentID : uuid;
  InsertAgentStatParams_Payload : RawMessage;
}.

Record InsertFileParams := mkInsertFileParams {
  InsertFileParams_ID : uuid;
  InsertFileParams_Hash : string;
  InsertFileParams_CreatedAt : time;
  InsertFileParams_CreatedBy : uuid;
  InsertFileParams_Mimetype : string;
  InsertFileParams_Data : bytes;
}.

Record InsertGitAuthLinkParams := mkInsertGitAuthLinkParams {
  InsertGitAuthLinkParams_ProviderID : string;
  InsertGitAuthLinkParams_UserID : uuid;
  InsertGitAuthLinkParams_CreatedAt : time;
  InsertGitAuthLinkParams_UpdatedAt : time;
  InsertGitAuthLinkParams_OAuthAccessToken : string;
  InsertGitAuthLinkParams_OAuthRefreshToken : string;
  InsertGitAuthLinkParams_OAuthExpiry : time;
}.

Record InsertGitSSHKeyParams := mkInsertGitSSHKeyParams {
  InsertGitSSHKeyParams_UserID : uuid;
  InsertGitSSHKeyParams_CreatedAt : time;
  InsertGitSSHKeyParams_UpdatedAt : time;
  InsertGitSSHKeyParams_PrivateKey : string;
  InsertGitSSHKeyParams_PublicKey : string;
}.

Record InsertGroupMemberParams := mkInsertGroupMemberParams {
  InsertGroupMemberParams_UserID : uuid;
  InsertGroupMemberParams_GroupID : uuid;
}.

Record InsertGroupParams := mkInsertGroupParams {
  InsertGroupParams_ID : uuid;
  InsertGroupParams_Name : string;
  InsertGroupParams_OrganizationID : uuid;
  InsertGroupParams_AvatarURL : string;
  InsertGroupParams_QuotaAllowance : Z;
}.

Record InsertLicenseParams := mkInsertLicenseParams {
  InsertLicenseParams_UploadedAt : time;
  InsertLicenseParams_JWT : string;
  InsertLicenseParams_Exp : time;
  InsertLicenseParams_Uuid : nullable uuid;
}.

Record InsertOrganizationMemberParams := mkInsertOrganizationMemberParams {
  InsertOrganizationMemberParams_OrganizationID : uuid;
  InsertOrganizationMemberParams_UserID : uuid;
  InsertOrganizationMemberParams_CreatedAt : time;
  InsertOrganizationMemberParams_UpdatedAt : time;
  InsertOrganizationMemberParams_Roles : list string;
}.

Record InsertOrganizationParams := mkInsertOrganizationParams {
  InsertOrganizationParams_ID : uuid;
  InsertOrganizationParams_Name : string;
  InsertOrganizationParams_Description : string;
  InsertOrganizationParams_CreatedAt : time;
  InsertOrganizationParams_UpdatedAt : time;
}.

Record InsertParameterSchemaParams := mkInsertParameterSchemaParams {
  InsertParameterSchemaParams_ID : uuid;
  InsertParameterSchemaParams_CreatedAt : time;
  InsertParameterSchemaParams_JobID : uuid;
  InsertParameterSchemaParams_Name : string;
  InsertParameterSchemaParams_Description : string;
  InsertParameterSchemaParams_DefaultSourceScheme : ParameterSourceScheme;
  InsertParameterSchemaParams_DefaultSourceValue : string;
  InsertParameterSchemaParams_AllowOverrideSource : bool;
  InsertParameterSchemaParams_DefaultDestinationScheme : ParameterDestinationScheme;
  InsertParameterSchemaParams_AllowOverrideDestination : bool;
  InsertParameterSchemaParams_DefaultRefresh : string;
  InsertParameterSchemaParams_RedisplayValue : bool;
  InsertParameterSchemaParams_ValidationError : string;
  InsertParameterSchemaParams_ValidationCondition : string;
  InsertParameterSchemaParams_ValidationTypeSystem : ParameterTypeSystem;
  InsertParameterSchemaParams_ValidationValueType : string;
  InsertParameterSchemaParams_Index : Z;
}.

Record InsertParameterValueParams := mkInsertParameterValueParams {
  InsertParameterValueParams_ID : uuid;
  InsertParameterValueParams_Name : string;
  InsertParameterValueParams_CreatedAt : time;
  InsertParameterValueParams_UpdatedAt : time;
  InsertParameterValueParams_Scope : ParameterScope;
  InsertParameterValueParams_ScopeID : uuid;
  InsertParameterValueParams_SourceScheme : ParameterSourceScheme;
  InsertParameterValueParams_SourceValue : string;
  InsertParameterValueParams_DestinationScheme : ParameterDestinationScheme;
}.

Record InsertProvisionerDaemonParams := mkInsertProvisionerDaemonParams {
  InsertProvisionerDaemonParams_ID : uuid;
  InsertProvisionerDaemonParams_CreatedAt : time;
  InsertProvisionerDaemonParams_Name : string;
  InsertProvisionerDaemonParams_Provisioners : list ProvisionerType;
  InsertProvisionerDaemonParams_Tags : StringMap;
}.

Record InsertProvisionerJobLogsParams := mkInsertProvisionerJobLogsParams {
  InsertProvisionerJobLogsParams_JobID : uuid;
  InsertProvisionerJobLogsParams_CreatedAt : list time;
  InsertProvisionerJobLogsParams_Source : list LogSource;
  InsertProvisionerJobLogsParams_Level : list LogLevel;
  InsertProvisionerJobLogsParams_Stage : list string;
  InsertProvisionerJobLogsParams_Output : list string;
}.

Record InsertProvisionerJobParams := mkInsertProvisionerJobParams {
  InsertProvisionerJobParams_ID : uuid;
  InsertProvisionerJobParams_CreatedAt : time;
  InsertProvisionerJobParams_UpdatedAt : time;
  InsertProvisionerJobParams_OrganizationID : uuid;
  InsertProvisionerJobParams_InitiatorID : uuid;
  InsertProvisionerJobParams_Provisioner : ProvisionerType;
  InsertProvisionerJobParams_StorageMethod : ProvisionerStorageMethod;
  InsertProvisionerJobParams_FileID : uuid;
  InsertProvisionerJobParams_Type : ProvisionerJobType;
  InsertProvisionerJobParams_Input : RawMessage;
  InsertProvisionerJobParams_Tags : StringMap;
}.

Record InsertReplicaParams := mkInsertReplicaParams {
  InsertReplicaParams_ID : uuid;
  InsertReplicaParams_CreatedAt : time;
  InsertReplicaParams_StartedAt : time;
  InsertReplicaParams_UpdatedAt : time;
  InsertReplicaParams_Hostname : string;
  InsertReplicaParams_RegionID : Z;
  InsertReplicaParams_RelayAddress : string;
  InsertReplicaParams_Version : string;
  InsertReplicaParams_DatabaseLatency : Z;
}.

Record InsertTemplateParams := mkInsertTemplateParams {
  InsertTemplateParams_ID : uuid;
  InsertTemplateParams_CreatedAt : time;
  InsertTemplateParams_UpdatedAt : time;
  InsertTemplateParams_OrganizationID : uuid;
  InsertTemplateParams_Name : string;
  InsertTemplateParams_Provisioner : ProvisionerType;
  InsertTemplateParams_ActiveVersionID : uuid;
  InsertTemplateParams_Description : string;
  InsertTemplateParams_DefaultTTL : Z;
  InsertTemplateParams_CreatedBy : uuid;
  InsertTemplateParams_Icon : string;
  InsertTemplateParams_UserACL : TemplateACL;
  InsertTemplateParams_GroupACL : TemplateACL;
  InsertTemplateParams_DisplayName : string;
  InsertTemplateParams_AllowUserCancelWorkspaceJobs : bool;
}.

Record InsertTemplateVersionParams := mkInsertTemplateVersionParams {
  InsertTemplateVersionParams_ID : uuid;
  InsertTemplateVersionParams_TemplateID : nullable uuid;
  InsertTemplateVersionParams_OrganizationID : uuid;
  InsertTemplateVersionParams_CreatedAt : time;
  InsertTemplateVersionParams_UpdatedAt : time;
  InsertTemplateVersionParams_Name : string;
  InsertTemplateVersionParams_Readme : string;
  InsertTemplateVersionParams_JobID : uuid;
  InsertTemplateVersionParams_CreatedBy : uuid;
}.

Record InsertUserLinkParams := mkInsertUserLinkParams {
  InsertUserLinkParams_UserID : uuid;
  InsertUserLinkParams_LoginType : LoginType;
  InsertUserLinkParams_LinkedID : string;
  InsertUserLinkParams_OAuthAccessToken : string;
  InsertUserLinkParams_OAuthRefreshToken : string;
  InsertUserLinkParams_OAuthExpiry : time;
}.

Record InsertUserParams := mkInsertUserParams {
  InsertUserParams_ID : uuid;
  InsertUserParams_Email : string;
  InsertUserParams_Username : string;
  InsertUserParams_HashedPassword : bytes;
  InsertUserParams_CreatedAt : time;
  InsertUserParams_UpdatedAt : time;
  InsertUserParams_RBACRoles : list string;
  InsertUserParams_LoginType : LoginType;
}.

Record InsertWorkspaceAgentParams := mkInsertWorkspaceAgentParams {
  InsertWorkspaceAgentParams_ID : uuid;
  InsertWorkspaceAgentParams_CreatedAt : time;
  InsertWorkspaceAgentParams_UpdatedAt : time;
  InsertWorkspaceAgentParams_Name : string;
  InsertWorkspaceAgentParams_ResourceID : uuid;
  InsertWorkspaceAgentParams_AuthToken : uuid;
  InsertWorkspaceAgentParams_AuthInstanceID : nullable string;
  InsertWorkspaceAgentParams_Architecture : string;
  InsertWorkspaceAgentParams_EnvironmentVariables : nullable RawMessage;
  InsertWorkspaceAgentParams_OperatingSystem : string;
  InsertWorkspaceAgentParams_StartupScript : nullable string;
  InsertWorkspaceAgentParams_Directory : string;
  InsertWorkspaceAgentParams_InstanceMetadata : nullable RawMessage;
  InsertWorkspaceAgentParams_ResourceMetadata : nullable RawMessage;
  InsertWorkspaceAgentParams_ConnectionTimeoutSeconds : Z;
  InsertWorkspaceAgentParams_TroubleshootingURL : string;
  InsertWorkspaceAgentParams_MOTDFile : string;
}.

Record InsertWorkspaceAppParams := mkInsertWorkspaceAppParams {
  InsertWorkspaceAppParams_ID : uuid;
  InsertWorkspaceAppParams_CreatedAt : time;
  InsertWorkspaceAppParams_AgentID : uuid;
  InsertWorkspaceAppParams_Slug : string;
  InsertWorkspaceAppParams_DisplayName : string;
  InsertWorkspaceAppParams_Icon : string;
  InsertWorkspaceAppParams_Command : nullable string;
  InsertWorkspaceAppParams_Url : nullable string;
  InsertWorkspaceAppParams_Subdomain : bool;
  InsertWorkspaceAppParams_SharingLevel : AppSharingLevel;
  InsertWorkspaceAppParams_HealthcheckUrl : string;
  InsertWorkspaceAppParams_HealthcheckInterval : Z;
  InsertWorkspaceAppParams_HealthcheckThreshold : Z;
  InsertWorkspaceAppParams_Health : WorkspaceAppHealth;
}.

Record InsertWorkspaceBuildParams := mkInsertWorkspaceBuildParams {
  InsertWorkspaceBuildParams_ID : uuid;
  InsertWorkspaceBuildParams_CreatedAt : time;
  InsertWorkspaceBuildParams_UpdatedAt : time;
  InsertWorkspaceBuildParams_WorkspaceID : uuid;
  InsertWorkspaceBuildParams_TemplateVersionID : uuid;
  InsertWorkspaceBuildParams_BuildNumber : Z;
  InsertWorkspaceBuildParams_Transition : WorkspaceTransition;
  InsertWorkspaceBuildParams_InitiatorID : uuid;
  InsertWorkspaceBuildParams_JobID : uuid;
  InsertWorkspaceBuildParams_ProvisionerState : bytes;
  InsertWorkspaceBuildParams_Deadline : time;
  InsertWorkspaceBuildParams_Reason : BuildReason;
}.

Record InsertWorkspaceParams := mkInsertWorkspaceParams {
  InsertWorkspaceParams_ID : uuid;
  InsertWorkspaceParams_CreatedAt : time;
  InsertWorkspaceParams_UpdatedAt : time;
  InsertWorkspaceParams_OwnerID : uuid;
  InsertWorkspaceParams_OrganizationID : uuid;
  InsertWorkspaceParams_TemplateID : uuid;
  InsertWorkspaceParams_Name : string;
  InsertWorkspaceParams_AutostartSchedule : nullable string;
  InsertWorkspaceParams_Ttl : nullable Z;
}.

Record InsertWorkspaceResourceMetadataParams := mkInsertWorkspaceResourceMetadataParams {
  InsertWorkspaceResourceMetadataParams_WorkspaceResourceID : uuid;
  InsertWorkspaceResourceMetadataParams_Key : string;
  InsertWorkspaceResourceMetadataParams_Value : nullable string;
  InsertWorkspaceResourceMetadataParams_Sensitive : bool;
}.

Record InsertWorkspaceResourceParams := mkInsertWorkspaceResourceParams {
  InsertWorkspaceResourceParams_ID : uuid;
  InsertWorkspaceResourceParams_CreatedAt : time;
  InsertWorkspaceResourceParams_JobID : uuid;
  InsertWorkspaceResourceParams_Transition : WorkspaceTransition;
  InsertWorkspaceResourceParams_Type : string;
  InsertWorkspaceResourceParams_Name : string;
  InsertWorkspaceResourceParams_Hide : bool;
  InsertWorkspaceResourceParams_Icon : string;
  InsertWorkspaceResourceParams_InstanceType : nullable string;
  InsertWorkspaceResourceParams_DailyCost : Z;
}.

Record ParameterValuesParams := mkParameterValuesParams {
  ParameterValuesParams_Scopes : list ParameterScope;
  ParameterValuesParams_ScopeIds : list uuid;
  ParameterValuesParams_IDs : list uuid;
  ParameterValuesParams_Names : list string;
}.

Record UpdateAPIKeyByIDParams := mkUpdateAPIKeyByIDParams {
  UpdateAPIKeyByIDParams_ID : string;
  UpdateAPIKeyByIDParams_LastUsed : time;
  UpdateAPIKeyByIDParams_ExpiresAt : time;
  UpdateAPIKeyByIDParams_IPAddress : Inet;
}.

Record UpdateGitAuthLinkParams := mkUpdateGitAuthLinkParams {
  UpdateGitAuthLinkParams_ProviderID : string;
  UpdateGitAuthLinkParams_UserID : uuid;
  UpdateGitAuthLinkParams_UpdatedAt : time;
  UpdateGitAuthLinkParams_OAuthAccessToken : string;
  UpdateGitAuthLinkParams_OAuthRefreshToken : string;
  UpdateGitAuthLinkParams_OAuthExpiry : time;
}.

Record UpdateGitSSHKeyParams := mkUpdateGitSSHKeyParams {
  UpdateGitSSHKeyParams_UserID : uuid;
  UpdateGitSSHKeyParams_UpdatedAt : time;
  UpdateGitSSHKeyParams_PrivateKey : string;
  UpdateGitSSHKeyParams_PublicKey : string;
}.

Record UpdateGroupByIDParams := mkUpdateGroupByIDParams {
  UpdateGroupByIDParams_Name : string;
  UpdateGroupByIDParams_AvatarURL : string;
  UpdateGroupByIDParams_QuotaAllowance : Z;
  UpdateGroupByIDParams_ID : uuid;
}.

Record UpdateMemberRolesParams := mkUpdateMemberRolesParams {
  UpdateMemberRolesParams_GrantedRoles : list string;
  UpdateMemberRolesParams_UserID : uuid;
  UpdateMemberRolesParams_OrgID : uuid;
}.

Record UpdateProvisionerDaemonByIDParams := mkUpdateProvisionerDaemonByIDParams {
  UpdateProvisionerDaemonByIDParams_ID : uuid;
  UpdateProvisionerDaemonByIDParams_UpdatedAt : nullable time;
  UpdateProvisionerDaemonByIDParams_Provisioners : list ProvisionerType;
}.

Record UpdateProvisionerJobByIDParams := mkUpdateProvisionerJobByIDParams {
  UpdateProvisionerJobByIDParams_ID : uuid;
  UpdateProvisionerJobByIDParams_UpdatedAt : time;
}.

Record UpdateProvisionerJobWithCancelByIDParams := mkUpdateProvisionerJobWithCancelByIDParams {
  UpdateProvisionerJobWithCancelByIDParams_ID : uuid;
  UpdateProvisionerJobWithCancelByIDParams_CanceledAt : nullable time;
  UpdateProvisionerJobWithCancelByIDParams_CompletedAt : nullable time;
}.

Record UpdateProvisionerJobWithCompleteByIDParams := mkUpdateProvisionerJobWithCompleteByIDParams {
  UpdateProvisionerJobWithCompleteByIDParams_ID : uuid;
  UpdateProvisionerJobWithCompleteByIDParams_UpdatedAt : time;
  UpdateProvisionerJobWithCompleteByIDParams_CompletedAt : nullable time;
  UpdateProvisionerJobWithCompleteByIDParams_Error : nullable string;
}.

Record UpdateReplicaParams := mkUpdateReplicaParams {
  UpdateReplicaParams_ID : uuid;
  UpdateReplicaParams_UpdatedAt : time;
  UpdateReplicaParams_StartedAt : time;
  UpdateReplicaParams_StoppedAt : nullable time;
  UpdateReplicaParams_RelayAddress : string;
  UpdateReplicaParams_RegionID : Z;
  UpdateReplicaParams_Hostname : string;
  UpdateReplicaParams_Version : string;
  UpdateReplicaParams_Error : string;
  UpdateReplicaParams_DatabaseLatency : Z;
}.

Record UpdateTemplateACLByIDParams := mkUpdateTemplateACLByIDParams {
  UpdateTemplateACLByIDParams_GroupACL : TemplateACL;
  UpdateTemplateACLByIDParams_UserACL : TemplateACL;
  UpdateTemplateACLByIDParams_ID : uuid;
}.

Record UpdateTemplateActiveVersionByIDParams := mkUpdateTemplateActiveVersionByIDParams {
  UpdateTemplateActiveVersionByIDParams_ID : uuid;
  UpdateTemplateActiveVersionByIDParams_ActiveVersionID : uuid;
  UpdateTemplateActiveVersionByIDParams_UpdatedAt : time;
}.

Record UpdateTemplateDeletedByIDParams := mkUpdateTemplateDeletedByIDParams {
  UpdateTemplateDeletedByIDParams_ID : uuid;
  UpdateTemplateDeletedByIDParams_Deleted : bool;
  UpdateTemplateDeletedByIDParams_UpdatedAt : time;
}.

Record UpdateTemplateMetaByIDParams := mkUpdateTemplateMetaByIDParams {
  UpdateTemplateMetaByIDParams_ID : uuid;
  UpdateTemplateMetaByIDParams_UpdatedAt : time;
  UpdateTemplateMetaByIDParams_Description : string;
  UpdateTemplateMetaByIDParams_DefaultTTL : Z;
  UpdateTemplateMetaByIDParams_Name : string;
  UpdateTemplateMetaByIDParams_Icon : string;
  UpdateTemplateMetaByIDParams_DisplayName : string;
  UpdateTemplateMetaByIDParams_AllowUserCancelWorkspaceJobs : bool;
}.

Record UpdateTemplateVersionByIDParams := mkUpdateTemplateVersionByIDParams {
  UpdateTemplateVersionByIDParams_ID : uuid;
  UpdateTemplateVersionByIDParams_TemplateID : nullable uuid;
  UpdateTemplateVersionByIDParams_UpdatedAt : time;
}.

Record UpdateTemplateVersionDescriptionByJobIDParams := mkUpdateTemplateVersionDescriptionByJobIDParams {
  UpdateTemplateVersionDescriptionByJobIDParams_JobID : uuid;
  UpdateTemplateVersionDescriptionByJobIDParams_Readme : string;
  UpdateTemplateVersionDescriptionByJobIDParams_UpdatedAt : time;
}.

Record UpdateUserDeletedByIDParams := mkUpdateUserDeletedByIDParams {
  UpdateUserDeletedByIDParams_ID : uuid;
  UpdateUserDeletedByIDParams_Deleted : bool;
}.

Record UpdateUserHashedPasswordParams := mkUpdateUserHashedPasswordParams {
  UpdateUserHashedPasswordParams_ID : uuid;
  UpdateUserHashedPasswordParams_HashedPassword : bytes;
}.

Record UpdateUserLastSeenAtParams := mkUpdateUserLastSeenAtParams {
  UpdateUserLastSeenAtParams_ID : uuid;
  UpdateUserLastSeenAtParams_LastSeenAt : time;
  UpdateUserLastSeenAtParams_UpdatedAt : time;
}.

Record UpdateUserLinkParams := mkUpdateUserLinkParams {
  UpdateUserLinkParams_OAuthAccessToken : string;
  UpdateUserLinkParams_OAuthRefreshToken : string;
  UpdateUserLinkParams_OAuthExpiry : time;
  UpdateUserLinkParams_UserID : uuid;
  UpdateUserLinkParams_LoginType : LoginType;
}.

Record UpdateUserLinkedIDParams := mkUpdateUserLinkedIDParams {
  UpdateUserLinkedIDParams_LinkedID : string;
  UpdateUserLinkedIDParams_UserID : uuid;
  UpdateUserLinkedIDParams_LoginType : LoginType;
}.

Record UpdateUserProfileParams := mkUpdateUserProfileParams {
  UpdateUserProfileParams_ID : uuid;
  UpdateUserProfileParams_Email : string;
  UpdateUserProfileParams_Username : string;
  UpdateUserProfileParams_AvatarURL : nullable string;
  UpdateUserProfileParams_UpdatedAt : time;
}.

Record UpdateUserRolesParams := mkUpdateUserRolesParams {
  UpdateUserRolesParams_GrantedRoles : list string;
  UpdateUserRolesParams_ID : uuid;
}.

Record UpdateUserStatusParams := mkUpdateUserStatusParams {
  UpdateUserStatusParams_ID : uuid;
  UpdateUserStatusParams_Status : UserStatus;
  UpdateUserStatusParams_UpdatedAt : time;
}.

Record UpdateWorkspaceAgentConnectionByIDParams := mkUpdateWorkspaceAgentConnectionByIDParams {
  UpdateWorkspaceAgentConnectionByIDParams_ID : uuid;
  UpdateWorkspaceAgentConnectionByIDParams_FirstConnectedAt : nullable time;
  UpdateWorkspaceAgentConnectionByIDParams_LastConnectedAt : nullable time;
  UpdateWorkspaceAgentConnectionByIDParams_LastConnectedReplicaID : nullable uuid;
  UpdateWorkspaceAgentConnectionByIDParams_DisconnectedAt : nullable time;
  UpdateWorkspaceAgentConnectionByIDParams_UpdatedAt : time;
}.

Record UpdateWorkspaceAgentVersionByIDParams := mkUpdateWorkspaceAgentVersionByIDParams {
  UpdateWorkspaceAgentVersionByIDParams_ID : uuid;
  UpdateWorkspaceAgentVersionByIDParams_Version : string;
}.

Record UpdateWorkspaceAppHealthByIDParams := mkUpdateWorkspaceAppHealthByIDParams {
  UpdateWorkspaceAppHealthByIDParams_ID : uuid;
  UpdateWorkspaceAppHealthByIDParams_Health : WorkspaceAppHealth;
}.

Record UpdateWorkspaceAutostartParams := mkUpdateWorkspaceAutostartParams {
  UpdateWorkspaceAutostartParams_ID : uuid;
  UpdateWorkspaceAutostartParams_AutostartSchedule : nullable string;
}.

Record UpdateWorkspaceBuildByIDParams := mkUpdateWorkspaceBuildByIDParams {
  UpdateWorkspaceBuildByIDParams_ID : uuid;
  UpdateWorkspaceBuildByIDParams_UpdatedAt : time;
  UpdateWorkspaceBuildByIDParams_ProvisionerState : bytes;
  UpdateWorkspaceBuildByIDParams_Deadline : time;
}.

Record UpdateWorkspaceBuildCostByIDParams := mkUpdateWorkspaceBuildCostByIDParams {
  UpdateWorkspaceBuildCostByIDParams_ID : uuid;
  UpdateWorkspaceBuildCostByIDParams_DailyCost : Z;
}.

Record UpdateWorkspaceDeletedByIDParams := mkUpdateWorkspaceDeletedByIDParams {
  UpdateWorkspaceDeletedByIDParams_ID : uuid;
  UpdateWorkspaceDeletedByIDParams_Deleted : bool;
}.

Record UpdateWorkspaceLastUsedAtParams := mkUpdateWorkspaceLastUsedAtParams {
  UpdateWorkspaceLastUsedAtParams_ID : uuid;
  UpdateWorkspaceLastUsedAtParams_LastUsedAt : time;
}.

Record UpdateWorkspaceParams := mkUpdateWorkspaceParams {
  UpdateWorkspaceParams_ID : uuid;
  UpdateWorkspaceParams_Name : string;
}.

Record UpdateWorkspaceTTLParams := mkUpdateWorkspaceTTLParams {
  UpdateWorkspaceTTLParams_ID : uuid;
  UpdateWorkspaceTTLParams_Ttl : nullable Z;
}.

