(* ===== verification/ModelMethods.v ===== *)
(** * Methods of the database rows

    [coderd/database/modelmethods.go]: the access-control object of a row, and
    the conversions of query rows back to table rows. *)

From stdpp Require Import prelude gmap strings.
From S2P Require Import Prelude Rbac Models Queries.

(** [coderd/database/time.go]: times are stored to the microsecond. [now] is
    the reading of the clock. *)
Definition database_Time (t : time) : time := Round t Microsecond.
Definition database_Now (now : time) : time := database_Time now.

Definition AllUsersGroup : string := "Everyone".

Definition ToRBAC (s : APIKeyScope) : res string :=
  match s with
  | APIKeyScopeAll => Ok ScopeAll
  | APIKeyScopeApplicationConnect => Ok ScopeApplicationConnect
  | APIKeyScope_other s => Panic ("developer error: unknown scope type " +:+ s)
  end.

Section rbac_objects.
Context `{!UuidText}.

Definition Template_RBACObject (t : Template) : Object :=
  WithGroupACL t.(Template_GroupACL)
    (WithACLUserList t.(Template_UserACL)
       (InOrg t.(Template_OrganizationID) ResourceTemplate)).

Definition TemplateVersion_RBACObject (_ : TemplateVersion) (template : Template) : Object :=
  Template_RBACObject template.

Definition Group_RBACObject (g : Group) : Object := InOrg g.(Group_OrganizationID) ResourceGroup.

Definition Workspace_RBACObject (w : Workspace) : Object :=
  WithOwner (uuid_String w.(Workspace_OwnerID))
    (InOrg w.(Workspace_OrganizationID) ResourceWorkspace).

Definition Workspace_ExecutionRBAC (w : Workspace) : Object :=
  WithOwner (uuid_String w.(Workspace_OwnerID))
    (InOrg w.(Workspace_OrganizationID) ResourceWorkspaceExecution).

Definition Workspace_ApplicationConnectRBAC (w : Workspace) : Object :=
  WithOwner (uuid_String w.(Workspace_OwnerID))
    (InOrg w.(Workspace_OrganizationID) ResourceWorkspaceApplicationConnect).

Definition OrganizationMember_RBACObject (m : OrganizationMember) : Object :=
  InOrg m.(OrganizationMember_OrganizationID) ResourceOrganizationMember.

Definition Organization_RBACObject (o : Organization) : Object :=
  InOrg o.(Organization_ID) ResourceOrganization.

Definition ProvisionerDaemon_RBACObject (_ : ProvisionerDaemon) : Object :=
  ResourceProvisionerDaemon.

Definition File_RBACObject (f : File) : Object :=
  WithOwner (uuid_String f.(File_CreatedBy)) ResourceFile.

Definition User_RBACObject (_ : User) : Object := ResourceUser.

Definition License_RBACObject (_ : License) : Object := ResourceLicense.
End rbac_objects.

Definition ConvertUserRows (rows : list GetUsersRow) : list User :=
  (λ r, {|
    User_ID := r.(GetUsersRow_ID);
    User_Email := r.(GetUsersRow_Email);
    User_Username := r.(GetUsersRow_Username);
    User_HashedPassword := r.(GetUsersRow_HashedPassword);
    User_CreatedAt := r.(GetUsersRow_CreatedAt);
    User_UpdatedAt := r.(GetUsersRow_UpdatedAt);
    User_Status := r.(GetUsersRow_Status);
    User_RBACRoles := r.(GetUsersRow_RBACRoles);
    User_LoginType := r.(GetUsersRow_LoginType);
    User_AvatarURL := r.(GetUsersRow_AvatarURL);
    User_Deleted := r.(GetUsersRow_Deleted);
    User_LastSeenAt := r.(GetUsersRow_LastSeenAt) |}) <$> rows.

Definition ConvertWorkspaceRows (rows : list GetWorkspacesRow) : list Workspace :=
  (λ r, {|
    Workspace_ID := r.(GetWorkspacesRow_ID);
    Workspace_CreatedAt := r.(GetWorkspacesRow_CreatedAt);
    Workspace_UpdatedAt := r.(GetWorkspacesRow_UpdatedAt);
    Workspace_OwnerID := r.(GetWorkspacesRow_OwnerID);
    Workspace_OrganizationID := r.(GetWorkspacesRow_OrganizationID);
    Workspace_TemplateID := r.(GetWorkspacesRow_TemplateID);
    Workspace_Deleted := r.(GetWorkspacesRow_Deleted);
    Workspace_Name := r.(GetWorkspacesRow_Name);
    Workspace_AutostartSchedule := r.(GetWorkspacesRow_AutostartSchedule);
    Workspace_Ttl := r.(GetWorkspacesRow_Ttl);
    Workspace_LastUsedAt := r.(GetWorkspacesRow_LastUsedAt) |}) <$> rows.
