(* ===== verification/Store.v ===== *)
(** * The in-memory store: state and table operations

    [coderd/database/databasefake/databasefake.go] implements the store
    interface over one Go slice per table, under one mutex. [data] is that
    state; every exported method runs with the mutex held, so it is one atomic
    state transformer. [first_row], [rows_or_none], [insert_row], [update_row]
    and the two delete loops are the loops its methods are written with; the
    methods themselves are in the [Store*] files that follow. *)

From stdpp Require Import prelude gmap strings.
From S2P Require Import Prelude Models Queries.

Record data := mkData {
  apiKeys : list APIKey;
  organizations : list Organization;
  organizationMembers : list OrganizationMember;
  users : list User;
  userLinks : list UserLink;
  agentStats : list AgentStat;
  auditLogs : list AuditLog;
  files : list File;
  gitAuthLinks : list GitAuthLink;
  gitSSHKey : list GitSSHKey;
  groupMembers : list GroupMember;
  groups : list Group;
  licenses : list License;
  parameterSchemas : list ParameterSchema;
  parameterValues : list ParameterValue;
  provisionerDaemons : list ProvisionerDaemon;
  provisionerJobLogs : list ProvisionerJobLog;
  provisionerJobs : list ProvisionerJob;
  replicas : list Replica;
  templateVersions : list TemplateVersion;
  templates : list Template;
  workspaceAgents : list WorkspaceAgent;
  workspaceApps : list WorkspaceApp;
  workspaceBuilds : list WorkspaceBuild;
  workspaceResourceMetadata : list WorkspaceResourceMetadatum;
  workspaceResources : list WorkspaceResource;
  workspaces : list Workspace;
  deploymentID : string;
  derpMeshKey : string;
  lastUpdateCheck : option string;
  lastLicenseID : Z;
}.
#[global] Instance data_eta : Eta data := λ q,
  mkData q.(apiKeys) q.(organizations) q.(organizationMembers) q.(users) q.(userLinks)
    q.(agentStats) q.(auditLogs) q.(files) q.(gitAuthLinks) q.(gitSSHKey) q.(groupMembers)
    q.(groups) q.(licenses) q.(parameterSchemas) q.(parameterValues) q.(provisionerDaemons)
    q.(provisionerJobLogs) q.(provisionerJobs) q.(replicas) q.(templateVersions)
    q.(templates) q.(workspaceAgents) q.(workspaceApps) q.(workspaceBuilds)
    q.(workspaceResourceMetadata) q.(workspaceResources) q.(workspaces) q.(deploymentID)
    q.(derpMeshKey) q.(lastUpdateCheck) q.(lastLicenseID).

(** [New]: every table is empty. *)
Definition New : data :=
  mkData [] [] [] [] [] [] [] [] [] [] [] [] [] [] [] [] [] [] [] [] [] [] [] [] [] [] []
    EmptyString EmptyString None 0.

(** A store method that may change the tables. *)
Abbreviation StoreM := (GoM data) (only parsing).

(** [InTx] runs the function on the same tables: an error does not roll back. *)
Definition InTx {A} (fn : StoreM A) : StoreM A := fn.

Section rows.
Context {A : Type}.

(** Return the first row that matches, or [sql.ErrNoRows]. *)
Definition first_row (P : A → bool) (l : list A) : res A :=
  of_option ErrNoRows (find_first P l).

(** A query that reports an empty result as [sql.ErrNoRows]. *)
Definition rows_or_none (l : list A) : res (list A) :=
  match l with [] => Err ErrNoRows | _ => Ok l end.

Definition insert_row (tbl : data → list A) `{!Setter tbl} (x : A) : StoreM A :=
  λ q, (Ok x, set_field tbl (λ l, l ++ [x]) q).

(** Update the first row that matches and return it, or [sql.ErrNoRows]. *)
Definition update_row (tbl : data → list A) `{!Setter tbl} (P : A → bool) (f : A → A) :
    StoreM A := λ q,
  match update_first P f (tbl q) with
  | Some (x, l) => (Ok x, set_field tbl (λ _, l) q)
  | None => (Err ErrNoRows, q)
  end.

(** Remove the first row that matches by moving the last row into its place. *)
Definition swap_delete_row (tbl : data → list A) `{!Setter tbl} (P : A → bool) :
    StoreM unit := λ q,
  match index_first P (tbl q) with
  | Some i => (Ok tt, set_field tbl (swap_remove i) q)
  | None => (Err ErrNoRows, q)
  end.

(** Remove the first row that matches by shifting the rows after it. *)
Definition shift_delete_row (tbl : data → list A) `{!Setter tbl} (P : A → bool) :
    StoreM unit := λ q,
  match index_first P (tbl q) with
  | Some i => (Ok tt, set_field tbl (shift_remove i) q)
  | None => (Err ErrNoRows, q)
  end.

(** Remove rows from a slice while ranging over it. *)
Definition range_delete_rows (tbl : data → list A) `{!Setter tbl} (P : A → bool) :
    StoreM unit := λ q,
  let '(r, l) := range_delete P (tbl q) in (r, set_field tbl (λ _, l) q).
End rows.

Definition void {S A} (m : GoM S A) : GoM S unit := _ ← m; mret tt.

Lemma void_run {S A} (m : GoM S A) s :
  void m s = match m s with
             | (Ok _, s') => (Ok tt, s')
             | (Err e, s') => (Err e, s')
             | (Panic p, s') => (Panic p, s')
             end.
Proof. unfold void, mbind, gom_bind. by destruct (m s) as [[]]. Qed.

(** An update is seen by the query with the same condition. *)
Lemma update_row_found {A} (tbl : data → list A) `{!Setter tbl, !SetterLaw tbl} P f q x :
  find_first P (tbl q) = Some x → P (f x) = true →
  ∃ q', update_row tbl P f q = (Ok (f x), q') ∧ find_first P (tbl q') = Some (f x).
Proof.
  intros Hfind Hf. unfold update_row.
  destruct (find_first_spec P (tbl q)) as [(pre & y & post & Hq & Hpre & Hy & Hy')|[_ Hn]];
    [|congruence].
  assert (y = x) as -> by congruence. rewrite Hq, update_first_app by done.
  eexists. split; [done|]. rewrite get_set. clear -Hpre Hf.
  induction Hpre as [|z pre Hz _ IH]; simpl; [by rewrite Hf|by rewrite Hz].
Qed.

(** Where no two rows have the same key, every row with the key is updated. *)
Lemma update_row_unique {A K} `{!EqDecision K} (tbl : data → list A) `{!Setter tbl} (key : A → K) f q x :
  NoDup (key <$> tbl q) → x ∈ tbl q →
  void (update_row tbl (λ y, key y == key x) f) q =
    (Ok tt, set_field tbl (λ _, (λ y, if key y == key x then f y else y) <$> tbl q) q).
Proof. intros Hnd Hx. rewrite void_run. unfold update_row. by rewrite update_first_unique. Qed.

Lemma preserves_void {S A T} (f : S → T) (m : GoM S A) : preserves f m → preserves f (void m).
Proof. intros Hm. apply preserves_bind; [done|]. intros ?. apply preserves_ret. Qed.
#[export] Hint Resolve preserves_void : frame.

(** The two table operations change no other table. *)
Lemma preserves_insert_row {A T} (g : data → T) (tbl : data → list A) `{!Setter tbl} x :
  (∀ h q, g (set_field tbl h q) = g q) → preserves g (insert_row tbl x).
Proof. intros Hg q. apply Hg. Qed.
Lemma preserves_update_row {A T} (g : data → T) (tbl : data → list A) `{!Setter tbl} P f :
  (∀ h q, g (set_field tbl h q) = g q) → preserves g (update_row tbl P f).
Proof.
  intros Hg q. unfold update_row. destruct (update_first P f (tbl q)) as [[x l]|]; [apply Hg|done].
Qed.
#[export] Hint Extern 1 (preserves _ (insert_row _ _)) =>
  apply preserves_insert_row; (reflexivity || assumption) : frame.
#[export] Hint Extern 1 (preserves _ (update_row _ _ _)) =>
  apply preserves_update_row; reflexivity : frame.

(** ** Pagination, shared by the list queries *)

(** [for i, v := range rows { if v.ID == afterID { rows = rows[i+1:]; break } }] *)
Definition rows_after {A} (P : A → bool) (l : list A) : option (list A) :=
  match index_first P l with Some i => Some (drop (S i) l) | None => None end.

(** [if limit > len(rows) { limit = len(rows) }; rows = rows[:limit]] *)
Definition limit_rows {A} (limit : Z) (l : list A) : list A :=
  if (0 <? limit)%Z then take (Z.to_nat limit) l else l.

(** The pagination of the version and build lists: an unknown [afterID], an
    offset beyond the end and an empty page are all [sql.ErrNoRows]. *)
Definition page_rows {A} (ID : A → uuid) (afterID : uuid) (offset limit : Z) (l : list A) :
    res (list A) :=
  match (if afterID != uuid_Nil then rows_after (λ v, ID v == afterID) l else Some l) with
  | None => Err ErrNoRows
  | Some l =>
      if (0 <? offset)%Z && (Z.of_nat (length l) - 1 <? offset)%Z then Err ErrNoRows
      else rows_or_none (limit_rows limit (drop (Z.to_nat offset) l))
  end.
