(* ===== verification/StoreUsers.v ===== *)
(** * The in-memory store: users and access

    Users, API keys, organizations and their members, groups, login links, git
    keys, licenses, replicas and the audit log of
    [coderd/database/databasefake/databasefake.go]. *)

From stdpp Require Import prelude gmap strings.
From S2P Require Import Prelude Rbac Models Queries ModelMethods Store.

(** ** [coderd/util/slice/slice.go] *)

Definition ContainsCompare {T} (haystack : list T) (needle : T) (equal : T → T → bool) : bool :=
  existsb (λ hay, equal needle hay) haystack.

Definition slice_Contains `{EqDecision T} (haystack : list T) (needle : T) : bool :=
  ContainsCompare haystack needle (λ a b, a == b).

Definition OverlapCompare {T} (a b : list T) (equal : T → T → bool) : bool :=
  existsb (λ element, ContainsCompare a element equal) b.

Definition Overlap `{EqDecision T} (a b : list T) : bool :=
  OverlapCompare a b (λ a b, a == b).

Fixpoint unique_from `{EqDecision T} (cpy a : list T) : list T :=
  match a with
  | [] => cpy
  | v :: a' => if slice_Contains cpy v then unique_from cpy a'
               else unique_from (cpy ++ [v]) a'
  end.
Definition Unique `{EqDecision T} (a : list T) : list T := unique_from [] a.

(** The loop with the [exist] map that [UpdateUserRoles] and
    [UpdateMemberRoles] share: keep first occurrences. *)
Fixpoint dedup_roles (exist : gset string) (rs : list string) : list string :=
  match rs with
  | [] => []
  | r :: rs' => if decide (r ∈ exist) then dedup_roles exist rs'
                else r :: dedup_roles ({[r]} ∪ exist) rs'
  end.
Definition unique_sorted_roles (rs : list string) : list string :=
  sort_by string_lt (dedup_roles ∅ rs).

(** ** API keys *)

Definition GetAPIKeyByID (id : string) (q : data) : res APIKey :=
  first_row (λ apiKey, apiKey.(APIKey_ID) == id) q.(apiKeys).

Definition GetAPIKeysLastUsedAfter (after : time) (q : data) : res (list APIKey) :=
  Ok (filter (λ key, After key.(APIKey_LastUsed) after) q.(apiKeys)).

Definition GetAPIKeysByLoginType (t : LoginType) (q : data) : res (list APIKey) :=
  Ok (filter (λ key, key.(APIKey_LoginType) = t) q.(apiKeys)).

Definition DeleteAPIKeyByID (id : string) : StoreM unit :=
  swap_delete_row apiKeys (λ apiKey, apiKey.(APIKey_ID) == id).

(** The loop goes from the last index down to the first, shifting the tail
    left at each deletion. *)
Fixpoint delete_backwards {A} (P : A → bool) (n : nat) (l : list A) : list A :=
  match n with
  | 0 => l
  | S i =>
      delete_backwards P i
        (match l !! i with
         | Some x => if P x then shift_remove i l else l
         | None => l
         end)
  end.

Definition DeleteAPIKeysByUserID (userID : uuid) : StoreM unit := λ q,
  (Ok tt, q <| apiKeys :=
     delete_backwards (λ key, key.(APIKey_UserID) == userID) (length q.(apiKeys)) q.(apiKeys) |>).

Definition InsertAPIKey (arg : InsertAPIKeyParams) : StoreM APIKey :=
  let lifetime :=
    if (arg.(InsertAPIKeyParams_LifetimeSeconds) =? 0)%Z then 86400%Z
    else arg.(InsertAPIKeyParams_LifetimeSeconds) in
  insert_row apiKeys {|
    APIKey_ID := arg.(InsertAPIKeyParams_ID);
    APIKey_HashedSecret := arg.(InsertAPIKeyParams_HashedSecret);
    APIKey_UserID := arg.(InsertAPIKeyParams_UserID);
    APIKey_LastUsed := arg.(InsertAPIKeyParams_LastUsed);
    APIKey_ExpiresAt := arg.(InsertAPIKeyParams_ExpiresAt);
    APIKey_CreatedAt := arg.(InsertAPIKeyParams_CreatedAt);
    APIKey_UpdatedAt := arg.(InsertAPIKeyParams_UpdatedAt);
    APIKey_LoginType := arg.(InsertAPIKeyParams_LoginType);
    APIKey_LifetimeSeconds := lifetime;
    APIKey_IPAddress := arg.(InsertAPIKeyParams_IPAddress);
    APIKey_Scope := arg.(InsertAPIKeyParams_Scope) |}.

Definition UpdateAPIKeyByID (arg : UpdateAPIKeyByIDParams) : StoreM unit :=
  void (update_row apiKeys (λ apiKey, apiKey.(APIKey_ID) == arg.(UpdateAPIKeyByIDParams_ID))
    (λ apiKey, apiKey <| APIKey_LastUsed := arg.(UpdateAPIKeyByIDParams_LastUsed) |>
                      <| APIKey_ExpiresAt := arg.(UpdateAPIKeyByIDParams_ExpiresAt) |>
                      <| APIKey_IPAddress := arg.(UpdateAPIKeyByIDParams_IPAddress) |>)).

(** ** Users *)

Definition GetUserByEmailOrUsername (arg : GetUserByEmailOrUsernameParams) (q : data) : res User :=
  first_row (λ user,
    (EqualFold user.(User_Email) arg.(GetUserByEmailOrUsernameParams_Email)
     || EqualFold user.(User_Username) arg.(GetUserByEmailOrUsernameParams_Username))
    && (user.(User_Deleted) == arg.(GetUserByEmailOrUsernameParams_Deleted))) q.(users).

Definition GetUserByID (id : uuid) (q : data) : res User :=
  first_row (λ user, user.(User_ID) == id) q.(users).

(** [existing++] on an [int64], which a slice cannot overflow. *)
Definition GetUserCount (q : data) : res Z :=
  Ok (Z.of_nat (length (filter (λ u, negb u.(User_Deleted)) q.(users)))).

Definition GetActiveUserCount (q : data) : res Z :=
  Ok (Z.of_nat (length (filter
    (λ u, (u.(User_Status) == UserStatusActive) && negb u.(User_Deleted)) q.(users)))).

Definition UpdateUserDeletedByID (params : UpdateUserDeletedByIDParams) : StoreM unit :=
  void (update_row users (λ u, u.(User_ID) == params.(UpdateUserDeletedByIDParams_ID))
    (λ u, u <| User_Deleted := params.(UpdateUserDeletedByIDParams_Deleted) |>)).

Section user_lists.
Context `{!UuidText}.

(** The filters [GetUsers] and [GetAuthorizedUserCount] share. *)
Definition filter_deleted (deleted : bool) (us : list User) : list User :=
  if deleted then filter (λ user, user.(User_Deleted)) us else us.

Definition filter_search (search : string) (us : list User) : list User :=
  if search != "" then
    filter (λ user,
      Contains (ToLower user.(User_Email)) (ToLower search)
      || Contains (ToLower user.(User_Username)) (ToLower search)) us
  else us.

Definition filter_status (status : list UserStatus) (us : list User) : list User :=
  match status with
  | [] => us
  | _ => filter (λ user,
           ContainsCompare status user.(User_Status)
             (λ a b, EqualFold (UserStatus_string a) (UserStatus_string b))) us
  end.

Definition filter_role (roles : list string) (us : list User) : list User :=
  match roles with
  | [] => us
  | _ => if slice_Contains roles RoleMember then us
         else filter (λ user, OverlapCompare roles user.(User_RBACRoles) EqualFold) us
  end.

Definition GetAuthorizedUserCount (params : GetFilteredUserCountParams)
    (prepared : option (Object → res unit)) (q : data) : res Z :=
  let us := match prepared with
            | Some p => filter (λ user, is_ok (p (User_RBACObject user))) q.(users)
            | None => q.(users)
            end in
  let us := filter_deleted params.(GetFilteredUserCountParams_Deleted) us in
  let us := filter_search params.(GetFilteredUserCountParams_Search) us in
  let us := filter_status params.(GetFilteredUserCountParams_Status) us in
  let us := filter_role params.(GetFilteredUserCountParams_RbacRole) us in
  Ok (Z.of_nat (length us)).

Definition GetFilteredUserCount (arg : GetFilteredUserCountParams) (q : data) : res Z :=
  GetAuthorizedUserCount arg None q.

(** Order by creation time, then by the text of the ID. *)
Definition user_less (a b : User) : bool :=
  if a.(User_CreatedAt) == b.(User_CreatedAt)
  then string_lt (uuid_String a.(User_ID)) (uuid_String b.(User_ID))
  else Before a.(User_CreatedAt) b.(User_CreatedAt).

Definition convertUsers (us : list User) (count : Z) : list GetUsersRow :=
  (λ u, {|
    GetUsersRow_ID := u.(User_ID);
    GetUsersRow_Email := u.(User_Email);
    GetUsersRow_Username := u.(User_Username);
    GetUsersRow_HashedPassword := u.(User_HashedPassword);
    GetUsersRow_CreatedAt := u.(User_CreatedAt);
    GetUsersRow_UpdatedAt := u.(User_UpdatedAt);
    GetUsersRow_Status := u.(User_Status);
    GetUsersRow_RBACRoles := u.(User_RBACRoles);
    GetUsersRow_LoginType := u.(User_LoginType);
    GetUsersRow_AvatarURL := u.(User_AvatarURL);
    GetUsersRow_Deleted := u.(User_Deleted);
    GetUsersRow_LastSeenAt := u.(User_LastSeenAt);
    GetUsersRow_Count := count |}) <$> us.

Definition GetUsers (params : GetUsersParams) (q : data) : res (list GetUsersRow) :=
  let us := sort_by user_less q.(users) in
  let us := filter_deleted params.(GetUsersParams_Deleted) us in
  let after := if params.(GetUsersParams_AfterID) != uuid_Nil
               then rows_after (λ v, v.(User_ID) == params.(GetUsersParams_AfterID)) us
               else Some us in
  match after with
  | None => Ok []
  | Some us =>
      let us := filter_search params.(GetUsersParams_Search) us in
      let us := filter_status params.(GetUsersParams_Status) us in
      let us := filter_role params.(GetUsersParams_RbacRole) us in
      let beforePageCount := Z.of_nat (length us) in
      if (0 <? params.(GetUsersParams_OffsetOpt))%Z
         && (beforePageCount - 1 <? params.(GetUsersParams_OffsetOpt))%Z
      then Ok []
      else Ok (convertUsers
                 (limit_rows params.(GetUsersParams_LimitOpt)
                    (drop (Z.to_nat params.(GetUsersParams_OffsetOpt)) us)) beforePageCount)
  end.

Definition GetAuthorizationUserRoles (userID : uuid) (q : data) :
    res GetAuthorizationUserRolesRow :=
  match find_first (λ u, u.(User_ID) == userID) q.(users) with
  | None => Err ErrNoRows
  | Some u =>
      let orgRoles :=
        mem ← filter (λ mem, mem.(OrganizationMember_UserID) = userID) q.(organizationMembers);
        mem.(OrganizationMember_Roles)
        ++ ["organization-member:" +:+ uuid_String mem.(OrganizationMember_OrganizationID)] in
      Ok {| GetAuthorizationUserRolesRow_ID := userID;
            GetAuthorizationUserRolesRow_Username := u.(User_Username);
            GetAuthorizationUserRolesRow_Status := u.(User_Status);
            GetAuthorizationUserRolesRow_Roles :=
              u.(User_RBACRoles) ++ ["member"] ++ orgRoles;
            GetAuthorizationUserRolesRow_Groups :=
              (λ m, uuid_String m.(GroupMember_GroupID)) <$>
                filter (λ m, m.(GroupMember_UserID) = userID) q.(groupMembers) |}
  end.
End user_lists.

Definition GetUsersByIDs (ids : list uuid) (q : data) : res (list User) :=
  Ok (user ← q.(users); id ← ids; if user.(User_ID) != id then [] else [user]).

Definition InsertUser (arg : InsertUserParams) : StoreM User := λ q,
  if existsb (λ user, (user.(User_Username) == arg.(InsertUserParams_Username))
                      && negb user.(User_Deleted)) q.(users)
  then (Err ErrDuplicateKey, q)
  else insert_row users {|
    User_ID := arg.(InsertUserParams_ID);
    User_Email := arg.(InsertUserParams_Email);
    User_Username := arg.(InsertUserParams_Username);
    User_HashedPassword := arg.(InsertUserParams_HashedPassword);
    User_CreatedAt := arg.(InsertUserParams_CreatedAt);
    User_UpdatedAt := arg.(InsertUserParams_UpdatedAt);
    User_Status := UserStatusActive;
    User_RBACRoles := arg.(InsertUserParams_RBACRoles);
    User_LoginType := arg.(InsertUserParams_LoginType);
    User_AvatarURL := null_of EmptyString;
    User_Deleted := false;
    User_LastSeenAt := time_zero |} q.

Definition UpdateUserRoles (arg : UpdateUserRolesParams) : StoreM User :=
  update_row users (λ user, user.(User_ID) == arg.(UpdateUserRolesParams_ID))
    (λ user, user <| User_RBACRoles :=
       unique_sorted_roles arg.(UpdateUserRolesParams_GrantedRoles) |>).

Definition UpdateUserProfile (arg : UpdateUserProfileParams) : StoreM User :=
  update_row users (λ user, user.(User_ID) == arg.(UpdateUserProfileParams_ID))
    (λ user, user <| User_Email := arg.(UpdateUserProfileParams_Email) |>
                  <| User_Username := arg.(UpdateUserProfileParams_Username) |>
                  <| User_AvatarURL := arg.(UpdateUserProfileParams_AvatarURL) |>).

Definition UpdateUserStatus (arg : UpdateUserStatusParams) : StoreM User :=
  update_row users (λ user, user.(User_ID) == arg.(UpdateUserStatusParams_ID))
    (λ user, user <| User_Status := arg.(UpdateUserStatusParams_Status) |>
                  <| User_UpdatedAt := arg.(UpdateUserStatusParams_UpdatedAt) |>).

Definition UpdateUserLastSeenAt (arg : UpdateUserLastSeenAtParams) : StoreM User :=
  update_row users (λ user, user.(User_ID) == arg.(UpdateUserLastSeenAtParams_ID))
    (λ user, user <| User_LastSeenAt := arg.(UpdateUserLastSeenAtParams_LastSeenAt) |>
                  <| User_UpdatedAt := arg.(UpdateUserLastSeenAtParams_UpdatedAt) |>).

Definition UpdateUserHashedPassword (arg : UpdateUserHashedPasswordParams) : StoreM unit :=
  void (update_row users (λ user, user.(User_ID) == arg.(UpdateUserHashedPasswordParams_ID))
    (λ user, user <| User_HashedPassword :=
       arg.(UpdateUserHashedPasswordParams_HashedPassword) |>)).
