(* ===== verification/StoreOrgs.v ===== *)
(** * The in-memory store: organizations, their members and groups

    The organization, membership, group and quota queries of
    [coderd/database/databasefake/databasefake.go]. *)

From stdpp Require Import prelude gmap strings.
From S2P Require Import Prelude Rbac Models Queries ModelMethods Store StoreUsers.

(** ** Organizations *)

Definition GetOrganizations (q : data) : res (list Organization) :=
  rows_or_none q.(organizations).

Definition GetOrganizationByID (id : uuid) (q : data) : res Organization :=
  first_row (λ o, o.(Organization_ID) == id) q.(organizations).

Definition GetOrganizationByName (name : string) (q : data) : res Organization :=
  first_row (λ o, o.(Organization_Name) == name) q.(organizations).

Definition GetOrganizationsByUserID (userID : uuid) (q : data) : res (list Organization) :=
  rows_or_none (
    organizationMember ← q.(organizationMembers);
    if organizationMember.(OrganizationMember_UserID) != userID then [] else
    organization ← q.(organizations);
    if organization.(Organization_ID) != organizationMember.(OrganizationMember_OrganizationID)
    then [] else [organization]).

Definition InsertOrganization (arg : InsertOrganizationParams) : StoreM Organization :=
  insert_row organizations {|
    Organization_ID := arg.(InsertOrganizationParams_ID);
    Organization_Name := arg.(InsertOrganizationParams_Name);
    Organization_Description := EmptyString;
    Organization_CreatedAt := arg.(InsertOrganizationParams_CreatedAt);
    Organization_UpdatedAt := arg.(InsertOrganizationParams_UpdatedAt) |}.

(** ** Organization members *)

Definition GetOrganizationMemberByUserID (arg : GetOrganizationMemberByUserIDParams) (q : data) :
    res OrganizationMember :=
  first_row (λ m,
    (m.(OrganizationMember_OrganizationID)
       == arg.(GetOrganizationMemberByUserIDParams_OrganizationID))
    && (m.(OrganizationMember_UserID) == arg.(GetOrganizationMemberByUserIDParams_UserID)))
    q.(organizationMembers).

Definition GetOrganizationIDsByMemberIDs (ids : list uuid) (q : data) :
    res (list GetOrganizationIDsByMemberIDsRow) :=
  rows_or_none (
    (λ userID, {|
       GetOrganizationIDsByMemberIDsRow_UserID := userID;
       GetOrganizationIDsByMemberIDsRow_OrganizationIDs :=
         OrganizationMember_OrganizationID <$>
           filter (λ membership, membership.(OrganizationMember_UserID) = userID)
             q.(organizationMembers) |}) <$> ids).

Definition GetOrganizationMembershipsByUserID (userID : uuid) (q : data) :
    res (list OrganizationMember) :=
  Ok (filter (λ mem, mem.(OrganizationMember_UserID) = userID) q.(organizationMembers)).

Definition InsertOrganizationMember (arg : InsertOrganizationMemberParams) :
    StoreM OrganizationMember :=
  insert_row organizationMembers {|
    OrganizationMember_UserID := arg.(InsertOrganizationMemberParams_UserID);
    OrganizationMember_OrganizationID := arg.(InsertOrganizationMemberParams_OrganizationID);
    OrganizationMember_CreatedAt := arg.(InsertOrganizationMemberParams_CreatedAt);
    OrganizationMember_UpdatedAt := arg.(InsertOrganizationMemberParams_UpdatedAt);
    OrganizationMember_Roles := arg.(InsertOrganizationMemberParams_Roles) |}.

Definition UpdateMemberRoles (arg : UpdateMemberRolesParams) : StoreM OrganizationMember :=
  update_row organizationMembers
    (λ mem, (mem.(OrganizationMember_UserID) == arg.(UpdateMemberRolesParams_UserID))
            && (mem.(OrganizationMember_OrganizationID) == arg.(UpdateMemberRolesParams_OrgID)))
    (λ mem, mem <| OrganizationMember_Roles :=
       unique_sorted_roles arg.(UpdateMemberRolesParams_GrantedRoles) |>).

Definition GetAllOrganizationMembers (organizationID : uuid) (q : data) : res (list User) :=
  Ok (member ← q.(organizationMembers);
      if member.(OrganizationMember_OrganizationID) == organizationID
      then filter (λ user, user.(User_ID) = member.(OrganizationMember_UserID)) q.(users)
      else []).

(** ** Groups *)

Definition GetGroupByID (id : uuid) (q : data) : res Group :=
  first_row (λ group, group.(Group_ID) == id) q.(groups).

Definition same_org_and_name (org : uuid) (name : string) (group : Group) : bool :=
  (group.(Group_OrganizationID) == org) && (group.(Group_Name) == name).

Definition GetGroupByOrgAndName (arg : GetGroupByOrgAndNameParams) (q : data) : res Group :=
  first_row (same_org_and_name arg.(GetGroupByOrgAndNameParams_OrganizationID)
               arg.(GetGroupByOrgAndNameParams_Name)) q.(groups).

Definition InsertGroup (arg : InsertGroupParams) : StoreM Group := λ q,
  if existsb (same_org_and_name arg.(InsertGroupParams_OrganizationID)
                arg.(InsertGroupParams_Name)) q.(groups)
  then (Err ErrDuplicateKey, q)
  else insert_row groups {|
    Group_ID := arg.(InsertGroupParams_ID);
    Group_Name := arg.(InsertGroupParams_Name);
    Group_OrganizationID := arg.(InsertGroupParams_OrganizationID);
    Group_AvatarURL := arg.(InsertGroupParams_AvatarURL);
    Group_QuotaAllowance := arg.(InsertGroupParams_QuotaAllowance) |} q.

Definition InsertAllUsersGroup (orgID : uuid) : StoreM Group :=
  InsertGroup {|
    InsertGroupParams_ID := orgID;
    InsertGroupParams_Name := AllUsersGroup;
    InsertGroupParams_OrganizationID := orgID;
    InsertGroupParams_AvatarURL := EmptyString;
    InsertGroupParams_QuotaAllowance := 0 |}.

Definition UpdateGroupByID (arg : UpdateGroupByIDParams) : StoreM Group :=
  update_row groups (λ group, group.(Group_ID) == arg.(UpdateGroupByIDParams_ID))
    (λ group, group <| Group_Name := arg.(UpdateGroupByIDParams_Name) |>
                    <| Group_AvatarURL := arg.(UpdateGroupByIDParams_AvatarURL) |>
                    <| Group_QuotaAllowance := arg.(UpdateGroupByIDParams_QuotaAllowance) |>).

Definition DeleteGroupByID (id : uuid) : StoreM unit :=
  shift_delete_row groups (λ group, group.(Group_ID) == id).

Definition GetGroupsByOrganizationID (organizationID : uuid) (q : data) : res (list Group) :=
  Ok (filter (λ group, group.(Group_OrganizationID) = organizationID
                       ∧ group.(Group_ID) ≠ organizationID) q.(groups)).

Definition InsertGroupMember (arg : InsertGroupMemberParams) : StoreM unit := λ q,
  if existsb (λ member, (member.(GroupMember_GroupID) == arg.(InsertGroupMemberParams_GroupID))
                && (member.(GroupMember_UserID) == arg.(InsertGroupMemberParams_UserID)))
       q.(groupMembers)
  then (Err ErrDuplicateKey, q)
  else void (insert_row groupMembers {|
    GroupMember_UserID := arg.(InsertGroupMemberParams_UserID);
    GroupMember_GroupID := arg.(InsertGroupMemberParams_GroupID) |}) q.

(** Deletes while ranging over the slice; see [range_delete]. *)
Definition DeleteGroupMember (userID : uuid) : StoreM unit :=
  range_delete_rows groupMembers (λ member, member.(GroupMember_UserID) == userID).

Definition GetGroupMembers (groupID : uuid) (q : data) : res (list User) :=
  Ok (member ← filter (λ m, m.(GroupMember_GroupID) = groupID) q.(groupMembers);
      match find_first (λ user,
              (user.(User_ID) == member.(GroupMember_UserID))
              && (user.(User_Status) == UserStatusActive) && negb user.(User_Deleted)) q.(users) with
      | Some user => [user]
      | None => []
      end).

(** ** Quotas *)

Definition sum_int64 (l : list Z) : Z := foldl (λ sum x, int64_wrap (sum + x)) 0%Z l.

Definition GetQuotaAllowanceForUser (userID : uuid) (q : data) : res Z :=
  Ok (sum_int64 (
    member ← q.(groupMembers);
    if member.(GroupMember_UserID) != userID then [] else
    group ← q.(groups);
    if group.(Group_ID) == member.(GroupMember_GroupID)
    then [group.(Group_QuotaAllowance)] else [])).

(** The build of the workspace created last; the zero build when there is none. *)
Definition last_created_build (q : data) (workspaceID : uuid) : WorkspaceBuild :=
  foldl (λ lastBuild build,
    if build.(WorkspaceBuild_WorkspaceID) != workspaceID then lastBuild
    else if After build.(WorkspaceBuild_CreatedAt) lastBuild.(WorkspaceBuild_CreatedAt)
    then build else lastBuild) WorkspaceBuild_zero q.(workspaceBuilds).

Definition GetQuotaConsumedForUser (userID : uuid) (q : data) : res Z :=
  Ok (sum_int64 (
    workspace ← q.(workspaces);
    if workspace.(Workspace_OwnerID) != userID then []
    else if workspace.(Workspace_Deleted) then []
    else [(last_created_build q workspace.(Workspace_ID)).(WorkspaceBuild_DailyCost)])).
