(* ===== verification/StoreMisc.v ===== *)
(** * The in-memory store: logs, keys, links, licenses, replicas

    The audit log, site configuration, license, user link, Git credential,
    replica and file queries of
    [coderd/database/databasefake/databasefake.go]. *)

From stdpp Require Import prelude gmap strings.
From S2P Require Import Prelude Models Queries Store StoreUsers.

(** ** Audit logs *)

(** [err == nil && !strings.EqualFold(want, field(user))] skips the entry. *)
Definition audit_user_differs (q : data) (userID : uuid) (field : User → string)
    (want : string) : bool :=
  (want != "")
  && match GetUserByID userID q with
     | Ok user => negb (EqualFold want (field user))
     | _ => false
     end.

Definition audit_matches (arg : GetAuditLogsOffsetParams) (q : data) (alog : AuditLog) : bool :=
  if (arg.(GetAuditLogsOffsetParams_Action) != "")
     && negb (Contains (AuditAction_string alog.(AuditLog_Action))
                arg.(GetAuditLogsOffsetParams_Action)) then false
  else if (arg.(GetAuditLogsOffsetParams_ResourceType) != "")
     && negb (Contains (ResourceType_string alog.(AuditLog_ResourceType))
                arg.(GetAuditLogsOffsetParams_ResourceType)) then false
  else if (arg.(GetAuditLogsOffsetParams_ResourceID) != uuid_Nil)
     && (alog.(AuditLog_ResourceID) != arg.(GetAuditLogsOffsetParams_ResourceID)) then false
  else if audit_user_differs q alog.(AuditLog_UserID) User_Username
            arg.(GetAuditLogsOffsetParams_Username) then false
  else if audit_user_differs q alog.(AuditLog_UserID) User_Email
            arg.(GetAuditLogsOffsetParams_Email) then false
  else if negb (IsZero arg.(GetAuditLogsOffsetParams_DateFrom))
     && Before alog.(AuditLog_Time) arg.(GetAuditLogsOffsetParams_DateFrom) then false
  else if negb (IsZero arg.(GetAuditLogsOffsetParams_DateTo))
     && After alog.(AuditLog_Time) arg.(GetAuditLogsOffsetParams_DateTo) then false
  else true.

Definition audit_row (q : data) (alog : AuditLog) : GetAuditLogsOffsetRow :=
  let r := GetUserByID alog.(AuditLog_UserID) q in
  let user := match r with Ok user => user | _ => User_zero end in
  let userValid := is_ok r in
  {| GetAuditLogsOffsetRow_ID := alog.(AuditLog_ID);
     GetAuditLogsOffsetRow_Time := time_zero;
     GetAuditLogsOffsetRow_UserID := alog.(AuditLog_UserID);
     GetAuditLogsOffsetRow_OrganizationID := alog.(AuditLog_OrganizationID);
     GetAuditLogsOffsetRow_Ip := alog.(AuditLog_Ip);
     GetAuditLogsOffsetRow_UserAgent := alog.(AuditLog_UserAgent);
     GetAuditLogsOffsetRow_ResourceType := alog.(AuditLog_ResourceType);
     GetAuditLogsOffsetRow_ResourceID := alog.(AuditLog_ResourceID);
     GetAuditLogsOffsetRow_ResourceTarget := alog.(AuditLog_ResourceTarget);
     GetAuditLogsOffsetRow_Action := alog.(AuditLog_Action);
     GetAuditLogsOffsetRow_Diff := alog.(AuditLog_Diff);
     GetAuditLogsOffsetRow_StatusCode := alog.(AuditLog_StatusCode);
     GetAuditLogsOffsetRow_AdditionalFields := alog.(AuditLog_AdditionalFields);
     GetAuditLogsOffsetRow_RequestID := alog.(AuditLog_RequestID);
     GetAuditLogsOffsetRow_ResourceIcon := alog.(AuditLog_ResourceIcon);
     GetAuditLogsOffsetRow_UserUsername := mkNull user.(User_Username) userValid;
     GetAuditLogsOffsetRow_UserEmail := mkNull user.(User_Email) userValid;
     GetAuditLogsOffsetRow_UserCreatedAt := mkNull user.(User_CreatedAt) userValid;
     GetAuditLogsOffsetRow_UserStatus := user.(User_Status);
     GetAuditLogsOffsetRow_UserRoles := user.(User_RBACRoles);
     GetAuditLogsOffsetRow_UserAvatarUrl := null_of EmptyString;
     GetAuditLogsOffsetRow_Count := 0 |}.

(** The loop over the stored entries: the first [offset] are skipped before any
    filter is applied, and the loop ends once [limit] rows are collected. *)
Fixpoint audit_loop (arg : GetAuditLogsOffsetParams) (q : data) (offset : Z)
    (alogs : list AuditLog) (logs : list GetAuditLogsOffsetRow) : list GetAuditLogsOffsetRow :=
  match alogs with
  | [] => logs
  | alog :: alogs =>
      if (0 <? offset)%Z then audit_loop arg q (offset - 1) alogs logs
      else if negb (audit_matches arg q alog) then audit_loop arg q offset alogs logs
      else
        let logs := logs ++ [audit_row q alog] in
        if (arg.(GetAuditLogsOffsetParams_Limit) <=? Z.of_nat (length logs))%Z then logs
        else audit_loop arg q offset alogs logs
  end.

Definition GetAuditLogsOffset (arg : GetAuditLogsOffsetParams) (q : data) :
    res (list GetAuditLogsOffsetRow) :=
  if (arg.(GetAuditLogsOffsetParams_Limit) <? 0)%Z
  then Panic "makeslice: cap out of range"
  else
    let logs := audit_loop arg q arg.(GetAuditLogsOffsetParams_Offset) q.(auditLogs) [] in
    let count := Z.of_nat (length logs) in
    Ok ((λ l, l <| GetAuditLogsOffsetRow_Count := count |>) <$> logs).

Definition InsertAuditLog (alog : AuditLog) : StoreM AuditLog := λ q,
  (Ok alog, q <| auditLogs :=
     sort_by (λ a b, Before a.(AuditLog_Time) b.(AuditLog_Time)) (q.(auditLogs) ++ [alog]) |>).

(** ** Site configuration *)

Definition InsertDeploymentID (id : string) : StoreM unit := modify (λ q, q <| deploymentID := id |>).
Definition GetDeploymentID (q : data) : res string := Ok q.(deploymentID).
Definition InsertDERPMeshKey (id : string) : StoreM unit := modify (λ q, q <| derpMeshKey := id |>).
Definition GetDERPMeshKey (q : data) : res string := Ok q.(derpMeshKey).
Definition InsertOrUpdateLastUpdateCheck (s : string) : StoreM unit :=
  modify (λ q, q <| lastUpdateCheck := Some s |>).
Definition GetLastUpdateCheck (q : data) : res string := of_option ErrNoRows q.(lastUpdateCheck).

(** ** Licenses *)

Definition InsertLicense (arg : InsertLicenseParams) : StoreM License := λ q,
  let l := {|
    License_ID := int32_wrap (q.(lastLicenseID) + 1);
    License_UploadedAt := arg.(InsertLicenseParams_UploadedAt);
    License_JWT := arg.(InsertLicenseParams_JWT);
    License_Exp := arg.(InsertLicenseParams_Exp);
    License_Uuid := null_of uuid_Nil |} in
  insert_row licenses l (q <| lastLicenseID := l.(License_ID) |>).

Definition by_license_id (a b : License) : bool := (a.(License_ID) <? b.(License_ID))%Z.

Definition GetLicenses (q : data) : res (list License) := Ok (sort_by by_license_id q.(licenses)).

Definition GetUnexpiredLicenses (now : time) (q : data) : res (list License) :=
  Ok (sort_by by_license_id (filter (λ l, After l.(License_Exp) now) q.(licenses))).

Definition DeleteLicense (id : Z) : StoreM Z :=
  _ ← swap_delete_row licenses (λ l, l.(License_ID) == id); mret id.

(** ** User links *)

Definition is_user_link (userID : uuid) (loginType : LoginType) (link : UserLink) : bool :=
  (link.(UserLink_UserID) == userID) && (link.(UserLink_LoginType) == loginType).

Definition GetUserLinkByLinkedID (id : string) (q : data) : res UserLink :=
  first_row (λ link, link.(UserLink_LinkedID) == id) q.(userLinks).

Definition GetUserLinkByUserIDLoginType (params : GetUserLinkByUserIDLoginTypeParams) (q : data) :
    res UserLink :=
  first_row (is_user_link params.(GetUserLinkByUserIDLoginTypeParams_UserID)
               params.(GetUserLinkByUserIDLoginTypeParams_LoginType)) q.(userLinks).

Definition InsertUserLink (args : InsertUserLinkParams) : StoreM UserLink :=
  insert_row userLinks {|
    UserLink_UserID := args.(InsertUserLinkParams_UserID);
    UserLink_LoginType := args.(InsertUserLinkParams_LoginType);
    UserLink_LinkedID := args.(InsertUserLinkParams_LinkedID);
    UserLink_OAuthAccessToken := args.(InsertUserLinkParams_OAuthAccessToken);
    UserLink_OAuthRefreshToken := args.(InsertUserLinkParams_OAuthRefreshToken);
    UserLink_OAuthExpiry := args.(InsertUserLinkParams_OAuthExpiry) |}.

Definition UpdateUserLinkedID (params : UpdateUserLinkedIDParams) : StoreM UserLink :=
  update_row userLinks (is_user_link params.(UpdateUserLinkedIDParams_UserID)
                          params.(UpdateUserLinkedIDParams_LoginType))
    (λ link, link <| UserLink_LinkedID := params.(UpdateUserLinkedIDParams_LinkedID) |>).

Definition UpdateUserLink (params : UpdateUserLinkParams) : StoreM UserLink :=
  update_row userLinks (is_user_link params.(UpdateUserLinkParams_UserID)
                          params.(UpdateUserLinkParams_LoginType))
    (λ link, link
       <| UserLink_OAuthAccessToken := params.(UpdateUserLinkParams_OAuthAccessToken) |>
       <| UserLink_OAuthRefreshToken := params.(UpdateUserLinkParams_OAuthRefreshToken) |>
       <| UserLink_OAuthExpiry := params.(UpdateUserLinkParams_OAuthExpiry) |>).

(** ** Git SSH keys *)

Definition GetGitSSHKey (userID : uuid) (q : data) : res GitSSHKey :=
  first_row (λ key, key.(GitSSHKey_UserID) == userID) q.(gitSSHKey).

Definition InsertGitSSHKey (arg : InsertGitSSHKeyParams) : StoreM GitSSHKey :=
  insert_row gitSSHKey {|
    GitSSHKey_UserID := arg.(InsertGitSSHKeyParams_UserID);
    GitSSHKey_CreatedAt := arg.(InsertGitSSHKeyParams_CreatedAt);
    GitSSHKey_UpdatedAt := arg.(InsertGitSSHKeyParams_UpdatedAt);
    GitSSHKey_PrivateKey := arg.(InsertGitSSHKeyParams_PrivateKey);
    GitSSHKey_PublicKey := arg.(InsertGitSSHKeyParams_PublicKey) |}.

Definition UpdateGitSSHKey (arg : UpdateGitSSHKeyParams) : StoreM GitSSHKey :=
  update_row gitSSHKey (λ key, key.(GitSSHKey_UserID) == arg.(UpdateGitSSHKeyParams_UserID))
    (λ key, key <| GitSSHKey_UpdatedAt := arg.(UpdateGitSSHKeyParams_UpdatedAt) |>
                <| GitSSHKey_PrivateKey := arg.(UpdateGitSSHKeyParams_PrivateKey) |>
                <| GitSSHKey_PublicKey := arg.(UpdateGitSSHKeyParams_PublicKey) |>).

Definition DeleteGitSSHKey (userID : uuid) : StoreM unit :=
  swap_delete_row gitSSHKey (λ key, key.(GitSSHKey_UserID) == userID).

(** ** Git authentication links *)

Definition is_git_auth_link (userID : uuid) (providerID : string) (l : GitAuthLink) : bool :=
  (l.(GitAuthLink_UserID) == userID) && (l.(GitAuthLink_ProviderID) == providerID).

Definition GetGitAuthLink (arg : GetGitAuthLinkParams) (q : data) : res GitAuthLink :=
  first_row (is_git_auth_link arg.(GetGitAuthLinkParams_UserID)
               arg.(GetGitAuthLinkParams_ProviderID)) q.(gitAuthLinks).

Definition InsertGitAuthLink (arg : InsertGitAuthLinkParams) : StoreM GitAuthLink :=
  insert_row gitAuthLinks {|
    GitAuthLink_ProviderID := arg.(InsertGitAuthLinkParams_ProviderID);
    GitAuthLink_UserID := arg.(InsertGitAuthLinkParams_UserID);
    GitAuthLink_CreatedAt := arg.(InsertGitAuthLinkParams_CreatedAt);
    GitAuthLink_UpdatedAt := arg.(InsertGitAuthLinkParams_UpdatedAt);
    GitAuthLink_OAuthAccessToken := arg.(InsertGitAuthLinkParams_OAuthAccessToken);
    GitAuthLink_OAuthRefreshToken := arg.(InsertGitAuthLinkParams_OAuthRefreshToken);
    GitAuthLink_OAuthExpiry := arg.(InsertGitAuthLinkParams_OAuthExpiry) |}.

(** Updates every link that matches, and succeeds when there is none. *)
Definition UpdateGitAuthLink (arg : UpdateGitAuthLinkParams) : StoreM unit :=
  modify (λ q, q <| gitAuthLinks := (λ l,
    if is_git_auth_link arg.(UpdateGitAuthLinkParams_UserID)
         arg.(UpdateGitAuthLinkParams_ProviderID) l
    then l <| GitAuthLink_UpdatedAt := arg.(UpdateGitAuthLinkParams_UpdatedAt) |>
           <| GitAuthLink_OAuthAccessToken := arg.(UpdateGitAuthLinkParams_OAuthAccessToken) |>
           <| GitAuthLink_OAuthRefreshToken := arg.(UpdateGitAuthLinkParams_OAuthRefreshToken) |>
           <| GitAuthLink_OAuthExpiry := arg.(UpdateGitAuthLinkParams_OAuthExpiry) |>
    else l) <$> q.(gitAuthLinks) |>).

(** ** Replicas *)

(** Deletes while ranging over the slice; see [range_delete]. *)
Definition DeleteReplicasUpdatedBefore (before : time) : StoreM unit :=
  range_delete_rows replicas (λ replica, Before replica.(Replica_UpdatedAt) before).

Definition InsertReplica (arg : InsertReplicaParams) : StoreM Replica :=
  insert_row replicas {|
    Replica_ID := arg.(InsertReplicaParams_ID);
    Replica_CreatedAt := arg.(InsertReplicaParams_CreatedAt);
    Replica_StartedAt := arg.(InsertReplicaParams_StartedAt);
    Replica_StoppedAt := null_of time_zero;
    Replica_UpdatedAt := arg.(InsertReplicaParams_UpdatedAt);
    Replica_Hostname := arg.(InsertReplicaParams_Hostname);
    Replica_RegionID := arg.(InsertReplicaParams_RegionID);
    Replica_RelayAddress := arg.(InsertReplicaParams_RelayAddress);
    Replica_DatabaseLatency := arg.(InsertReplicaParams_DatabaseLatency);
    Replica_Version := arg.(InsertReplicaParams_Version);
    Replica_Error := EmptyString |}.

Definition UpdateReplica (arg : UpdateReplicaParams) : StoreM Replica :=
  update_row replicas (λ replica, replica.(Replica_ID) == arg.(UpdateReplicaParams_ID))
    (λ replica, replica
       <| Replica_Hostname := arg.(UpdateReplicaParams_Hostname) |>
       <| Replica_StartedAt := arg.(UpdateReplicaParams_StartedAt) |>
       <| Replica_StoppedAt := arg.(UpdateReplicaParams_StoppedAt) |>
       <| Replica_UpdatedAt := arg.(UpdateReplicaParams_UpdatedAt) |>
       <| Replica_RelayAddress := arg.(UpdateReplicaParams_RelayAddress) |>
       <| Replica_RegionID := arg.(UpdateReplicaParams_RegionID) |>
       <| Replica_Version := arg.(UpdateReplicaParams_Version) |>
       <| Replica_Error := arg.(UpdateReplicaParams_Error) |>
       <| Replica_DatabaseLatency := arg.(UpdateReplicaParams_DatabaseLatency) |>).

Definition GetReplicasUpdatedAfter (updatedAt : time) (q : data) : res (list Replica) :=
  Ok (filter (λ replica, After replica.(Replica_UpdatedAt) updatedAt
                         && negb (Valid replica.(Replica_StoppedAt))) q.(replicas)).

(** ** Files *)

Definition GetFileByHashAndCreator (arg : GetFileByHashAndCreatorParams) (q : data) : res File :=
  first_row (λ file, (file.(File_Hash) == arg.(GetFileByHashAndCreatorParams_Hash))
    && (file.(File_CreatedBy) == arg.(GetFileByHashAndCreatorParams_CreatedBy))) q.(files).

Definition GetFileByID (id : uuid) (q : data) : res File :=
  first_row (λ file, file.(File_ID) == id) q.(files).

Definition InsertFile (arg : InsertFileParams) : StoreM File :=
  insert_row files {|
    File_Hash := arg.(InsertFileParams_Hash);
    File_CreatedAt := arg.(InsertFileParams_CreatedAt);
    File_CreatedBy := arg.(InsertFileParams_CreatedBy);
    File_Mimetype := arg.(InsertFileParams_Mimetype);
    File_Data := arg.(InsertFileParams_Data);
    File_ID := arg.(InsertFileParams_ID) |}.
