(* ===== verification/StoreJobs.v ===== *)
(** * The in-memory store: provisioner jobs, their logs, daemons, agent stats

    The provisioner job queue of
    [coderd/database/databasefake/databasefake.go], with the log, daemon and
    agent statistics queries. *)

From stdpp Require Import prelude gmap strings.
From S2P Require Import Prelude Models Queries Store.

(** Rows created after a time: the loop of the [Get*CreatedAfter] queries. *)
Definition created_after {A} (CreatedAt : A → time) (after : time) (l : list A) : list A :=
  filter (λ r, After (CreatedAt r) after) l.

(** ** Acquiring a job *)

(** [json.Unmarshal] into a [map[string]string]: [null] empties the map, a
    [null] member stores the empty string, any other value that is not a string
    is an error. *)
Definition errUnmarshal : error := ErrNew "json: cannot unmarshal".

Definition unmarshal_tag (j : json) : res string :=
  match j with
  | JString s => Ok s
  | JNull => Ok EmptyString
  | _ => Err errUnmarshal
  end.

Fixpoint unmarshal_tags (fields : list (string * json)) (tags : StringMap) : res StringMap :=
  match fields with
  | [] => Ok tags
  | (k, j) :: fields =>
      match unmarshal_tag j with
      | Ok s => unmarshal_tags fields (<[k := s]> tags)
      | Err e => Err e
      | Panic m => Panic m
      end
  end.

(** [if arg.Tags != nil { json.Unmarshal(arg.Tags, &tags) }] on the empty map. *)
Definition acquire_tags (m : RawMessage) : res StringMap :=
  match m with
  | RawNil => Ok ∅
  | RawValue JNull => Ok ∅
  | RawValue (JObject fields) => unmarshal_tags fields ∅
  | _ => Err errUnmarshal
  end.

(** Every tag of the job is provided, with the same value. *)
Definition tags_provided (job_tags tags : StringMap) : bool :=
  bool_decide (map_Forall (λ key value, tags !! key = Some value) job_tags).

Definition acquire_update (arg : AcquireProvisionerJobParams) (job : ProvisionerJob) :
    ProvisionerJob :=
  job <| ProvisionerJob_StartedAt := arg.(AcquireProvisionerJobParams_StartedAt) |>
      <| ProvisionerJob_UpdatedAt := null_val arg.(AcquireProvisionerJobParams_StartedAt) |>
      <| ProvisionerJob_WorkerID := arg.(AcquireProvisionerJobParams_WorkerID) |>.

(** The loop over the jobs; the result is the job taken and the updated slice. *)
Fixpoint acquire_loop (arg : AcquireProvisionerJobParams) (jobs : list ProvisionerJob) :
    res (ProvisionerJob * list ProvisionerJob) :=
  match jobs with
  | [] => Err ErrNoRows
  | job :: jobs' =>
      let continue :=
        fmap (M := res) (λ '(taken, l), (taken, job :: l)) (acquire_loop arg jobs') in
      if Valid job.(ProvisionerJob_StartedAt) then continue
      else if negb (existsb (λ t, job.(ProvisionerJob_Provisioner) == t)
                      arg.(AcquireProvisionerJobParams_Types)) then continue
      else match acquire_tags arg.(AcquireProvisionerJobParams_Tags) with
           | Ok tags =>
               if tags_provided job.(ProvisionerJob_Tags) tags
               then Ok (acquire_update arg job, acquire_update arg job :: jobs')
               else continue
           | Err e => Err (ErrWrap "unmarshal" e)
           | Panic m => Panic m
           end
  end.

Definition AcquireProvisionerJob (arg : AcquireProvisionerJobParams) : StoreM ProvisionerJob := λ q,
  match acquire_loop arg q.(provisionerJobs) with
  | Ok (job, jobs) => (Ok job, q <| provisionerJobs := jobs |>)
  | Err e => (Err e, q)
  | Panic m => (Panic m, q)
  end.

(** ** Jobs *)

Definition GetProvisionerJobByID (id : uuid) (q : data) : res ProvisionerJob :=
  first_row (λ job, job.(ProvisionerJob_ID) == id) q.(provisionerJobs).

Definition GetProvisionerJobsByIDs (ids : list uuid) (q : data) : res (list ProvisionerJob) :=
  rows_or_none (filter (λ job, job.(ProvisionerJob_ID) ∈ ids) q.(provisionerJobs)).

Definition GetProvisionerJobsCreatedAfter (after : time) (q : data) : res (list ProvisionerJob) :=
  Ok (created_after ProvisionerJob_CreatedAt after q.(provisionerJobs)).

Definition InsertProvisionerJob (arg : InsertProvisionerJobParams) : StoreM ProvisionerJob :=
  insert_row provisionerJobs {|
    ProvisionerJob_ID := arg.(InsertProvisionerJobParams_ID);
    ProvisionerJob_CreatedAt := arg.(InsertProvisionerJobParams_CreatedAt);
    ProvisionerJob_UpdatedAt := arg.(InsertProvisionerJobParams_UpdatedAt);
    ProvisionerJob_StartedAt := null_of time_zero;
    ProvisionerJob_CanceledAt := null_of time_zero;
    ProvisionerJob_CompletedAt := null_of time_zero;
    ProvisionerJob_Error := null_of EmptyString;
    ProvisionerJob_OrganizationID := arg.(InsertProvisionerJobParams_OrganizationID);
    ProvisionerJob_InitiatorID := arg.(InsertProvisionerJobParams_InitiatorID);
    ProvisionerJob_Provisioner := arg.(InsertProvisionerJobParams_Provisioner);
    ProvisionerJob_StorageMethod := arg.(InsertProvisionerJobParams_StorageMethod);
    ProvisionerJob_Type := arg.(InsertProvisionerJobParams_Type);
    ProvisionerJob_Input := arg.(InsertProvisionerJobParams_Input);
    ProvisionerJob_WorkerID := null_of uuid_Nil;
    ProvisionerJob_FileID := arg.(InsertProvisionerJobParams_FileID);
    ProvisionerJob_Tags := arg.(InsertProvisionerJobParams_Tags) |}.

Definition UpdateProvisionerJobByID (arg : UpdateProvisionerJobByIDParams) : StoreM unit :=
  void (update_row provisionerJobs
    (λ job, job.(ProvisionerJob_ID) == arg.(UpdateProvisionerJobByIDParams_ID))
    (λ job, job <| ProvisionerJob_UpdatedAt := arg.(UpdateProvisionerJobByIDParams_UpdatedAt) |>)).

Definition UpdateProvisionerJobWithCancelByID (arg : UpdateProvisionerJobWithCancelByIDParams) :
    StoreM unit :=
  void (update_row provisionerJobs
    (λ job, job.(ProvisionerJob_ID) == arg.(UpdateProvisionerJobWithCancelByIDParams_ID))
    (λ job, job
       <| ProvisionerJob_CanceledAt := arg.(UpdateProvisionerJobWithCancelByIDParams_CanceledAt) |>
       <| ProvisionerJob_CompletedAt :=
            arg.(UpdateProvisionerJobWithCancelByIDParams_CompletedAt) |>)).

Definition UpdateProvisionerJobWithCompleteByID (arg : UpdateProvisionerJobWithCompleteByIDParams) :
    StoreM unit :=
  void (update_row provisionerJobs
    (λ job, job.(ProvisionerJob_ID) == arg.(UpdateProvisionerJobWithCompleteByIDParams_ID))
    (λ job, job
       <| ProvisionerJob_UpdatedAt := arg.(UpdateProvisionerJobWithCompleteByIDParams_UpdatedAt) |>
       <| ProvisionerJob_CompletedAt :=
            arg.(UpdateProvisionerJobWithCompleteByIDParams_CompletedAt) |>
       <| ProvisionerJob_Error := arg.(UpdateProvisionerJobWithCompleteByIDParams_Error) |>)).

(** ** Job logs *)

Definition log_between (arg : GetProvisionerLogsByIDBetweenParams) (jobLog : ProvisionerJobLog) :
    bool :=
  if jobLog.(ProvisionerJobLog_JobID) != arg.(GetProvisionerLogsByIDBetweenParams_JobID)
  then false
  else if (arg.(GetProvisionerLogsByIDBetweenParams_CreatedBefore) != 0%Z)
     && (arg.(GetProvisionerLogsByIDBetweenParams_CreatedBefore)
           <? jobLog.(ProvisionerJobLog_ID))%Z
  then false
  else if (arg.(GetProvisionerLogsByIDBetweenParams_CreatedAfter) != 0%Z)
     && (jobLog.(ProvisionerJobLog_ID)
           <? arg.(GetProvisionerLogsByIDBetweenParams_CreatedAfter))%Z
  then false
  else true.

Definition GetProvisionerLogsByIDBetween (arg : GetProvisionerLogsByIDBetweenParams) (q : data) :
    res (list ProvisionerJobLog) :=
  Ok (filter (log_between arg) q.(provisionerJobLogs)).

(** The loop over the lines; the parallel slices are indexed by the line's
    position, which panics where one of them is shorter. *)
Fixpoint job_log_rows (arg : InsertProvisionerJobLogsParams) (id : Z) (index : nat)
    (outputs : list string) : res (list ProvisionerJobLog) :=
  match outputs with
  | [] => Ok []
  | output :: outputs =>
      let id := int64_wrap (id + 1) in
      match arg.(InsertProvisionerJobLogsParams_CreatedAt) !! index,
            arg.(InsertProvisionerJobLogsParams_Source) !! index,
            arg.(InsertProvisionerJobLogsParams_Level) !! index,
            arg.(InsertProvisionerJobLogsParams_Stage) !! index with
      | Some createdAt, Some source, Some level, Some stage =>
          fmap (M := res) (cons {|
            ProvisionerJobLog_JobID := arg.(InsertProvisionerJobLogsParams_JobID);
            ProvisionerJobLog_CreatedAt := createdAt;
            ProvisionerJobLog_Source := source;
            ProvisionerJobLog_Level := level;
            ProvisionerJobLog_Stage := stage;
            ProvisionerJobLog_Output := output;
            ProvisionerJobLog_ID := id |}) (job_log_rows arg id (S index) outputs)
      | _, _, _, _ => Panic "index out of range"
      end
  end.

Definition InsertProvisionerJobLogs (arg : InsertProvisionerJobLogsParams) :
    StoreM (list ProvisionerJobLog) := λ q,
  let id := match last q.(provisionerJobLogs) with
            | Some l => l.(ProvisionerJobLog_ID)
            | None => 1%Z
            end in
  match job_log_rows arg id 0 arg.(InsertProvisionerJobLogsParams_Output) with
  | Ok logs => (Ok logs, q <| provisionerJobLogs := q.(provisionerJobLogs) ++ logs |>)
  | Err e => (Err e, q)
  | Panic m => (Panic m, q)
  end.

(** ** Daemons *)

Definition GetProvisionerDaemons (q : data) : res (list ProvisionerDaemon) :=
  rows_or_none q.(provisionerDaemons).

Definition GetProvisionerDaemonByID (id : uuid) (q : data) : res ProvisionerDaemon :=
  first_row (λ daemon, daemon.(ProvisionerDaemon_ID) == id) q.(provisionerDaemons).

Definition InsertProvisionerDaemon (arg : InsertProvisionerDaemonParams) :
    StoreM ProvisionerDaemon :=
  insert_row provisionerDaemons {|
    ProvisionerDaemon_ID := arg.(InsertProvisionerDaemonParams_ID);
    ProvisionerDaemon_CreatedAt := arg.(InsertProvisionerDaemonParams_CreatedAt);
    ProvisionerDaemon_UpdatedAt := null_of time_zero;
    ProvisionerDaemon_Name := arg.(InsertProvisionerDaemonParams_Name);
    ProvisionerDaemon_Provisioners := arg.(InsertProvisionerDaemonParams_Provisioners);
    ProvisionerDaemon_ReplicaID := null_of uuid_Nil;
    ProvisionerDaemon_Tags := arg.(InsertProvisionerDaemonParams_Tags) |}.

Definition UpdateProvisionerDaemonByID (arg : UpdateProvisionerDaemonByIDParams) : StoreM unit :=
  void (update_row provisionerDaemons
    (λ daemon, daemon.(ProvisionerDaemon_ID) == arg.(UpdateProvisionerDaemonByIDParams_ID))
    (λ daemon, daemon
       <| ProvisionerDaemon_UpdatedAt := arg.(UpdateProvisionerDaemonByIDParams_UpdatedAt) |>
       <| ProvisionerDaemon_Provisioners :=
            arg.(UpdateProvisionerDaemonByIDParams_Provisioners) |>)).

(** ** Agent statistics *)

Definition DeleteOldAgentStats : StoreM unit := mret tt.

Definition InsertAgentStat (p : InsertAgentStatParams) : StoreM AgentStat :=
  insert_row agentStats {|
    AgentStat_ID := p.(InsertAgentStatParams_ID);
    AgentStat_CreatedAt := p.(InsertAgentStatParams_CreatedAt);
    AgentStat_UserID := p.(InsertAgentStatParams_UserID);
    AgentStat_AgentID := p.(InsertAgentStatParams_AgentID);
    AgentStat_WorkspaceID := p.(InsertAgentStatParams_WorkspaceID);
    AgentStat_TemplateID := p.(InsertAgentStatParams_TemplateID);
    AgentStat_Payload := p.(InsertAgentStatParams_Payload) |}.

Definition latest_agent_stat (agentID : uuid) (stats : list AgentStat) : option AgentStat :=
  foldl (λ latest agentStat,
    if agentStat.(AgentStat_AgentID) != agentID then latest
    else match latest with
         | None => Some agentStat
         | Some l => if After agentStat.(AgentStat_CreatedAt) l.(AgentStat_CreatedAt)
                     then Some agentStat else latest
         end) None stats.

Definition GetLatestAgentStat (agentID : uuid) (q : data) : res AgentStat :=
  of_option ErrNoRows (latest_agent_stat agentID q.(agentStats)).

(** The users seen per day; within a day the code's order is that of a Go map. *)
Definition template_seens (templateID : uuid) (stats : list AgentStat) : gmap time (gset uuid) :=
  foldl (λ seens stat,
    if stat.(AgentStat_TemplateID) != templateID then seens
    else
      let date := Truncate stat.(AgentStat_CreatedAt) (24 * Hour)%Z in
      <[date := {[stat.(AgentStat_UserID)]} ∪ default ∅ (seens !! date)]> seens) ∅ stats.

Definition GetTemplateDAUs (templateID : uuid) (q : data) : res (list GetTemplateDAUsRow) :=
  let seens := template_seens templateID q.(agentStats) in
  let seenKeys := sort_by Before (elements (dom seens)) in
  Ok (key ← seenKeys; id ← elements (default ∅ (seens !! key));
      [{| GetTemplateDAUsRow_Date := key; GetTemplateDAUsRow_UserID := id |}]).
