(* ===== verification/StoreTemplates.v ===== *)
(** * The in-memory store: templates, versions and parameters

    The template, template version, parameter schema and parameter value
    queries of [coderd/database/databasefake/databasefake.go]. *)

From stdpp Require Import prelude gmap strings.
From S2P Require Import Prelude Rbac Models Queries ModelMethods Store StoreUsers StoreOrgs StoreJobs.

(** ** Templates *)

Record TemplateUser := { TemplateUser_User : User; TemplateUser_Actions : list string }.
Record TemplateGroup := { TemplateGroup_Group : Group; TemplateGroup_Actions : list string }.

Definition GetTemplateByID (id : uuid) (q : data) : res Template :=
  first_row (λ template, template.(Template_ID) == id) q.(templates).

Definition GetTemplateByOrganizationAndName (arg : GetTemplateByOrganizationAndNameParams)
    (q : data) : res Template :=
  first_row (λ template,
    (template.(Template_OrganizationID) == arg.(GetTemplateByOrganizationAndNameParams_OrganizationID))
    && EqualFold template.(Template_Name) arg.(GetTemplateByOrganizationAndNameParams_Name)
    && (template.(Template_Deleted) == arg.(GetTemplateByOrganizationAndNameParams_Deleted)))
    q.(templates).

(** [now] is the reading of the clock. *)
Definition UpdateTemplateMetaByID (now : time) (arg : UpdateTemplateMetaByIDParams) :
    StoreM Template :=
  update_row templates (λ tpl, tpl.(Template_ID) == arg.(UpdateTemplateMetaByIDParams_ID))
    (λ tpl, tpl <| Template_UpdatedAt := database_Now now |>
                <| Template_Name := arg.(UpdateTemplateMetaByIDParams_Name) |>
                <| Template_DisplayName := arg.(UpdateTemplateMetaByIDParams_DisplayName) |>
                <| Template_Description := arg.(UpdateTemplateMetaByIDParams_Description) |>
                <| Template_Icon := arg.(UpdateTemplateMetaByIDParams_Icon) |>
                <| Template_DefaultTTL := arg.(UpdateTemplateMetaByIDParams_DefaultTTL) |>).

Section template_lists.
Context `{!UuidText}.

Definition template_less (i j : Template) : bool :=
  if i.(Template_Name) != j.(Template_Name)
  then string_lt i.(Template_Name) j.(Template_Name)
  else string_lt (uuid_String i.(Template_ID)) (uuid_String j.(Template_ID)).

Definition GetAuthorizedTemplates (arg : GetTemplatesWithFilterParams)
    (prepared : option (Object → res unit)) (q : data) : res (list Template) :=
  let keep (template : Template) : bool :=
    if match prepared with
       | Some p => negb (is_ok (p (Template_RBACObject template)))
       | None => false
       end then false
    else if template.(Template_Deleted) != arg.(GetTemplatesWithFilterParams_Deleted) then false
    else if (arg.(GetTemplatesWithFilterParams_OrganizationID) != uuid_Nil)
         && (template.(Template_OrganizationID)
               != arg.(GetTemplatesWithFilterParams_OrganizationID)) then false
    else if (arg.(GetTemplatesWithFilterParams_ExactName) != "")
         && negb (EqualFold template.(Template_Name)
                    arg.(GetTemplatesWithFilterParams_ExactName)) then false
    else match arg.(GetTemplatesWithFilterParams_IDs) with
         | [] => true
         | ids => existsb (λ id, template.(Template_ID) == id) ids
         end in
  rows_or_none (sort_by template_less (filter keep q.(templates))).

Definition GetTemplatesWithFilter (arg : GetTemplatesWithFilterParams) (q : data) :
    res (list Template) := GetAuthorizedTemplates arg None q.

Definition GetTemplates (q : data) : res (list Template) :=
  Ok (sort_by template_less q.(templates)).

(** Ranging over an access list; the order of a Go map is unspecified, here it
    is that of the finite map. *)
Fixpoint acl_loop {A} (lookup : uuid → res (option A)) (l : list (string * list string)) :
    res (list (A * list string)) :=
  match l with
  | [] => Ok []
  | (k, v) :: l =>
      match uuid_Parse k with
      | None => Panic "uuid: Parse: invalid UUID"
      | Some id =>
          o ← lookup id;
          rest ← acl_loop lookup l;
          mret (match o with Some x => (x, v) :: rest | None => rest end)
      end
  end.

(** The template with the ID, or [sql.ErrNoRows]; a nil ID is never found. *)
Definition acl_template (id : uuid) (q : data) : res Template :=
  match find_first (λ t, t.(Template_ID) == id) q.(templates) with
  | Some t => if t.(Template_ID) == uuid_Nil then Err ErrNoRows else Ok t
  | None => Err ErrNoRows
  end.

Definition GetTemplateUserRoles (id : uuid) (q : data) : res (list TemplateUser) :=
  template ← acl_template id q;
  l ← acl_loop (λ userID,
        match GetUserByID userID q with
        | Ok user => Ok (if user.(User_Deleted) || (user.(User_Status) == UserStatusSuspended)
                         then None else Some user)
        | Err e => if errors_Is e ErrNoRows then Err (ErrWrap "get user by ID" e)
                   else Ok (Some User_zero)
        | Panic m => Panic m
        end) (map_to_list template.(Template_UserACL));
  Ok (map (λ '(u, v), {| TemplateUser_User := u; TemplateUser_Actions := v |}) l).

Definition GetTemplateGroupRoles (id : uuid) (q : data) : res (list TemplateGroup) :=
  template ← acl_template id q;
  l ← acl_loop (λ groupID,
        match GetGroupByID groupID q with
        | Ok group => Ok (Some group)
        | Err e => if errors_Is e ErrNoRows then Ok None
                   else Err (ErrWrap "get group by ID" e)
        | Panic m => Panic m
        end) (map_to_list template.(Template_GroupACL));
  Ok (map (λ '(g, v), {| TemplateGroup_Group := g; TemplateGroup_Actions := v |}) l).

(** ** Template versions *)

Definition template_version_less (a b : TemplateVersion) : bool :=
  if a.(TemplateVersion_CreatedAt) == b.(TemplateVersion_CreatedAt)
  then string_lt (uuid_String a.(TemplateVersion_ID)) (uuid_String b.(TemplateVersion_ID))
  else Before a.(TemplateVersion_CreatedAt) b.(TemplateVersion_CreatedAt).

Definition GetTemplateVersionsByTemplateID (arg : GetTemplateVersionsByTemplateIDParams)
    (q : data) : res (list TemplateVersion) :=
  page_rows TemplateVersion_ID arg.(GetTemplateVersionsByTemplateIDParams_AfterID)
    arg.(GetTemplateVersionsByTemplateIDParams_OffsetOpt)
    arg.(GetTemplateVersionsByTemplateIDParams_LimitOpt)
    (sort_by template_version_less
       (filter (λ v, null_val v.(TemplateVersion_TemplateID)
                     = arg.(GetTemplateVersionsByTemplateIDParams_TemplateID))
          q.(templateVersions))).
End template_lists.

Definition InsertTemplate (arg : InsertTemplateParams) : StoreM Template :=
  insert_row templates {|
    Template_ID := arg.(InsertTemplateParams_ID);
    Template_CreatedAt := arg.(InsertTemplateParams_CreatedAt);
    Template_UpdatedAt := arg.(InsertTemplateParams_UpdatedAt);
    Template_OrganizationID := arg.(InsertTemplateParams_OrganizationID);
    Template_Deleted := false;
    Template_Name := arg.(InsertTemplateParams_Name);
    Template_Provisioner := arg.(InsertTemplateParams_Provisioner);
    Template_ActiveVersionID := arg.(InsertTemplateParams_ActiveVersionID);
    Template_Description := arg.(InsertTemplateParams_Description);
    Template_DefaultTTL := arg.(InsertTemplateParams_DefaultTTL);
    Template_CreatedBy := arg.(InsertTemplateParams_CreatedBy);
    Template_Icon := arg.(InsertTemplateParams_Icon);
    Template_UserACL := arg.(InsertTemplateParams_UserACL);
    Template_GroupACL := arg.(InsertTemplateParams_GroupACL);
    Template_DisplayName := arg.(InsertTemplateParams_DisplayName);
    Template_AllowUserCancelWorkspaceJobs := false |}.

Definition UpdateTemplateActiveVersionByID (arg : UpdateTemplateActiveVersionByIDParams) :
    StoreM unit :=
  void (update_row templates
    (λ t, t.(Template_ID) == arg.(UpdateTemplateActiveVersionByIDParams_ID))
    (λ t, t <| Template_ActiveVersionID :=
                 arg.(UpdateTemplateActiveVersionByIDParams_ActiveVersionID) |>
            <| Template_UpdatedAt := arg.(UpdateTemplateActiveVersionByIDParams_UpdatedAt) |>)).

Definition UpdateTemplateDeletedByID (arg : UpdateTemplateDeletedByIDParams) : StoreM unit :=
  void (update_row templates (λ t, t.(Template_ID) == arg.(UpdateTemplateDeletedByIDParams_ID))
    (λ t, t <| Template_Deleted := arg.(UpdateTemplateDeletedByIDParams_Deleted) |>
            <| Template_UpdatedAt := arg.(UpdateTemplateDeletedByIDParams_UpdatedAt) |>)).

Definition UpdateTemplateACLByID (arg : UpdateTemplateACLByIDParams) : StoreM Template :=
  update_row templates (λ t, t.(Template_ID) == arg.(UpdateTemplateACLByIDParams_ID))
    (λ t, t <| Template_GroupACL := arg.(UpdateTemplateACLByIDParams_GroupACL) |>
            <| Template_UserACL := arg.(UpdateTemplateACLByIDParams_UserACL) |>).

Definition GetTemplateVersionsCreatedAfter (after : time) (q : data) :
    res (list TemplateVersion) :=
  Ok (created_after TemplateVersion_CreatedAt after q.(templateVersions)).

Definition GetTemplateVersionByTemplateIDAndName
    (arg : GetTemplateVersionByTemplateIDAndNameParams) (q : data) : res TemplateVersion :=
  first_row (λ v,
    (v.(TemplateVersion_TemplateID) == arg.(GetTemplateVersionByTemplateIDAndNameParams_TemplateID))
    && EqualFold v.(TemplateVersion_Name) arg.(GetTemplateVersionByTemplateIDAndNameParams_Name))
    q.(templateVersions).

Definition GetTemplateVersionByOrganizationAndName
    (arg : GetTemplateVersionByOrganizationAndNameParams) (q : data) : res TemplateVersion :=
  first_row (λ v,
    (v.(TemplateVersion_OrganizationID)
       == arg.(GetTemplateVersionByOrganizationAndNameParams_OrganizationID))
    && EqualFold v.(TemplateVersion_Name) arg.(GetTemplateVersionByOrganizationAndNameParams_Name))
    q.(templateVersions).

Definition GetTemplateVersionByID (id : uuid) (q : data) : res TemplateVersion :=
  first_row (λ v, v.(TemplateVersion_ID) == id) q.(templateVersions).

Definition GetTemplateVersionsByIDs (ids : list uuid) (q : data) : res (list TemplateVersion) :=
  rows_or_none (filter (λ v, v.(TemplateVersion_ID) ∈ ids) q.(templateVersions)).

Definition GetTemplateVersionByJobID (jobID : uuid) (q : data) : res TemplateVersion :=
  first_row (λ v, v.(TemplateVersion_JobID) == jobID) q.(templateVersions).

Definition InsertTemplateVersion (arg : InsertTemplateVersionParams) : StoreM TemplateVersion :=
  insert_row templateVersions {|
    TemplateVersion_ID := arg.(InsertTemplateVersionParams_ID);
    TemplateVersion_TemplateID := arg.(InsertTemplateVersionParams_TemplateID);
    TemplateVersion_OrganizationID := arg.(InsertTemplateVersionParams_OrganizationID);
    TemplateVersion_CreatedAt := arg.(InsertTemplateVersionParams_CreatedAt);
    TemplateVersion_UpdatedAt := arg.(InsertTemplateVersionParams_UpdatedAt);
    TemplateVersion_Name := arg.(InsertTemplateVersionParams_Name);
    TemplateVersion_Readme := arg.(InsertTemplateVersionParams_Readme);
    TemplateVersion_JobID := arg.(InsertTemplateVersionParams_JobID);
    TemplateVersion_CreatedBy := arg.(InsertTemplateVersionParams_CreatedBy) |}.

Definition UpdateTemplateVersionByID (arg : UpdateTemplateVersionByIDParams) : StoreM unit :=
  void (update_row templateVersions
    (λ v, v.(TemplateVersion_ID) == arg.(UpdateTemplateVersionByIDParams_ID))
    (λ v, v <| TemplateVersion_TemplateID := arg.(UpdateTemplateVersionByIDParams_TemplateID) |>
            <| TemplateVersion_UpdatedAt := arg.(UpdateTemplateVersionByIDParams_UpdatedAt) |>)).

Definition UpdateTemplateVersionDescriptionByJobID
    (arg : UpdateTemplateVersionDescriptionByJobIDParams) : StoreM unit :=
  void (update_row templateVersions
    (λ v, v.(TemplateVersion_JobID) == arg.(UpdateTemplateVersionDescriptionByJobIDParams_JobID))
    (λ v, v <| TemplateVersion_Readme :=
                 arg.(UpdateTemplateVersionDescriptionByJobIDParams_Readme) |>
            <| TemplateVersion_UpdatedAt :=
                 arg.(UpdateTemplateVersionDescriptionByJobIDParams_UpdatedAt) |>)).

(** ** Parameters *)

(** [ParameterValue] is the row type's name, so the query carries a suffix. *)
Definition ParameterValue_query (id : uuid) (q : data) : res ParameterValue :=
  first_row (λ v, v.(ParameterValue_ID) == id) q.(parameterValues).

Definition DeleteParameterValueByID (id : uuid) : StoreM unit :=
  swap_delete_row parameterValues (λ v, v.(ParameterValue_ID) == id).

(** [len(want) > 0 && !slice.Contains(want, x)] skips the row. *)
Definition unlisted {A} `{EqDecision A} (want : list A) (x : A) : bool :=
  match want with [] => false | _ => negb (slice_Contains want x) end.

Definition ParameterValues (arg : ParameterValuesParams) (q : data) : res (list ParameterValue) :=
  let keep (v : ParameterValue) : bool :=
    if unlisted arg.(ParameterValuesParams_Scopes) v.(ParameterValue_Scope) then false
    else if unlisted arg.(ParameterValuesParams_ScopeIds) v.(ParameterValue_ScopeID) then false
    else if unlisted arg.(ParameterValuesParams_IDs) v.(ParameterValue_ID) then false
    else true in
  rows_or_none (filter keep q.(parameterValues)).

Definition GetParameterValueByScopeAndName (arg : GetParameterValueByScopeAndNameParams)
    (q : data) : res ParameterValue :=
  first_row (λ v,
    (v.(ParameterValue_Scope) == arg.(GetParameterValueByScopeAndNameParams_Scope))
    && (v.(ParameterValue_ScopeID) == arg.(GetParameterValueByScopeAndNameParams_ScopeID))
    && (v.(ParameterValue_Name) == arg.(GetParameterValueByScopeAndNameParams_Name)))
    q.(parameterValues).

Definition InsertParameterValue (arg : InsertParameterValueParams) : StoreM ParameterValue :=
  insert_row parameterValues {|
    ParameterValue_ID := arg.(InsertParameterValueParams_ID);
    ParameterValue_CreatedAt := arg.(InsertParameterValueParams_CreatedAt);
    ParameterValue_UpdatedAt := arg.(InsertParameterValueParams_UpdatedAt);
    ParameterValue_Scope := arg.(InsertParameterValueParams_Scope);
    ParameterValue_ScopeID := arg.(InsertParameterValueParams_ScopeID);
    ParameterValue_Name := arg.(InsertParameterValueParams_Name);
    ParameterValue_SourceScheme := arg.(InsertParameterValueParams_SourceScheme);
    ParameterValue_SourceValue := arg.(InsertParameterValueParams_SourceValue);
    ParameterValue_DestinationScheme := arg.(InsertParameterValueParams_DestinationScheme) |}.

Definition GetParameterSchemasByJobID (jobID : uuid) (q : data) : res (list ParameterSchema) :=
  rows_or_none (sort_by (λ a b, a.(ParameterSchema_Index) <? b.(ParameterSchema_Index))%Z
    (filter (λ p, p.(ParameterSchema_JobID) = jobID) q.(parameterSchemas))).

Definition GetParameterSchemasCreatedAfter (after : time) (q : data) :
    res (list ParameterSchema) :=
  Ok (created_after ParameterSchema_CreatedAt after q.(parameterSchemas)).

Definition InsertParameterSchema (arg : InsertParameterSchemaParams) : StoreM ParameterSchema :=
  insert_row parameterSchemas {|
    ParameterSchema_ID := arg.(InsertParameterSchemaParams_ID);
    ParameterSchema_CreatedAt := arg.(InsertParameterSchemaParams_CreatedAt);
    ParameterSchema_JobID := arg.(InsertParameterSchemaParams_JobID);
    ParameterSchema_Name := arg.(InsertParameterSchemaParams_Name);
    ParameterSchema_Description := arg.(InsertParameterSchemaParams_Description);
    ParameterSchema_DefaultSourceScheme := arg.(InsertParameterSchemaParams_DefaultSourceScheme);
    ParameterSchema_DefaultSourceValue := arg.(InsertParameterSchemaParams_DefaultSourceValue);
    ParameterSchema_AllowOverrideSource := arg.(InsertParameterSchemaParams_AllowOverrideSource);
    ParameterSchema_DefaultDestinationScheme :=
      arg.(InsertParameterSchemaParams_DefaultDestinationScheme);
    ParameterSchema_AllowOverrideDestination :=
      arg.(InsertParameterSchemaParams_AllowOverrideDestination);
    ParameterSchema_DefaultRefresh := arg.(InsertParameterSchemaParams_DefaultRefresh);
    ParameterSchema_RedisplayValue := arg.(InsertParameterSchemaParams_RedisplayValue);
    ParameterSchema_ValidationError := arg.(InsertParameterSchemaParams_ValidationError);
    ParameterSchema_ValidationCondition := arg.(InsertParameterSchemaParams_ValidationCondition);
    ParameterSchema_ValidationTypeSystem :=
      arg.(InsertParameterSchemaParams_ValidationTypeSystem);
    ParameterSchema_ValidationValueType := arg.(InsertParameterSchemaParams_ValidationValueType);
    ParameterSchema_Index := arg.(InsertParameterSchemaParams_Index) |}.
