(* ===== verification/StoreWorkspaces.v ===== *)
(** * The in-memory store: workspaces, builds, agents, resources

    The workspace queries of [coderd/database/databasefake/databasefake.go]:
    the workspace list with its filters, builds, agents, applications and
    resources. *)

From stdpp Require Import prelude gmap strings.
From S2P Require Import Prelude Rbac Models Queries ModelMethods.
From S2P Require Import Store StoreUsers StoreJobs StoreTemplates.

(** ** Builds *)

Definition GetWorkspaceBuildByID (id : uuid) (q : data) : res WorkspaceBuild :=
  first_row (λ b, b.(WorkspaceBuild_ID) == id) q.(workspaceBuilds).

Definition GetWorkspaceBuildByJobID (jobID : uuid) (q : data) : res WorkspaceBuild :=
  first_row (λ b, b.(WorkspaceBuild_JobID) == jobID) q.(workspaceBuilds).

(** The loop keeps the row with the highest build number seen and that number,
    which starts at [-1]. *)
Definition latest_build_step (workspaceID : uuid) (acc : WorkspaceBuild * Z) (b : WorkspaceBuild) :
    WorkspaceBuild * Z :=
  if (b.(WorkspaceBuild_WorkspaceID) == workspaceID)
     && (acc.2 <? b.(WorkspaceBuild_BuildNumber))%Z
  then (b, b.(WorkspaceBuild_BuildNumber)) else acc.

Definition GetLatestWorkspaceBuildByWorkspaceID (workspaceID : uuid) (q : data) :
    res WorkspaceBuild :=
  let '(row, buildNum) :=
    foldl (latest_build_step workspaceID) (WorkspaceBuild_zero, -1)%Z q.(workspaceBuilds) in
  if (buildNum == -1)%Z then Err ErrNoRows else Ok row.

(** The latest build of each workspace, with its number; a missing number
    reads as zero. The rows come in the order of a Go map, here that of the
    finite map. *)
Definition latest_builds_step (wanted : uuid → bool)
    (builds : gmap uuid (WorkspaceBuild * Z)) (b : WorkspaceBuild) :
    gmap uuid (WorkspaceBuild * Z) :=
  let id := b.(WorkspaceBuild_WorkspaceID) in
  if wanted id && (default 0 (snd <$> builds !! id) <? b.(WorkspaceBuild_BuildNumber))%Z
  then <[id := (b, b.(WorkspaceBuild_BuildNumber))]> builds else builds.

Definition latest_builds (wanted : uuid → bool) (q : data) : res (list WorkspaceBuild) :=
  rows_or_none (
    '(_, (b, n)) ← map_to_list (foldl (latest_builds_step wanted) ∅ q.(workspaceBuilds));
    if (0 <? n)%Z then [b] else []).

Definition GetLatestWorkspaceBuilds (q : data) : res (list WorkspaceBuild) :=
  latest_builds (λ _, true) q.

Definition GetLatestWorkspaceBuildsByWorkspaceIDs (ids : list uuid) (q : data) :
    res (list WorkspaceBuild) :=
  latest_builds (λ id, bool_decide (id ∈ ids)) q.

Definition GetWorkspaceBuildsByWorkspaceID (params : GetWorkspaceBuildsByWorkspaceIDParams)
    (q : data) : res (list WorkspaceBuild) :=
  let keep (b : WorkspaceBuild) : bool :=
    if Before b.(WorkspaceBuild_CreatedAt) params.(GetWorkspaceBuildsByWorkspaceIDParams_Since)
    then false
    else b.(WorkspaceBuild_WorkspaceID)
           == params.(GetWorkspaceBuildsByWorkspaceIDParams_WorkspaceID) in
  page_rows WorkspaceBuild_ID params.(GetWorkspaceBuildsByWorkspaceIDParams_AfterID)
    params.(GetWorkspaceBuildsByWorkspaceIDParams_OffsetOpt)
    params.(GetWorkspaceBuildsByWorkspaceIDParams_LimitOpt)
    (sort_by (λ a b, b.(WorkspaceBuild_BuildNumber) <? a.(WorkspaceBuild_BuildNumber))%Z
       (filter keep q.(workspaceBuilds))).

Definition GetWorkspaceBuildByWorkspaceIDAndBuildNumber
    (arg : GetWorkspaceBuildByWorkspaceIDAndBuildNumberParams) (q : data) : res WorkspaceBuild :=
  first_row (λ b,
    (b.(WorkspaceBuild_WorkspaceID)
       == arg.(GetWorkspaceBuildByWorkspaceIDAndBuildNumberParams_WorkspaceID))
    && (b.(WorkspaceBuild_BuildNumber)
          == arg.(GetWorkspaceBuildByWorkspaceIDAndBuildNumberParams_BuildNumber)))
    q.(workspaceBuilds).

Definition GetWorkspaceBuildsCreatedAfter (after : time) (q : data) : res (list WorkspaceBuild) :=
  Ok (created_after WorkspaceBuild_CreatedAt after q.(workspaceBuilds)).

Definition InsertWorkspaceBuild (arg : InsertWorkspaceBuildParams) : StoreM WorkspaceBuild :=
  insert_row workspaceBuilds {|
    WorkspaceBuild_ID := arg.(InsertWorkspaceBuildParams_ID);
    WorkspaceBuild_CreatedAt := arg.(InsertWorkspaceBuildParams_CreatedAt);
    WorkspaceBuild_UpdatedAt := arg.(InsertWorkspaceBuildParams_UpdatedAt);
    WorkspaceBuild_WorkspaceID := arg.(InsertWorkspaceBuildParams_WorkspaceID);
    WorkspaceBuild_TemplateVersionID := arg.(InsertWorkspaceBuildParams_TemplateVersionID);
    WorkspaceBuild_BuildNumber := arg.(InsertWorkspaceBuildParams_BuildNumber);
    WorkspaceBuild_Transition := arg.(InsertWorkspaceBuildParams_Transition);
    WorkspaceBuild_InitiatorID := arg.(InsertWorkspaceBuildParams_InitiatorID);
    WorkspaceBuild_ProvisionerState := arg.(InsertWorkspaceBuildParams_ProvisionerState);
    WorkspaceBuild_JobID := arg.(InsertWorkspaceBuildParams_JobID);
    WorkspaceBuild_Deadline := arg.(InsertWorkspaceBuildParams_Deadline);
    WorkspaceBuild_Reason := arg.(InsertWorkspaceBuildParams_Reason);
    WorkspaceBuild_DailyCost := 0 |}.

Definition UpdateWorkspaceBuildByID (arg : UpdateWorkspaceBuildByIDParams) :
    StoreM WorkspaceBuild :=
  update_row workspaceBuilds
    (λ b, b.(WorkspaceBuild_ID) == arg.(UpdateWorkspaceBuildByIDParams_ID))
    (λ b, b <| WorkspaceBuild_UpdatedAt := arg.(UpdateWorkspaceBuildByIDParams_UpdatedAt) |>
            <| WorkspaceBuild_ProvisionerState :=
                 arg.(UpdateWorkspaceBuildByIDParams_ProvisionerState) |>
            <| WorkspaceBuild_Deadline := arg.(UpdateWorkspaceBuildByIDParams_Deadline) |>).

Definition UpdateWorkspaceBuildCostByID (arg : UpdateWorkspaceBuildCostByIDParams) :
    StoreM WorkspaceBuild :=
  update_row workspaceBuilds
    (λ b, b.(WorkspaceBuild_ID) == arg.(UpdateWorkspaceBuildCostByIDParams_ID))
    (λ b, b <| WorkspaceBuild_DailyCost := arg.(UpdateWorkspaceBuildCostByIDParams_DailyCost) |>).

(** ** Resources *)

Definition GetWorkspaceResourceByID (id : uuid) (q : data) : res WorkspaceResource :=
  first_row (λ r, r.(WorkspaceResource_ID) == id) q.(workspaceResources).

Definition GetWorkspaceResourcesByJobID (jobID : uuid) (q : data) : res (list WorkspaceResource) :=
  Ok (filter (λ r, r.(WorkspaceResource_JobID) = jobID) q.(workspaceResources)).

Definition GetWorkspaceResourcesByJobIDs (jobIDs : list uuid) (q : data) :
    res (list WorkspaceResource) :=
  Ok (r ← q.(workspaceResources); jobID ← jobIDs;
      if r.(WorkspaceResource_JobID) != jobID then [] else [r]).

Definition GetWorkspaceResourcesCreatedAfter (after : time) (q : data) :
    res (list WorkspaceResource) :=
  Ok (created_after WorkspaceResource_CreatedAt after q.(workspaceResources)).

Definition InsertWorkspaceResource (arg : InsertWorkspaceResourceParams) :
    StoreM WorkspaceResource :=
  insert_row workspaceResources {|
    WorkspaceResource_ID := arg.(InsertWorkspaceResourceParams_ID);
    WorkspaceResource_CreatedAt := arg.(InsertWorkspaceResourceParams_CreatedAt);
    WorkspaceResource_JobID := arg.(InsertWorkspaceResourceParams_JobID);
    WorkspaceResource_Transition := arg.(InsertWorkspaceResourceParams_Transition);
    WorkspaceResource_Type := arg.(InsertWorkspaceResourceParams_Type);
    WorkspaceResource_Name := arg.(InsertWorkspaceResourceParams_Name);
    WorkspaceResource_Hide := arg.(InsertWorkspaceResourceParams_Hide);
    WorkspaceResource_Icon := arg.(InsertWorkspaceResourceParams_Icon);
    WorkspaceResource_InstanceType := null_of EmptyString;
    WorkspaceResource_DailyCost := arg.(InsertWorkspaceResourceParams_DailyCost) |}.

Definition GetWorkspaceResourceMetadataCreatedAfter (after : time) (q : data) :
    res (list WorkspaceResourceMetadatum) :=
  resources ← GetWorkspaceResourcesCreatedAfter after q;
  Ok (filter (λ m, m.(WorkspaceResourceMetadatum_WorkspaceResourceID)
                   ∈ map WorkspaceResource_ID resources) q.(workspaceResourceMetadata)).

Definition GetWorkspaceResourceMetadataByResourceID (id : uuid) (q : data) :
    res (list WorkspaceResourceMetadatum) :=
  Ok (filter (λ m, m.(WorkspaceResourceMetadatum_WorkspaceResourceID) = id)
        q.(workspaceResourceMetadata)).

Definition GetWorkspaceResourceMetadataByResourceIDs (ids : list uuid) (q : data) :
    res (list WorkspaceResourceMetadatum) :=
  Ok (m ← q.(workspaceResourceMetadata); id ← ids;
      if m.(WorkspaceResourceMetadatum_WorkspaceResourceID) == id then [m] else []).

Definition InsertWorkspaceResourceMetadata (arg : InsertWorkspaceResourceMetadataParams) :
    StoreM WorkspaceResourceMetadatum :=
  insert_row workspaceResourceMetadata {|
    WorkspaceResourceMetadatum_WorkspaceResourceID :=
      arg.(InsertWorkspaceResourceMetadataParams_WorkspaceResourceID);
    WorkspaceResourceMetadatum_Key := arg.(InsertWorkspaceResourceMetadataParams_Key);
    WorkspaceResourceMetadatum_Value := arg.(InsertWorkspaceResourceMetadataParams_Value);
    WorkspaceResourceMetadatum_Sensitive :=
      arg.(InsertWorkspaceResourceMetadataParams_Sensitive) |}.

(** ** Agents *)

(** Searched from the last row back. *)
Definition GetWorkspaceAgentByAuthToken (authToken : uuid) (q : data) : res WorkspaceAgent :=
  first_row (λ a, a.(WorkspaceAgent_AuthToken) == authToken) (reverse q.(workspaceAgents)).

Definition GetWorkspaceAgentByID (id : uuid) (q : data) : res WorkspaceAgent :=
  first_row (λ a, a.(WorkspaceAgent_ID) == id) (reverse q.(workspaceAgents)).

Definition GetWorkspaceAgentByInstanceID (instanceID : string) (q : data) : res WorkspaceAgent :=
  first_row (λ a, Valid a.(WorkspaceAgent_AuthInstanceID)
                  && (null_val a.(WorkspaceAgent_AuthInstanceID) == instanceID))
    (reverse q.(workspaceAgents)).

Definition GetWorkspaceAgentsByResourceIDs (resourceIDs : list uuid) (q : data) :
    res (list WorkspaceAgent) :=
  Ok (a ← q.(workspaceAgents); resourceID ← resourceIDs;
      if a.(WorkspaceAgent_ResourceID) != resourceID then [] else [a]).

Definition GetWorkspaceAgentsCreatedAfter (after : time) (q : data) : res (list WorkspaceAgent) :=
  Ok (created_after WorkspaceAgent_CreatedAt after q.(workspaceAgents)).

Definition InsertWorkspaceAgent (arg : InsertWorkspaceAgentParams) : StoreM WorkspaceAgent :=
  insert_row workspaceAgents {|
    WorkspaceAgent_ID := arg.(InsertWorkspaceAgentParams_ID);
    WorkspaceAgent_CreatedAt := arg.(InsertWorkspaceAgentParams_CreatedAt);
    WorkspaceAgent_UpdatedAt := arg.(InsertWorkspaceAgentParams_UpdatedAt);
    WorkspaceAgent_Name := arg.(InsertWorkspaceAgentParams_Name);
    WorkspaceAgent_FirstConnectedAt := null_of time_zero;
    WorkspaceAgent_LastConnectedAt := null_of time_zero;
    WorkspaceAgent_DisconnectedAt := null_of time_zero;
    WorkspaceAgent_ResourceID := arg.(InsertWorkspaceAgentParams_ResourceID);
    WorkspaceAgent_AuthToken := arg.(InsertWorkspaceAgentParams_AuthToken);
    WorkspaceAgent_AuthInstanceID := arg.(InsertWorkspaceAgentParams_AuthInstanceID);
    WorkspaceAgent_Architecture := arg.(InsertWorkspaceAgentParams_Architecture);
    WorkspaceAgent_EnvironmentVariables := arg.(InsertWorkspaceAgentParams_EnvironmentVariables);
    WorkspaceAgent_OperatingSystem := arg.(InsertWorkspaceAgentParams_OperatingSystem);
    WorkspaceAgent_StartupScript := arg.(InsertWorkspaceAgentParams_StartupScript);
    WorkspaceAgent_InstanceMetadata := arg.(InsertWorkspaceAgentParams_InstanceMetadata);
    WorkspaceAgent_ResourceMetadata := arg.(InsertWorkspaceAgentParams_ResourceMetadata);
    WorkspaceAgent_Directory := arg.(InsertWorkspaceAgentParams_Directory);
    WorkspaceAgent_Version := EmptyString;
    WorkspaceAgent_LastConnectedReplicaID := null_of uuid_Nil;
    WorkspaceAgent_ConnectionTimeoutSeconds :=
      arg.(InsertWorkspaceAgentParams_ConnectionTimeoutSeconds);
    WorkspaceAgent_TroubleshootingURL := arg.(InsertWorkspaceAgentParams_TroubleshootingURL);
    WorkspaceAgent_MOTDFile := arg.(InsertWorkspaceAgentParams_MOTDFile) |}.

Definition UpdateWorkspaceAgentConnectionByID (arg : UpdateWorkspaceAgentConnectionByIDParams) :
    StoreM unit :=
  void (update_row workspaceAgents
    (λ a, a.(WorkspaceAgent_ID) == arg.(UpdateWorkspaceAgentConnectionByIDParams_ID))
    (λ a, a <| WorkspaceAgent_FirstConnectedAt :=
                 arg.(UpdateWorkspaceAgentConnectionByIDParams_FirstConnectedAt) |>
            <| WorkspaceAgent_LastConnectedAt :=
                 arg.(UpdateWorkspaceAgentConnectionByIDParams_LastConnectedAt) |>
            <| WorkspaceAgent_DisconnectedAt :=
                 arg.(UpdateWorkspaceAgentConnectionByIDParams_DisconnectedAt) |>
            <| WorkspaceAgent_UpdatedAt :=
                 arg.(UpdateWorkspaceAgentConnectionByIDParams_UpdatedAt) |>)).

Definition UpdateWorkspaceAgentVersionByID (arg : UpdateWorkspaceAgentVersionByIDParams) :
    StoreM unit :=
  void (update_row workspaceAgents
    (λ a, a.(WorkspaceAgent_ID) == arg.(UpdateWorkspaceAgentVersionByIDParams_ID))
    (λ a, a <| WorkspaceAgent_Version := arg.(UpdateWorkspaceAgentVersionByIDParams_Version) |>)).

(** [now] is the reading of the clock. *)
Definition mapAgentStatus (now : time) (dbAgent : WorkspaceAgent)
    (agentInactiveDisconnectTimeoutSeconds : Z) : res string :=
  let connectionTimeout := seconds dbAgent.(WorkspaceAgent_ConnectionTimeoutSeconds) in
  if negb (Valid dbAgent.(WorkspaceAgent_FirstConnectedAt)) then
    if (0 <? connectionTimeout)%Z
       && (connectionTimeout <? Sub (database_Now now) dbAgent.(WorkspaceAgent_CreatedAt))%Z
    then Ok "timeout"
    else Ok "connecting"
  else if After (null_val dbAgent.(WorkspaceAgent_DisconnectedAt))
            (null_val dbAgent.(WorkspaceAgent_LastConnectedAt))
  then Ok "disconnected"
  else if (seconds agentInactiveDisconnectTimeoutSeconds
             <? Sub (database_Now now) (null_val dbAgent.(WorkspaceAgent_LastConnectedAt)))%Z
  then Ok "disconnected"
  else if Valid dbAgent.(WorkspaceAgent_LastConnectedAt) then Ok "connected"
  else Panic "unknown agent status: ".

(** ** Applications *)

Definition GetWorkspaceAppsByAgentID (id : uuid) (q : data) : res (list WorkspaceApp) :=
  rows_or_none (filter (λ app, app.(WorkspaceApp_AgentID) = id) q.(workspaceApps)).

Definition GetWorkspaceAppsCreatedAfter (after : time) (q : data) : res (list WorkspaceApp) :=
  Ok (created_after WorkspaceApp_CreatedAt after q.(workspaceApps)).

Definition GetWorkspaceAppsByAgentIDs (ids : list uuid) (q : data) : res (list WorkspaceApp) :=
  Ok (filter (λ app, app.(WorkspaceApp_AgentID) ∈ ids) q.(workspaceApps)).

Definition GetWorkspaceAppByAgentIDAndSlug (arg : GetWorkspaceAppByAgentIDAndSlugParams)
    (q : data) : res WorkspaceApp :=
  first_row (λ app,
    (app.(WorkspaceApp_AgentID) == arg.(GetWorkspaceAppByAgentIDAndSlugParams_AgentID))
    && (app.(WorkspaceApp_Slug) == arg.(GetWorkspaceAppByAgentIDAndSlugParams_Slug)))
    q.(workspaceApps).

Definition InsertWorkspaceApp (arg : InsertWorkspaceAppParams) : StoreM WorkspaceApp :=
  insert_row workspaceApps {|
    WorkspaceApp_ID := arg.(InsertWorkspaceAppParams_ID);
    WorkspaceApp_CreatedAt := arg.(InsertWorkspaceAppParams_CreatedAt);
    WorkspaceApp_AgentID := arg.(InsertWorkspaceAppParams_AgentID);
    WorkspaceApp_DisplayName := arg.(InsertWorkspaceAppParams_DisplayName);
    WorkspaceApp_Icon := arg.(InsertWorkspaceAppParams_Icon);
    WorkspaceApp_Command := arg.(InsertWorkspaceAppParams_Command);
    WorkspaceApp_Url := arg.(InsertWorkspaceAppParams_Url);
    WorkspaceApp_HealthcheckUrl := arg.(InsertWorkspaceAppParams_HealthcheckUrl);
    WorkspaceApp_HealthcheckInterval := arg.(InsertWorkspaceAppParams_HealthcheckInterval);
    WorkspaceApp_HealthcheckThreshold := arg.(InsertWorkspaceAppParams_HealthcheckThreshold);
    WorkspaceApp_Health := arg.(InsertWorkspaceAppParams_Health);
    WorkspaceApp_Subdomain := arg.(InsertWorkspaceAppParams_Subdomain);
    WorkspaceApp_SharingLevel :=
      if arg.(InsertWorkspaceAppParams_SharingLevel) == AppSharingLevel_other EmptyString
      then AppSharingLevelOwner else arg.(InsertWorkspaceAppParams_SharingLevel);
    WorkspaceApp_Slug := arg.(InsertWorkspaceAppParams_Slug) |}.

Definition UpdateWorkspaceAppHealthByID (arg : UpdateWorkspaceAppHealthByIDParams) : StoreM unit :=
  void (update_row workspaceApps
    (λ app, app.(WorkspaceApp_ID) == arg.(UpdateWorkspaceAppHealthByIDParams_ID))
    (λ app, app <| WorkspaceApp_Health := arg.(UpdateWorkspaceAppHealthByIDParams_Health) |>)).

(** ** Workspaces *)

Definition GetWorkspaceByID (id : uuid) (q : data) : res Workspace :=
  first_row (λ w, w.(Workspace_ID) == id) q.(workspaces).

(** The first row that matches, or the zero row; a row with a nil ID counts as
    not found. *)
Definition find_or_none {A} (ID : A → uuid) (P : A → bool) (l : list A) : res A :=
  match find_first P l with
  | Some x => if ID x == uuid_Nil then Err ErrNoRows else Ok x
  | None => Err ErrNoRows
  end.

Definition GetWorkspaceByAgentID (agentID : uuid) (q : data) : res Workspace :=
  agent ← find_or_none WorkspaceAgent_ID (λ a, a.(WorkspaceAgent_ID) == agentID)
            q.(workspaceAgents);
  resource ← find_or_none WorkspaceResource_ID
               (λ r, r.(WorkspaceResource_ID) == agent.(WorkspaceAgent_ResourceID))
               q.(workspaceResources);
  build ← find_or_none WorkspaceBuild_ID
            (λ b, b.(WorkspaceBuild_JobID) == resource.(WorkspaceResource_JobID))
            q.(workspaceBuilds);
  first_row (λ w, w.(Workspace_ID) == build.(WorkspaceBuild_WorkspaceID)) q.(workspaces).

Definition GetWorkspaceByOwnerIDAndName (arg : GetWorkspaceByOwnerIDAndNameParams) (q : data) :
    res Workspace :=
  of_option ErrNoRows (foldl (λ found w,
    if w.(Workspace_OwnerID) != arg.(GetWorkspaceByOwnerIDAndNameParams_OwnerID) then found
    else if negb (EqualFold w.(Workspace_Name) arg.(GetWorkspaceByOwnerIDAndNameParams_Name))
    then found
    else if w.(Workspace_Deleted) != arg.(GetWorkspaceByOwnerIDAndNameParams_Deleted) then found
    else match found with
         | None => Some w
         | Some f => if After w.(Workspace_CreatedAt) f.(Workspace_CreatedAt)
                     then Some w else found
         end) None q.(workspaces)).

Definition GetWorkspaceCountByUserID (id : uuid) (q : data) : res Z :=
  Ok (Z.of_nat (length (filter (λ w, (w.(Workspace_OwnerID) == id)
                                     && negb w.(Workspace_Deleted)) q.(workspaces)))).

(** The owners of a template's workspaces; the rows come in the order of a Go
    map, here that of the finite map. *)
Definition template_owners (templateID : uuid) (ws : list Workspace) : gset uuid :=
  list_to_set (Workspace_OwnerID <$>
    filter (λ w, (w.(Workspace_TemplateID) == templateID) && negb w.(Workspace_Deleted)) ws).

Definition GetWorkspaceOwnerCountsByTemplateIDs (templateIDs : list uuid) (q : data) :
    res (list GetWorkspaceOwnerCountsByTemplateIDsRow) :=
  let counts : gmap uuid (gset uuid) :=
    foldl (λ counts templateID, <[templateID := template_owners templateID q.(workspaces)]> counts)
      ∅ templateIDs in
  rows_or_none (
    (λ '(key, value), {|
       GetWorkspaceOwnerCountsByTemplateIDsRow_TemplateID := key;
       GetWorkspaceOwnerCountsByTemplateIDsRow_Count := Z.of_nat (size value) |})
      <$> map_to_list counts).

Definition InsertWorkspace (arg : InsertWorkspaceParams) : StoreM Workspace :=
  insert_row workspaces {|
    Workspace_ID := arg.(InsertWorkspaceParams_ID);
    Workspace_CreatedAt := arg.(InsertWorkspaceParams_CreatedAt);
    Workspace_UpdatedAt := arg.(InsertWorkspaceParams_UpdatedAt);
    Workspace_OwnerID := arg.(InsertWorkspaceParams_OwnerID);
    Workspace_OrganizationID := arg.(InsertWorkspaceParams_OrganizationID);
    Workspace_TemplateID := arg.(InsertWorkspaceParams_TemplateID);
    Workspace_Deleted := false;
    Workspace_Name := arg.(InsertWorkspaceParams_Name);
    Workspace_AutostartSchedule := arg.(InsertWorkspaceParams_AutostartSchedule);
    Workspace_Ttl := arg.(InsertWorkspaceParams_Ttl);
    Workspace_LastUsedAt := time_zero |}.

(** Another workspace of the same owner that is not deleted has the name. *)
Definition name_taken (w : Workspace) (name : string) (ws : list Workspace) : bool :=
  existsb (λ other,
    negb (other.(Workspace_Deleted) || (other.(Workspace_ID) == w.(Workspace_ID))
          || (w.(Workspace_OwnerID) != other.(Workspace_OwnerID)))
    && (other.(Workspace_Name) == name)) ws.

Definition UpdateWorkspace (arg : UpdateWorkspaceParams) : StoreM Workspace := λ q,
  let P w := negb (w.(Workspace_Deleted) || (w.(Workspace_ID) != arg.(UpdateWorkspaceParams_ID))) in
  match find_first P q.(workspaces) with
  | Some w =>
      if name_taken w arg.(UpdateWorkspaceParams_Name) q.(workspaces)
      then (Err ErrDuplicateKey, q)
      else update_row workspaces P
             (λ w, w <| Workspace_Name := arg.(UpdateWorkspaceParams_Name) |>) q
  | None => (Err ErrNoRows, q)
  end.

Definition update_workspace (id : uuid) (f : Workspace → Workspace) : StoreM unit :=
  void (update_row workspaces (λ w, w.(Workspace_ID) == id) f).

Definition UpdateWorkspaceAutostart (arg : UpdateWorkspaceAutostartParams) : StoreM unit :=
  update_workspace arg.(UpdateWorkspaceAutostartParams_ID)
    (λ w, w <| Workspace_AutostartSchedule :=
            arg.(UpdateWorkspaceAutostartParams_AutostartSchedule) |>).

Definition UpdateWorkspaceTTL (arg : UpdateWorkspaceTTLParams) : StoreM unit :=
  update_workspace arg.(UpdateWorkspaceTTLParams_ID)
    (λ w, w <| Workspace_Ttl := arg.(UpdateWorkspaceTTLParams_Ttl) |>).

Definition UpdateWorkspaceLastUsedAt (arg : UpdateWorkspaceLastUsedAtParams) : StoreM unit :=
  update_workspace arg.(UpdateWorkspaceLastUsedAtParams_ID)
    (λ w, w <| Workspace_LastUsedAt := arg.(UpdateWorkspaceLastUsedAtParams_LastUsedAt) |>).

Definition UpdateWorkspaceDeletedByID (arg : UpdateWorkspaceDeletedByIDParams) : StoreM unit :=
  update_workspace arg.(UpdateWorkspaceDeletedByIDParams_ID)
    (λ w, w <| Workspace_Deleted := arg.(UpdateWorkspaceDeletedByIDParams_Deleted) |>).

(** ** The workspace list *)

Section workspace_list.
Context `{!UuidText}.
Context (now : time).

(** [switch arg.Status]: whether the workspace is kept. *)
Definition status_keeps (status : string) (build : WorkspaceBuild) (job : ProvisionerJob) :
    res bool :=
  let started := Valid job.(ProvisionerJob_StartedAt) in
  let canceled := Valid job.(ProvisionerJob_CanceledAt) in
  let completed := Valid job.(ProvisionerJob_CompletedAt) in
  let failed := Valid job.(ProvisionerJob_Error) in
  let stale := (30 * Second <? Sub now job.(ProvisionerJob_UpdatedAt))%Z in
  let transition_differs t := build.(WorkspaceBuild_Transition) != t in
  if status == "pending" then Ok (negb (negb started))
  else if status == "starting" then
    Ok (negb (negb started && negb canceled && completed && stale
              || transition_differs WorkspaceTransitionStart))
  else if status == "running" then
    Ok (negb (negb completed && canceled && failed
              || transition_differs WorkspaceTransitionStart))
  else if status == "stopping" then
    Ok (negb (negb started && negb canceled && completed && stale
              || transition_differs WorkspaceTransitionStop))
  else if status == "stopped" then
    Ok (negb (negb completed && canceled && failed
              || transition_differs WorkspaceTransitionStop))
  else if status == "failed" then
    Ok (negb ((negb canceled && negb failed) || (negb completed && negb failed)))
  else if status == "canceling" then Ok (negb (negb canceled && completed))
  else if status == "canceled" then Ok (negb (negb canceled && negb completed))
  else if status == "deleted" then
    Ok (negb (negb started && canceled && negb completed && stale
              || transition_differs WorkspaceTransitionDelete))
  else if status == "deleting" then
    Ok (negb (negb completed && canceled && failed
              && transition_differs WorkspaceTransitionDelete))
  else Err (ErrNew ("unknown workspace status in filter: " +:+ quote status)).

Definition latest_build_and_job (workspaceID : uuid) (q : data) :
    res (WorkspaceBuild * ProvisionerJob) :=
  match GetLatestWorkspaceBuildByWorkspaceID workspaceID q with
  | Ok build =>
      match GetProvisionerJobByID build.(WorkspaceBuild_JobID) q with
      | Ok job => Ok (build, job)
      | Err e => Err (ErrWrap "get provisioner job" e)
      | Panic m => Panic m
      end
  | Err e => Err (ErrWrap "get latest build" e)
  | Panic m => Panic m
  end.

Fixpoint agent_status_matches (timeout : Z) (want : string) (agents : list WorkspaceAgent) :
    res bool :=
  match agents with
  | [] => Ok false
  | wa :: agents =>
      status ← mapAgentStatus now wa timeout;
      rest ← agent_status_matches timeout want agents;
      Ok ((status == want) || rest)
  end.

Definition has_agent_keeps (arg : GetWorkspacesParams) (w : Workspace) (q : data) : res bool :=
  '(_, job) ← latest_build_and_job w.(Workspace_ID) q;
  resources ← GetWorkspaceResourcesByJobID job.(ProvisionerJob_ID) q;
  agents ← GetWorkspaceAgentsByResourceIDs (map WorkspaceResource_ID resources) q;
  agent_status_matches arg.(GetWorkspacesParams_AgentInactiveDisconnectTimeoutSeconds)
    arg.(GetWorkspacesParams_HasAgent) agents.

(** [err == nil && !strings.EqualFold(want, name)] skips the workspace. *)
Definition name_differs {A} (want : string) (r : res A) (name : A → string) : bool :=
  (want != "") && match r with Ok x => negb (EqualFold want (name x)) | _ => false end.

(** The guards before the status filter. *)
Definition basic_keeps (arg : GetWorkspacesParams) (w : Workspace) (q : data) : bool :=
  if (arg.(GetWorkspacesParams_OwnerID) != uuid_Nil)
     && (w.(Workspace_OwnerID) != arg.(GetWorkspacesParams_OwnerID)) then false
  else if name_differs arg.(GetWorkspacesParams_OwnerUsername)
            (GetUserByID w.(Workspace_OwnerID) q) User_Username then false
  else if name_differs arg.(GetWorkspacesParams_TemplateName)
            (GetTemplateByID w.(Workspace_TemplateID) q) Template_Name then false
  else if negb arg.(GetWorkspacesParams_Deleted) && w.(Workspace_Deleted) then false
  else if (arg.(GetWorkspacesParams_Name) != "")
     && negb (Contains (ToLower w.(Workspace_Name)) (ToLower arg.(GetWorkspacesParams_Name)))
  then false
  else true.

(** The body of the loop: whether the workspace is appended. *)
Definition workspace_keeps (arg : GetWorkspacesParams) (prepared : option (Object → res unit))
    (q : data) (w : Workspace) : res bool :=
  if negb (basic_keeps arg w q) then Ok false else
  by_status ← (if arg.(GetWorkspacesParams_Status) != "" then
                 '(build, job) ← latest_build_and_job w.(Workspace_ID) q;
                 status_keeps arg.(GetWorkspacesParams_Status) build job
               else Ok true);
  if negb by_status then Ok false else
  by_agent ← (if arg.(GetWorkspacesParams_HasAgent) != "" then has_agent_keeps arg w q
              else Ok true);
  if negb by_agent then Ok false else
  if match arg.(GetWorkspacesParams_TemplateIds) with
     | [] => false
     | ids => negb (existsb (λ id, w.(Workspace_TemplateID) == id) ids)
     end then Ok false else
  if match prepared with
     | Some p => negb (is_ok (p (Workspace_RBACObject w)))
     | None => false
     end then Ok false else
  Ok true.

Fixpoint workspaces_loop (keeps : Workspace → res bool) (ws : list Workspace) :
    res (list Workspace) :=
  match ws with
  | [] => Ok []
  | w :: ws =>
      k ← keeps w;
      rest ← workspaces_loop keeps ws;
      Ok (if k : bool then w :: rest else rest)
  end.

Definition convertToWorkspaceRows (ws : list Workspace) (count : Z) : list GetWorkspacesRow :=
  (λ w, {|
    GetWorkspacesRow_ID := w.(Workspace_ID);
    GetWorkspacesRow_CreatedAt := w.(Workspace_CreatedAt);
    GetWorkspacesRow_UpdatedAt := w.(Workspace_UpdatedAt);
    GetWorkspacesRow_OwnerID := w.(Workspace_OwnerID);
    GetWorkspacesRow_OrganizationID := w.(Workspace_OrganizationID);
    GetWorkspacesRow_TemplateID := w.(Workspace_TemplateID);
    GetWorkspacesRow_Deleted := w.(Workspace_Deleted);
    GetWorkspacesRow_Name := w.(Workspace_Name);
    GetWorkspacesRow_AutostartSchedule := w.(Workspace_AutostartSchedule);
    GetWorkspacesRow_Ttl := w.(Workspace_Ttl);
    GetWorkspacesRow_LastUsedAt := w.(Workspace_LastUsedAt);
    GetWorkspacesRow_Count := count |}) <$> ws.

Definition GetAuthorizedWorkspaces (arg : GetWorkspacesParams)
    (prepared : option (Object → res unit)) (q : data) : res (list GetWorkspacesRow) :=
  ws ← workspaces_loop (workspace_keeps arg prepared q) q.(workspaces);
  let beforePageCount := Z.of_nat (length ws) in
  if (0 <? arg.(GetWorkspacesParams_Offset))%Z
     && (beforePageCount <? arg.(GetWorkspacesParams_Offset))%Z
  then Ok []
  else Ok (convertToWorkspaceRows
             (limit_rows arg.(GetWorkspacesParams_Limit)
                (drop (Z.to_nat arg.(GetWorkspacesParams_Offset)) ws)) beforePageCount).

Definition GetWorkspaces (arg : GetWorkspacesParams) (q : data) : res (list GetWorkspacesRow) :=
  GetAuthorizedWorkspaces arg None q.
End workspace_list.
