(* ===== verification/StoreJobsProps.v ===== *)
(** * The provisioner job queue: properties

    What [AcquireProvisionerJob] takes, that no job is taken twice along any
    sequence of the store's job operations, and the order of log lines. *)

From stdpp Require Import prelude gmap strings sorting.
From S2P Require Import Prelude Models Queries Store StoreJobs.

(** ** Specification of the queue *)

(** A job a daemon may take: not started, of one of the daemon's types, and
    asking for no tag the daemon does not provide. *)
Definition eligible (arg : AcquireProvisionerJobParams) (tags : StringMap) (job : ProvisionerJob) :
    Prop :=
  Valid job.(ProvisionerJob_StartedAt) = false
  ∧ job.(ProvisionerJob_Provisioner) ∈ arg.(AcquireProvisionerJobParams_Types)
  ∧ job.(ProvisionerJob_Tags) ⊆ tags.

Definition job_ids (q : data) : list uuid := ProvisionerJob_ID <$> q.(provisionerJobs).

(** One operation of the store on jobs, with the ID of the job it acquires.
    Acquiring passes a valid start time, as [AcquireJob] does; a new job has a
    fresh ID, which is its primary key. *)
Inductive job_step : data → option uuid → data → Prop :=
| step_acquire arg q job q' :
    AcquireProvisionerJob arg q = (Ok job, q') →
    Valid arg.(AcquireProvisionerJobParams_StartedAt) = true →
    job_step q (Some job.(ProvisionerJob_ID)) q'
| step_insert arg q :
    arg.(InsertProvisionerJobParams_ID) ∉ job_ids q →
    job_step q None (InsertProvisionerJob arg q).2
| step_update arg q : job_step q None (UpdateProvisionerJobByID arg q).2
| step_cancel arg q : job_step q None (UpdateProvisionerJobWithCancelByID arg q).2
| step_complete arg q : job_step q None (UpdateProvisionerJobWithCompleteByID arg q).2.

(** A sequence of operations and the jobs acquired along it, latest first. *)
Inductive job_trace : list uuid → data → Prop :=
| trace_new : job_trace [] New
| trace_step acquired q o q' :
    job_trace acquired q → job_step q o q' →
    job_trace (match o with Some id => id :: acquired | None => acquired end) q'.

(** ** Acquiring *)

Lemma tags_provided_iff (jt tags : StringMap) : tags_provided jt tags = true ↔ jt ⊆ tags.
Proof.
  unfold tags_provided. rewrite bool_decide_eq_true, map_subseteq_spec. done.
Qed.

Lemma existsb_elem_of {A} `{EqDecision A} (x : A) (l : list A) :
  existsb (λ y, bool_decide (x = y)) l = true ↔ x ∈ l.
Proof.
  rewrite existsb_exists. setoid_rewrite bool_decide_eq_true. split.
  - intros (y & Hy & ->). by apply list_elem_of_In.
  - intros Hx. exists x. split; [by apply list_elem_of_In|done].
Qed.

(** The three guards of the loop are the negation of [eligible]. *)
Lemma acquire_loop_cons arg tags job jobs :
  acquire_tags arg.(AcquireProvisionerJobParams_Tags) = Ok tags →
  (eligible arg tags job ∧
     acquire_loop arg (job :: jobs)
     = Ok (acquire_update arg job, acquire_update arg job :: jobs))
  ∨ (¬ eligible arg tags job ∧
     acquire_loop arg (job :: jobs)
     = (λ '(taken, l), (taken, job :: l)) <$> acquire_loop arg jobs).
Proof.
  intros Htags. simpl. rewrite Htags. unfold eligible.
  destruct (Valid job.(ProvisionerJob_StartedAt)) eqn:Hs; [right; naive_solver|].
  destruct (existsb _ _) eqn:Ht; simpl.
  - apply existsb_elem_of in Ht.
    destruct (tags_provided _ _) eqn:Hp.
    + apply tags_provided_iff in Hp. left. naive_solver.
    + right. split; [|done]. intros (_ & _ & Hsub).
      apply tags_provided_iff in Hsub. congruence.
  - right. split; [|done]. intros (_ & Hin & _). apply existsb_elem_of in Hin. congruence.
Qed.

Lemma acquire_loop_spec arg tags jobs :
  acquire_tags arg.(AcquireProvisionerJobParams_Tags) = Ok tags →
  (∃ pre job post,
     jobs = pre ++ job :: post ∧ Forall (λ j, ¬ eligible arg tags j) pre
     ∧ eligible arg tags job
     ∧ acquire_loop arg jobs
       = Ok (acquire_update arg job, pre ++ acquire_update arg job :: post))
  ∨ (Forall (λ j, ¬ eligible arg tags j) jobs ∧ acquire_loop arg jobs = Err ErrNoRows).
Proof.
  intros Htags. induction jobs as [|job jobs IH]; [right; by split|].
  destruct (acquire_loop_cons arg tags job jobs Htags) as [[He ->]|[Hne ->]].
  - left. exists [], job, jobs. by rewrite Forall_nil.
  - destruct IH as [(pre & j & post & -> & Hpre & Hj & ->)|[Hall ->]].
    + left. exists (job :: pre), j, post. rewrite Forall_cons. done.
    + right. rewrite Forall_cons. done.
Qed.

(** A daemon gets the first job in queue order it may take, and only that
    row changes: it is marked started by the daemon. When no job is eligible the
    daemon gets [sql.ErrNoRows] and nothing changes. *)
Theorem AcquireProvisionerJob_first arg tags q :
  acquire_tags arg.(AcquireProvisionerJobParams_Tags) = Ok tags →
  (∃ pre job post,
     q.(provisionerJobs) = pre ++ job :: post
     ∧ Forall (λ j, ¬ eligible arg tags j) pre ∧ eligible arg tags job
     ∧ AcquireProvisionerJob arg q
       = (Ok (acquire_update arg job),
          q <| provisionerJobs := pre ++ acquire_update arg job :: post |>))
  ∨ (Forall (λ j, ¬ eligible arg tags j) q.(provisionerJobs)
     ∧ AcquireProvisionerJob arg q = (Err ErrNoRows, q)).
Proof.
  intros Htags. unfold AcquireProvisionerJob.
  destruct (acquire_loop_spec arg tags q.(provisionerJobs) Htags)
    as [(pre & job & post & Hq & Hpre & Hj & ->)|[Hall ->]]; [left|by right].
  by exists pre, job, post.
Qed.

(** What a successful loop did, whatever the tags decoded to. *)
Lemma acquire_loop_ok arg jobs job l :
  acquire_loop arg jobs = Ok (job, l) →
  ∃ pre j post,
    jobs = pre ++ j :: post ∧ Valid j.(ProvisionerJob_StartedAt) = false
    ∧ job = acquire_update arg j ∧ l = pre ++ job :: post.
Proof.
  revert l. induction jobs as [|j jobs IH]; intros l; [done|].
  assert (∀ l, (λ '(taken, l), (taken, j :: l)) <$> acquire_loop arg jobs = Ok (job, l) →
    ∃ pre j' post, j :: jobs = pre ++ j' :: post
      ∧ Valid j'.(ProvisionerJob_StartedAt) = false
      ∧ job = acquire_update arg j' ∧ l = pre ++ job :: post) as Hskip.
  { intros l0 Hl0. destruct (acquire_loop arg jobs) as [[job' l1]|e|m]; simplify_eq/=.
    destruct (IH l1 eq_refl) as (pre & j' & post & -> & Hj' & -> & ->).
    by exists (j :: pre), j', post. }
  simpl. destruct (Valid j.(ProvisionerJob_StartedAt)) eqn:Hs; [apply Hskip|].
  destruct (negb _); [apply Hskip|].
  destruct (acquire_tags _); [|done|done]. destruct (tags_provided _ _); [|apply Hskip].
  intros [= <- <-]. by exists [], j, jobs.
Qed.

(** ** No job is acquired twice *)

Definition job_key (j : ProvisionerJob) : uuid * nullable time :=
  (j.(ProvisionerJob_ID), j.(ProvisionerJob_StartedAt)).

Lemma update_row_fmap {A B} (tbl : data → list A) `{!Setter tbl, !SetterLaw tbl}
    (P : A → bool) (f : A → A) (g : A → B) q :
  (∀ x, g (f x) = g x) →
  g <$> tbl (void (update_row tbl P f) q).2 = g <$> tbl q.
Proof.
  intros Hg.
  assert ((void (update_row tbl P f) q).2 = (update_row tbl P f q).2) as ->.
  { unfold void, mbind, gom_bind. by destruct (update_row tbl P f q) as [[]]. }
  unfold update_row.
  destruct (find_first_spec P (tbl q)) as [(pre & x & post & -> & Hpre & Hx & _)|[Hall _]].
  - rewrite update_first_app by done. simpl. rewrite get_set.
    by rewrite !fmap_app, !fmap_cons, Hg.
  - by rewrite update_first_none.
Qed.

(** Acquired jobs are in the table and started; IDs are unique; nothing was
    acquired twice. *)
Definition queue_ok (acquired : list uuid) (q : data) : Prop :=
  NoDup (job_ids q) ∧ NoDup acquired
  ∧ ∀ id, id ∈ acquired →
      ∃ j, j ∈ q.(provisionerJobs) ∧ j.(ProvisionerJob_ID) = id
           ∧ Valid j.(ProvisionerJob_StartedAt) = true.

Lemma queue_ok_keys acquired q q' :
  job_key <$> q'.(provisionerJobs) = job_key <$> q.(provisionerJobs) →
  queue_ok acquired q → queue_ok acquired q'.
Proof.
  intros Hkeys (Hids & Hnd & Hacq).
  assert (job_ids q' = job_ids q) as Heq.
  { apply (f_equal (fmap fst)) in Hkeys. by rewrite <-!list_fmap_compose in Hkeys. }
  split; [by rewrite Heq|]. split; [done|]. intros id Hid.
  destruct (Hacq id Hid) as (j & Hj & <- & Hs).
  assert (job_key j ∈ job_key <$> q'.(provisionerJobs)) as Hin.
  { rewrite Hkeys. by apply list_elem_of_fmap_2. }
  apply list_elem_of_fmap in Hin as (j' & Hkey & Hj').
  injection Hkey as Hid' Hs'. exists j'. rewrite <-Hid', <-Hs'. done.
Qed.

Lemma queue_ok_acquire arg acquired q job q' :
  queue_ok acquired q → AcquireProvisionerJob arg q = (Ok job, q') →
  Valid arg.(AcquireProvisionerJobParams_StartedAt) = true →
  queue_ok (job.(ProvisionerJob_ID) :: acquired) q'.
Proof.
  intros (Hids & Hnd & Hacq) Hrun Hvalid. unfold AcquireProvisionerJob in Hrun.
  destruct (acquire_loop arg q.(provisionerJobs)) as [[job' l]|e|m] eqn:Hloop; simplify_eq.
  apply acquire_loop_ok in Hloop as (pre & j & post & Hq & Hj & -> & ->).
  unfold queue_ok, job_ids in *. rewrite Hq in Hids, Hacq. simpl.
  rewrite fmap_app, fmap_cons in Hids |- *. simpl in *. split; [done|].
  apply NoDup_app in Hids as (_ & Hdisj & [Hpost _]%NoDup_cons).
  assert (∀ j', j' ∈ pre ++ j :: post → j'.(ProvisionerJob_ID) = j.(ProvisionerJob_ID) →
            j' = j) as Huniq.
  { intros j' [Hj'|[->|Hj']%elem_of_cons]%elem_of_app Heq; [|done|].
    - destruct (Hdisj j'.(ProvisionerJob_ID)); [by apply list_elem_of_fmap_2|].
      rewrite Heq. by left.
    - destruct Hpost. rewrite <-Heq. by apply list_elem_of_fmap_2. }
  split.
  - constructor; [|done]. intros Hin. destruct (Hacq _ Hin) as (j' & Hj' & Heq & Hs).
    rewrite (Huniq j' Hj' Heq) in Hs. congruence.
  - intros id [->|Hid]%elem_of_cons.
    + exists (acquire_update arg j). set_solver.
    + destruct (Hacq id Hid) as (j' & Hj' & Heq & Hs). exists j'.
      assert (j' ≠ j) by congruence. set_solver.
Qed.

Lemma queue_ok_insert arg acquired q :
  arg.(InsertProvisionerJobParams_ID) ∉ job_ids q →
  queue_ok acquired q → queue_ok acquired (InsertProvisionerJob arg q).2.
Proof.
  intros Hfresh (Hids & Hnd & Hacq). unfold queue_ok, job_ids in *. simpl.
  rewrite fmap_app. simpl. split; [|split; [done|]].
  - apply NoDup_app. split; [done|]. split; [|by apply NoDup_singleton].
    intros x Hx ->%list_elem_of_singleton. done.
  - intros id Hid. destruct (Hacq id Hid) as (j & Hj & Hrest). exists j. set_solver.
Qed.

Lemma queue_ok_step acquired q o q' :
  queue_ok acquired q → job_step q o q' →
  queue_ok (match o with Some id => id :: acquired | None => acquired end) q'.
Proof.
  intros Hok Hstep. destruct Hstep; eauto using queue_ok_acquire, queue_ok_insert;
    apply (queue_ok_keys acquired q); try done; by apply update_row_fmap.
Qed.

Lemma queue_ok_trace acquired q : job_trace acquired q → queue_ok acquired q.
Proof.
  induction 1; [|by eapply queue_ok_step].
  split; [by constructor|]. split; [by constructor|]. intros id Hid. set_solver.
Qed.

(** C5: along any sequence of inserting, acquiring, updating, canceling and
    completing jobs, no job is handed to a daemon twice. *)
Theorem acquired_once acquired q : job_trace acquired q → NoDup acquired.
Proof. intros Htrace. apply (queue_ok_trace acquired q Htrace). Qed.

(** ** Log lines *)

(** The IDs of the stored lines increase strictly, in storage order. *)
Definition logs_sorted (q : data) : Prop :=
  StronglySorted Z.lt (ProvisionerJobLog_ID <$> q.(provisionerJobLogs)).

Definition last_log_id (q : data) : Z :=
  match last q.(provisionerJobLogs) with
  | Some l => l.(ProvisionerJobLog_ID)
  | None => 1%Z
  end.

(** The lines get the consecutive IDs after [id]. *)
Lemma job_log_rows_ids arg id index outputs logs :
  (0 <= id)%Z → (id + Z.of_nat (length outputs) < 2 ^ 63)%Z →
  job_log_rows arg id index outputs = Ok logs →
  ProvisionerJobLog_ID <$> logs = seqZ (id + 1) (Z.of_nat (length outputs))
  ∧ ProvisionerJobLog_Output <$> logs = outputs.
Proof.
  revert id index logs. induction outputs as [|o os IH]; intros id index logs Hid Hmax Hrun.
  - by simplify_eq/=.
  - rewrite length_cons in Hmax. simpl in Hrun. rewrite int64_wrap_small in Hrun by (unfold min_int64, max_int64; lia).
    repeat case_match; try discriminate.
    destruct (job_log_rows arg (id + 1) (S index) os) as [logs'|e|m] eqn:Hrows; [|done|done].
    injection Hrun as <-.
    destruct (IH (id + 1)%Z _ _ ltac:(lia) ltac:(lia) Hrows) as [Hids Hout].
    rewrite !fmap_cons, Hids, Hout. split; [|done].
    change (Z.of_nat (length (o :: os))) with (Z.of_nat (S (length os))).
    rewrite (seqZ_cons (id + 1)) by lia. do 2 f_equal; lia.
Qed.

Lemma StronglySorted_seqZ m n : StronglySorted Z.lt (seqZ m n).
Proof.
  destruct (decide (0 <= n)%Z) as [Hn|Hn]; [|rewrite seqZ_nil by lia; constructor].
  revert m. pattern n. apply Z_lt_induction; [|done]. clear n Hn. intros n IH m.
  destruct (decide (0 < n)%Z); [|rewrite seqZ_nil by lia; constructor].
  rewrite seqZ_cons by lia. constructor; [apply IH; lia|].
  apply Forall_forall. intros x Hx%elem_of_seqZ. lia.
Qed.

Lemma logs_sorted_le_last q x :
  logs_sorted q → x ∈ ProvisionerJobLog_ID <$> q.(provisionerJobLogs) → (x <= last_log_id q)%Z.
Proof.
  unfold logs_sorted, last_log_id.
  destruct q.(provisionerJobLogs) as [|l ls _] using rev_ind; [set_solver|].
  rewrite last_snoc, fmap_app, StronglySorted_app.
  intros (Hlt & _ & _) [Hx|Hx]%elem_of_app; [|set_solver by lia].
  specialize (Hlt x (ProvisionerJobLog_ID l) Hx ltac:(set_solver)). lia.
Qed.

(** Appending log lines keeps the stored IDs strictly increasing, gives the
    new lines the IDs right after the last one, and keeps their text in order,
    as long as the 64-bit counter does not overflow. *)
Theorem InsertProvisionerJobLogs_ordered arg q logs q' :
  logs_sorted q → (0 <= last_log_id q)%Z →
  (last_log_id q + Z.of_nat (length arg.(InsertProvisionerJobLogsParams_Output)) < 2 ^ 63)%Z →
  InsertProvisionerJobLogs arg q = (Ok logs, q') →
  logs_sorted q'
  ∧ q'.(provisionerJobLogs) = q.(provisionerJobLogs) ++ logs
  ∧ ProvisionerJobLog_ID <$> logs
    = seqZ (last_log_id q + 1) (Z.of_nat (length arg.(InsertProvisionerJobLogsParams_Output)))
  ∧ ProvisionerJobLog_Output <$> logs = arg.(InsertProvisionerJobLogsParams_Output).
Proof.
  intros Hsorted H0 Hmax Hrun. unfold InsertProvisionerJobLogs in Hrun.
  change (match last _ with Some l => _ | None => _ end) with (last_log_id q) in Hrun.
  destruct (job_log_rows arg _ 0 _) as [logs'|e|m] eqn:Hrows; simplify_eq.
  destruct (job_log_rows_ids _ _ _ _ _ H0 Hmax Hrows) as [Hids Hout].
  split; [|done]. unfold logs_sorted. simpl. rewrite fmap_app, Hids.
  apply StronglySorted_app. split; [|split; [done|apply StronglySorted_seqZ]].
  intros x y Hx Hy%elem_of_seqZ. apply logs_sorted_le_last in Hx; [lia|done].
Qed.

(** ** Concrete runs *)

Definition example_insert (id : uuid) (tags : StringMap) : InsertProvisionerJobParams :=
  mkInsertProvisionerJobParams id 10 10 7 8 ProvisionerTypeTerraform
    ProvisionerStorageMethodFile 9 ProvisionerJobTypeWorkspaceBuild RawNil tags.

Definition example_acquire : AcquireProvisionerJobParams :=
  mkAcquireProvisionerJobParams (non_null 20%Z) (non_null 5%N) [ProvisionerTypeTerraform]
    (RawValue (JObject [("scope", JString "organization")])).

Definition example_queue : data :=
  (InsertProvisionerJob (example_insert 2 ∅)
     (InsertProvisionerJob (example_insert 1 {["scope" := "user"]}) New).2).2.

(** Job 1 asks for a tag the daemon does not have; job 2 is taken. *)
Lemma AcquireProvisionerJob_first_witness :
  acquire_tags example_acquire.(AcquireProvisionerJobParams_Tags)
    = Ok {["scope" := "organization"]}
  ∧ ∃ pre job post,
      example_queue.(provisionerJobs) = pre ++ job :: post
      ∧ AcquireProvisionerJob example_acquire example_queue
        = (Ok (acquire_update example_acquire job),
           example_queue <| provisionerJobs := pre ++ acquire_update example_acquire job :: post |>).
Proof.
  assert (acquire_tags example_acquire.(AcquireProvisionerJobParams_Tags)
            = Ok {["scope" := "organization"]}) as Ht by (vm_compute; reflexivity).
  split; [exact Ht|].
  destruct (AcquireProvisionerJob_first example_acquire _ example_queue Ht)
    as [(pre & job & post & Hq & _ & _ & Hrun)|[_ Hrun]].
  - exists pre, job, post. split; [exact Hq|exact Hrun].
  - exfalso. vm_compute in Hrun. discriminate Hrun.
Defined.

Lemma acquired_once_witness :
  ∃ q, job_trace [2%N] q ∧ NoDup [2%N].
Proof.
  assert (job_trace [2%N] (AcquireProvisionerJob example_acquire example_queue).2) as Htrace.
  { apply (trace_step [] example_queue (Some 2%N)).
    - apply (trace_step [] (InsertProvisionerJob (example_insert 1 {["scope" := "user"]}) New).2 None).
      + apply (trace_step [] New None); [constructor|]. apply step_insert. vm_compute. inversion 1.
      + apply step_insert. vm_compute. intros Hin. inversion Hin as [|? ? ? Hin']. inversion Hin'.
    - apply (step_acquire example_acquire example_queue
               (match (AcquireProvisionerJob example_acquire example_queue).1 with
                | Ok j => j | _ => ProvisionerJob_zero end)); vm_compute; reflexivity. }
  eexists. split; [exact Htrace|]. exact (acquired_once _ _ Htrace).
Defined.

Definition example_logs : InsertProvisionerJobLogsParams :=
  mkInsertProvisionerJobLogsParams 2 [20; 21]%Z [LogSourceProvisioner; LogSourceProvisioner]
    [LogLevelInfo; LogLevelInfo] ["setup"; "setup"] ["a"; "b"].

Lemma InsertProvisionerJobLogs_ordered_witness :
  ∃ logs q', InsertProvisionerJobLogs example_logs example_queue = (Ok logs, q')
    ∧ ProvisionerJobLog_ID <$> logs = [2; 3]%Z ∧ logs_sorted q'.
Proof.
  eexists _, _. split; [reflexivity|]. split; [reflexivity|].
  apply (InsertProvisionerJobLogs_ordered example_logs example_queue
           (match job_log_rows example_logs 1 0 ["a"; "b"] with Ok l => l | _ => [] end));
    [constructor|vm_compute; discriminate|vm_compute; reflexivity|reflexivity].
Defined.
