(* ===== verification/StoreProps.v ===== *)
(** * The in-memory store: properties

    The slices behave as keyed tables (a refinement to finite maps, instantiated for the
    API keys), and the
    list queries, uniqueness checks and delete loops do what they are used
    for. *)

From stdpp Require Import prelude gmap strings sorting.
From S2P Require Import Prelude Rbac RbacProps Models Queries ModelMethods.
From S2P Require Import Store StoreUsers StoreOrgs StoreMisc StoreTemplates StoreWorkspaces.

(** ** Tables refine finite maps *)

Section keyed_table.
Context {A : Type} (tbl : data → list A) `{!Setter tbl, !SetterLaw tbl} {K} `{Countable K} (key : A → K).

(** The operations on one table, by primary key. *)
Inductive table_op :=
| OpInsert (x : A)
| OpUpdate (k : K) (f : A → A)
| OpSwapDelete (k : K)
| OpShiftDelete (k : K).

Definition has_key (k : K) (x : A) : bool := key x == k.

(** What the methods of the store run. *)
Definition run_table (op : table_op) : StoreM unit :=
  match op with
  | OpInsert x => void (insert_row tbl x)
  | OpUpdate k f => void (update_row tbl (has_key k) f)
  | OpSwapDelete k => swap_delete_row tbl (has_key k)
  | OpShiftDelete k => shift_delete_row tbl (has_key k)
  end.

(** What they mean: the table is a finite map from keys to rows. *)
Definition run_map (op : table_op) (m : gmap K A) : res unit * gmap K A :=
  match op with
  | OpInsert x => (Ok tt, <[key x := x]> m)
  | OpUpdate k f =>
      match m !! k with
      | Some x => (Ok tt, <[k := f x]> m)
      | None => (Err ErrNoRows, m)
      end
  | OpSwapDelete k | OpShiftDelete k =>
      match m !! k with
      | Some _ => (Ok tt, delete k m)
      | None => (Err ErrNoRows, m)
      end
  end.

(** Inserted keys are fresh and updates keep the key. *)
Definition op_ok (op : table_op) (m : gmap K A) : Prop :=
  match op with
  | OpInsert x => m !! key x = None
  | OpUpdate k f => ∀ x, m !! k = Some x → key (f x) = k
  | _ => True
  end.

Definition table_map (l : list A) : gmap K A := list_to_map ((λ x, (key x, x)) <$> l).

(** The abstraction relation. *)
Definition refines (q : data) (m : gmap K A) : Prop :=
  NoDup (key <$> tbl q) ∧ table_map (tbl q) = m.

Lemma table_map_lookup l k :
  NoDup (key <$> l) → table_map l !! k = find_first (has_key k) l.
Proof.
  intros Hnd. induction l as [|x l IH]; [done|].
  apply NoDup_cons in Hnd as [Hx Hnd]. unfold table_map, has_key in *. simpl.
  case_bool_decide as Heq; [by rewrite Heq, lookup_insert_eq|].
  rewrite lookup_insert_ne by done. by apply IH.
Qed.

Lemma table_map_perm l l' :
  NoDup (key <$> l) → l ≡ₚ l' → table_map l = table_map l'.
Proof.
  intros Hnd Hp. unfold table_map. apply list_to_map_proper; [|by rewrite Hp].
  by rewrite <-list_fmap_compose.
Qed.

Lemma table_map_none l k : k ∉ key <$> l → table_map l !! k = None.
Proof.
  intros Hk. apply not_elem_of_list_to_map_1. by rewrite <-list_fmap_compose.
Qed.

Lemma table_map_middle pre x post :
  NoDup (key <$> pre ++ x :: post) →
  table_map (pre ++ x :: post) = <[key x := x]> (table_map (pre ++ post))
  ∧ table_map (pre ++ post) !! key x = None ∧ NoDup (key <$> pre ++ post).
Proof.
  intros Hnd. assert (pre ++ x :: post ≡ₚ x :: pre ++ post) as Hp
    by (symmetry; apply Permutation_middle).
  rewrite (table_map_perm _ _ Hnd Hp). rewrite Hp in Hnd.
  rewrite fmap_cons in Hnd. apply NoDup_cons in Hnd as [Hx Hnd].
  split; [done|]. split; [by apply table_map_none|done].
Qed.

Lemma key_split l k :
  NoDup (key <$> l) →
  (∃ pre x post, l = pre ++ x :: post ∧ Forall (λ y, has_key k y = false) pre
     ∧ key x = k ∧ table_map l !! k = Some x)
  ∨ (Forall (λ y, has_key k y = false) l ∧ table_map l !! k = None).
Proof.
  intros Hnd. rewrite table_map_lookup by done.
  destruct (find_first_spec (has_key k) l) as [(pre & x & post & Hl & Hpre & Hx & Hf)|Hn];
    [left|by right].
  exists pre, x, post. apply bool_decide_eq_true in Hx. done.
Qed.

Lemma sim_insert x q m :
  refines q m → m !! key x = None →
  (run_table (OpInsert x) q).1 = Ok tt ∧ refines (run_table (OpInsert x) q).2 (<[key x := x]> m).
Proof.
  intros [Hnd <-] Hfresh. split; [done|]. unfold refines. simpl.
  rewrite get_set.
  assert (tbl q ++ [x] ≡ₚ x :: tbl q) as Hp by (rewrite Permutation_app_comm; done).
  assert (NoDup (key <$> tbl q ++ [x])) as Hnd'.
  { rewrite Hp, fmap_cons. constructor; [|done]. intros Hin.
    apply list_elem_of_fmap in Hin as (y & Hy & Hin).
    rewrite table_map_lookup in Hfresh by done.
    destruct (find_first_spec (has_key (key x)) (tbl q)) as [(?&?&?&?&?&?&Hf)|[Hall _]];
      [congruence|].
    rewrite Forall_forall in Hall. specialize (Hall y Hin).
    apply bool_decide_eq_false in Hall. congruence. }
  split; [done|]. by rewrite (table_map_perm _ _ Hnd' Hp).
Qed.

Lemma sim_update k f q m :
  refines q m → (∀ x, m !! k = Some x → key (f x) = k) →
  (run_table (OpUpdate k f) q).1 = (run_map (OpUpdate k f) m).1
  ∧ refines (run_table (OpUpdate k f) q).2 (run_map (OpUpdate k f) m).2.
Proof.
  intros [Hnd <-] Hkey. unfold run_table, run_map. rewrite void_run. unfold update_row.
  destruct (key_split (tbl q) k Hnd) as [(pre & x & post & Hl & Hpre & Hx & Hm)|[Hall Hm]].
  - specialize (Hkey x Hm). rewrite Hm, Hl, update_first_app by
      (first [done|by apply bool_decide_eq_true]). simpl. split; [done|].
    unfold refines. rewrite get_set. rewrite Hl in Hnd.
    destruct (table_map_middle _ _ _ Hnd) as (-> & Hnone & _).
    assert (NoDup (key <$> pre ++ f x :: post)) as Hnd'
      by (rewrite fmap_app, fmap_cons, Hkey, <-Hx, <-fmap_cons, <-fmap_app; done).
    split; [done|]. destruct (table_map_middle _ _ _ Hnd') as (-> & _).
    by rewrite Hkey, Hx, insert_insert_eq.
  - by rewrite update_first_none, Hm.
Qed.

Lemma sim_delete (remove : nat → list A → list A) k q m :
  (∀ pre x post, remove (length pre) (pre ++ x :: post) ≡ₚ pre ++ post) →
  refines q m →
  let r := match index_first (has_key k) (tbl q) with
           | Some i => (Ok tt, set_field tbl (remove i) q)
           | None => (Err ErrNoRows, q)
           end in
  let r' := run_map (OpSwapDelete k) m in
  r.1 = r'.1 ∧ refines r.2 r'.2.
Proof.
  intros Hremove [Hnd <-]. simpl.
  destruct (key_split (tbl q) k Hnd) as [(pre & x & post & Hl & Hpre & Hx & Hm)|[Hall Hm]].
  - rewrite Hm, Hl, index_first_app by (first [done|by apply bool_decide_eq_true]). simpl.
    split; [done|]. unfold refines. rewrite get_set, Hl. rewrite Hl in Hnd.
    destruct (table_map_middle _ _ _ Hnd) as (-> & Hnone & Hnd').
    assert (NoDup (key <$> remove (length pre) (pre ++ x :: post))) by (by rewrite Hremove).
    split; [done|]. rewrite (table_map_perm _ _ ltac:(done) (Hremove pre x post)).
    by rewrite <-Hx, delete_insert_id.
  - rewrite index_first_none by done. by rewrite Hm.
Qed.

Lemma table_step op q m :
  refines q m → op_ok op m →
  (run_table op q).1 = (run_map op m).1 ∧ refines (run_table op q).2 (run_map op m).2.
Proof.
  destruct op as [x|k f|k|k]; intros Href Hok.
  - by apply sim_insert.
  - by apply sim_update.
  - apply (sim_delete swap_remove k q m); [intros; apply swap_remove_app|done].
  - apply (sim_delete shift_remove k q m); [intros; by rewrite shift_remove_app|done].
Qed.

(** A sequence of operations on the map, each one legal where it runs. *)
Fixpoint ops_ok (ops : list table_op) (m : gmap K A) : Prop :=
  match ops with
  | [] => True
  | op :: ops => op_ok op m ∧ ops_ok ops (run_map op m).2
  end.

Fixpoint run_all {S} (run : table_op → S → res unit * S) (ops : list table_op) (s : S) :
    list (res unit) * S :=
  match ops with
  | [] => ([], s)
  | op :: ops => let r := run op s in let rs := run_all run ops r.2 in (r.1 :: rs.1, rs.2)
  end.

(** A table of the store implements a finite map keyed by its primary key: any sequence
    of inserts of fresh keys, updates and both kinds of deletes. *)
Lemma table_refines_map ops q m :
  refines q m → ops_ok ops m →
  (run_all run_table ops q).1 = (run_all run_map ops m).1
  ∧ ∀ k, first_row (has_key k) (tbl (run_all run_table ops q).2)
         = of_option ErrNoRows ((run_all run_map ops m).2 !! k).
Proof.
  revert q m. induction ops as [|op ops IH]; intros q m Href Hok.
  - split; [done|]. intros k. destruct Href as [Hnd <-]. simpl.
    by rewrite table_map_lookup.
  - destruct Hok as [Hop Hops]. destruct (table_step op q m Href Hop) as [Hres Href'].
    destruct (IH _ _ Href' Hops) as [Hrest Hlook]. simpl. by rewrite Hres, Hrest.
Qed.
End keyed_table.

(** ** API keys refine a finite map *)

(** Removing rows from the last to the first. *)
Lemma delete_backwards_filter {A} (P : A → bool) n l :
  (n <= length l)%nat → delete_backwards P n l = filter (λ x, P x = false) (take n l) ++ drop n l.
Proof.
  revert l. induction n as [|n IH]; intros l Hn; [done|]. simpl.
  destruct (lookup_lt_is_Some_2 l n Hn) as [x Hx]. rewrite Hx, (take_S_r _ _ _ Hx), filter_app.
  pose proof (drop_S _ _ _ Hx) as Hdrop. destruct (P x) eqn:HPx.
  - unfold shift_remove. rewrite IH by (rewrite length_app, length_take; lia).
    rewrite take_app_length', drop_app_length' by (rewrite length_take; lia).
    rewrite filter_cons_False, filter_nil, app_nil_r by congruence. done.
  - rewrite IH, Hdrop, filter_cons_True, filter_nil, <-app_assoc by (done || lia). done.
Qed.

(** The calls of the store that are about API keys, and what they return. *)
Inductive key_call :=
| CallInsertAPIKey (arg : InsertAPIKeyParams)
| CallUpdateAPIKeyByID (arg : UpdateAPIKeyByIDParams)
| CallDeleteAPIKeyByID (id : string)
| CallDeleteAPIKeysByUserID (userID : uuid)
| CallGetAPIKeyByID (id : string)
| CallGetAPIKeysByLoginType (t : LoginType)
| CallGetAPIKeysLastUsedAfter (after : time).
Inductive key_reply :=
| ReplyKey (r : res APIKey)
| ReplyDone (r : res unit)
| ReplyKeys (r : res (list APIKey)).

Definition run_call (c : key_call) (q : data) : key_reply * data :=
  match c with
  | CallInsertAPIKey arg => let '(r, q') := InsertAPIKey arg q in (ReplyKey r, q')
  | CallUpdateAPIKeyByID arg => let '(r, q') := UpdateAPIKeyByID arg q in (ReplyDone r, q')
  | CallDeleteAPIKeyByID id => let '(r, q') := DeleteAPIKeyByID id q in (ReplyDone r, q')
  | CallDeleteAPIKeysByUserID userID => let '(r, q') := DeleteAPIKeysByUserID userID q in (ReplyDone r, q')
  | CallGetAPIKeyByID id => (ReplyKey (GetAPIKeyByID id q), q)
  | CallGetAPIKeysByLoginType t => (ReplyKeys (GetAPIKeysByLoginType t q), q)
  | CallGetAPIKeysLastUsedAfter after => (ReplyKeys (GetAPIKeysLastUsedAfter after q), q)
  end.

(** A new key lives for a day if no lifetime is given. *)
Definition key_of (arg : InsertAPIKeyParams) : APIKey := {|
  APIKey_ID := arg.(InsertAPIKeyParams_ID);
  APIKey_HashedSecret := arg.(InsertAPIKeyParams_HashedSecret);
  APIKey_UserID := arg.(InsertAPIKeyParams_UserID);
  APIKey_LastUsed := arg.(InsertAPIKeyParams_LastUsed);
  APIKey_ExpiresAt := arg.(InsertAPIKeyParams_ExpiresAt);
  APIKey_CreatedAt := arg.(InsertAPIKeyParams_CreatedAt);
  APIKey_UpdatedAt := arg.(InsertAPIKeyParams_UpdatedAt);
  APIKey_LoginType := arg.(InsertAPIKeyParams_LoginType);
  APIKey_LifetimeSeconds :=
    if (arg.(InsertAPIKeyParams_LifetimeSeconds) =? 0)%Z then (24 * 60 * 60)%Z
    else arg.(InsertAPIKeyParams_LifetimeSeconds);
  APIKey_IPAddress := arg.(InsertAPIKeyParams_IPAddress);
  APIKey_Scope := arg.(InsertAPIKeyParams_Scope) |}.
Definition key_used (arg : UpdateAPIKeyByIDParams) (key : APIKey) : APIKey :=
  key <| APIKey_LastUsed := arg.(UpdateAPIKeyByIDParams_LastUsed) |>
      <| APIKey_ExpiresAt := arg.(UpdateAPIKeyByIDParams_ExpiresAt) |>
      <| APIKey_IPAddress := arg.(UpdateAPIKeyByIDParams_IPAddress) |>.

(** What the calls mean, on a finite map from IDs to keys. *)
Definition spec_call (c : key_call) (m : gmap string APIKey) : key_reply * gmap string APIKey :=
  match c with
  | CallInsertAPIKey arg => (ReplyKey (Ok (key_of arg)), <[arg.(InsertAPIKeyParams_ID) := key_of arg]> m)
  | CallUpdateAPIKeyByID arg =>
      match m !! arg.(UpdateAPIKeyByIDParams_ID) with
      | Some key => (ReplyDone (Ok tt), <[arg.(UpdateAPIKeyByIDParams_ID) := key_used arg key]> m)
      | None => (ReplyDone (Err ErrNoRows), m)
      end
  | CallDeleteAPIKeyByID id =>
      match m !! id with
      | Some _ => (ReplyDone (Ok tt), delete id m)
      | None => (ReplyDone (Err ErrNoRows), m)
      end
  | CallDeleteAPIKeysByUserID userID =>
      (ReplyDone (Ok tt), filter (λ '(_, key), key.(APIKey_UserID) ≠ userID) m)
  | CallGetAPIKeyByID id => (ReplyKey (of_option ErrNoRows (m !! id)), m)
  | CallGetAPIKeysByLoginType t =>
      (ReplyKeys (Ok (filter (λ key, key.(APIKey_LoginType) = t) (map_to_list m).*2)), m)
  | CallGetAPIKeysLastUsedAfter after =>
      (ReplyKeys (Ok (filter (λ key, (after < key.(APIKey_LastUsed))%Z) (map_to_list m).*2)), m)
  end.

(** The same reply; lists of keys may be in another order. *)
Definition same_reply (r r' : key_reply) : Prop :=
  match r, r' with
  | ReplyKeys (Ok l), ReplyKeys (Ok l') => l ≡ₚ l'
  | _, _ => r = r'
  end.

(** The ID of a new key is not in use: the store does not check it. *)
Definition call_ok (c : key_call) (m : gmap string APIKey) : Prop :=
  match c with
  | CallInsertAPIKey arg => m !! arg.(InsertAPIKeyParams_ID) = None
  | _ => True
  end.
Fixpoint calls_ok (calls : list key_call) (m : gmap string APIKey) : Prop :=
  match calls with
  | [] => True
  | c :: calls => call_ok c m ∧ calls_ok calls (spec_call c m).2
  end.
Fixpoint run_calls {S} (run : key_call → S → key_reply * S) (calls : list key_call) (s : S) :
    list key_reply * S :=
  match calls with
  | [] => ([], s)
  | c :: calls => let r := run c s in let rs := run_calls run calls r.2 in (r.1 :: rs.1, rs.2)
  end.

Section api_keys.
Abbreviation keys_refine := (refines apiKeys APIKey_ID).

Lemma table_map_values (l : list APIKey) :
  NoDup (APIKey_ID <$> l) → (map_to_list (table_map APIKey_ID l)).*2 ≡ₚ l.
Proof.
  intros Hnd. unfold table_map. rewrite map_to_list_to_map by (by rewrite <-list_fmap_compose).
  by rewrite <-list_fmap_compose, list_fmap_id.
Qed.

Lemma table_map_filter (P : APIKey → Prop) `{!∀ x, Decision (P x)} (l : list APIKey) :
  NoDup (APIKey_ID <$> l) →
  table_map APIKey_ID (filter P l) = filter (λ '(_, key), P key) (table_map APIKey_ID l).
Proof.
  induction l as [|x l IH]; intros Hnd; [done|].
  rewrite fmap_cons in Hnd. apply NoDup_cons in Hnd as [Hx Hnd]. specialize (IH Hnd).
  rewrite filter_cons. change (table_map APIKey_ID (x :: l)) with (<[APIKey_ID x := x]> (table_map APIKey_ID l)).
  destruct (decide (P x)).
  - rewrite map_filter_insert_True by done. by rewrite <-IH.
  - rewrite map_filter_insert_not' by (try done; intros y Hy; by rewrite table_map_none in Hy).
    done.
Qed.

Lemma filter_NoDup_key (P : APIKey → Prop) `{!∀ x, Decision (P x)} (l : list APIKey) :
  NoDup (APIKey_ID <$> l) → NoDup (APIKey_ID <$> filter P l).
Proof.
  induction l as [|x l IH]; intros Hnd; [done|]. rewrite fmap_cons in Hnd. apply NoDup_cons in Hnd as [Hx Hnd].
  rewrite filter_cons. destruct (decide (P x)); [|by apply IH]. rewrite fmap_cons. constructor; [|by apply IH].
  intros (y & Hy & [_ Hin]%list_elem_of_filter)%list_elem_of_fmap. apply Hx, list_elem_of_fmap. by exists y.
Qed.

Lemma keys_only P f q r q' :
  void (update_row apiKeys P f) q = (r, q') → q' = q <| apiKeys := q'.(apiKeys) |>.
Proof.
  rewrite void_run. unfold update_row. destruct (update_first _ _ _) as [[]|]; intros [= <- <-]; by destruct q.
Qed.

Lemma call_step c q m :
  keys_refine q m → call_ok c m →
  same_reply (run_call c q).1 (spec_call c m).1 ∧ keys_refine (run_call c q).2 (spec_call c m).2 ∧
  (run_call c q).2 = q <| apiKeys := (run_call c q).2.(apiKeys) |>.
Proof.
  intros Href Hok. destruct c as [arg|arg|id|userID|id|t|after].
  - destruct (sim_insert apiKeys APIKey_ID (key_of arg) q m Href Hok) as [_ Hnext]. done.
  - destruct (sim_update apiKeys APIKey_ID arg.(UpdateAPIKeyByIDParams_ID) (key_used arg) q m Href) as [Hres Hnext].
    { intros x Hx. destruct Href as [Hnd <-]. rewrite table_map_lookup in Hx by done.
      destruct (find_first_spec (has_key APIKey_ID arg.(UpdateAPIKeyByIDParams_ID)) q.(apiKeys))
        as [(?&y&?&?&?&Hy&Hf)|[_ Hf]]; rewrite Hf in Hx; [|done].
      injection Hx as <-. by apply bool_decide_eq_true in Hy. }
    unfold run_table, run_map in Hres, Hnext. simpl. unfold UpdateAPIKeyByID.
    fold (key_used arg). fold (has_key APIKey_ID arg.(UpdateAPIKeyByIDParams_ID)).
    destruct (void _ q) as [r q'] eqn:Hrun. simpl in Hres, Hnext |- *.
    split; [|split; [|by eapply keys_only]].
    all: destruct (m !! _); simpl in *; by rewrite ?Hres.
  - destruct (sim_delete apiKeys APIKey_ID swap_remove id q m) as [Hres Hnext];
      [intros; apply swap_remove_app|done|]. simpl. unfold DeleteAPIKeyByID, swap_delete_row.
    fold (has_key APIKey_ID id). simpl in Hres, Hnext. destruct (index_first _ _); simpl in *.
    all: destruct (m !! id); simpl in *; simplify_eq; split_and!; try done; by destruct q.
  - destruct Href as [Hnd <-]. simpl. split; [done|]. split; [|done]. unfold refines. simpl.
    rewrite delete_backwards_filter, firstn_all, drop_all, app_nil_r by done.
    rewrite (list_filter_iff _ (λ key, APIKey_UserID key ≠ userID)) by (intros; apply bool_decide_eq_false).
    split; [by apply filter_NoDup_key|by apply table_map_filter].
  - destruct Href as [Hnd <-]. simpl. split; [|split; [done|by destruct q]].
    unfold GetAPIKeyByID, first_row. by rewrite table_map_lookup.
  - destruct Href as [Hnd <-]. simpl. split; [|split; [done|by destruct q]]. by rewrite table_map_values.
  - destruct Href as [Hnd <-]. simpl. split; [|split; [done|by destruct q]]. rewrite table_map_values by done.
    rewrite (list_filter_iff _ (λ key, (after < APIKey_LastUsed key)%Z)); [done|].
    intros key. unfold After. by rewrite Is_true_true, Z.ltb_lt.
Qed.

(** C16: the methods of the store on API keys implement a finite map from the IDs of keys
    to keys. Any sequence of inserting keys whose IDs are not in use, updating one by
    its ID, deleting one by its ID or all of a user, and looking one up by its ID, those
    of a way to log in or those used after a time, returns on the slice of the store what
    it returns on the map, lists up to their order; afterwards the slice has the rows of
    the map, with no ID twice, and the other tables are as before. *)
Theorem api_keys_refine_map calls q m :
  keys_refine q m → calls_ok calls m →
  Forall2 same_reply (run_calls run_call calls q).1 (run_calls spec_call calls m).1 ∧
  keys_refine (run_calls run_call calls q).2 (run_calls spec_call calls m).2 ∧
  (run_calls run_call calls q).2 = q <| apiKeys := (run_calls run_call calls q).2.(apiKeys) |>.
Proof.
  revert q m. induction calls as [|c calls IH]; intros q m Href Hok.
  - split_and!; [done..|by destruct q].
  - destruct Hok as [Hc Hcalls]. destruct (call_step c q m Href Hc) as (Hreply & Href' & Hq).
    destruct (IH _ _ Href' Hcalls) as (Hreplies & Hlast & Hq'). simpl.
    split_and!; [by constructor|done|]. rewrite Hq' at 1. by rewrite Hq.
Qed.
End api_keys.

(** ** The latest build *)

Definition latest_ok (w : uuid) (l : list WorkspaceBuild) (acc : WorkspaceBuild * Z) : Prop :=
  (acc.2 = -1 ∧ ∀ b, b ∈ l → b.(WorkspaceBuild_WorkspaceID) ≠ w)%Z
  ∨ (acc.1 ∈ l ∧ acc.1.(WorkspaceBuild_WorkspaceID) = w
     ∧ acc.2 = acc.1.(WorkspaceBuild_BuildNumber) ∧ (0 <= acc.2)%Z
     ∧ ∀ b, b ∈ l → b.(WorkspaceBuild_WorkspaceID) = w →
         (b.(WorkspaceBuild_BuildNumber) <= acc.2)%Z).

Lemma latest_ok_step w l acc b :
  (0 <= b.(WorkspaceBuild_BuildNumber))%Z →
  latest_ok w l acc → latest_ok w (l ++ [b]) (latest_build_step w acc b).
Proof.
  intros Hb Hok. unfold latest_ok, latest_build_step in *. setoid_rewrite elem_of_app.
  setoid_rewrite list_elem_of_singleton. case_bool_decide as Hw; simpl.
  - destruct (Z.ltb_spec acc.2 b.(WorkspaceBuild_BuildNumber)); right;
      destruct Hok as [[Hacc Hne]|(Hin & Hwid & Hn & H0 & Hmax)]; simpl; try lia.
    + split_and!; [by right|done..|]. intros b' [Hb'| ->] Hw'; [|lia]. destruct (Hne b' Hb' Hw').
    + split_and!; [by right|done..|]. intros b' [Hb'| ->] Hw'; [|lia].
      specialize (Hmax b' Hb' Hw'). lia.
    + split_and!; [by left|done..|]. intros b' [Hb'| ->] Hw'; [by apply Hmax|lia].
  - destruct Hok as [[Hacc Hne]|(Hin & Hwid & Hn & H0 & Hmax)].
    + left. split; [done|]. intros b' [Hb'| ->]; [by apply Hne|done].
    + right. split_and!; [by left|done..|]. intros b' [Hb'| ->] Hw'; [by apply Hmax|done].
Qed.

Lemma latest_ok_fold w l :
  Forall (λ b, (0 <= b.(WorkspaceBuild_BuildNumber))%Z) l →
  latest_ok w l (foldl (latest_build_step w) (WorkspaceBuild_zero, -1)%Z l).
Proof.
  induction l as [|b l IH] using rev_ind; intros Hall.
  - left. split; [done|]. intros b Hb. by apply elem_of_nil in Hb.
  - apply Forall_app in Hall as [Hl Hb]. rewrite foldl_snoc.
    apply latest_ok_step; [by inversion Hb|by apply IH].
Qed.

Lemma latest_build_spec w q :
  Forall (λ b, (0 <= b.(WorkspaceBuild_BuildNumber))%Z) q.(workspaceBuilds) →
  (∃ b, GetLatestWorkspaceBuildByWorkspaceID w q = Ok b
     ∧ b ∈ q.(workspaceBuilds) ∧ b.(WorkspaceBuild_WorkspaceID) = w
     ∧ ∀ b', b' ∈ q.(workspaceBuilds) → b'.(WorkspaceBuild_WorkspaceID) = w →
         (b'.(WorkspaceBuild_BuildNumber) <= b.(WorkspaceBuild_BuildNumber))%Z)
  ∨ (GetLatestWorkspaceBuildByWorkspaceID w q = Err ErrNoRows
     ∧ ∀ b, b ∈ q.(workspaceBuilds) → b.(WorkspaceBuild_WorkspaceID) ≠ w).
Proof.
  intros Hall. pose proof (latest_ok_fold w _ Hall) as Hok.
  unfold GetLatestWorkspaceBuildByWorkspaceID. destruct (foldl _ _ _) as [row n].
  unfold latest_ok in Hok. simpl in Hok.
  destruct Hok as [[-> Hne]|(Hin & Hw & -> & H0 & Hmax)].
  - right. by rewrite bool_decide_eq_true_2.
  - left. exists row. rewrite bool_decide_eq_false_2 by lia. done.
Qed.

(** The latest build of a workspace is one of its builds with the highest
    build number, and there is none exactly when the workspace has no builds. *)
Theorem GetLatestWorkspaceBuild_max w q :
  Forall (λ b, (0 <= b.(WorkspaceBuild_BuildNumber))%Z) q.(workspaceBuilds) →
  (∃ b, GetLatestWorkspaceBuildByWorkspaceID w q = Ok b
     ∧ b ∈ q.(workspaceBuilds) ∧ b.(WorkspaceBuild_WorkspaceID) = w
     ∧ ∀ b', b' ∈ q.(workspaceBuilds) → b'.(WorkspaceBuild_WorkspaceID) = w →
         (b'.(WorkspaceBuild_BuildNumber) <= b.(WorkspaceBuild_BuildNumber))%Z)
  ∨ (GetLatestWorkspaceBuildByWorkspaceID w q = Err ErrNoRows
     ∧ ∀ b, b ∈ q.(workspaceBuilds) → b.(WorkspaceBuild_WorkspaceID) ≠ w).
Proof. apply latest_build_spec. Qed.

(** ** The workspace list *)

Section workspace_list_props.
Context `{!UuidText} (now : time).

Lemma workspaces_loop_elem keeps ws ws' w :
  workspaces_loop keeps ws = Ok ws' → w ∈ ws' → w ∈ ws ∧ keeps w = Ok true.
Proof.
  revert ws'. induction ws as [|x ws IH]; intros ws' Hrun Hw; simplify_eq/=.
  - by apply elem_of_nil in Hw.
  - destruct (keeps x) as [k|e|m] eqn:Hk; simplify_eq/=.
    destruct (workspaces_loop keeps ws) as [rest|e|m] eqn:Hrest; simplify_eq/=.
    destruct k; [|set_solver]. apply elem_of_cons in Hw as [->|Hw]; [set_solver|].
    destruct (IH rest eq_refl Hw). set_solver.
Qed.

Lemma workspace_keeps_split arg p q w :
  workspace_keeps now arg (Some p) q w
  = (λ k, k && is_ok (p (Workspace_RBACObject w))) <$> workspace_keeps now arg None q w.
Proof.
  unfold workspace_keeps. destruct (negb (basic_keeps arg w q)); [done|].
  destruct (if arg.(GetWorkspacesParams_Status) != "" then _ else _) as [[]|e|m]; simpl; [|done..].
  destruct (if arg.(GetWorkspacesParams_HasAgent) != "" then _ else _) as [[]|e|m]; simpl; [|done..].
  destruct (match _ with [] => _ | _ => _ end); [done|].
  by destruct (is_ok (p (Workspace_RBACObject w))).
Qed.

Lemma workspace_keeps_authorized arg p q w :
  workspace_keeps now arg (Some p) q w = Ok true → p (Workspace_RBACObject w) = Ok tt.
Proof.
  rewrite workspace_keeps_split.
  destruct (workspace_keeps now arg None q w) as [k|e|m]; simpl; [|done..].
  intros [= Hk]. apply andb_true_iff in Hk as [_ Hp].
  by destruct (p (Workspace_RBACObject w)) as [[]| |].
Qed.

Lemma workspaces_loop_split arg p q ws :
  workspaces_loop (workspace_keeps now arg (Some p) q) ws
  = filter (λ w, is_ok (p (Workspace_RBACObject w)))
      <$> workspaces_loop (workspace_keeps now arg None q) ws.
Proof.
  induction ws as [|w ws IH]; [done|]. simpl. rewrite workspace_keeps_split, IH.
  destruct (workspace_keeps now arg None q w) as [k|e|m]; simpl; [|done..].
  destruct (workspaces_loop (workspace_keeps now arg None q) ws) as [rest|e|m]; simpl; [|done..]. f_equal.
  destruct k; simpl; [|done]. rewrite filter_cons.
  by destruct (is_ok (p (Workspace_RBACObject w))).
Qed.

Lemma ConvertWorkspaceRows_inverse ws n :
  ConvertWorkspaceRows (convertToWorkspaceRows ws n) = ws.
Proof.
  unfold ConvertWorkspaceRows, convertToWorkspaceRows. rewrite <-list_fmap_compose.
  rewrite <-(list_fmap_id ws) at 2. apply list_fmap_ext. by intros i [].
Qed.

Lemma limit_rows_subset {A} n (l : list A) x : x ∈ limit_rows n l → x ∈ l.
Proof.
  unfold limit_rows. case_match; [|done]. intros Hx.
  apply (subseteq_take _ _ _ Hx).
Qed.

(** An unpaged list with an authorization filter is the list without it,
    restricted to the workspaces the filter authorizes: filtering in the
    store neither hides nor leaks rows. *)
Theorem GetAuthorizedWorkspaces_filter arg p q :
  (arg.(GetWorkspacesParams_Offset) <= 0)%Z → (arg.(GetWorkspacesParams_Limit) <= 0)%Z →
  ConvertWorkspaceRows <$> GetAuthorizedWorkspaces now arg (Some p) q
  = (λ rows, filter (λ w, is_ok (p (Workspace_RBACObject w))) (ConvertWorkspaceRows rows))
      <$> GetWorkspaces now arg q.
Proof.
  intros Hoff Hlim. unfold GetWorkspaces, GetAuthorizedWorkspaces.
  rewrite workspaces_loop_split.
  destruct (workspaces_loop (workspace_keeps now arg None q) q.(workspaces)) as [ws|e|m];
    simpl; [|done..].
  destruct (Z.ltb_spec 0 arg.(GetWorkspacesParams_Offset)); [lia|].
  unfold limit_rows. destruct (Z.ltb_spec 0 arg.(GetWorkspacesParams_Limit)); [lia|].
  simpl. replace (Z.to_nat arg.(GetWorkspacesParams_Offset)) with 0 by lia.
  by rewrite !drop_0, !ConvertWorkspaceRows_inverse.
Qed.

(** C17: no workspace a subject may not read is ever listed: with a filter
    prepared for the subject, every row of every page is a stored workspace on
    which the authorizer allows the action. *)
Theorem workspace_list_authorized `{!Authorizer, !AuthorizerLaws}
    subj roles scope groups action p arg q rows w :
  PrepareByRoleName subj roles scope groups action "workspace" = Ok p →
  GetAuthorizedWorkspaces now arg (Some p) q = Ok rows →
  w ∈ ConvertWorkspaceRows rows →
  w ∈ q.(workspaces)
  ∧ ByRoleName subj roles scope groups action (Workspace_RBACObject w) = Ok tt.
Proof.
  intros Hprep Hrun Hw. unfold GetAuthorizedWorkspaces in Hrun.
  destruct (workspaces_loop _ _) as [ws|e|m] eqn:Hloop; simplify_eq/=.
  case_match; simplify_eq/=; [by apply elem_of_nil in Hw|].
  rewrite ConvertWorkspaceRows_inverse in Hw. apply limit_rows_subset in Hw.
  apply subseteq_drop in Hw.
  destruct (workspaces_loop_elem _ _ _ _ Hloop Hw) as [Hin Hk]. split; [done|].
  apply workspace_keeps_authorized in Hk.
  by apply (prepared_agrees _ _ _ _ _ _ _ (Workspace_RBACObject w) Hprep).
Qed.
End workspace_list_props.

(** ** Counts *)

Section user_counts.
Context `{!UuidText}.

#[local] Instance filter_deleted_perm d : Proper ((≡ₚ) ==> (≡ₚ)) (filter_deleted d).
Proof. intros l l' Hl. unfold filter_deleted. case_match; [by rewrite Hl|done]. Qed.
#[local] Instance filter_search_perm s : Proper ((≡ₚ) ==> (≡ₚ)) (filter_search s).
Proof. intros l l' Hl. unfold filter_search. case_match; [by rewrite Hl|done]. Qed.
#[local] Instance filter_status_perm s : Proper ((≡ₚ) ==> (≡ₚ)) (filter_status s).
Proof. intros l l' Hl. unfold filter_status. case_match; [done|by rewrite Hl]. Qed.
#[local] Instance filter_role_perm r : Proper ((≡ₚ) ==> (≡ₚ)) (filter_role r).
Proof. intros l l' Hl. unfold filter_role. repeat case_match; [done..|by rewrite Hl]. Qed.

Definition count_params (p : GetUsersParams) : GetFilteredUserCountParams :=
  mkGetFilteredUserCountParams p.(GetUsersParams_Deleted) p.(GetUsersParams_Search)
    p.(GetUsersParams_Status) p.(GetUsersParams_RbacRole).

(** The total each row of a user page carries is the number the count query
    returns for the same filters, whatever the page. *)
Theorem GetUsers_count params q rows r :
  params.(GetUsersParams_AfterID) = uuid_Nil →
  GetUsers params q = Ok rows → r ∈ rows →
  GetFilteredUserCount (count_params params) q = Ok r.(GetUsersRow_Count).
Proof.
  intros Hafter Hrun Hr. unfold GetUsers in Hrun. rewrite Hafter in Hrun.
  rewrite (bool_decide_eq_true_2 (uuid_Nil = uuid_Nil)) in Hrun by done. simpl in Hrun.
  case_match; simplify_eq; [by apply elem_of_nil in Hr|].
  unfold convertUsers in Hr. apply list_elem_of_fmap in Hr as (u & -> & _). simpl.
  unfold GetFilteredUserCount, GetAuthorizedUserCount. do 2 f_equal.
  apply Permutation_length. by rewrite (sort_by_perm user_less).
Qed.
End user_counts.

(** ** Uniqueness *)

(** No two live workspaces of one owner have the same name. *)
Definition names_unique (ws : list Workspace) : Prop :=
  ∀ w w', w ∈ ws → w' ∈ ws →
    w.(Workspace_Deleted) = false → w'.(Workspace_Deleted) = false →
    w.(Workspace_OwnerID) = w'.(Workspace_OwnerID) →
    w.(Workspace_Name) = w'.(Workspace_Name) →
    w.(Workspace_ID) = w'.(Workspace_ID).

Lemma name_not_taken w name ws :
  name_taken w name ws = false →
  ∀ w', w' ∈ ws → w'.(Workspace_Deleted) = false →
    w'.(Workspace_OwnerID) = w.(Workspace_OwnerID) → w'.(Workspace_Name) = name →
    w'.(Workspace_ID) = w.(Workspace_ID).
Proof.
  intros Hno w' Hw' Hd Ho Hn. destruct (decide (w'.(Workspace_ID) = w.(Workspace_ID))) as [|Hne]; [done|].
  apply not_true_iff_false in Hno as []. unfold name_taken. apply existsb_exists.
  exists w'. split; [by apply list_elem_of_In|]. rewrite Hd, Ho.
  by rewrite (bool_decide_eq_false_2 _ Hne), !bool_decide_eq_true_2 by done.
Qed.

(** Renaming a workspace never gives an owner two live workspaces of the
    same name, and a rejected or unknown rename changes nothing. *)
Theorem UpdateWorkspace_names arg q r q' :
  names_unique q.(workspaces) → UpdateWorkspace arg q = (r, q') →
  names_unique q'.(workspaces) ∧ (is_ok r = false → q' = q).
Proof.
  intros Huniq Hrun. unfold UpdateWorkspace, update_row in Hrun.
  set (P := λ w, negb (w.(Workspace_Deleted) || (w.(Workspace_ID) != arg.(UpdateWorkspaceParams_ID))))
    in Hrun.
  destruct (find_first_spec P q.(workspaces)) as [(pre & w & post & Hq & Hpre & Hw & Hf)|[_ Hf]];
    rewrite Hf in Hrun; [|by simplify_eq].
  destruct (name_taken _ _ _) eqn:Htaken; [by simplify_eq|].
  rewrite Hq in Hrun. rewrite update_first_app in Hrun by done. simplify_eq. split; [|done]. simpl.
  pose proof (name_not_taken _ _ _ Htaken) as Hfree. rewrite Hq in Huniq, Hfree.
  set (w1 := w <| Workspace_Name := arg.(UpdateWorkspaceParams_Name) |>).
  assert (∀ x, x ∈ pre ++ w1 :: post → x = w1 ∨ x ∈ pre ++ w :: post) as Hsub by set_solver.
  intros x y Hx Hy Hdx Hdy Ho Hn.
  destruct (Hsub x Hx) as [->|Hx'], (Hsub y Hy) as [->|Hy']; [done| | |by apply Huniq].
  - symmetry. by apply Hfree.
  - by apply Hfree.
Qed.

(** ** Deleting while ranging *)

Section range_delete_props.
Context {A : Type} (P : A → bool).

Lemma range_delete_skip arr len i k n :
  (∀ j x, i ≤ j < i + k → arr !! j = Some x → P x = false) → i + k ≤ length arr →
  range_delete_loop P arr len i (k + n) = range_delete_loop P arr len (i + k) n.
Proof.
  revert i. induction k as [|k IH]; intros i Hno Hlen; simpl; [by rewrite Nat.add_0_r|].
  destruct (lookup_lt_is_Some_2 arr i) as [x Hx]; [lia|]. rewrite Hx, (Hno i x) by (done || lia).
  rewrite IH; [f_equal; lia| |lia]. intros j y Hj. apply Hno. lia.
Qed.

Lemma range_delete_none l :
  Forall (λ x, P x = false) l → range_delete P l = (Ok tt, l).
Proof.
  intros Hno. unfold range_delete. rewrite <-(Nat.add_0_r (length l)) at 2.
  rewrite range_delete_skip; simpl; [by rewrite firstn_all| |lia].
  intros j x _ Hx. rewrite Forall_lookup in Hno. by apply (Hno j).
Qed.

(** One matching row: it is deleted and the loop runs on without harm. *)
Lemma range_delete_one pre x post :
  Forall (λ y, P y = false) pre → P x = true → Forall (λ y, P y = false) post →
  range_delete P (pre ++ x :: post) = (Ok tt, pre ++ post).
Proof.
  intros Hpre Hx Hpost. unfold range_delete.
  assert (length (pre ++ x :: post) = length pre + S (length post)) as Hlen
    by (rewrite length_app; simpl; lia).
  rewrite Hlen at 2. rewrite range_delete_skip; [|intros j y Hj Hy|lia].
  2: { rewrite lookup_app_l in Hy by lia. rewrite Forall_lookup in Hpre. by apply (Hpre j). }
  simpl. rewrite list_lookup_middle by done. rewrite Hx, decide_True by lia.
  rewrite take_app_length, (drop_app_ge _ (x :: post)) by lia.
  replace (S (length pre) - length pre) with 1 by lia. simpl. rewrite drop_0.
  rewrite (take_ge post) by lia.
  set (arr := pre ++ post ++ drop (length (pre ++ x :: post) - 1) (pre ++ x :: post)).
  assert (length arr = length pre + S (length post)) as Harr.
  { subst arr. rewrite !length_app, length_drop, length_app. simpl. lia. }
  pose proof (range_delete_skip arr (length (pre ++ x :: post) - 1) (S (length pre))
                (length post) 0) as Hskip.
  rewrite Nat.add_0_r in Hskip. rewrite Hskip; [|intros j y Hj Hy|lia].
  - simpl. subst arr. rewrite app_assoc, take_app_le by (rewrite !length_app; simpl; lia).
    rewrite take_ge by (rewrite !length_app; simpl; lia). done.
  - subst arr. rewrite Forall_lookup in Hpost. rewrite lookup_app_r in Hy by lia.
    destruct (decide (j - length pre < length post)).
    + rewrite lookup_app_l in Hy by lia. by apply (Hpost (j - length pre)).
    + rewrite lookup_app_r, lookup_drop in Hy by lia.
      rewrite lookup_app_r in Hy by lia.
      replace (_ - length pre) with (S (length post - 1)) in Hy by lia.
      simpl in Hy. by apply (Hpost (length post - 1)).
Qed.
End range_delete_props.

Lemma at_most_one {A} (P : A → bool) (l : list A) :
  length (filter P l) ≤ 1 →
  Forall (λ y, P y = false) l
  ∨ ∃ pre x post, l = pre ++ x :: post ∧ Forall (λ y, P y = false) pre ∧ P x = true
      ∧ Forall (λ y, P y = false) post.
Proof.
  intros Hlen. destruct (find_first_spec P l) as [(pre & x & post & -> & Hpre & Hx & _)|[Hall _]];
    [right|by left].
  exists pre, x, post. split_and!; try done.
  rewrite filter_app, filter_cons, Hx, length_app in Hlen. simpl in Hlen.
  apply Forall_forall. intros y Hy. destruct (P y) eqn:HPy; [|done]. exfalso.
  assert (y ∈ filter P post) as Hin by (apply list_elem_of_filter; by rewrite HPy).
  destruct (filter P post); [by apply elem_of_nil in Hin|]. simpl in Hlen. lia.
Qed.

Lemma filter_keep_all {A} (Q : A → Prop) `{!∀ x, Decision (Q x)} (l : list A) :
  Forall Q l → filter Q l = l.
Proof. induction 1 as [|x l Hx _ IH]; [done|]. rewrite filter_cons_True by done. by rewrite IH. Qed.

Lemma filter_negb_split {A} (P : A → bool) pre x post :
  Forall (λ y, P y = false) pre → P x = true → Forall (λ y, P y = false) post →
  filter (λ y, negb (P y)) (pre ++ x :: post) = pre ++ post.
Proof.
  intros Hpre Hx Hpost. rewrite filter_app, filter_cons, Hx. simpl. f_equal.
  - apply filter_keep_all. eapply Forall_impl; [exact Hpre|]. by intros y ->.
  - apply filter_keep_all. eapply Forall_impl; [exact Hpost|]. by intros y ->.
Qed.

Definition is_member (userID : uuid) (m : GroupMember) : bool := m.(GroupMember_UserID) == userID.

(** Removing a user who is in at most one group removes exactly that
    membership. *)
Theorem DeleteGroupMember_single userID q :
  length (filter (is_member userID) q.(groupMembers)) ≤ 1 →
  DeleteGroupMember userID q
  = (Ok tt, q <| groupMembers := filter (λ m, negb (is_member userID m)) q.(groupMembers) |>).
Proof.
  intros Hone. unfold DeleteGroupMember, range_delete_rows.
  fold (is_member userID).
  destruct (at_most_one _ _ Hone) as [Hno|(pre & x & post & -> & Hpre & Hx & Hpost)].
  - rewrite range_delete_none, filter_keep_all by first
      [done|eapply Forall_impl; [exact Hno|]; by intros y ->]. done.
  - rewrite range_delete_one by done. by rewrite filter_negb_split.
Qed.

(** A user whose last two memberships are adjacent at the end of the table
    cannot be removed: the loop deletes the first one, meets the stale copy of
    the second past the shortened slice, and panics. *)
Theorem DeleteGroupMember_panics userID q pre m1 m2 :
  q.(groupMembers) = pre ++ [m1; m2] →
  Forall (λ m, is_member userID m = false) pre →
  is_member userID m1 = true → is_member userID m2 = true →
  DeleteGroupMember userID q
  = (Panic "slice bounds out of range", q <| groupMembers := pre ++ [m2] |>).
Proof.
  intros Hq Hpre H1 H2. unfold DeleteGroupMember, range_delete_rows, range_delete.
  rewrite Hq. fold (is_member userID). rewrite length_app. simpl (length [m1; m2]).
  rewrite range_delete_skip; [|intros j y Hj Hy|rewrite length_app; simpl; lia].
  2: { rewrite lookup_app_l in Hy by lia. rewrite Forall_lookup in Hpre. by apply (Hpre j). }
  simpl. rewrite list_lookup_middle by done. rewrite H1, decide_True by lia.
  rewrite take_app_length, !(drop_app_ge pre) by lia.
  replace (S (length pre) - length pre) with 1 by lia.
  replace (length pre + 2 - 1 - length pre) with 1 by lia.
  replace (length pre + 2 - S (length pre)) with 1 by lia. simpl.
  rewrite lookup_app_r, Nat.sub_succ_l, Nat.sub_diag by lia. simpl.
  rewrite H2, decide_False by lia. rewrite take_app_ge by lia.
  by replace (length pre + 2 - 1 - length pre) with 1 by lia.
Qed.

(** ** Roles *)

Lemma dedup_roles_spec exist rs :
  NoDup (dedup_roles exist rs)
  ∧ ∀ r, r ∈ dedup_roles exist rs ↔ r ∈ rs ∧ r ∉ exist.
Proof.
  revert exist. induction rs as [|r rs IH]; intros exist; simpl.
  - split; [constructor|set_solver].
  - case_decide as Hr; [destruct (IH exist) as [Hnd Hin]; set_solver|].
    destruct (IH ({[r]} ∪ exist)) as [Hnd Hin]. split.
    + constructor; [rewrite Hin; set_solver|done].
    + intros x. rewrite !elem_of_cons, Hin. destruct (decide (x = r)); set_solver.
Qed.

(** The roles stored for an organization member are exactly the granted ones,
    each once; other members and other tables do not change. *)
Theorem UpdateMemberRoles_roles arg q mem q' :
  UpdateMemberRoles arg q = (Ok mem, q') →
  NoDup mem.(OrganizationMember_Roles)
  ∧ (∀ r, r ∈ mem.(OrganizationMember_Roles) ↔ r ∈ arg.(UpdateMemberRolesParams_GrantedRoles))
  ∧ ∃ pre old post,
      q.(organizationMembers) = pre ++ old :: post
      ∧ old.(OrganizationMember_UserID) = arg.(UpdateMemberRolesParams_UserID)
      ∧ old.(OrganizationMember_OrganizationID) = arg.(UpdateMemberRolesParams_OrgID)
      ∧ q' = q <| organizationMembers := pre ++ mem :: post |>.
Proof.
  unfold UpdateMemberRoles, update_row. set (P := λ mem, _ && _).
  destruct (find_first_spec P q.(organizationMembers))
    as [(pre & old & post & Hq & Hpre & Hold & _)|[Hall _]];
    [|rewrite update_first_none by done; done].
  rewrite Hq, update_first_app by done. intros [= <- <-].
  destruct (dedup_roles_spec ∅ arg.(UpdateMemberRolesParams_GrantedRoles)) as [Hnd Hin].
  simpl. unfold unique_sorted_roles. split; [by rewrite (sort_by_perm string_lt)|].
  split; [intros r; rewrite (sort_by_perm string_lt), Hin; set_solver|].
  exists pre, old, post. apply andb_true_iff in Hold as [H1 H2].
  apply bool_decide_eq_true in H1, H2. done.
Qed.

(** ** Concrete runs *)

Definition example_key (id : string) (user : uuid) : InsertAPIKeyParams :=
  {| InsertAPIKeyParams_ID := id; InsertAPIKeyParams_LifetimeSeconds := 0;
     InsertAPIKeyParams_HashedSecret := []; InsertAPIKeyParams_IPAddress := Inet_zero;
     InsertAPIKeyParams_UserID := user; InsertAPIKeyParams_LastUsed := 0; InsertAPIKeyParams_ExpiresAt := 0;
     InsertAPIKeyParams_CreatedAt := 0; InsertAPIKeyParams_UpdatedAt := 0;
     InsertAPIKeyParams_LoginType := LoginTypePassword; InsertAPIKeyParams_Scope := APIKeyScopeAll |}.
Definition example_calls : list key_call :=
  [CallInsertAPIKey (example_key "a" 1); CallInsertAPIKey (example_key "b" 2);
   CallInsertAPIKey (example_key "c" 1); CallDeleteAPIKeyByID "x"; CallDeleteAPIKeysByUserID 1;
   CallGetAPIKeyByID "b"; CallGetAPIKeyByID "c"].

Lemma api_keys_refine_map_witness :
  skipn 3 (run_calls run_call example_calls New).1 =
    [ReplyDone (Err ErrNoRows); ReplyDone (Ok tt); ReplyKey (Ok (key_of (example_key "b" 2)));
     ReplyKey (Err ErrNoRows)] ∧
  (run_calls spec_call example_calls ∅).2 = {[ "b" := key_of (example_key "b" 2) ]} ∧
  refines apiKeys APIKey_ID (run_calls run_call example_calls New).2 (run_calls spec_call example_calls ∅).2.
Proof.
  destruct (api_keys_refine_map example_calls New ∅) as (_ & Hlast & _).
  - split; [constructor|reflexivity].
  - vm_compute. split_and!; done.
  - split_and!; [vm_compute; reflexivity|vm_compute; reflexivity|exact Hlast].
Defined.

Definition example_build (w : uuid) (n : Z) : WorkspaceBuild :=
  WorkspaceBuild_zero <| WorkspaceBuild_ID := Z.to_N (100 + n) |>
    <| WorkspaceBuild_WorkspaceID := w |> <| WorkspaceBuild_BuildNumber := n |>.

Lemma GetLatestWorkspaceBuild_max_witness :
  let q := New <| workspaceBuilds := [example_build 1 1; example_build 1 2; example_build 2 7] |> in
  GetLatestWorkspaceBuildByWorkspaceID 1 q = Ok (example_build 1 2)
  ∧ ∀ b, b ∈ q.(workspaceBuilds) → b.(WorkspaceBuild_WorkspaceID) = 1%N →
      (b.(WorkspaceBuild_BuildNumber) <= 2)%Z.
Proof.
  intros q. split; [vm_compute; reflexivity|].
  destruct (GetLatestWorkspaceBuild_max 1 q) as [(b & Hb & _ & _ & Hmax)|[He _]].
  - repeat constructor; vm_compute; discriminate.
  - vm_compute in Hb. injection Hb as <-. exact Hmax.
  - vm_compute in He. discriminate He.
Defined.

Definition example_workspace (id owner : uuid) (name : string) : Workspace :=
  Workspace_zero <| Workspace_ID := id |> <| Workspace_OwnerID := owner |>
    <| Workspace_OrganizationID := 50%N |> <| Workspace_Name := name |>.

Definition example_workspaces : data :=
  New <| workspaces := [example_workspace 1 3 "dev"; example_workspace 2 4 "dev"] |>.

(** The filter keeps the workspaces of user 3. *)
Definition owned_by_3 (o : Object) : res unit :=
  if o.(Object_Owner) == "u111" then Ok tt else Err errUnauthorized.

Lemma GetAuthorizedWorkspaces_filter_witness :
  ConvertWorkspaceRows <$> @GetAuthorizedWorkspaces unary_uuid_text 0 GetWorkspacesParams_zero
    (Some owned_by_3) example_workspaces = Ok [example_workspace 1 3 "dev"].
Proof.
  rewrite (@GetAuthorizedWorkspaces_filter unary_uuid_text 0 GetWorkspacesParams_zero owned_by_3);
    [vm_compute; reflexivity|vm_compute; discriminate..].
Defined.

Lemma workspace_list_authorized_witness :
  @ByRoleName (@rego_authorizer whole_query) "u9" ["owner"] ScopeAll [] "read"
    (@Workspace_RBACObject unary_uuid_text (example_workspace 1 3 "dev")) = Ok tt.
Proof.
  refine (proj2 (@workspace_list_authorized unary_uuid_text 0 (@rego_authorizer whole_query)
    (@rego_authorizer_laws whole_query whole_query_laws) "u9" ["owner"] ScopeAll [] "read"
    (PartialAuthorizer_Authorize
       (mkPartial [λ o, Ok (if allow (mkInput (mkSubject "u9" [role_owner ""] []
                                     (default (role_owner "") (lookup_name ScopeAll builtinScopes)))
                                     o "read")
                            then [mkResult 0 [Some true]] else [])] false))
    GetWorkspacesParams_zero
    (New <| workspaces := [example_workspace 1 3 "dev"] |>)
    (convertToWorkspaceRows [example_workspace 1 3 "dev"] 1) _ eq_refl _ _)).
  - vm_compute. reflexivity.
  - rewrite ConvertWorkspaceRows_inverse. left.
Defined.

Lemma GetUsers_count_witness :
  let q := New <| users := [User_zero <| User_Email := "Ann@x.io" |>;
                            User_zero <| User_ID := 2%N |>] |> in
  let p := mkGetUsersParams false uuid_Nil "ann" [] [] 0 0 in
  GetFilteredUserCount (count_params p) q = Ok 1%Z.
Proof.
  intros q p.
  destruct (convertUsers [User_zero <| User_Email := "Ann@x.io" |>] 1) as [|r rows] eqn:Hrows;
    [discriminate Hrows|].
  transitivity (Ok r.(GetUsersRow_Count)); [|by injection Hrows as <- <-].
  apply (@GetUsers_count unary_uuid_text p q (r :: rows));
    [reflexivity|rewrite <-Hrows; vm_compute; reflexivity|left].
Defined.

Lemma UpdateWorkspace_names_witness :
  names_unique (UpdateWorkspace (mkUpdateWorkspaceParams 1 "prod") example_workspaces).2.(workspaces).
Proof.
  refine (proj1 (UpdateWorkspace_names (mkUpdateWorkspaceParams 1 "prod") example_workspaces
    _ _ _ (surjective_pairing _))).
  intros w w' Hw Hw' _ _ Ho _. revert Ho.
  repeat (apply elem_of_cons in Hw as [->|Hw]); try (by apply elem_of_nil in Hw);
    repeat (apply elem_of_cons in Hw' as [->|Hw']); try (by apply elem_of_nil in Hw'); done.
Defined.

Lemma DeleteGroupMember_single_witness :
  let q := New <| groupMembers := [mkGroupMember 1 10; mkGroupMember 2 10] |> in
  (DeleteGroupMember 1 q).2.(groupMembers) = [mkGroupMember 2 10].
Proof.
  intros q. rewrite (DeleteGroupMember_single 1 q); [vm_compute; reflexivity|vm_compute; lia].
Defined.

Lemma DeleteGroupMember_panics_witness :
  (DeleteGroupMember 1 (New <| groupMembers := [mkGroupMember 1 10; mkGroupMember 1 11] |>)).1
  = Panic "slice bounds out of range".
Proof.
  rewrite (DeleteGroupMember_panics 1 (New <| groupMembers := [mkGroupMember 1 10; mkGroupMember 1 11] |>)
             [] (mkGroupMember 1 10) (mkGroupMember 1 11)); (constructor || reflexivity).
Defined.

Lemma UpdateMemberRoles_roles_witness :
  NoDup (unique_sorted_roles ["b"; "a"; "b"]).
Proof.
  refine (proj1 (UpdateMemberRoles_roles (mkUpdateMemberRolesParams ["b"; "a"; "b"] 1 2)
    (New <| organizationMembers := [mkOrganizationMember 1 2 0 0 []] |>)
    (mkOrganizationMember 1 2 0 0 (unique_sorted_roles ["b"; "a"; "b"])) _ _)).
  reflexivity.
Defined.
