(* ===== verification/World.v ===== *)
(** * The world a server component runs in

    The store, the clock, the sources of random UUIDs and bytes and the publish side
    of the pubsub ([database.Pubsub]). The clock, [uuid.New], the random bytes and
    the outcome of publishing are the environment's choice; each call of one of
    them advances a counter, so that every call site gets its own reading. [scheduled] holds the notifications a goroutine will publish after
    a delay. *)

From stdpp Require Import prelude gmap strings.
From S2P Require Import Prelude Cryptorand Models Queries ModelMethods Store.

Class Environment := {
  clock : nat → time;
  new_uuid : nat → uuid;
  publish_error : nat → option error;
  random_source :: RandomSource;
}.

Record world := mkWorld {
  db : data;
  ticks : nat;
  uuids : nat;
  publishes : nat;
  published : list (string * RawMessage);
  scheduled : list (duration * string);
  lastAcquire : time;
  randoms : nat;
}.
#[global] Instance world_eta : Eta world := λ w,
  mkWorld w.(db) w.(ticks) w.(uuids) w.(publishes) w.(published) w.(scheduled)
    w.(lastAcquire) w.(randoms).

Abbreviation M := (GoM world) (only parsing).

(** A store method, run on the world's store. *)
Definition store {A} (m : StoreM A) : M A := zoom db (λ t w, w <| db := t |>) m.

(** A computation on the random source. *)
Definition random {A} (m : RandM A) : M A := zoom randoms (λ n w, w <| randoms := n |>) m.

(** A store query. *)
Definition query {A} (f : data → res A) : M A := λ w, (f w.(db), w).

Section environment.
Context `{!Environment}.

(** [time.Now()] *)
Definition time_Now : M time := λ w, (Ok (clock w.(ticks)), w <| ticks := S w.(ticks) |>).

(** [database.Now()] *)
Definition Now : M time := t ← time_Now; mret (database_Now t).

(** A store query that reads the clock, at the current tick; its readings are
    taken to be the same. *)
Definition query_now {A} (f : time → data → res A) : M A := λ w, (f (database_Now (clock w.(ticks))) w.(db), w).

(** [uuid.New()] *)
Definition uuid_New : M uuid := λ w, (Ok (new_uuid w.(uuids)), w <| uuids := S w.(uuids) |>).

(** [Pubsub.Publish]: a message that fails to be published is not delivered. *)
Definition Publish (channel : string) (message : RawMessage) : M unit := λ w,
  let w := w <| publishes := S w.(publishes) |> in
  match publish_error (pred w.(publishes)) with
  | Some e => (Err e, w)
  | None => (Ok tt, w <| published := w.(published) ++ [(channel, message)] |>)
  end.
End environment.

(** ** Frames *)

Lemma preserves_store {A T} (g : data → T) (m : StoreM A) :
  preserves g m → preserves (λ w, g w.(db)) (store m).
Proof. intros Hm w. unfold store, zoom. specialize (Hm w.(db)). by destruct (m w.(db)). Qed.
Lemma preserves_query {A T} (f : world → T) (h : data → res A) : preserves f (query h).
Proof. done. Qed.

Section frames.
Context `{!Environment} {T : Type} (g : data → T).

Lemma preserves_time_Now : preserves (λ w, g w.(db)) time_Now.
Proof. done. Qed.
Lemma preserves_Now : preserves (λ w, g w.(db)) Now.
Proof. done. Qed.
Lemma preserves_uuid_New : preserves (λ w, g w.(db)) uuid_New.
Proof. done. Qed.
Lemma preserves_random {A} (m : RandM A) : preserves (λ w, g w.(db)) (random m).
Proof. intros w. unfold random, zoom. by destruct (m w.(randoms)). Qed.
Lemma preserves_query_now {A} (h : time → data → res A) (f : world → T) : preserves f (query_now h).
Proof. done. Qed.
Lemma preserves_Publish channel message : preserves (λ w, g w.(db)) (Publish channel message).
Proof. intros w. unfold Publish. simpl. by destruct (publish_error _). Qed.
End frames.
#[export] Hint Resolve preserves_store preserves_query preserves_time_Now preserves_Now
  preserves_uuid_New preserves_random preserves_query_now preserves_Publish : frame.

(** ** Computations that never panic *)

Lemma no_panic_store {A} (m : StoreM A) : no_panic m → no_panic (store m).
Proof. intros Hm w. unfold store, zoom. specialize (Hm w.(db)). by destruct (m w.(db)). Qed.
Lemma no_panic_query {A} (f : data → res A) : (∀ q, panics (f q) = false) → no_panic (query f).
Proof. intros Hf w. apply Hf. Qed.
Lemma no_panic_Publish `{!Environment} channel message : no_panic (Publish channel message).
Proof. intros w. unfold Publish. simpl. by destruct (publish_error _). Qed.
Lemma no_panic_Now `{!Environment} : no_panic Now.
Proof. done. Qed.
Lemma no_panic_uuid_New `{!Environment} : no_panic uuid_New.
Proof. done. Qed.
Lemma panics_first_row {A} (P : A → bool) l : panics (first_row P l) = false.
Proof. unfold first_row. by destruct (find_first P l). Qed.
#[export] Hint Resolve no_panic_store no_panic_query no_panic_Publish no_panic_Now
  no_panic_uuid_New panics_first_row : no_panic.
#[export] Hint Extern 1 (∀ _, panics _ = false) => intros ? : no_panic.

(** Prove that a computation leaves a table alone. *)
Ltac frame := solve [eauto 40 with frame].
