(* ===== verification/Auditing.v ===== *)
(** * Audit logs

    [coderd/audit]: what an audit entry records of a resource, and the two ways
    one is made ([InitRequest] for a request, [BuildAudit] for a build).
    [enterprise/audit]: the auditor that computes diffs from a table of
    auditable fields, and filters entries towards its backends. *)

From stdpp Require Import prelude gmap strings.
From S2P Require Import Prelude Models Queries ModelMethods Store StoreMisc World Net.

(** ** Auditable resources *)

(** The types of the [Auditable] constraint. *)
Inductive Auditable :=
| AuditAPIKey (k : APIKey)
| AuditOrganization (o : Organization)
| AuditOrganizationMember (m : OrganizationMember)
| AuditTemplate (t : Template)
| AuditTemplateVersion (v : TemplateVersion)
| AuditUser (u : User)
| AuditWorkspace (w : Workspace)
| AuditGitSSHKey (k : GitSSHKey)
| AuditGroup (g : Group)
| AuditWorkspaceBuild (b : WorkspaceBuild).

(** [Empty]: the zero value of a resource's type. *)
Definition Empty (a : Auditable) : Auditable :=
  match a with
  | AuditAPIKey _ => AuditAPIKey APIKey_zero
  | AuditOrganization _ => AuditOrganization Organization_zero
  | AuditOrganizationMember _ => AuditOrganizationMember OrganizationMember_zero
  | AuditTemplate _ => AuditTemplate Template_zero
  | AuditTemplateVersion _ => AuditTemplateVersion TemplateVersion_zero
  | AuditUser _ => AuditUser User_zero
  | AuditWorkspace _ => AuditWorkspace Workspace_zero
  | AuditGitSSHKey _ => AuditGitSSHKey GitSSHKey_zero
  | AuditGroup _ => AuditGroup Group_zero
  | AuditWorkspaceBuild _ => AuditWorkspaceBuild WorkspaceBuild_zero
  end.

(** The name of a resource's Go type. *)
Definition type_name (a : Auditable) : string :=
  match a with
  | AuditAPIKey _ => "APIKey"
  | AuditOrganization _ => "Organization"
  | AuditOrganizationMember _ => "OrganizationMember"
  | AuditTemplate _ => "Template"
  | AuditTemplateVersion _ => "TemplateVersion"
  | AuditUser _ => "User"
  | AuditWorkspace _ => "Workspace"
  | AuditGitSSHKey _ => "GitSSHKey"
  | AuditGroup _ => "Group"
  | AuditWorkspaceBuild _ => "WorkspaceBuild"
  end.

Definition unknown_resource {A} (tgt : Auditable) : res A :=
  Panic ("unknown resource database." +:+ type_name tgt).

Definition ResourceTarget (tgt : Auditable) : res string :=
  match tgt with
  | AuditOrganization o => Ok o.(Organization_Name)
  | AuditTemplate t => Ok t.(Template_Name)
  | AuditTemplateVersion v => Ok v.(TemplateVersion_Name)
  | AuditUser u => Ok u.(User_Username)
  | AuditWorkspace w => Ok w.(Workspace_Name)
  | AuditWorkspaceBuild _ => Ok EmptyString
  | AuditGitSSHKey k => Ok k.(GitSSHKey_PublicKey)
  | AuditGroup g => Ok g.(Group_Name)
  | _ => unknown_resource tgt
  end.

Definition ResourceID (tgt : Auditable) : res uuid :=
  match tgt with
  | AuditOrganization o => Ok o.(Organization_ID)
  | AuditTemplate t => Ok t.(Template_ID)
  | AuditTemplateVersion v => Ok v.(TemplateVersion_ID)
  | AuditUser u => Ok u.(User_ID)
  | AuditWorkspace w => Ok w.(Workspace_ID)
  | AuditWorkspaceBuild b => Ok b.(WorkspaceBuild_ID)
  | AuditGitSSHKey k => Ok k.(GitSSHKey_UserID)
  | AuditGroup g => Ok g.(Group_ID)
  | _ => unknown_resource tgt
  end.

Definition audit_ResourceType (tgt : Auditable) : res ResourceType :=
  match tgt with
  | AuditOrganization _ => Ok ResourceTypeOrganization
  | AuditTemplate _ => Ok ResourceTypeTemplate
  | AuditTemplateVersion _ => Ok ResourceTypeTemplateVersion
  | AuditUser _ => Ok ResourceTypeUser
  | AuditWorkspace _ => Ok ResourceTypeWorkspace
  | AuditWorkspaceBuild _ => Ok ResourceTypeWorkspaceBuild
  | AuditGitSSHKey _ => Ok ResourceTypeGitSshKey
  | AuditGroup _ => Ok ResourceTypeGroup
  | _ => unknown_resource tgt
  end.

Definition either {R} (old new : Auditable) (fn : Auditable → res R) : res R :=
  newID ← ResourceID new;
  if newID != uuid_Nil then fn new
  else oldID ← ResourceID old;
       if oldID != uuid_Nil then fn old
       else Panic "both old and new are nil".

Definition parseIP (ipStr : string) : Inet :=
  match ParseIP ipStr with
  | Some ip => mkInet ip full_mask true
  | None => Inet_zero
  end.

(** ** Field values, as reflection sees them *)

(** A field's value; a string type is its text, and a slice of strings may be nil. A
    slice of bytes without any is nil: the code stores hashes and states of builds, and
    leaves the field out otherwise. *)
Inductive value :=
| VString (s : string)
| VBool (b : bool)
| VInt (n : Z)
| VBytes (l : bytes)
| VStrings (l : option (list string))
| VTime (t : time)
| VUUID (u : uuid)
| VNullUUID (u : nullable uuid)
| VNullString (s : nullable string)
| VNullInt64 (n : nullable Z)
| VACL (acl : TemplateACL)
| VInet (ip : Inet)
| VIntPtr (p : option Z).
#[global] Instance Inet_eq_dec : EqDecision Inet.
Proof. solve_decision. Defined.
#[global] Instance value_eq_dec : EqDecision value.
Proof. solve_decision. Defined.

#[global] Instance OrganizationMember_eq_dec : EqDecision OrganizationMember.
Proof. solve_decision. Defined.
#[global] Instance User_eq_dec : EqDecision User.
Proof. solve_decision. Defined.

(** The roles of a row: nil in the zero value, which stands for a row that was not there
    before or is not there any more; never nil in a stored row, not even without any
    roles, since [CreateUser] and the updates of the roles make the slice they store. *)
Definition row_roles `{EqDecision R} (zero row : R) (roles : list string) : option (list string) :=
  if row == zero then None else Some roles.

(** The exported fields of each type, by their JSON tag. *)

Definition APIKey_fields (a : APIKey) : list (string * value) :=
  [("id", VString a.(APIKey_ID));
   ("hashed_secret", VBytes a.(APIKey_HashedSecret));
   ("user_id", VUUID a.(APIKey_UserID));
   ("last_used", VTime a.(APIKey_LastUsed));
   ("expires_at", VTime a.(APIKey_ExpiresAt));
   ("created_at", VTime a.(APIKey_CreatedAt));
   ("updated_at", VTime a.(APIKey_UpdatedAt));
   ("login_type", VString (LoginType_string a.(APIKey_LoginType)));
   ("lifetime_seconds", VInt a.(APIKey_LifetimeSeconds));
   ("ip_address", VInet a.(APIKey_IPAddress));
   ("scope", VString (APIKeyScope_string a.(APIKey_Scope)))].

Definition Organization_fields (o : Organization) : list (string * value) :=
  [("id", VUUID o.(Organization_ID));
   ("name", VString o.(Organization_Name));
   ("description", VString o.(Organization_Description));
   ("created_at", VTime o.(Organization_CreatedAt));
   ("updated_at", VTime o.(Organization_UpdatedAt))].

Definition OrganizationMember_fields (o : OrganizationMember) : list (string * value) :=
  [("user_id", VUUID o.(OrganizationMember_UserID));
   ("organization_id", VUUID o.(OrganizationMember_OrganizationID));
   ("created_at", VTime o.(OrganizationMember_CreatedAt));
   ("updated_at", VTime o.(OrganizationMember_UpdatedAt));
   ("roles", VStrings (row_roles OrganizationMember_zero o o.(OrganizationMember_Roles)))].

Definition Template_fields (t : Template) : list (string * value) :=
  [("id", VUUID t.(Template_ID));
   ("created_at", VTime t.(Template_CreatedAt));
   ("updated_at", VTime t.(Template_UpdatedAt));
   ("organization_id", VUUID t.(Template_OrganizationID));
   ("deleted", VBool t.(Template_Deleted));
   ("name", VString t.(Template_Name));
   ("provisioner", VString (ProvisionerType_string t.(Template_Provisioner)));
   ("active_version_id", VUUID t.(Template_ActiveVersionID));
   ("description", VString t.(Template_Description));
   ("default_ttl", VInt t.(Template_DefaultTTL));
   ("created_by", VUUID t.(Template_CreatedBy));
   ("icon", VString t.(Template_Icon));
   ("user_acl", VACL t.(Template_UserACL));
   ("group_acl", VACL t.(Template_GroupACL));
   ("display_name", VString t.(Template_DisplayName));
   ("allow_user_cancel_workspace_jobs", VBool t.(Template_AllowUserCancelWorkspaceJobs))].

Definition TemplateVersion_fields (t : TemplateVersion) : list (string * value) :=
  [("id", VUUID t.(TemplateVersion_ID));
   ("template_id", VNullUUID t.(TemplateVersion_TemplateID));
   ("organization_id", VUUID t.(TemplateVersion_OrganizationID));
   ("created_at", VTime t.(TemplateVersion_CreatedAt));
   ("updated_at", VTime t.(TemplateVersion_UpdatedAt));
   ("name", VString t.(TemplateVersion_Name));
   ("readme", VString t.(TemplateVersion_Readme));
   ("job_id", VUUID t.(TemplateVersion_JobID));
   ("created_by", VUUID t.(TemplateVersion_CreatedBy))].

Definition User_fields (u : User) : list (string * value) :=
  [("id", VUUID u.(User_ID));
   ("email", VString u.(User_Email));
   ("username", VString u.(User_Username));
   ("hashed_password", VBytes u.(User_HashedPassword));
   ("created_at", VTime u.(User_CreatedAt));
   ("updated_at", VTime u.(User_UpdatedAt));
   ("status", VString (UserStatus_string u.(User_Status)));
   ("rbac_roles", VStrings (row_roles User_zero u u.(User_RBACRoles)));
   ("login_type", VString (LoginType_string u.(User_LoginType)));
   ("avatar_url", VNullString u.(User_AvatarURL));
   ("deleted", VBool u.(User_Deleted));
   ("last_seen_at", VTime u.(User_LastSeenAt))].

Definition Workspace_fields (w : Workspace) : list (string * value) :=
  [("id", VUUID w.(Workspace_ID));
   ("created_at", VTime w.(Workspace_CreatedAt));
   ("updated_at", VTime w.(Workspace_UpdatedAt));
   ("owner_id", VUUID w.(Workspace_OwnerID));
   ("organization_id", VUUID w.(Workspace_OrganizationID));
   ("template_id", VUUID w.(Workspace_TemplateID));
   ("deleted", VBool w.(Workspace_Deleted));
   ("name", VString w.(Workspace_Name));
   ("autostart_schedule", VNullString w.(Workspace_AutostartSchedule));
   ("ttl", VNullInt64 w.(Workspace_Ttl));
   ("last_used_at", VTime w.(Workspace_LastUsedAt))].

Definition GitSSHKey_fields (g : GitSSHKey) : list (string * value) :=
  [("user_id", VUUID g.(GitSSHKey_UserID));
   ("created_at", VTime g.(GitSSHKey_CreatedAt));
   ("updated_at", VTime g.(GitSSHKey_UpdatedAt));
   ("private_key", VString g.(GitSSHKey_PrivateKey));
   ("public_key", VString g.(GitSSHKey_PublicKey))].

Definition Group_fields (g : Group) : list (string * value) :=
  [("id", VUUID g.(Group_ID));
   ("name", VString g.(Group_Name));
   ("organization_id", VUUID g.(Group_OrganizationID));
   ("avatar_url", VString g.(Group_AvatarURL));
   ("quota_allowance", VInt g.(Group_QuotaAllowance))].

Definition WorkspaceBuild_fields (w : WorkspaceBuild) : list (string * value) :=
  [("id", VUUID w.(WorkspaceBuild_ID));
   ("created_at", VTime w.(WorkspaceBuild_CreatedAt));
   ("updated_at", VTime w.(WorkspaceBuild_UpdatedAt));
   ("workspace_id", VUUID w.(WorkspaceBuild_WorkspaceID));
   ("template_version_id", VUUID w.(WorkspaceBuild_TemplateVersionID));
   ("build_number", VInt w.(WorkspaceBuild_BuildNumber));
   ("transition", VString (WorkspaceTransition_string w.(WorkspaceBuild_Transition)));
   ("initiator_id", VUUID w.(WorkspaceBuild_InitiatorID));
   ("provisioner_state", VBytes w.(WorkspaceBuild_ProvisionerState));
   ("job_id", VUUID w.(WorkspaceBuild_JobID));
   ("deadline", VTime w.(WorkspaceBuild_Deadline));
   ("reason", VString (BuildReason_string w.(WorkspaceBuild_Reason)));
   ("daily_cost", VInt w.(WorkspaceBuild_DailyCost))].

Definition struct_fields (a : Auditable) : list (string * value) :=
  match a with
  | AuditAPIKey k => APIKey_fields k
  | AuditOrganization o => Organization_fields o
  | AuditOrganizationMember m => OrganizationMember_fields m
  | AuditTemplate t => Template_fields t
  | AuditTemplateVersion v => TemplateVersion_fields v
  | AuditUser u => User_fields u
  | AuditWorkspace w => Workspace_fields w
  | AuditGitSSHKey k => GitSSHKey_fields k
  | AuditGroup g => Group_fields g
  | AuditWorkspaceBuild b => WorkspaceBuild_fields b
  end.

(** [OldNew] and [Map]. *)
Record OldNew := mkOldNew { Old : value; New' : value; Secret : bool }.
Abbreviation audit_Map := (gmap string OldNew) (only parsing).

(** ** The auditor interface *)

Class Auditor := {
  Export : AuditLog → GoM world unit;
  Diff : Auditable → Auditable → res audit_Map;
}.

(** What the callers rely on: exporting an entry adds to the audit logs of the
    store and does nothing else to the world, and never panics. *)
Class AuditorLaws `{!Auditor} := {
  Export_effect : ∀ alog w, ∃ logs,
    (Export alog w).2 = w <| db := w.(db) <| auditLogs := logs |> |>;
  Export_no_panic : ∀ alog, no_panic (Export alog);
}.

(** [nop], the auditor of the free edition. *)
Definition nop : Auditor := {| Export _ := mret tt; Diff _ _ := Ok ∅ |}.

(** ** Diffs *)

Inductive audit_Action := ActionIgnore | ActionTrack | ActionSecret.
#[global] Instance audit_Action_eq_dec : EqDecision audit_Action.
Proof. solve_decision. Defined.
Abbreviation Table := (gmap string (gmap string audit_Action)) (only parsing).

(** The table, by type name; all the types are of one package. *)
Definition AuditableResources : Table := list_to_map (prod_map id list_to_map <$>
  [("GitSSHKey", [("user_id", ActionTrack);
      ("created_at", ActionIgnore);
      ("updated_at", ActionIgnore);
      ("private_key", ActionSecret);
      ("public_key", ActionTrack)]);
   ("OrganizationMember", [("user_id", ActionTrack);
      ("organization_id", ActionTrack);
      ("created_at", ActionIgnore);
      ("updated_at", ActionIgnore);
      ("roles", ActionTrack)]);
   ("Organization", [("id", ActionTrack);
      ("name", ActionTrack);
      ("description", ActionTrack);
      ("created_at", ActionIgnore);
      ("updated_at", ActionIgnore)]);
   ("Template", [("id", ActionTrack);
      ("created_at", ActionIgnore);
      ("updated_at", ActionIgnore);
      ("organization_id", ActionIgnore);
      ("deleted", ActionIgnore);
      ("name", ActionTrack);
      ("display_name", ActionTrack);
      ("provisioner", ActionTrack);
      ("active_version_id", ActionTrack);
      ("description", ActionTrack);
      ("icon", ActionTrack);
      ("default_ttl", ActionTrack);
      ("min_autostart_interval", ActionTrack);
      ("created_by", ActionTrack);
      ("is_private", ActionTrack);
      ("group_acl", ActionTrack);
      ("user_acl", ActionTrack);
      ("allow_user_cancel_workspace_jobs", ActionTrack)]);
   ("TemplateVersion", [("id", ActionTrack);
      ("template_id", ActionTrack);
      ("organization_id", ActionIgnore);
      ("created_at", ActionIgnore);
      ("updated_at", ActionIgnore);
      ("name", ActionTrack);
      ("readme", ActionTrack);
      ("job_id", ActionIgnore);
      ("created_by", ActionTrack)]);
   ("User", [("id", ActionTrack);
      ("email", ActionTrack);
      ("username", ActionTrack);
      ("hashed_password", ActionSecret);
      ("created_at", ActionIgnore);
      ("updated_at", ActionIgnore);
      ("status", ActionTrack);
      ("rbac_roles", ActionTrack);
      ("login_type", ActionIgnore);
      ("avatar_url", ActionIgnore);
      ("last_seen_at", ActionIgnore);
      ("deleted", ActionTrack)]);
   ("Workspace", [("id", ActionTrack);
      ("created_at", ActionIgnore);
      ("updated_at", ActionIgnore);
      ("owner_id", ActionTrack);
      ("organization_id", ActionIgnore);
      ("template_id", ActionTrack);
      ("deleted", ActionIgnore);
      ("name", ActionTrack);
      ("autostart_schedule", ActionTrack);
      ("ttl", ActionTrack);
      ("last_used_at", ActionIgnore)]);
   ("Group", [("id", ActionTrack);
      ("name", ActionTrack);
      ("organization_id", ActionIgnore);
      ("avatar_url", ActionTrack);
      ("quota_allowance", ActionTrack)]);
   ("WorkspaceBuild", [("id", ActionIgnore);
      ("created_at", ActionIgnore);
      ("updated_at", ActionIgnore);
      ("workspace_id", ActionIgnore);
      ("template_version_id", ActionIgnore);
      ("build_number", ActionIgnore);
      ("transition", ActionIgnore);
      ("initiator_id", ActionIgnore);
      ("provisioner_state", ActionIgnore);
      ("job_id", ActionIgnore);
      ("deadline", ActionIgnore);
      ("reason", ActionIgnore);
      ("daily_cost", ActionIgnore)])] : list (string * gmap string audit_Action)).

Section diff.
Context `{!UuidText}.

(** [uuid.NullUUID.MarshalText] of the UUID package. *)
Context (MarshalText : nullable uuid → string).

(** [fmt.Sprintf("%+v", acl)]: the keys are sorted. *)
Definition acl_string (acl : TemplateACL) : string :=
  "map[" +:+ Join ((λ kv, kv.1 +:+ ":[" +:+ Join kv.2 " " +:+ "]")
                     <$> sort_by (λ a b, string_lt a.1 b.1) (map_to_list acl)) " " +:+ "]".

(** One side of [convertDiffType]; the two sides have the same type. *)
Definition convert_value (v : value) : value :=
  match v with
  | VUUID u => VString (if u == uuid_Nil then EmptyString else uuid_String u)
  | VNullUUID u => VString (MarshalText u)
  | VNullString s => VString (if Valid s then null_val s else "null")
  | VNullInt64 n => VIntPtr (if Valid n then Some (null_val n) else None)
  | VACL acl => VString (acl_string acl)
  | v => v
  end.

(** [derefPointer]: a nil pointer is the zero value of what it points to. *)
Definition derefPointer (v : value) : value :=
  match v with VIntPtr p => VInt (default 0%Z p) | v => v end.

(** What is compared for a field. *)
Definition diff_value (v : value) : value := derefPointer (convert_value v).

(** [reflect.Zero(rightF.Type())] *)
Definition zero_value (v : value) : value :=
  match v with
  | VString _ => VString EmptyString
  | VBool _ => VBool false
  | VInt _ => VInt 0
  | VBytes _ => VBytes []
  | VStrings _ => VStrings None
  | VTime _ => VTime time_zero
  | VUUID _ => VUUID uuid_Nil
  | VNullUUID _ => VNullUUID (null_of uuid_Nil)
  | VNullString _ => VNullString (null_of EmptyString)
  | VNullInt64 _ => VNullInt64 (null_of 0%Z)
  | VACL _ => VACL ∅
  | VInet _ => VInet Inet_zero
  | VIntPtr _ => VIntPtr None
  end.

(** The entry of a changed field. *)
Definition diff_entry (atype : audit_Action) (l r : value) : OldNew :=
  if atype == ActionSecret then mkOldNew (zero_value r) (zero_value r) true
  else mkOldNew l r false.

(** The loop over the fields of the two values. *)
Fixpoint diff_fields (diffKey : gmap string audit_Action) (lefts rights : list (string * value))
    (baseDiff : audit_Map) : res audit_Map :=
  match lefts, rights with
  | (_, l) :: lefts, (diffName, r) :: rights =>
      match diffKey !! diffName with
      | None => Panic ("dev error: field " +:+ quote diffName +:+ " lacks audit information")
      | Some atype =>
          let l := diff_value l in
          let r := diff_value r in
          diff_fields diffKey lefts rights
            (if (atype == ActionIgnore) || (l == r) then baseDiff
             else <[diffName := diff_entry atype l r]> baseDiff)
      end
  | _, _ => Ok baseDiff
  end.

Definition diffValues (old new : Auditable) (table : Table) : res audit_Map :=
  match table !! type_name new with
  | None => Panic ("dev error: type " +:+ quote (type_name new)
                   +:+ " attempted audit but not auditable")
  | Some diffKey => diff_fields diffKey (struct_fields old) (struct_fields new) ∅
  end.

(** ** The enterprise auditor *)

Definition FilterDecisionDrop : Z := 0.
Definition FilterDecisionStore : Z := Z.shiftl 1 1.
Definition FilterDecisionExport : Z := Z.shiftl 1 2.

Record Backend := mkBackend {
  Decision : Z;
  Backend_Export : AuditLog → GoM world unit;
}.

Definition DefaultFilter (_ : AuditLog) : res Z :=
  Ok (Z.lor FilterDecisionStore FilterDecisionExport).

(** [database.InsertAuditLogParams(alog)] is a conversion between types of the
    same fields. *)
Definition NewPostgres (internal : bool) : Backend := {|
  Decision := if internal then FilterDecisionStore else FilterDecisionExport;
  Backend_Export alog := void (wrap "insert audit log" (store (InsertAuditLog alog)));
|}.

(** The backend that writes the entry to the server's log. *)
Definition NewSlog : Backend := {|
  Decision := FilterDecisionExport;
  Backend_Export _ := mret tt;
|}.

Definition auditor_Export (check : AuditLog → res Z) (backends : list Backend) (alog : AuditLog) :
    GoM world unit :=
  decision ← wrap "filter check" (lift_res (check alog));
  for_each backends (λ backend,
    if Z.land decision backend.(Decision) != backend.(Decision) then mret tt
    else wrap "export audit log to backend" (backend.(Backend_Export) alog)).

Definition NewAuditor (check : AuditLog → res Z) (backends : list Backend) : Auditor := {|
  Export := auditor_Export check backends;
  Diff old new := diffValues old new AuditableResources;
|}.
End diff.

(** ** Entries *)

(** The JSON text of a diff. Bytes, times and addresses are never in one: no
    tracked field has such a type, and a secret is replaced by its zero value,
    which is null for bytes. *)
Definition value_json (v : value) : option json :=
  match v with
  | VString s => Some (JString s)
  | VBool b => Some (JBool b)
  | VInt n => Some (JNumber n)
  | VStrings None => Some JNull
  | VStrings (Some l) => Some (JArray (JString <$> l))
  | VBytes [] => Some JNull
  | _ => None
  end.

Definition entry_json (kv : string * OldNew) : option (string * json) :=
  old ← value_json kv.2.(Old);
  new ← value_json kv.2.(New');
  Some (kv.1, JObject [("Old", old); ("New", new); ("Secret", JBool kv.2.(Secret))]).

(** [json.Marshal]; a map is written with its keys sorted. *)
Definition marshal_diff (m : audit_Map) : option RawMessage :=
  RawValue ∘ JObject <$> mapM entry_json (sort_by (λ a b, string_lt a.1 b.1) (map_to_list m)).

Definition empty_object : RawMessage := RawValue (JObject []).

(** A resource of an audit request that was never set is the zero value. *)
Record audit_Request := mkAuditRequest {
  Request_Old : Auditable;
  Request_New : Auditable;
}.
#[global] Instance audit_Request_eta : Eta audit_Request := λ a,
  mkAuditRequest a.(Request_Old) a.(Request_New).

Section entries.
Context `{!Environment, !Auditor}.

(** The audit log of a build; it has no diff and no user details. *)
Definition BuildAudit (UserID JobID : uuid) (Status : Z) (Action : AuditAction)
    (AdditionalFields : RawMessage) (old new : Auditable) : GoM world unit :=
  id ← uuid_New;
  now ← Now;
  resourceType ← lift_res (either old new audit_ResourceType);
  resourceID ← lift_res (either old new ResourceID);
  resourceTarget ← lift_res (either old new ResourceTarget);
  void (attempt (Export {|
    AuditLog_ID := id;
    AuditLog_Time := now;
    AuditLog_UserID := UserID;
    AuditLog_OrganizationID := uuid_Nil;
    AuditLog_Ip := parseIP "";
    AuditLog_UserAgent := null_of EmptyString;
    AuditLog_ResourceType := resourceType;
    AuditLog_ResourceID := resourceID;
    AuditLog_ResourceTarget := resourceTarget;
    AuditLog_Action := Action;
    AuditLog_Diff := empty_object;
    AuditLog_StatusCode := int32_wrap Status;
    AuditLog_AdditionalFields := match AdditionalFields with RawNil => empty_object | f => f end;
    AuditLog_RequestID := JobID;
    AuditLog_ResourceIcon := EmptyString |})).
End entries.

(** ** The interface is implemented *)

#[global] Instance nop_laws : @AuditorLaws nop.
Proof.
  split; [|done]. intros alog w. exists w.(db).(auditLogs). by destruct w as [[] ? ? ? ? ? ?].
Qed.

(** A computation that may only change the audit logs. *)
Definition only_audits {A} (m : GoM world A) : Prop :=
  ∀ w, ∃ logs, (m w).2 = w <| db := w.(db) <| auditLogs := logs |> |>.

Lemma only_audits_ret {A} (a : A) : only_audits (mret a).
Proof. intros w. exists w.(db).(auditLogs). by destruct w as [[] ? ? ? ? ? ?]. Qed.

Lemma only_audits_bind {A B} (m : GoM world A) (k : A → GoM world B) :
  only_audits m → (∀ a, only_audits (k a)) → only_audits (m ≫= k).
Proof.
  intros Hm Hk w. unfold mbind, gom_bind. specialize (Hm w) as [logs Hlogs].
  destruct (m w) as [[a|e|p] w1]; simpl in Hlogs; subst w1; [|by exists logs..].
  by destruct (Hk a (w <| db := w.(db) <| auditLogs := logs |> |>)) as [logs' ->]; exists logs'.
Qed.

Lemma only_audits_wrap {A} msg (m : GoM world A) : only_audits m → only_audits (wrap msg m).
Proof. intros Hm w. unfold wrap. destruct (Hm w) as [logs Hlogs]. exists logs. by destruct (m w) as [[]]. Qed.

Lemma only_audits_lift_res {A} (r : res A) : only_audits (lift_res r).
Proof. intros w. exists w.(db).(auditLogs). by destruct w as [[] ? ? ? ? ? ?]. Qed.

Lemma only_audits_for_each {A} (l : list A) body :
  (∀ x, x ∈ l → only_audits (body x)) → only_audits (for_each l body).
Proof.
  induction l as [|x l IH]; intros Hbody; simpl; [apply only_audits_ret|].
  apply only_audits_bind; [apply Hbody; left|]. intros _. apply IH. intros y Hy.
  apply Hbody. by right.
Qed.

Lemma no_panic_for_each {S A} (l : list A) (body : A → GoM S unit) :
  (∀ x, x ∈ l → no_panic (body x)) → no_panic (for_each l body).
Proof.
  induction l as [|x l IH]; intros Hbody; simpl; [apply no_panic_ret|].
  apply no_panic_bind; [apply Hbody; left|]. intros _. apply IH. intros y Hy.
  apply Hbody. by right.
Qed.

(** The backends of the program keep to the audit logs. *)
Definition backend_ok (b : Backend) : Prop :=
  ∀ alog, only_audits (b.(Backend_Export) alog) ∧ no_panic (b.(Backend_Export) alog).

Lemma NewPostgres_ok internal : backend_ok (NewPostgres internal).
Proof.
  intros alog. split; [|done]. intros w. eexists. reflexivity.
Qed.

Lemma NewSlog_ok : backend_ok NewSlog.
Proof. intros alog. split; [apply only_audits_ret|done]. Qed.

(** The enterprise auditor keeps the promise when its filter does not panic and
    its backends keep to the audit logs. *)
Lemma NewAuditor_laws `{!UuidText} MarshalText check backends :
  (∀ alog, panics (check alog) = false) → Forall backend_ok backends →
  @AuditorLaws (NewAuditor MarshalText check backends).
Proof.
  intros Hcheck Hbackends. rewrite Forall_forall in Hbackends.
  split; intros alog; simpl; unfold auditor_Export.
  - apply only_audits_bind; [apply only_audits_wrap, only_audits_lift_res|]. intros decision.
    apply only_audits_for_each. intros b Hb. destruct (negb _); [apply only_audits_ret|].
    apply only_audits_wrap. by apply Hbackends.
  - apply no_panic_bind; [apply no_panic_wrap, no_panic_lift_res, Hcheck|]. intros decision.
    apply no_panic_for_each. intros b Hb. destruct (negb _); [apply no_panic_ret|].
    apply no_panic_wrap. by apply Hbackends.
Qed.

(** ** Frames of an audit entry *)

Section frames.
Context `{!Environment, !Auditor, !AuditorLaws} {T : Type} (g : data → T).
Hypothesis g_audit : ∀ h q, g (set_field auditLogs h q) = g q.

Lemma preserves_Export alog : preserves (λ w, g w.(db)) (Export alog).
Proof using All. intros w. destruct (Export_effect alog w) as [logs ->]. apply g_audit. Qed.

Lemma preserves_BuildAudit userID jobID status action fields old new :
  preserves (λ w, g w.(db)) (BuildAudit userID jobID status action fields old new).
Proof using All. pose proof preserves_Export. unfold BuildAudit. frame. Qed.
End frames.
#[export] Hint Extern 1 (preserves _ (Export _)) => apply preserves_Export; reflexivity : frame.
#[export] Hint Extern 1 (preserves _ (BuildAudit _ _ _ _ _ _ _)) =>
  apply preserves_BuildAudit; reflexivity : frame.
