(* ===== verification/AuditingProps.v ===== *)
(** * Audit logs: properties

    A diff lists exactly the tracked and secret fields that changed, exists for
    every auditable type but API keys, has a JSON text, and does not depend on
    the contents of secret fields. *)

From stdpp Require Import prelude gmap strings sorting.
From S2P Require Import Prelude Models World Auditing.

Section diffs.
Context `{!UuidText} (MarshalText : nullable uuid → string).
Abbreviation diff_value := (diff_value MarshalText).
Abbreviation diff_fields := (diff_fields MarshalText).
Abbreviation diffValues := (diffValues MarshalText).

(** A field that must be listed, with its entry. *)
Definition changed_field (diffKey : gmap string audit_Action) (old new : list (string * value))
    (name : string) (e : OldNew) : Prop :=
  ∃ i l r atype,
    old !! i = Some (name, l) ∧ new !! i = Some (name, r)
    ∧ diffKey !! name = Some atype ∧ atype ≠ ActionIgnore
    ∧ diff_value l ≠ diff_value r
    ∧ e = diff_entry atype (diff_value l) (diff_value r).

Lemma changed_field_cons diffKey n l r old new name e :
  changed_field diffKey ((n, l) :: old) ((n, r) :: new) name e ↔
  (n = name ∧ ∃ atype, diffKey !! n = Some atype ∧ atype ≠ ActionIgnore
     ∧ diff_value l ≠ diff_value r ∧ e = diff_entry atype (diff_value l) (diff_value r))
  ∨ changed_field diffKey old new name e.
Proof.
  split.
  - intros ([|i] & l' & r' & a & Hl & Hr & Hrest).
    + simpl in *. simplify_eq. left. split; [done|]. by exists a.
    + right. by exists i, l', r', a.
  - intros [(<- & a & Hrest)|(i & l' & r' & a & Hrest)].
    + exists 0, l, r, a. done.
    + by exists (S i), l', r', a.
Qed.

Lemma changed_field_name diffKey old new name e :
  changed_field diffKey old new name e → name ∈ new.*1.
Proof.
  intros (i & l & r & a & _ & Hr & _). apply list_elem_of_fmap. exists (name, r).
  split; [done|]. by eapply list_elem_of_lookup_2.
Qed.

(** The loop lists the changed fields on top of what it starts with, and fails
    only on a field the table does not know. *)
Lemma diff_fields_spec diffKey old new base :
  old.*1 = new.*1 → NoDup new.*1 → Forall (λ n, is_Some (diffKey !! n)) new.*1 →
  (∀ n, n ∈ new.*1 → base !! n = None) →
  ∃ m, diff_fields diffKey old new base = Ok m
    ∧ ∀ name e, m !! name = Some e ↔
        base !! name = Some e ∨ changed_field diffKey old new name e.
Proof.
  revert old base. induction new as [|[n r] new IH]; intros old base Hnames Hnd Hkeys Hbase.
  { destruct old; [|done]. exists base. split; [done|]. intros name e.
    split; [by left|]. intros [?|(i & ? & ? & ? & ? & ? & _)]; [done|]. by rewrite lookup_nil in *. }
  destruct old as [|[n' l] old]; [done|]. simpl in Hnames. injection Hnames as -> Hnames.
  simpl in Hnd, Hkeys, Hbase. apply NoDup_cons in Hnd as [Hn Hnd].
  apply Forall_cons in Hkeys as [[a Ha] Hkeys]. simpl. rewrite Ha.
  set (base' := if _ || _ then base else _).
  destruct (IH old base' Hnames Hnd Hkeys) as (m & -> & Hm).
  { intros k Hk. unfold base'. destruct (_ || _); [apply Hbase; by right|].
    rewrite lookup_insert_ne by (by intros ->). apply Hbase. by right. }
  exists m. split; [done|]. intros name e. rewrite Hm, changed_field_cons. unfold base'.
  assert (base !! n = None) as Hn0 by (apply Hbase; by left).
  destruct (decide (a = ActionIgnore ∨ diff_value l = diff_value r)) as [Hskip|Hkeep].
  - rewrite (proj2 (orb_true_iff _ _)) by (rewrite !bool_decide_eq_true; exact Hskip).
    split; [tauto|]. intros [?|[(<- & a' & Ha' & Hi & Hd & _)|?]]; [by left| |by right].
    exfalso. destruct Hskip as [->|?]; [congruence|done].
  - rewrite (proj2 (orb_false_iff _ _)) by (rewrite !bool_decide_eq_false; tauto).
    destruct (decide (name = n)) as [->|Hne].
    + rewrite lookup_insert_eq, Hn0. split.
      * intros [[= <-]|Hc]; [|by right; right]. right. left. split; [done|]. exists a. tauto.
      * intros [?|[(_ & a' & Ha' & _ & _ & ->)|?]]; [done| |by right]. left. congruence.
    + rewrite lookup_insert_ne by done. split; [tauto|].
      intros [?|[(-> & _)|?]]; [by left|done|by right].
Qed.

Definition same_type (a b : Auditable) : Prop := type_name a = type_name b.
Definition is_api_key (a : Auditable) : bool := match a with AuditAPIKey _ => true | _ => false end.

(** The table knows every field of every type but [APIKey]. *)
Lemma struct_fields_names a b : same_type a b → (struct_fields a).*1 = (struct_fields b).*1.
Proof. destruct a, b; done. Qed.

Lemma same_type_api_key a b : same_type a b → is_api_key a = is_api_key b.
Proof. unfold same_type. intros Hty. destruct a, b; reflexivity || discriminate Hty. Qed.

Definition is_some {A} (o : option A) : bool := match o with Some _ => true | None => false end.

(** What the table and the diffs need of a type's fields, as a test: the table
    knows them all, and what a diff may show of them has a JSON text. *)
Definition field_ok (diffKey : gmap string audit_Action) (nv : string * value) : bool :=
  match diffKey !! nv.1 with
  | None => false
  | Some ActionIgnore => true
  | Some ActionTrack => is_some (value_json (diff_value nv.2))
  | Some ActionSecret => is_some (value_json (zero_value (diff_value nv.2)))
  end.
Definition type_ok (a : Auditable) : bool :=
  match AuditableResources !! type_name a with
  | None => false
  | Some diffKey => bool_decide (NoDup (struct_fields a).*1)
                    && forallb (field_ok diffKey) (struct_fields a)
  end.

Lemma types_ok a : is_api_key a = false → type_ok a = true.
Proof.
  intros Ha. destruct a; [done|..]; unfold type_ok, struct_fields, OrganizationMember_fields, User_fields;
    repeat match goal with |- context [row_roles ?zero ?row ?roles] => destruct (row_roles zero row roles) end;
    vm_compute; reflexivity.
Qed.

Lemma table_complete a :
  is_api_key a = false →
  ∃ diffKey, AuditableResources !! type_name a = Some diffKey
    ∧ NoDup (struct_fields a).*1 ∧ Forall (λ nv, field_ok diffKey nv = true) (struct_fields a).
Proof.
  intros Ha%types_ok. unfold type_ok in Ha.
  destruct (AuditableResources !! type_name a) as [diffKey|]; [|done]. exists diffKey.
  apply andb_true_iff in Ha as [Hnd%bool_decide_eq_true Hall]. split; [done|]. split; [done|].
  apply Forall_forall. intros nv Hnv. eapply forallb_forall in Hall; [exact Hall|].
  by apply list_elem_of_In.
Qed.

Lemma field_ok_known diffKey l :
  Forall (λ nv, field_ok diffKey nv = true) l → Forall (λ n, is_Some (diffKey !! n)) l.*1.
Proof.
  rewrite Forall_fmap. intros Hl. eapply Forall_impl; [exact Hl|]. intros [n v] Hok.
  unfold field_ok in Hok. simpl in *. by destruct (diffKey !! n).
Qed.

(** What is listed has a JSON text. *)
Lemma field_ok_lookup diffKey l i n v :
  Forall (λ nv, field_ok diffKey nv = true) l → l !! i = Some (n, v) → field_ok diffKey (n, v) = true.
Proof. intros Hall Hi. rewrite Forall_lookup in Hall. by apply (Hall i). Qed.

Lemma entry_json_total diffKey old new name e :
  Forall (λ nv, field_ok diffKey nv = true) old →
  Forall (λ nv, field_ok diffKey nv = true) new →
  changed_field diffKey old new name e → is_Some (entry_json (name, e)).
Proof.
  intros Hold Hnew (i & l & r & atype & Hl & Hr & Ha & Hat & _ & ->).
  pose proof (field_ok_lookup _ _ _ _ _ Hold Hl) as Hl'.
  pose proof (field_ok_lookup _ _ _ _ _ Hnew Hr) as Hr'.
  unfold field_ok in Hl', Hr'. simpl in Hl', Hr'. rewrite Ha in Hl', Hr'.
  unfold entry_json, diff_entry.
  destruct atype; [done|..]; simpl.
  - destruct (value_json (diff_value l)); [|done]. destruct (value_json (diff_value r)); [|done].
    by eexists.
  - destruct (value_json (zero_value (diff_value r))); [|done]. by eexists.
Qed.

Lemma marshal_diff_total (m : gmap string OldNew) :
  (∀ name e, m !! name = Some e → is_Some (entry_json (name, e))) → is_Some (marshal_diff m).
Proof.
  intros Hall. unfold marshal_diff. apply fmap_is_Some, mapM_is_Some. apply Forall_forall.
  intros [name e] Hin. unfold sort_by in Hin. rewrite merge_sort_Permutation in Hin.
  apply elem_of_map_to_list in Hin. by apply Hall.
Qed.

(** For any two values of an auditable type other than an API key, the diff
    exists and lists exactly the fields the table does not ignore whose values
    changed: a tracked field with both values, a secret one with zero values;
    and it has a JSON text. *)
Theorem diffValues_spec old new :
  same_type old new → is_api_key new = false →
  ∃ diffKey m, AuditableResources !! type_name new = Some diffKey
    ∧ diffValues old new AuditableResources = Ok m
    ∧ (∀ name e, m !! name = Some e ↔
        changed_field diffKey (struct_fields old) (struct_fields new) name e)
    ∧ is_Some (marshal_diff m).
Proof.
  intros Hty Hnew. destruct (table_complete new Hnew) as (diffKey & Hkey & Hnd & Hkeys).
  destruct (diff_fields_spec diffKey (struct_fields old) (struct_fields new) ∅) as (m & Hm & Hspec);
    [by apply struct_fields_names|done|by apply field_ok_known|by intros; apply lookup_empty|].
  exists diffKey, m. unfold Auditing.diffValues. rewrite Hkey. split; [done|]. split; [done|].
  assert (∀ name e, m !! name = Some e ↔
            changed_field diffKey (struct_fields old) (struct_fields new) name e) as Hm'.
  { intros name e. rewrite Hspec, lookup_empty. split; [by intros [?|?]|by right]. }
  split; [done|]. apply marshal_diff_total. intros name e He%Hm'.
  destruct (table_complete old) as (diffKey' & Hkey' & _ & Hold); [rewrite (same_type_api_key old new Hty); exact Hnew|].
  rewrite Hty, Hkey in Hkey'. injection Hkey' as <-.
  exact (entry_json_total _ _ _ _ _ Hold Hkeys He).
Qed.

(** ** Secrets *)

(** Two runs that agree on every field that is not secret, and on whether each
    secret field changed. *)
Definition agree_up_to_secrets (diffKey : gmap string audit_Action)
    (old new old' new' : list (string * value)) : Prop :=
  old.*1 = old'.*1 ∧ new.*1 = new'.*1 ∧
  ∀ i n m l r l' r',
    old !! i = Some (m, l) → new !! i = Some (n, r) →
    old' !! i = Some (m, l') → new' !! i = Some (n, r') →
    if decide (diffKey !! n = Some ActionSecret)
    then (diff_value l = diff_value r ↔ diff_value l' = diff_value r')
         ∧ zero_value (diff_value r) = zero_value (diff_value r')
    else l = l' ∧ r = r'.

Lemma diff_fields_secrets diffKey old new old' new' base :
  agree_up_to_secrets diffKey old new old' new' →
  diff_fields diffKey old new base = diff_fields diffKey old' new' base.
Proof.
  revert old old' new' base.
  induction new as [|[n r] new IH]; intros old old' new' base (Hold & Hnew & Hagree).
  { destruct new'; [|done]. by destruct old as [|[] ?], old' as [|[] ?]. }
  destruct new' as [|[n' r'] new']; [done|]. simpl in Hnew. injection Hnew as <- Hnew.
  destruct old as [|[m l] old], old' as [|[m' l'] old']; simpl in Hold; try done.
  injection Hold as <- Hold.
  pose proof (Hagree 0 n m l r l' r' eq_refl eq_refl eq_refl eq_refl) as H0. simpl.
  destruct (diffKey !! n) as [a|]; [|done].
  assert (∀ b, diff_fields diffKey old new b = diff_fields diffKey old' new' b) as IH'.
  { intros b. apply IH. split; [done|]. split; [done|]. intros i. apply (Hagree (S i)). }
  destruct (decide (Some a = Some ActionSecret)) as [[= ->]|_]; [|by destruct H0 as [<- <-]; rewrite IH'].
  destruct H0 as [Hch Hz]. unfold diff_entry. rewrite (bool_decide_eq_true_2 (_ = ActionSecret)) by done.
  rewrite (bool_decide_ext _ _ Hch), Hz. apply IH'.
Qed.

(** C39: the diff does not reveal secrets: two updates that differ only in the
    contents of secret fields have the same diff, as long as each secret
    changes in both or in neither. *)
Theorem diffValues_hides_secrets diffKey old new old' new' :
  AuditableResources !! type_name new = Some diffKey →
  type_name new' = type_name new →
  agree_up_to_secrets diffKey (struct_fields old) (struct_fields new)
    (struct_fields old') (struct_fields new') →
  diffValues old new AuditableResources = diffValues old' new' AuditableResources.
Proof.
  intros Hkey Hty Hagree. unfold Auditing.diffValues. rewrite Hty, Hkey. by apply diff_fields_secrets.
Qed.

End diffs.

(** ** Concrete diffs *)

Module AuditExamples.
#[local] Existing Instance unary_uuid_text.

Definition user (name : string) (password : bytes) : Auditable :=
  AuditUser (User_zero <| User_ID := 1%N |> <| User_Username := name |>
                       <| User_HashedPassword := password |>).

(** Renaming a user lists the name with both values. *)
Lemma diffValues_spec_witness :
  ∃ m, diffValues (λ _, "null") (user "ann" []) (user "bob" []) AuditableResources = Ok m
    ∧ m !! "username" = Some (mkOldNew (VString "ann") (VString "bob") false).
Proof.
  destruct (diffValues_spec (λ _, "null") (user "ann" []) (user "bob" []) eq_refl eq_refl)
    as (k & m & Hk & Hm & Hspec & _).
  exists m. split; [exact Hm|]. apply Hspec. exists 2, (VString "ann"), (VString "bob"), ActionTrack.
  assert (k !! "username" = AuditableResources !! "User" ≫= (.!! "username")) as ->
    by (change "User" with (type_name (user "bob" [])); rewrite Hk; reflexivity).
  split; [reflexivity|]. split; [reflexivity|]. split; [vm_compute; reflexivity|].
  split; [discriminate|]. split; [discriminate|reflexivity].
Defined.

(** Two password changes are not told apart. *)
Lemma diffValues_hides_secrets_witness :
  diffValues (λ _, "null") (user "ann" [Byte.x01]) (user "ann" [Byte.x02]) AuditableResources
  = diffValues (λ _, "null") (user "ann" [Byte.x03]) (user "ann" [Byte.x04]) AuditableResources.
Proof.
  destruct (table_complete (λ _, "null") (user "ann" []) eq_refl) as (k & Hk & _).
  apply (diffValues_hides_secrets (λ _, "null") k); [exact Hk|reflexivity|].
  split; [reflexivity|]. split; [reflexivity|].
  intros i n m l r l' r' H1 H2 H3 H4.
  assert (k !! n = AuditableResources !! "User" ≫= (.!! n)) as ->
    by (change "User" with (type_name (user "ann" [])); rewrite Hk; reflexivity).
  do 12 (destruct i as [|i];
    [simpl in H1, H2, H3, H4; injection H1 as <- <-; injection H2 as <- <-;
     injection H3 as <-; injection H4 as <-; vm_compute;
     first [split; reflexivity | split; [split; discriminate|reflexivity]]|]).
  discriminate H1.
Defined.
(** The roles of a user that is created without any are listed: they were nil before. *)
Example empty_roles_listed : ∃ m old new,
  Auditing.diffValues (λ _, EmptyString) (AuditUser User_zero) (user "dev" []) AuditableResources = Ok m ∧
  m !! "rbac_roles" = Some (mkOldNew old new false) ∧ value_json old = Some JNull ∧ value_json new = Some (JArray []).
Proof. eexists _, _, _. by vm_compute. Qed.
End AuditExamples.
