(* ===== verification/ParamCompute.v ===== *)
(** * Computing parameter values

    [coderd/parameter/compute.go]: the value of each parameter of a template
    version, from the scopes that may set it: the import job, the schema's
    default, the template, the workspace, and values of the request. *)

From stdpp Require Import prelude gmap strings.
From S2P Require Import Prelude Models Queries ModelMethods Store StoreTemplates World.

Record ComputeScope := mkComputeScope {
  ComputeScope_TemplateImportJobID : uuid;
  ComputeScope_TemplateID : nullable uuid;
  ComputeScope_WorkspaceID : nullable uuid;
  ComputeScope_AdditionalParameterValues : list ParameterValue;
}.

Record ComputeOptions := mkComputeOptions { HideRedisplayValues : bool }.

Record ComputedValue := mkComputedValue {
  ComputedValue_ParameterValue : ParameterValue;
  ComputedValue_SchemaID : uuid;
  ComputedValue_DefaultSourceValue : bool;
  ComputedValue_index : Z;
}.

(** [computedParameterByName] and [parameterSchemasByName]. *)
Abbreviation computed_map := (gmap string ComputedValue) (only parsing).
Abbreviation schema_map := (gmap string ParameterSchema) (only parsing).

Section compute.
Context (options : ComputeOptions) (parameterSchemasByName : schema_map).

Definition injectSingle (scopedParameter : ParameterValue) (defaultValue : bool)
    (computed : computed_map) : res computed_map :=
  let name := scopedParameter.(ParameterValue_Name) in
  match parameterSchemasByName !! name with
  | None => Ok computed
  | Some parameterSchema =>
      let hasParameterValue := bool_decide (is_Some (computed !! name)) in
      if hasParameterValue && negb parameterSchema.(ParameterSchema_AllowOverrideSource)
         && (scopedParameter.(ParameterValue_Scope) == ParameterScopeWorkspace)
      then Ok computed
      else if scopedParameter.(ParameterValue_SourceScheme) == ParameterSourceSchemeData then
        let shown :=
          if options.(HideRedisplayValues) && negb parameterSchema.(ParameterSchema_RedisplayValue)
          then scopedParameter <| ParameterValue_SourceValue := EmptyString |>
          else scopedParameter in
        Ok (<[name := {|
               ComputedValue_ParameterValue := shown;
               ComputedValue_SchemaID := parameterSchema.(ParameterSchema_ID);
               ComputedValue_DefaultSourceValue := defaultValue;
               ComputedValue_index := parameterSchema.(ParameterSchema_Index) |}]> computed)
      else Err (ErrNew ("unsupported source scheme: "
             +:+ quote (ParameterSourceScheme_string
                          parameterSchema.(ParameterSchema_DefaultSourceScheme))))
  end.

(** [for _, v := range l { injectSingle(v, false) }], with each error wrapped. *)
Fixpoint inject_all (wrap_error : ParameterValue → error → error) (l : list ParameterValue)
    (computed : computed_map) : res computed_map :=
  match l with
  | [] => Ok computed
  | v :: l =>
      match injectSingle v false computed with
      | Ok computed => inject_all wrap_error l computed
      | Err e => Err (wrap_error v e)
      | Panic m => Panic m
      end
  end.

(** [injectScope] for one scope, which is how it is called. *)
Definition injectScope (scope : ParameterScope) (scopeID : uuid) (q : data)
    (computed : computed_map) : res computed_map :=
  match ParameterValues (mkParameterValuesParams [scope] [scopeID] [] []) q with
  | Ok scopedParameters =>
      inject_all (λ v, ErrWrap ("inject single " +:+ quote v.(ParameterValue_Name)))
        scopedParameters computed
  | Err e =>
      if errors_Is e ErrNoRows then Ok computed
      else Err (ErrWrap ("get [" +:+ ParameterScope_string scope +:+ "] parameters") e)
  | Panic m => Panic m
  end.

Context `{!Environment}.

(** The default values of the schemas that have no value yet. *)
Fixpoint inject_defaults (importJobID : uuid) (schemas : list ParameterSchema)
    (computed : computed_map) : M computed_map :=
  match schemas with
  | [] => mret computed
  | parameterSchema :: schemas =>
      let scheme := parameterSchema.(ParameterSchema_DefaultSourceScheme) in
      let name := parameterSchema.(ParameterSchema_Name) in
      if scheme == ParameterSourceSchemeNone then inject_defaults importJobID schemas computed
      else if bool_decide (is_Some (computed !! name))
      then inject_defaults importJobID schemas computed
      else if scheme == ParameterSourceSchemeData then
        id ← uuid_New;
        createdAt ← Now;
        updatedAt ← Now;
        computed ← wrap "insert default value" (lift_res (injectSingle {|
          ParameterValue_ID := id;
          ParameterValue_CreatedAt := createdAt;
          ParameterValue_UpdatedAt := updatedAt;
          ParameterValue_Scope := ParameterScopeImportJob;
          ParameterValue_ScopeID := importJobID;
          ParameterValue_Name := name;
          ParameterValue_SourceScheme := ParameterSourceSchemeData;
          ParameterValue_SourceValue := parameterSchema.(ParameterSchema_DefaultSourceValue);
          ParameterValue_DestinationScheme :=
            parameterSchema.(ParameterSchema_DefaultDestinationScheme) |} true computed));
        inject_defaults importJobID schemas computed
      else throw (ErrNew ("unsupported source scheme for template version parameter "
             +:+ quote name +:+ ": " +:+ quote (ParameterSourceScheme_string scheme)))
  end.

(** The scopes in the order they are consulted, after the schemas are read. *)
Definition compute_scopes (scope : ComputeScope) (schemas : list ParameterSchema) :
    M computed_map :=
  let importJobID := scope.(ComputeScope_TemplateImportJobID) in
  computed ← query (λ q, injectScope ParameterScopeImportJob importJobID q ∅);
  computed ← inject_defaults importJobID schemas computed;
  computed ← (if Valid scope.(ComputeScope_TemplateID)
              then query (λ q, injectScope ParameterScopeTemplate
                                 (null_val scope.(ComputeScope_TemplateID)) q computed)
              else mret computed);
  computed ← (if Valid scope.(ComputeScope_WorkspaceID)
              then query (λ q, injectScope ParameterScopeWorkspace
                                 (null_val scope.(ComputeScope_WorkspaceID)) q computed)
              else mret computed);
  lift_res (inject_all (λ _, ErrWrap "inject single parameter value")
              scope.(ComputeScope_AdditionalParameterValues) computed).
End compute.

(** The schemas by name; a later schema replaces an earlier one. *)
Definition schemas_by_name (schemas : list ParameterSchema) : schema_map :=
  foldl (λ m s, <[s.(ParameterSchema_Name) := s]> m) ∅ schemas.

Definition by_index (a b : ComputedValue) : bool :=
  (a.(ComputedValue_index) <? b.(ComputedValue_index))%Z.

Definition Compute `{!Environment} (scope : ComputeScope) (options : option ComputeOptions) :
    M (list ComputedValue) :=
  let options := default (mkComputeOptions false) options in
  schemas ← (λ w, match GetParameterSchemasByJobID scope.(ComputeScope_TemplateImportJobID) w.(db) with
                  | Ok schemas => (Ok schemas, w)
                  | Err e => if errors_Is e ErrNoRows then (Ok [], w)
                             else (Err (ErrWrap "get template parameters" e), w)
                  | Panic m => (Panic m, w)
                  end : res (list ParameterSchema) * world);
  computed ← compute_scopes options (schemas_by_name schemas) scope schemas;
  mret (sort_by by_index (snd <$> map_to_list computed)).
