(* ===== verification/ParamProps.v ===== *)
(** * Parameter computation: properties *)

From stdpp Require Import prelude gmap strings sorting.
From S2P Require Import Prelude Cryptorand Models Queries ModelMethods Store StoreUsers StoreTemplates.
From S2P Require Import World ParamCompute.

Section invariant.
Context (options : ComputeOptions) (schemas : gmap string ParameterSchema).

(** A computed value belongs to the schema of its name, and shows its source
    only when it may. *)
Definition value_ok (name : string) (v : ComputedValue) : Prop :=
  v.(ComputedValue_ParameterValue).(ParameterValue_Name) = name
  ∧ ∃ s, schemas !! name = Some s
         ∧ v.(ComputedValue_SchemaID) = s.(ParameterSchema_ID)
         ∧ v.(ComputedValue_index) = s.(ParameterSchema_Index)
         ∧ (options.(HideRedisplayValues) = true → s.(ParameterSchema_RedisplayValue) = false →
            v.(ComputedValue_ParameterValue).(ParameterValue_SourceValue) = EmptyString).

Definition computed_ok (computed : gmap string ComputedValue) : Prop := map_Forall value_ok computed.

Lemma injectSingle_ok v d computed computed' :
  computed_ok computed → injectSingle options schemas v d computed = Ok computed' →
  computed_ok computed'.
Proof.
  intros Hok. unfold injectSingle.
  destruct (schemas !! ParameterValue_Name v) as [s|] eqn:Hs; [|by intros [= <-]].
  destruct (_ && _ && _); [by intros [= <-]|]. case_bool_decide; [|done].
  intros [= <-]. apply map_Forall_insert_2; [|done]. unfold value_ok. simpl.
  destruct (HideRedisplayValues options), (ParameterSchema_RedisplayValue s) eqn:Hr;
    simpl; (split; [done|]); exists s; split_and!; congruence || done.
Qed.

Lemma inject_all_ok wrap_error l computed computed' :
  computed_ok computed → inject_all options schemas wrap_error l computed = Ok computed' →
  computed_ok computed'.
Proof.
  revert computed. induction l as [|v l IH]; intros computed Hok; simpl; [by intros [= <-]|].
  destruct (injectSingle _ _ _ _ _) as [c|e|m] eqn:Hv; [|done..].
  apply IH. by eapply injectSingle_ok.
Qed.

Lemma injectScope_ok scope id q computed computed' :
  computed_ok computed → injectScope options schemas scope id q computed = Ok computed' →
  computed_ok computed'.
Proof.
  intros Hok. unfold injectScope. destruct (ParameterValues _ q) as [l|e|m]; [|destruct (errors_Is _ _)|done].
  - by apply inject_all_ok.
  - by intros [= <-].
  - done.
Qed.

(** A workspace value does not replace one that is there when the schema does
    not allow it. *)
Lemma injectSingle_locked v computed computed' name s x :
  v.(ParameterValue_Scope) = ParameterScopeWorkspace →
  schemas !! name = Some s → s.(ParameterSchema_AllowOverrideSource) = false →
  computed !! name = Some x →
  injectSingle options schemas v false computed = Ok computed' → computed' !! name = Some x.
Proof.
  intros Hscope Hs Hlock Hx. unfold injectSingle.
  destruct (decide (ParameterValue_Name v = name)) as [Hn|Hn].
  - rewrite Hn, Hs, Hlock, Hscope, Hx, !bool_decide_eq_true_2 by (done || by eexists). simpl.
    by intros [= <-].
  - destruct (schemas !! ParameterValue_Name v) as [s'|]; [|by intros [= <-]].
    destruct (_ && _ && _); [by intros [= <-]|]. case_bool_decide; [|done].
    intros [= <-]. by rewrite lookup_insert_ne.
Qed.

Lemma inject_all_locked wrap_error l computed computed' name s x :
  Forall (λ v, v.(ParameterValue_Scope) = ParameterScopeWorkspace) l →
  schemas !! name = Some s → s.(ParameterSchema_AllowOverrideSource) = false →
  computed !! name = Some x →
  inject_all options schemas wrap_error l computed = Ok computed' → computed' !! name = Some x.
Proof.
  intros Hl Hs Hlock. revert computed. induction Hl as [|v l Hv _ IH]; intros computed Hx; simpl.
  - by intros [= <-].
  - destruct (injectSingle _ _ _ _ _) as [c|e|m] eqn:Hc; [|done..].
    apply IH. by eapply injectSingle_locked.
Qed.

Lemma workspace_scope_locked id q computed computed' name s x :
  schemas !! name = Some s → s.(ParameterSchema_AllowOverrideSource) = false →
  computed !! name = Some x →
  injectScope options schemas ParameterScopeWorkspace id q computed = Ok computed' →
  computed' !! name = Some x.
Proof.
  intros Hs Hlock Hx. unfold injectScope, ParameterValues, rows_or_none.
  destruct (filter _ _) as [|v l] eqn:Hf; [by intros [= <-]|].
  apply (inject_all_locked _ _ _ _ name s); try done. rewrite <-Hf.
  apply Forall_forall. intros y [Hy _]%list_elem_of_filter. unfold unlisted in Hy. simpl in Hy.
  unfold slice_Contains in Hy. simpl in Hy. repeat case_bool_decide; done.
Qed.

Context `{!Environment}.

Lemma inject_defaults_ok job l computed w computed' w' :
  computed_ok computed → inject_defaults options schemas job l computed w = (Ok computed', w') →
  computed_ok computed'.
Proof.
  revert computed w. induction l as [|s l IH]; intros computed w Hok Hrun; simpl in Hrun.
  - by injection Hrun as <- _.
  - case_bool_decide; [by eapply IH|]. case_bool_decide; [by eapply IH|].
    case_bool_decide; [|done].
    unfold wrap, lift_res, mbind, gom_bind in Hrun. simpl in Hrun.
    destruct (injectSingle _ _ _ _ _) as [c|e|m] eqn:Hc; [|done..].
    eapply IH; [|exact Hrun]. by eapply injectSingle_ok.
Qed.
End invariant.

Section compute.
Context `{!Environment}.

(** The schemas a computation reads. *)
Definition job_schemas (job : uuid) (q : data) : list ParameterSchema :=
  match GetParameterSchemasByJobID job q with Ok l => l | _ => [] end.

Lemma Compute_run scope options w values w' :
  Compute scope options w = (Ok values, w') →
  let schemas := job_schemas scope.(ComputeScope_TemplateImportJobID) w.(db) in
  ∃ computed,
    compute_scopes (default (mkComputeOptions false) options) (schemas_by_name schemas) scope
      schemas w = (Ok computed, w')
    ∧ values = sort_by by_index (snd <$> map_to_list computed).
Proof.
  intros Hrun. unfold Compute in Hrun. apply bind_ok in Hrun as (l & w1 & Hl & Hrun).
  assert (l = job_schemas scope.(ComputeScope_TemplateImportJobID) w.(db) ∧ w1 = w) as [-> ->].
  { unfold job_schemas. unfold GetParameterSchemasByJobID, rows_or_none in *.
    destruct (sort_by _ _); simpl in Hl; by injection Hl as <- <-. }
  apply bind_ok in Hrun as (computed & w2 & Hc & Hret). injection Hret as <- <-.
  by exists computed.
Qed.

Lemma compute_scopes_ok options schemas scope l w computed w' :
  compute_scopes options schemas scope l w = (Ok computed, w') →
  computed_ok options schemas computed.
Proof.
  unfold compute_scopes. intros Hrun.
  apply bind_ok in Hrun as (c1 & w1 & H1 & Hrun). unfold query in H1.
  injection H1 as H1 <-. apply injectScope_ok in H1; [|by apply map_Forall_empty].
  apply bind_ok in Hrun as (c2 & w2 & H2 & Hrun). apply inject_defaults_ok in H2; [|done].
  apply bind_ok in Hrun as (c3 & w3 & H3 & Hrun).
  assert (computed_ok options schemas c3) as Hok3.
  { destruct (Valid scope.(ComputeScope_TemplateID)); [|by injection H3 as <- _]. injection H3 as H3 _.
    by eapply injectScope_ok. }
  apply bind_ok in Hrun as (c4 & w4 & H4 & Hrun).
  assert (computed_ok options schemas c4) as Hok4.
  { destruct (Valid scope.(ComputeScope_WorkspaceID)); [|by injection H4 as <- _]. injection H4 as H4 _.
    by eapply injectScope_ok. }
  injection Hrun as Hrun _. by eapply inject_all_ok.
Qed.

(** The values computed for a job are those of declared parameters only, at
    most one per name, each tied to its schema; and when values that must not
    be redisplayed are hidden, none of them carries its source. *)
Theorem Compute_wellformed scope options w values w' :
  Compute scope options w = (Ok values, w') →
  let schemas := job_schemas scope.(ComputeScope_TemplateImportJobID) w.(db) in
  NoDup ((λ v, v.(ComputedValue_ParameterValue).(ParameterValue_Name)) <$> values)
  ∧ Forall (λ v, value_ok (default (mkComputeOptions false) options) (schemas_by_name schemas)
                   v.(ComputedValue_ParameterValue).(ParameterValue_Name) v) values.
Proof.
  intros Hrun schemas. destruct (Compute_run _ _ _ _ _ Hrun) as (computed & Hc & ->).
  apply compute_scopes_ok in Hc. fold schemas in Hc.
  assert (∀ l : list (string * ComputedValue), (∀ n v, (n, v) ∈ l → computed !! n = Some v) →
    (λ v, v.(ComputedValue_ParameterValue).(ParameterValue_Name)) <$> (snd <$> l) = fst <$> l) as Hnames.
  { intros l Hl. rewrite <-list_fmap_compose. apply list_fmap_ext. intros i [n v] Hi. simpl.
    apply list_elem_of_lookup_2 in Hi. by destruct (Hc n v (Hl n v Hi)) as [? _]. }
  unfold sort_by. rewrite (merge_sort_Permutation _ _). split.
  - rewrite Hnames by (intros n v; by rewrite elem_of_map_to_list).
    apply NoDup_fst_map_to_list.
  - apply Forall_forall. intros v Hv. apply list_elem_of_fmap in Hv as ([n v'] & -> & Hin).
    apply elem_of_map_to_list in Hin. simpl. pose proof (Hc n v' Hin) as Hok.
    destruct Hok as [Hn Hrest]. rewrite Hn. by split.
Qed.

Lemma elem_of_values (computed : gmap string ComputedValue) v :
  v ∈ sort_by by_index (snd <$> map_to_list computed) ↔ ∃ n, computed !! n = Some v.
Proof.
  unfold sort_by. rewrite (merge_sort_Permutation _ _), list_elem_of_fmap. split.
  - intros ([n v'] & -> & Hin). exists n. by apply elem_of_map_to_list.
  - intros [n Hn]. exists (n, v). split; [done|]. by apply elem_of_map_to_list.
Qed.

(** The same scope without its workspace. *)
Definition template_scope (scope : ComputeScope) : ComputeScope :=
  mkComputeScope scope.(ComputeScope_TemplateImportJobID) scope.(ComputeScope_TemplateID)
    (null_of uuid_Nil) [].

Lemma compute_scopes_locked options schemas scope l w c w' ct wt name s x :
  scope.(ComputeScope_AdditionalParameterValues) = [] →
  compute_scopes options schemas scope l w = (Ok c, w') →
  compute_scopes options schemas (template_scope scope) l w = (Ok ct, wt) →
  schemas !! name = Some s → s.(ParameterSchema_AllowOverrideSource) = false →
  ct !! name = Some x → c !! name = Some x.
Proof.
  unfold compute_scopes. intros Hadd Hrun Hrunt Hs Hlock Hx.
  apply bind_ok in Hrun as (c1 & w1 & H1 & Hrun). apply bind_ok in Hrunt as (d1 & v1 & D1 & Hrunt).
  simpl in D1. rewrite H1 in D1. injection D1 as <- <-.
  apply bind_ok in Hrun as (c2 & w2 & H2 & Hrun). apply bind_ok in Hrunt as (d2 & v2 & D2 & Hrunt).
  simpl in D2. rewrite H2 in D2. injection D2 as <- <-.
  apply bind_ok in Hrun as (c3 & w3 & H3 & Hrun). apply bind_ok in Hrunt as (d3 & v3 & D3 & Hrunt).
  simpl in D3. rewrite H3 in D3. injection D3 as <- <-.
  apply bind_ok in Hrunt as (d4 & v4 & D4 & Hrunt). injection D4 as <- <-.
  injection Hrunt as <- _. apply bind_ok in Hrun as (c4 & w4 & H4 & Hrun).
  rewrite Hadd in Hrun. injection Hrun as <- _.
  destruct (Valid scope.(ComputeScope_WorkspaceID)); [|by injection H4 as <- _]. injection H4 as H4 _.
  by eapply workspace_scope_locked.
Qed.

(** A workspace cannot override a parameter whose schema does not allow it:
    a value the template scope computes for it is also the value computed with
    the workspace. *)
Theorem workspace_cannot_override scope options w values w' tvalues wt name s v :
  scope.(ComputeScope_AdditionalParameterValues) = [] →
  Compute scope options w = (Ok values, w') →
  Compute (template_scope scope) options w = (Ok tvalues, wt) →
  schemas_by_name (job_schemas scope.(ComputeScope_TemplateImportJobID) w.(db)) !! name = Some s →
  s.(ParameterSchema_AllowOverrideSource) = false →
  v.(ComputedValue_ParameterValue).(ParameterValue_Name) = name →
  v ∈ tvalues → v ∈ values.
Proof.
  intros Hadd Hrun Hrunt Hs Hlock Hname Hv.
  destruct (Compute_run _ _ _ _ _ Hrun) as (c & Hc & ->).
  destruct (Compute_run _ _ _ _ _ Hrunt) as (ct & Hct & ->).
  apply elem_of_values in Hv as [n Hn]. apply elem_of_values. exists n.
  assert (n = name) as ->.
  { destruct (compute_scopes_ok _ _ _ _ _ _ _ Hct n v Hn) as [<- _]. done. }
  by eapply compute_scopes_locked.
Qed.
End compute.

(** ** Concrete runs *)

Module ParamExamples.
#[local] Instance env : Environment := {|
  clock n := (1000000 * Z.of_nat n)%Z;
  new_uuid n := (100 + N.of_nat n)%N;
  publish_error _ := None;
  random_source := RandomExamples.constant_source Byte.x6a |}.

(** A parameter a workspace may not override, with a default that must not be
    redisplayed. *)
Definition schema : ParameterSchema :=
  mkParameterSchema 1 0 10 "region" "" ParameterSourceSchemeData "eu" false
    ParameterDestinationSchemeProvisionerVariable false "" false "" "" ParameterTypeSystemNone "" 0.

Definition workspace_value : ParameterValue :=
  mkParameterValue 2 0 0 ParameterScopeWorkspace 20 "region" ParameterSourceSchemeData "us"
    ParameterDestinationSchemeProvisionerVariable.

Definition start : world :=
  mkWorld (New <| parameterSchemas := [schema] |> <| parameterValues := [workspace_value] |>)
    0 0 0 [] [] time_zero 0.

Definition scope : ComputeScope := mkComputeScope 10 (null_of uuid_Nil) (non_null 20%N) [].

Lemma Compute_wellformed_witness :
  ∃ values w', Compute scope (Some (mkComputeOptions true)) start = (Ok values, w')
    ∧ (λ v, v.(ComputedValue_ParameterValue).(ParameterValue_SourceValue)) <$> values = [EmptyString]
    ∧ NoDup ((λ v, v.(ComputedValue_ParameterValue).(ParameterValue_Name)) <$> values).
Proof.
  destruct (Compute scope (Some (mkComputeOptions true)) start) as [[values|e|m] w'] eqn:Hrun;
    [|vm_compute in Hrun; discriminate Hrun..].
  exists values, w'. split; [reflexivity|].
  destruct (Compute_wellformed scope _ start values w' Hrun) as [Hnd _].
  split; [|exact Hnd]. vm_compute in Hrun. injection Hrun as <- _. reflexivity.
Defined.

Lemma workspace_cannot_override_witness :
  ∃ values w', Compute scope None start = (Ok values, w')
    ∧ ∃ v, v ∈ values ∧ v.(ComputedValue_ParameterValue).(ParameterValue_SourceValue) = "eu".
Proof.
  destruct (Compute scope None start) as [[values|e|m] w'] eqn:Hrun;
    [|vm_compute in Hrun; discriminate Hrun..].
  destruct (Compute (template_scope scope) None start) as [[tvalues|e|m] wt] eqn:Hrunt;
    [|vm_compute in Hrunt; discriminate Hrunt..].
  exists values, w'. split; [reflexivity|].
  destruct tvalues as [|v vs]; [vm_compute in Hrunt; discriminate Hrunt|].
  exists v.
  assert (v.(ComputedValue_ParameterValue).(ParameterValue_Name) = "region"
    ∧ v.(ComputedValue_ParameterValue).(ParameterValue_SourceValue) = "eu") as [Hn Hv].
  { vm_compute in Hrunt. injection Hrunt as <- _. split; reflexivity. }
  split; [|exact Hv].
  apply (workspace_cannot_override scope None start values w' (v :: vs) wt "region" schema v);
    [reflexivity|exact Hrun|exact Hrunt|vm_compute; reflexivity|reflexivity|exact Hn|left].
Defined.
End ParamExamples.
