(* ===== verification/ProvisionerdProto.v ===== *)
(** * Messages between the server and provisioner daemons

    The messages of [provisionersdk/proto/provisioner.proto] and
    [provisionerd/proto/provisionerd.proto] the server reads and writes. An
    enumeration keeps the values its message does not define, a [oneof] is an
    option of its cases, a message that may be absent is an option. *)

From stdpp Require Import prelude gmap strings.
From S2P Require Import Prelude Models.

(** Reading a field of a message that is absent. *)
Definition nil_dereference : string := "invalid memory address or nil pointer dereference".

(** ** provisioner.proto *)

Inductive ParameterSource_Scheme := ParameterSource_DATA | ParameterSource_unknown (n : Z).
Inductive ParameterDestination_Scheme :=
| ParameterDestination_ENVIRONMENT_VARIABLE
| ParameterDestination_PROVISIONER_VARIABLE
| ParameterDestination_unknown (n : Z).
Inductive ParameterSchema_TypeSystem :=
| ParameterSchema_None
| ParameterSchema_HCL
| ParameterSchema_unknown (n : Z).
Inductive proto_LogLevel :=
| LogLevel_TRACE | LogLevel_DEBUG | LogLevel_INFO | LogLevel_WARN | LogLevel_ERROR
| LogLevel_unknown (n : Z).
Inductive proto_AppSharingLevel :=
| AppSharingLevel_OWNER
| AppSharingLevel_AUTHENTICATED
| AppSharingLevel_PUBLIC
| AppSharingLevel_unknown (n : Z).
Inductive proto_WorkspaceTransition :=
| WorkspaceTransition_START | WorkspaceTransition_STOP | WorkspaceTransition_DESTROY
| WorkspaceTransition_unknown (n : Z).

Record proto_ParameterSource := mkParameterSource {
  ParameterSource_scheme : ParameterSource_Scheme;
  ParameterSource_value : string;
}.

Record proto_ParameterValue := mkProtoParameterValue {
  proto_ParameterValue_DestinationScheme : ParameterDestination_Scheme;
  proto_ParameterValue_Name : string;
  proto_ParameterValue_Value : string;
}.

Record proto_ParameterSchema := mkProtoParameterSchema {
  proto_ParameterSchema_Name : string;
  proto_ParameterSchema_Description : string;
  proto_ParameterSchema_DefaultSource : option proto_ParameterSource;
  proto_ParameterSchema_AllowOverrideSource : bool;
  proto_ParameterSchema_DefaultDestination : option ParameterDestination_Scheme;
  proto_ParameterSchema_AllowOverrideDestination : bool;
  proto_ParameterSchema_RedisplayValue : bool;
  proto_ParameterSchema_ValidationTypeSystem : ParameterSchema_TypeSystem;
  proto_ParameterSchema_ValidationValueType : string;
  proto_ParameterSchema_ValidationError : string;
  proto_ParameterSchema_ValidationCondition : string;
}.

Record proto_Healthcheck := mkHealthcheck {
  Healthcheck_Url : string;
  Healthcheck_Interval : Z;
  Healthcheck_Threshold : Z;
}.

Record proto_App := mkApp {
  App_Slug : string;
  App_DisplayName : string;
  App_Command : string;
  App_Url : string;
  App_Icon : string;
  App_Subdomain : bool;
  App_Healthcheck : option proto_Healthcheck;
  App_SharingLevel : proto_AppSharingLevel;
}.

Inductive Agent_auth := Agent_NoAuth | Agent_Token (s : string) | Agent_InstanceId (s : string).

Record proto_Agent := mkAgent {
  Agent_Id : string;
  Agent_Name : string;
  Agent_Env : option (gmap string string);
  Agent_StartupScript : string;
  Agent_OperatingSystem : string;
  Agent_Architecture : string;
  Agent_Directory : string;
  Agent_Apps : list proto_App;
  Agent_Auth : Agent_auth;
  Agent_ConnectionTimeoutSeconds : Z;
  Agent_TroubleshootingUrl : string;
  Agent_MotdFile : string;
}.
#[global] Instance proto_Agent_eta : Eta proto_Agent := λ a,
  mkAgent a.(Agent_Id) a.(Agent_Name) a.(Agent_Env) a.(Agent_StartupScript) a.(Agent_OperatingSystem)
    a.(Agent_Architecture) a.(Agent_Directory) a.(Agent_Apps) a.(Agent_Auth) a.(Agent_ConnectionTimeoutSeconds)
    a.(Agent_TroubleshootingUrl) a.(Agent_MotdFile).

Definition Agent_GetToken (a : proto_Agent) : string :=
  match a.(Agent_Auth) with Agent_Token s => s | _ => EmptyString end.
Definition Agent_GetInstanceId (a : proto_Agent) : string :=
  match a.(Agent_Auth) with Agent_InstanceId s => s | _ => EmptyString end.

Record proto_Metadata := mkMetadata {
  Metadata_Key : string;
  Metadata_Value : string;
  Metadata_Sensitive : bool;
  Metadata_IsNull : bool;
}.

Record proto_Resource := mkResource {
  Resource_Name : string;
  Resource_Type : string;
  Resource_Agents : list proto_Agent;
  Resource_Metadata : list proto_Metadata;
  Resource_Hide : bool;
  Resource_Icon : string;
  Resource_InstanceType : string;
  Resource_DailyCost : Z;
}.

Record Provision_Metadata := mkProvisionMetadata {
  Metadata_CoderUrl : string;
  Metadata_WorkspaceTransition : proto_WorkspaceTransition;
  Metadata_WorkspaceName : string;
  Metadata_WorkspaceOwner : string;
  Metadata_WorkspaceId : string;
  Metadata_WorkspaceOwnerId : string;
  Metadata_WorkspaceOwnerEmail : string;
}.

(** ** provisionerd.proto *)

Inductive AcquiredJob_Type :=
| AcquiredJob_WorkspaceBuild (WorkspaceBuildId WorkspaceName : string)
    (ParameterValues : list proto_ParameterValue) (Metadata : option Provision_Metadata) (State : bytes)
| AcquiredJob_TemplateImport (Metadata : option Provision_Metadata)
| AcquiredJob_TemplateDryRun (ParameterValues : list proto_ParameterValue)
    (Metadata : option Provision_Metadata).

Record AcquiredJob := mkAcquiredJob {
  AcquiredJob_JobId : string;
  AcquiredJob_CreatedAt : Z;
  AcquiredJob_Provisioner : string;
  AcquiredJob_UserName : string;
  AcquiredJob_TemplateSourceArchive : bytes;
  AcquiredJob_type : option AcquiredJob_Type;
}.
Definition AcquiredJob_zero : AcquiredJob :=
  mkAcquiredJob EmptyString 0 EmptyString EmptyString [] None.

(** [State] of a failed build may be nil. *)
Inductive FailedJob_Type :=
| FailedJob_WorkspaceBuild (State : option bytes)
| FailedJob_TemplateImport
| FailedJob_TemplateDryRun.

Record FailedJob := mkFailedJob {
  FailedJob_JobId : string;
  FailedJob_Error : string;
  FailedJob_type : option FailedJob_Type;
}.

Inductive CompletedJob_Type :=
| CompletedJob_WorkspaceBuild (State : bytes) (Resources : list proto_Resource)
| CompletedJob_TemplateImport (StartResources StopResources : list proto_Resource)
| CompletedJob_TemplateDryRun (Resources : list proto_Resource).

Record CompletedJob := mkCompletedJob {
  CompletedJob_JobId : string;
  CompletedJob_type : option CompletedJob_Type;
}.

Inductive proto_LogSource :=
| LogSource_PROVISIONER_DAEMON
| LogSource_PROVISIONER
| LogSource_unknown (n : Z).

Record proto_Log := mkLog {
  Log_Source : proto_LogSource;
  Log_Level : proto_LogLevel;
  Log_CreatedAt : Z;
  Log_Stage : string;
  Log_Output : string;
}.

Record UpdateJobRequest := mkUpdateJobRequest {
  UpdateJobRequest_JobId : string;
  UpdateJobRequest_Logs : list proto_Log;
  UpdateJobRequest_ParameterSchemas : list proto_ParameterSchema;
  UpdateJobRequest_Readme : string;
}.

Record UpdateJobResponse := mkUpdateJobResponse {
  UpdateJobResponse_Canceled : bool;
  UpdateJobResponse_ParameterValues : list proto_ParameterValue;
}.

Record CommitQuotaRequest := mkCommitQuotaRequest {
  CommitQuotaRequest_JobId : string;
  CommitQuotaRequest_DailyCost : Z;
}.

Record CommitQuotaResponse := mkCommitQuotaResponse {
  CommitQuotaResponse_Ok : bool;
  CommitQuotaResponse_CreditsConsumed : Z;
  CommitQuotaResponse_Budget : Z;
}.

(** ** Between a daemon and its provisioner *)

(** [Log] of [provisioner.proto]. *)
Record sdkproto_Log := mkSdkLog {
  sdkLog_Level : proto_LogLevel;
  sdkLog_Output : string;
}.

(** [Parse.Response]; a message may be of a kind the daemon does not know. *)
Inductive Parse_Response :=
| Parse_Response_Log (l : sdkproto_Log)
| Parse_Response_Complete (ParameterSchemas : list proto_ParameterSchema)
| Parse_Response_nil.

Record Provision_Config := mkProvisionConfig {
  Config_Directory : string;
  Config_State : bytes;
  Config_Metadata : option Provision_Metadata;
}.

Inductive Provision_Request :=
| Provision_Request_Plan (Config : option Provision_Config) (ParameterValues : list proto_ParameterValue)
| Provision_Request_Apply (Config : option Provision_Config) (Plan : bytes)
| Provision_Request_Cancel.

(** [State] may be nil. *)
Record Provision_Complete := mkProvisionComplete {
  Complete_State : option bytes;
  Complete_Error : string;
  Complete_Plan : bytes;
  Complete_Resources : list proto_Resource;
}.

Inductive Provision_Response :=
| Provision_Response_Log (l : sdkproto_Log)
| Provision_Response_Complete (c : Provision_Complete)
| Provision_Response_nil.
