(* ===== verification/FilePath.v ===== *)
(** * File paths

    [filepath.Clean] and [filepath.Join] of the Go standard library on Unix, where
    [path.Join] is the same, and what a prefix test on cleaned paths says. *)

From Stdlib Require Import Ascii.
From stdpp Require Import prelude strings.
From S2P Require Import Prelude.

Definition slash : ascii := "/"%char.

Definition rooted (p : string) : bool := match p with String c _ => c == slash | EmptyString => false end.

(** The elements that remain, the last one first: empty ones and dots go, a double
    dot takes away the one before it. *)
Definition clean_element (root : bool) (done : list string) (e : string) : list string :=
  if (e == EmptyString) || (e == ".") then done
  else if e == ".." then
    match done with
    | [] => if root then [] else [".."]
    | d :: rest => if d == ".." then ".." :: done else rest
    end
  else e :: done.

Definition clean_elements (p : string) : list string :=
  reverse (foldl (clean_element (rooted p)) [] (Split p slash)).

Definition filepath_Clean (p : string) : string :=
  let body := Join (clean_elements p) "/" in
  if rooted p then String slash body
  else if body == EmptyString then "." else body.

(** From the first element that is not empty on. *)
Fixpoint filepath_Join (elems : list string) : string :=
  match elems with
  | [] => EmptyString
  | e :: rest => if e == EmptyString then filepath_Join rest else filepath_Clean (Join elems "/")
  end.

(** ** Joining *)

Lemma Split_join (a b : string) : Split (a +:+ "/" +:+ b) slash = Split a slash ++ Split b slash.
Proof.
  induction a as [|c a IH]; [done|]. change (Split (String c (a +:+ "/" +:+ b)) slash = Split (String c a) slash ++ Split b slash).
  simpl. rewrite IH. destruct (c == slash) eqn:Hc; [done|].
  destruct (Split a slash) as [|p ps] eqn:Ha; [|done]. by destruct a as [|c' a]; simpl in Ha; repeat case_match.
Qed.

Lemma rooted_join (a b : string) : a ≠ EmptyString → rooted (a +:+ b) = rooted a.
Proof. by destruct a. Qed.

(** An element that neither vanishes nor goes up. *)
Definition plain (e : string) : bool := (e != EmptyString) && (e != ".") && (e != "..").

Lemma clean_below root acc es :
  ".." ∉ es → foldl (clean_element root) acc es = reverse (filter (λ e, plain e = true) es) ++ acc.
Proof.
  revert acc. induction es as [|e es IH]; intros acc Hes; [done|].
  apply not_elem_of_cons in Hes as [He Hes]. simpl. rewrite IH by done. unfold clean_element.
  rewrite (bool_decide_eq_false_2 (e = "..")) by congruence.
  assert (plain e = negb (e == EmptyString) && negb (e == ".")) as Hp.
  { unfold plain. rewrite (bool_decide_eq_false_2 (e = "..")) by congruence. by rewrite andb_true_r. }
  rewrite filter_cons, Hp. destruct (e == EmptyString), (e == "."); simpl; try done.
  by rewrite reverse_cons, <-app_assoc.
Qed.

(** What a name without double dots is appended to stays in front. *)
Lemma clean_elements_join (w name : string) :
  w ≠ EmptyString → ".." ∉ Split name slash →
  clean_elements (w +:+ "/" +:+ name) = clean_elements w ++ filter (λ e, plain e = true) (Split name slash).
Proof.
  intros Hw Hname. unfold clean_elements. rewrite rooted_join, Split_join, foldl_app by done.
  rewrite clean_below by done. by rewrite reverse_app, reverse_involutive.
Qed.

Lemma filepath_Join_two (w name : string) :
  w ≠ EmptyString → filepath_Join [w; name] = filepath_Clean (w +:+ "/" +:+ name).
Proof. intros Hw. simpl. by rewrite bool_decide_eq_false_2. Qed.

(** ** Prefixes *)

Lemma prefix_app (a b : string) : String.prefix a (a +:+ b) = true.
Proof. induction a as [|c a IH]; [by destruct b|]. simpl. by destruct (ascii_dec c c). Qed.


Lemma Join_app (l l' : list string) sep : l ≠ [] → l' ≠ [] → Join (l ++ l') sep = Join l sep +:+ (sep +:+ Join l' sep).
Proof.
  intros Hl Hl'. induction l as [|x [|y l] IH]; [done| |].
  - by destruct l'.
  - simpl in *. rewrite IH by done. by rewrite !string_app_assoc.
Qed.

(** A path is another one or below it. *)
Definition below (root path : string) : bool := (path == root) || HasPrefix path (root +:+ "/").

(** Below a rooted directory that is not the root of the file system, a name
    without double dots stays. *)
Lemma join_below (w name : string) :
  rooted w = true → clean_elements w ≠ [] → ".." ∉ Split name slash →
  below (filepath_Clean w) (filepath_Join [w; name]) = true.
Proof.
  intros Hw Hel Hname. assert (w ≠ EmptyString) as Hne by (by intros ->).
  rewrite filepath_Join_two by done. unfold filepath_Clean. rewrite rooted_join, Hw by done.
  rewrite clean_elements_join by done. unfold below.
  destruct (filter _ _) as [|e es] eqn:Hf; [rewrite app_nil_r; by rewrite bool_decide_true|].
  rewrite Join_app by done. apply orb_true_iff. right. unfold HasPrefix.
  change (String slash (Join (clean_elements w) "/" +:+ ("/" +:+ Join (e :: es) "/")))
    with (String slash (Join (clean_elements w) "/") +:+ ("/" +:+ Join (e :: es) "/")).
  rewrite <-string_app_assoc. apply prefix_app.
Qed.
