(* ===== verification/Runner.v ===== *)
(** * The job runner of a provisioner daemon: its shared state

    [provisionerd/runner/runner.go], the part its goroutines share under the
    mutex: the terminal message of the job, the log buffer, and [okToSend], which
    says whether the server may still hear about the job. What a method does while
    it holds the mutex is one definition; the answer of the server to a message it
    sends there is an argument. [runner_exec] runs one of them, in whatever order
    the goroutines take the mutex. What the goroutine of the job itself does is in
    [RunnerJob]. *)

From stdpp Require Import prelude gmap strings.
From S2P Require Import Prelude Models ProvisionerdProto.

(** ** State *)

(** A message about the job to the server. *)
Inductive job_message :=
| SendUpdate (u : UpdateJobRequest)
| SendFailed (f : FailedJob)
| SendCompleted (c : CompletedJob).

(** [flushLogsTimer] says whether the timer was created, [done_closed],
    [canceled] and [stopped] whether the channel of [Done] was closed and the two
    contexts were canceled. [sent] is the calls that were made to the [JobUpdater], whether
    or not it returned an error; the retries below it are the daemon's. *)
Record Runner := mkRunner {
  runner_job : AcquiredJob;
  queuedLogs : list proto_Log;
  flushLogsTimer : bool;
  failedJob : option FailedJob;
  completedJob : option CompletedJob;
  okToSend : bool;
  done_closed : bool;
  canceled : bool;
  stopped : bool;
  sent : list job_message;
}.
#[global] Instance Runner_eta : Eta Runner := λ r,
  mkRunner r.(runner_job) r.(queuedLogs) r.(flushLogsTimer) r.(failedJob) r.(completedJob) r.(okToSend)
    r.(done_closed) r.(canceled) r.(stopped) r.(sent).

(** [runner.New] *)
Definition runner_New (job : AcquiredJob) : Runner :=
  mkRunner job [] false None None true false false false [].

Definition errUpdateSkipped : error := ErrNew "update skipped; job complete or failed".

(** ** The methods *)

(** Code that looks at the state. *)
Definition look {A} (m : Runner → GoM Runner A) : GoM Runner A := λ r, m r r.

Definition send (m : job_message) : GoM Runner unit := modify (λ r, r <| sent := r.(sent) ++ [m] |>).

(** [close(r.done)]: a second time it panics. *)
Definition close_done : GoM Runner unit := λ r,
  if r.(done_closed) then (Panic "close of closed channel", r) else (Ok tt, r <| done_closed := true |>).

(** Stopping cancels the graceful context, which derives from it. *)
Definition Runner_stop : GoM Runner unit := modify (λ r, r <| stopped := true |> <| canceled := true |>).
Definition Runner_Cancel : GoM Runner unit := modify (λ r, r <| canceled := true |>).

(** [Run] from where it has a terminal message: send it, unless somebody else
    ended the job. *)
Definition Run_finish : GoM Runner unit := look (λ r,
  if negb r.(okToSend) then Runner_stop
   else
     _ ← match r.(failedJob), r.(completedJob) with
         | Some f, _ => send (SendFailed f)
         | None, Some c => send (SendCompleted c)
         | None, None => mret tt
         end;
     _ ← close_done;
     _ ← modify (λ r, r <| okToSend := false |>);
     Runner_stop).

(** The answer of the server to [FailJob] is returned. *)
Definition Runner_Fail (reply : res unit) (f : FailedJob) : GoM Runner unit := look (λ r,
  let f := mkFailedJob r.(runner_job).(AcquiredJob_JobId) f.(FailedJob_Error) f.(FailedJob_type) in
  if negb r.(okToSend) then mret tt
   else
     _ ← Runner_Cancel;
     let f := default f r.(failedJob) in
     _ ← modify (λ r, r <| failedJob := Some f |>);
     _ ← send (SendFailed f);
     _ ← modify (λ r, r <| okToSend := false |>);
     _ ← Runner_stop;
     _ ← close_done;
     lift_res reply).

Definition setComplete (c : CompletedJob) : GoM Runner unit :=
  modify (λ r, if r.(completedJob) is Some _ then r else r <| completedJob := Some c |>).

Definition setFail (f : FailedJob) : GoM Runner unit :=
  modify (λ r, if r.(failedJob) is Some _ then r
               else r <| failedJob := Some (mkFailedJob r.(runner_job).(AcquiredJob_JobId)
                                              f.(FailedJob_Error) f.(FailedJob_type)) |>).

Definition ForceStop : GoM Runner unit :=
  _ ← Runner_stop;
  look (λ r,
    if negb r.(okToSend) then mret tt
    else
      _ ← modify (λ r, r <| okToSend := false |>);
      _ ← close_done;
      modify (λ r, r <| failedJob := Some (mkFailedJob EmptyString EmptyString None) |>)).

Definition Runner_update (reply : res UpdateJobResponse) (u : UpdateJobRequest) : GoM Runner UpdateJobResponse :=
  look (λ r, if negb r.(okToSend) then throw errUpdateSkipped
             else _ ← send (SendUpdate u); lift_res reply).

(** [queueLog]; the result says whether it starts a goroutine that flushes. *)
Definition queueLog (log : proto_Log) : GoM Runner bool := λ r,
  let r := r <| queuedLogs := r.(queuedLogs) ++ [log] |> in
  if r.(flushLogsTimer) then (Ok false, r)
  else if (100 <? length r.(queuedLogs))%nat then (Ok true, r)
  else (Ok false, r <| flushLogsTimer := true |>).

(** [flushQueuedLogs] takes the logs in one section and sends them in another. *)
Definition flush_take : GoM Runner (list proto_Log) := λ r,
  (Ok r.(queuedLogs), r <| queuedLogs := [] |>).
Definition flush_request (jobId : string) (logs : list proto_Log) : UpdateJobRequest :=
  mkUpdateJobRequest jobId logs [] EmptyString.
Definition flush_send (reply : res UpdateJobResponse) (logs : list proto_Log) : GoM Runner unit :=
  look (λ r, _ ← attempt (Runner_update reply (flush_request r.(runner_job).(AcquiredJob_JobId) logs)); mret tt).

(** ** The goroutines *)

(** The runner with the calls of [flushQueuedLogs] that have taken logs and not
    sent them, whether the goroutine of the job has ended, and whether [Run] has
    returned. *)
Record running := mkRunning {
  shared_runner : Runner;
  flushing : gmap nat (list proto_Log);
  worker_ended : bool;
  run_returned : bool;
}.
#[global] Instance running_eta : Eta running := λ s,
  mkRunning s.(shared_runner) s.(flushing) s.(worker_ended) s.(run_returned).

Inductive runner_event :=
| EvUpdate (reply : res UpdateJobResponse) (u : UpdateJobRequest)
| EvQueueLog (log : proto_Log)
| EvFlushTake (i : nat)
| EvFlushSend (i : nat) (reply : res UpdateJobResponse)
| EvCancel
| EvFail (reply : res unit) (f : FailedJob)
| EvForceStop
| EvEnd (outcome : FailedJob + CompletedJob)
| EvRun.

(** [for r.failedJob == nil && r.completedJob == nil { r.cond.Wait() }] *)
Definition has_outcome (r : Runner) : bool :=
  match r.(failedJob), r.(completedJob) with None, None => false | _, _ => true end.

(** The panic of a method is the panic of the daemon. *)
Definition locked {A} (m : GoM Runner A) (s : running) : option (res unit * running) :=
  let '(result, r) := m s.(shared_runner) in
  Some (match result with Panic p => Panic p | _ => Ok tt end, s <| shared_runner := r |>).

Definition runner_exec (e : runner_event) (s : running) : option (res unit * running) :=
  match e with
  | EvUpdate reply u => locked (Runner_update reply u) s
  | EvQueueLog log => locked (queueLog log) s
  | EvFlushTake i =>
      match s.(flushing) !! i with
      | Some _ => None
      | None => let '(logs, r) := (s.(shared_runner).(queuedLogs), (flush_take s.(shared_runner)).2) in
                Some (Ok tt, s <| shared_runner := r |> <| flushing := <[i := logs]> s.(flushing) |>)
      end
  | EvFlushSend i reply =>
      match s.(flushing) !! i with
      | None => None
      | Some logs => locked (flush_send reply logs) (s <| flushing := delete i s.(flushing) |>)
      end
  | EvCancel => locked Runner_Cancel s
  | EvFail reply f => locked (Runner_Fail reply f) s
  | EvForceStop => locked ForceStop s
  | EvEnd outcome =>
      if s.(worker_ended) then None
      else locked (match outcome with inl f => setFail f | inr c => setComplete c end)
             (s <| worker_ended := true |>)
  | EvRun =>
      if s.(run_returned) || negb (has_outcome s.(shared_runner)) then None
      else locked Run_finish (s <| run_returned := true |>)
  end.

Definition runner_start (job : AcquiredJob) : running := mkRunning (runner_New job) ∅ false false.
