(* ===== verification/RunnerProps.v ===== *)
(** * The job runner of a provisioner daemon: properties

    In whatever order the goroutines of a runner take its mutex, the server hears
    of the end of the job at most once and of nothing after it, no channel is closed
    twice, and no log line is lost or sent twice while the job is under way. *)

From stdpp Require Import prelude gmap strings sorting.
From S2P Require Import Prelude Models ProvisionerdProto Runner.

(** ** Runs *)

(** The outcome of the job's goroutine is about the job ([RunnerJob]), and the
    client of the server answers. *)
Definition event_of (job : AcquiredJob) (e : runner_event) : Prop :=
  match e with
  | EvEnd (inr c) => c.(CompletedJob_JobId) = job.(AcquiredJob_JobId)
  | EvUpdate reply _ | EvFlushSend _ reply => panics reply = false
  | EvFail reply _ => panics reply = false
  | _ => True
  end.

(** A run, as the list of sections in the order they took the mutex. *)
Inductive runs (job : AcquiredJob) : list runner_event → running → Prop :=
| runs_start : runs job [] (runner_start job)
| runs_step es s e s' :
    runs job es s → event_of job e → runner_exec e s = Some (Ok tt, s') → runs job (es ++ [e]) s'.

Definition is_terminal (m : job_message) : bool := match m with SendUpdate _ => false | _ => true end.
Definition message_job (m : job_message) : string :=
  match m with
  | SendUpdate u => u.(UpdateJobRequest_JobId)
  | SendFailed f => f.(FailedJob_JobId)
  | SendCompleted c => c.(CompletedJob_JobId)
  end.

(** While messages may be sent only updates were; afterwards there may be one
    terminal message at the end, about the job. *)
Definition sent_ok (r : Runner) : Prop :=
  ∃ us ends, r.(sent) = us ++ ends ∧ Forall (λ m, is_terminal m = false) us ∧
    Forall (λ m, is_terminal m = true ∧ message_job m = r.(runner_job).(AcquiredJob_JobId)) ends ∧
    length ends ≤ (if r.(okToSend) then 0 else 1).

Record runner_ok (job : AcquiredJob) (r : Runner) : Prop := {
  ok_job : r.(runner_job) = job;
  ok_done : r.(done_closed) = negb r.(okToSend);
  ok_sent : sent_ok r;
  ok_failed : ∀ f, r.(okToSend) = true → r.(failedJob) = Some f → f.(FailedJob_JobId) = job.(AcquiredJob_JobId);
  ok_completed : ∀ c, r.(completedJob) = Some c → c.(CompletedJob_JobId) = job.(AcquiredJob_JobId);
  ok_timer : r.(flushLogsTimer) = false → r.(queuedLogs) = [];
}.

(** ** The sections keep the runner in order *)

(** A section that keeps [runner_ok] and does not panic. *)
Definition in_order {A} (job : AcquiredJob) (m : GoM Runner A) : Prop :=
  ∀ r, runner_ok job r → runner_ok job (m r).2 ∧ panics (m r).1 = false.

Lemma sent_ok_more (r : Runner) m :
  sent_ok r → r.(okToSend) = true → is_terminal m = false → sent_ok (r <| sent := r.(sent) ++ [m] |>).
Proof.
  intros (us & ends & Hs & Hus & _ & Hlen) Hok Hm. rewrite Hok in Hlen.
  destruct ends; [|simpl in Hlen; lia]. rewrite app_nil_r in Hs.
  exists (us ++ [m]), []. simpl. rewrite Hs, app_nil_r, Forall_app, Forall_singleton. split_and!; auto with lia.
Qed.
(** The end of the job, with a terminal message or without. *)
Lemma sent_ok_end (r r' : Runner) ends :
  sent_ok r → r.(okToSend) = true → r'.(sent) = r.(sent) ++ ends → r'.(runner_job) = r.(runner_job) →
  r'.(okToSend) = false → length ends ≤ 1 →
  Forall (λ m, is_terminal m = true ∧ message_job m = r.(runner_job).(AcquiredJob_JobId)) ends → sent_ok r'.
Proof.
  intros (us & old & Hs & Hus & _ & Hlen) Hok Hs' Hjob Hok' Hle Hends. rewrite Hok in Hlen.
  destruct old; [|simpl in Hlen; lia]. rewrite app_nil_r in Hs.
  exists us, ends. rewrite Hs', Hs, Hjob, Hok'. auto.
Qed.

Ltac keep := split; [split; first [assumption|by auto|by intros; simplify_eq/=; congruence]|done].

Section sections.
Context (job : AcquiredJob).

Lemma update_in_order reply u : panics reply = false → in_order job (Runner_update reply u).
Proof.
  intros Hrep r Hr. unfold Runner_update, look. destruct (okToSend r) eqn:Hok; simpl; [|done].
  split; [|done]. destruct Hr. split; auto. by apply sent_ok_more.
Qed.
Lemma queueLog_in_order log : in_order job (queueLog log).
Proof.
  intros r []. unfold queueLog. simpl. destruct (flushLogsTimer r) eqn:Ht; simpl; [keep|].
  rewrite ok_timer0 by done. keep.
Qed.
Lemma flush_take_in_order : in_order job flush_take.
Proof. intros r []. keep. Qed.
Lemma flush_send_in_order reply logs : panics reply = false → in_order job (flush_send reply logs).
Proof.
  intros Hrep r Hr. unfold flush_send, look, mbind, gom_bind, attempt.
  pose proof (update_in_order reply (flush_request (AcquiredJob_JobId (runner_job r)) logs) Hrep r Hr) as [Hk Hp].
  destruct (Runner_update _ _ r) as [[a|e|p] r']; done.
Qed.
Lemma cancel_in_order : in_order job Runner_Cancel.
Proof. intros r []. keep. Qed.
Lemma setFail_in_order f : in_order job (setFail f).
Proof.
  intros r Hr. unfold setFail, modify. destruct (failedJob r) eqn:Hf; simpl; [done|].
  destruct Hr. split; [|done]. split; auto. simpl. intros f' _ [= <-]. simpl. congruence.
Qed.
Lemma setComplete_in_order c :
  c.(CompletedJob_JobId) = job.(AcquiredJob_JobId) → in_order job (setComplete c).
Proof.
  intros Hc r Hr. unfold setComplete, modify. destruct (completedJob r) eqn:Hf; simpl; [done|].
  destruct Hr. split; [|done]. split; auto. simpl. congruence.
Qed.
Lemma ForceStop_in_order : in_order job ForceStop.
Proof.
  intros r Hr. unfold ForceStop, look, mbind, gom_bind, Runner_stop, modify, close_done. simpl.
  destruct (okToSend r) eqn:Hok; simpl; [|destruct Hr; keep]. destruct Hr.
  rewrite ok_done0, Hok. simpl. split; [|done]. split; auto; try done.
  apply (sent_ok_end r _ []); auto. by rewrite app_nil_r.
Qed.
Lemma Fail_in_order reply f : panics reply = false → in_order job (Runner_Fail reply f).
Proof.
  intros Hrep r Hr. unfold Runner_Fail, look, mbind, gom_bind, Runner_Cancel, Runner_stop, modify, send, close_done.
  simpl. destruct (okToSend r) eqn:Hok; simpl; [|destruct Hr; keep]. destruct Hr.
  rewrite ok_done0, Hok. simpl. split; [|done]. split; auto; try done.
  eapply (sent_ok_end r); eauto. apply Forall_singleton. split; [done|]. simpl. rewrite ok_job0.
  destruct (failedJob r) as [f'|] eqn:Hf; simpl; [by apply ok_failed0|done].
Qed.
Lemma Run_finish_in_order : in_order job Run_finish.
Proof.
  intros r Hr. unfold Run_finish, look. destruct (okToSend r) eqn:Hok; simpl; [|destruct Hr; keep].
  unfold mbind, gom_bind, Runner_stop, modify, send, close_done.
  destruct (failedJob r) as [f|] eqn:Hf; [|destruct (completedJob r) as [c|] eqn:Hc]; simpl;
    destruct Hr; rewrite ok_done0, Hok; simpl; (split; [|done]); split; auto; try done.
  - eapply (sent_ok_end r); eauto. apply Forall_singleton. split; [done|]. simpl. rewrite ok_job0. auto.
  - eapply (sent_ok_end r); eauto. apply Forall_singleton. split; [done|]. simpl. rewrite ok_job0. auto.
  - apply (sent_ok_end r _ []); auto. by rewrite app_nil_r.
Qed.
End sections.

Lemma locked_in_order {A} job (m : GoM Runner A) s res s' :
  in_order job m → runner_ok job s.(shared_runner) → locked m s = Some (res, s') →
  res = Ok tt ∧ runner_ok job s'.(shared_runner).
Proof.
  unfold locked. intros Hm Hs. destruct (Hm _ Hs) as [Hk Hp].
  destruct (m (shared_runner s)) as [[a|e|p] r]; intros [= <- <-]; done.
Qed.

Lemma exec_in_order job e s res s' :
  event_of job e → runner_ok job s.(shared_runner) → runner_exec e s = Some (res, s') →
  res = Ok tt ∧ runner_ok job s'.(shared_runner).
Proof.
  intros He Hs. destruct e; simpl in He |- *;
    try (apply locked_in_order; auto using update_in_order, queueLog_in_order, cancel_in_order,
           Fail_in_order, ForceStop_in_order).
  - destruct (flushing s !! i); [done|]. intros [= <- <-]. split; [done|]. by apply flush_take_in_order.
  - destruct (flushing s !! i); [|done]. apply locked_in_order; [by apply flush_send_in_order|done].
  - destruct (worker_ended s); [done|]. apply locked_in_order; [|done].
    destruct outcome; auto using setFail_in_order, setComplete_in_order.
  - destruct (_ || _); [done|]. apply locked_in_order; [apply Run_finish_in_order|done].
Qed.

Lemma runs_in_order job es s : runs job es s → runner_ok job s.(shared_runner).
Proof.
  induction 1 as [|es s e s' _ IH He Hex].
  - split; simpl; try done. exists [], []. simpl. auto.
  - by apply (exec_in_order job e s (Ok tt) s').
Qed.

(** ** The end of the job *)

(** An ended job has an outcome and was reported, unless the daemon was [forced]
    to stop at once. *)
Definition concluded (forced : Prop) (r : Runner) : Prop :=
  r.(okToSend) = false → has_outcome r = true ∧ (forced ∨ Exists is_terminal r.(sent)).

Lemma no_terminal us : Forall (λ m, is_terminal m = false) us → ¬ Exists is_terminal us.
Proof.
  rewrite Forall_forall. intros Hus (m & Hm & Ht%Is_true_eq_true)%Exists_exists. specialize (Hus m Hm). congruence.
Qed.

(** A section keeps this, the outcome and the end. *)
Definition concludes_at {A} (forced : Prop) (m : GoM Runner A) (r : Runner) : Prop :=
  (concluded forced r → concluded forced (m r).2) ∧ (has_outcome r = true → has_outcome (m r).2 = true) ∧
  (r.(okToSend) = false → (m r).2.(okToSend) = false).
Definition concludes {A} (forced : Prop) (m : GoM Runner A) : Prop := ∀ r, concludes_at forced m r.

Lemma Exists_last {A} (P : A → Prop) l x : P x → Exists P (l ++ [x]).
Proof. intros. apply Exists_app. right. by constructor. Qed.
#[local] Hint Resolve Exists_last : core.

(** The cases of a section by the state it finds. *)
Ltac sections :=
  unfold concludes, concludes_at, concluded, has_outcome, Runner_update, queueLog, flush_take, flush_send, Runner_Fail, ForceStop,
    Run_finish, setFail, setComplete, Runner_Cancel, Runner_stop, send, close_done, look, attempt, mbind, gom_bind, modify,
    lift_res, throw;
  intros [? ? [] [] [] [] [] ? ? ?]; simpl; repeat (case_match; simplify_eq/=);
    (split; [intros Hc ?; try specialize (Hc eq_refl); try discriminate; intuition eauto|by split]).

Section concludes.
Context (forced : Prop).

Lemma concludes_update reply u : concludes forced (Runner_update reply u).
Proof. sections. Qed.
Lemma concludes_queueLog log : concludes forced (queueLog log).
Proof. sections. Qed.
Lemma concludes_cancel : concludes forced Runner_Cancel.
Proof. sections. Qed.
Lemma concludes_flush_take : concludes forced flush_take.
Proof. sections. Qed.
Lemma concludes_flush_send reply logs : concludes forced (flush_send reply logs).
Proof. sections. Qed.
Lemma concludes_Fail reply f : concludes forced (Runner_Fail reply f).
Proof. sections. Qed.
Lemma concludes_setFail f : concludes forced (setFail f).
Proof. sections. Qed.
Lemma concludes_setComplete c : concludes forced (setComplete c).
Proof. sections. Qed.
Lemma concludes_ForceStop r : forced → r.(done_closed) = negb r.(okToSend) → concludes_at forced ForceStop r.
Proof.
  unfold concludes_at, concluded, ForceStop, has_outcome, look, Runner_stop, modify, close_done, mbind, gom_bind.
  destruct r as [? ? ? ? ? [] ? ? ? ?]; simpl; intros ? ->; simpl; auto.
Qed.
Lemma concludes_Run_finish r :
  has_outcome r = true → r.(done_closed) = negb r.(okToSend) →
  concludes_at forced Run_finish r ∧ (Run_finish r).2.(okToSend) = false.
Proof.
  unfold concludes_at, concluded, Run_finish, has_outcome, look, Runner_stop, modify, close_done, send, mbind, gom_bind.
  destruct r as [? ? ? [] [] [] ? ? ? ?]; simpl; intros Hr ->; simplify_eq/=; eauto 10.
Qed.
End concludes.

Lemma concluded_mono (P Q : Prop) r : (P → Q) → concluded P r → concluded Q r.
Proof. unfold concluded. naive_solver. Qed.

(** What [Run] waits for, and what it leaves. *)
Record ended_ok (es : list runner_event) (s : running) : Prop := {
  ended_concluded : concluded (EvForceStop ∈ es) s.(shared_runner);
  ended_outcome : s.(worker_ended) = true → has_outcome s.(shared_runner) = true;
  ended_returned : s.(run_returned) = true → s.(shared_runner).(okToSend) = false;
}.

Lemma locked_Some {A} (m : GoM Runner A) s res s' :
  locked m s = Some (res, s') → s' = s <| shared_runner := (m s.(shared_runner)).2 |>.
Proof. unfold locked. destruct (m (shared_runner s)). by intros [= _ <-]. Qed.

Lemma ended_section {A} es s e (m : GoM Runner A) s1 res s' :
  ended_ok es s → s1.(shared_runner) = s.(shared_runner) → s1.(run_returned) = s.(run_returned) →
  (s1.(worker_ended) = true → has_outcome (m s.(shared_runner)).2 = true ∨ s.(worker_ended) = true) →
  concludes_at (EvForceStop ∈ es ++ [e]) m s.(shared_runner) → locked m s1 = Some (res, s') → ended_ok (es ++ [e]) s'.
Proof.
  intros [Hc Ho Hr] Hsh Hret Hw (Hm & Hout & Hend) ->%locked_Some. rewrite Hsh. split; simpl.
  - apply Hm. eapply concluded_mono, Hc. rewrite elem_of_app. auto.
  - intros Hd. destruct (Hw Hd); auto.
  - rewrite Hret. auto.
Qed.

Lemma has_outcome_setFail f r : has_outcome (setFail f r).2 = true.
Proof. unfold has_outcome, setFail, modify. simpl. by destruct (failedJob r) eqn:Hf; simpl; rewrite ?Hf. Qed.
Lemma has_outcome_setComplete c r : has_outcome (setComplete c r).2 = true.
Proof.
  unfold has_outcome, setComplete, modify. simpl.
  by destruct (completedJob r) eqn:Hc; simpl; rewrite ?Hc; case_match.
Qed.

Lemma ended_step job es s e res s' :
  runner_ok job s.(shared_runner) → ended_ok es s → runner_exec e s = Some (res, s') → ended_ok (es ++ [e]) s'.
Proof.
  intros Hok Hs. destruct e; simpl.
  - eapply ended_section; eauto. apply concludes_update.
  - eapply ended_section; eauto. apply concludes_queueLog.
  - destruct (flushing s !! i); [done|]. intros [= <- <-]. destruct Hs as [Hc Ho Hr]. split; simpl; auto.
    eapply concluded_mono, Hc. rewrite elem_of_app. auto.
  - destruct (flushing s !! i); [|done]. eapply ended_section; eauto. apply concludes_flush_send.
  - eapply ended_section; eauto. apply concludes_cancel.
  - eapply ended_section; eauto. apply concludes_Fail.
  - eapply ended_section; eauto. apply concludes_ForceStop; [|apply Hok]. rewrite elem_of_app, list_elem_of_singleton. auto.
  - destruct (worker_ended s); [done|].
    destruct outcome as [f|c].
    + eapply ended_section; [done..| |apply concludes_setFail]. intros _. left. apply has_outcome_setFail.
    + eapply ended_section; [done..| |apply concludes_setComplete]. intros _. left. apply has_outcome_setComplete.
  - destruct (run_returned s) eqn:Hr; [done|]. destruct (has_outcome (shared_runner s)) eqn:Ho; [|done]. simpl.
    destruct (concludes_Run_finish (EvForceStop ∈ es ++ [EvRun]) (shared_runner s) Ho (ok_done _ _ Hok)) as ((Hm & Hout & _) & Hend).
    intros ->%locked_Some. split; simpl; auto.
    apply Hm. eapply concluded_mono, Hs. rewrite elem_of_app. auto.
Qed.

Lemma runs_ended job es s : runs job es s → ended_ok es s.
Proof.
  induction 1 as [|es s e s' Hruns IH He Hex]; [by split|].
  eapply ended_step; eauto using runs_in_order.
Qed.

(** C23: However the goroutines of a runner interleave, the server gets updates and
    then at most one terminal message, which names the job and which nothing
    follows; exactly one when [Run] has returned and nobody forced the runner to
    stop; and no method panics, so that the channel of [Done] is closed exactly
    when messages are over. *)
Theorem runner_reports_once (job : AcquiredJob) (es : list runner_event) (s : running) :
  runs job es s →
  let r := s.(shared_runner) in
  (∃ updates ends, r.(sent) = updates ++ ends ∧ Forall (λ m, is_terminal m = false) updates ∧
     Forall (λ m, is_terminal m = true ∧ message_job m = job.(AcquiredJob_JobId)) ends ∧ length ends ≤ 1 ∧
     (r.(okToSend) = true → ends = []) ∧
     (s.(run_returned) = true → EvForceStop ∉ es → length ends = 1)) ∧
  r.(done_closed) = negb r.(okToSend) ∧
  (∀ e result s', event_of job e → runner_exec e s = Some (result, s') → result = Ok tt).
Proof.
  intros Hruns r. pose proof (runs_in_order _ _ _ Hruns) as Hok. pose proof (runs_ended _ _ _ Hruns) as Hend.
  pose proof (ok_sent _ _ Hok) as (us & ends & Hs & Hus & Hends & Hlen). rewrite (ok_job _ _ Hok) in Hends.
  split_and!.
  - exists us, ends. split_and!; auto.
    + destruct (okToSend (shared_runner s)); lia.
    + intros Hr. fold r in Hlen. rewrite Hr in Hlen. destruct ends; [done|simpl in Hlen; lia].
    + intros Hret Hforce. pose proof (ended_returned _ _ Hend Hret) as Hr.
      destruct (ended_concluded _ _ Hend Hr) as [_ [?|Hex]]; [done|].
      rewrite Hs, Exists_app in Hex. rewrite Hr in Hlen.
      destruct ends as [|m []]; [|done|simpl in Hlen; lia]. exfalso.
      destruct Hex as [Hex|Hex%Exists_nil]; [by eapply no_terminal|done].
  - apply Hok.
  - intros e result s' He Hex. by apply (exec_in_order job e s result s').
Qed.

(** When the job is over (its goroutine ended, or it was failed or stopped from
    outside), [Run] is not stuck: it can take its last section, after which it
    has returned, [Done] is closed and both contexts are canceled. *)
Theorem runner_returns (job : AcquiredJob) (es : list runner_event) (s : running) :
  runs job es s → s.(worker_ended) = true ∨ s.(shared_runner).(okToSend) = false → s.(run_returned) = false →
  ∃ s', runner_exec EvRun s = Some (Ok tt, s') ∧ s'.(run_returned) = true ∧
    s'.(shared_runner).(done_closed) = true ∧ s'.(shared_runner).(stopped) = true ∧ s'.(shared_runner).(canceled) = true.
Proof.
  intros Hruns Hover Hret. pose proof (runs_in_order _ _ _ Hruns) as Hok. pose proof (runs_ended _ _ _ Hruns) as Hend.
  assert (has_outcome (shared_runner s) = true) as Hout.
  { destruct Hover as [Hw|Ho]; [exact (ended_outcome _ _ Hend Hw)|exact (proj1 (ended_concluded _ _ Hend Ho))]. }
  simpl. rewrite Hret, Hout. simpl.
  pose proof (Run_finish_in_order job (shared_runner s) Hok) as [Hok' Hp].
  pose proof (concludes_Run_finish True _ Hout (ok_done _ _ Hok)) as [_ Hsend].
  assert (stopped (Run_finish (shared_runner s)).2 = true ∧ canceled (Run_finish (shared_runner s)).2 = true) as [Hst Hca].
  { revert Hp. unfold Run_finish, look, Runner_stop, modify, close_done, send, mbind, gom_bind.
    by destruct (shared_runner s) as [? ? ? [] [] [] [] ? ? ?]. }
  pose proof (ok_done _ _ Hok') as Hd. rewrite Hsend in Hd.
  unfold locked. simpl. destruct (Run_finish (shared_runner s)) as [[[]|e|p] r]; simpl in *; [| |done];
    (eexists; split_and!; eauto).
Qed.

(** ** Log lines *)

(** The lines the sections handed to the runner, and those of the messages. *)
Definition logged (e : runner_event) : list proto_Log :=
  match e with EvQueueLog log => [log] | EvUpdate _ u => u.(UpdateJobRequest_Logs) | _ => [] end.
Definition message_logs (m : job_message) : list proto_Log :=
  match m with SendUpdate u => u.(UpdateJobRequest_Logs) | _ => [] end.
(** The lines that a call of [flushQueuedLogs] holds. *)
Definition held (calls : gmap nat (list proto_Log)) : list proto_Log := (map_to_list calls).*2 ≫= id.

Definition all_logs (s : running) : list proto_Log :=
  (s.(shared_runner).(sent) ≫= message_logs) ++ s.(shared_runner).(queuedLogs) ++ held s.(flushing).

Lemma held_insert i logs m : m !! i = None → held (<[i := logs]> m) ≡ₚ logs ++ held m.
Proof. intros Hi. unfold held. simpl. by rewrite map_to_list_insert. Qed.

Lemma held_delete i logs m : m !! i = Some logs → held m ≡ₚ logs ++ held (delete i m).
Proof.
  intros Hi. rewrite <-(insert_delete_id m i logs) at 1 by done. apply held_insert, lookup_delete_eq.
Qed.

(** Once over, the job stays over. *)
Lemma okToSend_step e s res s' :
  runner_exec e s = Some (res, s') → s'.(shared_runner).(okToSend) = true → s.(shared_runner).(okToSend) = true.
Proof.
  intros Hex. destruct (okToSend (shared_runner s)) eqn:Hok; [done|]. intros <-. symmetry.
  destruct e; simpl in Hex; repeat case_match; simplify_eq; simpl;
    try (apply locked_Some in Hex as ->); simpl; try done;
    try (unfold ForceStop, Run_finish, look, mbind, gom_bind, modify, Runner_stop; simpl; rewrite Hok; done).
  - by apply (concludes_update True).
  - by apply (concludes_queueLog True).
  - by apply (concludes_flush_send True).
  - by apply (concludes_Fail True).
  - by apply (concludes_setFail True).
  - by apply (concludes_setComplete True).
Qed.

Lemma all_logs_step e s res s' :
  s.(shared_runner).(done_closed) = negb s.(shared_runner).(okToSend) →
  runner_exec e s = Some (res, s') → s'.(shared_runner).(okToSend) = true → all_logs s' ≡ₚ all_logs s ++ logged e.
Proof.
  intros Hd Hex Hok'. pose proof (okToSend_step _ _ _ _ Hex Hok') as Hok.
  destruct s as [r fl w rr]. simpl in Hok, Hd. rewrite Hok in Hd. destruct e; simpl in Hex |- *.
  - apply locked_Some in Hex as ->. unfold all_logs, Runner_update, look. simpl. rewrite Hok. simpl.
    rewrite bind_app. simpl. rewrite app_nil_r. solve_Permutation.
  - apply locked_Some in Hex as ->. unfold all_logs, queueLog. simpl.
    repeat case_match; simpl; solve_Permutation.
  - destruct (fl !! i) eqn:Hi; [done|]. simplify_eq/=. unfold all_logs. simpl. rewrite held_insert by done.
    solve_Permutation.
  - destruct (fl !! i) as [logs|] eqn:Hi; [|done]. apply locked_Some in Hex as ->. unfold all_logs. simpl.
    rewrite (held_delete i logs fl) by done. unfold flush_send, Runner_update, look, attempt, mbind, gom_bind, lift_res.
    simpl. rewrite Hok. simpl. destruct reply; simpl; rewrite bind_app; simpl; rewrite !app_nil_r; solve_Permutation.
  - apply locked_Some in Hex as ->. unfold all_logs. simpl. by rewrite app_nil_r.
  - exfalso. apply locked_Some in Hex as ->. revert Hok'. unfold Runner_Fail, look. simpl. rewrite Hok. simpl.
    unfold close_done, mbind, gom_bind. simpl. by destruct (done_closed r).
  - exfalso. apply locked_Some in Hex as ->. revert Hok'. unfold ForceStop, look, mbind, gom_bind. simpl. rewrite Hok.
    unfold close_done. simpl. by destruct (done_closed r).
  - destruct w; [done|]. apply locked_Some in Hex as ->. unfold all_logs. simpl. rewrite app_nil_r.
    destruct outcome; simpl; by case_match.
  - exfalso. destruct (_ || _); [done|]. apply locked_Some in Hex as ->. revert Hok'.
    unfold Run_finish, look. simpl. rewrite Hok. unfold close_done, mbind, gom_bind, send, modify. simpl.
    destruct (failedJob r), (completedJob r); simpl; by rewrite Hd.
Qed.

Lemma runs_logs job es s : runs job es s → s.(shared_runner).(okToSend) = true → all_logs s ≡ₚ es ≫= logged.
Proof.
  induction 1 as [|es s e s' Hruns IH He Hex]; [done|]. intros Hok'.
  rewrite (all_logs_step e s (Ok tt) s'), bind_app, IH by eauto using ok_done, runs_in_order, okToSend_step.
  simpl. by rewrite app_nil_r.
Qed.

(** C38: No log line is lost and none is passed on twice while the outcome of a job is not
    reported yet, however its goroutines interleave, the timer that flushes and the
    heartbeat among them: the lines in the calls made to the server, in the buffer and in
    the hands of a flush are, each as often, those that were queued or passed to an
    update. Lines of a call that the server answers with an error count as passed on. *)
Theorem runner_logs_conserved (job : AcquiredJob) (es : list runner_event) (s : running) :
  runs job es s → s.(shared_runner).(okToSend) = true → all_logs s ≡ₚ es ≫= logged.
Proof. apply runs_logs. Qed.

(** [queueLog] would flush a buffer of more than a hundred lines at once, but the
    buffer is empty whenever there is no timer, and a timer stays. *)
Lemma queueLog_waits job es s log :
  runs job es s → (queueLog log s.(shared_runner)).1 = Ok false.
Proof.
  intros Hruns. pose proof (ok_timer _ _ (runs_in_order _ _ _ Hruns)) as Hok. unfold queueLog. simpl.
  destruct (flushLogsTimer (shared_runner s)); [done|]. by rewrite Hok.
Qed.

(** ** Examples *)

Module RunnerExamples.

Definition the_job : AcquiredJob := mkAcquiredJob "j1" 0 "terraform" "alice" [] None.
Definition line (text : string) : proto_Log := mkLog LogSource_PROVISIONER LogLevel_INFO 0 "Plan" text.
Definition fine : res UpdateJobResponse := Ok (mkUpdateJobResponse false []).

Definition run_events (es : list runner_event) (s : running) : option running :=
  foldl (λ s e, s ← s; match runner_exec e s with Some (Ok _, s') => Some s' | _ => None end) (Some s) es.

Lemma runs_events job es s : Forall (event_of job) es → run_events es (runner_start job) = Some s → runs job es s.
Proof.
  unfold run_events. revert s. induction es as [|e es IH] using rev_ind; simpl; intros s Hall Hrun.
  { simplify_eq. constructor. }
  apply Forall_app in Hall as [Hall He]. apply Forall_inv in He. rewrite foldl_app in Hrun. simpl in Hrun.
  destruct (foldl _ _ es) as [s0|] eqn:H0; [|done]. simpl in Hrun.
  destruct (runner_exec e s0) as [[[[]| |] s1]|] eqn:Hex; try done. injection Hrun as <-.
  eapply runs_step; [by apply IH|done|done].
Qed.

(** The last state of a run. *)
Definition after (es : list runner_event) : running := default (runner_start the_job) (run_events es (runner_start the_job)).

(** A job that logs, is flushed, and is failed from outside while its goroutine
    completes it. *)
Definition busy : list runner_event :=
  [EvQueueLog (line "a"); EvFlushTake 0; EvQueueLog (line "b");
   EvUpdate fine (flush_request "j1" [line "c"]); EvFlushSend 0 fine].
Definition raced : list runner_event :=
  busy ++ [EvEnd (inr (mkCompletedJob "j1" None)); EvFail (Ok tt) (mkFailedJob EmptyString "closing" None)].
Definition returned : list runner_event := raced ++ [EvUpdate fine (flush_request "j1" [line "d"]); EvRun].

Lemma runner_reports_once_witness :
  runs the_job returned (after returned) ∧
  map is_terminal (after returned).(shared_runner).(sent) = [false; false; true] ∧
  ((after returned).(shared_runner).(done_closed) = negb (after returned).(shared_runner).(okToSend)).
Proof.
  assert (runs the_job returned (after returned)) as H by (apply runs_events; [repeat constructor|by vm_compute]).
  split; [exact H|]. split; [by vm_compute|].
  pose proof (runner_reports_once _ _ _ H) as (_ & Hd & _). exact Hd.
Defined.

Lemma runner_returns_witness :
  ∃ s', runner_exec EvRun (after raced) = Some (Ok tt, s') ∧ s'.(shared_runner).(done_closed) = true.
Proof.
  destruct (runner_returns the_job raced (after raced)) as (s' & H & _ & Hd & _).
  - apply runs_events; [repeat constructor|by vm_compute].
  - left. by vm_compute.
  - by vm_compute.
  - exists s'. exact (conj H Hd).
Defined.

Lemma runner_logs_conserved_witness : all_logs (after busy) ≡ₚ [line "a"; line "b"; line "c"].
Proof.
  apply (runner_logs_conserved the_job busy (after busy)); [|by vm_compute].
  apply runs_events; [repeat constructor|by vm_compute].
Defined.

(** Two flushes, of the timer and of the end of a stage, may send their batches in
    the other order: the server gets line [b] before line [a]. *)
Example logs_reordered :
  (after [EvQueueLog (line "a"); EvFlushTake 0; EvQueueLog (line "b"); EvFlushTake 1;
          EvFlushSend 1 fine; EvFlushSend 0 fine]).(shared_runner).(sent) ≫= message_logs = [line "b"; line "a"].
Proof. by vm_compute. Qed.

End RunnerExamples.
