(* ===== verification/RunnerJob.v ===== *)
(** * The job runner of a provisioner daemon: doing the job

    [provisionerd/runner/runner.go], the goroutine that does the job, and
    [quota.go]. What it does to the outside is the list of its calls, in order and
    with their replies. A reply is a function of the calls so far: the server, the
    provisioner and the file system are arbitrary ([JobEnv]). A stream of the
    provisioner is a finite list of messages and the error that follows them. The
    request to cancel that another goroutine may send on a stream is not among the
    calls. Lines are queued and flushed as [Runner] says. *)

From stdpp Require Import prelude gmap strings pretty.
From S2P Require Import Prelude Models ProvisionerdProto FilePath Runner.

Local Open Scope Z_scope.

(** ** Calls *)

Inductive fs_op :=
| FsMkdirAll (path : string) (mode : Z)
| FsOpenFile (path : string) (mode : Z)
| FsWrite (path : string) (content : bytes)
| FsClose (path : string)
| FsRemoveAll (path : string).

(** How a stream goes: it is not opened, the request cannot be sent, or messages
    come and then an error. *)
Inductive stream (M : Type) :=
| OpenError (e : error)
| SendError (e : error)
| Messages (l : list M) (e : error).
Arguments OpenError {M} _.
Arguments SendError {M} _.
Arguments Messages {M} _ _.

Inductive call :=
| CallLog (log : proto_Log)
| CallFlush
| CallUpdate (u : UpdateJobRequest) (reply : error + UpdateJobResponse)
| CallQuota (q : CommitQuotaRequest) (reply : error + CommitQuotaResponse)
| CallParse (directory : string) (reply : stream Parse_Response)
| CallProvision (req : Provision_Request) (reply : stream Provision_Response)
| CallUuid (reply : error + uuid)
| CallReadFile (path : string) (reply : error + string)
| CallFs (op : fs_op) (reply : error + unit).

Class JobEnv := {
  env_now : list call → time;
  env_uuid : list call → error + uuid;
  env_update : list call → UpdateJobRequest → error + UpdateJobResponse;
  env_quota : list call → CommitQuotaRequest → error + CommitQuotaResponse;
  env_parse : list call → string → stream Parse_Response;
  env_provision : list call → Provision_Request → stream Provision_Response;
  env_read : list call → string → error + string;
  env_fs : list call → fs_op → error + unit;
  (** An error printed with [%+v]. *)
  env_verbose : error → string;
}.

(** [archive/tar]: the headers with the contents that can be read after them,
    each with the error that ends it if that is not the end of the file, and the
    error that ends the archive. *)
Record tar_Header := mkTarHeader {
  Header_Name : string;
  Header_Typeflag : Z;
  Header_Mode : Z;
}.
Record tar_entry := mkTarEntry {
  entry_header : tar_Header;
  entry_content : bytes;
  entry_error : option error;
}.
Class TarReader := tar_read : bytes → list tar_entry * option error.

Definition tar_TypeReg : Z := 48.
Definition tar_TypeDir : Z := 53.

(** ** The effect of the code *)

(** A job fails with the message for the server, or the daemon panics. *)
Inductive jres (A : Type) :=
| Done (a : A)
| Failed (f : FailedJob)
| Crashed (msg : string).
Arguments Done {A} _.
Arguments Failed {A} _.
Arguments Crashed {A} _.

Definition Job (A : Type) : Type := list call → jres A * list call.
#[global] Instance job_ret : MRet Job := λ _ a h, (Done a, h).
#[global] Instance job_bind : MBind Job := λ _ _ k m h,
  match m h with
  | (Done a, h') => k a h'
  | (Failed f, h') => (Failed f, h')
  | (Crashed p, h') => (Crashed p, h')
  end.
Definition fails {A} (f : FailedJob) : Job A := λ h, (Failed f, h).
Definition crashes {A} (msg : string) : Job A := λ h, (Crashed msg, h).

(** Code that returns a Go error, and what its caller makes of it. *)
Abbreviation Step A := (GoM (list call) A).
Definition or_fail {A} (m : Step A) (f : error → FailedJob) : Job A := λ h,
  match m h with
  | (Ok a, h') => (Done a, h')
  | (Err e, h') => (Failed (f e), h')
  | (Panic p, h') => (Crashed p, h')
  end.
Definition lift_sum {A} (x : error + A) : Step A := λ h, (match x with inl e => Err e | inr a => Ok a end, h).
(** Append a call; its reply depends on those before. *)
Definition calling {R} (ask : list call → R) (c : R → call) : Step R := λ h, (Ok (ask h), h ++ [c (ask h)]).

Section job.
Context `{JobEnv, TarReader, UuidText}.
Context (workDirectory : string) (job : AcquiredJob).

Definition failedJobf (msg : string) : FailedJob := mkFailedJob job.(AcquiredJob_JobId) msg None.
Definition failed_with (msg : string) (e : error) : FailedJob := failedJobf (msg +:+ ": " +:+ error_string e).

Definition queue (source : proto_LogSource) (level : proto_LogLevel) (stage output : string) : Step unit :=
  λ h, (Ok tt, h ++ [CallLog (mkLog source level (UnixMilli (env_now h)) stage output)]).
Definition daemon_log (level : proto_LogLevel) (stage : string) : Step unit :=
  queue LogSource_PROVISIONER_DAEMON level stage EmptyString.
Definition flushQueuedLogs : Step unit := λ h, (Ok tt, h ++ [CallFlush]).

Definition call_update (u : UpdateJobRequest) : Step UpdateJobResponse :=
  r ← calling (λ h, env_update h u) (CallUpdate u); lift_sum r.
Definition call_quota (q : CommitQuotaRequest) : Step CommitQuotaResponse :=
  r ← calling (λ h, env_quota h q) (CallQuota q); lift_sum r.
Definition call_parse (directory : string) : Step (stream Parse_Response) :=
  calling (λ h, env_parse h directory) (CallParse directory).
Definition call_provision (req : Provision_Request) : Step (stream Provision_Response) :=
  calling (λ h, env_provision h req) (CallProvision req).
Definition call_read (path : string) : Step (error + string) :=
  calling (λ h, env_read h path) (CallReadFile path).
Definition call_fs (op : fs_op) : Step unit :=
  r ← calling (λ h, env_fs h op) (CallFs op); lift_sum r.

(** A step whose error nobody looks at, or that has none. *)
Definition does {A} (m : Step A) : Job A := or_fail m (failed_with EmptyString).

(** ** Unpacking the template *)

(** [os.FileMode.String] *)
Definition mode_string (m : Z) : string :=
  let letters (high : Z) (s : string) (absent : string) :=
    String.concat EmptyString (imap (λ i c, if Z.testbit m (high - Z.of_nat i) then String c EmptyString else absent)
                                 (String.list_ascii_of_string s)) in
  let kind := letters 31 "dalTLDpSugct?" EmptyString in
  (if kind == EmptyString then "-" else kind) +:+ letters 8 "rwxrwxrwx" "-".

(** [io.CopyN] copies the content up to the size, and then returns no error. *)
Definition max_entry_size : Z := Z.shiftl 10 20.
Definition copied (e : tar_entry) : bytes :=
  if Z.of_nat (length e.(entry_content)) <=? max_entry_size then e.(entry_content)
  else take (Z.to_nat max_entry_size) e.(entry_content).
Definition copy_error (e : tar_entry) : option error :=
  if Z.of_nat (length e.(entry_content)) <? max_entry_size then
    match e.(entry_error) with
    | Some err => if errors_Is err ErrEOF then None else Some err
    | None => None
    end
  else None.

Definition unpack_entry (e : tar_entry) : Job unit :=
  let header := e.(entry_header) in
  let headerPath := filepath_Join [workDirectory; header.(Header_Name)] in
  if negb (HasPrefix headerPath (filepath_Clean workDirectory)) then
    fails (failedJobf "tar attempts to target relative upper directory")
  else
    let mode := if header.(Header_Mode) == 0 then 384 else header.(Header_Mode) in
    if header.(Header_Typeflag) == tar_TypeDir then
      or_fail (call_fs (FsMkdirAll headerPath mode)) (failed_with ("mkdir " +:+ quote headerPath))
    else if header.(Header_Typeflag) == tar_TypeReg then
      _ ← or_fail (call_fs (FsOpenFile headerPath mode))
            (failed_with ("create file " +:+ quote headerPath +:+ " (mode " +:+ mode_string mode +:+ ")"));
      written ← does (attempt (call_fs (FsWrite headerPath (copied e))));
      match written, copy_error e with
      | inl err, _ | inr _, Some err =>
          _ ← does (attempt (call_fs (FsClose headerPath)));
          fails (failed_with ("copy file " +:+ quote headerPath) err)
      | inr _, None => or_fail (call_fs (FsClose headerPath)) (failed_with ("close file " +:+ quote headerPath))
      end
    else mret tt.

Fixpoint unpack (l : list tar_entry) : Job unit :=
  match l with
  | [] => mret tt
  | e :: l => _ ← unpack_entry e; unpack l
  end.

(** ** Importing a template *)

Definition ReadmeFile : string := "README.md".
Definition MissingParameterErrorText : string := "missing parameter".

Definition runReadmeParse : Job unit :=
  fi ← does (call_read (filepath_Join [workDirectory; ReadmeFile]));
  match fi with
  | inl _ => does (daemon_log LogLevel_DEBUG "No README.md provided")
  | inr fi =>
      _ ← or_fail (λ h, call_update
            (mkUpdateJobRequest job.(AcquiredJob_JobId)
               [mkLog LogSource_PROVISIONER_DAEMON LogLevel_INFO (UnixMilli (env_now h)) "Adding README.md..." EmptyString]
               [] fi) h) (failed_with "write log");
      mret tt
  end.

(** [reflect.TypeOf(msg.Type).String()] of a message without a type. *)

Fixpoint parse_messages (l : list Parse_Response) (e : error) : Step (list proto_ParameterSchema) :=
  match l with
  | [] => throw (ErrWrap "recv parse source" e)
  | Parse_Response_Log log :: l =>
      _ ← queue LogSource_PROVISIONER log.(sdkLog_Level) "Parse parameters" log.(sdkLog_Output); parse_messages l e
  | Parse_Response_Complete schemas :: _ => mret schemas
  | Parse_Response_nil :: _ => lift_res (Panic nil_dereference)
  end.

Definition runTemplateImportParse : Step (list proto_ParameterSchema) :=
  stream ← call_parse workDirectory;
  match stream with
  | OpenError e | SendError e => throw (ErrWrap "parse source" e)
  | Messages l e => parse_messages l e
  end.

Fixpoint import_messages (stage : string) (l : list Provision_Response) (e : error) : Step (list proto_Resource) :=
  match l with
  | [] => throw (ErrWrap "recv import provision" e)
  | Provision_Response_Log log :: l =>
      _ ← queue LogSource_PROVISIONER log.(sdkLog_Level) stage log.(sdkLog_Output); import_messages stage l e
  | Provision_Response_Complete c :: _ =>
      if c.(Complete_Error) != EmptyString then throw (ErrNew c.(Complete_Error)) else mret c.(Complete_Resources)
  | Provision_Response_nil :: _ => lift_res (Panic nil_dereference)
  end.

Definition import_stage (t : proto_WorkspaceTransition) : string :=
  match t with
  | WorkspaceTransition_START => "Detecting persistent resources"
  | WorkspaceTransition_STOP => "Detecting ephemeral resources"
  | WorkspaceTransition_DESTROY | WorkspaceTransition_unknown _ => EmptyString
  end.

Definition runTemplateImportProvision (values : list proto_ParameterValue) (metadata : Provision_Metadata) :
    Step (list proto_Resource) :=
  stream ← call_provision (Provision_Request_Plan (Some (mkProvisionConfig workDirectory [] (Some metadata))) values);
  match stream with
  | OpenError e => throw (ErrWrap "provision" e)
  | SendError e => throw (ErrWrap "start provision" e)
  | Messages l e => import_messages (import_stage metadata.(Metadata_WorkspaceTransition)) l e
  end.

Definition import_metadata (CoderUrl : string) (t : proto_WorkspaceTransition) : Provision_Metadata :=
  mkProvisionMetadata CoderUrl t EmptyString EmptyString EmptyString EmptyString EmptyString.

(** A field of metadata that may be missing is read. *)
Definition deref_metadata (metadata : option Provision_Metadata) : Job Provision_Metadata :=
  match metadata with Some metadata => mret metadata | None => crashes nil_dereference end.

(** The first schema without a value. *)
Definition missing_value (schemas : list proto_ParameterSchema) (values : list proto_ParameterValue) :
    option proto_ParameterSchema :=
  let valueByName : gmap string proto_ParameterValue :=
    foldl (λ m v, <[v.(proto_ParameterValue_Name) := v]> m) ∅ values in
  find_first (λ s, bool_decide (valueByName !! s.(proto_ParameterSchema_Name) = None)) schemas.

Definition runTemplateImport (metadata : option Provision_Metadata) : Job CompletedJob :=
  _ ← does (daemon_log LogLevel_INFO "Parsing template parameters");
  parameterSchemas ← or_fail runTemplateImportParse (failed_with "run parse");
  updateResponse ← or_fail (call_update (mkUpdateJobRequest job.(AcquiredJob_JobId) [] parameterSchemas EmptyString))
                     (failed_with "update job");
  let values := updateResponse.(UpdateJobResponse_ParameterValues) in
  match missing_value parameterSchemas values with
  | Some schema => fails (failedJobf (MissingParameterErrorText +:+ ": " +:+ schema.(proto_ParameterSchema_Name)))
  | None =>
      _ ← does (daemon_log LogLevel_INFO "Detecting persistent resources");
      metadata ← deref_metadata metadata;
      startResources ← or_fail (runTemplateImportProvision values
                          (import_metadata metadata.(Metadata_CoderUrl) WorkspaceTransition_START))
                         (failed_with "template import provision for start");
      _ ← does (daemon_log LogLevel_INFO "Detecting ephemeral resources");
      stopResources ← or_fail (runTemplateImportProvision values
                         (import_metadata metadata.(Metadata_CoderUrl) WorkspaceTransition_STOP))
                        (failed_with "template import provision for stop");
      mret (mkCompletedJob job.(AcquiredJob_JobId) (Some (CompletedJob_TemplateImport startResources stopResources)))
  end.

(** ** Dry runs *)

Definition or_default (s d : string) : string := if s == EmptyString then d else s.

(** A random ID for a field without one. *)
Definition or_random (s : string) : Job string :=
  if s == EmptyString then
    id ← or_fail (r ← calling env_uuid CallUuid; lift_sum r) (failed_with "generate random ID");
    mret (uuid_String id)
  else mret s.

Definition runTemplateDryRun (values : list proto_ParameterValue) (metadata : option Provision_Metadata) : Job CompletedJob :=
  metadata ← deref_metadata metadata;
  id ← or_random metadata.(Metadata_WorkspaceId);
  ownerId ← or_random metadata.(Metadata_WorkspaceOwnerId);
  let metadata := mkProvisionMetadata (or_default metadata.(Metadata_CoderUrl) "http://localhost:3000")
    WorkspaceTransition_START (or_default metadata.(Metadata_WorkspaceName) "dryrun")
    (or_default job.(AcquiredJob_UserName) "dryrunner") id ownerId metadata.(Metadata_WorkspaceOwnerEmail) in
  resources ← or_fail (runTemplateImportProvision values metadata) (failed_with "run dry-run provision job");
  mret (mkCompletedJob job.(AcquiredJob_JobId) (Some (CompletedJob_TemplateDryRun resources))).

(** ** Building a workspace *)

Fixpoint build_messages (stage : string) (l : list Provision_Response) (e : error) : Job Provision_Complete :=
  match l with
  | [] => fails (failed_with "recv workspace provision" e)
  | Provision_Response_Log log :: l =>
      _ ← does (queue LogSource_PROVISIONER log.(sdkLog_Level) stage log.(sdkLog_Output)); build_messages stage l e
  | Provision_Response_Complete c :: _ =>
      if c.(Complete_Error) != EmptyString then
        fails (mkFailedJob job.(AcquiredJob_JobId) c.(Complete_Error) (Some (FailedJob_WorkspaceBuild c.(Complete_State))))
      else mret c
  | Provision_Response_nil :: _ => fails (failedJobf "invalid message type <nil> received from provisioner")
  end.

Definition buildWorkspace (stage : string) (req : Provision_Request) : Job Provision_Complete :=
  stream ← does (call_provision req);
  match stream with
  | OpenError e => fails (failed_with "provision" e)
  | SendError e => fails (failed_with "start provision" e)
  | Messages l e => build_messages stage l e
  end.

(** [int] has 64 bits. *)
Definition sumDailyCost (resources : list proto_Resource) : Z :=
  foldl (λ sum r, int64_wrap (sum + r.(Resource_DailyCost))) 0 resources.

Definition quota_stage : string := "Commit quota".

Definition runner_commitQuota (resources : list proto_Resource) : Job unit :=
  let cost := sumDailyCost resources in
  if cost == 0 then mret tt
  else
    resp ← does (attempt (call_quota (mkCommitQuotaRequest job.(AcquiredJob_JobId) (int32_wrap cost))));
    match resp with
    | inl err =>
        _ ← does (queue LogSource_PROVISIONER LogLevel_ERROR quota_stage ("Failed to commit quota: " +:+ env_verbose err));
        fails (failedJobf ("commit quota: " +:+ env_verbose err))
    | inr resp =>
        let info := queue LogSource_PROVISIONER LogLevel_INFO quota_stage in
        _ ← does (info ("Build cost       —   " +:+ pretty cost));
        _ ← does (info ("Budget           —   " +:+ pretty resp.(CommitQuotaResponse_Budget)));
        _ ← does (info ("Credits consumed —   " +:+ pretty resp.(CommitQuotaResponse_CreditsConsumed)));
        if negb resp.(CommitQuotaResponse_Ok) then
          _ ← does (queue LogSource_PROVISIONER LogLevel_WARN quota_stage "This build would exceed your quota. Failing.");
          fails (failedJobf "insufficient quota")
        else mret tt
    end.

Definition apply_stage (t : proto_WorkspaceTransition) : string * bool :=
  match t with
  | WorkspaceTransition_START => ("Starting workspace", true)
  | WorkspaceTransition_STOP => ("Stopping workspace", true)
  | WorkspaceTransition_DESTROY => ("Destroying workspace", false)
  | WorkspaceTransition_unknown _ => (EmptyString, false)
  end.

(** A call whose failure is looked at after the logs were flushed. *)
Definition then_flush (m : Job unit) : Job unit := λ h,
  let '(r, h) := m h in
  match r with Crashed p => (Crashed p, h) | _ => (r, (flushQueuedLogs h).2) end.

Definition runWorkspaceBuild (values : list proto_ParameterValue) (metadata : option Provision_Metadata) (state : bytes) :
    Job CompletedJob :=
  metadata ← deref_metadata metadata;
  let '(applyStage, commitQuota) := apply_stage metadata.(Metadata_WorkspaceTransition) in
  let config := mkProvisionConfig workDirectory state (Some metadata) in
  completedPlan ← buildWorkspace "Planning infrastructure" (Provision_Request_Plan (Some config) values);
  _ ← does flushQueuedLogs;
  _ ← (if commitQuota : bool then then_flush (runner_commitQuota completedPlan.(Complete_Resources)) else mret tt);
  _ ← does (daemon_log LogLevel_INFO applyStage);
  completedApply ← buildWorkspace applyStage (Provision_Request_Apply (Some config) completedPlan.(Complete_Plan));
  _ ← does flushQueuedLogs;
  mret (mkCompletedJob job.(AcquiredJob_JobId)
          (Some (CompletedJob_WorkspaceBuild (default [] completedApply.(Complete_State)) completedApply.(Complete_Resources)))).

(** ** The whole job *)

(** Everything before the switch on the kind of job. *)
Definition set_up : Job unit :=
  _ ← or_fail (call_fs (FsMkdirAll workDirectory 448)) (failed_with ("create work directory " +:+ quote workDirectory));
  _ ← does (daemon_log LogLevel_INFO "Setting up");
  let '(entries, err) := tar_read job.(AcquiredJob_TemplateSourceArchive) in
  _ ← unpack entries;
  match err with Some e => fails (failed_with "read template source archive" e) | None => mret tt end.

Definition runner_do : Job CompletedJob :=
  _ ← set_up;
  match job.(AcquiredJob_type) with
  | Some (AcquiredJob_TemplateImport metadata) => _ ← runReadmeParse; runTemplateImport metadata
  | Some (AcquiredJob_TemplateDryRun values metadata) => runTemplateDryRun values metadata
  | Some (AcquiredJob_WorkspaceBuild _ _ values metadata state) => runWorkspaceBuild values metadata state
  | None => crashes nil_dereference
  end.

Fixpoint remove_work (attempts : nat) : Step unit :=
  match attempts with
  | O => mret tt
  | S attempts =>
      r ← attempt (call_fs (FsRemoveAll workDirectory));
      match r with inl _ => remove_work attempts | inr _ => mret tt end
  end.

Definition clean_up : Step unit :=
  _ ← daemon_log LogLevel_INFO "Cleaning Up"; _ ← remove_work 5; flushQueuedLogs.

(** The deferred functions run after a panic too, which then goes on. *)
Definition doCleanFinish : Job CompletedJob := λ h,
  let '(r, h) := runner_do h in (r, (clean_up h).2).

End job.
