(* ===== verification/RunnerJobProps.v ===== *)
(** * The job runner of a provisioner daemon: properties of the job

    What the daemon does for a job with whatever server, provisioner, file system
    and archive: a build is applied only as it was planned and paid for, an import
    completes only with a value for every parameter, files are unpacked below the
    work directory, and every end of a job is about that job. *)

From stdpp Require Import prelude gmap strings pretty.
From S2P Require Import Prelude Models ProvisionerdProto FilePath Runner RunnerProps RunnerJob.

Local Open Scope Z_scope.

(** ** Reading the code backwards *)

Lemma job_bind_done {A B} (m : Job A) (k : A → Job B) h b h' :
  (m ≫= k) h = (Done b, h') → ∃ a h1, m h = (Done a, h1) ∧ k a h1 = (Done b, h').
Proof. unfold mbind, job_bind. destruct (m h) as [[a|f|p] h1]; [eauto|done|done]. Qed.

Lemma job_bind_eq {A B} (m : Job A) (k : A → Job B) h :
  (m ≫= k) h = match m h with
               | (Done a, h') => k a h'
               | (Failed f, h') => (Failed f, h')
               | (Crashed p, h') => (Crashed p, h')
               end.
Proof. done. Qed.

Lemma or_fail_done {A} (m : Step A) f h a h' : or_fail m f h = (Done a, h') → m h = (Ok a, h').
Proof. unfold or_fail. destruct (m h) as [[a'|e|p] h1]; congruence. Qed.

Lemma gom_bind_ok {S A B} (m : GoM S A) (k : A → GoM S B) s b s' :
  (m ≫= k) s = (Ok b, s') → ∃ a s1, m s = (Ok a, s1) ∧ k a s1 = (Ok b, s').
Proof. unfold mbind, gom_bind. destruct (m s) as [[a|e|p] s1]; [eauto|done|done]. Qed.

(** ** Calls of a kind *)

(** Code that only appends calls of which [P] holds. *)
Definition only {A} (P : call → Prop) (m : list call → A * list call) : Prop :=
  ∀ h, ∃ t, (m h).2 = h ++ t ∧ Forall P t.

Section only.
Context (P : call → Prop).

Lemma only_same {A} (a : A) : only P (λ h, (a, h)).
Proof. intros h. exists []. by rewrite app_nil_r. Qed.
Lemma only_job_ret {A} (a : A) : only P (mret a : Job A).
Proof. apply only_same. Qed.
Lemma only_ret {A} (a : A) : only P (mret a : Step A).
Proof. apply only_same. Qed.
Lemma only_fails {A} f : only P (fails f : Job A).
Proof. apply only_same. Qed.
Lemma only_crashes {A} p : only P (crashes p : Job A).
Proof. apply only_same. Qed.
Lemma only_throw {A} e : only P (throw e : Step A).
Proof. apply only_same. Qed.
Lemma only_lift {A} r : only P (lift_res r : Step A).
Proof. apply only_same. Qed.
Lemma only_sum {A} (x : error + A) : only P (lift_sum x).
Proof. apply only_same. Qed.

Lemma only_job_bind {A B} (m : Job A) (k : A → Job B) : only P m → (∀ a, only P (k a)) → only P (m ≫= k).
Proof.
  intros Hm Hk h. destruct (Hm h) as (t & Ht & Hall). unfold mbind, job_bind.
  destruct (m h) as [[a|f|p] h1]; simpl in *; subst; [|by eauto..].
  destruct (Hk a (h ++ t)) as (t' & -> & Hall'). exists (t ++ t'). rewrite app_assoc. by rewrite Forall_app.
Qed.
Lemma only_bind {A B} (m : Step A) (k : A → Step B) : only P m → (∀ a, only P (k a)) → only P (m ≫= k).
Proof.
  intros Hm Hk h. destruct (Hm h) as (t & Ht & Hall). unfold mbind, gom_bind.
  destruct (m h) as [[a|f|p] h1]; simpl in *; subst; [|by eauto..].
  destruct (Hk a (h ++ t)) as (t' & -> & Hall'). exists (t ++ t'). rewrite app_assoc. by rewrite Forall_app.
Qed.
Lemma only_or_fail {A} (m : Step A) f : only P m → only P (or_fail m f).
Proof. intros Hm h. destruct (Hm h) as (t & Ht & Hall). unfold or_fail. destruct (m h) as [[a|e|p] h1]; simpl in *; eauto. Qed.
Lemma only_attempt {A} (m : Step A) : only P m → only P (attempt m).
Proof. intros Hm h. destruct (Hm h) as (t & Ht & Hall). unfold attempt. destruct (m h) as [[a|e|p] h1]; simpl in *; eauto. Qed.
Lemma only_calling {R} (ask : list call → R) c : (∀ r, P (c r)) → only P (calling ask c).
Proof. intros Hc h. exists [c (ask h)]. by rewrite Forall_singleton. Qed.
End only.

Create HintDb only.
#[export] Hint Resolve only_job_ret only_ret only_fails only_crashes only_throw only_lift only_sum only_job_bind only_bind
  only_or_fail only_attempt only_calling : only.

(** The calls that plan, pay for or apply. *)
Definition work (c : call) : bool :=
  match c with CallProvision _ _ | CallQuota _ _ => true | _ => false end.
Definition works (h : list call) : list call := filter (λ c, work c = true) h.
Abbreviation quiet := (only (λ c, work c = false)).

Lemma works_app h h' : works (h ++ h') = works h ++ works h'.
Proof. apply filter_app. Qed.
Lemma works_quiet t : Forall (λ c, work c = false) t → works t = [].
Proof. induction 1 as [|c t Hc _ IH]; [done|]. unfold works. by rewrite filter_cons, Hc. Qed.
Lemma quiet_works {A} (m : list call → A * list call) h r h' : quiet m → m h = (r, h') → works h' = works h.
Proof.
  intros Hm Hr. destruct (Hm h) as (t & Ht & Hall). rewrite Hr in Ht. simpl in Ht. subst.
  rewrite works_app, (works_quiet t) by done. by rewrite app_nil_r.
Qed.

Definition op_path (op : fs_op) : string :=
  match op with
  | FsMkdirAll path _ | FsOpenFile path _ | FsWrite path _ | FsClose path | FsRemoveAll path => path
  end.

(** The completion a stream ends with: its first message that is no log line,
    unless it reports an error. *)
Fixpoint completion (l : list Provision_Response) : option Provision_Complete :=
  match l with
  | Provision_Response_Log _ :: l => completion l
  | Provision_Response_Complete c :: _ => if c.(Complete_Error) == EmptyString then Some c else None
  | _ => None
  end.
Definition stream_completion (s : stream Provision_Response) : option Provision_Complete :=
  match s with Messages l _ => completion l | _ => None end.

Fixpoint schemas_of (l : list Parse_Response) : option (list proto_ParameterSchema) :=
  match l with
  | Parse_Response_Log _ :: l => schemas_of l
  | Parse_Response_Complete schemas :: _ => Some schemas
  | _ => None
  end.
Definition stream_schemas (s : stream Parse_Response) : option (list proto_ParameterSchema) :=
  match s with Messages l _ => schemas_of l | _ => None end.

(** A call that changes nothing outside the daemon. *)
Definition harmless (c : call) : Prop :=
  match c with
  | CallQuota _ _ | CallProvision (Provision_Request_Apply _ _) _ => False
  | _ => True
  end.

Section props.
Context `{JobEnv, TarReader, UuidText}.
Context (workDirectory : string) (job : AcquiredJob).

Lemma queue_only (P : call → Prop) source level stage output : (∀ l, P (CallLog l)) → only P (queue source level stage output).
Proof. intros HP h. eexists [_]. by rewrite Forall_singleton. Qed.
Lemma flush_only (P : call → Prop) : P CallFlush → only P flushQueuedLogs.
Proof. intros HP h. eexists [_]. by rewrite Forall_singleton. Qed.
Lemma daemon_log_only (P : call → Prop) level stage : (∀ l, P (CallLog l)) → only P (daemon_log level stage).
Proof. apply queue_only. Qed.
Lemma update_only (P : call → Prop) u : (∀ r, P (CallUpdate u r)) → only P (call_update u).
Proof. intros HP. unfold call_update. auto with only. Qed.
Lemma fs_only (P : call → Prop) op : (∀ r, P (CallFs op r)) → only P (call_fs op).
Proof. intros HP. unfold call_fs. auto with only. Qed.
Lemma or_random_only (P : call → Prop) s : (∀ r, P (CallUuid r)) → only P (or_random job s).
Proof. intros HP. unfold or_random. case_match; eauto 8 with only. Qed.
Lemma does_only {A} (P : call → Prop) (m : Step A) : only P m → only P (does job m).
Proof. apply only_or_fail. Qed.
#[local] Hint Resolve queue_only flush_only daemon_log_only update_only fs_only or_random_only does_only : only.

(** Preparing the job plans and applies nothing. *)
Lemma unpack_entry_only (P : call → Prop) e :
  let headerPath := filepath_Join [workDirectory; e.(entry_header).(Header_Name)] in
  (∀ op r, HasPrefix headerPath (filepath_Clean workDirectory) = true → op_path op = headerPath → P (CallFs op r)) →
  only P (unpack_entry workDirectory job e).
Proof.
  intros headerPath HP. unfold unpack_entry. fold headerPath.
  destruct (HasPrefix _ _) eqn:Hpre; simpl; [|auto with only].
  generalize (if Header_Mode (entry_header e) == 0 then 384 else Header_Mode (entry_header e)). intros mode.
  destruct (_ == tar_TypeDir); [auto with only|]. destruct (_ == tar_TypeReg); [|auto with only].
  apply only_job_bind; [auto with only|]. intros _. apply only_job_bind; [auto with only|].
  intros [?|?]; [|destruct (copy_error e)]; auto 6 with only.
Qed.
Lemma unpack_only (P : call → Prop) l :
  (∀ e op r, e ∈ l → let headerPath := filepath_Join [workDirectory; e.(entry_header).(Header_Name)] in
     HasPrefix headerPath (filepath_Clean workDirectory) = true → op_path op = headerPath → P (CallFs op r)) →
  only P (unpack workDirectory job l).
Proof.
  induction l as [|e l IH]; intros HP; simpl; auto with only. apply only_job_bind.
  - apply unpack_entry_only. intros op r. apply HP. left.
  - intros _. apply IH. intros e' op r He'. apply HP. by right.
Qed.
Lemma set_up_only (P : call → Prop) :
  (∀ l, P (CallLog l)) → (∀ op r, P (CallFs op r)) → only P (set_up workDirectory job).
Proof.
  intros HL HF. unfold set_up. apply only_job_bind; [auto with only|]. intros _. apply only_job_bind; [auto with only|].
  intros _. destruct (tar_read _) as [entries [err|]]; (apply only_job_bind; [by apply unpack_only|auto with only]).
Qed.
Lemma runReadmeParse_only (P : call → Prop) :
  (∀ l, P (CallLog l)) → (∀ u r, P (CallUpdate u r)) → (∀ p r, P (CallReadFile p r)) →
  only P (runReadmeParse workDirectory job).
Proof.
  intros HL HU HR. unfold runReadmeParse. apply only_job_bind; [apply does_only; unfold call_read; auto with only|].
  intros [?|fi]; [auto with only|]. apply only_job_bind; [|auto with only]. apply only_or_fail.
  intros h. by apply update_only.
Qed.
Lemma set_up_quiet : quiet (set_up workDirectory job).
Proof. by apply set_up_only. Qed.
Lemma runReadmeParse_quiet : quiet (runReadmeParse workDirectory job).
Proof. by apply runReadmeParse_only. Qed.

(** ** Building a workspace *)

Abbreviation JobId := (job.(AcquiredJob_JobId)).

Lemma build_messages_result stage l e h :
  ∃ t, (build_messages job stage l e h).2 = h ++ t ∧ Forall (λ c, work c = false) t ∧
    match completion l with
    | Some c => (build_messages job stage l e h).1 = Done c
    | None => ∃ f, (build_messages job stage l e h).1 = Failed f ∧ f.(FailedJob_JobId) = JobId
    end.
Proof.
  revert h. induction l as [|[log|c|] l IH]; intros h; simpl.
  - exists []. rewrite app_nil_r. eauto.
  - unfold mbind, job_bind, does, or_fail, queue. simpl. edestruct IH as (t & Ht & Hall & Hres). rewrite Ht.
    eexists (_ :: t). rewrite <-app_assoc. split_and!; [done|by constructor|]. done.
  - exists []. rewrite app_nil_r. destruct (_ == EmptyString); simpl; eauto.
  - exists []. rewrite app_nil_r. simpl. eauto.
Qed.

Lemma buildWorkspace_result stage req h :
  ∃ t, (buildWorkspace job stage req h).2 = h ++ CallProvision req (env_provision h req) :: t ∧
    Forall (λ c, work c = false) t ∧
    match stream_completion (env_provision h req) with
    | Some c => (buildWorkspace job stage req h).1 = Done c
    | None => ∃ f, (buildWorkspace job stage req h).1 = Failed f ∧ f.(FailedJob_JobId) = JobId
    end.
Proof.
  unfold buildWorkspace, mbind, job_bind, does, or_fail, call_provision, calling. simpl.
  destruct (env_provision h req) as [e|e|l e] eqn:Hs; simpl.
  - exists []. eauto.
  - exists []. eauto.
  - edestruct (build_messages_result stage l e) as (t & -> & Hall & Hres). exists t. by rewrite <-app_assoc.
Qed.

(** The quota that is asked for the resources of a plan, when it is granted. *)
Definition quota_request (resources : list proto_Resource) : CommitQuotaRequest :=
  mkCommitQuotaRequest JobId (int32_wrap (sumDailyCost resources)).
Definition granted (reply : error + CommitQuotaResponse) : bool :=
  match reply with inr resp => resp.(CommitQuotaResponse_Ok) | inl _ => false end.

Lemma commitQuota_result resources h :
  ∃ t, (runner_commitQuota job resources h).2 = h ++ t ∧
    if sumDailyCost resources == 0 then t = [] ∧ (runner_commitQuota job resources h).1 = Done tt
    else works t = [CallQuota (quota_request resources) (env_quota h (quota_request resources))] ∧
      if granted (env_quota h (quota_request resources)) then (runner_commitQuota job resources h).1 = Done tt
      else ∃ f, (runner_commitQuota job resources h).1 = Failed f ∧ f.(FailedJob_JobId) = JobId.
Proof.
  unfold runner_commitQuota. destruct (sumDailyCost resources == 0); [exists []; by rewrite app_nil_r|].
  fold (quota_request resources).
  unfold mbind, job_bind, gom_bind, does, or_fail, call_quota, calling, attempt, lift_sum, queue. simpl.
  destruct (env_quota h (quota_request resources)) as [e|resp]; simpl.
  - eexists [_; _]. rewrite <-app_assoc. eauto.
  - destruct (CommitQuotaResponse_Ok resp); simpl.
    + eexists [_; _; _; _]. rewrite <-!app_assoc. eauto.
    + eexists [_; _; _; _; _]. rewrite <-!app_assoc. eauto.
Qed.

Section build.
Context (values : list proto_ParameterValue) (metadata : Provision_Metadata) (state : bytes).

Definition build_config : Provision_Config := mkProvisionConfig workDirectory state (Some metadata).
Definition plan_request : Provision_Request := Provision_Request_Plan (Some build_config) values.
Definition apply_request (plan : Provision_Complete) : Provision_Request :=
  Provision_Request_Apply (Some build_config) plan.(Complete_Plan).

(** A build that changes what runs, and whose plan costs something, is paid for. *)
Definition charged (plan : Provision_Complete) : bool :=
  match metadata.(Metadata_WorkspaceTransition) with
  | WorkspaceTransition_START | WorkspaceTransition_STOP => negb (sumDailyCost plan.(Complete_Resources) == 0)
  | _ => false
  end.
Inductive paid (plan : Provision_Complete) : list call → Prop :=
| free : charged plan = false → paid plan []
| bought reply : charged plan = true → granted reply = true →
    paid plan [CallQuota (quota_request plan.(Complete_Resources)) reply].

(** The sessions of a build with the provisioner and the server. *)
Inductive build_session : list call → jres CompletedJob → Prop :=
| plan_failed reply f :
    stream_completion reply = None → f.(FailedJob_JobId) = JobId →
    build_session [CallProvision plan_request reply] (Failed f)
| quota_refused planned plan reply f :
    stream_completion planned = Some plan → charged plan = true → granted reply = false → f.(FailedJob_JobId) = JobId →
    build_session [CallProvision plan_request planned; CallQuota (quota_request plan.(Complete_Resources)) reply] (Failed f)
| apply_failed planned plan quota reply f :
    stream_completion planned = Some plan → paid plan quota → stream_completion reply = None → f.(FailedJob_JobId) = JobId →
    build_session (CallProvision plan_request planned :: quota ++ [CallProvision (apply_request plan) reply]) (Failed f)
| applied planned plan quota reply c :
    stream_completion planned = Some plan → paid plan quota → stream_completion reply = Some c →
    build_session (CallProvision plan_request planned :: quota ++ [CallProvision (apply_request plan) reply])
      (Done (mkCompletedJob JobId (Some (CompletedJob_WorkspaceBuild (default [] c.(Complete_State)) c.(Complete_Resources))))).

Lemma works_cons_quiet c t : Forall (λ c, work c = false) t → works (c :: t) = works [c].
Proof. intros Ht. change (c :: t) with ([c] ++ t). by rewrite works_app, (works_quiet t), app_nil_r. Qed.

(** Applying, once paid. *)
Lemma apply_session plan quota planned stage h :
  stream_completion planned = Some plan → paid plan quota → works h = CallProvision plan_request planned :: quota →
  let m : Job CompletedJob :=
    _ ← does job (daemon_log LogLevel_INFO stage);
    completedApply ← buildWorkspace job stage (apply_request plan);
    _ ← does job flushQueuedLogs;
    mret (mkCompletedJob JobId
            (Some (CompletedJob_WorkspaceBuild (default [] completedApply.(Complete_State)) completedApply.(Complete_Resources)))) in
  build_session (works (m h).2) (m h).1.
Proof.
  intros Hplan Hpaid Hh. simpl. unfold mbind at 1, job_bind at 1, does, or_fail, daemon_log, queue. simpl.
  unfold mbind, job_bind. match goal with |- context [buildWorkspace job stage (apply_request plan) ?h1] =>
    destruct (buildWorkspace_result stage (apply_request plan) h1) as (t & Ht & Hall & Hres) end.
  destruct (stream_completion (env_provision _ _)) as [c|] eqn:Hc.
  - destruct (buildWorkspace _ _ _ _) as [r h2] eqn:Hb. simpl in Ht, Hres. subst. simpl.
    rewrite !works_app, (works_cons_quiet _ t), Hh by done. simpl. rewrite !app_nil_r. simpl. by apply applied.
  - destruct Hres as (f & Hres & Hf). destruct (buildWorkspace _ _ _ _) as [r h2] eqn:Hb. simpl in Ht, Hres. subst. simpl.
    rewrite !works_app, (works_cons_quiet _ t), Hh by done. simpl. rewrite app_nil_r. by apply apply_failed.
Qed.

(** Paying, then applying. *)
Lemma pay_session plan planned h (k : Job CompletedJob) :
  stream_completion planned = Some plan → works h = [CallProvision plan_request planned] →
  (∀ quota h', paid plan quota → works h' = CallProvision plan_request planned :: quota → build_session (works (k h').2) (k h').1) →
  let m : Job CompletedJob :=
    _ ← (if (apply_stage metadata.(Metadata_WorkspaceTransition)).2 : bool
         then then_flush (runner_commitQuota job plan.(Complete_Resources)) else mret tt); k in
  build_session (works (m h).2) (m h).1.
Proof.
  intros Hplan Hh Hk. simpl. destruct (apply_stage _).2 eqn:Hq; last first.
  { apply (Hk []); [|done]. apply free. unfold charged. by destruct (Metadata_WorkspaceTransition _). }
  assert (charged plan = negb (sumDailyCost (Complete_Resources plan) == 0)) as Hch.
  { unfold charged. by destruct (Metadata_WorkspaceTransition _). }
  unfold mbind, job_bind, then_flush.
  destruct (commitQuota_result (Complete_Resources plan) h) as (t & Ht & Hres).
  destruct (runner_commitQuota job _ h) as [r h1]. simpl in Ht, Hres. subst.
  destruct (sumDailyCost _ == 0); simpl in Hch.
  { destruct Hres as [-> ->]. simpl. apply (Hk []); [by apply free|]. by rewrite !works_app, Hh. }
  destruct Hres as [Ht Hres]. destruct (granted _) eqn:Hg.
  - subst. simpl. eapply Hk; [by apply bought|]. by rewrite !works_app, Hh, Ht.
  - destruct Hres as (f & -> & Hf). simpl. rewrite !works_app, Hh, Ht. by apply quota_refused.
Qed.

Lemma does_flush h : does job flushQueuedLogs h = (Done tt, h ++ [CallFlush]).
Proof. done. Qed.

Lemma runWorkspaceBuild_session h :
  works h = [] →
  let r := runWorkspaceBuild workDirectory job values (Some metadata) state h in build_session (works r.2) r.1.
Proof.
  intros Hh r. subst r. unfold runWorkspaceBuild. rewrite job_bind_eq. cbv [deref_metadata mret job_ret]. cbv iota beta.
  destruct (apply_stage _) as [applyStage commitQuota] eqn:Hstage.
  fold build_config plan_request. rewrite job_bind_eq.
  destruct (buildWorkspace_result "Planning infrastructure" plan_request h) as (t & Ht & Hall & Hres).
  destruct (buildWorkspace _ _ _ h) as [r h1]. simpl in Ht, Hres. subst.
  destruct (stream_completion _) as [plan|] eqn:Hplan; last first.
  { destruct Hres as (f & -> & Hf). simpl. rewrite works_app, (works_cons_quiet _ t), Hh by done. by apply plan_failed. }
  subst. rewrite job_bind_eq. rewrite does_flush. simpl.
  pose proof (pay_session plan (env_provision h plan_request)) as Hpay. rewrite Hstage in Hpay. simpl in Hpay.
  apply Hpay; [done| |].
  - by rewrite !works_app, (works_cons_quiet _ t), Hh.
  - intros quota h' Hpaid Hh'. by eapply apply_session.
Qed.

End build.

(** ** How a job ends *)

Create HintDb about.

(** The result is [Q], a failure of this job, or a panic, which [C] explains. *)
Definition about {A} (C : Prop) (Q : A → Prop) (m : Job A) : Prop := ∀ h,
  match (m h).1 with
  | Done a => Q a
  | Failed f => f.(FailedJob_JobId) = JobId
  | Crashed _ => C
  end.
Definition panics_if {A} (C : Prop) (m : Step A) : Prop := ∀ h, panics (m h).1 = true → C.
Abbreviation any := (λ _, True).

Lemma about_bind {A B} C Q (m : Job A) (k : A → Job B) :
  about C any m → (∀ a, about C Q (k a)) → about C Q (m ≫= k).
Proof.
  intros Hm Hk h. specialize (Hm h). rewrite job_bind_eq.
  destruct (m h) as [[a|f|p] h1]; [apply Hk|done|done].
Qed.
Lemma about_ret {A} C (Q : A → Prop) a : Q a → about C Q (mret a).
Proof. by intros ? h. Qed.
Lemma about_fails {A} C (Q : A → Prop) f : f.(FailedJob_JobId) = JobId → about C Q (fails f).
Proof. by intros ? h. Qed.
Lemma about_or_fail {A} C (m : Step A) f :
  panics_if C m → (∀ e, (f e).(FailedJob_JobId) = JobId) → about C any (or_fail m f).
Proof.
  intros Hm Hf h. specialize (Hm h). unfold or_fail. destruct (m h) as [[a|e|p] h1]; simpl in *; auto.
Qed.
Lemma about_does {A} C (m : Step A) : panics_if C m → about C any (does job m).
Proof. intros Hm. by apply about_or_fail. Qed.
Lemma about_attempt {A} C (m : Step A) : panics_if C m → panics_if C (attempt m).
Proof. intros Hm h. specialize (Hm h). unfold attempt. by destruct (m h) as [[a|e|p] h1]. Qed.
Lemma panics_bind {A B} C (m : Step A) (k : A → Step B) :
  panics_if C m → (∀ a, panics_if C (k a)) → panics_if C (m ≫= k).
Proof.
  intros Hm Hk h. specialize (Hm h). unfold mbind, gom_bind. destruct (m h) as [[a|e|p] h1]; [apply Hk|done|auto].
Qed.
Lemma panics_calling {R} C (ask : list call → R) c : panics_if C (calling ask c).
Proof. by intros h. Qed.
Lemma panics_sum {A} C (x : error + A) : panics_if C (lift_sum x).
Proof. by intros h; destruct x. Qed.
Lemma panics_throw {A} C e : panics_if (A := A) C (throw e).
Proof. by intros h. Qed.
Lemma panics_ret {A} C (a : A) : panics_if C (mret a).
Proof. by intros h. Qed.
Lemma panics_queue C source level stage output : panics_if C (queue source level stage output).
Proof. by intros h. Qed.
Lemma panics_log C level stage : panics_if C (daemon_log level stage).
Proof. by intros h. Qed.
Lemma panics_flush C : panics_if C flushQueuedLogs.
Proof. by intros h. Qed.
Lemma panics_fs C op : panics_if C (call_fs op).
Proof. apply panics_bind; auto using panics_calling, panics_sum. Qed.
Lemma panics_update C u : panics_if C (call_update u).
Proof. apply panics_bind; auto using panics_calling, panics_sum. Qed.
Lemma panics_quota C q : panics_if C (call_quota q).
Proof. apply panics_bind; auto using panics_calling, panics_sum. Qed.
#[local] Hint Resolve about_bind about_ret about_fails about_or_fail about_does about_attempt panics_bind panics_calling
  panics_sum panics_throw panics_ret panics_queue panics_log panics_flush panics_fs panics_update panics_quota : about.

Lemma about_unpack C l : about C any (unpack workDirectory job l).
Proof.
  induction l as [|e l IH]; simpl; [by auto with about|]. apply about_bind; [|done].
  unfold unpack_entry. destruct (negb _); [by auto with about|]. 
  generalize (if Header_Mode (entry_header e) == 0 then 384 else Header_Mode (entry_header e)). intros mode.
  destruct (_ == tar_TypeDir); [by auto with about|]. destruct (_ == tar_TypeReg); [|by auto with about].
  apply about_bind; [by auto with about|]. intros _. apply about_bind; [by auto with about|].
  intros [?|?]; [|destruct (copy_error e)]; auto 6 with about.
Qed.
Lemma about_set_up C : about C any (set_up workDirectory job).
Proof.
  unfold set_up. apply about_bind; [by auto with about|]. intros _. apply about_bind; [by auto with about|]. intros _.
  destruct (tar_read _) as [entries [e|]]; (apply about_bind; [by apply about_unpack|by auto with about]).
Qed.
Lemma about_set_up_then {A} (k : Job A) r h' :
  (_ ← set_up workDirectory job; k) [] = (r, h') →
  (∃ h, works h = [] ∧ k h = (r, h')) ∨ (works h' = [] ∧ ∃ f, r = Failed f ∧ f.(FailedJob_JobId) = JobId).
Proof.
  rewrite job_bind_eq. pose proof (about_set_up False []) as Hab.
  destruct (set_up workDirectory job []) as [r1 h1] eqn:Hs.
  apply (quiet_works _ _ _ _ set_up_quiet) in Hs. destruct r1 as [a|f|p]; simpl in Hab; [|intros [= <- <-]|done]; eauto.
Qed.

(** C24: The daemon's session for a workspace build is one of these, with whatever
    server, provisioner and file system: nothing (the template could not be
    unpacked); a plan that fails; a plan and a refused quota; or a plan, the quota
    that the plan's resources cost if the build is a start or a stop and they cost
    anything, granted, and one application of just that plan to the stored state.
    The job completes exactly when the application does, with its state and its
    resources, and every failure names the job. A job that comes without metadata has
    no session: it fails before, or the daemon panics. *)
Theorem build_follows_session name id values metadata state r h :
  job.(AcquiredJob_type) = Some (AcquiredJob_WorkspaceBuild id name values metadata state) →
  runner_do workDirectory job [] = (r, h) →
  match metadata with
  | Some metadata => build_session values metadata state (works h) r
  | None => works h = [] ∧ r = Crashed nil_dereference
  end ∨
  (works h = [] ∧ ∃ f, r = Failed f ∧ f.(FailedJob_JobId) = JobId).
Proof.
  intros Htype. unfold runner_do. rewrite Htype. intros [(h0 & Hh0 & Hr)|Hfail]%about_set_up_then; [left|by right].
  destruct metadata as [metadata|]; [|by injection Hr as <- <-].
  pose proof (runWorkspaceBuild_session values metadata state h0 Hh0) as Hsession. by rewrite Hr in Hsession.
Qed.

(** ** Imports and dry runs *)

Lemma parse_messages_result l e h :
  ∃ t, (parse_messages l e h).2 = h ++ t ∧ Forall (λ c, work c = false) t ∧
    (panics (parse_messages l e h).1 = true → Parse_Response_nil ∈ l) ∧
    ∀ schemas, (parse_messages l e h).1 = Ok schemas → schemas_of l = Some schemas.
Proof.
  revert h. induction l as [|[log|c|] l IH]; intros h; simpl.
  - exists []. rewrite app_nil_r. done.
  - unfold mbind, gom_bind, queue. simpl. edestruct IH as (t & Ht & Hall & Hp & Hok). rewrite Ht.
    eexists (_ :: t). rewrite <-app_assoc. split_and!; [done|by constructor| |done]. intros. right. auto.
  - exists []. rewrite app_nil_r. naive_solver.
  - exists []. rewrite app_nil_r. split_and!; [done..| |done]. left.
Qed.

Lemma import_messages_result stage l e h :
  ∃ t, (import_messages stage l e h).2 = h ++ t ∧ Forall (λ c, work c = false) t ∧
    (panics (import_messages stage l e h).1 = true → Provision_Response_nil ∈ l) ∧
    ∀ resources, (import_messages stage l e h).1 = Ok resources → Complete_Resources <$> completion l = Some resources.
Proof.
  revert h. induction l as [|[log|c|] l IH]; intros h; simpl.
  - exists []. rewrite app_nil_r. done.
  - unfold mbind, gom_bind, queue. simpl. edestruct IH as (t & Ht & Hall & Hp & Hok). rewrite Ht.
    eexists (_ :: t). rewrite <-app_assoc. split_and!; [done|by constructor| |done]. intros. right. auto.
  - exists []. rewrite app_nil_r. destruct (_ == EmptyString); simpl; naive_solver.
  - exists []. rewrite app_nil_r. split_and!; [done..| |done]. left.
Qed.

Definition import_request (values : list proto_ParameterValue) (metadata : Provision_Metadata) : Provision_Request :=
  Provision_Request_Plan (Some (mkProvisionConfig workDirectory [] (Some metadata))) values.

Lemma import_provision_ok values metadata h resources h' :
  runTemplateImportProvision workDirectory values metadata h = (Ok resources, h') →
  ∃ reply c t, h' = h ++ CallProvision (import_request values metadata) reply :: t ∧ Forall (λ c, work c = false) t ∧
    stream_completion reply = Some c ∧ resources = c.(Complete_Resources).
Proof.
  unfold runTemplateImportProvision, mbind, gom_bind, call_provision, calling.
  fold (import_request values metadata). intros Heq. exists (env_provision h (import_request values metadata)).
  destruct (env_provision _ _) as [e|e|l e]; [done|done|].
  edestruct (import_messages_result (import_stage (Metadata_WorkspaceTransition metadata)) l e) as (t & Ht & Hall & _ & Hok).
  rewrite Heq in Ht, Hok. simpl in *. specialize (Hok _ eq_refl).
  destruct (completion l) as [c|]; [|done]. simplify_eq/=. exists c, t. by rewrite <-app_assoc.
Qed.

Lemma parse_ok h schemas h' :
  runTemplateImportParse workDirectory h = (Ok schemas, h') →
  ∃ reply t, h' = h ++ CallParse workDirectory reply :: t ∧ Forall (λ c, work c = false) t ∧
    stream_schemas reply = Some schemas.
Proof.
  unfold runTemplateImportParse, mbind, gom_bind, call_parse, calling.
  intros Heq. exists (env_parse h workDirectory). destruct (env_parse _ _) as [e|e|l e]; [done|done|].
  edestruct (parse_messages_result l e) as (t & Ht & Hall & _ & Hok). rewrite Heq in Ht, Hok. simpl in *.
  exists t. rewrite <-app_assoc in Ht. split_and!; auto.
Qed.

Lemma update_ok u h resp h' :
  call_update u h = (Ok resp, h') → h' = h ++ [CallUpdate u (inr resp)].
Proof. unfold call_update, mbind, gom_bind, calling, lift_sum. by destruct (env_update h u); intros [= <- <-]. Qed.

(** The map of the values by name. *)
Lemma value_by_name values name v :
  foldl (λ (m : gmap string proto_ParameterValue) v, <[v.(proto_ParameterValue_Name) := v]> m) ∅ values !! name = Some v →
  v ∈ values ∧ v.(proto_ParameterValue_Name) = name.
Proof.
  revert v. induction values as [|w values IH] using rev_ind; intros v; [done|].
  rewrite foldl_app. simpl. rewrite elem_of_app, list_elem_of_singleton.
  intros [[<- ->]|[_ Hv]]%lookup_insert_Some; [auto|]. naive_solver.
Qed.

(** Every schema has a value. *)
Lemma missing_value_None schemas values :
  missing_value schemas values = None →
  ∀ s, s ∈ schemas → ∃ v, v ∈ values ∧ v.(proto_ParameterValue_Name) = s.(proto_ParameterSchema_Name).
Proof.
  unfold missing_value. intros Hnone s Hs.
  match type of Hnone with find_first ?P _ = _ => destruct (find_first_spec P schemas) as [(?&?&?&?&?&?&?)|[Hall _]] end;
    [congruence|].
  rewrite Forall_forall in Hall. specialize (Hall s Hs). apply bool_decide_eq_false in Hall.
  apply not_eq_None_Some in Hall as [v Hv]. apply value_by_name in Hv. eauto.
Qed.

(** What a completed import did. *)
Definition imported (metadata : Provision_Metadata) (c : CompletedJob) (h : list call) : Prop :=
  ∃ parsed schemas resp start startPlan stop stopPlan,
    let values := resp.(UpdateJobResponse_ParameterValues) in
    CallParse workDirectory parsed ∈ h ∧ stream_schemas parsed = Some schemas ∧
    CallUpdate (mkUpdateJobRequest JobId [] schemas EmptyString) (inr resp) ∈ h ∧
    (∀ s, s ∈ schemas → ∃ v, v ∈ values ∧ v.(proto_ParameterValue_Name) = s.(proto_ParameterSchema_Name)) ∧
    works h = [CallProvision (import_request values
                 (import_metadata metadata.(Metadata_CoderUrl) WorkspaceTransition_START)) start;
               CallProvision (import_request values
                 (import_metadata metadata.(Metadata_CoderUrl) WorkspaceTransition_STOP)) stop] ∧
    stream_completion start = Some startPlan ∧ stream_completion stop = Some stopPlan ∧
    c = mkCompletedJob JobId (Some (CompletedJob_TemplateImport startPlan.(Complete_Resources) stopPlan.(Complete_Resources))).

Lemma import_done metadata h c h' :
  works h = [] → runTemplateImport workDirectory job metadata h = (Done c, h') →
  ∃ m, metadata = Some m ∧ imported m c h'.
Proof.
  unfold runTemplateImport. intros Hh ([] & h1 & Hlog1%or_fail_done & Hk)%job_bind_done.
  apply job_bind_done in Hk as (schemas & h2 & Hparse%or_fail_done & Hk).
  apply job_bind_done in Hk as (resp & h3 & Hupdate%or_fail_done & Hk).
  destruct (missing_value _ _) eqn:Hmiss; [done|].
  apply job_bind_done in Hk as ([] & h4 & Hlog2%or_fail_done & Hk).
  destruct metadata as [metadata|]; [|done]. exists metadata. split; [done|].
  apply job_bind_done in Hk as (m & h4' & [= <- <-] & Hk).
  apply job_bind_done in Hk as (start & h5 & Hstart%or_fail_done & Hk).
  apply job_bind_done in Hk as ([] & h6 & Hlog3%or_fail_done & Hk).
  apply job_bind_done in Hk as (stop & h7 & Hstop%or_fail_done & Hk).
  unfold daemon_log, queue in *. injection Hk as <- <-. simplify_eq/=.
  apply parse_ok in Hparse as (parsed & tp & -> & Htp & Hschemas). apply update_ok in Hupdate as ->.
  apply import_provision_ok in Hstart as (sreply & sc & ts & -> & Hts & Hsc & ->).
  apply import_provision_ok in Hstop as (preply & pc & tq & -> & Htq & Hpc & ->).
  exists parsed, schemas, resp, sreply, sc, preply, pc. simpl.
  split_and!; [set_solver|done|set_solver|by apply missing_value_None| |done..].
  rewrite !works_app, (works_cons_quiet _ tp), (works_cons_quiet _ ts), (works_cons_quiet _ tq) by done. by rewrite Hh.
Qed.

(** No call of an import or a dry run does any harm. *)
Lemma parse_harmless : only harmless (runTemplateImportParse workDirectory).
Proof.
  unfold runTemplateImportParse. apply only_bind; [by apply only_calling|].
  intros [e|e|l e]; [auto with only..|]. induction l as [|[log|c|] l IH]; simpl; auto with only.
  apply only_bind; [|done]. by apply queue_only.
Qed.
Lemma import_provision_harmless values metadata : only harmless (runTemplateImportProvision workDirectory values metadata).
Proof.
  unfold runTemplateImportProvision. apply only_bind; [by apply only_calling|].
  intros [e|e|l e]; [auto with only..|]. induction l as [|[log|c|] l IH]; simpl; auto with only.
  - apply only_bind; [|done]. by apply queue_only.
  - case_match; auto with only.
Qed.
#[local] Hint Extern 1 (harmless _) => exact I : only.
#[local] Hint Resolve parse_harmless import_provision_harmless : only.

Lemma deref_only P metadata : only P (deref_metadata metadata).
Proof. intros h. exists []. rewrite app_nil_r. by destruct metadata. Qed.
#[local] Hint Resolve deref_only : only.

Lemma import_harmless metadata : only harmless (runTemplateImport workDirectory job metadata).
Proof.
  unfold runTemplateImport. repeat (apply only_job_bind; [by auto with only|intros ?]).
  case_match; [by auto with only|]. repeat (apply only_job_bind; [by auto with only|intros ?]). auto with only.
Qed.
Lemma dry_run_harmless values metadata : only harmless (runTemplateDryRun workDirectory job values metadata).
Proof. unfold runTemplateDryRun. repeat (apply only_job_bind; [by auto with only|intros ?]). auto with only. Qed.

(** C35: An import of a template plans and nothing else. An import that completes came with
    metadata; it has parsed the template, told the server the parameters it found, got a
    value for each of them from the server, and planned a start and then a stop with those
    values, which are its only requests to provision; it reports the resources of the
    two plans. An import or a dry run, whether it succeeds, fails or panics, applies
    nothing and asks for no quota. *)
Theorem import_only_plans r h :
  runner_do workDirectory job [] = (r, h) →
  match job.(AcquiredJob_type) with
  | Some (AcquiredJob_TemplateImport metadata) =>
      Forall harmless h ∧ ∀ c, r = Done c → ∃ m, metadata = Some m ∧ imported m c h
  | Some (AcquiredJob_TemplateDryRun _ _) => Forall harmless h
  | _ => True
  end.
Proof.
  intros Hr. unfold runner_do in Hr.
  assert (only harmless (set_up workDirectory job)) as Hset by (by apply set_up_only).
  assert (∀ k : Job CompletedJob, only harmless k → (_ ← set_up workDirectory job; k) [] = (r, h) → Forall harmless h) as Hall.
  { intros k Hk Heq. destruct (only_job_bind harmless _ (λ _, k) Hset (λ _, Hk) []) as (t & Ht & Hall).
    rewrite Heq in Ht. simpl in Ht. by subst. }
  destruct (AcquiredJob_type job) as [[|metadata|values metadata]|]; [done| | |done].
  - split.
    + eapply Hall, Hr. apply only_job_bind; [by apply runReadmeParse_only|]. intros _. apply import_harmless.
    + intros c ->. apply job_bind_done in Hr as ([] & h1 & Hs & Hk). apply job_bind_done in Hk as ([] & h2 & Hreadme & Hk).
      apply (quiet_works _ _ _ _ set_up_quiet) in Hs. apply (quiet_works _ _ _ _ runReadmeParse_quiet) in Hreadme.
      eapply import_done, Hk. by rewrite Hreadme, Hs.
  - eapply Hall, Hr. apply dry_run_harmless.
Qed.

(** ** Failing *)

(** A stream of the provisioner has a message of no kind the daemon knows. *)
Definition untyped : Prop :=
  (∃ h directory l e, env_parse h directory = Messages l e ∧ Parse_Response_nil ∈ l) ∨
  (∃ h req l e, env_provision h req = Messages l e ∧ Provision_Response_nil ∈ l).

Lemma panics_parse : panics_if untyped (runTemplateImportParse workDirectory).
Proof.
  intros h. unfold runTemplateImportParse, mbind, gom_bind, call_parse, calling.
  destruct (env_parse h workDirectory) as [e|e|l e] eqn:Hs; [done|done|].
  edestruct (parse_messages_result l e) as (t & _ & _ & Hp & _). intros Hpanic%Hp. left. eauto 10.
Qed.
Lemma panics_import_provision values metadata : panics_if untyped (runTemplateImportProvision workDirectory values metadata).
Proof.
  intros h. unfold runTemplateImportProvision, mbind, gom_bind, call_provision, calling.
  destruct (env_provision h _) as [e|e|l e] eqn:Hs; [done|done|].
  edestruct (import_messages_result (import_stage (Metadata_WorkspaceTransition metadata)) l e) as (t & _ & _ & Hp & _).
  intros Hpanic%Hp. right. eauto 10.
Qed.
#[local] Hint Resolve panics_parse panics_import_provision : about.

Definition of_job (c : CompletedJob) : Prop := c.(CompletedJob_JobId) = JobId.

Lemma about_readme : about untyped any (runReadmeParse workDirectory job).
Proof.
  unfold runReadmeParse. apply about_bind; [by auto with about|]. intros [?|fi]; [by auto with about|].
  apply about_bind; [|by auto with about]. apply about_or_fail; [|done]. intros h. apply panics_update.
Qed.
Lemma about_deref (C : Prop) metadata : (metadata = None → C) → about C any (deref_metadata metadata).
Proof. intros HC h. destruct metadata; simpl; auto. Qed.
Lemma about_weaken {A} (C C' : Prop) (Q : A → Prop) m : (C → C') → about C Q m → about C' Q m.
Proof. intros HC Hm h. specialize (Hm h). destruct (m h).1; auto. Qed.

Lemma about_import metadata : about (metadata = None ∨ untyped) of_job (runTemplateImport workDirectory job metadata).
Proof.
  unfold runTemplateImport.
  repeat (apply about_bind; [eapply about_weaken; [right; done|]; by auto with about|intros ?]).
  case_match; [by auto with about|]. apply about_bind; [by auto with about|intros _].
  apply about_bind; [apply about_deref; auto|intros m].
  repeat (apply about_bind; [eapply about_weaken; [right; done|]; by auto with about|intros ?]). by apply about_ret.
Qed.
Lemma about_or_random C s : about C any (or_random job s).
Proof. unfold or_random. case_match; auto with about. Qed.
Lemma about_dry_run values metadata :
  about (metadata = None ∨ untyped) of_job (runTemplateDryRun workDirectory job values metadata).
Proof.
  unfold runTemplateDryRun. apply about_bind; [apply about_deref; auto|intros m].
  repeat (apply about_bind; [eapply about_weaken; [right; done|]; by auto using about_or_random with about|intros ?]).
  by apply about_ret.
Qed.
Lemma about_build values metadata state :
  about (metadata = None) of_job (runWorkspaceBuild workDirectory job values metadata state).
Proof.
  assert (∀ C stage req, about C any (buildWorkspace job stage req)) as Hbuild.
  { intros C stage req h. destruct (buildWorkspace_result stage req h) as (t & _ & _ & Hres).
    destruct (stream_completion _); [by rewrite Hres|]. by destruct Hres as (f & -> & Hf). }
  assert (∀ C resources, about C any (then_flush (runner_commitQuota job resources))) as Hquota.
  { intros C resources h. unfold then_flush. destruct (commitQuota_result resources h) as (t & _ & Hres).
    destruct (runner_commitQuota job resources h) as [r h1]. simpl in Hres.
    destruct (_ == 0); [by destruct Hres as [_ ->]|]. destruct Hres as [_ Hres].
    destruct (granted _); [by subst|]. by destruct Hres as (f & -> & Hf). }
  unfold runWorkspaceBuild. apply about_bind; [by apply about_deref|intros m].
  destruct (apply_stage _) as [stage []]; repeat (apply about_bind; [by auto with about|intros ?]); by apply about_ret.
Qed.

(** However a job ends, its last word is about it. The daemon panics only for a job of no
    kind it knows or without metadata and, importing a template or doing a dry run, at a
    message of the provisioner of no kind it knows. *)
Lemma do_about h :
  match (runner_do workDirectory job h).1 with
  | Done c => c.(CompletedJob_JobId) = JobId
  | Failed f => f.(FailedJob_JobId) = JobId
  | Crashed _ =>
      match job.(AcquiredJob_type) with
      | Some (AcquiredJob_WorkspaceBuild _ _ _ metadata _) => metadata = None
      | Some (AcquiredJob_TemplateImport metadata) | Some (AcquiredJob_TemplateDryRun _ metadata) =>
          metadata = None ∨ untyped
      | None => True
      end
  end.
Proof.
  assert (∀ C k, about C of_job k → about C of_job (_ ← set_up workDirectory job; k)) as Hset.
  { intros C k Hk. apply about_bind; [apply about_set_up|done]. }
  unfold runner_do. destruct (AcquiredJob_type job) as [[| |]|]; apply Hset.
  - apply about_build.
  - apply about_bind; [eapply about_weaken; [|apply about_readme]; by right|]. intros _. apply about_import.
  - apply about_dry_run.
  - by intros h1.
Qed.

(** ** Files *)

Definition file_call (c : call) : option string :=
  match c with CallFs op _ => Some (op_path op) | _ => None end.

Section files.
Context (P : call → Prop) (HP : ∀ c, file_call c = None → P c).
#[local] Hint Extern 1 (P _) => (apply HP; reflexivity) : only.

Lemma parse_files : only P (runTemplateImportParse workDirectory).
Proof.
  unfold runTemplateImportParse. apply only_bind; [apply only_calling; auto with only|].
  intros [e|e|l e]; [auto with only..|]. induction l as [|[log|c|] l IH]; simpl; auto with only.
Qed.
Lemma import_provision_files values metadata : only P (runTemplateImportProvision workDirectory values metadata).
Proof.
  unfold runTemplateImportProvision. apply only_bind; [apply only_calling; auto with only|].
  intros [e|e|l e]; [auto with only..|]. induction l as [|[log|c|] l IH]; simpl; auto with only.
  case_match; auto with only.
Qed.
Lemma buildWorkspace_files stage req : only P (buildWorkspace job stage req).
Proof.
  unfold buildWorkspace. apply only_job_bind; [apply does_only, only_calling; auto with only|].
  intros [e|e|l e]; [auto with only..|]. induction l as [|[log|c|] l IH]; simpl; auto with only.
  case_match; auto with only.
Qed.
Lemma commitQuota_files resources : only P (runner_commitQuota job resources).
Proof.
  unfold runner_commitQuota. case_match; [by auto with only|].
  apply only_job_bind; [apply does_only, only_attempt; unfold call_quota; auto with only|].
  intros [e|resp]; [by auto with only|]. repeat (apply only_job_bind; [by auto with only|intros _]).
  case_match; auto with only.
Qed.
Lemma then_flush_files m : only P m → only P (then_flush m).
Proof.
  intros Hm h. destruct (Hm h) as (t & Ht & Hall). unfold then_flush. destruct (m h) as [r h1]. simpl in Ht. subst.
  destruct r; simpl; [exists (t ++ [CallFlush])|exists (t ++ [CallFlush])|by exists t];
    rewrite app_assoc, Forall_app, Forall_singleton; auto with only.
Qed.
#[local] Hint Resolve parse_files import_provision_files buildWorkspace_files commitQuota_files then_flush_files : only.

(** Only [set_up] touches files, and the clean-up. *)
Lemma do_files : only P (set_up workDirectory job) → only P (runner_do workDirectory job).
Proof.
  intros Hset. unfold runner_do. apply only_job_bind; [done|]. intros _.
  destruct (AcquiredJob_type job) as [[id name values metadata state|metadata|values metadata]|].
  - unfold runWorkspaceBuild. apply only_job_bind; [by auto with only|intros m]. destruct (apply_stage _) as [stage []];
      repeat (apply only_job_bind; [by auto with only|intros ?]); auto with only.
  - apply only_job_bind; [by apply runReadmeParse_only; auto with only|]. intros _. unfold runTemplateImport.
    repeat (apply only_job_bind; [by auto with only|intros ?]). case_match; [by auto with only|].
    repeat (apply only_job_bind; [by auto with only|intros ?]). auto with only.
  - unfold runTemplateDryRun. repeat (apply only_job_bind; [by auto with only|intros ?]). auto with only.
  - auto with only.
Qed.

Lemma doCleanFinish_files :
  (∀ op r, op_path op = workDirectory → P (CallFs op r)) → only P (set_up workDirectory job) →
  only P (doCleanFinish workDirectory job).
Proof.
  intros Hwork Hset h. unfold doCleanFinish. destruct (do_files Hset h) as (t & Ht & Hall).
  destruct (runner_do workDirectory job h) as [r h1]. simpl in *. subst.
  assert (∀ n, only P (remove_work workDirectory n)) as Hremove.
  { induction n as [|n IH]; simpl; [by auto with only|]. apply only_bind; [by auto with only|].
    intros [?|?]; auto with only. }
  assert (only P (clean_up workDirectory)) as Hclean by (unfold clean_up; auto 6 with only).
  destruct (Hclean (h ++ t)) as (t' & -> & Hall').
  exists (t ++ t'). by rewrite app_assoc, Forall_app.
Qed.
End files.

Lemma set_up_paths (P : call → Prop) :
  (∀ c, file_call c = None → P c) → (∀ op r, op_path op = workDirectory → P (CallFs op r)) →
  (∀ e op r, e ∈ (tar_read job.(AcquiredJob_TemplateSourceArchive)).1 →
     let headerPath := filepath_Join [workDirectory; e.(entry_header).(Header_Name)] in
     HasPrefix headerPath (filepath_Clean workDirectory) = true → op_path op = headerPath → P (CallFs op r)) →
  only P (set_up workDirectory job).
Proof.
  intros HP Hwork He. unfold set_up. apply only_job_bind; [by auto with only|]. intros _.
  apply only_job_bind; [apply does_only, daemon_log_only; auto|]. intros _.
  destruct (tar_read _) as [entries err]. apply only_job_bind; [by apply unpack_only|]. intros _. destruct err; auto with only.
Qed.

(** Whatever the archive of the template and the replies of the outside, a job
    creates, writes and removes only its work directory and paths that start with
    the name of the work directory; if no name in the archive has a double dot,
    only paths below it. *)
Theorem files_contained r h :
  doCleanFinish workDirectory job [] = (r, h) →
  (∀ op reply, CallFs op reply ∈ h →
     op_path op = workDirectory ∨ HasPrefix (op_path op) (filepath_Clean workDirectory) = true) ∧
  (rooted workDirectory = true → clean_elements workDirectory ≠ [] →
   (∀ e, e ∈ (tar_read job.(AcquiredJob_TemplateSourceArchive)).1 →
      ".." ∉ Split e.(entry_header).(Header_Name) slash) →
   ∀ op reply, CallFs op reply ∈ h →
     op_path op = workDirectory ∨ below (filepath_Clean workDirectory) (op_path op) = true).
Proof.
  intros Hr.
  assert (∀ P : string → Prop, P workDirectory →
    (∀ e, e ∈ (tar_read job.(AcquiredJob_TemplateSourceArchive)).1 →
       let headerPath := filepath_Join [workDirectory; e.(entry_header).(Header_Name)] in
       HasPrefix headerPath (filepath_Clean workDirectory) = true → P headerPath) →
    ∀ op reply, CallFs op reply ∈ h → P (op_path op)) as Hpaths.
  { intros P Hw He op reply Hop.
    destruct (doCleanFinish_files (λ c, ∀ path, file_call c = Some path → P path)) with (h := @nil call) as (t & Ht & Hall).
    - congruence.
    - simpl. congruence.
    - apply set_up_paths; simpl; [congruence|congruence|]. intros e op' _ Hin Hpre Hop'. specialize (He e Hin Hpre). intros path [= <-]. by rewrite Hop'.
    - rewrite Hr in Ht. simpl in Ht. subst. rewrite Forall_forall in Hall. by eapply Hall. }
  split.
  - apply (Hpaths (λ path, path = workDirectory ∨ HasPrefix path (filepath_Clean workDirectory) = true)); simpl; auto.
  - intros Hroot Hel Hdots.
    apply (Hpaths (λ path, path = workDirectory ∨ below (filepath_Clean workDirectory) path = true)); [auto|]. intros e Hin Hpre. simpl. right. apply join_below; auto.
Qed.

(** ** The job and its runner *)

(** The sections of the runner behind a call; the server answers a flush with
    [answer]. *)
Definition call_events (answer : res UpdateJobResponse) (c : call) : list runner_event :=
  match c with
  | CallLog log => [EvQueueLog log]
  | CallFlush => [EvFlushTake 0; EvFlushSend 0 answer]
  | CallUpdate u reply => [EvUpdate (match reply with inl e => Err e | inr resp => Ok resp end) u]
  | _ => []
  end.
Definition call_logs (c : call) : list proto_Log :=
  match c with CallLog log => [log] | CallUpdate u _ => u.(UpdateJobRequest_Logs) | _ => [] end.

(** A runner whose job is under way and of which nobody else takes the mutex. *)
Record alone (s : running) : Prop := {
  alone_ok : s.(shared_runner).(okToSend) = true;
  alone_failed : s.(shared_runner).(failedJob) = None;
  alone_completed : s.(shared_runner).(completedJob) = None;
  alone_flushing : s.(flushing) = ∅;
  alone_worker : s.(worker_ended) = false;
  alone_run : s.(run_returned) = false;
}.

Lemma locked_ok {A} (m : GoM Runner A) s :
  panics (m s.(shared_runner)).1 = false → locked m s = Some (Ok tt, s <| shared_runner := (m s.(shared_runner)).2 |>).
Proof. unfold locked. by destruct (m (shared_runner s)) as [[]]. Qed.

Lemma call_runs answer c es s :
  panics answer = false → runs job es s → alone s →
  ∃ s', runs job (es ++ call_events answer c) s' ∧ alone s' ∧ (c = CallFlush → s'.(shared_runner).(queuedLogs) = []).
Proof.
  intros Hans Hruns [Hok Hf Hc Hfl Hw Hr]. destruct c; simpl;
    try (exists s; rewrite app_nil_r; by split_and!).
  - exists (s <| shared_runner := (queueLog log s.(shared_runner)).2 |>). split_and!; [|split; simpl; try done..|done].
    + eapply runs_step; [done|done|]. apply locked_ok. unfold queueLog. by repeat case_match.
    + unfold queueLog. simpl. by repeat case_match.
    + unfold queueLog. simpl. by repeat case_match.
    + unfold queueLog. simpl. by repeat case_match.
  - eexists. split_and!.
    + change [EvFlushTake 0; EvFlushSend 0 answer] with ([EvFlushTake 0] ++ [EvFlushSend 0 answer]).
      rewrite (app_assoc es). eapply runs_step; [eapply runs_step; [done|done|]|done|].
      * simpl. by rewrite Hfl.
      * unfold runner_exec. simpl. rewrite lookup_insert_eq. apply locked_ok.
        unfold flush_send, Runner_update, look, attempt, mbind, gom_bind. simpl. rewrite Hok. by destruct answer.
    + unfold flush_send, Runner_update, look, attempt, mbind, gom_bind. simpl. rewrite Hok.
      split; simpl; try done; try (by destruct answer).
    + intros _. unfold flush_send, Runner_update, look, attempt, mbind, gom_bind. simpl. rewrite Hok. by destruct answer.
  - eexists. split_and!; [eapply runs_step; [done| |apply locked_ok]|..|done].
    + by destruct reply.
    + unfold Runner_update, look. rewrite Hok. by destruct reply.
    + unfold Runner_update, look. simpl. rewrite Hok. by split.
Qed.

Lemma calls_run answer h :
  panics answer = false →
  ∃ s, runs job (h ≫= call_events answer) s ∧ alone s ∧ (last h = Some CallFlush → s.(shared_runner).(queuedLogs) = []).
Proof.
  intros Hans. induction h as [|c h IH] using rev_ind.
  { exists (runner_start job). split_and!; [constructor|by split|done]. }
  destruct IH as (s & Hruns & Halone & _). rewrite bind_app, last_snoc. simpl. rewrite app_nil_r.
  destruct (call_runs answer c _ s Hans Hruns Halone) as (s' & Hruns' & Halone' & Hflush).
  exists s'. split_and!; [done|done|]. intros [= ->]. auto.
Qed.

Lemma call_events_logged answer h : (h ≫= call_events answer) ≫= logged = h ≫= call_logs.
Proof.
  induction h as [|c h IH]; [done|]. csimpl. rewrite bind_app, IH. f_equal. destruct c; simpl; by rewrite ?app_nil_r.
Qed.

Lemma remove_work_ok n h : is_ok (remove_work workDirectory n h).1 = true.
Proof.
  revert h. induction n as [|n IH]; intros h; [done|]. simpl.
  unfold attempt, call_fs, mbind, gom_bind, calling, lift_sum. destruct (env_fs _ _); [apply IH|done].
Qed.
Lemma doCleanFinish_flushed h r h' : doCleanFinish workDirectory job h = (r, h') → last h' = Some CallFlush.
Proof.
  unfold doCleanFinish, clean_up. destruct (runner_do workDirectory job h) as [r1 h1]. generalize 5%nat. intros n [= <- <-].
  unfold mbind, gom_bind, daemon_log, queue. simpl. match goal with |- context [remove_work workDirectory n ?h2] =>
    pose proof (remove_work_ok n h2) as Hrm end.
  destruct (remove_work _ _ _) as [[a|e|p] h2]; [|done..]. apply last_snoc.
Qed.

(** What the runner makes of the result of the job, and the message about it. *)
Definition job_outcome (r : jres CompletedJob) : option (FailedJob + CompletedJob) :=
  match r with Done c => Some (inr c) | Failed f => Some (inl f) | Crashed _ => None end.
Definition outcome_message (o : FailedJob + CompletedJob) : job_message :=
  match o with inl f => SendFailed f | inr c => SendCompleted c end.

(** The end of an uninterrupted run. *)
Lemma finish_sends outcome (r : Runner) :
  r.(okToSend) = true → r.(done_closed) = false → r.(failedJob) = None → r.(completedJob) = None → r.(runner_job) = job →
  message_job (outcome_message outcome) = JobId →
  let set := match outcome with inl f => setFail f | inr c => setComplete c end in
  let r' := (Run_finish (set r).2) in
  panics (set r).1 = false ∧ has_outcome (set r).2 = true ∧ panics r'.1 = false ∧
  r'.2.(sent) = r.(sent) ++ [outcome_message outcome].
Proof.
  destruct r as [job' q t f c ok dn cn st sn]. simpl. intros -> -> -> -> -> Hid.
  destruct outcome as [[id err ty]|]; simpl in Hid; subst; by split_and!.
Qed.

(** The goroutine of a job and its runner fit together: in the schedule in which no timer
    fires, no heartbeat is sent and nobody interrupts the job, the lines it logged are in
    the calls made to the server, the outcome of the job is the last of them, and [Run]
    returns. *)
Theorem job_reported answer r h outcome :
  panics answer = false → doCleanFinish workDirectory job [] = (r, h) → job_outcome r = Some outcome →
  ∃ s updates, runs job ((h ≫= call_events answer) ++ [EvEnd outcome; EvRun]) s ∧ s.(run_returned) = true ∧
    s.(shared_runner).(sent) = updates ++ [outcome_message outcome] ∧
    Forall (λ m, is_terminal m = false) updates ∧ updates ≫= message_logs ≡ₚ h ≫= call_logs.
Proof.
  intros Hans Hr Hout. destruct (calls_run answer h Hans) as (s & Hruns & Halone & Hq).
  specialize (Hq (doCleanFinish_flushed _ _ _ Hr)).
  pose proof (runs_logs _ _ _ Hruns (alone_ok _ Halone)) as Hlogs. rewrite call_events_logged in Hlogs.
  pose proof (runs_in_order _ _ _ Hruns) as Hord.
  assert (message_job (outcome_message outcome) = JobId) as Hid.
  { pose proof (do_about []) as Hab. unfold doCleanFinish in Hr. destruct (runner_do workDirectory job []) as [r1 h1].
    injection Hr as <- _. by destruct r1; simpl in *; simplify_eq/=. }
  destruct Halone as [Hok Hf Hc Hfl Hw Hret].
  pose proof (ok_sent _ _ Hord) as (us & ends & Hs & Hus & _ & Hlen). rewrite Hok in Hlen.
  destruct ends; [|simpl in Hlen; lia]. rewrite app_nil_r in Hs.
  destruct (finish_sends outcome (shared_runner s)) as (Hp & Hhas & Hp' & Hsent);
    [done|by rewrite (ok_done _ _ Hord), Hok|done|done|by apply Hord|done|].
  eexists _, us. split_and!.
  - change [EvEnd outcome; EvRun] with ([EvEnd outcome] ++ [EvRun]). rewrite app_assoc.
    eapply runs_step; [eapply runs_step; [exact Hruns|by destruct outcome|]|done|].
    + simpl. rewrite Hw. by apply locked_ok.
    + simpl. rewrite Hret, Hhas. by apply locked_ok.
  - done.
  - simpl. by rewrite Hsent, Hs.
  - done.
  - unfold all_logs in Hlogs. rewrite Hs, Hq, Hfl in Hlogs. unfold held in Hlogs. rewrite map_to_list_empty in Hlogs.
    by rewrite !app_nil_r in Hlogs.
Qed.

End props.

(** ** Examples *)

Module RunnerJobExamples.

Definition the_metadata (t : proto_WorkspaceTransition) : Provision_Metadata :=
  mkProvisionMetadata "https://coder" t "dev" "alice" "w1" "u1" "alice@coder".
Definition vm (cost : Z) : proto_Resource := mkResource "vm" "aws_instance" [] [] false EmptyString EmptyString cost.
Definition region : proto_ParameterSchema :=
  mkProtoParameterSchema "region" EmptyString None true None true false ParameterSchema_None EmptyString EmptyString EmptyString.
Definition region_value : proto_ParameterValue :=
  mkProtoParameterValue ParameterDestination_PROVISIONER_VARIABLE "region" "eu".
Definition says (text : string) : sdkproto_Log := mkSdkLog LogLevel_INFO text.

(** A provisioner that plans and applies, and a server that grants ten credits. *)
#[local] Instance provisioner : JobEnv := {|
  env_now _ := unix_epoch;
  env_uuid _ := inr 7%N;
  env_update _ u := inr (mkUpdateJobResponse false [region_value]);
  env_quota _ q := inr (mkCommitQuotaResponse (q.(CommitQuotaRequest_DailyCost) <=? 10) 0 10);
  env_parse _ _ := Messages [Parse_Response_Log (says "parsing"); Parse_Response_Complete [region]] ErrEOF;
  env_provision _ req :=
    match req with
    | Provision_Request_Plan _ _ =>
        Messages [Provision_Response_Log (says "planning");
                  Provision_Response_Complete (mkProvisionComplete None EmptyString [Byte.x01] [vm 4])] ErrEOF
    | _ => Messages [Provision_Response_Complete (mkProvisionComplete (Some [Byte.x02]) EmptyString [] [vm 4])] ErrEOF
    end;
  env_read _ _ := inl (ErrNew "file does not exist");
  env_fs _ _ := inr tt;
  env_verbose := error_string;
|}.
Definition file (name : string) : tar_entry := mkTarEntry (mkTarHeader name tar_TypeReg 0) [Byte.x00] None.
#[local] Instance archive : TarReader := λ b,
  (if bool_decide (b = []) then [file "main.tf"] else [file "../work2/main.tf"], None).
#[local] Existing Instance unary_uuid_text.

Definition build_job (t : proto_WorkspaceTransition) : AcquiredJob :=
  mkAcquiredJob "j1" 0 "terraform" "alice" [] (Some (AcquiredJob_WorkspaceBuild "b1" "dev" [] (Some (the_metadata t)) [])).
Definition import_job : AcquiredJob :=
  mkAcquiredJob "j2" 0 "terraform" "alice" [] (Some (AcquiredJob_TemplateImport (Some (the_metadata WorkspaceTransition_START)))).
Definition started := runner_do "/tmp/work" (build_job WorkspaceTransition_START) [].

Lemma build_follows_session_witness :
  length (works started.2) = 3%nat ∧
  (build_session "/tmp/work" (build_job WorkspaceTransition_START) [] (the_metadata WorkspaceTransition_START) []
     (works started.2) started.1 ∨
   (works started.2 = [] ∧ ∃ f, started.1 = Failed f ∧ f.(FailedJob_JobId) = "j1")).
Proof.
  split; [by vm_compute|].
  apply (build_follows_session "/tmp/work" (build_job WorkspaceTransition_START) "dev" "b1" []
    (Some (the_metadata WorkspaceTransition_START)) []).
  - reflexivity.
  - by vm_compute.
Defined.

Definition import_result := runner_do "/tmp/work" import_job [].
Lemma import_only_plans_witness :
  Forall harmless import_result.2 ∧
  ∀ c, import_result.1 = Done c → ∃ m, Some (the_metadata WorkspaceTransition_START) = Some m ∧
    imported "/tmp/work" import_job m c import_result.2.
Proof. apply (import_only_plans "/tmp/work" import_job import_result.1 import_result.2). by vm_compute. Defined.

Definition finished := doCleanFinish "/tmp/work" (build_job WorkspaceTransition_STOP) [].
Lemma files_contained_witness :
  CallFs (FsOpenFile "/tmp/work/main.tf" 384) (inr tt) ∈ finished.2 ∧
  below "/tmp/work" "/tmp/work/main.tf" = true.
Proof.
  assert (CallFs (FsOpenFile "/tmp/work/main.tf" 384) (inr tt) ∈ finished.2) as Hin.
  { apply (list_elem_of_lookup_2 _ 2). by vm_compute. }
  split; [exact Hin|].
  destruct (files_contained "/tmp/work" (build_job WorkspaceTransition_STOP) finished.1 finished.2) as [_ Hbelow]; [by vm_compute|].
  destruct (Hbelow eq_refl) with (op := FsOpenFile "/tmp/work/main.tf" 384) (reply := inr tt (A := error)) as [?|Hb].
  - by vm_compute.
  - intros e He. change (e ∈ [file "main.tf"]) in He. apply list_elem_of_singleton in He as ->.
    by apply (bool_decide_unpack (".." ∉ Split "main.tf" slash)).
  - exact Hin.
  - done.
  - exact Hb.
Defined.

Lemma job_reported_witness :
  ∃ s updates, s.(run_returned) = true ∧
    s.(shared_runner).(sent) = updates ++ [SendCompleted (mkCompletedJob "j1"
      (Some (CompletedJob_WorkspaceBuild [Byte.x02] [vm 4])))].
Proof.
  destruct (job_reported "/tmp/work" (build_job WorkspaceTransition_STOP) RunnerExamples.fine finished.1 finished.2
    (inr (mkCompletedJob "j1" (Some (CompletedJob_WorkspaceBuild [Byte.x02] [vm 4]))))) as (s & us & _ & Hr & Hs & _).
  - reflexivity.
  - by vm_compute.
  - by vm_compute.
  - exists s, us. exact (conj Hr Hs).
Defined.

(** The test of a header's path is one of strings: a sibling of the work directory
    whose name starts with the name of the work directory passes. *)
Example unpack_escapes :
  (unpack_entry "/tmp/work" import_job (file "../work2/main.tf") []).1 = Done tt ∧
  below "/tmp/work" (filepath_Join ["/tmp/work"; "../work2/main.tf"]) = false.
Proof. split; by vm_compute. Qed.

(** The quota is asked for the cost in 32 bits: resources of 2^32 credits a day
    ask for none. *)
Example quota_wraps :
  let resources := [vm (2 ^ 31 - 1); vm (2 ^ 31 - 1); vm 2] in
  sumDailyCost resources = 2 ^ 32 ∧ (quota_request import_job resources).(CommitQuotaRequest_DailyCost) = 0.
Proof. split; by vm_compute. Qed.

(** A job of no kind the daemon knows panics instead of failing. *)
Example unknown_job_panics :
  (runner_do "/tmp/work" (mkAcquiredJob "j3" 0 "terraform" "alice" [] None) []).1 = Crashed nil_dereference.
Proof. by vm_compute. Qed.

End RunnerJobExamples.
