(* ===== verification/Daemon.v ===== *)
(** * The provisioner daemon

    [provisionerd/provisionerd.go]: the server that polls for jobs, runs one at a
    time, and is shut down or closed. What a method does while it holds the mutex
    is one definition; replies of the API are arguments. The sections of the
    runners ([Runner]) interleave with those of the daemon in [daemon_exec].
    Dialing, the timers and the loops around [acquireJob] are not modelled.

    One job at a time, and no job is forgotten: whatever the interleaving of
    polling, shutting down, closing and the goroutines of the runners, every job
    the daemon acquired was refused, is the one under way, or has been reported
    over exactly once. *)

From stdpp Require Import prelude gmap strings.
From S2P Require Import Prelude Models ProvisionerdProto Runner RunnerProps.

Local Open Scope Z_scope.

(** ** Retries *)

(** The errors of [yamux] and [fasthttputil] that say a connection is gone. *)
Class TransportErrors := {
  ErrSessionShutdown : error;
  ErrInmemoryListenerClosed : error;
}.

Section retries.
Context `{TransportErrors}.

Definition retryable (err : error) : bool :=
  errors_Is err ErrSessionShutdown || errors_Is err ErrEOF || errors_Is err ErrInmemoryListenerClosed ||
  errors_Is err ErrCanceled.

(** The attempts until the context ends, [None] where there is no client. *)
Fixpoint clientDoWithRetries {A} (attempts : list (option (error + A))) (ctxErr : error) : error + A :=
  match attempts with
  | [] => inl ctxErr
  | None :: attempts => clientDoWithRetries attempts ctxErr
  | Some (inl err) :: attempts => if retryable err then clientDoWithRetries attempts ctxErr else inl err
  | Some (inr a) :: _ => inr a
  end.
End retries.

(** ** State *)

Record daemon_Options := mkDaemonOptions {
  JobPollDebounce : duration;
  Provisioners : list string;
}.

(** [jobs] are the runners that were made, the last of them is [activeJob];
    [shutdown_closed] and [daemon_closed] are the channel and the context; [waiting]
    says that [Shutdown] holds the mutex until the job is done. [lastAcquire] is a
    variable of the package. [refused] are the jobs without a provisioner, which
    are failed at once, and [acquired] all jobs. *)
Record Daemon := mkDaemon {
  daemon_closed : bool;
  closeError : option error;
  shutdown_closed : bool;
  waiting : bool;
  jobs : list running;
  lastAcquire : time;
  refused : list FailedJob;
  acquired : list AcquiredJob;
}.
#[global] Instance Daemon_eta : Eta Daemon := λ d,
  mkDaemon d.(daemon_closed) d.(closeError) d.(shutdown_closed) d.(waiting) d.(jobs) d.(lastAcquire) d.(refused) d.(acquired).

Definition daemon_New (lastAcquire : time) : Daemon := mkDaemon false None false false [] lastAcquire [] [].

Definition activeJob (d : Daemon) : option running := last d.(jobs).

(** Whether a channel of [Done] is closed. *)
Definition job_done (s : running) : bool := s.(shared_runner).(done_closed).

Definition isRunningJob (d : Daemon) : bool :=
  match activeJob d with None => false | Some s => negb (job_done s) end.

(** The active runner takes a section. *)
Definition set_active (s : running) (d : Daemon) : Daemon :=
  d <| jobs := take (length d.(jobs) - 1) d.(jobs) ++ [s] |>.

Section daemon.
Context (opts : daemon_Options).

Definition nil_type : string := "invalid memory address or nil pointer dereference".

(** ** The methods *)

(** [acquireJob]; the attributes of the span take the type of the job. *)
Definition acquireJob (connected : bool) (now : time) (reply : error + AcquiredJob) : GoM Daemon unit := λ d,
  if d.(daemon_closed) || isRunningJob d || d.(shutdown_closed) then (Ok tt, d)
  else if negb (IsZero d.(lastAcquire)) && (Sub now d.(lastAcquire) <? opts.(JobPollDebounce)) then (Ok tt, d)
  else if negb connected then (Ok tt, d)
  else match reply with
       | inl _ => (Ok tt, d)
       | inr job =>
           if job.(AcquiredJob_JobId) == EmptyString then (Ok tt, d <| lastAcquire := now |>)
           else
             let d := d <| acquired := d.(acquired) ++ [job] |> in
             match job.(AcquiredJob_type) with
             | None => (Panic nil_type, d)
             | Some _ =>
                 if bool_decide (job.(AcquiredJob_Provisioner) ∈ opts.(Provisioners))
                 then (Ok tt, d <| jobs := d.(jobs) ++ [runner_start job] |>)
                 else (Ok tt, d <| refused := d.(refused) ++
                         [mkFailedJob job.(AcquiredJob_JobId) ("no provisioner " +:+ job.(AcquiredJob_Provisioner)) None] |>)
             end
       end.

(** [Shutdown] up to where it waits. *)
Definition Shutdown : GoM Daemon unit := λ d,
  match activeJob d with
  | Some s =>
      if job_done s then (Ok tt, d)
      else if d.(shutdown_closed) then (Panic "close of closed channel", d)
      else (Ok tt, set_active (s <| shared_runner := (Runner_Cancel s.(shared_runner)).2 |>) d
                     <| shutdown_closed := true |> <| waiting := true |>)
  | None => (Ok tt, d)
  end.

(** Waiting ends when the job is done or the context of the caller is. *)
Definition Shutdown_wait (ctxDone : bool) (d : Daemon) : option Daemon :=
  if ctxDone || negb (isRunningJob d) then Some (d <| waiting := false |>) else None.

Definition close_message (err : option error) : string :=
  match err with Some e => error_string e | None => "provisioner daemon was shutdown gracefully" end.

(** [closeWithError]; [reply] is the answer of the server to the failure. *)
Definition closeWithError (err : option error) (reply : res unit) : GoM Daemon (option error) := λ d,
  if d.(daemon_closed) then (Ok d.(closeError), d)
  else
    let d := d <| closeError := err |> in
    match activeJob d with
    | None => (Ok err, d <| daemon_closed := true |>)
    | Some s =>
        match Runner_Fail reply (mkFailedJob EmptyString (close_message err) None) s.(shared_runner) with
        | (Panic p, r) => (Panic p, set_active (s <| shared_runner := r |>) d)
        | (Err failErr, r) =>
            match ForceStop r with
            | (Panic p, r) => (Panic p, set_active (s <| shared_runner := r |>) d)
            | (_, r) => (Ok (match err with None => Some failErr | _ => err end),
                         set_active (s <| shared_runner := r |>) d <| daemon_closed := true |>)
            end
        | (Ok _, r) => (Ok err, set_active (s <| shared_runner := r |>) d <| daemon_closed := true |>)
        end
    end.

(** ** Interleaving *)

Inductive daemon_event :=
| DvAcquire (connected : bool) (now : time) (reply : error + AcquiredJob)
| DvShutdown
| DvShutdownEnd (ctxDone : bool)
| DvClose (err : option error) (reply : res unit)
| DvJob (i : nat) (e : runner_event).

(** A method of the daemon takes its mutex. *)
Definition daemon_locked {A} (m : GoM Daemon A) (d : Daemon) : option (res unit * Daemon) :=
  if d.(waiting) then None
  else let '(r, d) := m d in Some (match r with Panic p => Panic p | _ => Ok tt end, d).

Definition daemon_exec (e : daemon_event) (d : Daemon) : option (res unit * Daemon) :=
  match e with
  | DvAcquire connected now reply => daemon_locked (acquireJob connected now reply) d
  | DvShutdown => daemon_locked Shutdown d
  | DvShutdownEnd ctxDone => if d.(waiting) then (λ d, (Ok tt, d)) <$> Shutdown_wait ctxDone d else None
  | DvClose err reply => daemon_locked (closeWithError err reply) d
  | DvJob i e =>
      s ← d.(jobs) !! i;
      '(r, s') ← runner_exec e s;
      Some (r, d <| jobs := <[i := s']> d.(jobs) |>)
  end.
End daemon.

(** ** Properties *)

Local Close Scope Z_scope.

(** ** Retries *)

(** A call with retries returns the reply of an attempt that is no sign of a
    lost connection, before which every attempt was one; without such an
    attempt it returns the error of the context. *)
Theorem retries_reply `{TransportErrors} {A} (attempts : list (option (error + A))) (ctxErr : error) :
  let lost a := match a with None => true | Some (inl e) => retryable e | Some (inr _) => false end in
  (∃ before reply after, attempts = before ++ Some reply :: after ∧ forallb lost before = true ∧
     lost (Some reply) = false ∧ clientDoWithRetries attempts ctxErr = reply) ∨
  (forallb lost attempts = true ∧ clientDoWithRetries attempts ctxErr = inl ctxErr).
Proof.
  intros lost. induction attempts as [|[[e|a]|] attempts IH]; simpl; [by right| | |].
  - destruct (retryable e) eqn:He; [|by left; exists [], (inl e), attempts].
    destruct IH as [(before & reply & after & -> & Hb & Hr & Heq)|[Hl Heq]]; [left|by right].
    exists (Some (inl e) :: before), reply, after. simpl. by rewrite He.
  - left. by exists [], (inr a), attempts.
  - destruct IH as [(before & reply & after & -> & Hb & Hr & Heq)|[Hl Heq]]; [left|by right].
    by exists (None :: before), reply, after.
Qed.

(** ** Runs *)

Section daemon.
Context (opts : daemon_Options).

(** The goroutines of a runner say what [RunnerProps] asks of them; only the daemon
    forces a runner to stop. *)
Definition allowed (e : daemon_event) (d : Daemon) : Prop :=
  match e with
  | DvJob i e => e ≠ EvForceStop ∧ ∀ s, d.(jobs) !! i = Some s → event_of s.(shared_runner).(runner_job) e
  | DvClose _ reply => panics reply = false
  | _ => True
  end.

Inductive daemon_runs : Daemon → Prop :=
| daemon_starts t : daemon_runs (daemon_New t)
| daemon_steps d e d' : daemon_runs d → allowed e d → daemon_exec opts e d = Some (Ok tt, d') → daemon_runs d'.

(** A runner in order, that reported its job if it is done. *)
Record job_ok (s : running) : Prop := {
  job_runs : runner_ok s.(shared_runner).(runner_job) s.(shared_runner);
  job_concluded : concluded False s.(shared_runner);
}.

Record daemon_ok (d : Daemon) : Prop := {
  ok_jobs : Forall job_ok d.(jobs);
  ok_past : ∀ i s, d.(jobs) !! i = Some s → S i < length d.(jobs) → job_done s = true;
  ok_closed : d.(daemon_closed) = true → Forall (λ s, job_done s = true) d.(jobs);
  ok_acquired : AcquiredJob_JobId <$> d.(acquired) ≡ₚ
    ((λ s, s.(shared_runner).(runner_job).(AcquiredJob_JobId)) <$> d.(jobs)) ++ (FailedJob_JobId <$> d.(refused));
}.
End daemon.

(** ** A runner on its own *)

Lemma job_ok_start job : job_ok (runner_start job).
Proof. split; [apply (runs_in_order job []); constructor|done]. Qed.

(** What a section does to a runner. *)
Lemma job_ok_section {A} (m : GoM Runner A) s r :
  job_ok s → in_order s.(shared_runner).(runner_job) m → concludes_at False m s.(shared_runner) →
  (m s.(shared_runner)).2 = r → job_ok (s <| shared_runner := r |>) ∧ r.(runner_job) = s.(shared_runner).(runner_job) ∧
  (job_done s = true → r.(done_closed) = true).
Proof.
  intros [Hok Hc] Hm (Hcon & _ & Hend) <-. destruct (Hm _ Hok) as [Hok' _].
  assert (runner_job (m (shared_runner s)).2 = runner_job (shared_runner s)) as Hj by apply Hok'.
  split_and!; [|done|].
  - split; simpl; [by rewrite Hj|auto].
  - unfold job_done. rewrite (ok_done _ _ Hok), (ok_done _ _ Hok').
    intros Hd%negb_true_iff. by rewrite Hend.
Qed.

Lemma job_ok_step e s res s' :
  job_ok s → event_of s.(shared_runner).(runner_job) e → e ≠ EvForceStop → runner_exec e s = Some (res, s') →
  job_ok s' ∧ s'.(shared_runner).(runner_job) = s.(shared_runner).(runner_job) ∧ (job_done s = true → job_done s' = true).
Proof.
  intros Hs He Hforce. pose proof (job_runs _ Hs) as Hok.
  assert (∀ A (m : GoM Runner A) s1, s1.(shared_runner) = s.(shared_runner) → in_order s.(shared_runner).(runner_job) m →
    concludes_at False m s.(shared_runner) → locked m s1 = Some (res, s') →
    job_ok s' ∧ s'.(shared_runner).(runner_job) = s.(shared_runner).(runner_job) ∧ (job_done s = true → job_done s' = true)) as Hm.
  { intros A m s1 Hs1 Hord Hcon ->%locked_Some. rewrite Hs1.
    destruct (job_ok_section m s _ Hs Hord Hcon eq_refl) as ([Ho Hc] & Hj & Hd). split_and!; [by split|done|done]. }
  destruct e; simpl; simpl in He.
  - apply Hm; auto using update_in_order. apply concludes_update.
  - apply Hm; auto using queueLog_in_order. apply concludes_queueLog.
  - destruct (flushing s !! i); [done|]. intros [= <- <-].
    destruct (job_ok_section flush_take s _ Hs (flush_take_in_order _) (concludes_flush_take _ _) eq_refl) as ([Ho Hc] & Hj & Hd).
    split_and!; [by split|done|done].
  - destruct (flushing s !! i); [|done]. apply Hm; auto using flush_send_in_order. apply concludes_flush_send.
  - apply Hm; auto using cancel_in_order. apply concludes_cancel.
  - apply Hm; auto using Fail_in_order. apply concludes_Fail.
  - done.
  - destruct (worker_ended s); [done|]. destruct outcome.
    + apply Hm; auto using setFail_in_order. apply concludes_setFail.
    + apply Hm; auto using setComplete_in_order. apply concludes_setComplete.
  - destruct (run_returned s); [done|]. destruct (has_outcome _) eqn:Ho; [|done]. simpl.
    apply Hm; auto using Run_finish_in_order. by apply concludes_Run_finish; [|apply Hok].
Qed.

(** After [Fail] the job is over; stopping it then only cancels contexts. *)
Lemma Fail_done reply f s :
  job_ok s → panics reply = false → (Runner_Fail reply f s.(shared_runner)).2.(done_closed) = true.
Proof.
  intros [Hok _] Hrep. destruct (Fail_in_order _ reply f Hrep _ Hok) as [Hok' _]. rewrite (ok_done _ _ Hok').
  unfold Runner_Fail, look. destruct (okToSend (shared_runner s)) eqn:Hs; [|simpl; by rewrite Hs].
  unfold close_done, mbind, gom_bind. simpl. by rewrite (ok_done _ _ Hok), Hs.
Qed.
Lemma ForceStop_job_ok s :
  job_ok s → job_done s = true →
  let r := (ForceStop s.(shared_runner)).2 in
  panics (ForceStop s.(shared_runner)).1 = false ∧ job_ok (s <| shared_runner := r |>) ∧
  r.(runner_job) = s.(shared_runner).(runner_job) ∧ r.(done_closed) = true.
Proof.
  intros Hs Hd. pose proof (job_runs _ Hs) as Hok. destruct (ForceStop_in_order _ _ Hok) as [_ Hp].
  split; [done|]. unfold job_done in Hd. rewrite (ok_done _ _ Hok), negb_true_iff in Hd.
  destruct (job_ok_section ForceStop s (ForceStop (shared_runner s)).2 Hs (ForceStop_in_order _))
    as (Hj & Hjob & Hdone); [|done|].
  - unfold concludes_at, concluded, ForceStop, look, mbind, gom_bind. simpl. rewrite Hd. simpl. by rewrite Hd.
  - split_and!; [done|done|]. apply Hdone. unfold job_done. by rewrite (ok_done _ _ Hok), Hd.
Qed.

(** ** The daemon *)

Lemma set_active_jobs s d s0 :
  activeJob d = Some s0 → ∃ past, d.(jobs) = past ++ [s0] ∧ (set_active s d).(jobs) = past ++ [s].
Proof.
  unfold activeJob, set_active. intros [past Hl]%last_Some. exists past. simpl. rewrite Hl. split; [done|].
  rewrite length_app. simpl. by rewrite Nat.add_sub, take_app_length.
Qed.

(** The active runner changes to one that is as good. *)
Lemma daemon_ok_active d s0 s closed :
  daemon_ok d → activeJob d = Some s0 → job_ok s → s.(shared_runner).(runner_job) = s0.(shared_runner).(runner_job) →
  (job_done s0 = true → job_done s = true) → (closed = true → d.(daemon_closed) = true ∨ job_done s = true) →
  ∀ d', d'.(jobs) = (set_active s d).(jobs) → d'.(acquired) = d.(acquired) → d'.(refused) = d.(refused) →
    d'.(daemon_closed) = closed → daemon_ok d'.
Proof.
  intros [Hjobs Hpast Hclosed Hacq] Hact Hs Hj Hd Hc d' Hjobs' Hacq' Href' Hcl'.
  destruct (set_active_jobs s d s0 Hact) as (past & Heq & Heq'). rewrite Heq' in Hjobs'.
  rewrite Heq in Hjobs, Hpast, Hclosed, Hacq. apply Forall_app in Hjobs as [Hp _].
  assert (Forall (λ s, job_done s = true) past) as Hdone.
  { apply Forall_lookup. intros i s1 Hi. apply (Hpast i); [by apply lookup_app_l_Some|].
    apply lookup_lt_Some in Hi. rewrite length_app. simpl. lia. }
  split; rewrite Hjobs'.
  - apply Forall_app. split; [done|by constructor].
  - intros i s1 Hi Hlt. rewrite length_app in Hlt. simpl in Hlt. rewrite lookup_app_l in Hi by lia.
    rewrite Forall_lookup in Hdone. eauto.
  - rewrite Hcl'. intros Hcl. apply Forall_app. split; [done|]. apply Forall_singleton.
    destruct (Hc Hcl) as [Hold|?]; [|done]. apply Hd. specialize (Hclosed Hold). rewrite Forall_app, Forall_singleton in Hclosed.
    naive_solver.
  - rewrite Hacq', Href', Hacq, !fmap_app. simpl. by rewrite Hj.
Qed.

Section runs.
Context (opts : daemon_Options).

Lemma acquireJob_ok connected now reply d :
  daemon_ok d → panics (acquireJob opts connected now reply d).1 = false → daemon_ok (acquireJob opts connected now reply d).2.
Proof.
  intros Hd. unfold acquireJob. destruct (_ || _ || _) eqn:Hskip; [done|]. destruct (_ && _); [done|].
  destruct connected; [|done]. simpl. destruct reply as [e|job]; [done|].
  destruct Hd as [Hjobs Hpast Hclosed Hacq]. destruct (_ == EmptyString); [by split|].
  apply orb_false_iff in Hskip as [[Hcl Hrun]%orb_false_iff _].
  destruct (AcquiredJob_type job); [|done]. case_bool_decide; intros _; split; simpl; try done.
  - apply Forall_app. split; [done|]. constructor; [apply job_ok_start|done].
  - intros i s Hi Hlt. rewrite length_app in Hlt. simpl in Hlt. rewrite lookup_app_l in Hi by lia.
    destruct (decide (S i < length (jobs d))) as [Hl|Hl]; [by apply (Hpast i)|].
    unfold isRunningJob, activeJob in Hrun. rewrite last_lookup in Hrun. replace (Nat.pred (length (jobs d))) with i in Hrun by lia.
    rewrite Hi in Hrun. by apply negb_false_iff in Hrun.
  - congruence.
  - rewrite !fmap_app. simpl. rewrite Hacq. solve_Permutation.
  - rewrite !fmap_app. simpl. rewrite Hacq. solve_Permutation.
Qed.

Lemma Shutdown_ok d : daemon_ok d → panics (Shutdown d).1 = false → daemon_ok (Shutdown d).2.
Proof.
  intros Hd. unfold Shutdown. destruct (activeJob d) as [s|] eqn:Ha; [|done].
  destruct (job_done s) eqn:Hdone; [done|]. destruct (shutdown_closed d); [done|]. intros _. simpl.
  assert (job_ok s) as Hs by (eapply Forall_forall; [apply Hd|by apply last_Some_elem_of]).
  destruct (job_ok_section Runner_Cancel s _ Hs (cancel_in_order _) (concludes_cancel _ _) eq_refl) as (Hs' & Hj & Hd').
  eapply (daemon_ok_active d s _ d.(daemon_closed)); eauto.
Qed.

Lemma closeWithError_ok err reply d :
  daemon_ok d → panics reply = false →
  panics (closeWithError err reply d).1 = false ∧ daemon_ok (closeWithError err reply d).2 ∧
  (closeWithError err reply d).2.(daemon_closed) = true.
Proof.
  intros Hd Hrep. unfold closeWithError. destruct (daemon_closed d) eqn:Hc; [done|].
  change (activeJob (d <| closeError := err |>)) with (activeJob d).
  destruct (activeJob d) as [s|] eqn:Ha; last first.
  { split_and!; [done| |done]. destruct Hd as [Hj Hp _ Hacq]. split; simpl; try done. intros _.
    unfold activeJob in Ha. apply last_None in Ha. by rewrite Ha. }
  assert (job_ok s) as Hs by (eapply Forall_forall; [apply Hd|by apply last_Some_elem_of]).
  set (f := mkFailedJob _ _ _).
  destruct (job_ok_section (Runner_Fail reply f) s _ Hs (Fail_in_order _ _ _ Hrep) (concludes_Fail _ _ _ _) eq_refl) as (Hs' & Hj & _).
  pose proof (Fail_done reply f s Hs Hrep) as Hdone.
  destruct (Fail_in_order _ reply f Hrep _ (job_runs _ Hs)) as [_ Hpan].
  destruct (Runner_Fail reply f (shared_runner s)) as [[[]|e|p] r]; simpl in *; [| |done].
  - split_and!; [done| |done]. eapply (daemon_ok_active d s _ true); eauto.
  - destruct (ForceStop_job_ok _ Hs' Hdone) as (Hpan' & Hs2 & Hj2 & Hd2). simpl in *.
    destruct (ForceStop r) as [[[]|e'|p] r2]; simpl in *; [| |done];
      (split_and!; [done| |done]); (eapply (daemon_ok_active d s _ true); eauto; simpl; congruence).
Qed.

Lemma daemon_runs_ok d : daemon_runs opts d → daemon_ok d.
Proof.
  induction 1 as [t|d e d' _ Hd Hallow Hex]; [by split|].
  destruct e as [connected now reply| |ctxDone|err reply|i e]; simpl in Hex, Hallow; unfold daemon_locked in Hex.
  - destruct (waiting d); [done|]. pose proof (acquireJob_ok connected now reply d Hd) as Hk.
    destruct (acquireJob _ _ _ _ d) as [[] d1]; simplify_eq/=; auto.
  - destruct (waiting d); [done|]. pose proof (Shutdown_ok d Hd) as Hk.
    destruct (Shutdown d) as [[] d1]; simplify_eq/=; auto.
  - unfold Shutdown_wait in Hex. destruct (waiting d); [|done]. destruct (_ || _); simplify_eq/=.
    by destruct Hd; split.
  - destruct (waiting d); [done|]. pose proof (closeWithError_ok err reply d Hd Hallow) as (_ & Hk & _).
    destruct (closeWithError _ _ d) as [[] d1]; simplify_eq/=; auto.
  - destruct (jobs d !! i) as [s|] eqn:Hi; [|done]. simpl in Hex.
    destruct (runner_exec e s) as [[res s']|] eqn:He; [|done]. injection Hex as -> <-.
    destruct Hallow as [Hforce Hev]. destruct Hd as [Hjobs Hpast Hclosed Hacq].
    assert (job_ok s) as Hs by (by eapply Forall_lookup_1).
    destruct (job_ok_step e s (Ok tt) s' Hs (Hev s eq_refl) Hforce He) as (Hs' & Hj & Hdone).
    split; simpl.
    + by apply Forall_insert.
    + intros k s1. rewrite length_insert, list_lookup_insert_Some. intros [(<- & -> & _)|[_ Hk]] Hlt; eauto.
    + intros Hc. apply Forall_insert; [by apply Hclosed|]. apply Hdone. by eapply Forall_lookup_1 in Hi; [|apply Hclosed].
    + rewrite Hacq, list_fmap_insert. simpl. rewrite Hj. by rewrite list_insert_id; [|rewrite list_lookup_fmap, Hi].
Qed.

(** C25: Whatever the interleaving of polling, shutting down, closing and the
    goroutines of the runners, a job that is under way is the last one acquired
    and the daemon is not closed; every other job that got a runner has been
    reported over, with exactly one terminal message, its last, which names it;
    and these jobs and those refused for want of a provisioner are all the jobs
    that were acquired. *)
Theorem daemon_settles d :
  daemon_runs opts d →
  AcquiredJob_JobId <$> d.(acquired) ≡ₚ
    ((λ s, s.(shared_runner).(runner_job).(AcquiredJob_JobId)) <$> d.(jobs)) ++ (FailedJob_JobId <$> d.(refused)) ∧
  ∀ i s, d.(jobs) !! i = Some s →
    if job_done s then
      ∃ updates m, s.(shared_runner).(sent) = updates ++ [m] ∧ Forall (λ m, is_terminal m = false) updates ∧
        is_terminal m = true ∧ message_job m = s.(shared_runner).(runner_job).(AcquiredJob_JobId)
    else S i = length d.(jobs) ∧ d.(daemon_closed) = false.
Proof.
  intros Hruns. destruct (daemon_runs_ok d Hruns) as [Hjobs Hpast Hclosed Hacq]. split; [done|]. intros i s Hi.
  pose proof (lookup_lt_Some _ _ _ Hi) as Hlt. destruct (job_done s) eqn:Hdone; last first.
  { split.
    - destruct (decide (S i < length (jobs d))) as [Hl|Hl]; [|lia]. specialize (Hpast i s Hi Hl). congruence.
    - apply not_true_is_false. intros Hc. specialize (Hclosed Hc). eapply Forall_lookup_1 in Hi; [|exact Hclosed]. simpl in Hi. congruence. }
  pose proof (Forall_lookup_1 _ _ _ _ Hjobs Hi) as [Hok Hcon].
  unfold job_done in Hdone. rewrite (ok_done _ _ Hok), negb_true_iff in Hdone.
  destruct (Hcon Hdone) as [_ [[]|Hex]]. destruct (ok_sent _ _ Hok) as (us & ends & Hs & Hus & Hends & Hlen).
  rewrite Hdone in Hlen. rewrite Hs, Exists_app in Hex.
  destruct ends as [|m []]; [| |simpl in Hlen; lia].
  - exfalso. destruct Hex as [Hex|Hex%Exists_nil]; [by eapply no_terminal|done].
  - apply Forall_singleton in Hends as [Ht Hm]. by exists us, m.
Qed.
End runs.

(** ** Examples *)

Module DaemonExamples.

Definition terraform : daemon_Options := mkDaemonOptions 0 ["terraform"].
Definition work_on (id provisioner : string) : AcquiredJob :=
  mkAcquiredJob id 0 provisioner "alice" [] (Some (AcquiredJob_TemplateDryRun []
    (Some (mkProvisionMetadata EmptyString WorkspaceTransition_START EmptyString EmptyString EmptyString EmptyString EmptyString)))).

Definition daemon_after (es : list daemon_event) : option Daemon :=
  foldl (λ d e, d ← d; match daemon_exec terraform e d with Some (Ok _, d') => Some d' | _ => None end)
    (Some (daemon_New 0)) es.

Lemma daemon_runs_after es d :
  (∀ e d, e ∈ es → allowed e d) → daemon_after es = Some d → daemon_runs terraform d.
Proof.
  unfold daemon_after. revert d. induction es as [|e es IH] using rev_ind; simpl; intros d Hall Hrun.
  { simplify_eq. constructor. }
  rewrite foldl_app in Hrun. simpl in Hrun. destruct (foldl _ _ es) as [d0|] eqn:H0; [|done]. simpl in Hrun.
  destruct (daemon_exec terraform e d0) as [[[[]| |] d1]|] eqn:Hex; try done. injection Hrun as <-.
  eapply daemon_steps; [apply IH; [|done]| |exact Hex].
  - intros e' d' He'. apply Hall. set_solver.
  - apply Hall. set_solver.
Qed.

(** A job is refused, one is done, one is under way when the daemon is closed. *)
Definition a_day : list daemon_event :=
  [DvAcquire true 1 (inr (work_on "j1" "echo")); DvAcquire true 2 (inr (work_on "j2" "terraform"));
   DvJob 0 (EvEnd (inl (mkFailedJob "j2" "no plan" None))); DvJob 0 EvRun;
   DvAcquire true 3 (inr (work_on "j3" "terraform")); DvJob 1 (EvQueueLog (RunnerExamples.line "a")); DvShutdown;
   DvShutdownEnd true; DvClose None (Err ErrEOF)].
Definition evening : Daemon := default (daemon_New 0) (daemon_after a_day).

Lemma daemon_settles_witness :
  AcquiredJob_JobId <$> evening.(acquired) = ["j1"; "j2"; "j3"] ∧
  map job_done evening.(jobs) = [true; true] ∧
  AcquiredJob_JobId <$> evening.(acquired) ≡ₚ
    ((λ s, s.(shared_runner).(runner_job).(AcquiredJob_JobId)) <$> evening.(jobs)) ++ (FailedJob_JobId <$> evening.(refused)).
Proof.
  split_and!; [by vm_compute..|].
  apply (daemon_settles terraform evening). apply (daemon_runs_after a_day); [|by vm_compute].
  intros e d He. unfold a_day in He. set_unfold in He. repeat (destruct He as [->|He]; [by simpl|]). by subst.
Defined.

(** [Shutdown] of an idle daemon returns at once and leaves no trace: the daemon
    goes on to acquire a job. *)
Example shutdown_idle :
  length <$> (jobs <$> daemon_after [DvShutdown; DvAcquire true 1 (inr (work_on "j1" "terraform"))]) = Some 1.
Proof. by vm_compute. Qed.

(** After a [Shutdown] that timed out, another one panics while the job runs. *)
Example shutdown_twice :
  (d ← daemon_after [DvAcquire true 1 (inr (work_on "j1" "terraform")); DvShutdown; DvShutdownEnd true];
   fst <$> daemon_exec terraform DvShutdown d) = Some (Panic "close of closed channel").
Proof. by vm_compute. Qed.

End DaemonExamples.
