(* ===== verification/ProvisionerdServer.v ===== *)
(** * The provisioner daemon server

    [coderd/provisionerdserver/provisionerdserver.go]: the calls a provisioner
    daemon makes to take a job, report on it, and finish or fail it. Logging
    and telemetry are left out; they do not change the store. *)

From stdpp Require Import prelude gmap strings pretty.
From Stdlib Require Import Ascii.
From S2P Require Import Prelude Models Queries ModelMethods.
From S2P Require Import Store StoreUsers StoreMisc StoreJobs StoreTemplates StoreWorkspaces.
From S2P Require Import World Auditing ParamCompute ProvisionerdProto.

(** ** Conversions *)

Definition convertValidationTypeSystem (typeSystem : ParameterSchema_TypeSystem) :
    res ParameterTypeSystem :=
  match typeSystem with
  | ParameterSchema_None => Ok ParameterTypeSystemNone
  | ParameterSchema_HCL => Ok ParameterTypeSystemHCL
  | ParameterSchema_unknown n => Err (ErrNew ("unknown type system: " +:+ pretty n))
  end.

Definition convertParameterSourceScheme (sourceScheme : ParameterSource_Scheme) :
    res ParameterSourceScheme :=
  match sourceScheme with
  | ParameterSource_DATA => Ok ParameterSourceSchemeData
  | ParameterSource_unknown n => Err (ErrNew ("unknown parameter source scheme: " +:+ pretty n))
  end.

Definition convertParameterDestinationScheme (destinationScheme : ParameterDestination_Scheme) :
    res ParameterDestinationScheme :=
  match destinationScheme with
  | ParameterDestination_ENVIRONMENT_VARIABLE => Ok ParameterDestinationSchemeEnvironmentVariable
  | ParameterDestination_PROVISIONER_VARIABLE => Ok ParameterDestinationSchemeProvisionerVariable
  | ParameterDestination_unknown n =>
      Err (ErrNew ("unknown parameter destination scheme: " +:+ pretty n))
  end.

Definition convertLogLevel (logLevel : proto_LogLevel) : res LogLevel :=
  match logLevel with
  | LogLevel_TRACE => Ok LogLevelTrace
  | LogLevel_DEBUG => Ok LogLevelDebug
  | LogLevel_INFO => Ok LogLevelInfo
  | LogLevel_WARN => Ok LogLevelWarn
  | LogLevel_ERROR => Ok LogLevelError
  | LogLevel_unknown n => Err (ErrNew ("unknown log level: " +:+ pretty n))
  end.

Definition convertLogSource (logSource : proto_LogSource) : res LogSource :=
  match logSource with
  | LogSource_PROVISIONER_DAEMON => Ok LogSourceProvisionerDaemon
  | LogSource_PROVISIONER => Ok LogSourceProvisioner
  | LogSource_unknown n => Err (ErrNew ("unknown log source: " +:+ pretty n))
  end.

Definition convertComputedParameterValue (param : ComputedValue) : res proto_ParameterValue :=
  let v := param.(ComputedValue_ParameterValue) in
  let value scheme :=
    Ok (mkProtoParameterValue scheme v.(ParameterValue_Name) v.(ParameterValue_SourceValue)) in
  match v.(ParameterValue_DestinationScheme) with
  | ParameterDestinationSchemeEnvironmentVariable => value ParameterDestination_ENVIRONMENT_VARIABLE
  | ParameterDestinationSchemeProvisionerVariable => value ParameterDestination_PROVISIONER_VARIABLE
  | s => Err (ErrNew ("unrecognized destination scheme: "
                +:+ quote (ParameterDestinationScheme_string s)))
  end.

Fixpoint convertComputedParameterValues (parameters : list ComputedValue) :
    res (list proto_ParameterValue) :=
  match parameters with
  | [] => Ok []
  | p :: ps =>
      match convertComputedParameterValue p with
      | Ok v => vs ← convertComputedParameterValues ps; Ok (v :: vs)
      | Err e => Err (ErrWrap "convert parameter" e)
      | Panic m => Panic m
      end
  end.

Definition convertWorkspaceTransition (transition : WorkspaceTransition) :
    res proto_WorkspaceTransition :=
  match transition with
  | WorkspaceTransitionStart => Ok WorkspaceTransition_START
  | WorkspaceTransitionStop => Ok WorkspaceTransition_STOP
  | WorkspaceTransitionDelete => Ok WorkspaceTransition_DESTROY
  | t => Err (ErrNew ("unrecognized transition: " +:+ quote (WorkspaceTransition_string t)))
  end.

Definition auditActionFromTransition (transition : WorkspaceTransition) : AuditAction :=
  match transition with
  | WorkspaceTransitionStart => AuditActionStart
  | WorkspaceTransitionStop => AuditActionStop
  | WorkspaceTransitionDelete => AuditActionDelete
  | _ => AuditActionWrite
  end.

(** ** Job inputs *)

Record WorkspaceProvisionJob := mkWorkspaceProvisionJob {
  WorkspaceProvisionJob_WorkspaceBuildID : uuid;
  WorkspaceProvisionJob_DryRun : bool;
}.
#[global] Instance WorkspaceProvisionJob_eta : Eta WorkspaceProvisionJob := λ j,
  mkWorkspaceProvisionJob j.(WorkspaceProvisionJob_WorkspaceBuildID)
    j.(WorkspaceProvisionJob_DryRun).

Record TemplateVersionDryRunJob := mkTemplateVersionDryRunJob {
  TemplateVersionDryRunJob_TemplateVersionID : uuid;
  TemplateVersionDryRunJob_WorkspaceName : string;
  TemplateVersionDryRunJob_ParameterValues : list ParameterValue;
}.
#[global] Instance TemplateVersionDryRunJob_eta : Eta TemplateVersionDryRunJob := λ j,
  mkTemplateVersionDryRunJob j.(TemplateVersionDryRunJob_TemplateVersionID)
    j.(TemplateVersionDryRunJob_WorkspaceName) j.(TemplateVersionDryRunJob_ParameterValues).

(** [json.Unmarshal] into a struct: each member sets the field its key names up
    to case, [null] leaves a field alone, unknown keys are skipped. *)
Fixpoint unmarshal_fields {T} (set_member : string → json → T → res T)
    (fields : list (string * json)) (x : T) : res T :=
  match fields with
  | [] => Ok x
  | (k, JNull) :: fields => unmarshal_fields set_member fields x
  | (k, j) :: fields => x ← set_member k j x; unmarshal_fields set_member fields x
  end.

Definition unmarshal_struct {T} (set_member : string → json → T → res T) (zero : T)
    (m : RawMessage) : res T :=
  match raw_json m with
  | Some (JObject fields) => unmarshal_fields set_member fields zero
  | Some JNull => Ok zero
  | _ => Err errUnmarshal
  end.

Definition unmarshal_int64 (j : json) : res Z :=
  match j with
  | JNumber n => if (min_int64 <=? n)%Z && (n <=? max_int64)%Z then Ok n else Err errUnmarshal
  | _ => Err errUnmarshal
  end.

Section inputs.
Context `{!UuidText}.

Definition errInvalidUUID : error := ErrNew "invalid UUID".
Definition parse_uuid (s : string) : res uuid := of_option errInvalidUUID (uuid_Parse s).

Definition unmarshal_uuid (j : json) : res uuid :=
  match j with JString s => parse_uuid s | _ => Err errUnmarshal end.

Definition unmarshal_WorkspaceProvisionJob (m : RawMessage) : res WorkspaceProvisionJob :=
  unmarshal_struct (λ k j x,
    if EqualFold k "workspace_build_id" then
      id ← unmarshal_uuid j; Ok (x <| WorkspaceProvisionJob_WorkspaceBuildID := id |>)
    else if EqualFold k "dry_run" then
      match j with
      | JBool b => Ok (x <| WorkspaceProvisionJob_DryRun := b |>)
      | _ => Err errUnmarshal
      end
    else Ok x) (mkWorkspaceProvisionJob uuid_Nil false) m.

(** [decode] stands for the decoder of [[]database.ParameterValue], which
    [encoding/json] derives from the type's tags. *)
Definition unmarshal_TemplateVersionDryRunJob (decode : json → res (list ParameterValue))
    (m : RawMessage) : res TemplateVersionDryRunJob :=
  unmarshal_struct (λ k j x,
    if EqualFold k "template_version_id" then
      id ← unmarshal_uuid j; Ok (x <| TemplateVersionDryRunJob_TemplateVersionID := id |>)
    else if EqualFold k "workspace_name" then
      match j with
      | JString s => Ok (x <| TemplateVersionDryRunJob_WorkspaceName := s |>)
      | _ => Err errUnmarshal
      end
    else if EqualFold k "parameter_values" then
      vs ← decode j; Ok (x <| TemplateVersionDryRunJob_ParameterValues := vs |>)
    else Ok x) (mkTemplateVersionDryRunJob uuid_Nil EmptyString []) m.

(** ** Channels *)

Definition WorkspaceNotifyChannel (id : uuid) : string := "workspace:" +:+ uuid_String id.
Definition ProvisionerJobLogsNotifyChannel (jobID : uuid) : string :=
  "provisioner-log-logs:" +:+ uuid_String jobID.
End inputs.

(** [json.Marshal] of a [ProvisionerJobLogsNotifyMessage]; [end_of_logs] is
    left out when false. *)
Definition ProvisionerJobLogsNotifyMessage (CreatedAfter : Z) (EndOfLogs : bool) : RawMessage :=
  RawValue (JObject (("created_after", JNumber CreatedAfter)
                     :: if EndOfLogs then [("end_of_logs", JBool true)] else [])).

(** [[]byte{}] *)
Definition empty_message : RawMessage := RawInvalid.

(** ** Application slugs: [^[a-z0-9](-?[a-z0-9])*$] of [provisioner/appslug.go] *)

Definition slug_char (c : ascii) : bool :=
  let n := N_of_ascii c in
  ((97 <=? n) && (n <=? 122) || (48 <=? n) && (n <=? 57))%N.

Fixpoint slug_tail (s : string) : bool :=
  match s with
  | EmptyString => true
  | String "-"%char (String c s') => slug_char c && slug_tail s'
  | String c s' => slug_char c && slug_tail s'
  end.

Definition AppSlugRegex (s : string) : bool :=
  match s with
  | EmptyString => false
  | String c s' => slug_char c && slug_tail s'
  end.

(** ** Inserting resources *)

Section resources.
Context `{!UuidText, !Environment}.

(** [json.Marshal] of a map sorts the keys. *)
Definition marshal_env (env : gmap string string) : json :=
  JObject (sort_by (λ a b, string_lt a.1 b.1) ((λ kv, (kv.1, JString kv.2)) <$> map_to_list env)).

(** [sql.NullString{String: s, Valid: s != ""}] *)
Definition null_string (s : string) : nullable string := mkNull s (s != "").

Definition convertSharingLevel (l : proto_AppSharingLevel) : AppSharingLevel :=
  match l with
  | AppSharingLevel_AUTHENTICATED => AppSharingLevelAuthenticated
  | AppSharingLevel_PUBLIC => AppSharingLevelPublic
  | _ => AppSharingLevelOwner
  end.

(** One application; the slugs seen so far in the resource are threaded. *)
Definition insert_app (agentID : uuid) (appSlugs : gset string) (app : proto_App) : M (gset string) :=
  let slug := app.(App_Slug) in
  if slug == "" then throw (ErrNew "app must have a slug or name set")
  else if negb (AppSlugRegex slug) then
    throw (ErrNew ("app slug " +:+ quote slug +:+ " does not match regex "
                   +:+ quote "^[a-z0-9](-?[a-z0-9])*$"))
  else if bool_decide (slug ∈ appSlugs) then
    throw (ErrNew ("duplicate app slug, must be unique per template: " +:+ quote slug))
  else
    let healthcheck := default (mkHealthcheck EmptyString 0 0) app.(App_Healthcheck) in
    id ← uuid_New;
    now ← Now;
    _ ← wrap "insert app" (store (InsertWorkspaceApp {|
      InsertWorkspaceAppParams_ID := id;
      InsertWorkspaceAppParams_CreatedAt := now;
      InsertWorkspaceAppParams_AgentID := agentID;
      InsertWorkspaceAppParams_Slug := slug;
      InsertWorkspaceAppParams_DisplayName := app.(App_DisplayName);
      InsertWorkspaceAppParams_Icon := app.(App_Icon);
      InsertWorkspaceAppParams_Command := null_string app.(App_Command);
      InsertWorkspaceAppParams_Url := null_string app.(App_Url);
      InsertWorkspaceAppParams_Subdomain := app.(App_Subdomain);
      InsertWorkspaceAppParams_SharingLevel := convertSharingLevel app.(App_SharingLevel);
      InsertWorkspaceAppParams_HealthcheckUrl := healthcheck.(Healthcheck_Url);
      InsertWorkspaceAppParams_HealthcheckInterval := healthcheck.(Healthcheck_Interval);
      InsertWorkspaceAppParams_HealthcheckThreshold := healthcheck.(Healthcheck_Threshold);
      InsertWorkspaceAppParams_Health :=
        if healthcheck.(Healthcheck_Url) != "" then WorkspaceAppHealthInitializing
        else WorkspaceAppHealthDisabled |}));
    mret ({[slug]} ∪ appSlugs).

Fixpoint insert_apps (agentID : uuid) (appSlugs : gset string) (apps : list proto_App) :
    M (gset string) :=
  match apps with
  | [] => mret appSlugs
  | app :: apps => appSlugs ← insert_app agentID appSlugs app; insert_apps agentID appSlugs apps
  end.

Definition insert_agent (resourceID : uuid) (appSlugs : gset string) (prAgent : proto_Agent) :
    M (gset string) :=
  let instanceID := Agent_GetInstanceId prAgent in
  newToken ← uuid_New;
  authToken ← (if Agent_GetToken prAgent != ""
               then wrap "invalid auth token format; must be uuid"
                      (lift_res (parse_uuid (Agent_GetToken prAgent)))
               else mret newToken);
  agentID ← uuid_New;
  createdAt ← Now;
  updatedAt ← Now;
  dbAgent ← wrap "insert agent" (store (InsertWorkspaceAgent {|
    InsertWorkspaceAgentParams_ID := agentID;
    InsertWorkspaceAgentParams_CreatedAt := createdAt;
    InsertWorkspaceAgentParams_UpdatedAt := updatedAt;
    InsertWorkspaceAgentParams_Name := prAgent.(Agent_Name);
    InsertWorkspaceAgentParams_ResourceID := resourceID;
    InsertWorkspaceAgentParams_AuthToken := authToken;
    InsertWorkspaceAgentParams_AuthInstanceID :=
      if instanceID != "" then non_null instanceID else null_of EmptyString;
    InsertWorkspaceAgentParams_Architecture := prAgent.(Agent_Architecture);
    InsertWorkspaceAgentParams_EnvironmentVariables :=
      match prAgent.(Agent_Env) with
      | Some env => non_null (RawValue (marshal_env env))
      | None => null_of RawNil
      end;
    InsertWorkspaceAgentParams_OperatingSystem := prAgent.(Agent_OperatingSystem);
    InsertWorkspaceAgentParams_StartupScript := null_string prAgent.(Agent_StartupScript);
    InsertWorkspaceAgentParams_Directory := prAgent.(Agent_Directory);
    InsertWorkspaceAgentParams_InstanceMetadata := null_of RawNil;
    InsertWorkspaceAgentParams_ResourceMetadata := null_of RawNil;
    InsertWorkspaceAgentParams_ConnectionTimeoutSeconds :=
      prAgent.(Agent_ConnectionTimeoutSeconds);
    InsertWorkspaceAgentParams_TroubleshootingURL := prAgent.(Agent_TroubleshootingUrl);
    InsertWorkspaceAgentParams_MOTDFile := prAgent.(Agent_MotdFile) |}));
  insert_apps dbAgent.(WorkspaceAgent_ID) appSlugs prAgent.(Agent_Apps).

Fixpoint insert_agents (resourceID : uuid) (appSlugs : gset string) (agents : list proto_Agent) :
    M unit :=
  match agents with
  | [] => mret tt
  | a :: agents => appSlugs ← insert_agent resourceID appSlugs a;
                   insert_agents resourceID appSlugs agents
  end.

Definition insert_metadatum (resourceID : uuid) (metadatum : proto_Metadata) : M unit :=
  void (wrap "insert metadata" (store (InsertWorkspaceResourceMetadata {|
    InsertWorkspaceResourceMetadataParams_WorkspaceResourceID := resourceID;
    InsertWorkspaceResourceMetadataParams_Key := metadatum.(Metadata_Key);
    InsertWorkspaceResourceMetadataParams_Value :=
      if metadatum.(Metadata_IsNull) then null_of EmptyString
      else non_null metadatum.(Metadata_Value);
    InsertWorkspaceResourceMetadataParams_Sensitive := metadatum.(Metadata_Sensitive) |}))).

(** [InsertWorkspaceResource] of the server; the store's query has the same
    name. *)
Definition server_InsertWorkspaceResource (jobID : uuid) (transition : WorkspaceTransition)
    (protoResource : proto_Resource) : M unit :=
  id ← uuid_New;
  now ← Now;
  resource ← wrap ("insert provisioner job resource " +:+ quote protoResource.(Resource_Name))
    (store (InsertWorkspaceResource {|
      InsertWorkspaceResourceParams_ID := id;
      InsertWorkspaceResourceParams_CreatedAt := now;
      InsertWorkspaceResourceParams_JobID := jobID;
      InsertWorkspaceResourceParams_Transition := transition;
      InsertWorkspaceResourceParams_Type := protoResource.(Resource_Type);
      InsertWorkspaceResourceParams_Name := protoResource.(Resource_Name);
      InsertWorkspaceResourceParams_Hide := protoResource.(Resource_Hide);
      InsertWorkspaceResourceParams_Icon := protoResource.(Resource_Icon);
      InsertWorkspaceResourceParams_InstanceType := null_string protoResource.(Resource_InstanceType);
      InsertWorkspaceResourceParams_DailyCost := protoResource.(Resource_DailyCost) |}));
  _ ← insert_agents resource.(WorkspaceResource_ID) ∅ protoResource.(Resource_Agents);
  for_each protoResource.(Resource_Metadata) (insert_metadatum resource.(WorkspaceResource_ID)).
End resources.

(** ** The server *)

(** [QuotaCommitter] is a pointer to a cell that may hold a committer: it may be
    nil itself. *)
Record Server := mkServer {
  Server_AccessURL : string;
  Server_ID : uuid;
  Server_Provisioners : list ProvisionerType;
  Server_Tags : RawMessage;
  Server_QuotaCommitter : option (option (CommitQuotaRequest → GoM world CommitQuotaResponse));
  Server_AcquireJobDebounce : duration;
}.

Definition MaxMessageSize : Z := 4 * 2 ^ 20.

Section server.
Context `{!UuidText, !Environment, !Auditor} (server : Server).

(** Library code the server calls: the size of an encoded message, the text of
    a JSON message, and the decoder of a list of parameter values. *)
Context (proto_Size : AcquiredJob → Z) (raw_text : RawMessage → string).
Context (decode_ParameterValues : json → res (list ParameterValue)).

(** The order in which Go ranges over the two resource lists of an import. *)
Context (start_first : bool).

(** *** AcquireJob *)

(** Mark the acquired job as failed and report why; [UpdatedAt] is not set. *)
Definition failJob {A} (job : ProvisionerJob) (errorMessage : string) : M A :=
  now ← Now;
  _ ← wrap "update provisioner job" (store (UpdateProvisionerJobWithCompleteByID {|
    UpdateProvisionerJobWithCompleteByIDParams_ID := job.(ProvisionerJob_ID);
    UpdateProvisionerJobWithCompleteByIDParams_UpdatedAt := time_zero;
    UpdateProvisionerJobWithCompleteByIDParams_CompletedAt := non_null now;
    UpdateProvisionerJobWithCompleteByIDParams_Error := non_null errorMessage |}));
  throw (ErrNew ("request job was invalidated: " +:+ errorMessage)).

(** [if err != nil { return nil, failJob(fmt.Sprintf("msg: %s", err)) }] *)
Definition or_fail {A} (job : ProvisionerJob) (msg : string) (m : M A) : M A :=
  r ← attempt m;
  match r with
  | inl e => failJob job (msg +:+ ": " +:+ error_string e)
  | inr a => mret a
  end.

Definition acquire_workspace_build (job : ProvisionerJob) : M AcquiredJob_Type :=
  input ← or_fail job ("unmarshal job input " +:+ quote (raw_text job.(ProvisionerJob_Input)))
            (lift_res (unmarshal_WorkspaceProvisionJob job.(ProvisionerJob_Input)));
  workspaceBuild ← or_fail job "get workspace build"
    (query (GetWorkspaceBuildByID input.(WorkspaceProvisionJob_WorkspaceBuildID)));
  workspace ← or_fail job "get workspace"
    (query (GetWorkspaceByID workspaceBuild.(WorkspaceBuild_WorkspaceID)));
  templateVersion ← or_fail job "get template version"
    (query (GetTemplateVersionByID workspaceBuild.(WorkspaceBuild_TemplateVersionID)));
  template ← or_fail job "get template"
    (query (GetTemplateByID (null_val templateVersion.(TemplateVersion_TemplateID))));
  owner ← or_fail job "get owner" (query (GetUserByID workspace.(Workspace_OwnerID)));
  _ ← or_fail job "publish workspace update"
        (Publish (WorkspaceNotifyChannel workspace.(Workspace_ID)) empty_message);
  parameters ← or_fail job "compute parameters"
    (Compute (mkComputeScope templateVersion.(TemplateVersion_JobID)
                (non_null template.(Template_ID)) (non_null workspace.(Workspace_ID)) []) None);
  protoParameters ← or_fail job "convert computed parameters to protobuf"
    (lift_res (convertComputedParameterValues parameters));
  transition ← or_fail job "convert workspace transition"
    (lift_res (convertWorkspaceTransition workspaceBuild.(WorkspaceBuild_Transition)));
  mret (AcquiredJob_WorkspaceBuild (uuid_String workspaceBuild.(WorkspaceBuild_ID))
    workspace.(Workspace_Name) protoParameters
    (Some {| Metadata_CoderUrl := server.(Server_AccessURL);
       Metadata_WorkspaceTransition := transition;
       Metadata_WorkspaceName := workspace.(Workspace_Name);
       Metadata_WorkspaceOwner := owner.(User_Username);
       Metadata_WorkspaceId := uuid_String workspace.(Workspace_ID);
       Metadata_WorkspaceOwnerId := uuid_String owner.(User_ID);
       Metadata_WorkspaceOwnerEmail := owner.(User_Email) |})
    workspaceBuild.(WorkspaceBuild_ProvisionerState)).

(** The metadata of a job that is not about one workspace. *)
Definition plain_metadata (WorkspaceName : string) : Provision_Metadata :=
  mkProvisionMetadata server.(Server_AccessURL) WorkspaceTransition_START WorkspaceName
    EmptyString EmptyString EmptyString EmptyString.

Definition acquire_dry_run (job : ProvisionerJob) : M AcquiredJob_Type :=
  input ← or_fail job ("unmarshal job input " +:+ quote (raw_text job.(ProvisionerJob_Input)))
            (lift_res (unmarshal_TemplateVersionDryRunJob decode_ParameterValues
                         job.(ProvisionerJob_Input)));
  templateVersion ← or_fail job "get template version"
    (query (GetTemplateVersionByID input.(TemplateVersionDryRunJob_TemplateVersionID)));
  parameters ← or_fail job "compute parameters"
    (Compute (mkComputeScope templateVersion.(TemplateVersion_JobID)
                templateVersion.(TemplateVersion_TemplateID) (null_of uuid_Nil)
                input.(TemplateVersionDryRunJob_ParameterValues)) None);
  protoParameters ← or_fail job "convert computed parameters to protobuf"
    (lift_res (convertComputedParameterValues parameters));
  mret (AcquiredJob_TemplateDryRun protoParameters
          (Some (plain_metadata input.(TemplateVersionDryRunJob_WorkspaceName)))).

(** [switch job.Type] *)
Definition acquire_type (job : ProvisionerJob) : M (option AcquiredJob_Type) :=
  match job.(ProvisionerJob_Type) with
  | ProvisionerJobTypeWorkspaceBuild => t ← acquire_workspace_build job; mret (Some t)
  | ProvisionerJobTypeTemplateVersionDryRun => t ← acquire_dry_run job; mret (Some t)
  | ProvisionerJobTypeTemplateVersionImport =>
      mret (Some (AcquiredJob_TemplateImport (Some (plain_metadata EmptyString))))
  | ProvisionerJobType_other _ => mret None
  end.

(** What follows once a job is locked in the store. *)
Definition acquired_job (job : ProvisionerJob) : M AcquiredJob :=
  user ← or_fail job "get user" (query (GetUserByID job.(ProvisionerJob_InitiatorID)));
  type ← acquire_type job;
  archive ← match job.(ProvisionerJob_StorageMethod) with
            | ProvisionerStorageMethodFile =>
                file ← or_fail job "get file by hash" (query (GetFileByID job.(ProvisionerJob_FileID)));
                mret file.(File_Data)
            | m => failJob job ("unsupported storage method: " +:+ ProvisionerStorageMethod_string m)
            end;
  let protoJob := {|
    AcquiredJob_JobId := uuid_String job.(ProvisionerJob_ID);
    AcquiredJob_CreatedAt := UnixMilli job.(ProvisionerJob_CreatedAt);
    AcquiredJob_Provisioner := ProvisionerType_string job.(ProvisionerJob_Provisioner);
    AcquiredJob_UserName := user.(User_Username);
    AcquiredJob_TemplateSourceArchive := archive;
    AcquiredJob_type := type |} in
  if (MaxMessageSize <? proto_Size protoJob)%Z
  then failJob job ("payload was too big: " +:+ pretty (proto_Size protoJob) +:+ " > "
                    +:+ pretty MaxMessageSize)
  else mret protoJob.

Definition AcquireJob : M AcquiredJob :=
  last ← asks (λ w, Ok w.(lastAcquire));
  debounced ← (if IsZero last then mret false
               else t ← time_Now; mret (Sub t last <? server.(Server_AcquireJobDebounce))%Z);
  if (debounced : bool) then mret AcquiredJob_zero else
  now ← Now;
  r ← attempt (store (AcquireProvisionerJob {|
        AcquireProvisionerJobParams_StartedAt := non_null now;
        AcquireProvisionerJobParams_WorkerID := non_null server.(Server_ID);
        AcquireProvisionerJobParams_Types := server.(Server_Provisioners);
        AcquireProvisionerJobParams_Tags := server.(Server_Tags) |}));
  match r with
  | inl e =>
      if errors_Is e ErrNoRows then
        t ← time_Now;
        _ ← modify (λ w, w <| lastAcquire := t |>);
        mret AcquiredJob_zero
      else throw (ErrWrap "acquire job" e)
  | inr job => acquired_job job
  end.

(** *** CommitQuota *)

Definition owns (job : ProvisionerJob) : bool :=
  uuid_String (null_val job.(ProvisionerJob_WorkerID)) == uuid_String server.(Server_ID).

(** The guards [CommitQuota] and [UpdateJob] share. *)
Definition running_job (jobId : string) : M (uuid * ProvisionerJob) :=
  jobID ← wrap "parse job id" (lift_res (parse_uuid jobId));
  job ← wrap "get job" (query (GetProvisionerJobByID jobID));
  if negb (Valid job.(ProvisionerJob_WorkerID)) then throw (ErrNew "job isn't running yet")
  else if negb (owns job) then throw (ErrNew "you don't own this job")
  else mret (jobID, job).

Definition CommitQuota (request : CommitQuotaRequest) : M CommitQuotaResponse :=
  _ ← running_job request.(CommitQuotaRequest_JobId);
  match server.(Server_QuotaCommitter) with
  | None => lift_res (Panic "invalid memory address or nil pointer dereference")
  | Some None => mret (mkCommitQuotaResponse true 0 (-1))
  | Some (Some q) => q request
  end.

(** *** UpdateJob *)

(** Convert the request's log lines into the parallel slices of the query. *)
Fixpoint log_params (jobID : uuid) (logs : list proto_Log) : res InsertProvisionerJobLogsParams :=
  match logs with
  | [] => Ok (mkInsertProvisionerJobLogsParams jobID [] [] [] [] [])
  | log :: logs =>
      match convertLogLevel log.(Log_Level) with
      | Ok logLevel =>
          match convertLogSource log.(Log_Source) with
          | Ok logSource =>
              p ← log_params jobID logs;
              Ok (mkInsertProvisionerJobLogsParams jobID
                    (time_UnixMilli log.(Log_CreatedAt) :: p.(InsertProvisionerJobLogsParams_CreatedAt))
                    (logSource :: p.(InsertProvisionerJobLogsParams_Source))
                    (logLevel :: p.(InsertProvisionerJobLogsParams_Level))
                    (log.(Log_Stage) :: p.(InsertProvisionerJobLogsParams_Stage))
                    (log.(Log_Output) :: p.(InsertProvisionerJobLogsParams_Output)))
          | Err e => Err (ErrWrap "convert log source" e)
          | Panic m => Panic m
          end
      | Err e => Err (ErrWrap "convert log level" e)
      | Panic m => Panic m
      end
  end.

(** [if len(request.Logs) > 0 { ... }] *)
Definition update_logs (jobID : uuid) (requestLogs : list proto_Log) : M unit :=
  match requestLogs with
  | [] => mret tt
  | _ =>
      params ← lift_res (log_params jobID requestLogs);
      logs ← wrap "insert job logs" (store (InsertProvisionerJobLogs params));
      match logs with
      | [] => lift_res (Panic "index out of range")
      | l :: _ =>
          wrap "publish job log"
            (Publish (ProvisionerJobLogsNotifyChannel jobID)
               (ProvisionerJobLogsNotifyMessage (int64_wrap (l.(ProvisionerJobLog_ID) - 1)) false))
      end
  end.

Definition insert_schema (jobID : uuid) (index : nat) (p : proto_ParameterSchema) : M unit :=
  validationTypeSystem ←
    wrap ("convert validation type system for " +:+ quote p.(proto_ParameterSchema_Name))
      (lift_res (convertValidationTypeSystem p.(proto_ParameterSchema_ValidationTypeSystem)));
  id ← uuid_New;
  now ← Now;
  '(sourceScheme, sourceValue) ←
    match p.(proto_ParameterSchema_DefaultSource) with
    | Some s => scheme ← wrap "convert parameter source scheme"
                           (lift_res (convertParameterSourceScheme s.(ParameterSource_scheme)));
                mret (scheme, s.(ParameterSource_value))
    | None => mret (ParameterSourceSchemeNone, EmptyString)
    end;
  destinationScheme ←
    match p.(proto_ParameterSchema_DefaultDestination) with
    | Some d => wrap "convert parameter destination scheme"
                  (lift_res (convertParameterDestinationScheme d))
    | None => mret ParameterDestinationSchemeNone
    end;
  void (wrap "insert parameter schema" (store (InsertParameterSchema {|
    InsertParameterSchemaParams_ID := id;
    InsertParameterSchemaParams_CreatedAt := now;
    InsertParameterSchemaParams_JobID := jobID;
    InsertParameterSchemaParams_Name := p.(proto_ParameterSchema_Name);
    InsertParameterSchemaParams_Description := p.(proto_ParameterSchema_Description);
    InsertParameterSchemaParams_DefaultSourceScheme := sourceScheme;
    InsertParameterSchemaParams_DefaultSourceValue := sourceValue;
    InsertParameterSchemaParams_AllowOverrideSource :=
      p.(proto_ParameterSchema_AllowOverrideSource);
    InsertParameterSchemaParams_DefaultDestinationScheme := destinationScheme;
    InsertParameterSchemaParams_AllowOverrideDestination :=
      p.(proto_ParameterSchema_AllowOverrideDestination);
    InsertParameterSchemaParams_DefaultRefresh := EmptyString;
    InsertParameterSchemaParams_RedisplayValue := p.(proto_ParameterSchema_RedisplayValue);
    InsertParameterSchemaParams_ValidationError := p.(proto_ParameterSchema_ValidationError);
    InsertParameterSchemaParams_ValidationCondition :=
      p.(proto_ParameterSchema_ValidationCondition);
    InsertParameterSchemaParams_ValidationTypeSystem := validationTypeSystem;
    InsertParameterSchemaParams_ValidationValueType :=
      p.(proto_ParameterSchema_ValidationValueType);
    InsertParameterSchemaParams_Index := int32_wrap (Z.of_nat index) |}))).

Fixpoint insert_schemas (jobID : uuid) (index : nat) (l : list proto_ParameterSchema) : M unit :=
  match l with
  | [] => mret tt
  | p :: l => _ ← insert_schema jobID index p; insert_schemas jobID (S index) l
  end.

(** [xerrors.Errorf("convert parameter: %s", err)]: the error is not wrapped. *)
Fixpoint convert_parameters (parameters : list ComputedValue) : res (list proto_ParameterValue) :=
  match parameters with
  | [] => Ok []
  | p :: ps =>
      match convertComputedParameterValue p with
      | Ok v => vs ← convert_parameters ps; Ok (v :: vs)
      | Err e => Err (ErrNew ("convert parameter: " +:+ error_string e))
      | Panic m => Panic m
      end
  end.

Definition UpdateJob (request : UpdateJobRequest) : M UpdateJobResponse :=
  '(parsedID, job) ← running_job request.(UpdateJobRequest_JobId);
  now ← Now;
  _ ← wrap "update job" (store (UpdateProvisionerJobByID {|
        UpdateProvisionerJobByIDParams_ID := parsedID;
        UpdateProvisionerJobByIDParams_UpdatedAt := now |}));
  _ ← update_logs parsedID request.(UpdateJobRequest_Logs);
  _ ← (if request.(UpdateJobRequest_Readme) == "" then mret tt else
       now ← Now;
       wrap "update template version description" (store (UpdateTemplateVersionDescriptionByJobID {|
         UpdateTemplateVersionDescriptionByJobIDParams_JobID := job.(ProvisionerJob_ID);
         UpdateTemplateVersionDescriptionByJobIDParams_Readme := request.(UpdateJobRequest_Readme);
         UpdateTemplateVersionDescriptionByJobIDParams_UpdatedAt := now |})));
  let canceled := Valid job.(ProvisionerJob_CanceledAt) in
  match request.(UpdateJobRequest_ParameterSchemas) with
  | [] => mret (mkUpdateJobResponse canceled [])
  | schemas =>
      _ ← insert_schemas job.(ProvisionerJob_ID) 0 schemas;
      templateID ←
        (if job.(ProvisionerJob_Type) == ProvisionerJobTypeTemplateVersionImport then
           v ← wrap "get template version by job id"
                 (query (GetTemplateVersionByJobID job.(ProvisionerJob_ID)));
           mret v.(TemplateVersion_TemplateID)
         else mret (null_of uuid_Nil));
      parameters ← wrap "compute parameters"
        (Compute (mkComputeScope job.(ProvisionerJob_ID) templateID (null_of uuid_Nil) []) None);
      protoParameters ← lift_res (convert_parameters parameters);
      mret (mkUpdateJobResponse canceled protoParameters)
  end.

(** *** FailJob and CompleteJob *)

Definition workspace_info (workspace : Workspace) : RawMessage :=
  RawValue (JObject [("workspaceName", JString workspace.(Workspace_Name))]).

Definition end_of_logs (jobID : uuid) : M unit :=
  wrap "publish end of job logs"
    (Publish (ProvisionerJobLogsNotifyChannel jobID) (ProvisionerJobLogsNotifyMessage 0 true)).

Definition build_audit (userID jobID : uuid) (status : Z) (action : AuditAction)
    (build : WorkspaceBuild) (workspace : Workspace) : M unit :=
  BuildAudit userID jobID status action (workspace_info workspace)
    (AuditWorkspaceBuild WorkspaceBuild_zero) (AuditWorkspaceBuild build).

(** The audit entry of a failed build; a build or workspace that is gone is only
    logged. *)
Definition audit_failure (job : ProvisionerJob) : M unit :=
  if job.(ProvisionerJob_Type) == ProvisionerJobTypeWorkspaceBuild then
    build ← attempt (query (GetWorkspaceBuildByJobID job.(ProvisionerJob_ID)));
    match build with
    | inl _ => mret tt
    | inr build =>
        workspace ← attempt (query (GetWorkspaceByID build.(WorkspaceBuild_WorkspaceID)));
        match workspace with
        | inl _ => mret tt
        | inr workspace =>
            build_audit job.(ProvisionerJob_InitiatorID) job.(ProvisionerJob_ID) 500
              (auditActionFromTransition build.(WorkspaceBuild_Transition)) build workspace
        end
    end
  else mret tt.

(** The state a failed build reports is kept; the zero deadline goes with it. *)
Definition fail_build (job : ProvisionerJob) (state : bytes) : M unit :=
  input ← wrap "unmarshal workspace provision input"
            (lift_res (unmarshal_WorkspaceProvisionJob job.(ProvisionerJob_Input)));
  now ← Now;
  build ← wrap "update workspace build state" (store (UpdateWorkspaceBuildByID {|
    UpdateWorkspaceBuildByIDParams_ID := input.(WorkspaceProvisionJob_WorkspaceBuildID);
    UpdateWorkspaceBuildByIDParams_UpdatedAt := now;
    UpdateWorkspaceBuildByIDParams_ProvisionerState := state;
    UpdateWorkspaceBuildByIDParams_Deadline := time_zero |}));
  wrap "update workspace"
    (Publish (WorkspaceNotifyChannel build.(WorkspaceBuild_WorkspaceID)) empty_message).

Definition FailJob (failed : FailedJob) : M unit :=
  jobID ← wrap "parse job id" (lift_res (parse_uuid failed.(FailedJob_JobId)));
  job ← wrap "get provisioner job" (query (GetProvisionerJobByID jobID));
  if negb (owns job) then throw (ErrNew "you don't own this job")
  else if Valid job.(ProvisionerJob_CompletedAt) then throw (ErrNew "job already completed")
  else
    completedAt ← Now;
    updatedAt ← Now;
    _ ← wrap "update provisioner job" (store (UpdateProvisionerJobWithCompleteByID {|
      UpdateProvisionerJobWithCompleteByIDParams_ID := jobID;
      UpdateProvisionerJobWithCompleteByIDParams_UpdatedAt := updatedAt;
      UpdateProvisionerJobWithCompleteByIDParams_CompletedAt := non_null completedAt;
      UpdateProvisionerJobWithCompleteByIDParams_Error := null_string failed.(FailedJob_Error) |}));
    _ ← match failed.(FailedJob_type) with
        | Some (FailedJob_WorkspaceBuild (Some state)) => fail_build job state
        | _ => mret tt
        end;
    _ ← audit_failure job;
    end_of_logs jobID.

Definition complete_job (jobID : uuid) : M unit :=
  updatedAt ← Now;
  completedAt ← Now;
  wrap "update provisioner job" (store (UpdateProvisionerJobWithCompleteByID {|
    UpdateProvisionerJobWithCompleteByIDParams_ID := jobID;
    UpdateProvisionerJobWithCompleteByIDParams_UpdatedAt := updatedAt;
    UpdateProvisionerJobWithCompleteByIDParams_CompletedAt := non_null completedAt;
    UpdateProvisionerJobWithCompleteByIDParams_Error := null_of EmptyString |})).

Definition insert_resources (jobID : uuid) (transition : WorkspaceTransition)
    (resources : list proto_Resource) : M unit :=
  for_each resources (λ resource,
    wrap "insert resource" (server_InsertWorkspaceResource jobID transition resource)).

Definition complete_import (jobID : uuid) (start stop : list proto_Resource) : M unit :=
  _ ← (if start_first then insert_resources jobID WorkspaceTransitionStart start
       else insert_resources jobID WorkspaceTransitionStop stop);
  _ ← (if start_first then insert_resources jobID WorkspaceTransitionStop stop
       else insert_resources jobID WorkspaceTransitionStart start);
  complete_job jobID.

Definition agent_timeouts (resources : list proto_Resource) : gset duration :=
  list_to_set ((λ a, seconds a.(Agent_ConnectionTimeoutSeconds))
                 <$> (resources ≫= Resource_Agents)).

(** The timers of the goroutine that notifies the workspace's watchers. *)
Definition schedule_timeouts (input : WorkspaceProvisionJob) (build : WorkspaceBuild)
    (resources : list proto_Resource) : M unit :=
  if negb input.(WorkspaceProvisionJob_DryRun)
     && (build.(WorkspaceBuild_Transition) == WorkspaceTransitionStart)
  then modify (λ w, w <| scheduled := w.(scheduled)
         ++ ((λ d, (d, WorkspaceNotifyChannel build.(WorkspaceBuild_WorkspaceID)))
               <$> sort_by Z.ltb (elements (agent_timeouts resources))) |>)
  else mret tt.

(** The transaction; a missing workspace is reported back, not an error. *)
Definition complete_build_tx (jobID : uuid) (job : ProvisionerJob) (input : WorkspaceProvisionJob)
    (build : WorkspaceBuild) (state : bytes) (resources : list proto_Resource) :
    M (error + Workspace) :=
  now ← Now;
  workspace ← attempt (query (GetWorkspaceByID build.(WorkspaceBuild_WorkspaceID)));
  let deadline := match workspace with
                  | inr w => if Valid w.(Workspace_Ttl) then Add now (null_val w.(Workspace_Ttl))
                             else time_zero
                  | inl _ => time_zero
                  end in
  _ ← complete_job jobID;
  _ ← wrap "update workspace build" (store (UpdateWorkspaceBuildByID {|
        UpdateWorkspaceBuildByIDParams_ID := build.(WorkspaceBuild_ID);
        UpdateWorkspaceBuildByIDParams_UpdatedAt := now;
        UpdateWorkspaceBuildByIDParams_ProvisionerState := state;
        UpdateWorkspaceBuildByIDParams_Deadline := deadline |}));
  _ ← for_each resources (λ resource,
        wrap "insert provisioner job"
          (server_InsertWorkspaceResource job.(ProvisionerJob_ID)
             build.(WorkspaceBuild_Transition) resource));
  _ ← schedule_timeouts input build resources;
  _ ← (if build.(WorkspaceBuild_Transition) != WorkspaceTransitionDelete then mret tt
       else wrap "update workspace deleted" (store (UpdateWorkspaceDeletedByID {|
         UpdateWorkspaceDeletedByIDParams_ID := build.(WorkspaceBuild_WorkspaceID);
         UpdateWorkspaceDeletedByIDParams_Deleted := true |})));
  mret workspace.

Definition complete_build (jobID : uuid) (job : ProvisionerJob) (state : bytes)
    (resources : list proto_Resource) : M unit :=
  input ← wrap "unmarshal job data"
            (lift_res (unmarshal_WorkspaceProvisionJob job.(ProvisionerJob_Input)));
  build ← wrap "get workspace build"
            (query (GetWorkspaceBuildByID input.(WorkspaceProvisionJob_WorkspaceBuildID)));
  workspace ← wrap "complete job" (complete_build_tx jobID job input build state resources);
  _ ← match workspace with
      | inl _ => mret tt
      | inr workspace =>
          build_audit job.(ProvisionerJob_InitiatorID) job.(ProvisionerJob_ID) 200
              (auditActionFromTransition build.(WorkspaceBuild_Transition)) build workspace
      end;
  wrap "update workspace"
    (Publish (WorkspaceNotifyChannel build.(WorkspaceBuild_WorkspaceID)) empty_message).

Definition complete_dry_run (jobID : uuid) (resources : list proto_Resource) : M unit :=
  _ ← insert_resources jobID WorkspaceTransitionStart resources;
  complete_job jobID.

Definition CompleteJob (completed : CompletedJob) : M unit :=
  jobID ← wrap "parse job id" (lift_res (parse_uuid completed.(CompletedJob_JobId)));
  job ← wrap "get job by id" (query (GetProvisionerJobByID jobID));
  if negb (owns job) then throw (ErrNew "you don't own this job")
  else
    _ ← match completed.(CompletedJob_type) with
        | Some (CompletedJob_TemplateImport start stop) => complete_import jobID start stop
        | Some (CompletedJob_WorkspaceBuild state resources) =>
            complete_build jobID job state resources
        | Some (CompletedJob_TemplateDryRun resources) => complete_dry_run jobID resources
        | None => throw (ErrNew "type payload must be provided")
        end;
    end_of_logs jobID.
End server.

(** [provisionertags.go]: a user-scoped job is tagged with its owner, any other
    scope becomes the organization. *)
Definition MutateTags `{!UuidText} (userID : uuid) (tags : StringMap) : StringMap :=
  let tags := if bool_decide (tags !! "scope" = None)
              then <["scope" := "organization"]> tags else tags in
  if bool_decide (tags !! "scope" = Some "user") then <["owner" := uuid_String userID]> tags
  else if bool_decide (tags !! "scope" = Some "organization") then tags
  else <["scope" := "organization"]> tags.
