(* ===== verification/ProvisionerdProps.v ===== *)
(** * The provisioner daemon server: properties

    Who may touch a job, what becomes of an acquired job on every path, what a
    finished job leaves behind, and which daemons can get a user's jobs. *)

From stdpp Require Import prelude gmap strings pretty.
From S2P Require Import Prelude Cryptorand Models Queries ModelMethods.
From S2P Require Import Store StoreUsers StoreMisc StoreJobs StoreTemplates StoreWorkspaces.
From S2P Require Import StoreJobsProps World Auditing ParamCompute ProvisionerdProto ProvisionerdServer.

(** ** Frames *)

#[export] Hint Extern 1 (preserves _ (build_audit _ _ _ _ _ _)) =>
  unfold build_audit; apply preserves_BuildAudit; reflexivity : frame.

Section frames.
Context `{!UuidText, !Environment}.

Lemma inject_defaults_frame {T} (g : data → T) options schemas_map job schemas computed :
  preserves (λ w, g w.(db)) (inject_defaults options schemas_map job schemas computed).
Proof. revert computed. induction schemas as [|s l IH]; intros computed; simpl; frame. Qed.

Lemma Compute_frame {T} (g : data → T) scope options :
  preserves (λ w, g w.(db)) (Compute scope options).
Proof.
  unfold Compute, compute_scopes. apply preserves_bind.
  - intros w. by repeat case_match.
  - intros schemas. pose proof (@inject_defaults_frame T g). frame.
Qed.

(** Inserting a resource changes the four resource tables only. *)
Context {T : Type} (g : data → T).
Hypothesis g_apps : ∀ h q, g (set_field workspaceApps h q) = g q.
Hypothesis g_agents : ∀ h q, g (set_field workspaceAgents h q) = g q.
Hypothesis g_resources : ∀ h q, g (set_field workspaceResources h q) = g q.
Hypothesis g_metadata : ∀ h q, g (set_field workspaceResourceMetadata h q) = g q.

Lemma insert_app_frame agentID slugs app :
  preserves (λ w, g w.(db)) (insert_app agentID slugs app).
Proof. unfold insert_app, InsertWorkspaceApp. repeat case_match; frame. Qed.

Lemma insert_apps_frame agentID slugs apps :
  preserves (λ w, g w.(db)) (insert_apps agentID slugs apps).
Proof.
  revert slugs. induction apps as [|a l IH]; intros slugs; simpl; [frame|].
  pose proof insert_app_frame. frame.
Qed.

Lemma insert_agents_frame resourceID slugs agents :
  preserves (λ w, g w.(db)) (insert_agents resourceID slugs agents).
Proof.
  revert slugs. induction agents as [|a l IH]; intros slugs; simpl; [frame|].
  unfold insert_agent, InsertWorkspaceAgent. pose proof insert_apps_frame. frame.
Qed.

Lemma insert_resource_frame jobID transition r :
  preserves (λ w, g w.(db)) (server_InsertWorkspaceResource jobID transition r).
Proof.
  unfold server_InsertWorkspaceResource, InsertWorkspaceResource, insert_metadatum,
    InsertWorkspaceResourceMetadata.
  pose proof insert_agents_frame. frame.
Qed.
End frames.
#[export] Hint Resolve Compute_frame : frame.
#[export] Hint Extern 1 (preserves _ (server_InsertWorkspaceResource _ _ _)) =>
  apply insert_resource_frame; reflexivity : frame.

(** ** No panics *)

Section no_panics.
Context `{!UuidText, !Environment}.

Lemma injectSingle_no_panic options schemas v d computed :
  panics (injectSingle options schemas v d computed) = false.
Proof. unfold injectSingle. by repeat case_match. Qed.

Lemma inject_all_no_panic options schemas wrap_error l computed :
  panics (inject_all options schemas wrap_error l computed) = false.
Proof.
  revert computed. induction l as [|v l IH]; intros computed; simpl; [done|].
  pose proof (injectSingle_no_panic options schemas v false computed) as Hv.
  destruct (injectSingle _ _ _ _ _); [apply IH|done|done].
Qed.

Lemma injectScope_no_panic options schemas scope id q computed :
  panics (injectScope options schemas scope id q computed) = false.
Proof.
  unfold injectScope, ParameterValues, rows_or_none.
  destruct (filter _ _); [done|]. apply inject_all_no_panic.
Qed.

Lemma inject_defaults_no_panic options schemas_map job schemas computed :
  no_panic (inject_defaults options schemas_map job schemas computed).
Proof.
  revert computed. induction schemas as [|s l IH]; intros computed; simpl; [done|].
  pose proof (injectSingle_no_panic options schemas_map). eauto 20 with no_panic.
Qed.

Lemma Compute_no_panic scope options : no_panic (Compute scope options).
Proof.
  unfold Compute, compute_scopes. apply no_panic_bind.
  - intros w. unfold GetParameterSchemasByJobID, rows_or_none. by destruct (sort_by _ _).
  - intros schemas. pose proof inject_defaults_no_panic. pose proof injectScope_no_panic.
    pose proof inject_all_no_panic. eauto 20 with no_panic.
Qed.

Lemma convert_values_no_panic l : panics (convertComputedParameterValues l) = false.
Proof.
  induction l as [|p l IH]; simpl; [done|].
  unfold convertComputedParameterValue.
  destruct (ParameterValue_DestinationScheme _); simpl; try done;
    by destruct (convertComputedParameterValues l).
Qed.

Lemma convert_transition_no_panic t : panics (convertWorkspaceTransition t) = false.
Proof. by destruct t. Qed.

Lemma unmarshal_fields_no_panic {T} (set_member : string → json → T → res T) fields x :
  (∀ k j x, panics (set_member k j x) = false) →
  panics (unmarshal_fields set_member fields x) = false.
Proof.
  intros Hset. revert x. induction fields as [|[k j] l IH]; intros x; simpl; [done|].
  pose proof (Hset k j x) as Hkj. destruct j; try apply IH;
    destruct (set_member k _ x); simpl; try done; apply IH.
Qed.

Lemma unmarshal_job_no_panic m : panics (unmarshal_WorkspaceProvisionJob m) = false.
Proof.
  unfold unmarshal_WorkspaceProvisionJob, unmarshal_struct.
  destruct (raw_json m) as [[| | | | | |fields]|]; try done.
  apply unmarshal_fields_no_panic. intros k j x.
  destruct (EqualFold k _); [|destruct (EqualFold k _); [by destruct j|done]].
  destruct j; try done. simpl. unfold parse_uuid. by destruct (uuid_Parse _).
Qed.
End no_panics.
#[export] Hint Resolve Compute_no_panic convert_transition_no_panic convert_values_no_panic unmarshal_job_no_panic : no_panic.

(** ** What becomes of an acquired job *)

Section acquired.
Context `{!UuidText, !Environment} (server : Server).
Context (proto_Size : AcquiredJob → Z) (raw_text : RawMessage → string).
Context (decode : json → res (list ParameterValue)).
Hypothesis decode_returns : ∀ j, panics (decode j) = false.

Definition job_present (id : uuid) (q : data) : Prop :=
  ∃ j, GetProvisionerJobByID id q = Ok j.

(** The job is over, with an error. *)
Definition job_failed (id : uuid) (q : data) : Prop :=
  ∃ j, GetProvisionerJobByID id q = Ok j
       ∧ Valid j.(ProvisionerJob_CompletedAt) = true ∧ Valid j.(ProvisionerJob_Error) = true.

(** Success leaves the jobs as they are, an error leaves the job failed, and
    there is no panic. *)
Definition settles {A} (id : uuid) (m : M A) : Prop := ∀ w,
  job_present id w.(db) →
  match m w with
  | (Ok _, w') => w'.(db).(provisionerJobs) = w.(db).(provisionerJobs)
  | (Err _, w') => job_failed id w'.(db)
  | (Panic _, _) => False
  end.

Lemma settles_ret {A} id (a : A) : settles id (mret a).
Proof. by intros w Hw. Qed.

Lemma settles_bind {A B} id (m : M A) (k : A → M B) :
  settles id m → (∀ a, settles id (k a)) → settles id (m ≫= k).
Proof.
  intros Hm Hk w Hw. specialize (Hm w Hw). unfold mbind, gom_bind.
  destruct (m w) as [[a|e|p] w']; [|done..]. specialize (Hk a w').
  assert (job_present id w'.(db)) as Hw'.
  { unfold job_present, GetProvisionerJobByID in *. by rewrite Hm. }
  specialize (Hk Hw'). destruct (k a w') as [[b|e|p] w'']; [congruence|done..].
Qed.

Lemma complete_row_failed id t c msg q :
  job_present id q →
  ∃ q', UpdateProvisionerJobWithCompleteByID
          (mkUpdateProvisionerJobWithCompleteByIDParams id t (non_null c) (non_null msg)) q
        = (Ok tt, q')
        ∧ job_failed id q'.
Proof.
  intros [j Hj]. unfold GetProvisionerJobByID, first_row in Hj.
  set (P := λ job : ProvisionerJob, job.(ProvisionerJob_ID) == id) in *.
  destruct (find_first P q.(provisionerJobs)) as [j'|] eqn:Hfind; [|done]. clear Hj.
  destruct (find_first_spec P q.(provisionerJobs)) as [(? & ? & ? & _ & _ & HP & Hj)|[_ Hn]];
    [|congruence].
  unfold UpdateProvisionerJobWithCompleteByID. rewrite void_run.
  edestruct (update_row_found provisionerJobs P) as (q' & -> & Hq'); [exact Hfind| |].
  - by simplify_eq.
  - exists q'. split; [done|]. unfold job_failed, GetProvisionerJobByID, first_row.
    fold P. rewrite Hq'. by eexists.
Qed.

Lemma failJob_settles {A} job msg : settles job.(ProvisionerJob_ID) (failJob (A := A) job msg).
Proof.
  intros w Hw. unfold failJob, wrap, store, zoom, mbind, gom_bind. simpl.
  edestruct (complete_row_failed job.(ProvisionerJob_ID)) as (q' & -> & Hfailed); [exact Hw|].
  done.
Qed.

Lemma or_fail_settles {A} job msg (m : M A) :
  no_panic m → preserves (λ w, w.(db).(provisionerJobs)) m →
  settles job.(ProvisionerJob_ID) (or_fail job msg m).
Proof.
  intros Hsafe Hframe. unfold or_fail. apply settles_bind.
  - intros w Hw. unfold attempt. specialize (Hsafe w). specialize (Hframe w).
    by destruct (m w) as [[a|e|p] w'].
  - intros [e|a]; [apply failJob_settles|apply settles_ret].
Qed.

Ltac settle :=
  repeat lazymatch goal with
    | |- settles _ (mret _) => apply settles_ret
    | |- settles _ (failJob _ _) => apply failJob_settles
    | |- settles _ (or_fail _ _ _) => apply or_fail_settles; [solve [eauto 5 with no_panic]|frame]
    | |- settles _ (_ ≫= _) => apply settles_bind; [|intros ?]
    | |- settles _ (match ?x with _ => _ end) => destruct x
    end.

Lemma unmarshal_dry_run_no_panic m :
  panics (unmarshal_TemplateVersionDryRunJob decode m) = false.
Proof.
  unfold unmarshal_TemplateVersionDryRunJob, unmarshal_struct.
  destruct (raw_json m) as [[| | | | | |fields]|]; try done.
  apply unmarshal_fields_no_panic. intros k j x.
  destruct (EqualFold k _).
  { destruct j; try done. simpl. unfold parse_uuid. by destruct (uuid_Parse _). }
  destruct (EqualFold k _); [by destruct j|]. destruct (EqualFold k _); [|done].
  pose proof (decode_returns j). by destruct (decode j).
Qed.

Lemma acquired_job_settles job :
  settles job.(ProvisionerJob_ID) (acquired_job server proto_Size raw_text decode job).
Proof.
  pose proof unmarshal_dry_run_no_panic.
  unfold acquired_job, acquire_type, acquire_workspace_build, acquire_dry_run,
    GetUserByID, GetWorkspaceBuildByID, GetWorkspaceByID, GetTemplateVersionByID,
    GetTemplateByID, GetFileByID.
  settle.
Qed.

Lemma acquired_job_ID job w p w' :
  acquired_job server proto_Size raw_text decode job w = (Ok p, w') →
  p.(AcquiredJob_JobId) = uuid_String job.(ProvisionerJob_ID).
Proof.
  unfold acquired_job, mbind, gom_bind. intros Hrun.
  destruct (or_fail _ _ _ _) as [[user|e|m] w1]; [|done..].
  destruct (acquire_type _ _ _ _ _) as [[type|e|m] w2]; [|done..].
  destruct ((match job.(ProvisionerJob_StorageMethod) with _ => _ end) w2) as [[f|e|m] w3]; [|done..].
  case_match; [|by injection Hrun as <- _].
  unfold failJob, mbind, gom_bind in Hrun. by repeat case_match.
Qed.

(** The query for the next job, as the server runs it at a time. *)
Definition acquire_params (now : time) : AcquireProvisionerJobParams :=
  mkAcquireProvisionerJobParams (non_null now) (non_null server.(Server_ID))
    server.(Server_Provisioners) server.(Server_Tags).

(** The debounce: after an empty answer the server does not look for jobs for a
    while. The clock reading after it is the one the query uses. *)
Definition debounced (w : world) : bool :=
  negb (IsZero w.(lastAcquire))
  && (Sub (clock w.(ticks)) w.(lastAcquire) <? server.(Server_AcquireJobDebounce))%Z.
Definition query_tick (w : world) : nat :=
  if IsZero w.(lastAcquire) then w.(ticks) else S w.(ticks).

Lemma AcquireJob_run w job q' :
  debounced w = false →
  AcquireProvisionerJob (acquire_params (database_Now (clock (query_tick w)))) w.(db)
    = (Ok job, q') →
  AcquireJob server proto_Size raw_text decode w
  = acquired_job server proto_Size raw_text decode job
      (w <| ticks := S (query_tick w) |> <| db := q' |>).
Proof.
  unfold debounced, query_tick, acquire_params. intros Hd Hacq.
  unfold AcquireJob, attempt, store, zoom, asks, mbind, gom_bind.
  destruct (IsZero w.(lastAcquire)); simpl in *; [by rewrite Hacq|].
  rewrite Hd. simpl. by rewrite Hacq.
Qed.

(** C13: a job the server locks is never lost: either the daemon gets it, under
    its own ID and with the job rows as the lock left them, or the job is
    marked completed with an error before the call returns. The server does
    not panic on the way. *)
Theorem AcquireJob_settles w job q' :
  debounced w = false →
  AcquireProvisionerJob (acquire_params (database_Now (clock (query_tick w)))) w.(db)
    = (Ok job, q') →
  match AcquireJob server proto_Size raw_text decode w with
  | (Ok p, w') => p.(AcquiredJob_JobId) = uuid_String job.(ProvisionerJob_ID)
                  ∧ w'.(db).(provisionerJobs) = q'.(provisionerJobs)
  | (Err _, w') => job_failed job.(ProvisionerJob_ID) w'.(db)
  | (Panic _, _) => False
  end.
Proof.
  intros Hd Hacq. rewrite (AcquireJob_run w job q') by done.
  set (w1 := w <| ticks := S (query_tick w) |> <| db := q' |>).
  assert (job_present job.(ProvisionerJob_ID) w1.(db)) as Hpresent.
  { unfold AcquireProvisionerJob in Hacq.
    destruct (acquire_loop _ _) as [[job' l]|e|m] eqn:Hloop; simplify_eq.
    apply acquire_loop_ok in Hloop as (pre & j & post & Hq & _ & -> & ->).
    unfold job_present, GetProvisionerJobByID, first_row. simpl.
    destruct (find_first_spec (λ job0 : ProvisionerJob, job0.(ProvisionerJob_ID)
      == j.(ProvisionerJob_ID)) (pre ++ acquire_update (acquire_params (database_Now (clock (query_tick w)))) j :: post))
      as [(? & x & ? & _ & _ & _ & Hf)|[Hall _]].
    - simpl in Hf |- *. rewrite Hf. by eexists.
    - apply Forall_app in Hall as [_ Hall]. apply Forall_cons in Hall as [Hj _].
      by apply bool_decide_eq_false in Hj. }
  pose proof (acquired_job_settles job w1 Hpresent) as Hsettles.
  pose proof (acquired_job_ID job w1) as Hid.
  destruct (acquired_job _ _ _ _ job w1) as [[p|e|m] w']; [|done..].
  split; [by apply (Hid p w')|done].
Qed.
End acquired.

(** ** Who may report on a job *)

Section ownership.
Context `{!UuidText, !UuidTextLaws, !Environment, !Auditor} (server : Server) (start_first : bool).

Lemma uuid_String_inj u v : uuid_String u = uuid_String v → u = v.
Proof.
  intros Heq. apply (f_equal uuid_Parse) in Heq. rewrite !uuid_Parse_String in Heq. congruence.
Qed.

Lemma owns_iff job : owns server job = true ↔ null_val job.(ProvisionerJob_WorkerID) = server.(Server_ID).
Proof.
  unfold owns. rewrite bool_decide_eq_true. split; [apply uuid_String_inj|by intros ->].
Qed.

(** C14: a daemon's server cannot touch a job another one is running: updating,
    committing quota, failing and completing it all fail and change nothing. *)
Theorem foreign_job_untouched jobID job w :
  GetProvisionerJobByID jobID w.(db) = Ok job →
  null_val job.(ProvisionerJob_WorkerID) ≠ server.(Server_ID) →
  (∀ r, r.(UpdateJobRequest_JobId) = uuid_String jobID → ∃ e, UpdateJob server r w = (Err e, w))
  ∧ (∀ r, r.(CommitQuotaRequest_JobId) = uuid_String jobID →
       ∃ e, CommitQuota server r w = (Err e, w))
  ∧ (∀ f, f.(FailedJob_JobId) = uuid_String jobID → ∃ e, FailJob server f w = (Err e, w))
  ∧ (∀ c, c.(CompletedJob_JobId) = uuid_String jobID →
       ∃ e, CompleteJob server start_first c w = (Err e, w)).
Proof.
  intros Hjob Hforeign.
  assert (owns server job = false) as Hno.
  { apply not_true_iff_false. by rewrite owns_iff. }
  unfold UpdateJob, CommitQuota, running_job, FailJob, CompleteJob, wrap, lift_res, query,
    parse_uuid, throw, mbind, gom_bind.
  split_and!; intros x ->; rewrite uuid_Parse_String; simpl; rewrite Hjob, Hno; simpl;
    try destruct (Valid _); by eexists.
Qed.

(** A completed job cannot be failed any more: [FailJob] refuses and changes
    nothing. *)
Theorem FailJob_completed jobID job failed w :
  failed.(FailedJob_JobId) = uuid_String jobID →
  GetProvisionerJobByID jobID w.(db) = Ok job →
  Valid job.(ProvisionerJob_CompletedAt) = true →
  ∃ e, FailJob server failed w = (Err e, w).
Proof.
  intros Hid Hjob Hdone. unfold FailJob, wrap, lift_res, query, parse_uuid, mbind, gom_bind.
  rewrite Hid, uuid_Parse_String. simpl. rewrite Hjob, Hdone. destruct (owns server job); by eexists.
Qed.
End ownership.

(** ** Finished jobs *)

(** Every successful run ends in a world with the property. *)
Definition ensures {A} (Q : world → Prop) (m : M A) : Prop :=
  ∀ w a w', m w = (Ok a, w') → Q w'.

(** The property only depends on the jobs. *)
Definition about_jobs (Q : world → Prop) : Prop :=
  ∀ w w', w'.(db).(provisionerJobs) = w.(db).(provisionerJobs) → Q w → Q w'.

Lemma ensures_then {A B} Q (m : M A) (k : A → M B) :
  (∀ a, ensures Q (k a)) → ensures Q (m ≫= k).
Proof. intros Hk w b w' (a & w1 & _ & Hrun)%bind_ok. by eapply Hk. Qed.

Lemma ensures_before {A B} Q (m : M A) (k : A → M B) :
  about_jobs Q → ensures Q m →
  (∀ a, preserves (λ w, w.(db).(provisionerJobs)) (k a)) → ensures Q (m ≫= k).
Proof.
  intros Hjobs Hm Hk w b w' (a & w1 & Hrun1 & Hrun2)%bind_ok.
  apply (Hjobs w1); [|by eapply Hm]. specialize (Hk a w1). by rewrite Hrun2 in Hk.
Qed.

Lemma ensures_wrap {A} Q msg (m : M A) : ensures Q m → ensures Q (wrap msg m).
Proof.
  intros Hm w a w' Hrun. unfold wrap in Hrun.
  destruct (m w) as [[a'|e|p] w1] eqn:Hw; simplify_eq. by eapply Hm.
Qed.

Lemma ensures_error {A} Q e : ensures Q (throw (A := A) e).
Proof. by intros w a w' Hrun. Qed.

Section finished.
Context `{!UuidText, !UuidTextLaws, !Environment, !Auditor, !AuditorLaws} (server : Server) (start_first : bool).

(** The job is over, with this error column. *)
Definition job_over (id : uuid) (err : nullable string) (w : world) : Prop :=
  ∃ j, GetProvisionerJobByID id w.(db) = Ok j
       ∧ Valid j.(ProvisionerJob_CompletedAt) = true ∧ j.(ProvisionerJob_Error) = err.

Lemma job_over_about_jobs id err : about_jobs (job_over id err).
Proof. intros w w' Heq. unfold job_over, GetProvisionerJobByID. by rewrite Heq. Qed.

Lemma complete_row_over arg q q' :
  UpdateProvisionerJobWithCompleteByID arg q = (Ok tt, q') →
  ∃ j, GetProvisionerJobByID arg.(UpdateProvisionerJobWithCompleteByIDParams_ID) q' = Ok j
       ∧ j.(ProvisionerJob_CompletedAt) = arg.(UpdateProvisionerJobWithCompleteByIDParams_CompletedAt)
       ∧ j.(ProvisionerJob_Error) = arg.(UpdateProvisionerJobWithCompleteByIDParams_Error).
Proof.
  unfold UpdateProvisionerJobWithCompleteByID. rewrite void_run. set (P := λ job, _ == _).
  destruct (find_first_spec P q.(provisionerJobs)) as [(? & x & ? & _ & _ & HP & Hfind)|[Hall _]].
  - edestruct (update_row_found provisionerJobs P) as (q1 & -> & Hq1); [exact Hfind|exact HP|].
    intros [= <-]. unfold GetProvisionerJobByID, first_row. fold P. rewrite Hq1. by eexists.
  - unfold update_row. by rewrite update_first_none.
Qed.

Lemma complete_store_over id t c err :
  ensures (job_over id err)
    (store (UpdateProvisionerJobWithCompleteByID
       (mkUpdateProvisionerJobWithCompleteByIDParams id t (non_null c) err))).
Proof.
  intros w [] w' Hrun. unfold store, zoom in Hrun.
  destruct (UpdateProvisionerJobWithCompleteByID _ _) as [r q'] eqn:Hq. simplify_eq.
  apply complete_row_over in Hq as (j & Hj & Hc & He). exists j. simpl in *. by rewrite Hc.
Qed.

Lemma complete_job_over id : ensures (job_over id (null_of EmptyString)) (complete_job id).
Proof.
  unfold complete_job. apply ensures_then. intros t. apply ensures_then. intros c.
  apply ensures_wrap, complete_store_over.
Qed.

Lemma insert_resources_frame id t l :
  preserves (λ w, w.(db).(provisionerJobs)) (insert_resources id t l).
Proof. unfold insert_resources. frame. Qed.

Lemma complete_build_tx_over id job input build state resources :
  ensures (job_over id (null_of EmptyString)) (complete_build_tx id job input build state resources).
Proof.
  unfold complete_build_tx. do 2 (apply ensures_then; intros ?).
  apply ensures_before; [apply job_over_about_jobs|apply complete_job_over|]. intros _.
  unfold schedule_timeouts, UpdateWorkspaceBuildByID, UpdateWorkspaceDeletedByID, update_workspace.
  apply preserves_bind; [frame|intros _]. apply preserves_bind; [frame|intros _].
  apply preserves_bind; [by case_match|intros _]. frame.
Qed.

Lemma complete_build_over id job state resources :
  ensures (job_over id (null_of EmptyString)) (complete_build id job state resources).
Proof.
  unfold complete_build. do 2 (apply ensures_then; intros ?).
  apply ensures_before; [apply job_over_about_jobs|apply ensures_wrap, complete_build_tx_over|].
  frame.
Qed.

(** Watchers of the job's log are told it ended. *)
Definition logs_ended (id : uuid) (w : world) : Prop :=
  last w.(published) = Some (ProvisionerJobLogsNotifyChannel id, ProvisionerJobLogsNotifyMessage 0 true).

Lemma end_of_logs_ended id : ensures (logs_ended id) (end_of_logs id).
Proof.
  apply ensures_wrap. intros w [] w' Hrun. unfold Publish in Hrun. simpl in Hrun.
  destruct (publish_error _); simplify_eq. unfold logs_ended. simpl. by rewrite last_snoc.
Qed.

Lemma with_end_of_logs {A} id Q (m : M A) :
  about_jobs Q → ensures Q m →
  ensures (λ w, Q w ∧ logs_ended id w) (m ≫= λ _, end_of_logs id).
Proof.
  intros Hjobs Hm w b w' (a & w1 & Hrun1 & Hrun2)%bind_ok. split.
  - apply (Hjobs w1); [|by eapply Hm].
    assert (preserves (λ w, w.(db).(provisionerJobs)) (end_of_logs id)) as Hf
      by (unfold end_of_logs; frame).
    specialize (Hf w1). by rewrite Hrun2 in Hf.
  - by eapply end_of_logs_ended.
Qed.

(** When [CompleteJob] succeeds, whatever the kind of job, the job is over
    without an error and the watchers of its log have been told it ended. *)
Theorem CompleteJob_over jobID completed w w' :
  completed.(CompletedJob_JobId) = uuid_String jobID →
  CompleteJob server start_first completed w = (Ok tt, w') →
  job_over jobID (null_of EmptyString) w' ∧ logs_ended jobID w'.
Proof.
  intros Hid Hrun. unfold CompleteJob in Hrun.
  apply bind_ok in Hrun as (id & w1 & Hparse & Hrun).
  unfold wrap, lift_res, parse_uuid in Hparse. rewrite Hid, uuid_Parse_String in Hparse.
  simpl in Hparse. injection Hparse as <- <-. apply bind_ok in Hrun as (job & w2 & _ & Hrun).
  destruct (negb _); [done|]. revert Hrun.
  apply (with_end_of_logs jobID); [apply job_over_about_jobs|].
  destruct (CompletedJob_type completed) as [[state rs|s1 s2|rs]|].
  - apply complete_build_over.
  - unfold complete_import. do 2 (apply ensures_then; intros ?). apply complete_job_over.
  - unfold complete_dry_run. apply ensures_then; intros ?. apply complete_job_over.
  - apply ensures_error.
Qed.

(** When [FailJob] succeeds the job is over, with the reported error, and the
    watchers of its log have been told it ended. *)
Theorem FailJob_over jobID failed w w' :
  failed.(FailedJob_JobId) = uuid_String jobID →
  FailJob server failed w = (Ok tt, w') →
  job_over jobID (null_string failed.(FailedJob_Error)) w' ∧ logs_ended jobID w'.
Proof.
  intros Hid Hrun. unfold FailJob in Hrun.
  apply bind_ok in Hrun as (id & w1 & Hparse & Hrun).
  unfold wrap, lift_res, parse_uuid in Hparse. rewrite Hid, uuid_Parse_String in Hparse.
  simpl in Hparse. injection Hparse as <- <-. apply bind_ok in Hrun as (job & w2 & _ & Hrun).
  destruct (negb _); [done|]. destruct (Valid _); [done|].
  apply bind_ok in Hrun as (c & w3 & _ & Hrun). apply bind_ok in Hrun as (t & w4 & _ & Hrun).
  apply bind_ok in Hrun as ([] & w5 & Hover & Hrun).
  apply (ensures_wrap _ _ _ (complete_store_over _ _ _ _)) in Hover.
  apply bind_ok in Hrun as (? & w6 & Hbuild & Hrun).
  apply bind_ok in Hrun as (? & w7 & Haudit & Hlogs).
  split; [|by eapply end_of_logs_ended].
  assert (∀ {A} (m : M A) v r v', preserves (λ w, w.(db).(provisionerJobs)) m → m v = (r, v') →
    job_over jobID (null_string (FailedJob_Error failed)) v →
    job_over jobID (null_string (FailedJob_Error failed)) v') as Hkeep.
  { intros A m v r v' Hf Hm. apply job_over_about_jobs. specialize (Hf v). by rewrite Hm in Hf. }
  eapply Hkeep; [|exact Hlogs|]; [unfold end_of_logs; frame|].
  eapply Hkeep; [|exact Haudit|]; [unfold audit_failure; frame|].
  eapply Hkeep; [|exact Hbuild|exact Hover].
  unfold fail_build, UpdateWorkspaceBuildByID. frame.
Qed.
End finished.

(** ** What completing a workspace build does *)

Lemma run_frame {A T} (g : data → T) (m : M A) w r w' :
  preserves (λ w, g w.(db)) m → m w = (r, w') → g w'.(db) = g w.(db).
Proof. intros Hf Hm. specialize (Hf w). by rewrite Hm in Hf. Qed.

Lemma store_run {A} (m : StoreM A) w r w' :
  store m w = (r, w') → m w.(db) = (r, w'.(db)).
Proof. unfold store, zoom. destruct (m w.(db)) as [r1 q1]. intros [= <- <-]. done. Qed.

Lemma wrap_run {A} msg (m : M A) w a w' : wrap msg m w = (Ok a, w') → m w = (Ok a, w').
Proof. unfold wrap. destruct (m w) as [[]]; naive_solver. Qed.

(** Updating a row by its key: the query by the key sees the new row. *)
Lemma update_row_get {A} (tbl : data → list A) `{!Setter tbl, !SetterLaw tbl}
    (key : A → uuid) k f q x q' :
  (∀ y, key (f y) = key y) →
  update_row tbl (λ y, key y == k) f q = (Ok x, q') →
  ∃ y, first_row (λ y, key y == k) (tbl q) = Ok y ∧ x = f y
       ∧ first_row (λ y, key y == k) (tbl q') = Ok x.
Proof.
  intros Hkey Hrun. unfold first_row. set (P := λ y, key y == k) in *.
  destruct (find_first_spec P (tbl q)) as [(? & y & ? & _ & _ & HP & Hfind)|[Hall _]].
  - edestruct (update_row_found tbl P f q y Hfind) as (q1 & Hrun' & Hq1).
    { unfold P in *. by rewrite Hkey. }
    rewrite Hrun in Hrun'. simplify_eq. exists y. by rewrite Hfind, Hq1.
  - unfold update_row in Hrun. by rewrite update_first_none in Hrun.
Qed.

Section build_effects.
Context `{!UuidText, !UuidTextLaws, !Environment, !Auditor, !AuditorLaws} (server : Server) (start_first : bool).

(** The build keeps the reported state and gets the deadline the workspace's
    time to live gives; a delete build deletes its workspace. *)
Definition build_completed (build : WorkspaceBuild) (ws : Workspace) (state : bytes) (now : time)
    (q : data) : Prop :=
  (∃ b, GetWorkspaceBuildByID build.(WorkspaceBuild_ID) q = Ok b
     ∧ b.(WorkspaceBuild_ProvisionerState) = state
     ∧ b.(WorkspaceBuild_Deadline)
       = (if Valid ws.(Workspace_Ttl) then Add now (null_val ws.(Workspace_Ttl)) else time_zero))
  ∧ ∃ ws', GetWorkspaceByID build.(WorkspaceBuild_WorkspaceID) q = Ok ws'
     ∧ ws'.(Workspace_Deleted)
       = (if build.(WorkspaceBuild_Transition) == WorkspaceTransitionDelete then true
          else ws.(Workspace_Deleted)).

Lemma build_completed_frame build ws state now q q' :
  q'.(workspaceBuilds) = q.(workspaceBuilds) → q'.(workspaces) = q.(workspaces) →
  build_completed build ws state now q → build_completed build ws state now q'.
Proof.
  intros Hb Hw. unfold build_completed, GetWorkspaceBuildByID, GetWorkspaceByID.
  by rewrite Hb, Hw.
Qed.

Lemma complete_job_frame {T} (g : data → T) id :
  (∀ h q, g (set_field provisionerJobs h q) = g q) →
  preserves (λ w, g w.(db)) (complete_job id).
Proof.
  intros Hg. unfold complete_job, UpdateProvisionerJobWithCompleteByID.
  pose proof (preserves_update_row g provisionerJobs). frame.
Qed.

Lemma complete_build_tx_effect id job input build state resources ws w r w' :
  GetWorkspaceByID build.(WorkspaceBuild_WorkspaceID) w.(db) = Ok ws →
  complete_build_tx id job input build state resources w = (Ok r, w') →
  build_completed build ws state (database_Now (clock w.(ticks))) w'.(db).
Proof.
  intros Hws Hrun. unfold complete_build_tx in Hrun.
  apply bind_ok in Hrun as (now & w1 & Hnow & Hrun). injection Hnow as <- <-.
  apply bind_ok in Hrun as (r1 & w2 & Hq & Hrun).
  unfold attempt, query in Hq. simpl in Hq. rewrite Hws in Hq. injection Hq as <- <-.
  apply bind_ok in Hrun as ([] & w3 & Hjob & Hrun).
  assert (w3.(db).(workspaces) = w.(db).(workspaces)) as Hw3
    by (eapply (run_frame workspaces) in Hjob; [exact Hjob|by apply complete_job_frame]).
  apply bind_ok in Hrun as (b & w4 & Hb%wrap_run%store_run & Hrun).
  assert (w4.(db).(workspaces) = w3.(db).(workspaces)) as Hw4.
  { eapply (preserves_run workspaces) in Hb; [exact Hb|]. unfold UpdateWorkspaceBuildByID. frame. }
  apply (update_row_get workspaceBuilds WorkspaceBuild_ID) in Hb as (b0 & _ & -> & Hb); [|done].
  apply bind_ok in Hrun as (? & w5 & Hres & Hrun).
  apply bind_ok in Hrun as (? & w6 & Hsched & Hrun).
  apply bind_ok in Hrun as (? & w7 & Hdel & Hret). injection Hret as _ <-.
  assert (w6.(db) = w5.(db)) as H6
    by (unfold schedule_timeouts in Hsched; destruct (_ && _); injection Hsched as _ <-; done).
  assert (w5.(db).(workspaceBuilds) = w4.(db).(workspaceBuilds)) as H5b
    by (eapply run_frame; [|exact Hres]; frame).
  assert (w5.(db).(workspaces) = w.(db).(workspaces)) as H5w.
  { transitivity w4.(db).(workspaces); [eapply run_frame; [|exact Hres]; frame|].
    by rewrite Hw4, Hw3. }
  unfold GetWorkspaceByID in Hws. rewrite <-H5w, <-H6 in Hws.
  unfold build_completed, GetWorkspaceBuildByID, GetWorkspaceByID.
  case_bool_decide as Htr; simpl in Hdel.
  - apply wrap_run, store_run in Hdel. unfold UpdateWorkspaceDeletedByID, update_workspace in Hdel.
    rewrite void_run in Hdel.
    destruct (update_row _ _ _ _) as [[ws7| |] q7] eqn:Hup; simplify_eq.
    assert (w7.(db).(workspaceBuilds) = w6.(db).(workspaceBuilds)) as H7.
    { eapply (preserves_run workspaceBuilds) in Hup; [exact Hup|frame]. }
    apply (update_row_get workspaces Workspace_ID) in Hup as (y & _ & -> & Hx); [|done].
    rewrite H7, H6, H5b. split; by eexists.
  - injection Hdel as _ <-. rewrite H6, H5b, <-H6. split; by eexists.
Qed.

(** Completing a workspace build stores the reported provisioner state, sets
    the deadline to now plus the workspace's time to live (none without one),
    and marks the workspace deleted exactly for a delete build. *)
Theorem CompleteJob_build jobID job input build ws state resources w w' :
  GetProvisionerJobByID jobID w.(db) = Ok job →
  unmarshal_WorkspaceProvisionJob job.(ProvisionerJob_Input) = Ok input →
  GetWorkspaceBuildByID input.(WorkspaceProvisionJob_WorkspaceBuildID) w.(db) = Ok build →
  GetWorkspaceByID build.(WorkspaceBuild_WorkspaceID) w.(db) = Ok ws →
  CompleteJob server start_first
    (mkCompletedJob (uuid_String jobID) (Some (CompletedJob_WorkspaceBuild state resources))) w
    = (Ok tt, w') →
  build_completed build ws state (database_Now (clock w.(ticks))) w'.(db).
Proof.
  intros Hjob Hinput Hbuild Hws Hrun. unfold CompleteJob in Hrun.
  apply bind_ok in Hrun as (id & w1 & Hp%wrap_run & Hrun).
  unfold lift_res, parse_uuid in Hp. simpl in Hp. rewrite uuid_Parse_String in Hp.
  injection Hp as <- <-.
  apply bind_ok in Hrun as (j & w2 & Hq%wrap_run & Hrun). unfold query in Hq.
  rewrite Hjob in Hq. injection Hq as <- <-.
  destruct (negb _); [done|]. apply bind_ok in Hrun as (? & w3 & Hrun & Hend). simpl in Hrun.
  unfold complete_build in Hrun.
  apply bind_ok in Hrun as (i & w4 & Hq%wrap_run & Hrun). unfold lift_res in Hq.
  rewrite Hinput in Hq. injection Hq as <- <-.
  apply bind_ok in Hrun as (b & w5 & Hq%wrap_run & Hrun). unfold query in Hq.
  rewrite Hbuild in Hq. injection Hq as <- <-.
  apply bind_ok in Hrun as (r & w6 & Htx%wrap_run & Hrun).
  apply complete_build_tx_effect with (ws := ws) in Htx; [|done].
  revert Htx. apply build_completed_frame.
  - transitivity w3.(db).(workspaceBuilds); (eapply run_frame; [|eassumption]); [unfold end_of_logs|]; frame.
  - transitivity w3.(db).(workspaces); (eapply run_frame; [|eassumption]); [unfold end_of_logs|]; frame.
Qed.
End build_effects.

(** ** Application slugs *)

Section slugs.
Context `{!UuidText, !Environment}.

Lemma insert_app_slugs agentID slugs app w slugs' w' :
  insert_app agentID slugs app w = (Ok slugs', w') →
  (app.(App_Slug) ∉ slugs) ∧ AppSlugRegex app.(App_Slug) = true
  ∧ slugs' = {[app.(App_Slug)]} ∪ slugs.
Proof.
  unfold insert_app. intros Hrun. case_bool_decide; [done|].
  destruct (AppSlugRegex _) eqn:Hre; [|done]. simpl in Hrun. case_bool_decide; [done|].
  apply bind_ok in Hrun as (? & ? & _ & Hrun). apply bind_ok in Hrun as (? & ? & _ & Hrun).
  apply bind_ok in Hrun as (? & ? & _ & Hrun). by injection Hrun as <- _.
Qed.

Lemma insert_apps_slugs agentID slugs apps w slugs' w' :
  insert_apps agentID slugs apps w = (Ok slugs', w') →
  NoDup (App_Slug <$> apps) ∧ (∀ s, s ∈ App_Slug <$> apps → (s ∉ slugs) ∧ AppSlugRegex s = true)
  ∧ slugs' = list_to_set (App_Slug <$> apps) ∪ slugs.
Proof.
  revert slugs w. induction apps as [|a l IH]; intros slugs w Hrun; simpl in Hrun.
  - injection Hrun as <- _. split; [constructor|]. set_solver.
  - apply bind_ok in Hrun as (slugs1 & w1 & Ha%insert_app_slugs & Hrun).
    destruct Ha as (Hfresh & Hre & ->). apply IH in Hrun as (Hnd & Hall & ->).
    rewrite fmap_cons. split; [|split].
    + constructor; [|done]. intros Hin. destruct (Hall _ Hin). set_solver.
    + intros s [->|Hs]%elem_of_cons; [done|]. destruct (Hall s Hs). set_solver.
    + set_solver.
Qed.

Lemma insert_agents_slugs resourceID slugs agents w r w' :
  insert_agents resourceID slugs agents w = (Ok r, w') →
  let all := App_Slug <$> (agents ≫= Agent_Apps) in
  NoDup all ∧ ∀ s, s ∈ all → (s ∉ slugs) ∧ AppSlugRegex s = true.
Proof.
  revert slugs w. induction agents as [|a l IH]; intros slugs w Hrun; simpl in *.
  - split; [constructor|]. set_solver.
  - apply bind_ok in Hrun as (slugs1 & w1 & Ha & Hrun). unfold insert_agent in Ha.
    do 6 apply bind_ok in Ha as (? & ? & _ & Ha).
    apply insert_apps_slugs in Ha as (Hnd & Hall & ->). apply IH in Hrun as [Hnd' Hall'].
    rewrite fmap_app. split.
    + apply NoDup_app. split; [done|]. split; [|done]. intros s Hs Hs'.
      destruct (Hall' s Hs'). set_solver.
    + intros s [Hs|Hs]%elem_of_app; [by apply Hall|]. destruct (Hall' s Hs). set_solver.
Qed.

(** A resource is only accepted when the slugs of its applications are
    pairwise different, across its agents, and match the hostname-safe form. *)
Theorem resource_slugs_valid jobID transition r w w' :
  server_InsertWorkspaceResource jobID transition r w = (Ok tt, w') →
  let slugs := App_Slug <$> (r.(Resource_Agents) ≫= Agent_Apps) in
  NoDup slugs ∧ Forall (λ s, AppSlugRegex s = true) slugs.
Proof.
  intros Hrun slugs. unfold server_InsertWorkspaceResource in Hrun.
  do 3 apply bind_ok in Hrun as (? & ? & _ & Hrun).
  apply bind_ok in Hrun as (? & ? & Hagents & _).
  apply insert_agents_slugs in Hagents as [Hnd Hall]. split; [done|].
  apply Forall_forall. intros s Hs. by apply Hall.
Qed.
End slugs.

(** ** Tags *)

Section tags.
Context `{!UuidText, !UuidTextLaws}.

Lemma MutateTags_scope userID tags :
  MutateTags userID tags !! "scope" = Some "user" ∧
    MutateTags userID tags !! "owner" = Some (uuid_String userID)
  ∨ MutateTags userID tags !! "scope" = Some "organization".
Proof.
  unfold MutateTags. destruct (tags !! "scope") as [scope|] eqn:Hs.
  - rewrite (bool_decide_eq_false_2 (Some scope = None)), Hs by done.
    destruct (decide (scope = "user")) as [->|Huser]; [left|right].
    + rewrite bool_decide_eq_true_2, lookup_insert_eq, lookup_insert_ne by done. done.
    + rewrite (bool_decide_eq_false_2 (Some scope = Some "user")) by congruence.
      case_bool_decide; [congruence|]. by rewrite lookup_insert_eq.
  - rewrite (bool_decide_eq_true_2 (None = None)), lookup_insert_eq by done. right.
    by rewrite bool_decide_eq_false_2, bool_decide_eq_true_2, lookup_insert_eq by done.
Qed.

(** A job of a user-scoped template goes to a daemon of the same user only:
    when the tags of the job and of the daemon both went through [MutateTags],
    a job scoped to a user is eligible for a daemon scoped to that user and for
    no other. *)
Theorem user_jobs_stay_with_owner arg job jobUser jobTags daemonUser daemonTags :
  job.(ProvisionerJob_Tags) = MutateTags jobUser jobTags →
  MutateTags jobUser jobTags !! "scope" = Some "user" →
  eligible arg (MutateTags daemonUser daemonTags) job →
  MutateTags daemonUser daemonTags !! "scope" = Some "user" ∧ daemonUser = jobUser.
Proof.
  intros Hjob Hscope (_ & _ & Hsub). rewrite Hjob, map_subseteq_spec in Hsub.
  pose proof (Hsub _ _ Hscope) as Hd.
  destruct (MutateTags_scope jobUser jobTags) as [[_ Howner]|Horg]; [|congruence].
  pose proof (Hsub _ _ Howner) as Hdo.
  destruct (MutateTags_scope daemonUser daemonTags) as [[_ Hdowner]|Horg]; [|congruence].
  split; [done|]. apply uuid_String_inj. congruence.
Qed.
End tags.

(** ** Concrete runs *)

Module Examples.
#[local] Existing Instance unary_uuid_text.
#[local] Existing Instance unary_uuid_text_laws.

(** A clock that ticks every millisecond, fresh IDs, a pubsub that works. *)
#[local] Instance env : Environment := {|
  clock n := (1000000 * Z.of_nat n)%Z;
  new_uuid n := (100 + N.of_nat n)%N;
  publish_error _ := None;
  random_source := RandomExamples.constant_source Byte.x6a |}.

(** The enterprise auditor, storing the entries. *)
#[local] Instance auditor : Auditor :=
  NewAuditor (λ _, "null") DefaultFilter [NewPostgres true; NewSlog].
#[local] Instance auditor_laws : AuditorLaws.
Proof. apply NewAuditor_laws; [done|]. repeat constructor; apply NewPostgres_ok || apply NewSlog_ok. Qed.

Definition server : Server :=
  mkServer "https://coder" 5 [ProvisionerTypeTerraform] RawNil (Some None) 0.

Definition build : WorkspaceBuild :=
  WorkspaceBuild_zero <| WorkspaceBuild_ID := 2%N |> <| WorkspaceBuild_WorkspaceID := 3%N |>
    <| WorkspaceBuild_TemplateVersionID := 4%N |> <| WorkspaceBuild_JobID := 1%N |>
    <| WorkspaceBuild_BuildNumber := 1%Z |> <| WorkspaceBuild_Deadline := 777%Z |>
    <| WorkspaceBuild_Transition := WorkspaceTransitionStart |>.

Definition job : ProvisionerJob :=
  ProvisionerJob_zero <| ProvisionerJob_ID := 1%N |> <| ProvisionerJob_InitiatorID := 6%N |>
    <| ProvisionerJob_Provisioner := ProvisionerTypeTerraform |>
    <| ProvisionerJob_StorageMethod := ProvisionerStorageMethodFile |>
    <| ProvisionerJob_Type := ProvisionerJobTypeWorkspaceBuild |>
    <| ProvisionerJob_Input := RawValue (JObject [("workspace_build_id", JString "u11")]) |>.

Definition workspace : Workspace :=
  Workspace_zero <| Workspace_ID := 3%N |> <| Workspace_OwnerID := 6%N |>
    <| Workspace_Name := "dev" |> <| Workspace_Ttl := non_null 1000%Z |>.

(** The job waits in the queue; its initiator is missing from the store. *)
Definition queued : world :=
  mkWorld (New <| provisionerJobs := [job] |> <| workspaceBuilds := [build] |>
               <| workspaces := [workspace] |>) 1 0 0 [] [] time_zero 0.

(** The job runs on the server. *)
Definition running : world :=
  queued <| db := queued.(db) <| provisionerJobs :=
    [job <| ProvisionerJob_StartedAt := non_null 1%Z |>
         <| ProvisionerJob_WorkerID := non_null 5%N |>] |> |>.

Definition locked : ProvisionerJob :=
  job <| ProvisionerJob_StartedAt := non_null 1000000%Z |>
      <| ProvisionerJob_UpdatedAt := 1000000%Z |> <| ProvisionerJob_WorkerID := non_null 5%N |>.

Lemma AcquireJob_settles_witness :
  job_failed 1 (AcquireJob server (λ _, 0%Z) (λ _, EmptyString) (λ _, Ok []) queued).2.(db).
Proof.
  assert (AcquireProvisionerJob (acquire_params server (database_Now (clock (query_tick queued))))
            queued.(db) = (Ok locked, queued.(db) <| provisionerJobs := [locked] |>)) as Hacq
    by (vm_compute; reflexivity).
  pose proof (AcquireJob_settles server (λ _, 0%Z) (λ _, EmptyString) (λ _, Ok [])
    (λ _, eq_refl) queued locked _ eq_refl Hacq) as Hsettles.
  destruct (AcquireJob server _ _ _ queued) as [[p|e|m] w'] eqn:Hrun; [|exact Hsettles|done].
  exfalso. clear Hsettles. vm_compute in Hrun. discriminate Hrun.
Defined.

Lemma foreign_job_untouched_witness :
  ∃ e, FailJob (mkServer "https://coder" 7 [] RawNil (Some None) 0) (mkFailedJob "u1" "boom" None) running
       = (Err e, running).
Proof.
  refine (proj1 (proj2 (proj2 (foreign_job_untouched
    (mkServer "https://coder" 7 [] RawNil (Some None) 0) true 1
    (job <| ProvisionerJob_StartedAt := non_null 1%Z |>
         <| ProvisionerJob_WorkerID := non_null 5%N |>) running eq_refl _))) _ _);
    [vm_compute; discriminate|reflexivity].
Defined.

Definition completed : world := (CompleteJob server true
  (mkCompletedJob "u1" (Some (CompletedJob_WorkspaceBuild [] []))) running).2.

Lemma FailJob_completed_witness :
  ∃ e, FailJob server (mkFailedJob "u1" "boom" None) completed = (Err e, completed).
Proof.
  destruct (GetProvisionerJobByID 1 completed.(db)) as [j|e|m] eqn:Hj;
    [|vm_compute in Hj; discriminate Hj..].
  apply (FailJob_completed server 1 j); [reflexivity|exact Hj|].
  vm_compute in Hj. by injection Hj as <-.
Defined.

Lemma CompleteJob_over_witness :
  job_over 1 (null_of EmptyString) completed ∧ logs_ended 1 completed.
Proof.
  apply (CompleteJob_over server true 1
           (mkCompletedJob "u1" (Some (CompletedJob_WorkspaceBuild [] []))) running);
    [reflexivity|vm_compute; reflexivity].
Defined.

Definition failed : world := (FailJob server
  (mkFailedJob "u1" "boom" (Some (FailedJob_WorkspaceBuild (Some [])))) running).2.

Lemma FailJob_over_witness : job_over 1 (non_null "boom") failed ∧ logs_ended 1 failed.
Proof.
  apply (FailJob_over server 1
           (mkFailedJob "u1" "boom" (Some (FailedJob_WorkspaceBuild (Some [])))) running);
    [reflexivity|vm_compute; reflexivity].
Defined.

Lemma CompleteJob_build_witness :
  build_completed build workspace [] (database_Now (clock running.(ticks))) completed.(db).
Proof.
  apply (CompleteJob_build server true 1
           (job <| ProvisionerJob_StartedAt := non_null 1%Z |>
                <| ProvisionerJob_WorkerID := non_null 5%N |>)
           (mkWorkspaceProvisionJob 2 false) build workspace [] [] running);
    [reflexivity..|vm_compute; reflexivity].
Defined.

Definition resource : proto_Resource :=
  mkResource "main" "docker" [mkAgent "1" "a" None "" "linux" "amd64" ""
    [mkApp "code-server" "" "" "" "" false None AppSharingLevel_OWNER;
     mkApp "web" "" "" "" "" false None AppSharingLevel_PUBLIC] Agent_NoAuth 0 "" ""] [] false "" "" 0.

Lemma resource_slugs_valid_witness :
  NoDup ["code-server"; "web"].
Proof.
  refine (proj1 (resource_slugs_valid 1 WorkspaceTransitionStart resource running
    (server_InsertWorkspaceResource 1 WorkspaceTransitionStart resource running).2 _)).
  vm_compute. reflexivity.
Defined.

Lemma user_jobs_stay_with_owner_witness :
  MutateTags 6 {["scope" := "user"]} !! "scope" = Some "user" ∧ 6%N = 6%N.
Proof.
  apply (user_jobs_stay_with_owner
           (mkAcquireProvisionerJobParams (non_null 0%Z) (non_null 5%N) [ProvisionerTypeTerraform] RawNil)
           (job <| ProvisionerJob_Tags := MutateTags 6 {["scope" := "user"]} |>)
           6 {["scope" := "user"]} 6 {["scope" := "user"]});
    [reflexivity|reflexivity|].
  split; [reflexivity|]. split; [left|]. simpl. apply map_subseteq_spec. intros i x Hi. exact Hi.
Defined.

(** Failing a build with a state clears the deadline the build had. *)
Lemma FailJob_clears_deadline :
  build.(WorkspaceBuild_Deadline) = 777%Z
  ∧ WorkspaceBuild_Deadline <$> failed.(db).(workspaceBuilds) = [time_zero].
Proof. vm_compute. done. Qed.

(** A failed job can still be completed: its error is erased. *)
Lemma CompleteJob_overwrites_failure :
  ProvisionerJob_Error <$> failed.(db).(provisionerJobs) = [non_null "boom"]
  ∧ ProvisionerJob_Error <$> (CompleteJob server true
      (mkCompletedJob "u1" (Some (CompletedJob_WorkspaceBuild [] []))) failed).2.(db).(provisionerJobs)
    = [null_of EmptyString].
Proof. vm_compute. done. Qed.
End Examples.
