(* ===== verification/Terraform.v ===== *)
(** * The resources of a Terraform state

    [provisioner/terraform/resources.go]: from the resources of a state or a plan and
    the graph Terraform draws of them to the resources of a workspace, with agents,
    applications and metadata. Ranging over a Go map has an arbitrary order: [map_range]
    gives one for each loop and each round of the loops around it. The graph parser and
    [mapstructure] are third-party. *)

From Stdlib Require Import Ascii.
From stdpp Require Import prelude gmap strings.
From S2P Require Import Prelude Encoding Models ProvisionerdProto ProvisionerdServer.

(** ** [tfjson] and [gographviz] *)

(** The fields that are read of a resource of a state. *)
Inductive ResourceMode := DataResourceMode | ManagedResourceMode | ResourceMode_other (s : string).
#[global] Instance ResourceMode_eq_dec : EqDecision ResourceMode.
Proof. solve_decision. Defined.
Record StateResource := mkStateResource {
  StateResource_Address : string;
  StateResource_Mode : ResourceMode;
  StateResource_Type : string;
  StateResource_Name : string;
  StateResource_AttributeValues : gmap string json;
}.
Inductive StateModule := mkStateModule (Resources : list StateResource) (ChildModules : list StateModule).

Record graph_Node := mkNode { Node_Name : string; Node_Attrs : gmap string string }.
(** Of the edges of a graph only their ends are read. *)
Record Graph := mkGraph {
  Nodes_Lookup : gmap string graph_Node;
  SrcToDsts : gmap string (gmap string ());
  DstToSrcs : gmap string (gmap string ());
}.
Class Graphviz := {
  graph_Ast : Type;
  graph_ParseString : string → res graph_Ast;
  NewAnalysedGraph : graph_Ast → res Graph;
}.

(** The order in which [range] visits a map, at each place it is reached. *)
Class MapOrder := map_range : list string → ∀ {A}, gmap string A → list (string * A).
Class MapOrderLaws `{MapOrder} := map_range_perm at_ A (m : gmap string A) : map_range at_ m ≡ₚ map_to_list m.

(** ** Attributes *)

Record agentAttributes := mkAgentAttributes {
  agent_Auth : string;
  agent_OperatingSystem : string;
  agent_Architecture : string;
  agent_Directory : string;
  agent_ID : string;
  agent_Token : string;
  agent_Env : option (gmap string string);
  agent_StartupScript : string;
  agent_ConnectionTimeoutSeconds : Z;
  agent_TroubleshootingURL : string;
  agent_MOTDFile : string;
}.

Record appHealthcheckAttributes := mkAppHealthcheckAttributes {
  healthcheck_URL : string;
  healthcheck_Interval : Z;
  healthcheck_Threshold : Z;
}.

Record agentAppAttributes := mkAgentAppAttributes {
  app_AgentID : string;
  app_Slug : string;
  app_DisplayName : string;
  app_Name : string;
  app_Icon : string;
  app_URL : string;
  app_Command : string;
  app_Share : string;
  app_Subdomain : bool;
  app_Healthcheck : list appHealthcheckAttributes;
}.
#[global] Instance agentAppAttributes_eta : Eta agentAppAttributes := λ a,
  mkAgentAppAttributes a.(app_AgentID) a.(app_Slug) a.(app_DisplayName) a.(app_Name) a.(app_Icon) a.(app_URL)
    a.(app_Command) a.(app_Share) a.(app_Subdomain) a.(app_Healthcheck).

Record metadataItem := mkMetadataItem {
  item_Key : string;
  item_Value : string;
  item_Sensitive : bool;
  item_IsNull : bool;
}.

Record metadataAttributes := mkMetadataAttributes {
  metadata_ResourceID : string;
  metadata_Hide : bool;
  metadata_Icon : string;
  metadata_DailyCost : Z;
  metadata_Items : list metadataItem;
}.

(** [mapstructure.Decode] *)
Class Mapstructure := {
  decode_agent : gmap string json → res agentAttributes;
  decode_app : gmap string json → res agentAppAttributes;
  decode_metadata : gmap string json → res metadataAttributes;
}.

(** [attributes[key].(string)] *)
Definition string_attribute (r : StateResource) (key : string) : option string :=
  match r.(StateResource_AttributeValues) !! key with Some (JString s) => Some s | _ => None end.

(** [if err != nil { return nil, xerrors.Errorf("msg: %w", err) }] *)
Definition wrap_res {A} (msg : string) (r : res A) : res A :=
  match r with Err e => Err (ErrWrap msg e) | r => r end.

(** A loop whose body may return an error. *)
Fixpoint loop {A B} (body : B → A → res B) (l : list A) (b : B) : res B :=
  match l with
  | [] => Ok b
  | a :: l => b ← body b a; loop body l b
  end.

(** ** Labels *)

Definition convertAddressToLabel (address : string) : string := hd EmptyString (Split address "["%char).

(** [tfResourceByLabel] and [resourceLabelByID] *)
Record tf_index := mkTfIndex {
  tfResourceByLabel : gmap string StateResource;
  resourceLabelByID : gmap string string;
}.

Definition index_resource (i : tf_index) (resource : StateResource) : tf_index :=
  let label := convertAddressToLabel resource.(StateResource_Address) in
  mkTfIndex (<[label := resource]> i.(tfResourceByLabel))
    (match string_attribute resource "id" with
     | Some idString => <[idString := label]> i.(resourceLabelByID)
     | None => i.(resourceLabelByID)
     end).
Fixpoint findTerraformResources (module : StateModule) (i : tf_index) {struct module} : tf_index :=
  match module with
  | mkStateModule resources children =>
      fold_left index_resource resources (fold_left (λ i child, findTerraformResources child i) children i)
  end.

(** ** The graph *)

Record graphResource := mkGraphResource { graph_Label : string; graph_Depth : nat }.
#[global] Instance graphResource_eq_dec : EqDecision graphResource.
Proof. solve_decision. Defined.

Section convert.
Context `{!MapOrder, !Mapstructure}.

(** [strings.Trim(node.Attrs["label"], ...)]: the label of a node is quoted. *)
Definition node_label (node : graph_Node) : string := trim_quotes (default EmptyString (node.(Node_Attrs) !! "label")).

Definition find_node (at_ : list string) (graph : Graph) (label : string) : option graph_Node :=
  snd <$> list_find (λ node, node_label node = label) (snd <$> map_range at_ graph.(Nodes_Lookup)).

Definition mapping (up : bool) (graph : Graph) : gmap string (gmap string ()) :=
  if up then graph.(DstToSrcs) else graph.(SrcToDsts).

(** The resource of a node that something can be attached to. *)
Definition found_resource (byLabel : gmap string StateResource) (node : graph_Node) : option string :=
  destinationLabel ← node.(Node_Attrs) !! "label";
  let destinationLabel := trim_quotes destinationLabel in
  resource ← byLabel !! destinationLabel;
  if resource.(StateResource_Mode) != ManagedResourceMode then None
  else if HasPrefix resource.(StateResource_Type) "coder_" then None
  else Some destinationLabel.

(** [fuel] is what the stack has room for: the recursion ends by itself only in a graph
    without cycles. A node that is not in the graph is a nil pointer. *)
Fixpoint findResourcesInGraph (fuel : nat) (at_ : list string) (graph : Graph) (byLabel : gmap string StateResource)
    (nodeName : string) (currentDepth : nat) (up : bool) : res (list graphResource) :=
  match fuel with
  | O => Panic "stack overflow"
  | S fuel =>
      loop (λ graphResources (destination : string * ()),
        match graph.(Nodes_Lookup) !! destination.1 with
        | None => Panic "nil pointer dereference"
        | Some destinationNode =>
            above ← findResourcesInGraph fuel (nodeName :: at_) graph byLabel destinationNode.(Node_Name) (S currentDepth) up;
            Ok (graphResources ++ above ++
                match found_resource byLabel destinationNode with
                | Some label => [mkGraphResource label currentDepth]
                | None => []
                end)
        end) (map_range (nodeName :: at_) (default ∅ (mapping up graph !! nodeName))) []
  end.

(** The nearest resource, the first by label of those. *)
Definition nearer (a : option graphResource) (resource : graphResource) : option graphResource :=
  match a with
  | None => Some resource
  | Some best =>
      if (resource.(graph_Depth) <? best.(graph_Depth))%nat then Some resource
      else if (resource.(graph_Depth) =? best.(graph_Depth))%nat && string_lt resource.(graph_Label) best.(graph_Label)
      then Some resource
      else Some best
  end.
Definition closest (l : list graphResource) : option graphResource := foldl nearer None l.

(** ** Agents *)

Definition tf_agent_of (tfResource : StateResource) (attrs : agentAttributes) : proto_Agent := {|
  Agent_Id := attrs.(agent_ID);
  Agent_Name := tfResource.(StateResource_Name);
  Agent_Env := attrs.(agent_Env);
  Agent_StartupScript := attrs.(agent_StartupScript);
  Agent_OperatingSystem := attrs.(agent_OperatingSystem);
  Agent_Architecture := attrs.(agent_Architecture);
  Agent_Directory := attrs.(agent_Directory);
  Agent_Apps := [];
  Agent_Auth := if attrs.(agent_Auth) == "token" then Agent_Token attrs.(agent_Token) else Agent_InstanceId EmptyString;
  Agent_ConnectionTimeoutSeconds := attrs.(agent_ConnectionTimeoutSeconds);
  Agent_TroubleshootingUrl := attrs.(agent_TroubleshootingURL);
  Agent_MotdFile := attrs.(agent_MOTDFile) |}.

Abbreviation agents_map := (gmap string (list proto_Agent)) (only parsing).

Context (fuel : nat) (graph : Graph) (index : tf_index).
Abbreviation byLabel := (index.(tfResourceByLabel)) (only parsing).

Definition attach_agent (resourceAgents : agents_map) (kr : string * StateResource) : res agents_map :=
  let tfResource := kr.2 in
  if tfResource.(StateResource_Type) != "coder_agent" then Ok resourceAgents else
  attrs ← wrap_res "decode agent attributes" (decode_agent tfResource.(StateResource_AttributeValues));
  let agent := tf_agent_of tfResource attrs in
  let agentLabel := convertAddressToLabel tfResource.(StateResource_Address) in
  match find_node ["agent node"; agentLabel] graph agentLabel with
  | None => Err (ErrNew ("couldn't find node on graph: " +:+ quote agentLabel))
  | Some agentNode =>
      found ← findResourcesInGraph fuel ["agent"; agentLabel] graph byLabel agentNode.(Node_Name) 0 true;
      match closest found with
      | None => Ok resourceAgents
      | Some agentResource =>
          let label := agentResource.(graph_Label) in
          Ok (<[label := default [] (resourceAgents !! label) ++ [agent]]> resourceAgents)
      end
  end.

(** The first agent of a list with the ID gets the instance. *)
Fixpoint set_instance (agentID instanceID : string) (agents : list proto_Agent) : list proto_Agent :=
  match agents with
  | [] => []
  | agent :: agents =>
      if agent.(Agent_Id) != agentID then agent :: set_instance agentID instanceID agents
      else agent <| Agent_Auth := Agent_InstanceId instanceID |> :: agents
  end.

(** Each list of agents is visited once, and only changed on that visit. *)
Definition associate_instance (resourceAgents : agents_map) (kr : string * StateResource) : agents_map :=
  let resource := kr.2 in
  if resource.(StateResource_Type) != "coder_agent_instance" then resourceAgents else
  match string_attribute resource "agent_id", string_attribute resource "instance_id" with
  | Some agentID, Some instanceID => set_instance agentID instanceID <$> resourceAgents
  | _, _ => resourceAgents
  end.

(** ** Applications *)

Definition app_defaults (resource : StateResource) (attrs : agentAppAttributes) : agentAppAttributes :=
  let attrs := if attrs.(app_Slug) == EmptyString then attrs <| app_Slug := resource.(StateResource_Name) |> else attrs in
  if attrs.(app_DisplayName) == EmptyString
  then attrs <| app_DisplayName := if attrs.(app_Name) != EmptyString then attrs.(app_Name) else attrs.(app_Slug) |>
  else attrs.

Definition tf_sharing_level (share : string) : proto_AppSharingLevel :=
  let share := ToLower share in
  if share == "owner" then AppSharingLevel_OWNER
  else if share == "authenticated" then AppSharingLevel_AUTHENTICATED
  else if share == "public" then AppSharingLevel_PUBLIC
  else AppSharingLevel_OWNER.

Definition app_of (attrs : agentAppAttributes) : proto_App := {|
  App_Slug := attrs.(app_Slug);
  App_DisplayName := attrs.(app_DisplayName);
  App_Command := attrs.(app_Command);
  App_Url := attrs.(app_URL);
  App_Icon := attrs.(app_Icon);
  App_Subdomain := attrs.(app_Subdomain);
  App_Healthcheck := match attrs.(app_Healthcheck) with
                     | h :: _ => Some (mkHealthcheck h.(healthcheck_URL) h.(healthcheck_Interval) h.(healthcheck_Threshold))
                     | [] => None
                     end;
  App_SharingLevel := tf_sharing_level attrs.(app_Share) |}.

Definition give_app (agentID : string) (app : proto_App) (agent : proto_Agent) : proto_Agent :=
  if agent.(Agent_Id) != agentID then agent else agent <| Agent_Apps := agent.(Agent_Apps) ++ [app] |>.

Definition associate_app (st : gset string * agents_map) (kr : string * StateResource) : res (gset string * agents_map) :=
  let resource := kr.2 in
  let '(appSlugs, resourceAgents) := st in
  if resource.(StateResource_Type) != "coder_app" then Ok st else
  attrs ← wrap_res "decode app attributes" (decode_app resource.(StateResource_AttributeValues));
  let attrs := app_defaults resource attrs in
  let slug := attrs.(app_Slug) in
  if negb (AppSlugRegex slug) then
    Err (ErrNew ("invalid app slug " +:+ quote slug +:+ ", please update your coder/coder provider to the latest version and specify the slug property on each coder_app"))
  else if bool_decide (slug ∈ appSlugs) then
    Err (ErrNew ("duplicate app slug, they must be unique per template: " +:+ quote slug))
  else Ok ({[slug]} ∪ appSlugs, fmap (M := list) (give_app attrs.(app_AgentID) (app_of attrs)) <$> resourceAgents).

(** ** Metadata *)

Record tf_metadata := mkTfMetadata {
  resourceMetadata : gmap string (list proto_Metadata);
  resourceHidden : gmap string bool;
  resourceIcon : gmap string string;
  resourceCost : gmap string Z;
}.

(** The label of the resource a block is about; in a plan, where resources have no
    ID, the closest one. [None] is [continue]. *)
Definition target_label (resource : StateResource) (attrs : metadataAttributes) : res (option string) :=
  let by_id := default EmptyString (index.(resourceLabelByID) !! attrs.(metadata_ResourceID)) in
  let known l := if l == EmptyString then None else Some l in
  if attrs.(metadata_ResourceID) == EmptyString then
    let resourceLabel := convertAddressToLabel resource.(StateResource_Address) in
    match find_node ["metadata node"; resourceLabel] graph resourceLabel with
    | None => Ok None
    | Some attachedNode =>
        found ← findResourcesInGraph fuel ["metadata"; resourceLabel] graph byLabel attachedNode.(Node_Name) 0 false;
        match closest found with
        | None => Ok None
        | Some attachedResource =>
            let label := attachedResource.(graph_Label) in
            Ok (if label == EmptyString then known by_id else Some label)
        end
    end
  else Ok (known by_id).

Definition add_metadata (label : string) (attrs : metadataAttributes) (m : tf_metadata) : tf_metadata :=
  let items := (λ item, mkMetadata item.(item_Key) item.(item_Value) item.(item_Sensitive) item.(item_IsNull)) <$> attrs.(metadata_Items) in
  {| resourceMetadata := if attrs.(metadata_Items) == [] then m.(resourceMetadata)
                         else <[label := default [] (m.(resourceMetadata) !! label) ++ items]> m.(resourceMetadata);
     resourceHidden := <[label := attrs.(metadata_Hide)]> m.(resourceHidden);
     resourceIcon := <[label := attrs.(metadata_Icon)]> m.(resourceIcon);
     resourceCost := <[label := attrs.(metadata_DailyCost)]> m.(resourceCost) |}.

Definition associate_metadata (m : tf_metadata) (kr : string * StateResource) : res tf_metadata :=
  let resource := kr.2 in
  if resource.(StateResource_Type) != "coder_metadata" then Ok m else
  attrs ← wrap_res "decode metadata attributes" (decode_metadata resource.(StateResource_AttributeValues));
  target ← target_label resource attrs;
  Ok (match target with Some label => add_metadata label attrs m | None => m end).

(** ** Resources *)

Definition instance_type_keys : gmap string string := list_to_map [
  ("google_compute_instance", "machine_type"); ("aws_instance", "instance_type");
  ("aws_spot_instance_request", "instance_type"); ("azurerm_linux_virtual_machine", "size");
  ("azurerm_windows_virtual_machine", "size")].
Definition applyInstanceType (resource : StateResource) : string :=
  default EmptyString (key ← instance_type_keys !! resource.(StateResource_Type); string_attribute resource key).

Definition instance_id_keys : gmap string string := list_to_map [
  ("google_compute_instance", "instance_id"); ("aws_instance", "id");
  ("aws_spot_instance_request", "spot_instance_id"); ("azurerm_linux_virtual_machine", "virtual_machine_id");
  ("azurerm_windows_virtual_machine", "virtual_machine_id")].
Definition automatic_instance (instanceID : string) (agent : proto_Agent) : proto_Agent :=
  if Agent_GetToken agent != EmptyString then agent
  else if Agent_GetInstanceId agent != EmptyString then agent
  else agent <| Agent_Auth := Agent_InstanceId instanceID |>.
Definition applyAutomaticInstanceID (resource : StateResource) (agents : list proto_Agent) : list proto_Agent :=
  match key ← instance_id_keys !! resource.(StateResource_Type); string_attribute resource key with
  | Some instanceID => automatic_instance instanceID <$> agents
  | None => agents
  end.

Definition coder_types : list string := ["coder_agent"; "coder_agent_instance"; "coder_app"; "coder_metadata"].
(** The resources that are not skipped. *)
Definition is_shown (resource : StateResource) : bool :=
  (resource.(StateResource_Mode) != DataResourceMode) && negb (bool_decide (resource.(StateResource_Type) ∈ coder_types)).

Definition resource_of (resourceAgents : agents_map) (m : tf_metadata) (resource : StateResource) : proto_Resource :=
  let label := convertAddressToLabel resource.(StateResource_Address) in
  {| Resource_Name := resource.(StateResource_Name);
     Resource_Type := resource.(StateResource_Type);
     Resource_Agents := applyAutomaticInstanceID resource (default [] (resourceAgents !! label));
     Resource_Metadata := default [] (m.(resourceMetadata) !! label);
     Resource_Hide := default false (m.(resourceHidden) !! label);
     Resource_Icon := default EmptyString (m.(resourceIcon) !! label);
     Resource_InstanceType := applyInstanceType resource;
     Resource_DailyCost := default 0%Z (m.(resourceCost) !! label) |}.

(** [ConvertResources] once the graph and the index are there. *)
Definition convert_indexed : res (list proto_Resource) :=
  resourceAgents ← loop attach_agent (map_range ["agents"] byLabel) ∅;
  let resourceAgents := foldl associate_instance resourceAgents (map_range ["instances"] byLabel) in
  '(_, resourceAgents) ← loop associate_app (map_range ["apps"] byLabel) (∅, resourceAgents);
  m ← loop associate_metadata (map_range ["metadata"] byLabel) (mkTfMetadata ∅ ∅ ∅ ∅);
  Ok (resource_of resourceAgents m <$> filter (λ r, is_shown r = true) (snd <$> map_range ["resources"] byLabel)).
End convert.

(** A nil module is dereferenced. *)
Definition ConvertResources `{!Graphviz, !MapOrder, !Mapstructure} (fuel : nat) (module : option StateModule)
    (rawGraph : string) : res (list proto_Resource) :=
  parsedGraph ← wrap_res "parse graph" (graph_ParseString rawGraph);
  graph ← wrap_res "analyze graph" (NewAnalysedGraph parsedGraph);
  match module with
  | None => Panic "nil pointer dereference"
  | Some module => convert_indexed fuel graph (findTerraformResources module (mkTfIndex ∅ ∅))
  end.
