(* ===== verification/TerraformProps.v ===== *)
(** * The resources of a Terraform state: properties

    Agents are attached to the nearest resource above them in the graph, whatever the
    order in which maps are visited; applications go to the agents they name; and an
    agent logs in as an instance only if that is its own. *)

From Stdlib Require Import Ascii OrderedTypeEx.
From stdpp Require Import prelude gmap strings.
From S2P Require Import Prelude Encoding Models World ProvisionerdProto ProvisionerdServer ProvisionerdProps Terraform.

(** ** Helpers *)

Lemma string_lt_trans a b c : string_lt a b = true → string_lt b c = true → string_lt a c = true.
Proof.
  assert (∀ x y, string_lt x y = true ↔ String_as_OT.lt x y) as Hlt.
  { intros x y. rewrite <- String_as_OT.cmp_lt. unfold string_lt, String.ltb, String_as_OT.cmp. by destruct (String.compare x y). }
  rewrite !Hlt. apply String_as_OT.lt_trans.
Qed.

Lemma res_bind_ok {A B} (r : res A) (k : A → res B) b : r ≫= k = Ok b → ∃ a, r = Ok a ∧ k a = Ok b.
Proof. destruct r; [eauto|done..]. Qed.
Lemma wrap_res_ok {A} msg (r : res A) a : wrap_res msg r = Ok a → r = Ok a.
Proof. by destruct r. Qed.

(** What a loop establishes, from what each round does. *)
Lemma loop_ind {A B} (P : list A → B → Prop) body l b b' :
  P [] b → (∀ done a todo b1 b2, l = done ++ a :: todo → P done b1 → body b1 a = Ok b2 → P (done ++ [a]) b2) →
  loop body l b = Ok b' → P l b'.
Proof.
  intros H0 Hstep. assert (∀ todo done b1, l = done ++ todo → P done b1 → loop body todo b1 = Ok b' → P l b') as Hgo.
  { induction todo as [|a todo IH]; intros done b1 Hl HP; simpl.
    - intros [= <-]. by rewrite Hl, app_nil_r.
    - intros (b2 & Hb2 & Hloop)%res_bind_ok. apply (IH (done ++ [a]) b2); [by rewrite <- app_assoc| |done].
      by apply (Hstep done a todo b1 b2). }
  apply (Hgo l [] b); [done..].
Qed.

Lemma omap_same {A B} (f g : A → option B) (l : list A) : (∀ x, x ∈ l → f x = g x) → omap f l = omap g l.
Proof.
  induction l as [|x l IH]; intros Hfg; [done|].
  assert (omap f l = omap g l) as Hl by (apply IH; intros y Hy; apply Hfg; by right).
  simpl. rewrite (Hfg x) by left. destruct (g x); [f_equal|]; exact Hl.
Qed.

Lemma loop_total {A B} (body : B → A → res B) l b :
  (∀ a b, a ∈ l → ∃ b', body b a = Ok b') → ∃ b', loop body l b = Ok b'.
Proof.
  revert b. induction l as [|a l IH]; intros b Hbody; simpl; [by eexists|].
  destruct (Hbody a b) as [b1 Hb1]; [left|]. rewrite Hb1. apply IH. intros. apply Hbody. by right.
Qed.
Lemma loop_no_panic {A B} (body : B → A → res B) l b p :
  (∀ a b p, a ∈ l → body b a ≠ Panic p) → loop body l b ≠ Panic p.
Proof.
  revert b. induction l as [|a l IH]; intros b Hbody; simpl; [done|].
  destruct (body b a) as [b1|e|p1] eqn:Hb1; simpl; [|done|by destruct (Hbody a b p1 ltac:(left))].
  apply IH. intros. apply Hbody. by right.
Qed.

(** ** The nearest resource *)

(** One resource is not behind another. *)
Definition no_worse (x y : graphResource) : Prop :=
  (x.(graph_Depth) < y.(graph_Depth))%nat ∨
  x.(graph_Depth) = y.(graph_Depth) ∧ string_lt y.(graph_Label) x.(graph_Label) = false.

Lemma string_lt_irrefl a : string_lt a a = false.
Proof.
  destruct (string_lt a a) eqn:H; [|done]. unfold string_lt, String.ltb in H.
  destruct (String.compare a a) eqn:Hc; try done. pose proof (String.compare_antisym a a) as Ha. by rewrite Hc in Ha.
Qed.

Lemma closest_spec l :
  match closest l with
  | Some x => x ∈ l ∧ ∀ y, y ∈ l → no_worse x y
  | None => l = []
  end.
Proof.
  unfold closest. induction l as [|y l IH] using rev_ind; [done|]. rewrite foldl_snoc.
  destruct (foldl nearer None l) as [x|]; simpl; unfold no_worse in *; [|subst l; split; [set_solver|]].
  - destruct IH as [Hx Hbest].
    destruct (Nat.ltb_spec y.(graph_Depth) x.(graph_Depth)) as [Hlt|Hge]; [|destruct (Nat.eqb_spec y.(graph_Depth) x.(graph_Depth)) as [Heq|Hne]; simpl; [destruct (string_lt y.(graph_Label) x.(graph_Label)) eqn:Hs|]].
    + split; [set_solver|]. intros z [Hz%Hbest|Hz%list_elem_of_singleton]%elem_of_app; [lia|]. subst z. right. split; [done|apply string_lt_irrefl].
    + split; [set_solver|]. intros z [Hz%Hbest|Hz%list_elem_of_singleton]%elem_of_app; [|subst z; right; split; [done|apply string_lt_irrefl]].
      destruct Hz as [?|[? Hzx]]; [left; lia|right]. split; [lia|].
      destruct (string_lt z.(graph_Label) y.(graph_Label)) eqn:Hzy; [|done].
      by rewrite (string_lt_trans _ _ _ Hzy Hs) in Hzx.
    + split; [set_solver|]. intros z [Hz%Hbest|Hz%list_elem_of_singleton]%elem_of_app; [done|]. subst z. right. split; [lia|done].
    + split; [set_solver|]. intros z [Hz%Hbest|Hz%list_elem_of_singleton]%elem_of_app; [done|]. subst z. left. lia.
  - intros z Hz%list_elem_of_singleton. subst z. right. split; [done|apply string_lt_irrefl].
Qed.

Section graph.
Context `{!MapOrder, !MapOrderLaws}.
Context (up : bool) (graph : Graph) (byLabel : gmap string StateResource).

(** There is an edge from the node of a name to a node. *)
Definition edge (n : string) (node : graph_Node) : Prop :=
  ∃ d, is_Some (default ∅ (mapping up graph !! n) !! d) ∧ graph.(Nodes_Lookup) !! d = Some node.

(** Following edges from a node, the resource of a label comes after so many others. *)
Inductive reaches : string → nat → string → Prop :=
| reaches_here n node l : edge n node → found_resource byLabel node = Some l → reaches n 0 l
| reaches_next n node k l : edge n node → reaches node.(Node_Name) k l → reaches n (S k) l.

Lemma range_edge at_ n d :
  d ∈ map_range at_ (default ∅ (mapping up graph !! n)) ↔ default ∅ (mapping up graph !! n) !! d.1 = Some tt.
Proof. rewrite (map_range_perm at_). destruct d as [d []]. by rewrite elem_of_map_to_list. Qed.

(** The search finds exactly the resources that can be reached. *)
Lemma find_exact fuel at_ n depth l :
  findResourcesInGraph fuel at_ graph byLabel n depth up = Ok l →
  ∀ x, x ∈ l ↔ ∃ k, x.(graph_Depth) = (depth + k)%nat ∧ reaches n k x.(graph_Label).
Proof.
  revert at_ n depth l. induction fuel as [|fuel IH]; [done|]. intros at_ n depth l. simpl. intros Hloop.
  assert (∀ x, x ∈ l ↔ ∃ d node k, d ∈ map_range (n :: at_) (default ∅ (mapping up graph !! n)) ∧
      graph.(Nodes_Lookup) !! d.1 = Some node ∧ x.(graph_Depth) = (depth + k)%nat ∧
      match k with O => found_resource byLabel node = Some x.(graph_Label) | S k => reaches node.(Node_Name) k x.(graph_Label) end)
    as Hl.
  { revert Hloop. apply (loop_ind (λ done acc, ∀ x, x ∈ acc ↔ ∃ d node k, d ∈ done ∧
      graph.(Nodes_Lookup) !! d.1 = Some node ∧ x.(graph_Depth) = (depth + k)%nat ∧
      match k with O => found_resource byLabel node = Some x.(graph_Label) | S k => reaches node.(Node_Name) k x.(graph_Label) end)).
    - intros x. split; [by intros ?%elem_of_nil|]. by intros (? & ? & ? & ?%elem_of_nil & _).
    - intros done d todo acc acc' _ Hacc Hbody x. destruct (graph.(Nodes_Lookup) !! d.1) as [node|] eqn:Hnode; [|done].
      apply res_bind_ok in Hbody as (above & Habove & [= <-]). specialize (IH _ _ _ _ Habove x).
      rewrite !elem_of_app, Hacc, IH. split.
      + intros [(d' & node' & k & ? & ?)|[(k & Hk & Hr)|Hin]].
        * exists d', node', k. set_solver.
        * exists d, node, (S k). split_and!; [set_solver|done|lia|done].
        * destruct (found_resource byLabel node) as [lab|] eqn:Hf; [|by apply elem_of_nil in Hin].
          apply list_elem_of_singleton in Hin as ->. exists d, node, 0%nat. split_and!; [set_solver|done|simpl; lia|done].
      + intros (d' & node' & k & [Hd|Hd%list_elem_of_singleton]%elem_of_app & Hn & Hk & Hx); [left; by exists d', node', k|right].
        subst d'.
        rewrite Hnode in Hn. injection Hn as <-. destruct k as [|k].
        * right. rewrite Hx. apply list_elem_of_singleton. destruct x. simpl in *. f_equal. lia.
        * left. exists k. split; [lia|done]. }
  intros x. rewrite Hl. split.
  - intros (d & node & k & Hd%range_edge & Hn & Hk & Hx). exists k. split; [done|].
    assert (edge n node) as He by (exists d.1; by rewrite Hd). destruct k; [by eapply reaches_here|by eapply reaches_next].
  - intros (k & Hk & Hr). inversion Hr as [? node ? (d & [[] Hd] & Hn) Hf|? node k' ? (d & [[] Hd] & Hn) Hr']; subst;
      exists (d, ()), node; eexists; (split; [by rewrite range_edge|split; [done|split; [done|done]]]).
Qed.

(** The nearest resource of a node, if there is any; the first by label of those. *)
Definition nearest (n : string) (home : option string) : Prop :=
  match home with
  | Some l => ∃ k, reaches n k l ∧ ∀ k' l', reaches n k' l' → (k < k')%nat ∨ k = k' ∧ string_lt l' l = false
  | None => ∀ k l, ¬ reaches n k l
  end.

Lemma closest_nearest fuel at_ n found :
  findResourcesInGraph fuel at_ graph byLabel n 0 up = Ok found → nearest n (graph_Label <$> closest found).
Proof.
  intros Hfind. pose proof (find_exact _ _ _ _ _ Hfind) as Hexact. pose proof (closest_spec found) as Hc.
  destruct (closest found) as [x|]; simpl in *.
  - destruct Hc as [Hx Hbest]. apply Hexact in Hx as (k & Hk & Hr). exists k. split; [done|]. intros k' l' Hr'.
    destruct (Hbest (mkGraphResource l' k')) as [?|[? ?]]; [apply Hexact; by exists k'|simpl in *; lia|right].
    split; [simpl in *; lia|done].
  - subst found. intros k l Hr. assert (mkGraphResource l k ∈ []) as Hin by (apply Hexact; by exists k).
    by apply elem_of_nil in Hin.
Qed.

(** *** Termination *)

(** Every edge ends at a node, and goes down in rank. *)
Definition acyclic (rank : string → nat) : Prop :=
  ∀ n d, is_Some (default ∅ (mapping up graph !! n) !! d) →
    ∃ node, graph.(Nodes_Lookup) !! d = Some node ∧ (rank node.(Node_Name) < rank n)%nat.

Lemma find_total rank fuel at_ n depth :
  acyclic rank → (rank n < fuel)%nat → ∃ l, findResourcesInGraph fuel at_ graph byLabel n depth up = Ok l.
Proof.
  intros Hac. revert at_ n depth. induction fuel as [|fuel IH]; intros at_ n depth Hrank; [lia|]. simpl.
  apply loop_total. intros d acc Hd%range_edge. destruct (Hac n d.1) as (node & Hn & Hlt); [by rewrite Hd|].
  destruct (IH (n :: at_) node.(Node_Name) (S depth)) as [above Habove]; [lia|]. rewrite Hn, Habove. by eexists.
Qed.
End graph.

(** ** Agents and their applications *)

Section agents.
Context `{!MapOrder, !MapOrderLaws, !Mapstructure}.
Context (fuel : nat) (graph : Graph) (index : tf_index).
Abbreviation byLabel := (index.(tfResourceByLabel)) (only parsing).

(** Every resource is found under its label. *)
Definition indexed : Prop :=
  ∀ label r, byLabel !! label = Some r → convertAddressToLabel r.(StateResource_Address) = label.

(** The agent of a resource of a state, if it is to live on the resource of a label. *)
Definition agent_at (homes : gmap string (option string)) (l : string) (kr : string * StateResource) : option proto_Agent :=
  if bool_decide (kr.2.(StateResource_Type) = "coder_agent" ∧ homes !! kr.1 = Some (Some l)) then
    match decode_agent kr.2.(StateResource_AttributeValues) with Ok attrs => Some (tf_agent_of kr.2 attrs) | _ => None end
  else None.

(** The home of an agent is the nearest resource of a node with its label. *)
Definition at_home (homes : gmap string (option string)) (label : string) (r : StateResource) : Prop :=
  r.(StateResource_Type) = "coder_agent" →
  ∃ name node home, graph.(Nodes_Lookup) !! name = Some node ∧ node_label node = label ∧
    homes !! label = Some home ∧ nearest true graph byLabel node.(Node_Name) home ∧
    is_ok (decode_agent r.(StateResource_AttributeValues)) = true.

Lemma find_node_spec at_ label node :
  find_node at_ graph label = Some node → ∃ name, graph.(Nodes_Lookup) !! name = Some node ∧ node_label node = label.
Proof.
  unfold find_node. intros ([i node'] & (Hi & Hl & _)%list_find_Some & ->)%fmap_Some. simpl in *.
  apply list_elem_of_lookup_2, list_elem_of_fmap in Hi as ([name node] & -> & Hin). rewrite (map_range_perm at_) in Hin.
  exists name. by apply elem_of_map_to_list in Hin.
Qed.

Lemma attach_agent_ok m1 label r m2 :
  r.(StateResource_Type) = "coder_agent" → convertAddressToLabel r.(StateResource_Address) = label →
  attach_agent fuel graph index m1 (label, r) = Ok m2 →
  ∃ attrs name node home, decode_agent r.(StateResource_AttributeValues) = Ok attrs ∧
    graph.(Nodes_Lookup) !! name = Some node ∧ node_label node = label ∧ nearest true graph byLabel node.(Node_Name) home ∧
    m2 = match home with Some l => <[l := default [] (m1 !! l) ++ [tf_agent_of r attrs]]> m1 | None => m1 end.
Proof.
  intros Htype Hlabel. unfold attach_agent. simpl. rewrite bool_decide_true by done. simpl. rewrite Hlabel.
  intros (attrs & Hattrs%wrap_res_ok & Hrun)%res_bind_ok.
  destruct (find_node _ graph label) as [node|] eqn:Hnode; [|done]. apply find_node_spec in Hnode as (name & Hname & Hnl).
  apply res_bind_ok in Hrun as (found & Hfind & Hrun). apply closest_nearest in Hfind.
  exists attrs, name, node, (graph_Label <$> closest found). split_and!; [done..|].
  destruct (closest found); simpl; congruence.
Qed.

Lemma agent_at_other homes label home l kr :
  kr.1 ≠ label → agent_at (<[label := home]> homes) l kr = agent_at homes l kr.
Proof. intros Hne. unfold agent_at. by rewrite lookup_insert_ne by done. Qed.
Lemma at_home_other homes label home kr :
  kr.1 ≠ label → at_home homes kr.1 kr.2 → at_home (<[label := home]> homes) kr.1 kr.2.
Proof. intros Hne. unfold at_home. by rewrite lookup_insert_ne by done. Qed.

(** Each agent is put on its home, in the order of the visit. *)
Lemma agents_attached_loop l (m : gmap string (list proto_Agent)) :
  indexed → (∀ kr, kr ∈ l → byLabel !! kr.1 = Some kr.2) → NoDup l.*1 →
  loop (attach_agent fuel graph index) l ∅ = Ok m →
  ∃ homes, (∀ kr, kr ∈ l → at_home homes kr.1 kr.2) ∧ ∀ label, default [] (m !! label) = omap (agent_at homes label) l.
Proof.
  intros Hidx Hin Hnd. apply (loop_ind (λ done (m : gmap string (list proto_Agent)), ∃ homes,
    (∀ kr, kr ∈ done → at_home homes kr.1 kr.2) ∧ (∀ label, default [] (m !! label) = omap (agent_at homes label) done))).
  { exists ∅. split; [by intros ? ?%elem_of_nil|]. intros label. by rewrite lookup_empty. }
  intros done [label r] todo m1 m2 Hl (homes & Hhome & Hm) Hbody.
  destruct (decide (r.(StateResource_Type) = "coder_agent")) as [Htype|Htype].
  - assert (∀ kr, kr ∈ done → kr.1 ≠ label) as Hnew.
    { intros kr Hkr Heq. rewrite Hl, fmap_app, fmap_cons in Hnd. apply NoDup_app in Hnd as (_ & Hdisj & _).
      apply (Hdisj label); [apply list_elem_of_fmap; by exists kr|left]. }
    apply attach_agent_ok in Hbody as (attrs & name & node & home & Hattrs & Hname & Hnl & Hnear & ->); [|done|].
    2: { apply Hidx. apply (Hin (label, r)). rewrite Hl. set_solver. }
    exists (<[label := home]> homes). split.
    + intros kr [Hkr|Hkr%list_elem_of_singleton]%elem_of_app; [by apply at_home_other; auto|]. subst kr. simpl. intros _.
      exists name, node, home. rewrite lookup_insert_eq, Hattrs. done.
    + intros l'. rewrite omap_app. simpl.
      rewrite (omap_same _ (agent_at homes l') done) by (intros; by apply agent_at_other, Hnew).
      rewrite <- Hm. unfold agent_at. simpl. rewrite lookup_insert_eq, Hattrs.
      destruct home as [h|]; [|rewrite bool_decide_false by naive_solver; by rewrite app_nil_r].
      destruct (decide (h = l')) as [->|Hne].
      * by rewrite lookup_insert_eq, bool_decide_true by done.
      * by rewrite lookup_insert_ne, bool_decide_false, app_nil_r by naive_solver.
  - unfold attach_agent in Hbody. simpl in Hbody. rewrite bool_decide_false in Hbody by done. injection Hbody as <-.
    exists homes. split.
    + intros kr [Hkr|Hkr%list_elem_of_singleton]%elem_of_app; [auto|]. subst kr. by intros ?.
    + intros l'. rewrite omap_app, Hm. simpl. replace (agent_at homes l' (label, r)) with (@None proto_Agent); [by rewrite app_nil_r|].
      unfold agent_at. by rewrite bool_decide_false by naive_solver.
Qed.

(** *** Instances *)

(** A resource of the state associates the agents of an ID with an instance. *)
Definition manual (agentID instanceID : string) : Prop :=
  ∃ label inst, byLabel !! label = Some inst ∧ inst.(StateResource_Type) = "coder_agent_instance" ∧
    string_attribute inst "agent_id" = Some agentID ∧ string_attribute inst "instance_id" = Some instanceID.
Definition reauth (a a' : proto_Agent) : Prop :=
  ∃ auth, a' = a <| Agent_Auth := auth |> ∧ (auth = a.(Agent_Auth) ∨ ∃ i, manual a.(Agent_Id) i ∧ auth = Agent_InstanceId i).

#[local] Instance reauth_refl : Reflexive reauth.
Proof. intros a. exists a.(Agent_Auth). split; [by destruct a|by left]. Qed.
#[local] Instance reauth_trans : Transitive reauth.
Proof. intros a b c (x & -> & Hx) (y & -> & Hy). exists y. split; [done|]. simpl in Hy. destruct Hy as [->|?]; auto. Qed.

Lemma set_instance_reauth agentID instanceID agents :
  manual agentID instanceID → Forall2 reauth agents (set_instance agentID instanceID agents).
Proof.
  intros Hm. induction agents as [|a agents IH]; simpl; [constructor|]. case_bool_decide as Hid; simpl; [|by constructor].
  constructor; [|by apply Forall_Forall2_diag, Forall_true]. exists (Agent_InstanceId instanceID).
  split; [done|]. right. exists instanceID. by rewrite Hid.
Qed.

Lemma instances_reauth l (m : gmap string (list proto_Agent)) label :
  (∀ kr, kr ∈ l → byLabel !! kr.1 = Some kr.2) →
  Forall2 reauth (default [] (m !! label)) (default [] (foldl associate_instance m l !! label)).
Proof.
  revert m. induction l as [|[k r] l IH]; intros m Hin; simpl; [by apply Forall_Forall2_diag, Forall_true|].
  etrans; [|apply IH; intros; apply Hin; by right]. unfold associate_instance. simpl.
  case_bool_decide as Htype; simpl; [|by apply Forall_Forall2_diag, Forall_true].
  destruct (string_attribute r "agent_id") as [agentID|] eqn:Ha; [|by apply Forall_Forall2_diag, Forall_true].
  destruct (string_attribute r "instance_id") as [instanceID|] eqn:Hi; [|by apply Forall_Forall2_diag, Forall_true].
  rewrite lookup_fmap. destruct (m !! label); simpl; [|constructor]. apply set_instance_reauth.
  exists k, r. split; [apply (Hin (k, r)); left|done].
Qed.

(** *** Applications *)

(** The application of a resource of a state, and the ID of its agent. *)
Definition app_in (kr : string * StateResource) : option (string * proto_App) :=
  if bool_decide (kr.2.(StateResource_Type) = "coder_app") then
    match decode_app kr.2.(StateResource_AttributeValues) with
    | Ok attrs => Some (attrs.(app_AgentID), app_of (app_defaults kr.2 attrs))
    | _ => None
    end
  else None.
Definition apps_in (l : list (string * StateResource)) : list (string * proto_App) := omap app_in l.
Definition slugs_in (l : list (string * StateResource)) : list string := (λ p, p.2.(App_Slug)) <$> apps_in l.
Definition apps_for (id : string) (l : list (string * StateResource)) : list proto_App :=
  snd <$> filter (λ p, p.1 = id) (apps_in l).
Definition with_apps (l : list (string * StateResource)) (a : proto_Agent) : proto_Agent :=
  a <| Agent_Apps := a.(Agent_Apps) ++ apps_for a.(Agent_Id) l |>.
Definition on_agents (f : proto_Agent → proto_Agent) (m : gmap string (list proto_Agent)) : gmap string (list proto_Agent) :=
  fmap (M := list) f <$> m.

Lemma on_agents_ext f g m : (∀ a, f a = g a) → on_agents f m = on_agents g m.
Proof. intros Hfg. apply map_fmap_ext. intros i agents _. apply list_fmap_ext. intros j a _. apply Hfg. Qed.
Lemma on_agents_id m : on_agents id m = m.
Proof. unfold on_agents. rewrite <- (map_fmap_id m) at 2. apply map_fmap_ext. intros i agents _. apply list_fmap_id. Qed.
Lemma on_agents_compose f g m : on_agents f (on_agents g m) = on_agents (f ∘ g) m.
Proof.
  unfold on_agents. rewrite <- map_fmap_compose. apply map_fmap_ext. intros i agents _. simpl. by rewrite list_fmap_compose.
Qed.

Lemma app_defaults_id r attrs : (app_defaults r attrs).(app_AgentID) = attrs.(app_AgentID).
Proof. unfold app_defaults. by repeat case_bool_decide. Qed.

(** What a round of the loop does. *)
Lemma associate_app_ok slugs m kr st :
  associate_app (slugs, m) kr = Ok st →
  match app_in kr with
  | Some (id, app) => AppSlugRegex app.(App_Slug) = true ∧ (app.(App_Slug) ∉ slugs) ∧
      st = ({[app.(App_Slug)]} ∪ slugs, on_agents (give_app id app) m)
  | None => st = (slugs, m)
  end.
Proof.
  unfold associate_app, app_in. case_bool_decide as Htype; simpl; [|congruence].
  intros (attrs & ->%wrap_res_ok & Hrun)%res_bind_ok. revert Hrun. rewrite app_defaults_id. simpl.
  destruct (AppSlugRegex _) eqn:Hre; simpl; [|done]. case_bool_decide; [done|]. intros [= <-]. done.
Qed.

Lemma apps_in_app l1 l2 : apps_in (l1 ++ l2) = apps_in l1 ++ apps_in l2.
Proof. apply omap_app. Qed.
Lemma with_apps_app l1 l2 a : with_apps (l1 ++ l2) a = with_apps l2 (with_apps l1 a).
Proof. unfold with_apps, apps_for. simpl. by rewrite apps_in_app, filter_app, fmap_app, app_assoc. Qed.
Lemma with_apps_nil l a : apps_in l = [] → with_apps l a = a.
Proof. intros Hl. unfold with_apps, apps_for. rewrite Hl. simpl. rewrite app_nil_r. by destruct a. Qed.
Lemma with_apps_one l id app a : apps_in l = [(id, app)] → with_apps l a = give_app id app a.
Proof.
  intros Hl. unfold with_apps, apps_for, give_app. rewrite Hl, filter_cons. simpl.
  case_decide; case_bool_decide; simpl; subst; try done. rewrite app_nil_r. by destruct a.
Qed.

Lemma apps_associated l m slugs m' :
  loop associate_app l (∅, m) = Ok (slugs, m') →
  m' = on_agents (with_apps l) m ∧ NoDup (slugs_in l) ∧ Forall (λ slug, AppSlugRegex slug = true) (slugs_in l).
Proof.
  intros Hloop. enough (m' = on_agents (with_apps l) m ∧ NoDup (slugs_in l) ∧
    Forall (λ slug, AppSlugRegex slug = true) (slugs_in l) ∧ slugs = list_to_set (slugs_in l)) by naive_solver.
  revert Hloop. apply (loop_ind (λ done (st : gset string * gmap string (list proto_Agent)),
    st.2 = on_agents (with_apps done) m ∧ NoDup (slugs_in done) ∧
    Forall (λ slug, AppSlugRegex slug = true) (slugs_in done) ∧ st.1 = list_to_set (slugs_in done))).
  { split_and!; [|constructor|constructor|done]. rewrite <- (on_agents_id m) at 1. apply on_agents_ext.
    intros a. by rewrite with_apps_nil. }
  intros done kr todo [slugs1 m1] st _ (Hm & Hnd & Hre & Hslugs) Hrun%associate_app_ok. simpl in *.
  destruct (app_in kr) as [[id app]|] eqn:Happ.
  - destruct Hrun as (Hr & Hnew & ->). assert (apps_in [kr] = [(id, app)]) as Hkr by (unfold apps_in; simpl; by rewrite Happ).
    assert (slugs_in (done ++ [kr]) = slugs_in done ++ [app.(App_Slug)]) as ->.
    { unfold slugs_in. by rewrite apps_in_app, Hkr, fmap_app. }
    split_and!.
    + change (on_agents (give_app id app) m1 = on_agents (with_apps (done ++ [kr])) m). rewrite Hm, on_agents_compose.
      apply on_agents_ext. intros a. by rewrite with_apps_app, (with_apps_one _ _ _ _ Hkr).
    + apply NoDup_app. split_and!; [done| |apply NoDup_singleton].
      intros x Hx Hx'%list_elem_of_singleton. subst x. by rewrite Hslugs, elem_of_list_to_set in Hnew.
    + apply Forall_app. by split; [|constructor].
    + rewrite list_to_set_app_L, Hslugs. simpl. set_solver.
  - subst st. assert (apps_in [kr] = []) as Hkr by (unfold apps_in; simpl; by rewrite Happ).
    assert (slugs_in (done ++ [kr]) = slugs_in done) as -> by (unfold slugs_in; by rewrite apps_in_app, Hkr, app_nil_r).
    split_and!; try done. simpl. rewrite Hm. apply on_agents_ext. intros a. by rewrite with_apps_app, (with_apps_nil _ _ Hkr).
Qed.

(** *** Metadata *)

(** A block of the state is about the resource of a label. *)
Definition block_about (l : list (string * StateResource)) (label : string) (attrs : metadataAttributes) : Prop :=
  ∃ kr, kr ∈ l ∧ kr.2.(StateResource_Type) = "coder_metadata" ∧
    decode_metadata kr.2.(StateResource_AttributeValues) = Ok attrs ∧ target_label fuel graph index kr.2 attrs = Ok (Some label).
Definition shown_item (item : metadataItem) : proto_Metadata :=
  mkMetadata item.(item_Key) item.(item_Value) item.(item_Sensitive) item.(item_IsNull).

Definition described (l : list (string * StateResource)) (m : tf_metadata) : Prop := ∀ label,
  (∀ item, item ∈ default [] (m.(resourceMetadata) !! label) ↔
     ∃ attrs, block_about l label attrs ∧ item ∈ shown_item <$> attrs.(metadata_Items)) ∧
  ((∀ attrs, ¬ block_about l label attrs) ∧ m.(resourceHidden) !! label = None ∧ m.(resourceIcon) !! label = None ∧
     m.(resourceCost) !! label = None ∨
   ∃ attrs, block_about l label attrs ∧ m.(resourceHidden) !! label = Some attrs.(metadata_Hide) ∧
     m.(resourceIcon) !! label = Some attrs.(metadata_Icon) ∧ m.(resourceCost) !! label = Some attrs.(metadata_DailyCost)).

Lemma block_about_app l kr label attrs :
  block_about (l ++ [kr]) label attrs ↔ block_about l label attrs ∨ block_about [kr] label attrs.
Proof. unfold block_about. setoid_rewrite elem_of_app. naive_solver. Qed.

(** A block leaves the other resources alone. *)
Lemma described_same l kr m :
  described l m → (∀ label attrs, ¬ block_about [kr] label attrs) → described (l ++ [kr]) m.
Proof.
  intros Hd Hno label. destruct (Hd label) as [Hitems Hrest]. setoid_rewrite block_about_app. split.
  - intros item. rewrite Hitems. naive_solver.
  - naive_solver.
Qed.
Lemma described_add l kr m label attrs :
  described l m → (∀ label' attrs', block_about [kr] label' attrs' ↔ label' = label ∧ attrs' = attrs) →
  described (l ++ [kr]) (add_metadata label attrs m).
Proof.
  intros Hd Hkr label'. destruct (Hd label') as [Hitems Hrest]. setoid_rewrite block_about_app. setoid_rewrite Hkr.
  unfold add_metadata. simpl. destruct (decide (label = label')) as [<-|Hne].
  - split; [|right; exists attrs; rewrite !lookup_insert_eq; naive_solver].
    intros item. case_bool_decide as Hnil.
    + rewrite Hitems. split; [naive_solver|]. intros (a & [Ha|[_ ->]] & Hin); [by exists a|].
      rewrite Hnil in Hin. by apply elem_of_nil in Hin.
    + rewrite lookup_insert_eq. simpl. rewrite elem_of_app, Hitems. naive_solver.
  - rewrite !lookup_insert_ne by done. split; [|naive_solver].
    intros item. case_bool_decide; rewrite ?lookup_insert_ne by done; rewrite Hitems; naive_solver.
Qed.

Lemma metadata_described l m :
  loop (associate_metadata fuel graph index) l (mkTfMetadata ∅ ∅ ∅ ∅) = Ok m → described l m.
Proof.
  apply (loop_ind described).
  { intros label. assert (∀ attrs, ¬ block_about [] label attrs) as Hno by (intros attrs (kr & ?%elem_of_nil & _); done).
    simpl. rewrite !lookup_empty. split; [|left; naive_solver]. intros item. split; [by intros ?%elem_of_nil|naive_solver]. }
  intros done kr todo m1 m2 _ Hd. unfold associate_metadata. case_bool_decide as Htype; simpl.
  - intros (attrs & Hattrs%wrap_res_ok & (target & Htarget & [= <-])%res_bind_ok)%res_bind_ok. destruct target as [label|].
    + apply described_add; [done|]. intros label' attrs'. split.
      * intros (kr' & Hin%list_elem_of_singleton & _ & Ha & Ht). subst kr'. rewrite Ha in Hattrs. simplify_eq. by rewrite Ht in Htarget; simplify_eq.
      * intros [-> ->]. exists kr. split; [left|done].
    + apply described_same; [done|]. intros label' attrs' (kr' & Hin%list_elem_of_singleton & _ & Ha & Ht).
      subst kr'. rewrite Ha in Hattrs. simplify_eq. congruence.
  - intros [= <-]. apply described_same; [done|]. intros label' attrs' (kr' & Hin%list_elem_of_singleton & ? & _). by subst kr'.
Qed.

(** *** The whole *)

(** The instance a resource is, if it is of a type that has one. *)
Definition own_instance (r : StateResource) : option string :=
  key ← instance_id_keys !! r.(StateResource_Type); string_attribute r key.

(** An agent on a resource: it has its applications, and its authentication is the one
    the state says, an instance it was associated with, or the instance it lives on. *)
Definition settled (r : StateResource) (a a' : proto_Agent) : Prop :=
  ∃ apps auth, a' = a <| Agent_Apps := apps |> <| Agent_Auth := auth |> ∧
    apps ≡ₚ apps_for a.(Agent_Id) (map_to_list byLabel) ∧
    (auth = a.(Agent_Auth) ∨ ∃ i, auth = Agent_InstanceId i ∧
      (manual a.(Agent_Id) i ∨ own_instance r = Some i ∧ (Agent_GetToken a = EmptyString ∨ ∃ j, manual a.(Agent_Id) j))).

Lemma range_perm_apps at_ id : apps_for id (map_range at_ byLabel) ≡ₚ apps_for id (map_to_list byLabel).
Proof. unfold apps_for, apps_in. by rewrite (map_range_perm at_). Qed.

Lemma agent_settled r a a1 a2 at_ :
  a.(Agent_Apps) = [] → reauth a a1 → a2 = with_apps (map_range at_ byLabel) a1 →
  settled r a a2 ∧ ∀ i, own_instance r = Some i → settled r a (automatic_instance i a2).
Proof.
  intros Hnil (auth & -> & Hauth) ->. unfold with_apps. simpl. rewrite Hnil. simpl. split.
  - exists (apps_for a.(Agent_Id) (map_range at_ byLabel)), auth. split_and!; [done|apply range_perm_apps|naive_solver].
  - intros i Hi. unfold automatic_instance. destruct (negb _) eqn:Htok;
      [|destruct (negb _) in |- *]; simpl.
    + exists (apps_for a.(Agent_Id) (map_range at_ byLabel)), auth. split_and!; [done|apply range_perm_apps|naive_solver].
    + exists (apps_for a.(Agent_Id) (map_range at_ byLabel)), auth. split_and!; [done|apply range_perm_apps|naive_solver].
    + exists (apps_for a.(Agent_Id) (map_range at_ byLabel)), (Agent_InstanceId i).
      split_and!; [done|apply range_perm_apps|]. right. exists i. split; [done|right]. split; [done|].
      destruct Hauth as [->|(j & Hj & ->)]; [left|right; by exists j].
      apply negb_false_iff, bool_decide_eq_true in Htok. done.
Qed.

Lemma agents_of_resource homes (m0 m1 : gmap string (list proto_Agent)) at_ r label agents :
  default [] (m0 !! label) = omap (agent_at homes label) agents →
  Forall2 reauth (default [] (m0 !! label)) (default [] (m1 !! label)) →
  Forall2 (settled r) (omap (agent_at homes label) agents)
    (applyAutomaticInstanceID r (default [] (on_agents (with_apps (map_range at_ byLabel)) m1 !! label))).
Proof.
  intros Hm0 Hre. assert (default [] (on_agents (with_apps (map_range at_ byLabel)) m1 !! label)
    = with_apps (map_range at_ byLabel) <$> default [] (m1 !! label)) as ->.
  { unfold on_agents. rewrite lookup_fmap. by destruct (m1 !! label). }
  rewrite Hm0 in Hre. assert (Forall (λ a, a.(Agent_Apps) = []) (omap (agent_at homes label) agents)) as Hnil.
  { apply Forall_forall. intros a (kr & _ & Hkr)%list_elem_of_omap. unfold agent_at in Hkr. repeat case_match; simplify_eq. done. }
  unfold applyAutomaticInstanceID. change (_ ≫= _) with (own_instance r).
  assert (Forall2 (λ a a1, a.(Agent_Apps) = [] ∧ reauth a a1) (omap (agent_at homes label) agents) (default [] (m1 !! label))) as Hboth.
  { clear Hm0. induction Hre; constructor; apply Forall_cons in Hnil as []; auto. }
  destruct (own_instance r) as [i|] eqn:Hown; rewrite !Forall2_fmap_r; (eapply Forall2_impl; [exact Hboth|]);
    intros a a1 [Ha Ha1]; by apply (agent_settled r a a1 _ at_ Ha Ha1 eq_refl).
Qed.
End agents.

(** ** The index *)

(** All resources, those of the modules inside first. *)
Fixpoint all_resources (module : StateModule) : list StateResource :=
  match module with
  | mkStateModule resources children => fold_right (λ child l, all_resources child ++ l) [] children ++ resources
  end.
Definition resource_label (r : StateResource) : string := convertAddressToLabel r.(StateResource_Address).

Lemma findTerraformResources_flat module i :
  findTerraformResources module i = fold_left index_resource (all_resources module) i.
Proof.
  revert module i. fix IH 1. intros [resources children] i. cbn [findTerraformResources all_resources].
  rewrite fold_left_app. f_equal. revert i. induction children as [|child children IHc]; intros i; [done|].
  cbn [fold_left fold_right]. rewrite fold_left_app, <- IH. apply IHc.
Qed.

(** A label stands for the last resource that has it. *)
Lemma index_lookup module label :
  (findTerraformResources module (mkTfIndex ∅ ∅)).(tfResourceByLabel) !! label =
  last (filter (λ r, resource_label r = label) (all_resources module)).
Proof.
  rewrite findTerraformResources_flat. generalize (all_resources module). intros l.
  induction l as [|r l IH] using rev_ind; [apply lookup_empty|].
  rewrite fold_left_app, filter_app, filter_cons. cbn [fold_left]. unfold index_resource at 1. cbn [tfResourceByLabel].
  fold (resource_label r). case_decide as Hl.
  - rewrite Hl, lookup_insert_eq, filter_nil. by rewrite last_snoc.
  - rewrite lookup_insert_ne by done. by rewrite filter_nil, app_nil_r.
Qed.

(** Where no two resources share a label the index has them all. *)
Lemma index_all module :
  NoDup (resource_label <$> all_resources module) →
  (map_to_list (findTerraformResources module (mkTfIndex ∅ ∅)).(tfResourceByLabel)).*2 ≡ₚ all_resources module.
Proof.
  rewrite findTerraformResources_flat. generalize (all_resources module). intros l Hnd.
  assert (map_to_list (fold_left index_resource l (mkTfIndex ∅ ∅)).(tfResourceByLabel)
    ≡ₚ (λ r, (resource_label r, r)) <$> l) as Hp; [|by rewrite Hp, <-list_fmap_compose, list_fmap_id].
  induction l as [|r l IH] using rev_ind; [done|].
  rewrite fmap_app in Hnd. apply NoDup_app in Hnd as (Hnd & Hfresh & _). specialize (IH Hnd).
  rewrite fold_left_app, fmap_app. cbn [fold_left]. unfold index_resource at 1. cbn [tfResourceByLabel].
  fold (resource_label r). rewrite map_to_list_insert.
  - by rewrite IH, Permutation_app_comm.
  - apply eq_None_not_Some. intros [x Hx]. apply elem_of_map_to_list in Hx. rewrite IH in Hx.
    apply list_elem_of_fmap in Hx as (y & [= Heq ->] & Hy). apply (Hfresh (resource_label r)); [|left].
    rewrite Heq. by apply list_elem_of_fmap_2.
Qed.

Lemma index_indexed module : indexed (findTerraformResources module (mkTfIndex ∅ ∅)).
Proof.
  intros label r. rewrite index_lookup. intros Hr%last_Some_elem_of. by apply list_elem_of_filter in Hr as [? _].
Qed.

(** ** The conversion *)

Section convert.
Context `{!Graphviz, !MapOrder, !MapOrderLaws, !Mapstructure}.

Definition shows_metadata (fuel : nat) (graph : Graph) (index : tf_index) (label : string) (res : proto_Resource) : Prop :=
  let about := block_about fuel graph index (map_to_list index.(tfResourceByLabel)) label in
  (∀ item, item ∈ res.(Resource_Metadata) ↔ ∃ attrs, about attrs ∧ item ∈ shown_item <$> attrs.(metadata_Items)) ∧
  ((∀ attrs, ¬ about attrs) ∧ res.(Resource_Hide) = false ∧ res.(Resource_Icon) = EmptyString ∧ res.(Resource_DailyCost) = 0%Z ∨
   ∃ attrs, about attrs ∧ res.(Resource_Hide) = attrs.(metadata_Hide) ∧ res.(Resource_Icon) = attrs.(metadata_Icon) ∧
     res.(Resource_DailyCost) = attrs.(metadata_DailyCost)).

Lemma shows_described fuel graph index at_ agents m r :
  described fuel graph index (map_range at_ index.(tfResourceByLabel)) m →
  shows_metadata fuel graph index (resource_label r) (resource_of agents m r).
Proof.
  intros Hd. assert (∀ attrs, block_about fuel graph index (map_range at_ index.(tfResourceByLabel)) (resource_label r) attrs ↔
    block_about fuel graph index (map_to_list index.(tfResourceByLabel)) (resource_label r) attrs) as Hiff.
  { intros attrs. unfold block_about. by setoid_rewrite (map_range_perm at_). }
  destruct (Hd (resource_label r)) as [Hitems Hrest]. setoid_rewrite Hiff in Hitems. setoid_rewrite Hiff in Hrest.
  split; [exact Hitems|]. unfold resource_of. simpl. fold (resource_label r).
  destruct Hrest as [(Hno & -> & -> & ->)|(attrs & Ha & -> & -> & ->)]; [by left|right; by exists attrs].
Qed.

(** C26: What converting a Terraform state shows, whatever the order in which maps are
    visited. Resources go by their label, the address without its index, and of those
    that share a label, as the ones of a count do, the last stands for all; where no two
    share one, these are all resources of the state. Each resource that so stands for its
    label and is neither a data source nor of one of the [coder_agent], [coder_agent_instance],
    [coder_app] and [coder_metadata] types is shown once. An agent, of those that stand
    for their label, is put on the nearest resource above it in the graph and on no other;
    one with no resource above it is left out. It has just the applications that name
    its ID, and it logs in with its token, or as an instance the state associates it with
    or it lives on. The metadata items of a resource are those of the blocks about it; its
    cost, icon and visibility are those of one of these blocks. The slugs of applications
    are valid and differ. *)
Theorem resources_converted fuel module raw rs :
  ConvertResources fuel (Some module) raw = Ok rs →
  let index := findTerraformResources module (mkTfIndex ∅ ∅) in
  let state := map_to_list index.(tfResourceByLabel) in
  ∃ graph homes shown,
    graph_ParseString raw ≫= NewAnalysedGraph = Ok graph ∧
    (∀ kr, kr ∈ state → at_home graph index homes kr.1 kr.2) ∧
    (∀ label r, (label, r) ∈ state ↔ last (filter (λ r, resource_label r = label) (all_resources module)) = Some r) ∧
    (NoDup (resource_label <$> all_resources module) → state.*2 ≡ₚ all_resources module) ∧
    shown ≡ₚ filter (λ r, is_shown r = true) state.*2 ∧
    Forall2 (λ r res, res.(Resource_Name) = r.(StateResource_Name) ∧ res.(Resource_Type) = r.(StateResource_Type) ∧
        res.(Resource_InstanceType) = applyInstanceType r ∧ shows_metadata fuel graph index (resource_label r) res ∧
        ∃ agents, agents ≡ₚ omap (agent_at homes (resource_label r)) state ∧
          Forall2 (settled index r) agents res.(Resource_Agents)) shown rs ∧
    NoDup (slugs_in state) ∧ Forall (λ slug, AppSlugRegex slug = true) (slugs_in state).
Proof.
  unfold ConvertResources. intros (parsed & Hparsed%wrap_res_ok & (graph & Hgraph%wrap_res_ok & Hrun)%res_bind_ok)%res_bind_ok.
  simpl. set (index := findTerraformResources module _) in *. unfold convert_indexed in Hrun.
  apply res_bind_ok in Hrun as (m0 & Hm0 & ([slugs m2] & Happs & (m & Hm & [= <-])%res_bind_ok)%res_bind_ok).
  assert (∀ at_ kr, kr ∈ map_range at_ index.(tfResourceByLabel) → index.(tfResourceByLabel) !! kr.1 = Some kr.2) as Hin.
  { intros at_ [k r] Hkr. rewrite (map_range_perm at_) in Hkr. by apply elem_of_map_to_list in Hkr. }
  apply agents_attached_loop in Hm0 as (homes & Hhomes & Hm0);
    [|apply index_indexed|apply Hin|rewrite (map_range_perm _); apply NoDup_fst_map_to_list].
  apply apps_associated in Happs as (-> & Hslugs & Hvalid). apply metadata_described in Hm.
  exists graph, homes, (filter (λ r, is_shown r = true) (map_range ["resources"] index.(tfResourceByLabel)).*2).
  split_and!.
  - by rewrite Hparsed.
  - intros kr Hkr. apply Hhomes. by rewrite (map_range_perm _).
  - intros label r. unfold index. by rewrite elem_of_map_to_list, index_lookup.
  - apply index_all.
  - by rewrite (map_range_perm _).
  - rewrite Forall2_fmap_r. apply Forall_Forall2_diag, Forall_true. intros r. split_and!; [done..| |].
    + by eapply shows_described.
    + exists (omap (agent_at homes (resource_label r)) (map_range ["agents"] index.(tfResourceByLabel))).
      split; [by rewrite (map_range_perm _)|]. eapply agents_of_resource; [apply Hm0|]. apply instances_reauth, Hin.
  - unfold slugs_in, apps_in in *. by rewrite (map_range_perm _) in Hslugs.
  - unfold slugs_in, apps_in in *. by rewrite (map_range_perm _) in Hvalid.
Qed.

(** The resource a block of metadata is about: the one with its ID, or in a plan the
    nearest below it in the graph. *)
Lemma target_label_about fuel graph index r attrs label :
  target_label fuel graph index r attrs = Ok (Some label) →
  index.(resourceLabelByID) !! attrs.(metadata_ResourceID) = Some label ∨
  attrs.(metadata_ResourceID) = EmptyString ∧ ∃ name node, graph.(Nodes_Lookup) !! name = Some node ∧
    node_label node = resource_label r ∧ nearest false graph index.(tfResourceByLabel) node.(Node_Name) (Some label).
Proof.
  assert (∀ o : option string, (if default EmptyString o == EmptyString then None else Some (default EmptyString o)) = Some label →
            o = Some label) as Hknown.
  { intros [l|]; simpl; [|done]. by case_bool_decide; intros; simplify_eq. }
  unfold target_label. case_bool_decide as Hid; [|intros Hrun; left; apply Hknown; congruence].
  destruct (find_node _ graph _) as [node|] eqn:Hnode; [|done].
  apply find_node_spec in Hnode as (name & Hname & Hl). intros (found & Hfind & Hrun)%res_bind_ok.
  apply closest_nearest in Hfind. destruct (closest found) as [x|]; [|done]. simpl in *.
  case_bool_decide; [left; apply Hknown; congruence|right]. injection Hrun as <-. eauto 10.
Qed.

(** *** Termination *)

Definition graph_ok (fuel : nat) (graph : Graph) : Prop :=
  ∃ up_rank down_rank, acyclic true graph up_rank ∧ acyclic false graph down_rank ∧
    ∀ n, (up_rank n < fuel)%nat ∧ (down_rank n < fuel)%nat.
Definition decoders_return : Prop :=
  (∀ m p, decode_agent m ≠ Panic p) ∧ (∀ m p, decode_app m ≠ Panic p) ∧ (∀ m p, decode_metadata m ≠ Panic p).

Lemma bind_no_panic {A B} (r : res A) (k : A → res B) p :
  (∀ p, r ≠ Panic p) → (∀ a p, r = Ok a → k a ≠ Panic p) → r ≫= k ≠ Panic p.
Proof. intros Hr Hk. destruct r; simpl; [by apply Hk|done|by destruct (Hr msg)]. Qed.
Lemma wrap_no_panic {A} msg (r : res A) p : (∀ p, r ≠ Panic p) → wrap_res msg r ≠ Panic p.
Proof. intros Hr. destruct r; [done..|apply Hr]. Qed.

Lemma attach_no_panic fuel graph index m kr p :
  graph_ok fuel graph → decoders_return → attach_agent fuel graph index m kr ≠ Panic p.
Proof.
  intros (ru & rd & Hup & _ & Hfuel) (Hdec & _). unfold attach_agent. case_match; [done|].
  apply bind_no_panic; [intros; by apply wrap_no_panic|]. intros attrs p' _. case_match; [|done].
  destruct (find_total true graph index.(tfResourceByLabel) ru fuel ["agent"; convertAddressToLabel kr.2.(StateResource_Address)]
              g.(Node_Name) 0 Hup) as [l ->]; [apply Hfuel|]. simpl. by case_match.
Qed.
Lemma metadata_no_panic fuel graph index m kr p :
  graph_ok fuel graph → decoders_return → associate_metadata fuel graph index m kr ≠ Panic p.
Proof.
  intros (ru & rd & _ & Hdown & Hfuel) (_ & _ & Hdec). unfold associate_metadata. case_match; [done|].
  apply bind_no_panic; [intros; by apply wrap_no_panic|]. intros attrs p' _. apply bind_no_panic; [|done].
  intros p''. unfold target_label. case_match; [|done]. case_match; [|done].
  destruct (find_total false graph index.(tfResourceByLabel) rd fuel ["metadata"; convertAddressToLabel kr.2.(StateResource_Address)]
              g.(Node_Name) 0 Hdown) as [l ->]; [apply Hfuel|]. simpl. by case_match.
Qed.

(** C40: Over a graph without cycles whose edges end at its nodes, and with a stack that has room
    for its longest path, converting the resources of a state returns: with resources, or with
    an error. *)
Theorem conversion_returns fuel module raw :
  (∀ p, graph_ParseString raw ≠ Panic p) → (∀ ast p, NewAnalysedGraph ast ≠ Panic p) →
  (∀ graph, graph_ParseString raw ≫= NewAnalysedGraph = Ok graph → graph_ok fuel graph) → decoders_return →
  (∃ rs, ConvertResources fuel (Some module) raw = Ok rs) ∨ ∃ e, ConvertResources fuel (Some module) raw = Err e.
Proof.
  intros Hparse Hnew Hgraph Hdec.
  enough (∀ p, ConvertResources fuel (Some module) raw ≠ Panic p) as Hno.
  { destruct (ConvertResources fuel (Some module) raw) as [rs|e|p]; [by left; eexists|by right; eexists|by destruct (Hno p)]. }
  intros p. unfold ConvertResources.
  apply bind_no_panic; [intros; by apply wrap_no_panic|]. intros ast p1 Hast%wrap_res_ok.
  apply bind_no_panic; [intros; apply wrap_no_panic, Hnew|]. intros graph p2 Hg%wrap_res_ok.
  assert (graph_ok fuel graph) as Hok by (apply Hgraph; by rewrite Hast). unfold convert_indexed.
  apply bind_no_panic; [intros; apply loop_no_panic; intros; by apply attach_no_panic|]. intros m0 p3 _.
  apply bind_no_panic; [intros; apply loop_no_panic; intros kr [slugs m1] p5 _|].
  - unfold associate_app. case_match; [done|]. apply bind_no_panic; [intros; apply wrap_no_panic, Hdec|].
    intros attrs p6 _. by repeat case_match.
  - intros [slugs m2] p4 _. apply bind_no_panic; [|done]. intros. apply loop_no_panic. intros. by apply metadata_no_panic.
Qed.
End convert.

(** ** Examples *)

Module TerraformExamples.
#[local] Existing Instances unary_uuid_text Examples.env.

(** Attributes that are all there are decoded; the others are zero. *)
Definition str (m : gmap string json) (key : string) : string :=
  match m !! key with Some (JString s) => s | _ => EmptyString end.
Definition num (m : gmap string json) (key : string) : Z := match m !! key with Some (JNumber n) => n | _ => 0%Z end.
Definition flag (m : gmap string json) (key : string) : bool := match m !! key with Some (JBool b) => b | _ => false end.
#[export] Instance attributes : Mapstructure := {|
  decode_agent m := Ok (mkAgentAttributes (str m "auth") (str m "os") (str m "arch") (str m "dir") (str m "id") (str m "token")
    None (str m "startup_script") (num m "connection_timeout") (str m "troubleshooting_url") (str m "motd_file"));
  decode_app m := Ok (mkAgentAppAttributes (str m "agent_id") (str m "slug") (str m "display_name") (str m "name") (str m "icon")
    (str m "url") (str m "command") (str m "share") (flag m "subdomain") []);
  decode_metadata m := Ok (mkMetadataAttributes (str m "resource_id") (flag m "hide") (str m "icon") (num m "daily_cost") []) |}.

(** Maps are visited in one order, or in the opposite one. *)
Definition forwards : MapOrder := λ _ A m, map_to_list m.
Definition backwards : MapOrder := λ _ A m, reverse (map_to_list m).
Lemma forwards_laws : @MapOrderLaws forwards.
Proof. by intros at_ A m. Qed.
Lemma backwards_laws : @MapOrderLaws backwards.
Proof. intros at_ A m. apply reverse_Permutation. Qed.

(** A graph from the list of its edges, each from a node to one it depends on. *)
Definition node (name : string) : graph_Node := mkNode name {["label" := quote name]}.
Definition edges (l : list (string * string)) : gmap string (gmap string ()) :=
  foldr (λ e m, <[e.1 := <[e.2 := tt]> (default ∅ (m !! e.1))]> m) ∅ l.
Definition draw (l : list (string * string)) : Graph :=
  mkGraph (list_to_map ((λ n, (n, node n)) <$> (l.*1 ++ l.*2))) (edges l) (edges ((λ e, (e.2, e.1)) <$> l)).
#[export] Instance drawing : Graphviz := {|
  graph_Ast := list (string * string);
  graph_ParseString _ := Ok [("docker_container.dev", "coder_agent.main"); ("docker_container.dev", "coder_agent.side");
    ("docker_volume.home", "docker_container.dev"); ("coder_app.code", "coder_agent.main");
    ("coder_metadata.a", "docker_container.dev"); ("coder_metadata.b", "docker_container.dev");
    ("aws_instance.vm", "coder_agent.vm")];
  NewAnalysedGraph l := Ok (draw l) |}.

Definition resource (type name : string) (attributes : list (string * json)) : StateResource :=
  mkStateResource (type +:+ "." +:+ name) ManagedResourceMode type name (list_to_map attributes).
Definition agent (name id token : string) : StateResource :=
  resource "coder_agent" name ([("os", JString "linux")] ++ (if token == EmptyString then [] else [("auth", JString "token"); ("token", JString token)])
    ++ if id == EmptyString then [] else [("id", JString id)]).
Definition metadata (name target : string) (cost : Z) : StateResource :=
  resource "coder_metadata" name ([("daily_cost", JNumber cost)] ++ if target == EmptyString then [] else [("resource_id", JString target)]).

Definition state : StateModule := mkStateModule
  [resource "docker_container" "dev" [("id", JString "c1")]; resource "docker_volume" "home" [];
   metadata "a" "c1" 10; resource "coder_app" "code" [("agent_id", JString "a1"); ("slug", JString "code")]]
  [mkStateModule [agent "main" "a1" "secret"; agent "side" "a2" "hidden"; agent "vm" "a3" EmptyString;
                  resource "aws_instance" "vm" [("id", JString "i-123")]] []].
Definition shown (o : MapOrder) (module : StateModule) : list (string * list (string * Agent_auth * list string) * Z) :=
  match @ConvertResources drawing o attributes 10 (Some module) EmptyString with
  | Ok rs => (λ r, (r.(Resource_Name), (λ a, (a.(Agent_Name), a.(Agent_Auth), App_Slug <$> a.(Agent_Apps))) <$> r.(Resource_Agents),
                    r.(Resource_DailyCost))) <$> rs
  | _ => []
  end.

(** The agents are on the container, which is nearer than its volume, and the instance is
    that of the machine. *)
Example state_shown :
  shown backwards state =
  [("home", [], 0%Z);
   ("dev", [("main", Agent_Token "secret", ["code"]); ("side", Agent_Token "hidden", [])], 10%Z);
   ("vm", [("vm", Agent_InstanceId "i-123", [])], 0%Z)].
Proof. by vm_compute. Qed.

Definition converted : list proto_Resource := Eval vm_compute in
  match @ConvertResources drawing forwards attributes 10 (Some state) EmptyString with Ok rs => rs | _ => [] end.
Definition main_agent : string * StateResource := ("coder_agent.main", agent "main" "a1" "secret").
Lemma resources_converted_witness :
  ∃ graph (homes : gmap string (option string)) name node, graph.(Nodes_Lookup) !! name = Some node ∧ node_label node = "coder_agent.main" ∧
    ∃ home, homes !! "coder_agent.main" = Some home ∧
      nearest true graph (findTerraformResources state (mkTfIndex ∅ ∅)).(tfResourceByLabel) node.(Node_Name) home.
Proof.
  destruct (@resources_converted drawing forwards forwards_laws attributes 10 state EmptyString converted)
    as (graph & homes & _ & _ & Hhomes & _); [by vm_compute|].
  destruct (Hhomes main_agent) as (name & n & home & Hn & Hl & Hhome & Hnear & _); [|reflexivity|].
  - apply elem_of_map_to_list. vm_compute. reflexivity.
  - exists graph, homes, name, n. split; [exact Hn|]. split; [exact Hl|]. exists home. split; [exact Hhome|exact Hnear].
Defined.

(** The graph has no cycle: the ranks are the lengths of its longest paths. *)
Definition ranks (l : list (string * nat)) (n : string) : nat := default O ((list_to_map l : gmap string nat) !! n).
Lemma ranks_below l fuel n : Forall (λ p, p.2 < fuel)%nat l → (0 < fuel)%nat → (ranks l n < fuel)%nat.
Proof.
  intros Hl Hfuel. unfold ranks. destruct (_ !! n) as [k|] eqn:Hk; [|done].
  apply elem_of_list_to_map_2 in Hk. rewrite Forall_forall in Hl. by apply (Hl (n, k)).
Qed.
Definition goes_down (graph : Graph) (rank : string → nat) (n d : string) : bool :=
  match graph.(Nodes_Lookup) !! d with Some node => (rank node.(Node_Name) <? rank n)%nat | None => false end.
Definition checks_acyclic (up : bool) (graph : Graph) (rank : string → nat) : bool :=
  forallb (λ nd, forallb (λ d, goes_down graph rank nd.1 d.1) (map_to_list nd.2)) (map_to_list (mapping up graph)).
Lemma checks_acyclic_sound up graph rank : checks_acyclic up graph rank = true → acyclic up graph rank.
Proof.
  unfold checks_acyclic. rewrite forallb_forall. intros Hall n d [[] Hd].
  destruct (mapping up graph !! n) as [ds|] eqn:Hn; simpl in Hd; [|by rewrite lookup_empty in Hd].
  specialize (Hall (n, ds)). rewrite <- list_elem_of_In, elem_of_map_to_list, forallb_forall in Hall.
  specialize (Hall Hn (d, ())). rewrite <- list_elem_of_In, elem_of_map_to_list in Hall. specialize (Hall Hd).
  unfold goes_down in Hall. simpl in Hall. destruct (Nodes_Lookup graph !! d) as [x|]; [|done].
  exists x. split; [done|]. by apply Nat.ltb_lt.
Qed.
Lemma conversion_returns_witness :
  (∃ rs, @ConvertResources drawing forwards attributes 10 (Some state) EmptyString = Ok rs) ∨
  ∃ e, @ConvertResources drawing forwards attributes 10 (Some state) EmptyString = Err e.
Proof.
  apply (@conversion_returns drawing forwards forwards_laws attributes 10 state EmptyString); [done..| |by split_and!].
  intros graph Hgraph. injection Hgraph as <-.
  exists (ranks [("coder_agent.main", 3); ("coder_agent.side", 3); ("coder_agent.vm", 3); ("docker_container.dev", 2)]%nat),
    (ranks [("docker_container.dev", 1); ("docker_volume.home", 2); ("coder_app.code", 1); ("coder_metadata.a", 2);
            ("coder_metadata.b", 2); ("aws_instance.vm", 1)]%nat).
  split; [apply checks_acyclic_sound; by vm_compute|]. split; [apply checks_acyclic_sound; by vm_compute|].
  intros n. split; apply ranks_below; try lia; repeat constructor; simpl; lia.
Defined.

(** Before resources have IDs, an application goes to every agent; the server then refuses
    the resource for an application that is twice on it. *)
Definition plan : StateModule := mkStateModule
  [resource "docker_container" "dev" []; resource "coder_agent" "main" [("auth", JString "token")];
   resource "coder_agent" "side" [("auth", JString "token")];
   resource "coder_app" "code" [("slug", JString "code")]] [].
Example plan_apps_everywhere :
  shown forwards plan = [("dev", [("side", Agent_Token EmptyString, ["code"]); ("main", Agent_Token EmptyString, ["code"])], 0%Z)].
Proof. by vm_compute. Qed.

Definition planned : list proto_Resource :=
  match @ConvertResources drawing forwards attributes 10 (Some plan) EmptyString with Ok rs => rs | _ => [] end.
Example plan_refused :
  (λ r, (server_InsertWorkspaceResource 1 WorkspaceTransitionStart r Examples.running).1) <$> planned =
  [Err (ErrNew ("duplicate app slug, must be unique per template: " +:+ quote "code"))].
Proof. by vm_compute. Qed.

(** Two blocks about one resource: the order of the visit decides what it costs. *)
Definition two_blocks : StateModule := mkStateModule
  [resource "docker_container" "dev" [("id", JString "c1")]; metadata "a" "c1" 10; metadata "b" "c1" 20] [].
Example cost_by_chance : shown forwards two_blocks = [("dev", [], 20%Z)] ∧ shown backwards two_blocks = [("dev", [], 10%Z)].
Proof. by vm_compute. Qed.

(** The resources of a count have one label, and one of them is shown. *)
Definition counted : StateModule := mkStateModule
  [mkStateResource "docker_container.dev[0]" ManagedResourceMode "docker_container" "dev" ∅;
   mkStateResource "docker_container.dev[1]" ManagedResourceMode "docker_container" "dev" ∅] [].
Example counted_shown_once : shown forwards counted = [("dev", [], 0%Z)].
Proof. by vm_compute. Qed.
End TerraformExamples.
