(* ===== verification/TerraformExec.v ===== *)
(** * Running Terraform

    [provisioner/terraform]: [safeenv.go], [executor.go], [provision.go] and [parse.go],
    with [provisionersdk/agent.go]. What the provisioner does to the outside is the list
    of its calls with their replies, as in [RunnerJob]; a reply is a function of the calls
    so far ([TerraformEnv]): the Terraform program, the file system, the stream and the
    context are arbitrary. The goroutines that log the two outputs of a command run beside
    it: their lines come in some interleaving ([merge_logs]) and all of them before the
    method that ran the command returns; here they directly follow the command. A line of
    output fits the buffer of the scanner. *)

From Stdlib Require Import Ascii.
From stdpp Require Import prelude gmap strings.
From S2P Require Import Prelude Encoding Models ProvisionerdProto FilePath Terraform.

(** ** Calls *)

(** How a command ends whose output is decoded. *)
Inductive decoded (A : Type) :=
| StartFailed (e : error)
| ExitFailed (stderr : string) (e : error)
| DecodeFailed (e : error)
| Decoded (a : A).
Arguments StartFailed {A} _.
Arguments ExitFailed {A} _ _.
Arguments DecodeFailed {A} _.
Arguments Decoded {A} _.

(** The lines a command writes, and its error. *)
Record run_result := mkRunResult { run_stdout : list string; run_stderr : list string; run_error : option error }.

(** [tfjson.Plan] and [tfjson.State] with the values and the root module in them, each
    of which may be nil. *)
Abbreviation tf_values := (option (option StateModule)) (only parsing).

Inductive tf_call :=
| TfVersion (env : list string) (reply : decoded string)
| TfRun (args env : list string) (reply : run_result)
| TfShow (args env : list string) (reply : decoded tf_values)
| TfGraph (args env : list string) (reply : decoded string)
| TfWriteFile (path : string) (content : bytes) (reply : option error)
| TfReadFile (path : string) (reply : error + bytes)
| TfTempFile (reply : error + string)
| TfRemove (path : string)
| TfSend (m : Provision_Response) (reply : option error)
| TfSendParse (m : Parse_Response) (reply : option error).

(** [hashicorp/go-version] *)
Class GoVersion := {
  go_version : Type;
  NewVersion : string → error + go_version;
  GreaterThanOrEqual : go_version → go_version → bool;
  version_String : go_version → string;
  minTerraformVersion : go_version;
}.

Record terraformProvisionLogDiagnostic := mkDiagnostic {
  Diagnostic_Severity : string;
  Diagnostic_Summary : string;
  Diagnostic_Detail : string;
}.
Record terraformProvisionLog := mkProvisionLog {
  ProvisionLog_Level : string;
  ProvisionLog_Message : string;
  ProvisionLog_Diagnostic : option terraformProvisionLogDiagnostic;
}.
#[global] Instance terraformProvisionLog_eta : Eta terraformProvisionLog := λ l,
  mkProvisionLog l.(ProvisionLog_Level) l.(ProvisionLog_Message) l.(ProvisionLog_Diagnostic).

Class TerraformEnv := {
  (** [os.Environ()] and [runtime.GOOS] *)
  os_Environ : list string;
  on_linux : bool;
  ctx_canceled : list tf_call → bool;
  env_version : list tf_call → decoded string;
  env_run : list tf_call → list string → list string → run_result;
  env_show : list tf_call → list string → list string → decoded tf_values;
  env_graph : list tf_call → list string → list string → decoded string;
  env_write : list tf_call → string → bytes → option error;
  env_readfile : list tf_call → string → error + bytes;
  env_temp : list tf_call → error + string;
  env_send : list tf_call → Provision_Response → option error;
  env_send_parse : list tf_call → Parse_Response → option error;
  merge_logs : list tf_call → list sdkproto_Log → list sdkproto_Log → list sdkproto_Log;
  (** [json.Unmarshal] of a line: what was decoded, and whether that went well. *)
  unmarshal_line : string → terraformProvisionLog * bool;
}.

Abbreviation Tf A := (GoM (list tf_call) A).
Definition asking {R} (ask : list tf_call → R) (c : R → tf_call) : Tf R := λ h, (Ok (ask h), h ++ [c (ask h)]).
Definition of_sum {A} (x : error + A) : Tf A := match x with inl e => throw e | inr a => mret a end.
Definition of_error (e : option error) : Tf unit := match e with Some e => throw e | None => mret tt end.

(** ** [safeenv.go] *)

Definition unsafeEnvCanary : string := "CODER_DONT_PASS".
Definition envName (env : string) : string :=
  match SplitN 1 env "="%char with p :: _ => p | [] => EmptyString end.
Definition isCanarySet (env : list string) : bool := existsb (λ e, envName e == unsafeEnvCanary) env.

(** ** [provisionersdk/agent.go] *)

(** [strings.ReplaceAll] of a text that is not empty; [skip] characters are replaced already. *)
Fixpoint replace_all (old new : string) (skip : nat) (s : string) : string :=
  match s with
  | EmptyString => EmptyString
  | String c s' =>
      match skip with
      | S skip => replace_all old new skip s'
      | O => if HasPrefix s old then new +:+ replace_all old new (pred (String.length old)) s'
             else String c (replace_all old new 0 s')
      end
  end.

(** The scripts that are embedded. *)
Class AgentScripts := { windowsScript : string; linuxScript : string; darwinScript : string }.

Definition agentScripts `{!AgentScripts} : list (string * list (string * string)) :=
  [("windows", [("amd64", windowsScript); ("arm64", windowsScript)]);
   ("linux", [("amd64", linuxScript); ("arm64", linuxScript); ("armv7", linuxScript)]);
   ("darwin", [("amd64", darwinScript); ("arm64", darwinScript)])].
(** The keys differ, so that the order of the loops does not matter. *)
Definition AgentScriptEnv `{!AgentScripts} : gmap string string :=
  list_to_map ('(operatingSystem, scripts) ← agentScripts;
    (λ '(architecture, script),
       ("CODER_AGENT_SCRIPT_" +:+ operatingSystem +:+ "_" +:+ architecture, replace_all "${ARCH}" architecture 0 script)) <$> scripts).

Section terraform.
Context `{!TerraformEnv}.

Definition safeEnviron : list string := filter (λ e : string, HasPrefix (envName e) "CODER_" = false) os_Environ.

Definition ctx_Err : Tf bool := λ h, (Ok (ctx_canceled h), h).
(** [if ctx.Err() != nil { return ctx.Err() }] *)
Definition check_ctx : Tf unit := canceled ← ctx_Err; if (canceled : bool) then throw ErrCanceled else mret tt.

(** ** Logs *)

(** [streamLogSink.Log]: an error is only logged. *)
Definition sink_Log (l : sdkproto_Log) : Tf unit :=
  _ ← asking (λ h, env_send h (Provision_Response_Log l)) (TfSend (Provision_Response_Log l)); mret tt.
Fixpoint sink_logs (l : list sdkproto_Log) : Tf unit :=
  match l with [] => mret tt | x :: l => _ ← sink_Log x; sink_logs l end.

Definition readAndLog (level : proto_LogLevel) (lines : list string) : list sdkproto_Log := mkSdkLog level <$> lines.

(** The level, and what is logged to find it. *)
Definition convertTerraformLogLevel (logLevel : string) : list sdkproto_Log * proto_LogLevel :=
  let l := ToLower logLevel in
  if l == "trace" then ([], LogLevel_TRACE)
  else if l == "debug" then ([], LogLevel_DEBUG)
  else if l == "info" then ([], LogLevel_INFO)
  else if l == "warn" then ([], LogLevel_WARN)
  else if l == "error" then ([], LogLevel_ERROR)
  else ([mkSdkLog LogLevel_WARN ("unable to convert log level " +:+ logLevel)], LogLevel_INFO).

Definition log_at (level output : string) : list sdkproto_Log :=
  let '(warning, level) := convertTerraformLogLevel level in warning ++ [mkSdkLog level output].

Definition provision_line (text : string) : list sdkproto_Log :=
  let '(log, ok) := unmarshal_line text in
  if negb ok && (Fields text == []) then []
  else
    let log := if ok then log else log <| ProvisionLog_Level := "info" |> <| ProvisionLog_Message := text |> in
    log_at log.(ProvisionLog_Level) log.(ProvisionLog_Message) ++
    match log.(ProvisionLog_Diagnostic) with
    | Some d => log_at d.(Diagnostic_Severity) d.(Diagnostic_Detail)
    | None => []
    end.
Definition provisionReadAndLog (lines : list string) : list sdkproto_Log := lines ≫= provision_line.

(** ** [executor.go] *)

Record executor := mkExecutor { executor_cachePath : string; executor_workdir : string }.

Section executor.
Context (e : executor).

Definition basicEnv : list string :=
  safeEnviron ++ if (e.(executor_cachePath) != EmptyString) && on_linux
                 then ["TF_PLUGIN_CACHE_DIR=" +:+ e.(executor_cachePath)] else [].

Definition execWriteOutput (args env : list string) (stdout_logs : list string → list sdkproto_Log) : Tf unit :=
  _ ← check_ctx;
  if isCanarySet env then throw (ErrNew "environment variables not sanitized, this is a bug within Coder") else
  r ← asking (λ h, env_run h args env) (TfRun args env);
  logs ← (λ h, (Ok (merge_logs h (stdout_logs r.(run_stdout)) (readAndLog LogLevel_ERROR r.(run_stderr))), h));
  _ ← sink_logs logs;
  of_error r.(run_error).

Definition execParseJSON (args env : list string) : Tf tf_values :=
  _ ← check_ctx;
  r ← asking (λ h, env_show h args env) (TfShow args env);
  match r with
  | StartFailed err => throw err
  | ExitFailed stderr err => throw (ErrWrap stderr err)
  | DecodeFailed err => throw (ErrWrap "decode terraform json" err)
  | Decoded v => mret v
  end.

(** The command gets the environment of the process: [cmd.Env] is not set. *)
Definition versionFromBinaryPath `{!GoVersion} : Tf go_version :=
  _ ← check_ctx;
  r ← asking env_version (TfVersion os_Environ);
  match r with
  | StartFailed err | ExitFailed _ err => canceled ← ctx_Err; if (canceled : bool) then throw ErrCanceled else throw err
  | DecodeFailed err => throw err
  | Decoded v => of_sum (NewVersion v)
  end.
Definition checkMinVersion `{!GoVersion} : Tf unit :=
  v ← versionFromBinaryPath;
  if negb (GreaterThanOrEqual v minTerraformVersion) then
    throw (ErrNew ("terraform version " +:+ quote (version_String v) +:+ " is too old. required >= "
                   +:+ quote (version_String minTerraformVersion)))
  else mret tt.

Definition executor_init : Tf unit :=
  execWriteOutput ["init"; "-no-color"; "-input=false"] basicEnv (readAndLog LogLevel_DEBUG).

Definition executor_graph : Tf string :=
  _ ← check_ctx;
  r ← asking (λ h, env_graph h ["graph"] basicEnv) (TfGraph ["graph"] basicEnv);
  match r with
  | StartFailed err => throw err
  | ExitFailed _ err | DecodeFailed err => throw (ErrWrap "graph" err)
  | Decoded out => mret out
  end.

Definition showPlan (planfilePath : string) : Tf tf_values :=
  execParseJSON ["show"; "-json"; "-no-color"; planfilePath] basicEnv.
Definition executor_state : Tf tf_values := wrap "terraform show state" (execParseJSON ["show"; "-json"; "-no-color"] basicEnv).

Context `{!Graphviz, !MapOrder, !Mapstructure} (fuel : nat).

Definition planResources (planfilePath : string) : Tf (list proto_Resource) :=
  plan ← wrap "show terraform plan file" (showPlan planfilePath);
  rawGraph ← wrap "graph" executor_graph;
  match plan with
  | None => lift_res (Panic "nil pointer dereference")
  | Some rootModule => lift_res (ConvertResources fuel rootModule rawGraph)
  end.

Definition stateResources : Tf (list proto_Resource) :=
  state ← executor_state;
  rawGraph ← wrap "get terraform graph" executor_graph;
  match state with
  | Some rootModule => lift_res (ConvertResources fuel rootModule rawGraph)
  | None => mret []
  end.

Definition read_file (path : string) : Tf bytes :=
  r ← asking (λ h, env_readfile h path) (TfReadFile path); of_sum r.

Definition plan_args (planfilePath : string) (vars : list string) (destroy : bool) : list string :=
  ["plan"; "-no-color"; "-input=false"; "-json"; "-refresh=true"; "-out=" +:+ planfilePath]
  ++ (if destroy then ["-destroy"] else []) ++ (vars ≫= λ variable, ["-var"; variable]).

Definition executor_plan (env vars : list string) (destroy : bool) : Tf Provision_Complete :=
  let planfilePath := filepath_Join [e.(executor_workdir); "terraform.tfplan"] in
  _ ← wrap "terraform plan" (execWriteOutput (plan_args planfilePath vars destroy) env provisionReadAndLog);
  resources ← planResources planfilePath;
  planFileByt ← read_file planfilePath;
  mret (mkProvisionComplete None EmptyString planFileByt resources).

(** [defer os.Remove(path)] *)
Definition then_remove {A} (path : string) (m : Tf A) : Tf A := λ h,
  let '(r, h') := m h in (r, h' ++ [TfRemove path]).

Definition executor_apply (plan : bytes) (env : list string) : Tf Provision_Complete :=
  r ← asking env_temp TfTempFile;
  planFile ← wrap "create plan file" (of_sum r);
  err ← asking (λ h, env_write h planFile plan) (TfWriteFile planFile plan);
  _ ← wrap "write plan file" (of_error err);
  then_remove planFile (
    _ ← wrap "terraform apply"
      (execWriteOutput ["apply"; "-no-color"; "-auto-approve"; "-input=false"; "-json"; planFile] env provisionReadAndLog);
    resources ← stateResources;
    let statefilePath := filepath_Join [e.(executor_workdir); "terraform.tfstate"] in
    stateContent ← wrap ("read statefile " +:+ quote statefilePath) (read_file statefilePath);
    mret (mkProvisionComplete (Some stateContent) EmptyString [] resources)).
End executor.

(** ** [provision.go] *)

(** The parameters that go one way; the others that are known are skipped. *)
Fixpoint params_to (env_variables : bool) (params : list proto_ParameterValue) : res (list string) :=
  match params with
  | [] => Ok []
  | param :: params =>
      let text := param.(proto_ParameterValue_Name) +:+ "=" +:+ param.(proto_ParameterValue_Value) in
      match param.(proto_ParameterValue_DestinationScheme) with
      | ParameterDestination_ENVIRONMENT_VARIABLE =>
          rest ← params_to env_variables params; Ok (if env_variables then text :: rest else rest)
      | ParameterDestination_PROVISIONER_VARIABLE =>
          rest ← params_to env_variables params; Ok (if env_variables then rest else text :: rest)
      | ParameterDestination_unknown n =>
          Err (ErrNew ("unsupported parameter type " +:+ quote (Itoa n) +:+ " for " +:+ quote param.(proto_ParameterValue_Name)))
      end
  end.
Definition planVars (params : list proto_ParameterValue) : res (list string) := params_to false params.

Definition transition_string (t : proto_WorkspaceTransition) : string :=
  match t with
  | WorkspaceTransition_START => "START"
  | WorkspaceTransition_STOP => "STOP"
  | WorkspaceTransition_DESTROY => "DESTROY"
  | WorkspaceTransition_unknown n => Itoa n
  end.

Definition metadata_env (m : Provision_Metadata) : list string :=
  ["CODER_AGENT_URL=" +:+ m.(Metadata_CoderUrl);
   "CODER_WORKSPACE_TRANSITION=" +:+ ToLower (transition_string m.(Metadata_WorkspaceTransition));
   "CODER_WORKSPACE_NAME=" +:+ m.(Metadata_WorkspaceName);
   "CODER_WORKSPACE_OWNER=" +:+ m.(Metadata_WorkspaceOwner);
   "CODER_WORKSPACE_OWNER_EMAIL=" +:+ m.(Metadata_WorkspaceOwnerEmail);
   "CODER_WORKSPACE_ID=" +:+ m.(Metadata_WorkspaceId);
   "CODER_WORKSPACE_OWNER_ID=" +:+ m.(Metadata_WorkspaceOwnerId)].

Definition script_env `{!MapOrder, !AgentScripts} : list string :=
  (λ kv, kv.1 +:+ "=" +:+ kv.2) <$> map_range ["scripts"] AgentScriptEnv.
Definition provisionEnv `{!MapOrder, !AgentScripts} (config : Provision_Config) (params : list proto_ParameterValue) : res (list string) :=
  match config.(Config_Metadata) with
  | None => Panic nil_dereference
  | Some metadata =>
      variables ← params_to true params;
      Ok (safeEnviron ++ metadata_env metadata ++ script_env ++ variables)
  end.

Definition tfEnvSafeToPrint : list string :=
  ["TF_LOG"; "TF_LOG_PATH"; "TF_INPUT"; "TF_DATA_DIR"; "TF_WORKSPACE"; "TF_IN_AUTOMATION"; "TF_REGISTRY_DISCOVERY_RETRY";
   "TF_REGISTRY_CLIENT_TIMEOUT"; "TF_CLI_CONFIG_FILE"; "TF_IGNORE"].
Fixpoint log_env_vars (env : list string) : Tf unit :=
  match env with
  | [] => mret tt
  | e :: env =>
      _ ← (if HasPrefix e "TF_" then
             match SplitN 2 e "="%char with
             | [name; value] =>
                 let value := if bool_decide (name ∈ tfEnvSafeToPrint) then value else "<value redacted>" in
                 sink_Log (mkSdkLog LogLevel_WARN ("terraform environment variable: " +:+ name +:+ "=" +:+ value))
             | _ => lift_res (Panic "safeEnviron() returned vars not in key=value form")
             end
           else mret tt);
      log_env_vars env
  end.
Definition logTerraformEnvVars : Tf unit := log_env_vars safeEnviron.

Context `{!GoVersion, !Graphviz, !MapOrder, !Mapstructure, !AgentScripts} (fuel : nat) (cachePath : string).

Definition send_complete (c : Provision_Complete) : Tf unit :=
  err ← asking (λ h, env_send h (Provision_Response_Complete c)) (TfSend (Provision_Response_Complete c));
  of_error err.

(** A failure of a command: canceled, it is the outcome; else it is returned. *)
Definition or_complete {A} (msg : string) (m : Tf A) (k : A → Tf unit) : Tf unit := λ h,
  match m h with
  | (Ok a, h') => k a h'
  | (Err err, h') =>
      if ctx_canceled h' then send_complete (mkProvisionComplete None (error_string err) [] []) h'
      else (Err (ErrWrap msg err), h')
  | (Panic p, h') => (Panic p, h')
  end.

(** [stateData, _ := os.ReadFile(statefilePath)]; then the failure is the outcome. *)
Definition or_state (statefilePath : string) (m : Tf Provision_Complete) : Tf unit := λ h,
  match m h with
  | (Ok resp, h') => send_complete resp h'
  | (Err err, h') =>
      (r ← asking (λ h, env_readfile h statefilePath) (TfReadFile statefilePath);
       send_complete (mkProvisionComplete (match r with inl _ => None | inr b => Some b end) (error_string err) [] [])) h'
  | (Panic p, h') => (Panic p, h')
  end.

Definition request_config (request : Provision_Request) : option (option Provision_Config * list proto_ParameterValue) :=
  match request with
  | Provision_Request_Plan config params => Some (config, params)
  | Provision_Request_Apply config _ => Some (config, [])
  | Provision_Request_Cancel => None
  end.

(** Whether the transition of a request is to destroy the workspace. *)
Definition destroying (metadata : Provision_Metadata) : bool :=
  match metadata.(Metadata_WorkspaceTransition) with WorkspaceTransition_DESTROY => true | _ => false end.

(** From the check for something to destroy on. *)
Definition provision_with (request : Provision_Request) (config : Provision_Config) (params : list proto_ParameterValue)
    (metadata : Provision_Metadata) : Tf unit :=
  let e := mkExecutor cachePath config.(Config_Directory) in
  let statefilePath := filepath_Join [config.(Config_Directory); "terraform.tfstate"] in
  if destroying metadata && (config.(Config_State) == []) then
    _ ← sink_Log (mkSdkLog LogLevel_INFO "The terraform state does not exist, there is nothing to do");
    send_complete (mkProvisionComplete None EmptyString [] [])
  else
    or_complete "initialize terraform" (executor_init e) (λ _,
      env ← lift_res (provisionEnv config params);
      match request with
      | Provision_Request_Apply _ plan => or_state statefilePath (executor_apply e fuel plan env)
      | _ =>
          vars ← lift_res (planVars params);
          or_complete "plan terraform" (executor_plan e fuel env vars (destroying metadata)) send_complete
      end).

(** The first message of the stream may have no type, its configuration and the metadata
    of that may be missing. *)
Definition Provision (recv : error + option Provision_Request) : Tf unit :=
  request ← of_sum recv;
  match request with
  | None => mret tt
  | Some request =>
      match request_config request with
      | None => mret tt
      | Some (None, _) => lift_res (Panic nil_dereference)
      | Some (Some config, params) =>
          _ ← checkMinVersion;
          _ ← logTerraformEnvVars;
          let statefilePath := filepath_Join [config.(Config_Directory); "terraform.tfstate"] in
          _ ← (match config.(Config_State) with
               | [] => mret tt
               | state => err ← asking (λ h, env_write h statefilePath state) (TfWriteFile statefilePath state);
                          wrap ("write statefile " +:+ quote statefilePath) (of_error err)
               end);
          match config.(Config_Metadata) with
          | None => lift_res (Panic nil_dereference)
          | Some metadata => provision_with request config params metadata
          end
      end
  end.
End terraform.

(** ** [parse.go] *)

(** [tfconfig]: what is read of a module. A condition is its range in the file. *)
Record SourcePos := mkSourcePos { Pos_Filename : string; Pos_Line : Z }.
Record tf_Validation := mkValidation { Validation_Condition : option (nat * nat); Validation_ErrorMessage : string }.
Record tf_Variable := mkVariable {
  Variable_Name : string;
  Variable_Type : string;
  Variable_Description : string;
  Variable_Default : option json;
  Variable_Sensitive : bool;
  Variable_Validations : list tf_Validation;
  Variable_Pos : SourcePos;
}.
Inductive tf_Severity := DiagError | DiagWarning | Diag_other (n : Z).
#[global] Instance tf_Severity_eq_dec : EqDecision tf_Severity.
Proof. solve_decision. Defined.
Record tf_Diagnostic := mkTfDiagnostic {
  Diag_Severity : tf_Severity;
  Diag_Summary : string;
  Diag_Detail : string;
  Diag_Pos : option SourcePos;
}.
(** [tfconfig.LoadModule], [wordwrap.WrapString] to 78 characters, and [json.Marshal]. *)
Class Tfconfig := {
  LoadModule : string → gmap string tf_Variable * list tf_Diagnostic;
  WrapString78 : string → string;
  marshal_default : json → error + string;
}.

(** [filepath.Rel] on Unix *)
Fixpoint strip_common (b t : list string) : list string * list string :=
  match b, t with
  | x :: b', y :: t' => if x == y then strip_common b' t' else (b, t)
  | _, _ => (b, t)
  end.
Definition filepath_Rel (basepath targpath : string) : option string :=
  let base := filepath_Clean basepath in
  let targ := filepath_Clean targpath in
  if targ == base then Some "."
  else if rooted base != rooted targ then None
  else
    let '(b, t) := strip_common (clean_elements base) (if targ == "." then ["."] else clean_elements targ) in
    if head b == Some ".." then None else Some (Join (replicate (length b) ".." ++ t) "/").

(** [strings.TrimSpace] *)
Fixpoint trim_space_left (s : string) : string :=
  match s with String c s' => if is_space c then trim_space_left s' else s | EmptyString => EmptyString end.
Fixpoint trim_space_right (s : string) : string :=
  match s with
  | EmptyString => EmptyString
  | String c s' =>
      let t := trim_space_right s' in
      if (t == EmptyString) && is_space c then EmptyString else String c t
  end.
Definition TrimSpace (s : string) : string := trim_space_right (trim_space_left s).

Definition newline : string := String (ascii_of_nat 10) EmptyString.

Definition compareSourcePos (x y : SourcePos) : bool :=
  if x.(Pos_Filename) != y.(Pos_Filename) then string_lt x.(Pos_Filename) y.(Pos_Filename)
  else (x.(Pos_Line) <? y.(Pos_Line))%Z.

Section parse.
Context `{!TerraformEnv, !Tfconfig, !MapOrder}.

Definition format_diagnostic (baseDir : string) (d : tf_Diagnostic) : string :=
  let severity := match d.(Diag_Severity) with
                  | DiagError => "ERROR" | DiagWarning => "WARN" | Diag_other _ => "UNKNOWN SEVERITY" end in
  let location := match d.(Diag_Pos) with
                  | Some pos => default pos.(Pos_Filename) (filepath_Rel baseDir pos.(Pos_Filename)) +:+ ":" +:+ Itoa pos.(Pos_Line)
                  | None => "unknown location"
                  end in
  newline +:+ severity +:+ ": " +:+ d.(Diag_Summary) +:+ " (" +:+ location +:+ ")" +:+ newline +:+
  (if d.(Diag_Detail) != EmptyString
   then foldr (λ line s, "> " +:+ line +:+ newline +:+ s) EmptyString (Split (WrapString78 d.(Diag_Detail)) (ascii_of_nat 10))
   else EmptyString).
Definition formatDiagnostics (baseDir : string) (diags : list tf_Diagnostic) : string :=
  (if (1 <? length diags)%nat then newline +:+ newline else " ") +:+
  TrimSpace (foldr (λ d s, format_diagnostic baseDir d +:+ s) EmptyString diags).

Definition default_data (variable : tf_Variable) : res (option proto_ParameterSource) :=
  match variable.(Variable_Default) with
  | None => Ok None
  | Some (JString s) => Ok (Some (mkParameterSource ParameterSource_DATA s))
  | Some j =>
      match marshal_default j with
      | inl err => Err (ErrWrap ("parse variable " +:+ quote variable.(Variable_Name) +:+ " default") err)
      | inr s => Ok (Some (mkParameterSource ParameterSource_DATA s))
      end
  end.

(** The text of the condition is cut out of the file it was parsed from. *)
Definition condition_text (filedata : bytes) (range : nat * nat) : res string :=
  let '(start, stop) := range in
  if (start <=? stop)%nat && (stop <=? length filedata)%nat
  then Ok (string_of (take (stop - start) (drop start filedata)))
  else Panic "slice bounds out of range".

Definition convertVariableToParameter (variable : tf_Variable) : Tf proto_ParameterSchema :=
  source ← lift_res (default_data variable);
  let schema type_system error condition := {|
    proto_ParameterSchema_Name := variable.(Variable_Name);
    proto_ParameterSchema_Description := variable.(Variable_Description);
    proto_ParameterSchema_DefaultSource := source;
    proto_ParameterSchema_AllowOverrideSource := negb variable.(Variable_Sensitive);
    proto_ParameterSchema_DefaultDestination := Some ParameterDestination_PROVISIONER_VARIABLE;
    proto_ParameterSchema_AllowOverrideDestination := false;
    proto_ParameterSchema_RedisplayValue := negb variable.(Variable_Sensitive);
    proto_ParameterSchema_ValidationTypeSystem := type_system;
    proto_ParameterSchema_ValidationValueType := variable.(Variable_Type);
    proto_ParameterSchema_ValidationError := error;
    proto_ParameterSchema_ValidationCondition := condition |} in
  match variable.(Variable_Validations) with
  | mkValidation (Some range) message :: _ =>
      let filename := variable.(Variable_Pos).(Pos_Filename) in
      filedata ← wrap ("read file " +:+ quote filename) (read_file filename);
      condition ← lift_res (condition_text filedata range);
      mret (schema ParameterSchema_HCL message condition)
  | _ => mret (schema ParameterSchema_None EmptyString EmptyString)
  end.

Fixpoint convert_variables (variables : list tf_Variable) : Tf (list proto_ParameterSchema) :=
  match variables with
  | [] => mret []
  | v :: variables =>
      schema ← wrap ("convert variable " +:+ quote v.(Variable_Name)) (convertVariableToParameter v);
      schemas ← convert_variables variables;
      mret (schema :: schemas)
  end.

Definition terraform_Parse (directory : string) : Tf unit :=
  let '(variables, diags) := LoadModule directory in
  if existsb (λ d, d.(Diag_Severity) == DiagError) diags
  then throw (ErrNew ("load module: " +:+ formatDiagnostics directory diags))
  else
    let variables := sort_by (λ a b, compareSourcePos a.(Variable_Pos) b.(Variable_Pos)) (snd <$> map_range ["variables"] variables) in
    parameters ← convert_variables variables;
    err ← asking (λ h, env_send_parse h (Parse_Response_Complete parameters)) (TfSendParse (Parse_Response_Complete parameters));
    of_error err.
End parse.
