(* ===== verification/TerraformExecProps.v ===== *)
(** * Running Terraform: properties

    Terraform does not get the server's own [CODER_] variables, its command for the
    version apart; a request is
    answered with one outcome, after all logs, and an outcome without an error is that
    of a command that succeeded. *)

From Stdlib Require Import Ascii.
From stdpp Require Import prelude gmap strings sorting.
From S2P Require Import Prelude Encoding Models ProvisionerdProto FilePath Terraform TerraformProps TerraformExec.

(** ** What a program calls *)

(** It only makes calls of a kind, and if it returns a value, that value and its calls
    are related. *)
Definition emits (P : tf_call → Prop) {A} (Q : A → list tf_call → Prop) (m : GoM (list tf_call) A) : Prop :=
  ∀ h r h', m h = (r, h') → ∃ l, h' = h ++ l ∧ Forall P l ∧ ∀ a, r = Ok a → Q a l.

Definition anything {A} : A → list tf_call → Prop := λ _ _, True.

Section emits.
Context {P : tf_call → Prop}.

Lemma emits_ret {A} (a : A) (Q : A → list tf_call → Prop) : Q a [] → emits P Q (mret a).
Proof. intros HQ h r h' Hrun. injection Hrun as <- <-. exists []. rewrite app_nil_r. split_and!; [done..|]. by intros ? [= <-]. Qed.
Lemma emits_throw {A} e (Q : A → list tf_call → Prop) : emits P Q (throw e).
Proof. intros h r h' Hrun. injection Hrun as <- <-. exists []. rewrite app_nil_r. done. Qed.
Lemma emits_lift {A} (x : res A) (Q : A → list tf_call → Prop) : (∀ a, x = Ok a → Q a []) → emits P Q (lift_res x).
Proof. intros HQ h r h' Hrun. injection Hrun as <- <-. exists []. rewrite app_nil_r. split_and!; [done..|]. intros a ->. by apply HQ. Qed.
Lemma emits_asking {R} (ask : list tf_call → R) c (Q : R → list tf_call → Prop) :
  (∀ x, P (c x)) → (∀ x, Q x [c x]) → emits P Q (asking ask c).
Proof.
  intros HP HQ h r h' Hrun. injection Hrun as <- <-. exists [c (ask h)]. split_and!; [done|by constructor|].
  intros a [= <-]. apply HQ.
Qed.
Lemma emits_bind {A B} (m : GoM (list tf_call) A) (k : A → GoM (list tf_call) B) (Q1 : A → list tf_call → Prop) (Q : B → list tf_call → Prop) :
  emits P Q1 m → (∀ a l1, Q1 a l1 → emits P (λ b l2, Q b (l1 ++ l2)) (k a)) → emits P Q (m ≫= k).
Proof.
  intros Hm Hk h r h' Hrun. unfold mbind, gom_bind in Hrun. destruct (m h) as [[a|e|p] h1] eqn:Hrun1.
  - destruct (Hm _ _ _ Hrun1) as (l1 & -> & HP1 & HQ1). destruct (Hk a l1 (HQ1 a eq_refl) _ _ _ Hrun) as (l2 & -> & HP2 & HQ2).
    exists (l1 ++ l2). rewrite app_assoc. split_and!; [done|by apply Forall_app|done].
  - destruct (Hm _ _ _ Hrun1) as (l1 & -> & HP1 & _). injection Hrun as <- <-. by exists l1.
  - destruct (Hm _ _ _ Hrun1) as (l1 & -> & HP1 & _). injection Hrun as <- <-. by exists l1.
Qed.
Lemma emits_mono {A} (m : GoM (list tf_call) A) (Q1 Q : A → list tf_call → Prop) :
  emits P Q1 m → (∀ a l, Q1 a l → Q a l) → emits P Q m.
Proof. intros Hm HQ h r h' Hrun. destruct (Hm _ _ _ Hrun) as (l & ? & ? & ?). exists l. naive_solver. Qed.
Lemma emits_any {A} (m : GoM (list tf_call) A) (Q : A → list tf_call → Prop) : emits P Q m → emits P anything m.
Proof. intros Hm. by eapply emits_mono. Qed.
Lemma emits_wrap {A} msg (m : GoM (list tf_call) A) (Q : A → list tf_call → Prop) : emits P Q m → emits P Q (wrap msg m).
Proof.
  intros Hm h r h' Hrun. unfold wrap in Hrun. destruct (m h) as [[a|e|p] h1] eqn:Hrun1; injection Hrun as <- <-;
    destruct (Hm _ _ _ Hrun1) as (l & ? & ? & ?); exists l; naive_solver.
Qed.
Lemma emits_pure {A} (f : list tf_call → A) (Q : A → list tf_call → Prop) :
  (∀ a, Q a []) → emits P Q (λ h, (Ok (f h), h)).
Proof. intros HQ h r h' Hrun. injection Hrun as <- <-. exists []. rewrite app_nil_r. split_and!; [done..|]. intros a [= <-]. apply HQ. Qed.
End emits.

(** A program made of such steps. *)
Lemma emits_seq {P} {A B} (m : GoM (list tf_call) A) (k : A → GoM (list tf_call) B) :
  emits P anything m → (∀ a, emits P anything (k a)) → emits P anything (m ≫= k).
Proof. intros Hm Hk. eapply emits_bind; [exact Hm|]. intros a l1 _. by eapply emits_mono. Qed.

Create HintDb emits.
#[export] Hint Extern 1 (emits _ _ (mret _)) => apply emits_ret : emits.
#[export] Hint Extern 1 (emits _ _ (throw _)) => apply emits_throw : emits.
#[export] Hint Extern 1 (emits _ _ (lift_res _)) => apply emits_lift; intros ? ? : emits.
#[export] Hint Extern 1 (emits _ _ (asking _ _)) => apply emits_asking; intros ? : emits.
#[export] Hint Extern 1 (emits _ _ (wrap _ _)) => apply emits_wrap : emits.
#[export] Hint Extern 2 (emits _ anything (_ ≫= _)) => apply emits_seq; [|intros ?] : emits.
#[export] Hint Extern 3 (emits _ _ (match ?x with _ => _ end)) => destruct x : emits.
#[export] Hint Extern 1 (anything _ _) => exact I : emits.

(** ** Environments *)

Section provision.
Context `{!TerraformEnv, !GoVersion, !Graphviz, !MapOrder, !Mapstructure, !AgentScripts}.
Context (fuel : nat) (cachePath : string).

(** The variables of the server that Terraform is meant to see. *)
Definition meant_for (config : Provision_Config) (params : list proto_ParameterValue) (e : string) : Prop :=
  (∃ metadata, config.(Config_Metadata) = Some metadata ∧ e ∈ metadata_env metadata) ∨ e ∈ script_env ∨
  ∃ param, param ∈ params ∧ param.(proto_ParameterValue_DestinationScheme) = ParameterDestination_ENVIRONMENT_VARIABLE ∧
    e = param.(proto_ParameterValue_Name) +:+ "=" +:+ param.(proto_ParameterValue_Value).
Definition clean_env (config : Provision_Config) (params : list proto_ParameterValue) (env : list string) : Prop :=
  ∀ e, e ∈ env → e ∈ os_Environ ∧ HasPrefix e "CODER_" = false ∨ HasPrefix e "TF_" = true ∨ meant_for config params e.

Lemma safeEnviron_clean e : e ∈ safeEnviron → e ∈ os_Environ ∧ HasPrefix e "CODER_" = false.
Proof. unfold safeEnviron, envName. intros [Hp Hin]%list_elem_of_filter. by rewrite SplitN_last in Hp. Qed.

Lemma basicEnv_clean config params ex : clean_env config params (basicEnv ex).
Proof.
  unfold basicEnv. intros e He. apply elem_of_app in He as [He%safeEnviron_clean|He]; [by left|right; left].
  destruct (_ && _); [|by apply elem_of_nil in He]. by apply list_elem_of_singleton in He as ->.
Qed.

Lemma params_to_env params vars e :
  params_to true params = Ok vars → e ∈ vars →
  ∃ param, param ∈ params ∧ param.(proto_ParameterValue_DestinationScheme) = ParameterDestination_ENVIRONMENT_VARIABLE ∧
    e = param.(proto_ParameterValue_Name) +:+ "=" +:+ param.(proto_ParameterValue_Value).
Proof.
  revert vars. induction params as [|p params IH]; intros vars; simpl; [by intros [= <-] ?%elem_of_nil|].
  destruct (proto_ParameterValue_DestinationScheme p) eqn:Hp; [| |done]; intros (rest & Hrest & [= <-])%res_bind_ok.
  - intros [->|He]%elem_of_cons; [exists p; split; [left|done]|].
    destruct (IH _ Hrest He) as (q & ? & ?). exists q. split; [by right|done].
  - intros He. destruct (IH _ Hrest He) as (q & ? & ?). exists q. split; [by right|done].
Qed.
Lemma provisionEnv_clean config params env : provisionEnv config params = Ok env → clean_env config params env.
Proof.
  unfold provisionEnv. destruct config.(Config_Metadata) as [metadata|] eqn:Hmeta; [|done].
  intros (vars & Hvars & Henv)%res_bind_ok e.
  assert (env = safeEnviron ++ metadata_env metadata ++ script_env ++ vars) as -> by congruence.
  rewrite !elem_of_app.
  intros [He%safeEnviron_clean|[He|[He|He]]]; [by left|right; right..]; [left; by exists metadata|by right; left|].
  right; right. by eapply params_to_env.
Qed.

(** ** Calls of a provision *)

(** A call before the outcome is sent: a command but for that for the version has a clean
    environment. *)
Definition before_outcome (config : Provision_Config) (params : list proto_ParameterValue) (c : tf_call) : Prop :=
  match c with
  | TfRun _ env _ | TfShow _ env _ | TfGraph _ env _ => clean_env config params env
  | TfSend (Provision_Response_Log _) _ => True
  | TfSend _ _ | TfSendParse _ _ => False
  | _ => True
  end.
Definition is_run (c : tf_call) : bool := match c with TfRun _ _ _ => true | _ => false end.

Context (config : Provision_Config) (params : list proto_ParameterValue).
Abbreviation P := (before_outcome config params).

Lemma emits_from_quiet {A} (m : GoM (list tf_call) A) (Q : A → list tf_call → Prop) :
  emits (λ c, P c ∧ is_run c = false) Q m → emits P Q m.
Proof.
  intros Hm h r h' Hrun. destruct (Hm _ _ _ Hrun) as (l & ? & Hl & ?). exists l. split_and!; [done| |done].
  eapply Forall_impl; [exact Hl|]. naive_solver.
Qed.

(** The steps that run no command. *)
Section quiet.
Abbreviation PQ := (λ c, P c ∧ is_run c = false).
Hint Extern 1 (_ ∧ _) => split : emits.
Hint Extern 1 (before_outcome _ _ _) => exact I : emits.

Lemma emits_sink l : emits PQ anything (sink_Log l).
Proof. unfold sink_Log. eauto 10 with emits. Qed.
Hint Resolve emits_sink : emits.
Lemma emits_sinks l : emits PQ anything (sink_logs l).
Proof. induction l; simpl; eauto 10 with emits. Qed.
Lemma emits_ctx : emits PQ anything check_ctx.
Proof. unfold check_ctx, ctx_Err. apply emits_seq; [by apply emits_pure|]. eauto with emits. Qed.
Hint Resolve emits_ctx : emits.
Lemma emits_read path : emits PQ anything (read_file path).
Proof. unfold read_file, of_sum. eauto 10 with emits. Qed.
Lemma emits_of_error e : emits PQ (λ _ l, e = None ∧ l = []) (of_error e).
Proof. destruct e; [apply emits_throw|by apply emits_ret]. Qed.
End quiet.

(** *** Commands *)

(** A command that succeeded is among the calls. *)
Definition succeeded (args env : list string) (l : list tf_call) : Prop :=
  ∃ out, TfRun args env out ∈ l ∧ out.(run_error) = None.

Lemma emits_exec args env f :
  clean_env config params env → emits P (λ _ l, succeeded args env l) (execWriteOutput args env f).
Proof.
  intros Hclean. unfold execWriteOutput. eapply emits_bind; [apply emits_from_quiet, emits_ctx|]. intros ? l0 _.
  destruct (isCanarySet env); [apply emits_throw|].
  eapply emits_bind; [apply (emits_asking _ _ (λ out l, l = [TfRun args env out])); done|]. intros out l1 ->.
  eapply emits_bind; [by apply (emits_pure _ anything)|]. intros logs l2 _.
  eapply emits_bind; [apply emits_from_quiet, emits_sinks|]. intros ? l3 _.
  eapply emits_mono; [apply emits_from_quiet, emits_of_error|]. intros ? l4 [Hnone ->]. exists out. split; [set_solver|done].
Qed.
Lemma emits_show args env : clean_env config params env → emits P anything (execParseJSON args env).
Proof.
  intros Hclean. unfold execParseJSON. apply emits_seq; [apply emits_from_quiet, emits_ctx|]. intros _.
  apply emits_seq; [by apply emits_asking|]. intros r. destruct r; eauto with emits.
Qed.
Lemma emits_graph ex : emits P anything (executor_graph ex).
Proof.
  unfold executor_graph. apply emits_seq; [apply emits_from_quiet, emits_ctx|]. intros _.
  apply emits_seq; [apply emits_asking; [intros; apply basicEnv_clean|done]|]. intros r. destruct r; eauto with emits.
Qed.
Hint Resolve emits_graph : emits.
Lemma emits_show_basic args ex : emits P anything (execParseJSON args (basicEnv ex)).
Proof. apply emits_show, basicEnv_clean. Qed.
Hint Resolve emits_show_basic : emits.
Lemma emits_planResources ex path : emits P anything (planResources ex fuel path).
Proof. unfold planResources, showPlan. eauto 10 with emits. Qed.
Lemma emits_stateResources ex : emits P anything (stateResources ex fuel).
Proof. unfold stateResources, executor_state. eauto 10 with emits. Qed.

(** *** Planning and applying *)

Definition apply_args (planFile : string) : list string :=
  ["apply"; "-no-color"; "-auto-approve"; "-input=false"; "-json"; planFile].

Lemma emits_plan ex env vars destroy :
  clean_env config params env →
  emits P (λ c l, succeeded (plan_args (filepath_Join [ex.(executor_workdir); "terraform.tfplan"]) vars destroy) env l ∧
    c.(Complete_Error) = EmptyString) (executor_plan ex fuel env vars destroy).
Proof.
  intros Hclean. unfold executor_plan. eapply emits_bind; [by apply emits_wrap, emits_exec|]. intros ? l1 (out & Hout & Hnone).
  eapply emits_bind; [apply emits_planResources|]. intros resources l2 _.
  eapply emits_bind; [apply emits_from_quiet, emits_read|]. intros plan l3 _. apply emits_ret.
  split; [exists out; split; [set_solver|done]|done].
Qed.

Lemma emits_then_remove {A} path (m : GoM (list tf_call) A) (Q : A → list tf_call → Prop) :
  emits P Q m → (∀ a l, Q a l → Q a (l ++ [TfRemove path])) → emits P Q (then_remove path m).
Proof.
  intros Hm HQ h r h' Hrun. unfold then_remove in Hrun. destruct (m h) as [r1 h1] eqn:Hrun1. injection Hrun as <- <-.
  destruct (Hm _ _ _ Hrun1) as (l & -> & HP & HQl). exists (l ++ [TfRemove path]). rewrite app_assoc.
  split_and!; [done|apply Forall_app; split; [done|by constructor]|]. intros a Ha. by apply HQ, HQl.
Qed.

(** What is applied is the plan of the request, from the file it was written to. *)
Definition applied (plan : bytes) (env : list string) (l : list tf_call) : Prop :=
  ∃ planFile, TfWriteFile planFile plan None ∈ l ∧ succeeded (apply_args planFile) env l.

Lemma emits_apply ex plan env :
  clean_env config params env →
  emits P (λ c l, applied plan env l ∧ c.(Complete_Error) = EmptyString) (executor_apply ex fuel plan env).
Proof.
  intros Hclean. unfold executor_apply. eapply (emits_bind _ _ anything); [by apply emits_asking|]. intros r l0 _.
  eapply (emits_bind _ _ anything); [apply emits_wrap; unfold of_sum; destruct r; eauto with emits|].
  intros planFile l1 _.
  eapply emits_bind; [apply (emits_asking _ _ (λ err l, l = [TfWriteFile planFile plan err])); done|]. intros err l2 ->.
  eapply emits_bind; [apply emits_wrap, emits_from_quiet, emits_of_error|]. intros ? l3 [-> ->].
  apply emits_then_remove.
  - eapply emits_bind; [by apply emits_wrap, emits_exec|]. intros ? l4 (out & Hout & Hnone).
    eapply emits_bind; [apply emits_stateResources|]. intros resources l5 _.
    eapply emits_bind; [apply emits_wrap, emits_from_quiet, emits_read|]. intros state l6 _. apply emits_ret.
    split; [|done]. exists planFile. split; [set_solver|]. exists out. split; [set_solver|done].
  - intros c l [(f & Hf & out & Hout & Hnone) Herr]. split; [|done]. exists f. split; [set_solver|]. exists out. split; [set_solver|done].
Qed.

(** *** The outcome *)

(** The program ends with sending an outcome that fits the calls before, or fails
    before it sends one. *)
Definition finishes (Q : list tf_call → Provision_Complete → Prop) (m : GoM (list tf_call) unit) : Prop :=
  ∀ h r h', m h = (r, h') → ∃ l, Forall P l ∧
    (h' = h ++ l ∧ (∀ u, r ≠ Ok u) ∨
     ∃ c reply, h' = h ++ l ++ [TfSend (Provision_Response_Complete c) reply] ∧
       r = (match reply with Some err => Err err | None => Ok tt end) ∧ Q l c).

Lemma finishes_send (Q : list tf_call → Provision_Complete → Prop) c : Q [] c → finishes Q (send_complete c).
Proof.
  intros HQ h r h' Hrun. exists []. split; [constructor|]. right. exists c, (env_send h (Provision_Response_Complete c)).
  unfold send_complete, asking, mbind, gom_bind, of_error in Hrun.
  destruct (env_send h (Provision_Response_Complete c)); injection Hrun as <- <-; done.
Qed.

Lemma finishes_mono (Q Q' : list tf_call → Provision_Complete → Prop) m :
  finishes Q m → (∀ l c, Q l c → Q' l c) → finishes Q' m.
Proof. intros Hm HQ h r h' Hrun. destruct (Hm _ _ _ Hrun) as (l & ? & ?). exists l. naive_solver. Qed.

(** After a first part. *)
Lemma finishes_after h l1 r h' (m : GoM (list tf_call) unit) (Q : list tf_call → Provision_Complete → Prop) :
  Forall P l1 → finishes (λ l2 c, Q (l1 ++ l2) c) m → m (h ++ l1) = (r, h') →
  ∃ l, Forall P l ∧ (h' = h ++ l ∧ (∀ u, r ≠ Ok u) ∨
     ∃ c reply, h' = h ++ l ++ [TfSend (Provision_Response_Complete c) reply] ∧
       r = (match reply with Some err => Err err | None => Ok tt end) ∧ Q l c).
Proof.
  intros HP Hm Hrun. destruct (Hm _ _ _ Hrun) as (l2 & HP2 & Hcase). exists (l1 ++ l2). split; [by apply Forall_app|].
  destruct Hcase as [[-> Hr]|(c & reply & -> & Hr & HQ)]; [left; by rewrite app_assoc|right].
  exists c, reply. by rewrite !app_assoc.
Qed.

Lemma finishes_bind {A} (m : GoM (list tf_call) A) k (Q1 : A → list tf_call → Prop) (Q : list tf_call → Provision_Complete → Prop) :
  emits P Q1 m → (∀ a l1, Q1 a l1 → finishes (λ l2 c, Q (l1 ++ l2) c) (k a)) → finishes Q (m ≫= k).
Proof.
  intros Hm Hk h r h' Hrun. unfold mbind, gom_bind in Hrun. destruct (m h) as [[a|e|p] h1] eqn:Hrun1;
    destruct (Hm _ _ _ Hrun1) as (l1 & -> & HP1 & HQ1).
  - eapply finishes_after; [exact HP1|by apply Hk, HQ1|exact Hrun].
  - injection Hrun as <- <-. exists l1. split; [done|]. by left.
  - injection Hrun as <- <-. exists l1. split; [done|]. by left.
Qed.

Definition failure (err : error) : Provision_Complete := mkProvisionComplete None (error_string err) [] [].
Lemma finishes_or_complete {A} (P' : tf_call → Prop) msg (m : GoM (list tf_call) A) k (Q1 : A → list tf_call → Prop) (Q : list tf_call → Provision_Complete → Prop) :
  (∀ c, P' c → P c) → emits P' Q1 m → (∀ a l1, Q1 a l1 → finishes (λ l2 c, Q (l1 ++ l2) c) (k a)) →
  (∀ l err, Forall P' l → Q l (failure err)) →
  finishes Q (or_complete msg m k).
Proof.
  intros HP Hm Hk Hfail h r h' Hrun. unfold or_complete in Hrun. destruct (m h) as [[a|e|p] h1] eqn:Hrun1;
    destruct (Hm _ _ _ Hrun1) as (l1 & -> & HP1' & HQ1); pose proof (Forall_impl _ _ _ HP1' HP) as HP1.
  - eapply finishes_after; [exact HP1|by apply Hk, HQ1|exact Hrun].
  - destruct (ctx_canceled _).
    + eapply finishes_after; [exact HP1|apply finishes_send, Hfail|exact Hrun]. by rewrite app_nil_r.
    + injection Hrun as <- <-. exists l1. split; [done|]. by left.
  - injection Hrun as <- <-. exists l1. split; [done|]. by left.
Qed.
Lemma finishes_or_state path (m : GoM (list tf_call) Provision_Complete) (Q1 : Provision_Complete → list tf_call → Prop)
    (Q : list tf_call → Provision_Complete → Prop) :
  emits P Q1 m → (∀ c l, Q1 c l → Q l c) →
  (∀ l state err, Q (l ++ [TfReadFile path state])
     (mkProvisionComplete (match state with inl _ => None | inr b => Some b end) (error_string err) [] [])) →
  finishes Q (or_state path m).
Proof.
  intros Hm HQ Hfail h r h' Hrun. unfold or_state in Hrun. destruct (m h) as [[a|e|p] h1] eqn:Hrun1;
    destruct (Hm _ _ _ Hrun1) as (l1 & -> & HP1 & HQ1).
  - eapply finishes_after; [exact HP1|apply finishes_send; rewrite app_nil_r; by apply HQ, HQ1|exact Hrun].
  - eapply finishes_after; [exact HP1| |exact Hrun].
    eapply finishes_bind; [apply (emits_asking _ _ (λ state l, l = [TfReadFile path state])); done|]. intros state l2 ->.
    apply finishes_send. rewrite app_nil_r. apply Hfail.
  - injection Hrun as <- <-. exists l1. split; [done|]. by left.
Qed.

Definition file (name : string) : string := filepath_Join [config.(Config_Directory); name].

(** A call made before a command of the request is tried: the only command is the one that
    initializes, and no file for a plan is created. *)
Definition preparing (c : tf_call) : Prop :=
  match c with
  | TfRun args _ _ => args = ["init"; "-no-color"; "-input=false"]
  | TfTempFile _ | TfRemove _ | TfShow _ _ _ | TfGraph _ _ _ => False
  | _ => True
  end.

(** What an outcome tells. Without an error it is that of nothing to destroy, or of the
    command of the request with its environment. One with an error says what went wrong;
    once an apply is tried, which is not before a file for its plan is created, it has the
    state file as it is read after everything else, if it can be read. *)
Definition outcome (metadata : Provision_Metadata) (request : Provision_Request) (l : list tf_call) (c : Provision_Complete) : Prop :=
  destroying metadata = true ∧ config.(Config_State) = [] ∧ c = mkProvisionComplete None EmptyString [] [] ∧
    Forall (λ x, is_run x = false) l ∨
  (∃ err, c = failure err ∧ Forall preparing l) ∨
  match request with
  | Provision_Request_Plan _ _ =>
      (∃ env vars, provisionEnv config params = Ok env ∧ planVars params = Ok vars ∧
        succeeded (plan_args (file "terraform.tfplan") vars (destroying metadata)) env l ∧ c.(Complete_Error) = EmptyString) ∨
      ∃ err, c = failure err
  | Provision_Request_Apply _ plan =>
      (∃ env, provisionEnv config params = Ok env ∧ applied plan env l ∧ c.(Complete_Error) = EmptyString) ∨
      ∃ before state err, l = before ++ [TfReadFile (file "terraform.tfstate") state] ∧
        c = mkProvisionComplete (match state with inl _ => None | inr b => Some b end) (error_string err) [] []
  | Provision_Request_Cancel => False
  end.

Lemma succeeded_app args env l1 l2 : succeeded args env l2 → succeeded args env (l1 ++ l2).
Proof. intros (out & ? & ?). exists out. set_solver. Qed.

(** Initializing is preparing. *)
Lemma emits_init ex : emits (λ c, P c ∧ preparing c) anything (executor_init ex).
Proof.
  assert (emits (λ c, P c ∧ preparing c) anything check_ctx) as Hctx.
  { unfold check_ctx, ctx_Err. apply emits_seq; [by apply emits_pure|]. eauto with emits. }
  assert (∀ l, emits (λ c, P c ∧ preparing c) anything (sink_logs l)) as Hsinks.
  { induction l as [|x l IH]; simpl; [by apply emits_ret|]. apply emits_seq; [|done].
    unfold sink_Log. apply emits_seq; [by apply emits_asking|]. intros. by apply emits_ret. }
  unfold executor_init, execWriteOutput. apply emits_seq; [exact Hctx|]. intros _.
  destruct (isCanarySet _); [apply emits_throw|].
  apply emits_seq; [apply emits_asking; [|done]; intros; split; [apply basicEnv_clean|done]|]. intros out.
  apply emits_seq; [by apply emits_pure|]. intros logs. apply emits_seq; [apply Hsinks|]. intros _.
  unfold of_error. destruct (run_error out); [apply emits_throw|by apply emits_ret].
Qed.

(** From the initialization on. *)
Lemma finishes_commands metadata request l0 :
  request_config request = Some (Some config, params) → Forall preparing l0 →
  finishes (λ l c, outcome metadata request (l0 ++ l) c)
    (or_complete "initialize terraform" (executor_init (mkExecutor cachePath config.(Config_Directory))) (λ _,
       env ← lift_res (provisionEnv config params);
       match request with
       | Provision_Request_Apply _ plan =>
           or_state (file "terraform.tfstate") (executor_apply (mkExecutor cachePath config.(Config_Directory)) fuel plan env)
       | _ =>
           vars ← lift_res (planVars params);
           or_complete "plan terraform" (executor_plan (mkExecutor cachePath config.(Config_Directory)) fuel env vars (destroying metadata))
             send_complete
       end)).
Proof.
  intros Hreq Hl0. apply (finishes_or_complete (λ c, P c ∧ preparing c) _ _ _ anything); [naive_solver|apply emits_init|..].
  - intros ? l1 _. eapply (finishes_bind _ _ (λ env l, provisionEnv config params = Ok env ∧ l = [])); [by apply emits_lift|].
    intros env l2 [Henv ->]. pose proof (provisionEnv_clean _ _ _ Henv) as Hclean.
    destruct request as [config' params'|config' plan|]; [| |done].
    + eapply (finishes_bind _ _ (λ vars l, planVars params = Ok vars ∧ l = [])); [by apply emits_lift|]. intros vars l3 [Hvars ->].
      eapply (finishes_or_complete P); [done|by apply emits_plan|intros c l4 [Hrun Herr]; apply finishes_send|].
      * right; right; left. exists env, vars. split_and!; [done..|by rewrite !app_nil_r; do 2 apply succeeded_app|done].
      * intros l err _. right; right; right. by exists err.
    + eapply finishes_or_state; [by apply emits_apply|intros c l [(planFile & Hw & Hrun) Herr]|].
      * right; right; left. exists env. split_and!; [done| |done]. exists planFile.
        split; [set_solver|]. by do 2 apply succeeded_app.
      * intros l state err. right; right; right. exists (l0 ++ l1 ++ [] ++ l), state, err. by rewrite !app_assoc.
  - intros l err Hl. right; left. exists err. split; [done|]. apply Forall_app. split; [done|].
    eapply Forall_impl; [exact Hl|]. naive_solver.
Qed.

(** The steps before the initialization prepare, and run nothing at all. *)
Definition prepared {A} : A → list tf_call → Prop := λ _ l, Forall (λ c, is_run c = false ∧ preparing c) l.
Lemma emits_prepared {A} (m : GoM (list tf_call) A) :
  emits (λ c, P c ∧ is_run c = false ∧ preparing c) anything m → emits P prepared m.
Proof.
  intros Hm h r h' Hrun. destruct (Hm _ _ _ Hrun) as (l & ? & Hl & _). exists l. split_and!; [done| |intros a _];
    (eapply Forall_impl; [exact Hl|]); naive_solver.
Qed.
Section prepared.
Abbreviation PP := (λ c, P c ∧ is_run c = false ∧ preparing c).
Hint Extern 1 (_ ∧ _) => split : emits.
Hint Extern 1 (before_outcome _ _ _) => exact I : emits.
Hint Extern 1 (preparing _) => exact I : emits.

Lemma prepared_sink l : emits PP anything (sink_Log l).
Proof. unfold sink_Log. eauto 10 with emits. Qed.
Hint Resolve prepared_sink : emits.
Lemma prepared_ctx : emits PP anything check_ctx.
Proof. unfold check_ctx, ctx_Err. apply emits_seq; [by apply emits_pure|]. eauto with emits. Qed.
Hint Resolve prepared_ctx : emits.
Lemma prepared_version : emits PP anything checkMinVersion.
Proof.
  unfold checkMinVersion, versionFromBinaryPath, of_sum, ctx_Err.
  assert (∀ err : error, emits PP (@anything go_version) ((canceled ← (λ h, (Ok (ctx_canceled h), h)); if (canceled : bool) then throw ErrCanceled else throw err))) as Herr.
  { intros err. apply emits_seq; [by apply emits_pure|]. eauto with emits. }
  eauto 20 with emits.
Qed.
Lemma prepared_log_env env : emits PP anything (log_env_vars env).
Proof. induction env as [|e env IH]; simpl; [eauto with emits|]. apply emits_seq; [|done]. repeat case_match; eauto with emits. Qed.
Lemma prepared_of_error e : emits PP anything (of_error e).
Proof. destruct e; [apply emits_throw|by apply emits_ret]. Qed.
End prepared.

(** C27: A request to plan or to apply, with its configuration and metadata, is answered with
    one outcome, as the last thing that is done, or the method fails without one. Before it
    only logs are sent, and no command but the one for its version sees a variable of the
    server that starts with [CODER_], other than those made for it. An outcome without an
    error means that there was nothing to destroy, or that the command of the request
    succeeded, for an apply on just the plan of the request. An outcome with an error comes
    from initializing, before any command of the request, or from the command. That of an
    apply has the state: the content of the state file, read after everything else the apply
    did, unless the file cannot be read. *)
Theorem provision_sound metadata request r h :
  request_config request = Some (Some config, params) → config.(Config_Metadata) = Some metadata →
  Provision fuel cachePath (inr (Some request)) [] = (r, h) →
  ∃ calls, Forall (before_outcome config params) calls ∧
    (h = calls ∧ (∀ u, r ≠ Ok u) ∨
     ∃ c reply, h = calls ++ [TfSend (Provision_Response_Complete c) reply] ∧
       r = (match reply with Some err => Err err | None => Ok tt end) ∧ outcome metadata request calls c).
Proof.
  intros Hreq Hmeta Hrun.
  enough (finishes (outcome metadata request) (Provision fuel cachePath (inr (Some request)))) as Hfin.
  { apply (Hfin [] r h Hrun). }
  unfold Provision. eapply (finishes_bind _ _ (λ q l, q = Some request ∧ l = [])); [by apply emits_ret|]. intros q l [-> ->].
  rewrite Hreq. eapply finishes_bind; [apply emits_prepared, prepared_version|]. intros ? l1 Hl1.
  eapply finishes_bind; [apply emits_prepared, prepared_log_env|]. intros ? l2 Hl2.
  eapply (finishes_bind _ _ prepared).
  { apply emits_prepared. destruct config.(Config_State) as [|b state]; [by apply emits_ret|].
    apply emits_seq; [by apply emits_asking|]. intros err. apply emits_wrap, prepared_of_error. }
  intros ? l3 Hl3. rewrite Hmeta. unfold provision_with. cbv zeta.
  assert (Forall (λ c, is_run c = false ∧ preparing c) (l1 ++ l2 ++ l3)) as Hl by (by repeat (apply Forall_app; split)).
  destruct (destroying metadata && _) eqn:Hnothing.
  - apply andb_true_iff in Hnothing as [Hd Hs%bool_decide_eq_true].
    eapply finishes_bind; [apply emits_prepared, prepared_sink|]. intros ? l4 Hl4. apply finishes_send.
    left. split_and!; [done..|]. rewrite app_nil_r. simpl. rewrite !app_assoc. rewrite !app_assoc in Hl.
    apply Forall_app. split; (eapply Forall_impl; [eassumption|naive_solver]).
  - eapply finishes_mono; [apply (finishes_commands metadata request (l1 ++ l2 ++ l3)); [done|]|].
    + eapply Forall_impl; [exact Hl|]. naive_solver.
    + intros l c. cbn beta. by rewrite <- !app_assoc.
Qed.
End provision.

(** ** Parsing *)

Section parse.
Context `{!TerraformEnv, !Tfconfig, !MapOrder, !MapOrderLaws}.

(** The schema of a variable; one that is sensitive is neither overridden nor shown again. *)
Definition schema_of (v : tf_Variable) (schema : proto_ParameterSchema) : Prop :=
  schema.(proto_ParameterSchema_Name) = v.(Variable_Name) ∧
  schema.(proto_ParameterSchema_ValidationValueType) = v.(Variable_Type) ∧
  schema.(proto_ParameterSchema_AllowOverrideSource) = negb v.(Variable_Sensitive) ∧
  schema.(proto_ParameterSchema_RedisplayValue) = negb v.(Variable_Sensitive) ∧
  schema.(proto_ParameterSchema_DefaultDestination) = Some ParameterDestination_PROVISIONER_VARIABLE ∧
  default_data v = Ok schema.(proto_ParameterSchema_DefaultSource).

Definition only_reads (c : tf_call) : Prop := match c with TfReadFile _ _ => True | _ => False end.

Lemma emits_convert v : emits only_reads (λ schema _, schema_of v schema) (convertVariableToParameter v).
Proof.
  unfold convertVariableToParameter.
  eapply (emits_bind _ _ (λ source _, default_data v = Ok source)); [by apply emits_lift|]. intros source l1 Hsource.
  destruct v.(Variable_Validations) as [|[[range|] message] _]; try by apply emits_ret.
  eapply (emits_bind _ _ anything).
  { apply emits_wrap. unfold read_file, of_sum. eapply (emits_bind _ _ anything); [by apply emits_asking|].
    intros r l2 _. destruct r; [apply emits_throw|by apply emits_ret]. }
  intros filedata l2 _. eapply (emits_bind _ _ anything); [by apply emits_lift|]. intros condition l3 _. by apply emits_ret.
Qed.
Lemma emits_convert_all vs : emits only_reads (λ schemas _, Forall2 schema_of vs schemas) (convert_variables vs).
Proof.
  induction vs as [|v vs IH]; simpl; [apply emits_ret; constructor|].
  eapply emits_bind; [apply emits_wrap, emits_convert|]. intros schema l1 Hs.
  eapply emits_bind; [exact IH|]. intros schemas l2 Hss. apply emits_ret. by constructor.
Qed.

Lemma compareSourcePos_asym x y : compareSourcePos x y = true → compareSourcePos y x = false.
Proof.
  unfold compareSourcePos. repeat case_bool_decide; simpl; try congruence; [rewrite Z.ltb_lt, Z.ltb_ge; lia|].
  intros Hxy. destruct (string_lt y.(Pos_Filename) x.(Pos_Filename)) eqn:Hyx; [|done].
  pose proof (string_lt_trans _ _ _ Hxy Hyx) as Hxx. by rewrite string_lt_irrefl in Hxx.
Qed.

(** The schemas of a module without errors are those of its variables, in the order of
    the files and their lines, whatever the order of the map they come in. *)
Lemma parse_schemas directory r h :
  terraform_Parse directory [] = (r, h) → r = Ok tt →
  ∃ vs schemas calls, vs ≡ₚ snd <$> map_to_list (LoadModule directory).1 ∧
    Sorted (not_after (λ a b, compareSourcePos a.(Variable_Pos) b.(Variable_Pos))) vs ∧ Forall2 schema_of vs schemas ∧
    Forall only_reads calls ∧ h = calls ++ [TfSendParse (Parse_Response_Complete schemas) None].
Proof.
  unfold terraform_Parse. destruct (LoadModule directory) as [variables diags]. simpl.
  destruct (existsb _ diags); [by intros [= <- <-]|].
  set (vs := sort_by _ _). intros Hrun ->. unfold mbind, gom_bind in Hrun.
  destruct (convert_variables vs []) as [[schemas|e|p] h1] eqn:Hconv; [|done..].
  destruct (emits_convert_all vs _ _ _ Hconv) as (calls & -> & Hcalls & Hschemas).
  unfold asking, of_error in Hrun. destruct (env_send_parse _ _) eqn:Hsend; [done|]. injection Hrun as <-.
  exists vs, schemas, calls. split_and!; [| |by apply Hschemas|done|done].
  - unfold vs. by rewrite (sort_by_perm _), (map_range_perm _).
  - apply sort_by_sorted. intros x y. apply compareSourcePos_asym.
Qed.
End parse.

(** ** Examples *)

Module TerraformExecExamples.
Import TerraformExamples.
#[local] Existing Instances attributes drawing forwards forwards_laws.
#[local] Instance scripts : AgentScripts := {| windowsScript := "w ${ARCH}"; linuxScript := "l ${ARCH}"; darwinScript := "d" |}.
#[local] Instance versions : GoVersion := {|
  go_version := unit; NewVersion _ := inr tt; GreaterThanOrEqual _ _ := true; version_String _ := "1.3.4"; minTerraformVersion := tt |}.

(** A server with a secret in its environment; commands succeed, but [failing] ones. *)
Definition secret : string := "CODER_PG_CONNECTION_URL=postgres://coder:secret@db".
Definition environment (failing : string) : TerraformEnv := {|
  os_Environ := [secret; "CODER_DONT_PASS=true"; "PATH=/bin"; "TF_TOKEN_app=hush"];
  on_linux := true;
  ctx_canceled _ := false;
  env_version _ := Decoded "1.3.4";
  env_run _ args _ := mkRunResult [] [] (if bool_decide (head args = Some failing) then Some (ErrNew "exit status 1") else None);
  env_show _ _ _ := Decoded (Some (Some state));
  env_graph _ _ _ := Decoded "digraph";
  env_write _ _ _ := None;
  env_readfile _ _ := inr (bytes_of "state");
  env_temp _ := inr "/tmp/plan";
  env_send _ _ := None;
  env_send_parse _ _ := None;
  merge_logs _ out err := out ++ err;
  unmarshal_line s := (mkProvisionLog EmptyString EmptyString None, false) |}.

Definition config : Provision_Config :=
  mkProvisionConfig "/work" (bytes_of "old")
    (Some (mkProvisionMetadata "https://coder" WorkspaceTransition_START "dev" "me" "1" "2" "me@coder.com")).
Definition run (failing : string) : res unit * list tf_call :=
  @Provision (environment failing) versions drawing forwards attributes scripts 10 EmptyString
    (inr (Some (Provision_Request_Apply (Some config) (bytes_of "plan")))) [].
Definition applied_run : res unit * list tf_call := Eval vm_compute in run "none".

Lemma provision_sound_witness :
  ∃ calls, Forall (@before_outcome (environment "none") forwards scripts config []) calls ∧
    (applied_run.2 = calls ∧ (∀ u, applied_run.1 ≠ Ok u) ∨
     ∃ c reply, applied_run.2 = calls ++ [TfSend (Provision_Response_Complete c) reply]).
Proof.
  destruct (@provision_sound (environment "none") versions drawing forwards attributes scripts 10 EmptyString config []
              (mkProvisionMetadata "https://coder" WorkspaceTransition_START "dev" "me" "1" "2" "me@coder.com")
              (Provision_Request_Apply (Some config) (bytes_of "plan")) applied_run.1 applied_run.2) as (calls & Hcalls & Hcase).
  - reflexivity.
  - reflexivity.
  - vm_compute. reflexivity.
  - exists calls. split; [exact Hcalls|]. destruct Hcase as [[Hh Hr]|(c & reply & Hh & _)]; [left|right]; [by split|by exists c, reply].
Defined.

(** The check that the environment was cleaned never finds that it was not: the name it
    compares is the whole entry. *)
Example canary_sings_not : isCanarySet (@os_Environ (environment "none")) = false.
Proof. by vm_compute. Qed.
(** The command that asks Terraform for its version gets the whole environment. *)
Definition version_env (c : tf_call) : list string := match c with TfVersion env _ => env | _ => [] end.
Example version_sees_secrets : secret ∈ applied_run.2 ≫= version_env.
Proof. vm_compute. left. Qed.

(** A failed apply reports the state it left. *)
Definition completes (c : tf_call) : list Provision_Complete :=
  match c with TfSend (Provision_Response_Complete c) _ => [c] | _ => [] end.
Example failed_apply_keeps_state :
  (run "apply").2 ≫= completes = [mkProvisionComplete (Some (bytes_of "state")) "terraform apply: exit status 1" [] []].
Proof. by vm_compute. Qed.
End TerraformExecExamples.
