(* ===== verification/Autobuild.v ===== *)
(** * Automatic starts and stops

    [coderd/autobuild/executor/lifecycle_executor.go] and
    [coderd/activitybump.go]. On a tick the executor looks at the workspaces with
    a schedule or a time to live and runs one transaction for each, on up to ten
    goroutines. The transactions are atomic and their order is not determined:
    [runOnce] takes the order they run in. What the executor logs, and the
    statistics of a run, which the deferred function assigns after they have been
    returned, are left out, except for the transitions. *)

From stdpp Require Import prelude gmap strings.
From S2P Require Import Prelude Models Queries ModelMethods Store StoreJobs StoreTemplates.
From S2P Require Import StoreWorkspaces World ProvisionerdServer Schedule.

Local Open Scope Z_scope.

Definition isEligibleForAutoStartStop (ws : Workspace) : bool :=
  negb ws.(Workspace_Deleted)
  && ((null_val ws.(Workspace_AutostartSchedule) != EmptyString) || (0 <? null_val ws.(Workspace_Ttl))).

Section executor.
Context `{!Environment, !UuidText, !Cron}.

(** The transition that comes next, and when. *)
Definition getNextTransition (ws : Workspace) (priorHistory : WorkspaceBuild) (priorJob : ProvisionerJob) :
    res (WorkspaceTransition * time) :=
  if negb (Valid priorJob.(ProvisionerJob_CompletedAt))
     || (null_val priorJob.(ProvisionerJob_Error) != EmptyString)
  then Err (ErrNew "last workspace build did not complete successfully")
  else
    match priorHistory.(WorkspaceBuild_Transition) with
    | WorkspaceTransitionStart =>
        if IsZero priorHistory.(WorkspaceBuild_Deadline)
        then Err (ErrNew "latest workspace build has zero deadline")
        else Ok (WorkspaceTransitionStop, priorHistory.(WorkspaceBuild_Deadline))
    | WorkspaceTransitionStop =>
        match Weekly (null_val ws.(Workspace_AutostartSchedule)) with
        | Err e => Err (ErrWrap "workspace has invalid autostart schedule" e)
        | Panic p => Panic p
        | Ok sched => Ok (WorkspaceTransitionStart,
                          Truncate (Schedule_Next sched priorHistory.(WorkspaceBuild_CreatedAt)) Minute)
        end
    | _ => Err (ErrNew "last transition not valid for autostart or autostop")
    end.

Definition auto_reason (trans : WorkspaceTransition) : res BuildReason :=
  match trans with
  | WorkspaceTransitionStart => Ok BuildReasonAutostart
  | WorkspaceTransitionStop => Ok BuildReasonAutostop
  | _ => Err (ErrNew ("Unsupported transition: " +:+ quote (WorkspaceTransition_string trans)))
  end.

Definition executor_build (workspace : Workspace) (trans : WorkspaceTransition) (priorHistory : WorkspaceBuild)
    (priorJob : ProvisionerJob) : GoM world unit :=
  template ← wrap "get workspace template" (query (GetTemplateByID workspace.(Workspace_TemplateID)));
  workspaceBuildID ← uuid_New;
  provisionerJobID ← uuid_New;
  now ← Now;
  buildReason ← lift_res (auto_reason trans);
  newProvisionerJob ← wrap "insert provisioner job" (store (InsertProvisionerJob {|
    InsertProvisionerJobParams_ID := provisionerJobID;
    InsertProvisionerJobParams_CreatedAt := now;
    InsertProvisionerJobParams_UpdatedAt := now;
    InsertProvisionerJobParams_OrganizationID := template.(Template_OrganizationID);
    InsertProvisionerJobParams_InitiatorID := workspace.(Workspace_OwnerID);
    InsertProvisionerJobParams_Provisioner := template.(Template_Provisioner);
    InsertProvisionerJobParams_StorageMethod := priorJob.(ProvisionerJob_StorageMethod);
    InsertProvisionerJobParams_FileID := priorJob.(ProvisionerJob_FileID);
    InsertProvisionerJobParams_Type := ProvisionerJobTypeWorkspaceBuild;
    InsertProvisionerJobParams_Input :=
      RawValue (JObject [("workspace_build_id", JString (uuid_String workspaceBuildID))]);
    InsertProvisionerJobParams_Tags := priorJob.(ProvisionerJob_Tags) |}));
  void (wrap "insert workspace build" (store (InsertWorkspaceBuild {|
    InsertWorkspaceBuildParams_ID := workspaceBuildID;
    InsertWorkspaceBuildParams_CreatedAt := now;
    InsertWorkspaceBuildParams_UpdatedAt := now;
    InsertWorkspaceBuildParams_WorkspaceID := workspace.(Workspace_ID);
    InsertWorkspaceBuildParams_TemplateVersionID := priorHistory.(WorkspaceBuild_TemplateVersionID);
    InsertWorkspaceBuildParams_BuildNumber := int32_wrap (priorHistory.(WorkspaceBuild_BuildNumber) + 1);
    InsertWorkspaceBuildParams_Transition := trans;
    InsertWorkspaceBuildParams_InitiatorID := workspace.(Workspace_OwnerID);
    InsertWorkspaceBuildParams_JobID := newProvisionerJob.(ProvisionerJob_ID);
    InsertWorkspaceBuildParams_ProvisionerState := priorHistory.(WorkspaceBuild_ProvisionerState);
    InsertWorkspaceBuildParams_Deadline := time_zero;
    InsertWorkspaceBuildParams_Reason := buildReason |}))).

(** What the transaction of a workspace decides, from the tables alone: the rows
    it looked at and the transition that is due. *)
Definition due (currentTick : time) (wsID : uuid) (q : data) :
    res (option (Workspace * WorkspaceBuild * ProvisionerJob * WorkspaceTransition)) :=
  match GetWorkspaceByID wsID q with
  | Err _ => Ok None
  | Panic p => Panic p
  | Ok ws =>
  if negb (isEligibleForAutoStartStop ws) then Ok None else
  match GetLatestWorkspaceBuildByWorkspaceID ws.(Workspace_ID) q with
  | Err _ => Ok None
  | Panic p => Panic p
  | Ok priorHistory =>
  match GetProvisionerJobByID priorHistory.(WorkspaceBuild_JobID) q with
  | Err _ => Ok None
  | Panic p => Panic p
  | Ok priorJob =>
  match getNextTransition ws priorHistory priorJob with
  | Err _ => Ok None
  | Panic p => Panic p
  | Ok (validTransition, nextTransition) =>
      if Before currentTick nextTransition then Ok None
      else Ok (Some (ws, priorHistory, priorJob, validTransition))
  end end end end.

(** The transaction of a workspace: the transition it made. The errors of a
    build are logged. *)
Definition transact (currentTick : time) (wsID : uuid) : GoM world (option (uuid * WorkspaceTransition)) :=
  d ← query (due currentTick wsID);
  match d with
  | None => mret None
  | Some (ws, priorHistory, priorJob, validTransition) =>
      _ ← attempt (executor_build ws validTransition priorHistory priorJob);
      mret (Some (ws.(Workspace_ID), validTransition))
  end.

(** The transactions of a run, in the order they are scheduled. *)
Fixpoint transactions (currentTick : time) (order : list uuid) (transitions : gmap uuid WorkspaceTransition) :
    GoM world (gmap uuid WorkspaceTransition) :=
  match order with
  | [] => mret transitions
  | wsID :: order =>
      made ← transact currentTick wsID;
      transactions currentTick order
        match made with
        | None => transitions
        | Some (id, trans) => <[id := trans]> transitions
        end
  end.

(** The workspaces a tick looks at. *)
Definition eligible_ids : GoM world (list uuid) :=
  rows ← query_now (λ now, GetWorkspaces now GetWorkspacesParams_zero);
  mret (Workspace_ID <$> filter (λ ws, isEligibleForAutoStartStop ws = true) (ConvertWorkspaceRows rows)).

(** A run at time [t] whose transactions are scheduled by [permute]. *)
Definition runOnce (permute : list uuid → list uuid) (t : time) : GoM world (gmap uuid WorkspaceTransition) :=
  ids ← attempt eligible_ids;
  match ids with
  | inl _ => mret ∅
  | inr ids => transactions (Truncate t Minute) (permute ids) ∅
  end.

(** ** [activitybump.go] *)

Definition bumpAmount : duration := Hour.
Definition bumpThreshold : duration := Hour - Minute * 10.

(** The transaction; the errors are logged. *)
Definition activity_bump (workspaceID : uuid) : GoM world unit :=
  b ← attempt (query (GetLatestWorkspaceBuildByWorkspaceID workspaceID));
  match b with
  | inl err => if errors_Is err ErrNoRows then mret tt else throw (ErrWrap "get latest workspace build" err)
  | inr build =>
      job ← wrap "get provisioner job" (query (GetProvisionerJobByID build.(WorkspaceBuild_JobID)));
      if (build.(WorkspaceBuild_Transition) != WorkspaceTransitionStart)
         || negb (Valid job.(ProvisionerJob_CompletedAt)) then mret tt
      else if IsZero build.(WorkspaceBuild_Deadline) then mret tt
      else
        now ← time_Now;
        if negb (Before build.(WorkspaceBuild_Deadline) (Add now bumpThreshold)) then mret tt
        else
          dbNow ← Now;
          updatedAt ← Now;
          void (wrap "update workspace build" (store (UpdateWorkspaceBuildByID {|
            UpdateWorkspaceBuildByIDParams_ID := build.(WorkspaceBuild_ID);
            UpdateWorkspaceBuildByIDParams_UpdatedAt := updatedAt;
            UpdateWorkspaceBuildByIDParams_ProvisionerState := build.(WorkspaceBuild_ProvisionerState);
            UpdateWorkspaceBuildByIDParams_Deadline := Add dbNow bumpAmount |})))
  end.

Definition activityBumpWorkspace (workspaceID : uuid) : GoM world unit :=
  void (attempt (activity_bump workspaceID)).
End executor.
