(* ===== verification/AutobuildProps.v ===== *)
(** * Properties of automatic builds

    What the transaction of a workspace does to the store, that a run builds each
    workspace at most once whatever order its transactions are scheduled in, and
    that activity only moves a deadline forward. *)

From stdpp Require Import prelude gmap strings.
From S2P Require Import Prelude Cryptorand Models Queries ModelMethods Store StoreJobs StoreTemplates.
From S2P Require Import StoreWorkspaces StoreProps World ProvisionerdServer Schedule Autobuild.

Local Open Scope Z_scope.

(** ** Appending rows *)

Lemma first_row_snoc {A} (P : A → bool) l x y : first_row P l = Ok y → first_row P (l ++ [x]) = Ok y.
Proof. unfold first_row. rewrite find_first_snoc. by destruct (find_first P l). Qed.
Lemma first_row_fresh {A} (P : A → bool) l x :
  (∀ y, y ∈ l → P y = false) → P x = true → first_row P (l ++ [x]) = Ok x.
Proof.
  intros Hl Hx. unfold first_row. rewrite find_first_snoc, Hx.
  destruct (find_first_spec P l) as [(pre & y & post & -> & _ & Hy & _)|[_ ->]]; [|done].
  rewrite Hl in Hy; [done|set_solver].
Qed.
Lemma first_row_elem {A} (P : A → bool) l x : first_row P l = Ok x → x ∈ l ∧ P x = true.
Proof.
  unfold first_row. destruct (find_first_spec P l) as [(pre & y & post & -> & _ & Hy & ->)|[_ ->]]; [|done].
  intros [= <-]. split; [set_solver|done].
Qed.

(** ** The numbers of builds *)

(** No build number is negative, and no two builds of a workspace have the same. *)
Definition numbered (q : data) : Prop :=
  Forall (λ b, 0 <= b.(WorkspaceBuild_BuildNumber)) q.(workspaceBuilds) ∧
  NoDup ((λ b, (b.(WorkspaceBuild_WorkspaceID), b.(WorkspaceBuild_BuildNumber))) <$> q.(workspaceBuilds)).

Definition add_build (b : WorkspaceBuild) (q : data) : data := q <| workspaceBuilds := q.(workspaceBuilds) ++ [b] |>.

(** A build with a number above those of its workspace. *)
Definition above (b : WorkspaceBuild) (q : data) : Prop :=
  0 <= b.(WorkspaceBuild_BuildNumber) ∧
  ∀ b', b' ∈ q.(workspaceBuilds) → b'.(WorkspaceBuild_WorkspaceID) = b.(WorkspaceBuild_WorkspaceID) →
    b'.(WorkspaceBuild_BuildNumber) < b.(WorkspaceBuild_BuildNumber).

Lemma numbered_add b q : numbered q → above b q → numbered (add_build b q).
Proof.
  intros [Hpos Hdup] [H0 Habove]. split; simpl.
  - apply Forall_app_2; [done|by constructor].
  - rewrite fmap_app, NoDup_app. split_and!; [done| |apply NoDup_singleton].
    intros [ws n] (b' & [= -> ->] & Hb')%list_elem_of_fmap. simpl. rewrite list_elem_of_singleton.
    intros [= Heq Hn]. specialize (Habove b' Hb' Heq). lia.
Qed.

Lemma above_latest b p q :
  numbered q → GetLatestWorkspaceBuildByWorkspaceID b.(WorkspaceBuild_WorkspaceID) q = Ok p →
  b.(WorkspaceBuild_BuildNumber) = p.(WorkspaceBuild_BuildNumber) + 1 → above b q.
Proof.
  intros [Hpos _] Hp Hb. destruct (latest_build_spec b.(WorkspaceBuild_WorkspaceID) q Hpos)
    as [(p' & Hp' & Hin & _ & Hmax)|[He _]]; [|congruence].
  rewrite Hp in Hp'. injection Hp' as <-. rewrite Forall_forall in Hpos. specialize (Hpos _ Hin). simpl in Hpos.
  split; [lia|]. intros b' Hb' Hws. specialize (Hmax _ Hb' Hws). lia.
Qed.

(** The latest build once one is added. *)
Lemma latest_add ws b q :
  numbered q → above b q →
  GetLatestWorkspaceBuildByWorkspaceID ws (add_build b q) =
    if b.(WorkspaceBuild_WorkspaceID) == ws then Ok b else GetLatestWorkspaceBuildByWorkspaceID ws q.
Proof.
  intros [Hpos _] [H0 Habove]. unfold GetLatestWorkspaceBuildByWorkspaceID. simpl. rewrite foldl_snoc.
  pose proof (latest_ok_fold ws _ Hpos) as Hok. destruct (foldl _ _ _) as [row n]. unfold latest_ok in Hok.
  simpl in Hok. unfold latest_build_step at 1. simpl. case_bool_decide as Hws; simpl; [|done].
  assert (n < b.(WorkspaceBuild_BuildNumber)) as Hlt.
  { destruct Hok as [[-> _]|(Hin & Hrow & -> & _ & _)]; [lia|]. apply Habove; congruence. }
  rewrite (proj2 (Z.ltb_lt _ _) Hlt), bool_decide_eq_false_2 by lia. done.
Qed.

(** ** One transaction *)

Definition add_job (j : ProvisionerJob) (q : data) : data := q <| provisionerJobs := q.(provisionerJobs) ++ [j] |>.

Section executor.
Context `{!Environment, !UuidText, !Cron}.

(** The job and the build that are queued for a transition after [prior]. *)
Record queued (w : world) (row : Workspace) (prior : WorkspaceBuild) (trans : WorkspaceTransition)
    (j : ProvisionerJob) (b : WorkspaceBuild) : Prop := mkqueued {
  queued_job : j.(ProvisionerJob_ID) = new_uuid (S w.(uuids));
  queued_input : j.(ProvisionerJob_Input) =
    RawValue (JObject [("workspace_build_id", JString (uuid_String b.(WorkspaceBuild_ID)))]);
  queued_waits : Valid j.(ProvisionerJob_StartedAt) = false ∧ Valid j.(ProvisionerJob_CompletedAt) = false;
  queued_build_job : b.(WorkspaceBuild_JobID) = j.(ProvisionerJob_ID);
  queued_workspace : b.(WorkspaceBuild_WorkspaceID) = row.(Workspace_ID);
  queued_number : b.(WorkspaceBuild_BuildNumber) = int32_wrap (prior.(WorkspaceBuild_BuildNumber) + 1);
  queued_transition : b.(WorkspaceBuild_Transition) = trans;
  queued_version : b.(WorkspaceBuild_TemplateVersionID) = prior.(WorkspaceBuild_TemplateVersionID);
}.

Lemma executor_build_run row trans prior pjob w :
  (executor_build row trans prior pjob w).2.(db) = w.(db) ∨
  ∃ j b, (executor_build row trans prior pjob w).2.(db) = add_build b (add_job j w.(db)) ∧
         queued w row prior trans j b.
Proof.
  unfold executor_build, mbind, gom_bind, wrap, query, lift_res, store, zoom, void, mret, gom_ret.
  destruct (GetTemplateByID _ _) as [template|e|p]; [|by left..]. cbn.
  destruct (auto_reason trans) as [reason|e|p]; [|by left..]. right. by eexists _, _.
Qed.

Lemma executor_build_uuids row trans prior pjob w :
  (w.(uuids) <= (executor_build row trans prior pjob w).2.(uuids) ∧
   ((executor_build row trans prior pjob w).2.(db) ≠ w.(db) →
    S (S w.(uuids)) <= (executor_build row trans prior pjob w).2.(uuids)))%nat.
Proof.
  unfold executor_build, mbind, gom_bind, wrap, query, lift_res, store, zoom, void, mret, gom_ret.
  destruct (GetTemplateByID _ _) as [template|e|p]; [|by split; [|intros []]..]. cbn.
  destruct (auto_reason trans) as [reason|e|p]; (split; [|intros _]); simpl; lia.
Qed.

Lemma transact_state tick id w :
  (transact tick id w).2 =
    match due tick id w.(db) with
    | Ok (Some (row, prior, pjob, trans)) => (executor_build row trans prior pjob w).2
    | _ => w
    end.
Proof.
  unfold transact, mbind, gom_bind, query, attempt, mret, gom_ret.
  destruct (due tick id w.(db)) as [[[[[row prior] pjob] trans]|]|e|p]; try done.
  by destruct (executor_build row trans prior pjob w) as [[]].
Qed.

(** What a transaction does: nothing, or it queues the build that is due. *)
Lemma transact_run tick id w :
  (transact tick id w).2.(db) = w.(db) ∨
  ∃ row prior pjob trans j b,
    due tick id w.(db) = Ok (Some (row, prior, pjob, trans)) ∧ queued w row prior trans j b ∧
    (transact tick id w).2.(db) = add_build b (add_job j w.(db)).
Proof.
  rewrite transact_state. destruct (due tick id w.(db)) as [[[[[row prior] pjob] trans]|]|e|p]; [|by left..].
  destruct (executor_build_run row trans prior pjob w) as [->|(j & b & -> & Hq)]; [by left|right].
  by exists row, prior, pjob, trans, j, b.
Qed.
Lemma transact_uuids tick id w :
  (w.(uuids) <= (transact tick id w).2.(uuids) ∧
   ((transact tick id w).2.(db) ≠ w.(db) → S (S w.(uuids)) <= (transact tick id w).2.(uuids)))%nat.
Proof.
  rewrite transact_state. destruct (due tick id w.(db)) as [[[[[row prior] pjob] trans]|]|e|p]; try done.
  apply executor_build_uuids.
Qed.

(** What makes a transition due. *)
Lemma due_spec tick id q row prior pjob trans :
  due tick id q = Ok (Some (row, prior, pjob, trans)) →
  row ∈ q.(workspaces) ∧ row.(Workspace_ID) = id ∧ row.(Workspace_Deleted) = false ∧
  GetLatestWorkspaceBuildByWorkspaceID id q = Ok prior ∧
  GetProvisionerJobByID prior.(WorkspaceBuild_JobID) q = Ok pjob ∧
  Valid pjob.(ProvisionerJob_CompletedAt) = true ∧ null_val pjob.(ProvisionerJob_Error) = EmptyString ∧
  match prior.(WorkspaceBuild_Transition) with
  | WorkspaceTransitionStart =>
      trans = WorkspaceTransitionStop ∧ IsZero prior.(WorkspaceBuild_Deadline) = false ∧
      prior.(WorkspaceBuild_Deadline) <= tick
  | WorkspaceTransitionStop =>
      trans = WorkspaceTransitionStart ∧
      ∃ sched, Weekly (null_val row.(Workspace_AutostartSchedule)) = Ok sched ∧
        Truncate (Schedule_Next sched prior.(WorkspaceBuild_CreatedAt)) Minute <= tick
  | _ => False
  end.
Proof.
  unfold due. destruct (GetWorkspaceByID id q) as [ws|e|p] eqn:Hws; [|done..].
  apply first_row_elem in Hws as [Hin Hid%bool_decide_eq_true].
  destruct (isEligibleForAutoStartStop ws) eqn:Hel; [|done]. cbn [negb]. rewrite Hid.
  destruct (GetLatestWorkspaceBuildByWorkspaceID id q) as [b|e|p]; [|done..].
  destruct (GetProvisionerJobByID _ q) as [job|e|p] eqn:Hjob; [|done..].
  destruct (getNextTransition ws b job) as [[tr next]|e|p] eqn:Hnext; [|done..].
  destruct (Before tick next) eqn:Hbefore; [done|]. intros [= -> -> -> ->].
  unfold isEligibleForAutoStartStop in Hel. apply andb_prop in Hel as [Hdel _].
  unfold getNextTransition in Hnext. unfold Before in Hbefore. apply Z.ltb_ge in Hbefore.
  destruct (Valid pjob.(ProvisionerJob_CompletedAt)); [|done]. simpl in Hnext. case_bool_decide as Herr; [|done].
  split_and!; [done|done|by destruct (Workspace_Deleted row)|done|done|done|done|].
  destruct (WorkspaceBuild_Transition prior); try done.
  - destruct (IsZero _); [done|]. by injection Hnext as [= <- <-].
  - destruct (Weekly _) as [sched| |] eqn:Hw; try done. injection Hnext as [= <- <-].
    split; [done|]. by exists sched.
Qed.

(** ** A run *)

Definition builds_of (ws : uuid) (q : data) : list WorkspaceBuild :=
  filter (λ b, b.(WorkspaceBuild_WorkspaceID) = ws) q.(workspaceBuilds).

(** The IDs to come are those of no job. *)
Definition fresh_jobs (w : world) : Prop :=
  ∀ n, (w.(uuids) <= n)%nat → ∀ j, j ∈ w.(db).(provisionerJobs) → j.(ProvisionerJob_ID) ≠ new_uuid n.

(** A workspace with a build under way, and none before. *)
Definition under_way (ws : uuid) (b : WorkspaceBuild) (q : data) : Prop :=
  GetLatestWorkspaceBuildByWorkspaceID ws q = Ok b ∧
  ∃ j, GetProvisionerJobByID b.(WorkspaceBuild_JobID) q = Ok j ∧ Valid j.(ProvisionerJob_CompletedAt) = false.

Lemma under_way_not_due ws b q tick : under_way ws b q → due tick ws q = Ok None.
Proof.
  intros (Hb & j & Hj & Hc). unfold due.
  destruct (GetWorkspaceByID ws q) as [row|e|p] eqn:Hrow; [|done|].
  - apply first_row_elem in Hrow as [_ Hid%bool_decide_eq_true].
    destruct (isEligibleForAutoStartStop row); [|done]. cbn [negb].
    rewrite Hid, Hb, Hj. unfold getNextTransition. by rewrite Hc.
  - unfold GetWorkspaceByID, first_row in Hrow. by destruct (find_first _ _).
Qed.

(** What holds of the store during a run that started on [q0]. *)
Definition run_inv (q0 : data) (w : world) : Prop :=
  numbered w.(db) ∧ fresh_jobs w ∧
  ∀ ws, builds_of ws w.(db) = builds_of ws q0 ∨
        ∃ b, builds_of ws w.(db) = builds_of ws q0 ++ [b] ∧ under_way ws b w.(db).

Lemma builds_of_add ws b j q :
  builds_of ws (add_build b (add_job j q)) =
    builds_of ws q ++ (if decide (b.(WorkspaceBuild_WorkspaceID) = ws) then [b] else []).
Proof. unfold builds_of. simpl. rewrite filter_app. done. Qed.

Context (new_uuid_inj : ∀ n m, new_uuid n = new_uuid m → n = m).

(** The build is added to a workspace that has had none in the run. *)
Lemma run_inv_add q0 w w' row prior pjob trans j b tick :
  (∀ b, b ∈ q0.(workspaceBuilds) → b.(WorkspaceBuild_BuildNumber) < 2 ^ 31 - 1) →
  run_inv q0 w → due tick row.(Workspace_ID) w.(db) = Ok (Some (row, prior, pjob, trans)) →
  queued w row prior trans j b → w'.(db) = add_build b (add_job j w.(db)) →
  (S (S w.(uuids)) <= w'.(uuids))%nat → run_inv q0 w'.
Proof.
  intros Hmax (Hnum & Hfresh & Hws) Hdue Hq Hdb Huuids. destruct Hq as [Hjob _ [_ Hwaits] Hbj Hbws Hn _ _].
  destruct (due_spec _ _ _ _ _ _ _ Hdue) as (_ & _ & _ & Hlatest & Hpjob & Hdone & _).
  assert (builds_of row.(Workspace_ID) w.(db) = builds_of row.(Workspace_ID) q0) as Hnone.
  { destruct (Hws row.(Workspace_ID)) as [?|(b' & _ & Hunder)]; [done|].
    by rewrite (under_way_not_due _ _ _ tick Hunder) in Hdue. }
  assert (prior ∈ builds_of row.(Workspace_ID) w.(db)) as Hprior.
  { destruct (latest_build_spec row.(Workspace_ID) w.(db) (proj1 Hnum)) as [(p & Hp & Hin & Hpws & _)|[? _]];
      [|congruence]. apply list_elem_of_filter. rewrite Hlatest in Hp. by injection Hp as <-. }
  assert (0 <= prior.(WorkspaceBuild_BuildNumber) < 2 ^ 31 - 1) as Hbound.
  { split; [|rewrite Hnone in Hprior; apply list_elem_of_filter in Hprior as [_ ?]; by apply Hmax].
    apply list_elem_of_filter in Hprior as [_ Hin]. by apply (proj1 (Forall_forall _ _) (proj1 Hnum)). }
  rewrite int32_wrap_small in Hn by lia.
  assert (above b w.(db)) as Habove by (eapply above_latest; [done|by rewrite Hbws|done]).
  split_and!.
  - rewrite Hdb. by apply numbered_add.
  - intros n Hle j'. rewrite Hdb. simpl. rewrite elem_of_app, list_elem_of_singleton. intros [Hj'| ->].
    + apply Hfresh; [lia|done].
    + rewrite Hjob. intros Heq%new_uuid_inj. lia.
  - intros ws. rewrite Hdb, builds_of_add. unfold under_way.
    rewrite latest_add by done. rewrite Hbws. case_bool_decide as Heq; case_decide; try done.
    + right. exists b. subst ws. rewrite Hnone. split_and!; [done|done|]. exists j. split; [|done].
      apply first_row_fresh; [|by rewrite Hbj, bool_decide_eq_true_2].
      intros j' Hj'. rewrite Hbj, Hjob. apply bool_decide_eq_false_2. apply Hfresh; [lia|done].
    + rewrite app_nil_r. destruct (Hws ws) as [?|(b' & Hb' & Hl & j' & Hj' & Hc)]; [by left|right].
      exists b'. split_and!; [done|done|]. exists j'. split; [|done]. by apply first_row_snoc.
Qed.

Lemma run_inv_transactions q0 tick order transitions w :
  (∀ b, b ∈ q0.(workspaceBuilds) → b.(WorkspaceBuild_BuildNumber) < 2 ^ 31 - 1) →
  run_inv q0 w → run_inv q0 (transactions tick order transitions w).2.
Proof.
  intros Hmax. revert transitions w. induction order as [|id order IH]; intros transitions w Hw; [done|].
  assert (run_inv q0 (transact tick id w).2) as Hstep.
  { destruct (transact_uuids tick id w) as [Hle Hlt].
    destruct (transact_run tick id w) as [Heq|(row & prior & pjob & trans & j & b & Hdue & Hq & Hdb)].
    - destruct Hw as (Hnum & Hfresh & Hws). split_and!; rewrite ?Heq; [done| |done].
      intros n Hn j. rewrite Heq. apply Hfresh. lia.
    - assert (row.(Workspace_ID) = id) as <- by by apply due_spec in Hdue as (_ & ? & _).
      eapply run_inv_add; try done. apply Hlt. rewrite Hdb. intros Heq.
      apply (f_equal (λ q, length q.(provisionerJobs))) in Heq. simpl in Heq. rewrite length_app in Heq.
      simpl in Heq. lia. }
  cbn [transactions]. unfold mbind, gom_bind. destruct (transact tick id w) as [[made|e|p] w1]; [|done..].
  by apply IH.
Qed.

Lemma eligible_ids_state w : (eligible_ids w).2 = w.
Proof.
  unfold eligible_ids, mbind, gom_bind. pose proof (preserves_query_now (λ now, GetWorkspaces now GetWorkspacesParams_zero) id w) as Hq.
  destruct (query_now _ w) as [[]]; exact Hq.
Qed.

(** C7: a run of the lifecycle executor builds a workspace at most once, in
    whatever order its transactions are scheduled and however often. The build
    numbers stay unique, and until the job of the new build completes no tick
    finds anything due for the workspace. (The IDs drawn are new, and no build
    has the last 32-bit number.) *)
Theorem runOnce_builds_once (permute : list uuid → list uuid) (t : time) (w : world)
    (Hnum : numbered w.(db)) (Hfresh : fresh_jobs w)
    (Hmax : ∀ b, b ∈ w.(db).(workspaceBuilds) → b.(WorkspaceBuild_BuildNumber) < 2 ^ 31 - 1) :
  let q' := (runOnce permute t w).2.(db) in
  numbered q' ∧ ∀ ws,
    builds_of ws q' = builds_of ws w.(db) ∨
    ∃ b, builds_of ws q' = builds_of ws w.(db) ++ [b] ∧ ∀ tick, due tick ws q' = Ok None.
Proof.
  assert (run_inv w.(db) w) as Hw by (split_and!; [done..|by left]).
  assert (run_inv w.(db) (runOnce permute t w).2) as (Hnum' & _ & Hws).
  { unfold runOnce, mbind, gom_bind, attempt. pose proof (eligible_ids_state w) as Hids.
    destruct (eligible_ids w) as [[ids|e|p] w1]; simpl in Hids; subst w1; [|done..]. by apply run_inv_transactions. }
  split; [done|]. intros ws. destruct (Hws ws) as [?|(b & ? & ?)]; [by left|right].
  exists b. split; [done|]. intros tick. by eapply under_way_not_due.
Qed.
End executor.

Section sound.
Context `{!Environment, !UuidText, !Cron}.

(** C10: the executor only does what is due. A transaction that changes the store
    is for a workspace that is not deleted and whose last build completed without
    an error. It stops a started workspace at or after its deadline, or starts a
    stopped one at or after the next time of its schedule, and it adds one
    waiting job, which names the build, and one build, of the same version and
    with the next number, and changes nothing else. *)
Theorem transact_sound (tick : time) (id : uuid) (w : world)
    (Hchange : (transact tick id w).2.(db) ≠ w.(db)) :
  ∃ row prior pjob trans j b,
    row ∈ w.(db).(workspaces) ∧ row.(Workspace_ID) = id ∧ row.(Workspace_Deleted) = false ∧
    GetLatestWorkspaceBuildByWorkspaceID id w.(db) = Ok prior ∧
    GetProvisionerJobByID prior.(WorkspaceBuild_JobID) w.(db) = Ok pjob ∧
    Valid pjob.(ProvisionerJob_CompletedAt) = true ∧ null_val pjob.(ProvisionerJob_Error) = EmptyString ∧
    match prior.(WorkspaceBuild_Transition) with
    | WorkspaceTransitionStart =>
        trans = WorkspaceTransitionStop ∧ IsZero prior.(WorkspaceBuild_Deadline) = false ∧
        prior.(WorkspaceBuild_Deadline) <= tick
    | WorkspaceTransitionStop =>
        trans = WorkspaceTransitionStart ∧
        ∃ sched, Weekly (null_val row.(Workspace_AutostartSchedule)) = Ok sched ∧
          Truncate (Schedule_Next sched prior.(WorkspaceBuild_CreatedAt)) Minute <= tick
    | _ => False
    end ∧
    queued w row prior trans j b ∧ (transact tick id w).2.(db) = add_build b (add_job j w.(db)).
Proof.
  destruct (transact_run tick id w) as [?|(row & prior & pjob & trans & j & b & Hdue & Hq & Hdb)]; [done|].
  exists row, prior, pjob, trans, j, b.
  destruct (due_spec _ _ _ _ _ _ _ Hdue) as (? & ? & ? & ? & ? & ? & ? & ?). by split_and!.
Qed.
End sound.

(** ** Activity *)

Lemma Round_near t d : 0 < d → t - d < Round t d <= t + d.
Proof.
  intros Hd. unfold Round. destruct (Z.leb_spec d 0); [lia|]. cbv zeta.
  pose proof (Z.mod_pos_bound t d Hd). destruct (Z.ltb_spec (t mod d + t mod d) d); lia.
Qed.

Section activity.
Context `{!Environment}.

(** Update the first row of an ID that no other row has. *)

(** Activity only ever moves the deadline of a running workspace forward.
    [activityBumpWorkspace] leaves the store as it is, or replaces the deadline of
    the latest build of the workspace, a completed start that has one, by a later
    one, an hour (to the microsecond) after the clock. *)
Theorem activityBump_extends (id : uuid) (w : world)
    (Hclock : clock w.(ticks) <= clock (S w.(ticks))) (Hnum : numbered w.(db))
    (Hids : NoDup (WorkspaceBuild_ID <$> w.(db).(workspaceBuilds))) :
  let q' := (activityBumpWorkspace id w).2.(db) in
  q' = w.(db) ∨
  ∃ pre b post updatedAt deadline,
    w.(db).(workspaceBuilds) = pre ++ b :: post ∧
    q' = w.(db) <| workspaceBuilds := pre ++ b <| WorkspaceBuild_UpdatedAt := updatedAt |>
                                              <| WorkspaceBuild_Deadline := deadline |> :: post |> ∧
    GetLatestWorkspaceBuildByWorkspaceID id w.(db) = Ok b ∧
    b.(WorkspaceBuild_Transition) = WorkspaceTransitionStart ∧ IsZero b.(WorkspaceBuild_Deadline) = false ∧
    b.(WorkspaceBuild_Deadline) < deadline <= clock (S w.(ticks)) + Hour + Microsecond.
Proof.
  unfold activityBumpWorkspace, activity_bump, void, attempt, mbind, gom_bind, wrap, query, mret, gom_ret, throw,
    Now, time_Now, store, zoom. cbn zeta.
  destruct (latest_build_spec id w.(db) (proj1 Hnum)) as [(b & Hb & Hin & _)|[He _]]; [rewrite Hb|by rewrite He; left].
  destruct (GetProvisionerJobByID _ _) as [job|e|p]; [|by left..]. cbn.
  destruct (negb _ || negb _) eqn:Hstart; [by left|]. destruct (IsZero _) eqn:Hzero; [by left|].
  destruct (negb (Before _ _)) eqn:Hbefore; [by left|]. right.
  apply orb_false_elim in Hstart as [Hstart _]. apply negb_false_iff, bool_decide_eq_true in Hstart.
  apply negb_false_iff, Z.ltb_lt in Hbefore.
  destruct (update_first_split WorkspaceBuild_ID (λ x,
      x <| WorkspaceBuild_UpdatedAt := database_Now (clock (S (S w.(ticks)))) |>
        <| WorkspaceBuild_ProvisionerState := b.(WorkspaceBuild_ProvisionerState) |>
        <| WorkspaceBuild_Deadline := Add (database_Now (clock (S w.(ticks)))) bumpAmount |>)
      _ b Hids Hin) as (pre & post & Hl & Hup).
  exists pre, b, post, (database_Now (clock (S (S w.(ticks))))), (Add (database_Now (clock (S w.(ticks)))) bumpAmount).
  split_and!; try done.
  - unfold UpdateWorkspaceBuildByID, update_row, mbind, gom_bind, mret, gom_ret. cbn -[update_first].
    lazymatch goal with |- context [update_first ?P ?f ?l] =>
      replace (update_first P f l) with (Some (f b, pre ++ f b :: post)) by (symmetry; exact Hup) end.
    by destruct b.
  - unfold database_Now, database_Time, bumpAmount, bumpThreshold, Add in *.
    pose proof (Round_near (clock (S w.(ticks))) Microsecond eq_refl).
    assert (Microsecond < Minute * 10) by done. lia.
  - unfold database_Now, database_Time, bumpAmount, Add.
    pose proof (Round_near (clock (S w.(ticks))) Microsecond eq_refl). lia.
Qed.
End activity.

(** ** Concrete runs *)

Module AutobuildExamples.
#[local] Existing Instances unary_uuid_text ScheduleExamples.daily.
#[local] Instance env : Environment := {|
  clock n := unix_epoch + Second * Z.of_nat n;
  new_uuid n := (100 + N.of_nat n)%N;
  publish_error _ := None;
  random_source := Cryptorand.RandomExamples.constant_source Byte.x6a |}.

Definition template : Template :=
  Template_zero <| Template_ID := 8%N |> <| Template_Provisioner := ProvisionerTypeTerraform |>.
Definition workspace : Workspace :=
  Workspace_zero <| Workspace_ID := 3%N |> <| Workspace_OwnerID := 6%N |> <| Workspace_TemplateID := 8%N |>
    <| Workspace_Ttl := non_null Hour |>.
Definition job : ProvisionerJob :=
  ProvisionerJob_zero <| ProvisionerJob_ID := 1%N |> <| ProvisionerJob_CompletedAt := non_null unix_epoch |>.
(** A start that is to end half an hour after the epoch. *)
Definition build : WorkspaceBuild :=
  WorkspaceBuild_zero <| WorkspaceBuild_ID := 2%N |> <| WorkspaceBuild_WorkspaceID := 3%N |>
    <| WorkspaceBuild_JobID := 1%N |> <| WorkspaceBuild_BuildNumber := 1 |>
    <| WorkspaceBuild_Transition := WorkspaceTransitionStart |>
    <| WorkspaceBuild_Deadline := unix_epoch + 30 * Minute |>.
Definition started : world :=
  mkWorld (New <| templates := [template] |> <| workspaces := [workspace] |> <| workspaceBuilds := [build] |>
               <| provisionerJobs := [job] |>) 0 0 0 [] [] time_zero 0.

Lemma env_inj n m : new_uuid n = new_uuid m → n = m.
Proof. change (100 + N.of_nat n = 100 + N.of_nat m → n = m)%N. lia. Qed.
Lemma started_numbered : numbered started.(db).
Proof. split; simpl; repeat constructor; [done|set_solver]. Qed.

(** The transactions run twice over: the workspace is stopped once. *)
Lemma runOnce_builds_once_witness :
  let q' := (runOnce (λ ids, ids ++ ids) (unix_epoch + Hour) started).2.(db) in
  ∃ b, builds_of 3%N q' = [build; b] ∧ due (unix_epoch + 2 * Hour) 3%N q' = Ok None.
Proof.
  destruct (runOnce_builds_once env_inj (λ ids, ids ++ ids) (unix_epoch + Hour) started)
    as [_ Hws].
  - exact started_numbered.
  - intros n _ j. cbn. rewrite list_elem_of_singleton. intros ->. change (1 ≠ 100 + N.of_nat n)%N. lia.
  - intros b. cbn. rewrite list_elem_of_singleton. by intros ->.
  - destruct (Hws 3%N) as [Hsame|(b & Hb & Hdue)].
    + apply (f_equal length) in Hsame. vm_compute in Hsame. discriminate.
    + exists b. split; [exact Hb|apply Hdue].
Defined.

Lemma transact_sound_witness : ∃ prior,
  GetLatestWorkspaceBuildByWorkspaceID 3%N started.(db) = Ok prior ∧
  IsZero prior.(WorkspaceBuild_Deadline) = false ∧ prior.(WorkspaceBuild_Deadline) <= unix_epoch + Hour.
Proof.
  destruct (transact_sound (unix_epoch + Hour) 3%N started)
    as (row & prior & pjob & trans & j & b & _ & _ & _ & Hprior & _ & _ & _ & Htrans & _).
  - intros Heq. apply (f_equal (λ q, length q.(workspaceBuilds))) in Heq. vm_compute in Heq. discriminate.
  - exists prior. assert (prior = build) as -> by (vm_compute in Hprior; by injection Hprior as [= <-]).
    destruct Htrans as (_ & Hz & Hd). done.
Defined.

Lemma activityBump_extends_witness :
  let q' := (activityBumpWorkspace 3%N started).2.(db) in
  ∃ b, q'.(workspaceBuilds) = [b] ∧ build.(WorkspaceBuild_Deadline) < b.(WorkspaceBuild_Deadline).
Proof.
  destruct (activityBump_extends 3%N started) as [Heq|(pre & b & post & u & d & Hl & Hq & _ & _ & _ & Hd)].
  - done.
  - exact started_numbered.
  - apply NoDup_singleton.
  - apply (f_equal (λ q, WorkspaceBuild_Deadline <$> q.(workspaceBuilds))) in Heq. vm_compute in Heq. discriminate.
  - destruct pre as [|? [|]]; cbn in Hl; [|discriminate..]. injection Hl as <- <-.
    cbv zeta. rewrite Hq. eexists. split; [reflexivity|]. apply Hd.
Defined.
End AutobuildExamples.
