(* ===== verification/Sdk.v ===== *)
(** * The public API types

    The request and response bodies of [codersdk] that the handlers read and
    write, and [Body], what a response carries. A string type the database also
    has is the database's type; [sdkX] is [codersdk.X] where the database or the
    authorizer has an [X] of its own. *)

From stdpp Require Import prelude gmap strings.
From S2P Require Import Prelude Models ParamCompute.

Inductive ProvisionerJobStatus :=
| ProvisionerJobPending
| ProvisionerJobRunning
| ProvisionerJobSucceeded
| ProvisionerJobCanceling
| ProvisionerJobCanceled
| ProvisionerJobFailed.
#[global] Instance ProvisionerJobStatus_eq_dec : EqDecision ProvisionerJobStatus.
Proof. solve_decision. Defined.

(** Whether the job is still active; a job being canceled is. *)
Definition ProvisionerJobStatus_Active (p : ProvisionerJobStatus) : bool :=
  (p == ProvisionerJobPending) || (p == ProvisionerJobRunning) || (p == ProvisionerJobCanceling).

Inductive WorkspaceStatus :=
| WorkspaceStatusPending
| WorkspaceStatusStarting
| WorkspaceStatusRunning
| WorkspaceStatusStopping
| WorkspaceStatusStopped
| WorkspaceStatusFailed
| WorkspaceStatusCanceling
| WorkspaceStatusCanceled
| WorkspaceStatusDeleting
| WorkspaceStatusDeleted
| WorkspaceStatus_other (s : string).
#[global] Instance WorkspaceStatus_eq_dec : EqDecision WorkspaceStatus.
Proof. solve_decision. Defined.

Inductive WorkspaceAgentStatus :=
| WorkspaceAgentConnecting
| WorkspaceAgentConnected
| WorkspaceAgentDisconnected
| WorkspaceAgentTimeout
| WorkspaceAgentStatus_other (s : string).
#[global] Instance WorkspaceAgentStatus_eq_dec : EqDecision WorkspaceAgentStatus.
Proof. solve_decision. Defined.

(** [tailcfg.DERPMap], which is only passed on. *)
Definition DERPMap : Type := json.

Inductive Entitlement :=
| EntitlementEntitled
| EntitlementGracePeriod
| EntitlementNotEntitled.
#[global] Instance Entitlement_eq_dec : EqDecision Entitlement.
Proof. solve_decision. Defined.

Inductive ListeningPortNetwork := ListeningPortNetworkTCP.

Inductive TemplateRole :=
| TemplateRoleAdmin
| TemplateRoleUse
| TemplateRoleDeleted
| TemplateRole_other (s : string).
#[global] Instance TemplateRole_eq_dec : EqDecision TemplateRole.
Proof. solve_decision. Defined.

Record ValidationError := mkValidationError {
  ValidationError_Field : string;
  ValidationError_Detail : string;
}.
#[global] Instance ValidationError_eta : Eta ValidationError := λ r,
  mkValidationError r.(ValidationError_Field) r.(ValidationError_Detail).

Record Response := mkResponse {
  Response_Message : string;
  Response_Detail : string;
  Response_Validations : list ValidationError;
}.
#[global] Instance Response_eta : Eta Response := λ r,
  mkResponse r.(Response_Message) r.(Response_Detail) r.(Response_Validations).

Record sdkPagination := mksdkPagination {
  sdkPagination_AfterID : uuid;
  sdkPagination_Limit : Z;
  sdkPagination_Offset : Z;
}.
#[global] Instance sdkPagination_eta : Eta sdkPagination := λ r,
  mksdkPagination r.(sdkPagination_AfterID) r.(sdkPagination_Limit) r.(sdkPagination_Offset).

Record sdkRole := mksdkRole {
  sdkRole_Name : string;
  sdkRole_DisplayName : string;
}.
#[global] Instance sdkRole_eta : Eta sdkRole := λ r,
  mksdkRole r.(sdkRole_Name) r.(sdkRole_DisplayName).

Record AssignableRoles := mkAssignableRoles {
  AssignableRoles_Role : sdkRole;
  AssignableRoles_Assignable : bool;
}.
#[global] Instance AssignableRoles_eta : Eta AssignableRoles := λ r,
  mkAssignableRoles r.(AssignableRoles_Role) r.(AssignableRoles_Assignable).

Record sdkUser := mksdkUser {
  sdkUser_ID : uuid;
  sdkUser_Username : string;
  sdkUser_Email : string;
  sdkUser_CreatedAt : time;
  sdkUser_LastSeenAt : time;
  sdkUser_Status : UserStatus;
  sdkUser_OrganizationIDs : list uuid;
  sdkUser_Roles : list sdkRole;
  sdkUser_AvatarURL : string;
}.
#[global] Instance sdkUser_eta : Eta sdkUser := λ r,
  mksdkUser r.(sdkUser_ID) r.(sdkUser_Username) r.(sdkUser_Email) r.(sdkUser_CreatedAt)
    r.(sdkUser_LastSeenAt) r.(sdkUser_Status) r.(sdkUser_OrganizationIDs) r.(sdkUser_Roles)
    r.(sdkUser_AvatarURL).

Record GetUsersResponse := mkGetUsersResponse {
  GetUsersResponse_Users : list sdkUser;
  GetUsersResponse_Count : Z;
}.
#[global] Instance GetUsersResponse_eta : Eta GetUsersResponse := λ r,
  mkGetUsersResponse r.(GetUsersResponse_Users) r.(GetUsersResponse_Count).

Record CreateFirstUserRequest := mkCreateFirstUserRequest {
  CreateFirstUserRequest_Email : string;
  CreateFirstUserRequest_Username : string;
  CreateFirstUserRequest_Password : string;
  CreateFirstUserRequest_Trial : bool;
}.
#[global] Instance CreateFirstUserRequest_eta : Eta CreateFirstUserRequest := λ r,
  mkCreateFirstUserRequest r.(CreateFirstUserRequest_Email) r.(CreateFirstUserRequest_Username)
    r.(CreateFirstUserRequest_Password) r.(CreateFirstUserRequest_Trial).

Record CreateFirstUserResponse := mkCreateFirstUserResponse {
  CreateFirstUserResponse_UserID : uuid;
  CreateFirstUserResponse_OrganizationID : uuid;
}.
#[global] Instance CreateFirstUserResponse_eta : Eta CreateFirstUserResponse := λ r,
  mkCreateFirstUserResponse r.(CreateFirstUserResponse_UserID)
    r.(CreateFirstUserResponse_OrganizationID).

Record CreateUserRequest := mkCreateUserRequest {
  CreateUserRequest_Email : string;
  CreateUserRequest_Username : string;
  CreateUserRequest_Password : string;
  CreateUserRequest_OrganizationID : uuid;
}.
#[global] Instance CreateUserRequest_eta : Eta CreateUserRequest := λ r,
  mkCreateUserRequest r.(CreateUserRequest_Email) r.(CreateUserRequest_Username)
    r.(CreateUserRequest_Password) r.(CreateUserRequest_OrganizationID).

Record UpdateUserProfileRequest := mkUpdateUserProfileRequest {
  UpdateUserProfileRequest_Username : string;
}.
#[global] Instance UpdateUserProfileRequest_eta : Eta UpdateUserProfileRequest := λ r,
  mkUpdateUserProfileRequest r.(UpdateUserProfileRequest_Username).

Record UpdateUserPasswordRequest := mkUpdateUserPasswordRequest {
  UpdateUserPasswordRequest_OldPassword : string;
  UpdateUserPasswordRequest_Password : string;
}.
#[global] Instance UpdateUserPasswordRequest_eta : Eta UpdateUserPasswordRequest := λ r,
  mkUpdateUserPasswordRequest r.(UpdateUserPasswordRequest_OldPassword)
    r.(UpdateUserPasswordRequest_Password).

Record UpdateRoles := mkUpdateRoles {
  UpdateRoles_Roles : list string;
}.
#[global] Instance UpdateRoles_eta : Eta UpdateRoles := λ r,
  mkUpdateRoles r.(UpdateRoles_Roles).

Record UserRoles := mkUserRoles {
  UserRoles_Roles : list string;
  UserRoles_OrganizationRoles : gmap uuid (list string);
}.
#[global] Instance UserRoles_eta : Eta UserRoles := λ r,
  mkUserRoles r.(UserRoles_Roles) r.(UserRoles_OrganizationRoles).

Record LoginWithPasswordRequest := mkLoginWithPasswordRequest {
  LoginWithPasswordRequest_Email : string;
  LoginWithPasswordRequest_Password : string;
}.
#[global] Instance LoginWithPasswordRequest_eta : Eta LoginWithPasswordRequest := λ r,
  mkLoginWithPasswordRequest r.(LoginWithPasswordRequest_Email)
    r.(LoginWithPasswordRequest_Password).

Record LoginWithPasswordResponse := mkLoginWithPasswordResponse {
  LoginWithPasswordResponse_SessionToken : string;
}.
#[global] Instance LoginWithPasswordResponse_eta : Eta LoginWithPasswordResponse := λ r,
  mkLoginWithPasswordResponse r.(LoginWithPasswordResponse_SessionToken).

Record AuthMethods := mkAuthMethods {
  AuthMethods_Password : bool;
  AuthMethods_Github : bool;
  AuthMethods_OIDC : bool;
}.
#[global] Instance AuthMethods_eta : Eta AuthMethods := λ r,
  mkAuthMethods r.(AuthMethods_Password) r.(AuthMethods_Github) r.(AuthMethods_OIDC).

Record CreateOrganizationRequest := mkCreateOrganizationRequest {
  CreateOrganizationRequest_Name : string;
}.
#[global] Instance CreateOrganizationRequest_eta : Eta CreateOrganizationRequest := λ r,
  mkCreateOrganizationRequest r.(CreateOrganizationRequest_Name).

Record sdkOrganization := mksdkOrganization {
  sdkOrganization_ID : uuid;
  sdkOrganization_Name : string;
  sdkOrganization_CreatedAt : time;
  sdkOrganization_UpdatedAt : time;
}.
#[global] Instance sdkOrganization_eta : Eta sdkOrganization := λ r,
  mksdkOrganization r.(sdkOrganization_ID) r.(sdkOrganization_Name)
    r.(sdkOrganization_CreatedAt) r.(sdkOrganization_UpdatedAt).

Record sdkOrganizationMember := mksdkOrganizationMember {
  sdkOrganizationMember_UserID : uuid;
  sdkOrganizationMember_OrganizationID : uuid;
  sdkOrganizationMember_CreatedAt : time;
  sdkOrganizationMember_UpdatedAt : time;
  sdkOrganizationMember_Roles : list sdkRole;
}.
#[global] Instance sdkOrganizationMember_eta : Eta sdkOrganizationMember := λ r,
  mksdkOrganizationMember r.(sdkOrganizationMember_UserID)
    r.(sdkOrganizationMember_OrganizationID) r.(sdkOrganizationMember_CreatedAt)
    r.(sdkOrganizationMember_UpdatedAt) r.(sdkOrganizationMember_Roles).

Record sdkAPIKey := mksdkAPIKey {
  sdkAPIKey_ID : string;
  sdkAPIKey_UserID : uuid;
  sdkAPIKey_LastUsed : time;
  sdkAPIKey_ExpiresAt : time;
  sdkAPIKey_CreatedAt : time;
  sdkAPIKey_UpdatedAt : time;
  sdkAPIKey_LoginType : LoginType;
  sdkAPIKey_Scope : APIKeyScope;
  sdkAPIKey_LifetimeSeconds : Z;
}.
#[global] Instance sdkAPIKey_eta : Eta sdkAPIKey := λ r,
  mksdkAPIKey r.(sdkAPIKey_ID) r.(sdkAPIKey_UserID) r.(sdkAPIKey_LastUsed)
    r.(sdkAPIKey_ExpiresAt) r.(sdkAPIKey_CreatedAt) r.(sdkAPIKey_UpdatedAt)
    r.(sdkAPIKey_LoginType) r.(sdkAPIKey_Scope) r.(sdkAPIKey_LifetimeSeconds).

Record CreateTokenRequest := mkCreateTokenRequest {
  CreateTokenRequest_Scope : APIKeyScope;
}.
#[global] Instance CreateTokenRequest_eta : Eta CreateTokenRequest := λ r,
  mkCreateTokenRequest r.(CreateTokenRequest_Scope).

Record GenerateAPIKeyResponse := mkGenerateAPIKeyResponse {
  GenerateAPIKeyResponse_Key : string;
}.
#[global] Instance GenerateAPIKeyResponse_eta : Eta GenerateAPIKeyResponse := λ r,
  mkGenerateAPIKeyResponse r.(GenerateAPIKeyResponse_Key).

Record sdkGitSSHKey := mksdkGitSSHKey {
  sdkGitSSHKey_UserID : uuid;
  sdkGitSSHKey_CreatedAt : time;
  sdkGitSSHKey_UpdatedAt : time;
  sdkGitSSHKey_PublicKey : string;
}.
#[global] Instance sdkGitSSHKey_eta : Eta sdkGitSSHKey := λ r,
  mksdkGitSSHKey r.(sdkGitSSHKey_UserID) r.(sdkGitSSHKey_CreatedAt) r.(sdkGitSSHKey_UpdatedAt)
    r.(sdkGitSSHKey_PublicKey).

Record AgentGitSSHKey := mkAgentGitSSHKey {
  AgentGitSSHKey_PublicKey : string;
  AgentGitSSHKey_PrivateKey : string;
}.
#[global] Instance AgentGitSSHKey_eta : Eta AgentGitSSHKey := λ r,
  mkAgentGitSSHKey r.(AgentGitSSHKey_PublicKey) r.(AgentGitSSHKey_PrivateKey).

Record UploadResponse := mkUploadResponse {
  UploadResponse_ID : uuid;
}.
#[global] Instance UploadResponse_eta : Eta UploadResponse := λ r,
  mkUploadResponse r.(UploadResponse_ID).

Record AuthorizationObject := mkAuthorizationObject {
  AuthorizationObject_ResourceType : string;
  AuthorizationObject_OwnerID : string;
  AuthorizationObject_OrganizationID : string;
  AuthorizationObject_ResourceID : string;
}.
#[global] Instance AuthorizationObject_eta : Eta AuthorizationObject := λ r,
  mkAuthorizationObject r.(AuthorizationObject_ResourceType) r.(AuthorizationObject_OwnerID)
    r.(AuthorizationObject_OrganizationID) r.(AuthorizationObject_ResourceID).

Record AuthorizationCheck := mkAuthorizationCheck {
  AuthorizationCheck_Object : AuthorizationObject;
  AuthorizationCheck_Action : string;
}.
#[global] Instance AuthorizationCheck_eta : Eta AuthorizationCheck := λ r,
  mkAuthorizationCheck r.(AuthorizationCheck_Object) r.(AuthorizationCheck_Action).

Record AuthorizationRequest := mkAuthorizationRequest {
  AuthorizationRequest_Checks : gmap string AuthorizationCheck;
}.
#[global] Instance AuthorizationRequest_eta : Eta AuthorizationRequest := λ r,
  mkAuthorizationRequest r.(AuthorizationRequest_Checks).

Record CreateParameterRequest := mkCreateParameterRequest {
  CreateParameterRequest_CloneID : uuid;
  CreateParameterRequest_Name : string;
  CreateParameterRequest_SourceValue : string;
  CreateParameterRequest_SourceScheme : ParameterSourceScheme;
  CreateParameterRequest_DestinationScheme : ParameterDestinationScheme;
}.
#[global] Instance CreateParameterRequest_eta : Eta CreateParameterRequest := λ r,
  mkCreateParameterRequest r.(CreateParameterRequest_CloneID) r.(CreateParameterRequest_Name)
    r.(CreateParameterRequest_SourceValue) r.(CreateParameterRequest_SourceScheme)
    r.(CreateParameterRequest_DestinationScheme).

Record sdkParameter := mksdkParameter {
  sdkParameter_ID : uuid;
  sdkParameter_Scope : ParameterScope;
  sdkParameter_ScopeID : uuid;
  sdkParameter_Name : string;
  sdkParameter_SourceScheme : ParameterSourceScheme;
  sdkParameter_DestinationScheme : ParameterDestinationScheme;
  sdkParameter_CreatedAt : time;
  sdkParameter_UpdatedAt : time;
}.
#[global] Instance sdkParameter_eta : Eta sdkParameter := λ r,
  mksdkParameter r.(sdkParameter_ID) r.(sdkParameter_Scope) r.(sdkParameter_ScopeID)
    r.(sdkParameter_Name) r.(sdkParameter_SourceScheme) r.(sdkParameter_DestinationScheme)
    r.(sdkParameter_CreatedAt) r.(sdkParameter_UpdatedAt).

Record ComputedParameter := mkComputedParameter {
  ComputedParameter_Parameter : sdkParameter;
  ComputedParameter_SourceValue : string;
  ComputedParameter_SchemaID : uuid;
  ComputedParameter_DefaultSourceValue : bool;
}.
#[global] Instance ComputedParameter_eta : Eta ComputedParameter := λ r,
  mkComputedParameter r.(ComputedParameter_Parameter) r.(ComputedParameter_SourceValue)
    r.(ComputedParameter_SchemaID) r.(ComputedParameter_DefaultSourceValue).

Record sdkParameterSchema := mksdkParameterSchema {
  sdkParameterSchema_ID : uuid;
  sdkParameterSchema_CreatedAt : time;
  sdkParameterSchema_JobID : uuid;
  sdkParameterSchema_Name : string;
  sdkParameterSchema_Description : string;
  sdkParameterSchema_DefaultSourceScheme : ParameterSourceScheme;
  sdkParameterSchema_DefaultSourceValue : string;
  sdkParameterSchema_AllowOverrideSource : bool;
  sdkParameterSchema_DefaultDestinationScheme : ParameterDestinationScheme;
  sdkParameterSchema_AllowOverrideDestination : bool;
  sdkParameterSchema_DefaultRefresh : string;
  sdkParameterSchema_RedisplayValue : bool;
  sdkParameterSchema_ValidationError : string;
  sdkParameterSchema_ValidationCondition : string;
  sdkParameterSchema_ValidationTypeSystem : string;
  sdkParameterSchema_ValidationValueType : string;
  sdkParameterSchema_ValidationContains : list string;
}.
#[global] Instance sdkParameterSchema_eta : Eta sdkParameterSchema := λ r,
  mksdkParameterSchema r.(sdkParameterSchema_ID) r.(sdkParameterSchema_CreatedAt)
    r.(sdkParameterSchema_JobID) r.(sdkParameterSchema_Name) r.(sdkParameterSchema_Description)
    r.(sdkParameterSchema_DefaultSourceScheme) r.(sdkParameterSchema_DefaultSourceValue)
    r.(sdkParameterSchema_AllowOverrideSource) r.(sdkParameterSchema_DefaultDestinationScheme)
    r.(sdkParameterSchema_AllowOverrideDestination) r.(sdkParameterSchema_DefaultRefresh)
    r.(sdkParameterSchema_RedisplayValue) r.(sdkParameterSchema_ValidationError)
    r.(sdkParameterSchema_ValidationCondition) r.(sdkParameterSchema_ValidationTypeSystem)
    r.(sdkParameterSchema_ValidationValueType) r.(sdkParameterSchema_ValidationContains).

Record sdkProvisionerJob := mksdkProvisionerJob {
  sdkProvisionerJob_ID : uuid;
  sdkProvisionerJob_CreatedAt : time;
  sdkProvisionerJob_StartedAt : option time;
  sdkProvisionerJob_CompletedAt : option time;
  sdkProvisionerJob_CanceledAt : option time;
  sdkProvisionerJob_Error : string;
  sdkProvisionerJob_Status : ProvisionerJobStatus;
  sdkProvisionerJob_WorkerID : option uuid;
  sdkProvisionerJob_FileID : uuid;
  sdkProvisionerJob_Tags : gmap string string;
}.
#[global] Instance sdkProvisionerJob_eta : Eta sdkProvisionerJob := λ r,
  mksdkProvisionerJob r.(sdkProvisionerJob_ID) r.(sdkProvisionerJob_CreatedAt)
    r.(sdkProvisionerJob_StartedAt) r.(sdkProvisionerJob_CompletedAt)
    r.(sdkProvisionerJob_CanceledAt) r.(sdkProvisionerJob_Error) r.(sdkProvisionerJob_Status)
    r.(sdkProvisionerJob_WorkerID) r.(sdkProvisionerJob_FileID) r.(sdkProvisionerJob_Tags).

Record sdkProvisionerJobLog := mksdkProvisionerJobLog {
  sdkProvisionerJobLog_ID : Z;
  sdkProvisionerJobLog_CreatedAt : time;
  sdkProvisionerJobLog_Source : LogSource;
  sdkProvisionerJobLog_Level : LogLevel;
  sdkProvisionerJobLog_Stage : string;
  sdkProvisionerJobLog_Output : string;
}.
#[global] Instance sdkProvisionerJobLog_eta : Eta sdkProvisionerJobLog := λ r,
  mksdkProvisionerJobLog r.(sdkProvisionerJobLog_ID) r.(sdkProvisionerJobLog_CreatedAt)
    r.(sdkProvisionerJobLog_Source) r.(sdkProvisionerJobLog_Level)
    r.(sdkProvisionerJobLog_Stage) r.(sdkProvisionerJobLog_Output).

Record CreateTemplateVersionRequest := mkCreateTemplateVersionRequest {
  CreateTemplateVersionRequest_Name : string;
  CreateTemplateVersionRequest_TemplateID : uuid;
  CreateTemplateVersionRequest_StorageMethod : ProvisionerStorageMethod;
  CreateTemplateVersionRequest_FileID : uuid;
  CreateTemplateVersionRequest_Provisioner : ProvisionerType;
  CreateTemplateVersionRequest_ProvisionerTags : gmap string string;
  CreateTemplateVersionRequest_ParameterValues : list CreateParameterRequest;
}.
#[global] Instance CreateTemplateVersionRequest_eta : Eta CreateTemplateVersionRequest := λ r,
  mkCreateTemplateVersionRequest r.(CreateTemplateVersionRequest_Name)
    r.(CreateTemplateVersionRequest_TemplateID) r.(CreateTemplateVersionRequest_StorageMethod)
    r.(CreateTemplateVersionRequest_FileID) r.(CreateTemplateVersionRequest_Provisioner)
    r.(CreateTemplateVersionRequest_ProvisionerTags)
    r.(CreateTemplateVersionRequest_ParameterValues).

Record CreateTemplateRequest := mkCreateTemplateRequest {
  CreateTemplateRequest_Name : string;
  CreateTemplateRequest_DisplayName : string;
  CreateTemplateRequest_Description : string;
  CreateTemplateRequest_Icon : string;
  CreateTemplateRequest_VersionID : uuid;
  CreateTemplateRequest_ParameterValues : list CreateParameterRequest;
  CreateTemplateRequest_DefaultTTLMillis : option Z;
  CreateTemplateRequest_AllowUserCancelWorkspaceJobs : option bool;
}.
#[global] Instance CreateTemplateRequest_eta : Eta CreateTemplateRequest := λ r,
  mkCreateTemplateRequest r.(CreateTemplateRequest_Name) r.(CreateTemplateRequest_DisplayName)
    r.(CreateTemplateRequest_Description) r.(CreateTemplateRequest_Icon)
    r.(CreateTemplateRequest_VersionID) r.(CreateTemplateRequest_ParameterValues)
    r.(CreateTemplateRequest_DefaultTTLMillis)
    r.(CreateTemplateRequest_AllowUserCancelWorkspaceJobs).

Record CreateWorkspaceRequest := mkCreateWorkspaceRequest {
  CreateWorkspaceRequest_TemplateID : uuid;
  CreateWorkspaceRequest_Name : string;
  CreateWorkspaceRequest_AutostartSchedule : option string;
  CreateWorkspaceRequest_TTLMillis : option Z;
  CreateWorkspaceRequest_ParameterValues : list CreateParameterRequest;
}.
#[global] Instance CreateWorkspaceRequest_eta : Eta CreateWorkspaceRequest := λ r,
  mkCreateWorkspaceRequest r.(CreateWorkspaceRequest_TemplateID) r.(CreateWorkspaceRequest_Name)
    r.(CreateWorkspaceRequest_AutostartSchedule) r.(CreateWorkspaceRequest_TTLMillis)
    r.(CreateWorkspaceRequest_ParameterValues).

Record TransitionStats := mkTransitionStats {
  TransitionStats_P50 : option Z;
  TransitionStats_P95 : option Z;
}.
#[global] Instance TransitionStats_eta : Eta TransitionStats := λ r,
  mkTransitionStats r.(TransitionStats_P50) r.(TransitionStats_P95).

Record sdkTemplate := mksdkTemplate {
  sdkTemplate_ID : uuid;
  sdkTemplate_CreatedAt : time;
  sdkTemplate_UpdatedAt : time;
  sdkTemplate_OrganizationID : uuid;
  sdkTemplate_Name : string;
  sdkTemplate_DisplayName : string;
  sdkTemplate_Provisioner : ProvisionerType;
  sdkTemplate_ActiveVersionID : uuid;
  sdkTemplate_WorkspaceOwnerCount : Z;
  sdkTemplate_ActiveUserCount : Z;
  sdkTemplate_BuildTimeStats : list (WorkspaceTransition * TransitionStats);
  sdkTemplate_Description : string;
  sdkTemplate_Icon : string;
  sdkTemplate_DefaultTTLMillis : Z;
  sdkTemplate_CreatedByID : uuid;
  sdkTemplate_CreatedByName : string;
  sdkTemplate_AllowUserCancelWorkspaceJobs : bool;
}.
#[global] Instance sdkTemplate_eta : Eta sdkTemplate := λ r,
  mksdkTemplate r.(sdkTemplate_ID) r.(sdkTemplate_CreatedAt) r.(sdkTemplate_UpdatedAt)
    r.(sdkTemplate_OrganizationID) r.(sdkTemplate_Name) r.(sdkTemplate_DisplayName)
    r.(sdkTemplate_Provisioner) r.(sdkTemplate_ActiveVersionID)
    r.(sdkTemplate_WorkspaceOwnerCount) r.(sdkTemplate_ActiveUserCount)
    r.(sdkTemplate_BuildTimeStats) r.(sdkTemplate_Description) r.(sdkTemplate_Icon)
    r.(sdkTemplate_DefaultTTLMillis) r.(sdkTemplate_CreatedByID) r.(sdkTemplate_CreatedByName)
    r.(sdkTemplate_AllowUserCancelWorkspaceJobs).

Record UpdateActiveTemplateVersion := mkUpdateActiveTemplateVersion {
  UpdateActiveTemplateVersion_ID : uuid;
}.
#[global] Instance UpdateActiveTemplateVersion_eta : Eta UpdateActiveTemplateVersion := λ r,
  mkUpdateActiveTemplateVersion r.(UpdateActiveTemplateVersion_ID).

Record UpdateTemplateMeta := mkUpdateTemplateMeta {
  UpdateTemplateMeta_Name : string;
  UpdateTemplateMeta_DisplayName : string;
  UpdateTemplateMeta_Description : string;
  UpdateTemplateMeta_Icon : string;
  UpdateTemplateMeta_DefaultTTLMillis : Z;
  UpdateTemplateMeta_AllowUserCancelWorkspaceJobs : bool;
}.
#[global] Instance UpdateTemplateMeta_eta : Eta UpdateTemplateMeta := λ r,
  mkUpdateTemplateMeta r.(UpdateTemplateMeta_Name) r.(UpdateTemplateMeta_DisplayName)
    r.(UpdateTemplateMeta_Description) r.(UpdateTemplateMeta_Icon)
    r.(UpdateTemplateMeta_DefaultTTLMillis) r.(UpdateTemplateMeta_AllowUserCancelWorkspaceJobs).

Record sdkTemplateVersion := mksdkTemplateVersion {
  sdkTemplateVersion_ID : uuid;
  sdkTemplateVersion_TemplateID : option uuid;
  sdkTemplateVersion_OrganizationID : uuid;
  sdkTemplateVersion_CreatedAt : time;
  sdkTemplateVersion_UpdatedAt : time;
  sdkTemplateVersion_Name : string;
  sdkTemplateVersion_Job : sdkProvisionerJob;
  sdkTemplateVersion_Readme : string;
  sdkTemplateVersion_CreatedBy : sdkUser;
}.
#[global] Instance sdkTemplateVersion_eta : Eta sdkTemplateVersion := λ r,
  mksdkTemplateVersion r.(sdkTemplateVersion_ID) r.(sdkTemplateVersion_TemplateID)
    r.(sdkTemplateVersion_OrganizationID) r.(sdkTemplateVersion_CreatedAt)
    r.(sdkTemplateVersion_UpdatedAt) r.(sdkTemplateVersion_Name) r.(sdkTemplateVersion_Job)
    r.(sdkTemplateVersion_Readme) r.(sdkTemplateVersion_CreatedBy).

Record CreateTemplateVersionDryRunRequest := mkCreateTemplateVersionDryRunRequest {
  CreateTemplateVersionDryRunRequest_WorkspaceName : string;
  CreateTemplateVersionDryRunRequest_ParameterValues : list CreateParameterRequest;
}.
#[global] Instance CreateTemplateVersionDryRunRequest_eta : Eta CreateTemplateVersionDryRunRequest := λ r,
  mkCreateTemplateVersionDryRunRequest r.(CreateTemplateVersionDryRunRequest_WorkspaceName)
    r.(CreateTemplateVersionDryRunRequest_ParameterValues).

Record DAUEntry := mkDAUEntry {
  DAUEntry_Date : time;
  DAUEntry_Amount : Z;
}.
#[global] Instance DAUEntry_eta : Eta DAUEntry := λ r,
  mkDAUEntry r.(DAUEntry_Date) r.(DAUEntry_Amount).

Record TemplateDAUsResponse := mkTemplateDAUsResponse {
  TemplateDAUsResponse_Entries : list DAUEntry;
}.
#[global] Instance TemplateDAUsResponse_eta : Eta TemplateDAUsResponse := λ r,
  mkTemplateDAUsResponse r.(TemplateDAUsResponse_Entries).

Record sdkGroup := mksdkGroup {
  sdkGroup_ID : uuid;
  sdkGroup_Name : string;
  sdkGroup_OrganizationID : uuid;
  sdkGroup_Members : list sdkUser;
  sdkGroup_AvatarURL : string;
  sdkGroup_QuotaAllowance : Z;
}.
#[global] Instance sdkGroup_eta : Eta sdkGroup := λ r,
  mksdkGroup r.(sdkGroup_ID) r.(sdkGroup_Name) r.(sdkGroup_OrganizationID) r.(sdkGroup_Members)
    r.(sdkGroup_AvatarURL) r.(sdkGroup_QuotaAllowance).

Record CreateGroupRequest := mkCreateGroupRequest {
  CreateGroupRequest_Name : string;
  CreateGroupRequest_AvatarURL : string;
  CreateGroupRequest_QuotaAllowance : Z;
}.
#[global] Instance CreateGroupRequest_eta : Eta CreateGroupRequest := λ r,
  mkCreateGroupRequest r.(CreateGroupRequest_Name) r.(CreateGroupRequest_AvatarURL)
    r.(CreateGroupRequest_QuotaAllowance).

Record PatchGroupRequest := mkPatchGroupRequest {
  PatchGroupRequest_AddUsers : list string;
  PatchGroupRequest_RemoveUsers : list string;
  PatchGroupRequest_Name : string;
  PatchGroupRequest_AvatarURL : option string;
  PatchGroupRequest_QuotaAllowance : option Z;
}.
#[global] Instance PatchGroupRequest_eta : Eta PatchGroupRequest := λ r,
  mkPatchGroupRequest r.(PatchGroupRequest_AddUsers) r.(PatchGroupRequest_RemoveUsers)
    r.(PatchGroupRequest_Name) r.(PatchGroupRequest_AvatarURL)
    r.(PatchGroupRequest_QuotaAllowance).

Record sdkTemplateUser := mksdkTemplateUser {
  sdkTemplateUser_User : sdkUser;
  sdkTemplateUser_Role : TemplateRole;
}.
#[global] Instance sdkTemplateUser_eta : Eta sdkTemplateUser := λ r,
  mksdkTemplateUser r.(sdkTemplateUser_User) r.(sdkTemplateUser_Role).

Record sdkTemplateGroup := mksdkTemplateGroup {
  sdkTemplateGroup_Group : sdkGroup;
  sdkTemplateGroup_Role : TemplateRole;
}.
#[global] Instance sdkTemplateGroup_eta : Eta sdkTemplateGroup := λ r,
  mksdkTemplateGroup r.(sdkTemplateGroup_Group) r.(sdkTemplateGroup_Role).

Record sdkTemplateACL := mksdkTemplateACL {
  sdkTemplateACL_Users : list sdkTemplateUser;
  sdkTemplateACL_Groups : list sdkTemplateGroup;
}.
#[global] Instance sdkTemplateACL_eta : Eta sdkTemplateACL := λ r,
  mksdkTemplateACL r.(sdkTemplateACL_Users) r.(sdkTemplateACL_Groups).

Record UpdateTemplateACL := mkUpdateTemplateACL {
  UpdateTemplateACL_UserPerms : gmap string TemplateRole;
  UpdateTemplateACL_GroupPerms : gmap string TemplateRole;
}.
#[global] Instance UpdateTemplateACL_eta : Eta UpdateTemplateACL := λ r,
  mkUpdateTemplateACL r.(UpdateTemplateACL_UserPerms) r.(UpdateTemplateACL_GroupPerms).

Record WorkspaceQuota := mkWorkspaceQuota {
  WorkspaceQuota_CreditsConsumed : Z;
  WorkspaceQuota_Budget : Z;
}.
#[global] Instance WorkspaceQuota_eta : Eta WorkspaceQuota := λ r,
  mkWorkspaceQuota r.(WorkspaceQuota_CreditsConsumed) r.(WorkspaceQuota_Budget).

Record sdkHealthcheck := mksdkHealthcheck {
  sdkHealthcheck_URL : string;
  sdkHealthcheck_Interval : Z;
  sdkHealthcheck_Threshold : Z;
}.
#[global] Instance sdkHealthcheck_eta : Eta sdkHealthcheck := λ r,
  mksdkHealthcheck r.(sdkHealthcheck_URL) r.(sdkHealthcheck_Interval)
    r.(sdkHealthcheck_Threshold).

Record sdkWorkspaceApp := mksdkWorkspaceApp {
  sdkWorkspaceApp_ID : uuid;
  sdkWorkspaceApp_Slug : string;
  sdkWorkspaceApp_DisplayName : string;
  sdkWorkspaceApp_Command : string;
  sdkWorkspaceApp_Icon : string;
  sdkWorkspaceApp_Subdomain : bool;
  sdkWorkspaceApp_SharingLevel : AppSharingLevel;
  sdkWorkspaceApp_Healthcheck : sdkHealthcheck;
  sdkWorkspaceApp_Health : WorkspaceAppHealth;
}.
#[global] Instance sdkWorkspaceApp_eta : Eta sdkWorkspaceApp := λ r,
  mksdkWorkspaceApp r.(sdkWorkspaceApp_ID) r.(sdkWorkspaceApp_Slug)
    r.(sdkWorkspaceApp_DisplayName) r.(sdkWorkspaceApp_Command) r.(sdkWorkspaceApp_Icon)
    r.(sdkWorkspaceApp_Subdomain) r.(sdkWorkspaceApp_SharingLevel)
    r.(sdkWorkspaceApp_Healthcheck) r.(sdkWorkspaceApp_Health).

Record DERPRegion := mkDERPRegion {
  DERPRegion_Preferred : bool;
  DERPRegion_LatencyMilliseconds : json;
}.
#[global] Instance DERPRegion_eta : Eta DERPRegion := λ r,
  mkDERPRegion r.(DERPRegion_Preferred) r.(DERPRegion_LatencyMilliseconds).

Record sdkWorkspaceAgent := mksdkWorkspaceAgent {
  sdkWorkspaceAgent_ID : uuid;
  sdkWorkspaceAgent_CreatedAt : time;
  sdkWorkspaceAgent_UpdatedAt : time;
  sdkWorkspaceAgent_FirstConnectedAt : option time;
  sdkWorkspaceAgent_LastConnectedAt : option time;
  sdkWorkspaceAgent_DisconnectedAt : option time;
  sdkWorkspaceAgent_Status : WorkspaceAgentStatus;
  sdkWorkspaceAgent_Name : string;
  sdkWorkspaceAgent_ResourceID : uuid;
  sdkWorkspaceAgent_InstanceID : string;
  sdkWorkspaceAgent_Architecture : string;
  sdkWorkspaceAgent_EnvironmentVariables : gmap string string;
  sdkWorkspaceAgent_OperatingSystem : string;
  sdkWorkspaceAgent_StartupScript : string;
  sdkWorkspaceAgent_Directory : string;
  sdkWorkspaceAgent_Version : string;
  sdkWorkspaceAgent_Apps : list sdkWorkspaceApp;
  sdkWorkspaceAgent_DERPLatency : gmap string DERPRegion;
  sdkWorkspaceAgent_ConnectionTimeoutSeconds : Z;
  sdkWorkspaceAgent_TroubleshootingURL : string;
}.
#[global] Instance sdkWorkspaceAgent_eta : Eta sdkWorkspaceAgent := λ r,
  mksdkWorkspaceAgent r.(sdkWorkspaceAgent_ID) r.(sdkWorkspaceAgent_CreatedAt)
    r.(sdkWorkspaceAgent_UpdatedAt) r.(sdkWorkspaceAgent_FirstConnectedAt)
    r.(sdkWorkspaceAgent_LastConnectedAt) r.(sdkWorkspaceAgent_DisconnectedAt)
    r.(sdkWorkspaceAgent_Status) r.(sdkWorkspaceAgent_Name) r.(sdkWorkspaceAgent_ResourceID)
    r.(sdkWorkspaceAgent_InstanceID) r.(sdkWorkspaceAgent_Architecture)
    r.(sdkWorkspaceAgent_EnvironmentVariables) r.(sdkWorkspaceAgent_OperatingSystem)
    r.(sdkWorkspaceAgent_StartupScript) r.(sdkWorkspaceAgent_Directory)
    r.(sdkWorkspaceAgent_Version) r.(sdkWorkspaceAgent_Apps) r.(sdkWorkspaceAgent_DERPLatency)
    r.(sdkWorkspaceAgent_ConnectionTimeoutSeconds) r.(sdkWorkspaceAgent_TroubleshootingURL).

Record sdkWorkspaceResourceMetadata := mksdkWorkspaceResourceMetadata {
  sdkWorkspaceResourceMetadata_Key : string;
  sdkWorkspaceResourceMetadata_Value : string;
  sdkWorkspaceResourceMetadata_Sensitive : bool;
}.
#[global] Instance sdkWorkspaceResourceMetadata_eta : Eta sdkWorkspaceResourceMetadata := λ r,
  mksdkWorkspaceResourceMetadata r.(sdkWorkspaceResourceMetadata_Key)
    r.(sdkWorkspaceResourceMetadata_Value) r.(sdkWorkspaceResourceMetadata_Sensitive).

Record sdkWorkspaceResource := mksdkWorkspaceResource {
  sdkWorkspaceResource_ID : uuid;
  sdkWorkspaceResource_CreatedAt : time;
  sdkWorkspaceResource_JobID : uuid;
  sdkWorkspaceResource_Transition : WorkspaceTransition;
  sdkWorkspaceResource_Type : string;
  sdkWorkspaceResource_Name : string;
  sdkWorkspaceResource_Hide : bool;
  sdkWorkspaceResource_Icon : string;
  sdkWorkspaceResource_Agents : list sdkWorkspaceAgent;
  sdkWorkspaceResource_Metadata : list sdkWorkspaceResourceMetadata;
  sdkWorkspaceResource_DailyCost : Z;
}.
#[global] Instance sdkWorkspaceResource_eta : Eta sdkWorkspaceResource := λ r,
  mksdkWorkspaceResource r.(sdkWorkspaceResource_ID) r.(sdkWorkspaceResource_CreatedAt)
    r.(sdkWorkspaceResource_JobID) r.(sdkWorkspaceResource_Transition)
    r.(sdkWorkspaceResource_Type) r.(sdkWorkspaceResource_Name) r.(sdkWorkspaceResource_Hide)
    r.(sdkWorkspaceResource_Icon) r.(sdkWorkspaceResource_Agents)
    r.(sdkWorkspaceResource_Metadata) r.(sdkWorkspaceResource_DailyCost).

Record sdkWorkspaceBuild := mksdkWorkspaceBuild {
  sdkWorkspaceBuild_ID : uuid;
  sdkWorkspaceBuild_CreatedAt : time;
  sdkWorkspaceBuild_UpdatedAt : time;
  sdkWorkspaceBuild_WorkspaceID : uuid;
  sdkWorkspaceBuild_WorkspaceName : string;
  sdkWorkspaceBuild_WorkspaceOwnerID : uuid;
  sdkWorkspaceBuild_WorkspaceOwnerName : string;
  sdkWorkspaceBuild_TemplateVersionID : uuid;
  sdkWorkspaceBuild_TemplateVersionName : string;
  sdkWorkspaceBuild_BuildNumber : Z;
  sdkWorkspaceBuild_Transition : WorkspaceTransition;
  sdkWorkspaceBuild_InitiatorID : uuid;
  sdkWorkspaceBuild_InitiatorUsername : string;
  sdkWorkspaceBuild_Job : sdkProvisionerJob;
  sdkWorkspaceBuild_Reason : BuildReason;
  sdkWorkspaceBuild_Resources : list sdkWorkspaceResource;
  sdkWorkspaceBuild_Deadline : nullable time;
  sdkWorkspaceBuild_Status : WorkspaceStatus;
  sdkWorkspaceBuild_DailyCost : Z;
}.
#[global] Instance sdkWorkspaceBuild_eta : Eta sdkWorkspaceBuild := λ r,
  mksdkWorkspaceBuild r.(sdkWorkspaceBuild_ID) r.(sdkWorkspaceBuild_CreatedAt)
    r.(sdkWorkspaceBuild_UpdatedAt) r.(sdkWorkspaceBuild_WorkspaceID)
    r.(sdkWorkspaceBuild_WorkspaceName) r.(sdkWorkspaceBuild_WorkspaceOwnerID)
    r.(sdkWorkspaceBuild_WorkspaceOwnerName) r.(sdkWorkspaceBuild_TemplateVersionID)
    r.(sdkWorkspaceBuild_TemplateVersionName) r.(sdkWorkspaceBuild_BuildNumber)
    r.(sdkWorkspaceBuild_Transition) r.(sdkWorkspaceBuild_InitiatorID)
    r.(sdkWorkspaceBuild_InitiatorUsername) r.(sdkWorkspaceBuild_Job)
    r.(sdkWorkspaceBuild_Reason) r.(sdkWorkspaceBuild_Resources) r.(sdkWorkspaceBuild_Deadline)
    r.(sdkWorkspaceBuild_Status) r.(sdkWorkspaceBuild_DailyCost).

Record sdkWorkspace := mksdkWorkspace {
  sdkWorkspace_ID : uuid;
  sdkWorkspace_CreatedAt : time;
  sdkWorkspace_UpdatedAt : time;
  sdkWorkspace_OwnerID : uuid;
  sdkWorkspace_OwnerName : string;
  sdkWorkspace_TemplateID : uuid;
  sdkWorkspace_TemplateName : string;
  sdkWorkspace_TemplateDisplayName : string;
  sdkWorkspace_TemplateIcon : string;
  sdkWorkspace_TemplateAllowUserCancelWorkspaceJobs : bool;
  sdkWorkspace_LatestBuild : sdkWorkspaceBuild;
  sdkWorkspace_Outdated : bool;
  sdkWorkspace_Name : string;
  sdkWorkspace_AutostartSchedule : option string;
  sdkWorkspace_TTLMillis : option Z;
  sdkWorkspace_LastUsedAt : time;
}.
#[global] Instance sdkWorkspace_eta : Eta sdkWorkspace := λ r,
  mksdkWorkspace r.(sdkWorkspace_ID) r.(sdkWorkspace_CreatedAt) r.(sdkWorkspace_UpdatedAt)
    r.(sdkWorkspace_OwnerID) r.(sdkWorkspace_OwnerName) r.(sdkWorkspace_TemplateID)
    r.(sdkWorkspace_TemplateName) r.(sdkWorkspace_TemplateDisplayName)
    r.(sdkWorkspace_TemplateIcon) r.(sdkWorkspace_TemplateAllowUserCancelWorkspaceJobs)
    r.(sdkWorkspace_LatestBuild) r.(sdkWorkspace_Outdated) r.(sdkWorkspace_Name)
    r.(sdkWorkspace_AutostartSchedule) r.(sdkWorkspace_TTLMillis) r.(sdkWorkspace_LastUsedAt).

Record WorkspacesResponse := mkWorkspacesResponse {
  WorkspacesResponse_Workspaces : list sdkWorkspace;
  WorkspacesResponse_Count : Z;
}.
#[global] Instance WorkspacesResponse_eta : Eta WorkspacesResponse := λ r,
  mkWorkspacesResponse r.(WorkspacesResponse_Workspaces) r.(WorkspacesResponse_Count).

Record CreateWorkspaceBuildRequest := mkCreateWorkspaceBuildRequest {
  CreateWorkspaceBuildRequest_TemplateVersionID : uuid;
  CreateWorkspaceBuildRequest_Transition : WorkspaceTransition;
  CreateWorkspaceBuildRequest_DryRun : bool;
  CreateWorkspaceBuildRequest_ProvisionerState : option bytes;
  CreateWorkspaceBuildRequest_Orphan : bool;
  CreateWorkspaceBuildRequest_ParameterValues : list CreateParameterRequest;
}.
#[global] Instance CreateWorkspaceBuildRequest_eta : Eta CreateWorkspaceBuildRequest := λ r,
  mkCreateWorkspaceBuildRequest r.(CreateWorkspaceBuildRequest_TemplateVersionID)
    r.(CreateWorkspaceBuildRequest_Transition) r.(CreateWorkspaceBuildRequest_DryRun)
    r.(CreateWorkspaceBuildRequest_ProvisionerState) r.(CreateWorkspaceBuildRequest_Orphan)
    r.(CreateWorkspaceBuildRequest_ParameterValues).

Record UpdateWorkspaceRequest := mkUpdateWorkspaceRequest {
  UpdateWorkspaceRequest_Name : string;
}.
#[global] Instance UpdateWorkspaceRequest_eta : Eta UpdateWorkspaceRequest := λ r,
  mkUpdateWorkspaceRequest r.(UpdateWorkspaceRequest_Name).

Record UpdateWorkspaceAutostartRequest := mkUpdateWorkspaceAutostartRequest {
  UpdateWorkspaceAutostartRequest_Schedule : option string;
}.
#[global] Instance UpdateWorkspaceAutostartRequest_eta : Eta UpdateWorkspaceAutostartRequest := λ r,
  mkUpdateWorkspaceAutostartRequest r.(UpdateWorkspaceAutostartRequest_Schedule).

Record UpdateWorkspaceTTLRequest := mkUpdateWorkspaceTTLRequest {
  UpdateWorkspaceTTLRequest_TTLMillis : option Z;
}.
#[global] Instance UpdateWorkspaceTTLRequest_eta : Eta UpdateWorkspaceTTLRequest := λ r,
  mkUpdateWorkspaceTTLRequest r.(UpdateWorkspaceTTLRequest_TTLMillis).

Record PutExtendWorkspaceRequest := mkPutExtendWorkspaceRequest {
  PutExtendWorkspaceRequest_Deadline : time;
}.
#[global] Instance PutExtendWorkspaceRequest_eta : Eta PutExtendWorkspaceRequest := λ r,
  mkPutExtendWorkspaceRequest r.(PutExtendWorkspaceRequest_Deadline).

Record WorkspaceAgentAuthenticateResponse := mkWorkspaceAgentAuthenticateResponse {
  WorkspaceAgentAuthenticateResponse_SessionToken : string;
}.
#[global] Instance WorkspaceAgentAuthenticateResponse_eta : Eta WorkspaceAgentAuthenticateResponse := λ r,
  mkWorkspaceAgentAuthenticateResponse r.(WorkspaceAgentAuthenticateResponse_SessionToken).

Record AzureInstanceIdentityToken := mkAzureInstanceIdentityToken {
  AzureInstanceIdentityToken_Signature : string;
  AzureInstanceIdentityToken_Encoding : string;
}.
#[global] Instance AzureInstanceIdentityToken_eta : Eta AzureInstanceIdentityToken := λ r,
  mkAzureInstanceIdentityToken r.(AzureInstanceIdentityToken_Signature)
    r.(AzureInstanceIdentityToken_Encoding).

Record AWSInstanceIdentityToken := mkAWSInstanceIdentityToken {
  AWSInstanceIdentityToken_Signature : string;
  AWSInstanceIdentityToken_Document : string;
}.
#[global] Instance AWSInstanceIdentityToken_eta : Eta AWSInstanceIdentityToken := λ r,
  mkAWSInstanceIdentityToken r.(AWSInstanceIdentityToken_Signature)
    r.(AWSInstanceIdentityToken_Document).

Record GoogleInstanceIdentityToken := mkGoogleInstanceIdentityToken {
  GoogleInstanceIdentityToken_JSONWebToken : string;
}.
#[global] Instance GoogleInstanceIdentityToken_eta : Eta GoogleInstanceIdentityToken := λ r,
  mkGoogleInstanceIdentityToken r.(GoogleInstanceIdentityToken_JSONWebToken).

Record PostWorkspaceAgentVersionRequest := mkPostWorkspaceAgentVersionRequest {
  PostWorkspaceAgentVersionRequest_Version : string;
}.
#[global] Instance PostWorkspaceAgentVersionRequest_eta : Eta PostWorkspaceAgentVersionRequest := λ r,
  mkPostWorkspaceAgentVersionRequest r.(PostWorkspaceAgentVersionRequest_Version).

Record AgentStatsReportResponse := mkAgentStatsReportResponse {
  AgentStatsReportResponse_NumConns : Z;
  AgentStatsReportResponse_RxBytes : Z;
  AgentStatsReportResponse_TxBytes : Z;
}.
#[global] Instance AgentStatsReportResponse_eta : Eta AgentStatsReportResponse := λ r,
  mkAgentStatsReportResponse r.(AgentStatsReportResponse_NumConns)
    r.(AgentStatsReportResponse_RxBytes) r.(AgentStatsReportResponse_TxBytes).

Record AgentStats := mkAgentStats {
  AgentStats_ConnsByProto : gmap string Z;
  AgentStats_NumConns : Z;
  AgentStats_RxPackets : Z;
  AgentStats_RxBytes : Z;
  AgentStats_TxPackets : Z;
  AgentStats_TxBytes : Z;
}.
#[global] Instance AgentStats_eta : Eta AgentStats := λ r,
  mkAgentStats r.(AgentStats_ConnsByProto) r.(AgentStats_NumConns) r.(AgentStats_RxPackets)
    r.(AgentStats_RxBytes) r.(AgentStats_TxPackets) r.(AgentStats_TxBytes).

Record AgentStatsResponse := mkAgentStatsResponse {
  AgentStatsResponse_ReportInterval : duration;
}.
#[global] Instance AgentStatsResponse_eta : Eta AgentStatsResponse := λ r,
  mkAgentStatsResponse r.(AgentStatsResponse_ReportInterval).

Record WorkspaceAgentGitAuthResponse := mkWorkspaceAgentGitAuthResponse {
  WorkspaceAgentGitAuthResponse_Username : string;
  WorkspaceAgentGitAuthResponse_Password : string;
  WorkspaceAgentGitAuthResponse_URL : string;
}.
#[global] Instance WorkspaceAgentGitAuthResponse_eta : Eta WorkspaceAgentGitAuthResponse := λ r,
  mkWorkspaceAgentGitAuthResponse r.(WorkspaceAgentGitAuthResponse_Username)
    r.(WorkspaceAgentGitAuthResponse_Password) r.(WorkspaceAgentGitAuthResponse_URL).

Record PostWorkspaceAppHealthsRequest := mkPostWorkspaceAppHealthsRequest {
  PostWorkspaceAppHealthsRequest_Healths : gmap uuid WorkspaceAppHealth;
}.
#[global] Instance PostWorkspaceAppHealthsRequest_eta : Eta PostWorkspaceAppHealthsRequest := λ r,
  mkPostWorkspaceAppHealthsRequest r.(PostWorkspaceAppHealthsRequest_Healths).

Record AuditDiffField := mkAuditDiffField {
  AuditDiffField_Old : json;
  AuditDiffField_New : json;
  AuditDiffField_Secret : bool;
}.
#[global] Instance AuditDiffField_eta : Eta AuditDiffField := λ r,
  mkAuditDiffField r.(AuditDiffField_Old) r.(AuditDiffField_New) r.(AuditDiffField_Secret).

Record sdkAuditLog := mksdkAuditLog {
  sdkAuditLog_ID : uuid;
  sdkAuditLog_RequestID : uuid;
  sdkAuditLog_Time : time;
  sdkAuditLog_OrganizationID : uuid;
  sdkAuditLog_IP : bytes;
  sdkAuditLog_UserAgent : string;
  sdkAuditLog_ResourceType : ResourceType;
  sdkAuditLog_ResourceID : uuid;
  sdkAuditLog_ResourceTarget : string;
  sdkAuditLog_ResourceIcon : string;
  sdkAuditLog_Action : AuditAction;
  sdkAuditLog_Diff : list (string * AuditDiffField);
  sdkAuditLog_StatusCode : Z;
  sdkAuditLog_AdditionalFields : RawMessage;
  sdkAuditLog_Description : string;
  sdkAuditLog_User : option sdkUser;
}.
#[global] Instance sdkAuditLog_eta : Eta sdkAuditLog := λ r,
  mksdkAuditLog r.(sdkAuditLog_ID) r.(sdkAuditLog_RequestID) r.(sdkAuditLog_Time)
    r.(sdkAuditLog_OrganizationID) r.(sdkAuditLog_IP) r.(sdkAuditLog_UserAgent)
    r.(sdkAuditLog_ResourceType) r.(sdkAuditLog_ResourceID) r.(sdkAuditLog_ResourceTarget)
    r.(sdkAuditLog_ResourceIcon) r.(sdkAuditLog_Action) r.(sdkAuditLog_Diff)
    r.(sdkAuditLog_StatusCode) r.(sdkAuditLog_AdditionalFields) r.(sdkAuditLog_Description)
    r.(sdkAuditLog_User).

Record AuditLogResponse := mkAuditLogResponse {
  AuditLogResponse_AuditLogs : list sdkAuditLog;
  AuditLogResponse_Count : Z;
}.
#[global] Instance AuditLogResponse_eta : Eta AuditLogResponse := λ r,
  mkAuditLogResponse r.(AuditLogResponse_AuditLogs) r.(AuditLogResponse_Count).

Record CreateTestAuditLogRequest := mkCreateTestAuditLogRequest {
  CreateTestAuditLogRequest_Action : AuditAction;
  CreateTestAuditLogRequest_ResourceType : ResourceType;
  CreateTestAuditLogRequest_ResourceID : uuid;
  CreateTestAuditLogRequest_Time : time;
}.
#[global] Instance CreateTestAuditLogRequest_eta : Eta CreateTestAuditLogRequest := λ r,
  mkCreateTestAuditLogRequest r.(CreateTestAuditLogRequest_Action)
    r.(CreateTestAuditLogRequest_ResourceType) r.(CreateTestAuditLogRequest_ResourceID)
    r.(CreateTestAuditLogRequest_Time).

Record sdkReplica := mksdkReplica {
  sdkReplica_ID : uuid;
  sdkReplica_Hostname : string;
  sdkReplica_CreatedAt : time;
  sdkReplica_RelayAddress : string;
  sdkReplica_RegionID : Z;
  sdkReplica_Error : string;
  sdkReplica_DatabaseLatency : Z;
}.
#[global] Instance sdkReplica_eta : Eta sdkReplica := λ r,
  mksdkReplica r.(sdkReplica_ID) r.(sdkReplica_Hostname) r.(sdkReplica_CreatedAt)
    r.(sdkReplica_RelayAddress) r.(sdkReplica_RegionID) r.(sdkReplica_Error)
    r.(sdkReplica_DatabaseLatency).

Record AddLicenseRequest := mkAddLicenseRequest {
  AddLicenseRequest_License : string;
}.
#[global] Instance AddLicenseRequest_eta : Eta AddLicenseRequest := λ r,
  mkAddLicenseRequest r.(AddLicenseRequest_License).

Record sdkLicense := mksdkLicense {
  sdkLicense_ID : Z;
  sdkLicense_UUID : uuid;
  sdkLicense_UploadedAt : time;
  sdkLicense_Claims : gmap string json;
}.
#[global] Instance sdkLicense_eta : Eta sdkLicense := λ r,
  mksdkLicense r.(sdkLicense_ID) r.(sdkLicense_UUID) r.(sdkLicense_UploadedAt)
    r.(sdkLicense_Claims).

Record Feature := mkFeature {
  Feature_Entitlement : Entitlement;
  Feature_Enabled : bool;
  Feature_Limit : option Z;
  Feature_Actual : option Z;
}.
#[global] Instance Feature_eta : Eta Feature := λ r,
  mkFeature r.(Feature_Entitlement) r.(Feature_Enabled) r.(Feature_Limit) r.(Feature_Actual).

Record Entitlements := mkEntitlements {
  Entitlements_Features : gmap string Feature;
  Entitlements_Warnings : list string;
  Entitlements_Errors : list string;
  Entitlements_HasLicense : bool;
  Entitlements_Experimental : bool;
  Entitlements_Trial : bool;
}.
#[global] Instance Entitlements_eta : Eta Entitlements := λ r,
  mkEntitlements r.(Entitlements_Features) r.(Entitlements_Warnings) r.(Entitlements_Errors)
    r.(Entitlements_HasLicense) r.(Entitlements_Experimental) r.(Entitlements_Trial).

Record sdkProvisionerDaemon := mksdkProvisionerDaemon {
  sdkProvisionerDaemon_ID : uuid;
  sdkProvisionerDaemon_CreatedAt : time;
  sdkProvisionerDaemon_UpdatedAt : nullable time;
  sdkProvisionerDaemon_Name : string;
  sdkProvisionerDaemon_Provisioners : list ProvisionerType;
  sdkProvisionerDaemon_Tags : gmap string string;
}.
#[global] Instance sdkProvisionerDaemon_eta : Eta sdkProvisionerDaemon := λ r,
  mksdkProvisionerDaemon r.(sdkProvisionerDaemon_ID) r.(sdkProvisionerDaemon_CreatedAt)
    r.(sdkProvisionerDaemon_UpdatedAt) r.(sdkProvisionerDaemon_Name)
    r.(sdkProvisionerDaemon_Provisioners) r.(sdkProvisionerDaemon_Tags).

Record WorkspaceAgentMetadata := mkWorkspaceAgentMetadata {
  WorkspaceAgentMetadata_GitAuthConfigs : Z;
  WorkspaceAgentMetadata_VSCodePortProxyURI : string;
  WorkspaceAgentMetadata_Apps : list sdkWorkspaceApp;
  WorkspaceAgentMetadata_DERPMap : DERPMap;
  WorkspaceAgentMetadata_EnvironmentVariables : gmap string string;
  WorkspaceAgentMetadata_StartupScript : string;
  WorkspaceAgentMetadata_Directory : string;
  WorkspaceAgentMetadata_MOTDFile : string;
}.
#[global] Instance WorkspaceAgentMetadata_eta : Eta WorkspaceAgentMetadata := λ r,
  mkWorkspaceAgentMetadata r.(WorkspaceAgentMetadata_GitAuthConfigs)
    r.(WorkspaceAgentMetadata_VSCodePortProxyURI) r.(WorkspaceAgentMetadata_Apps)
    r.(WorkspaceAgentMetadata_DERPMap) r.(WorkspaceAgentMetadata_EnvironmentVariables)
    r.(WorkspaceAgentMetadata_StartupScript) r.(WorkspaceAgentMetadata_Directory)
    r.(WorkspaceAgentMetadata_MOTDFile).

Record WorkspaceAgentConnectionInfo := mkWorkspaceAgentConnectionInfo {
  WorkspaceAgentConnectionInfo_DERPMap : DERPMap;
}.
#[global] Instance WorkspaceAgentConnectionInfo_eta : Eta WorkspaceAgentConnectionInfo := λ r,
  mkWorkspaceAgentConnectionInfo r.(WorkspaceAgentConnectionInfo_DERPMap).

Record ListeningPort := mkListeningPort {
  ListeningPort_ProcessName : string;
  ListeningPort_Network : ListeningPortNetwork;
  ListeningPort_Port : Z;
}.
#[global] Instance ListeningPort_eta : Eta ListeningPort := λ r,
  mkListeningPort r.(ListeningPort_ProcessName) r.(ListeningPort_Network) r.(ListeningPort_Port).

Record ListeningPortsResponse := mkListeningPortsResponse {
  ListeningPortsResponse_Ports : list ListeningPort;
}.
#[global] Instance ListeningPortsResponse_eta : Eta ListeningPortsResponse := λ r,
  mkListeningPortsResponse r.(ListeningPortsResponse_Ports).

Record GetAppHostResponse := mkGetAppHostResponse {
  GetAppHostResponse_Host : string;
}.
#[global] Instance GetAppHostResponse_eta : Eta GetAppHostResponse := λ r,
  mkGetAppHostResponse r.(GetAppHostResponse_Host).

(** The user of [enterprise/coderd/scim.go]; its groups are only passed on. *)
Record SCIMEmail := mkSCIMEmail {
  SCIMEmail_Primary : bool;
  SCIMEmail_Value : string;
  SCIMEmail_Type : string;
  SCIMEmail_Display : string;
}.
Record SCIMUser := mkSCIMUser {
  SCIMUser_Schemas : list string;
  SCIMUser_ID : string;
  SCIMUser_UserName : string;
  SCIMUser_GivenName : string;
  SCIMUser_FamilyName : string;
  SCIMUser_Emails : list SCIMEmail;
  SCIMUser_Active : bool;
  SCIMUser_Groups : list json;
  SCIMUser_ResourceType : string;
}.
#[global] Instance SCIMUser_eta : Eta SCIMUser := λ r,
  mkSCIMUser r.(SCIMUser_Schemas) r.(SCIMUser_ID) r.(SCIMUser_UserName) r.(SCIMUser_GivenName)
    r.(SCIMUser_FamilyName) r.(SCIMUser_Emails) r.(SCIMUser_Active) r.(SCIMUser_Groups)
    r.(SCIMUser_ResourceType).

(** [ErrorPageData] of [site/site.go]. *)
Record ErrorPageData := mkErrorPageData {
  ErrorPageData_Status : Z;
  ErrorPageData_Title : string;
  ErrorPageData_Description : string;
  ErrorPageData_RetryEnabled : bool;
  ErrorPageData_DashboardURL : string;
}.

(** What a response carries: nothing, a JSON value, a file, a page, or a redirect to
    the login page with its message and the page to come back to. *)
Inductive Body :=
| BodyNone
| BodyFile (mimetype : string) (data : bytes)
| BodyState (state : bytes)
| BodyRedirect (message path : string)
| BodyPage (page : ErrorPageData)
| BodyResponse (body : Response)
| BodyUsers (body : GetUsersResponse)
| BodyUser (body : sdkUser)
| BodyFirstUser (body : CreateFirstUserResponse)
| BodyUserRoles (body : UserRoles)
| BodyOrganization (body : sdkOrganization)
| BodyOrganizations (body : list sdkOrganization)
| BodyOrganizationMember (body : sdkOrganizationMember)
| BodyAssignableRoles (body : list AssignableRoles)
| BodyLogin (body : LoginWithPasswordResponse)
| BodyGeneratedKey (body : GenerateAPIKeyResponse)
| BodyAPIKey (body : sdkAPIKey)
| BodyAPIKeys (body : list sdkAPIKey)
| BodyGitSSHKey (body : sdkGitSSHKey)
| BodyAgentGitSSHKey (body : AgentGitSSHKey)
| BodyUpload (body : UploadResponse)
| BodyAuthorization (body : gmap string bool)
| BodyParameter (body : sdkParameter)
| BodyParameters (body : list sdkParameter)
| BodyParameterSchemas (body : list sdkParameterSchema)
| BodyComputedValues (body : list ComputedValue)
| BodyProvisionerJob (body : sdkProvisionerJob)
| BodyProvisionerJobLogs (body : list sdkProvisionerJobLog)
| BodyTemplate (body : sdkTemplate)
| BodyTemplates (body : list sdkTemplate)
| BodyTemplateVersion (body : sdkTemplateVersion)
| BodyTemplateVersions (body : list sdkTemplateVersion)
| BodyTemplateDAUs (body : TemplateDAUsResponse)
| BodyGroup (body : sdkGroup)
| BodyGroups (body : list sdkGroup)
| BodyTemplateACL (body : sdkTemplateACL)
| BodyWorkspaceQuota (body : WorkspaceQuota)
| BodyWorkspaceAgent (body : sdkWorkspaceAgent)
| BodyWorkspaceResource (body : sdkWorkspaceResource)
| BodyWorkspaceResources (body : list sdkWorkspaceResource)
| BodyWorkspaceBuild (body : sdkWorkspaceBuild)
| BodyWorkspaceBuilds (body : list sdkWorkspaceBuild)
| BodyWorkspace (body : sdkWorkspace)
| BodyWorkspaces (body : WorkspacesResponse)
| BodyAgentAuth (body : WorkspaceAgentAuthenticateResponse)
| BodyAgentStats (body : AgentStatsResponse)
| BodyAgentGitAuth (body : WorkspaceAgentGitAuthResponse)
| BodyAuditLogs (body : AuditLogResponse)
| BodyAuthMethods (body : AuthMethods)
| BodyReplicas (body : list sdkReplica)
| BodyLicense (body : sdkLicense)
| BodyLicenses (body : list sdkLicense)
| BodyEntitlements (body : Entitlements)
| BodyProvisionerDaemons (body : list sdkProvisionerDaemon)
| BodyAgentMetadata (body : WorkspaceAgentMetadata)
| BodyAgentConnection (body : WorkspaceAgentConnectionInfo)
| BodyListeningPorts (body : ListeningPortsResponse)
| BodySCIMUser (body : SCIMUser)
| BodyAppHost (body : GetAppHostResponse).
