(* ===== verification/License.v ===== *)
(** * Licenses and entitlements

    [enterprise/coderd/license/license.go] and the feature names of
    [codersdk/features.go]. Parsing and verifying a JWT is third-party code: what
    it makes of a text, under a function that finds the key of a header, is a
    parameter. *)

From Stdlib Require Import Ascii.
From stdpp Require Import prelude gmap strings pretty.
From S2P Require Import Prelude Models Queries Store StoreUsers StoreMisc World Sdk.

Local Open Scope Z_scope.

(** ** [codersdk/features.go] *)

Definition FeatureUserLimit : string := "user_limit".
Definition FeatureAuditLog : string := "audit_log".
Definition FeatureBrowserOnly : string := "browser_only".
Definition FeatureSCIM : string := "scim".
Definition FeatureTemplateRBAC : string := "template_rbac".
Definition FeatureHighAvailability : string := "high_availability".
Definition FeatureMultipleGitAuth : string := "multiple_git_auth".
Definition FeatureExternalProvisionerDaemons : string := "external_provisioner_daemons".

Definition FeatureNames : list string :=
  [FeatureUserLimit; FeatureAuditLog; FeatureBrowserOnly; FeatureSCIM; FeatureTemplateRBAC;
   FeatureHighAvailability; FeatureMultipleGitAuth; FeatureExternalProvisionerDaemons].

(** A feature that is missing from the map is the zero value; its entitlement is
    the empty string, which is none of the three, and is not looked at. *)
Definition Feature_zero : Feature := mkFeature EntitlementNotEntitled false None None.
Definition feature_of (features : gmap string Feature) (name : string) : Feature :=
  default Feature_zero (features !! name).

(** ** Claims *)

Record license_Features := mkLicenseFeatures {
  Features_UserLimit : Z;
  Features_AuditLog : Z;
  Features_BrowserOnly : Z;
  Features_SCIM : Z;
  Features_TemplateRBAC : Z;
  Features_HighAvailability : Z;
  Features_MultipleGitAuth : Z;
  Features_ExternalProvisionerDaemons : Z;
}.

(** [ID] is of the registered claims. *)
Record Claims := mkClaims {
  Claims_ID : string;
  Claims_LicenseExpires : option time;
  Claims_AccountType : string;
  Claims_AccountID : string;
  Claims_Trial : bool;
  Claims_AllFeatures : bool;
  Claims_Version : Z;
  Claims_Features : license_Features;
}.

Abbreviation MapClaims := (gmap string json) (only parsing).
Abbreviation license_keys := (gmap string bytes) (only parsing).

Definition CurrentVersion : Z := 3.
Definition HeaderKeyID : string := "kid".
Definition VersionClaim : string := "version".
Definition ErrInvalidVersion : error := ErrNew "license must be version 3".
Definition ErrMissingKeyID : error := ErrNew ("JOSE header must contain " +:+ HeaderKeyID).
Definition ErrMissingLicenseExpires : error := ErrNew "license missing license_expires".

(** [github.com/golang-jwt/jwt], for the methods of [ValidMethods]: the claims of a
    token that verifies under the key its header names, as a map and as [Claims].
    Whether it is valid may depend on the time. *)
Class Jwt := {
  jwt_Parse : string → (gmap string json → error + bytes) → time → error + MapClaims;
  jwt_ParseWithClaims : string → (gmap string json → error + bytes) → time → error + Claims;
}.

Definition keyFunc (keys : license_keys) (header : gmap string json) : error + bytes :=
  match header !! HeaderKeyID with
  | Some (JString keyID) =>
      match keys !! keyID with
      | Some k => inr k
      | None => inl (ErrNew ("no key with ID " +:+ keyID))
      end
  | _ => inl ErrMissingKeyID
  end.

Section license.
Context `{!Jwt}.

(** [int64(claim.(float64))] *)
Definition number_claim (claim : option json) : option Z :=
  match claim with Some (JNumber n) | Some (JFraction n _) => Some n | _ => None end.

Definition ParseRaw (l : string) (keys : license_keys) (now : time) : error + MapClaims :=
  match jwt_Parse l (keyFunc keys) now with
  | inl e => inl e
  | inr claims =>
      match number_claim (claims !! VersionClaim) with
      | Some version => if version != CurrentVersion then inl ErrInvalidVersion else inr claims
      | None => inl ErrInvalidVersion
      end
  end.

Definition ParseClaims (rawJWT : string) (keys : license_keys) (now : time) : error + Claims :=
  match jwt_ParseWithClaims rawJWT (keyFunc keys) now with
  | inl e => inl e
  | inr claims =>
      if claims.(Claims_Version) != CurrentVersion then inl ErrInvalidVersion
      else match claims.(Claims_LicenseExpires) with
           | None => inl ErrMissingLicenseExpires
           | Some _ => inr claims
           end
  end.

(** ** Entitlements *)

(** Under way: the entitlements, and whether a license has all features. *)
Record license_state := mkLicenseState {
  ls_features : gmap string Feature;
  ls_hasLicense : bool;
  ls_trial : bool;
  ls_all : bool;
}.

Definition grant (name : string) (value : Z) (feature : Feature) (features : gmap string Feature) : gmap string Feature :=
  if 0 <? value then <[name := feature]> features else features.

Definition enabled_in (enablements : gmap string bool) (name : string) : bool := default false (enablements !! name).

(** A license in its term, or in the grace period after it. *)
Definition license_entitlement (now : time) (claims : Claims) : Entitlement :=
  if After now (default time_zero claims.(Claims_LicenseExpires)) then EntitlementGracePeriod else EntitlementEntitled.

(** One license that parses. *)
Definition apply_license (now : time) (activeUserCount : Z) (enablements : gmap string bool) (s : license_state)
    (claims : Claims) : license_state :=
  let entitlement := license_entitlement now claims in
  let f := claims.(Claims_Features) in
  let set name := mkFeature entitlement (enabled_in enablements name) None None in
  let limit := match (feature_of s.(ls_features) FeatureUserLimit).(Feature_Limit) with
               | Some prior => if f.(Features_UserLimit) <? prior then prior else f.(Features_UserLimit)
               | None => f.(Features_UserLimit)
               end in
  let features :=
    grant FeatureExternalProvisionerDaemons f.(Features_ExternalProvisionerDaemons) (mkFeature entitlement true None None)
    (grant FeatureMultipleGitAuth f.(Features_MultipleGitAuth) (mkFeature entitlement true None None)
    (grant FeatureTemplateRBAC f.(Features_TemplateRBAC) (set FeatureTemplateRBAC)
    (grant FeatureHighAvailability f.(Features_HighAvailability) (set FeatureHighAvailability)
    (grant FeatureSCIM f.(Features_SCIM) (set FeatureSCIM)
    (grant FeatureBrowserOnly f.(Features_BrowserOnly) (set FeatureBrowserOnly)
    (grant FeatureAuditLog f.(Features_AuditLog) (set FeatureAuditLog)
    (grant FeatureUserLimit f.(Features_UserLimit) (mkFeature entitlement true (Some limit) (Some activeUserCount))
     s.(ls_features)))))))) in
  mkLicenseState features true claims.(Claims_Trial) (s.(ls_all) || claims.(Claims_AllFeatures)).

(** The licenses that parse, in order. *)
Definition valid_claims (keys : license_keys) (now : time) (licenses : list License) : list Claims :=
  l ← licenses; match ParseClaims l.(License_JWT) keys now with inl _ => [] | inr claims => [claims] end.

(** Every feature but the user limit becomes entitled. *)
Definition entitle_all (features : gmap string Feature) : gmap string Feature :=
  foldl (λ features name,
    if name == FeatureUserLimit then features
    else <[name := (feature_of features name) <| Feature_Entitlement := EntitlementEntitled |>]> features)
    features FeatureNames.

(** [strings.Title] of an ASCII text. *)
Fixpoint title_from (start : bool) (s : string) : string :=
  match s with
  | EmptyString => EmptyString
  | String c s =>
      String (if start then
                (if (97 <=? Ascii.N_of_ascii c)%N && (Ascii.N_of_ascii c <=? 122)%N
                 then Ascii.ascii_of_N (Ascii.N_of_ascii c - 32) else c)
              else c)
        (title_from (is_space c) s)
  end.
(** [strings.ReplaceAll] of one character by another. *)
Fixpoint replace_char (from to : Ascii.ascii) (s : string) : string :=
  match s with
  | EmptyString => EmptyString
  | String c s => String (if c == from then to else c) (replace_char from to s)
  end.
Definition niceName (featureName : string) : string :=
  title_from true (replace_char "_"%char " "%char featureName).

Definition feature_warning (features : gmap string Feature) (name : string) : list string :=
  if (name == FeatureUserLimit) || (name == FeatureHighAvailability) || (name == FeatureMultipleGitAuth) then []
  else
    let feature := feature_of features name in
    if negb feature.(Feature_Enabled) then []
    else match feature.(Feature_Entitlement) with
         | EntitlementNotEntitled => [niceName name +:+ " is enabled but your license is not entitled to this feature."]
         | EntitlementGracePeriod => [niceName name +:+ " is enabled but your license for this feature is expired."]
         | EntitlementEntitled => []
         end.

Definition user_limit_warning (features : gmap string Feature) (activeUserCount : Z) : list string :=
  match (feature_of features FeatureUserLimit).(Feature_Limit) with
  | Some limit =>
      if limit <? activeUserCount
      then ["Your deployment has " +:+ pretty activeUserCount +:+ " active users but is only licensed for "
            +:+ pretty limit +:+ "."]
      else []
  | None => []
  end.

(** The warnings and the errors about having more than one of something. *)
Definition multiple_messages (features : gmap string Feature) (hasLicense : bool) (count : Z) (name : string)
    (notEntitled noLicense expired : string) : list string * list string :=
  if count <=? 1 then ([], [])
  else match (feature_of features name).(Feature_Entitlement) with
       | EntitlementNotEntitled => ([], [if hasLicense then notEntitled else noLicense])
       | EntitlementGracePeriod => ([expired], [])
       | EntitlementEntitled => ([], [])
       end.

(** Features without an entitlement are off. *)
Definition disable_not_entitled (features : gmap string Feature) : gmap string Feature :=
  foldl (λ features name,
    let feature := feature_of features name in
    if feature.(Feature_Entitlement) == EntitlementNotEntitled
    then <[name := feature <| Feature_Enabled := false |>]> features else features)
    features FeatureNames.

Definition default_features (enablements : gmap string bool) : gmap string Feature :=
  foldl (λ features name,
    <[name := mkFeature EntitlementNotEntitled (enabled_in enablements name) None None]> features) ∅ FeatureNames.

(** What the licenses and the counts make of the features. *)
Definition entitlements_of (now : time) (keys : license_keys) (enablements : gmap string bool) (licenses : list License)
    (activeUserCount replicaCount gitAuthCount : Z) : Entitlements :=
  let s := foldl (apply_license now activeUserCount enablements)
             (mkLicenseState (default_features enablements) false false false) (valid_claims keys now licenses) in
  let features := if s.(ls_all) then entitle_all s.(ls_features) else s.(ls_features) in
  let '(replicaWarnings, replicaErrors) :=
    multiple_messages features s.(ls_hasLicense) replicaCount FeatureHighAvailability
      "You have multiple replicas but your license is not entitled to high availability. You will be unable to connect to workspaces."
      "You have multiple replicas but high availability is an Enterprise feature. You will be unable to connect to workspaces."
      "You have multiple replicas but your license for high availability is expired. Reduce to one replica or workspace connections will stop working." in
  let '(gitWarnings, gitErrors) :=
    multiple_messages features s.(ls_hasLicense) gitAuthCount FeatureMultipleGitAuth
      "You have multiple Git authorizations configured but your license is limited at one."
      "You have multiple Git authorizations configured but this is an Enterprise feature. Reduce to one."
      "You have multiple Git authorizations configured but your license is expired. Reduce to one." in
  {| Entitlements_Features := disable_not_entitled features;
     Entitlements_Warnings :=
       (if s.(ls_hasLicense)
        then user_limit_warning features activeUserCount ++ (FeatureNames ≫= feature_warning features) else [])
       ++ replicaWarnings ++ gitWarnings;
     Entitlements_Errors := replicaErrors ++ gitErrors;
     Entitlements_HasLicense := s.(ls_hasLicense);
     Entitlements_Experimental := false;
     Entitlements_Trial := s.(ls_trial) |}.

Definition license_Entitlements `{!Environment} (replicaCount gitAuthCount : Z) (keys : license_keys)
    (enablements : gmap string bool) : GoM world Entitlements :=
  now ← time_Now;
  licenses ← query_now GetUnexpiredLicenses;
  activeUserCount ← wrap "query active user count" (query GetActiveUserCount);
  mret (entitlements_of now keys enablements licenses activeUserCount replicaCount gitAuthCount).
End license.
