(* ===== verification/LicenseProps.v ===== *)
(** * Licenses and entitlements: properties

    [Entitlements] walks over the licenses and overwrites a map; what it returns
    is, for each feature, what the last license that names it says, unless some
    license has all features. *)

From stdpp Require Import prelude gmap strings.
From S2P Require Import Prelude Models Queries Store World Sdk License.

Local Open Scope Z_scope.

(** ** A reference *)

(** What a license says about a feature. *)
Definition claimed (claims : Claims) (name : string) : Z :=
  let f := claims.(Claims_Features) in
  if name == FeatureUserLimit then f.(Features_UserLimit)
  else if name == FeatureAuditLog then f.(Features_AuditLog)
  else if name == FeatureBrowserOnly then f.(Features_BrowserOnly)
  else if name == FeatureSCIM then f.(Features_SCIM)
  else if name == FeatureTemplateRBAC then f.(Features_TemplateRBAC)
  else if name == FeatureHighAvailability then f.(Features_HighAvailability)
  else if name == FeatureMultipleGitAuth then f.(Features_MultipleGitAuth)
  else f.(Features_ExternalProvisionerDaemons).

(** The licenses that have a feature by name. *)
Definition granting (name : string) (l : list Claims) : list Claims := filter (λ c, 0 < claimed c name) l.

(** Features a license turns on, whatever the configuration says. *)
Definition always_on (name : string) : bool :=
  (name == FeatureUserLimit) || (name == FeatureMultipleGitAuth) || (name == FeatureExternalProvisionerDaemons).

Definition expected_entitlement (now : time) (l : list Claims) (name : string) : Entitlement :=
  if existsb Claims_AllFeatures l && negb (name == FeatureUserLimit) then EntitlementEntitled
  else match last (granting name l) with
       | Some c => license_entitlement now c
       | None => EntitlementNotEntitled
       end.

Definition expected_enabled (enablements : gmap string bool) (now : time) (l : list Claims) (name : string) : bool :=
  negb (expected_entitlement now l name == EntitlementNotEntitled) &&
  (if always_on name && negb (granting name l == []) then true else enabled_in enablements name).

(** The highest limit of the licenses. *)
Definition expected_limit (l : list Claims) : option Z :=
  match (λ c, c.(Claims_Features).(Features_UserLimit)) <$> granting FeatureUserLimit l with
  | [] => None
  | x :: rest => Some (foldl Z.max x rest)
  end.

(** ** One license *)

(** Decide the equality of two feature names. *)
Ltac decide_names :=
  repeat match goal with
    | |- context [bool_decide (?a = ?b)] =>
        let r := eval vm_compute in (bool_decide (a = b)) in
        lazymatch r with true => idtac | false => idtac end;
        change (bool_decide (a = b)) with r
    end.

Lemma feature_of_insert features n f name :
  feature_of (<[n := f]> features) name = if n == name then f else feature_of features name.
Proof.
  unfold feature_of. destruct (n == name) eqn:E.
  - apply bool_decide_eq_true in E as ->. by rewrite lookup_insert_eq.
  - apply bool_decide_eq_false in E. by rewrite lookup_insert_ne.
Qed.
Lemma feature_of_grant n v f features name :
  feature_of (grant n v f features) name = if (0 <? v) && (n == name) then f else feature_of features name.
Proof. unfold grant. destruct (0 <? v); [apply feature_of_insert|done]. Qed.

Section license.
Context (now : time) (activeUserCount : Z) (enablements : gmap string bool).

(** The entry a license makes for a feature. *)
Definition entry (prior : option Z) (c : Claims) (name : string) : Feature :=
  if name == FeatureUserLimit
  then mkFeature (license_entitlement now c) true
         (Some (match prior with
                | Some p => if c.(Claims_Features).(Features_UserLimit) <? p then p else c.(Claims_Features).(Features_UserLimit)
                | None => c.(Claims_Features).(Features_UserLimit)
                end)) (Some activeUserCount)
  else mkFeature (license_entitlement now c) (if always_on name then true else enabled_in enablements name) None None.

Lemma apply_license_feature s c name :
  name ∈ FeatureNames →
  feature_of (apply_license now activeUserCount enablements s c).(ls_features) name =
  if 0 <? claimed c name
  then entry (feature_of s.(ls_features) FeatureUserLimit).(Feature_Limit) c name
  else feature_of s.(ls_features) name.
Proof.
  intros Hname. unfold apply_license. cbn [ls_features]. rewrite !feature_of_grant.
  unfold FeatureNames in Hname. rewrite !elem_of_cons in Hname.
  destruct Hname as [->|[->|[->|[->|[->|[->|[->|[->|Hno]]]]]]]]; [..|by apply elem_of_nil in Hno];
    unfold claimed, entry, always_on; decide_names; cbn iota beta;
    repeat match goal with |- context [(?a && false)%bool] => rewrite (andb_false_r a) end;
    rewrite ?andb_true_r; reflexivity.
Qed.
End license.

(** ** The whole walk *)

(** A walk over names, each of which changes its own feature. *)
Lemma foldl_features (step : gmap string Feature → string → gmap string Feature) (g : string → Feature → Feature) names m name :
  (∀ m n, feature_of (step m n) name = if n == name then g name (feature_of m name) else feature_of m name) →
  NoDup names → name ∈ names → feature_of (foldl step m names) name = g name (feature_of m name).
Proof.
  intros Hstep. revert m. induction names as [|n names IH]; intros m Hdup Hin; [by apply elem_of_nil in Hin|].
  apply NoDup_cons in Hdup as [Hn Hdup]. simpl. apply elem_of_cons in Hin as [<-|Hin].
  - assert (∀ m, feature_of (foldl step m names) name = feature_of m name) as ->; [|by rewrite Hstep, bool_decide_true].
    clear -Hstep Hn. intros m. revert m. induction names as [|k names IH]; intros m; [done|].
    apply not_elem_of_cons in Hn as [Hk Hn]. simpl. rewrite IH by done. by rewrite Hstep, bool_decide_false.
  - rewrite IH by done. rewrite Hstep, bool_decide_false; [done|congruence].
Qed.

Lemma FeatureNames_NoDup : NoDup FeatureNames.
Proof. by apply (bool_decide_unpack (NoDup FeatureNames)). Qed.

(** The changes of the three walks over the names. *)
Definition entitled (name : string) (f : Feature) : Feature :=
  if name == FeatureUserLimit then f else f <| Feature_Entitlement := EntitlementEntitled |>.
Definition disabled (f : Feature) : Feature :=
  if f.(Feature_Entitlement) == EntitlementNotEntitled then f <| Feature_Enabled := false |> else f.

Lemma entitle_all_feature features name :
  name ∈ FeatureNames →
  feature_of (entitle_all features) name = entitled name (feature_of features name).
Proof.
  intros Hin. unfold entitle_all. apply (foldl_features _ entitled); [|apply FeatureNames_NoDup|done].
  intros m n. unfold entitled. destruct (n == FeatureUserLimit) eqn:Hn.
  - apply bool_decide_eq_true in Hn as ->. case_bool_decide as E; [subst|done]. by rewrite bool_decide_true.
  - rewrite feature_of_insert. destruct (n == name) eqn:E; [|done]. apply bool_decide_eq_true in E as ->. by rewrite Hn.
Qed.

Lemma disable_feature features name :
  name ∈ FeatureNames →
  feature_of (disable_not_entitled features) name = disabled (feature_of features name).
Proof.
  intros Hin. unfold disable_not_entitled.
  apply (foldl_features _ (λ _, disabled)); [|apply FeatureNames_NoDup|done].
  intros m n. unfold disabled. cbv zeta. destruct (_ == EntitlementNotEntitled) eqn:Hn.
  - rewrite feature_of_insert. destruct (n == name) eqn:E; [|done]. apply bool_decide_eq_true in E as ->. by rewrite Hn.
  - destruct (n == name) eqn:E; [|done]. apply bool_decide_eq_true in E as ->. by rewrite Hn.
Qed.

Lemma default_feature enablements name :
  name ∈ FeatureNames →
  feature_of (default_features enablements) name = mkFeature EntitlementNotEntitled (enabled_in enablements name) None None.
Proof.
  intros Hin. unfold default_features.
  apply (foldl_features _ (λ (name : string) (_ : Feature), mkFeature EntitlementNotEntitled (enabled_in enablements name) None None));
    [|apply FeatureNames_NoDup|done].
  intros m n. rewrite feature_of_insert. case_bool_decide as E; by subst.
Qed.

Lemma granting_snoc name l c :
  granting name (l ++ [c]) = granting name l ++ (if 0 <? claimed c name then [c] else []).
Proof.
  unfold granting. rewrite filter_app. f_equal. rewrite filter_cons, filter_nil.
  destruct (Z.ltb_spec 0 (claimed c name)); [by rewrite decide_True|rewrite decide_False by lia; done].
Qed.

Lemma expected_limit_snoc l c :
  0 < claimed c FeatureUserLimit →
  expected_limit (l ++ [c]) = Some (match expected_limit l with
    | Some p => if c.(Claims_Features).(Features_UserLimit) <? p then p else c.(Claims_Features).(Features_UserLimit)
    | None => c.(Claims_Features).(Features_UserLimit)
    end).
Proof.
  intros Hc. unfold expected_limit. rewrite granting_snoc. destruct (Z.ltb_spec 0 (claimed c FeatureUserLimit)); [|lia].
  rewrite fmap_app. destruct (_ <$> granting FeatureUserLimit l) as [|x rest]; [done|].
  simpl. rewrite foldl_app. simpl. f_equal. destruct (Z.ltb_spec (Features_UserLimit (Claims_Features c)) (foldl Z.max x rest)); lia.
Qed.

Section walk.
Context (now : time) (activeUserCount : Z) (enablements : gmap string bool).

Definition walked (l : list Claims) : license_state :=
  foldl (apply_license now activeUserCount enablements)
    (mkLicenseState (default_features enablements) false false false) l.

(** What the map has after the licenses [l]. *)
Definition expected_feature (l : list Claims) (name : string) : Feature :=
  match last (granting name l) with
  | None => mkFeature EntitlementNotEntitled (enabled_in enablements name) None None
  | Some c =>
      if name == FeatureUserLimit
      then mkFeature (license_entitlement now c) true (expected_limit l) (Some activeUserCount)
      else mkFeature (license_entitlement now c) (if always_on name then true else enabled_in enablements name) None None
  end.

Lemma last_granting_None name l : last (granting name l) = None → granting name l = [].
Proof. apply last_None. Qed.

Lemma walked_feature l name :
  name ∈ FeatureNames → feature_of (walked l).(ls_features) name = expected_feature l name.
Proof.
  revert name. induction l as [|c l IH] using rev_ind; intros name Hin; [by apply default_feature|].
  unfold walked. rewrite foldl_app. cbn [foldl]. rewrite apply_license_feature by done. fold (walked l).
  assert (FeatureUserLimit ∈ FeatureNames) as Hul by (by apply (bool_decide_unpack (FeatureUserLimit ∈ FeatureNames))).
  rewrite (IH name), (IH FeatureUserLimit) by done. unfold expected_feature at 2 3. rewrite granting_snoc.
  destruct (Z.ltb_spec 0 (claimed c name)) as [Hc|Hc].
  - rewrite last_snoc. unfold entry. case_bool_decide as E; [|done]. subst. rewrite expected_limit_snoc by done.
    unfold expected_feature. destruct (last (granting FeatureUserLimit l)) eqn:Hlast; [done|].
    unfold expected_limit. by rewrite (last_granting_None _ _ Hlast).
  - rewrite app_nil_r. unfold expected_feature. destruct (last (granting name l)); [|done]. case_bool_decide as E; [|done].
    subst. unfold expected_limit at 2. rewrite granting_snoc. destruct (Z.ltb_spec 0 (claimed c FeatureUserLimit)); [lia|].
    by rewrite app_nil_r.
Qed.

Lemma walked_all l : (walked l).(ls_all) = existsb Claims_AllFeatures l.
Proof.
  induction l as [|c l IH] using rev_ind; [done|]. unfold walked. rewrite foldl_app. cbn [foldl]. fold (walked l).
  rewrite existsb_app. simpl. by rewrite IH, orb_false_r.
Qed.
End walk.

Lemma license_entitlement_some now c : (license_entitlement now c == EntitlementNotEntitled) = false.
Proof. unfold license_entitlement. by destruct (After _ _). Qed.

Lemma granting_last name l :
  (granting name l == []) = match last (granting name l) with Some _ => false | None => true end.
Proof.
  destruct (last (granting name l)) eqn:Hl.
  - apply bool_decide_false. by intros Hnil; rewrite Hnil in Hl.
  - apply bool_decide_true. by apply last_None.
Qed.

(** C18: For every feature, what [Entitlements] makes of the licenses that parse is
    what the reference says: entitled if some license has all features (the user
    limit excepted), else as the last license that names it, in its term or in
    its grace period, else not entitled; on exactly when it is entitled, or in
    grace, and configured or of a kind a license turns on; and the user limit is
    the highest of the licenses'. Without a license nothing is on. *)
Theorem entitlements_exact `{!Jwt} (now : time) (keys : gmap string bytes) (enablements : gmap string bool)
    (licenses : list License) (activeUserCount replicaCount gitAuthCount : Z) (name : string) :
  name ∈ FeatureNames →
  let claims := valid_claims keys now licenses in
  let e := entitlements_of now keys enablements licenses activeUserCount replicaCount gitAuthCount in
  let f := feature_of e.(Entitlements_Features) name in
  f.(Feature_Entitlement) = expected_entitlement now claims name ∧
  f.(Feature_Enabled) = expected_enabled enablements now claims name ∧
  (name = FeatureUserLimit → f.(Feature_Limit) = expected_limit claims) ∧
  (claims = [] → f.(Feature_Enabled) = false).
Proof.
  intros Hin claims e f.
  assert (f = disabled (if existsb Claims_AllFeatures claims then entitled name (expected_feature now activeUserCount enablements claims name)
                        else expected_feature now activeUserCount enablements claims name)) as Hf.
  { subst f e. unfold entitlements_of. fold claims.
    fold (walked now activeUserCount enablements claims). rewrite walked_all.
    destruct (multiple_messages _ _ _ _ _ _ _) as [? ?], (multiple_messages _ _ _ _ _ _ _) as [? ?]. simpl.
    rewrite disable_feature by done. destruct (existsb Claims_AllFeatures claims).
    - by rewrite entitle_all_feature, walked_feature.
    - by rewrite walked_feature. }
  rewrite Hf. clear Hf f e. unfold expected_enabled, expected_entitlement, expected_feature, disabled, entitled.
  rewrite granting_last. split_and!.
  - destruct (existsb _ _), (last (granting name claims)), (name == FeatureUserLimit); simpl;
      rewrite ?license_entitlement_some; done.
  - destruct (existsb _ _), (last (granting name claims)), (name == FeatureUserLimit) eqn:Hn; simpl;
      rewrite ?license_entitlement_some; simpl; try done; unfold always_on; rewrite Hn; simpl;
      rewrite ?andb_true_r, ?andb_false_r; done.
  - intros ->. rewrite (bool_decide_eq_true_2 (FeatureUserLimit = FeatureUserLimit)) by done. unfold expected_limit.
    destruct (existsb _ _), (last (granting FeatureUserLimit claims)) eqn:Hl; simpl;
      rewrite ?license_entitlement_some; simpl; try done; by rewrite (last_granting_None _ _ Hl).
  - intros Hnil. by rewrite Hnil.
Qed.

(** ** Examples *)

Module LicenseExamples.

(** Licenses whose text is a letter: [a] has everything by name until its term of
    100, [b] names audit logging and is in its grace period since 50. *)
Definition all_by_name (n : Z) : license_Features := mkLicenseFeatures n 1 1 1 1 1 1 1.
Definition audit_only : license_Features := mkLicenseFeatures 0 1 0 0 0 0 0 0.
#[local] Instance letters : Jwt := {|
  jwt_Parse _ _ _ := inl ErrNoRows;
  jwt_ParseWithClaims text _ _ :=
    if bool_decide (text = "a") then inr (mkClaims "a" (Some 100) "salesforce" "1" false false 3 (all_by_name 10))
    else if bool_decide (text = "b") then inr (mkClaims "b" (Some 50) "salesforce" "2" false false 3 audit_only)
    else inl ErrNoRows |}.
Definition stored (id : Z) (text : string) : License := mkLicense id 0 text 1000 (null_of uuid_Nil).
Definition audit_on : gmap string bool := {[FeatureAuditLog := true]}.
Definition entitlements_at (licenses : list License) : Entitlements :=
  entitlements_of 70 ∅ audit_on licenses 5 1 0.

Lemma entitlements_exact_witness :
  (feature_of (entitlements_at [stored 1 "a"]).(Entitlements_Features) FeatureAuditLog).(Feature_Entitlement) =
  EntitlementEntitled.
Proof.
  destruct (entitlements_exact 70 ∅ audit_on [stored 1 "a"] 5 1 0 FeatureAuditLog) as [He _].
  - by apply (bool_decide_unpack (FeatureAuditLog ∈ FeatureNames)).
  - exact He.
Defined.

(** A license in its grace period that comes after one in its term downgrades the
    feature, and the owner is warned that it expired. *)
Example later_license_downgrades :
  (feature_of (entitlements_at [stored 1 "a"; stored 2 "b"]).(Entitlements_Features) FeatureAuditLog).(Feature_Entitlement) =
    EntitlementGracePeriod ∧
  (entitlements_at [stored 1 "a"; stored 2 "b"]).(Entitlements_Warnings) =
    ["Audit Log is enabled but your license for this feature is expired."].
Proof. split; by vm_compute. Qed.

End LicenseExamples.
