(* ===== verification/Http.v ===== *)
(** * HTTP handlers

    How a handler of the API is modelled. A handler reads a request, runs on the
    world, and writes one response: [Handler A] is a piece of one, which either yields
    a value or has written the response and returned. The deferred commit of an
    audit entry ([audit.InitRequest]) runs after the handler's body, on whatever
    response it wrote. [hs_audits] is the heap of the audit entries under way,
    [hs_cookies] the cookies set on the response.

    Covers [coderd/httpapi/httpapi.go], [coderd/authorize.go], the context values
    of [coderd/httpmw], and [InitRequest] of [coderd/audit/request.go]. The JSON
    text of a request is represented by the value it decodes to, if it does; the
    struct validator is third-party code and a parameter. *)

From stdpp Require Import prelude gmap strings.
From S2P Require Import Prelude Rbac Models Queries ModelMethods Store World Auditing Sdk.

Definition StatusOK : Z := 200.
Definition StatusCreated : Z := 201.
Definition StatusNoContent : Z := 204.
Definition StatusNotModified : Z := 304.
Definition StatusTemporaryRedirect : Z := 307.
Definition StatusBadRequest : Z := 400.
Definition StatusUnauthorized : Z := 401.
Definition StatusForbidden : Z := 403.
Definition StatusNotFound : Z := 404.
Definition StatusMethodNotAllowed : Z := 405.
Definition StatusNotAcceptable : Z := 406.
Definition StatusConflict : Z := 409.
Definition StatusGone : Z := 410.
Definition StatusPreconditionFailed : Z := 412.
Definition StatusExpectationFailed : Z := 417.
Definition StatusPreconditionRequired : Z := 428.
Definition StatusInternalServerError : Z := 500.

(** ** Requests *)

(** [httpmw.Authorization] *)
Record Authorization := mkAuthorization {
  Authorization_ID : uuid;
  Authorization_Username : string;
  Authorization_Roles : list string;
  Authorization_Groups : list string;
  Authorization_Scope : APIKeyScope;
}.

(** [url.Values] *)
Abbreviation url_Values := (gmap string (list string)) (only parsing).
Definition url_Get (v : url_Values) (key : string) : string :=
  match v !! key with Some (s :: _) => s | _ => EmptyString end.
Definition url_Has (v : url_Values) (key : string) : bool := bool_decide (is_Some (v !! key)).

(** What the handlers read of a [*http.Request], with the values the middleware
    stored in its context. *)
Record Request := mkRequest {
  RemoteAddr : string;
  UserAgent : string;
  URL_Path : string;
  RawQuery : string;
  URL_Query : url_Values;
  URLParams : gmap string string;
  Header : gmap string string;
  Cookies : list (string * string);
  context_RequestID : option uuid;
  context_APIKey : option APIKey;
  context_Authorization : option Authorization;
  Host : string;
  (** The values of the [Cookie] header. *)
  CookieHeaders : list string;
  TLS : bool;
  (** [RealIPState.OriginalRemoteAddr] *)
  context_RealIP : option string;
}.
#[global] Instance Request_eta : Eta Request := λ r,
  mkRequest r.(RemoteAddr) r.(UserAgent) r.(URL_Path) r.(RawQuery) r.(URL_Query) r.(URLParams)
    r.(Header) r.(Cookies) r.(context_RequestID) r.(context_APIKey) r.(context_Authorization)
    r.(Host) r.(CookieHeaders) r.(TLS) r.(context_RealIP).

(** [chi.URLParam]: a missing parameter is the empty string. *)
Definition URLParam (r : Request) (key : string) : string := default EmptyString (r.(URLParams) !! key).
(** [r.Cookie]: the first cookie of that name. *)
Definition Cookie (r : Request) (name : string) : option string :=
  snd <$> find_first (λ c, c.1 == name) r.(Cookies).
(** [r.Header.Get] *)
Definition Header_Get (r : Request) (key : string) : string := default EmptyString (r.(Header) !! key).

(** ** Responses *)

Record Reply := mkReply { Reply_Status : Z; Reply_Body : Body }.

(** A response with a message only, and one that shows an error. *)
Definition message (msg : string) : Response := mkResponse msg EmptyString [].
Definition with_detail (msg detail : string) : Response := mkResponse msg detail [].

Record http_Cookie := mkCookie {
  Cookie_Name : string;
  Cookie_Value : string;
  Cookie_Path : string;
  Cookie_Domain : string;
  Cookie_MaxAge : Z;
  Cookie_HttpOnly : bool;
  Cookie_Secure : bool;
}.

(** ** Handlers *)

Record hstate := mkHState {
  hs_world : world;
  hs_audits : list audit_Request;
  hs_cookies : list http_Cookie;
}.
#[global] Instance hstate_eta : Eta hstate := λ s,
  mkHState s.(hs_world) s.(hs_audits) s.(hs_cookies).

Definition Handler (A : Type) : Type := GoM hstate (Reply + A).
#[global] Instance H_ret : MRet Handler := λ _ a s, (Ok (inr a), s).
#[global] Instance H_bind : MBind Handler := λ _ _ k m s,
  match m s with
  | (Ok (inr a), s') => k a s'
  | (Ok (inl p), s') => (Ok (inl p), s')
  | (Err e, s') => (Err e, s')
  | (Panic p, s') => (Panic p, s')
  end.

(** A computation of the server inside a handler. *)
Definition on_world {A} (m : GoM world A) : GoM hstate A :=
  zoom hs_world (λ w s, s <| hs_world := w |>) m.

(** [x, err := m], with the error looked at by the handler. *)
Definition attempt_h {A} (m : GoM world A) : Handler (error + A) :=
  λ s, match on_world m s with
       | (Ok a, s') => (Ok (inr (inr a)), s')
       | (Err e, s') => (Ok (inr (inl e)), s')
       | (Panic p, s') => (Panic p, s')
       end.

(** A computation that has no error to look at. *)
Definition run {A} (m : GoM world A) : Handler A :=
  λ s, match on_world m s with
       | (Ok a, s') => (Ok (inr a), s')
       | (Err e, s') => (Err e, s')
       | (Panic p, s') => (Panic p, s')
       end.

(** [httpapi.Write(ctx, rw, status, body); return] *)
Definition reply {A} (status : Z) (body : Body) : Handler A := λ s, (Ok (inl (mkReply status body)), s).
Definition Write {A} (status : Z) (r : Response) : Handler A := reply status (BodyResponse r).

(** [x, err := m; if err != nil { ...; return }] *)
Definition catch {A} (m : GoM world A) (handle : error → Handler A) : Handler A :=
  r ← attempt_h m;
  match r with inl e => handle e | inr a => mret a end.

(** A panic, or a value. *)
Definition get {A} (r : res A) : Handler A := λ s,
  match r with
  | Ok a => (Ok (inr a), s)
  | Err e => (Err e, s)
  | Panic p => (Panic p, s)
  end.

(** [if !cond { ...; return }] *)
Definition require (cond : bool) (otherwise : Handler unit) : Handler unit :=
  if cond then mret tt else otherwise.

Definition SetCookie (c : http_Cookie) : Handler unit := λ s,
  (Ok (inr tt), s <| hs_cookies := s.(hs_cookies) ++ [c] |>).

(** [for _, x := range l { body }] *)
Fixpoint each {A} (l : list A) (body : A → Handler unit) : Handler unit :=
  match l with
  | [] => mret tt
  | x :: l' => _ ← body x; each l' body
  end.

(** ** [coderd/httpapi] *)

Definition ResourceNotFound {A} : Handler A :=
  Write StatusNotFound (message "Resource not found or you do not have access to this resource").
Definition Forbidden {A} : Handler A := Write StatusForbidden (message "Forbidden.").
Definition InternalServerError {A} (e : error) : Handler A :=
  Write StatusInternalServerError (with_detail "An internal server error occurred." (error_string e)).
Definition RouteNotFound {A} : Handler A := Write StatusNotFound (message "Route not found.").

(** [if err != nil { httpapi.Write(500, msg, err); return }] *)
Definition internal {A} (msg : string) (e : error) : Handler A :=
  Write StatusInternalServerError (with_detail msg (error_string e)).
(** The same, with [sql.ErrNoRows] answered as not found. *)
Definition not_found_or {A} (msg : string) (e : error) : Handler A :=
  if errors_Is e ErrNoRows then ResourceNotFound else internal msg e.

(** The outcome of [validate.Struct]: the failed checks, or another error. *)
Record FieldError := mkFieldError { Field : string; Tag : string; Value : string }.
Class Validate (T : Type) := validate_Struct : T → option (error + list FieldError).

(** A request body: the value it decodes to, or the error of decoding it. *)
Abbreviation json_body T := (error + T)%type (only parsing).

Definition Read {T} `{!Validate T} (body : json_body T) : Handler T :=
  match body with
  | inl e => Write StatusBadRequest (with_detail "Request body must be valid JSON." (error_string e))
  | inr value =>
      match validate_Struct value with
      | None => mret value
      | Some (inr errs) =>
          Write StatusBadRequest (mkResponse "Validation failed." EmptyString
            ((λ e, mkValidationError e.(Field)
                ("Validation failed for tag " +:+ quote e.(Tag) +:+ " with value: " +:+ quote e.(Value)))
             <$> errs))
      | Some (inl e) =>
          Write StatusInternalServerError
            (with_detail "Internal error validating request body payload." (error_string e))
      end
  end.

(** ** The context of a request *)

Definition httpmw_APIKey (r : Request) : res APIKey :=
  match r.(context_APIKey) with
  | Some key => Ok key
  | None => Panic "developer error: ExtractAPIKey middleware not provided"
  end.

Definition UserAuthorization (r : Request) : res Authorization :=
  match r.(context_Authorization) with
  | Some auth => Ok auth
  | None => Panic "developer error: ExtractAPIKey middleware not provided"
  end.

Definition RequestID (r : Request) : res uuid :=
  match r.(context_RequestID) with
  | Some rid => Ok rid
  | None => Panic "developer error: request id middleware not provided"
  end.

(** ** [coderd/authorize.go] *)

Section authorize.
Context `{!Authorizer, !UuidText}.

(** The verdict on a request; a missing subject or an unknown scope panics. *)
Definition http_Authorize (r : Request) (action : string) (object : Object) : res bool :=
  roles ← UserAuthorization r;
  scope ← ToRBAC roles.(Authorization_Scope);
  match ByRoleName (uuid_String roles.(Authorization_ID)) roles.(Authorization_Roles) scope
          roles.(Authorization_Groups) action object with
  | Ok _ => Ok true
  | Err _ => Ok false
  | Panic p => Panic p
  end.

(** [if !api.Authorize(r, action, object) { ...; return }] *)
Definition authorize (r : Request) (action : string) (object : Object) (otherwise : Handler unit) : Handler unit :=
  ok ← get (http_Authorize r action object);
  require ok otherwise.

Definition AuthorizeFilter {O} (RBACObject : O → Object) (r : Request) (action : string)
    (objects : list O) : res (list O) :=
  roles ← UserAuthorization r;
  scope ← ToRBAC roles.(Authorization_Scope);
  Filter RBACObject (uuid_String roles.(Authorization_ID)) roles.(Authorization_Roles) scope
    roles.(Authorization_Groups) action objects.

Definition AuthorizeSQLFilter (r : Request) (action objectType : string) : res (Object → res unit) :=
  roles ← UserAuthorization r;
  scope ← ToRBAC roles.(Authorization_Scope);
  match PrepareByRoleName (uuid_String roles.(Authorization_ID)) roles.(Authorization_Roles) scope
          roles.(Authorization_Groups) action objectType with
  | Err e => Err (ErrWrap "prepare filter" e)
  | p => p
  end.
End authorize.

(** ** [audit.InitRequest] *)

Section audit.
Context `{!Environment, !Auditor}.

(** Assign [aReq.Old] and [aReq.New]. *)
Definition set_Old (aReq : nat) (a : Auditable) : Handler unit := λ s,
  (Ok (inr tt), s <| hs_audits := alter (λ q, q <| Request_Old := a |>) aReq s.(hs_audits) |>).
Definition set_New (aReq : nat) (a : Auditable) : Handler unit := λ s,
  (Ok (inr tt), s <| hs_audits := alter (λ q, q <| Request_New := a |>) aReq s.(hs_audits) |>).

(** The deferred function. *)
Definition commitAudit (r : Request) (Action : AuditAction) (req : audit_Request) (status : Z) :
    GoM world unit :=
  oldID ← lift_res (ResourceID req.(Request_Old));
  newID ← lift_res (ResourceID req.(Request_New));
  if (oldID == uuid_Nil) && (newID == uuid_Nil) then mret tt else
  diffRaw ←
    (if (status <? 400)%Z
     then d ← lift_res (Diff req.(Request_Old) req.(Request_New));
          mret (default empty_object (marshal_diff d))
     else mret empty_object);
  id ← uuid_New;
  now ← Now;
  key ← lift_res (httpmw_APIKey r);
  resourceType ← lift_res (either req.(Request_Old) req.(Request_New) audit_ResourceType);
  resourceID ← lift_res (either req.(Request_Old) req.(Request_New) ResourceID);
  resourceTarget ← lift_res (either req.(Request_Old) req.(Request_New) ResourceTarget);
  rid ← lift_res (RequestID r);
  void (attempt (Export {|
    AuditLog_ID := id;
    AuditLog_Time := now;
    AuditLog_UserID := key.(APIKey_UserID);
    AuditLog_OrganizationID := uuid_Nil;
    AuditLog_Ip := parseIP r.(RemoteAddr);
    AuditLog_UserAgent := mkNull r.(UserAgent) true;
    AuditLog_ResourceType := resourceType;
    AuditLog_ResourceID := resourceID;
    AuditLog_ResourceTarget := resourceTarget;
    AuditLog_Action := Action;
    AuditLog_Diff := diffRaw;
    AuditLog_StatusCode := int32_wrap status;
    AuditLog_AdditionalFields := empty_object;
    AuditLog_RequestID := rid;
    AuditLog_ResourceIcon := EmptyString |})).

(** [aReq, commitAudit := audit.InitRequest[T](...); defer commitAudit()] around
    the rest of the handler. [zero] is the zero value of [T]. The commit also runs
    when the body panics; it sees the status 0 when nothing has been written. *)
Definition InitRequest (r : Request) (Action : AuditAction) (zero : Auditable)
    (body : nat → Handler unit) : Handler unit := λ s,
  let aReq := length s.(hs_audits) in
  let '(result, s1) := body aReq (s <| hs_audits := s.(hs_audits) ++ [mkAuditRequest zero zero] |>) in
  let status := match result with Ok (inl p) => p.(Reply_Status) | _ => 0%Z end in
  let req := default (mkAuditRequest zero zero) (s1.(hs_audits) !! aReq) in
  match on_world (commitAudit r Action req status) s1 with
  | (Ok _, s2) => (result, s2)
  | (Err e, s2) => (Err e, s2)
  | (Panic p, s2) => (Panic p, s2)
  end.
End audit.

(** The response of a handler run to its end; one that writes nothing is a 200
    with no body. *)
Definition response (m : Handler unit) (s : hstate) : res Reply * world :=
  let '(r, s') := m s in
  (match r with
   | Ok (inl p) => Ok p
   | Ok (inr _) => Ok (mkReply StatusOK BodyNone)
   | Err e => Err e
   | Panic p => Panic p
   end, s'.(hs_world)).

(** Run a handler on a world. *)
Definition serve (m : Handler unit) (w : world) : res Reply * world := response m (mkHState w [] []).
