(* ===== verification/HttpMw.v ===== *)
(** * HTTP middleware

    [coderd/httpmw]: authentication by API key ([apikey.go]) or agent token
    ([workspaceagent.go]), and the extraction of the objects named in the URL. A
    middleware is a function from the rest of the handler, [next], to a handler;
    the value it stores in the request context is passed to [next] as an
    argument, except for the API key and the authorization, which are fields of
    the request.

    SHA-256 and the refresh of an OAuth token are parameters, and so is the text
    of a time in a message. *)

From Stdlib Require Import Ascii.
From stdpp Require Import prelude gmap strings.
From S2P Require Import Prelude Encoding Net Rbac Models Queries ModelMethods Store StoreUsers.
From S2P Require Import StoreOrgs StoreMisc StoreTemplates StoreJobs StoreWorkspaces World.
From S2P Require Import Auditing Sdk Http.

Local Open Scope Z_scope.

(** [sha256.Sum256] *)
Class Sha256 := sha256_Sum256 : bytes → bytes.

(** [time.Time.String] *)
Class TimeText := time_String : time → string.

(** [oauth2.Token] *)
Record oauth2_Token := mkToken { AccessToken : string; RefreshToken : string; Expiry : time }.
(** [OAuth2Configs]: for each provider that is configured, what
    [TokenSource(...).Token()] makes of an expired token. *)
Class OAuth2Configs := {
  Github : option (oauth2_Token → res oauth2_Token);
  OIDC : option (oauth2_Token → res oauth2_Token);
}.

Definition SessionTokenKey : string := "coder_session_token".
Definition OAuth2StateKey : string := "oauth_state".
Definition OAuth2RedirectKey : string := "oauth_redirect".
Definition SessionCustomHeader : string := "Coder-Session-Token".
Definition DevURLSessionTokenCookie : string := "coder_devurl_session_token".

Definition SignedOutErrorMessage : string :=
  "You are signed out or your session has expired. Please sign in again to continue.".
Definition internalErrorMessage : string :=
  "An internal error occurred. Please try again or contact the system administrator.".

(** The first of the cookie, the query parameter, the header and the
    application cookie that is not empty. *)
Definition apiTokenFromRequest (r : Request) : string :=
  let cookie := default EmptyString (Cookie r SessionTokenKey) in
  if cookie != EmptyString then cookie else
  let urlValue := url_Get r.(URL_Query) SessionTokenKey in
  if urlValue != EmptyString then urlValue else
  let headerValue := Header_Get r SessionCustomHeader in
  if headerValue != EmptyString then headerValue else
  default EmptyString (Cookie r DevURLSessionTokenCookie).

Definition SplitAPIToken (token : string) : res (string * string) :=
  match Split token "-" with
  | [keyID; keySecret] =>
      if bool_decide (String.length keyID ≠ 10%nat)
      then Err (ErrNew ("invalid API key ID length, expected 10 got "
                        +:+ Itoa (Z.of_nat (String.length keyID)))) else
      if bool_decide (String.length keySecret ≠ 22%nat)
      then Err (ErrNew ("invalid API key secret length, expected 22 got "
                        +:+ Itoa (Z.of_nat (String.length keySecret)))) else
      Ok (keyID, keySecret)
  | parts =>
      Err (ErrNew ("incorrect amount of API key parts, expected 2 got "
                   +:+ Itoa (Z.of_nat (length parts))))
  end.

Definition RedirectToLogin {A} (r : Request) (msg : string) : Handler A :=
  reply StatusTemporaryRedirect
    (BodyRedirect msg (if r.(RawQuery) != EmptyString
                       then r.(URL_Path) +:+ "?" +:+ r.(RawQuery) else r.(URL_Path))).

Record ExtractAPIKeyConfig := mkExtractAPIKeyConfig {
  cfg_RedirectToLogin : bool;
  cfg_Optional : bool;
}.

(** The address stored for a request: the zero address when it has none. *)
Definition remote_inet (addr : string) : Inet :=
  let ip := default (IPv4 [0; 0; 0; 0]%N) (ParseIP addr) in mkInet ip full_mask true.

Section apikey.
Context `{!Environment, !UuidText, !Sha256, !TimeText, !OAuth2Configs}.

(** Write, or redirect to the login page when the handler asks for it. *)
Definition auth_write {A} (cfg : ExtractAPIKeyConfig) (r : Request) (code : Z) (resp : Response) :
    Handler A :=
  if cfg.(cfg_RedirectToLogin) then RedirectToLogin r resp.(Response_Message)
  else Write code resp.

(** The link of an OAuth key, refreshed when it has expired; the flag says
    whether the key changed. *)
Definition refresh_link (cfg : ExtractAPIKeyConfig) (r : Request) (key : APIKey) (now : time) :
    Handler (APIKey * UserLink * bool) :=
  if (key.(APIKey_LoginType) == LoginTypeGithub) || (key.(APIKey_LoginType) == LoginTypeOIDC) then
    link ← catch (query (GetUserLinkByUserIDLoginType
                           (mkGetUserLinkByUserIDLoginTypeParams key.(APIKey_UserID) key.(APIKey_LoginType))))
      (λ err, auth_write cfg r StatusInternalServerError (with_detail "A database error occurred"
         ("get user link by user ID and login type: " +:+ error_string err)));
    if Before link.(UserLink_OAuthExpiry) now && negb (IsZero link.(UserLink_OAuthExpiry))
       && (link.(UserLink_OAuthRefreshToken) != EmptyString) then
      let config := if key.(APIKey_LoginType) == LoginTypeGithub then Github else OIDC in
      source ← get (match config with
                    | Some f => Ok f
                    | None => Panic "invalid memory address or nil pointer dereference"
                    end);
      token ← catch (lift_res (source (mkToken link.(UserLink_OAuthAccessToken)
                       link.(UserLink_OAuthRefreshToken) link.(UserLink_OAuthExpiry))))
        (λ err, auth_write cfg r StatusUnauthorized
           (with_detail "Could not refresh expired Oauth token." (error_string err)));
      mret (key <| APIKey_ExpiresAt := token.(Expiry) |>,
            link <| UserLink_OAuthAccessToken := token.(AccessToken) |>
                 <| UserLink_OAuthRefreshToken := token.(RefreshToken) |>
                 <| UserLink_OAuthExpiry := token.(Expiry) |>, true)
    else mret (key, link, false)
  else mret (key, UserLink_zero, false).

(** Record the use of the key and extend its life, at most once an hour. *)
Definition touch_key (r : Request) (now : time) (key : APIKey) (changed : bool) : APIKey * bool :=
  let '(key, changed) :=
    if Sub now key.(APIKey_LastUsed) >? Hour
    then (key <| APIKey_LastUsed := now |> <| APIKey_IPAddress := remote_inet r.(RemoteAddr) |>, true)
    else (key, changed) in
  let apiKeyLifetime := seconds key.(APIKey_LifetimeSeconds) in
  if Sub key.(APIKey_ExpiresAt) now <=? int64_wrap (apiKeyLifetime - Hour)
  then (key <| APIKey_ExpiresAt := Add now apiKeyLifetime |>, true)
  else (key, changed).

(** Store a changed key, its link, and when its user was seen. *)
Definition store_key (cfg : ExtractAPIKeyConfig) (r : Request) (key : APIKey) (link : UserLink) :
    Handler unit :=
  _ ← catch (store (UpdateAPIKeyByID {|
         UpdateAPIKeyByIDParams_ID := key.(APIKey_ID);
         UpdateAPIKeyByIDParams_LastUsed := key.(APIKey_LastUsed);
         UpdateAPIKeyByIDParams_ExpiresAt := key.(APIKey_ExpiresAt);
         UpdateAPIKeyByIDParams_IPAddress := key.(APIKey_IPAddress) |}))
    (λ err, auth_write cfg r StatusInternalServerError (with_detail internalErrorMessage
       ("API key couldn't update: " +:+ error_string err +:+ ".")));
  _ ← (if link.(UserLink_UserID) != uuid_Nil then
         catch (void (store (UpdateUserLink {|
             UpdateUserLinkParams_OAuthAccessToken := link.(UserLink_OAuthAccessToken);
             UpdateUserLinkParams_OAuthRefreshToken := link.(UserLink_OAuthRefreshToken);
             UpdateUserLinkParams_OAuthExpiry := link.(UserLink_OAuthExpiry);
             UpdateUserLinkParams_UserID := link.(UserLink_UserID);
             UpdateUserLinkParams_LoginType := link.(UserLink_LoginType) |})))
           (λ err, auth_write cfg r StatusInternalServerError (with_detail internalErrorMessage
              ("update user_link: " +:+ error_string err +:+ ".")))
       else mret tt);
  catch (seen ← Now;
         updated ← Now;
         void (store (UpdateUserLastSeenAt {|
           UpdateUserLastSeenAtParams_ID := key.(APIKey_UserID);
           UpdateUserLastSeenAtParams_LastSeenAt := seen;
           UpdateUserLastSeenAtParams_UpdatedAt := updated |})))
    (λ err, auth_write cfg r StatusInternalServerError (with_detail internalErrorMessage
       ("update user last_seen_at: " +:+ error_string err))).

(** The request with the values of the middleware in its context. *)
Definition authenticated (r : Request) (key : APIKey) (roles : GetAuthorizationUserRolesRow) : Request :=
  r <| context_APIKey := Some key |>
    <| context_Authorization := Some (mkAuthorization key.(APIKey_UserID)
         roles.(GetAuthorizationUserRolesRow_Username) roles.(GetAuthorizationUserRolesRow_Roles)
         roles.(GetAuthorizationUserRolesRow_Groups) key.(APIKey_Scope)) |>.

(** The part after the key has been found and its secret checked. *)
Definition use_key {A} (cfg : ExtractAPIKeyConfig) (r : Request) (next : Request → Handler A)
    (key : APIKey) : Handler A :=
  now ← run Now;
  linked ← refresh_link cfg r key now;
  let '(key, link, changed) := linked in
  if Before key.(APIKey_ExpiresAt) now then
    (if cfg.(cfg_Optional) then next r else
     auth_write cfg r StatusUnauthorized (with_detail SignedOutErrorMessage
       ("API key expired at " +:+ quote (time_String key.(APIKey_ExpiresAt)) +:+ ".")))
  else
  let '(key, changed) := touch_key r now key changed in
  _ ← (if changed then store_key cfg r key link else mret tt);
  roles ← catch (query (GetAuthorizationUserRoles key.(APIKey_UserID)))
    (λ err, auth_write cfg r StatusUnauthorized (with_detail internalErrorMessage
       ("Internal error fetching user's roles. " +:+ error_string err)));
  if roles.(GetAuthorizationUserRolesRow_Status) != UserStatusActive then
    auth_write cfg r StatusUnauthorized (message ("User is not active (status = "
      +:+ quote (UserStatus_string roles.(GetAuthorizationUserRolesRow_Status))
      +:+ "). Contact an admin to reactivate your account."))
  else next (authenticated r key roles).

Definition ExtractAPIKey {A} (cfg : ExtractAPIKeyConfig) (r : Request) (next : Request → Handler A) :
    Handler A :=
  let optionalWrite detail :=
    if cfg.(cfg_Optional) then next r
    else auth_write cfg r StatusUnauthorized (with_detail SignedOutErrorMessage detail) in
  let token := apiTokenFromRequest r in
  if token == EmptyString
  then optionalWrite ("Cookie " +:+ quote SessionTokenKey +:+ " or query parameter must be provided.")
  else
  match SplitAPIToken token with
  | Ok (keyID, keySecret) =>
      key ← attempt_h (query (GetAPIKeyByID keyID));
      match key with
      | inl err =>
          if errors_Is err ErrNoRows then optionalWrite "API key is invalid."
          else auth_write cfg r StatusInternalServerError (with_detail internalErrorMessage
                 ("Internal error fetching API key by id. " +:+ error_string err))
      | inr key =>
          if key.(APIKey_HashedSecret) != sha256_Sum256 (bytes_of keySecret)
          then optionalWrite "API key secret is invalid."
          else use_key cfg r next key
      end
  | Err err => optionalWrite ("Invalid API key format: " +:+ error_string err)
  | Panic p => get (Panic p)
  end.
End apikey.

(** ** Objects named in the URL *)

Section params.
Context `{!UuidText}.

Definition parseUUID (r : Request) (param : string) : Handler uuid :=
  let rawID := URLParam r param in
  if rawID == EmptyString
  then Write StatusBadRequest (with_detail "Missing UUID in URL." (quote param +:+ " URL param missing"))
  else match uuid_Parse rawID with
       | Some id => mret id
       | None => Write StatusBadRequest (with_detail ("Invalid UUID " +:+ quote param +:+ ".")
                   "invalid UUID")
       end.

Definition userErrorMessage : string :=
  String.append (quote "user") " must be an existing uuid or username.".

(** [uuid.Parse] takes precedence over a username; ["me"] is the caller. *)
Definition ExtractUserParam {A} (redirectToLoginOnMe : bool) (r : Request) (next : User → Handler A) :
    Handler A :=
  let userQuery := URLParam r "user" in
  if userQuery == EmptyString
  then Write StatusBadRequest (message (quote "user" +:+ " must be provided.")) else
  user ←
    (if userQuery == "me" then
       match r.(context_APIKey) with
       | None =>
           if redirectToLoginOnMe then RedirectToLogin r SignedOutErrorMessage
           else Write StatusBadRequest (message ("Cannot use " +:+ quote "me" +:+ " without a valid session."))
       | Some apiKey =>
           catch (query (GetUserByID apiKey.(APIKey_UserID))) (not_found_or "Internal error fetching user.")
       end
     else match uuid_Parse userQuery with
          | Some userID =>
              catch (query (GetUserByID userID)) (λ _, Write StatusBadRequest (message userErrorMessage))
          | None =>
              catch (query (GetUserByEmailOrUsername
                              (mkGetUserByEmailOrUsernameParams userQuery EmptyString false)))
                (λ _, Write StatusBadRequest (message userErrorMessage))
          end);
  next user.

Definition ExtractOrganizationParam (r : Request) (next : Organization → Handler unit) : Handler unit :=
  orgID ← parseUUID r "organization";
  organization ← catch (query (GetOrganizationByID orgID))
    (not_found_or "Internal error fetching organization.");
  next organization.

Definition ExtractOrganizationMemberParam (organization : Organization) (user : User)
    (next : OrganizationMember → Handler unit) : Handler unit :=
  organizationMember ← catch (query (GetOrganizationMemberByUserID
      (mkGetOrganizationMemberByUserIDParams organization.(Organization_ID) user.(User_ID))))
    (not_found_or "Internal error fetching organization member.");
  next organizationMember.

(** [chi.RouteContext(ctx).URLParams.Add] *)
Definition add_param (r : Request) (key : string) (id : uuid) : Request :=
  r <| URLParams := <[key := uuid_String id]> r.(URLParams) |>.

Definition ExtractTemplateParam (r : Request) (next : Request → Template → Handler unit) : Handler unit :=
  templateID ← parseUUID r "template";
  template ← attempt_h (query (GetTemplateByID templateID));
  match template with
  | inl err => not_found_or "Internal error fetching template." err
  | inr template =>
      if template.(Template_Deleted) then ResourceNotFound
      else next (add_param r "organization" template.(Template_OrganizationID)) template
  end.

(** A version that belongs to no template comes with the zero template. *)
Definition ExtractTemplateVersionParam (r : Request)
    (next : Request → TemplateVersion → Template → Handler unit) : Handler unit :=
  templateVersionID ← parseUUID r "templateversion";
  templateVersion ← catch (query (GetTemplateVersionByID templateVersionID))
    (not_found_or "Internal error fetching template version.");
  template ← catch (query (GetTemplateByID (null_val templateVersion.(TemplateVersion_TemplateID))))
    (λ err, if errors_Is err ErrNoRows then mret Template_zero
            else internal "Internal error fetching template." err);
  next (add_param r "organization" templateVersion.(TemplateVersion_OrganizationID)) templateVersion template.

Definition ExtractWorkspaceParam (r : Request) (next : Workspace → Handler unit) : Handler unit :=
  workspaceID ← parseUUID r "workspace";
  workspace ← catch (query (GetWorkspaceByID workspaceID))
    (not_found_or "Internal error fetching workspace.");
  next workspace.

(** ["workspace"] or ["workspace.agent"]; the agent may be left out when there is
    only one. *)
Definition ExtractWorkspaceAndAgentParam {A} (r : Request) (user : User)
    (next : Workspace → WorkspaceAgent → Handler A) : Handler A :=
  let workspaceParts := Split (URLParam r "workspace_and_agent") "." in
  workspace ← catch (query (GetWorkspaceByOwnerIDAndName
      (mkGetWorkspaceByOwnerIDAndNameParams user.(User_ID) false (default EmptyString (head workspaceParts)))))
    (not_found_or "Internal error fetching workspace.");
  build ← catch (query (GetLatestWorkspaceBuildByWorkspaceID workspace.(Workspace_ID)))
    (internal "Internal error fetching workspace build.");
  resources ← catch (query (GetWorkspaceResourcesByJobID build.(WorkspaceBuild_JobID)))
    (internal "Internal error fetching workspace resources.");
  agents ← catch (query (GetWorkspaceAgentsByResourceIDs (WorkspaceResource_ID <$> resources)))
    (internal "Internal error fetching workspace agents.");
  match agents with
  | [] => Write StatusBadRequest (message "No agents exist for this workspace")
  | agent0 :: others =>
      match workspaceParts with
      | _ :: name :: _ =>
          match find_first (λ a, a.(WorkspaceAgent_Name) == name) agents with
          | Some agent => next workspace agent
          | None => Write StatusBadRequest (message ("No agent exists with the name " +:+ quote name))
          end
      | _ =>
          match others with
          | [] => next workspace agent0
          | _ => Write StatusBadRequest (message "More than one agent exists, but no agent specified.")
          end
      end
  end.

Definition ExtractWorkspaceBuildParam (r : Request) (next : Request → WorkspaceBuild → Handler unit) :
    Handler unit :=
  workspaceBuildID ← parseUUID r "workspacebuild";
  workspaceBuild ← catch (query (GetWorkspaceBuildByID workspaceBuildID))
    (not_found_or "Internal error fetching workspace build.");
  next (add_param r "workspace" workspaceBuild.(WorkspaceBuild_WorkspaceID)) workspaceBuild.

Definition ExtractWorkspaceResourceParam (r : Request)
    (next : Request → WorkspaceResource → WorkspaceBuild → Handler unit) : Handler unit :=
  resourceUUID ← parseUUID r "workspaceresource";
  resource ← catch (query (GetWorkspaceResourceByID resourceUUID))
    (λ err, if errors_Is err ErrNoRows
            then Write StatusNotFound (message "Resource doesn't exist with that id.")
            else internal "Internal error fetching provisioner resource." err);
  job ← catch (query (GetProvisionerJobByID resource.(WorkspaceResource_JobID)))
    (internal "Internal error provisioner job.");
  _ ← require (job.(ProvisionerJob_Type) == ProvisionerJobTypeWorkspaceBuild)
    (Write StatusBadRequest (message "Workspace resources can only be fetched for builds."));
  build ← catch (query (GetWorkspaceBuildByJobID job.(ProvisionerJob_ID)))
    (internal "Internal error workspace build.");
  next (add_param r "workspace" build.(WorkspaceBuild_WorkspaceID)) resource build.

Definition ExtractWorkspaceAgentParam (r : Request) (next : Request → WorkspaceAgent → Handler unit) :
    Handler unit :=
  agentUUID ← parseUUID r "workspaceagent";
  agent ← catch (query (GetWorkspaceAgentByID agentUUID))
    (λ err, if errors_Is err ErrNoRows
            then Write StatusNotFound (message "Agent doesn't exist with that id.")
            else internal "Internal error fetching workspace agent." err);
  resource ← catch (query (GetWorkspaceResourceByID agent.(WorkspaceAgent_ResourceID)))
    (internal "Internal error fetching workspace resource.");
  job ← catch (query (GetProvisionerJobByID resource.(WorkspaceResource_JobID)))
    (internal "Internal error fetching provisioner job.");
  _ ← require (job.(ProvisionerJob_Type) == ProvisionerJobTypeWorkspaceBuild)
    (Write StatusBadRequest (message "Workspace agents can only be fetched for builds."));
  build ← catch (query (GetWorkspaceBuildByJobID job.(ProvisionerJob_ID)))
    (internal "Internal error fetching workspace build.");
  next (add_param r "workspace" build.(WorkspaceBuild_WorkspaceID)) agent.

(** Authentication by agent token. *)
Definition ExtractWorkspaceAgent (r : Request) (next : WorkspaceAgent → Handler unit) : Handler unit :=
  let cookieValue := apiTokenFromRequest r in
  if cookieValue == EmptyString
  then Write StatusUnauthorized (message ("Cookie " +:+ quote SessionTokenKey +:+ " must be provided.")) else
  match uuid_Parse cookieValue with
  | None => Write StatusUnauthorized (message "Agent token is invalid.")
  | Some token =>
      agent ← catch (query (GetWorkspaceAgentByAuthToken token))
        (λ err, if errors_Is err ErrNoRows
                then Write StatusUnauthorized (message "Agent token is invalid.")
                else internal "Internal error fetching workspace agent." err);
      next agent
  end.

Definition ExtractGroupByNameParam (r : Request) (org : Organization)
    (next : Request → Group → Handler unit) : Handler unit :=
  let name := URLParam r "groupName" in
  if name == EmptyString then Write StatusBadRequest (message "Missing group name in URL") else
  group ← catch (query (GetGroupByOrgAndName (mkGetGroupByOrgAndNameParams org.(Organization_ID) name)))
    (λ err, if errors_Is err ErrNoRows then ResourceNotFound else InternalServerError err);
  next (add_param r "organization" group.(Group_OrganizationID)) group.

Definition ExtractGroupParam (r : Request) (next : Request → Group → Handler unit) : Handler unit :=
  groupID ← parseUUID r "group";
  group ← catch (query (GetGroupByID groupID)) (not_found_or "Internal error fetching group.");
  next (add_param r "organization" group.(Group_OrganizationID)) group.
End params.
