(* ===== verification/QueryParams.v ===== *)
(** * Names and query parameters

    [coderd/httpapi/name.go], [coderd/httpapi/queryparams.go],
    [coderd/pagination.go], and the splitting of search queries
    ([splitQueryParameterByDelimiter] of [coderd/workspaces.go]). A parser of
    query parameters is a function that returns the value and the validation
    errors it adds; the callers put them one after the other. Text is ASCII. *)

From Stdlib Require Import Ascii.
From stdpp Require Import prelude gmap strings.
From S2P Require Import Prelude Encoding Models Sdk World Auditing Http.

(** ** [name.go] *)

Definition is_alnum (c : ascii) : bool :=
  let n := N_of_ascii c in
  ((48 <=? n) && (n <=? 57) || (65 <=? n) && (n <=? 90) || (97 <=? n) && (n <=? 122))%N.

(** [^[a-zA-Z0-9]+(?:-[a-zA-Z0-9]+)*$]; [start] says that a run of letters and
    digits must begin here. *)
Fixpoint name_from (start : bool) (s : string) : bool :=
  match s with
  | EmptyString => negb start
  | String c s =>
      if is_alnum c then name_from false s
      else if bool_decide (c = "-"%char) then negb start && name_from true s
      else false
  end.
Definition UsernameValidRegex (s : string) : bool := name_from true s.

Definition NameValid (str : string) : option error :=
  if Nat.ltb 32 (String.length str) then Some (ErrNew "must be <= 32 characters")
  else if Nat.ltb (String.length str) 1 then Some (ErrNew "must be >= 1 character")
  else if UsernameValidRegex str then None
  else Some (ErrNew "must be alphanumeric with hyphens").

(** [usernameReplace.ReplaceAllString] with nothing. *)
Fixpoint keep_name_chars (s : string) : string :=
  match s with
  | EmptyString => EmptyString
  | String c s =>
      if is_alnum c || bool_decide (c = "-"%char) then String c (keep_name_chars s) else keep_name_chars s
  end.

(** The text before the last ["@"], if there is one. *)
Fixpoint before_last_at (s : string) : option string :=
  match s with
  | EmptyString => None
  | String c s =>
      match before_last_at s with
      | Some p => Some (String c p)
      | None => if bool_decide (c = "@"%char) then Some EmptyString else None
      end
  end.

(** [random_name] is [strings.ReplaceAll(namesgenerator.GetRandomName(1), "_", "-")]. *)
Definition UsernameFrom (random_name : string) (str : string) : string :=
  match NameValid str with
  | None => str
  | Some _ =>
      let str := keep_name_chars (default str (before_last_at str)) in
      match NameValid str with None => str | Some _ => random_name end
  end.

(** [\s] of a regular expression. *)
Definition regex_space (c : ascii) : bool :=
  let n := N_of_ascii c in ((n =? 32) || (n =? 9) || (n =? 10) || (n =? 12) || (n =? 13))%N.

(** [.*[^\s]$]: no line end before the last character, which is not a space. *)
Fixpoint display_tail (s : string) : bool :=
  match s with
  | EmptyString => false
  | String c EmptyString => negb (regex_space c)
  | String c s => negb (N_of_ascii c =? 10)%N && display_tail s
  end.

(** [^[^\s](.*[^\s])?$] *)
Definition templateDisplayName (s : string) : bool :=
  match s with
  | EmptyString => false
  | String c s => negb (regex_space c) && (bool_decide (s = EmptyString) || display_tail s)
  end.

Definition TemplateDisplayNameValid (str : string) : option error :=
  if str == EmptyString then None
  else if Nat.ltb 64 (String.length str) then Some (ErrNew "must be <= 64 characters")
  else if templateDisplayName str then None
  else Some (ErrNew "must be alphanumeric with spaces").

(** ** [queryparams.go] *)

Abbreviation Parsed A := (A * list ValidationError)%type (only parsing).

(** A missing or empty parameter is the default. *)
Definition parseQueryParam {T} (vals : url_Values) (parse : string → res T) (def : T)
    (queryParam : string) : res T :=
  if negb (url_Has vals queryParam) || (url_Get vals queryParam == EmptyString) then Ok def
  else parse (url_Get vals queryParam).

(** The value of a failed parser is [zero]. *)
Definition parsed {T} (zero : T) (queryParam : string) (detail : error → string) (r : res T) : Parsed T :=
  match r with
  | Ok v => (v, [])
  | Err e => (zero, [mkValidationError queryParam (detail e)])
  | Panic _ => (zero, [])
  end.

Definition query_Int (vals : url_Values) (def : Z) (queryParam : string) : Parsed Z :=
  parsed 0%Z queryParam (λ e, "Query param " +:+ quote queryParam +:+ " must be a valid integer ("
                          +:+ error_string e +:+ ")")
    (parseQueryParam vals Atoi def queryParam).

Section uuids.
Context `{!UuidText}.

Definition parse_uuid_param (s : string) : res uuid :=
  match uuid_Parse s with Some u => Ok u | None => Err (ErrNew "invalid UUID") end.

Definition query_UUID (vals : url_Values) (def : uuid) (queryParam : string) : Parsed uuid :=
  parsed uuid_Nil queryParam (λ _, "Query param " +:+ quote queryParam +:+ " must be a valid uuid")
    (parseQueryParam vals parse_uuid_param def queryParam).

Definition query_UUIDorMe (vals : url_Values) (def me : uuid) (queryParam : string) : Parsed uuid :=
  if url_Get vals queryParam == "me" then (me, []) else query_UUID vals def queryParam.
End uuids.

Definition query_String (vals : url_Values) (def : string) (queryParam : string) : string :=
  (parsed EmptyString queryParam (λ _, EmptyString) (parseQueryParam vals Ok def queryParam)).1.

Definition query_Strings (vals : url_Values) (def : list string) (queryParam : string) : list string :=
  (parsed [] queryParam (λ _, EmptyString)
     (parseQueryParam vals (λ v, Ok (if v == EmptyString then [] else Split v ",")) def queryParam)).1.

Definition ParseCustom {T} (zero : T) (vals : url_Values) (def : T) (queryParam : string)
    (parseFunc : string → res T) : Parsed T :=
  parsed zero queryParam (λ e, "Query param " +:+ quote queryParam +:+ " has invalid value: " +:+ error_string e)
    (parseQueryParam vals parseFunc def queryParam).

(** ** [pagination.go] *)

Definition parsePagination `{!UuidText} (r : Request) : Handler sdkPagination :=
  let '(afterID, e1) := query_UUID r.(URL_Query) uuid_Nil "after_id" in
  let '(limit, e2) := query_Int r.(URL_Query) 0%Z "limit" in
  let '(offset, e3) := query_Int r.(URL_Query) 0%Z "offset" in
  match e1 ++ e2 ++ e3 with
  | [] => mret (mksdkPagination afterID limit offset)
  | errors => Write StatusBadRequest
                (mkResponse "Query parameters have invalid values." EmptyString errors)
  end.

(** ** Search queries *)

(** [strings.FieldsFunc] with the closure that tracks quotes; [cur] is the field
    under way. *)
Fixpoint quoted_fields (delimiter : ascii) (quoted : bool) (cur s : string) : list string :=
  match s with
  | EmptyString => if cur == EmptyString then [] else [cur]
  | String c s =>
      let quoted := if bool_decide (c = ascii_of_nat 34) then negb quoted else quoted in
      if negb quoted && bool_decide (c = delimiter) then
        (if cur == EmptyString then quoted_fields delimiter quoted EmptyString s
         else cur :: quoted_fields delimiter quoted EmptyString s)
      else quoted_fields delimiter quoted (cur +:+ String c EmptyString) s
  end.

Definition splitQueryParameterByDelimiter (query : string) (delimiter : ascii) (maintainQuotes : bool) :
    list string :=
  let parts := quoted_fields delimiter false EmptyString query in
  if maintainQuotes then parts else trim_quotes <$> parts.

(** [searchParams.Set] *)
Definition url_Set (key value : string) (v : url_Values) : url_Values := <[key := [value]]> v.

(** ** Lemmas *)

(** A name is letters and digits, with single hyphens between them. *)
Lemma name_from_chars start s : name_from start s = true →
  Forall (λ c, is_alnum c = true ∨ c = "-"%char) (String.list_ascii_of_string s).
Proof.
  revert start. induction s as [|c s IH]; intros start; simpl; [by constructor|].
  destruct (is_alnum c) eqn:Hc; [intros; constructor; eauto|].
  case_bool_decide as Hd; [|done]. rewrite andb_true_iff. intros [_ Hs]. constructor; eauto.
Qed.

Lemma UsernameFrom_valid random_name str :
  NameValid random_name = None → NameValid (UsernameFrom random_name str) = None.
Proof.
  intros Hr. unfold UsernameFrom. destruct (NameValid str) eqn:Hs; [|done].
  by destruct (NameValid (keep_name_chars _)) eqn:Hk.
Qed.
