(* ===== verification/AppUrl.v ===== *)
(** * Application hostnames and cookies

    [coderd/httpapi/url.go] and [coderd/httpapi/cookie.go]: the names that subdomains
    give to the applications of workspaces, the pattern of these subdomains, and the
    cookies that applications do not get to see. A compiled pattern is the text after
    its asterisk; its regular expression is run by hand. *)

From Stdlib Require Import Ascii.
From stdpp Require Import prelude gmap strings pretty.
From S2P Require Import Prelude Encoding Models Net NetUrl Sdk World Auditing Http HttpMw QueryParams.

(** ** Application URLs *)

Record ApplicationURL := mkApplicationURL {
  ApplicationURL_AppSlug : string;
  ApplicationURL_Port : Z;
  ApplicationURL_AgentName : string;
  ApplicationURL_WorkspaceName : string;
  ApplicationURL_Username : string;
}.
#[global] Instance ApplicationURL_eq_dec : EqDecision ApplicationURL.
Proof. solve_decision. Defined.

Definition ApplicationURL_String (a : ApplicationURL) : string :=
  (if a.(ApplicationURL_Port) != 0%Z then Itoa a.(ApplicationURL_Port) else a.(ApplicationURL_AppSlug))
    +:+ "--" +:+ a.(ApplicationURL_AgentName) +:+ "--" +:+ a.(ApplicationURL_WorkspaceName)
    +:+ "--" +:+ a.(ApplicationURL_Username).

(** [strconv.ParseUint(val, 10, 16)] *)
Definition ParseUint16 (val : string) : option Z :=
  match val with
  | EmptyString => None
  | _ => match digits val 0 with
         | Some n => if (n <? 65536)%N then Some (Z.of_N n) else None
         | None => None
         end
  end.
Definition AppSlugOrPort (val : string) : string * Z :=
  match ParseUint16 val with
  | Some port => if port == 0%Z then (val, 0%Z) else (EmptyString, port)
  | None => (val, 0%Z)
  end.

(** [strings.Split(s, "--")], which is how the expression can match: a name has no
    double dash and no dash at its ends. *)
Definition cons_char (c : ascii) (parts : list string) : list string :=
  match parts with p :: ps => String c p :: ps | [] => [String c EmptyString] end.
Fixpoint split_dashes (s : string) : list string :=
  match s with
  | EmptyString => [EmptyString]
  | String c s' =>
      match s' with
      | String d s'' => if (c == "-"%char) && (d == "-"%char) then EmptyString :: split_dashes s''
                        else cons_char c (split_dashes s')
      | EmptyString => [String c EmptyString]
      end
  end.

(** The groups of [appURL]. *)
Definition appURL (subdomain : string) : option (string * string * string * string) :=
  match split_dashes subdomain with
  | [app; agent; workspace; user] =>
      if UsernameValidRegex app && UsernameValidRegex agent && UsernameValidRegex workspace && UsernameValidRegex user
      then Some (app, agent, workspace, user) else None
  | _ => None
  end.

Definition ParseSubdomainAppURL (subdomain : string) : res ApplicationURL :=
  match appURL subdomain with
  | None => Err (ErrNew ("invalid application url format: " +:+ quote subdomain))
  | Some (app, agent, workspace, user) =>
      let '(appSlug, port) := AppSlugOrPort app in
      Ok {| ApplicationURL_AppSlug := appSlug;
            ApplicationURL_Port := port;
            ApplicationURL_AgentName := agent;
            ApplicationURL_WorkspaceName := workspace;
            ApplicationURL_Username := user |}
  end.

(** ** Hostnames *)

(** [strings.TrimLeft], [strings.TrimRight] and [strings.Trim] for a set of characters. *)
Fixpoint TrimLeft (P : ascii → bool) (s : string) : string :=
  match s with String c s' => if P c then TrimLeft P s' else s | EmptyString => EmptyString end.
Fixpoint TrimRight (P : ascii → bool) (s : string) : string :=
  match s with
  | EmptyString => EmptyString
  | String c s' => match TrimRight P s' with
                   | EmptyString => if P c then EmptyString else String c EmptyString
                   | t => String c t
                   end
  end.
Definition Trim (P : ascii → bool) (s : string) : string := TrimRight P (TrimLeft P s).

Definition host_only (a : string) : string := match SplitHostPort a with Ok (host, _) => host | _ => a end.
Definition HostnamesMatch (a b : string) : bool :=
  let dot := λ c, c == "."%char in
  EqualFold (host_only (Trim dot a)) (host_only (Trim dot b)).

Fixpoint count_char (c : ascii) (s : string) : nat :=
  match s with EmptyString => 0 | String d s => (if d == c then 1 else 0) + count_char c s end.
Definition ends_with (s : string) (c : ascii) : bool := TrimRight (λ d, d == c) s != s.

(** [validHostnameLabelRegex], that is [^[a-z0-9]([-a-z0-9]*[a-z0-9])?$] *)
Definition is_lower_alnum (c : ascii) : bool :=
  let n := N_of_ascii c in ((48 <=? n) && (n <=? 57) || (97 <=? n) && (n <=? 122))%N.
Definition valid_label (label : string) : bool :=
  match label with
  | EmptyString => false
  | String c _ => is_lower_alnum c && all_chars (λ d, is_lower_alnum d || (d == "-"%char)) label
                  && negb (ends_with label "-"%char)
  end.

(** The labels, of which the first is looked at without its asterisk. *)
Definition label_texts (pattern : string) : list string :=
  match Split pattern "."%char with
  | first :: labels =>
      String "a"%char (match first with String "*"%char l => l | l => l end) :: labels
  | [] => []
  end.

(** The compiled pattern, that is the text after the asterisk. *)
Definition CompileHostnamePattern (pattern : string) : res string :=
  let pattern := ToLower pattern in
  let fail why := Err (ErrNew ("hostname pattern " +:+ why +:+ ": " +:+ quote pattern)) in
  if Contains pattern "http:" || Contains pattern "https:" then fail "must not contain a scheme"
  else if has_char ":"%char pattern then fail "must not contain a port"
  else if HasPrefix pattern "." || ends_with pattern "."%char then fail "must not start or end with a period"
  else if Nat.ltb (count_char "."%char pattern) 1 then fail "must contain at least two labels/segments"
  else if Nat.eqb (count_char "*"%char pattern) 1 then
    match pattern with
    | String "*"%char rest =>
        match find_first (λ label, negb (valid_label label)) (label_texts pattern) with
        | Some label => fail ("contains invalid label " +:+ quote label)
        | None => Ok rest
        end
    | _ => fail "must only contain an asterisk at the beginning"
    end
  else fail "must contain exactly one asterisk".

(** The class [\s], and what may follow the hostname: a period, a port, space. *)
Definition re_space (c : ascii) : bool :=
  let n := N_of_ascii c in ((n =? 32) || (n =? 9) || (n =? 10) || (n =? 12) || (n =? 13))%N.
Fixpoint skip_digits (s : string) : string :=
  match s with String c s' => if is_digit c then skip_digits s' else s | EmptyString => EmptyString end.
Definition hostname_end (s : string) : bool :=
  let s := match s with String "."%char s' => s' | _ => s end in
  let s := match s with
           | String ":"%char (String d s') => if is_digit d then skip_digits s' else s
           | _ => s
           end in
  all_chars re_space s.

(** The text without a prefix or a suffix. *)
Fixpoint strip_prefix (pre s : string) : option string :=
  match pre, s with
  | EmptyString, _ => Some s
  | String c pre, String d s => if c == d then strip_prefix pre s else None
  | String _ _, EmptyString => None
  end.
Fixpoint strip_suffix (s suffix : string) : option string :=
  if s == suffix then Some EmptyString
  else match s with
       | EmptyString => None
       | String c s => match strip_suffix s suffix with Some t => Some (String c t) | None => None end
       end.

(** [^\s*([^.]+)REST\.?(:\d+)?\s*$]: as REST has a period, the group ends where its
    first label begins, and the space before it is left out while there is more. *)
Definition ExecuteHostnamePattern (rest hostname : string) : option string :=
  match Cut hostname "."%char, Cut rest "."%char with
  | Some (label, tail), Some (suffix, rest) =>
      match strip_suffix label suffix, strip_prefix rest tail with
      | Some group, Some after =>
          if (group == EmptyString) || negb (hostname_end after) then None
          else match TrimLeft re_space group with
               | EmptyString => String.get (String.length group - 1) group ≫= λ c, Some (String c EmptyString)
               | group => Some group
               end
      | _, _ => None
      end
  | _, _ => None
  end.

(** [RequestHost] *)
Definition XForwardedHostHeader : string := "X-Forwarded-Host".
Definition RequestHost (r : Request) : string :=
  let host := Header_Get r XForwardedHostHeader in
  if host != EmptyString then host else r.(Host).

(** ** Cookies *)

(** [textproto.TrimString] *)
Definition http_space (c : ascii) : bool :=
  let n := N_of_ascii c in ((n =? 32) || (n =? 9) || (n =? 10) || (n =? 13))%N.
Definition TrimString (s : string) : string := Trim http_space s.

Definition cookie_name (part : string) : string := before part "="%char.
Definition coder_cookie (name : string) : bool :=
  (name == SessionTokenKey) || (name == OAuth2StateKey) || (name == OAuth2RedirectKey).

Definition StripCoderCookies (header : string) : string :=
  Join (filter (λ part, (part != EmptyString) && negb (coder_cookie (cookie_name part)) = true)
         (TrimString <$> Split (TrimString header) ";"%char)) "; ".
