(* ===== verification/AppUrlProps.v ===== *)
(** * Properties of application hostnames and cookies

    A subdomain names one application: printing and parsing are inverse to each
    other. Only the hostnames below the configured one are taken for applications.
    The cookies of the dashboard do not reach an application. *)

From Stdlib Require Import Ascii.
From stdpp Require Import prelude gmap strings pretty.
From S2P Require Import Prelude Encoding Models Net NetUrl Sdk World Auditing Http HttpMw QueryParams AppUrl.

(** ** Numbers *)

Lemma dec_digit_pretty n : (n < 10)%N →
  dec_digit (pretty_N_char n) = Some n ∧ is_digit (pretty_N_char n) = true ∧ is_alnum (pretty_N_char n) = true.
Proof.
  intros Hn. assert (n ∈ [0; 1; 2; 3; 4; 5; 6; 7; 8; 9]%N) as Hin.
  { destruct (decide (n ∈ [0; 1; 2; 3; 4; 5; 6; 7; 8; 9]%N)) as [|Hout]; [done|].
    repeat (apply not_elem_of_cons in Hout as [? Hout]). lia. }
  repeat (apply elem_of_cons in Hin as [->|Hin]; [by vm_compute|]). by apply elem_of_nil in Hin.
Qed.

Lemma digits_pretty_go x s : digits (pretty_N_go x s) 0 = digits s x.
Proof.
  revert s. induction (N.lt_wf_0 x) as [x _ IH]; intros s.
  destruct (decide (x = 0)%N) as [->|Hx]; [by rewrite pretty_N_go_0|].
  rewrite pretty_N_go_step by lia. rewrite IH by (apply N.div_lt; lia). simpl.
  destruct (dec_digit_pretty (x `mod` 10)) as [-> _]; [by apply N.mod_lt|].
  f_equal. pose proof (N.div_mod x 10). lia.
Qed.
Lemma all_digits_pretty_go x s : all_chars is_digit (pretty_N_go x s) = all_chars is_digit s.
Proof.
  revert s. induction (N.lt_wf_0 x) as [x _ IH]; intros s.
  destruct (decide (x = 0)%N) as [->|Hx]; [by rewrite pretty_N_go_0|].
  rewrite pretty_N_go_step by lia. rewrite IH by (apply N.div_lt; lia). simpl.
  destruct (dec_digit_pretty (x `mod` 10)) as (_ & -> & _); [by apply N.mod_lt|done].
Qed.

Lemma Itoa_pos p : (0 < p)%Z → Itoa p = pretty_N_go (Z.to_N p) EmptyString.
Proof. destruct p as [|p|p]; try lia. intros _. done. Qed.
Lemma Itoa_nonempty p : (0 < p)%Z → Itoa p ≠ EmptyString.
Proof.
  intros Hp. rewrite Itoa_pos by done. intros Hnil. pose proof (digits_pretty_go (Z.to_N p) EmptyString) as Hd.
  rewrite Hnil in Hd. simpl in Hd. injection Hd as Hd. lia.
Qed.
Lemma ParseUint16_Itoa p : (0 < p < 65536)%Z → ParseUint16 (Itoa p) = Some p.
Proof.
  intros Hp. unfold ParseUint16. pose proof (Itoa_nonempty p ltac:(lia)) as Hne.
  destruct (Itoa p) as [|c s] eqn:Heq; [done|]. rewrite <-Heq, Itoa_pos, digits_pretty_go by lia. simpl.
  destruct (N.ltb_spec (Z.to_N p) 65536); [|lia]. f_equal. lia.
Qed.

Lemma digit_no_sign c : is_digit c = true → c ≠ "-"%char ∧ c ≠ "+"%char.
Proof. by split; intros ->. Qed.
Lemma Atoi_Itoa p : (0 < p < 2 ^ 63)%Z → Atoi (Itoa p) = Ok p.
Proof.
  intros Hp. pose proof (Itoa_nonempty p ltac:(lia)) as Hne. pose proof (all_digits_pretty_go (Z.to_N p) EmptyString) as Hall.
  pose proof (digits_pretty_go (Z.to_N p) EmptyString) as Hd. rewrite <-Itoa_pos in Hall, Hd by lia.
  destruct (Itoa p) as [|c s]; [done|]. simpl in Hall. apply andb_true_iff in Hall as [Hc _].
  unfold Atoi, parse_int. assert (∀ A (x y z : A), match c with "-"%char => x | "+"%char => y | _ => z end = z) as Hsign.
  { intros A x y z. destruct (digit_no_sign c Hc). by destruct c as [[] [] [] [] [] [] [] []]. }
  rewrite Hsign, Hd. simpl. rewrite bool_decide_eq_true_2; [f_equal; lia|]. simpl. lia.
Qed.

(** ** Names *)

Lemma digit_alnum c : is_digit c = true → is_alnum c = true.
Proof. unfold is_digit, is_alnum. by intros ->. Qed.
Lemma name_of_digits s start : all_chars is_digit s = true → (s = EmptyString → start = false) → name_from start s = true.
Proof.
  revert start. induction s as [|c s IH]; intros start Hs Hstart; simpl in *; [by rewrite Hstart|].
  apply andb_true_iff in Hs as [Hc Hs]. rewrite (digit_alnum _ Hc). by apply IH.
Qed.
Lemma Itoa_name p : (0 < p)%Z → UsernameValidRegex (Itoa p) = true.
Proof.
  intros Hp. apply name_of_digits; [|intros H; by destruct (Itoa_nonempty p)].
  by rewrite Itoa_pos, all_digits_pretty_go.
Qed.

(** A dash in a name stands between letters or digits. *)
Lemma name_tail c d s start : name_from start (String c (String d s)) = true →
  (c == "-"%char) && (d == "-"%char) = false ∧ ∃ b, name_from b (String d s) = true.
Proof.
  simpl. intros Hs. destruct (is_alnum c) eqn:Hc.
  - rewrite (bool_decide_eq_false_2 (c = "-"%char)) by (intros ->; done).
    split; [done|by exists false].
  - case_bool_decide as Hdash; [|done]. apply andb_true_iff in Hs as [_ Hs]. split; [|by exists true].
    simpl in *. destruct (is_alnum d) eqn:Hd; [by rewrite bool_decide_eq_false_2 by (intros ->; done)|].
    case_bool_decide; [|done]. by simpl in Hs.
Qed.
Lemma name_char c start : name_from start (String c EmptyString) = true → (c == "-"%char) = false.
Proof.
  simpl. destruct (is_alnum c) eqn:Hc; [by intros _; apply bool_decide_eq_false_2; intros ->|].
  case_bool_decide; [by rewrite andb_false_r|done].
Qed.

(** A name ends where the first double dash begins. *)
Lemma split_name s t start : name_from start s = true →
  split_dashes (s +:+ String "-"%char (String "-"%char t)) = s :: split_dashes t.
Proof.
  revert start. induction s as [|c s IH]; intros start Hs; [done|].
  change (String c s +:+ ?x) with (String c (s +:+ x)). destruct s as [|d s].
  - apply name_char in Hs. simpl. by rewrite Hs.
  - apply name_tail in Hs as [Hdash [b Hb]]. specialize (IH _ Hb).
    change (String d s +:+ ?x) with (String d (s +:+ x)) in *. simpl in *. by rewrite Hdash, IH.
Qed.
Lemma split_dashes_name s t : UsernameValidRegex s = true → split_dashes (s +:+ "--" +:+ t) = s :: split_dashes t.
Proof. apply split_name. Qed.
Lemma split_last_name s start : name_from start s = true → split_dashes s = [s].
Proof.
  revert start. induction s as [|c s IH]; intros start Hs; [done|]. destruct s as [|d s]; [done|].
  apply name_tail in Hs as [Hdash [b Hb]]. specialize (IH _ Hb). simpl in *. by rewrite Hdash, IH.
Qed.

Lemma split_dashes_cons c d s :
  split_dashes (String c (String d s)) =
  if (c == "-"%char) && (d == "-"%char) then EmptyString :: split_dashes s else cons_char c (split_dashes (String d s)).
Proof. done. Qed.
Lemma split_dashes_nonempty s : split_dashes s ≠ [].
Proof.
  destruct s as [|c [|d s]]; [done..|]. rewrite split_dashes_cons. destruct (_ && _); [done|].
  unfold cons_char. by destruct (split_dashes (String d s)).
Qed.
(** Splitting loses nothing. *)
Lemma split_dashes_join n s : (String.length s < n)%nat → Join (split_dashes s) "--" = s.
Proof.
  revert s. induction n as [|n IH]; intros s Hn; [lia|]. destruct s as [|c [|d s]]; [done..|].
  rewrite split_dashes_cons. destruct ((c == "-"%char) && (d == "-"%char)) eqn:Hdash.
  - pose proof (split_dashes_nonempty s). simpl in Hn. specialize (IH s ltac:(lia)).
    destruct (split_dashes s) as [|p ps]; [done|]. apply andb_true_iff in Hdash as [->%bool_decide_eq_true ->%bool_decide_eq_true].
    by rewrite <-IH.
  - specialize (IH (String d s) ltac:(simpl in *; lia)). pose proof (split_dashes_nonempty (String d s)).
    destruct (split_dashes (String d s)) as [|p ps]; [done|]. rewrite <-IH. by destruct ps.
Qed.

(** ** The expression *)

(** What [appURL] is written to match. *)
Definition is_app_url (s app agent workspace user : string) : Prop :=
  s = app +:+ "--" +:+ agent +:+ "--" +:+ workspace +:+ "--" +:+ user ∧
  Forall (λ n, UsernameValidRegex n = true) [app; agent; workspace; user].

Lemma appURL_spec s app agent workspace user :
  appURL s = Some (app, agent, workspace, user) ↔ is_app_url s app agent workspace user.
Proof.
  unfold appURL, is_app_url. split.
  - pose proof (split_dashes_join (S (String.length s)) s ltac:(lia)) as Hjoin.
    destruct (split_dashes s) as [|a [|b [|c [|d [|]]]]]; try done. simpl in Hjoin.
    destruct (_ && _) eqn:Hnames; [|done]. intros [= -> -> -> ->]. split; [done|].
    repeat (apply andb_true_iff in Hnames as [Hnames ?]). by repeat constructor.
  - intros [-> Hnames]. rewrite !Forall_cons in Hnames. destruct Hnames as (Ha & Hb & Hc & Hd & _).
    rewrite !split_dashes_name, (split_last_name user true) by done.
    by rewrite Ha, Hb, Hc, Hd.
Qed.

(** ** Round trip *)

(** An application URL that names an application or a port, but not both. *)
Definition app_url_ok (a : ApplicationURL) : Prop :=
  Forall (λ n, UsernameValidRegex n = true)
    [a.(ApplicationURL_AgentName); a.(ApplicationURL_WorkspaceName); a.(ApplicationURL_Username)] ∧
  ((0 < a.(ApplicationURL_Port) < 65536)%Z ∧ a.(ApplicationURL_AppSlug) = EmptyString ∨
   a.(ApplicationURL_Port) = 0%Z ∧ UsernameValidRegex a.(ApplicationURL_AppSlug) = true ∧
   AppSlugOrPort a.(ApplicationURL_AppSlug) = (a.(ApplicationURL_AppSlug), 0%Z)).

Lemma digits_bound s acc n : digits s acc = Some n → (acc <= n)%N.
Proof.
  revert acc. induction s as [|c s IH]; intros acc Hs; simpl in Hs; [by injection Hs as ->|].
  destruct (dec_digit c); [|done]. specialize (IH _ Hs). lia.
Qed.
Lemma AppSlugOrPort_cases val :
  (∃ port, (0 < port < 65536)%Z ∧ AppSlugOrPort val = (EmptyString, port)) ∨ AppSlugOrPort val = (val, 0%Z).
Proof.
  unfold AppSlugOrPort, ParseUint16. destruct val as [|c s]; [by right|].
  destruct (digits _ 0) as [n|] eqn:Hn; [|by right]. destruct (N.ltb_spec n 65536); [|by right].
  case_bool_decide; [by right|]. left. exists (Z.of_N n). split; [lia|done].
Qed.

(** C36: The hostname of an application says which application it is. An application
    URL prints to a subdomain that parses back to it if the names of the agent, the
    workspace and the user are valid and it has either a port, or a slug that is a valid
    name and no port number. A subdomain parses exactly if it consists of four valid
    names joined by double dashes, and what it parses to is such an application URL; a
    first name that is a port number is that port. *)
Theorem app_url_roundtrip :
  (∀ a, app_url_ok a → ParseSubdomainAppURL (ApplicationURL_String a) = Ok a) ∧
  (∀ s a, ParseSubdomainAppURL s = Ok a →
     app_url_ok a ∧
     ∃ app, is_app_url s app a.(ApplicationURL_AgentName) a.(ApplicationURL_WorkspaceName) a.(ApplicationURL_Username) ∧
       AppSlugOrPort app = (a.(ApplicationURL_AppSlug), a.(ApplicationURL_Port))) ∧
  (∀ s app agent workspace user, is_app_url s app agent workspace user → ∃ a, ParseSubdomainAppURL s = Ok a).
Proof.
  unfold ParseSubdomainAppURL. split_and!.
  - intros [slug port agent workspace user] [Hnames Happ]. simpl in *. unfold ApplicationURL_String. simpl.
    destruct Happ as [[Hport ->]|(-> & Hslug & Hcase)].
    + rewrite (bool_decide_eq_false_2 (port = 0%Z)) by lia. simpl.
      assert (is_app_url (Itoa port +:+ "--" +:+ agent +:+ "--" +:+ workspace +:+ "--" +:+ user)
                (Itoa port) agent workspace user) as ->%appURL_spec.
      { split; [done|]. constructor; [apply Itoa_name; lia|done]. }
      unfold AppSlugOrPort. rewrite ParseUint16_Itoa by done. by rewrite bool_decide_eq_false_2 by lia.
    + change (0%Z != 0%Z) with false. cbv iota.
      assert (is_app_url (slug +:+ "--" +:+ agent +:+ "--" +:+ workspace +:+ "--" +:+ user)
                slug agent workspace user) as ->%appURL_spec by (split; [done|by constructor]).
      by rewrite Hcase.
  - intros s a Hs. destruct (appURL s) as [[[[app agent] workspace] user]|] eqn:Hurl; [|done].
    apply appURL_spec in Hurl as [Heq Hnames]. destruct (AppSlugOrPort app) as [slug port] eqn:Happ.
    injection Hs as <-. unfold app_url_ok. simpl. apply Forall_cons in Hnames as Hsplit. destruct Hsplit as [Hname Hrest].
    split; [split; [done|]|by exists app].
    destruct (AppSlugOrPort_cases app) as [(p & Hp & Hcase)|Hcase]; rewrite Hcase in Happ; injection Happ as <- <-.
    + by left.
    + by right.
  - intros s app agent workspace user ->%appURL_spec. destruct (AppSlugOrPort app). eauto.
Qed.

(** ** The pattern of hostnames *)

Lemma Cut_spec s c a b : Cut s c = Some (a, b) ↔ s = a +:+ String c b ∧ has_char c a = false.
Proof.
  revert a. induction s as [|d s IH]; intros a; simpl.
  { split; [done|]. intros [H _]. by destruct a. }
  case_bool_decide as Hd.
  - subst d. split; [by intros [= <- <-]|]. intros [H Ha]. destruct a as [|e a]; simpl in *; [by injection H as ->|].
    injection H as -> _. by rewrite bool_decide_eq_true_2 in Ha.
  - destruct (Cut s c) as [[a' b']|] eqn:Hcut; split.
    + intros [= <- <-]. destruct (IH a') as [(-> & Ha) _]; [done|]. simpl. by rewrite bool_decide_eq_false_2.
    + intros [H Ha]. destruct a as [|e a]; simpl in *; [by injection H as -> _|]. injection H as -> H.
      apply orb_false_iff in Ha as [_ Ha]. destruct (IH a) as [_ Hback]. specialize (Hback (conj H Ha)). congruence.
    + done.
    + intros [H Ha]. destruct a as [|e a]; simpl in *; [by injection H as -> _|]. injection H as -> H.
      apply orb_false_iff in Ha as [_ Ha]. destruct (IH a) as [_ Hback]. by specialize (Hback (conj H Ha)).
Qed.
Lemma strip_prefix_spec pre s t : strip_prefix pre s = Some t ↔ s = pre +:+ t.
Proof.
  revert s. induction pre as [|c pre IH]; intros s; simpl.
  { change (EmptyString +:+ t) with t. split; congruence. }
  destruct s as [|d s]; [done|]. case_bool_decide as Hc.
  - subst d. rewrite IH. change (String c pre +:+ t) with (String c (pre +:+ t)). split; congruence.
  - change (String c pre +:+ t) with (String c (pre +:+ t)). split; congruence.
Qed.
Lemma strip_suffix_spec s suffix t : strip_suffix s suffix = Some t ↔ s = t +:+ suffix.
Proof.
  revert t. induction s as [|c s IH]; intros t; simpl.
  - case_bool_decide as H.
    + subst suffix. split; [by intros [= <-]|]. by destruct t.
    + split; [done|]. destruct t as [|d t]; [|done]. intros Heq. by destruct H.
  - case_bool_decide as H.
    + subst suffix. split; [by intros [= <-]|]. destruct t as [|d t]; [done|]. intros Heq.
      apply (f_equal String.length) in Heq. simpl in Heq. rewrite string_app_length in Heq. simpl in Heq. lia.
    + destruct (strip_suffix s suffix) as [t'|] eqn:Hs; split.
      * intros [= <-]. destruct (IH t') as [-> _]; done.
      * destruct t as [|d t]; intros Heq; [by destruct H|]. injection Heq as -> Heq. apply IH in Heq. congruence.
      * done.
      * destruct t as [|d t]; intros Heq; [by destruct H|]. injection Heq as -> Heq. by apply IH in Heq.
Qed.

Lemma TrimLeft_split P s : ∃ lead, s = lead +:+ TrimLeft P s ∧ all_chars P lead = true.
Proof.
  induction s as [|c s (lead & Heq & Hall)]; simpl; [by exists EmptyString|].
  destruct (P c) eqn:Hc; [|by exists EmptyString]. exists (String c lead). split; [exact (f_equal (String c) Heq)|].
  simpl. by rewrite Hc.
Qed.

(** A host [lead ++ group ++ rest ++ tail] that the expression of a pattern matches. *)
Definition host_matches (rest hostname group : string) : Prop :=
  ∃ lead tail, hostname = lead +:+ group +:+ rest +:+ tail ∧ all_chars re_space lead = true ∧
    group ≠ EmptyString ∧ has_char "."%char group = false ∧ hostname_end tail = true.

Lemma has_char_cons c d s : has_char c (String d s) = bool_decide (d = c) || has_char c s.
Proof. done. Qed.
Lemma all_space_no_dot s : all_chars re_space s = true → has_char "."%char s = false.
Proof.
  induction s as [|c s IH]; [done|]. simpl. intros [Hc Hs]%andb_true_iff. rewrite IH by done.
  rewrite bool_decide_eq_false_2; [done|]. by intros ->.
Qed.
Lemma get_last s : s ≠ EmptyString → ∃ front c, s = front +:+ String c EmptyString ∧
  String.get (String.length s - 1) s = Some c.
Proof.
  induction s as [|d s IH]; [done|]. intros _. destruct s as [|e s]; [by exists EmptyString, d|].
  destruct IH as (front & c & Heq & Hget); [done|]. exists (String d front), c.
  split; [exact (f_equal (String d) Heq)|]. simpl in *. rewrite Nat.sub_0_r in Hget. exact Hget.
Qed.
Lemma all_chars_app P a b : all_chars P (a +:+ b) = all_chars P a && all_chars P b.
Proof. induction a as [|c a IH]; [done|]. change (String c a +:+ b) with (String c (a +:+ b)). simpl. by rewrite IH, andb_assoc. Qed.
Lemma TrimLeft_nil P s : TrimLeft P s = EmptyString → all_chars P s = true.
Proof. induction s as [|c s IH]; [done|]. simpl. by destruct (P c). Qed.

Lemma execute_sound rest hostname group :
  ExecuteHostnamePattern rest hostname = Some group → host_matches rest hostname group.
Proof.
  unfold ExecuteHostnamePattern. intros Hrun. destruct (Cut hostname ".") as [[label tail]|] eqn:Hhost; [|done].
  destruct (Cut rest ".") as [[suffix rest']|] eqn:Hrest; [|done]. apply Cut_spec in Hrest as [-> Hsuffix].
  apply Cut_spec in Hhost as [-> Hlabel].
  destruct (strip_suffix label suffix) as [g|] eqn:Hg; [|done]. apply strip_suffix_spec in Hg as ->.
  destruct (strip_prefix rest' tail) as [after|] eqn:Hafter; [|done]. apply strip_prefix_spec in Hafter as ->.
  case_bool_decide as Hempty; [done|]. destruct (hostname_end after) eqn:Hend; [|done]. simpl in Hrun.
  rewrite has_char_app in Hlabel. apply orb_false_iff in Hlabel as [Hnodot _].
  assert (∀ lead group', g = lead +:+ group' → all_chars re_space lead = true → group' ≠ EmptyString →
    host_matches (suffix +:+ String "." rest') ((g +:+ suffix) +:+ String "." (rest' +:+ after)) group') as Hmatch.
  { intros lead group' -> Hlead Hne. exists lead, after. rewrite has_char_app in Hnodot.
    apply orb_false_iff in Hnodot as [_ Hnodot]. split_and!; try done. by rewrite !string_app_assoc. }
  destruct (TrimLeft_split re_space g) as (lead & Hg & Hlead).
  destruct (TrimLeft re_space g) as [|c t] eqn:Htrim.
  - destruct (get_last g Hempty) as (front & c & Hfront & Hget). rewrite Hget in Hrun. injection Hrun as <-.
    apply (Hmatch front); [done| |done]. apply TrimLeft_nil in Htrim. rewrite Hfront, all_chars_app in Htrim.
    by apply andb_true_iff in Htrim as [Htrim _].
  - injection Hrun as <-. by apply (Hmatch lead).
Qed.

Lemma Cut_some c s : has_char c s = true → is_Some (Cut s c).
Proof.
  induction s as [|d s IH]; simpl; [done|]. case_bool_decide; [done|]. intros Hs. destruct (IH Hs) as [[a b] ->]. done.
Qed.
Lemma execute_complete rest hostname group :
  has_char "."%char rest = true → host_matches rest hostname group → is_Some (ExecuteHostnamePattern rest hostname).
Proof.
  intros Hdot (lead & tail & -> & Hlead & Hne & Hnodot & Hend). unfold ExecuteHostnamePattern.
  destruct (Cut_some _ _ Hdot) as [[suffix rest'] Hrest]. rewrite Hrest. apply Cut_spec in Hrest as [-> Hsuffix].
  assert (Cut (lead +:+ group +:+ (suffix +:+ String "." rest') +:+ tail) "." =
          Some (lead +:+ group +:+ suffix, rest' +:+ tail)) as ->.
  { apply Cut_spec. split; [by rewrite !string_app_assoc|].
    by rewrite !has_char_app, (all_space_no_dot lead), Hnodot, Hsuffix. }
  assert (strip_suffix (lead +:+ group +:+ suffix) suffix = Some (lead +:+ group)) as ->
    by (apply strip_suffix_spec; by rewrite string_app_assoc).
  assert (strip_prefix rest' (rest' +:+ tail) = Some tail) as -> by (by apply strip_prefix_spec).
  assert (lead +:+ group ≠ EmptyString) as Hne' by (by destruct lead).
  rewrite bool_decide_eq_false_2, Hend by done. simpl. destruct (TrimLeft re_space (lead +:+ group)); [|eauto].
  destruct (get_last _ Hne') as (front & c & _ & ->). eauto.
Qed.

Lemma count_has_char c s : (1 <= count_char c s)%nat → has_char c s = true.
Proof. induction s as [|d s IH]; simpl; [lia|]. case_bool_decide; simpl; [done|]. intros. by apply IH. Qed.
Lemma compile_rest pattern rest :
  CompileHostnamePattern pattern = Ok rest → ToLower pattern = String "*"%char rest ∧ has_char "."%char rest = true.
Proof.
  unfold CompileHostnamePattern. cbv zeta. destruct (_ || _); [done|]. destruct (has_char _ _); [done|].
  destruct (_ || _); [done|]. destruct (Nat.ltb_spec (count_char "." (ToLower pattern)) 1) as [|Hdots]; [done|].
  destruct (Nat.eqb _ 1); [|done]. destruct (ToLower pattern) as [|c s]; [done|].
  assert (c = "*"%char ∨ c ≠ "*"%char) as [->|Hc] by (destruct (decide (c = "*"%char)); auto).
  - destruct (find_first _ _); [done|]. intros [= <-]. split; [done|]. by apply count_has_char.
  - by destruct c as [[] [] [] [] [] [] [] []].
Qed.

(** The pattern of application hostnames. A host is accepted for a pattern that
    compiles if and only if its regular expression matches, that is, if the host is
    space, a wildcard without a period, the text of the pattern after its asterisk,
    and at most a period, a port and space; the text returned is such a wildcard. *)
Theorem hostname_pattern_exact pattern rest (Hcompile : CompileHostnamePattern pattern = Ok rest) hostname :
  ToLower pattern = String "*"%char rest ∧
  (∀ group, ExecuteHostnamePattern rest hostname = Some group → host_matches rest hostname group) ∧
  (∀ group, host_matches rest hostname group → is_Some (ExecuteHostnamePattern rest hostname)).
Proof.
  apply compile_rest in Hcompile as [Hlower Hdot]. split_and!; [done|apply execute_sound|].
  intros group. by apply execute_complete.
Qed.

(** ** Cookies *)

(** The cookies of a header, as their texts. *)
Definition cookies (header : string) : list string :=
  filter (λ part, part ≠ EmptyString) (TrimString <$> Split header ";"%char).
(** A cookie as it is found in a header. *)
Definition cookie_text (part : string) : Prop :=
  part ≠ EmptyString ∧ has_char ";"%char part = false ∧ TrimString part = part.

Lemma TrimLeft_idemp P s : TrimLeft P (TrimLeft P s) = TrimLeft P s.
Proof. induction s as [|c s IH]; [done|]. simpl. destruct (P c) eqn:Hc; [done|]. simpl. by rewrite Hc. Qed.
Lemma TrimRight_cons P c s : TrimRight P (String c s) =
  match TrimRight P s with EmptyString => if P c then EmptyString else String c EmptyString | t => String c t end.
Proof. done. Qed.
Lemma TrimRight_idemp P s : TrimRight P (TrimRight P s) = TrimRight P s.
Proof.
  induction s as [|c s IH]; [done|]. rewrite TrimRight_cons. destruct (TrimRight P s) as [|d t] eqn:Ht.
  - destruct (P c) eqn:Hc; [done|]. simpl. by rewrite Hc.
  - rewrite TrimRight_cons, IH. done.
Qed.
(** A text that does not begin with such a character keeps its beginning. *)
Lemma TrimLeft_TrimRight P s : TrimLeft P s = s → TrimLeft P (TrimRight P s) = TrimRight P s.
Proof.
  destruct s as [|c s]; [done|]. simpl. destruct (P c) eqn:Hc.
  - intros Heq. exfalso. destruct (TrimLeft_split P s) as (lead & Hs & _).
    apply (f_equal String.length) in Heq, Hs. rewrite string_app_length in Hs. simpl in Heq. lia.
  - intros _. destruct (TrimRight P s); simpl; by rewrite Hc.
Qed.
Lemma Trim_idemp P s : Trim P (Trim P s) = Trim P s.
Proof. unfold Trim. by rewrite TrimLeft_TrimRight, TrimRight_idemp by apply TrimLeft_idemp. Qed.

Lemma has_char_TrimLeft P c s : has_char c s = false → has_char c (TrimLeft P s) = false.
Proof. induction s as [|d s IH]; [done|]. simpl. intros [Hd Hs]%orb_false_iff. destruct (P d); [by apply IH|]. simpl. by rewrite Hd. Qed.
Lemma has_char_TrimRight P c s : has_char c s = false → has_char c (TrimRight P s) = false.
Proof.
  induction s as [|d s IH]; [done|]. rewrite TrimRight_cons. simpl. intros [Hd Hs]%orb_false_iff.
  specialize (IH Hs). destruct (TrimRight P s); [destruct (P d); [done|]; simpl; by rewrite Hd|]. simpl in *. by rewrite Hd.
Qed.

Lemma Split_no_sep s sep : Forall (λ part, has_char sep part = false) (Split s sep).
Proof.
  induction s as [|c s IH]; simpl; [by constructor|]. case_bool_decide as Hc; [by constructor|].
  destruct (Split s sep) as [|p ps]; inversion IH; constructor; try done; simpl; by rewrite bool_decide_eq_false_2.
Qed.
Lemma Split_nonempty s sep : Split s sep ≠ [].
Proof. destruct s as [|c s]; simpl; [done|]. case_bool_decide; [done|]. by destruct (Split s sep). Qed.

Lemma cookies_text header : Forall cookie_text (cookies header).
Proof.
  unfold cookies. apply Forall_forall. intros part [Hne Hin]%list_elem_of_filter.
  apply list_elem_of_fmap in Hin as (p & -> & Hp). pose proof (Split_no_sep header ";"%char) as Hsep.
  rewrite Forall_forall in Hsep. split_and!; [done| |apply Trim_idemp].
  by apply has_char_TrimRight, has_char_TrimLeft, Hsep.
Qed.

(** Space around a header does not matter to its cookies. *)
Lemma Split_space c s : http_space c = true →
  TrimString <$> Split (String c s) ";"%char = TrimString <$> Split s ";"%char.
Proof.
  intros Hc. simpl. rewrite bool_decide_eq_false_2 by (by intros ->). pose proof (Split_nonempty s ";"%char).
  destruct (Split s ";"%char) as [|p ps]; [done|]. rewrite !fmap_cons. f_equal.
  unfold TrimString, Trim. simpl. by rewrite Hc.
Qed.
Lemma Split_TrimLeft s : TrimString <$> Split (TrimLeft http_space s) ";"%char = TrimString <$> Split s ";"%char.
Proof. induction s as [|c s IH]; [done|]. simpl TrimLeft. destruct (http_space c) eqn:Hc; [|done]. by rewrite IH, Split_space. Qed.
Lemma TrimRight_nil P s : TrimRight P s = EmptyString → all_chars P s = true.
Proof.
  induction s as [|c s IH]; [done|]. rewrite TrimRight_cons. simpl. destruct (TrimRight P s); [|done].
  destruct (P c); [|done]. intros _. by rewrite IH.
Qed.
Lemma Trim_blank P s : all_chars P s = true → Trim P s = EmptyString.
Proof.
  unfold Trim. induction s as [|c s IH]; [done|]. simpl. intros [Hc Hs]%andb_true_iff. rewrite Hc. by apply IH.
Qed.
Lemma blank_no_semicolon s : all_chars http_space s = true → has_char ";"%char s = false.
Proof.
  induction s as [|c s IH]; [done|]. simpl. intros [Hc Hs]%andb_true_iff. rewrite IH by done.
  rewrite bool_decide_eq_false_2; [done|]. by intros ->.
Qed.
Lemma TrimLeft_blank P lead s : all_chars P lead = true → TrimLeft P (lead +:+ s) = TrimLeft P s.
Proof.
  induction lead as [|c lead IH]; [done|]. simpl. intros [Hc Hl]%andb_true_iff.
  change (String c lead +:+ s) with (String c (lead +:+ s)). simpl. rewrite Hc. by apply IH.
Qed.
Lemma TrimRight_blank P s tail : all_chars P tail = true → TrimRight P (s +:+ tail) = TrimRight P s.
Proof.
  intros Ht. induction s as [|c s IH].
  - change (EmptyString +:+ tail) with tail. induction tail as [|c tail IH]; [done|]. simpl in Ht.
    apply andb_true_iff in Ht as [Hc Ht]. rewrite TrimRight_cons, IH by done. simpl. by rewrite Hc.
  - change (String c s +:+ tail) with (String c (s +:+ tail)). by rewrite !TrimRight_cons, IH.
Qed.
Lemma TrimRight_split P s : ∃ tail, s = TrimRight P s +:+ tail ∧ all_chars P tail = true.
Proof.
  induction s as [|c s (tail & Heq & Hall)]; [by exists EmptyString|]. rewrite TrimRight_cons.
  destruct (TrimRight P s) as [|d t] eqn:Ht.
  - destruct (P c) eqn:Hc; [exists (String c s)|exists tail].
    + split; [done|]. simpl. rewrite Hc. by apply TrimRight_nil.
    + split; [exact (f_equal (String c) Heq)|done].
  - exists tail. split; [exact (f_equal (String c) Heq)|done].
Qed.
Lemma Trim_app_blank s tail : all_chars http_space tail = true → TrimString (s +:+ tail) = TrimString s.
Proof.
  intros Ht. unfold TrimString, Trim. induction s as [|c s IH].
  - change (EmptyString +:+ tail) with tail. by apply Trim_blank in Ht.
  - change (String c s +:+ tail) with (String c (s +:+ tail)). simpl. destruct (http_space c); [done|].
    change (String c (s +:+ tail)) with (String c s +:+ tail). by apply TrimRight_blank.
Qed.
Lemma Split_app s tail sep : has_char sep tail = false →
  ∃ front last, Split s sep = front ++ [last] ∧ Split (s +:+ tail) sep = front ++ [last +:+ tail].
Proof.
  intros Ht. induction s as [|c s (front & last & Hs & Hst)].
  - exists [], EmptyString. split; [done|]. change (EmptyString +:+ tail) with tail. by rewrite Split_whole.
  - change (String c s +:+ tail) with (String c (s +:+ tail)). simpl. rewrite Hs, Hst. case_bool_decide.
    + by exists (EmptyString :: front), last.
    + destruct front as [|p front]; [by exists [], (String c last)|by exists (String c p :: front), last].
Qed.
Lemma cookies_Trim header : cookies (TrimString header) = cookies header.
Proof.
  unfold cookies. f_equal. unfold TrimString at 2, Trim.
  destruct (TrimRight_split http_space (TrimLeft http_space header)) as (tail & Heq & Htail).
  destruct (Split_app (TrimRight http_space (TrimLeft http_space header)) tail ";"%char) as (front & last & Hs & Hst).
  { by apply blank_no_semicolon. }
  rewrite <-Heq in Hst. rewrite <-(Split_TrimLeft header), Hs, Hst, !fmap_app. simpl. by rewrite Trim_app_blank.
Qed.

(** The cookies of a header that lists some. *)
Lemma cookies_Join parts : Forall cookie_text parts → cookies (Join parts "; ") = parts.
Proof.
  induction parts as [|p parts IH]; intros Hparts; [done|]. apply Forall_cons in Hparts as [(Hne & Hsep & Htrim) Hparts].
  specialize (IH Hparts). unfold cookies in *. destruct parts as [|p' parts].
  - simpl Join. rewrite Split_whole by done. simpl. rewrite Htrim. by rewrite filter_cons_True.
  - change (Join (p :: p' :: parts) "; ") with (p +:+ String ";"%char (String " "%char (Join (p' :: parts) "; "))).
    rewrite Split_cons, fmap_cons, Split_space by done. rewrite Htrim, filter_cons_True by done. by rewrite IH.
Qed.

Lemma StripCoderCookies_filter header :
  cookies (StripCoderCookies header) =
  filter (λ part, coder_cookie (cookie_name part) = false) (cookies header).
Proof.
  rewrite <-(cookies_Trim header). unfold StripCoderCookies.
  rewrite (list_filter_iff _ (λ part, coder_cookie (cookie_name part) = false ∧ part ≠ EmptyString)); last first.
  { intros part. case_bool_decide; destruct (coder_cookie _); naive_solver. }
  rewrite <-list_filter_filter. apply cookies_Join.
  apply Forall_forall. intros part [_ Hin]%list_elem_of_filter. pose proof (cookies_text (TrimString header)) as Hall.
  rewrite Forall_forall in Hall. by apply Hall.
Qed.

(** The cookies an application gets to see. What is left of a [Cookie] header
    lists exactly the cookies of the header that are not the session token, the OAuth
    state or the OAuth redirect, unchanged and in their order. *)
Theorem StripCoderCookies_exact header :
  cookies (StripCoderCookies header) =
  filter (λ part, coder_cookie (cookie_name part) = false) (cookies header).
Proof. apply StripCoderCookies_filter. Qed.

(** ** Examples *)
Module AppUrlExamples.
Lemma app_url_roundtrip_witness :
  ParseSubdomainAppURL (ApplicationURL_String (mkApplicationURL EmptyString 8080 "main" "dev-1" "dean")) =
  Ok (mkApplicationURL EmptyString 8080 "main" "dev-1" "dean").
Proof. apply (proj1 app_url_roundtrip). split; [by repeat constructor|by left]. Defined.
Lemma hostname_pattern_exact_witness :
  host_matches ".apps.example.com" " 8080--main--dev--dean.apps.example.com.:443" "8080--main--dev--dean".
Proof.
  apply (proj1 (proj2 (hostname_pattern_exact "*.Apps.example.com" ".apps.example.com" ltac:(by vm_compute)
           " 8080--main--dev--dean.apps.example.com.:443"))).
  by vm_compute.
Defined.

(** A numeric slug is a port. *)
Example numeric_slug :
  ParseSubdomainAppURL "08080--main--dev--dean" = Ok (mkApplicationURL EmptyString 8080 "main" "dev" "dean") ∧
  ParseSubdomainAppURL "99999--main--dev--dean" = Ok (mkApplicationURL "99999" 0 "main" "dev" "dean").
Proof. by vm_compute. Qed.
(** Upper case in the pattern is dropped, and a host in upper case does not match. *)
Example pattern_case :
  CompileHostnamePattern "*.Apps.Example.com" = Ok ".apps.example.com" ∧
  ExecuteHostnamePattern ".apps.example.com" "x.apps.example.com" = Some "x" ∧
  ExecuteHostnamePattern ".apps.example.com" "x.Apps.Example.com" = None.
Proof. by vm_compute. Qed.
(** The session token of the subdomains is passed on to the application. *)
Example devurl_cookie_stays :
  StripCoderCookies ("coder_session_token=a; " +:+ DevURLSessionTokenCookie +:+ "=b; x=1") =
  DevURLSessionTokenCookie +:+ "=b; x=1".
Proof. by vm_compute. Qed.
End AppUrlExamples.
