(* ===== verification/RealIP.v ===== *)
(** * The address of the client

    [coderd/httpmw/realip.go]: proxies that are trusted say in headers for whom
    they forward a request. An address is 16 bytes, or nil; a network has the
    length of its address family. *)

From Stdlib Require Import Ascii Strings.Byte.
From stdpp Require Import prelude gmap strings pretty.
From S2P Require Import Prelude Encoding Models Net NetUrl Sdk World Auditing Http.

Local Open Scope Z_scope.

(** ** [net.IP] and [net.IPNet] *)

(** [ip.To4]: an IPv4 address is mapped into IPv6. *)
Definition To4 (ip : bytes) : option bytes :=
  if bool_decide (length ip = 4%nat) then Some ip
  else if bool_decide (length ip = 16%nat) && bool_decide (take 12 ip = repeat x00 10 ++ [xff; xff])
  then Some (drop 12 ip) else None.

Definition byte_and (a b : Byte.byte) : Byte.byte := byte_of (N.land (Byte.to_N a) (Byte.to_N b)).

Record IPNet := mkIPNet { IPNet_IP : bytes; IPNet_Mask : bytes }.

(** [network.Contains]; a nil address has no bytes. *)
Definition IPNet_Contains (n : IPNet) (ip : option bytes) : bool :=
  let ip := default [] ip in
  let ip := default ip (To4 ip) in
  bool_decide (length ip = length n.(IPNet_IP)) &&
  bool_decide (zip_with byte_and n.(IPNet_IP) n.(IPNet_Mask) = zip_with byte_and ip n.(IPNet_Mask)).

(** [net.CIDRMask]: so many ones. *)
Definition mask_byte (n : nat) : Byte.byte := byte_of (N.shiftl (N.ones (N.of_nat n)) (8 - N.of_nat n)).
Fixpoint CIDRMask (ones len : nat) : bytes :=
  match len with O => [] | S len => mask_byte (ones `min` 8) :: CIDRMask (ones - 8) len end.

Definition ParseCIDR (s : string) : res IPNet :=
  let fail := Err (ErrNew ("invalid CIDR address: " +:+ s)) in
  match Cut s "/"%char with
  | None => fail
  | Some (addr, mask) =>
      let ip := match parseIPv4 addr with
                | Some p => Some (byte_of <$> p)
                | None => fmap (M := list) byte_of <$> parseIPv6 addr
                end in
      match ip, mask, digits mask 0 with
      | Some ip, String _ _, Some n =>
          if (Z.of_N n <=? 8 * Z.of_nat (length ip)) then
            let m := CIDRMask (N.to_nat n) (length ip) in
            Ok (mkIPNet (zip_with byte_and ip m) m)
          else fail
      | _, _, _ => fail
      end
  end.

(** [ip.String()]: dotted, or groups of hexadecimal digits with the longest run of
    at least two zero groups left out. *)
Definition dotted (p : bytes) : string := Join (pretty <$> (Byte.to_N <$> p)) ".".
Fixpoint ip_groups (ip : bytes) : list N :=
  match ip with a :: b :: ip => (256 * Byte.to_N a + Byte.to_N b)%N :: ip_groups ip | _ => [] end.
Fixpoint hex_digits (fuel : nat) (n : N) (s : string) : string :=
  match fuel with
  | O => s
  | S fuel => let s := String (hex_char (n mod 16)) s in
              if (n <? 16)%N then s else hex_digits fuel (n / 16) s
  end.
Fixpoint leading_zeros (groups : list N) : nat :=
  match groups with g :: groups => if g == 0%N then S (leading_zeros groups) else 0 | [] => 0 end.
Definition zero_run (groups : list N) (i : nat) : nat := leading_zeros (drop i groups).
(** The first of the longest runs. *)
Definition longest_run (groups : list N) : nat * nat :=
  foldl (λ best i, if bool_decide (best.2 < zero_run groups i)%nat then (i, zero_run groups i) else best)
    (0%nat, 0%nat) (seq 0 (length groups)).
Definition hex_groups (groups : list N) : string := Join ((λ g, hex_digits 4 g EmptyString) <$> groups) ":".
Definition IP_String (ip : option bytes) : string :=
  match ip with
  | None => "<nil>"
  | Some ip =>
      match To4 ip with
      | Some p => dotted p
      | None =>
          let groups := ip_groups ip in
          let '(i, run) := longest_run groups in
          if bool_decide (run <= 1)%nat then hex_groups groups
          else hex_groups (take i groups) +:+ "::" +:+ hex_groups (drop (i + run) groups)
      end
  end.

(** ** Headers *)

(** [http.CanonicalHeaderKey] of a valid header name; others are left alone. *)
Definition ascii_upper (c : ascii) : ascii :=
  let n := N_of_ascii c in if ((97 <=? n) && (n <=? 122))%N then ascii_of_N (n - 32) else c.
Definition token_char (c : ascii) : bool := is_letter c || is_digit c || one_of "!#$%&'*+-.^_`|~" c.
Fixpoint canonical_from (upper : bool) (s : string) : string :=
  match s with
  | EmptyString => EmptyString
  | String c s => String (if upper then ascii_upper c else ascii_lower c) (canonical_from (c == "-"%char) s)
  end.
Definition CanonicalHeaderKey (s : string) : string :=
  if all_chars token_char s then canonical_from true s else s.

Definition Header_Set (key value : string) (r : Request) : Request :=
  r <| Header := <[CanonicalHeaderKey key := value]> r.(Header) |>.
Definition Header_Del (key : string) (r : Request) : Request :=
  r <| Header := delete (CanonicalHeaderKey key) r.(Header) |>.

(** ** [realip.go] *)

Definition headerXForwardedFor : string := "X-Forwarded-For".
Definition headerXForwardedProto : string := "X-Forwarded-Proto".

Record RealIPConfig := mkRealIPConfig {
  TrustedOrigins : list IPNet;
  TrustedHeaders : list string;
}.
(** A nil configuration counts as the empty one. *)
Definition or_empty (config : option RealIPConfig) : RealIPConfig := default (mkRealIPConfig [] []) config.

Definition getRemoteAddress (address : string) : option bytes :=
  let firstAddress := before address ","%char in
  match SplitHostPort firstAddress with
  | Ok (host, _) => ParseIP host
  | _ => ParseIP firstAddress
  end.

Definition isContainedIn (networks : list IPNet) (address : option bytes) : bool :=
  existsb (λ network, IPNet_Contains network address) networks.

(** The first trusted header that holds an address. *)
Fixpoint header_address (headers : list string) (req : Request) : option bytes :=
  match headers with
  | [] => None
  | trustedHeader :: headers =>
      match getRemoteAddress (Header_Get req (CanonicalHeaderKey trustedHeader)) with
      | Some addr => Some addr
      | None => header_address headers req
      end
  end.

Definition ExtractRealIPAddress (config : option RealIPConfig) (req : Request) : option bytes :=
  let config := or_empty config in
  if negb (isContainedIn config.(TrustedOrigins) (getRemoteAddress req.(RemoteAddr)))
  then getRemoteAddress req.(RemoteAddr)
  else match header_address config.(TrustedHeaders) req with
       | Some addr => Some addr
       | None => getRemoteAddress req.(RemoteAddr)
       end.

Definition ExtractRealIP (config : option RealIPConfig) (req : Request) (next : Request → Handler unit) : Handler unit :=
  let req := req <| context_RealIP := Some req.(RemoteAddr) |> in
  next (req <| RemoteAddr := IP_String (ExtractRealIPAddress config req) |>).

Definition FilterUntrustedOriginHeaders (config : option RealIPConfig) (req : Request) : Request :=
  let config := or_empty config in
  if negb (isContainedIn config.(TrustedOrigins) (getRemoteAddress req.(RemoteAddr)))
  then foldl (λ req header, Header_Del header req) req config.(TrustedHeaders)
  else foldl (λ req header, Header_Set header (Header_Get req (CanonicalHeaderKey header)) req) req config.(TrustedHeaders).

(** [remoteAddr.Equal]: two addresses are compared in their 16-byte form. *)
Definition EnsureXForwardedForHeader (req : Request) : res Request :=
  match req.(context_RealIP) with
  | None => Err (ErrNew "request does not contain realip.State; was it processed by httpmw.ExtractRealIP?")
  | Some original =>
      match getRemoteAddress req.(RemoteAddr), getRemoteAddress original with
      | None, _ => Err (ErrNew ("failed to parse remote address: " +:+ IP_String None))
      | _, None => Err (ErrNew ("failed to parse original address: " +:+ IP_String None))
      | Some remoteAddr, Some proxyAddr =>
          let forwarded := Header_Get req headerXForwardedFor in
          let value :=
            if remoteAddr == proxyAddr then IP_String (Some remoteAddr)
            else if (forwarded == EmptyString) || negb (bool_decide (getRemoteAddress forwarded = Some remoteAddr))
            then IP_String (Some remoteAddr) +:+ "," +:+ IP_String (Some proxyAddr)
            else forwarded +:+ "," +:+ IP_String (Some proxyAddr) in
          let req := Header_Set headerXForwardedFor value req in
          Ok (if Header_Get req headerXForwardedProto == EmptyString
              then Header_Set headerXForwardedProto (if req.(TLS) then "https" else "http") req else req)
      end
  end.

Fixpoint parse_origins (origins : list string) : res (list IPNet) :=
  match origins with
  | [] => Ok []
  | origin :: origins =>
      match ParseCIDR origin with
      | Ok network => rest ← parse_origins origins; Ok (network :: rest)
      | Err e => Err (ErrWrap ("parse proxy origin " +:+ quote origin) e)
      | Panic p => Panic p
      end
  end.
Definition ParseRealIPConfig (headers origins : list string) : res RealIPConfig :=
  networks ← parse_origins origins;
  Ok (mkRealIPConfig networks (CanonicalHeaderKey <$> headers)).

(** ** Examples *)
Module RealIPExamples.
Example print_addresses :
  IP_String (ParseIP "192.168.0.1") = "192.168.0.1" ∧ IP_String (ParseIP "2001:db8:0:0:1:0:0:1") = "2001:db8::1:0:0:1" ∧
  IP_String (ParseIP "::ffff:10.0.0.1") = "10.0.0.1" ∧ IP_String (ParseIP "::") = "::" ∧ IP_String (ParseIP "x") = "<nil>".
Proof. by vm_compute. Qed.
Example networks :
  match ParseCIDR "10.1.0.0/16", ParseCIDR "2001:db8::/33" with
  | Ok a, Ok b => IPNet_Contains a (ParseIP "10.1.2.3") && negb (IPNet_Contains a (ParseIP "10.2.2.3")) &&
                  IPNet_Contains b (ParseIP "2001:db8:7fff::1") && negb (IPNet_Contains b (ParseIP "2001:db8:8000::1"))
                  && negb (IPNet_Contains b (ParseIP "10.1.2.3")) && negb (IPNet_Contains a None)
  | _, _ => false
  end = true.
Proof. by vm_compute. Qed.

(** Behind a trusted proxy the origin is looked at after it has been replaced by the
    address of the client, so that the trusted headers go: of the proxies on the way,
    only the last one is left. *)
Definition forwarded (config : RealIPConfig) (req : Request) : res string :=
  let req := req <| context_RealIP := Some req.(RemoteAddr) |> in
  let req := req <| RemoteAddr := IP_String (ExtractRealIPAddress (Some config) req) |> in
  match EnsureXForwardedForHeader (FilterUntrustedOriginHeaders (Some config) req) with
  | Ok req => Ok (Header_Get req headerXForwardedFor)
  | Err e => Err e
  | Panic p => Panic p
  end.
Example chain_lost :
  match ParseRealIPConfig ["x-forwarded-for"] ["10.0.0.0/8"] with
  | Ok config => forwarded config (mkRequest "10.0.0.1:443" EmptyString "/" EmptyString ∅ ∅
      {[ headerXForwardedFor := "1.2.3.4,10.0.0.9" ]} [] None None None EmptyString [] true None)
  | _ => Err ErrNoRows
  end = Ok "1.2.3.4,10.0.0.1".
Proof. by vm_compute. Qed.
End RealIPExamples.
