(* ===== verification/InstanceIdentity.v ===== *)
(** * The identity of cloud instances

    [coderd/awsidentity/awsidentity.go] and [coderd/azureidentity/azureidentity.go]:
    the signed documents an instance proves its identity with. Certificates and
    signatures are those of the libraries, and the texts of the default certificates
    are a parameter. *)

From Stdlib Require Import Ascii.
From stdpp Require Import prelude gmap strings.
From S2P Require Import Prelude Encoding Models NetUrl StoreJobs ProvisionerdServer HttpMw AppUrl AppUrlProps.

(** [json.Unmarshal] into a struct with one string field. *)
Definition unmarshal_text (name : string) (m : RawMessage) : res string :=
  unmarshal_struct (λ k j x,
    if EqualFold k name then match j with JString s => Ok s | _ => Err errUnmarshal end else Ok x) EmptyString m.

(** What a text is as JSON. *)
Class JsonText := json_of_text : bytes → RawMessage.

(** ** AWS *)

Module Aws.
Inductive Region := Other | HongKong | Bahrain | CapeTown | Milan | China | GovCloud | Region_other (s : string).
#[global] Instance Region_eq_dec : EqDecision Region.
Proof. solve_decision. Defined.
Definition Region_string (r : Region) : string :=
  match r with
  | Other => "other" | HongKong => "hongkong" | Bahrain => "bahrain" | CapeTown => "capetown"
  | Milan => "milan" | China => "china" | GovCloud => "govcloud" | Region_other s => s
  end.
Definition All : list Region := [Other; HongKong; Bahrain; CapeTown; Milan; China; GovCloud].

Record Identity := mkIdentity { InstanceID : string; Identity_Region : Region }.

(** A map from regions to certificates, in the order it is ranged over. *)
Definition Certificates : Type := list (Region * string).
Definition certificate (region : Region) (certificates : Certificates) : option string :=
  snd <$> find_first (λ c, c.1 == region) certificates.

(** [encoding/pem], [crypto/x509] and [crypto/rsa]: the bytes of a block and the
    rest of the text; the key of a certificate, if it is an RSA key; whether a key
    verifies a signature of a digest. *)
Class RsaCertificates := {
  pem_Decode : string → option bytes * string;
  x509_PublicKey : bytes → res (option bytes);
  rsa_Verify : bytes → bytes → bytes → bool;
}.
Definition rsa_ErrVerification : error := ErrNew "crypto/rsa: verification error".

Section aws.
Context `{!JsonText, !Sha256, !RsaCertificates}.
Context (defaultCertificates : Certificates).

Fixpoint add_defaults (regions : list Region) (certificates : Certificates) : res Certificates :=
  match regions with
  | [] => Ok certificates
  | region :: regions =>
      match certificate region certificates with
      | Some _ => add_defaults regions certificates
      | None =>
          match certificate region defaultCertificates with
          | None => Panic ("dev error: no certificate exists for region " +:+ Region_string region)
          | Some defaultCertificate => add_defaults regions (certificates ++ [(region, defaultCertificate)])
          end
      end
  end.

(** The first certificate that verifies the signature. *)
Fixpoint verify_document (instanceID : string) (digest rawSignature : bytes) (certificates : Certificates) : res Identity :=
  match certificates with
  | [] => Err rsa_ErrVerification
  | (region, certificate) :: certificates =>
      let '(regionBlock, rest) := pem_Decode certificate in
      if Nat.eqb (String.length rest) 0 then
        match regionBlock with
        | None => Panic "invalid memory address or nil pointer dereference"
        | Some block =>
            match x509_PublicKey block with
            | Err e => Err (ErrWrap "parse certificate" e)
            | Panic p => Panic p
            | Ok None => Err (ErrNew ("certificate for " +:+ quote (Region_string region) +:+ " was not an rsa key"))
            | Ok (Some regionPublicKey) =>
                if rsa_Verify regionPublicKey digest rawSignature then Ok (mkIdentity instanceID region)
                else verify_document instanceID digest rawSignature certificates
            end
        end
      else Err (ErrNew ("invalid certificate for " +:+ quote (Region_string region) +:+ ". " +:+
                        Itoa (Z.of_nat (String.length rest)) +:+ " bytes remain"))
  end.

Definition awsidentity_Validate (signature document : string) (certificates : Certificates) : res Identity :=
  certificates ← add_defaults All certificates;
  match unmarshal_text "instanceId" (json_of_text (bytes_of document)) with
  | Err e => Err (ErrWrap "parse document" e)
  | Panic p => Panic p
  | Ok instanceID =>
      match b64std_decode signature with
      | None => Err (ErrNew "decode signature: illegal base64 data")
      | Some rawSignature => verify_document instanceID (sha256_Sum256 (bytes_of document)) rawSignature certificates
      end
  end.

(** ** Properties *)

Lemma verify_document_sound instanceID digest sig certificates identity :
  verify_document instanceID digest sig certificates = Ok identity →
  identity.(InstanceID) = instanceID ∧
  ∃ text block key, (identity.(Identity_Region), text) ∈ certificates ∧ pem_Decode text = (Some block, EmptyString) ∧
    x509_PublicKey block = Ok (Some key) ∧ rsa_Verify key digest sig = true.
Proof.
  induction certificates as [|[region text] certificates IH]; simpl; [done|].
  destruct (pem_Decode text) as [block rest] eqn:Hpem. destruct (Nat.eqb _ 0) eqn:Hrest; [|done].
  destruct block as [block|]; [|done]. destruct (x509_PublicKey block) as [[key|]| |] eqn:Hkey; [|done..].
  destruct (rsa_Verify key digest sig) eqn:Hverify.
  - intros [= <-]. simpl. split; [done|]. exists text, block, key. split_and!; [set_solver|..|done|done].
    destruct rest; [done|by apply Nat.eqb_eq in Hrest].
  - intros (? & t & b & k & ? & ?)%IH. split; [done|]. exists t, b, k. split; [set_solver|done].
Qed.
(** The certificates of the operator come first, for each region. *)
Lemma add_defaults_elem regions certificates certificates' region text :
  add_defaults regions certificates = Ok certificates' → (region, text) ∈ certificates' →
  (region, text) ∈ certificates ∨ certificate region certificates = None ∧ certificate region defaultCertificates = Some text.
Proof.
  revert certificates. induction regions as [|r regions IH]; intros certificates; simpl; [intros [= ->]; by left|].
  destruct (certificate r certificates) eqn:Hr; [apply IH|]. destruct (certificate r defaultCertificates) eqn:Hd; [|done].
  intros Hadd Hin. destruct (IH _ Hadd Hin) as [Hin'|[Hnone ?]].
  - apply elem_of_app in Hin' as [?|Heq%list_elem_of_singleton]; [by left|]. injection Heq as -> ->. by right.
  - right. split; [|done]. revert Hnone. unfold certificate. rewrite find_first_snoc. by destruct (find_first _ _).
Qed.

(** A certificate of the operator, or the default one for a region the operator gave
    none for, verifies the signature of the document, and the document names the
    instance. *)
Definition signed_document (signature document : string) (certificates : Certificates) (instanceID : string) : Prop :=
  ∃ sig region text block key,
    b64std_decode signature = Some sig ∧
    unmarshal_text "instanceId" (json_of_text (bytes_of document)) = Ok instanceID ∧
    ((region, text) ∈ certificates ∨
     certificate region certificates = None ∧ certificate region defaultCertificates = Some text) ∧
    pem_Decode text = (Some block, EmptyString) ∧ x509_PublicKey block = Ok (Some key) ∧
    rsa_Verify key (sha256_Sum256 (bytes_of document)) sig = true.
(** No other document is accepted. *)
Lemma aws_identity_sound signature document certificates identity :
  awsidentity_Validate signature document certificates = Ok identity →
  signed_document signature document certificates identity.(InstanceID).
Proof.
  unfold awsidentity_Validate, signed_document. destruct (add_defaults All certificates) as [all| |] eqn:Hall; [|done..]. simpl.
  destruct (unmarshal_text _ _) as [instanceID| |] eqn:Hid; [|done..].
  destruct (b64std_decode signature) as [sig|]; [|done].
  intros [Heq (text & block & key & Hin & Hpem & Hkey & Hverify)]%verify_document_sound.
  exists sig, identity.(Identity_Region), text, block, key. rewrite Heq. split_and!; [done..|by eapply add_defaults_elem|done|done|done].
Qed.
End aws.
End Aws.

(** ** Azure *)

Module Azure.
(** [x509.Certificate] *)
Record Certificate := mkCertificate {
  CommonName : string;
  IssuingCertificateURL : list string;
  PublicKey : bytes;
}.
(** A signed message: the certificate of its signer, if there is exactly one, and
    the content; [Signed] is what [Verify] of the message would answer. *)
Record PKCS7 := mkPKCS7 {
  GetOnlySigner : option Certificate;
  Content : bytes;
  Signed : bool;
}.
(** The libraries, and the network that intermediate certificates are fetched from;
    [cert_Verify] is given those that were fetched, or none to use those of the
    operator. *)
Class AzureCertificates := {
  pkcs7_Parse : bytes → res PKCS7;
  certificate_Get : string → res bytes;
  x509_ParseCertificate : bytes → res Certificate;
  cert_Verify : Certificate → option (list Certificate) → option error;
}.

(** [allowedSigners]: one of the names, or a name below one. *)
Definition signers : list string :=
  ["metadata.azure.com"; "metadata.azure.us"; "metadata.azure.cn"; "metadata.microsoftazure.de"].
Definition newline : ascii := ascii_of_nat 10.
Definition allowedSigner (name : string) : bool :=
  existsb (λ domain,
    (name == domain) ||
    match strip_suffix name ("." +:+ domain) with
    | Some host => all_chars (λ c, c != newline) host
    | None => false
    end) signers.

Section azure.
Context `{!JsonText, !AzureCertificates}.

Fixpoint fetch_certificates (urls : list string) : res (list Certificate) :=
  match urls with
  | [] => Ok []
  | certURL :: urls =>
      data ← certificate_Get certURL;
      match x509_ParseCertificate data with
      | Err e => Err (ErrWrap ("parse certificate " +:+ quote certURL) e)
      | Panic p => Panic p
      | Ok cert => certs ← fetch_certificates urls; Ok (cert :: certs)
      end
  end.

(** [given]: the operator gave intermediate certificates. *)
Definition azureidentity_Validate (signature : string) (given : bool) : res string :=
  match b64std_decode signature with
  | None => Err (ErrNew "decode base64: illegal base64 data")
  | Some data =>
      match pkcs7_Parse data with
      | Err e => Err (ErrWrap "parse pkcs7" e)
      | Panic p => Panic p
      | Ok pkcs7Data =>
          match pkcs7Data.(GetOnlySigner) with
          | None => Err (ErrNew "no signers for signature")
          | Some signer =>
              if negb (allowedSigner signer.(CommonName))
              then Err (ErrNew ("unmatched common name of signer: " +:+ quote signer.(CommonName)))
              else
              intermediates ← (if given then Ok None else Some <$> fetch_certificates signer.(IssuingCertificateURL));
              match cert_Verify signer intermediates with
              | Some e => Err (ErrWrap "verify certificates" e)
              | None =>
                  match unmarshal_text "vmId" (json_of_text pkcs7Data.(Content)) with
                  | Err e => Err (ErrWrap "unmarshal metadata" e)
                  | r => r
                  end
              end
          end
      end
  end.
End azure.

Lemma allowedSigner_spec name :
  allowedSigner name = true ↔
  ∃ domain, domain ∈ signers ∧ (name = domain ∨ ∃ host, all_chars (λ c, c != newline) host = true ∧ name = host +:+ "." +:+ domain).
Proof.
  unfold allowedSigner. rewrite existsb_exists. split.
  - intros (domain & Hin & Hor). exists domain. split; [by apply list_elem_of_In|].
    apply orb_true_iff in Hor as [->%bool_decide_eq_true|Hhost]; [by left|right].
    destruct (strip_suffix name _) as [host|] eqn:Hs; [|done]. apply strip_suffix_spec in Hs as ->. by exists host.
  - intros (domain & Hin & Hor). exists domain. split; [by apply list_elem_of_In|]. apply orb_true_iff.
    destruct Hor as [->|(host & Hhost & ->)]; [left; by apply bool_decide_eq_true|right].
    by rewrite (proj2 (strip_suffix_spec _ _ host) eq_refl).
Qed.

Section properties.
Context `{!JsonText, !AzureCertificates}.

(** An Azure message is only accepted when its signer has an allowed name and its
    certificate verifies. *)
Lemma azure_identity_signer signature given vm :
  azureidentity_Validate signature given = Ok vm →
  ∃ data message signer certs, b64std_decode signature = Some data ∧ pkcs7_Parse data = Ok message ∧
    message.(GetOnlySigner) = Some signer ∧ allowedSigner signer.(CommonName) = true ∧
    cert_Verify signer certs = None ∧ unmarshal_text "vmId" (json_of_text message.(Content)) = Ok vm.
Proof.
  unfold azureidentity_Validate. destruct (b64std_decode signature) as [data|]; [|done].
  destruct (pkcs7_Parse data) as [message| |] eqn:Hm; [|done..].
  destruct (GetOnlySigner message) as [signer|] eqn:Hsigner; [|done].
  destruct (allowedSigner _) eqn:Hallowed; [|done]. simpl.
  destruct (if given then _ else _) as [certs| |]; [|done..]. simpl.
  destruct (cert_Verify signer certs) eqn:Hverify; [done|].
  destruct (unmarshal_text _ _) as [id| |] eqn:Hid; intros [= <-]. by exists data, message, signer, certs.
Qed.
End properties.
End Azure.

(** ** Examples *)

Module IdentityExamples.
#[local] Instance one_document : JsonText := λ l,
  if l == bytes_of "aws" then RawValue (JObject [("instanceId", JString "i-123")])
  else if l == bytes_of "azure" then RawValue (JObject [("vmId", JString "vm-123")]) else RawInvalid.
#[local] Instance identity_digest : Sha256 := id.
(** The key of a certificate is its text; a signature is the key before the digest. *)
#[local] Instance text_keys : Aws.RsaCertificates := {|
  Aws.pem_Decode text := (Some (bytes_of text), EmptyString);
  Aws.x509_PublicKey block := Ok (Some block);
  Aws.rsa_Verify key digest sig := sig == key ++ digest |}.
Definition defaults : Aws.Certificates := (λ r, (r, Aws.Region_string r)) <$> Aws.All.

(** The operator replaced the certificate of one region; the signature is that of
    another region. *)
Example other_region_accepted :
  Aws.awsidentity_Validate defaults "Y2hpbmFhd3M=" "aws" [(Aws.Other, "mine")] = Ok (Aws.mkIdentity "i-123" Aws.China).
Proof. by vm_compute. Qed.
(** The default certificate of that region no longer counts. *)
Example default_replaced :
  Aws.awsidentity_Validate defaults "b3RoZXJhd3M=" "aws" [(Aws.Other, "mine")] = Err Aws.rsa_ErrVerification ∧
  Aws.awsidentity_Validate defaults "b3RoZXJhd3M=" "aws" [] = Ok (Aws.mkIdentity "i-123" Aws.Other).
Proof. by vm_compute. Qed.

(** A message of which only the content was replaced: the signer's certificate is
    real, what it signed is never checked. *)
#[local] Instance replaced_content : Azure.AzureCertificates := {|
  Azure.pkcs7_Parse _ := Ok (Azure.mkPKCS7 (Some (Azure.mkCertificate "westus.metadata.azure.com" [] [])) (bytes_of "azure") false);
  Azure.certificate_Get _ := Err ErrNoRows;
  Azure.x509_ParseCertificate _ := Err ErrNoRows;
  Azure.cert_Verify _ _ := None |}.
Example unsigned_content_accepted : Azure.azureidentity_Validate "eA==" false = Ok "vm-123".
Proof. by vm_compute. Qed.
End IdentityExamples.
