(* ===== verification/Api.v ===== *)
(** * The API server's configuration

    The options of [coderd/coderd.go] the handlers read, and the generation of
    SSH keys ([coderd/gitsshkey/gitsshkey.go]), whose cryptography is a
    parameter. *)

From stdpp Require Import prelude strings.
From S2P Require Import Prelude Cryptorand.

(** ** [coderd/gitsshkey] *)

Inductive Algorithm := AlgorithmEd25519 | AlgorithmECDSA | AlgorithmRSA4096 | Algorithm_other (s : string).

(** The key pairs made by Go's [crypto] and by [golang.org/x/crypto/ssh]. *)
Class SSHKeygen := {
  ed25519KeyGen : RandM (string * string);
  ecdsaKeyGen : RandM (string * string);
  rsa4096KeyGen : RandM (string * string);
}.

Definition algorithm_names : list (string * Algorithm) :=
  [("ed25519", AlgorithmEd25519); ("ecdsa", AlgorithmECDSA); ("rsa4096", AlgorithmRSA4096)].

Definition ParseAlgorithm (t : string) : res Algorithm :=
  match find_first (λ a, EqualFold a.1 t) algorithm_names with
  | Some a => Ok a.2
  | None => Err (ErrNew ("invalid key type: " +:+ t +:+ ", must be one of: "
                         +:+ Join algorithm_names.*1 ","))
  end.

(** A private key and a public key. *)
Definition Generate `{!SSHKeygen} (algo : Algorithm) : RandM (string * string) :=
  match algo with
  | AlgorithmEd25519 => ed25519KeyGen
  | AlgorithmECDSA => ecdsaKeyGen
  | AlgorithmRSA4096 => rsa4096KeyGen
  | Algorithm_other s => throw (ErrNew ("invalid algorithm: " +:+ s))
  end.

(** The text of a time in [time.RFC3339]. *)
Class RFC3339 := {
  rfc3339_Format : time → string;
  rfc3339_Parse : string → res time;
}.

(** ** [coderd.Options] *)

Record Options := mkOptions {
  api_ID : uuid;
  SSHKeygenAlgorithm : Algorithm;
  SecureAuthCookie : bool;
  AccessURL_Hostname : string;
  AgentInactiveDisconnectTimeout : duration;
  AutoImportTemplates : list string;
  AgentStatsRefreshInterval : duration;
  AgentFallbackTroubleshootingURL : string;
  (** [TrialGenerator], when there is one: the outcome for an email address. *)
  TrialGenerator : option (string → res unit);
  (** The package variable of [coderd/userpassword]. *)
  simulatedHash : string;
}.
