(* ===== verification/ApiUsers.v ===== *)
(** * The API: users

    [coderd/users.go]: the handlers under [/users] and the conversions to the
    public types. Creating the first user imports templates and is in the file
    of the templates. Telemetry reports are left out. *)

From Stdlib Require Import Ascii.
From stdpp Require Import prelude gmap strings.
From S2P Require Import Prelude Encoding Cryptorand UserPassword Rbac Models Queries ModelMethods.
From S2P Require Import Store StoreUsers StoreOrgs StoreMisc StoreWorkspaces World Auditing.
From S2P Require Import Sdk Http HttpMw QueryParams Api.

(** ** Conversions *)

(** [rbac.RoleByName] with its error dropped. *)
Definition role_or_zero `{!UuidText} (name : string) : Role :=
  match RoleByName name with Ok role => role | _ => mkRole EmptyString EmptyString [] ∅ [] end.

Definition convertRole (role : Role) : sdkRole := mksdkRole role.(Role_Name) role.(Role_DisplayName).

Definition convertOrganization (organization : Organization) : sdkOrganization := {|
  sdkOrganization_ID := organization.(Organization_ID);
  sdkOrganization_Name := organization.(Organization_Name);
  sdkOrganization_CreatedAt := organization.(Organization_CreatedAt);
  sdkOrganization_UpdatedAt := organization.(Organization_UpdatedAt) |}.

Definition convertAPIKey (k : APIKey) : sdkAPIKey := {|
  sdkAPIKey_ID := k.(APIKey_ID);
  sdkAPIKey_UserID := k.(APIKey_UserID);
  sdkAPIKey_LastUsed := k.(APIKey_LastUsed);
  sdkAPIKey_ExpiresAt := k.(APIKey_ExpiresAt);
  sdkAPIKey_CreatedAt := k.(APIKey_CreatedAt);
  sdkAPIKey_UpdatedAt := k.(APIKey_UpdatedAt);
  sdkAPIKey_LoginType := k.(APIKey_LoginType);
  sdkAPIKey_Scope := k.(APIKey_Scope);
  sdkAPIKey_LifetimeSeconds := k.(APIKey_LifetimeSeconds) |}.

Definition findUser (id : uuid) (us : list User) : option User :=
  find_first (λ u, u.(User_ID) == id) us.

Section users.
Context `{!Environment, !UuidText, !Authorizer, !Auditor}.
Context `{!Pbkdf2, !Sha256, !SSHKeygen}.

Definition convertUser (user : User) (organizationIDs : list uuid) : sdkUser := {|
  sdkUser_ID := user.(User_ID);
  sdkUser_Username := user.(User_Username);
  sdkUser_Email := user.(User_Email);
  sdkUser_CreatedAt := user.(User_CreatedAt);
  sdkUser_LastSeenAt := user.(User_LastSeenAt);
  sdkUser_Status := user.(User_Status);
  sdkUser_OrganizationIDs := organizationIDs;
  sdkUser_Roles := (λ roleName, convertRole (role_or_zero roleName)) <$> user.(User_RBACRoles);
  sdkUser_AvatarURL := null_val user.(User_AvatarURL) |}.

Definition api_convertUsers (us : list User) (organizationIDsByUserID : gmap uuid (list uuid)) :
    list sdkUser :=
  (λ u, convertUser u (default [] (organizationIDsByUserID !! u.(User_ID)))) <$> us.

(** The organizations of a user. A failed query returns no rows, and no rows are
    returned as no organizations before the error is looked at. *)
Definition userOrganizationIDs (user : User) : GoM world (list uuid) := λ w,
  match GetOrganizationIDsByMemberIDs [user.(User_ID)] w.(db) with
  | Ok (member :: _) => (Ok member.(GetOrganizationIDsByMemberIDsRow_OrganizationIDs), w)
  | Ok [] => (Ok [], w)
  | Err _ => (Ok [], w)
  | Panic p => (Panic p, w)
  end.

(** ** Queries *)

Definition parse_statuses (parts : list string) : res (list UserStatus) :=
  mapM (M := res) (λ part,
    match UserStatus_of_string part with
    | UserStatus_other _ => Err (ErrNew (quote part +:+ " is not a valid user status"))
    | status => Ok status
    end) parts.

Definition parseUserStatus (v : string) : res (list UserStatus) :=
  if v == EmptyString then Ok [] else parse_statuses (Split v ","%char).

(** The search parameters of the elements of a query. *)
Fixpoint user_search_params (elements : list string) (searchParams : url_Values) :
    list ValidationError + url_Values :=
  match elements with
  | [] => inr searchParams
  | element :: elements =>
      match splitQueryParameterByDelimiter element ":"%char false with
      | [v] => user_search_params elements (url_Set "search" v searchParams)
      | [k; v] => user_search_params elements (url_Set k v searchParams)
      | _ => inl [mkValidationError "q"
                    ("Query element " +:+ quote element +:+ " can only contain 1 ':'")]
      end
  end.

Definition userSearchQuery (query : string) : GetUsersParams * list ValidationError :=
  if query == EmptyString then (GetUsersParams_zero, []) else
  match user_search_params (splitQueryParameterByDelimiter (ToLower query) " "%char true) ∅ with
  | inl errs => (GetUsersParams_zero, errs)
  | inr searchParams =>
      let '(status, errs) := ParseCustom [] searchParams [] "status" parseUserStatus in
      ({| GetUsersParams_Deleted := false;
          GetUsersParams_AfterID := uuid_Nil;
          GetUsersParams_Search := query_String searchParams EmptyString "search";
          GetUsersParams_Status := status;
          GetUsersParams_RbacRole := query_Strings searchParams [] "role";
          GetUsersParams_OffsetOpt := 0;
          GetUsersParams_LimitOpt := 0 |}, errs)
  end.

Definition firstUser (_ : Request) : Handler unit :=
  userCount ← catch (query GetUserCount) (internal "Internal error fetching user count.");
  if userCount == 0%Z
  then Write StatusNotFound (message "The initial user has not been created!")
  else Write StatusOK (message "The initial user has already been created!").

Definition api_users (r : Request) : Handler unit :=
  let '(params, errs) := userSearchQuery (url_Get r.(URL_Query) "q") in
  _ ← require (errs == []) (Write StatusBadRequest (mkResponse "Invalid user search query." EmptyString errs));
  page ← parsePagination r;
  userRows ← catch (query (GetUsers {|
      GetUsersParams_Deleted := false;
      GetUsersParams_AfterID := page.(sdkPagination_AfterID);
      GetUsersParams_Search := params.(GetUsersParams_Search);
      GetUsersParams_Status := params.(GetUsersParams_Status);
      GetUsersParams_RbacRole := params.(GetUsersParams_RbacRole);
      GetUsersParams_OffsetOpt := int32_wrap page.(sdkPagination_Offset);
      GetUsersParams_LimitOpt := int32_wrap page.(sdkPagination_Limit) |}))
    (internal "Internal error fetching users.");
  match userRows with
  | [] => reply StatusOK (BodyUsers (mkGetUsersResponse [] 0))
  | row0 :: _ =>
      us ← catch (lift_res (AuthorizeFilter User_RBACObject r ActionRead (ConvertUserRows userRows)))
        (internal "Internal error fetching users.");
      rows ← catch (query (GetOrganizationIDsByMemberIDs (User_ID <$> us)))
        (λ err, if errors_Is err ErrNoRows then mret []
                else internal "Internal error fetching user's organizations." err);
      let organizationIDsByUserID := foldl (λ m row,
        <[row.(GetOrganizationIDsByMemberIDsRow_UserID) :=
            row.(GetOrganizationIDsByMemberIDsRow_OrganizationIDs)]> m) ∅ rows in
      reply StatusOK (BodyUsers (mkGetUsersResponse (api_convertUsers us organizationIDsByUserID)
                                   row0.(GetUsersRow_Count)))
  end.

Definition userByName (r : Request) (user : User) : Handler unit :=
  organizationIDs ← attempt_h (userOrganizationIDs user);
  _ ← authorize r ActionRead ResourceUser ResourceNotFound;
  match organizationIDs with
  | inl err => internal "Internal error fetching user's organizations." err
  | inr organizationIDs => reply StatusOK (BodyUser (convertUser user organizationIDs))
  end.

Definition userRoles (r : Request) (user : User) : Handler unit :=
  _ ← authorize r ActionRead (WithOwner (uuid_String user.(User_ID)) ResourceUserData) ResourceNotFound;
  memberships ← catch (query (GetOrganizationMembershipsByUserID user.(User_ID)))
    (internal "Internal error fetching user's organization memberships.");
  memberships ← catch (lift_res (AuthorizeFilter OrganizationMember_RBACObject r ActionRead memberships))
    (internal "Internal error fetching memberships.");
  reply StatusOK (BodyUserRoles (mkUserRoles user.(User_RBACRoles)
    (foldl (λ m mem, <[mem.(OrganizationMember_OrganizationID) := mem.(OrganizationMember_Roles)]> m)
       ∅ memberships))).

Definition organizationsByUser (r : Request) (user : User) : Handler unit :=
  organizations ← catch (query (GetOrganizationsByUserID user.(User_ID)))
    (λ err, if errors_Is err ErrNoRows then mret []
            else internal "Internal error fetching user's organizations." err);
  organizations ← catch (lift_res (AuthorizeFilter Organization_RBACObject r ActionRead organizations))
    (internal "Internal error fetching organizations.");
  reply StatusOK (BodyOrganizations (convertOrganization <$> organizations)).

Definition organizationByUserAndName (r : Request) : Handler unit :=
  organization ← catch (query (GetOrganizationByName (URLParam r "organizationname")))
    (not_found_or "Internal error fetching organization.");
  _ ← authorize r ActionRead (InOrg organization.(Organization_ID) ResourceOrganization) ResourceNotFound;
  reply StatusOK (BodyOrganization (convertOrganization organization)).
End users.

(** ** Changes *)

(** [CreateUserRequest]: the public request and how the user logs in. *)
Record api_CreateUserRequest := mkapi_CreateUserRequest {
  CreateUserRequest_CreateUserRequest : CreateUserRequest;
  CreateUserRequest_LoginType : LoginType;
}.

Section create.
Context `{!Environment, !UuidText, !Authorizer, !Auditor}.
Context `{!Pbkdf2, !SSHKeygen}.
Context `{!Validate CreateUserRequest, !Validate UpdateUserProfileRequest}.
Context `{!Validate UpdateUserPasswordRequest, !Validate UpdateRoles}.
Context (api : Options).

(** The organization of the new user and its roles there: a user with no
    organization gets one of its own, with the group of all its users. *)
Definition new_user_org (req : CreateUserRequest) : GoM world (uuid * list string) :=
  if req.(CreateUserRequest_OrganizationID) == uuid_Nil then
    id ← uuid_New;
    created ← Now;
    updated ← Now;
    organization ← wrap "create organization" (store (InsertOrganization {|
      InsertOrganizationParams_ID := id;
      InsertOrganizationParams_Name := req.(CreateUserRequest_Username);
      InsertOrganizationParams_Description := EmptyString;
      InsertOrganizationParams_CreatedAt := created;
      InsertOrganizationParams_UpdatedAt := updated |}));
    _ ← wrap ("create " +:+ quote AllUsersGroup +:+ " group")
      (store (InsertAllUsersGroup organization.(Organization_ID)));
    mret (organization.(Organization_ID), [RoleOrgAdmin organization.(Organization_ID)])
  else mret (req.(CreateUserRequest_OrganizationID), []).

(** The user and the organization it was put in. *)
Definition CreateUser (request : api_CreateUserRequest) : GoM world (User * uuid) :=
  let req := request.(CreateUserRequest_CreateUserRequest) in
  org ← new_user_org req;
  let '(organizationID, orgRoles) := org in
  id ← uuid_New;
  created ← Now;
  updated ← Now;
  hashedPassword ←
    (if req.(CreateUserRequest_Password) != EmptyString
     then h ← wrap "hash password" (random (Hash req.(CreateUserRequest_Password)));
          mret (bytes_of h)
     else mret []);
  user ← wrap "create user" (store (InsertUser {|
    InsertUserParams_ID := id;
    InsertUserParams_Email := req.(CreateUserRequest_Email);
    InsertUserParams_Username := req.(CreateUserRequest_Username);
    InsertUserParams_HashedPassword := hashedPassword;
    InsertUserParams_CreatedAt := created;
    InsertUserParams_UpdatedAt := updated;
    InsertUserParams_RBACRoles := [];
    InsertUserParams_LoginType := request.(CreateUserRequest_LoginType) |}));
  keys ← wrap "generate user gitsshkey" (random (Generate api.(SSHKeygenAlgorithm)));
  keyCreated ← Now;
  keyUpdated ← Now;
  _ ← wrap "insert user gitsshkey" (store (InsertGitSSHKey {|
    InsertGitSSHKeyParams_UserID := user.(User_ID);
    InsertGitSSHKeyParams_CreatedAt := keyCreated;
    InsertGitSSHKeyParams_UpdatedAt := keyUpdated;
    InsertGitSSHKeyParams_PrivateKey := keys.1;
    InsertGitSSHKeyParams_PublicKey := keys.2 |}));
  memberCreated ← Now;
  memberUpdated ← Now;
  _ ← wrap "create organization member" (store (InsertOrganizationMember {|
    InsertOrganizationMemberParams_OrganizationID := organizationID;
    InsertOrganizationMemberParams_UserID := user.(User_ID);
    InsertOrganizationMemberParams_CreatedAt := memberCreated;
    InsertOrganizationMemberParams_UpdatedAt := memberUpdated;
    InsertOrganizationMemberParams_Roles := orgRoles |}));
  mret (user, organizationID).

Definition postUser (r : Request) (body : json_body CreateUserRequest) : Handler unit :=
  InitRequest r AuditActionCreate (AuditUser User_zero) (λ aReq,
    _ ← authorize r ActionCreate ResourceUser Forbidden;
    req ← Read body;
    _ ← authorize r ActionCreate
          (InOrg req.(CreateUserRequest_OrganizationID) ResourceOrganizationMember) ResourceNotFound;
    existing ← attempt_h (query (GetUserByEmailOrUsername
      (mkGetUserByEmailOrUsernameParams req.(CreateUserRequest_Username) req.(CreateUserRequest_Email) false)));
    _ ← match existing with
        | inr _ => Write StatusConflict (message "User already exists.")
        | inl err => if errors_Is err ErrNoRows then mret tt
                     else internal "Internal error fetching user." err
        end;
    _ ← catch (query (GetOrganizationByID req.(CreateUserRequest_OrganizationID)))
      (λ err, if errors_Is err ErrNoRows
              then Write StatusNotFound (message ("Organization does not exist with the provided id "
                     +:+ quote (uuid_String req.(CreateUserRequest_OrganizationID)) +:+ "."))
              else internal "Internal error fetching organization." err);
    created ← catch (CreateUser (mkapi_CreateUserRequest req LoginTypePassword))
      (internal "Internal error creating user.");
    let '(user, _) := created in
    _ ← set_New aReq (AuditUser user);
    reply StatusCreated (BodyUser (convertUser user [req.(CreateUserRequest_OrganizationID)]))).

Definition deleteUser (r : Request) (user : User) : Handler unit :=
  InitRequest r AuditActionDelete (AuditUser User_zero) (λ aReq,
    _ ← set_Old aReq (AuditUser user);
    _ ← authorize r ActionDelete ResourceUser Forbidden;
    workspaces ← catch (query_now (λ now, GetWorkspaces now
        (GetWorkspacesParams_zero <| GetWorkspacesParams_OwnerID := user.(User_ID) |>)))
      (internal "Internal error fetching workspaces.");
    _ ← require (workspaces == []) (Write StatusExpectationFailed (message
          "You cannot delete a user that has workspaces. Delete their workspaces and try again!"));
    _ ← catch (store (UpdateUserDeletedByID (mkUpdateUserDeletedByIDParams user.(User_ID) true)))
      (internal "Internal error deleting user.");
    _ ← set_New aReq (AuditUser (user <| User_Deleted := true |>));
    Write StatusOK (message "User has been deleted!")).

Definition putUserProfile (r : Request) (user : User) (body : json_body UpdateUserProfileRequest) :
    Handler unit :=
  InitRequest r AuditActionWrite (AuditUser User_zero) (λ aReq,
    _ ← set_Old aReq (AuditUser user);
    _ ← authorize r ActionUpdate ResourceUser ResourceNotFound;
    params ← Read body;
    let username := params.(UpdateUserProfileRequest_Username) in
    existing ← attempt_h (query (GetUserByEmailOrUsername
      (mkGetUserByEmailOrUsernameParams username EmptyString false)));
    _ ← match existing with
        | inr existentUser =>
            require (existentUser.(User_ID) == user.(User_ID))
              (Write StatusConflict (mkResponse "User already exists." EmptyString
                 (if existentUser.(User_Username) == username
                  then [mkValidationError "username" "this value is already in use and should be unique"]
                  else [])))
        | inl err =>
            (* the user the failed query returned has the zero ID *)
            require (errors_Is err ErrNoRows || (uuid_Nil == user.(User_ID)))
              (internal "Internal error fetching user." err)
        end;
    now ← run Now;
    updated ← attempt_h (store (UpdateUserProfile {|
      UpdateUserProfileParams_ID := user.(User_ID);
      UpdateUserProfileParams_Email := user.(User_Email);
      UpdateUserProfileParams_Username := username;
      UpdateUserProfileParams_AvatarURL := user.(User_AvatarURL);
      UpdateUserProfileParams_UpdatedAt := now |}));
    _ ← set_New aReq (AuditUser (match updated with inr u => u | inl _ => User_zero end));
    updatedUserProfile ← match updated with
                         | inr u => mret u
                         | inl err => internal "Internal error updating user." err
                         end;
    organizationIDs ← catch (userOrganizationIDs user)
      (internal "Internal error fetching user's organizations.");
    reply StatusOK (BodyUser (convertUser updatedUserProfile organizationIDs))).

Definition putUserStatus (status : UserStatus) (r : Request) (user : User) : Handler unit :=
  apiKey ← get (httpmw_APIKey r);
  InitRequest r AuditActionWrite (AuditUser User_zero) (λ aReq,
    _ ← set_Old aReq (AuditUser user);
    _ ← authorize r ActionDelete ResourceUser ResourceNotFound;
    _ ← (if status == UserStatusSuspended then
           _ ← require (user.(User_ID) != apiKey.(APIKey_UserID))
                 (Write StatusBadRequest (message "You cannot suspend yourself."));
           require (negb (slice_Contains user.(User_RBACRoles) RoleOwner))
             (Write StatusBadRequest (message ("You cannot suspend a user with the "
                +:+ quote RoleOwner +:+ " role. You must remove the role first.")))
         else mret tt);
    now ← run Now;
    suspendedUser ← catch (store (UpdateUserStatus (mkUpdateUserStatusParams user.(User_ID) status now)))
      (internal ("Internal error updating user's status to " +:+ quote (UserStatus_string status) +:+ "."));
    _ ← set_New aReq (AuditUser suspendedUser);
    organizations ← catch (userOrganizationIDs user)
      (internal "Internal error fetching user's organizations.");
    reply StatusOK (BodyUser (convertUser suspendedUser organizations))).

(** The body of the transaction of [putUserPassword]. *)
Definition replace_password (user : User) (hashedPassword : string) : GoM world unit :=
  _ ← wrap "update user hashed password" (store (UpdateUserHashedPassword
        (mkUpdateUserHashedPasswordParams user.(User_ID) (bytes_of hashedPassword))));
  wrap "delete api keys by user ID" (store (DeleteAPIKeysByUserID user.(User_ID))).

Definition putUserPassword (r : Request) (user : User) (body : json_body UpdateUserPasswordRequest) :
    Handler unit :=
  InitRequest r AuditActionWrite (AuditUser User_zero) (λ aReq,
    _ ← set_Old aReq (AuditUser user);
    _ ← authorize r ActionUpdate (WithOwner (uuid_String user.(User_ID)) ResourceUserData) ResourceNotFound;
    params ← Read body;
    let password := params.(UpdateUserPasswordRequest_Password) in
    let oldPassword := params.(UpdateUserPasswordRequest_OldPassword) in
    let hashed := string_of user.(User_HashedPassword) in
    _ ← match userpassword_Validate password with
        | None => mret tt
        | Some err => Write StatusBadRequest (mkResponse "Invalid password." EmptyString
                        [mkValidationError "password" (error_string err)])
        end;
    _ ← (if oldPassword == EmptyString then authorize r ActionUpdate ResourceUser Forbidden
         else
           ok ← catch (lift_res (Compare api.(simulatedHash) hashed oldPassword))
             (internal "Internal error with passwords.");
           require ok (Write StatusBadRequest (mkResponse "Old password is incorrect." EmptyString
             [mkValidationError "old_password" "Old password is incorrect."])));
    _ ← (match Compare api.(simulatedHash) hashed password with
         | Ok true => Write StatusBadRequest (message "New password cannot match old password.")
         | _ => mret tt
         end);
    hashedPassword ← catch (random (Hash password)) (internal "Internal error hashing new password.");
    _ ← catch (replace_password user hashedPassword) (internal "Internal error updating user's password.");
    _ ← set_New aReq (AuditUser (user <| User_HashedPassword := bytes_of hashedPassword |>));
    reply StatusNoContent BodyNone).

(** Only site-wide roles that exist are accepted. *)
Fixpoint check_site_roles (roles : list string) : res unit :=
  match roles with
  | [] => Ok tt
  | r :: roles =>
      if (IsOrgRole r).2 then Err (ErrNew "Must only update site wide roles")
      else match RoleByName r with
           | Ok _ => check_site_roles roles
           | _ => Err (ErrNew (quote r +:+ " is not a supported role"))
           end
  end.

Definition updateSiteUserRoles (args : UpdateUserRolesParams) : GoM world User :=
  _ ← lift_res (check_site_roles args.(UpdateUserRolesParams_GrantedRoles));
  wrap "update site roles" (store (UpdateUserRoles args)).

Definition putUserRoles (r : Request) (user : User) (body : json_body UpdateRoles) : Handler unit :=
  actorRoles ← get (UserAuthorization r);
  apiKey ← get (httpmw_APIKey r);
  InitRequest r AuditActionWrite (AuditUser User_zero) (λ aReq,
    _ ← set_Old aReq (AuditUser user);
    _ ← require (apiKey.(APIKey_UserID) != user.(User_ID))
          (Write StatusBadRequest (message "You cannot change your own roles."));
    params ← Read body;
    _ ← authorize r ActionRead ResourceUser ResourceNotFound;
    let impliedTypes := params.(UpdateRoles_Roles) ++ [RoleMember] in
    let '(added, removed) := ChangeRoleSet user.(User_RBACRoles) impliedTypes in
    _ ← (if added == [] then mret tt else authorize r ActionCreate ResourceRoleAssignment Forbidden);
    _ ← (if removed == ∅ then mret tt else authorize r ActionDelete ResourceRoleAssignment Forbidden);
    _ ← each (added ++ elements removed) (λ roleName,
          require (CanAssignRole actorRoles.(Authorization_Roles) roleName) Forbidden);
    updatedUser ← catch (updateSiteUserRoles
        (mkUpdateUserRolesParams params.(UpdateRoles_Roles) user.(User_ID)))
      (λ err, Write StatusBadRequest (message (error_string err)));
    _ ← set_New aReq (AuditUser updatedUser);
    organizationIDs ← catch (userOrganizationIDs user)
      (internal "Internal error fetching user's organizations.");
    reply StatusOK (BodyUser (convertUser updatedUser organizationIDs))).
End create.
