(* ===== verification/ApiKeys.v ===== *)
(** * The API: sessions and API keys

    [coderd/apikey.go], and the login and logout of [coderd/users.go]. *)

From Stdlib Require Import Ascii.
From stdpp Require Import prelude gmap strings.
From S2P Require Import Prelude Encoding Cryptorand UserPassword Rbac Models Queries ModelMethods.
From S2P Require Import Store StoreUsers World Auditing Sdk Http HttpMw Api ApiUsers.

Local Open Scope Z_scope.

(** An ID of 10 characters and a secret of 22. *)
Definition generateAPIKeyIDSecret `{!RandomSource} : RandM (string * string) :=
  id ← cryptorand_String 10;
  secret ← cryptorand_String 22;
  mret (id, secret).

Record createAPIKeyParams := mkcreateAPIKeyParams {
  createAPIKeyParams_UserID : uuid;
  createAPIKeyParams_RemoteAddr : string;
  createAPIKeyParams_LoginType : LoginType;
  createAPIKeyParams_ExpiresAt : time;
  createAPIKeyParams_LifetimeSeconds : Z;
  createAPIKeyParams_Scope : APIKeyScope;
}.

Section keys.
Context `{!Environment, !UuidText, !Authorizer, !Pbkdf2, !Sha256}.
Context `{!Validate CreateTokenRequest, !Validate LoginWithPasswordRequest}.
Context (api : Options).

(** When the key expires if nobody said so. *)
Definition default_expiry (params : createAPIKeyParams) : GoM world time :=
  if IsZero params.(createAPIKeyParams_ExpiresAt) then
    now ← Now;
    mret (Add now (if params.(createAPIKeyParams_LifetimeSeconds) != 0
                   then seconds params.(createAPIKeyParams_LifetimeSeconds) else 24 * Hour))
  else mret params.(createAPIKeyParams_ExpiresAt).

Definition createAPIKey (params : createAPIKeyParams) : GoM world http_Cookie :=
  ids ← wrap "generate API key" (random generateAPIKeyIDSecret);
  let '(keyID, keySecret) := ids in
  let hashed := sha256_Sum256 (bytes_of keySecret) in
  expiresAt ← default_expiry params;
  let scope := if params.(createAPIKeyParams_Scope) != APIKeyScope_other EmptyString
               then params.(createAPIKeyParams_Scope) else APIKeyScopeAll in
  match scope with
  | APIKeyScope_other s => throw (ErrNew ("invalid API key scope: " +:+ quote s))
  | _ =>
      created ← Now;
      updated ← Now;
      _ ← wrap "insert API key" (store (InsertAPIKey {|
        InsertAPIKeyParams_ID := keyID;
        InsertAPIKeyParams_LifetimeSeconds := params.(createAPIKeyParams_LifetimeSeconds);
        InsertAPIKeyParams_HashedSecret := hashed;
        InsertAPIKeyParams_IPAddress := remote_inet params.(createAPIKeyParams_RemoteAddr);
        InsertAPIKeyParams_UserID := params.(createAPIKeyParams_UserID);
        InsertAPIKeyParams_LastUsed := time_zero;
        InsertAPIKeyParams_ExpiresAt := expiresAt;
        InsertAPIKeyParams_CreatedAt := created;
        InsertAPIKeyParams_UpdatedAt := updated;
        InsertAPIKeyParams_LoginType := params.(createAPIKeyParams_LoginType);
        InsertAPIKeyParams_Scope := scope |}));
      mret {|
        Cookie_Name := SessionTokenKey;
        Cookie_Value := keyID +:+ "-" +:+ keySecret;
        Cookie_Path := "/";
        Cookie_Domain := EmptyString;
        Cookie_MaxAge := 0;
        Cookie_HttpOnly := true;
        Cookie_Secure := api.(SecureAuthCookie) |}
  end.

(** ** Handlers *)

Definition own_keys (user : User) : Object := WithOwner (uuid_String user.(User_ID)) ResourceAPIKey.

(** The default scope is overwritten by the request's in every case. *)
Definition postToken (r : Request) (user : User) (body : json_body CreateTokenRequest) : Handler unit :=
  _ ← authorize r ActionCreate (own_keys user) ResourceNotFound;
  createToken ← Read body;
  let lifeTime := Hour * 876000 in
  now ← run Now;
  cookie ← catch (createAPIKey {|
      createAPIKeyParams_UserID := user.(User_ID);
      createAPIKeyParams_RemoteAddr := EmptyString;
      createAPIKeyParams_LoginType := LoginTypeToken;
      createAPIKeyParams_ExpiresAt := Add now lifeTime;
      createAPIKeyParams_LifetimeSeconds := lifeTime / Second;
      createAPIKeyParams_Scope := createToken.(CreateTokenRequest_Scope) |})
    (internal "Failed to create API key.");
  reply StatusCreated (BodyGeneratedKey (mkGenerateAPIKeyResponse cookie.(Cookie_Value))).

Definition postAPIKey (r : Request) (user : User) : Handler unit :=
  _ ← authorize r ActionCreate (own_keys user) ResourceNotFound;
  let lifeTime := Hour * 24 * 7 in
  now ← run Now;
  cookie ← catch (createAPIKey {|
      createAPIKeyParams_UserID := user.(User_ID);
      createAPIKeyParams_RemoteAddr := r.(RemoteAddr);
      createAPIKeyParams_LoginType := LoginTypePassword;
      createAPIKeyParams_ExpiresAt := Add now lifeTime;
      createAPIKeyParams_LifetimeSeconds := lifeTime / Second;
      createAPIKeyParams_Scope := APIKeyScope_other EmptyString |})
    (internal "Failed to create API key.");
  reply StatusCreated (BodyGeneratedKey (mkGenerateAPIKeyResponse cookie.(Cookie_Value))).

Definition api_apiKey (r : Request) (user : User) : Handler unit :=
  _ ← authorize r ActionRead (own_keys user) ResourceNotFound;
  key ← catch (query (GetAPIKeyByID (URLParam r "keyid"))) (not_found_or "Internal error fetching API key.");
  reply StatusOK (BodyAPIKey (convertAPIKey key)).

Definition api_tokens (r : Request) (user : User) : Handler unit :=
  _ ← authorize r ActionRead (own_keys user) ResourceNotFound;
  keys ← catch (query (GetAPIKeysByLoginType LoginTypeToken))
    (λ err, if errors_Is err ErrNoRows then reply StatusOK (BodyAPIKeys [])
            else internal "Internal error fetching API keys." err);
  reply StatusOK (BodyAPIKeys (convertAPIKey <$> keys)).

Definition deleteAPIKey (r : Request) (user : User) : Handler unit :=
  _ ← authorize r ActionDelete (own_keys user) ResourceNotFound;
  _ ← catch (store (DeleteAPIKeyByID (URLParam r "keyid")))
    (not_found_or "Internal error deleting API key.");
  reply StatusNoContent BodyNone.

(** Authenticates with an email address and a password. *)
Definition postLogin (r : Request) (body : json_body LoginWithPasswordRequest) : Handler unit :=
  login ← Read body;
  user ← catch (query (GetUserByEmailOrUsername
      (mkGetUserByEmailOrUsernameParams EmptyString login.(LoginWithPasswordRequest_Email) false)))
    (λ err, if errors_Is err ErrNoRows then mret User_zero
            else Write StatusInternalServerError (message "Internal error."));
  equal ← catch (lift_res (Compare api.(simulatedHash) (string_of user.(User_HashedPassword))
                             login.(LoginWithPasswordRequest_Password)))
    (λ _, Write StatusInternalServerError (message "Internal error."));
  _ ← require equal (Write StatusUnauthorized (message "Incorrect email or password."));
  _ ← require (user.(User_LoginType) == LoginTypePassword)
    (Write StatusForbidden (message ("Incorrect login type, attempting to use "
       +:+ quote (LoginType_string LoginTypePassword) +:+ " but user is of login type "
       +:+ quote (LoginType_string user.(User_LoginType)))));
  _ ← require (user.(User_Status) == UserStatusActive)
    (Write StatusUnauthorized (message
       "Your account is suspended. Contact an admin to reactivate your account."));
  cookie ← catch (createAPIKey {|
      createAPIKeyParams_UserID := user.(User_ID);
      createAPIKeyParams_RemoteAddr := r.(RemoteAddr);
      createAPIKeyParams_LoginType := LoginTypePassword;
      createAPIKeyParams_ExpiresAt := time_zero;
      createAPIKeyParams_LifetimeSeconds := 0;
      createAPIKeyParams_Scope := APIKeyScope_other EmptyString |})
    (internal "Failed to create API key.");
  _ ← SetCookie cookie;
  reply StatusCreated (BodyLogin (mkLoginWithPasswordResponse cookie.(Cookie_Value))).

(** A cookie that makes the browser forget the one of that name. *)
Definition remove_cookie (name domain : string) : http_Cookie :=
  mkCookie name EmptyString "/" domain (-1) false false.

Definition postLogout (r : Request) : Handler unit :=
  _ ← SetCookie (remove_cookie SessionTokenKey EmptyString);
  apiKey ← get (httpmw_APIKey r);
  _ ← catch (store (DeleteAPIKeyByID apiKey.(APIKey_ID))) (internal "Internal error deleting API key.");
  _ ← match Cookie r DevURLSessionTokenCookie with
      | None => mret tt
      | Some appCookie =>
          _ ← SetCookie (remove_cookie DevURLSessionTokenCookie ("." +:+ api.(AccessURL_Hostname)));
          match SplitAPIToken appCookie with
          | Ok (id, _) => _ ← attempt_h (store (DeleteAPIKeyByID id)); mret tt
          | _ => mret tt
          end
      end;
  _ ← match Cookie r "session_token" with
      | None => mret tt
      | Some oldCookie =>
          match SplitAPIToken oldCookie with
          | Ok _ => SetCookie (remove_cookie "session_token" EmptyString)
          | _ => mret tt
          end
      end;
  Write StatusOK (message "Logged out!").
End keys.
