(* ===== verification/Scenario.v ===== *)
(** * A deployment for concrete runs

    Instances of the interfaces the server is written against (clock, random
    numbers, UUID text, hashing, authorizer, auditor) and a small store: enough to
    run the handlers on. The theorems of the development do not depend on them; the
    examples and witnesses apply the theorems to them. *)

From Stdlib Require Import Strings.Byte.
From stdpp Require Import prelude gmap strings.
From S2P Require Import Prelude Encoding Schedule Cryptorand UserPassword Rbac RbacProps Models Queries.
From S2P Require Import ModelMethods Store World Auditing Sdk Http HttpMw Api ApiKeys.

Local Open Scope Z_scope.

Module Scenario.

Definition text : UuidText := unary_uuid_text.

(** A clock that ticks every second from one hour after the epoch, fresh IDs, a
    pubsub that works, and the letter j for randomness. *)
Definition env : Environment := {|
  clock n := unix_epoch + Hour + Second * Z.of_nat n;
  new_uuid n := (100 + N.of_nat n)%N;
  publish_error _ := None;
  random_source := RandomExamples.constant_source "j"%byte |}.

(** The policy of [policy.rego], with whole-policy queries. *)
Definition policy : Authorizer := @rego_authorizer whole_query.

Definition identity_hash : Sha256 := id.
Definition blank_time : TimeText := λ _, "now".
Definition no_oauth : OAuth2Configs := {| Github := None; OIDC := None |}.
Definition blank_rfc3339 : RFC3339 := {| rfc3339_Format _ := "now"; rfc3339_Parse _ := Ok 0 |}.

Definition api : Options := {|
  api_ID := 1%N;
  SSHKeygenAlgorithm := AlgorithmEd25519;
  SecureAuthCookie := true;
  AccessURL_Hostname := "coder.example.com";
  AgentInactiveDisconnectTimeout := Minute;
  AutoImportTemplates := [];
  AgentStatsRefreshInterval := Minute;
  AgentFallbackTroubleshootingURL := EmptyString;
  TrialGenerator := None;
  simulatedHash := EmptyString |}.

(** An owner and a member, both of the one organization. *)
Definition org : Organization := Organization_zero <| Organization_ID := 9%N |>.
Definition owner : User :=
  User_zero <| User_ID := 6%N |> <| User_Username := "root" |> <| User_Status := UserStatusActive |>
    <| User_RBACRoles := [RoleOwner; RoleMember] |>.
Definition member : User :=
  User_zero <| User_ID := 7%N |> <| User_Username := "dev" |> <| User_Status := UserStatusActive |>
    <| User_RBACRoles := [RoleMember] |>.
Definition in_org (user : User) : OrganizationMember :=
  OrganizationMember_zero <| OrganizationMember_UserID := user.(User_ID) |>
    <| OrganizationMember_OrganizationID := 9%N |>
    <| OrganizationMember_Roles := [@RoleOrgMember text 9%N] |>.

(** Their sessions. *)
Definition session (user : User) (id : string) : APIKey :=
  APIKey_zero <| APIKey_ID := id |> <| APIKey_UserID := user.(User_ID) |>
    <| APIKey_HashedSecret := bytes_of "jjjjjjjjjjjjjjjjjjjjjj" |> <| APIKey_LoginType := LoginTypePassword |>
    <| APIKey_ExpiresAt := unix_epoch + 24 * Hour |> <| APIKey_LastUsed := unix_epoch + Hour |>
    <| APIKey_Scope := APIKeyScopeAll |>.
Definition owner_key : APIKey := session owner "rrrrrrrrrr".
Definition member_key : APIKey := session member "dddddddddd".

(** A workspace of the member, running since one hour after the epoch, from a
    version that was imported. *)
Definition template : Template :=
  Template_zero <| Template_ID := 8%N |> <| Template_OrganizationID := 9%N |> <| Template_ActiveVersionID := 4%N |>
    <| Template_Provisioner := ProvisionerTypeTerraform |>.
Definition version : TemplateVersion :=
  TemplateVersion_zero <| TemplateVersion_ID := 4%N |> <| TemplateVersion_TemplateID := non_null 8%N |>
    <| TemplateVersion_OrganizationID := 9%N |> <| TemplateVersion_JobID := 10%N |>.
Definition completed_job (id : uuid) : ProvisionerJob :=
  ProvisionerJob_zero <| ProvisionerJob_ID := id |> <| ProvisionerJob_StartedAt := non_null (unix_epoch + Hour) |>
    <| ProvisionerJob_CompletedAt := non_null (unix_epoch + Hour) |>.
Definition workspace : Workspace :=
  Workspace_zero <| Workspace_ID := 3%N |> <| Workspace_OwnerID := 7%N |> <| Workspace_OrganizationID := 9%N |>
    <| Workspace_TemplateID := 8%N |> <| Workspace_Name := "dev" |> <| Workspace_Ttl := non_null Hour |>.
Definition build : WorkspaceBuild :=
  WorkspaceBuild_zero <| WorkspaceBuild_ID := 2%N |> <| WorkspaceBuild_WorkspaceID := 3%N |>
    <| WorkspaceBuild_TemplateVersionID := 4%N |> <| WorkspaceBuild_JobID := 1%N |>
    <| WorkspaceBuild_BuildNumber := 1 |> <| WorkspaceBuild_Transition := WorkspaceTransitionStart |>
    <| WorkspaceBuild_InitiatorID := 7%N |> <| WorkspaceBuild_Deadline := unix_epoch + 2 * Hour |>.

Definition q : data :=
  New <| users := [owner; member] |> <| organizations := [org] |>
      <| organizationMembers := [in_org owner; in_org member] |> <| apiKeys := [owner_key; member_key] |>
      <| templates := [template] |> <| templateVersions := [version] |> <| workspaces := [workspace] |>
      <| workspaceBuilds := [build] |> <| provisionerJobs := [completed_job 1; completed_job 10] |>.
Definition w : world := mkWorld q 0 0 0 [] [] time_zero 0.
Definition s : hstate := mkHState w [] [].

Definition bare : Request := mkRequest "127.0.0.1:80" "curl" "/" EmptyString ∅ ∅ ∅ [] (Some 50%N) None None
  "coder.example.com" [] false None.
(** A request with a token in the session cookie. *)
Definition with_token (token : string) : Request := bare <| Cookies := [(SessionTokenKey, token)] |>.

(** The request of a user, past the middleware. *)
Definition by_user (user : User) (key : APIKey) : Request :=
  bare <| context_APIKey := Some key |>
       <| context_Authorization := Some (mkAuthorization user.(User_ID) user.(User_Username)
            (user.(User_RBACRoles) ++ [@RoleOrgMember text 9%N]) [] APIKeyScopeAll) |>.
Definition by_owner : Request := by_user owner owner_key.
Definition by_member : Request := by_user member member_key.
End Scenario.
