(* ===== verification/HttpProps.v ===== *)
(** * Properties of the handlers' vocabulary and of authentication

    What a handler leaves alone ([preserves] for the handler combinators), how
    it can end, and the soundness of [ExtractAPIKey]: the rest of the handler runs
    only on a request whose token names a stored key, carries its secret, and
    belongs to an active user, or, where the key is optional, on one without such a key. *)

From Stdlib Require Import Ascii.
From stdpp Require Import prelude gmap strings.
From S2P Require Import Prelude Encoding Cryptorand Rbac Models Queries ModelMethods Store StoreUsers.
From S2P Require Import StoreMisc World Auditing Sdk Http HttpMw Api ApiKeys Scenario.

Local Open Scope Z_scope.

(** ** Runs *)

Lemma h_bind_run {A B} (m : Handler A) (k : A → Handler B) s :
  (m ≫= k) s = match m s with
               | (Ok (inr a), s') => k a s'
               | (Ok (inl p), s') => (Ok (inl p), s')
               | (Err e, s') => (Err e, s')
               | (Panic p, s') => (Panic p, s')
               end.
Proof. reflexivity. Qed.

Lemma h_bind_ok {A B} (m : Handler A) (k : A → Handler B) s a s' :
  m s = (Ok (inr a), s') → (m ≫= k) s = k a s'.
Proof. intros Hm. by rewrite h_bind_run, Hm. Qed.

Lemma h_bind_reply {A B} (m : Handler A) (k : A → Handler B) s p s' :
  m s = (Ok (inl p), s') → (m ≫= k) s = (Ok (inl p), s').
Proof. intros Hm. by rewrite h_bind_run, Hm. Qed.

Lemma catch_run {A} (m : GoM world A) handle s :
  catch m handle s =
    match m s.(hs_world) with
    | (Ok a, w) => (Ok (inr a), s <| hs_world := w |>)
    | (Err e, w) => handle e (s <| hs_world := w |>)
    | (Panic p, w) => (Panic p, s <| hs_world := w |>)
    end.
Proof.
  unfold catch. rewrite h_bind_run. unfold attempt_h, on_world, zoom.
  by destruct (m s.(hs_world)) as [[]].
Qed.

Lemma catch_query {A} (f : data → res A) handle s :
  catch (query f) handle s =
    match f s.(hs_world).(db) with
    | Ok a => (Ok (inr a), s)
    | Err e => handle e s
    | Panic p => (Panic p, s)
    end.
Proof. rewrite catch_run. unfold query. destruct s as [w au co]. by destruct (f w.(db)). Qed.

Lemma catch_store {A} (m : StoreM A) handle s :
  catch (store m) handle s =
    match m s.(hs_world).(db) with
    | (Ok a, q) => (Ok (inr a), s <| hs_world := s.(hs_world) <| db := q |> |>)
    | (Err e, q) => handle e (s <| hs_world := s.(hs_world) <| db := q |> |>)
    | (Panic p, q) => (Panic p, s <| hs_world := s.(hs_world) <| db := q |> |>)
    end.
Proof. rewrite catch_run. unfold store, zoom. by destruct (m s.(hs_world).(db)) as [[]]. Qed.

(** ** Handlers that go on *)

(** The handler ends with a value, and not with a response. *)
Definition yields {A} (m : Handler A) (s : hstate) (a : A) (s' : hstate) : Prop := m s = (Ok (inr a), s').

Lemma yields_bind {A B} (m : Handler A) (k : A → Handler B) s b s' :
  yields (m ≫= k) s b s' → ∃ a s1, yields m s a s1 ∧ yields (k a) s1 b s'.
Proof.
  unfold yields. rewrite h_bind_run. destruct (m s) as [[[p|a]|e|p] s1]; [done| |done..]. eauto.
Qed.
Lemma yields_ret {A} (a b : A) s s' : yields (mret a) s b s' → b = a ∧ s' = s.
Proof. by intros [= -> ->]. Qed.
Lemma yields_get {A} (r : res A) s a s' : yields (get r) s a s' → r = Ok a ∧ s' = s.
Proof. unfold yields, get. destruct r; [|done..]. by intros [= -> ->]. Qed.
Lemma yields_require cond otherwise s u s' :
  (∀ s u s', ¬ yields otherwise s u s') → yields (require cond otherwise) s u s' → cond = true ∧ s' = s.
Proof. intros Hno. destruct cond; simpl; [by intros [_ ->]%yields_ret|by intros ?%Hno]. Qed.
Lemma yields_query {A} (f : data → res A) handle s a s' :
  (∀ e s a s', ¬ yields (handle e) s a s') → yields (catch (query f) handle) s a s' → f s.(hs_world).(db) = Ok a ∧ s' = s.
Proof.
  intros Hno. unfold yields. rewrite catch_query. destruct (f _); [by intros [= -> ->]|by intros ?%Hno|done].
Qed.
Lemma yields_lift {A} (r : res A) handle s a s' :
  (∀ e s a s', ¬ yields (handle e) s a s') → yields (catch (lift_res r) handle) s a s' → r = Ok a ∧ s' = s.
Proof.
  intros Hno. unfold yields. rewrite catch_run. destruct r; simpl; [|by intros ?%Hno|done].
  intros [= -> <-]. split; [done|]. by destruct s.
Qed.
Lemma no_yields_reply {A} status body s (a : A) s' : ¬ yields (reply status body) s a s'.
Proof. done. Qed.
Lemma yields_run {A} (m : GoM world A) s a s' :
  yields (run m) s a s' → ∃ w, m s.(hs_world) = (Ok a, w) ∧ s' = s <| hs_world := w |>.
Proof. unfold yields, run, on_world, zoom. destruct (m _) as [[]]; [|done..]. intros [= -> <-]. eauto. Qed.
Lemma yields_catch {A} (m : GoM world A) handle s a s' :
  (∀ e s a s', ¬ yields (handle e) s a s') → yields (catch m handle) s a s' →
  ∃ w, m s.(hs_world) = (Ok a, w) ∧ s' = s <| hs_world := w |>.
Proof. intros Hno. unfold yields. rewrite catch_run. destruct (m _) as [[]]; [|by intros ?%Hno|done]. intros [= -> <-]. eauto. Qed.
(** A response comes from one of the steps. *)
Lemma bind_replies {A B} (m : Handler A) (k : A → Handler B) s p s' :
  (m ≫= k) s = (Ok (inl p), s') →
  m s = (Ok (inl p), s') ∨ ∃ a s1, yields m s a s1 ∧ k a s1 = (Ok (inl p), s').
Proof.
  unfold yields. rewrite h_bind_run. destruct (m s) as [[[q|a]|e|q] s1]; intros Hrun; [injection Hrun as -> ->; by left|right; eauto|done..].
Qed.

(** ** Responses a step does not make *)

Definition avoids (P : Reply → Prop) {A} (m : Handler A) : Prop :=
  ∀ s p s', m s = (Ok (inl p), s') → ¬ P p.

Create HintDb avoids.

Section avoids.
Context {P : Reply → Prop}.
Lemma avoids_ret {A} (a : A) : avoids P (mret a).
Proof. by intros s p s'. Qed.
Lemma avoids_get {A} (r : res A) : avoids P (get r).
Proof. intros s p s'. by destruct r. Qed.
Lemma avoids_run {A} (m : GoM world A) : avoids P (run m).
Proof. intros s p s'. unfold run, on_world, zoom. by destruct (m _) as [[]]. Qed.
Lemma avoids_attempt_h {A} (m : GoM world A) : avoids P (attempt_h m).
Proof. intros s p s'. unfold attempt_h, on_world, zoom. by destruct (m _) as [[]]. Qed.
Lemma avoids_reply {A} status body : ¬ P (mkReply status body) → avoids P (reply (A := A) status body).
Proof. intros HP s p s' Hrun. by injection Hrun as <- <-. Qed.
Lemma avoids_bind {A B} (m : Handler A) (k : A → Handler B) :
  avoids P m → (∀ a, avoids P (k a)) → avoids P (m ≫= k).
Proof. intros Hm Hk s p s' Hrun. apply bind_replies in Hrun as [?|(a & s1 & _ & ?)]; [by eapply Hm|by eapply Hk]. Qed.
Lemma avoids_catch {A} (m : GoM world A) handle : (∀ e, avoids P (handle e)) → avoids P (catch m handle).
Proof. intros Hh. apply avoids_bind; [apply avoids_attempt_h|]. intros [e|a]; [apply Hh|apply avoids_ret]. Qed.
Lemma avoids_require cond otherwise : avoids P otherwise → avoids P (require cond otherwise).
Proof. by destruct cond; [intros _; apply avoids_ret|]. Qed.
(** So the response is that of a later step. *)
Lemma avoids_skip {A B} (m : Handler A) (k : A → Handler B) s p s' :
  P p → (m ≫= k) s = (Ok (inl p), s') → avoids P m → ∃ a s1, yields m s a s1 ∧ k a s1 = (Ok (inl p), s').
Proof. intros HP Hrun Hm. apply bind_replies in Hrun as [Hrun|?]; [|done]. by apply Hm in Hrun. Qed.
End avoids.
#[export] Hint Resolve avoids_ret avoids_get avoids_run avoids_attempt_h : avoids.
#[export] Hint Extern 2 (avoids _ (_ ≫= _)) => apply avoids_bind; [|intros ?] : avoids.
#[export] Hint Extern 1 (avoids _ (catch _ _)) => apply avoids_catch; intros ? : avoids.
#[export] Hint Extern 1 (avoids _ (require _ _)) => apply avoids_require : avoids.
#[export] Hint Extern 1 (avoids _ (authorize _ _ _ _)) => apply avoids_bind; [|intros ?] : avoids.
#[export] Hint Extern 3 (avoids _ (match ?x with _ => _ end)) => destruct x : avoids.
#[export] Hint Extern 1 (avoids _ (reply _ _)) => apply avoids_reply : avoids.
#[export] Hint Extern 1 (avoids _ (Write _ _)) => apply avoids_reply : avoids.
#[export] Hint Extern 1 (avoids _ (internal _ _)) => apply avoids_reply : avoids.
#[export] Hint Extern 1 (avoids _ ResourceNotFound) => apply avoids_reply : avoids.

(** What was authorized. *)
Lemma yields_authorize `{!Authorizer, !UuidText} r action object otherwise s u s' :
  (∀ s u s', ¬ yields otherwise s u s') → yields (authorize r action object otherwise) s u s' →
  http_Authorize r action object = Ok true ∧ s' = s.
Proof.
  intros Hno Hy. apply yields_bind in Hy as (ok & s1 & [Hok ->]%yields_get & Hy).
  by apply yields_require in Hy as [-> ->].
Qed.

(** ** How a handler ends *)

(** A response that says no. *)
Definition refused (r : res (Reply + unit)) : Prop :=
  match r with
  | Ok (inl p) => 300 <= p.(Reply_Status)
  | Ok (inr _) => False
  | Err _ | Panic _ => True
  end.

(** Every response it writes says no. *)
Definition refusing {A} (m : Handler A) : Prop := ∀ s,
  match (m s).1 with Ok (inl p) => 300 <= p.(Reply_Status) | _ => True end.

Create HintDb refusing.

Lemma refusing_ret {A} (a : A) : refusing (mret a).
Proof. done. Qed.
Lemma refusing_get {A} (r : res A) : refusing (get r).
Proof. intros s. by destruct r. Qed.
Lemma refusing_run {A} (m : GoM world A) : refusing (run m).
Proof. intros s. unfold run, on_world, zoom. by destruct (m s.(hs_world)) as [[]]. Qed.
Lemma refusing_attempt_h {A} (m : GoM world A) : refusing (attempt_h m).
Proof. intros s. unfold attempt_h, on_world, zoom. by destruct (m s.(hs_world)) as [[]]. Qed.
Lemma refusing_bind {A B} (m : Handler A) (k : A → Handler B) :
  refusing m → (∀ a, refusing (k a)) → refusing (m ≫= k).
Proof.
  intros Hm Hk s. rewrite h_bind_run. specialize (Hm s).
  destruct (m s) as [[[p|a]|e|p] s1]; simpl in *; [done|apply Hk|done..].
Qed.
Lemma refusing_catch {A} (m : GoM world A) handle :
  (∀ e, refusing (handle e)) → refusing (catch m handle).
Proof.
  intros Hh. apply refusing_bind; [apply refusing_attempt_h|]. intros [e|a]; [apply Hh|done].
Qed.
Lemma refusing_reply {A} status body : 300 <= status → refusing (reply (A := A) status body).
Proof. by intros ? ?. Qed.
#[export] Hint Resolve refusing_ret refusing_get refusing_run refusing_attempt_h refusing_catch : refusing.
#[export] Hint Extern 2 (refusing (_ ≫= _)) => apply refusing_bind; [|intros ?] : refusing.
#[export] Hint Extern 3 (refusing (match ?x with _ => _ end)) => destruct x : refusing.
#[export] Hint Extern 1 (∀ _, refusing _) => intros ? : refusing.
#[export] Hint Extern 1 (refusing (reply _ _)) => apply refusing_reply; done : refusing.
#[export] Hint Extern 1 (refusing (Write _ _)) => apply refusing_reply; done : refusing.
Ltac refuse := solve [eauto 40 with refusing].

(** A middleware on a state: it ends by itself, whatever comes next, or hands
    over to what comes next. *)
Definition ends (f : (Request → Handler unit) → Handler unit) (s : hstate) : Prop :=
  ∃ result s', refused result ∧ ∀ next, f next s = (result, s').

(** How a middleware goes on a state: [Q] holds of what it hands over. *)
Definition goes (Q : Request → hstate → Prop) (f : (Request → Handler unit) → Handler unit) (s : hstate) : Prop :=
  ends f s ∨ ∃ r' s', Q r' s' ∧ ∀ next, f next s = next r' s'.

Lemma goes_bind {A} Q (m : Handler A) (k : A → (Request → Handler unit) → Handler unit) s :
  refusing m → (∀ a s1, m s = (Ok (inr a), s1) → goes Q (k a) s1) →
  goes Q (λ next, m ≫= λ a, k a next) s.
Proof.
  intros Hm Hk. specialize (Hm s). destruct (m s) as [[[p|a]|e|p] s1] eqn:Hms; simpl in Hm.
  - left. exists (Ok (inl p)), s1. split; [done|]. intros next. by rewrite h_bind_run, Hms.
  - destruct (Hk a s1 eq_refl) as [(result & s' & Href & Hnext)|(r' & s' & HQ & Hnext)].
    + left. exists result, s'. split; [done|]. intros next. by rewrite h_bind_run, Hms.
    + right. exists r', s'. split; [done|]. intros next. by rewrite h_bind_run, Hms.
  - left. exists (Err e), s1. split; [done|]. intros next. by rewrite h_bind_run, Hms.
  - left. exists (Panic p), s1. split; [done|]. intros next. by rewrite h_bind_run, Hms.
Qed.
Lemma goes_next (Q : Request → hstate → Prop) r s : Q r s → goes Q (λ next, next r) s.
Proof. intros HQ. right. by exists r, s. Qed.
Lemma goes_weaken (Q Q' : Request → hstate → Prop) f s :
  (∀ r' s', Q r' s' → Q' r' s') → goes Q f s → goes Q' f s.
Proof. intros HQ [Hend|(r' & s' & H & Hnext)]; [by left|right]. exists r', s'. auto. Qed.
Lemma goes_ends Q f s : ends f s → goes Q f s.
Proof. by left. Qed.

Lemma ends_refusing (m : Handler unit) s :
  (∀ s', (m s).1 ≠ Ok (inr s')) → refusing m → ends (λ _, m) s.
Proof.
  intros Hn Hm. specialize (Hm s). specialize (Hn tt). exists (m s).1, (m s).2.
  split; [|intros _; by destruct (m s)].
  destruct (m s) as [[[p|[]]|e|p] s1]; simpl in *; done.
Qed.
Lemma ends_reply status body s : 300 <= status → ends (λ _, reply status body) s.
Proof. intros ?. apply ends_refusing; [done|by apply refusing_reply]. Qed.

(** ** [ExtractAPIKey] *)

Section authentication.
Context `{!Environment, !UuidText, !Sha256, !TimeText, !OAuth2Configs}.

(** When a key expires: the tokens of a GitHub or OpenID Connect login that have run
    out are refreshed, and the key then lives as long as the new token. *)
Definition key_expires (q : data) (now : time) (key : APIKey) : option time :=
  if (key.(APIKey_LoginType) == LoginTypeGithub) || (key.(APIKey_LoginType) == LoginTypeOIDC) then
    match GetUserLinkByUserIDLoginType
            (mkGetUserLinkByUserIDLoginTypeParams key.(APIKey_UserID) key.(APIKey_LoginType)) q with
    | Ok link =>
        if Before link.(UserLink_OAuthExpiry) now && negb (IsZero link.(UserLink_OAuthExpiry))
           && (link.(UserLink_OAuthRefreshToken) != EmptyString) then
          match (if key.(APIKey_LoginType) == LoginTypeGithub then Github else OIDC) with
          | Some source =>
              match source (mkToken link.(UserLink_OAuthAccessToken) link.(UserLink_OAuthRefreshToken)
                              link.(UserLink_OAuthExpiry)) with
              | Ok token => Some token.(Expiry)
              | _ => None
              end
          | None => None
          end
        else Some key.(APIKey_ExpiresAt)
    | _ => None
    end
  else Some key.(APIKey_ExpiresAt).

(** The token of the request names the stored key [key0] and carries its secret, and
    the key has not expired. *)
Definition presents (r : Request) (s : hstate) (key0 : APIKey) : Prop :=
  ∃ keyID secret expires,
    SplitAPIToken (apiTokenFromRequest r) = Ok (keyID, secret) ∧
    GetAPIKeyByID keyID s.(hs_world).(db) = Ok key0 ∧
    key0.(APIKey_HashedSecret) = sha256_Sum256 (bytes_of secret) ∧
    key_expires s.(hs_world).(db) (database_Now (clock s.(hs_world).(ticks))) key0 = Some expires ∧
    database_Now (clock s.(hs_world).(ticks)) <= expires.
(** The request is authenticated as the user of the stored key [key0], which it
    presents; [key] is what the key became. *)
Definition authenticates (r : Request) (s : hstate) (key0 key : APIKey) : Prop :=
  presents r s key0 ∧ key.(APIKey_ID) = key0.(APIKey_ID) ∧
  key.(APIKey_UserID) = key0.(APIKey_UserID) ∧ key.(APIKey_Scope) = key0.(APIKey_Scope).

Lemma auth_write_refusing {A} cfg r code resp : 300 <= code → refusing (auth_write (A := A) cfg r code resp).
Proof. intros ?. unfold auth_write, RedirectToLogin. destruct (cfg_RedirectToLogin cfg); [refuse|by apply refusing_reply]. Qed.
Lemma auth_write_ends cfg r code resp s : 300 <= code → ends (λ _, auth_write cfg r code resp) s.
Proof.
  intros ?. apply ends_refusing; [|by apply auth_write_refusing].
  intros s'. unfold auth_write. by destruct (cfg_RedirectToLogin cfg).
Qed.

Hint Extern 1 (refusing (auth_write _ _ _ _)) => apply auth_write_refusing; done : refusing.

Lemma refresh_link_refusing cfg r key now : refusing (refresh_link cfg r key now).
Proof. unfold refresh_link. refuse. Qed.
Lemma store_key_refusing cfg r key link : refusing (store_key cfg r key link).
Proof. unfold store_key. refuse. Qed.

(** Refreshing the OAuth token changes when the key expires at most. *)
Lemma refresh_link_key cfg r key now s key' link changed s' :
  refresh_link cfg r key now s = (Ok (inr (key', link, changed)), s') →
  key'.(APIKey_ID) = key.(APIKey_ID) ∧ key'.(APIKey_UserID) = key.(APIKey_UserID) ∧
  key'.(APIKey_Scope) = key.(APIKey_Scope) ∧
  key_expires s.(hs_world).(db) now key = Some key'.(APIKey_ExpiresAt) ∧ s' = s.
Proof.
  unfold refresh_link, key_expires. destruct (_ || _); [|by intros [= <- <- <- <-]].
  rewrite h_bind_run, catch_query. destruct (GetUserLinkByUserIDLoginType _ _); cycle 1;
    [unfold auth_write; by destruct (cfg_RedirectToLogin cfg)|done|].
  destruct (_ && _); [|by intros [= <- <- <- <-]].
  rewrite h_bind_run. unfold get.
  destruct (if APIKey_LoginType key == LoginTypeGithub then Github else OIDC) as [src|]; [|done].
  rewrite h_bind_run, catch_run. unfold lift_res. destruct (src _); cycle 1;
    [unfold auth_write; by destruct (cfg_RedirectToLogin cfg)|done|].
  intros [= <- <- <- <-]. split_and!; try done. by destruct s as [[]].
Qed.

Lemma touch_key_same r now key changed :
  let key' := (touch_key r now key changed).1 in
  key'.(APIKey_ID) = key.(APIKey_ID) ∧ key'.(APIKey_UserID) = key.(APIKey_UserID) ∧
  key'.(APIKey_Scope) = key.(APIKey_Scope).
Proof. unfold touch_key. destruct (_ >? _), (_ <=? _); done. Qed.

(** What the middleware hands over, once the key has been found: an authenticated
    request, or, where the key is optional and has expired, the request itself. *)
Lemma use_key_goes cfg r key0 s :
  let now := database_Now (clock s.(hs_world).(ticks)) in
  goes (λ r' s',
      (∃ key roles expires,
        r' = authenticated r key roles ∧
        key.(APIKey_ID) = key0.(APIKey_ID) ∧ key.(APIKey_UserID) = key0.(APIKey_UserID) ∧
        key.(APIKey_Scope) = key0.(APIKey_Scope) ∧
        key_expires s.(hs_world).(db) now key0 = Some expires ∧ now <= expires ∧
        GetAuthorizationUserRoles key0.(APIKey_UserID) s'.(hs_world).(db) = Ok roles ∧
        roles.(GetAuthorizationUserRolesRow_Status) = UserStatusActive) ∨
      cfg.(cfg_Optional) = true ∧ r' = r ∧ s'.(hs_world).(db) = s.(hs_world).(db) ∧
      ∃ expires, key_expires s.(hs_world).(db) now key0 = Some expires ∧ expires < now)
    (λ next, use_key cfg r next key0) s.
Proof.
  intros now. unfold use_key. apply goes_bind; [refuse|]. intros now' s1 Hnow. injection Hnow as <- <-.
  apply goes_bind; [apply refresh_link_refusing|]. intros [[key1 link] changed1] s2 Hlink.
  apply refresh_link_key in Hlink as (Hid & Huser & Hscope & Hexpires & ->). cbn [hs_world db] in Hexpires.
  fold now in Hexpires |- *. unfold Before.
  destruct (Z.ltb_spec key1.(APIKey_ExpiresAt) now) as [Hexp|Hexp].
  { destruct (cfg_Optional cfg); [|by apply goes_ends, auth_write_ends].
    apply goes_next. right. split_and!; eauto. }
  pose proof (touch_key_same r now key1 changed1) as (Hid' & Huser' & Hscope').
  destruct (touch_key _ _ _ _) as [key changed]. simpl in Hid', Huser', Hscope'.
  apply goes_bind; [destruct changed; [apply store_key_refusing|refuse]|]. intros [] s3 _.
  apply goes_bind; [refuse|]. intros roles s4 Hroles. rewrite catch_query in Hroles.
  destruct (GetAuthorizationUserRoles _ _) as [roles'|e|e] eqn:Hget; [|unfold auth_write in Hroles;
    by destruct (cfg_RedirectToLogin cfg)|done].
  injection Hroles as [= <- <-]. case_bool_decide as Hactive; [|by apply goes_ends, auth_write_ends].
  apply goes_next. left. exists key, roles', key1.(APIKey_ExpiresAt).
  rewrite Huser', Huser in Hget. split_and!; try done; congruence.
Qed.

Lemma GetAPIKeyByID_ID keyID q key : GetAPIKeyByID keyID q = Ok key → key.(APIKey_ID) = keyID.
Proof.
  unfold GetAPIKeyByID, first_row. intros Hkey.
  destruct (find_first_spec (λ k, k.(APIKey_ID) == keyID) q.(apiKeys))
    as [(pre & x & post & _ & _ & Hx & Hf)|[_ Hf]]; rewrite Hf in Hkey; [|done].
  injection Hkey as [= <-]. by apply bool_decide_eq_true in Hx.
Qed.

(** A request that is handed over as it came, since the key is optional. *)
Lemma optional_goes (Q : Request → hstate → Prop) cfg r detail s :
  (cfg.(cfg_Optional) = true → Q r s) →
  goes Q (λ next, if cfg.(cfg_Optional) then next r
                  else auth_write cfg r StatusUnauthorized (with_detail SignedOutErrorMessage detail)) s.
Proof.
  intros HQ. destruct (cfg_Optional cfg); [by apply goes_next, HQ|by apply goes_ends, auth_write_ends].
Qed.

(** C2: what a handler behind [ExtractAPIKey] may rely on, in every configuration. The
    middleware either refuses the request by itself, with a redirect or an error that
    does not depend on the handler, or hands it over in one of two ways. It is
    authenticated: its token names a stored key and carries the secret of the key, the
    user of the key is active, and the key has not expired, where a key of a GitHub or
    OpenID Connect login whose OAuth token has run out counts with the expiry of the
    refreshed token; the identity and the scope the handler sees are those of the
    stored key. Or the configuration makes the key optional, the request presents no
    such key, and it goes on as it came, with the store as it was. *)
Theorem ExtractAPIKey_sound (cfg : ExtractAPIKeyConfig) (r : Request) (s : hstate) :
  goes (λ r' s',
      (∃ key0 key roles,
        authenticates r s key0 key ∧ r' = authenticated r key roles ∧
        GetAuthorizationUserRoles key0.(APIKey_UserID) s'.(hs_world).(db) = Ok roles ∧
        roles.(GetAuthorizationUserRolesRow_Status) = UserStatusActive) ∨
      cfg.(cfg_Optional) = true ∧ r' = r ∧ s'.(hs_world).(db) = s.(hs_world).(db) ∧
      ¬ ∃ key0, presents r s key0)
    (ExtractAPIKey cfg r) s.
Proof.
  unfold ExtractAPIKey. cbv zeta. case_bool_decide as Htoken.
  { apply optional_goes. intros Hopt. right. split_and!; try done.
    intros (key0 & keyID & secret & expires & Hsplit & _). by rewrite Htoken in Hsplit. }
  destruct (SplitAPIToken _) as [[keyID secret]|e|e] eqn:Hsplit;
    [|apply optional_goes; intros Hopt; right; split_and!; try done;
      intros (key0 & keyID & secret & expires & Hsplit' & _); congruence
     |by apply goes_ends, ends_refusing; [|refuse]].
  apply goes_bind; [refuse|]. intros found s1 Hfound.
  unfold attempt_h, on_world, zoom, query in Hfound.
  destruct (GetAPIKeyByID keyID _) as [key0|e|e] eqn:Hkey; simplify_eq/=.
  - case_bool_decide as Hhash; cbn [negb]; cycle 1.
    { apply optional_goes. intros Hopt. right. split_and!; try done.
      intros (key1 & ? & ? & ? & Hsplit' & Hkey' & Hhash' & _). congruence. }
    eapply goes_weaken; [|apply use_key_goes]. cbn [hs_world db ticks].
    intros r' s' [(key & roles & expires & -> & Hid & Huser & Hscope & Hexp & Hlive & Hroles & Hact)|
                  (Hopt & -> & Hdb & expires & Hexp & Hdead)].
    + left. exists key0, key, roles. split; [|done]. split; [|done]. by exists keyID, secret, expires.
    + right. split_and!; try done. intros (key1 & ? & ? & expires' & Hsplit' & Hkey' & _ & Hexp' & Hlive).
      assert (key1 = key0) as -> by congruence. assert (Some expires' = Some expires) as [= ->] by (rewrite <-Hexp'; exact Hexp).
      exact (Z.lt_irrefl _ (Z.lt_le_trans _ _ _ Hdead Hlive)).
  - destruct (errors_Is e ErrNoRows); [|by apply goes_ends, auth_write_ends].
    apply optional_goes. intros Hopt. right. split_and!; try done.
    intros (key1 & ? & ? & ? & Hsplit' & Hkey' & _). congruence.
Qed.
End authentication.

(** ** Keys that were created authenticate *)

(** The token of an ID of 10 characters and a secret of 22 splits back. *)
Lemma SplitAPIToken_token id secret :
  has_char "-" id = false → has_char "-" secret = false →
  String.length id = 10%nat → String.length secret = 22%nat →
  SplitAPIToken (id +:+ "-" +:+ secret) = Ok (id, secret).
Proof.
  intros Hid Hsecret Hlen Hlen'. unfold SplitAPIToken.
  change (id +:+ "-" +:+ secret) with (id +:+ String "-" secret).
  rewrite Split_cons, Split_whole by done. by rewrite Hlen, Hlen'.
Qed.

(** What the generator of key IDs and secrets returns. *)
Lemma random_string_run `{!RandomSource} size pos s pos' :
  cryptorand_String size pos = (Ok s, pos') → String.length s = size ∧ has_char "-" s = false.
Proof.
  intros Hrun. apply StringCharset_run in Hrun as [Hlen Hall]; [|simpl; lia|by vm_compute].
  split; [done|]. rewrite has_char_list, bool_decide_eq_false. intros Hin.
  rewrite Forall_forall in Hall. specialize (Hall _ Hin). revert Hall. clear.
  intros Hin. assert (bool_decide ("-"%char ∈ String.list_ascii_of_string Default) = false) as Hn by by vm_compute.
  by apply bool_decide_eq_false in Hn.
Qed.

Lemma generateAPIKeyIDSecret_run `{!RandomSource} pos id secret pos' :
  generateAPIKeyIDSecret pos = (Ok (id, secret), pos') →
  SplitAPIToken (id +:+ "-" +:+ secret) = Ok (id, secret).
Proof.
  intros Hrun. apply bind_ok in Hrun as (id' & pos1 & Hid & Hrun).
  apply bind_ok in Hrun as (secret' & pos2 & Hsecret & [= <- <- <-]).
  apply random_string_run in Hid as [? ?]. apply random_string_run in Hsecret as [? ?].
  by apply SplitAPIToken_token.
Qed.

(** An update that keeps what a query looks at keeps what the query finds. *)
Lemma update_first_find {A B} (P Q : A → bool) (f : A → A) (proj : A → B) l y l' :
  update_first P f l = Some (y, l') → (∀ x, Q (f x) = Q x) → (∀ x, proj (f x) = proj x) →
  proj <$> find_first Q l' = proj <$> find_first Q l.
Proof.
  intros Hup HQ Hproj. revert l' Hup. induction l as [|x l IH]; intros l'; [done|]. simpl.
  destruct (P x).
  - intros [= <- <-]. simpl. rewrite HQ. destruct (Q x); simpl; [by rewrite Hproj|done].
  - destruct (update_first P f l) as [[z l'']|]; [|done]. intros [= <- <-]. simpl.
    destruct (Q x); [done|]. by apply IH.
Qed.
Lemma find_first_fresh {A} (P : A → bool) l x :
  find_first P l = None → P x = true → find_first P (l ++ [x]) = Some x.
Proof.
  intros Hl Hx. induction l as [|y l IH]; simpl in *; [by rewrite Hx|].
  destruct (P y); [done|]. by apply IH.
Qed.
Lemma update_first_found {A} (P : A → bool) (f : A → A) l x :
  find_first P l = Some x → ∃ l', update_first P f l = Some (f x, l').
Proof.
  induction l as [|y l IH]; [done|]. simpl. destruct (P y).
  - intros [= ->]. by eexists.
  - intros Hx. destruct (IH Hx) as [l' ->]. by eexists.
Qed.
Lemma update_row_ok {A} (tbl : data → list A) `{!Setter tbl} P f q x :
  find_first P (tbl q) = Some x →
  ∃ l, update_first P f (tbl q) = Some (f x, l) ∧
       update_row tbl P f q = (Ok (f x), set_field tbl (λ _, l) q).
Proof.
  intros Hx. destruct (update_first_found P f _ _ Hx) as [l Hl]. exists l.
  split; [done|]. unfold update_row. by rewrite Hl.
Qed.

Section created_keys.
Context `{!Environment, !UuidText, !Sha256, !TimeText, !OAuth2Configs}.

(** Marking a user as seen changes nothing its permissions depend on. *)
Lemma seen_roles id arg user q q' :
  UpdateUserLastSeenAt arg q = (Ok user, q') →
  GetAuthorizationUserRoles id q' = GetAuthorizationUserRoles id q.
Proof.
  unfold UpdateUserLastSeenAt, update_row.
  destruct (update_first _ _ _) as [[y l]|] eqn:Hup; [|done]. intros [= <- <-].
  unfold GetAuthorizationUserRoles. simpl.
  pose proof (update_first_find _ (λ u, u.(User_ID) == id) _
    (λ u, (u.(User_Username), u.(User_Status), u.(User_RBACRoles))) _ _ _ Hup (λ _, eq_refl) (λ _, eq_refl)) as Hf.
  revert Hf. destruct (find_first _ l) as [u|], (find_first _ (users q)) as [u'|]; simpl; try done.
  intros [= -> -> ->]. done.
Qed.

(** Storing a key that is there, of a user that is there. *)
Lemma store_key_run cfg r key link s roles :
  is_Some (find_first (λ k, k.(APIKey_ID) == key.(APIKey_ID)) s.(hs_world).(db).(apiKeys)) →
  link.(UserLink_UserID) = uuid_Nil →
  GetAuthorizationUserRoles key.(APIKey_UserID) s.(hs_world).(db) = Ok roles →
  ∃ s', store_key cfg r key link s = (Ok (inr tt), s') ∧
    GetAuthorizationUserRoles key.(APIKey_UserID) s'.(hs_world).(db) = Ok roles.
Proof.
  intros [k Hk] Hlink Hroles. unfold store_key.
  rewrite h_bind_run, catch_store. unfold UpdateAPIKeyByID. rewrite void_run.
  edestruct (update_row_ok apiKeys (λ k, k.(APIKey_ID) == key.(APIKey_ID))) as (l & _ & ->); [exact Hk|].
  cbv iota beta. rewrite h_bind_run, Hlink. rewrite bool_decide_eq_true_2 by done. cbn [negb].
  cbv iota beta delta [mret H_ret].
  assert (is_Some (find_first (λ u, u.(User_ID) == key.(APIKey_UserID)) s.(hs_world).(db).(users))) as [u Hu].
  { unfold GetAuthorizationUserRoles in Hroles. by destruct (find_first _ (users _)); [eexists|]. }
  rewrite catch_run. set (w := hs_world _).
  unfold Now, time_Now, mbind, gom_bind, mret, gom_ret. cbv beta iota.
  rewrite void_run. unfold store, zoom.
  edestruct (UpdateUserLastSeenAt _ _) as [res q'] eqn:Hseen.
  pose proof Hseen as Hseen'. unfold UpdateUserLastSeenAt in Hseen'.
  lazymatch type of Hseen' with update_row users ?P ?f ?q = _ =>
    destruct (update_row_ok users P f q u Hu) as (l' & _ & Hrow) end.
  rewrite Hrow in Hseen'. injection Hseen' as [= <- <-].
  eexists. split; [done|]. rewrite <-Hroles. apply (seen_roles _ _ _ _ _ Hseen).
Qed.

(** A live key of an active user gets through. *)
Lemma use_key_run cfg r (next : Request → Handler unit) key s roles :
  key.(APIKey_LoginType) ≠ LoginTypeGithub → key.(APIKey_LoginType) ≠ LoginTypeOIDC →
  database_Now (clock s.(hs_world).(ticks)) <= key.(APIKey_ExpiresAt) →
  is_Some (find_first (λ k, k.(APIKey_ID) == key.(APIKey_ID)) s.(hs_world).(db).(apiKeys)) →
  GetAuthorizationUserRoles key.(APIKey_UserID) s.(hs_world).(db) = Ok roles →
  roles.(GetAuthorizationUserRolesRow_Status) = UserStatusActive →
  ∃ key' s', use_key cfg r next key s = next (authenticated r key' roles) s' ∧
    key'.(APIKey_UserID) = key.(APIKey_UserID) ∧ key'.(APIKey_Scope) = key.(APIKey_Scope).
Proof.
  intros Hg Ho Hexp Hk Hroles Hact. unfold use_key.
  set (s1 := s <| hs_world := s.(hs_world) <| ticks := S s.(hs_world).(ticks) |> |>).
  rewrite (h_bind_ok _ _ _ (database_Now (clock s.(hs_world).(ticks))) s1) by done.
  set (now := database_Now _) in *. rewrite (h_bind_ok _ _ _ (key, UserLink_zero, false) s1); last first.
  { unfold refresh_link. by rewrite !bool_decide_eq_false_2 by done. }
  cbv iota beta. replace (Before key.(APIKey_ExpiresAt) now) with false
    by (symmetry; unfold Before; lia).
  pose proof (touch_key_same r now key false) as (Hid & Huser & Hscope).
  destruct (touch_key r now key false) as [key' changed]. simpl in Hid, Huser, Hscope.
  assert (∃ s2, (if changed then store_key cfg r key' UserLink_zero else mret tt) s1 = (Ok (inr tt), s2) ∧
    GetAuthorizationUserRoles key'.(APIKey_UserID) s2.(hs_world).(db) = Ok roles) as (s2 & Hs2 & Hroles2).
  { rewrite <-Huser in Hroles. destruct changed; [|by exists s1].
    apply store_key_run; [by rewrite Hid|done|done]. }
  rewrite (h_bind_ok _ _ _ tt s2 Hs2), (h_bind_ok _ _ _ roles s2) by (by rewrite catch_query, Hroles2).
  rewrite bool_decide_eq_true_2 by done. by exists key', s2.
Qed.

(** When a key made with [params] at a reading of the clock expires. *)
Definition key_expiry (params : createAPIKeyParams) (now : time) : time :=
  if IsZero params.(createAPIKeyParams_ExpiresAt)
  then Add now (if params.(createAPIKeyParams_LifetimeSeconds) != 0
                then seconds params.(createAPIKeyParams_LifetimeSeconds) else 24 * Hour)
  else params.(createAPIKeyParams_ExpiresAt).

(** What creating a key does: the row it stores, and the token. *)
Lemma createAPIKey_run api params w cookie w' :
  createAPIKey api params w = (Ok cookie, w') →
  ∃ id secret key n,
    generateAPIKeyIDSecret w.(randoms) = (Ok (id, secret), n) ∧
    cookie.(Cookie_Name) = SessionTokenKey ∧ cookie.(Cookie_Value) = id +:+ "-" +:+ secret ∧
    w'.(db) = w.(db) <| apiKeys := w.(db).(apiKeys) ++ [key] |> ∧
    key.(APIKey_ID) = id ∧ key.(APIKey_HashedSecret) = sha256_Sum256 (bytes_of secret) ∧
    key.(APIKey_UserID) = params.(createAPIKeyParams_UserID) ∧
    key.(APIKey_LoginType) = params.(createAPIKeyParams_LoginType) ∧
    key.(APIKey_ExpiresAt) = key_expiry params (database_Now (clock w.(ticks))) ∧
    key.(APIKey_Scope) = (if params.(createAPIKeyParams_Scope) != APIKeyScope_other EmptyString
                          then params.(createAPIKeyParams_Scope) else APIKeyScopeAll).
Proof.
  intros Hrun. unfold createAPIKey in Hrun. apply bind_ok in Hrun as ([id secret] & w1 & Hids & Hrun).
  unfold wrap, random, zoom in Hids.
  destruct (generateAPIKeyIDSecret w.(randoms)) as [[ids|e|e] n] eqn:Hgen; [|done..].
  injection Hids as [= -> <-].
  apply bind_ok in Hrun as (expiresAt & w2 & Hexp & Hrun).
  assert (expiresAt = key_expiry params (database_Now (clock w.(ticks))) ∧ w2.(db) = w.(db)) as [-> Hdb].
  { unfold default_expiry, key_expiry in *. destruct (IsZero _); by injection Hexp as [= <- <-]. }
  clear Hexp.
  set (scope := if params.(createAPIKeyParams_Scope) != APIKeyScope_other EmptyString
                then params.(createAPIKeyParams_Scope) else APIKeyScopeAll) in *. exists id, secret.
  destruct scope; [..|done].
  all: apply bind_ok in Hrun as (created & w3 & [= <- <-] & Hrun).
  all: apply bind_ok in Hrun as (updated & w4 & [= <- <-] & Hrun).
  all: apply bind_ok in Hrun as (key & w5 & [= <- <-] & Hrun).
  all: injection Hrun as [= <- <-]; eexists _, n; split_and!; try (rewrite <-Hdb; reflexivity); reflexivity.
Qed.

(** C9: a session of a password login or a token authenticates once it was created. Let
    [createAPIKey] make a key, for a login type other than GitHub and OpenID Connect,
    with an ID that was not in use, for a user that is active. A request that presents
    the token as its session cookie before the key expires then gets through
    [ExtractAPIKey]: the handler runs on a request authenticated as the user the key
    was made for, with the scope it was made with. *)
Theorem createAPIKey_authenticates (api : Options) (params : createAPIKeyParams) (w w' : world)
    (cookie : http_Cookie) (cfg : ExtractAPIKeyConfig) (r : Request) (next : Request → Handler unit)
    (roles : GetAuthorizationUserRolesRow)
    (Hcreate : createAPIKey api params w = (Ok cookie, w'))
    (Hfresh : ∀ id secret n, generateAPIKeyIDSecret w.(randoms) = (Ok (id, secret), n) →
       GetAPIKeyByID id w.(db) = Err ErrNoRows)
    (Hlogin : params.(createAPIKeyParams_LoginType) ≠ LoginTypeGithub ∧
              params.(createAPIKeyParams_LoginType) ≠ LoginTypeOIDC)
    (Hcookie : Cookie r cookie.(Cookie_Name) = Some cookie.(Cookie_Value))
    (Hlive : database_Now (clock w'.(ticks)) <= key_expiry params (database_Now (clock w.(ticks))))
    (Hroles : GetAuthorizationUserRoles params.(createAPIKeyParams_UserID) w.(db) = Ok roles)
    (Hactive : roles.(GetAuthorizationUserRolesRow_Status) = UserStatusActive) :
  ∃ key s',
    ExtractAPIKey cfg r next (mkHState w' [] []) = next (authenticated r key roles) s' ∧
    key.(APIKey_UserID) = params.(createAPIKeyParams_UserID) ∧
    key.(APIKey_Scope) = (if params.(createAPIKeyParams_Scope) != APIKeyScope_other EmptyString
                          then params.(createAPIKeyParams_Scope) else APIKeyScopeAll).
Proof.
  apply createAPIKey_run in Hcreate as
    (id & secret & key & n & Hgen & Hname & Hvalue & Hdb & Hid & Hhash & Huser & Htype & Hexp & Hscope).
  specialize (Hfresh _ _ _ Hgen). apply generateAPIKeyIDSecret_run in Hgen.
  assert (find_first (λ k, k.(APIKey_ID) == id) w'.(db).(apiKeys) = Some key) as Hfind.
  { rewrite Hdb. simpl. apply find_first_fresh; [|by rewrite Hid, bool_decide_eq_true_2].
    unfold GetAPIKeyByID, first_row in Hfresh. by destruct (find_first _ w.(db).(apiKeys)). }
  assert (apiTokenFromRequest r = id +:+ "-" +:+ secret) as Htoken.
  { unfold apiTokenFromRequest. rewrite <-Hname, Hcookie, Hvalue. simpl.
    rewrite bool_decide_eq_false_2; [done|]. by destruct id. }
  unfold ExtractAPIKey. rewrite Htoken, Hgen, bool_decide_eq_false_2 by (by destruct id). cbv zeta iota.
  rewrite (h_bind_ok _ _ _ (inr key) (mkHState w' [] [])); last first.
  { unfold attempt_h, on_world, zoom, query, GetAPIKeyByID, first_row. simpl. by rewrite Hfind. }
  cbv iota beta. rewrite Hhash, bool_decide_eq_true_2 by done. cbn [negb].
  destruct Hlogin as [Hg Ho]. rewrite <-Htype in Hg, Ho.
  destruct (use_key_run cfg r next key (mkHState w' [] []) roles) as (key' & s' & Hrun & Huser' & Hscope').
  - done.
  - done.
  - by rewrite Hexp.
  - rewrite Hid. simpl. by rewrite Hfind.
  - rewrite Huser. simpl. by rewrite Hdb.
  - done.
  - exists key', s'. by rewrite Hrun, Huser', Hscope', Huser, Hscope.
Qed.
End created_keys.

(** ** Concrete runs *)

Module AuthExamples.
Import Scenario.
#[local] Existing Instances text env identity_hash blank_time no_oauth.

Definition cfg : ExtractAPIKeyConfig := mkExtractAPIKeyConfig false false.
Definition UserID_of (r : Request) : option uuid := APIKey_UserID <$> r.(context_APIKey).
Definition token : string := "dddddddddd-jjjjjjjjjjjjjjjjjjjjjj".

(** The token of the member's session is let through, as the member. *)
Lemma ExtractAPIKey_sound_witness : ∃ r' s' key,
  authenticates (with_token token) s member_key key ∧
  (∀ next : Request → Handler unit, ExtractAPIKey cfg (with_token token) next s = next r' s') ∧
  UserID_of r' = Some 7%N.
Proof.
  destruct (ExtractAPIKey_sound cfg (with_token token) s)
    as [(result & s' & Href & Hnext)|(r' & s' & [(key0 & key & roles & Hauth & -> & _)|[Hopt _]] & Hnext)].
  - specialize (Hnext (λ _, mret tt)). vm_compute in Hnext. injection Hnext as [= <- _]. destruct Href.
  - assert (key0 = member_key) as ->.
    { destruct Hauth as [(keyID & secret & expires & Hsplit & Hget & _) _]. vm_compute in Hsplit.
      injection Hsplit as [= <- <-]. vm_compute in Hget. injection Hget as [= <-]. reflexivity. }
    exists (authenticated (with_token token) key roles), s', key. split; [done|]. split; [done|].
    destruct Hauth as (_ & _ & Huser & _). unfold UserID_of. simpl. by rewrite Huser.
  - discriminate Hopt.
Defined.

Definition params : createAPIKeyParams :=
  mkcreateAPIKeyParams 7%N EmptyString LoginTypePassword time_zero 0 APIKeyScopeAll.
Definition made : res http_Cookie * world := createAPIKey api params w.
Definition fresh_token : string := "PPPPPPPPPP-PPPPPPPPPPPPPPPPPPPPPP".

Lemma createAPIKey_authenticates_witness : ∃ key roles s',
  ExtractAPIKey cfg (with_token fresh_token) (λ _, mret tt) (mkHState made.2 [] []) =
    (Ok (inr tt), s') ∧ key.(APIKey_UserID) = 7%N ∧ roles.(GetAuthorizationUserRolesRow_Status) = UserStatusActive.
Proof.
  destruct made as [[cookie| |] w'] eqn:Hmade; [|vm_compute in Hmade; discriminate..].
  destruct (GetAuthorizationUserRoles 7%N q) as [roles| |] eqn:Hroles; [|vm_compute in Hroles; discriminate..].
  assert (roles.(GetAuthorizationUserRolesRow_Status) = UserStatusActive) as Hactive.
  { vm_compute in Hroles. by injection Hroles as [= <-]. }
  destruct (createAPIKey_authenticates api params w w' cookie cfg (with_token fresh_token) (λ _, mret tt) roles)
    as (key & s' & Hrun & Huser & _).
  - exact Hmade.
  - intros id secret n Hgen. vm_compute in Hgen. injection Hgen as [= <- <- _]. vm_compute. reflexivity.
  - split; discriminate.
  - vm_compute in Hmade. injection Hmade as [= <- _]. vm_compute. reflexivity.
  - vm_compute in Hmade. injection Hmade as [= _ <-]. vm_compute. discriminate.
  - exact Hroles.
  - exact Hactive.
  - exists key, roles, s'. split; [exact Hrun|]. split; [exact Huser|exact Hactive].
Defined.
End AuthExamples.
