(* ===== verification/ApiAudit.v ===== *)
(** * The API: the audit log

    [coderd/audit.go]: listing the audit log by a search query, and the entry that
    is made for tests; with the texts of [codersdk/audit.go] and the dates of
    [time.Parse], in the Gregorian calendar. *)

From Stdlib Require Import Ascii.
From stdpp Require Import prelude gmap strings.
From S2P Require Import Prelude Encoding Rbac Models Net Queries ModelMethods Store StoreUsers StoreMisc World.
From S2P Require Import Auditing ProvisionerdServer Sdk Http HttpMw QueryParams Api ApiUsers.

Local Open Scope Z_scope.

(** ** [time.Parse("2006-01-02", s)] *)

Definition is_leap (year : Z) : bool :=
  (year mod 4 =? 0) && (negb (year mod 100 =? 0) || (year mod 400 =? 0)).

Definition days_in (month year : Z) : Z :=
  if month =? 2 then if is_leap year then 29 else 28
  else if (month =? 4) || (month =? 6) || (month =? 9) || (month =? 11) then 30 else 31.

(** The days of a year before a month. *)
Fixpoint days_before_months (n : nat) (year : Z) : Z :=
  match n with
  | O => 0
  | S n => days_before_months n year + days_in (Z.of_nat (S n)) year
  end.

(** The days before a year, from the first of January of the year 1. *)
Definition days_before_year (year : Z) : Z :=
  let y := year - 1 in 365 * y + y / 4 - y / 100 + y / 400.

Definition Date (year month day : Z) : time :=
  (days_before_year year + days_before_months (Z.to_nat (month - 1)) year + (day - 1)) * (24 * Hour).

Definition digit (c : ascii) : option Z :=
  let n := Z.of_nat (nat_of_ascii c) in
  if (48 <=? n) && (n <=? 57) then Some (n - 48) else None.

Fixpoint digits (s : string) (n : Z) : option Z :=
  match s with
  | EmptyString => Some n
  | String c s => d ← digit c; digits s (10 * n + d)
  end.

Definition date_ok (month day year : Z) : bool :=
  (1 <=? month) && (month <=? 12) && (1 <=? day) && (day <=? days_in month year).

Definition ParseDate (s : string) : option time :=
  match s with
  | String y1 (String y2 (String y3 (String y4 (String "-" (String m1 (String m2 (String "-"
      (String d1 (String d2 EmptyString))))))))) =>
      year ← digits (String y1 (String y2 (String y3 (String y4 EmptyString)))) 0;
      month ← digits (String m1 (String m2 EmptyString)) 0;
      day ← digits (String d1 (String d2 EmptyString)) 0;
      if date_ok month day year then Some (Date year month day) else None
  | _ => None
  end.

(** ** The texts of [codersdk/audit.go] *)

Definition ResourceType_FriendlyString (t : ResourceType) : string :=
  match t with
  | ResourceTypeOrganization => "organization"
  | ResourceTypeTemplate => "template"
  | ResourceTypeTemplateVersion => "template version"
  | ResourceTypeUser => "user"
  | ResourceTypeWorkspace => "workspace"
  | ResourceTypeWorkspaceBuild => "workspace build"
  | ResourceTypeGitSshKey => "git ssh key"
  | ResourceTypeApiKey => "api key"
  | ResourceTypeGroup => "group"
  | _ => "unknown"
  end.

Definition AuditAction_FriendlyString (a : AuditAction) : string :=
  match a with
  | AuditActionCreate => "created"
  | AuditActionWrite => "updated"
  | AuditActionDelete => "deleted"
  | AuditActionStart => "started"
  | AuditActionStop => "stopped"
  | _ => "unknown"
  end.

Definition auditLogDescription (alog : GetAuditLogsOffsetRow) : string :=
  let type := alog.(GetAuditLogsOffsetRow_ResourceType) in
  "{user} " +:+ AuditAction_FriendlyString alog.(GetAuditLogsOffsetRow_Action) +:+ " " +:+ ResourceType_FriendlyString type
    +:+ (if type == ResourceTypeWorkspaceBuild then " for" else EmptyString)
    +:+ (if type != ResourceTypeGitSshKey then " {target}" else EmptyString).

(** ** Diffs *)

(** [json.Unmarshal] of a field: a member of the wrong type is skipped. *)
Definition diff_member (x : AuditDiffField) (kj : string * json) : AuditDiffField :=
  let '(k, j) := kj in
  if EqualFold k "old" then x <| AuditDiffField_Old := j |>
  else if EqualFold k "new" then x <| AuditDiffField_New := j |>
  else if EqualFold k "secret" then match j with JBool b => x <| AuditDiffField_Secret := b |> | _ => x end
  else x.
Definition unmarshal_diff_field (j : json) : AuditDiffField :=
  let zero := mkAuditDiffField JNull JNull false in
  match j with JObject fields => foldl diff_member zero fields | _ => zero end.

(** [_ = json.Unmarshal(dblog.Diff, &diff)]: what can be decoded. *)
Definition unmarshal_diff (m : RawMessage) : gmap string AuditDiffField :=
  match raw_json m with
  | Some (JObject fields) => foldl (λ d kj, <[kj.1 := unmarshal_diff_field kj.2]> d) ∅ fields
  | _ => ∅
  end.

(** [netip.AddrFromSlice] *)
Definition AddrFromSlice (ip : bytes) : bytes :=
  if (length ip =? 4)%nat || (length ip =? 16)%nat then ip else [].

Definition audit_user `{!UuidText} (dblog : GetAuditLogsOffsetRow) : option sdkUser :=
  if Valid dblog.(GetAuditLogsOffsetRow_UserUsername) then Some {|
    sdkUser_ID := dblog.(GetAuditLogsOffsetRow_UserID);
    sdkUser_Username := null_val dblog.(GetAuditLogsOffsetRow_UserUsername);
    sdkUser_Email := null_val dblog.(GetAuditLogsOffsetRow_UserEmail);
    sdkUser_CreatedAt := null_val dblog.(GetAuditLogsOffsetRow_UserCreatedAt);
    sdkUser_LastSeenAt := time_zero;
    sdkUser_Status := dblog.(GetAuditLogsOffsetRow_UserStatus);
    sdkUser_OrganizationIDs := [];
    sdkUser_Roles := (λ roleName, convertRole (role_or_zero roleName)) <$> dblog.(GetAuditLogsOffsetRow_UserRoles);
    sdkUser_AvatarURL := null_val dblog.(GetAuditLogsOffsetRow_UserAvatarUrl) |}
  else None.

Definition convertAuditLog `{!UuidText} (dblog : GetAuditLogsOffsetRow) : sdkAuditLog := {|
  sdkAuditLog_ID := dblog.(GetAuditLogsOffsetRow_ID);
  sdkAuditLog_RequestID := dblog.(GetAuditLogsOffsetRow_RequestID);
  sdkAuditLog_Time := dblog.(GetAuditLogsOffsetRow_Time);
  sdkAuditLog_OrganizationID := dblog.(GetAuditLogsOffsetRow_OrganizationID);
  sdkAuditLog_IP := AddrFromSlice dblog.(GetAuditLogsOffsetRow_Ip).(Inet_IP);
  sdkAuditLog_UserAgent := null_val dblog.(GetAuditLogsOffsetRow_UserAgent);
  sdkAuditLog_ResourceType := dblog.(GetAuditLogsOffsetRow_ResourceType);
  sdkAuditLog_ResourceID := dblog.(GetAuditLogsOffsetRow_ResourceID);
  sdkAuditLog_ResourceTarget := dblog.(GetAuditLogsOffsetRow_ResourceTarget);
  sdkAuditLog_ResourceIcon := dblog.(GetAuditLogsOffsetRow_ResourceIcon);
  sdkAuditLog_Action := dblog.(GetAuditLogsOffsetRow_Action);
  sdkAuditLog_Diff := map_to_list (unmarshal_diff dblog.(GetAuditLogsOffsetRow_Diff));
  sdkAuditLog_StatusCode := dblog.(GetAuditLogsOffsetRow_StatusCode);
  sdkAuditLog_AdditionalFields := dblog.(GetAuditLogsOffsetRow_AdditionalFields);
  sdkAuditLog_Description := auditLogDescription dblog;
  sdkAuditLog_User := audit_user dblog |}.

Definition convertAuditLogs `{!UuidText} (dblogs : list GetAuditLogsOffsetRow) : list sdkAuditLog := convertAuditLog <$> dblogs.

(** ** The search query *)

(** A type or an action that is not known is no filter. *)
Definition resourceTypeFromString (s : string) : string :=
  if bool_decide (s ∈ ["organization"; "template"; "template_version"; "user"; "workspace"; "workspace_build";
                       "git_ssh_key"; "api_key"]) then s else EmptyString.
Definition actionFromString (s : string) : string :=
  if bool_decide (s ∈ ["create"; "write"; "delete"]) then s else EmptyString.

Fixpoint audit_search_params (elements : list string) (searchParams : url_Values) : list ValidationError + url_Values :=
  match elements with
  | [] => inr searchParams
  | element :: elements =>
      match splitQueryParameterByDelimiter element ":"%char false with
      | [v] => audit_search_params elements (url_Set "resource_type" v searchParams)
      | [k; v] => audit_search_params elements (url_Set k v searchParams)
      | _ => inl [mkValidationError "q" ("Query element " +:+ quote element +:+ " can only contain 1 ':'")]
      end
  end.

Definition GetAuditLogsOffsetParams_zero : GetAuditLogsOffsetParams :=
  mkGetAuditLogsOffsetParams 0 0 EmptyString uuid_Nil EmptyString EmptyString EmptyString EmptyString time_zero time_zero.

Section audit.
Context `{!UuidText, !TimeText}.

(** A date that does not parse is the zero time. *)
Definition audit_filter (searchParams : url_Values) : GetAuditLogsOffsetParams * list ValidationError :=
  let dateFromString := query_String searchParams EmptyString "date_from" in
  let dateToString := query_String searchParams EmptyString "date_to" in
  let parsedDateFrom := default time_zero (ParseDate dateFromString) in
  let parsedDateTo := default time_zero (ParseDate dateToString) in
  let parsedDateTo := if dateToString != EmptyString
                      then Add parsedDateTo (23 * Hour + 59 * Minute + 59 * Second) else parsedDateTo in
  if (dateToString != EmptyString) && Before parsedDateTo parsedDateFrom then
    (GetAuditLogsOffsetParams_zero,
     [mkValidationError "q" ("DateTo value " +:+ quote (time_String parsedDateTo) +:+ " cannot be before than DateFrom")])
  else
    let '(resourceID, errs) := query_UUID searchParams uuid_Nil "resource_id" in
    (mkGetAuditLogsOffsetParams 0 0
       (resourceTypeFromString (query_String searchParams EmptyString "resource_type")) resourceID EmptyString
       (actionFromString (query_String searchParams EmptyString "action"))
       (query_String searchParams EmptyString "username") (query_String searchParams EmptyString "email")
       parsedDateFrom parsedDateTo, errs).

Definition auditSearchQuery (query : string) : GetAuditLogsOffsetParams * list ValidationError :=
  if query == EmptyString then (GetAuditLogsOffsetParams_zero, []) else
  match audit_search_params (splitQueryParameterByDelimiter (ToLower query) " "%char true) ∅ with
  | inl errs => (GetAuditLogsOffsetParams_zero, errs)
  | inr searchParams => audit_filter searchParams
  end.

(** ** Handlers *)

Context `{!Environment, !Authorizer}.

Definition api_auditLogs (r : Request) : Handler unit :=
  _ ← authorize r ActionRead ResourceAuditLog Forbidden;
  page ← parsePagination r;
  let '(filter, errs) := auditSearchQuery (url_Get r.(URL_Query) "q") in
  _ ← require (errs == []) (Write StatusBadRequest (mkResponse "Invalid audit search query." EmptyString errs));
  dblogs ← catch (query (GetAuditLogsOffset
      (mkGetAuditLogsOffsetParams (int32_wrap page.(sdkPagination_Limit)) (int32_wrap page.(sdkPagination_Offset))
         filter.(GetAuditLogsOffsetParams_ResourceType) filter.(GetAuditLogsOffsetParams_ResourceID) EmptyString
         filter.(GetAuditLogsOffsetParams_Action) filter.(GetAuditLogsOffsetParams_Username)
         filter.(GetAuditLogsOffsetParams_Email) filter.(GetAuditLogsOffsetParams_DateFrom)
         filter.(GetAuditLogsOffsetParams_DateTo)))) InternalServerError;
  match dblogs with
  | [] => reply StatusOK (BodyAuditLogs (mkAuditLogResponse [] 0))
  | dblog :: _ => reply StatusOK (BodyAuditLogs (mkAuditLogResponse (convertAuditLogs dblogs)
                                                   dblog.(GetAuditLogsOffsetRow_Count)))
  end.

(** The diff of the entries for tests. *)
Definition fake_diff : RawMessage :=
  RawValue (JObject [("foo", JObject [("old", JString "bar"); ("new", JString "baz"); ("secret", JBool false)])]).

Definition generateFakeAuditLog `{!Validate CreateTestAuditLogRequest} (r : Request)
    (body : json_body CreateTestAuditLogRequest) : Handler unit :=
  _ ← authorize r ActionRead ResourceAuditLog Forbidden;
  key ← get (httpmw_APIKey r);
  user ← catch (query (GetUserByID key.(APIKey_UserID))) InternalServerError;
  params ← Read body;
  let action := params.(CreateTestAuditLogRequest_Action) in
  let type := params.(CreateTestAuditLogRequest_ResourceType) in
  resourceID ← (if params.(CreateTestAuditLogRequest_ResourceID) == uuid_Nil then run uuid_New
                else mret params.(CreateTestAuditLogRequest_ResourceID));
  now ← (if IsZero params.(CreateTestAuditLogRequest_Time) then run time_Now
         else mret params.(CreateTestAuditLogRequest_Time));
  id ← run uuid_New;
  _ ← catch (store (InsertAuditLog {|
      AuditLog_ID := id;
      AuditLog_Time := now;
      AuditLog_UserID := user.(User_ID);
      AuditLog_OrganizationID := uuid_Nil;
      AuditLog_Ip := parseIP r.(RemoteAddr);
      AuditLog_UserAgent := mkNull r.(UserAgent) true;
      AuditLog_ResourceType := if ResourceType_string type == EmptyString then ResourceTypeUser else type;
      AuditLog_ResourceID := resourceID;
      AuditLog_ResourceTarget := user.(User_Username);
      AuditLog_Action := if AuditAction_string action == EmptyString then AuditActionWrite else action;
      AuditLog_Diff := fake_diff;
      AuditLog_StatusCode := StatusOK;
      AuditLog_AdditionalFields := empty_object;
      AuditLog_RequestID := uuid_Nil;
      AuditLog_ResourceIcon := EmptyString |})) InternalServerError;
  reply StatusNoContent BodyNone.
End audit.
