(* ===== verification/ApiOrgs.v ===== *)
(** * The API: organizations, members and roles

    [coderd/organizations.go], [coderd/members.go] and [coderd/roles.go]. *)

From stdpp Require Import prelude gmap strings.
From S2P Require Import Prelude Rbac Models Queries ModelMethods Store StoreUsers StoreOrgs World.
From S2P Require Import Auditing Sdk Http HttpMw ApiUsers.

Section orgs.
Context `{!Environment, !UuidText, !Authorizer}.
Context `{!Validate CreateOrganizationRequest, !Validate UpdateRoles}.

(** ** [organizations.go] *)

Definition api_organization (r : Request) (organization : Organization) : Handler unit :=
  _ ← authorize r ActionRead (InOrg organization.(Organization_ID) ResourceOrganization) ResourceNotFound;
  reply StatusOK (BodyOrganization (convertOrganization organization)).

(** The body of the transaction: the creator becomes the organization's admin. *)
Definition insert_organization (name : string) (userID : uuid) : GoM world Organization :=
  id ← uuid_New;
  created ← Now;
  updated ← Now;
  organization ← wrap "create organization" (store (InsertOrganization {|
    InsertOrganizationParams_ID := id;
    InsertOrganizationParams_Name := name;
    InsertOrganizationParams_Description := EmptyString;
    InsertOrganizationParams_CreatedAt := created;
    InsertOrganizationParams_UpdatedAt := updated |}));
  memberCreated ← Now;
  memberUpdated ← Now;
  _ ← wrap "create organization admin" (store (InsertOrganizationMember {|
    InsertOrganizationMemberParams_OrganizationID := organization.(Organization_ID);
    InsertOrganizationMemberParams_UserID := userID;
    InsertOrganizationMemberParams_CreatedAt := memberCreated;
    InsertOrganizationMemberParams_UpdatedAt := memberUpdated;
    InsertOrganizationMemberParams_Roles := [RoleOrgAdmin organization.(Organization_ID)] |}));
  _ ← wrap ("create " +:+ quote AllUsersGroup +:+ " group")
    (store (InsertAllUsersGroup organization.(Organization_ID)));
  mret organization.

Definition postOrganizations (r : Request) (body : json_body CreateOrganizationRequest) : Handler unit :=
  apiKey ← get (httpmw_APIKey r);
  _ ← authorize r ActionCreate ResourceOrganization Forbidden;
  req ← Read body;
  let name := req.(CreateOrganizationRequest_Name) in
  existing ← attempt_h (query (GetOrganizationByName name));
  _ ← match existing with
      | inr _ => Write StatusConflict (message "Organization already exists with that name.")
      | inl err => if errors_Is err ErrNoRows then mret tt
                   else internal ("Internal error fetching organization " +:+ quote name +:+ ".") err
      end;
  organization ← catch (insert_organization name apiKey.(APIKey_UserID))
    (internal "Internal error inserting organization member.");
  reply StatusCreated (BodyOrganization (convertOrganization organization)).

(** ** [members.go] *)

Definition convertOrganizationMember (mem : OrganizationMember) : sdkOrganizationMember := {|
  sdkOrganizationMember_UserID := mem.(OrganizationMember_UserID);
  sdkOrganizationMember_OrganizationID := mem.(OrganizationMember_OrganizationID);
  sdkOrganizationMember_CreatedAt := mem.(OrganizationMember_CreatedAt);
  sdkOrganizationMember_UpdatedAt := mem.(OrganizationMember_UpdatedAt);
  sdkOrganizationMember_Roles :=
    (λ roleName, convertRole (role_or_zero roleName)) <$> mem.(OrganizationMember_Roles) |}.

(** Only roles of the organization that exist are accepted. *)
Fixpoint check_org_roles (orgID : uuid) (roles : list string) : res unit :=
  match roles with
  | [] => Ok tt
  | r :: roles =>
      let '(org, ok) := IsOrgRole r in
      if negb ok then Err (ErrNew "must only update organization roles") else
      match uuid_Parse org with
      | None => Err (ErrNew ("Role must have proper UUIDs for organization, " +:+ quote r +:+ " does not"))
      | Some roleOrg =>
          if roleOrg != orgID
          then Err (ErrNew ("Must only pass roles for org " +:+ quote (uuid_String orgID))) else
          match RoleByName r with
          | Ok _ => check_org_roles orgID roles
          | _ => Err (ErrNew (quote r +:+ " is not a supported role"))
          end
      end
  end.

Definition updateOrganizationMemberRoles (args : UpdateMemberRolesParams) : GoM world OrganizationMember :=
  _ ← lift_res (check_org_roles args.(UpdateMemberRolesParams_OrgID) args.(UpdateMemberRolesParams_GrantedRoles));
  wrap "Update site roles" (store (UpdateMemberRoles args)).

Definition putMemberRoles (r : Request) (user : User) (organization : Organization)
    (member : OrganizationMember) (body : json_body UpdateRoles) : Handler unit :=
  apiKey ← get (httpmw_APIKey r);
  actorRoles ← get (UserAuthorization r);
  _ ← require (apiKey.(APIKey_UserID) != member.(OrganizationMember_UserID))
    (Write StatusBadRequest (message "You cannot change your own organization roles."));
  params ← Read body;
  let orgRoles := InOrg organization.(Organization_ID) ResourceOrgRoleAssignment in
  let impliedTypes := params.(UpdateRoles_Roles) ++ [RoleOrgMember organization.(Organization_ID)] in
  let '(added, removed) := ChangeRoleSet member.(OrganizationMember_Roles) impliedTypes in
  _ ← (if added == [] then mret tt else authorize r ActionCreate orgRoles Forbidden);
  _ ← (if removed == ∅ then mret tt else authorize r ActionDelete orgRoles Forbidden);
  _ ← each (added ++ elements removed) (λ roleName,
        require (CanAssignRole actorRoles.(Authorization_Roles) roleName) Forbidden);
  updatedUser ← catch (updateOrganizationMemberRoles {|
      UpdateMemberRolesParams_GrantedRoles := params.(UpdateRoles_Roles);
      UpdateMemberRolesParams_UserID := user.(User_ID);
      UpdateMemberRolesParams_OrgID := organization.(Organization_ID) |})
    (λ err, Write StatusBadRequest (message (error_string err)));
  reply StatusOK (BodyOrganizationMember (convertOrganizationMember updatedUser)).

(** ** [roles.go] *)

(** The roles with a name to show, and whether the actor may assign them. *)
Definition assignableRoles (actorRoles : list string) (roles : list Role) : list AssignableRoles :=
  (λ role, mkAssignableRoles (mksdkRole role.(Role_Name) role.(Role_DisplayName))
             (CanAssignRole actorRoles role.(Role_Name)))
  <$> filter (λ role, role.(Role_DisplayName) ≠ EmptyString) roles.

Definition assignableSiteRoles (r : Request) : Handler unit :=
  actorRoles ← get (UserAuthorization r);
  _ ← authorize r ActionRead ResourceRoleAssignment Forbidden;
  reply StatusOK (BodyAssignableRoles (assignableRoles actorRoles.(Authorization_Roles) SiteRoles)).

Definition assignableOrgRoles (r : Request) (organization : Organization) : Handler unit :=
  actorRoles ← get (UserAuthorization r);
  _ ← authorize r ActionRead (InOrg organization.(Organization_ID) ResourceOrgRoleAssignment) Forbidden;
  reply StatusOK (BodyAssignableRoles
    (assignableRoles actorRoles.(Authorization_Roles) (OrganizationRoles organization.(Organization_ID)))).
End orgs.
