(* ===== verification/ApiMisc.v ===== *)
(** * The API: keys, files, parameters and permission checks

    [coderd/gitsshkey.go], [coderd/files.go], [coderd/parameters.go],
    [coderd/parameter/validate.go], and [checkAuthorization] of
    [coderd/authorize.go]. The parser of HCL expressions is third-party code and a
    parameter. *)

From stdpp Require Import prelude gmap strings.
From S2P Require Import Prelude Encoding Cryptorand Rbac Models Queries ModelMethods.
From S2P Require Import Store StoreUsers StoreOrgs StoreMisc StoreTemplates StoreJobs StoreWorkspaces.
From S2P Require Import World Auditing Sdk Http HttpMw Api.

(** ** [gitsshkey.go] *)

Definition public_key (k : GitSSHKey) : sdkGitSSHKey := {|
  sdkGitSSHKey_UserID := k.(GitSSHKey_UserID);
  sdkGitSSHKey_CreatedAt := k.(GitSSHKey_CreatedAt);
  sdkGitSSHKey_UpdatedAt := k.(GitSSHKey_UpdatedAt);
  sdkGitSSHKey_PublicKey := k.(GitSSHKey_PublicKey) |}.

Section keys.
Context `{!Environment, !UuidText, !Authorizer, !Auditor, !SSHKeygen}.
Context (api : Options).

Definition regenerateGitSSHKey (r : Request) (user : User) : Handler unit :=
  InitRequest r AuditActionWrite (AuditGitSSHKey GitSSHKey_zero) (λ aReq,
    _ ← authorize r ActionUpdate (WithOwner (uuid_String user.(User_ID)) ResourceUserData) ResourceNotFound;
    oldKey ← catch (query (GetGitSSHKey user.(User_ID))) InternalServerError;
    _ ← set_Old aReq (AuditGitSSHKey oldKey);
    keys ← catch (random (Generate api.(SSHKeygenAlgorithm)))
      (internal "Internal error generating a new SSH keypair.");
    now ← run Now;
    newKey ← catch (store (UpdateGitSSHKey (mkUpdateGitSSHKeyParams user.(User_ID) now keys.1 keys.2)))
      (internal "Internal error updating user's git SSH key.");
    _ ← set_New aReq (AuditGitSSHKey newKey);
    reply StatusOK (BodyGitSSHKey (public_key newKey))).

Definition api_gitSSHKey (r : Request) (user : User) : Handler unit :=
  _ ← authorize r ActionRead (WithOwner (uuid_String user.(User_ID)) ResourceUserData) ResourceNotFound;
  key ← catch (query (GetGitSSHKey user.(User_ID))) (internal "Internal error fetching user's SSH key.");
  reply StatusOK (BodyGitSSHKey (public_key key)).

(** The key of the owner of the workspace the agent runs in. *)
Definition agentGitSSHKey (agent : WorkspaceAgent) : Handler unit :=
  resource ← catch (query (GetWorkspaceResourceByID agent.(WorkspaceAgent_ResourceID)))
    (internal "Internal error fetching workspace resource.");
  job ← catch (query (GetWorkspaceBuildByJobID resource.(WorkspaceResource_JobID)))
    (internal "Internal error fetching workspace build.");
  workspace ← catch (query (GetWorkspaceByID job.(WorkspaceBuild_WorkspaceID)))
    (internal "Internal error fetching workspace.");
  key ← catch (query (GetGitSSHKey workspace.(Workspace_OwnerID)))
    (internal "Internal error fetching git SSH key.");
  reply StatusOK (BodyAgentGitSSHKey (mkAgentGitSSHKey key.(GitSSHKey_PublicKey) key.(GitSSHKey_PrivateKey))).
End keys.

(** ** [files.go] *)

(** [10*(10<<20)] bytes, the most a request may carry. *)
Definition max_file_size : Z := 10 * Z.shiftl 10 20.
(** [io.ReadAll] of a body limited by [http.MaxBytesReader]. *)
Definition read_limited (body : error + bytes) : res bytes :=
  match body with
  | inl e => Err e
  | inr data => if (max_file_size <? Z.of_nat (length data))%Z
                then Err (ErrNew "http: request body too large") else Ok data
  end.

Section files.
Context `{!Environment, !UuidText, !Authorizer, !Sha256}.

(** A file a user uploads twice is stored once. *)
Definition postFile (r : Request) (body : error + bytes) : Handler unit :=
  apiKey ← get (httpmw_APIKey r);
  let userID := apiKey.(APIKey_UserID) in
  _ ← authorize r ActionCreate (WithOwner (uuid_String userID) ResourceFile) Forbidden;
  let contentType := Header_Get r "Content-Type" in
  _ ← require (contentType == "application/x-tar") (Write StatusBadRequest
        (message ("Unsupported content type header " +:+ quote contentType +:+ ".")));
  data ← catch (lift_res (read_limited body))
    (λ err, Write StatusBadRequest (with_detail "Failed to read file from request." (error_string err)));
  let hash := hex_EncodeToString (sha256_Sum256 data) in
  existing ← attempt_h (query (GetFileByHashAndCreator (mkGetFileByHashAndCreatorParams hash userID)));
  match existing with
  | inr file => reply StatusOK (BodyUpload (mkUploadResponse file.(File_ID)))
  | inl _ =>
      id ← run uuid_New;
      now ← run Now;
      file ← catch (store (InsertFile (mkInsertFileParams id hash now userID contentType data)))
        (internal "Internal error saving file.");
      reply StatusCreated (BodyUpload (mkUploadResponse file.(File_ID)))
  end.

Definition fileByID (r : Request) : Handler unit :=
  let fileID := URLParam r "fileID" in
  if fileID == EmptyString then Write StatusBadRequest (message "File id must be provided in url.") else
  match uuid_Parse fileID with
  | None => Write StatusBadRequest (message "File id must be a valid UUID.")
  | Some id =>
      file ← catch (query (GetFileByID id)) (not_found_or "Internal error fetching file.");
      _ ← authorize r ActionRead (WithOwner (uuid_String file.(File_CreatedBy)) ResourceFile) ResourceNotFound;
      reply StatusOK (BodyFile file.(File_Mimetype) file.(File_Data))
  end.
End files.

(** ** [parameters.go] *)

(** A parsed HCL expression: a call, whose arguments evaluate to a list of values
    or fail, or something else. A value that is not a string is [None]. *)
Inductive hcl_Expression :=
| FunctionCallExpr (name : string) (args : list (error + list (option string)))
| OtherExpr.
Class Hcl := hcl_ParseExpression : string → error + hcl_Expression.

(** The strings a condition of the form [contains([...], value)] allows. *)
Definition parameter_Contains `{!Hcl} (condition : string) : res (list string * bool) :=
  if condition == EmptyString then Ok ([], false) else
  match hcl_ParseExpression condition with
  | inl e => Err (ErrWrap "parse condition" e)
  | inr (FunctionCallExpr name (arg0 :: _ :: _)) =>
      if name != "contains" then Ok ([], false) else
      match arg0 with
      | inl e => Err (ErrWrap "parse value" e)
      | inr values => Ok (sort_by string_lt (omap id values), true)
      end
  | inr _ => Ok ([], false)
  end.

Definition convertParameterSchema `{!Hcl} (s : ParameterSchema) : res sdkParameterSchema :=
  contains ←
    (if s.(ParameterSchema_ValidationCondition) != EmptyString then
       match parameter_Contains s.(ParameterSchema_ValidationCondition) with
       | Ok (contains, _) => Ok contains
       | Err e => Err (ErrWrap ("parse validation condition for " +:+ quote s.(ParameterSchema_Name)) e)
       | Panic p => Panic p
       end
     else Ok []);
  Ok {|
    sdkParameterSchema_ID := s.(ParameterSchema_ID);
    sdkParameterSchema_CreatedAt := s.(ParameterSchema_CreatedAt);
    sdkParameterSchema_JobID := s.(ParameterSchema_JobID);
    sdkParameterSchema_Name := s.(ParameterSchema_Name);
    sdkParameterSchema_Description := s.(ParameterSchema_Description);
    sdkParameterSchema_DefaultSourceScheme := s.(ParameterSchema_DefaultSourceScheme);
    sdkParameterSchema_DefaultSourceValue := s.(ParameterSchema_DefaultSourceValue);
    sdkParameterSchema_AllowOverrideSource := s.(ParameterSchema_AllowOverrideSource);
    sdkParameterSchema_DefaultDestinationScheme := s.(ParameterSchema_DefaultDestinationScheme);
    sdkParameterSchema_AllowOverrideDestination := s.(ParameterSchema_AllowOverrideDestination);
    sdkParameterSchema_DefaultRefresh := s.(ParameterSchema_DefaultRefresh);
    sdkParameterSchema_RedisplayValue := s.(ParameterSchema_RedisplayValue);
    sdkParameterSchema_ValidationError := s.(ParameterSchema_ValidationError);
    sdkParameterSchema_ValidationCondition := s.(ParameterSchema_ValidationCondition);
    sdkParameterSchema_ValidationTypeSystem :=
      ParameterTypeSystem_string s.(ParameterSchema_ValidationTypeSystem);
    sdkParameterSchema_ValidationValueType := s.(ParameterSchema_ValidationValueType);
    sdkParameterSchema_ValidationContains := contains |}.

(** The value itself is not shown. *)
Definition convertParameterValue (v : ParameterValue) : sdkParameter := {|
  sdkParameter_ID := v.(ParameterValue_ID);
  sdkParameter_Scope := v.(ParameterValue_Scope);
  sdkParameter_ScopeID := v.(ParameterValue_ScopeID);
  sdkParameter_Name := v.(ParameterValue_Name);
  sdkParameter_SourceScheme := v.(ParameterValue_SourceScheme);
  sdkParameter_DestinationScheme := v.(ParameterValue_DestinationScheme);
  sdkParameter_CreatedAt := v.(ParameterValue_CreatedAt);
  sdkParameter_UpdatedAt := v.(ParameterValue_UpdatedAt) |}.

Section parameters.
Context `{!Environment, !UuidText, !Authorizer, !Validate CreateParameterRequest}.

Definition readScopeAndID (r : Request) : Handler (ParameterScope * uuid) :=
  let scope := ParameterScope_of_string (URLParam r "scope") in
  _ ← match scope with
      | ParameterScope_other s =>
          Write StatusBadRequest (mkResponse ("Invalid scope " +:+ quote s +:+ ".") EmptyString
            [mkValidationError "scope" "invalid scope"])
      | _ => mret tt
      end;
  let id := URLParam r "id" in
  match uuid_Parse id with
  | None => Write StatusBadRequest (mkResponse ("Invalid UUID " +:+ quote id +:+ ".") "invalid UUID"
              [mkValidationError "id" "Invalid UUID"])
  | Some uid => mret (scope, uid)
  end.

(** The object a parameter belongs to: the workspace or template of its scope, or
    the template of the version an import job is for. *)
Definition scope_resource (scope : ParameterScope) (scopeID : uuid) (q : data) : res Object :=
  match scope with
  | ParameterScopeWorkspace => Workspace_RBACObject <$> GetWorkspaceByID scopeID q
  | ParameterScopeImportJob =>
      version ← GetTemplateVersionByJobID scopeID q;
      template ← GetTemplateByID (null_val version.(TemplateVersion_TemplateID)) q;
      Ok (TemplateVersion_RBACObject version template)
  | ParameterScopeTemplate => Template_RBACObject <$> GetTemplateByID scopeID q
  | ParameterScope_other s => Err (ErrNew ("Parameter scope " +:+ quote s +:+ " unsupported"))
  end.

Definition parameterRBACResource (scope : ParameterScope) (scopeID : uuid) : Handler Object :=
  catch (query (scope_resource scope scopeID))
    (λ err, if errors_Is err ErrNoRows
            then Write StatusNotFound (message ("Scope " +:+ quote (ParameterScope_string scope)
                   +:+ " resource " +:+ quote (uuid_String scopeID) +:+ " not found."))
            else Write StatusBadRequest (message (error_string err))).

Definition postParameter (r : Request) (body : json_body CreateParameterRequest) : Handler unit :=
  scoped ← readScopeAndID r;
  let '(scope, scopeID) := scoped in
  obj ← parameterRBACResource scope scopeID;
  _ ← authorize r ActionUpdate obj ResourceNotFound;
  createRequest ← Read body;
  let name := createRequest.(CreateParameterRequest_Name) in
  existing ← attempt_h (query (GetParameterValueByScopeAndName
    (mkGetParameterValueByScopeAndNameParams scope scopeID name)));
  _ ← match existing with
      | inr _ => Write StatusConflict (message ("Parameter already exists in scope "
                   +:+ quote (ParameterScope_string scope) +:+ " and name " +:+ quote name +:+ "."))
      | inl err => if errors_Is err ErrNoRows then mret tt
                   else internal "Internal error fetching parameter." err
      end;
  id ← run uuid_New;
  created ← run Now;
  updated ← run Now;
  parameterValue ← catch (store (InsertParameterValue {|
      InsertParameterValueParams_ID := id;
      InsertParameterValueParams_Name := name;
      InsertParameterValueParams_CreatedAt := created;
      InsertParameterValueParams_UpdatedAt := updated;
      InsertParameterValueParams_Scope := scope;
      InsertParameterValueParams_ScopeID := scopeID;
      InsertParameterValueParams_SourceScheme := createRequest.(CreateParameterRequest_SourceScheme);
      InsertParameterValueParams_SourceValue := createRequest.(CreateParameterRequest_SourceValue);
      InsertParameterValueParams_DestinationScheme :=
        createRequest.(CreateParameterRequest_DestinationScheme) |}))
    (internal "Internal error inserting parameter.");
  reply StatusCreated (BodyParameter (convertParameterValue parameterValue)).

Definition api_parameters (r : Request) : Handler unit :=
  scoped ← readScopeAndID r;
  let '(scope, scopeID) := scoped in
  obj ← parameterRBACResource scope scopeID;
  _ ← authorize r ActionRead obj ResourceNotFound;
  parameterValues ← catch (query (ParameterValues (mkParameterValuesParams [scope] [scopeID] [] [])))
    (λ err, if errors_Is err ErrNoRows then mret []
            else internal "Internal error fetching parameter scope values." err);
  reply StatusOK (BodyParameters (convertParameterValue <$> parameterValues)).

Definition deleteParameter (r : Request) : Handler unit :=
  scoped ← readScopeAndID r;
  let '(scope, scopeID) := scoped in
  obj ← parameterRBACResource scope scopeID;
  _ ← authorize r ActionUpdate obj ResourceNotFound;
  parameterValue ← catch (query (GetParameterValueByScopeAndName
      (mkGetParameterValueByScopeAndNameParams scope scopeID (URLParam r "name"))))
    (not_found_or "Internal error fetching parameter.");
  _ ← catch (store (DeleteParameterValueByID parameterValue.(ParameterValue_ID)))
    (internal "Internal error deleting parameter.");
  Write StatusOK (message "Parameter deleted.").
End parameters.

(** ** [checkAuthorization] *)

Section check.
Context `{!Environment, !UuidText, !Authorizer, !Validate AuthorizationRequest}.

Definition maxFetch : nat := 10.

(** The object of a check named by its ID: [None] when it is not there. *)
Definition check_object (resourceType : string) (id : uuid) : option (data → res Object) :=
  if resourceType == ResourceWorkspaceExecution.(Object_Type)
  then Some (λ q, Workspace_ExecutionRBAC <$> GetWorkspaceByID id q)
  else if resourceType == ResourceWorkspace.(Object_Type)
  then Some (λ q, Workspace_RBACObject <$> GetWorkspaceByID id q)
  else if resourceType == ResourceTemplate.(Object_Type)
  then Some (λ q, Template_RBACObject <$> GetTemplateByID id q)
  else if resourceType == ResourceUser.(Object_Type)
  then Some (λ q, User_RBACObject <$> GetUserByID id q)
  else if resourceType == ResourceGroup.(Object_Type)
  then Some (λ q, Group_RBACObject <$> GetGroupByID id q)
  else None.

(** One entry of the response. *)
Definition check_one (auth : Authorization) (k : string) (v : AuthorizationCheck) :
    Handler bool :=
  let o := v.(AuthorizationCheck_Object) in
  _ ← require (o.(AuthorizationObject_ResourceType) != EmptyString) (Write StatusBadRequest
        (message ("Object's " +:+ quote "resource_type" +:+ " field must be defined for key "
           +:+ quote k +:+ ".")));
  let plain := mkObject
    (if o.(AuthorizationObject_OwnerID) == "me" then uuid_String auth.(Authorization_ID)
     else o.(AuthorizationObject_OwnerID))
    o.(AuthorizationObject_OrganizationID) o.(AuthorizationObject_ResourceType) ∅ ∅ in
  obj ←
    (if o.(AuthorizationObject_ResourceID) == EmptyString then mret (Some plain) else
     match uuid_Parse o.(AuthorizationObject_ResourceID) with
     | None => Write StatusBadRequest (mkResponse ("Object "
                 +:+ quote o.(AuthorizationObject_ResourceID) +:+ " id is not a valid uuid.") EmptyString
                 [mkValidationError "resource_id" "invalid UUID"])
     | Some id =>
         match check_object o.(AuthorizationObject_ResourceType) id with
         | None =>
             let msg := "Object type " +:+ quote o.(AuthorizationObject_ResourceType)
                        +:+ " does not support " +:+ quote "resource_id" +:+ " field." in
             Write StatusBadRequest (mkResponse msg EmptyString [mkValidationError "resource_type" msg])
         | Some fetch =>
             dbObj ← attempt_h (query fetch);
             mret (match dbObj with inr obj => Some obj | inl _ => None end)
         end
     end);
  match obj with
  | None => mret false
  | Some obj =>
      scope ← get (ToRBAC auth.(Authorization_Scope));
      get (match ByRoleName (uuid_String auth.(Authorization_ID)) auth.(Authorization_Roles) scope
                   auth.(Authorization_Groups) v.(AuthorizationCheck_Action) obj with
           | Ok _ => Ok true
           | Err _ => Ok false
           | Panic p => Panic p
           end)
  end.

Fixpoint check_all (auth : Authorization) (checks : list (string * AuthorizationCheck)) :
    Handler (gmap string bool) :=
  match checks with
  | [] => mret ∅
  | (k, v) :: checks =>
      ok ← check_one auth k v;
      rest ← check_all auth checks;
      mret (<[k := ok]> rest)
  end.

(** Which of the named permissions the caller has. *)
Definition checkAuthorization (r : Request) (body : json_body AuthorizationRequest) : Handler unit :=
  auth ← get (UserAuthorization r);
  params ← Read body;
  _ ← get (httpmw_APIKey r);
  let checks := map_to_list params.(AuthorizationRequest_Checks) in
  let idFetch := length (filter (λ kv,
    kv.2.(AuthorizationCheck_Object).(AuthorizationObject_ResourceID) ≠ EmptyString) checks) in
  _ ← require (Nat.leb idFetch maxFetch) (Write StatusBadRequest (message
        ("Endpoint only supports using " +:+ quote "resource_id" +:+ " field "
         +:+ Itoa (Z.of_nat maxFetch) +:+ " times, found " +:+ Itoa (Z.of_nat idFetch)
         +:+ " usages. Remove " +:+ Itoa (Z.of_nat (idFetch - maxFetch)) +:+ " objects with this field set.")));
  response ← check_all auth checks;
  reply StatusOK (BodyAuthorization response).
End check.
