(* ===== verification/ApiJobs.v ===== *)
(** * The API: provisioner jobs, resources and agents as they are shown

    The conversions of [coderd/provisionerjobs.go], [coderd/workspaceagents.go]
    and [coderd/workspacebuilds.go] to the public types, and the two job handlers
    that do not stream. What a job or an agent is shown as depends on the clock.
    The tailnet coordinator is an interface of the server and a parameter, with
    the DERP map; so is the product of a [float64] by 1000. *)

From Stdlib Require Import Ascii.
From stdpp Require Import prelude gmap strings.
From S2P Require Import Prelude Coordinator Encoding Rbac Models Queries ModelMethods Store StoreJobs.
From S2P Require Import StoreWorkspaces World ProvisionerdServer Sdk Http Api.

Local Open Scope Z_scope.

Class Tailnet := {
  coordinator_Node : uuid → option Node;
  (** [derpMap.Regions]: the name of a region. *)
  derp_RegionName : Z → option string;
  latency_times_1000 : json → json;
}.

(** A nullable column as a pointer. *)
Definition ptr_of {A} (n : nullable A) : option A := if Valid n then Some (null_val n) else None.

(** ** [provisionerjobs.go] *)

Section jobs.
Context `{!Environment}.

(** The clock is read for a job that is running only. *)
Definition ConvertProvisionerJobStatus (job : ProvisionerJob) : GoM world ProvisionerJobStatus :=
  if Valid job.(ProvisionerJob_CanceledAt) then
    if negb (Valid job.(ProvisionerJob_CompletedAt)) then mret ProvisionerJobCanceling
    else if null_val job.(ProvisionerJob_Error) == EmptyString then mret ProvisionerJobCanceled
    else mret ProvisionerJobFailed
  else if negb (Valid job.(ProvisionerJob_StartedAt)) then mret ProvisionerJobPending
  else if Valid job.(ProvisionerJob_CompletedAt) then
    if null_val job.(ProvisionerJob_Error) == EmptyString then mret ProvisionerJobSucceeded
    else mret ProvisionerJobFailed
  else
    now ← Now;
    mret (if 30 * Second <? Sub now job.(ProvisionerJob_UpdatedAt)
          then ProvisionerJobFailed else ProvisionerJobRunning).

Definition convertProvisionerJob (job : ProvisionerJob) : GoM world sdkProvisionerJob :=
  status ← ConvertProvisionerJobStatus job;
  mret {|
    sdkProvisionerJob_ID := job.(ProvisionerJob_ID);
    sdkProvisionerJob_CreatedAt := job.(ProvisionerJob_CreatedAt);
    sdkProvisionerJob_StartedAt := ptr_of job.(ProvisionerJob_StartedAt);
    sdkProvisionerJob_CompletedAt := ptr_of job.(ProvisionerJob_CompletedAt);
    sdkProvisionerJob_CanceledAt := ptr_of job.(ProvisionerJob_CanceledAt);
    sdkProvisionerJob_Error := null_val job.(ProvisionerJob_Error);
    sdkProvisionerJob_Status := status;
    sdkProvisionerJob_WorkerID := ptr_of job.(ProvisionerJob_WorkerID);
    sdkProvisionerJob_FileID := job.(ProvisionerJob_FileID);
    sdkProvisionerJob_Tags := job.(ProvisionerJob_Tags) |}.
End jobs.

Definition convertProvisionerJobLog (log : ProvisionerJobLog) : sdkProvisionerJobLog := {|
  sdkProvisionerJobLog_ID := log.(ProvisionerJobLog_ID);
  sdkProvisionerJobLog_CreatedAt := log.(ProvisionerJobLog_CreatedAt);
  sdkProvisionerJobLog_Source := log.(ProvisionerJobLog_Source);
  sdkProvisionerJobLog_Level := log.(ProvisionerJobLog_Level);
  sdkProvisionerJobLog_Stage := log.(ProvisionerJobLog_Stage);
  sdkProvisionerJobLog_Output := log.(ProvisionerJobLog_Output) |}.

Definition convertProvisionerJobLogs (logs : list ProvisionerJobLog) : list sdkProvisionerJobLog :=
  convertProvisionerJobLog <$> logs.

(** ** [workspaceagents.go] *)

Definition convertApps (dbApps : list WorkspaceApp) : list sdkWorkspaceApp :=
  (λ dbApp, {|
    sdkWorkspaceApp_ID := dbApp.(WorkspaceApp_ID);
    sdkWorkspaceApp_Slug := dbApp.(WorkspaceApp_Slug);
    sdkWorkspaceApp_DisplayName := dbApp.(WorkspaceApp_DisplayName);
    sdkWorkspaceApp_Command := null_val dbApp.(WorkspaceApp_Command);
    sdkWorkspaceApp_Icon := dbApp.(WorkspaceApp_Icon);
    sdkWorkspaceApp_Subdomain := dbApp.(WorkspaceApp_Subdomain);
    sdkWorkspaceApp_SharingLevel := dbApp.(WorkspaceApp_SharingLevel);
    sdkWorkspaceApp_Healthcheck := mksdkHealthcheck dbApp.(WorkspaceApp_HealthcheckUrl)
      dbApp.(WorkspaceApp_HealthcheckInterval) dbApp.(WorkspaceApp_HealthcheckThreshold);
    sdkWorkspaceApp_Health := dbApp.(WorkspaceApp_Health) |}) <$> dbApps.

Section agents.
Context `{!Environment, !Tailnet}.
Context (api : Options).

Definition agent_envs (dbAgent : WorkspaceAgent) : res (gmap string string) :=
  let v := dbAgent.(WorkspaceAgent_EnvironmentVariables) in
  if Valid v then
    match null_val v with
    | RawValue JNull => Ok ∅
    | RawValue (JObject fields) =>
        match unmarshal_tags fields ∅ with
        | Err e => Err (ErrWrap "unmarshal env vars" e)
        | tags => tags
        end
    | _ => Err (ErrWrap "unmarshal env vars" errUnmarshal)
    end
  else Ok ∅.

(** The latencies of a node by the name of the region; a region that is not in
    the map has a made-up name. *)
Fixpoint derp_latency (preferred : Z) (latencies : list (string * json)) (m : gmap string DERPRegion) :
    res (gmap string DERPRegion) :=
  match latencies with
  | [] => Ok m
  | (rawRegion, latency) :: latencies =>
      match Atoi (default EmptyString (head (SplitN 2 rawRegion "-"%char))) with
      | Ok regionID =>
          let name := default ("Unnamed " +:+ Itoa regionID) (derp_RegionName regionID) in
          derp_latency preferred latencies
            (<[name := mkDERPRegion (preferred == regionID) (latency_times_1000 latency)]> m)
      | Err e => Err (ErrWrap ("convert derp region id " +:+ quote rawRegion) e)
      | Panic p => Panic p
      end
  end.

(** The connection status of an agent, and when it was disconnected. *)
Definition agent_status (dbAgent : WorkspaceAgent) : GoM world (WorkspaceAgentStatus * option time) :=
  let connectionTimeout := seconds dbAgent.(WorkspaceAgent_ConnectionTimeoutSeconds) in
  let first := dbAgent.(WorkspaceAgent_FirstConnectedAt) in
  let lastConnected := dbAgent.(WorkspaceAgent_LastConnectedAt) in
  let disconnected := dbAgent.(WorkspaceAgent_DisconnectedAt) in
  if negb (Valid first) then
    if 0 <? connectionTimeout then
      now ← Now;
      mret (if connectionTimeout <? Sub now dbAgent.(WorkspaceAgent_CreatedAt)
            then WorkspaceAgentTimeout else WorkspaceAgentConnecting, ptr_of disconnected)
    else mret (WorkspaceAgentConnecting, ptr_of disconnected)
  else if After (null_val disconnected) (null_val lastConnected) then
    mret (WorkspaceAgentDisconnected, ptr_of disconnected)
  else
    now ← Now;
    mret (if api.(AgentInactiveDisconnectTimeout) <? Sub now (null_val lastConnected)
          then (WorkspaceAgentDisconnected, Some (null_val lastConnected))
          else if Valid lastConnected then (WorkspaceAgentConnected, ptr_of disconnected)
          else (WorkspaceAgentStatus_other EmptyString, ptr_of disconnected)).

Definition convertWorkspaceAgent (dbAgent : WorkspaceAgent) (apps : list sdkWorkspaceApp) :
    GoM world sdkWorkspaceAgent :=
  envs ← lift_res (agent_envs dbAgent);
  latency ← lift_res (match coordinator_Node dbAgent.(WorkspaceAgent_ID) with
                      | None => Ok ∅
                      | Some node => derp_latency node.(Node_PreferredDERP) node.(Node_DERPLatency) ∅
                      end);
  status ← agent_status dbAgent;
  mret {|
    sdkWorkspaceAgent_ID := dbAgent.(WorkspaceAgent_ID);
    sdkWorkspaceAgent_CreatedAt := dbAgent.(WorkspaceAgent_CreatedAt);
    sdkWorkspaceAgent_UpdatedAt := dbAgent.(WorkspaceAgent_UpdatedAt);
    sdkWorkspaceAgent_FirstConnectedAt := ptr_of dbAgent.(WorkspaceAgent_FirstConnectedAt);
    sdkWorkspaceAgent_LastConnectedAt := ptr_of dbAgent.(WorkspaceAgent_LastConnectedAt);
    sdkWorkspaceAgent_DisconnectedAt := status.2;
    sdkWorkspaceAgent_Status := status.1;
    sdkWorkspaceAgent_Name := dbAgent.(WorkspaceAgent_Name);
    sdkWorkspaceAgent_ResourceID := dbAgent.(WorkspaceAgent_ResourceID);
    sdkWorkspaceAgent_InstanceID := null_val dbAgent.(WorkspaceAgent_AuthInstanceID);
    sdkWorkspaceAgent_Architecture := dbAgent.(WorkspaceAgent_Architecture);
    sdkWorkspaceAgent_EnvironmentVariables := envs;
    sdkWorkspaceAgent_OperatingSystem := dbAgent.(WorkspaceAgent_OperatingSystem);
    sdkWorkspaceAgent_StartupScript := null_val dbAgent.(WorkspaceAgent_StartupScript);
    sdkWorkspaceAgent_Directory := dbAgent.(WorkspaceAgent_Directory);
    sdkWorkspaceAgent_Version := dbAgent.(WorkspaceAgent_Version);
    sdkWorkspaceAgent_Apps := apps;
    sdkWorkspaceAgent_DERPLatency := latency;
    sdkWorkspaceAgent_ConnectionTimeoutSeconds := dbAgent.(WorkspaceAgent_ConnectionTimeoutSeconds);
    sdkWorkspaceAgent_TroubleshootingURL :=
      if dbAgent.(WorkspaceAgent_TroubleshootingURL) != EmptyString
      then dbAgent.(WorkspaceAgent_TroubleshootingURL) else api.(AgentFallbackTroubleshootingURL) |}.

(** ** Resources *)

Definition implicit_metadata (resource : WorkspaceResource) : WorkspaceResourceMetadatum :=
  mkWorkspaceResourceMetadatum uuid_Nil "type" (mkNull resource.(WorkspaceResource_Type) true) false.

(** The metadata by key, the type first: an explicit field overrides it. Fields
    without a value are left out; the keys are sorted. *)
Definition convert_metadata (resource : WorkspaceResource) (metadata : list WorkspaceResourceMetadatum) :
    list sdkWorkspaceResourceMetadata :=
  let metadataMap := foldl (λ m field, <[field.(WorkspaceResourceMetadatum_Key) := field]> m)
                       {["type" := implicit_metadata resource]} metadata in
  sort_by (λ a b, string_lt a.(sdkWorkspaceResourceMetadata_Key) b.(sdkWorkspaceResourceMetadata_Key))
    ((λ field, mksdkWorkspaceResourceMetadata field.(WorkspaceResourceMetadatum_Key)
        (null_val field.(WorkspaceResourceMetadatum_Value)) field.(WorkspaceResourceMetadatum_Sensitive))
     <$> filter (λ field, Valid field.(WorkspaceResourceMetadatum_Value) = true)
           (map_to_list (metadataMap : gmap string WorkspaceResourceMetadatum)).*2).

Definition convertWorkspaceResource (resource : WorkspaceResource) (agents : list sdkWorkspaceAgent)
    (metadata : list WorkspaceResourceMetadatum) : sdkWorkspaceResource := {|
  sdkWorkspaceResource_ID := resource.(WorkspaceResource_ID);
  sdkWorkspaceResource_CreatedAt := resource.(WorkspaceResource_CreatedAt);
  sdkWorkspaceResource_JobID := resource.(WorkspaceResource_JobID);
  sdkWorkspaceResource_Transition := resource.(WorkspaceResource_Transition);
  sdkWorkspaceResource_Type := resource.(WorkspaceResource_Type);
  sdkWorkspaceResource_Name := resource.(WorkspaceResource_Name);
  sdkWorkspaceResource_Hide := resource.(WorkspaceResource_Hide);
  sdkWorkspaceResource_Icon := resource.(WorkspaceResource_Icon);
  sdkWorkspaceResource_Agents := agents;
  sdkWorkspaceResource_Metadata := convert_metadata resource metadata;
  sdkWorkspaceResource_DailyCost := resource.(WorkspaceResource_DailyCost) |}.

(** The resources of a job with their agents and metadata. *)
Definition convert_resources (resources : list WorkspaceResource)
    (resourceMetadata : list WorkspaceResourceMetadatum) (resourceAgents : list WorkspaceAgent)
    (agentApps : list WorkspaceApp) : GoM world (list sdkWorkspaceResource) :=
  mapM (M := GoM world) (λ resource,
    agents ← mapM (M := GoM world) (λ agent,
        convertWorkspaceAgent agent
          (convertApps (filter (λ app, app.(WorkspaceApp_AgentID) = agent.(WorkspaceAgent_ID)) agentApps)))
      (filter (λ agent, agent.(WorkspaceAgent_ResourceID) = resource.(WorkspaceResource_ID)) resourceAgents);
    mret (convertWorkspaceResource resource agents
            (filter (λ field, field.(WorkspaceResourceMetadatum_WorkspaceResourceID)
                              = resource.(WorkspaceResource_ID)) resourceMetadata))) resources.

(** ** Handlers *)

(** [if errors.Is(err, sql.ErrNoRows) { err = nil }] *)
Definition or_empty {A} (msg : string) (m : GoM world (list A)) : Handler (list A) :=
  catch m (λ err, if errors_Is err ErrNoRows then mret [] else internal msg err).

Definition provisionerJobResources (job : ProvisionerJob) : Handler unit :=
  _ ← require (Valid job.(ProvisionerJob_CompletedAt))
    (Write StatusPreconditionFailed (message "Job hasn't completed!"));
  resources ← or_empty "Internal error fetching job resources."
    (query (GetWorkspaceResourcesByJobID job.(ProvisionerJob_ID)));
  let resourceIDs := WorkspaceResource_ID <$> resources in
  resourceAgents ← or_empty "Internal error fetching workspace agent."
    (query (GetWorkspaceAgentsByResourceIDs resourceIDs));
  apps ← or_empty "Internal error fetching workspace applications."
    (query (GetWorkspaceAppsByAgentIDs (WorkspaceAgent_ID <$> resourceAgents)));
  resourceMetadata ← catch (query (GetWorkspaceResourceMetadataByResourceIDs resourceIDs))
    (internal "Internal error fetching workspace metadata.");
  apiResources ← catch (convert_resources resources resourceMetadata resourceAgents apps)
    (internal "Internal error reading job agent.");
  reply StatusOK (BodyWorkspaceResources
    (sort_by (λ a b, string_lt a.(sdkWorkspaceResource_Name) b.(sdkWorkspaceResource_Name)) apiResources)).

(** A bound of the log IDs to fetch. *)
Definition log_bound (r : Request) (name : string) : Handler Z :=
  let raw := url_Get r.(URL_Query) name in
  if raw == EmptyString then mret 0 else
  match ParseInt raw 64 with
  | Ok n => mret n
  | _ => Write StatusBadRequest (mkResponse ("Query param " +:+ quote name +:+ " must be an integer.") EmptyString
           [mkValidationError name "Must be an integer"])
  end.

(** A request that does not follow the logs: with [follow] the rest of the
    handler streams over a websocket, [stream]. *)
Definition provisionerJobLogs (stream : list ProvisionerJobLog → Handler unit) (r : Request) (job : ProvisionerJob) :
    Handler unit :=
  let follow := url_Has r.(URL_Query) "follow" in
  let beforeRaw := url_Get r.(URL_Query) "before" in
  _ ← require (negb ((beforeRaw != EmptyString) && follow))
    (Write StatusBadRequest (message ("Query param " +:+ quote "before" +:+ " cannot be used with "
       +:+ quote "follow" +:+ ".")));
  job ← (if follow then catch (query (GetProvisionerJobByID job.(ProvisionerJob_ID)))
                          (internal "Internal error querying job.")
         else mret job);
  after ← log_bound r "after";
  before ← log_bound r "before";
  logs ← or_empty "Internal error fetching provisioner logs."
    (query (GetProvisionerLogsByIDBetween
       (mkGetProvisionerLogsByIDBetweenParams job.(ProvisionerJob_ID) after before)));
  if negb follow then reply StatusOK (BodyProvisionerJobLogs (convertProvisionerJobLogs logs))
  else stream logs.
End agents.
