(* ===== verification/Follow.v ===== *)
(** * Following the logs of a job

    [provisionerJobLogs] with [follow] and [followLogs] of [coderd/provisionerjobs.go].
    The handler subscribes to the channel of the job, reads the job, sends the lines
    that are stored and then those the subscription buffers. The listener runs in a
    goroutine per message ([go listener] of [coderd/database/pubsub.go]), so that
    messages can be handled in any order. A step is a section under [logMut], a query
    or a receive; [EvServer] is whatever the rest of the server does in between.

    What a client that follows a job is sent, in every interleaving with the rest of
    the server: lines of the job only, and those that were stored first and just once. If messages
    are handled in the order they were published, and the buffer does not overflow, it
    is sent every line; the stream ends once the end of the lines is published. What the
    server has to do for this is [log_step], which holds of [UpdateJob] and of the
    end of a job. *)

From stdpp Require Import prelude gmap strings sorting.
From S2P Require Import ApiJobs.
From S2P Require Import Prelude Encoding Models Queries Store StoreJobs StoreJobsProps World ProvisionerdProto.
From S2P Require Import ProvisionerdServer AutobuildProps Http HttpProps Scenario.

Local Open Scope Z_scope.

(** [json.Unmarshal] of a [provisionerJobLogsMessage]. *)
Definition unmarshal_message (m : RawMessage) : res (Z * bool) :=
  unmarshal_struct (λ k j x,
    if EqualFold k "created_after" then n ← unmarshal_int64 j; Ok (n, x.2)
    else if EqualFold k "end_of_logs" then
      match j with JBool b => Ok (x.1, b) | _ => Err errUnmarshal end
    else Ok x) (0, false) m.

(** What a listener has left to do: the lines it fetched, and whether the message
    says that they are the last. *)
Record callback := mkCallback { cb_logs : list ProvisionerJobLog; cb_end : bool }.

(** Where the handler is: it has subscribed; it has read the job, which was over or not;
    it receives from the buffer; it has returned, because of the end of the lines, an error
    of the store, or a client that hung up. *)
Inductive phase := Subscribed | Found (completed : bool) | Streaming | Returned | Failed | HungUp.
#[global] Instance phase_eq_dec : EqDecision phase.
Proof. solve_decision. Defined.

Record follow := mkFollow {
  fo_world : world;
  fo_pending : list RawMessage;
  fo_callbacks : list callback;
  fo_closed : bool;
  fo_buffer : list ProvisionerJobLog;
  fo_bufferClosed : bool;
  fo_dropped : list ProvisionerJobLog;
  fo_phase : phase;
  fo_done : list Z;
  fo_sent : list ProvisionerJobLog;
  fo_panicked : bool;
}.
#[global] Instance follow_eta : Eta follow := λ s,
  mkFollow s.(fo_world) s.(fo_pending) s.(fo_callbacks) s.(fo_closed) s.(fo_buffer) s.(fo_bufferClosed)
    s.(fo_dropped) s.(fo_phase) s.(fo_done) s.(fo_sent) s.(fo_panicked).

(** [make(chan database.ProvisionerJobLog, 128)] *)
Definition buffer_size : nat := 128.

Definition subscribe (w : world) : follow := mkFollow w [] [] false [] false [] Subscribed [] [] false.

Inductive follow_event :=
| EvServer (m : GoM world unit)
| EvListen (i : nat)
| EvPush (i : nat)
| EvJob
| EvHistory
| EvReceive
| EvHangUp.

Section follow.
Context `{!UuidText}.
Context (jobID : uuid) (after : Z).

(** The messages of the channel that were published from one world to another. *)
Definition messages_between (w w' : world) : list RawMessage :=
  snd <$> filter (λ p, p.1 = ProvisionerJobLogsNotifyChannel jobID) (drop (length w.(published)) w'.(published)).

Definition subscribed (s : follow) : bool :=
  match s.(fo_phase) with Returned | Failed | HungUp => false | _ => true end.

(** The rest of the server runs. Each message becomes a call of the listener, until
    [closeSubscribe] of the returning handler. *)
Definition server_step (m : GoM world unit) (s : follow) : follow :=
  let w' := (m s.(fo_world)).2 in
  s <| fo_world := w' |>
    <| fo_pending := s.(fo_pending) ++ if subscribed s then messages_between s.(fo_world) w' else [] |>.

(** [GetProvisionerLogsByIDBetween] without an upper bound. *)
Definition logs_after (a : Z) (w : world) : res (list ProvisionerJobLog) :=
  GetProvisionerLogsByIDBetween (mkGetProvisionerLogsByIDBetweenParams jobID a 0) w.(db).

(** The listener up to the loop over the lines. *)
Definition listen (m : RawMessage) (s : follow) : option callback :=
  if s.(fo_closed) then None else
  match unmarshal_message m with
  | Ok (a, e) =>
      if a != 0 then
        match logs_after a s.(fo_world) with
        | Ok logs => Some (mkCallback logs e)
        | _ => None
        end
      else Some (mkCallback [] e)
  | _ => None
  end.

(** One section of the listener under [logMut]: a line, or the end. What is left to do
    is none if it returns. Sending on a closed channel and closing it again panic. *)
Definition push (c : callback) (s : follow) : option callback * follow :=
  match c.(cb_logs) with
  | l :: ls =>
      if s.(fo_closed) then (None, s)
      else if s.(fo_bufferClosed) then (None, s <| fo_panicked := true |>)
      else if (length s.(fo_buffer) <? buffer_size)%nat
      then (Some (mkCallback ls c.(cb_end)), s <| fo_buffer := s.(fo_buffer) ++ [l] |>)
      else (Some (mkCallback ls c.(cb_end)), s <| fo_dropped := s.(fo_dropped) ++ [l] |>)
  | [] =>
      if c.(cb_end) then
        if s.(fo_closed) then (None, s)
        else if s.(fo_bufferClosed) then (None, s <| fo_closed := true |> <| fo_panicked := true |>)
        else (None, s <| fo_closed := true |> <| fo_bufferClosed := true |>)
      else (None, s)
  end.

(** The callbacks after the [i]th went on. *)
Definition put_callback (i : nat) (c : option callback) (s : follow) : follow :=
  s <| fo_callbacks := match c with
                       | Some c => <[i := c]> s.(fo_callbacks)
                       | None => delete i s.(fo_callbacks)
                       end |>.

(** The handler: the job is read again after subscribing. *)
Definition find_job (s : follow) : follow :=
  s <| fo_phase := match GetProvisionerJobByID jobID s.(fo_world).(db) with
                   | Ok job => Found (Valid job.(ProvisionerJob_CompletedAt))
                   | _ => Failed
                   end |>.

(** The stored lines are sent; they are all if the job was over. *)
Definition send_history (completed : bool) (s : follow) : follow :=
  match logs_after after s.(fo_world) with
  | Ok logs => s <| fo_sent := logs |> <| fo_done := ProvisionerJobLog_ID <$> logs |>
                 <| fo_phase := if completed then Returned else Streaming |>
  | _ => s <| fo_phase := Failed |>
  end.

(** A receive from the buffer. *)
Definition receive (s : follow) : option follow :=
  match s.(fo_buffer) with
  | log :: buffer =>
      let s := s <| fo_buffer := buffer |> in
      Some (if bool_decide (log.(ProvisionerJobLog_ID) ∈ s.(fo_done)) then s else s <| fo_sent := s.(fo_sent) ++ [log] |>)
  | [] => if s.(fo_bufferClosed) then Some (s <| fo_phase := Returned |>) else None
  end.

Definition follow_exec (e : follow_event) (s : follow) : option follow :=
  match e with
  | EvServer m => Some (server_step m s)
  | EvListen i =>
      m ← s.(fo_pending) !! i;
      let s' := s <| fo_pending := delete i s.(fo_pending) |> in
      Some (match listen m s with
            | Some c => s' <| fo_callbacks := s.(fo_callbacks) ++ [c] |>
            | None => s'
            end)
  | EvPush i =>
      c ← s.(fo_callbacks) !! i;
      let '(c', s') := push c s in
      Some (put_callback i c' s')
  | EvJob => match s.(fo_phase) with Subscribed => Some (find_job s) | _ => None end
  | EvHistory => match s.(fo_phase) with Found completed => Some (send_history completed s) | _ => None end
  | EvReceive => match s.(fo_phase) with Streaming => receive s | _ => None end
  | EvHangUp => if subscribed s then Some (s <| fo_phase := HungUp |>) else None
  end.

Definition follow_execs (es : list follow_event) (s : follow) : option follow :=
  foldl (λ s e, s ≫= follow_exec e) (Some s) es.
End follow.

(** ** Properties *)

(** ** What the rest of the server does *)

Definition stored (w : world) : list ProvisionerJobLog := w.(db).(provisionerJobLogs).

(** A message says that there are no more lines. *)
Definition ends (m : RawMessage) : Prop := ∃ a, unmarshal_message m = Ok (a, true).
(** A message makes the listener fetch a line. *)
Definition announces (m : RawMessage) (l : ProvisionerJobLog) : Prop :=
  ∃ a e, unmarshal_message m = Ok (a, e) ∧ a ≠ 0 ∧ a <= l.(ProvisionerJobLog_ID).
(** A line is announced before the end. *)
Definition announced (ms : list RawMessage) (l : ProvisionerJobLog) : Prop :=
  ∃ pre m post, ms = pre ++ m :: post ∧ announces m l ∧ Forall (λ m, ¬ ends m) pre.

Section steps.
Context `{!UuidText}.
Context (jobID : uuid).

(** A row of the job is over. *)
Definition over (w : world) : Prop :=
  ∃ job, GetProvisionerJobByID jobID w.(db) = Ok job ∧ Valid job.(ProvisionerJob_CompletedAt) = true.

(** A step of the server: lines are only appended, under new IDs; those of the job
    only while it is not over, and they are announced, or owed, which they are not
    for ever: nothing is owed when the job is over. The end comes after that. *)
Record log_step (owed : list ProvisionerJobLog) (w w' : world) (owed' : list ProvisionerJobLog) : Prop := {
  ls_published : w.(published) `prefix_of` w'.(published);
  ls_logs : ∃ extra, stored w' = stored w ++ extra ∧
    ∀ l, l ∈ owed ∨ (l ∈ extra ∧ l.(ProvisionerJobLog_JobID) = jobID) →
      ¬ over w ∧ (l ∈ owed' ∨ announced (messages_between jobID w w') l);
  ls_ids : NoDup (ProvisionerJobLog_ID <$> stored w) → NoDup (ProvisionerJobLog_ID <$> stored w');
  ls_over : over w → over w';
  ls_ends : Exists ends (messages_between jobID w w') → over w';
  ls_owed : over w' → owed' = [];
}.

Lemma announced_app_l ms ms' l : announced ms l → announced (ms ++ ms') l.
Proof.
  intros (pre & m & post & -> & Hm & Hpre). exists pre, m, (post ++ ms'). by rewrite <- app_assoc.
Qed.
Lemma announced_app_r ms ms' l : ¬ Exists ends ms → announced ms' l → announced (ms ++ ms') l.
Proof.
  intros Hms (pre & m & post & -> & Hm & Hpre). exists (ms ++ pre), m, post.
  rewrite <- app_assoc. split_and!; [done..|]. apply Forall_app. split; [|done].
  by apply Forall_Exists_neg in Hms.
Qed.
Lemma messages_between_prefix w w' ms :
  w'.(published) = w.(published) ++ ms →
  messages_between jobID w w' = snd <$> filter (λ p, p.1 = ProvisionerJobLogsNotifyChannel jobID) ms.
Proof. intros Hw. unfold messages_between. by rewrite Hw, drop_app_length. Qed.
Lemma messages_between_trans w w1 w2 :
  w.(published) `prefix_of` w1.(published) → w1.(published) `prefix_of` w2.(published) →
  messages_between jobID w w2 = messages_between jobID w w1 ++ messages_between jobID w1 w2.
Proof.
  intros [ms Hms] [ms' Hms'].
  rewrite (messages_between_prefix w w1 ms), (messages_between_prefix w1 w2 ms') by done.
  rewrite (messages_between_prefix w w2 (ms ++ ms')) by (by rewrite Hms', Hms, app_assoc).
  by rewrite filter_app, fmap_app.
Qed.

(** Steps compose. *)
Lemma log_step_trans owed w owed1 w1 owed2 w2 :
  log_step owed w w1 owed1 → log_step owed1 w1 w2 owed2 → log_step owed w w2 owed2.
Proof.
  intros H1 H2.
  pose proof (messages_between_trans w w1 w2 (ls_published _ _ _ _ H1) (ls_published _ _ _ _ H2)) as Hms.
  destruct (ls_logs _ _ _ _ H1) as (extra1 & Hst1 & Hl1), (ls_logs _ _ _ _ H2) as (extra2 & Hst2 & Hl2).
  split.
  - etrans; [apply (ls_published _ _ _ _ H1)|apply (ls_published _ _ _ _ H2)].
  - exists (extra1 ++ extra2). split; [by rewrite Hst2, Hst1, app_assoc|]. intros l Hl. rewrite Hms.
    assert (∀ l, ¬ over w1 ∧ (l ∈ owed2 ∨ announced (messages_between jobID w1 w2) l) →
      ¬ over w ∧ (l ∈ owed2 ∨ announced (messages_between jobID w w1 ++ messages_between jobID w1 w2) l)) as Hlater.
    { intros l' [Hn Hl']. split; [intros ?; by apply Hn, (ls_over _ _ _ _ H1)|].
      destruct Hl'; [by left|right]. apply announced_app_r; [|done]. intros ?. by apply Hn, (ls_ends _ _ _ _ H1). }
    assert (l ∈ owed ∨ (l ∈ extra1 ∧ l.(ProvisionerJobLog_JobID) = jobID) ∨
            (l ∈ extra2 ∧ l.(ProvisionerJobLog_JobID) = jobID)) as [Ho|[He|He]] by set_solver.
    + destruct (Hl1 l (or_introl Ho)) as [Hn [?|?]]; [by apply Hlater, Hl2; left|eauto using announced_app_l].
    + destruct (Hl1 l (or_intror He)) as [Hn [?|?]]; [by apply Hlater, Hl2; left|eauto using announced_app_l].
    + apply Hlater, Hl2. by right.
  - intros ?. by apply (ls_ids _ _ _ _ H2), (ls_ids _ _ _ _ H1).
  - intros ?. by apply (ls_over _ _ _ _ H2), (ls_over _ _ _ _ H1).
  - rewrite Hms, Exists_app. intros [He|He]; [by apply (ls_over _ _ _ _ H2), (ls_ends _ _ _ _ H1)|].
    by apply (ls_ends _ _ _ _ H2).
  - apply (ls_owed _ _ _ _ H2).
Qed.
End steps.

(** ** Runs *)

(** The messages are handled one after the other. *)
Definition in_order (e : follow_event) (s : follow) : Prop :=
  match e with
  | EvServer _ => False
  | EvListen i => i = 0%nat ∧ s.(fo_callbacks) = []
  | EvPush i => i = 0%nat
  | _ => True
  end.
Definition not_server (e : follow_event) : Prop := match e with EvServer _ => False | _ => True end.

Section runs.
Context `{!UuidText}.
Context (jobID : uuid) (after : Z).

(** What a follower reaches, with the lines that are owed; all of it, or with the
    messages handled in order. *)
Inductive follows (ordered : bool) : follow → list ProvisionerJobLog → Prop :=
| follows_start w : NoDup (ProvisionerJobLog_ID <$> stored w) → follows ordered (subscribe w) []
| follows_server s owed m owed' :
    follows ordered s owed → log_step jobID owed s.(fo_world) (m s.(fo_world)).2 owed' →
    follows ordered (server_step jobID m s) owed'
| follows_event s owed e s' :
    follows ordered s owed → not_server e → (ordered = true → in_order e s) →
    follow_exec jobID after e s = Some s' → follows ordered s' owed.

Definition of_job (w : world) (l : ProvisionerJobLog) : Prop := l ∈ stored w ∧ l.(ProvisionerJobLog_JobID) = jobID.

(** A line the client asked for. *)
Definition wanted (l : ProvisionerJobLog) : Prop := after = 0 ∨ after <= l.(ProvisionerJobLog_ID).

Lemma logs_after_ok a w : ∃ logs, logs_after jobID a w = Ok logs ∧ logs `sublist_of` stored w ∧
  ∀ l, l ∈ logs ↔ of_job w l ∧ (a = 0 ∨ a <= l.(ProvisionerJobLog_ID)).
Proof.
  eexists. split; [reflexivity|]. split; [apply sublist_filter|]. intros l.
  rewrite list_elem_of_filter. unfold of_job, log_between, stored. simpl.
  destruct (decide (l.(ProvisionerJobLog_JobID) = jobID)) as [Hj|Hj].
  - rewrite (bool_decide_true (_ = _)) by done. simpl.
    destruct (decide (a = 0)) as [->|Ha]; [simpl; intuition|].
    rewrite (bool_decide_false (a = 0)) by done. simpl.
    destruct (Z.ltb_spec l.(ProvisionerJobLog_ID) a); simpl; intuition lia.
  - rewrite (bool_decide_false (_ = _)) by done. simpl. intuition.
Qed.

(** ** Safety *)

Record safe (s : follow) : Prop := {
  safe_closed : s.(fo_bufferClosed) = s.(fo_closed);
  safe_panic : s.(fo_panicked) = false;
  safe_buffer : Forall (of_job s.(fo_world)) s.(fo_buffer);
  safe_callbacks : Forall (λ c, Forall (of_job s.(fo_world)) c.(cb_logs)) s.(fo_callbacks);
  safe_sent : ∃ history streamed, s.(fo_sent) = history ++ streamed ∧
    s.(fo_done) = ProvisionerJobLog_ID <$> history ∧ Forall (of_job s.(fo_world)) s.(fo_sent) ∧
    history `sublist_of` stored s.(fo_world) ∧
    Forall (λ l, l.(ProvisionerJobLog_ID) ∉ s.(fo_done)) streamed;
}.

Lemma of_job_app w w' extra l : stored w' = stored w ++ extra → of_job w l → of_job w' l.
Proof. intros Hw [Hl Hj]. split; [|done]. rewrite Hw. set_solver. Qed.

Lemma safe_server s owed m owed' :
  safe s → log_step jobID owed s.(fo_world) (m s.(fo_world)).2 owed' → safe (server_step jobID m s).
Proof.
  intros Hs Hstep. destruct (ls_logs _ _ _ _ _ Hstep) as (extra & Hst & _).
  assert (∀ ls, Forall (of_job s.(fo_world)) ls → Forall (of_job (m s.(fo_world)).2) ls) as Hmono
    by (intros ls Hls; eapply Forall_impl; [exact Hls|]; intros l; by apply (of_job_app _ _ extra)).
  destruct Hs as [Hc Hp Hb Hcb (hist & str & H1 & H2 & H3 & H4 & H5)]. split; simpl; auto.
  - eapply Forall_impl; [exact Hcb|]. auto.
  - exists hist, str. split_and!; auto. rewrite Hst. by apply sublist_inserts_r.
Qed.

Lemma safe_listen s i m :
  safe s → safe (match listen jobID m s with
                 | Some c => s <| fo_pending := delete i s.(fo_pending) |> <| fo_callbacks := s.(fo_callbacks) ++ [c] |>
                 | None => s <| fo_pending := delete i s.(fo_pending) |>
                 end).
Proof.
  intros [Hc Hp Hb Hcb Hsent]. destruct (listen jobID m s) as [c|] eqn:Hm; [|done].
  split; simpl; auto. apply Forall_app. split; [done|]. apply Forall_singleton.
  unfold listen in Hm. destruct s.(fo_closed); [done|]. destruct (unmarshal_message m) as [[a e]| |]; [|done..].
  destruct (a != 0); [|by simplify_eq].
  destruct (logs_after_ok a s.(fo_world)) as (logs & Hlogs & _ & Hin). rewrite Hlogs in Hm. simplify_eq. simpl.
  apply Forall_forall. intros l [? _]%Hin. done.
Qed.

Lemma safe_push s i c c' s' :
  safe s → s.(fo_callbacks) !! i = Some c → push c s = (c', s') → safe (put_callback i c' s').
Proof.
  intros [Hc Hp Hb Hcb Hsent] Hi Hpush.
  assert (Forall (of_job s.(fo_world)) c.(cb_logs)) as Hlogs by (eapply Forall_lookup_1 in Hcb; done).
  assert (Forall (λ c, Forall (of_job s.(fo_world)) c.(cb_logs)) (delete i s.(fo_callbacks))) as Hdel.
  { rewrite delete_take_drop. apply Forall_app. split; [by apply Forall_take|by apply Forall_drop]. }
  unfold push in Hpush. destruct c as [[|l ls] e]; simpl in *.
  - rewrite Hc in Hpush. destruct e, s.(fo_closed) eqn:Hcl; simplify_eq; split; simpl; auto; congruence.
  - rewrite Hc in Hpush. apply Forall_cons in Hlogs as [Hl Hls].
    destruct s.(fo_closed) eqn:Hcl; [simplify_eq; split; simpl; auto; congruence|].
    destruct (_ <? _)%nat; simplify_eq; split; simpl; auto; try congruence.
    + by apply Forall_app_2; [|apply Forall_singleton].
    + by apply Forall_insert.
    + by apply Forall_insert.
Qed.

Lemma safe_history s c :
  s.(fo_sent) = [] → safe s → safe (send_history jobID after c s).
Proof.
  intros Hnone [Hc Hp Hb Hcb Hsent]. unfold send_history.
  destruct (logs_after_ok after s.(fo_world)) as (logs & -> & Hsub & Hin). split; simpl; auto.
  exists logs, []. rewrite app_nil_r. split_and!; auto.
  apply Forall_forall. intros l [? _]%Hin. done.
Qed.

Lemma safe_receive s s' : safe s → receive s = Some s' → safe s'.
Proof.
  intros [Hc Hp Hb Hcb (hist & str & H1 & H2 & H3 & H4 & H5)]. unfold receive.
  destruct s.(fo_buffer) as [|l b] eqn:Hbuf.
  - destruct s.(fo_bufferClosed) eqn:Hbc; [|done]. intros [= <-]. split; simpl; auto; try congruence.
    exists hist, str. auto.
  - apply Forall_cons in Hb as [Hl Hb]. simpl. intros [= <-]. case_bool_decide as Hd.
    + split; simpl; auto. exists hist, str. auto.
    + split; simpl; auto. exists hist, (str ++ [l]). rewrite H1, app_assoc. split_and!; auto.
      * apply Forall_app. rewrite <- H1. by split; [|apply Forall_singleton].
      * apply Forall_app. by split; [|apply Forall_singleton].
Qed.

Definition before_history (s : follow) : Prop :=
  match s.(fo_phase) with Subscribed | Found _ => True | _ => False end.

Lemma push_phase c s : (push c s).2.(fo_phase) = s.(fo_phase) ∧ (push c s).2.(fo_sent) = s.(fo_sent).
Proof.
  unfold push. destruct c as [[|l ls] e]; simpl; [destruct e|]; repeat case_match; done.
Qed.

Lemma exec_safe e s s' :
  not_server e → follow_exec jobID after e s = Some s' →
  safe s ∧ (before_history s → s.(fo_sent) = []) → safe s' ∧ (before_history s' → s'.(fo_sent) = []).
Proof.
  intros He Hexec [Hs Hnone]. destruct e as [m|i|i| | | |]; simpl in *; [done|..].
  - destruct (s.(fo_pending) !! i) as [m|]; [|done]. simplify_eq/=. split; [by apply safe_listen|].
    by destruct (listen jobID m s).
  - destruct (s.(fo_callbacks) !! i) as [c|] eqn:Hi; [|done]. simpl in Hexec.
    pose proof (push_phase c s) as [Hph Hst]. destruct (push c s) as [c' s1] eqn:Hp. simplify_eq/=.
    split; [by eapply safe_push|]. unfold before_history in *. simpl. by rewrite Hph, Hst.
  - destruct s.(fo_phase) eqn:Hph; simplify_eq/=. unfold before_history in Hnone. rewrite Hph in Hnone.
    split; [destruct Hs; split; auto|]. intros _. by apply Hnone.
  - destruct s.(fo_phase) eqn:Hph; simplify_eq/=. unfold before_history in Hnone. rewrite Hph in Hnone.
    split; [by apply safe_history; [apply Hnone|]|]. unfold before_history, send_history.
    destruct (logs_after_ok after s.(fo_world)) as (logs & -> & _). simpl. by destruct completed.
  - destruct s.(fo_phase) eqn:Hph; [done..| |done|done|done].
    split; [by eapply safe_receive|]. unfold before_history, receive in *.
    destruct s.(fo_buffer); [destruct s.(fo_bufferClosed); simplify_eq/=; done|].
    simplify_eq. case_bool_decide; simpl; by rewrite Hph.
  - destruct (subscribed s); simplify_eq/=. split; [|by intros []]. destruct Hs. split; auto.
Qed.

Lemma follows_safe ordered s owed : follows ordered s owed → safe s ∧ (before_history s → s.(fo_sent) = []).
Proof.
  induction 1 as [w Hw|s owed m owed' Hf [Hs Hnone] Hstep|s owed e s' Hf IH He Ho Hexec].
  - split; [|done]. split; simpl; auto. exists [], []. split_and!; auto. apply sublist_nil_l.
  - split; [by eapply safe_server|]. done.
  - by eapply exec_safe.
Qed.

(** Whatever the interleaving, no channel is closed twice or sent on when it is
    closed, and the client is sent lines of the job only: some of the stored ones, in
    their order, and then others. *)
Lemma followed_logs_sound ordered s owed :
  follows ordered s owed →
  s.(fo_panicked) = false ∧ Forall (of_job s.(fo_world)) s.(fo_sent) ∧
  ∃ history streamed, s.(fo_sent) = history ++ streamed ∧ history `sublist_of` stored s.(fo_world) ∧
    Forall (λ l, l.(ProvisionerJobLog_ID) ∉ ProvisionerJobLog_ID <$> history) streamed.
Proof.
  intros [[Hc Hp Hb Hcb (hist & str & H1 & H2 & H3 & H4 & H5)] _]%follows_safe.
  split_and!; [done..|]. exists hist, str. rewrite <- H2. auto.
Qed.

(** ** Completeness *)

(** A line is sent, or it will be. *)
Definition on_its_way (s : follow) (owed : list ProvisionerJobLog) (l : ProvisionerJobLog) : Prop :=
  l ∈ s.(fo_sent) ∨ l ∈ s.(fo_buffer) ∨ l ∈ owed ∨
  (s.(fo_closed) = false ∧
   (Exists (λ c, l ∈ c.(cb_logs)) s.(fo_callbacks) ∨
    (Forall (λ c, c.(cb_end) = false) s.(fo_callbacks) ∧ announced s.(fo_pending) l))).

(** The end of the lines has been published. *)
Definition ending (s : follow) : Prop :=
  s.(fo_closed) = true ∨ Exists ends s.(fo_pending) ∨ Exists (λ c, c.(cb_end) = true) s.(fo_callbacks).

Record complete (s : follow) (owed : list ProvisionerJobLog) : Prop := {
  cp_ids : NoDup (ProvisionerJobLog_ID <$> stored s.(fo_world));
  cp_one : (length s.(fo_callbacks) <= 1)%nat;
  cp_ending : ending s → over jobID s.(fo_world);
  cp_found : s.(fo_phase) = Found true → over jobID s.(fo_world);
  cp_owed : over jobID s.(fo_world) → owed = [];
  cp_streaming : s.(fo_phase) = Streaming → s.(fo_dropped) = [] →
    ∀ l, of_job s.(fo_world) l → wanted l → on_its_way s owed l;
  cp_returned : s.(fo_phase) = Returned → s.(fo_dropped) = [] →
    over jobID s.(fo_world) ∧ ∀ l, of_job s.(fo_world) l → wanted l → l ∈ s.(fo_sent);
}.

Lemma on_its_way_server s owed m owed' l :
  subscribed s = true → (ending s → over jobID s.(fo_world)) →
  log_step jobID owed s.(fo_world) (m s.(fo_world)).2 owed' →
  (¬ over jobID s.(fo_world) ∧ (l ∈ owed' ∨ announced (messages_between jobID s.(fo_world) (m s.(fo_world)).2) l)) ∨
    on_its_way s owed l →
  on_its_way (server_step jobID m s) owed' l.
Proof.
  intros Hsub Hend Hstep. unfold on_its_way. simpl. rewrite Hsub.
  destruct (ls_logs _ _ _ _ _ Hstep) as (extra & _ & Hnew).
  cut (¬ over jobID s.(fo_world) ∧ (l ∈ owed' ∨ announced (messages_between jobID s.(fo_world) (m s.(fo_world)).2) l) →
       on_its_way (server_step jobID m s) owed' l).
  { unfold on_its_way. simpl. rewrite Hsub. intros Hfirst [Hf|[Hs|[Hb|[Ho|[Hcl [Hcb|[Hcb Ha]]]]]]]; auto 10.
    auto 12 using announced_app_l. }
  unfold on_its_way. simpl. rewrite Hsub. intros [Hn [Ho|Ha]]; [by auto|]. right; right; right.
  split; [destruct s.(fo_closed) eqn:?; [|done]; exfalso; apply Hn, Hend; by left|]. right. split.
  - apply Forall_forall. intros c Hc. destruct c.(cb_end) eqn:?; [|done]. exfalso. apply Hn, Hend.
    right; right. apply Exists_exists. eauto.
  - apply announced_app_r; [|done]. intros ?. apply Hn, Hend. by right; left.
Qed.

Lemma complete_server s owed m owed' :
  complete s owed → log_step jobID owed s.(fo_world) (m s.(fo_world)).2 owed' →
  complete (server_step jobID m s) owed'.
Proof.
  intros Hs Hstep. destruct (ls_logs _ _ _ _ _ Hstep) as (extra & Hst & Hnew).
  pose proof (ls_over _ _ _ _ _ Hstep) as Hover.
  assert (∀ l, of_job (m s.(fo_world)).2 l → of_job s.(fo_world) l ∨ (l ∈ extra ∧ l.(ProvisionerJobLog_JobID) = jobID)) as Hold.
  { intros l [Hl Hj]. rewrite Hst in Hl. apply elem_of_app in Hl as [?|?]; [left; by split|by right]. }
  split.
  - by apply (ls_ids _ _ _ _ _ Hstep), cp_ids with owed.
  - apply (cp_one _ _ Hs).
  - intros [Hc|[Hp|Hc]]; [apply Hover, (cp_ending _ _ Hs); by left| |apply Hover, (cp_ending _ _ Hs); by right; right].
    apply Exists_app in Hp as [Hp|Hp]; [apply Hover, (cp_ending _ _ Hs); by right; left|].
    destruct (subscribed s); [by apply (ls_ends _ _ _ _ _ Hstep)|by apply Exists_nil in Hp].
  - intros ?. by apply Hover, (cp_found _ _ Hs).
  - apply (ls_owed _ _ _ _ _ Hstep).
  - intros Hph Hd l Hl Hw. simpl in Hph, Hd. eapply on_its_way_server; [|apply (cp_ending _ _ Hs)|exact Hstep|].
    + unfold subscribed. by rewrite Hph.
    + destruct (Hold l Hl) as [Hl'|Hl']; [right; by apply (cp_streaming _ _ Hs)|left; apply Hnew; by right].
  - intros Hph Hd. simpl in Hph, Hd. destruct (cp_returned _ _ Hs Hph Hd) as [Ho Hall].
    split; [by apply Hover|]. intros l Hl Hw. destruct (Hold l Hl) as [Hl'|Hl']; [by apply Hall|].
    exfalso. by destruct (Hnew l (or_intror Hl')).
Qed.

Lemma announced_cons m ms l :
  announced (m :: ms) l → announces m l ∨ (¬ ends m ∧ announced ms l).
Proof.
  intros ([|m' pre] & m0 & post & Heq & Ha & Hpre); simplify_eq/=; [by left|right].
  apply Forall_cons in Hpre as [? ?]. split; [done|]. by exists pre, m0, post.
Qed.

(** The listener has fetched what the message announces, or the message says nothing. *)
Lemma listen_some m s c :
  listen jobID m s = Some c →
  s.(fo_closed) = false ∧ (∀ l, of_job s.(fo_world) l → announces m l → l ∈ c.(cb_logs)) ∧
  (c.(cb_end) = true ↔ ends m).
Proof.
  unfold listen, announces, ends. destruct s.(fo_closed); [done|].
  destruct (unmarshal_message m) as [[a e]| |]; [|done..].
  destruct (logs_after_ok a s.(fo_world)) as (logs & -> & _ & Hin).
  destruct (decide (a = 0)) as [->|Ha].
  - intros [= <-]. simpl. split_and!; [done|naive_solver|naive_solver].
  - rewrite bool_decide_false by done. intros [= <-]. simpl. split_and!; [done| |naive_solver].
    intros l Hj (a' & e' & [= <- <-] & _ & ?). apply Hin. auto.
Qed.
Lemma listen_none m s :
  listen jobID m s = None → s.(fo_closed) = true ∨ ∀ r, unmarshal_message m ≠ Ok r.
Proof.
  unfold listen. destruct s.(fo_closed); [by left|right]. intros [a e] Hm. rewrite Hm in *.
  destruct (logs_after_ok a s.(fo_world)) as (logs & Hlogs & _). rewrite Hlogs in *. by destruct (a != 0).
Qed.

(** The next message, while no other is handled. *)
Lemma complete_listen s owed m ms :
  complete s owed → s.(fo_pending) = m :: ms → s.(fo_callbacks) = [] →
  complete (match listen jobID m s with
            | Some c => s <| fo_pending := ms |> <| fo_callbacks := [c] |>
            | None => s <| fo_pending := ms |>
            end) owed.
Proof.
  intros [Hids Hone Hend Hfound Howed Hstr Hret] Hp Hc.
  destruct (listen jobID m s) as [c|] eqn:Hl;
    [apply listen_some in Hl as (Hcl & Hin & Hce)|apply listen_none in Hl]; split; simpl; auto.
  - intros He. apply Hend. unfold ending in He. simpl in He.
    destruct He as [?|[He|He]]; [by left|right; left; rewrite Hp; by right|].
    right; left. rewrite Hp. apply Exists_cons. left. apply Hce. apply Exists_cons in He as [?|He]; [done|by apply Exists_nil in He].
  - intros Hph Hd l Hj Hw.
    destruct (Hstr Hph Hd l Hj Hw) as [?|[?|[?|[_ [He|[_ Ha]]]]]]; unfold on_its_way; simpl; [auto..| |].
    + rewrite Hc in He. by apply Exists_nil in He.
    + rewrite Hp in Ha. right; right; right. split; [done|]. apply announced_cons in Ha as [Ha|[Hne Ha]].
      * left. apply Exists_cons. left. by apply Hin.
      * right. split; [|done]. apply Forall_singleton. destruct c.(cb_end); [|done]. by destruct Hne; apply Hce.
  - intros He. apply Hend. unfold ending in *. simpl in He. rewrite Hp.
    destruct He as [?|[He|He]]; [by left|right; left; by right|by right; right].
  - intros Hph Hd l Hj Hw.
    destruct (Hstr Hph Hd l Hj Hw) as [?|[?|[?|[Hcl [He|[Hn Ha]]]]]]; unfold on_its_way; simpl; [auto..| |].
    + rewrite Hc in He. by apply Exists_nil in He.
    + destruct Hl as [?|Hbad]; [congruence|]. rewrite Hp in Ha.
      apply announced_cons in Ha as [(a & e & Ha & _)|[_ Ha]]; [by destruct (Hbad (a, e))|]. auto 10.
Qed.

(** A listener goes on. *)
Lemma complete_change s s' owed :
  complete s owed → s'.(fo_world) = s.(fo_world) → s'.(fo_phase) = s.(fo_phase) →
  (∀ l, l ∈ s.(fo_sent) → l ∈ s'.(fo_sent)) → (length s'.(fo_callbacks) <= 1)%nat → (ending s' → ending s) →
  (s'.(fo_dropped) = [] → s.(fo_dropped) = [] ∧ ∀ l, on_its_way s owed l → on_its_way s' owed l) →
  complete s' owed.
Proof.
  intros [Hids Hone Hend Hfound Howed Hstr Hret] Hw Hph Hst Hlen He Hway.
  split; rewrite ?Hw, ?Hph; auto.
  - intros Hp [Hd Hl]%Hway. auto.
  - intros Hp [Hd _]%Hway. destruct (Hret Hp Hd). auto.
Qed.

Lemma Exists_one {A} (P : A → Prop) x : Exists P [x] ↔ P x.
Proof. rewrite Exists_cons, Exists_nil. tauto. Qed.

(** The message that is handled. *)
Lemma complete_push s owed c c' s' :
  complete s owed → safe s → s.(fo_callbacks) = [c] → push c s = (c', s') → complete (put_callback 0 c' s') owed.
Proof.
  intros Hcomp Hsafe Hc Hpush. unfold push in Hpush. rewrite (safe_closed _ Hsafe) in Hpush.
  destruct s.(fo_closed) eqn:Hcl.
  { assert (c' = None ∧ s' = s) as [-> ->] by (destruct c as [[|] []]; simpl in Hpush; by simplify_eq).
    apply (complete_change s); simpl; rewrite ?Hc; auto; unfold ending, on_its_way; simpl; rewrite Hcl; [by left|].
    intros Hd. split; [done|]. naive_solver. }
  destruct c as [[|l ls] e]; simpl in Hpush; [destruct e|destruct (_ <? _)%nat]; revert Hpush; intros [= <- <-];
    apply (complete_change s); try done; simpl; rewrite ?Hc; simpl; auto;
    unfold ending, on_its_way; simpl; rewrite ?Hcl, ?Hc, ?Exists_one; simpl; auto.
  - intros Hd. split; [done|]. intros l. rewrite Exists_one, Forall_singleton, elem_of_nil. naive_solver.
  - rewrite Exists_nil. naive_solver.
  - intros Hd. split; [done|]. intros l. rewrite Exists_one, Forall_singleton, elem_of_nil. naive_solver.
  - by rewrite Exists_one.
  - intros Hd. split; [done|]. intros l'. rewrite !Exists_one, !Forall_singleton. simpl. set_solver.
  - by rewrite Exists_one.
  - intros Hd. by apply app_eq_nil in Hd as [].
Qed.

Lemma complete_history s c owed :
  complete s owed → s.(fo_phase) = Found c → complete (send_history jobID after c s) owed.
Proof.
  intros [Hids Hone Hend Hfound Howed Hstr Hret] Hph. unfold send_history.
  destruct (logs_after_ok after s.(fo_world)) as (logs & -> & _ & Hin).
  assert (∀ l, of_job s.(fo_world) l → wanted l → l ∈ logs) as Hall by (intros; apply Hin; auto).
  split; simpl; auto.
  - by destruct c.
  - intros _ _ l Hj Hw. left. simpl. auto.
  - destruct c; [|done]. auto.
Qed.

Lemma same_row w l l' :
  NoDup (ProvisionerJobLog_ID <$> stored w) → of_job w l → of_job w l' →
  l.(ProvisionerJobLog_ID) = l'.(ProvisionerJobLog_ID) → l = l'.
Proof. intros Hnd [Hl _] [Hl' _] He. by eapply NoDup_key_inj. Qed.

Lemma complete_receive s s' owed :
  complete s owed → safe s → s.(fo_phase) = Streaming → receive s = Some s' → complete s' owed.
Proof.
  intros Hcomp Hsafe Hph. unfold receive. destruct s.(fo_buffer) as [|l b] eqn:Hb.
  - destruct s.(fo_bufferClosed) eqn:Hbc; [|done]. intros [= <-]. rewrite (safe_closed _ Hsafe) in Hbc.
    destruct Hcomp as [Hids Hone Hend Hfound Howed Hstr Hret]. split; simpl; auto; try done.
    intros _ Hd. assert (over jobID s.(fo_world)) as Hover by (apply Hend; by left). split; [done|].
    intros l Hj Hw. destruct (Hstr Hph Hd l Hj Hw) as [?|[Ho|[Ho|[? _]]]]; [done|exfalso..|congruence].
    + rewrite Hb in Ho. by apply elem_of_nil in Ho.
    + rewrite Howed in Ho by done. by apply elem_of_nil in Ho.
  - intros [= <-]. pose proof (safe_buffer _ Hsafe) as Hrow. rewrite Hb in Hrow. apply Forall_cons in Hrow as [Hrow _].
    destruct (safe_sent _ Hsafe) as (hist & str & H1 & H2 & H3 & _).
    assert (l.(ProvisionerJobLog_ID) ∈ s.(fo_done) → l ∈ s.(fo_sent)) as Hdone.
    { rewrite H2. intros (h & Heq & Hh)%list_elem_of_fmap. rewrite Forall_forall in H3.
      assert (h ∈ s.(fo_sent)) as Hs by (rewrite H1; set_solver).
      rewrite (same_row s.(fo_world) l h); [done|by apply (cp_ids _ _ Hcomp)|done|by apply H3|done]. }
    simpl. case_bool_decide as Hd; apply (complete_change s); try done; simpl; try apply (cp_one _ _ Hcomp).
    + intros Hdrop. split; [done|]. intros l'. unfold on_its_way. simpl. rewrite Hb, elem_of_cons. naive_solver.
    + set_solver.
    + intros Hdrop. split; [done|]. intros l'. unfold on_its_way. simpl. rewrite Hb, elem_of_cons, elem_of_app, list_elem_of_singleton.
      naive_solver.
Qed.

Lemma complete_phase s owed p :
  complete s owed → (p = Found true → over jobID s.(fo_world)) → p ≠ Streaming → p ≠ Returned →
  complete (s <| fo_phase := p |>) owed.
Proof. intros [Hids Hone Hend Hfound Howed Hstr Hret] Hp Hs Hr. split; simpl; auto; by intros ->. Qed.

Lemma exec_complete e s s' owed :
  not_server e → in_order e s → follow_exec jobID after e s = Some s' →
  safe s → complete s owed → complete s' owed.
Proof.
  intros He Ho Hexec Hsafe Hcomp. destruct e as [m|i|i| | | |]; simpl in *; [done|..].
  - destruct Ho as [-> Hc]. destruct s.(fo_pending) as [|m ms] eqn:Hp; [done|]. simplify_eq/=.
    rewrite Hc. by apply complete_listen.
  - subst i. pose proof (cp_one _ _ Hcomp) as Hone. destruct s.(fo_callbacks) as [|c [|]] eqn:Hc; simpl in *; [done| |lia].
    destruct (push c s) as [c' s1] eqn:Hp. simplify_eq/=. by eapply complete_push.
  - destruct s.(fo_phase) eqn:Hph; simplify_eq. unfold find_job.
    destruct (GetProvisionerJobByID jobID _) as [job| |] eqn:Hjob; apply complete_phase; try done.
    intros [= Hv]. by exists job.
  - destruct s.(fo_phase) eqn:Hph; simplify_eq. by apply complete_history.
  - destruct s.(fo_phase) eqn:Hph; [done..| |done|done|done]. by eapply complete_receive.
  - destruct (subscribed s); simplify_eq. by apply complete_phase.
Qed.

Lemma follows_complete s owed : follows true s owed → complete s owed.
Proof.
  induction 1 as [w Hw|s owed m owed' Hf IH Hstep|s owed e s' Hf IH He Ho Hexec].
  - split; simpl; auto; [|done..]. intros [?|[He|He]]; [done|by apply Exists_nil in He..].
  - by apply complete_server with owed.
  - apply (exec_complete e s); auto. by eapply follows_safe.
Qed.

(** ** The end *)

(** The listeners and the handler go on, in order. *)
Definition goes_on (s s' : follow) : Prop :=
  ∃ e, not_server e ∧ in_order e s ∧ follow_exec jobID after e s = Some s'.

Lemma goes_on_follows s s' owed : rtc goes_on s s' → follows true s owed → follows true s' owed.
Proof.
  induction 1 as [|s s1 s' (e & He & Ho & Hexec) _ IH]; [done|]. intros Hf. apply IH.
  eapply follows_event; [exact Hf|done|done|exact Hexec].
Qed.

(** What stays the same until the stream ends. *)
Definition same_stream (s s' : follow) : Prop :=
  s'.(fo_world) = s.(fo_world) ∧ s'.(fo_dropped) = s.(fo_dropped) ∧ s'.(fo_phase) = s.(fo_phase) ∧
  s'.(fo_bufferClosed) = s'.(fo_closed).

Lemma drain_buffer s :
  s.(fo_phase) = Streaming → s.(fo_bufferClosed) = s.(fo_closed) →
  ∃ s', rtc goes_on s s' ∧ same_stream s s' ∧ s'.(fo_buffer) = [] ∧ s'.(fo_closed) = s.(fo_closed) ∧
    s'.(fo_callbacks) = s.(fo_callbacks) ∧ s'.(fo_pending) = s.(fo_pending).
Proof.
  remember s.(fo_buffer) as b eqn:Hb. revert s Hb.
  induction b as [|l b IH]; intros s Hb Hph Hc; [exists s; by split_and!|].
  eassert (goes_on s _) as Hstep.
  { exists EvReceive. split_and!; [done..|]. simpl. rewrite Hph. unfold receive. rewrite <- Hb. reflexivity. }
  match type of Hstep with goes_on _ ?s1 => destruct (IH s1) as (s' & Hr & (Hw & Hd & Hp & Hbc) & Hrest) end;
    [by case_bool_decide|by case_bool_decide|by case_bool_decide|].
  exists s'. split; [by eapply rtc_l|]. revert Hw Hd Hp Hrest. clear Hr Hstep.
  case_bool_decide; simpl; intros ??? (? & ? & ? & ?); by split_and!.
Qed.

Lemma push_goes_on s c :
  s.(fo_callbacks) = [c] → goes_on s (put_callback 0 (push c s).1 (push c s).2).
Proof. intros Hc. exists (EvPush 0). split_and!; [done..|]. simpl. rewrite Hc. simpl. by destruct (push c s). Qed.

Lemma drain_callback s c :
  s.(fo_phase) = Streaming → s.(fo_bufferClosed) = s.(fo_closed) → s.(fo_callbacks) = [c] →
  ∃ s', rtc goes_on s s' ∧ same_stream s s' ∧ s'.(fo_closed) = s.(fo_closed) || c.(cb_end) ∧
    s'.(fo_callbacks) = [] ∧ s'.(fo_pending) = s.(fo_pending).
Proof.
  destruct c as [logs e]. revert s. induction logs as [|l logs IH]; intros s Hph Hc Hcb;
    destruct (drain_buffer s Hph Hc) as (s1 & Hr1 & (Hw1 & Hd1 & Hp1 & Hbc1) & Hb1 & Hcl1 & Hcb1 & Hpe1);
    rewrite Hcb in Hcb1.
  - pose proof (push_goes_on _ _ Hcb1) as Hstep.
    eexists. split; [etrans; [exact Hr1|by apply rtc_once]|]. unfold push. simpl. rewrite Hbc1.
    destruct e, s1.(fo_closed) eqn:Hcl; simpl; unfold same_stream; simpl; rewrite ?Hcb1, ?Hcl, <- ?Hcl1;
      split_and!; try done; congruence.
  - pose proof (push_goes_on _ _ Hcb1) as Hstep. unfold push in Hstep. simpl in Hstep. rewrite Hbc1, Hb1 in Hstep.
    destruct s1.(fo_closed) eqn:Hcl; simpl in Hstep.
    + eexists. split; [etrans; [exact Hr1|by apply rtc_once]|]. unfold same_stream. simpl.
      rewrite Hcb1, <- Hcl1. split_and!; try done; congruence.
    + match type of Hstep with goes_on _ ?s2 => destruct (IH s2) as (s' & Hr & (Hw & Hd & Hp & Hbc) & Hc' & Hcb' & Hpe) end;
        [simpl; congruence..|simpl; by rewrite Hcb1|].
      simpl in *. exists s'. split; [etrans; [exact Hr1|by eapply rtc_l]|].
      unfold same_stream. split_and!; congruence.
Qed.

Lemma drain_pending s :
  s.(fo_phase) = Streaming → s.(fo_bufferClosed) = s.(fo_closed) → s.(fo_callbacks) = [] →
  s.(fo_closed) = true ∨ Exists ends s.(fo_pending) →
  ∃ s', rtc goes_on s s' ∧ same_stream s s' ∧ s'.(fo_closed) = true.
Proof.
  remember s.(fo_pending) as ms eqn:Hms. revert s Hms.
  induction ms as [|m ms IH]; intros s Hms Hph Hbc Hcb Hend.
  { destruct Hend as [Hc|He]; [exists s; by split_and!|by apply Exists_nil in He]. }
  destruct s.(fo_closed) eqn:Hcl; [exists s; unfold same_stream; split_and!; try done; congruence|].
  destruct Hend as [?|Hend]; [done|]. apply Exists_cons in Hend.
  eassert (goes_on s _) as Hstep.
  { exists (EvListen 0). split_and!; [done..|]. simpl. rewrite <- Hms. reflexivity. }
  rewrite Hcb in Hstep. simpl in Hstep.
  destruct (listen jobID m s) as [c|] eqn:Hl.
  - apply listen_some in Hl as (_ & _ & Hce).
    match type of Hstep with goes_on _ ?s1 =>
      destruct (drain_callback s1 c) as (s2 & Hr2 & (Hw2 & Hd2 & Hp2 & Hbc2) & Hcl2 & Hcb2 & Hpe2) end;
      [simpl; congruence..|]. simpl in *. rewrite Hcl in Hcl2. simpl in Hcl2.
    destruct (IH s2) as (s' & Hr' & (Hw & Hd & Hp & Hbc') & Hc'); try congruence.
    { rewrite Hcl2. destruct Hend as [?%Hce|?]; auto. }
    exists s'. split; [etrans; [by apply rtc_once|by etrans]|]. split; [|done]. split_and!; congruence.
  - apply listen_none in Hl as [?|Hbad]; [congruence|].
    destruct Hend as [[a Ha]|Hend]; [by destruct (Hbad (a, true))|].
    match type of Hstep with goes_on _ ?s1 => destruct (IH s1) as (s' & Hr' & (Hw & Hd & Hp & Hbc') & Hc') end;
      try done; [simpl; congruence|by right|].
    exists s'. split; [by eapply rtc_l|]. by split.
Qed.

Lemma drain s :
  s.(fo_phase) = Streaming → s.(fo_bufferClosed) = s.(fo_closed) → (length s.(fo_callbacks) <= 1)%nat → ending s →
  ∃ s', rtc goes_on s s' ∧ s'.(fo_phase) = Returned ∧ s'.(fo_world) = s.(fo_world) ∧ s'.(fo_dropped) = s.(fo_dropped).
Proof.
  intros Hph Hbc Hone Hend.
  assert (∃ s1, rtc goes_on s s1 ∧ same_stream s s1 ∧ s1.(fo_callbacks) = [] ∧
    (s1.(fo_closed) = true ∨ Exists ends s1.(fo_pending))) as (s1 & Hr1 & (Hw1 & Hd1 & Hp1 & Hbc1) & Hcb1 & Hend1).
  { unfold ending in Hend. destruct s.(fo_callbacks) as [|c [|]] eqn:Hcb; [|..|simpl in Hone; lia].
    - exists s. split_and!; try done. destruct Hend as [?|[?|He]]; [by left|by right|by apply Exists_nil in He].
    - destruct (drain_callback s c) as (s1 & Hr & Hsame & Hcl & Hcb1 & Hpe); [done..|]. exists s1.
      split_and!; try done. rewrite Hcl, Hpe. destruct Hend as [->|[?|He]]; auto.
      rewrite Exists_one in He. rewrite He, orb_true_r. auto. }
  destruct (drain_pending s1) as (s2 & Hr2 & (Hw2 & Hd2 & Hp2 & Hbc2) & Hcl2); [congruence|done..|].
  destruct (drain_buffer s2) as (s3 & Hr3 & (Hw3 & Hd3 & Hp3 & Hbc3) & Hb3 & Hcl3 & _); [congruence|done|].
  exists (s3 <| fo_phase := Returned |>). split; [|split_and!; try done; simpl; congruence].
  etrans; [exact Hr1|]. etrans; [exact Hr2|]. etrans; [exact Hr3|]. apply rtc_once.
  exists EvReceive. split_and!; [done..|]. simpl. rewrite Hp3, Hp2, Hp1, Hph. unfold receive.
  by rewrite Hb3, Hbc3, Hcl3, Hcl2.
Qed.

End runs.

(** ** The server does its part *)

Section server.
Context `{!Environment, !UuidText, !UuidTextLaws}.
Context (jobID : uuid).

Lemma unmarshal_message_spec a e :
  min_int64 <= a <= max_int64 → unmarshal_message (ProvisionerJobLogsNotifyMessage a e) = Ok (a, e).
Proof.
  intros Ha. unfold unmarshal_message, ProvisionerJobLogsNotifyMessage, unmarshal_struct. simpl.
  rewrite (proj2 (Z.leb_le min_int64 a)), (proj2 (Z.leb_le a max_int64)) by lia. by destruct e.
Qed.

Lemma channel_inj id id' :
  ProvisionerJobLogsNotifyChannel id = ProvisionerJobLogsNotifyChannel id' → id = id'.
Proof.
  unfold ProvisionerJobLogsNotifyChannel. intros Heq. apply (inj (String.append _)) in Heq.
  apply (f_equal uuid_Parse) in Heq. rewrite !uuid_Parse_String in Heq. by simplify_eq.
Qed.

Lemma job_log_rows_job arg id index outputs logs :
  job_log_rows arg id index outputs = Ok logs →
  Forall (λ l, l.(ProvisionerJobLog_JobID) = arg.(InsertProvisionerJobLogsParams_JobID)) logs.
Proof.
  revert id index logs. induction outputs as [|o os IH]; intros id index logs Hrun; [by simplify_eq/=|].
  simpl in Hrun. repeat case_match; try discriminate.
  destruct (job_log_rows arg _ (S index) os) as [logs'| |] eqn:Hrows; [|done..].
  injection Hrun as <-. constructor; [done|by eapply IH].
Qed.

Lemma log_params_job id logs p :
  log_params id logs = Ok p → p.(InsertProvisionerJobLogsParams_JobID) = id ∧
    length p.(InsertProvisionerJobLogsParams_Output) = length logs.
Proof.
  revert p. induction logs as [|l logs IH]; simpl; intros p Hp; [by simplify_eq|].
  destruct (convertLogLevel _); [|done..]. destruct (convertLogSource _); [|done..].
  destruct (log_params id logs) as [p'| |]; [|done..]. simplify_eq/=. destruct (IH p' eq_refl). auto.
Qed.

(** Nothing about logs happened. *)
Lemma log_step_quiet w w' :
  w'.(published) = w.(published) → stored w' = stored w → (over jobID w → over jobID w') →
  log_step jobID [] w w' [].
Proof.
  intros Hp Hs Hover. assert (messages_between jobID w w' = []) as Hm.
  { rewrite (messages_between_prefix _ w w' []); [done|by rewrite app_nil_r]. }
  split; [by rewrite Hp|..|done| |done].
  - exists []. rewrite app_nil_r. split; [done|]. intros l [Hl|[Hl _]]; by apply elem_of_nil in Hl.
  - by rewrite Hs.
  - rewrite Hm. intros He. by apply Exists_nil in He.
Qed.

Lemma over_jobs w w' : w'.(db).(provisionerJobs) = w.(db).(provisionerJobs) → over jobID w → over jobID w'.
Proof. intros Hj (job & Hjob & Hv). exists job. split; [|done]. unfold GetProvisionerJobByID in *. by rewrite Hj. Qed.

Lemma increasing_NoDup l : StronglySorted Z.lt l → NoDup l.
Proof.
  induction 1 as [|x l Hl IH Hx]; constructor; [|done]. intros Hin. rewrite Forall_forall in Hx.
  specialize (Hx x Hin). lia.
Qed.

(** The lines of [UpdateJob] are stored, and owed until they are announced. *)
Lemma insert_logs_step p w logs q :
  logs_sorted w.(db) → 0 <= last_log_id w.(db) →
  last_log_id w.(db) + Z.of_nat (length p.(InsertProvisionerJobLogsParams_Output)) < 2 ^ 63 →
  (p.(InsertProvisionerJobLogsParams_JobID) = jobID → ¬ over jobID w) →
  InsertProvisionerJobLogs p w.(db) = (Ok logs, q) →
  log_step jobID [] w (w <| db := q |>) (if decide (p.(InsertProvisionerJobLogsParams_JobID) = jobID) then logs else []).
Proof.
  intros Hsorted Hpos Hmax Hover Hins.
  destruct (InsertProvisionerJobLogs_ordered _ _ _ _ Hsorted Hpos Hmax Hins) as (Hsorted' & Hq & _).
  assert (q.(provisionerJobs) = w.(db).(provisionerJobs) ∧
    Forall (λ l, l.(ProvisionerJobLog_JobID) = p.(InsertProvisionerJobLogsParams_JobID)) logs) as [Hjobs Hrows].
  { unfold InsertProvisionerJobLogs in Hins. destruct (job_log_rows _ _ _ _) as [logs'| |] eqn:Hr; simplify_eq.
    split; [done|]. by eapply job_log_rows_job. }
  assert (messages_between jobID w (w <| db := q |>) = []) as Hm.
  { rewrite (messages_between_prefix _ w _ []); [done|by rewrite app_nil_r]. }
  split; try done.
  - exists logs. split; [done|]. intros l [Hl|[Hl Hj]]; [by apply elem_of_nil in Hl|].
    rewrite Forall_forall in Hrows. pose proof (Hrows l Hl) as Hp. rewrite Hj in Hp.
    rewrite decide_True by done. split; [by apply Hover|by left].
  - intros _. by apply increasing_NoDup.
  - by apply over_jobs.
  - rewrite Hm. intros He. by apply Exists_nil in He.
  - intros Hov. case_decide as Hp; [|done]. exfalso. by apply (Hover Hp), (over_jobs (w <| db := q |>)).
Qed.

Lemma publish_logs_step id a e w owed :
  publish_error w.(publishes) = None → min_int64 <= a <= max_int64 →
  (id = jobID → e = true → over jobID w) → (owed = [] ∨ id = jobID ∧ ¬ over jobID w ∧ a ≠ 0) →
  Forall (λ l, a <= l.(ProvisionerJobLog_ID)) owed →
  log_step jobID owed w (Publish (ProvisionerJobLogsNotifyChannel id) (ProvisionerJobLogsNotifyMessage a e) w).2 [].
Proof.
  intros Hpub Ha He Howed Hids. unfold Publish. simpl. rewrite Hpub. simpl.
  match goal with |- log_step _ _ _ ?w' _ => assert (messages_between jobID w w' =
    if decide (id = jobID) then [ProvisionerJobLogsNotifyMessage a e] else []) as Hm end.
  { rewrite (messages_between_prefix _ w _ [(ProvisionerJobLogsNotifyChannel id, ProvisionerJobLogsNotifyMessage a e)]) by done.
    case_decide as Hid; [subst; by rewrite filter_cons_True|].
    rewrite filter_cons_False; [done|]. simpl. by intros ?%channel_inj. }
  split; try done.
  - by eexists.
  - exists []. rewrite app_nil_r. split; [done|]. intros l [Hl|[Hl _]]; [|by apply elem_of_nil in Hl].
    destruct Howed as [->|(-> & Hn & Hne)]; [by apply elem_of_nil in Hl|]. split; [done|right]. rewrite Hm, decide_True by done.
    exists [], (ProvisionerJobLogsNotifyMessage a e), []. split_and!; [done| |done].
    exists a, e. rewrite unmarshal_message_spec by done. rewrite Forall_forall in Hids. auto.
  - rewrite Hm. case_decide as Hid; [|intros Hx; by apply Exists_nil in Hx].
    rewrite Exists_one. intros [a' Ha']. rewrite unmarshal_message_spec in Ha' by done. simplify_eq. auto.
Qed.

Lemma wrap_state {A} msg (m : GoM world A) w : (wrap msg m w).2 = (m w).2.
Proof. unfold wrap. by destruct (m w) as [[]]. Qed.

(** [UpdateJob] stores its lines and announces them. *)
Lemma update_logs_step id requestLogs w :
  logs_sorted w.(db) → 1 <= last_log_id w.(db) → last_log_id w.(db) + Z.of_nat (length requestLogs) < 2 ^ 63 →
  publish_error w.(publishes) = None → (id = jobID → ¬ over jobID w) →
  log_step jobID [] w (update_logs id requestLogs w).2 [].
Proof.
  intros Hsorted Hpos Hmax Hpub Hover.
  assert (log_step jobID [] w w []) as Hrefl by (by apply log_step_quiet).
  unfold update_logs. destruct requestLogs as [|x ls]; [done|]. remember (x :: ls) as requestLogs eqn:Hreq.
  unfold mbind, gom_bind, lift_res. destruct (log_params id requestLogs) as [p| |] eqn:Hp; [|done..].
  destruct (log_params_job _ _ _ Hp) as [<- Hlen].
  unfold wrap at 1, store, zoom. destruct (InsertProvisionerJobLogs p w.(db)) as [[logs|er|pn] q] eqn:Hins.
  2,3: assert (q = w.(db)) as -> by (unfold InsertProvisionerJobLogs in Hins; case_match; by simplify_eq); by destruct w.
  pose proof (insert_logs_step p w logs q Hsorted ltac:(lia) ltac:(lia) Hover Hins) as Hstep.
  destruct (InsertProvisionerJobLogs_ordered p w.(db) logs q Hsorted ltac:(lia) ltac:(lia) Hins) as (_ & _ & Hids & _).
  rewrite Hlen, Hreq, length_cons in Hids. rewrite Hreq, length_cons in Hmax. rewrite (seqZ_cons _ (Z.of_nat (S (length ls)))) in Hids by lia.
  destruct logs as [|l logs]; [done|]. injection Hids as Hl Hlogs.
  rewrite int64_wrap_small by (unfold min_int64, max_int64; lia).
  rewrite wrap_state. eapply log_step_trans; [exact Hstep|]. apply publish_logs_step; [done| |done|..].
  - unfold min_int64, max_int64. lia.
  - case_decide as Hid; [right|by left]. split_and!; [done| |lia]. intros Hov. apply (Hover Hid).
    apply (over_jobs (w <| db := q |>)); [|done]. unfold InsertProvisionerJobLogs in Hins. case_match; by simplify_eq.
  - case_decide; [|done]. constructor; [lia|]. apply Forall_forall. intros l' Hl'.
    apply (list_elem_of_fmap_2 ProvisionerJobLog_ID) in Hl'. unfold fmap in Hl'. rewrite Hlogs in Hl'.
    apply elem_of_seqZ in Hl'. lia.
Qed.

(** A job that is over says so. *)
Lemma end_of_logs_step w :
  publish_error w.(publishes) = None → over jobID w → log_step jobID [] w (end_of_logs jobID w).2 [].
Proof.
  intros Hpub Hover. unfold end_of_logs. rewrite wrap_state. apply publish_logs_step; auto.
  unfold min_int64, max_int64. lia.
Qed.
End server.

(** ** The handler *)

(** What [provisionerJobLogs] streams starts with what the model sends first. *)
Lemma provisionerJobLogs_starts `{!UuidText} stream r job job' after s :
  url_Has r.(URL_Query) "follow" = true → url_Get r.(URL_Query) "before" = EmptyString →
  log_bound r "after" s = (Ok (inr after), s) →
  GetProvisionerJobByID job.(ProvisionerJob_ID) s.(hs_world).(db) = Ok job' →
  ∃ f, follow_execs job.(ProvisionerJob_ID) after [EvJob; EvHistory] (subscribe s.(hs_world)) = Some f ∧
    f.(fo_phase) = (if Valid job'.(ProvisionerJob_CompletedAt) then Returned else Streaming) ∧
    ApiJobs.provisionerJobLogs stream r job s = stream f.(fo_sent) s.
Proof.
  intros Hfollow Hbefore Hafter Hjob.
  assert (job'.(ProvisionerJob_ID) = job.(ProvisionerJob_ID)) as Hid by (by apply first_row_elem in Hjob as [_ ?%bool_decide_eq_true]).
  eexists. split; [unfold follow_execs, find_job; cbn -[GetProvisionerJobByID send_history]; rewrite Hjob; reflexivity|].
  split; [done|]. unfold ApiJobs.provisionerJobLogs. rewrite Hfollow, Hbefore. cbv zeta.
  erewrite h_bind_ok by reflexivity.
  erewrite h_bind_ok by (rewrite catch_query, Hjob; reflexivity).
  erewrite h_bind_ok by exact Hafter.
  erewrite h_bind_ok by (unfold log_bound; rewrite Hbefore; reflexivity).
  rewrite Hid. erewrite h_bind_ok by (unfold or_empty; rewrite catch_query; reflexivity). reflexivity.
Qed.

(** ** Concrete runs *)

Module FollowExamples.
Import Scenario.
#[local] Existing Instances text unary_uuid_text_laws env.

(** A job that a daemon works on, and one that nobody has taken. *)
Definition running : ProvisionerJob :=
  ProvisionerJob_zero <| ProvisionerJob_ID := 1%N |> <| ProvisionerJob_WorkerID := non_null 5%N |>.
Definition start : world := w <| db := New <| provisionerJobs := [running] |> |>.
Definition line (output : string) : proto_Log := mkLog LogSource_PROVISIONER LogLevel_INFO 0 "Apply" output.

Definition update (output : string) : GoM world unit := update_logs 1%N [line output].
Definition complete_job_row : GoM world unit :=
  store (UpdateProvisionerJobWithCompleteByID (mkUpdateProvisionerJobWithCompleteByIDParams 1%N 0 (non_null 0) (null_of EmptyString))).
Definition finish : GoM world unit := end_of_logs 1%N.
Definition run (es : list follow_event) : follow := default (subscribe start) (follow_execs 1%N 0 es (subscribe start)).
Definition outputs (s : follow) : list string := ProvisionerJobLog_Output <$> s.(fo_sent).

(** The end is published while the lines are still to be handled. *)
Definition so_far : list follow_event :=
  [EvServer (update "a"); EvJob; EvHistory; EvServer (update "b"); EvServer complete_job_row; EvServer finish].

Definition reached : follow := Eval vm_compute in run so_far.

Lemma not_over s : (∀ job, GetProvisionerJobByID 1%N s.(db) = Ok job → Valid job.(ProvisionerJob_CompletedAt) = false) → ¬ over 1%N s.
Proof. intros Hs (job & Hjob%Hs & Hv). congruence. Qed.

Lemma so_far_follows : follows 1%N 0 true reached [].
Proof.
  pose (s1 := server_step 1%N (update "a") (subscribe start)).
  pose (s2 := send_history 1%N 0 false (find_job 1%N s1)).
  pose (s3 := server_step 1%N (update "b") s2).
  assert (reached = server_step 1%N finish (server_step 1%N complete_job_row s3)) as -> by (by vm_compute).
  assert (follows 1%N 0 true s1 []) as H1.
  { apply (follows_server 1%N 0 true _ [] _ []); [apply follows_start; constructor|].
    apply update_logs_step; [by repeat constructor|by vm_compute|by vm_compute|done|].
    intros _. apply not_over. intros job Hjob. vm_compute in Hjob. by simplify_eq. }
  assert (follows 1%N 0 true s2 []) as H2.
  { eapply (follows_event 1%N 0 true (find_job 1%N s1) [] EvHistory); [|done|done|reflexivity].
    by eapply (follows_event 1%N 0 true s1 [] EvJob). }
  assert (follows 1%N 0 true s3 []) as H3.
  { apply (follows_server 1%N 0 true _ [] _ []); [done|].
    apply update_logs_step; [by repeat constructor|by vm_compute|by vm_compute|done|].
    intros _. apply not_over. intros job Hjob. vm_compute in Hjob. by simplify_eq. }
  apply (follows_server 1%N 0 true _ [] _ []); [apply (follows_server 1%N 0 true _ [] _ []); [done|]|].
  - apply log_step_quiet; [done..|]. intros Hover. exfalso. revert Hover. apply not_over.
    intros job Hjob. vm_compute in Hjob. by simplify_eq.
  - apply end_of_logs_step; [done|]. by eexists.
Qed.


(** Lines that are fetched twice are sent twice: only the stored ones are
    remembered. *)
Example lines_repeated :
  outputs (run ([EvJob; EvHistory; EvServer (update "a"); EvServer (update "b"); EvListen 0; EvPush 0; EvPush 0; EvPush 0;
    EvListen 0; EvPush 0; EvPush 0; EvPush 0; EvReceive; EvReceive; EvReceive; EvReceive])) = ["a"; "b"; "a"; "b"].
Proof. by vm_compute. Qed.

(** The end overtakes a line, which is then never sent. *)
Example end_overtakes :
  let s := run ([EvJob; EvHistory; EvServer (update "a"); EvServer complete_job_row; EvServer finish;
                 EvListen 1; EvPush 0; EvReceive]) in
  s.(fo_phase) = Returned ∧ outputs s = [].
Proof. by vm_compute. Qed.

(** Canceling a job that nobody has taken completes it without a message: who
    follows it waits for ever. *)
Example canceled_never_ends :
  let cancel := store (UpdateProvisionerJobWithCancelByID (mkUpdateProvisionerJobWithCancelByIDParams 1%N (non_null 0) (non_null 0))) in
  let s := run [EvJob; EvHistory; EvServer cancel] in
  s.(fo_phase) = Streaming ∧ s.(fo_pending) = [] ∧ s.(fo_callbacks) = [] ∧ s.(fo_buffer) = [] ∧ s.(fo_closed) = false.
Proof. by vm_compute. Qed.

(** A batch that starts with the line of ID 1 is announced by a message that makes
    the listener fetch nothing. *)
Example first_line_skipped :
  listen 1%N (ProvisionerJobLogsNotifyMessage 0 false) (subscribe start) = Some (mkCallback [] false).
Proof. by vm_compute. Qed.
End FollowExamples.
