(* ===== verification/ApiBuilds.v ===== *)
(** * The API: workspace builds

    [coderd/workspacebuilds.go]. *)

From Stdlib Require Import Ascii.
From stdpp Require Import prelude gmap strings.
From S2P Require Import Prelude Encoding Rbac Models Queries ModelMethods Store StoreUsers.
From S2P Require Import StoreJobs StoreTemplates StoreWorkspaces World ProvisionerdServer.
From S2P Require Import Auditing Sdk Http HttpMw QueryParams Api ApiJobs.

Local Open Scope Z_scope.

(** [l[0]] *)
Definition index0 {A} (l : list A) : res A :=
  match l with
  | x :: _ => Ok x
  | [] => Panic "runtime error: index out of range [0] with length 0"
  end.

(** The rows by ID; of two rows with an ID the later one is kept. *)
Definition by_id {A} (ID : A → uuid) (l : list A) : gmap uuid A :=
  foldl (λ m x, <[ID x := x]> m) ∅ l.

(** [json.Marshal] of a [provisionerdserver.WorkspaceProvisionJob] *)
Definition marshal_WorkspaceProvisionJob `{!UuidText} (job : WorkspaceProvisionJob) : RawMessage :=
  RawValue (JObject [("workspace_build_id", JString (uuid_String job.(WorkspaceProvisionJob_WorkspaceBuildID)));
                     ("dry_run", JBool job.(WorkspaceProvisionJob_DryRun))]).

Definition convertWorkspaceStatus (jobStatus : ProvisionerJobStatus) (transition : WorkspaceTransition) :
    WorkspaceStatus :=
  match jobStatus, transition with
  | ProvisionerJobPending, _ => WorkspaceStatusPending
  | ProvisionerJobRunning, WorkspaceTransitionStart => WorkspaceStatusStarting
  | ProvisionerJobRunning, WorkspaceTransitionStop => WorkspaceStatusStopping
  | ProvisionerJobRunning, WorkspaceTransitionDelete => WorkspaceStatusDeleting
  | ProvisionerJobSucceeded, WorkspaceTransitionStart => WorkspaceStatusRunning
  | ProvisionerJobSucceeded, WorkspaceTransitionStop => WorkspaceStatusStopped
  | ProvisionerJobSucceeded, WorkspaceTransitionDelete => WorkspaceStatusDeleted
  | ProvisionerJobCanceling, _ => WorkspaceStatusCanceling
  | ProvisionerJobCanceled, _ => WorkspaceStatusCanceled
  | _, _ => WorkspaceStatusFailed
  end.

Record workspaceBuildsData := mkworkspaceBuildsData {
  data_users : list User;
  data_jobs : list ProvisionerJob;
  data_templateVersions : list TemplateVersion;
  data_resources : list WorkspaceResource;
  data_metadata : list WorkspaceResourceMetadatum;
  data_agents : list WorkspaceAgent;
  data_apps : list WorkspaceApp;
}.

Section builds.
Context `{!Environment, !UuidText, !Authorizer, !Auditor, !Tailnet, !RFC3339}.
Context `{!Validate CreateWorkspaceBuildRequest}.
Context (api : Options).

(** ** Data and conversions *)

(** [if err != nil && !errors.Is(err, sql.ErrNoRows) { return ..., xerrors.Errorf(msg, err) }] *)
Definition rows_or_empty {A} (msg : string) (m : GoM world (list A)) : GoM world (list A) :=
  r ← attempt m;
  match r with
  | inr l => mret l
  | inl e => if errors_Is e ErrNoRows then mret [] else throw (ErrWrap msg e)
  end.

(** The second test of [len(resources)] never holds after the first. *)
Definition api_workspaceBuildsData (ws : list Workspace) (builds : list WorkspaceBuild) :
    GoM world workspaceBuildsData :=
  us ← wrap "get users" (query (GetUsersByIDs
    ((WorkspaceBuild_InitiatorID <$> builds) ++ (Workspace_OwnerID <$> ws))));
  let jobIDs := WorkspaceBuild_JobID <$> builds in
  jobs ← rows_or_empty "get provisioner jobs" (query (GetProvisionerJobsByIDs jobIDs));
  versions ← rows_or_empty "get template versions"
    (query (GetTemplateVersionsByIDs (WorkspaceBuild_TemplateVersionID <$> builds)));
  resources ← rows_or_empty "get workspace resources by job"
    (query (GetWorkspaceResourcesByJobIDs jobIDs));
  match resources with
  | [] => mret (mkworkspaceBuildsData us jobs versions [] [] [] [])
  | _ :: _ =>
      let resourceIDs := WorkspaceResource_ID <$> resources in
      metadata ← rows_or_empty "fetching resource metadata"
        (query (GetWorkspaceResourceMetadataByResourceIDs resourceIDs));
      agents ← rows_or_empty "get workspace agents" (query (GetWorkspaceAgentsByResourceIDs resourceIDs));
      apps ← rows_or_empty "fetching workspace apps"
        (query (GetWorkspaceAppsByAgentIDs (WorkspaceAgent_ID <$> agents)));
      mret (mkworkspaceBuildsData us jobs versions resources metadata agents apps)
  end.

Definition convertWorkspaceBuild (build : WorkspaceBuild) (workspace : Workspace) (job : ProvisionerJob)
    (us : list User) (resources : list WorkspaceResource)
    (metadata : list WorkspaceResourceMetadatum) (agents : list WorkspaceAgent)
    (apps : list WorkspaceApp) (templateVersion : TemplateVersion) : GoM world sdkWorkspaceBuild :=
  let userByID := by_id User_ID us in
  match userByID !! workspace.(Workspace_OwnerID) with
  | None => throw (ErrNew ("owner not found for workspace: " +:+ quote workspace.(Workspace_Name)))
  | Some owner =>
  match userByID !! build.(WorkspaceBuild_InitiatorID) with
  | None => throw (ErrNew ("build initiator not found for workspace: " +:+ quote workspace.(Workspace_Name)))
  | Some initiator =>
      apiResources ← wrap "converting workspace agent"
        (convert_resources api
           (filter (λ resource, resource.(WorkspaceResource_JobID) = job.(ProvisionerJob_ID)) resources)
           metadata agents apps);
      apiJob ← convertProvisionerJob job;
      mret {|
        sdkWorkspaceBuild_ID := build.(WorkspaceBuild_ID);
        sdkWorkspaceBuild_CreatedAt := build.(WorkspaceBuild_CreatedAt);
        sdkWorkspaceBuild_UpdatedAt := build.(WorkspaceBuild_UpdatedAt);
        sdkWorkspaceBuild_WorkspaceID := build.(WorkspaceBuild_WorkspaceID);
        sdkWorkspaceBuild_WorkspaceName := workspace.(Workspace_Name);
        sdkWorkspaceBuild_WorkspaceOwnerID := workspace.(Workspace_OwnerID);
        sdkWorkspaceBuild_WorkspaceOwnerName := owner.(User_Username);
        sdkWorkspaceBuild_TemplateVersionID := build.(WorkspaceBuild_TemplateVersionID);
        sdkWorkspaceBuild_TemplateVersionName := templateVersion.(TemplateVersion_Name);
        sdkWorkspaceBuild_BuildNumber := build.(WorkspaceBuild_BuildNumber);
        sdkWorkspaceBuild_Transition := build.(WorkspaceBuild_Transition);
        sdkWorkspaceBuild_InitiatorID := build.(WorkspaceBuild_InitiatorID);
        sdkWorkspaceBuild_InitiatorUsername := initiator.(User_Username);
        sdkWorkspaceBuild_Job := apiJob;
        sdkWorkspaceBuild_Reason := build.(WorkspaceBuild_Reason);
        sdkWorkspaceBuild_Resources := apiResources;
        sdkWorkspaceBuild_Deadline :=
          mkNull build.(WorkspaceBuild_Deadline) (negb (IsZero build.(WorkspaceBuild_Deadline)));
        sdkWorkspaceBuild_Status :=
          convertWorkspaceStatus apiJob.(sdkProvisionerJob_Status) build.(WorkspaceBuild_Transition);
        sdkWorkspaceBuild_DailyCost := build.(WorkspaceBuild_DailyCost) |}
  end
  end.

Definition convertWorkspaceBuilds (builds : list WorkspaceBuild) (ws : list Workspace)
    (d : workspaceBuildsData) : GoM world (list sdkWorkspaceBuild) :=
  let workspaceByID := by_id Workspace_ID ws in
  let jobByID := by_id ProvisionerJob_ID d.(data_jobs) in
  let templateVersionByID := by_id TemplateVersion_ID d.(data_templateVersions) in
  mapM (M := GoM world) (λ build,
    match jobByID !! build.(WorkspaceBuild_JobID) with
    | None => throw (ErrNew "build job not found")
    | Some job =>
    match workspaceByID !! build.(WorkspaceBuild_WorkspaceID) with
    | None => throw (ErrNew "workspace not found")
    | Some workspace =>
    match templateVersionByID !! build.(WorkspaceBuild_TemplateVersionID) with
    | None => throw (ErrNew "template version not found")
    | Some templateVersion =>
        wrap "converting workspace build"
          (convertWorkspaceBuild build workspace job d.(data_users) d.(data_resources) d.(data_metadata)
             d.(data_agents) d.(data_apps) templateVersion)
    end end end) builds.

(** ** Reading builds *)

(** The reply of one build with what it refers to. *)
Definition reply_build (workspace : Workspace) (build : WorkspaceBuild) : Handler unit :=
  d ← catch (api_workspaceBuildsData [workspace] [build])
    (internal "Internal error getting workspace build data.");
  job ← get (index0 d.(data_jobs));
  version ← get (index0 d.(data_templateVersions));
  apiBuild ← catch (convertWorkspaceBuild build workspace job d.(data_users) d.(data_resources)
                      d.(data_metadata) d.(data_agents) d.(data_apps) version)
    (internal "Internal error converting workspace build.");
  reply StatusOK (BodyWorkspaceBuild apiBuild).

Definition api_workspaceBuild (r : Request) (workspace : Workspace) (build : WorkspaceBuild) : Handler unit :=
  _ ← authorize r ActionRead (Workspace_RBACObject workspace) ResourceNotFound;
  reply_build workspace build.

Definition read_since (r : Request) : Handler time :=
  let sinceParam := url_Get r.(URL_Query) "since" in
  if sinceParam == EmptyString then mret time_zero else
  match rfc3339_Parse sinceParam with
  | Ok t => mret t
  | Err e => Write StatusBadRequest (with_detail "bad `since` format, must be RFC3339" (error_string e))
  | Panic p => get (Panic p)
  end.

Definition api_workspaceBuilds (r : Request) (workspace : Workspace) :
    Handler unit :=
  _ ← authorize r ActionRead (Workspace_RBACObject workspace) ResourceNotFound;
  page ← parsePagination r;
  since ← read_since r;
  let afterID := page.(sdkPagination_AfterID) in
  _ ← (if afterID != uuid_Nil then
         _ ← catch (query (GetWorkspaceBuildByID afterID)) (λ err,
           if errors_Is err ErrNoRows
           then Write StatusBadRequest (message ("Record at " +:+ quote "after_id" +:+ " ("
                  +:+ quote (uuid_String afterID) +:+ ") does not exist."))
           else internal ("Internal error fetching workspace build at " +:+ quote "after_id" +:+ ".") err);
         mret tt
       else mret tt);
  builds ← or_empty "Internal error fetching workspace build."
    (query (GetWorkspaceBuildsByWorkspaceID {|
       GetWorkspaceBuildsByWorkspaceIDParams_WorkspaceID := workspace.(Workspace_ID);
       GetWorkspaceBuildsByWorkspaceIDParams_Since := database_Time since;
       GetWorkspaceBuildsByWorkspaceIDParams_AfterID := afterID;
       GetWorkspaceBuildsByWorkspaceIDParams_OffsetOpt := int32_wrap page.(sdkPagination_Offset);
       GetWorkspaceBuildsByWorkspaceIDParams_LimitOpt := int32_wrap page.(sdkPagination_Limit) |}));
  d ← catch (api_workspaceBuildsData [workspace] builds)
    (internal "Internal error getting workspace build data.");
  apiBuilds ← catch (convertWorkspaceBuilds builds [workspace] d)
    (internal "Internal error converting workspace build.");
  reply StatusOK (BodyWorkspaceBuilds apiBuilds).

Definition workspaceBuildByBuildNumber (r : Request) (owner : User) : Handler unit :=
  let workspaceName := URLParam r "workspacename" in
  buildNumber ← catch (lift_res (ParseInt (URLParam r "buildnumber") 32))
    (λ err, Write StatusBadRequest (with_detail "Failed to parse build number as integer." (error_string err)));
  workspace ← catch (query (GetWorkspaceByOwnerIDAndName
      (mkGetWorkspaceByOwnerIDAndNameParams owner.(User_ID) false workspaceName)))
    (not_found_or "Internal error fetching workspace by name.");
  _ ← authorize r ActionRead (Workspace_RBACObject workspace) ResourceNotFound;
  build ← catch (query (GetWorkspaceBuildByWorkspaceIDAndBuildNumber
      (mkGetWorkspaceBuildByWorkspaceIDAndBuildNumberParams workspace.(Workspace_ID) buildNumber)))
    (λ err, if errors_Is err ErrNoRows
            then Write StatusNotFound (message ("Workspace " +:+ quote workspaceName +:+ " Build "
                   +:+ Itoa buildNumber +:+ " does not exist."))
            else internal "Internal error fetching workspace build." err);
  reply_build workspace build.

(** The workspace a build belongs to. *)
Definition build_workspace (build : WorkspaceBuild) : Handler Workspace :=
  catch (query (GetWorkspaceByID build.(WorkspaceBuild_WorkspaceID)))
    (λ _, Write StatusInternalServerError (message "No workspace exists for this job.")).

Definition build_job (build : WorkspaceBuild) : Handler ProvisionerJob :=
  catch (query (GetProvisionerJobByID build.(WorkspaceBuild_JobID)))
    (internal "Internal error fetching provisioner job.").

Definition workspaceBuildResources (r : Request) (build : WorkspaceBuild) : Handler unit :=
  workspace ← build_workspace build;
  _ ← authorize r ActionRead (Workspace_RBACObject workspace) ResourceNotFound;
  job ← build_job build;
  provisionerJobResources api job.

Definition workspaceBuildLogs (stream : list ProvisionerJobLog → Handler unit) (r : Request)
    (build : WorkspaceBuild) : Handler unit :=
  workspace ← build_workspace build;
  _ ← authorize r ActionRead (Workspace_RBACObject workspace) ResourceNotFound;
  job ← build_job build;
  provisionerJobLogs stream r job.

Definition workspaceBuildState (r : Request) (build : WorkspaceBuild) : Handler unit :=
  workspace ← build_workspace build;
  _ ← authorize r ActionRead (Workspace_RBACObject workspace) ResourceNotFound;
  reply StatusOK (BodyState build.(WorkspaceBuild_ProvisionerState)).

(** ** Changing builds *)

Definition publishWorkspaceUpdate (workspaceID : uuid) : GoM world unit :=
  void (attempt (Publish (WorkspaceNotifyChannel workspaceID) empty_message)).

(** [switch templateVersionJobStatus]: a version can be built from once its import
    has succeeded, or is being canceled. *)
Definition check_import (status : ProvisionerJobStatus) (failed canceled : string) : Handler unit :=
  match status with
  | ProvisionerJobPending =>
      Write StatusNotAcceptable (message
        "The provided template version is pending. Wait for it to complete importing!")
  | ProvisionerJobRunning =>
      Write StatusNotAcceptable (message
        "The provided template version is running. Wait for it to complete importing!")
  | ProvisionerJobFailed => Write StatusPreconditionFailed (message failed)
  | ProvisionerJobCanceled => Write StatusPreconditionFailed (message canceled)
  | ProvisionerJobSucceeded | ProvisionerJobCanceling => mret tt
  end.

(** Delete the workspace's values of that name. *)
Definition delete_old_params (existing : list ParameterValue) (name : string) : GoM world unit :=
  for_each existing (λ exists_,
    if exists_.(ParameterValue_Name) == name then
      d ← attempt (store (DeleteParameterValueByID exists_.(ParameterValue_ID)));
      match d with
      | inl e => if errors_Is e ErrNoRows then mret tt
                 else throw (ErrWrap ("Failed to delete old param " +:+ quote exists_.(ParameterValue_Name)) e)
      | inr _ => mret tt
      end
    else mret tt).

Definition insert_workspace_param (now : time) (workspaceID : uuid) (param : CreateParameterRequest) :
    GoM world unit :=
  id ← uuid_New;
  void (wrap "insert parameter value" (store (InsertParameterValue {|
    InsertParameterValueParams_ID := id;
    InsertParameterValueParams_Name := param.(CreateParameterRequest_Name);
    InsertParameterValueParams_CreatedAt := now;
    InsertParameterValueParams_UpdatedAt := now;
    InsertParameterValueParams_Scope := ParameterScopeWorkspace;
    InsertParameterValueParams_ScopeID := workspaceID;
    InsertParameterValueParams_SourceScheme := param.(CreateParameterRequest_SourceScheme);
    InsertParameterValueParams_SourceValue := param.(CreateParameterRequest_SourceValue);
    InsertParameterValueParams_DestinationScheme := param.(CreateParameterRequest_DestinationScheme) |}))).

(** What a new build is made from. *)
Record new_build := mknew_build {
  new_workspace : Workspace;
  new_template : Template;
  new_version : TemplateVersion;
  new_versionJob : ProvisionerJob;
  new_initiator : uuid;
  new_number : Z;
  new_transition : WorkspaceTransition;
  new_state : bytes;
  new_tags : StringMap;
}.

(** The transaction of [postWorkspaceBuilds]. *)
Definition insert_build (b : new_build) (params : list CreateParameterRequest) :
    GoM world (WorkspaceBuild * ProvisionerJob) :=
  let workspaceID := b.(new_workspace).(Workspace_ID) in
  existing ← rows_or_empty "Fetch previous parameters"
    (query (ParameterValues (mkParameterValuesParams [ParameterScopeWorkspace] [workspaceID] [] [])));
  now ← Now;
  _ ← for_each params (λ param,
    _ ← delete_old_params existing param.(CreateParameterRequest_Name);
    insert_workspace_param now workspaceID param);
  workspaceBuildID ← uuid_New;
  jobID ← uuid_New;
  jobCreated ← Now;
  jobUpdated ← Now;
  provisionerJob ← wrap "insert provisioner job" (store (InsertProvisionerJob {|
    InsertProvisionerJobParams_ID := jobID;
    InsertProvisionerJobParams_CreatedAt := jobCreated;
    InsertProvisionerJobParams_UpdatedAt := jobUpdated;
    InsertProvisionerJobParams_OrganizationID := b.(new_template).(Template_OrganizationID);
    InsertProvisionerJobParams_InitiatorID := b.(new_initiator);
    InsertProvisionerJobParams_Provisioner := b.(new_template).(Template_Provisioner);
    InsertProvisionerJobParams_StorageMethod := b.(new_versionJob).(ProvisionerJob_StorageMethod);
    InsertProvisionerJobParams_FileID := b.(new_versionJob).(ProvisionerJob_FileID);
    InsertProvisionerJobParams_Type := ProvisionerJobTypeWorkspaceBuild;
    InsertProvisionerJobParams_Input :=
      marshal_WorkspaceProvisionJob (mkWorkspaceProvisionJob workspaceBuildID false);
    InsertProvisionerJobParams_Tags := b.(new_tags) |}));
  created ← Now;
  updated ← Now;
  workspaceBuild ← wrap "insert workspace build" (store (InsertWorkspaceBuild {|
    InsertWorkspaceBuildParams_ID := workspaceBuildID;
    InsertWorkspaceBuildParams_CreatedAt := created;
    InsertWorkspaceBuildParams_UpdatedAt := updated;
    InsertWorkspaceBuildParams_WorkspaceID := workspaceID;
    InsertWorkspaceBuildParams_TemplateVersionID := b.(new_version).(TemplateVersion_ID);
    InsertWorkspaceBuildParams_BuildNumber := b.(new_number);
    InsertWorkspaceBuildParams_Transition := b.(new_transition);
    InsertWorkspaceBuildParams_InitiatorID := b.(new_initiator);
    InsertWorkspaceBuildParams_JobID := provisionerJob.(ProvisionerJob_ID);
    InsertWorkspaceBuildParams_ProvisionerState := b.(new_state);
    InsertWorkspaceBuildParams_Deadline := time_zero;
    InsertWorkspaceBuildParams_Reason := BuildReasonInitiator |}));
  mret (workspaceBuild, provisionerJob).

(** The action a transition needs. *)
Definition transition_action (transition : WorkspaceTransition) : Handler string :=
  match transition with
  | WorkspaceTransitionDelete => mret ActionDelete
  | WorkspaceTransitionStart | WorkspaceTransitionStop => mret ActionUpdate
  | WorkspaceTransition_other s =>
      Write StatusInternalServerError (message ("Transition " +:+ quote s +:+ " not supported."))
  end.

(** The provisioner state the request asks for, if any. The message about [Orphan]
    with another transition dereferences a nil error. *)
Definition custom_state (r : Request) (template : Template) (req : CreateWorkspaceBuildRequest) :
    Handler (option bytes) :=
  let provided := req.(CreateWorkspaceBuildRequest_ProvisionerState) in
  let orphan := req.(CreateWorkspaceBuildRequest_Orphan) in
  _ ← (if (if provided is Some _ then true else false) || orphan
       then authorize r ActionUpdate (Template_RBACObject template)
              (Write StatusForbidden (message "Only template managers may provide custom state"))
       else mret tt);
  if orphan then
    _ ← (if req.(CreateWorkspaceBuildRequest_Transition) != WorkspaceTransitionDelete
         then get (Panic "runtime error: invalid memory address or nil pointer dereference")
         else mret tt);
    match provided with
    | Some _ => Write StatusBadRequest (message
        "ProvisionerState cannot be set alongside Orphan since state intent is unclear.")
    | None => mret (Some [])
    end
  else mret provided.

(** The latest build and its number; a build whose job is active is a conflict. *)
Definition prior_build (workspaceID : uuid) : Handler (Z * bytes) :=
  prior ← attempt_h (query (GetLatestWorkspaceBuildByWorkspaceID workspaceID));
  match prior with
  | inl err => if errors_Is err ErrNoRows then mret (0, [])
               else internal "Internal error fetching prior workspace build." err
  | inr priorHistory =>
      priorJob ← attempt_h (query (GetProvisionerJobByID priorHistory.(WorkspaceBuild_JobID)));
      active ← match priorJob with
               | inl _ => mret false
               | inr job => apiJob ← run (convertProvisionerJob job);
                            mret (ProvisionerJobStatus_Active apiJob.(sdkProvisionerJob_Status))
               end;
      _ ← require (negb active) (Write StatusConflict (message "A workspace build is already active."));
      mret (priorHistory.(WorkspaceBuild_BuildNumber), priorHistory.(WorkspaceBuild_ProvisionerState))
  end.

(** The version to build: the requested one, or that of the latest build. *)
Definition build_version (workspaceID requested : uuid) : Handler TemplateVersion :=
  id ← (if requested == uuid_Nil then
          latest ← catch (query (GetLatestWorkspaceBuildByWorkspaceID workspaceID))
            (internal "Internal error fetching the latest workspace build.");
          mret latest.(WorkspaceBuild_TemplateVersionID)
        else mret requested);
  catch (query (GetTemplateVersionByID id))
    (λ err, if errors_Is err ErrNoRows
            then Write StatusBadRequest (mkResponse "Template version not found." EmptyString
                   [mkValidationError "template_version_id" "template version not found"])
            else internal "Internal error fetching template version." err).

Definition postWorkspaceBuilds (r : Request) (workspace : Workspace)
    (body : json_body CreateWorkspaceBuildRequest) : Handler unit :=
  apiKey ← get (httpmw_APIKey r);
  req ← Read body;
  action ← transition_action req.(CreateWorkspaceBuildRequest_Transition);
  _ ← authorize r action (Workspace_RBACObject workspace) ResourceNotFound;
  templateVersion ← build_version workspace.(Workspace_ID) req.(CreateWorkspaceBuildRequest_TemplateVersionID);
  template ← catch (query (GetTemplateByID (null_val templateVersion.(TemplateVersion_TemplateID))))
    (internal "Failed to get template");
  state ← custom_state r template req;
  versionJob ← catch (query (GetProvisionerJobByID templateVersion.(TemplateVersion_JobID)))
    (internal "Internal error fetching provisioner job.");
  apiVersionJob ← run (convertProvisionerJob versionJob);
  _ ← check_import apiVersionJob.(sdkProvisionerJob_Status)
    ("The provided template version " +:+ quote templateVersion.(TemplateVersion_Name)
       +:+ " has failed to import: " +:+ quote (null_val versionJob.(ProvisionerJob_Error))
       +:+ ". You cannot build workspaces with it!")
    "The provided template version was canceled during import. You cannot builds workspaces with it!";
  prior ← prior_build workspace.(Workspace_ID);
  inserted ← catch (insert_build {|
      new_workspace := workspace;
      new_template := template;
      new_version := templateVersion;
      new_versionJob := versionJob;
      new_initiator := apiKey.(APIKey_UserID);
      new_number := int32_wrap (prior.1 + 1);
      new_transition := req.(CreateWorkspaceBuildRequest_Transition);
      new_state := default prior.2 state;
      new_tags := MutateTags workspace.(Workspace_OwnerID) versionJob.(ProvisionerJob_Tags) |}
    req.(CreateWorkspaceBuildRequest_ParameterValues))
    (internal "Internal error inserting workspace build.");
  let '(workspaceBuild, provisionerJob) := inserted in
  us ← catch (query (GetUsersByIDs [workspace.(Workspace_OwnerID); workspaceBuild.(WorkspaceBuild_InitiatorID)]))
    (internal "Internal error getting user.");
  apiBuild ← catch (convertWorkspaceBuild workspaceBuild workspace provisionerJob us [] [] [] [] TemplateVersion_zero)
    (internal "Internal error converting workspace build.");
  _ ← run (publishWorkspaceUpdate workspace.(Workspace_ID));
  reply StatusCreated (BodyWorkspaceBuild apiBuild).

(** Everybody may cancel if the template says so, otherwise owners. *)
Definition verifyUserCanCancelWorkspaceBuilds (userID templateID : uuid) : GoM world bool :=
  t ← attempt (query (GetTemplateByID templateID));
  match t with
  | inl _ => throw (ErrNew "no template exists for this workspace")
  | inr template =>
      if template.(Template_AllowUserCancelWorkspaceJobs) then mret true else
      u ← attempt (query (GetUserByID userID));
      match u with
      | inl _ => throw (ErrNew "user does not exist")
      | inr user => mret (bool_decide (RoleOwner ∈ user.(User_RBACRoles)))
      end
  end.

(** A job no daemon has taken is completed by its cancelation. *)
Definition patchCancelWorkspaceBuild (r : Request) (build : WorkspaceBuild) : Handler unit :=
  workspace ← build_workspace build;
  _ ← authorize r ActionUpdate (Workspace_RBACObject workspace) ResourceNotFound;
  apiKey ← get (httpmw_APIKey r);
  valid ← catch (verifyUserCanCancelWorkspaceBuilds apiKey.(APIKey_UserID) workspace.(Workspace_TemplateID))
    (internal "Internal error verifying permission to cancel workspace build.");
  _ ← require valid (Write StatusForbidden (message
    "User is not allowed to cancel workspace builds. Owner role is required."));
  job ← build_job build;
  _ ← require (negb (Valid job.(ProvisionerJob_CompletedAt)))
    (Write StatusPreconditionFailed (message "Job has already completed!"));
  _ ← require (negb (Valid job.(ProvisionerJob_CanceledAt)))
    (Write StatusPreconditionFailed (message "Job has already been marked as canceled!"));
  canceledAt ← run Now;
  completedAt ← run Now;
  _ ← catch (store (UpdateProvisionerJobWithCancelByID {|
      UpdateProvisionerJobWithCancelByIDParams_ID := job.(ProvisionerJob_ID);
      UpdateProvisionerJobWithCancelByIDParams_CanceledAt := mkNull canceledAt true;
      UpdateProvisionerJobWithCancelByIDParams_CompletedAt :=
        mkNull completedAt (negb (Valid job.(ProvisionerJob_WorkerID))) |}))
    (internal "Internal error updating provisioner job.");
  _ ← run (publishWorkspaceUpdate workspace.(Workspace_ID));
  Write StatusOK (message "Job has been marked as canceled...").
End builds.
