(* ===== verification/ApiWorkspaces.v ===== *)
(** * The API: workspaces

    [coderd/workspaces.go]. [watchWorkspace], which streams events, is left out,
    and so are the telemetry reports. *)

From Stdlib Require Import Ascii.
From stdpp Require Import prelude gmap strings.
From S2P Require Import Prelude Encoding Schedule Rbac Models Queries ModelMethods Store StoreUsers.
From S2P Require Import StoreJobs StoreTemplates StoreWorkspaces World ProvisionerdServer.
From S2P Require Import Auditing Sdk Http HttpMw QueryParams Api ApiUsers ApiJobs ApiBuilds.

Local Open Scope Z_scope.

(** ** Validation *)

Definition ttlMin : duration := Minute.
Definition ttlMax : duration := 7 * 24 * Hour.

Definition errTTLMin : error := ErrNew "time until shutdown must be at least one minute".
Definition errTTLMax : error := ErrNew "time until shutdown must be less than 7 days".
Definition errDeadlineTooSoon : error := ErrNew "new deadline must be at least 30 minutes in the future".
Definition errDeadlineBeforeStart : error := ErrNew "new deadline must be before workspace start time".

Definition Millisecond : duration := 1000 * Microsecond.

(** [Duration.Truncate]: toward zero. *)
Definition Duration_Truncate (d m : duration) : duration := if m <=? 0 then d else d - Z.rem d m.
(** [Duration.Milliseconds] *)
Definition Milliseconds (d : duration) : Z := Z.quot d Millisecond.

(** [ptr.NilOrZero], [ptr.NilOrEmpty] *)
Definition NilOrZero (v : option Z) : bool := match v with Some n => n =? 0 | None => true end.
Definition NilOrEmpty (s : option string) : bool :=
  match s with Some s => s == EmptyString | None => true end.

Definition convertWorkspaceTTLMillis (i : nullable Z) : option Z :=
  if negb (Valid i) then None else Some (Milliseconds (null_val i)).

(** The product is on 64 bits. *)
Definition validWorkspaceTTLMillis (millis : option Z) (def : Z) : res (nullable Z) :=
  if NilOrZero millis then
    if def =? 0 then Ok (null_of 0) else Ok (mkNull def true)
  else
    let dur := int64_wrap (default 0 millis * Millisecond) in
    let truncated := Duration_Truncate dur Minute in
    if truncated <? ttlMin then Err errTTLMin
    else if ttlMax <? truncated then Err errTTLMax
    else Ok (mkNull truncated true).

Definition validWorkspaceDeadline `{!Environment} (startedAt newDeadline : time) : GoM world unit :=
  now ← time_Now;
  if Before newDeadline (Add now (29 * Minute)) then throw errDeadlineTooSoon
  else if Before newDeadline startedAt then throw errDeadlineBeforeStart
  else mret tt.

Definition validWorkspaceSchedule `{!Cron} (s : option string) : res (nullable string) :=
  if NilOrEmpty s then Ok (null_of EmptyString)
  else _ ← Weekly (default EmptyString s); Ok (mkNull (default EmptyString s) true).

(** [strconv.ParseBool] *)
Definition ParseBool (s : string) : res bool :=
  if bool_decide (s ∈ ["1"; "t"; "T"; "TRUE"; "true"; "True"]) then Ok true
  else if bool_decide (s ∈ ["0"; "f"; "F"; "FALSE"; "false"; "False"]) then Ok false
  else Err (syntax_error "ParseBool" s).

(** ** Search *)

(** The search parameters of the elements of a query. *)
Fixpoint workspace_search_params (elements : list string) (searchParams : url_Values) :
    list ValidationError + url_Values :=
  match elements with
  | [] => inr searchParams
  | element :: elements =>
      match splitQueryParameterByDelimiter element ":"%char false with
      | [_] =>
          match splitQueryParameterByDelimiter element "/"%char false with
          | [name] => workspace_search_params elements (url_Set "name" name searchParams)
          | [owner; name] =>
              workspace_search_params elements (url_Set "name" name (url_Set "owner" owner searchParams))
          | _ => inl [mkValidationError "q" ("Query element " +:+ quote element +:+ " can only contain 1 '/'")]
          end
      | [k; v] => workspace_search_params elements (url_Set k v searchParams)
      | _ => inl [mkValidationError "q" ("Query element " +:+ quote element +:+ " can only contain 1 ':'")]
      end
  end.

Definition workspaceSearchQuery (query : string) (page : sdkPagination)
    (agentInactiveDisconnectTimeout : duration) : GetWorkspacesParams * list ValidationError :=
  let filter := GetWorkspacesParams_zero
    <| GetWorkspacesParams_AgentInactiveDisconnectTimeoutSeconds := Z.quot agentInactiveDisconnectTimeout Second |>
    <| GetWorkspacesParams_Offset := int32_wrap page.(sdkPagination_Offset) |>
    <| GetWorkspacesParams_Limit := int32_wrap page.(sdkPagination_Limit) |> in
  if query == EmptyString then (filter, []) else
  match workspace_search_params (splitQueryParameterByDelimiter (ToLower query) " "%char true) ∅ with
  | inl errs => (GetWorkspacesParams_zero, errs)
  | inr searchParams =>
      (filter <| GetWorkspacesParams_OwnerUsername := query_String searchParams EmptyString "owner" |>
              <| GetWorkspacesParams_TemplateName := query_String searchParams EmptyString "template" |>
              <| GetWorkspacesParams_Name := query_String searchParams EmptyString "name" |>
              <| GetWorkspacesParams_Status := query_String searchParams EmptyString "status" |>
              <| GetWorkspacesParams_HasAgent := query_String searchParams EmptyString "has-agent" |>, [])
  end.

(** ** Data and conversions *)

Record workspaceData := mkworkspaceData {
  wdata_templates : list Template;
  wdata_builds : list sdkWorkspaceBuild;
  wdata_users : list User;
}.

Section workspaces.
Context `{!Environment, !UuidText, !Authorizer, !Auditor, !Tailnet, !RFC3339, !Cron}.
Context `{!Validate CreateWorkspaceRequest, !Validate UpdateWorkspaceRequest}.
Context `{!Validate UpdateWorkspaceAutostartRequest, !Validate UpdateWorkspaceTTLRequest}.
Context `{!Validate PutExtendWorkspaceRequest}.
Context (api : Options).

Definition api_workspaceData (ws : list Workspace) : GoM world workspaceData :=
  templates ← rows_or_empty "get templates" (query (GetTemplatesWithFilter
    (mkGetTemplatesWithFilterParams false uuid_Nil EmptyString (Workspace_TemplateID <$> ws))));
  builds ← rows_or_empty "get workspace builds"
    (query (GetLatestWorkspaceBuildsByWorkspaceIDs (Workspace_ID <$> ws)));
  d ← wrap "get workspace builds data" (api_workspaceBuildsData ws builds);
  apiBuilds ← wrap "convert workspace builds" (convertWorkspaceBuilds api builds ws d);
  mret (mkworkspaceData templates apiBuilds d.(data_users)).

(** A missing owner is a nil pointer. *)
Definition convertWorkspace (workspace : Workspace) (build : sdkWorkspaceBuild) (template : Template)
    (owner : option User) : res sdkWorkspace :=
  match owner with
  | None => Panic "runtime error: invalid memory address or nil pointer dereference"
  | Some owner => Ok {|
      sdkWorkspace_ID := workspace.(Workspace_ID);
      sdkWorkspace_CreatedAt := workspace.(Workspace_CreatedAt);
      sdkWorkspace_UpdatedAt := workspace.(Workspace_UpdatedAt);
      sdkWorkspace_OwnerID := workspace.(Workspace_OwnerID);
      sdkWorkspace_OwnerName := owner.(User_Username);
      sdkWorkspace_TemplateID := workspace.(Workspace_TemplateID);
      sdkWorkspace_TemplateName := template.(Template_Name);
      sdkWorkspace_TemplateDisplayName := template.(Template_DisplayName);
      sdkWorkspace_TemplateIcon := template.(Template_Icon);
      sdkWorkspace_TemplateAllowUserCancelWorkspaceJobs := template.(Template_AllowUserCancelWorkspaceJobs);
      sdkWorkspace_LatestBuild := build;
      sdkWorkspace_Outdated :=
        uuid_String build.(sdkWorkspaceBuild_TemplateVersionID) != uuid_String template.(Template_ActiveVersionID);
      sdkWorkspace_Name := workspace.(Workspace_Name);
      sdkWorkspace_AutostartSchedule := ptr_of workspace.(Workspace_AutostartSchedule);
      sdkWorkspace_TTLMillis := convertWorkspaceTTLMillis workspace.(Workspace_Ttl);
      sdkWorkspace_LastUsedAt := workspace.(Workspace_LastUsedAt) |}
  end.

(** Most recently used first, the unused ones by name. *)
Definition workspace_less (iw jw : sdkWorkspace) : bool :=
  if IsZero jw.(sdkWorkspace_LastUsedAt) && IsZero iw.(sdkWorkspace_LastUsedAt)
  then string_lt iw.(sdkWorkspace_Name) jw.(sdkWorkspace_Name)
  else After iw.(sdkWorkspace_LastUsedAt) jw.(sdkWorkspace_LastUsedAt).

Definition convertWorkspaces (ws : list Workspace) (d : workspaceData) : res (list sdkWorkspace) :=
  let buildByWorkspaceID := by_id sdkWorkspaceBuild_WorkspaceID d.(wdata_builds) in
  let templateByID := by_id Template_ID d.(wdata_templates) in
  let userByID := by_id User_ID d.(wdata_users) in
  apiWorkspaces ← mapM (M := res) (λ workspace,
    match buildByWorkspaceID !! workspace.(Workspace_ID) with
    | None => Err (ErrNew ("build not found for workspace " +:+ quote workspace.(Workspace_Name)))
    | Some build =>
    match templateByID !! workspace.(Workspace_TemplateID) with
    | None => Err (ErrNew ("template not found for workspace " +:+ quote workspace.(Workspace_Name)))
    | Some template =>
    match userByID !! workspace.(Workspace_OwnerID) with
    | None => Err (ErrNew ("owner not found for workspace: " +:+ quote workspace.(Workspace_Name)))
    | Some owner => convertWorkspace workspace build template (Some owner)
    end end end) ws;
  Ok (sort_by workspace_less apiWorkspaces).

(** ** Reading workspaces *)

Definition reply_workspace (workspace : Workspace) : Handler unit :=
  d ← catch (api_workspaceData [workspace]) (internal "Internal error fetching workspace resources.");
  build ← get (index0 d.(wdata_builds));
  template ← get (index0 d.(wdata_templates));
  apiWorkspace ← get (convertWorkspace workspace build template
                        (findUser workspace.(Workspace_OwnerID) d.(wdata_users)));
  reply StatusOK (BodyWorkspace apiWorkspace).

Definition include_deleted (r : Request) (field : string) : Handler bool :=
  let s := url_Get r.(URL_Query) "include_deleted" in
  if s == EmptyString then mret false else
  match ParseBool s with
  | Ok b => mret b
  | _ => Write StatusBadRequest (mkResponse ("Invalid boolean value " +:+ quote s +:+ " for "
           +:+ quote "include_deleted" +:+ " query param.") EmptyString
           [mkValidationError field "Must be a valid boolean"])
  end.

Definition api_workspace (r : Request) (workspace : Workspace) : Handler unit :=
  _ ← authorize r ActionRead (Workspace_RBACObject workspace) ResourceNotFound;
  showDeleted ← include_deleted r "deleted";
  _ ← require (negb (workspace.(Workspace_Deleted) && negb showDeleted))
    (Write StatusGone (message ("Workspace " +:+ quote (uuid_String workspace.(Workspace_ID))
       +:+ " was deleted, you can view this workspace by specifying '?deleted=true' and trying again.")));
  reply_workspace workspace.

Definition api_workspaces (r : Request) : Handler unit :=
  apiKey ← get (httpmw_APIKey r);
  page ← parsePagination r;
  let '(filter, errs) := workspaceSearchQuery (url_Get r.(URL_Query) "q") page
                           api.(AgentInactiveDisconnectTimeout) in
  _ ← require (errs == [])
    (Write StatusBadRequest (mkResponse "Invalid workspace search query." EmptyString errs));
  let filter := if filter.(GetWorkspacesParams_OwnerUsername) == "me"
                then filter <| GetWorkspacesParams_OwnerID := apiKey.(APIKey_UserID) |>
                            <| GetWorkspacesParams_OwnerUsername := EmptyString |>
                else filter in
  prepared ← catch (lift_res (AuthorizeSQLFilter r ActionRead ResourceWorkspace.(Object_Type)))
    (internal "Internal error preparing sql filter.");
  rows ← catch (query_now (λ now, GetAuthorizedWorkspaces now filter (Some prepared)))
    (internal "Internal error fetching workspaces.");
  match rows with
  | [] => reply StatusOK (BodyWorkspaces (mkWorkspacesResponse [] 0))
  | row0 :: _ =>
      let ws := ConvertWorkspaceRows rows in
      d ← catch (api_workspaceData ws) (internal "Internal error fetching workspace resources.");
      wss ← catch (lift_res (convertWorkspaces ws d)) (internal "Internal error converting workspaces.");
      reply StatusOK (BodyWorkspaces (mkWorkspacesResponse wss row0.(GetWorkspacesRow_Count)))
  end.

Definition workspaceByOwnerAndName (r : Request) (owner : User) : Handler unit :=
  let workspaceName := URLParam r "workspacename" in
  includeDeleted ← include_deleted r "include_deleted";
  let named deleted := query (GetWorkspaceByOwnerIDAndName
    (mkGetWorkspaceByOwnerIDAndNameParams owner.(User_ID) deleted workspaceName)) in
  workspace ← catch (named false) (λ err,
    if includeDeleted && errors_Is err ErrNoRows
    then catch (named includeDeleted) (not_found_or "Internal error fetching workspace by name.")
    else not_found_or "Internal error fetching workspace by name." err);
  _ ← authorize r ActionRead (Workspace_RBACObject workspace) ResourceNotFound;
  reply_workspace workspace.

(** ** Creating a workspace *)

(** The transaction: the workspace, the parameters that have a value, and the job
    and build that start it. *)
Definition insert_workspace (template : Template) (templateVersion : TemplateVersion)
    (versionJob : ProvisionerJob) (ownerID initiatorID : uuid) (req : CreateWorkspaceRequest)
    (autostart : nullable string) (ttl : nullable Z) :
    GoM world (Workspace * WorkspaceBuild * ProvisionerJob) :=
  now ← Now;
  workspaceBuildID ← uuid_New;
  workspaceID ← uuid_New;
  workspace ← wrap "insert workspace" (store (InsertWorkspace {|
    InsertWorkspaceParams_ID := workspaceID;
    InsertWorkspaceParams_CreatedAt := now;
    InsertWorkspaceParams_UpdatedAt := now;
    InsertWorkspaceParams_OwnerID := ownerID;
    InsertWorkspaceParams_OrganizationID := template.(Template_OrganizationID);
    InsertWorkspaceParams_TemplateID := template.(Template_ID);
    InsertWorkspaceParams_Name := req.(CreateWorkspaceRequest_Name);
    InsertWorkspaceParams_AutostartSchedule := autostart;
    InsertWorkspaceParams_Ttl := ttl |}));
  _ ← for_each req.(CreateWorkspaceRequest_ParameterValues) (λ param,
    if param.(CreateParameterRequest_SourceValue) == EmptyString then mret tt
    else insert_workspace_param now workspace.(Workspace_ID) param);
  jobID ← uuid_New;
  provisionerJob ← wrap "insert provisioner job" (store (InsertProvisionerJob {|
    InsertProvisionerJobParams_ID := jobID;
    InsertProvisionerJobParams_CreatedAt := now;
    InsertProvisionerJobParams_UpdatedAt := now;
    InsertProvisionerJobParams_OrganizationID := template.(Template_OrganizationID);
    InsertProvisionerJobParams_InitiatorID := initiatorID;
    InsertProvisionerJobParams_Provisioner := template.(Template_Provisioner);
    InsertProvisionerJobParams_StorageMethod := versionJob.(ProvisionerJob_StorageMethod);
    InsertProvisionerJobParams_FileID := versionJob.(ProvisionerJob_FileID);
    InsertProvisionerJobParams_Type := ProvisionerJobTypeWorkspaceBuild;
    InsertProvisionerJobParams_Input :=
      marshal_WorkspaceProvisionJob (mkWorkspaceProvisionJob workspaceBuildID false);
    InsertProvisionerJobParams_Tags := MutateTags ownerID versionJob.(ProvisionerJob_Tags) |}));
  workspaceBuild ← wrap "insert workspace build" (store (InsertWorkspaceBuild {|
    InsertWorkspaceBuildParams_ID := workspaceBuildID;
    InsertWorkspaceBuildParams_CreatedAt := now;
    InsertWorkspaceBuildParams_UpdatedAt := now;
    InsertWorkspaceBuildParams_WorkspaceID := workspace.(Workspace_ID);
    InsertWorkspaceBuildParams_TemplateVersionID := templateVersion.(TemplateVersion_ID);
    InsertWorkspaceBuildParams_BuildNumber := 1;
    InsertWorkspaceBuildParams_Transition := WorkspaceTransitionStart;
    InsertWorkspaceBuildParams_InitiatorID := initiatorID;
    InsertWorkspaceBuildParams_JobID := provisionerJob.(ProvisionerJob_ID);
    InsertWorkspaceBuildParams_ProvisionerState := [];
    InsertWorkspaceBuildParams_Deadline := time_zero;
    InsertWorkspaceBuildParams_Reason := BuildReasonInitiator |}));
  mret (workspace, workspaceBuild, provisionerJob).

(** The template to create from: there, not deleted, readable, of the organization. *)
Definition create_template (r : Request) (organization : Organization) (templateID : uuid) : Handler Template :=
  template ← catch (query (GetTemplateByID templateID))
    (λ err, if errors_Is err ErrNoRows
            then Write StatusBadRequest (mkResponse ("Template " +:+ quote (uuid_String templateID)
                   +:+ " doesn't exist.") EmptyString [mkValidationError "template_id" "template not found"])
            else internal "Internal error fetching template." err);
  _ ← require (negb template.(Template_Deleted))
    (Write StatusNotFound (message ("Template " +:+ quote template.(Template_Name) +:+ " has been deleted!")));
  _ ← authorize r ActionRead (Template_RBACObject template) ResourceNotFound;
  _ ← require (organization.(Organization_ID) == template.(Template_OrganizationID))
    (Write StatusUnauthorized (message ("Template is not in organization "
       +:+ quote organization.(Organization_Name) +:+ ".")));
  mret template.

(** No live workspace of the owner has the name. *)
Definition name_is_free (ownerID : uuid) (name : string) : Handler unit :=
  existing ← attempt_h (query (GetWorkspaceByOwnerIDAndName
    (mkGetWorkspaceByOwnerIDAndNameParams ownerID false name)));
  match existing with
  | inr _ => Write StatusConflict (mkResponse ("Workspace " +:+ quote name +:+ " already exists.") EmptyString
               [mkValidationError "name" "This value is already in use and should be unique."])
  | inl err => if errors_Is err ErrNoRows then mret tt
               else internal ("Internal error fetching workspace by name " +:+ quote name +:+ ".") err
  end.

Definition invalid {A} (msg field : string) (err : error) : Handler A :=
  Write StatusBadRequest (mkResponse msg EmptyString [mkValidationError field (error_string err)]).

Definition postWorkspacesByOrganization (r : Request) (organization : Organization) (user : User)
    (body : json_body CreateWorkspaceRequest) : Handler unit :=
  apiKey ← get (httpmw_APIKey r);
  InitRequest r AuditActionCreate (AuditWorkspace Workspace_zero) (λ aReq,
    _ ← authorize r ActionCreate
          (WithOwner (uuid_String user.(User_ID)) (InOrg organization.(Organization_ID) ResourceWorkspace))
          ResourceNotFound;
    req ← Read body;
    template ← create_template r organization req.(CreateWorkspaceRequest_TemplateID);
    autostart ← catch (lift_res (validWorkspaceSchedule req.(CreateWorkspaceRequest_AutostartSchedule)))
      (invalid "Invalid Autostart Schedule." "schedule");
    ttl ← catch (lift_res (validWorkspaceTTLMillis req.(CreateWorkspaceRequest_TTLMillis)
                             template.(Template_DefaultTTL)))
      (invalid "Invalid Workspace Time to Shutdown." "ttl_ms");
    _ ← name_is_free user.(User_ID) req.(CreateWorkspaceRequest_Name);
    templateVersion ← catch (query (GetTemplateVersionByID template.(Template_ActiveVersionID)))
      (internal "Internal error fetching template version.");
    versionJob ← catch (query (GetProvisionerJobByID templateVersion.(TemplateVersion_JobID)))
      (internal "Internal error fetching template version job.");
    apiVersionJob ← run (convertProvisionerJob versionJob);
    _ ← check_import apiVersionJob.(sdkProvisionerJob_Status)
      ("The provided template version " +:+ quote templateVersion.(TemplateVersion_Name)
         +:+ " has failed to import. You cannot create workspaces using it!")
      "The provided template version was canceled during import. You cannot create workspaces using it!";
    inserted ← catch (insert_workspace template templateVersion versionJob
                        user.(User_ID) apiKey.(APIKey_UserID) req autostart ttl)
      (internal "Internal error creating workspace.");
    let '(workspace, workspaceBuild, provisionerJob) := inserted in
    _ ← set_New aReq (AuditWorkspace workspace);
    us ← catch (query (GetUsersByIDs [user.(User_ID); workspaceBuild.(WorkspaceBuild_InitiatorID)]))
      (internal "Internal error fetching user.");
    apiBuild ← catch (convertWorkspaceBuild api workspaceBuild workspace provisionerJob us [] [] [] []
                        TemplateVersion_zero)
      (internal "Internal error converting workspace build.");
    apiWorkspace ← get (convertWorkspace workspace apiBuild template (findUser user.(User_ID) us));
    reply StatusCreated (BodyWorkspace apiWorkspace)).

(** ** Changing a workspace *)

(** The second test of the name always holds here. *)
Definition patchWorkspace (r : Request) (workspace : Workspace) (body : json_body UpdateWorkspaceRequest) :
    Handler unit :=
  InitRequest r AuditActionWrite (AuditWorkspace Workspace_zero) (λ aReq,
    _ ← set_Old aReq (AuditWorkspace workspace);
    _ ← authorize r ActionUpdate (Workspace_RBACObject workspace) ResourceNotFound;
    req ← Read body;
    let name := req.(UpdateWorkspaceRequest_Name) in
    if (name == EmptyString) || (name == workspace.(Workspace_Name)) then
      _ ← set_New aReq (AuditWorkspace workspace);
      reply StatusNoContent BodyNone
    else
    newWorkspace ← catch (store (UpdateWorkspace (mkUpdateWorkspaceParams workspace.(Workspace_ID) name)))
      (λ err,
        if errors_Is err ErrNoRows
        then Write StatusMethodNotAllowed (message ("Workspace " +:+ quote workspace.(Workspace_Name)
               +:+ " is deleted and cannot be updated."))
        else if errors_Is err ErrDuplicateKey
        then Write StatusConflict (mkResponse ("Workspace " +:+ quote name +:+ " already exists.") EmptyString
               [mkValidationError "name" "This value is already in use and should be unique."])
        else internal "Internal error updating workspace." err);
    _ ← run (publishWorkspaceUpdate workspace.(Workspace_ID));
    _ ← set_New aReq (AuditWorkspace newWorkspace);
    reply StatusNoContent BodyNone).

Definition putWorkspaceAutostart (r : Request) (workspace : Workspace)
    (body : json_body UpdateWorkspaceAutostartRequest) : Handler unit :=
  InitRequest r AuditActionWrite (AuditWorkspace Workspace_zero) (λ aReq,
    _ ← set_Old aReq (AuditWorkspace workspace);
    _ ← authorize r ActionUpdate (Workspace_RBACObject workspace) ResourceNotFound;
    req ← Read body;
    dbSched ← catch (lift_res (validWorkspaceSchedule req.(UpdateWorkspaceAutostartRequest_Schedule)))
      (invalid "Invalid autostart schedule." "schedule");
    _ ← catch (store (UpdateWorkspaceAutostart (mkUpdateWorkspaceAutostartParams workspace.(Workspace_ID) dbSched)))
      (internal "Internal error updating workspace autostart schedule.");
    _ ← set_New aReq (AuditWorkspace (workspace <| Workspace_AutostartSchedule := dbSched |>));
    reply StatusNoContent BodyNone).

(** The transaction assigns a variable of its own: the audited value is the zero
    value of the outer one. *)
Definition putWorkspaceTTL (r : Request) (workspace : Workspace) (body : json_body UpdateWorkspaceTTLRequest) :
    Handler unit :=
  InitRequest r AuditActionWrite (AuditWorkspace Workspace_zero) (λ aReq,
    _ ← set_Old aReq (AuditWorkspace workspace);
    _ ← authorize r ActionUpdate (Workspace_RBACObject workspace) ResourceNotFound;
    req ← Read body;
    dbTTL ← catch (lift_res (validWorkspaceTTLMillis req.(UpdateWorkspaceTTLRequest_TTLMillis) 0))
      (invalid "Error updating workspace time until shutdown." "ttl_ms");
    _ ← catch (wrap "update workspace time until shutdown"
                 (store (UpdateWorkspaceTTL (mkUpdateWorkspaceTTLParams workspace.(Workspace_ID) dbTTL))))
      (internal "Error updating workspace time until shutdown.");
    _ ← set_New aReq (AuditWorkspace (workspace <| Workspace_Ttl := null_of 0 |>));
    reply StatusNoContent BodyNone).

(** The transaction that extends the deadline: the response to write. *)
Definition extend_deadline (workspaceID : uuid) (newDeadline : time) : GoM world (Z * string) :=
  b ← attempt (query (GetLatestWorkspaceBuildByWorkspaceID workspaceID));
  match b with
  | inl _ => mret (StatusInternalServerError, "Error fetching workspace build.")
  | inr build =>
  j ← attempt (query (GetProvisionerJobByID build.(WorkspaceBuild_JobID)));
  match j with
  | inl _ => mret (StatusInternalServerError, "Error fetching workspace provisioner job.")
  | inr job =>
  if build.(WorkspaceBuild_Transition) != WorkspaceTransitionStart then
    mret (StatusConflict, "Workspace must be started, current status: "
            +:+ WorkspaceTransition_string build.(WorkspaceBuild_Transition))
  else if negb (Valid job.(ProvisionerJob_CompletedAt)) then
    mret (StatusConflict, "Workspace is still building!")
  else if IsZero build.(WorkspaceBuild_Deadline) then
    mret (StatusConflict, "Workspace shutdown is manual.")
  else
  v ← attempt (validWorkspaceDeadline (null_val job.(ProvisionerJob_CompletedAt)) newDeadline);
  match v with
  | inl err => mret (StatusBadRequest, "Cannot extend workspace: " +:+ error_string err)
  | inr _ =>
  u ← attempt (store (UpdateWorkspaceBuildByID {|
    UpdateWorkspaceBuildByIDParams_ID := build.(WorkspaceBuild_ID);
    UpdateWorkspaceBuildByIDParams_UpdatedAt := build.(WorkspaceBuild_UpdatedAt);
    UpdateWorkspaceBuildByIDParams_ProvisionerState := build.(WorkspaceBuild_ProvisionerState);
    UpdateWorkspaceBuildByIDParams_Deadline := newDeadline |}));
  match u with
  | inl _ => mret (StatusInternalServerError, "Failed to extend workspace deadline.")
  | inr _ => mret (StatusOK, "Deadline updated to " +:+ rfc3339_Format newDeadline +:+ ".")
  end end end end.

Definition putExtendWorkspace (r : Request) (workspace : Workspace) (body : json_body PutExtendWorkspaceRequest) :
    Handler unit :=
  _ ← authorize r ActionUpdate (Workspace_RBACObject workspace) ResourceNotFound;
  req ← Read body;
  outcome ← run (extend_deadline workspace.(Workspace_ID) req.(PutExtendWorkspaceRequest_Deadline));
  _ ← run (publishWorkspaceUpdate workspace.(Workspace_ID));
  Write outcome.1 (message outcome.2).
End workspaces.
