(* ===== verification/ApiTemplates.v ===== *)
(** * The API: templates

    [coderd/templates.go], and the creation of the first user
    ([coderd/users.go]), which imports templates. The metrics cache
    ([coderd/metricscache]) is a background job the handlers only read, and a
    parameter; so are the names of [moby/namesgenerator] and the embedded archives
    of [examples]. Telemetry reports are left out. *)

From Stdlib Require Import Ascii.
From stdpp Require Import prelude gmap strings.
From S2P Require Import Prelude Encoding Cryptorand UserPassword Schedule Rbac Models Queries.
From S2P Require Import ModelMethods Store StoreUsers StoreOrgs StoreMisc StoreJobs StoreTemplates.
From S2P Require Import StoreWorkspaces World ProvisionerdServer Auditing Sdk Http HttpMw.
From S2P Require Import QueryParams Api ApiUsers ApiJobs ApiBuilds ApiWorkspaces.

Local Open Scope Z_scope.

Class MetricsCache := {
  TemplateUniqueUsers : uuid → Z;
  TemplateBuildTimeStats : uuid → list (WorkspaceTransition * TransitionStats);
  TemplateDAUs : uuid → option TemplateDAUsResponse;
}.

(** [namesgenerator.GetRandomName(1)]: the name of a call. *)
Class NamesGenerator := random_name : nat → string.
Definition GetRandomName `{!NamesGenerator} : GoM world string := λ w,
  (Ok (random_name w.(randoms)), w <| randoms := S w.(randoms) |>).

(** [xerrors.Errorf("msg: %s", err)], which does not wrap the error. *)
Definition wrap_text {S A} (msg : string) (m : GoM S A) : GoM S A := λ s,
  match m s with
  | (Err e, s') => (Err (ErrNew (msg +:+ ": " +:+ error_string e)), s')
  | r => r
  end.

(** [time.Duration(n) * time.Millisecond] on 64 bits. *)
Definition millis (n : Z) : duration := int64_wrap (n * Millisecond).

(** [uint32(n)] *)
Definition uint32_of (n : Z) : Z := n mod 2 ^ 32.

Section templates.
Context `{!Environment, !UuidText, !Authorizer, !Auditor, !MetricsCache, !NamesGenerator}.
Context `{!Validate CreateTemplateRequest, !Validate UpdateTemplateMeta}.

(** ** Conversions *)

Definition convertTemplate (template : Template) (workspaceOwnerCount : Z) (createdByName : string) :
    sdkTemplate := {|
  sdkTemplate_ID := template.(Template_ID);
  sdkTemplate_CreatedAt := template.(Template_CreatedAt);
  sdkTemplate_UpdatedAt := template.(Template_UpdatedAt);
  sdkTemplate_OrganizationID := template.(Template_OrganizationID);
  sdkTemplate_Name := template.(Template_Name);
  sdkTemplate_DisplayName := template.(Template_DisplayName);
  sdkTemplate_Provisioner := template.(Template_Provisioner);
  sdkTemplate_ActiveVersionID := template.(Template_ActiveVersionID);
  sdkTemplate_WorkspaceOwnerCount := workspaceOwnerCount;
  sdkTemplate_ActiveUserCount := TemplateUniqueUsers template.(Template_ID);
  sdkTemplate_BuildTimeStats := TemplateBuildTimeStats template.(Template_ID);
  sdkTemplate_Description := template.(Template_Description);
  sdkTemplate_Icon := template.(Template_Icon);
  sdkTemplate_DefaultTTLMillis := Milliseconds template.(Template_DefaultTTL);
  sdkTemplate_CreatedByID := template.(Template_CreatedBy);
  sdkTemplate_CreatedByName := createdByName;
  sdkTemplate_AllowUserCancelWorkspaceJobs := template.(Template_AllowUserCancelWorkspaceJobs) |}.

(** The names of the creators, by the text of the template's ID. *)
Fixpoint created_by_names (q : data) (ts : list Template) (creators : gmap string string) :
    res (gmap string string) :=
  match ts with
  | [] => Ok creators
  | template :: ts =>
      creator ← GetUserByID template.(Template_CreatedBy) q;
      created_by_names q ts (<[uuid_String template.(Template_ID) := creator.(User_Username)]> creators)
  end.
Definition getCreatedByNamesByTemplateIDs (ts : list Template) (q : data) : res (gmap string string) :=
  created_by_names q ts ∅.

Definition created_by (m : gmap string string) (template : Template) : string :=
  default EmptyString (m !! uuid_String template.(Template_ID)).

(** The count of a template is that of the first row about it, or zero. The
    templates with the most active users come first. *)
Definition convertTemplates (ts : list Template) (counts : list GetWorkspaceOwnerCountsByTemplateIDsRow)
    (createdByNameMap : gmap string string) : list sdkTemplate :=
  let count_of template :=
    match find_first (λ c, uuid_String c.(GetWorkspaceOwnerCountsByTemplateIDsRow_TemplateID)
                           == uuid_String template.(Template_ID)) counts with
    | Some c => uint32_of c.(GetWorkspaceOwnerCountsByTemplateIDsRow_Count)
    | None => 0
    end in
  sort_by (λ a b, b.(sdkTemplate_ActiveUserCount) <? a.(sdkTemplate_ActiveUserCount))
    ((λ template, convertTemplate template (count_of template) (created_by createdByNameMap template)) <$> ts).

Definition first_count (counts : list GetWorkspaceOwnerCountsByTemplateIDsRow) : Z :=
  match counts with c :: _ => uint32_of c.(GetWorkspaceOwnerCountsByTemplateIDsRow_Count) | [] => 0 end.

(** ** Reading templates *)

(** The reply of one template; the message about its count is the caller's. *)
Definition reply_template (count_msg : string) (template : Template) : Handler unit :=
  counts ← or_empty count_msg (query (GetWorkspaceOwnerCountsByTemplateIDs [template.(Template_ID)]));
  names ← catch (query (getCreatedByNamesByTemplateIDs [template])) (internal "Internal error fetching creator name.");
  reply StatusOK (BodyTemplate (convertTemplate template (first_count counts) (created_by names template))).

Definition api_template (r : Request) (template : Template) : Handler unit :=
  _ ← authorize r ActionRead (Template_RBACObject template) ResourceNotFound;
  reply_template "Internal error fetching workspace count." template.

Definition templatesByOrganization (r : Request) (organization : Organization) : Handler unit :=
  prepared ← catch (lift_res (AuthorizeSQLFilter r ActionRead ResourceTemplate.(Object_Type)))
    (internal "Internal error preparing sql filter.");
  ts ← or_empty "Internal error fetching templates in organization."
    (query (GetAuthorizedTemplates
       (mkGetTemplatesWithFilterParams false organization.(Organization_ID) EmptyString []) (Some prepared)));
  counts ← or_empty "Internal error fetching workspace counts."
    (query (GetWorkspaceOwnerCountsByTemplateIDs (Template_ID <$> ts)));
  names ← catch (query (getCreatedByNamesByTemplateIDs ts)) (internal "Internal error fetching creator names.");
  reply StatusOK (BodyTemplates (convertTemplates ts counts names)).

Definition templateByOrganizationAndName (r : Request) (organization : Organization) : Handler unit :=
  template ← catch (query (GetTemplateByOrganizationAndName
      (mkGetTemplateByOrganizationAndNameParams organization.(Organization_ID) false (URLParam r "templatename"))))
    (not_found_or "Internal error fetching template.");
  _ ← authorize r ActionRead (Template_RBACObject template) ResourceNotFound;
  reply_template "Internal error fetching workspace counts." template.

Definition templateDAUs (r : Request) (template : Template) : Handler unit :=
  _ ← authorize r ActionRead (Template_RBACObject template) ResourceNotFound;
  reply StatusOK (BodyTemplateDAUs
    (default (mkTemplateDAUsResponse []) (TemplateDAUs template.(Template_ID)))).

(** ** Changing templates *)

(** A template some live workspace uses stays. *)
Definition deleteTemplate (r : Request) (template : Template) : Handler unit :=
  InitRequest r AuditActionDelete (AuditTemplate Template_zero) (λ aReq,
    _ ← set_Old aReq (AuditTemplate template);
    _ ← authorize r ActionDelete (Template_RBACObject template) ResourceNotFound;
    ws ← or_empty "Internal error fetching workspaces by template id."
      (query_now (λ now, GetWorkspaces now
         (GetWorkspacesParams_zero <| GetWorkspacesParams_TemplateIds := [template.(Template_ID)] |>)));
    _ ← require (bool_decide (ws = [])) (Write StatusPreconditionFailed (message
      "All workspaces must be deleted before a template can be removed."));
    now ← run Now;
    _ ← catch (store (UpdateTemplateDeletedByID (mkUpdateTemplateDeletedByIDParams template.(Template_ID) true now)))
      (internal "Internal error deleting template.");
    Write StatusOK (message "Template has been deleted!")).

(** A parameter of the template. The scope is read from the response that is
    not filled in yet: it is the zero ID. *)
Definition insert_template_param (param : CreateParameterRequest) : GoM world unit :=
  id ← uuid_New;
  created ← Now;
  updated ← Now;
  void (wrap "insert parameter value" (store (InsertParameterValue {|
    InsertParameterValueParams_ID := id;
    InsertParameterValueParams_Name := param.(CreateParameterRequest_Name);
    InsertParameterValueParams_CreatedAt := created;
    InsertParameterValueParams_UpdatedAt := updated;
    InsertParameterValueParams_Scope := ParameterScopeTemplate;
    InsertParameterValueParams_ScopeID := uuid_Nil;
    InsertParameterValueParams_SourceScheme := param.(CreateParameterRequest_SourceScheme);
    InsertParameterValueParams_SourceValue := param.(CreateParameterRequest_SourceValue);
    InsertParameterValueParams_DestinationScheme := param.(CreateParameterRequest_DestinationScheme) |}))).

(** [InsertTemplate] of the transaction of [postTemplateByOrganization]: everybody
    in the organization may read the new template. *)
Definition insert_template (organizationID userID : uuid) (req : CreateTemplateRequest)
    (templateVersion : TemplateVersion) (importJob : ProvisionerJob) (ttl : duration) : GoM world Template :=
  now ← Now;
  id ← uuid_New;
  wrap_text "insert template" (store (InsertTemplate {|
    InsertTemplateParams_ID := id;
    InsertTemplateParams_CreatedAt := now;
    InsertTemplateParams_UpdatedAt := now;
    InsertTemplateParams_OrganizationID := organizationID;
    InsertTemplateParams_Name := req.(CreateTemplateRequest_Name);
    InsertTemplateParams_Provisioner := importJob.(ProvisionerJob_Provisioner);
    InsertTemplateParams_ActiveVersionID := templateVersion.(TemplateVersion_ID);
    InsertTemplateParams_Description := req.(CreateTemplateRequest_Description);
    InsertTemplateParams_DefaultTTL := ttl;
    InsertTemplateParams_CreatedBy := userID;
    InsertTemplateParams_Icon := req.(CreateTemplateRequest_Icon);
    InsertTemplateParams_UserACL := ∅;
    InsertTemplateParams_GroupACL := {[uuid_String organizationID := [ActionRead]]};
    InsertTemplateParams_DisplayName := req.(CreateTemplateRequest_DisplayName);
    InsertTemplateParams_AllowUserCancelWorkspaceJobs :=
      default false req.(CreateTemplateRequest_AllowUserCancelWorkspaceJobs) |})).

(** No template of the organization has the name. *)
Definition template_name_is_free (organizationID : uuid) (name : string) : Handler unit :=
  existing ← attempt_h (query (GetTemplateByOrganizationAndName
    (mkGetTemplateByOrganizationAndNameParams organizationID false name)));
  match existing with
  | inr _ => Write StatusConflict (mkResponse ("Template with name " +:+ quote name +:+ " already exists.")
               EmptyString [mkValidationError "name" "This value is already in use and should be unique."])
  | inl err => if errors_Is err ErrNoRows then mret tt
               else internal "Internal error fetching template by name." err
  end.

Definition postTemplateByOrganization (r : Request) (organization : Organization)
    (body : json_body CreateTemplateRequest) : Handler unit :=
  apiKey ← get (httpmw_APIKey r);
  InitRequest r AuditActionCreate (AuditTemplate Template_zero) (λ templateAudit,
  InitRequest r AuditActionWrite (AuditTemplateVersion TemplateVersion_zero) (λ templateVersionAudit,
    let failed {A} : error → Handler A := internal "Internal error inserting template." in
    _ ← authorize r ActionCreate (InOrg organization.(Organization_ID) ResourceTemplate) ResourceNotFound;
    req ← Read body;
    _ ← template_name_is_free organization.(Organization_ID) req.(CreateTemplateRequest_Name);
    let versionID := req.(CreateTemplateRequest_VersionID) in
    templateVersion ← catch (query (GetTemplateVersionByID versionID))
      (λ err, if errors_Is err ErrNoRows
              then Write StatusNotFound (mkResponse ("Template version " +:+ quote (uuid_String versionID)
                     +:+ " does not exist.") EmptyString
                     [mkValidationError "template_version_id" "Template version does not exist"])
              else internal "Internal error fetching template version." err);
    _ ← set_Old templateVersionAudit (AuditTemplateVersion templateVersion);
    importJob ← catch (query (GetProvisionerJobByID templateVersion.(TemplateVersion_JobID)))
      (internal "Internal error fetching provisioner job.");
    let ttl := match req.(CreateTemplateRequest_DefaultTTLMillis) with Some n => millis n | None => 0 end in
    _ ← require (negb (ttl <? 0)) (Write StatusBadRequest (mkResponse "Invalid create template request." EmptyString
          [mkValidationError "default_ttl_ms" "Must be a positive integer."]));
    dbTemplate ← catch (insert_template organization.(Organization_ID) apiKey.(APIKey_UserID) req
                          templateVersion importJob ttl) failed;
    _ ← set_New templateAudit (AuditTemplate dbTemplate);
    now ← run Now;
    _ ← catch (wrap_text "insert template version" (store (UpdateTemplateVersionByID
          (mkUpdateTemplateVersionByIDParams templateVersion.(TemplateVersion_ID)
             (non_null dbTemplate.(Template_ID)) now)))) failed;
    _ ← set_New templateVersionAudit (AuditTemplateVersion
          (templateVersion <| TemplateVersion_TemplateID := non_null dbTemplate.(Template_ID) |>));
    _ ← catch (for_each req.(CreateTemplateRequest_ParameterValues) insert_template_param) failed;
    names ← catch (wrap "get creator name" (query (getCreatedByNamesByTemplateIDs [dbTemplate]))) failed;
    reply StatusCreated (BodyTemplate (convertTemplate dbTemplate 0 (created_by names dbTemplate))))).

(** The request asks for what the template has already. *)
Definition meta_unchanged (template : Template) (req : UpdateTemplateMeta) : bool :=
  (req.(UpdateTemplateMeta_Name) == template.(Template_Name))
  && (req.(UpdateTemplateMeta_Description) == template.(Template_Description))
  && (req.(UpdateTemplateMeta_DisplayName) == template.(Template_DisplayName))
  && (req.(UpdateTemplateMeta_Icon) == template.(Template_Icon))
  && (req.(UpdateTemplateMeta_AllowUserCancelWorkspaceJobs) == template.(Template_AllowUserCancelWorkspaceJobs))
  && (req.(UpdateTemplateMeta_DefaultTTLMillis) == Milliseconds template.(Template_DefaultTTL)).

(** The transaction of [patchTemplateMeta]: the count, and the template if it
    was updated. An empty name or description is not overwritten. *)
Definition update_meta (template : Template) (req : UpdateTemplateMeta) : GoM world (Z * option Template) :=
  c ← attempt (query (GetWorkspaceOwnerCountsByTemplateIDs [template.(Template_ID)]));
  counts ← match c with
           | inr l => mret l
           | inl e => if errors_Is e ErrNoRows then mret [] else throw e
           end;
  if meta_unchanged template req then mret (first_count counts, None) else
  let keep old new := if new == EmptyString then old else new in
  updatedAt ← Now;
  now ← time_Now;
  updated ← store (UpdateTemplateMetaByID now {|
    UpdateTemplateMetaByIDParams_ID := template.(Template_ID);
    UpdateTemplateMetaByIDParams_UpdatedAt := updatedAt;
    UpdateTemplateMetaByIDParams_Description :=
      keep template.(Template_Description) req.(UpdateTemplateMeta_Description);
    UpdateTemplateMetaByIDParams_DefaultTTL := millis req.(UpdateTemplateMeta_DefaultTTLMillis);
    UpdateTemplateMetaByIDParams_Name := keep template.(Template_Name) req.(UpdateTemplateMeta_Name);
    UpdateTemplateMetaByIDParams_Icon := req.(UpdateTemplateMeta_Icon);
    UpdateTemplateMetaByIDParams_DisplayName := req.(UpdateTemplateMeta_DisplayName);
    UpdateTemplateMetaByIDParams_AllowUserCancelWorkspaceJobs :=
      req.(UpdateTemplateMeta_AllowUserCancelWorkspaceJobs) |});
  mret (first_count counts, Some updated).

(** The update is recognised by its time: one at the zero time is not. *)
Definition patchTemplateMeta (r : Request) (template : Template) (body : json_body UpdateTemplateMeta) :
    Handler unit :=
  InitRequest r AuditActionWrite (AuditTemplate Template_zero) (λ aReq,
    _ ← set_Old aReq (AuditTemplate template);
    _ ← authorize r ActionUpdate (Template_RBACObject template) ResourceNotFound;
    req ← Read body;
    _ ← require (negb (req.(UpdateTemplateMeta_DefaultTTLMillis) <? 0))
      (Write StatusBadRequest (mkResponse "Invalid request to update template metadata!" EmptyString
         [mkValidationError "default_ttl_ms" "Must be a positive integer."]));
    result ← catch (update_meta template req) InternalServerError;
    let updated := default Template_zero result.2 in
    if IsZero updated.(Template_UpdatedAt) then
      _ ← set_New aReq (AuditTemplate template);
      reply StatusNotModified BodyNone
    else
      _ ← set_New aReq (AuditTemplate updated);
      names ← catch (query (getCreatedByNamesByTemplateIDs [updated])) (internal "Internal error fetching creator name.");
      reply StatusOK (BodyTemplate (convertTemplate updated result.1 (created_by names updated)))).
End templates.

(** ** Importing templates for the first user *)

Section first_user.
Context `{!Environment, !UuidText, !Pbkdf2, !Sha256, !SSHKeygen, !NamesGenerator}.
Context `{!Validate CreateFirstUserRequest}.
Context (api : Options).
(** The embedded archive of an example, and the namespace of the pod, if the
    server runs in one. *)
Context (examples_Archive : string → res bytes) (namespace : option string).

Record autoImportTemplateOpts := mkautoImportTemplateOpts {
  opts_name : string;
  opts_archive : bytes;
  opts_params : list (string * string);
  opts_userID : uuid;
  opts_orgID : uuid;
}.

(** The parameters at a scope, in the order the map is ranged over. *)
Definition import_params (what : string) (now : time) (scope : ParameterScope) (scopeID : uuid)
    (params : list (string * string)) : GoM world unit :=
  for_each params (λ kv,
    id ← uuid_New;
    void (wrap ("insert " +:+ what +:+ "-scoped parameter " +:+ quote kv.1 +:+ " with value " +:+ quote kv.2)
      (store (InsertParameterValue {|
        InsertParameterValueParams_ID := id;
        InsertParameterValueParams_Name := kv.1;
        InsertParameterValueParams_CreatedAt := now;
        InsertParameterValueParams_UpdatedAt := now;
        InsertParameterValueParams_Scope := scope;
        InsertParameterValueParams_ScopeID := scopeID;
        InsertParameterValueParams_SourceScheme := ParameterSourceSchemeData;
        InsertParameterValueParams_SourceValue := kv.2;
        InsertParameterValueParams_DestinationScheme := ParameterDestinationSchemeProvisionerVariable |})))).

Definition autoImportTemplate (opts : autoImportTemplateOpts) : GoM world Template :=
  now ← Now;
  fileID ← uuid_New;
  file ← wrap "insert auto-imported template archive into files table" (store (InsertFile {|
    InsertFileParams_ID := fileID;
    InsertFileParams_Hash := hex_EncodeToString (sha256_Sum256 opts.(opts_archive));
    InsertFileParams_CreatedAt := now;
    InsertFileParams_CreatedBy := opts.(opts_userID);
    InsertFileParams_Mimetype := "application/x-tar";
    InsertFileParams_Data := opts.(opts_archive) |}));
  jobID ← uuid_New;
  _ ← import_params "job" now ParameterScopeImportJob jobID opts.(opts_params);
  job ← wrap "insert provisioner job" (store (InsertProvisionerJob {|
    InsertProvisionerJobParams_ID := jobID;
    InsertProvisionerJobParams_CreatedAt := now;
    InsertProvisionerJobParams_UpdatedAt := now;
    InsertProvisionerJobParams_OrganizationID := opts.(opts_orgID);
    InsertProvisionerJobParams_InitiatorID := opts.(opts_userID);
    InsertProvisionerJobParams_Provisioner := ProvisionerTypeTerraform;
    InsertProvisionerJobParams_StorageMethod := ProvisionerStorageMethodFile;
    InsertProvisionerJobParams_FileID := file.(File_ID);
    InsertProvisionerJobParams_Type := ProvisionerJobTypeTemplateVersionImport;
    InsertProvisionerJobParams_Input := RawValue (JObject []);
    InsertProvisionerJobParams_Tags := ∅ |}));
  versionID ← uuid_New;
  versionName ← GetRandomName;
  templateVersion ← wrap "insert template version" (store (InsertTemplateVersion {|
    InsertTemplateVersionParams_ID := versionID;
    InsertTemplateVersionParams_TemplateID := null_of uuid_Nil;
    InsertTemplateVersionParams_OrganizationID := opts.(opts_orgID);
    InsertTemplateVersionParams_CreatedAt := now;
    InsertTemplateVersionParams_UpdatedAt := now;
    InsertTemplateVersionParams_Name := versionName;
    InsertTemplateVersionParams_Readme := EmptyString;
    InsertTemplateVersionParams_JobID := job.(ProvisionerJob_ID);
    InsertTemplateVersionParams_CreatedBy := opts.(opts_userID) |}));
  templateID ← uuid_New;
  template ← wrap "insert template" (store (InsertTemplate {|
    InsertTemplateParams_ID := templateID;
    InsertTemplateParams_CreatedAt := now;
    InsertTemplateParams_UpdatedAt := now;
    InsertTemplateParams_OrganizationID := opts.(opts_orgID);
    InsertTemplateParams_Name := opts.(opts_name);
    InsertTemplateParams_Provisioner := job.(ProvisionerJob_Provisioner);
    InsertTemplateParams_ActiveVersionID := templateVersion.(TemplateVersion_ID);
    InsertTemplateParams_Description := "This template was auto-imported by Coder.";
    InsertTemplateParams_DefaultTTL := 0;
    InsertTemplateParams_CreatedBy := opts.(opts_userID);
    InsertTemplateParams_Icon := EmptyString;
    InsertTemplateParams_UserACL := ∅;
    InsertTemplateParams_GroupACL := {[uuid_String opts.(opts_orgID) := [ActionRead]]};
    InsertTemplateParams_DisplayName := EmptyString;
    InsertTemplateParams_AllowUserCancelWorkspaceJobs := false |}));
  _ ← wrap_text "update template version to set template ID" (store (UpdateTemplateVersionByID
    (mkUpdateTemplateVersionByIDParams templateVersion.(TemplateVersion_ID) (non_null template.(Template_ID)) time_zero)));
  _ ← import_params "template" now ParameterScopeTemplate template.(Template_ID) opts.(opts_params);
  mret template.

(** The parameters of the one template that can be imported. *)
Definition kubernetes_params : list (string * string) :=
  match namespace with
  | None => [("use_kubeconfig", "true"); ("namespace", "coder-workspaces")]
  | Some ns => [("use_kubeconfig", "false"); ("namespace", ns)]
  end.

Definition auto_import (user : User) (organizationID : uuid) (template : string) : Handler unit :=
  archive ← catch (wrap ("load template archive for " +:+ quote template) (lift_res (examples_Archive template)))
    (internal "Internal error importing template.");
  _ ← require (template == "kubernetes") (Write StatusInternalServerError (with_detail
        "Internal error importing template." ("cannot auto-import " +:+ quote template +:+ " template")));
  _ ← catch (wrap ("failed to import template " +:+ quote template)
               (autoImportTemplate (mkautoImportTemplateOpts template archive kubernetes_params
                                      user.(User_ID) organizationID)))
    (internal "Internal error importing template.");
  mret tt.

(** The first user is an owner. *)
Definition postFirstUser (body : json_body CreateFirstUserRequest) : Handler unit :=
  req ← Read body;
  userCount ← catch (query GetUserCount) (internal "Internal error fetching user count.");
  _ ← require (userCount == 0) (Write StatusConflict (message "The initial user has already been created."));
  _ ← match api.(TrialGenerator) with
      | Some generate =>
          if req.(CreateFirstUserRequest_Trial)
          then catch (lift_res (generate req.(CreateFirstUserRequest_Email))) (internal "Failed to generate trial")
          else mret tt
      | None => mret tt
      end;
  created ← catch (CreateUser api (mkapi_CreateUserRequest {|
        CreateUserRequest_Email := req.(CreateFirstUserRequest_Email);
        CreateUserRequest_Username := req.(CreateFirstUserRequest_Username);
        CreateUserRequest_Password := req.(CreateFirstUserRequest_Password);
        CreateUserRequest_OrganizationID := uuid_Nil |} LoginTypePassword))
    (internal "Internal error creating user.");
  let '(user, organizationID) := created in
  _ ← catch (store (UpdateUserRoles (mkUpdateUserRolesParams [RoleOwner] user.(User_ID))))
    (internal "Internal error updating user's roles.");
  _ ← each api.(AutoImportTemplates) (auto_import user organizationID);
  reply StatusCreated (BodyFirstUser (mkCreateFirstUserResponse user.(User_ID) organizationID)).
End first_user.
