(* ===== verification/ApiApps.v ===== *)
(** * The API: applications of workspaces

    [coderd/workspaceapps.go]: requests for an application come on a path or on a
    subdomain, are authorized by the sharing level of the application, and are passed
    on to the agent. What is passed on is the outcome of a handler: what the
    application answers is not modelled, nor is the network between. The encryption of
    API keys is that of a third-party library. *)

From Stdlib Require Import Ascii.
From stdpp Require Import prelude gmap strings pretty.
From S2P Require Import Prelude Encoding Cryptorand UserPassword Rbac Models Net NetUrl Queries ModelMethods Store.
From S2P Require Import StoreUsers StoreMisc StoreWorkspaces World Auditing Sdk Http HttpMw QueryParams AppUrl RealIP Api ApiUsers ApiKeys.

Local Open Scope Z_scope.

Definition StatusBadGateway : Z := 502.
Definition subdomainProxyAPIKeyParam : string := "coder_application_connect_api_key_35e783".
Definition redirectURIQueryParam : string := "redirect_uri".
Definition MinimumListeningPort : Z := 9.

(** The options of the applications; a compiled pattern is the text after its
    asterisk. *)
Record AppOptions := mkAppOptions {
  AppHostname : string;
  AppHostnameRegex : option string;
  AccessURL : url_URL;
  api_RealIPConfig : option RealIPConfig;
}.

Record encryptedAPIKeyPayload := mkPayload { payload_APIKey : string; payload_ExpiresAt : time }.

(** JSON web encryption, where [n] stands for the nonce, and the JSON text of the
    payload. A text that was encrypted names its key and is decrypted by it. *)
Class Jose := {
  jwe_Encrypt : nat → string → bytes → string → res string;
  jwe_ParseEncrypted : string → res (string * (bytes → res string));
  payload_Marshal : encryptedAPIKeyPayload → res string;
  payload_Unmarshal : string → res encryptedAPIKeyPayload;
}.
Class JoseLaws `{!Jose} := {
  jwe_decrypts : ∀ n keyID key text s, jwe_Encrypt n keyID key text = Ok s →
    ∃ decrypt, jwe_ParseEncrypted s = Ok (keyID, decrypt) ∧ decrypt key = Ok text;
  payload_round : ∀ p text, payload_Marshal p = Ok text → payload_Unmarshal text = Ok p;
}.

(** What an application is sent: the agent it runs on, the URL there, the request. *)
Record proxied := mkProxied { proxied_Agent : uuid; proxied_URL : url_URL; proxied_Request : Request }.

Record proxyApplication := mkProxyApplication {
  proxy_Workspace : Workspace;
  proxy_Agent : WorkspaceAgent;
  proxy_App : option WorkspaceApp;
  proxy_Port : Z;
  proxy_Path : string;
}.

Section apps.
Context `{!Environment, !UuidText, !Authorizer, !Pbkdf2, !Sha256, !TimeText, !OAuth2Configs, !Jose}.
Context (api : Options) (o : AppOptions).
(** The error of dialing an agent, if there is one. *)
Context (Acquire : uuid → option error).

Definition appHost : Handler unit :=
  let port := url_Port o.(AccessURL) in
  reply StatusOK (BodyAppHost (mkGetAppHostResponse
    (if port != EmptyString then o.(AppHostname) +:+ ":" +:+ port else o.(AppHostname)))).

(** [site.RenderStaticErrorPage] *)
Definition render {A} (status : Z) (title description : string) (retry : bool) : Handler A :=
  reply status (BodyPage (mkErrorPageData status title description retry (url_String o.(AccessURL)))).
Definition renderApplicationNotFound {A} : Handler A :=
  render StatusNotFound "Application Not Found"
    "The application or workspace you are trying to access does not exist or you do not have permission to access it." false.

Definition lookupWorkspaceApp (agentID : uuid) (appSlug : string) : Handler WorkspaceApp :=
  catch (query (GetWorkspaceAppByAgentIDAndSlug (mkGetWorkspaceAppByAgentIDAndSlugParams agentID appSlug)))
    (λ err, if errors_Is err ErrNoRows then renderApplicationNotFound
            else render StatusInternalServerError "Internal Server Error"
                   ("Could not fetch workspace application: " +:+ error_string err) true).

(** ** Authorization *)

(** The sharing level; none is that of the owner. *)
Definition sharing_level (app : option WorkspaceApp) : AppSharingLevel :=
  match app with
  | Some app => if app.(WorkspaceApp_SharingLevel) != AppSharingLevel_other EmptyString
                then app.(WorkspaceApp_SharingLevel) else AppSharingLevelOwner
  | None => AppSharingLevelOwner
  end.

(** The check of the roles and the scope, without groups. *)
Definition may_connect (roles : Authorization) (object : Object) : res bool :=
  scope ← ToRBAC roles.(Authorization_Scope);
  match ByRoleName (uuid_String roles.(Authorization_ID)) roles.(Authorization_Roles) scope [] ActionCreate object with
  | Ok _ => Ok true
  | Err _ => Ok false
  | Panic p => Panic p
  end.

Definition authorizeWorkspaceApp (r : Request) (sharingLevel : AppSharingLevel) (workspace : Workspace) : res bool :=
  match r.(context_Authorization) with
  | None => Ok (sharingLevel == AppSharingLevelPublic)
  | Some roles =>
      ok ← may_connect roles (Workspace_ApplicationConnectRBAC workspace);
      if (ok : bool) then Ok true
      else match sharingLevel with
           | AppSharingLevelAuthenticated =>
               may_connect roles (WithOwner (uuid_String roles.(Authorization_ID)) ResourceWorkspaceApplicationConnect)
           | AppSharingLevelPublic => Ok true
           | _ => Ok false
           end
  end.

Definition fetchWorkspaceApplicationAuth (r : Request) (workspace : Workspace) (appSharingLevel : AppSharingLevel) :
    Handler bool :=
  match authorizeWorkspaceApp r appSharingLevel workspace with
  | Err _ => render StatusInternalServerError "Internal Server Error"
               "Could not verify authorization. Please try again or contact an administrator." true
  | ok => get ok
  end.

Definition checkWorkspaceApplicationAuth (r : Request) (workspace : Workspace) (appSharingLevel : AppSharingLevel) :
    Handler unit :=
  authed ← fetchWorkspaceApplicationAuth r workspace appSharingLevel;
  require authed renderApplicationNotFound.

(** ** API keys in query parameters *)

Definition encryptAPIKey (data : encryptedAPIKeyPayload) : GoM world string :=
  if data.(payload_APIKey) == EmptyString then throw (ErrNew "API key is empty")
  else
  expires ← (if IsZero data.(payload_ExpiresAt) then now ← Now; mret (Add now Minute) else mret data.(payload_ExpiresAt));
  payload ← wrap "marshal payload" (lift_res (payload_Marshal (mkPayload data.(payload_APIKey) expires)));
  ids ← wrap "split API key" (lift_res (SplitAPIToken data.(payload_APIKey)));
  let '(keyID, keySecret) := ids in
  encrypted ← wrap "encrypt jwe" (λ w,
    (jwe_Encrypt w.(randoms) keyID (sha256_Sum256 (bytes_of keySecret)) payload, w <| randoms := S w.(randoms) |>));
  mret (b64url_encode (bytes_of encrypted)).

Definition decryptAPIKey (encryptedAPIKey : string) : GoM world (APIKey * string) :=
  match b64url_decode encryptedAPIKey with
  | None => throw (ErrWrap "base64 decode encrypted API key" (ErrNew "illegal base64 data"))
  | Some encrypted =>
      object ← wrap "parse encrypted API key" (lift_res (jwe_ParseEncrypted (string_of encrypted)));
      let '(keyID, decrypt) := object in
      key ← wrap "get API key by key ID" (query (GetAPIKeyByID keyID));
      decrypted ← wrap "decrypt API key" (lift_res (decrypt key.(APIKey_HashedSecret)));
      payload ← wrap "unmarshal decrypted payload" (lift_res (payload_Unmarshal decrypted));
      now ← Now;
      if Before payload.(payload_ExpiresAt) now then throw (ErrNew "encrypted API key expired")
      else
      got ← wrap "split API key" (lift_res (SplitAPIToken payload.(payload_APIKey)));
      let '(gotKeyID, gotKeySecret) := got in
      if (gotKeyID != key.(APIKey_ID)) || (key.(APIKey_HashedSecret) != sha256_Sum256 (bytes_of gotKeySecret))
      then throw (ErrNew "encrypted API key does not match key in database")
      else mret (key, payload.(payload_APIKey))
  end.

(** ** Passing a request on *)

Definition redirect {A} (location : string) : Handler A :=
  reply StatusTemporaryRedirect (BodyRedirect EmptyString location).
(** The URL of a request, without scheme and host. *)
Definition request_url (r : Request) : url_URL :=
  url_zero <| url_Path := r.(URL_Path) |> <| url_RawQuery := r.(RawQuery) |>.

(** The request without the cookies of the dashboard. *)
Definition strip_cookies (r : Request) : Request :=
  r <| CookieHeaders := StripCoderCookies <$> r.(CookieHeaders) |>
    <| Cookies := filter (λ c, coder_cookie c.1 = false) r.(Cookies) |>.

(** A port that is reserved is refused. *)
Definition check_port (internalURL : string) (appURL : url_URL) : Handler unit :=
  let port := url_Port appURL in
  if port == EmptyString then mret tt
  else match Atoi port with
       | Ok portInt =>
           require (negb (portInt <? MinimumListeningPort)) (Write StatusBadRequest (message
             ("Application port " +:+ Itoa portInt +:+ " is not permitted. Coder reserves ports less than " +:+
              Itoa MinimumListeningPort +:+ " for internal use.")))
       | Err err => Write StatusBadRequest (with_detail
             ("App URL " +:+ quote internalURL +:+ " has an invalid port " +:+ quote port +:+ ".") (error_string err))
       | Panic p => get (Panic p)
       end.

Definition proxyWorkspaceApplication (proxyApp : proxyApplication) (r : Request) : Handler proxied :=
  _ ← checkWorkspaceApplicationAuth r proxyApp.(proxy_Workspace) (sharing_level proxyApp.(proxy_App));
  let r := FilterUntrustedOriginHeaders o.(api_RealIPConfig) r in
  r ← catch (lift_res (EnsureXForwardedForHeader r)) InternalServerError;
  internalURL ← match proxyApp.(proxy_App) with
                | Some app =>
                    if Valid app.(WorkspaceApp_Url) then mret (null_val app.(WorkspaceApp_Url))
                    else render StatusBadRequest "Bad Request"
                           ("Application " +:+ quote app.(WorkspaceApp_Slug) +:+ " does not have a URL set.") true
                | None => mret ("http://127.0.0.1:" +:+ Itoa proxyApp.(proxy_Port))
                end;
  appURL ← catch (lift_res (url_Parse internalURL))
    (λ err, render StatusBadRequest "Bad Request"
              ("Application has an invalid URL " +:+ quote internalURL +:+ ": " +:+ error_string err) true);
  _ ← check_port internalURL appURL;
  if proxyApp.(proxy_Path) == EmptyString then redirect (r.(URL_Path) +:+ "/")
  else if (proxyApp.(proxy_Path) == "/") && (r.(RawQuery) == EmptyString) && (appURL.(url_RawQuery) != EmptyString)
  then redirect (url_String ((request_url r) <| url_RawQuery := appURL.(url_RawQuery) |>))
  else
  let r := r <| URL_Path := proxyApp.(proxy_Path) |> in
  match Acquire proxyApp.(proxy_Agent).(WorkspaceAgent_ID) with
  | Some err => render StatusBadGateway "Bad Gateway" ("Could not connect to workspace agent: " +:+ error_string err) true
  | None => mret (mkProxied proxyApp.(proxy_Agent).(WorkspaceAgent_ID) (appURL <| url_RawQuery := EmptyString |>)
                    (strip_cookies r))
  end.

(** ** Applications on a path *)

Definition app_path (r : Request) : string :=
  let chiPath := URLParam r "*" in
  let basePath := default r.(URL_Path) (strip_suffix r.(URL_Path) chiPath) in
  if ends_with basePath "/"%char then "/" +:+ chiPath else chiPath.

Definition workspaceAppsProxyPath (r : Request) (workspace : Workspace) (agent : WorkspaceAgent) : Handler proxied :=
  app ← lookupWorkspaceApp agent.(WorkspaceAgent_ID) (URLParam r "workspaceapp");
  authed ← fetchWorkspaceApplicationAuth r workspace (sharing_level (Some app));
  if negb authed then
    if bool_decide (is_Some r.(context_APIKey)) then renderApplicationNotFound
    else RedirectToLogin r SignedOutErrorMessage
  else
  proxyWorkspaceApplication (mkProxyApplication workspace agent (Some app) 0 (app_path r)) r.

(** The route [/@{user}/{workspace_and_agent}/apps/{workspaceapp}/*]. *)
Definition optional_key : ExtractAPIKeyConfig := mkExtractAPIKeyConfig false true.
Definition path_app (r : Request) : Handler proxied :=
  ExtractAPIKey optional_key r (λ r,
    ExtractUserParam true r (λ user,
      ExtractWorkspaceAndAgentParam r user (workspaceAppsProxyPath r))).

(** ** Applications on a subdomain *)

(** Set the cookie for the subdomains and take the key out of the query. *)
Definition exchange_key (r : Request) (encryptedAPIKey : string) : Handler unit :=
  key ← catch (decryptAPIKey encryptedAPIKey)
    (λ _, render StatusBadRequest "Bad Request"
            "Could not decrypt API key. Please remove the query parameter and try again." false);
  match SplitN 2 o.(AppHostname) "."%char with
  | [_; domain] =>
      _ ← SetCookie (mkCookie DevURLSessionTokenCookie key.2 "/" ("." +:+ domain) 0 true api.(SecureAuthCookie));
      let path := if r.(URL_Path) == EmptyString then "/" else r.(URL_Path) in
      let rawQuery := Values_Encode (delete subdomainProxyAPIKeyParam r.(URL_Query)) in
      redirect (if rawQuery != EmptyString then path +:+ "?" +:+ rawQuery else path)
  | _ => render StatusInternalServerError "Internal Server Error"
           "The app is configured with an invalid app wildcard hostname. Please contact an administrator." false
  end.

Definition verifyWorkspaceApplicationSubdomainAuth (r : Request) (host : string) (workspace : Workspace)
    (appSharingLevel : AppSharingLevel) : Handler unit :=
  authed ← fetchWorkspaceApplicationAuth r workspace appSharingLevel;
  if (authed : bool) then mret tt
  else if bool_decide (is_Some r.(context_APIKey)) then renderApplicationNotFound
  else
  let encryptedAPIKey := url_Get r.(URL_Query) subdomainProxyAPIKeyParam in
  if encryptedAPIKey != EmptyString then exchange_key r encryptedAPIKey
  else
  let redirectURI := (request_url r) <| url_Scheme := o.(AccessURL).(url_Scheme) |> <| url_Host := host |> in
  let u := o.(AccessURL) <| url_Path := "/api/v2/applications/auth-redirect" |> in
  let q := ParseQuery u.(url_RawQuery) in
  let q := <[redirectURIQueryParam := default [] (q !! redirectURIQueryParam) ++ [url_String redirectURI]]> q in
  redirect (url_String (u <| url_RawQuery := Values_Encode q |>)).

(** [None] when the rest of the router serves the request. *)
Definition parseWorkspaceApplicationHostname (pattern host : string) : Handler (option ApplicationURL) :=
  if HostnamesMatch (url_Hostname o.(AccessURL)) host then mret None
  else if negb (has_char "."%char host) then mret None
  else match ExecuteHostnamePattern pattern host with
       | None => mret None
       | Some subdomain =>
           match ParseSubdomainAppURL subdomain with
           | Ok app => mret (Some app)
           | Err err => render StatusBadRequest "Invalid application URL"
                          ("Could not parse subdomain application URL " +:+ quote subdomain +:+ ": " +:+ error_string err) false
           | Panic p => get (Panic p)
           end
       end.

(** The handler behind the middleware. *)
Definition subdomain_app (host : string) (app : ApplicationURL) (r : Request) (workspace : Workspace)
    (agent : WorkspaceAgent) : Handler proxied :=
  workspaceApp ← (if app.(ApplicationURL_AppSlug) != EmptyString
                  then found ← lookupWorkspaceApp agent.(WorkspaceAgent_ID) app.(ApplicationURL_AppSlug); mret (Some found)
                  else mret None);
  _ ← verifyWorkspaceApplicationSubdomainAuth r host workspace (sharing_level workspaceApp);
  proxyWorkspaceApplication (mkProxyApplication workspace agent workspaceApp app.(ApplicationURL_Port) r.(URL_Path)) r.

Definition handleSubdomainApplications (r : Request) : Handler (option proxied) :=
  match o.(AppHostnameRegex) with
  | Some pattern =>
      if o.(AppHostname) == EmptyString then mret None
      else
      let host := RequestHost r in
      if host == EmptyString then
        if r.(URL_Path) == "/derp" then mret None
        else Write StatusBadRequest (message "Could not determine request Host.")
      else
      app ← parseWorkspaceApplicationHostname pattern host;
      match app with
      | None => mret None
      | Some app =>
          let r := r <| URLParams := <["user" := app.(ApplicationURL_Username)]>
            (<["workspace_and_agent" := app.(ApplicationURL_WorkspaceName) +:+ "." +:+ app.(ApplicationURL_AgentName)]>
              r.(URLParams)) |> in
          p ← ExtractAPIKey optional_key r (λ r,
            ExtractUserParam false r (λ user,
              ExtractWorkspaceAndAgentParam r user (subdomain_app host app r)));
          mret (Some p)
      end
  | None => mret None
  end.

(** ** A key for the subdomains *)

Definition week : duration := 24 * 7 * Hour.
(** When the key expires: with the session, but within a week. *)
Definition app_key_expiry (apiKey : APIKey) : GoM world time :=
  exp ← (if IsZero apiKey.(APIKey_ExpiresAt) then now ← Now; mret (Add now (24 * Hour)) else mret apiKey.(APIKey_ExpiresAt));
  now ← time_Now;
  if week <? Sub exp now then now ← Now; mret (Add now week) else mret exp.

Definition workspaceApplicationAuth (r : Request) : Handler unit :=
  if o.(AppHostname) == EmptyString
  then Write StatusNotFound (message "The server does not accept subdomain-based application requests.")
  else
  apiKey ← get (httpmw_APIKey r);
  _ ← authorize r ActionCreate (WithOwner (uuid_String apiKey.(APIKey_UserID)) ResourceAPIKey) ResourceNotFound;
  let redirectURI := url_Get r.(URL_Query) redirectURIQueryParam in
  if redirectURI == EmptyString
  then Write StatusBadRequest (message "Missing redirect_uri query parameter.")
  else
  u ← catch (lift_res (url_Parse redirectURI))
    (λ err, Write StatusBadRequest (with_detail "Invalid redirect_uri query parameter." (error_string err)));
  let u := u <| url_Scheme := o.(AccessURL).(url_Scheme) |> in
  pattern ← get (match o.(AppHostnameRegex) with
                 | Some pattern => Ok pattern
                 | None => Panic "invalid memory address or nil pointer dereference"
                 end);
  match ExecuteHostnamePattern pattern u.(url_Host) with
  | None => Write StatusBadRequest (message "The redirect_uri query parameter must be a valid app subdomain.")
  | Some subdomain =>
      _ ← catch (lift_res (ParseSubdomainAppURL subdomain))
        (λ err, Write StatusBadRequest (with_detail
           "The redirect_uri query parameter must be a valid app subdomain." (error_string err)));
      exp ← run (app_key_expiry apiKey);
      let lifetime := apiKey.(APIKey_LifetimeSeconds) in
      cookie ← catch (createAPIKey api {|
          createAPIKeyParams_UserID := apiKey.(APIKey_UserID);
          createAPIKeyParams_RemoteAddr := EmptyString;
          createAPIKeyParams_LoginType := LoginTypePassword;
          createAPIKeyParams_ExpiresAt := exp;
          createAPIKeyParams_LifetimeSeconds := if 604800 <? lifetime then 604800 else lifetime;
          createAPIKeyParams_Scope := APIKeyScopeApplicationConnect |})
        (internal "Failed to create API key.");
      encryptedAPIKey ← catch (encryptAPIKey (mkPayload cookie.(Cookie_Value) time_zero))
        (internal "Failed to encrypt API key.");
      let q := <[subdomainProxyAPIKeyParam := [encryptedAPIKey]]> (ParseQuery u.(url_RawQuery)) in
      redirect (url_String (u <| url_RawQuery := Values_Encode q |>))
  end.
End apps.
