(* ===== verification/ApiAppsProps.v ===== *)
(** * Properties of the applications of workspaces

    A request reaches an application only if its sharing level lets the caller in, and
    without the cookie of the caller's session; a key for the subdomains is a key of the caller
    for connecting to applications only, and travels encrypted. *)

From Stdlib Require Import Ascii.
From stdpp Require Import prelude gmap strings pretty.
From S2P Require Import Prelude Encoding Cryptorand UserPassword Rbac Models Net NetUrl Queries ModelMethods Store.
From S2P Require Import StoreUsers StoreMisc StoreWorkspaces World Auditing Sdk Http HttpMw QueryParams AppUrl AppUrlProps RealIP.
From S2P Require Import Api ApiUsers ApiKeys Scenario HttpProps ApiApps.

Local Open Scope Z_scope.

Section apps.
Context `{!Environment, !UuidText, !Authorizer, !Pbkdf2, !Sha256, !TimeText, !OAuth2Configs, !Jose}.
Context (api : Options) (o : AppOptions) (Acquire : uuid → option error).

(** ** Who is calling *)

(** The request as the middleware hands it over: as it came, or authenticated by the
    key of an active user that its token names and carries the secret of. *)
Definition caller (r : Request) (s : hstate) (r' : Request) (s' : hstate) : Prop :=
  r' = r ∨ ∃ key0 key roles, authenticates r s key0 key ∧ r' = authenticated r key roles ∧
    GetAuthorizationUserRoles key0.(APIKey_UserID) s'.(hs_world).(db) = Ok roles ∧
    roles.(GetAuthorizationUserRolesRow_Status) = UserStatusActive.

Lemma auth_write_no_yield {A} cfg r code resp s (a : A) s' : ¬ yields (auth_write cfg r code resp) s a s'.
Proof. unfold auth_write. by destruct (cfg_RedirectToLogin cfg). Qed.

Lemma use_key_yields {A} r (next : Request → Handler A) key0 s a s' :
  yields (use_key optional_key r next key0) s a s' →
  (∃ s1, yields (next r) s1 a s') ∨
  ∃ key roles s1, yields (next (authenticated r key roles)) s1 a s' ∧
    key.(APIKey_ID) = key0.(APIKey_ID) ∧ key.(APIKey_UserID) = key0.(APIKey_UserID) ∧
    key.(APIKey_Scope) = key0.(APIKey_Scope) ∧
    (∃ expires, key_expires s.(hs_world).(db) (database_Now (clock s.(hs_world).(ticks))) key0 = Some expires ∧
       database_Now (clock s.(hs_world).(ticks)) <= expires) ∧
    GetAuthorizationUserRoles key0.(APIKey_UserID) s1.(hs_world).(db) = Ok roles ∧
    roles.(GetAuthorizationUserRolesRow_Status) = UserStatusActive.
Proof.
  unfold use_key. intros Hrun. apply yields_bind in Hrun as (now & s1 & Hnow & Hrun). injection Hnow as <- <-.
  apply yields_bind in Hrun as ([[key1 link] changed1] & s2 & Hlink & Hrun).
  apply refresh_link_key in Hlink as (Hid & Huser & Hscope & Hexpires & ->). cbn [hs_world db] in Hexpires.
  destruct (Before _ _) eqn:Hexp; [simpl in Hrun; left; eauto|]. right.
  pose proof (touch_key_same r (database_Now (clock s.(hs_world).(ticks))) key1 changed1) as (Hid' & Huser' & Hscope').
  destruct (touch_key _ _ _ _) as [key changed]. simpl in Hid', Huser', Hscope'.
  apply yields_bind in Hrun as ([] & s3 & _ & Hrun). apply yields_bind in Hrun as (roles & s4 & Hroles & Hrun).
  apply yields_query in Hroles as [Hroles ->]; [|intros; apply auth_write_no_yield].
  case_bool_decide as Hactive; simpl in Hrun; [|by apply auth_write_no_yield in Hrun].
  exists key, roles, s3. rewrite Huser', Huser in Hroles. unfold Before in Hexp. apply Z.ltb_ge in Hexp.
  split_and!; try congruence. by exists key1.(APIKey_ExpiresAt).
Qed.

Lemma ExtractAPIKey_yields {A} r (next : Request → Handler A) s a s' :
  yields (ExtractAPIKey optional_key r next) s a s' → ∃ r' s1, caller r s r' s1 ∧ yields (next r') s1 a s'.
Proof.
  unfold ExtractAPIKey. cbn [optional_key cfg_Optional]. intros Hrun.
  case_bool_decide; [exists r, s; split; [by left|done]|].
  destruct (SplitAPIToken _) as [[keyID secret]|e|e] eqn:Hsplit; [|exists r, s; split; [by left|done]|done].
  apply yields_bind in Hrun as (found & s1 & Hfound & Hrun). unfold yields, attempt_h, on_world, zoom, query in Hfound.
  destruct (GetAPIKeyByID keyID _) as [key0|e|e] eqn:Hkey; simplify_eq/=.
  - case_bool_decide as Hhash; simpl in Hrun; [|eexists r, _; split; [by left|exact Hrun]].
    apply use_key_yields in Hrun as [[s1 Hrun]|(key & roles & s1 & Hrun & Hid & Huser & Hscope & Hexp & Hroles & Hact)];
      [exists r, s1; split; [by left|done]|].
    exists (authenticated r key roles), s1. split; [|done]. right. exists key0, key, roles. split; [|done].
    destruct Hexp as (expires & Hexp & Hlive). split; [|done]. by exists keyID, secret, expires.
  - destruct (errors_Is e ErrNoRows); [eexists r, _; split; [by left|exact Hrun]|by apply auth_write_no_yield in Hrun].
Qed.

(** ** What the URL names *)

(** The agent runs on a resource of the latest build of the workspace. *)
Definition deployed (q : data) (workspace : Workspace) (agent : WorkspaceAgent) : Prop :=
  ∃ build resources agents,
    GetLatestWorkspaceBuildByWorkspaceID workspace.(Workspace_ID) q = Ok build ∧
    GetWorkspaceResourcesByJobID build.(WorkspaceBuild_JobID) q = Ok resources ∧
    GetWorkspaceAgentsByResourceIDs (WorkspaceResource_ID <$> resources) q = Ok agents ∧ agent ∈ agents.

Lemma not_found_no_yield {A} msg e s (a : A) s' : ¬ yields (not_found_or msg e) s a s'.
Proof. unfold not_found_or. by destruct (errors_Is _ _). Qed.

Lemma ExtractUserParam_yields {A} b r (next : User → Handler A) s a s' :
  yields (ExtractUserParam b r next) s a s' → ∃ user, yields (next user) s a s'.
Proof.
  unfold ExtractUserParam. intros Hrun. case_bool_decide; [done|].
  apply yields_bind in Hrun as (user & s1 & Huser & Hrun). exists user.
  assert (s1 = s) as ->; [|done]. case_bool_decide.
  - destruct (context_APIKey r); [|by destruct b].
    apply yields_query in Huser as [_ ->]; [done|intros; apply not_found_no_yield].
  - destruct (uuid_Parse _); apply yields_query in Huser as [_ ->]; by try intros ? ? ? ?.
Qed.

Lemma ExtractWorkspaceAndAgentParam_yields {A} r user (next : Workspace → WorkspaceAgent → Handler A) s a s' :
  yields (ExtractWorkspaceAndAgentParam r user next) s a s' →
  ∃ workspace agent,
    GetWorkspaceByOwnerIDAndName (mkGetWorkspaceByOwnerIDAndNameParams user.(User_ID) false
      (default EmptyString (head (Split (URLParam r "workspace_and_agent") ".")))) s.(hs_world).(db) = Ok workspace ∧
    deployed s.(hs_world).(db) workspace agent ∧ yields (next workspace agent) s a s'.
Proof.
  unfold ExtractWorkspaceAndAgentParam. intros Hrun. cbv zeta in Hrun.
  apply yields_bind in Hrun as (workspace & s1 & Hws & Hrun).
  apply yields_query in Hws as [Hws ->]; [|intros; apply not_found_no_yield].
  apply yields_bind in Hrun as (build & s1 & Hbuild & Hrun). apply yields_query in Hbuild as [Hbuild ->]; [|done].
  apply yields_bind in Hrun as (resources & s1 & Hres & Hrun). apply yields_query in Hres as [Hres ->]; [|done].
  apply yields_bind in Hrun as (agents & s1 & Hagents & Hrun). apply yields_query in Hagents as [Hagents ->]; [|done].
  assert (∃ agent, agent ∈ agents ∧ yields (next workspace agent) s a s') as (agent & Hin & Hnext).
  { destruct agents as [|agent0 others]; [done|]. destruct (Split _ _) as [|x [|name l]].
    - destruct others; [|done]. exists agent0. split; [by left|done].
    - destruct others; [|done]. exists agent0. split; [by left|done].
    - destruct (find_first _ _) as [agent|] eqn:Hf; [|done]. exists agent. split; [|done].
      destruct (find_first_spec (λ a, a.(WorkspaceAgent_Name) == name) (agent0 :: others))
        as [(pre & y & post & Heq & _ & _ & Hy)|[_ Hy]]; rewrite Hy in Hf; [|done].
      injection Hf as <-. rewrite Heq. apply elem_of_app. by right; left. }
  exists workspace, agent. split_and!; [done| |done]. by exists build, resources, agents.
Qed.

(** ** Who may use an application *)

(** The sharing level is public, or the caller is signed in with roles and a scope
    that let it connect to the applications of the workspace, or, if any user may,
    to the applications of its own workspaces. *)
Definition may_use (r : Request) (level : AppSharingLevel) (workspace : Workspace) : Prop :=
  level = AppSharingLevelPublic ∨
  ∃ roles, r.(context_Authorization) = Some roles ∧
    (may_connect roles (Workspace_ApplicationConnectRBAC workspace) = Ok true ∨
     level = AppSharingLevelAuthenticated ∧
     may_connect roles (WithOwner (uuid_String roles.(Authorization_ID)) ResourceWorkspaceApplicationConnect) = Ok true).

Lemma authorizeWorkspaceApp_may_use r level workspace :
  authorizeWorkspaceApp r level workspace = Ok true → may_use r level workspace.
Proof.
  unfold authorizeWorkspaceApp, may_use. destruct (context_Authorization r) as [roles|].
  - destruct (may_connect roles (Workspace_ApplicationConnectRBAC workspace)) as [[]|e|p] eqn:Hown; [eauto 6| |done..].
    destruct level; simpl; try done; eauto 6.
  - intros Hlevel. injection Hlevel as Hlevel. apply bool_decide_eq_true in Hlevel. by left.
Qed.
Lemma fetch_yields r workspace level s authed s' :
  yields (fetchWorkspaceApplicationAuth o r workspace level) s authed s' →
  authorizeWorkspaceApp r level workspace = Ok authed ∧ s' = s.
Proof. unfold fetchWorkspaceApplicationAuth. destruct (authorizeWorkspaceApp _ _ _) as [ok|e|p]; [apply yields_get|done..]. Qed.

(** ** What is passed on *)

(** The port, if there is one, is not reserved. *)
Definition port_allowed (u : url_URL) : Prop :=
  url_Port u = EmptyString ∨ ∃ port, Atoi (url_Port u) = Ok port ∧ MinimumListeningPort <= port.
(** The [Cookie] headers that are passed on are those of the request without the cookies
    of the dashboard: its session, and the state and the redirect of an OAuth login. *)
Definition cookies_stripped (r sent : Request) : Prop :=
  Forall2 (λ h h', cookies h' = filter (λ part, coder_cookie (cookie_name part) = false) (cookies h))
    r.(CookieHeaders) sent.(CookieHeaders).

Lemma check_port_yields internalURL u s x s' : yields (check_port internalURL u) s x s' → port_allowed u ∧ s' = s.
Proof.
  unfold check_port, port_allowed. case_bool_decide; [intros [_ ->]%yields_ret; auto|].
  destruct (Atoi _) as [n|e|p]; [|done..]. intros [Hn ->]%yields_require; [|done]. split; [|done].
  right. exists n. split; [done|]. destruct (Z.ltb_spec n MinimumListeningPort); [done|lia].
Qed.
Lemma strip_cookies_stripped r : cookies_stripped r (strip_cookies r).
Proof. apply Forall2_fmap_r, Forall_Forall2_diag, Forall_true. apply StripCoderCookies_filter. Qed.
(** The headers about the address of the client are not the cookies. *)
Lemma untrusted_cookies config r : CookieHeaders (FilterUntrustedOriginHeaders config r) = CookieHeaders r.
Proof.
  unfold FilterUntrustedOriginHeaders. destruct (negb _).
  all: induction (TrustedHeaders _) as [|h l IH] using rev_ind; [done|by rewrite foldl_app].
Qed.
Lemma forwarded_cookies r r' : EnsureXForwardedForHeader r = Ok r' → CookieHeaders r' = CookieHeaders r.
Proof.
  unfold EnsureXForwardedForHeader. destruct (context_RealIP r); [|done].
  destruct (getRemoteAddress _); [|done]. destruct (getRemoteAddress _); [|done].
  intros [= <-]. by destruct (_ == _).
Qed.
Lemma caller_cookies r s r' s' : caller r s r' s' → CookieHeaders r' = CookieHeaders r.
Proof. by intros [->|(key0 & key & roles & _ & -> & _)]. Qed.

Lemma proxy_yields proxyApp r s p s' :
  yields (proxyWorkspaceApplication o Acquire proxyApp r) s p s' →
  s' = s ∧ p.(proxied_Agent) = proxyApp.(proxy_Agent).(WorkspaceAgent_ID) ∧
  may_use r (sharing_level proxyApp.(proxy_App)) proxyApp.(proxy_Workspace) ∧
  port_allowed p.(proxied_URL) ∧ cookies_stripped r p.(proxied_Request).
Proof.
  unfold proxyWorkspaceApplication, checkWorkspaceApplicationAuth. intros Hrun.
  apply yields_bind in Hrun as ([] & s1 & Hauth & Hrun). apply yields_bind in Hauth as (authed & s2 & Hfetch & Hauth).
  apply fetch_yields in Hfetch as [Hfetch ->]. apply yields_require in Hauth as [-> ->]; [|done].
  apply authorizeWorkspaceApp_may_use in Hfetch. cbv zeta in Hrun.
  apply yields_bind in Hrun as (r1 & s1 & Hxff & Hrun). apply yields_lift in Hxff as [Hxff ->]; [|done].
  apply forwarded_cookies in Hxff. rewrite untrusted_cookies in Hxff.
  apply yields_bind in Hrun as (internalURL & s1 & Hint & Hrun).
  assert (s1 = s) as ->.
  { destruct (proxy_App proxyApp) as [app|]; [destruct (Valid _); [|done]|]; by apply yields_ret in Hint as [_ ->]. }
  apply yields_bind in Hrun as (appURL & s1 & Hurl & Hrun). apply yields_lift in Hurl as [_ ->]; [|done].
  apply yields_bind in Hrun as ([] & s1 & Hport & Hrun). apply check_port_yields in Hport as [Hport ->].
  case_bool_decide; [done|]. destruct (_ && _); [done|]. destruct (Acquire _); [done|].
  apply yields_ret in Hrun as [-> ->]. split_and!; [done..|].
  unfold cookies_stripped. rewrite <-Hxff. apply strip_cookies_stripped.
Qed.

(** An application of the agent, or a port. *)
Definition runs_on (q : data) (agent : WorkspaceAgent) (app : option WorkspaceApp) : Prop :=
  ∀ a, app = Some a → ∃ slug,
    GetWorkspaceAppByAgentIDAndSlug (mkGetWorkspaceAppByAgentIDAndSlugParams agent.(WorkspaceAgent_ID) slug) q = Ok a.

(** What has been established of a request that is passed on. *)
Definition passed_on (r : Request) (s : hstate) (p : proxied) (s' : hstate) : Prop :=
  ∃ r' workspace agent app,
    caller r s r' s' ∧ deployed s'.(hs_world).(db) workspace agent ∧ runs_on s'.(hs_world).(db) agent app ∧
    p.(proxied_Agent) = agent.(WorkspaceAgent_ID) ∧ may_use r' (sharing_level app) workspace ∧
    port_allowed p.(proxied_URL) ∧ cookies_stripped r p.(proxied_Request).

Lemma lookup_yields agentID slug s app s' :
  yields (lookupWorkspaceApp o agentID slug) s app s' →
  GetWorkspaceAppByAgentIDAndSlug (mkGetWorkspaceAppByAgentIDAndSlugParams agentID slug) s.(hs_world).(db) = Ok app ∧ s' = s.
Proof. intros Hrun. apply yields_query in Hrun; [done|]. intros e t a t'. by destruct (errors_Is e ErrNoRows). Qed.

Lemma exchange_key_no_yield r key s x s' : ¬ yields (exchange_key api o r key) s x s'.
Proof.
  intros Hrun. unfold exchange_key in Hrun. apply yields_bind in Hrun as (k & s1 & _ & Hrun).
  destruct (SplitN _ _ _) as [|? [|? []]]; try done.
Qed.

Lemma path_app_passed_on r s p s' : yields (path_app o Acquire r) s p s' → passed_on r s p s'.
Proof.
  unfold path_app. intros Hrun. apply ExtractAPIKey_yields in Hrun as (r' & s1 & Hcaller & Hrun).
  apply ExtractUserParam_yields in Hrun as (user & Hrun).
  apply ExtractWorkspaceAndAgentParam_yields in Hrun as (workspace & agent & _ & Hdep & Hrun).
  unfold workspaceAppsProxyPath in Hrun. apply yields_bind in Hrun as (app & s2 & Happ & Hrun).
  apply lookup_yields in Happ as [Happ ->]. apply yields_bind in Hrun as (authed & s2 & Hfetch & Hrun).
  apply fetch_yields in Hfetch as [_ ->]. destruct authed; simpl in Hrun; [|by case_bool_decide].
  apply proxy_yields in Hrun as (-> & Hagent & Huse & Hport & Hcookies).
  exists r', workspace, agent, (Some app). split_and!; try done.
  - intros a [= <-]. eauto.
  - unfold cookies_stripped. by rewrite <-(caller_cookies _ _ _ _ Hcaller).
Qed.

Lemma subdomain_passed_on r s p s' :
  yields (handleSubdomainApplications api o Acquire r) s (Some p) s' →
  ∃ params, passed_on (r <| URLParams := params |>) s p s'.
Proof.
  unfold handleSubdomainApplications. intros Hrun. destruct (AppHostnameRegex o) as [pattern|]; [|done].
  case_bool_decide; [done|]. case_bool_decide; [by case_bool_decide|].
  apply yields_bind in Hrun as ([app|] & s1 & Happ & Hrun); [|done]. assert (s1 = s) as ->.
  { unfold parseWorkspaceApplicationHostname in Happ. destruct (HostnamesMatch _ _); [done|].
    destruct (negb _); [done|]. destruct (ExecuteHostnamePattern _ _); [|done].
    destruct (ParseSubdomainAppURL _); [|done..]. by apply yields_ret in Happ as [_ ->]. }
  apply yields_bind in Hrun as (p' & s1 & Hrun & Hp). apply yields_ret in Hp as [[= ->] ->].
  eexists. apply ExtractAPIKey_yields in Hrun as (r' & s2 & Hcaller & Hrun).
  apply ExtractUserParam_yields in Hrun as (user & Hrun).
  apply ExtractWorkspaceAndAgentParam_yields in Hrun as (workspace & agent & _ & Hdep & Hrun).
  unfold subdomain_app in Hrun. apply yields_bind in Hrun as (found & s3 & Hfound & Hrun).
  assert (runs_on s2.(hs_world).(db) agent found ∧ s3 = s2) as [Hruns ->].
  { case_bool_decide; simpl in Hfound; [by apply yields_ret in Hfound as [-> ->]|].
    apply yields_bind in Hfound as (a & s4 & Hlook & Hfound). apply lookup_yields in Hlook as [Hlook ->].
    apply yields_ret in Hfound as [-> ->]. split; [|done]. intros b [= <-]. eauto. }
  apply yields_bind in Hrun as ([] & s3 & Hverify & Hrun). assert (s3 = s2) as ->.
  { unfold verifyWorkspaceApplicationSubdomainAuth in Hverify.
    apply yields_bind in Hverify as (authed & s4 & Hfetch & Hverify). apply fetch_yields in Hfetch as [_ ->].
    destruct authed; [by apply yields_ret in Hverify as [_ ->]|]. destruct (bool_decide _); [done|].
    destruct (_ != _); [by apply exchange_key_no_yield in Hverify|done]. }
  apply proxy_yields in Hrun as (-> & Hagent & Huse & Hport & Hcookies).
  exists r', workspace, agent, found. split_and!; try done.
  unfold cookies_stripped. by rewrite <-(caller_cookies _ _ _ _ Hcaller).
Qed.


(** ** Keys for the subdomains *)

Definition redirects (p : Reply) : Prop := p.(Reply_Status) = StatusTemporaryRedirect.
Hint Extern 1 (¬ redirects _) => done : avoids.
(** The redirection comes from a later step. *)
Lemma reply_bind {A B} (m : Handler A) (k : A → Handler B) s body s' :
  (m ≫= k) s = (Ok (inl (mkReply StatusTemporaryRedirect body)), s') → avoids redirects m →
  ∃ a s1, yields m s a s1 ∧ k a s1 = (Ok (inl (mkReply StatusTemporaryRedirect body)), s').
Proof. by apply (avoids_skip (P := redirects)). Qed.

(** The key is encrypted for itself, for a minute: until then the encryption can be
    undone wherever the key is stored, and nowhere afterwards. *)
Lemma encryptAPIKey_decrypts `{!JoseLaws} token keyID secret w enc w' :
  encryptAPIKey (mkPayload token time_zero) w = (Ok enc, w') → SplitAPIToken token = Ok (keyID, secret) →
  w'.(db) = w.(db) ∧ w'.(ticks) = S w.(ticks) ∧
  (∀ w2 key, GetAPIKeyByID keyID w2.(db) = Ok key →
    key.(APIKey_HashedSecret) = sha256_Sum256 (bytes_of secret) →
    (decryptAPIKey enc w2).1 =
      if database_Now (clock w.(ticks)) + Minute <? database_Now (clock w2.(ticks))
      then Err (ErrNew "encrypted API key expired") else Ok (key, token)) ∧
  (∀ w2 e, GetAPIKeyByID keyID w2.(db) = Err e →
    (decryptAPIKey enc w2).1 = Err (ErrWrap "get API key by key ID" e)).
Proof.
  unfold encryptAPIKey. intros Hrun Hsplit. cbn [payload_APIKey payload_ExpiresAt] in Hrun.
  case_bool_decide as Hempty; [done|]. change (IsZero time_zero) with true in Hrun.
  apply bind_ok in Hrun as (expires & w1 & Hexp & Hrun). injection Hexp as <- <-.
  apply bind_ok in Hrun as (payload & w1 & Hpay & Hrun). apply wrap_ok in Hpay. injection Hpay as Hpay <-.
  rewrite Hsplit in Hrun. apply bind_ok in Hrun as ([id sec] & w1 & Hids & Hrun). injection Hids as <- <- <-.
  apply bind_ok in Hrun as (encrypted & w1 & Henc & Hrun). apply wrap_ok in Henc. injection Henc as Henc <-.
  injection Hrun as <- <-. do 2 (split; [done|]).
  destruct (jwe_decrypts _ _ _ _ _ Henc) as (decrypt & Hparse & Hdec). apply payload_round in Hpay.
  unfold decryptAPIKey. rewrite b64url_decode_encode, string_of_bytes_of, Hparse. cbv iota beta.
  unfold wrap, lift_res, query, asks, mbind, gom_bind. cbn. split.
  - intros w2 key Hkey Hhash. rewrite Hkey, Hhash, Hdec, Hpay. cbn.
    unfold Before, Add, Now, time_Now, mbind, gom_bind. cbn. destruct (_ <? _); [done|].
    rewrite Hsplit. cbn. by rewrite (GetAPIKeyByID_ID _ _ _ Hkey), !bool_decide_eq_true_2.
  - intros w2 e Hkey. by rewrite Hkey.
Qed.

(** The clock shows at most [t] while it is read from one state of a world to another. *)
Definition clock_until (w w' : world) (t : time) : Prop :=
  ∀ n, (w.(ticks) ≤ n < w'.(ticks))%nat → clock n <= t ∧ database_Now (clock n) <= t.

Lemma app_key_expiry_week apiKey w exp w' :
  (∀ n, 0 <= database_Now (clock n)) →
  app_key_expiry apiKey w = (Ok exp, w') →
  (∀ t, clock_until w w' t → exp <= t + week) ∧ exp ≠ time_zero ∧ w'.(db) = w.(db) ∧ (w.(ticks) ≤ w'.(ticks))%nat.
Proof.
  intros Hclock Hrun. unfold app_key_expiry in Hrun. apply bind_ok in Hrun as (e & w1 & He & Hrun).
  assert (e ≠ time_zero ∧ w1.(db) = w.(db) ∧ (w.(ticks) ≤ w1.(ticks))%nat) as (Hne & Hdb & Hticks).
  { unfold IsZero in He. destruct (Z.eqb_spec (APIKey_ExpiresAt apiKey) time_zero) as [Hz|Hz].
    - injection He as <- <-. split; [|split; [done|simpl; lia]]. specialize (Hclock w.(ticks)).
      unfold Add, Hour, Minute, Second, Nanosecond, time_zero. lia.
    - by injection He as <- <-. }
  clear He. apply bind_ok in Hrun as (now & w2 & Hnow & Hrun). injection Hnow as <- <-.
  destruct (week <? Sub e _) eqn:Hlong.
  - injection Hrun as <- <-. split_and!; [| |done|simpl; lia].
    + intros t Ht. destruct (Ht (S w1.(ticks))) as [_ Ht']; [simpl; lia|]. unfold Add. simpl in *. lia.
    + specialize (Hclock (S w1.(ticks))). unfold Add, week, Hour, Minute, Second, Nanosecond, time_zero. simpl in *. lia.
  - injection Hrun as <- <-. split_and!; [|done|done|simpl; lia].
    intros t Ht. destruct (Ht w1.(ticks)) as [Ht' _]; [simpl; lia|].
    apply Z.ltb_ge in Hlong. unfold Sub, min_int64, max_int64, week, Hour, Minute, Second, Nanosecond in *. lia.
Qed.

Lemma createAPIKey_ticks params w cookie w' :
  createAPIKey api params w = (Ok cookie, w') → (w.(ticks) ≤ w'.(ticks))%nat.
Proof.
  unfold createAPIKey. intros Hrun. apply bind_ok in Hrun as ([id secret] & w1 & Hids & Hrun).
  assert (w1.(ticks) = w.(ticks)) as <-.
  { unfold wrap, random, zoom in Hids. destruct (generateAPIKeyIDSecret _) as [[]]; by simplify_eq. }
  apply bind_ok in Hrun as (expiresAt & w2 & Hexp & Hrun).
  assert (w1.(ticks) ≤ w2.(ticks))%nat.
  { unfold default_expiry in Hexp. destruct (IsZero _); injection Hexp as <- <-; simpl; lia. }
  match type of Hrun with context [match ?x with _ => _ end] => destruct x; [..|done] end.
  all: apply bind_ok in Hrun as (created & w3 & [= <- <-] & Hrun).
  all: apply bind_ok in Hrun as (updated & w4 & [= <- <-] & Hrun).
  all: apply bind_ok in Hrun as (key & w5 & [= <- <-] & Hrun).
  all: injection Hrun as [= <- <-]; simpl; lia.
Qed.

End apps.

(** ** Concrete requests *)
Module AppExamples.
Import Scenario.
#[local] Existing Instances text env policy identity_hash blank_time no_oauth PasswordExamples.pad_key.

(** A code that keeps the key next to the text, and a payload that is a number and a
    token. *)
#[local] Instance plain_jwe : Jose := {|
  jwe_Encrypt _ keyID key text :=
    if has_char "|"%char keyID || has_char "|"%char (string_of key) then Err ErrNoRows
    else Ok (keyID +:+ String "|"%char (string_of key +:+ String "|"%char text));
  jwe_ParseEncrypted s :=
    match Cut s "|"%char with
    | Some (keyID, rest) =>
        match Cut rest "|"%char with
        | Some (k, text) => Ok (keyID, λ key, if string_of key == k then Ok text else Err ErrNoRows)
        | None => Err ErrNoRows
        end
    | None => Err ErrNoRows
    end;
  payload_Marshal p :=
    let t := p.(payload_ExpiresAt) - unix_epoch in
    if (0 <? t) && (t <? 2 ^ 63)
    then Ok (Itoa t +:+ String "|"%char p.(payload_APIKey)) else Err ErrNoRows;
  payload_Unmarshal text :=
    match Cut text "|"%char with
    | Some (t, key) => match Atoi t with Ok t => Ok (mkPayload key (t + unix_epoch)) | Err e => Err e | Panic p => Panic p end
    | None => Err ErrNoRows
    end |}.
Lemma all_digits_no_bar s : all_chars is_digit s = true → has_char "|"%char s = false.
Proof.
  induction s as [|c s IH]; [done|]. simpl. intros [Hc Hs]%andb_true_iff. rewrite IH by done.
  rewrite bool_decide_eq_false_2; [done|]. by intros ->.
Qed.
#[local] Instance plain_jwe_laws : JoseLaws.
Proof.
  split; simpl.
  - intros n keyID key text s. destruct (_ || _) eqn:Hbar; [done|]. apply orb_false_iff in Hbar as [Hid Hkey].
    intros [= <-]. rewrite (proj2 (Cut_spec _ _ _ _) (conj eq_refl Hid)), (proj2 (Cut_spec _ _ _ _) (conj eq_refl Hkey)).
    eexists. split; [reflexivity|]. cbv beta. by rewrite bool_decide_eq_true_2.
  - intros [key e] text. cbn [payload_ExpiresAt payload_APIKey]. set (t := e - unix_epoch). destruct (_ && _) eqn:Ht; [|done]. apply andb_true_iff in Ht as [H0 H1].
    intros [= <-]. rewrite (proj2 (Cut_spec _ _ _ _) (conj eq_refl (all_digits_no_bar (Itoa t) ltac:(
      by rewrite Itoa_pos, all_digits_pretty_go by lia)))).
    rewrite Atoi_Itoa by lia. do 2 f_equal. unfold t. lia.
Qed.

Definition apps : AppOptions := {|
  AppHostname := "*.apps.example.com";
  AppHostnameRegex := Some ".apps.example.com";
  AccessURL := url_zero <| url_Scheme := "https" |> <| url_Host := "coder.example.com" |>;
  api_RealIPConfig := None |}.

(** The workspace of the member has an agent with one application. *)
Definition app (level : AppSharingLevel) : WorkspaceApp :=
  mkWorkspaceApp 30%N time_zero 20%N "Code" EmptyString (null_of EmptyString) (non_null "http://localhost:8080/?folder=x") EmptyString
    0 0 WorkspaceAppHealthDisabled true level "code".
Definition running (level : AppSharingLevel) : hstate :=
  s <| hs_world := w <| db := q
    <| users := [owner <| User_Email := "root@coder.com" |>; member <| User_Email := "dev@coder.com" |>] |>
    <| workspaceResources := [WorkspaceResource_zero <| WorkspaceResource_ID := 15%N |> <| WorkspaceResource_JobID := 1%N |>] |>
    <| workspaceAgents := [WorkspaceAgent_zero <| WorkspaceAgent_ID := 20%N |> <| WorkspaceAgent_ResourceID := 15%N |>
         <| WorkspaceAgent_Name := "main" |>] |>
    <| workspaceApps := [app level] |> |> |>.
Definition secret : string := "jjjjjjjjjjjjjjjjjjjjjj".
Definition on_path (r : Request) : Request :=
  r <| RemoteAddr := "127.0.0.1" |> <| context_RealIP := Some "127.0.0.1:80" |>
    <| URLParams := {[ "user" := "dev"; "workspace_and_agent" := "dev.main"; "workspaceapp" := "code"; "*" := "x/y" ]} |>
    <| URL_Path := "/@dev/dev.main/apps/code/x/y" |>
    <| CookieHeaders := ["coder_session_token=abc; theme=dark"] |>.
Definition dial (_ : uuid) : option error := None.

(** The member opens an application of its own. *)
Definition by_token (key : APIKey) : Request := with_token (key.(APIKey_ID) +:+ "-" +:+ secret).
Definition opened : res (Reply + proxied) * hstate :=
  path_app apps dial (on_path (by_token member_key)) (running AppSharingLevelOwner).
Definition sent (r : res (Reply + proxied)) : option proxied := match r with Ok (inr p) => Some p | _ => None end.


(** Its URL, its cookies, and those it is not for. *)
Example served :
  (λ p, (url_String p.(proxied_URL), p.(proxied_Request).(URL_Path), p.(proxied_Request).(CookieHeaders))) <$> sent opened.1 =
  Some ("http://localhost:8080/", "/x/y", ["theme=dark"]).
Proof. by vm_compute. Qed.
Example served_to :
  (λ level, (bool_decide (is_Some (sent (path_app apps dial (on_path bare) (running level)).1)),
             bool_decide (is_Some (sent (path_app apps dial (on_path (by_token owner_key)) (running level)).1)))) <$>
    [AppSharingLevelOwner; AppSharingLevelAuthenticated; AppSharingLevelPublic] =
  [(false, true); (false, true); (true, true)].
Proof. by vm_compute. Qed.

(** The member asks for a key for its application. *)
Definition ask : Request :=
  by_member <| URL_Query := {[ redirectURIQueryParam := ["http://code--main--dev--dev.apps.example.com/x?y=1"] ]} |>.
Lemma clock_positive n : 0 <= database_Now (clock n).
Proof.
  unfold database_Now, database_Time, Round. destruct (_ <=? 0); simpl.
  - unfold unix_epoch, Hour, Minute, Second, Nanosecond. lia.
  - pose proof (Z.mod_pos_bound (unix_epoch + Hour + Second * Z.of_nat n) Microsecond ltac:(done)) as Hmod.
    pose proof (Zmod_le (unix_epoch + Hour + Second * Z.of_nat n) Microsecond ltac:(done)
      ltac:(unfold unix_epoch, Hour, Minute, Second, Nanosecond; lia)) as Hle.
    destruct (_ <? _); lia.
Qed.
End AppExamples.
