(* ===== verification/ApiOAuth.v ===== *)
(** * The API: signing in through GitHub and OpenID Connect

    [coderd/userauth.go] and the middleware [coderd/httpmw/oauth2.go]. The
    providers are third-party services: what they answer, and what the libraries
    make of an ID token or an address, are parameters. Redirects are responses. *)

From Stdlib Require Import Ascii.
From stdpp Require Import prelude gmap strings pretty.
From S2P Require Import Prelude Encoding Cryptorand UserPassword Rbac Models Queries ModelMethods Store.
From S2P Require Import StoreUsers StoreOrgs StoreMisc World Auditing Sdk Http HttpMw QueryParams Api ApiUsers ApiKeys.
From S2P Require Import License ApiTemplates.

Local Open Scope Z_scope.


(** [xerrors.As(err, &httpErr)] *)
Fixpoint as_httpError (e : error) : option (Z * string * string) :=
  match e with
  | ErrHTTP code msg detail => Some (code, msg, detail)
  | ErrWrap _ c => as_httpError c
  | _ => None
  end.

(** ** The OAuth middleware *)

(** [OAuth2Config]: the page of the provider to send the user to, and what the
    provider exchanges a code for. [id_token] is the extra of that name. *)
Record oauth2_grant := mkGrant { grant_Token : oauth2_Token; grant_id_token : option string }.
Record OAuth2Config := mkOAuth2Config {
  AuthCodeURL : string → string;
  Exchange : string → res oauth2_grant;
}.
Record OAuth2State := mkOAuth2State {
  OAuth2State_Token : oauth2_grant;
  OAuth2State_Redirect : string;
}.

Definition plain_cookie (name value : string) : http_Cookie := mkCookie name value "/" EmptyString 0 true false.

Section oauth2.
Context `{!Environment}.

Definition ExtractOAuth2 (config : option OAuth2Config) (r : Request) (next : OAuth2State → Handler unit) : Handler unit :=
  match config with
  | None => Write StatusPreconditionRequired (message "The oauth2 method requested is not configured!")
  | Some config =>
      let code := url_Get r.(URL_Query) "code" in
      let state := url_Get r.(URL_Query) "state" in
      if code == EmptyString then
        state ← catch (random (cryptorand_String 32)) (internal "Internal error generating state string.");
        _ ← SetCookie (plain_cookie OAuth2StateKey state);
        _ ← SetCookie (plain_cookie OAuth2RedirectKey (url_Get r.(URL_Query) "redirect"));
        reply StatusTemporaryRedirect (BodyRedirect EmptyString (config.(AuthCodeURL) state))
      else
      _ ← require (state != EmptyString) (Write StatusBadRequest (message "State must be provided."));
      stateCookie ← match Cookie r OAuth2StateKey with
                    | Some value => mret value
                    | None => Write StatusUnauthorized
                                (message ("Cookie " +:+ quote OAuth2StateKey +:+ " must be provided."))
                    end;
      _ ← require (stateCookie == state) (Write StatusUnauthorized (message "State mismatched."));
      let redirect := default EmptyString (Cookie r OAuth2RedirectKey) in
      oauthToken ← catch (lift_res (config.(Exchange) code)) (internal "Internal error exchanging Oauth code.");
      next (mkOAuth2State oauthToken redirect)
  end.
End oauth2.

(** ** Finding and creating the user *)

Record oauthLoginParams := mkOauthLoginParams {
  oauthLoginParams_State : OAuth2State;
  oauthLoginParams_LinkedID : string;
  oauthLoginParams_LoginType : LoginType;
  oauthLoginParams_AllowSignups : bool;
  oauthLoginParams_Email : string;
  oauthLoginParams_Username : string;
  oauthLoginParams_AvatarURL : string;
}.
#[global] Instance oauthLoginParams_eta : Eta oauthLoginParams := λ p,
  mkOauthLoginParams p.(oauthLoginParams_State) p.(oauthLoginParams_LinkedID) p.(oauthLoginParams_LoginType)
    p.(oauthLoginParams_AllowSignups) p.(oauthLoginParams_Email) p.(oauthLoginParams_Username)
    p.(oauthLoginParams_AvatarURL).

(** [x, err := f; if err != nil && !errors.Is(err, sql.ErrNoRows) { return }]:
    nothing when there is no row. *)
Definition maybe_row {A} (msg : string) (f : data → res A) : GoM world (option A) :=
  r ← attempt (query f);
  match r with
  | inr a => mret (Some a)
  | inl err => if errors_Is err ErrNoRows then mret None else throw (ErrWrap msg err)
  end.

(** The user with the address, and its link for its login type. *)
Definition find_by_email (email : string) : GoM world (User * UserLink) :=
  user ← maybe_row "get user by email"
    (GetUserByEmailOrUsername (mkGetUserByEmailOrUsernameParams EmptyString email false));
  let user := default User_zero user in
  if user.(User_ID) == uuid_Nil then mret (User_zero, UserLink_zero)
  else
    link ← maybe_row "get user link by user id and login type"
      (GetUserLinkByUserIDLoginType (mkGetUserLinkByUserIDLoginTypeParams user.(User_ID) user.(User_LoginType)));
    mret (user, default UserLink_zero link).

(** It is called with one address. *)
Definition findLinkedUser (linkedID email : string) : GoM world (User * UserLink) :=
  link ← maybe_row "get user auth by linked ID" (GetUserLinkByLinkedID linkedID);
  match link with
  | Some link =>
      user ← wrap "get user by id" (query (GetUserByID link.(UserLink_UserID)));
      if negb user.(User_Deleted) then mret (user, link) else find_by_email email
  | None => find_by_email email
  end.

Section login.
Context `{!Environment, !UuidText, !Pbkdf2, !Sha256, !SSHKeygen, !NamesGenerator}.
Context (api : Options).

(** [httpapi.UsernameFrom], which draws a name only when it needs one. *)
Definition username_from (str : string) : GoM world string :=
  if UsernameFrom EmptyString str != EmptyString then mret (UsernameFrom EmptyString str)
  else n ← GetRandomName; mret (replace_char "_"%char "-"%char n).

(** No user has the name. *)
Definition username_taken (username : string) : GoM world (error + User) :=
  attempt (query (GetUserByEmailOrUsername (mkGetUserByEmailOrUsernameParams username EmptyString false))).

(** Try other names for one that is taken. *)
Fixpoint alternatives (tries : nat) (original : string) : GoM world string :=
  match tries with
  | O => throw (ErrHTTP StatusConflict ("exhausted alternatives for taken username " +:+ quote original) EmptyString)
  | S tries =>
      suffix ← GetRandomName;
      username ← username_from (original +:+ "-" +:+ suffix);
      r ← username_taken username;
      match r with
      | inr _ => alternatives tries original
      | inl err => if errors_Is err ErrNoRows then mret username
                   else throw (ErrWrap "get user by email/username" err)
      end
  end.

(** The new user, in the first organization there is. *)
Definition sign_up (params : oauthLoginParams) : GoM world User :=
  organizations ← attempt (query GetOrganizations);
  let organizationID := match organizations with inr (org :: _) => org.(Organization_ID) | _ => uuid_Nil end in
  taken ← username_taken params.(oauthLoginParams_Username);
  username ← match taken with
             | inr _ => alternatives 10 params.(oauthLoginParams_Username)
             | inl _ => mret params.(oauthLoginParams_Username)
             end;
  created ← wrap "create user" (CreateUser api (mkapi_CreateUserRequest
    {| CreateUserRequest_Email := params.(oauthLoginParams_Email);
       CreateUserRequest_Username := username;
       CreateUserRequest_Password := EmptyString;
       CreateUserRequest_OrganizationID := organizationID |} params.(oauthLoginParams_LoginType)));
  mret created.1.

(** The link is created, completed and refreshed as needed. *)
Definition keep_link (params : oauthLoginParams) (user : User) (link : UserLink) : GoM world unit :=
  let token := params.(oauthLoginParams_State).(OAuth2State_Token).(grant_Token) in
  link ← (if link.(UserLink_UserID) == uuid_Nil
          then wrap "insert user link" (store (InsertUserLink {|
            InsertUserLinkParams_UserID := user.(User_ID);
            InsertUserLinkParams_LoginType := params.(oauthLoginParams_LoginType);
            InsertUserLinkParams_LinkedID := params.(oauthLoginParams_LinkedID);
            InsertUserLinkParams_OAuthAccessToken := token.(AccessToken);
            InsertUserLinkParams_OAuthRefreshToken := token.(RefreshToken);
            InsertUserLinkParams_OAuthExpiry := token.(Expiry) |}))
          else mret link);
  link ← (if link.(UserLink_LinkedID) == EmptyString
          then wrap "update user linked ID" (store (UpdateUserLinkedID {|
            UpdateUserLinkedIDParams_LinkedID := params.(oauthLoginParams_LinkedID);
            UpdateUserLinkedIDParams_UserID := user.(User_ID);
            UpdateUserLinkedIDParams_LoginType := params.(oauthLoginParams_LoginType) |}))
          else mret link);
  if link.(UserLink_UserID) != uuid_Nil
  then void (wrap "update user link" (store (UpdateUserLink {|
    UpdateUserLinkParams_OAuthAccessToken := token.(AccessToken);
    UpdateUserLinkParams_OAuthRefreshToken := token.(RefreshToken);
    UpdateUserLinkParams_OAuthExpiry := token.(Expiry);
    UpdateUserLinkParams_UserID := user.(User_ID);
    UpdateUserLinkParams_LoginType := params.(oauthLoginParams_LoginType) |})))
  else mret tt.

(** The avatar and the address follow the provider's. *)
Definition mirror_profile (params : oauthLoginParams) (user : User) : GoM world User :=
  let avatar := null_val user.(User_AvatarURL) != params.(oauthLoginParams_AvatarURL) in
  let email := user.(User_Email) != params.(oauthLoginParams_Email) in
  if avatar || email then
    now ← Now;
    wrap "update user profile" (store (UpdateUserProfile {|
      UpdateUserProfileParams_ID := user.(User_ID);
      UpdateUserProfileParams_Email := params.(oauthLoginParams_Email);
      UpdateUserProfileParams_Username := user.(User_Username);
      UpdateUserProfileParams_AvatarURL :=
        if avatar then non_null params.(oauthLoginParams_AvatarURL) else user.(User_AvatarURL);
      UpdateUserProfileParams_UpdatedAt := now |}))
  else mret user.

(** The transaction: the user that signs in. *)
Definition oauth_user (params : oauthLoginParams) : GoM world User :=
  found ← wrap "find linked user" (findLinkedUser params.(oauthLoginParams_LinkedID) params.(oauthLoginParams_Email));
  let '(user, link) := found in
  let known := user.(User_ID) != uuid_Nil in
  if negb known && negb params.(oauthLoginParams_AllowSignups)
  then throw (ErrHTTP StatusForbidden
         ("Signups are not allowed for login type " +:+ quote (LoginType_string params.(oauthLoginParams_LoginType))) EmptyString)
  else if known && (user.(User_LoginType) != params.(oauthLoginParams_LoginType))
  then throw (ErrHTTP StatusForbidden
         ("Incorrect login type, attempting to use " +:+ quote (LoginType_string params.(oauthLoginParams_LoginType)) +:+
          " but user is of login type " +:+ quote (LoginType_string user.(User_LoginType))) EmptyString)
  else
  user ← (if known then mret user else sign_up params);
  _ ← keep_link params user link;
  mirror_profile params user.

Definition oauthLogin (r : Request) (params : oauthLoginParams) : GoM world http_Cookie :=
  user ← wrap "in tx" (oauth_user params);
  wrap "create API key" (createAPIKey api {|
    createAPIKeyParams_UserID := user.(User_ID);
    createAPIKeyParams_RemoteAddr := r.(RemoteAddr);
    createAPIKeyParams_LoginType := params.(oauthLoginParams_LoginType);
    createAPIKeyParams_ExpiresAt := time_zero;
    createAPIKeyParams_LifetimeSeconds := 0;
    createAPIKeyParams_Scope := APIKeyScope_other EmptyString |}).

(** The end of both callbacks. *)
Definition finish_login (r : Request) (params : oauthLoginParams) : Handler unit :=
  cookie ← catch (oauthLogin r params)
    (λ err, match as_httpError err with
            | Some (code, msg, detail) => Write code (with_detail msg detail)
            | None => internal "Failed to process OAuth login." err
            end);
  _ ← SetCookie cookie;
  let redirect := params.(oauthLoginParams_State).(OAuth2State_Redirect) in
  reply StatusTemporaryRedirect (BodyRedirect EmptyString (if redirect == EmptyString then "/" else redirect)).
End login.

(** ** GitHub *)

(** What the handler reads of [github.Membership], [github.User] and
    [github.UserEmail]; a login that is missing is a nil pointer. *)
Record github_Membership := mkMembership { Membership_State : string; Membership_Login : option string }.
Record github_User := mkGithubUser { GithubUser_ID : Z; GithubUser_Login : option string; GithubUser_AvatarURL : string }.
Record github_UserEmail := mkGithubEmail { GithubEmail_Email : string; GithubEmail_Verified : bool; GithubEmail_Primary : bool }.
Record GithubOAuth2Team := mkGithubTeam { GithubTeam_Organization : string; GithubTeam_Slug : string }.

(** The functions that ask GitHub, for the token of the user. The membership of a
    team comes with the error, or is nil. *)
Record GithubOAuth2Config := mkGithubConfig {
  AuthenticatedUser : oauth2_Token → res github_User;
  ListEmails : oauth2_Token → res (list github_UserEmail);
  ListOrganizationMemberships : oauth2_Token → res (list github_Membership);
  TeamMembership : oauth2_Token → string → string → string → option github_Membership * option error;
  Github_AllowSignups : bool;
  AllowEveryone : bool;
  AllowOrganizations : list string;
  AllowTeams : list GithubOAuth2Team;
}.

Definition nil_login : string := "invalid memory address or nil pointer dereference".
Definition deref {A} (p : option A) : Handler A := get (match p with Some a => Ok a | None => Panic nil_login end).

Definition githubLinkedID (u : github_User) : string := Itoa u.(GithubUser_ID).

(** The active memberships in an organization that is allowed, with its name. The
    login is dereferenced when there is an organization to compare it with. *)
Fixpoint selected_memberships (allowed : list string) (memberships : list github_Membership) :
    Handler (list string) :=
  match memberships with
  | [] => mret []
  | m :: memberships =>
      if (m.(Membership_State) != "active") || (allowed == []) then selected_memberships allowed memberships
      else
        login ← deref m.(Membership_Login);
        rest ← selected_memberships allowed memberships;
        mret (if bool_decide (login ∈ allowed) then login :: rest else rest)
  end.

(** The inner loop over the memberships: the last answer counts. *)
Definition team_of (config : GithubOAuth2Config) (token : oauth2_Token) (team : GithubOAuth2Team) (login : string)
    (organizations : list string) : option github_Membership :=
  foldl (λ found org,
    if team.(GithubTeam_Organization) == org
    then (config.(TeamMembership) token org team.(GithubTeam_Slug) login).1 else found) None organizations.

(** The first allowed team the user belongs to. *)
Fixpoint allowed_team (config : GithubOAuth2Config) (token : oauth2_Token) (login : string)
    (organizations : list string) (teams : list GithubOAuth2Team) : option github_Membership :=
  match teams with
  | [] => None
  | team :: teams =>
      match team_of config token team login organizations with
      | Some m => Some m
      | None => allowed_team config token login organizations teams
      end
  end.

Section callbacks.
Context `{!Environment, !UuidText, !Pbkdf2, !Sha256, !SSHKeygen, !NamesGenerator}.
Context (api : Options).

Definition userOAuth2Github (config : GithubOAuth2Config) (r : Request) (state : OAuth2State) : Handler unit :=
  let token := state.(OAuth2State_Token).(grant_Token) in
  organizationNames ←
    (if config.(AllowEveryone) then mret []
     else
       memberships ← catch (lift_res (config.(ListOrganizationMemberships) token))
         (internal "Internal error fetching authenticated Github user organizations.");
       selected ← selected_memberships config.(AllowOrganizations) memberships;
       _ ← require (selected != []) (Write StatusUnauthorized
             (message "You aren't a member of the authorized Github organizations!"));
       mret selected);
  ghUser ← catch (lift_res (config.(AuthenticatedUser) token))
    (internal "Internal error fetching authenticated Github user.");
  _ ← (if negb config.(AllowEveryone) && (length config.(AllowTeams) != 0%nat) then
         (* The login is read only for a team of one of the organizations. *)
         login ← (if existsb (λ team, bool_decide (team.(GithubTeam_Organization) ∈ organizationNames)) config.(AllowTeams)
                  then deref ghUser.(GithubUser_Login) else mret EmptyString);
         match allowed_team config token login organizationNames config.(AllowTeams) with
         | Some _ => mret tt
         | None => Write StatusUnauthorized (message ("You aren't a member of an authorized team in the [" +:+
                     Join organizationNames " " +:+ "] Github organization(s)!"))
         end
       else mret tt);
  emails ← catch (lift_res (config.(ListEmails) token)) (internal "Internal error fetching personal Github user.");
  match find_first (λ email, email.(GithubEmail_Verified) && email.(GithubEmail_Primary)) emails with
  | None => Write StatusPreconditionRequired (message "Your primary email must be verified on GitHub!")
  | Some verifiedEmail =>
      finish_login api r {|
        oauthLoginParams_State := state;
        oauthLoginParams_LinkedID := githubLinkedID ghUser;
        oauthLoginParams_LoginType := LoginTypeGithub;
        oauthLoginParams_AllowSignups := config.(Github_AllowSignups);
        oauthLoginParams_Email := verifiedEmail.(GithubEmail_Email);
        oauthLoginParams_Username := default EmptyString ghUser.(GithubUser_Login);
        oauthLoginParams_AvatarURL := ghUser.(GithubUser_AvatarURL) |}
  end.

(** ** OpenID Connect *)

(** A verified ID token. *)
Record IDToken := mkIDToken { IDToken_Issuer : string; IDToken_Subject : string; IDToken_Claims : res (gmap string json) }.
(** [mail_ParseAddress] says whether [net/mail] takes a text for an address. *)
Record OIDCConfig := mkOIDCConfig {
  Verify : string → res IDToken;
  EmailDomain : string;
  OIDC_AllowSignups : bool;
  IgnoreEmailVerified : bool;
}.
Definition oidcLinkedID (tok : IDToken) : string := tok.(IDToken_Issuer) +:+ "||" +:+ tok.(IDToken_Subject).

(** A claim that is a string, or the empty string. *)
Definition string_claim (claims : gmap string json) (name : string) : string :=
  match claims !! name with Some (JString s) => s | _ => EmptyString end.

Definition HasSuffix (s suffix : string) : bool :=
  bool_decide (String.substring (String.length s - String.length suffix) (String.length suffix) s = suffix).

Context (mail_ParseAddress : string → bool) (json_text : json → string).

(** The address of the claims. *)
Definition oidc_email (claims : gmap string json) (username : string) : Handler string :=
  match claims !! "email" with
  | None => if mail_ParseAddress username then mret username
            else Write StatusBadRequest (message "No email found in OIDC payload!")
  | Some (JString email) => mret email
  | Some emailRaw => Write StatusBadRequest
                       (message ("Email in OIDC payload isn't a string. Got: " +:+ json_text emailRaw))
  end.

Definition userOIDC (config : OIDCConfig) (r : Request) (state : OAuth2State) : Handler unit :=
  rawIDToken ← match state.(OAuth2State_Token).(grant_id_token) with
               | Some t => mret t
               | None => Write StatusBadRequest (message
                   "id_token not found in response payload. Ensure your OIDC callback is configured correctly!")
               end;
  idToken ← catch (lift_res (config.(Verify) rawIDToken))
    (λ err, Write StatusBadRequest (with_detail "Failed to verify OIDC token." (error_string err)));
  claims ← catch (lift_res idToken.(IDToken_Claims)) (internal "Failed to extract OIDC claims.");
  let username := string_claim claims "preferred_username" in
  email ← oidc_email claims username;
  _ ← match claims !! "email_verified" with
      | Some (JBool false) =>
          require config.(IgnoreEmailVerified) (Write StatusForbidden (message
            ("Verify the " +:+ quote email +:+ " email address on your OIDC provider to authenticate!")))
      | _ => mret tt
      end;
  username ← run (match NameValid username with
                  | None => mret username
                  | Some _ => username_from (if username == EmptyString then email else username)
                  end);
  _ ← require ((config.(EmailDomain) == EmptyString) || HasSuffix (ToLower email) (ToLower config.(EmailDomain)))
        (Write StatusForbidden (message ("Your email " +:+ quote email +:+ " is not a part of the " +:+
           quote config.(EmailDomain) +:+ " domain!")));
  finish_login api r {|
    oauthLoginParams_State := state;
    oauthLoginParams_LinkedID := oidcLinkedID idToken;
    oauthLoginParams_LoginType := LoginTypeOIDC;
    oauthLoginParams_AllowSignups := config.(OIDC_AllowSignups);
    oauthLoginParams_Email := email;
    oauthLoginParams_Username := username;
    oauthLoginParams_AvatarURL := string_claim claims "picture" |}.

Definition userAuthMethods (github oidc : bool) : Handler unit :=
  reply StatusOK (BodyAuthMethods (mkAuthMethods true github oidc)).
End callbacks.
