(* ===== verification/ApiGitAuth.v ===== *)
(** * The API: git authentication

    [coderd/gitauth/config.go], [coderd/gitauth/oauth.go] and
    [coderd/gitauth/askpass.go], and the handlers of [coderd/workspaceagents.go] that
    give git in a workspace the token of its owner. What the OAuth library, the
    providers and regular expressions of the operator answer are parameters. *)

From Stdlib Require Import Ascii.
From stdpp Require Import prelude gmap strings pretty.
From S2P Require Import Prelude Encoding Cryptorand UserPassword Rbac Models Net NetUrl Queries ModelMethods Store.
From S2P Require Import StoreUsers StoreMisc StoreWorkspaces World Auditing Sdk Http HttpMw QueryParams AppUrl Api ApiUsers ApiKeys.
From S2P Require Import License ApiTemplates ApiOAuth.

Local Open Scope Z_scope.

(** ** Providers *)

(** [codersdk.GitProvider] *)
Definition GitProviderAzureDevops : string := "azure-devops".
Definition GitProviderGitHub : string := "github".
Definition GitProviderGitLab : string := "gitlab".
Definition GitProviderBitBucket : string := "bitbucket".

(** An entry of the configuration. *)
Record GitAuthConfig := mkGitAuthConfig {
  entry_ID : string;
  entry_Type : string;
  entry_ClientID : string;
  entry_ClientSecret : string;
  entry_AuthURL : string;
  entry_TokenURL : string;
  entry_ValidateURL : string;
  entry_Regex : string;
  entry_NoRefresh : bool;
  entry_Scopes : list string;
}.

(** [oauth2.Config] *)
Record oauth2_Config := mkoauth2_Config {
  oauth_ClientID : string;
  oauth_ClientSecret : string;
  oauth_AuthURL : string;
  oauth_TokenURL : string;
  oauth_RedirectURL : string;
  oauth_Scopes : list string;
}.

(** [gitauth.Config]; [git_JWT] says that the configuration is wrapped by
    [newJWTOAuthConfig]. *)
Record git_Config := mkgit_Config {
  git_OAuth : oauth2_Config;
  git_JWT : bool;
  git_ID : string;
  git_Match : string → bool;
  git_Type : string;
  git_NoRefresh : bool;
  git_ValidateURL : string;
}.

(** [golang.org/x/oauth2] with its GitHub endpoint, the expressions of the operator
    and the requests that validate a token. *)
Class GitProviders := {
  github_Endpoint : string * string;
  oauth_AuthCodeURL : oauth2_Config → bool → string → string;
  oauth_Exchange : oauth2_Config → bool → string → res oauth2_grant;
  oauth_Refresh : oauth2_Config → oauth2_Token → res oauth2_Token;
  regexp_Compile : string → res (string → bool);
  http_Get : string → string → res (Z * string);
}.

Section config.
Context `{!GitProviders}.

Definition git_endpoint (typ : string) : string * string :=
  if typ == GitProviderAzureDevops then
    ("https://app.vssps.visualstudio.com/oauth2/authorize", "https://app.vssps.visualstudio.com/oauth2/token")
  else if typ == GitProviderBitBucket then
    ("https://bitbucket.org/site/oauth2/authorize", "https://bitbucket.org/site/oauth2/access_token")
  else if typ == GitProviderGitLab then ("https://gitlab.com/oauth/authorize", "https://gitlab.com/oauth/token")
  else if typ == GitProviderGitHub then github_Endpoint
  else (EmptyString, EmptyString).
Definition git_validateURL (typ : string) : string :=
  if typ == GitProviderGitHub then "https://api.github.com/user"
  else if typ == GitProviderGitLab then "https://gitlab.com/oauth/token/info"
  else if typ == GitProviderBitBucket then "https://api.bitbucket.org/2.0/user"
  else EmptyString.
Definition git_scope (typ : string) : list string :=
  if typ == GitProviderAzureDevops then ["vso.code_write"]
  else if typ == GitProviderBitBucket then ["account"; "repository:write"]
  else if typ == GitProviderGitLab then ["write_repository"]
  else if typ == GitProviderGitHub then ["repo"]
  else [].
(** The default expressions have no anchors: they match a text that contains the host. *)
Definition git_regex (typ : string) : string → bool :=
  if typ == GitProviderAzureDevops then λ url, Contains url "dev.azure.com"
  else if typ == GitProviderBitBucket then λ url, Contains url "bitbucket.org"
  else if typ == GitProviderGitLab then λ url, Contains url "gitlab.com"
  else if typ == GitProviderGitHub then λ url, Contains url "github.com"
  else λ _, false.

(** [accessURL.Parse] of an absolute path without dot segments. *)
Definition parse_path (accessURL : url_URL) (path : string) : res url_URL :=
  ref ← url_Parse path;
  Ok (ref <| url_Scheme := accessURL.(url_Scheme) |> <| url_Host := accessURL.(url_Host) |>
          <| url_User := accessURL.(url_User) |>).

Definition wrap_res {A} (msg : string) (r : res A) : res A :=
  match r with Err e => Err (ErrWrap msg e) | r => r end.

Definition ConvertEntry (accessURL : url_URL) (ids : list string) (entry : GitAuthConfig) : res git_Config :=
  let typ := entry.(entry_Type) in
  if negb (bool_decide (typ ∈ [GitProviderAzureDevops; GitProviderBitBucket; GitProviderGitHub; GitProviderGitLab]))
  then Err (ErrNew ("unknown git provider type: " +:+ quote typ))
  else
  let id := if entry.(entry_ID) == EmptyString then typ else entry.(entry_ID) in
  match NameValid id with
  | Some valid => Err (ErrWrap ("git auth provider " +:+ quote id +:+ " doesn't have a valid id") valid)
  | None =>
      if bool_decide (id ∈ ids) then
        Err (ErrNew (if id == typ
                     then "multiple " +:+ typ +:+ " git auth providers provided. you must specify a unique id for each"
                     else "multiple git providers exist with the id " +:+ quote id +:+ ". specify a unique id for each"))
      else if entry.(entry_ClientID) == EmptyString
      then Err (ErrNew (quote id +:+ " git auth provider: client_id must be provided"))
      else if entry.(entry_ClientSecret) == EmptyString
      then Err (ErrNew (quote id +:+ " git auth provider: client_secret must be provided"))
      else
      authRedirect ← wrap_res "parse gitauth callback url" (parse_path accessURL ("/gitauth/" +:+ id +:+ "/callback"));
      regex ← (if entry.(entry_Regex) == EmptyString then Ok (git_regex typ)
               else match regexp_Compile entry.(entry_Regex) with
                    | Err _ => Err (ErrNew ("compile regex for git auth provider " +:+ quote id))
                    | r => r
                    end);
      let or_default s d := if s == EmptyString then d else s in
      Ok {| git_OAuth := {|
              oauth_ClientID := entry.(entry_ClientID);
              oauth_ClientSecret := entry.(entry_ClientSecret);
              oauth_AuthURL := or_default entry.(entry_AuthURL) (git_endpoint typ).1;
              oauth_TokenURL := or_default entry.(entry_TokenURL) (git_endpoint typ).2;
              oauth_RedirectURL := url_String authRedirect;
              oauth_Scopes := match entry.(entry_Scopes) with [] => git_scope typ | scopes => scopes end |};
            git_JWT := typ == GitProviderAzureDevops;
            git_ID := id;
            git_Match := regex;
            git_Type := typ;
            git_NoRefresh := entry.(entry_NoRefresh);
            git_ValidateURL := git_validateURL typ |}
  end.

(** [ids] are those of the entries before. *)
Fixpoint convert_entries (accessURL : url_URL) (ids : list string) (entries : list GitAuthConfig) :
    res (list git_Config) :=
  match entries with
  | [] => Ok []
  | entry :: entries =>
      config ← ConvertEntry accessURL ids entry;
      rest ← convert_entries accessURL (config.(git_ID) :: ids) entries;
      Ok (config :: rest)
  end.
Definition ConvertConfig (entries : list GitAuthConfig) (accessURL : url_URL) : res (list git_Config) :=
  convert_entries accessURL [] entries.
End config.

(** ** [askpass.go] *)

Definition CheckCommand (args env : list string) : bool :=
  match args with
  | [arg] => (HasPrefix arg "Username " || HasPrefix arg "Password ") && existsb (λ e, HasPrefix e "GIT_PREFIX=") env
  | _ => false
  end.

Definition is_quote (c : ascii) : bool := (c == quote_char) || (c == "'"%char).
(** [hostReplace]: quotes at the start, and quotes and colons at the end. *)
Definition replace_host (host : string) : string :=
  TrimRight (λ c, is_quote c || (c == ":"%char)) (TrimLeft is_quote host).

(** [u.User.Username()] *)
Definition url_Username (u : url_URL) : string :=
  match u.(url_User) with
  | Some ui => match unescape (before ui ":"%char) encodeUserPassword with Ok name => name | _ => EmptyString end
  | None => EmptyString
  end.

Definition ParseAskpass (prompt : string) : res (string * string) :=
  let parts := Fields prompt in
  match parts with
  | kind :: _ :: host :: _ =>
      if negb (bool_decide (kind ∈ ["Username"; "Password"])) then Err (ErrNew ("unknown prompt type: " +:+ quote prompt))
      else
      match url_Parse (replace_host host) with
      | Err e => Err (ErrWrap "parse host failed" e)
      | Panic p => Panic p
      | Ok u =>
          if negb (bool_decide (u.(url_Scheme) ∈ ["http"; "https"]))
          then Err (ErrNew ("unsupported scheme: " +:+ quote u.(url_Scheme)))
          else if u.(url_Host) == EmptyString then Err (ErrNew "host is empty")
          else Ok (url_Username u, url_String (u <| url_User := None |>))
      end
  | _ => Err (ErrNew ("askpass prompt must contain 3 words; got " +:+ Itoa (Z.of_nat (length parts)) +:+ ": " +:+ quote prompt))
  end.

(** ** Handlers *)

Section handlers.
Context `{!Environment, !UuidText, !GitProviders}.
Context (AccessURL : url_URL) (GitAuthConfigs : list git_Config).

(** A token that is refused is invalid; any other answer but OK is an error. *)
Definition validateGitToken (validateURL token : string) : res bool :=
  match http_Get validateURL token with
  | Ok (status, body) =>
      if status == StatusUnauthorized then Ok false
      else if status != StatusOK
      then Err (ErrNew ("git token validation failed: status " +:+ Itoa status +:+ ": body: " +:+ body))
      else Ok true
  | Err e => Err e
  | Panic p => Panic p
  end.

Definition formatGitAuthAccessToken (typ token : string) : WorkspaceAgentGitAuthResponse :=
  if typ == GitProviderGitLab then mkWorkspaceAgentGitAuthResponse "oauth2" token EmptyString
  else if typ == GitProviderBitBucket then mkWorkspaceAgentGitAuthResponse "x-token-auth" token EmptyString
  else mkWorkspaceAgentGitAuthResponse token EmptyString EmptyString.

(** The last provider that matches. *)
Definition git_provider (gitURL : string) : option git_Config :=
  last (filter (λ c, c.(git_Match) gitURL = true) GitAuthConfigs).

(** The workspace an agent runs in. *)
Definition agent_workspace (workspaceAgent : WorkspaceAgent) (no_resource no_build no_workspace : string) :
    Handler Workspace :=
  resource ← catch (query (GetWorkspaceResourceByID workspaceAgent.(WorkspaceAgent_ResourceID))) (internal no_resource);
  build ← catch (query (GetWorkspaceBuildByJobID resource.(WorkspaceResource_JobID))) (internal no_build);
  catch (query (GetWorkspaceByID build.(WorkspaceBuild_WorkspaceID))) (internal no_workspace).

Definition git_link (config : git_Config) (owner : uuid) (q : data) : res GitAuthLink :=
  GetGitAuthLink {| GetGitAuthLinkParams_ProviderID := config.(git_ID); GetGitAuthLinkParams_UserID := owner |} q.
Definition git_token (config : git_Config) (token : string) : Handler unit :=
  reply StatusOK (BodyAgentGitAuth (formatGitAuthAccessToken config.(git_Type) token)).

(** Wait for a token: [others] are what other requests do before each look at the
    link; the request ends when there is nothing to wait for any more. *)
Fixpoint await_token (config : git_Config) (owner : uuid) (others : list (GoM world unit)) : Handler unit :=
  match others with
  | [] => mret tt
  | other :: others =>
      _ ← attempt_h other;
      gitAuthLink ← catch (query (git_link config owner)) (internal "Failed to get git auth link.");
      now ← run Now;
      if Before gitAuthLink.(GitAuthLink_OAuthExpiry) now then await_token config owner others
      else
      valid ← (if config.(git_ValidateURL) == EmptyString then mret true
               else match validateGitToken config.(git_ValidateURL) gitAuthLink.(GitAuthLink_OAuthAccessToken) with
                    | Ok valid => mret valid
                    | Err _ => mret false
                    | Panic p => get (Panic p)
                    end);
      if (valid : bool) then git_token config gitAuthLink.(GitAuthLink_OAuthAccessToken)
      else await_token config owner others
  end.

(** The stored token, refreshed and validated, or the page to get one from. *)
Definition stored_token (config : git_Config) (owner : uuid) : Handler unit :=
  redirectURL ← catch (lift_res (parse_path AccessURL ("/gitauth/" +:+ config.(git_ID))))
    (internal "Failed to parse access URL.");
  let ask {A} : Handler A := reply StatusOK (BodyAgentGitAuth
    (mkWorkspaceAgentGitAuthResponse EmptyString EmptyString (url_String redirectURL))) in
  gitAuthLink ← catch (query (git_link config owner))
    (λ err, if errors_Is err ErrNoRows then ask else internal "Failed to get git auth link." err);
  expired ← (if config.(git_NoRefresh)
             then now ← run Now; mret (Before gitAuthLink.(GitAuthLink_OAuthExpiry) now) else mret false);
  if (expired : bool) then ask
  else
  token ← catch (lift_res (oauth_Refresh config.(git_OAuth) (mkToken gitAuthLink.(GitAuthLink_OAuthAccessToken)
              gitAuthLink.(GitAuthLink_OAuthRefreshToken) gitAuthLink.(GitAuthLink_OAuthExpiry))))
    (λ _, ask);
  valid ← (if config.(git_ValidateURL) == EmptyString then mret true
           else catch (lift_res (validateGitToken config.(git_ValidateURL) token.(AccessToken)))
                  (internal "Failed to validate Git authentication token."));
  if negb valid then ask
  else
  _ ← (if token.(AccessToken) != gitAuthLink.(GitAuthLink_OAuthAccessToken) then
         now ← run Now;
         catch (store (UpdateGitAuthLink {|
           UpdateGitAuthLinkParams_ProviderID := config.(git_ID);
           UpdateGitAuthLinkParams_UserID := owner;
           UpdateGitAuthLinkParams_UpdatedAt := now;
           UpdateGitAuthLinkParams_OAuthAccessToken := token.(AccessToken);
           UpdateGitAuthLinkParams_OAuthRefreshToken := token.(RefreshToken);
           UpdateGitAuthLinkParams_OAuthExpiry := token.(Expiry) |}))
           (internal "Failed to update git auth link.")
       else mret tt);
  git_token config token.(AccessToken).

Definition workspaceAgentsGitAuth (r : Request) (workspaceAgent : WorkspaceAgent) (others : list (GoM world unit)) :
    Handler unit :=
  let gitURL := url_Get r.(URL_Query) "url" in
  if gitURL == EmptyString then Write StatusBadRequest (message "Missing 'url' query parameter!")
  else match git_provider gitURL with
  | None => Write StatusNotFound (message ("No git provider found for URL " +:+ quote gitURL))
  | Some config =>
      workspace ← agent_workspace workspaceAgent "Failed to get workspace resource." "Failed to get build."
                    "Failed to get workspace.";
      if url_Has r.(URL_Query) "listen" then await_token config workspace.(Workspace_OwnerID) others
      else stored_token config workspace.(Workspace_OwnerID)
  end.

Definition bad_request {A} (msg : string) (err : error) : Handler A :=
  Write StatusBadRequest (with_detail msg (error_string err)).

(** The message that is published is a plain text. *)
Definition gitAuthCallback (gitAuthConfig : git_Config) (r : Request) (state : OAuth2State) : Handler unit :=
  apiKey ← get (httpmw_APIKey r);
  let token := state.(OAuth2State_Token).(grant_Token) in
  found ← attempt_h (query (git_link gitAuthConfig apiKey.(APIKey_UserID)));
  _ ← match found with
      | inl err =>
          if negb (errors_Is err ErrNoRows) then bad_request "Failed to get git auth link." err
          else
          created ← run Now;
          updated ← run Now;
          _ ← catch (store (InsertGitAuthLink {|
              InsertGitAuthLinkParams_ProviderID := gitAuthConfig.(git_ID);
              InsertGitAuthLinkParams_UserID := apiKey.(APIKey_UserID);
              InsertGitAuthLinkParams_CreatedAt := created;
              InsertGitAuthLinkParams_UpdatedAt := updated;
              InsertGitAuthLinkParams_OAuthAccessToken := token.(AccessToken);
              InsertGitAuthLinkParams_OAuthRefreshToken := token.(RefreshToken);
              InsertGitAuthLinkParams_OAuthExpiry := token.(Expiry) |}))
            (bad_request "Failed to insert git auth link.");
          mret tt
      | inr _ =>
          updated ← run Now;
          catch (store (UpdateGitAuthLink {|
              UpdateGitAuthLinkParams_ProviderID := gitAuthConfig.(git_ID);
              UpdateGitAuthLinkParams_UserID := apiKey.(APIKey_UserID);
              UpdateGitAuthLinkParams_UpdatedAt := updated;
              UpdateGitAuthLinkParams_OAuthAccessToken := token.(AccessToken);
              UpdateGitAuthLinkParams_OAuthRefreshToken := token.(RefreshToken);
              UpdateGitAuthLinkParams_OAuthExpiry := token.(Expiry) |}))
            (bad_request "Failed to update git auth link.")
      end;
  _ ← catch (Publish "gitauth" (RawValue (JString (gitAuthConfig.(git_ID) +:+ "|" +:+ uuid_String apiKey.(APIKey_UserID)))))
    (bad_request "Failed to publish auth update.");
  reply StatusTemporaryRedirect (BodyRedirect EmptyString "/gitauth").
End handlers.
