(* ===== verification/ApiAgents.v ===== *)
(** * The API: agents of workspaces

    [coderd/workspaceagents.go] and [coderd/workspaceresourceauth.go]: what an agent
    asks for and reports, the connection it keeps open, and what its users are shown.
    What is sent over a connection to an agent is not modelled: a connection is a list
    of what happens meanwhile. *)

From Stdlib Require Import Ascii.
From stdpp Require Import prelude gmap strings pretty.
From S2P Require Import Prelude Encoding Cryptorand Rbac Models Net NetUrl Queries ModelMethods Store.
From S2P Require Import StoreUsers StoreMisc StoreJobs StoreWorkspaces World Auditing ProvisionerdServer Schedule Autobuild.
From S2P Require Import Sdk Http HttpMw QueryParams AppUrl RealIP InstanceIdentity Api ApiJobs ApiBuilds ApiApps.

Local Open Scope Z_scope.

(** [websocket.Accept]: the error of it, if there is one. *)
Class Websockets := websocket_Accept : Request → option error.
(** [semver.IsValid] *)
Class Semver := semver_IsValid : string → bool.

(** [codersdk.IgnoredListeningPorts] *)
Definition IgnoredListeningPorts : list Z :=
  [0; 1; 2; 3; 4; 5; 6; 7; 8; 20; 21; 22; 23; 25; 53; 110; 143; 179; 389; 636; 465; 587; 989; 990; 993; 995;
   3306; 3389; 5432; 27017; 27018; 27019; 28017].

(** [strings.ReplaceAll(s, "*", new)] *)
Fixpoint replace_star (s new : string) : string :=
  match s with
  | EmptyString => EmptyString
  | String c s => if c == "*"%char then new +:+ replace_star s new else String c (replace_star s new)
  end.

Definition WorkspaceAgentStatus_string (s : WorkspaceAgentStatus) : string :=
  match s with
  | WorkspaceAgentConnecting => "connecting"
  | WorkspaceAgentConnected => "connected"
  | WorkspaceAgentDisconnected => "disconnected"
  | WorkspaceAgentTimeout => "timeout"
  | WorkspaceAgentStatus_other s => s
  end.

(** A terminal on an agent. *)
Record terminal := mkTerminal {
  terminal_Agent : uuid;
  terminal_Reconnect : uuid;
  terminal_Height : Z;
  terminal_Width : Z;
  terminal_Command : string;
}.

(** What a connection of an agent keeps between its writes. *)
Record agent_session := mkSession {
  session_Agent : uuid;
  session_FirstConnectedAt : nullable time;
  session_LastConnectedAt : nullable time;
  session_DisconnectedAt : nullable time;
}.
#[global] Instance agent_session_eta : Eta agent_session := λ s,
  mkSession s.(session_Agent) s.(session_FirstConnectedAt) s.(session_LastConnectedAt) s.(session_DisconnectedAt).

Definition uint16_wrap (n : Z) : Z := n mod 2 ^ 16.

#[global] Instance AgentStatsReportResponse_eq_dec : EqDecision AgentStatsReportResponse.
Proof. solve_decision. Defined.
(** The JSON of a report. *)
Definition marshal_report (rep : AgentStatsReportResponse) : RawMessage :=
  RawValue (JObject [("num_comms", JNumber rep.(AgentStatsReportResponse_NumConns));
                     ("rx_bytes", JNumber rep.(AgentStatsReportResponse_RxBytes));
                     ("tx_bytes", JNumber rep.(AgentStatsReportResponse_TxBytes))]).
Definition zero_report : AgentStatsReportResponse := mkAgentStatsReportResponse 0 0 0.
Definition unmarshal_report (m : RawMessage) : res AgentStatsReportResponse :=
  unmarshal_struct (λ k j x,
    if EqualFold k "num_comms" then n ← unmarshal_int64 j; Ok (x <| AgentStatsReportResponse_NumConns := n |>)
    else if EqualFold k "rx_bytes" then n ← unmarshal_int64 j; Ok (x <| AgentStatsReportResponse_RxBytes := n |>)
    else if EqualFold k "tx_bytes" then n ← unmarshal_int64 j; Ok (x <| AgentStatsReportResponse_TxBytes := n |>)
    else Ok x) zero_report m.

Section agents.
Context `{!Environment, !UuidText, !Authorizer, !Tailnet, !Websockets}.
Context (api : Options) (o : AppOptions) (derpMap : DERPMap).

(** ** What is shown *)

(** No rows are no applications. *)
Definition agent_apps (agentID : uuid) (msg : string) : Handler (list WorkspaceApp) :=
  catch (query (GetWorkspaceAppsByAgentID agentID))
    (λ err, if errors_Is err ErrNoRows then mret [] else internal msg err).
Definition convert_agent (agent : WorkspaceAgent) (apps : list sdkWorkspaceApp) : Handler sdkWorkspaceAgent :=
  catch (convertWorkspaceAgent api agent apps) (internal "Internal error reading workspace agent.").

Definition api_workspaceAgent (r : Request) (agent : WorkspaceAgent) (workspace : Workspace) : Handler unit :=
  _ ← authorize r ActionRead (Workspace_RBACObject workspace) ResourceNotFound;
  dbApps ← agent_apps agent.(WorkspaceAgent_ID) "Internal error fetching workspace agent applications.";
  apiAgent ← convert_agent agent (convertApps dbApps);
  reply StatusOK (BodyWorkspaceAgent apiAgent).

Definition vscodeProxyURI (agent : WorkspaceAgent) (workspace : Workspace) (owner : User) : string :=
  let uri := replace_star o.(AppHostname)
    (o.(AccessURL).(url_Scheme) +:+ "://{{port}}--" +:+ agent.(WorkspaceAgent_Name) +:+ "--" +:+
     workspace.(Workspace_Name) +:+ "--" +:+ owner.(User_Username)) in
  if url_Port o.(AccessURL) != EmptyString then uri +:+ ":" +:+ url_Port o.(AccessURL) else uri.

Definition workspaceAgentMetadata (gitAuthConfigs : Z) (workspaceAgent : WorkspaceAgent) : Handler unit :=
  apiAgent ← convert_agent workspaceAgent [];
  dbApps ← agent_apps workspaceAgent.(WorkspaceAgent_ID) "Internal error fetching workspace agent applications.";
  resource ← catch (query (GetWorkspaceResourceByID workspaceAgent.(WorkspaceAgent_ResourceID)))
    (internal "Internal error fetching workspace resource.");
  build ← catch (query (GetWorkspaceBuildByJobID resource.(WorkspaceResource_JobID)))
    (internal "Internal error fetching workspace build.");
  workspace ← catch (query (GetWorkspaceByID build.(WorkspaceBuild_WorkspaceID)))
    (internal "Internal error fetching workspace.");
  owner ← catch (query (GetUserByID workspace.(Workspace_OwnerID))) (internal "Internal error fetching workspace owner.");
  reply StatusOK (BodyAgentMetadata {|
    WorkspaceAgentMetadata_GitAuthConfigs := gitAuthConfigs;
    WorkspaceAgentMetadata_VSCodePortProxyURI := vscodeProxyURI workspaceAgent workspace owner;
    WorkspaceAgentMetadata_Apps := convertApps dbApps;
    WorkspaceAgentMetadata_DERPMap := derpMap;
    WorkspaceAgentMetadata_EnvironmentVariables := apiAgent.(sdkWorkspaceAgent_EnvironmentVariables);
    WorkspaceAgentMetadata_StartupScript := apiAgent.(sdkWorkspaceAgent_StartupScript);
    WorkspaceAgentMetadata_Directory := apiAgent.(sdkWorkspaceAgent_Directory);
    WorkspaceAgentMetadata_MOTDFile := workspaceAgent.(WorkspaceAgent_MOTDFile) |}).

Definition postWorkspaceAgentVersion `{!Semver, !Validate PostWorkspaceAgentVersionRequest} (workspaceAgent : WorkspaceAgent)
    (body : json_body PostWorkspaceAgentVersionRequest) : Handler unit :=
  apiAgent ← convert_agent workspaceAgent [];
  req ← Read body;
  let version := req.(PostWorkspaceAgentVersionRequest_Version) in
  _ ← require (semver_IsValid version) (Write StatusBadRequest (with_detail "Invalid workspace agent version provided."
        ("invalid semver version: " +:+ quote version)));
  _ ← catch (store (UpdateWorkspaceAgentVersionByID {|
      UpdateWorkspaceAgentVersionByIDParams_ID := apiAgent.(sdkWorkspaceAgent_ID);
      UpdateWorkspaceAgentVersionByIDParams_Version := version |}))
    (internal "Error setting agent version");
  reply StatusOK BodyNone.

Definition workspaceAgentConnection (r : Request) (workspace : Workspace) : Handler unit :=
  _ ← authorize r ActionRead (Workspace_RBACObject workspace) ResourceNotFound;
  reply StatusOK (BodyAgentConnection (mkWorkspaceAgentConnectionInfo derpMap)).

(** The agent must be connected. *)
Definition connected_agent (agent : WorkspaceAgent) : Handler unit :=
  apiAgent ← convert_agent agent [];
  require (apiAgent.(sdkWorkspaceAgent_Status) == WorkspaceAgentConnected)
    (Write StatusPreconditionRequired (message
      ("Agent state is " +:+ quote (WorkspaceAgentStatus_string apiAgent.(sdkWorkspaceAgent_Status)) +:+
       ", it must be in the " +:+ quote (WorkspaceAgentStatus_string WorkspaceAgentConnected) +:+ " state."))).

(** ** Connections to an agent *)

(** The error of dialing an agent, if there is one, and what an agent answers. *)
Context (Acquire : uuid → option error) (ListeningPorts : uuid → res ListeningPortsResponse).

(** The port of an application, if its URL has one. *)
Definition app_port (app : WorkspaceApp) : option Z :=
  if negb (Valid app.(WorkspaceApp_Url)) || (null_val app.(WorkspaceApp_Url) == EmptyString) then None
  else match url_Parse (null_val app.(WorkspaceApp_Url)) with
       | Ok u =>
           if url_Port u == EmptyString then None
           else match Atoi (url_Port u) with
                | Ok portNum => if (portNum <? 1) || (65535 <? portNum) then None else Some portNum
                | _ => None
                end
       | _ => None
       end.
(** Neither reserved, nor that of an application, nor one that is not HTTP. *)
Definition shown_port (appPorts : list Z) (port : ListeningPort) : bool :=
  let p := port.(ListeningPort_Port) in
  negb (p <? MinimumListeningPort) && negb (bool_decide (p ∈ appPorts)) && negb (bool_decide (p ∈ IgnoredListeningPorts)).

Definition workspaceAgentListeningPorts (r : Request) (workspace : Workspace) (workspaceAgent : WorkspaceAgent) : Handler unit :=
  _ ← authorize r ActionRead (Workspace_RBACObject workspace) ResourceNotFound;
  _ ← connected_agent workspaceAgent;
  _ ← match Acquire workspaceAgent.(WorkspaceAgent_ID) with
      | Some err => internal "Internal error dialing workspace agent." err
      | None => mret tt
      end;
  portsResponse ← catch (lift_res (ListeningPorts workspaceAgent.(WorkspaceAgent_ID)))
    (internal "Internal error fetching listening ports.");
  apps ← agent_apps workspaceAgent.(WorkspaceAgent_ID) "Internal error fetching workspace apps.";
  let appPorts := omap app_port apps in
  reply StatusOK (BodyListeningPorts (mkListeningPortsResponse
    (filter (λ port, shown_port appPorts port = true) portsResponse.(ListeningPortsResponse_Ports)))).

Definition accept_websocket (r : Request) : Handler unit :=
  match websocket_Accept r with
  | Some err => Write StatusBadRequest (with_detail "Failed to accept websocket." (error_string err))
  | None => mret tt
  end.

(** The terminal that is opened, if the agent can be dialed. *)
Definition workspaceAgentPTY (r : Request) (workspace : Workspace) (workspaceAgent : WorkspaceAgent) :
    Handler (option terminal) :=
  _ ← authorize r ActionCreate (Workspace_ExecutionRBAC workspace) ResourceNotFound;
  _ ← connected_agent workspaceAgent;
  let query := r.(URL_Query) in
  reconnect ← match uuid_Parse (url_Get query "reconnect") with
              | Some id => mret id
              | None => Write StatusBadRequest (mkResponse "Query param 'reconnect' must be a valid UUID." EmptyString
                          [mkValidationError "reconnect" "invalid UUID"])
              end;
  let size name := match Atoi (url_Get query name) with Ok n => n | _ => 80 end in
  _ ← accept_websocket r;
  mret (match Acquire workspaceAgent.(WorkspaceAgent_ID) with
        | Some _ => None
        | None => Some (mkTerminal workspaceAgent.(WorkspaceAgent_ID) reconnect (uint16_wrap (size "height"))
                          (uint16_wrap (size "width")) (url_Get query "command"))
        end).

(** The agent whose nodes a client is told; [override] may refuse. *)
Definition workspaceAgentClientCoordinate (override : Handler unit) (r : Request) (workspace : Workspace)
    (workspaceAgent : WorkspaceAgent) : Handler uuid :=
  _ ← authorize r ActionCreate (Workspace_ExecutionRBAC workspace) ResourceNotFound;
  _ ← override;
  _ ← accept_websocket r;
  mret workspaceAgent.(WorkspaceAgent_ID).

(** ** The connection an agent keeps open *)

(** Only agents of the latest build are accepted. *)
Definition ensureLatestBuild (build : WorkspaceBuild) : GoM world unit :=
  latestBuild ← query (GetLatestWorkspaceBuildByWorkspaceID build.(WorkspaceBuild_WorkspaceID));
  if build.(WorkspaceBuild_ID) != latestBuild.(WorkspaceBuild_ID) then throw (ErrNew "build is outdated") else mret tt.

Definition updateConnectionTimes (sess : agent_session) : GoM world unit :=
  now ← Now;
  store (UpdateWorkspaceAgentConnectionByID {|
    UpdateWorkspaceAgentConnectionByIDParams_ID := sess.(session_Agent);
    UpdateWorkspaceAgentConnectionByIDParams_FirstConnectedAt := sess.(session_FirstConnectedAt);
    UpdateWorkspaceAgentConnectionByIDParams_LastConnectedAt := sess.(session_LastConnectedAt);
    UpdateWorkspaceAgentConnectionByIDParams_LastConnectedReplicaID := non_null api.(api_ID);
    UpdateWorkspaceAgentConnectionByIDParams_DisconnectedAt := sess.(session_DisconnectedAt);
    UpdateWorkspaceAgentConnectionByIDParams_UpdatedAt := now |}).

Definition open_session (workspaceAgent : WorkspaceAgent) : GoM world agent_session :=
  firstConnectedAt ← (if Valid workspaceAgent.(WorkspaceAgent_FirstConnectedAt)
                      then mret workspaceAgent.(WorkspaceAgent_FirstConnectedAt)
                      else now ← Now; mret (non_null now));
  now ← Now;
  mret (mkSession workspaceAgent.(WorkspaceAgent_ID) firstConnectedAt (non_null now)
          workspaceAgent.(WorkspaceAgent_DisconnectedAt)).

(** A tick: the session goes on unless the agent is gone or its build is outdated. *)
Definition session_tick (build : WorkspaceBuild) (sess : agent_session) : GoM world (agent_session * bool) :=
  now ← Now;
  let sess := sess <| session_LastConnectedAt := non_null now |> in
  updated ← attempt (updateConnectionTimes sess);
  match updated with
  | inl _ => mret (sess, false)
  | inr _ =>
      latest ← attempt (ensureLatestBuild build);
      mret (sess, match latest with inl _ => false | inr _ => true end)
  end.

(** [others] are what happens elsewhere before each tick; when there is none left the
    connection is closed. *)
Fixpoint session_loop (build : WorkspaceBuild) (sess : agent_session) (others : list (GoM world unit)) :
    GoM world agent_session :=
  match others with
  | [] => mret sess
  | other :: others =>
      _ ← attempt other;
      ticked ← session_tick build sess;
      if (ticked.2 : bool) then session_loop build ticked.1 others else mret ticked.1
  end.

(** What is left to do when the handler returns. The code writes with the context of the
    connection, which the store ignores. *)
Definition close_session (build : WorkspaceBuild) (sess : agent_session) : GoM world unit :=
  now ← Now;
  _ ← attempt (updateConnectionTimes (sess <| session_DisconnectedAt := non_null now |>));
  void (attempt (Publish (WorkspaceNotifyChannel build.(WorkspaceBuild_WorkspaceID)) empty_message)).

Definition serve_session (build : WorkspaceBuild) (workspaceAgent : WorkspaceAgent) (others : list (GoM world unit)) :
    GoM world unit :=
  sess ← open_session workspaceAgent;
  opened ← attempt (updateConnectionTimes sess);
  match opened with
  | inl _ => close_session build sess
  | inr _ =>
      _ ← publishWorkspaceUpdate build.(WorkspaceBuild_WorkspaceID);
      sess ← session_loop build sess others;
      close_session build sess
  end.

Definition workspaceAgentCoordinate (r : Request) (workspaceAgent : WorkspaceAgent) (others : list (GoM world unit)) :
    Handler unit :=
  let bad {A} msg err : Handler A := Write StatusBadRequest (with_detail msg (error_string err)) in
  resource ← catch (query (GetWorkspaceResourceByID workspaceAgent.(WorkspaceAgent_ResourceID)))
    (bad "Failed to accept websocket.");
  build ← catch (query (GetWorkspaceBuildByJobID resource.(WorkspaceResource_JobID)))
    (bad "Internal error fetching workspace build job.");
  _ ← catch (ensureLatestBuild build)
    (λ err, Write StatusForbidden (with_detail "Agent trying to connect from non-latest build." (error_string err)));
  _ ← accept_websocket r;
  run (serve_session build workspaceAgent others).

(** ** Statistics *)

Definition insert_stat (now : time) (workspaceAgent : WorkspaceAgent) (workspace : Workspace) (payload : RawMessage) :
    GoM world unit :=
  id ← uuid_New;
  void (store (InsertAgentStat {|
    InsertAgentStatParams_ID := id;
    InsertAgentStatParams_CreatedAt := now;
    InsertAgentStatParams_UserID := workspace.(Workspace_OwnerID);
    InsertAgentStatParams_WorkspaceID := workspace.(Workspace_ID);
    InsertAgentStatParams_TemplateID := workspace.(Workspace_TemplateID);
    InsertAgentStatParams_AgentID := workspaceAgent.(WorkspaceAgent_ID);
    InsertAgentStatParams_Payload := payload |})).
Definition update_last_used (workspace : Workspace) (now : time) : GoM world unit :=
  store (UpdateWorkspaceLastUsedAt {|
    UpdateWorkspaceLastUsedAtParams_ID := workspace.(Workspace_ID);
    UpdateWorkspaceLastUsedAtParams_LastUsedAt := now |}).
Definition stats_workspace (workspaceAgent : WorkspaceAgent) : Handler Workspace :=
  catch (query (GetWorkspaceByAgentID workspaceAgent.(WorkspaceAgent_ID)))
    (λ err, Write StatusBadRequest (with_detail "Failed to get workspace." (error_string err))).

Definition workspaceAgentReportStats `{!Validate AgentStats} (workspaceAgent : WorkspaceAgent) (body : json_body AgentStats) :
    Handler unit :=
  workspace ← stats_workspace workspaceAgent;
  req ← Read body;
  let done : Handler unit := reply StatusOK (BodyAgentStats (mkAgentStatsResponse api.(AgentStatsRefreshInterval))) in
  if (req.(AgentStats_RxBytes) == 0) && (req.(AgentStats_TxBytes) == 0) then done
  else
  _ ← run (activityBumpWorkspace workspace.(Workspace_ID));
  now ← run Now;
  _ ← catch (insert_stat now workspaceAgent workspace (RawValue (JObject []))) InternalServerError;
  _ ← catch (update_last_used workspace now) InternalServerError;
  done.

(** The reports that are read until reading fails. A report like the one before is
    not written. The routine that bumps the deadline writes no statistics and no
    workspace; it runs where it is started. *)
Fixpoint read_reports (workspaceAgent : WorkspaceAgent) (workspace : Workspace) (lastReport : AgentStatsReportResponse)
    (reports : list AgentStatsReportResponse) : GoM world unit :=
  match reports with
  | [] => mret tt
  | rep :: reports =>
      if bool_decide (lastReport = rep) then read_reports workspaceAgent workspace lastReport reports
      else
      _ ← activityBumpWorkspace workspace.(Workspace_ID);
      now ← Now;
      inserted ← attempt (insert_stat now workspaceAgent workspace (marshal_report rep));
      match inserted with
      | inl _ => mret tt
      | inr _ =>
          now ← Now;
          updated ← attempt (update_last_used workspace now);
          match updated with
          | inl _ => mret tt
          | inr _ => read_reports workspaceAgent workspace rep reports
          end
      end
  end.

Definition workspaceAgentReportStatsWebsocket (r : Request) (workspaceAgent : WorkspaceAgent)
    (reports : list AgentStatsReportResponse) : Handler unit :=
  workspace ← stats_workspace workspaceAgent;
  _ ← accept_websocket r;
  run (latestStat ← attempt (query (GetLatestAgentStat workspaceAgent.(WorkspaceAgent_ID)));
       match latestStat with
       | inl _ => read_reports workspaceAgent workspace zero_report reports
       | inr stat =>
           lastReport ← attempt (lift_res (unmarshal_report stat.(AgentStat_Payload)));
           match lastReport with
           | inl _ => mret tt
           | inr lastReport => read_reports workspaceAgent workspace lastReport reports
           end
       end).

(** ** The health of applications *)

(** The new health of each application that changes; [healths] is ranged over in
    some order, and the first application that is refused ends the request. *)
Fixpoint new_healths (apps : list WorkspaceApp) (healths : list (uuid * WorkspaceAppHealth)) : Handler (list WorkspaceApp) :=
  match healths with
  | [] => mret []
  | (id, newHealth) :: healths =>
      let refuse {A} status detail : Handler A := Write status (with_detail "Error setting workspace app health" detail) in
      old ← match find_first (λ app, app.(WorkspaceApp_ID) == id) apps with
            | Some old => mret old
            | None => refuse StatusNotFound ("workspace app name " +:+ uuid_String id +:+ " not found")
            end;
      _ ← require (old.(WorkspaceApp_HealthcheckUrl) != EmptyString)
            (refuse StatusNotFound ("health checking is disabled for workspace app " +:+ uuid_String id));
      _ ← match newHealth with
          | WorkspaceAppHealthInitializing | WorkspaceAppHealthHealthy | WorkspaceAppHealthUnhealthy => mret tt
          | _ => refuse StatusBadRequest
                   ("workspace app health " +:+ WorkspaceAppHealth_string newHealth +:+ " is not a valid value")
          end;
      newApps ← new_healths apps healths;
      mret (if old.(WorkspaceApp_Health) == newHealth then newApps
            else old <| WorkspaceApp_Health := newHealth |> :: newApps)
  end.

Definition update_health (app : WorkspaceApp) : Handler unit :=
  catch (store (UpdateWorkspaceAppHealthByID {|
      UpdateWorkspaceAppHealthByIDParams_ID := app.(WorkspaceApp_ID);
      UpdateWorkspaceAppHealthByIDParams_Health := app.(WorkspaceApp_Health) |}))
    (internal "Error setting workspace app health").
Fixpoint update_healths (apps : list WorkspaceApp) : Handler unit :=
  match apps with
  | [] => mret tt
  | app :: apps => _ ← update_health app; update_healths apps
  end.

Definition postWorkspaceAppHealth `{!Validate PostWorkspaceAppHealthsRequest} (workspaceAgent : WorkspaceAgent)
    (body : json_body PostWorkspaceAppHealthsRequest) : Handler unit :=
  req ← Read body;
  let healths := map_to_list req.(PostWorkspaceAppHealthsRequest_Healths) in
  _ ← require (negb (Nat.eqb (length healths) 0)) (Write StatusBadRequest (message "Health field is empty"));
  apps ← catch (query (GetWorkspaceAppsByAgentID workspaceAgent.(WorkspaceAgent_ID))) (internal "Error getting agent apps");
  newApps ← new_healths apps healths;
  _ ← update_healths newApps;
  resource ← catch (query (GetWorkspaceResourceByID workspaceAgent.(WorkspaceAgent_ResourceID)))
    (internal "Internal error fetching workspace resource.");
  job ← catch (query (GetWorkspaceBuildByJobID resource.(WorkspaceResource_JobID)))
    (internal "Internal error fetching workspace build.");
  workspace ← catch (query (GetWorkspaceByID job.(WorkspaceBuild_WorkspaceID)))
    (internal "Internal error fetching workspace.");
  _ ← run (publishWorkspaceUpdate workspace.(Workspace_ID));
  reply StatusOK BodyNone.

(** ** [workspaceresourceauth.go] *)

Definition handleAuthInstanceID (instanceID : string) : Handler unit :=
  agent ← catch (query (GetWorkspaceAgentByInstanceID instanceID))
    (λ err, if errors_Is err ErrNoRows
            then Write StatusNotFound (message ("Instance with id " +:+ quote instanceID +:+ " not found."))
            else internal "Internal error fetching provisioner job agent." err);
  resource ← catch (query (GetWorkspaceResourceByID agent.(WorkspaceAgent_ResourceID)))
    (internal "Internal error fetching provisioner job resource.");
  job ← catch (query (GetProvisionerJobByID resource.(WorkspaceResource_JobID)))
    (internal "Internal error fetching provisioner job.");
  _ ← require (job.(ProvisionerJob_Type) == ProvisionerJobTypeWorkspaceBuild) (Write StatusBadRequest (message
        (quote (ProvisionerJobType_string job.(ProvisionerJob_Type)) +:+ " jobs cannot be authenticated.")));
  jobData ← catch (lift_res (unmarshal_WorkspaceProvisionJob job.(ProvisionerJob_Input)))
    (internal "Internal error extracting job data.");
  resourceHistory ← catch (query (GetWorkspaceBuildByID jobData.(WorkspaceProvisionJob_WorkspaceBuildID)))
    (internal "Internal error fetching workspace build.");
  latestHistory ← catch (query (GetLatestWorkspaceBuildByWorkspaceID resourceHistory.(WorkspaceBuild_WorkspaceID)))
    (internal "Internal error fetching the latest workspace build.");
  _ ← require (latestHistory.(WorkspaceBuild_ID) == resourceHistory.(WorkspaceBuild_ID)) (Write StatusBadRequest (message
        ("Resource found for id " +:+ quote instanceID +:+ ", but isn't registered on the latest history.")));
  reply StatusOK (BodyAgentAuth (mkWorkspaceAgentAuthenticateResponse (uuid_String agent.(WorkspaceAgent_AuthToken)))).

Definition unauthorized {A} (msg : string) (err : error) : Handler A :=
  Write StatusUnauthorized (with_detail msg (error_string err)).

Definition postWorkspaceAuthAzureInstanceIdentity `{!JsonText, !Azure.AzureCertificates, !Validate AzureInstanceIdentityToken}
    (intermediates : bool) (body : json_body AzureInstanceIdentityToken) : Handler unit :=
  req ← Read body;
  instanceID ← catch (lift_res (Azure.azureidentity_Validate req.(AzureInstanceIdentityToken_Signature) intermediates))
    (unauthorized "Invalid Azure identity.");
  handleAuthInstanceID instanceID.

Definition postWorkspaceAuthAWSInstanceIdentity `{!JsonText, !Sha256, !Aws.RsaCertificates, !Validate AWSInstanceIdentityToken}
    (defaults certificates : Aws.Certificates) (body : json_body AWSInstanceIdentityToken) : Handler unit :=
  req ← Read body;
  identity ← catch (lift_res (Aws.awsidentity_Validate defaults req.(AWSInstanceIdentityToken_Signature)
      req.(AWSInstanceIdentityToken_Document) certificates))
    (unauthorized "Invalid AWS identity.");
  handleAuthInstanceID identity.(Aws.InstanceID).

(** [claims_InstanceID] is the validator of Google and [mapstructure.Decode]: the
    claims of a token, and the ID of the instance among them. *)
Definition postWorkspaceAuthGoogleInstanceIdentity `{!Validate GoogleInstanceIdentityToken} {payload : Type}
    (Validate : string → res payload) (claims_InstanceID : payload → res string)
    (body : json_body GoogleInstanceIdentityToken) : Handler unit :=
  req ← Read body;
  claims ← catch (lift_res (Validate req.(GoogleInstanceIdentityToken_JSONWebToken))) (unauthorized "Invalid GCP identity.");
  instanceID ← catch (lift_res (claims_InstanceID claims))
    (λ err, Write StatusBadRequest (with_detail "Error decoding JWT claims." (error_string err)));
  handleAuthInstanceID instanceID.
End agents.
