(* ===== verification/ApiVersions.v ===== *)
(** * The API: template versions

    [coderd/templateversions.go]. The JSON of a list of [database.ParameterValue]
    is the one [encoding/json] derives from the type: a pair of parameters. *)

From Stdlib Require Import Ascii.
From stdpp Require Import prelude gmap strings.
From S2P Require Import Prelude Encoding Rbac Models Queries ModelMethods Store StoreUsers StoreMisc.
From S2P Require Import StoreJobs StoreTemplates StoreWorkspaces World ParamCompute ProvisionerdServer.
From S2P Require Import Auditing Sdk Http HttpMw QueryParams Api ApiUsers ApiMisc ApiJobs ApiBuilds ApiTemplates.

Local Open Scope Z_scope.

Definition convertTemplateVersion (version : TemplateVersion) (job : sdkProvisionerJob) (user : User) :
    sdkTemplateVersion := {|
  sdkTemplateVersion_ID := version.(TemplateVersion_ID);
  sdkTemplateVersion_TemplateID := Some (null_val version.(TemplateVersion_TemplateID));
  sdkTemplateVersion_OrganizationID := version.(TemplateVersion_OrganizationID);
  sdkTemplateVersion_CreatedAt := version.(TemplateVersion_CreatedAt);
  sdkTemplateVersion_UpdatedAt := version.(TemplateVersion_UpdatedAt);
  sdkTemplateVersion_Name := version.(TemplateVersion_Name);
  sdkTemplateVersion_Job := job;
  sdkTemplateVersion_Readme := version.(TemplateVersion_Readme);
  sdkTemplateVersion_CreatedBy := {|
    sdkUser_ID := user.(User_ID);
    sdkUser_Username := user.(User_Username);
    sdkUser_Email := user.(User_Email);
    sdkUser_CreatedAt := user.(User_CreatedAt);
    sdkUser_LastSeenAt := time_zero;
    sdkUser_Status := user.(User_Status);
    sdkUser_OrganizationIDs := [];
    sdkUser_Roles := [];
    sdkUser_AvatarURL := null_val user.(User_AvatarURL) |} |}.

Section versions.
Context `{!Environment, !UuidText, !Authorizer, !Auditor, !Tailnet, !Hcl, !NamesGenerator}.
Context `{!Validate CreateTemplateVersionDryRunRequest, !Validate UpdateActiveTemplateVersion}.
Context `{!Validate CreateTemplateVersionRequest}.
Context (api : Options).
Context (encode : list ParameterValue → json) (decode : json → res (list ParameterValue)).

(** [json.Marshal] of a [provisionerdserver.TemplateVersionDryRunJob] *)
Definition marshal_TemplateVersionDryRunJob (job : TemplateVersionDryRunJob) : RawMessage :=
  RawValue (JObject [
    ("template_version_id", JString (uuid_String job.(TemplateVersionDryRunJob_TemplateVersionID)));
    ("workspace_name", JString job.(TemplateVersionDryRunJob_WorkspaceName));
    ("parameter_values", encode job.(TemplateVersionDryRunJob_ParameterValues))]).

(** ** Reading versions *)

Definition version_job (version : TemplateVersion) : Handler ProvisionerJob :=
  catch (query (GetProvisionerJobByID version.(TemplateVersion_JobID)))
    (internal "Internal error fetching provisioner job.").

Definition reply_version (version : TemplateVersion) : Handler unit :=
  job ← version_job version;
  user ← catch (query (GetUserByID version.(TemplateVersion_CreatedBy))) (internal "Internal error on fetching user.");
  apiJob ← run (convertProvisionerJob job);
  reply StatusOK (BodyTemplateVersion (convertTemplateVersion version apiJob user)).

(** [if !api.Authorize(r, action, templateVersion.RBACObject(template))] *)
Definition authorize_version (r : Request) (action : string) (version : TemplateVersion) (template : Template) :
    Handler unit :=
  authorize r action (TemplateVersion_RBACObject version template) ResourceNotFound.

Definition api_templateVersion (r : Request) (version : TemplateVersion) (template : Template) : Handler unit :=
  _ ← authorize_version r ActionRead version template;
  reply_version version.

Definition templateVersionSchema (r : Request) (version : TemplateVersion) (template : Template) : Handler unit :=
  _ ← authorize_version r ActionRead version template;
  job ← version_job version;
  _ ← require (Valid job.(ProvisionerJob_CompletedAt))
    (Write StatusPreconditionFailed (message "Template version job hasn't completed!"));
  schemas ← or_empty "Internal error listing parameter schemas."
    (query (GetParameterSchemasByJobID job.(ProvisionerJob_ID)));
  apiSchemas ← mapM (M := Handler) (λ schema,
    catch (lift_res (convertParameterSchema schema))
      (internal ("Internal error converting schema " +:+ schema.(ParameterSchema_Name) +:+ "."))) schemas;
  reply StatusOK (BodyParameterSchemas apiSchemas).

(** The values of secret parameters are not sent. *)
Definition templateVersionParameters (r : Request) (version : TemplateVersion) (template : Template) : Handler unit :=
  _ ← authorize_version r ActionRead version template;
  job ← version_job version;
  _ ← require (Valid job.(ProvisionerJob_CompletedAt))
    (Write StatusPreconditionFailed (message "Job hasn't completed!"));
  values ← catch (Compute (mkComputeScope job.(ProvisionerJob_ID) (null_of uuid_Nil) (null_of uuid_Nil) [])
                    (Some (mkComputeOptions true)))
    (internal "Internal error computing values.");
  reply StatusOK (BodyComputedValues values).

Definition templateVersionResources (r : Request) (version : TemplateVersion) (template : Template) : Handler unit :=
  _ ← authorize_version r ActionRead version template;
  job ← version_job version;
  provisionerJobResources api job.

Definition templateVersionLogs (stream : list ProvisionerJobLog → Handler unit) (r : Request)
    (version : TemplateVersion) (template : Template) : Handler unit :=
  _ ← authorize_version r ActionRead version template;
  job ← version_job version;
  provisionerJobLogs stream r job.

(** The versions of a template. A version without its job ends the list with an
    error response. *)
Definition templateVersionsByTemplate (r : Request) (template : Template) : Handler unit :=
  _ ← authorize r ActionRead (Template_RBACObject template) ResourceNotFound;
  page ← parsePagination r;
  let afterID := page.(sdkPagination_AfterID) in
  _ ← (if afterID != uuid_Nil then
         _ ← catch (query (GetTemplateVersionByID afterID)) (λ err,
           if errors_Is err ErrNoRows
           then Write StatusBadRequest (message ("Record at " +:+ quote "after_id" +:+ " ("
                  +:+ quote (uuid_String afterID) +:+ ") does not exists."))
           else internal "Internal error fetching template version at after_id." err);
         mret tt
       else mret tt);
  versions ← catch (query (GetTemplateVersionsByTemplateID {|
      GetTemplateVersionsByTemplateIDParams_TemplateID := template.(Template_ID);
      GetTemplateVersionsByTemplateIDParams_AfterID := afterID;
      GetTemplateVersionsByTemplateIDParams_OffsetOpt := int32_wrap page.(sdkPagination_Offset);
      GetTemplateVersionsByTemplateIDParams_LimitOpt := int32_wrap page.(sdkPagination_Limit) |}))
    (λ err, if errors_Is err ErrNoRows then reply StatusOK (BodyTemplateVersions [])
            else internal "Internal error fetching template versions." err);
  jobs ← catch (query (GetProvisionerJobsByIDs (TemplateVersion_JobID <$> versions)))
    (internal "Internal error fetching provisioner job.");
  let jobByID := foldl (λ m job, <[uuid_String job.(ProvisionerJob_ID) := job]> m)
                   (∅ : gmap string ProvisionerJob) jobs in
  apiVersions ← mapM (M := Handler) (λ version,
    match jobByID !! uuid_String version.(TemplateVersion_JobID) with
    | None => Write StatusInternalServerError (message ("Job "
                +:+ quote (uuid_String version.(TemplateVersion_JobID)) +:+ " doesn't exist for version "
                +:+ quote (uuid_String version.(TemplateVersion_ID)) +:+ "."))
    | Some job =>
        user ← catch (query (GetUserByID version.(TemplateVersion_CreatedBy)))
          (internal "Internal error on fetching user.");
        apiJob ← run (convertProvisionerJob job);
        mret (convertTemplateVersion version apiJob user)
    end) versions;
  reply StatusOK (BodyTemplateVersions apiVersions).

Definition no_version (name : string) (err : error) : Handler TemplateVersion :=
  if errors_Is err ErrNoRows
  then Write StatusNotFound (message ("No template version found by name " +:+ quote name +:+ "."))
  else internal "Internal error fetching template version." err.

Definition templateVersionByName (r : Request) (template : Template) : Handler unit :=
  _ ← authorize r ActionRead (Template_RBACObject template) ResourceNotFound;
  let name := URLParam r "templateversionname" in
  version ← catch (query (GetTemplateVersionByTemplateIDAndName
      (mkGetTemplateVersionByTemplateIDAndNameParams (non_null template.(Template_ID)) name)))
    (no_version name);
  reply_version version.

(** No permission is asked for. *)
Definition templateVersionByOrganizationAndName (r : Request) (organization : Organization) : Handler unit :=
  let name := URLParam r "templateversionname" in
  version ← catch (query (GetTemplateVersionByOrganizationAndName
      (mkGetTemplateVersionByOrganizationAndNameParams organization.(Organization_ID) name)))
    (no_version name);
  reply_version version.

(** ** Jobs *)

(** Mark a job as canceled; one no daemon has taken is completed by it. *)
Definition cancel_job (completed canceled : string) (job : ProvisionerJob) : Handler unit :=
  _ ← require (negb (Valid job.(ProvisionerJob_CompletedAt)))
    (Write StatusPreconditionFailed (message completed));
  _ ← require (negb (Valid job.(ProvisionerJob_CanceledAt)))
    (Write StatusPreconditionFailed (message canceled));
  canceledAt ← run Now;
  completedAt ← run Now;
  catch (store (UpdateProvisionerJobWithCancelByID {|
      UpdateProvisionerJobWithCancelByIDParams_ID := job.(ProvisionerJob_ID);
      UpdateProvisionerJobWithCancelByIDParams_CanceledAt := mkNull canceledAt true;
      UpdateProvisionerJobWithCancelByIDParams_CompletedAt :=
        mkNull completedAt (negb (Valid job.(ProvisionerJob_WorkerID))) |}))
    (internal "Internal error updating provisioner job.").

Definition patchCancelTemplateVersion (r : Request) (version : TemplateVersion) (template : Template) : Handler unit :=
  _ ← authorize_version r ActionUpdate version template;
  job ← version_job version;
  _ ← cancel_job "Job has already completed!" "Job has already been marked as canceled!" job;
  Write StatusOK (message "Job has been marked as canceled...").

Definition dry_run_workspace (version : TemplateVersion) (ownerID : uuid) : Object :=
  WithOwner (uuid_String ownerID) (InOrg version.(TemplateVersion_OrganizationID) ResourceWorkspace).

(** A dry run needs the permission to create a workspace. *)
Definition postTemplateVersionDryRun (r : Request) (version : TemplateVersion) (template : Template)
    (body : json_body CreateTemplateVersionDryRunRequest) : Handler unit :=
  apiKey ← get (httpmw_APIKey r);
  _ ← authorize_version r ActionRead version template;
  _ ← authorize r ActionCreate (dry_run_workspace version apiKey.(APIKey_UserID)) ResourceNotFound;
  req ← Read body;
  job ← catch (query (GetProvisionerJobByID version.(TemplateVersion_JobID)))
    (internal "Internal error updating provisioner job.");
  _ ← require (Valid job.(ProvisionerJob_CompletedAt))
    (Write StatusPreconditionFailed (message "Template version import job hasn't completed!"));
  let parameterValues := (λ v, {|
    ParameterValue_ID := uuid_Nil;
    ParameterValue_CreatedAt := time_zero;
    ParameterValue_UpdatedAt := time_zero;
    ParameterValue_Scope := ParameterScopeWorkspace;
    ParameterValue_ScopeID := uuid_Nil;
    ParameterValue_Name := v.(CreateParameterRequest_Name);
    ParameterValue_SourceScheme := ParameterSourceSchemeData;
    ParameterValue_SourceValue := v.(CreateParameterRequest_SourceValue);
    ParameterValue_DestinationScheme := ParameterDestinationSchemeProvisionerVariable |})
    <$> req.(CreateTemplateVersionDryRunRequest_ParameterValues) in
  jobID ← run uuid_New;
  created ← run Now;
  updated ← run Now;
  provisionerJob ← catch (store (InsertProvisionerJob {|
      InsertProvisionerJobParams_ID := jobID;
      InsertProvisionerJobParams_CreatedAt := created;
      InsertProvisionerJobParams_UpdatedAt := updated;
      InsertProvisionerJobParams_OrganizationID := version.(TemplateVersion_OrganizationID);
      InsertProvisionerJobParams_InitiatorID := apiKey.(APIKey_UserID);
      InsertProvisionerJobParams_Provisioner := job.(ProvisionerJob_Provisioner);
      InsertProvisionerJobParams_StorageMethod := job.(ProvisionerJob_StorageMethod);
      InsertProvisionerJobParams_FileID := job.(ProvisionerJob_FileID);
      InsertProvisionerJobParams_Type := ProvisionerJobTypeTemplateVersionDryRun;
      InsertProvisionerJobParams_Input := marshal_TemplateVersionDryRunJob
        (mkTemplateVersionDryRunJob version.(TemplateVersion_ID)
           req.(CreateTemplateVersionDryRunRequest_WorkspaceName) parameterValues);
      InsertProvisionerJobParams_Tags := job.(ProvisionerJob_Tags) |}))
    (internal "Internal error inserting provisioner job.");
  apiJob ← run (convertProvisionerJob provisionerJob);
  reply StatusCreated (BodyProvisionerJob apiJob).

(** The job named in the URL: a dry run of this version, readable as a workspace
    of whoever started it. *)
Definition fetchTemplateVersionDryRunJob (r : Request) (version : TemplateVersion) (template : Template) :
    Handler ProvisionerJob :=
  _ ← authorize_version r ActionRead version template;
  let jobID := URLParam r "jobID" in
  match uuid_Parse jobID with
  | None => Write StatusBadRequest (with_detail ("Job ID " +:+ quote jobID +:+ " must be a valid UUID.") "invalid UUID")
  | Some jobUUID =>
      job ← catch (query (GetProvisionerJobByID jobUUID))
        (λ err, if errors_Is err ErrNoRows
                then Write StatusNotFound (message ("Provisioner job " +:+ quote (uuid_String jobUUID) +:+ " not found."))
                else internal "Internal error fetching provisioner job." err);
      _ ← require (job.(ProvisionerJob_Type) == ProvisionerJobTypeTemplateVersionDryRun) Forbidden;
      _ ← authorize r ActionRead (dry_run_workspace version job.(ProvisionerJob_InitiatorID)) Forbidden;
      input ← catch (lift_res (unmarshal_TemplateVersionDryRunJob decode job.(ProvisionerJob_Input)))
        (internal "Internal error unmarshaling job metadata.");
      _ ← require (input.(TemplateVersionDryRunJob_TemplateVersionID) == version.(TemplateVersion_ID)) Forbidden;
      mret job
  end.

Definition templateVersionDryRun (r : Request) (version : TemplateVersion) (template : Template) : Handler unit :=
  job ← fetchTemplateVersionDryRunJob r version template;
  apiJob ← run (convertProvisionerJob job);
  reply StatusOK (BodyProvisionerJob apiJob).

Definition templateVersionDryRunResources (r : Request) (version : TemplateVersion) (template : Template) :
    Handler unit :=
  job ← fetchTemplateVersionDryRunJob r version template;
  provisionerJobResources api job.

Definition templateVersionDryRunLogs (stream : list ProvisionerJobLog → Handler unit) (r : Request)
    (version : TemplateVersion) (template : Template) : Handler unit :=
  job ← fetchTemplateVersionDryRunJob r version template;
  provisionerJobLogs stream r job.

Definition patchTemplateVersionDryRunCancel (r : Request) (version : TemplateVersion) (template : Template) :
    Handler unit :=
  job ← fetchTemplateVersionDryRunJob r version template;
  _ ← authorize r ActionUpdate (dry_run_workspace version job.(ProvisionerJob_InitiatorID)) ResourceNotFound;
  _ ← cancel_job "Job has already completed." "Job has already been marked as canceled." job;
  Write StatusOK (message "Job has been marked as canceled.").

(** ** Changing versions *)

Definition watchTemplateChannel (id : uuid) : string := "template:" +:+ uuid_String id.
Definition publishTemplateUpdate (templateID : uuid) : GoM world unit :=
  void (attempt (Publish (watchTemplateChannel templateID) empty_message)).

Definition patchActiveTemplateVersion (r : Request) (template : Template)
    (body : json_body UpdateActiveTemplateVersion) : Handler unit :=
  InitRequest r AuditActionWrite (AuditTemplate Template_zero) (λ aReq,
    _ ← set_Old aReq (AuditTemplate template);
    _ ← authorize r ActionUpdate (Template_RBACObject template) ResourceNotFound;
    req ← Read body;
    let id := req.(UpdateActiveTemplateVersion_ID) in
    version ← catch (query (GetTemplateVersionByID id))
      (λ err, if errors_Is err ErrNoRows
              then Write StatusNotFound (message "Template version not found.")
              else internal "Internal error fetching template version." err);
    _ ← require (uuid_String (null_val version.(TemplateVersion_TemplateID)) == uuid_String template.(Template_ID))
      (Write StatusBadRequest (message "The provided template version doesn't belong to the specified template."));
    now ← run Now;
    _ ← catch (wrap "update active version" (store (UpdateTemplateActiveVersionByID
                 (mkUpdateTemplateActiveVersionByIDParams template.(Template_ID) id now))))
      (internal "Internal error updating active template version.");
    _ ← set_New aReq (AuditTemplate (template <| Template_ActiveVersionID := id |>));
    _ ← run (publishTemplateUpdate template.(Template_ID));
    Write StatusOK (message "Updated the active template version!")).

(** The parameters to copy: those of import jobs of versions of the template. *)
Fixpoint inherited_params (templateID : uuid) (q : data) (copies : list ParameterValue) :
    res (list CreateParameterRequest) :=
  match copies with
  | [] => Ok []
  | copy :: copies =>
      match GetTemplateVersionByJobID copy.(ParameterValue_ScopeID) q with
      | Err e => Err (ErrWrap ("fetch template version for param " +:+ quote copy.(ParameterValue_Name)) e)
      | Panic p => Panic p
      | Ok version =>
          if negb (Valid version.(TemplateVersion_TemplateID))
             || (null_val version.(TemplateVersion_TemplateID) != templateID)
          then Err (ErrNew "cannot inherit parameters from other templates")
          else if copy.(ParameterValue_Scope) != ParameterScopeImportJob
          then Err (ErrNew ("copy parameter scope is "
                 +:+ quote (ParameterScope_string copy.(ParameterValue_Scope)) +:+ ", must be "
                 +:+ quote (ParameterScope_string ParameterScopeImportJob)))
          else
            rest ← inherited_params templateID q copies;
            Ok (mkCreateParameterRequest uuid_Nil copy.(ParameterValue_Name) copy.(ParameterValue_SourceValue)
                  copy.(ParameterValue_SourceScheme) copy.(ParameterValue_DestinationScheme) :: rest)
      end
  end.

Definition expand_params (req : CreateTemplateVersionRequest) (q : data) : res (list CreateParameterRequest) :=
  let params := req.(CreateTemplateVersionRequest_ParameterValues) in
  match filter (λ id, id ≠ uuid_Nil) (CreateParameterRequest_CloneID <$> params) with
  | [] => Ok params
  | inherits =>
      if req.(CreateTemplateVersionRequest_TemplateID) == uuid_Nil
      then Err (ErrNew "cannot inherit parameters if template_id is not set")
      else
        match ParameterValues (mkParameterValuesParams [] [] inherits []) q with
        | Err e => Err (ErrWrap "fetch inherited params" e)
        | Panic p => Panic p
        | Ok copies =>
            more ← inherited_params req.(CreateTemplateVersionRequest_TemplateID) q copies;
            Ok (params ++ more)
        end
  end.

Definition insert_import_param (jobID : uuid) (param : CreateParameterRequest) : GoM world unit :=
  if param.(CreateParameterRequest_CloneID) != uuid_Nil then mret tt else
  id ← uuid_New;
  created ← Now;
  updated ← Now;
  void (wrap "insert parameter value" (store (InsertParameterValue {|
    InsertParameterValueParams_ID := id;
    InsertParameterValueParams_Name := param.(CreateParameterRequest_Name);
    InsertParameterValueParams_CreatedAt := created;
    InsertParameterValueParams_UpdatedAt := updated;
    InsertParameterValueParams_Scope := ParameterScopeImportJob;
    InsertParameterValueParams_ScopeID := jobID;
    InsertParameterValueParams_SourceScheme := param.(CreateParameterRequest_SourceScheme);
    InsertParameterValueParams_SourceValue := param.(CreateParameterRequest_SourceValue);
    InsertParameterValueParams_DestinationScheme := param.(CreateParameterRequest_DestinationScheme) |}))).

(** The transaction: the parameters, the import job and the version. *)
Definition insert_version (organizationID userID fileID : uuid) (tags : StringMap) (req : CreateTemplateVersionRequest) :
    GoM world (TemplateVersion * ProvisionerJob) :=
  jobID ← uuid_New;
  params ← query (expand_params req);
  _ ← for_each params (insert_import_param jobID);
  jobCreated ← Now;
  jobUpdated ← Now;
  provisionerJob ← wrap "insert provisioner job" (store (InsertProvisionerJob {|
    InsertProvisionerJobParams_ID := jobID;
    InsertProvisionerJobParams_CreatedAt := jobCreated;
    InsertProvisionerJobParams_UpdatedAt := jobUpdated;
    InsertProvisionerJobParams_OrganizationID := organizationID;
    InsertProvisionerJobParams_InitiatorID := userID;
    InsertProvisionerJobParams_Provisioner := req.(CreateTemplateVersionRequest_Provisioner);
    InsertProvisionerJobParams_StorageMethod := ProvisionerStorageMethodFile;
    InsertProvisionerJobParams_FileID := fileID;
    InsertProvisionerJobParams_Type := ProvisionerJobTypeTemplateVersionImport;
    InsertProvisionerJobParams_Input := RawValue (JObject []);
    InsertProvisionerJobParams_Tags := tags |}));
  let templateID := req.(CreateTemplateVersionRequest_TemplateID) in
  name ← (if req.(CreateTemplateVersionRequest_Name) == EmptyString then GetRandomName
          else mret req.(CreateTemplateVersionRequest_Name));
  versionID ← uuid_New;
  created ← Now;
  updated ← Now;
  templateVersion ← wrap "insert template version" (store (InsertTemplateVersion {|
    InsertTemplateVersionParams_ID := versionID;
    InsertTemplateVersionParams_TemplateID :=
      if templateID == uuid_Nil then null_of uuid_Nil else non_null templateID;
    InsertTemplateVersionParams_OrganizationID := organizationID;
    InsertTemplateVersionParams_CreatedAt := created;
    InsertTemplateVersionParams_UpdatedAt := updated;
    InsertTemplateVersionParams_Name := name;
    InsertTemplateVersionParams_Readme := EmptyString;
    InsertTemplateVersionParams_JobID := provisionerJob.(ProvisionerJob_ID);
    InsertTemplateVersionParams_CreatedBy := userID |}));
  mret (templateVersion, provisionerJob).

Definition postTemplateVersionsByOrganization (r : Request) (organization : Organization)
    (body : json_body CreateTemplateVersionRequest) : Handler unit :=
  apiKey ← get (httpmw_APIKey r);
  InitRequest r AuditActionCreate (AuditTemplateVersion TemplateVersion_zero) (λ aReq,
    req ← Read body;
    let templateID := req.(CreateTemplateVersionRequest_TemplateID) in
    template ← (if templateID != uuid_Nil then
                  catch (query (GetTemplateByID templateID))
                    (λ err, if errors_Is err ErrNoRows
                            then Write StatusNotFound (message "Template does not exist.")
                            else internal "Internal error fetching template." err)
                else mret Template_zero);
    _ ← authorize r ActionCreate
          (if template.(Template_ID) != uuid_Nil then Template_RBACObject template
           else InOrg organization.(Organization_ID) ResourceTemplate) ResourceNotFound;
    let tags := MutateTags apiKey.(APIKey_UserID) req.(CreateTemplateVersionRequest_ProvisionerTags) in
    file ← catch (query (GetFileByID req.(CreateTemplateVersionRequest_FileID)))
      (λ err, if errors_Is err ErrNoRows
              then Write StatusNotFound (message "File not found.")
              else internal "Internal error fetching file." err);
    _ ← authorize r ActionRead (File_RBACObject file) ResourceNotFound;
    inserted ← catch (insert_version organization.(Organization_ID) apiKey.(APIKey_UserID) file.(File_ID) tags req)
      (λ err, Write StatusInternalServerError (message (error_string err)));
    let '(templateVersion, provisionerJob) := inserted in
    _ ← set_New aReq (AuditTemplateVersion templateVersion);
    user ← catch (query (GetUserByID templateVersion.(TemplateVersion_CreatedBy)))
      (internal "Internal error on fetching user.");
    apiJob ← run (convertProvisionerJob provisionerJob);
    reply StatusCreated (BodyTemplateVersion (convertTemplateVersion templateVersion apiJob user))).
End versions.
