(* ===== verification/Enterprise.v ===== *)
(** * The enterprise API

    [enterprise/coderd]: the quota committer ([workspacequota.go]), groups
    ([groups.go]), the access lists of templates ([templates.go]), SCIM
    ([scim.go]), replicas ([replicas.go]), external provisioner daemons
    ([provisionerdaemons.go]), licenses ([licenses.go]) and what the entitlements
    switch on in the server ([coderd.go]). The objects the URL names are arguments,
    found by the middleware. The copies of [convertUser], [convertUsers] and
    [convertRole] in [groups.go] are those of [ApiUsers]. A value read from the
    store is the handler's own copy: its maps are not shared with the store.

    The SCIM library that writes errors, and the JSON decoder of a license's
    claims, are parameters. *)

From Stdlib Require Import Ascii.
From stdpp Require Import prelude gmap strings pretty.
From S2P Require Import Prelude Encoding Cryptorand UserPassword Rbac Models Queries ModelMethods Store.
From S2P Require Import StoreUsers StoreOrgs StoreMisc StoreJobs StoreTemplates StoreWorkspaces World.
From S2P Require Import ProvisionerdProto ProvisionerdServer Auditing Sdk License Http HttpMw QueryParams.
From S2P Require Import Api ApiUsers ApiTemplates.

Local Open Scope Z_scope.

(** [database.IsUniqueViolation] *)
Definition IsUniqueViolation (e : error) : bool := errors_Is e ErrDuplicateKey.

(** [http.NotFound] *)
Definition http_NotFound {A} : Handler A :=
  reply StatusNotFound (BodyFile "text/plain; charset=utf-8"
    (bytes_of ("404 page not found" +:+ String (ascii_of_N 10) EmptyString))).

(** [uuid.MustParse] *)
Definition MustParse `{!UuidText} (s : string) : res uuid :=
  match uuid_Parse s with
  | Some id => Ok id
  | None => Panic ("uuid: Parse(" +:+ s +:+ ")")
  end.

(** A range over a map; the order is left open, and is that of [map_to_list]. *)
Abbreviation range_map m := (map_to_list m) (only parsing).

(** ** Quotas: [workspacequota.go] *)

Section quota.
Context `{!UuidText}.

(** The transaction: whether the cost is permitted, what is consumed now, and the
    budget. *)
Definition commit_quota (request : CommitQuotaRequest) (build : WorkspaceBuild) (workspace : Workspace) :
    GoM world (bool * Z * Z) :=
  consumed ← query (GetQuotaConsumedForUser workspace.(Workspace_OwnerID));
  budget ← query (GetQuotaAllowanceForUser workspace.(Workspace_OwnerID));
  previous ← attempt (query (GetWorkspaceBuildByWorkspaceIDAndBuildNumber
    (mkGetWorkspaceBuildByWorkspaceIDAndBuildNumberParams workspace.(Workspace_ID)
       (int32_wrap (build.(WorkspaceBuild_BuildNumber) - 1)))));
  netIncrease ← match previous with
                | inr previousBuild =>
                    mret (negb (build.(WorkspaceBuild_DailyCost) <? previousBuild.(WorkspaceBuild_DailyCost)))
                | inl err => if errors_Is err ErrNoRows then mret true else throw err
                end;
  let newConsumed := int64_wrap (request.(CommitQuotaRequest_DailyCost) + consumed) in
  if (budget <? newConsumed) && netIncrease then mret (false, consumed, budget)
  else
    _ ← store (UpdateWorkspaceBuildCostByID (mkUpdateWorkspaceBuildCostByIDParams
          build.(WorkspaceBuild_ID) request.(CommitQuotaRequest_DailyCost)));
    mret (true, newConsumed, budget).

Definition committer_CommitQuota (request : CommitQuotaRequest) : GoM world CommitQuotaResponse :=
  jobID ← lift_res (parse_uuid request.(CommitQuotaRequest_JobId));
  build ← query (GetWorkspaceBuildByJobID jobID);
  workspace ← query (GetWorkspaceByID build.(WorkspaceBuild_WorkspaceID));
  result ← commit_quota request build workspace;
  let '(permit, consumed, budget) := result in
  mret (mkCommitQuotaResponse permit (int32_wrap consumed) (int32_wrap budget)).
End quota.

(** ** What a feature guards *)

Definition feature_on (entitlements : Entitlements) (name : string) : bool :=
  (feature_of entitlements.(Entitlements_Features) name).(Feature_Enabled).

Definition templateRBACEnabledMW (entitlements : Entitlements) (next : Handler unit) : Handler unit :=
  if feature_on entitlements FeatureTemplateRBAC then next else RouteNotFound.

Definition scimEnabledMW (entitlements : Entitlements) (next : Handler unit) : Handler unit :=
  if feature_on entitlements FeatureSCIM then next else RouteNotFound.

Definition provisionerDaemonsEnabledMW {A} (entitlements : Entitlements) (next : Handler A) : Handler A :=
  if feature_on entitlements FeatureExternalProvisionerDaemons then next
  else Write StatusForbidden (message "External provisioner daemons is an Enterprise feature. Contact sales!").

(** Whether the connection is refused, with the response written. *)
Definition shouldBlockNonBrowserConnections (entitlements : Entitlements) : option Reply :=
  if feature_on entitlements FeatureBrowserOnly
  then Some (mkReply StatusConflict (BodyResponse
         (message "Non-browser connections are disabled for your deployment.")))
  else None.

Definition workspaceQuota `{!Authorizer, !UuidText} (entitlements : Entitlements) (r : Request) (user : User) :
    Handler unit :=
  _ ← authorize r ActionRead ResourceUser ResourceNotFound;
  quotaAllowance ←
    (if feature_on entitlements FeatureTemplateRBAC
     then catch (query (GetQuotaAllowanceForUser user.(User_ID))) (internal "Failed to get allowance")
     else mret (-1));
  quotaConsumed ← catch (query (GetQuotaConsumedForUser user.(User_ID))) (internal "Failed to get consumed");
  reply StatusOK (BodyWorkspaceQuota (mkWorkspaceQuota quotaConsumed quotaAllowance)).

(** ** Groups: [groups.go] *)

(** Everybody is shown as a member of the group's organization only. *)
Definition convertGroup `{!UuidText} (g : Group) (users : list User) : sdkGroup := {|
  sdkGroup_ID := g.(Group_ID);
  sdkGroup_Name := g.(Group_Name);
  sdkGroup_OrganizationID := g.(Group_OrganizationID);
  sdkGroup_Members := (λ user, convertUser user [g.(Group_OrganizationID)]) <$> users;
  sdkGroup_AvatarURL := g.(Group_AvatarURL);
  sdkGroup_QuotaAllowance := g.(Group_QuotaAllowance) |}.

Section groups.
Context `{!Environment, !UuidText, !Authorizer, !Auditor}.
Context `{!Validate CreateGroupRequest, !Validate PatchGroupRequest}.

Definition postGroupByOrganization (r : Request) (org : Organization) (body : json_body CreateGroupRequest) :
    Handler unit :=
  InitRequest r AuditActionCreate (AuditGroup Group_zero) (λ aReq,
    _ ← authorize r ActionCreate (InOrg org.(Organization_ID) ResourceGroup) http_NotFound;
    req ← Read body;
    let name := req.(CreateGroupRequest_Name) in
    _ ← require (name != AllUsersGroup) (Write StatusBadRequest (message
          (quote AllUsersGroup +:+ " is a reserved keyword and cannot be used for a group name.")));
    id ← run uuid_New;
    group ← catch (store (InsertGroup {|
        InsertGroupParams_ID := id;
        InsertGroupParams_Name := name;
        InsertGroupParams_OrganizationID := org.(Organization_ID);
        InsertGroupParams_AvatarURL := req.(CreateGroupRequest_AvatarURL);
        InsertGroupParams_QuotaAllowance := int32_wrap req.(CreateGroupRequest_QuotaAllowance) |}))
      (λ err, if IsUniqueViolation err
              then Write StatusConflict (message ("Group with name " +:+ quote name +:+ " already exists."))
              else InternalServerError err);
    _ ← set_New aReq (AuditGroup group);
    reply StatusCreated (BodyGroup (convertGroup group []))).

(** One of the users to add or to remove: a member of the group's organization. *)
Definition check_group_user (group : Group) (id : string) : Handler unit :=
  match uuid_Parse id with
  | None => Write StatusBadRequest (message ("ID " +:+ quote id +:+ " must be a valid user UUID."))
  | Some userID =>
      _ ← catch (query (GetOrganizationMemberByUserID
            (mkGetOrganizationMemberByUserIDParams group.(Group_OrganizationID) userID)))
        (λ err, if errors_Is err ErrNoRows
                then Write StatusPreconditionFailed (message ("User " +:+ quote id +:+
                       " must be a member of organization " +:+ quote (uuid_String group.(Group_ID))))
                else InternalServerError err);
      mret tt
  end.

(** The transaction of [patchGroup]. A user that is removed is taken out of every
    group. *)
Definition update_group (groupID : uuid) (req : PatchGroupRequest) : GoM world Group :=
  group ← wrap "get group by ID" (query (GetGroupByID groupID));
  group ← wrap "update group by ID" (store (UpdateGroupByID {|
    UpdateGroupByIDParams_ID := group.(Group_ID);
    UpdateGroupByIDParams_AvatarURL := default group.(Group_AvatarURL) req.(PatchGroupRequest_AvatarURL);
    UpdateGroupByIDParams_Name :=
      if req.(PatchGroupRequest_Name) != EmptyString then req.(PatchGroupRequest_Name) else group.(Group_Name);
    UpdateGroupByIDParams_QuotaAllowance :=
      match req.(PatchGroupRequest_QuotaAllowance) with
      | Some n => int32_wrap n
      | None => group.(Group_QuotaAllowance)
      end |}));
  _ ← for_each req.(PatchGroupRequest_AddUsers) (λ id,
        wrap ("insert group member " +:+ quote id)
          (userID ← lift_res (MustParse id);
           store (InsertGroupMember (mkInsertGroupMemberParams userID group.(Group_ID)))));
  _ ← for_each req.(PatchGroupRequest_RemoveUsers) (λ id,
        wrap ("insert group member " +:+ quote id)
          (userID ← lift_res (MustParse id); store (DeleteGroupMember userID)));
  mret group.

Definition patchGroup (r : Request) (group : Group) (body : json_body PatchGroupRequest) : Handler unit :=
  InitRequest r AuditActionWrite (AuditGroup Group_zero) (λ aReq,
    _ ← set_Old aReq (AuditGroup group);
    _ ← authorize r ActionUpdate (Group_RBACObject group) http_NotFound;
    req ← Read body;
    _ ← require (negb ((req.(PatchGroupRequest_Name) != EmptyString)
                       && (req.(PatchGroupRequest_Name) == AllUsersGroup)))
      (Write StatusBadRequest (message (quote AllUsersGroup +:+ " is a reserved group name!")));
    let req := if req.(PatchGroupRequest_Name) == group.(Group_Name)
               then req <| PatchGroupRequest_Name := EmptyString |> else req in
    let name := req.(PatchGroupRequest_Name) in
    _ ← each (req.(PatchGroupRequest_AddUsers) ++ req.(PatchGroupRequest_RemoveUsers)) (check_group_user group);
    _ ← (if (name != EmptyString) && (name != group.(Group_Name)) then
           existing ← attempt_h (query (GetGroupByOrgAndName
             (mkGetGroupByOrgAndNameParams group.(Group_OrganizationID) name)));
           match existing with
           | inr _ => Write StatusConflict (message ("A group with name " +:+ quote name +:+ " already exists."))
           | inl _ => mret tt
           end
         else mret tt);
    group ← catch (update_group group.(Group_ID) req)
      (λ err, if IsUniqueViolation err
              then Write StatusPreconditionFailed
                     (with_detail "Cannot add the same user to a group twice!" (error_string err))
              else if errors_Is err ErrNoRows
              then Write StatusPreconditionFailed
                     (with_detail "Failed to add or remove non-existent group member" (error_string err))
              else InternalServerError err);
    members ← catch (query (GetGroupMembers group.(Group_ID))) InternalServerError;
    _ ← set_New aReq (AuditGroup group);
    reply StatusOK (BodyGroup (convertGroup group members))).

Definition deleteGroup (r : Request) (group : Group) : Handler unit :=
  InitRequest r AuditActionDelete (AuditGroup Group_zero) (λ aReq,
    _ ← set_Old aReq (AuditGroup group);
    _ ← authorize r ActionDelete (Group_RBACObject group) ResourceNotFound;
    _ ← require (group.(Group_Name) != AllUsersGroup) (Write StatusBadRequest (message
          (quote AllUsersGroup +:+ " is a reserved group and cannot be deleted!")));
    _ ← catch (store (DeleteGroupByID group.(Group_ID))) InternalServerError;
    Write StatusOK (message "Successfully deleted group!")).

Definition api_group (r : Request) (group : Group) : Handler unit :=
  _ ← authorize r ActionRead (Group_RBACObject group) ResourceNotFound;
  users ← catch (query (GetGroupMembers group.(Group_ID)))
    (λ err, if errors_Is err ErrNoRows then mret [] else InternalServerError err);
  reply StatusOK (BodyGroup (convertGroup group users)).

(** The groups with their members. *)
Fixpoint with_members (groups : list Group) : Handler (list sdkGroup) :=
  match groups with
  | [] => mret []
  | group :: groups =>
      members ← catch (query (GetGroupMembers group.(Group_ID))) InternalServerError;
      rest ← with_members groups;
      mret (convertGroup group members :: rest)
  end.

Definition api_groups (r : Request) (org : Organization) : Handler unit :=
  groups ← catch (query (GetGroupsByOrganizationID org.(Organization_ID)))
    (λ err, if errors_Is err ErrNoRows then mret [] else InternalServerError err);
  groups ← catch (lift_res (AuthorizeFilter Group_RBACObject r ActionRead groups))
    (internal "Internal error fetching groups.");
  resp ← with_members groups;
  reply StatusOK (BodyGroups resp).
End groups.

(** ** Access lists of templates: [templates.go] *)

Definition TemplateRole_string (role : TemplateRole) : string :=
  match role with
  | TemplateRoleAdmin => "admin"
  | TemplateRoleUse => "use"
  | TemplateRoleDeleted => EmptyString
  | TemplateRole_other s => s
  end.

Definition convertToTemplateRole (actions : list string) : TemplateRole :=
  match actions with
  | [action] =>
      if action == ActionRead then TemplateRoleUse
      else if action == WildcardSymbol then TemplateRoleAdmin else TemplateRoleDeleted
  | _ => TemplateRoleDeleted
  end.

(** The nil slice is [None]. *)
Definition convertSDKTemplateRole (role : TemplateRole) : option (list string) :=
  match role with
  | TemplateRoleAdmin => Some [WildcardSymbol]
  | TemplateRoleUse => Some [ActionRead]
  | TemplateRoleDeleted | TemplateRole_other _ => None
  end.

Definition validateTemplateRole (role : TemplateRole) : option error :=
  match convertSDKTemplateRole role with
  | Some _ => None
  | None => if role != TemplateRoleDeleted
            then Some (ErrNew ("role " +:+ quote (TemplateRole_string role) +:+ " is not a valid Template role"))
            else None
  end.

Section acl.
Context `{!Environment, !UuidText, !Authorizer, !Auditor}.
Context `{!Validate UpdateTemplateACL}.

(** What is wrong with one entry of a request. *)
Definition acl_entry_error (isUser : bool) (q : data) (entry : string * TemplateRole) : option string :=
  let '(k, v) := entry in
  match validateTemplateRole v with
  | Some err => Some (error_string err)
  | None =>
      match uuid_Parse k with
      | None => Some ("ID " +:+ k +:+ "must be a valid UUID.")
      | Some id =>
          let missing err := "Failed to find resource with ID " +:+ quote k +:+ ": " +:+ error_string err in
          if isUser
          then match GetUserByID id q with Err err => Some (missing err) | _ => None end
          else match GetGroupByID id q with Err err => Some (missing err) | _ => None end
      end
  end.

Definition validateTemplateACLPerms (perms : gmap string TemplateRole) (field : string) (isUser : bool)
    (q : data) : list ValidationError :=
  entry ← range_map perms;
  match acl_entry_error isUser q entry with
  | Some detail => [mkValidationError field detail]
  | None => []
  end.

Definition convertTemplateUsers (tus : list TemplateUser) (orgIDsByUserIDs : gmap uuid (list uuid)) :
    list sdkTemplateUser :=
  (λ tu, mksdkTemplateUser
     (convertUser tu.(TemplateUser_User) (default [] (orgIDsByUserIDs !! tu.(TemplateUser_User).(User_ID))))
     (convertToTemplateRole tu.(TemplateUser_Actions))) <$> tus.

(** The groups of an access list with their members. *)
Fixpoint template_groups (groups : list TemplateGroup) : Handler (list sdkTemplateGroup) :=
  match groups with
  | [] => mret []
  | g :: groups =>
      let group := g.(TemplateGroup_Group) in
      members ← catch (query (if group.(Group_Name) == AllUsersGroup
                              then GetAllOrganizationMembers group.(Group_OrganizationID)
                              else GetGroupMembers group.(Group_ID))) InternalServerError;
      rest ← template_groups groups;
      mret (mksdkTemplateGroup (convertGroup group members) (convertToTemplateRole g.(TemplateGroup_Actions)) :: rest)
  end.

Definition templateACL (r : Request) (template : Template) : Handler unit :=
  _ ← authorize r ActionRead (Template_RBACObject template) ResourceNotFound;
  users ← catch (query (GetTemplateUserRoles template.(Template_ID))) InternalServerError;
  dbGroups ← catch (query (GetTemplateGroupRoles template.(Template_ID))) InternalServerError;
  dbGroups ← catch (lift_res (AuthorizeFilter (λ g, Group_RBACObject g.(TemplateGroup_Group)) r ActionRead dbGroups))
    (internal "Internal error fetching users.");
  rows ← catch (query (GetOrganizationIDsByMemberIDs ((λ tu, tu.(TemplateUser_User).(User_ID)) <$> users)))
    (λ err, if errors_Is err ErrNoRows then mret [] else InternalServerError err);
  let organizationIDsByUserID : gmap uuid (list uuid) := foldl (λ m row,
    <[row.(GetOrganizationIDsByMemberIDsRow_UserID) := row.(GetOrganizationIDsByMemberIDsRow_OrganizationIDs)]> m)
    ∅ rows in
  groups ← template_groups dbGroups;
  reply StatusOK (BodyTemplateACL (mksdkTemplateACL (convertTemplateUsers users organizationIDsByUserID) groups)).

(** The loop over the permissions of a request. The role with the empty name
    deletes the entry. *)
Definition apply_perms (perms : gmap string TemplateRole) (acl : gmap string (list string)) :
    gmap string (list string) :=
  foldl (λ acl '(id, role),
    if role == TemplateRoleDeleted then delete id acl
    else <[id := default [] (convertSDKTemplateRole role)]> acl) acl (range_map perms).

(** The transaction of [patchTemplateACL]. *)
Definition update_acl (templateID : uuid) (req : UpdateTemplateACL) : GoM world Template :=
  template ← wrap "get template by ID" (query (GetTemplateByID templateID));
  wrap "update template ACL by ID" (store (UpdateTemplateACLByID {|
    UpdateTemplateACLByIDParams_GroupACL := apply_perms req.(UpdateTemplateACL_GroupPerms) template.(Template_GroupACL);
    UpdateTemplateACLByIDParams_UserACL := apply_perms req.(UpdateTemplateACL_UserPerms) template.(Template_UserACL);
    UpdateTemplateACLByIDParams_ID := template.(Template_ID) |})).

Definition patchTemplateACL (r : Request) (template : Template) (body : json_body UpdateTemplateACL) : Handler unit :=
  InitRequest r AuditActionWrite (AuditTemplate Template_zero) (λ aReq,
    _ ← set_Old aReq (AuditTemplate template);
    _ ← authorize r ActionCreate (Template_RBACObject template) ResourceNotFound;
    req ← Read body;
    userErrs ← run (query (λ q, Ok (validateTemplateACLPerms req.(UpdateTemplateACL_UserPerms) "user_perms" true q)));
    groupErrs ← run (query (λ q, Ok (validateTemplateACLPerms req.(UpdateTemplateACL_GroupPerms) "group_perms" false q)));
    let validErrs := userErrs ++ groupErrs in
    _ ← require (bool_decide (length validErrs = 0%nat)) (Write StatusBadRequest
          (mkResponse "Invalid request to update template metadata!" EmptyString validErrs));
    template ← catch (update_acl template.(Template_ID) req) InternalServerError;
    _ ← set_New aReq (AuditTemplate template);
    Write StatusOK (message "Successfully updated template ACL list.")).
End acl.

(** ** SCIM: [scim.go] *)

(** The errors handed to [handlerutil.WriteError]: a [spec.Error] of the handler's,
    [spec.ErrNotFound], or any other. *)
Inductive scim_error :=
| scim_spec (Status : Z) (Type_ : string)
| scim_ErrNotFound
| scim_plain (e : error).

(** [github.com/imulab/go-scim]: the response it writes for an error, and for a
    search that found nothing. *)
Class Scim := {
  handlerutil_WriteError : scim_error → Reply;
  handlerutil_WriteSearchResult : (* TotalResults, StartIndex, ItemsPerPage *) Z * Z * Z → Reply;
}.
(** An error is written with its status; one without is a client or server
    error. *)
Class ScimLaws `{!Scim} := {
  WriteError_spec status type_ : (handlerutil_WriteError (scim_spec status type_)).(Reply_Status) = status;
  WriteError_status e : 400 <= (handlerutil_WriteError (scim_plain e)).(Reply_Status);
}.

Section scim.
Context `{!Environment, !UuidText, !Pbkdf2, !SSHKeygen, !Scim}.
Context (api : Options) (SCIMAPIKey : bytes).

(** The response is the library's. *)
Definition respond {A} (p : Reply) : Handler A := λ s, (Ok (inl p), s).
Definition WriteError {A} (e : scim_error) : Handler A := respond (handlerutil_WriteError e).

(** A constant time comparison is one. *)
Definition scimVerifyAuthHeader (r : Request) : bool :=
  (SCIMAPIKey != []) && (bytes_of (Header_Get r "Authorization") == SCIMAPIKey).

Definition scim_authorized (r : Request) : Handler unit :=
  require (scimVerifyAuthHeader r) (WriteError (scim_spec StatusUnauthorized "invalidAuthorization")).

Definition scimGetUsers (r : Request) : Handler unit :=
  _ ← scim_authorized r;
  respond (handlerutil_WriteSearchResult (0, 1, 0)).

Definition scimGetUser (r : Request) : Handler unit :=
  _ ← scim_authorized r;
  WriteError scim_ErrNotFound.

(** [json.NewDecoder(r.Body).Decode(&sUser)] *)
Definition scim_decode (body : json_body SCIMUser) : Handler SCIMUser :=
  match body with
  | inl e => WriteError (scim_plain e)
  | inr sUser => mret sUser
  end.

Definition primary_email (sUser : SCIMUser) : string :=
  match find_first SCIMEmail_Primary sUser.(SCIMUser_Emails) with
  | Some e => e.(SCIMEmail_Value)
  | None => EmptyString
  end.

Definition scimPostUser (r : Request) (body : json_body SCIMUser) : Handler unit :=
  _ ← scim_authorized r;
  sUser ← scim_decode body;
  let email := primary_email sUser in
  _ ← require (email != EmptyString) (WriteError (scim_spec StatusBadRequest "invalidEmail"));
  created ← catch (CreateUser api (mkapi_CreateUserRequest
      {| CreateUserRequest_Email := email;
         CreateUserRequest_Username := sUser.(SCIMUser_UserName);
         CreateUserRequest_Password := EmptyString;
         CreateUserRequest_OrganizationID := uuid_Nil |} LoginTypeOIDC))
    (λ err, WriteError (scim_plain err));
  reply StatusOK (BodySCIMUser (sUser <| SCIMUser_ID := uuid_String created.1.(User_ID) |>
                                      <| SCIMUser_UserName := created.1.(User_Username) |>)).

Definition scimPatchUser (r : Request) (body : json_body SCIMUser) : Handler unit :=
  _ ← scim_authorized r;
  let id := URLParam r "id" in
  sUser ← scim_decode body;
  let sUser := sUser <| SCIMUser_ID := id |> in
  uid ← match uuid_Parse id with
        | Some uid => mret uid
        | None => WriteError (scim_spec StatusBadRequest "invalidId")
        end;
  dbUser ← catch (query (GetUserByID uid)) (λ err, WriteError (scim_plain err));
  now ← run Now;
  _ ← catch (store (UpdateUserStatus {|
        UpdateUserStatusParams_ID := dbUser.(User_ID);
        UpdateUserStatusParams_Status :=
          if sUser.(SCIMUser_Active) then UserStatusActive else UserStatusSuspended;
        UpdateUserStatusParams_UpdatedAt := now |})) (λ err, WriteError (scim_plain err));
  reply StatusOK (BodySCIMUser sUser).
End scim.

(** ** Replicas: [replicas.go] *)

Definition convertReplica (replica : Replica) : sdkReplica := {|
  sdkReplica_ID := replica.(Replica_ID);
  sdkReplica_Hostname := replica.(Replica_Hostname);
  sdkReplica_CreatedAt := replica.(Replica_CreatedAt);
  sdkReplica_RelayAddress := replica.(Replica_RelayAddress);
  sdkReplica_RegionID := replica.(Replica_RegionID);
  sdkReplica_Error := replica.(Replica_Error);
  sdkReplica_DatabaseLatency := replica.(Replica_DatabaseLatency) |}.

(** [all] is what the replica manager knows. *)
Definition api_replicas `{!Authorizer, !UuidText} (all : list Replica) (r : Request) : Handler unit :=
  _ ← authorize r ActionRead ResourceReplicas ResourceNotFound;
  reply StatusOK (BodyReplicas (convertReplica <$> all)).

(** ** External provisioner daemons: [provisionerdaemons.go] *)

Definition convertProvisionerDaemon (daemon : ProvisionerDaemon) : sdkProvisionerDaemon := {|
  sdkProvisionerDaemon_ID := daemon.(ProvisionerDaemon_ID);
  sdkProvisionerDaemon_CreatedAt := daemon.(ProvisionerDaemon_CreatedAt);
  sdkProvisionerDaemon_UpdatedAt := daemon.(ProvisionerDaemon_UpdatedAt);
  sdkProvisionerDaemon_Name := daemon.(ProvisionerDaemon_Name);
  sdkProvisionerDaemon_Provisioners := daemon.(ProvisionerDaemon_Provisioners);
  sdkProvisionerDaemon_Tags := daemon.(ProvisionerDaemon_Tags) |}.

Section daemons.
Context `{!Environment, !UuidText, !Authorizer, !NamesGenerator}.

Definition api_provisionerDaemons (r : Request) (org : Organization) : Handler unit :=
  _ ← authorize r ActionRead (InOrg org.(Organization_ID) ResourceProvisionerDaemon) Forbidden;
  daemons ← catch (query GetProvisionerDaemons)
    (λ err, if errors_Is err ErrNoRows then mret []
            else internal "Internal error fetching provisioner daemons." err);
  daemons ← catch (lift_res (AuthorizeFilter ProvisionerDaemon_RBACObject r ActionRead daemons))
    (internal "Internal error fetching provisioner daemons.");
  reply StatusOK (BodyProvisionerDaemons (convertProvisionerDaemon <$> daemons)).

(** The tags of the query, each a key and a value. *)
Fixpoint query_tags (raw : list string) (tags : StringMap) : Handler StringMap :=
  match raw with
  | [] => mret tags
  | tag :: raw =>
      match SplitN 2 tag "="%char with
      | key :: value :: _ => query_tags raw (<[key := value]> tags)
      | _ => Write StatusBadRequest (message ("Invalid format for tag " +:+ quote tag +:+
               ". Key and value must be separated with =."))
      end
  end.

(** The provisioners of the query, as a set: the list has each of them once. *)
Fixpoint query_provisioners (raw : list string) (seen : list ProvisionerType) : Handler (list ProvisionerType) :=
  let add p l := if bool_decide (p ∈ l) then l else l ++ [p] in
  match raw with
  | [] => mret seen
  | provisioner :: raw =>
      if provisioner == "echo" then query_provisioners raw (add ProvisionerTypeEcho seen)
      else if provisioner == "terraform" then query_provisioners raw (add ProvisionerTypeTerraform seen)
      else Write StatusBadRequest (message ("Unknown provisioner type " +:+ quote provisioner))
  end.

(** The daemon that is to serve a connection, and the server its calls are
    answered by; the connection itself is not modelled. [accept] is the outcome of
    the upgrade to a websocket. The server is given no cell for a quota
    committer. *)
Definition provisionerDaemonServe (AccessURL : string) (accept : option error) (r : Request) : Handler Server :=
  let values key := default [] (r.(URL_Query) !! key) in
  tags ← query_tags (values "tag") ∅;
  _ ← require (url_Has r.(URL_Query) "provisioner")
    (Write StatusBadRequest (message "The provisioner query parameter must be specified."));
  provisioners ← query_provisioners (values "provisioner") [];
  apiKey ← get (httpmw_APIKey r);
  let tags := MutateTags apiKey.(APIKey_UserID) tags in
  _ ← (if bool_decide (tags !! "scope" = Some "organization")
       then authorize r ActionCreate ResourceProvisionerDaemon (Write StatusForbidden
              (message "You aren't allowed to create provisioner daemons for the organization."))
       else mret tt);
  name ← run GetRandomName;
  id ← run uuid_New;
  now ← run Now;
  daemon ← catch (store (InsertProvisionerDaemon {|
      InsertProvisionerDaemonParams_ID := id;
      InsertProvisionerDaemonParams_CreatedAt := now;
      InsertProvisionerDaemonParams_Name := name;
      InsertProvisionerDaemonParams_Provisioners := provisioners;
      InsertProvisionerDaemonParams_Tags := tags |}))
    (internal "Internal error writing provisioner daemon.");
  let rawTags := RawValue (JObject ((λ kv, (kv.1, JString kv.2)) <$> map_to_list daemon.(ProvisionerDaemon_Tags))) in
  _ ← match accept with
      | Some err => Write StatusBadRequest
                      (with_detail "Internal error accepting websocket connection." (error_string err))
      | None => mret tt
      end;
  mret (mkServer AccessURL daemon.(ProvisionerDaemon_ID) daemon.(ProvisionerDaemon_Provisioners) rawTags None 0).
End daemons.

(** ** What the entitlements switch: [coderd.go] *)

(** The options of the enterprise server that matter here. *)
Record EnterpriseOptions := mkEnterpriseOptions {
  RBAC : bool;
  AuditLogging : bool;
  BrowserOnly : bool;
  SCIMAPIKey : bytes;
  DERPServerRelayAddress : string;
  GitAuthConfigs : Z;
  Experimental : bool;
  Keys : license_keys;
}.

(** The server's hooks: whether the configured auditor is in use or one that does
    nothing, whether connections of clients are vetted by
    [shouldBlockNonBrowserConnections], whether quotas are committed, whether the
    coordinator is the one for high availability, and whether a change of the
    replicas also changes the mesh. [API_entitlements] is [None] before the first
    update. *)
Record EnterpriseAPI := mkEnterpriseAPI {
  API_entitlements : option Entitlements;
  API_auditor : bool;
  API_WorkspaceClientCoordinateOverride : bool;
  API_QuotaCommitter : bool;
  API_TailnetCoordinator : bool;
  API_meshes : bool;
}.
#[global] Instance EnterpriseAPI_eta : Eta EnterpriseAPI := λ a,
  mkEnterpriseAPI a.(API_entitlements) a.(API_auditor) a.(API_WorkspaceClientCoordinateOverride)
    a.(API_QuotaCommitter) a.(API_TailnetCoordinator) a.(API_meshes).

(** As [New] sets it up, before its first update. *)
Definition EnterpriseAPI_New : EnterpriseAPI := mkEnterpriseAPI None true false false false false.

(** Whether a feature changed, and whether it is enabled. *)
Definition featureChanged (old : option Entitlements) (new : Entitlements) (featureName : string) : bool * bool :=
  match old with
  | None => (true, feature_on new featureName)
  | Some entitlements =>
      (bool_decide (feature_on entitlements featureName ≠ feature_on new featureName), feature_on new featureName)
  end.

(** Set a hook when its feature changed. *)
Definition switch (change : bool * bool) (hook : bool) : bool := if change.1 then change.2 else hook.

(** The hooks for new entitlements. [ha_error] is the outcome of setting up the
    coordinator for high availability: when it fails the old one stays. *)
Definition apply_entitlements (ha_error : option error) (new : Entitlements) (a : EnterpriseAPI) : EnterpriseAPI :=
  let changed := featureChanged a.(API_entitlements) new in
  let ha := changed FeatureHighAvailability in
  {| API_entitlements := Some new;
     API_auditor := switch (changed FeatureAuditLog) a.(API_auditor);
     API_WorkspaceClientCoordinateOverride :=
       switch (changed FeatureBrowserOnly) a.(API_WorkspaceClientCoordinateOverride);
     API_QuotaCommitter := switch (changed FeatureTemplateRBAC) a.(API_QuotaCommitter);
     API_TailnetCoordinator :=
       switch (ha.1 && negb (ha.2 && bool_decide (is_Some ha_error)), ha.2) a.(API_TailnetCoordinator);
     API_meshes := switch ha a.(API_meshes) |}.

Definition enablements (o : EnterpriseOptions) : gmap string bool :=
  {[ FeatureAuditLog := o.(AuditLogging);
     FeatureBrowserOnly := o.(BrowserOnly);
     FeatureSCIM := o.(SCIMAPIKey) != [];
     FeatureHighAvailability := o.(DERPServerRelayAddress) != EmptyString;
     FeatureMultipleGitAuth := 1 <? o.(GitAuthConfigs);
     FeatureTemplateRBAC := o.(RBAC);
     FeatureExternalProvisionerDaemons := true ]}.

(** ** Handlers that see the hooks *)

Definition EHandler (A : Type) : Type := GoM (hstate * EnterpriseAPI) (Reply + A).
#[global] Instance EH_ret : MRet EHandler := λ _ a s, (Ok (inr a), s).
#[global] Instance EH_bind : MBind EHandler := λ _ _ k m s,
  match m s with
  | (Ok (inr a), s') => k a s'
  | (Ok (inl p), s') => (Ok (inl p), s')
  | (Err e, s') => (Err e, s')
  | (Panic p, s') => (Panic p, s')
  end.
(** A piece of a handler that does not see them. *)
Definition plainly {A} (m : Handler A) : EHandler A := zoom fst (λ h s, (h, s.2)) m.

Section entitlements.
Context `{!Environment, !Jwt} (o : EnterpriseOptions) (replicas : list Replica) (ha_error : option error).

Definition updateEntitlements : GoM (world * EnterpriseAPI) unit := λ '(w, a),
  match license_Entitlements (Z.of_nat (length replicas)) o.(GitAuthConfigs) o.(Keys) (enablements o) w with
  | (Ok e, w) => (Ok tt, (w, apply_entitlements ha_error (e <| Entitlements_Experimental := o.(Experimental) |>) a))
  | (Err err, w) => (Err err, (w, a))
  | (Panic p, w) => (Panic p, (w, a))
  end.

(** [err = api.updateEntitlements(ctx); if err != nil { ...; return }] *)
Definition update_or_fail : EHandler unit := λ '(h, a),
  let '(r, (w, a)) := updateEntitlements (h.(hs_world), a) in
  let h := h <| hs_world := w |> in
  match r with
  | Ok _ => (Ok (inr tt), (h, a))
  | Err err => plainly (internal "Failed to update entitlements" err) (h, a)
  | Panic p => (Panic p, (h, a))
  end.

Definition Entitlements_zero : Entitlements := mkEntitlements ∅ [] [] false false false.

Definition serveEntitlements : EHandler unit := λ s,
  plainly (reply StatusOK (BodyEntitlements (default Entitlements_zero s.2.(API_entitlements)))) s.

(** ** Licenses: [licenses.go] *)

Definition PubsubEventLicenses : string := "licenses".

Definition convertLicense (dl : License) (c : MapClaims) : sdkLicense :=
  mksdkLicense dl.(License_ID) (null_val dl.(License_Uuid)) dl.(License_UploadedAt) c.

Context `{!UuidText, !Authorizer, !Validate AddLicenseRequest}.

Definition invalid_license {A} (detail : string) : Handler A :=
  Write StatusBadRequest (with_detail "Invalid license" detail).
Definition or_invalid {A} (r : error + A) : Handler A :=
  match r with inl err => invalid_license (error_string err) | inr a => mret a end.

(** The checks of [postLicense] and its write: the license, and its claims. *)
Definition insert_license (r : Request) (body : json_body AddLicenseRequest) : Handler (License * MapClaims) :=
  _ ← authorize r ActionCreate ResourceLicense Forbidden;
  addLicense ← Read body;
  let jwt := addLicense.(AddLicenseRequest_License) in
  parsedAt ← run time_Now;
  rawClaims ← or_invalid (ParseRaw jwt o.(Keys) parsedAt);
  exp ← match number_claim (rawClaims !! "exp") with
        | Some exp => mret exp
        | None => invalid_license "exp claim missing or not parsable"
        end;
  let expTime := unix_epoch + exp * Second in
  parsedAt ← run time_Now;
  claims ← or_invalid (ParseClaims jwt o.(Keys) parsedAt);
  let id := uuid_Parse claims.(Claims_ID) in
  now ← run Now;
  dl ← catch (store (InsertLicense {|
      InsertLicenseParams_UploadedAt := now;
      InsertLicenseParams_JWT := jwt;
      InsertLicenseParams_Exp := expTime;
      InsertLicenseParams_Uuid := mkNull (default uuid_Nil id) (bool_decide (is_Some id)) |}))
    (internal "Unable to add license to database");
  mret (dl, rawClaims).

(** The text published, [add] or [delete], is not JSON; the subscribers do not look
    at it. *)
Definition announce : Handler unit :=
  _ ← attempt_h (Publish PubsubEventLicenses RawInvalid);
  mret tt.

Definition postLicense (r : Request) (body : json_body AddLicenseRequest) : EHandler unit :=
  license ← plainly (insert_license r body);
  _ ← update_or_fail;
  _ ← plainly announce;
  plainly (reply StatusCreated (BodyLicense (convertLicense license.1 license.2))).

(** The checks of [deleteLicense] and its write. *)
Definition delete_license (r : Request) : Handler unit :=
  _ ← authorize r ActionDelete ResourceLicense Forbidden;
  id ← catch (lift_res (ParseInt (URLParam r "id") 32))
    (λ _, Write StatusNotFound (message "License ID must be an integer"));
  _ ← catch (store (DeleteLicense id))
    (λ err, if errors_Is err ErrNoRows then Write StatusNotFound (message "Unknown license ID")
            else internal "Internal error deleting license" err);
  mret tt.

Definition deleteLicense (r : Request) : EHandler unit :=
  _ ← plainly (delete_license r);
  _ ← update_or_fail;
  _ ← plainly announce;
  plainly (reply StatusOK BodyNone).

(** The decoder of a JSON object, with its numbers kept. *)
Context (decode_object : bytes → error + MapClaims).

Definition decodeClaims (l : License) : error + MapClaims :=
  match Split l.(License_JWT) "."%char with
  | [_; claims; _] =>
      match b64url_decode claims with
      | None => inl (ErrWrap ("Unable to decode license " +:+ pretty l.(License_ID) +:+ " claims")
                       (ErrNew "illegal base64 data"))
      | Some cb => decode_object cb
      end
  | _ => inl (ErrNew ("Unable to parse license " +:+ pretty l.(License_ID) +:+ " as JWT"))
  end.

Fixpoint convertLicenses (licenses : list License) : error + list sdkLicense :=
  match licenses with
  | [] => inr []
  | l :: licenses =>
      match decodeClaims l with
      | inl err => inl err
      | inr c =>
          match convertLicenses licenses with
          | inl err => inl err
          | inr out => inr (convertLicense l c :: out)
          end
      end
  end.

Definition api_licenses (r : Request) : Handler unit :=
  licenses ← catch (query GetLicenses)
    (λ err, if errors_Is err ErrNoRows then reply StatusOK (BodyLicenses [])
            else internal "Internal error fetching licenses." err);
  licenses ← catch (lift_res (AuthorizeFilter License_RBACObject r ActionRead licenses))
    (internal "Internal error fetching licenses.");
  sdkLicenses ← match convertLicenses licenses with
                | inl err => internal "Internal error parsing licenses." err
                | inr l => mret l
                end;
  reply StatusOK (BodyLicenses sdkLicenses).
End entitlements.
