(* ===== verification/Endpoints.v ===== *)
(** * The requests that change something

    The routes of [coderd/coderd.go] and [enterprise/coderd/coderd.go] that write, with the handler each one runs
    and the permissions it needs, and the theorem that ties the API to the
    authorizer: a request that succeeds, or changes anything in the store but the
    audit log, had all of them. The objects the URL names are arguments: the
    middleware has found them. *)

From Stdlib Require Import Ascii.
From stdpp Require Import prelude gmap strings.
From S2P Require Import Prelude Encoding Cryptorand UserPassword Schedule Rbac Models Queries.
From S2P Require Import ModelMethods Store StoreMisc StoreTemplates StoreJobs StoreWorkspaces World ProvisionerdServer.
From S2P Require Import Auditing Sdk Http HttpMw Scenario HttpProps QueryParams Api ApiUsers ApiKeys ApiOrgs ApiMisc.
From S2P Require Import ApiJobs ApiBuilds ApiWorkspaces ApiTemplates ApiVersions License Enterprise.

Local Open Scope Z_scope.

(** ** What a handler asks before it writes *)

(** The store without its audit log. *)
Definition unaudited (s : hstate) : data := s.(hs_world).(db) <| auditLogs := [] |>.

(** The handler says no, and changes nothing but the audit log. *)
Definition rejected (m : Handler unit) (s : hstate) : Prop :=
  refused (m s).1 ∧ unaudited (m s).2 = unaudited s.

(** A step that only looks: on the store [q] it changes nothing, every response
    it writes says no, and what it hands on satisfies [Q]. *)
Definition checks {A} (q : data) (Q : A → Prop) (m : Handler A) : Prop := ∀ s,
  s.(hs_world).(db) = q →
  (m s).2.(hs_world).(db) = q ∧
  match (m s).1 with
  | Ok (inl p) => 300 <= p.(Reply_Status)
  | Ok (inr a) => Q a
  | Err _ | Panic _ => True
  end.

(** On the store [q] the handler is rejected unless [P] holds. *)
Definition unless (q : data) (P : Prop) (m : Handler unit) : Prop := ∀ s,
  s.(hs_world).(db) = q → rejected m s ∨ P.

Lemma unless_bind {A} q P Q (m : Handler A) (k : A → Handler unit) :
  checks q Q m → (∀ a, Q a → unless q P (k a)) → unless q P (m ≫= k).
Proof.
  intros Hm Hk s Hs. destruct (Hm s Hs) as [Hdb Hres]. unfold rejected, unaudited. rewrite h_bind_run.
  destruct (m s) as [[[p|a]|e|p] s1]; simpl in *; [left; by rewrite Hdb, Hs| |left; by rewrite Hdb, Hs..].
  destruct (Hk a Hres s1 Hdb) as [[Hr Heq]|HP]; [left|by right].
  split; [done|]. unfold unaudited in Heq. by rewrite Heq, Hdb, Hs.
Qed.
Lemma unless_holds q (P : Prop) m : P → unless q P m.
Proof. by right. Qed.

Lemma unless_assoc {A B} q P (m : Handler A) (k : A → Handler B) (j : B → Handler unit) :
  unless q P (m ≫= (λ a, k a ≫= j)) → unless q P ((m ≫= k) ≫= j).
Proof.
  intros Hm s Hs. specialize (Hm s Hs). unfold rejected in *.
  assert (((m ≫= k) ≫= j) s = (m ≫= (λ a, k a ≫= j)) s) as ->; [|done].
  rewrite !h_bind_run. by destruct (m s) as [[[p|a]|e|p] s1].
Qed.

Create HintDb checks.

Lemma checks_bind {A B} q Q R (m : Handler A) (k : A → Handler B) :
  checks q Q m → (∀ a, Q a → checks q R (k a)) → checks q R (m ≫= k).
Proof.
  intros Hm Hk s Hs. destruct (Hm s Hs) as [Hdb Hres]. rewrite h_bind_run.
  destruct (m s) as [[[p|a]|e|p] s1]; simpl in *; [done| |done..]. by apply Hk.
Qed.
Lemma checks_weaken {A} q (Q R : A → Prop) (m : Handler A) : checks q Q m → (∀ a, Q a → R a) → checks q R m.
Proof.
  intros Hm HQR s Hs. destruct (Hm s Hs) as [Hdb Hres]. split; [done|].
  destruct (m s).1 as [[p|a]|e|p]; auto.
Qed.
Lemma checks_ret {A} q (a : A) : checks q (λ b, b = a) (mret a).
Proof. done. Qed.
Lemma checks_get {A} q (r : res A) : checks q (λ a, r = Ok a) (get r).
Proof. intros s Hs. by destruct r. Qed.
Lemma checks_set_Old q aReq a : checks q (λ _, True) (set_Old aReq a).
Proof. done. Qed.
Lemma checks_set_New q aReq a : checks q (λ _, True) (set_New aReq a).
Proof. done. Qed.
(** It always replies. *)
Lemma checks_reply {A} q (Q : A → Prop) status body : 300 <= status → checks q Q (reply status body).
Proof. done. Qed.
Lemma checks_require q cond otherwise :
  checks q (λ _, False) otherwise → checks q (λ _, cond = true) (require cond otherwise).
Proof. intros Hno. unfold require. destruct cond; [done|]. by eapply checks_weaken; [apply Hno|intros ? []]. Qed.
Lemma checks_Read {T} `{!Validate T} q (body : json_body T) :
  checks q (λ v, body = inr v ∧ validate_Struct v = None) (Read body).
Proof. intros s Hs. unfold Read. destruct body as [e|v]; [done|]. by destruct (validate_Struct v) as [[]|] eqn:?. Qed.
Lemma checks_query {A} q (f : data → res A) handle :
  (∀ e, checks q (λ _, False) (handle e)) → checks q (λ a, f q = Ok a) (catch (query f) handle).
Proof.
  intros Hno s Hs. rewrite catch_query, Hs. destruct (f q) as [a|e|p] eqn:Hf; simpl; auto.
  destruct (Hno e s Hs) as [? Hres]. split; [done|]. by destruct (handle e s).1 as [[]| |].
Qed.
Lemma checks_attempt_query {A} q (f : data → res A) :
  checks q (λ r, match r with inr a => f q = Ok a | inl e => f q = Err e end) (attempt_h (query f)).
Proof. intros s Hs. unfold attempt_h, on_world, zoom, query. rewrite Hs. by destruct (f q). Qed.
Lemma checks_lift {A} q (r : res A) handle :
  (∀ e, checks q (λ _, False) (handle e)) → checks q (λ a, r = Ok a) (catch (lift_res r) handle).
Proof.
  intros Hno s Hs. rewrite catch_run. destruct r as [a|e|p]; simpl; auto.
  destruct (Hno e (s <| hs_world := s.(hs_world) |>)) as [? Hres]; [done|]. split; [done|].
  by destruct (handle e _).1 as [[]| |].
Qed.
Lemma checks_if {A} q (Q R : A → Prop) (b : bool) (m n : Handler A) :
  checks q Q m → checks q R n → checks q (λ a, if b then Q a else R a) (if b then m else n).
Proof. by destruct b. Qed.
Lemma checks_no_if {A} q (b : bool) (m n : Handler A) :
  checks q (λ _, False) m → checks q (λ _, False) n → checks q (λ _, False) (if b then m else n).
Proof. by destruct b. Qed.
#[export] Hint Extern 1 (checks _ (λ _, False) (reply _ _)) => apply checks_reply; done : checks.
#[export] Hint Extern 1 (checks _ (λ _, False) (Write _ _)) => apply checks_reply; done : checks.
#[export] Hint Extern 2 (checks _ (λ _, False) (if _ then _ else _)) => apply checks_no_if : checks.
#[export] Hint Extern 1 (checks _ (λ _, False) ResourceNotFound) => apply checks_reply; done : checks.
#[export] Hint Extern 1 (checks _ (λ _, False) http_NotFound) => apply checks_reply; done : checks.
#[export] Hint Extern 1 (checks _ (λ _, False) Forbidden) => apply checks_reply; done : checks.
#[export] Hint Extern 1 (checks _ (λ _, False) (internal _ _)) => apply checks_reply; done : checks.
#[export] Hint Extern 1 (checks _ (λ _, False) (InternalServerError _)) => apply checks_reply; done : checks.
#[export] Hint Extern 1 (checks _ (λ _, False) (not_found_or _ _)) => unfold not_found_or : checks.
#[export] Hint Resolve checks_get checks_set_Old checks_set_New checks_require checks_Read checks_query : checks.
#[export] Hint Resolve checks_attempt_query checks_lift checks_ret : checks.
#[export] Hint Resolve checks_if | 3 : checks.

Section permits.
Context `{!UuidText, !Authorizer}.

(** The authorizer's verdict on the subject of a request. *)
Definition permits (r : Request) (p : string * Object) : Prop := http_Authorize r p.1 p.2 = Ok true.

Lemma checks_authorize q r action object otherwise :
  checks q (λ _, False) otherwise →
  checks q (λ _, permits r (action, object)) (authorize r action object otherwise).
Proof.
  intros Hno. unfold authorize. eapply checks_bind; [apply checks_get|]. intros ok Hok.
  eapply checks_weaken; [by apply checks_require|]. by intros _ ->.
Qed.
End permits.
#[export] Hint Resolve checks_authorize : checks.

Section audits.
Context `{!Environment, !Auditor, !AuditorLaws}.

Lemma commitAudit_unaudited r action req status :
  preserves (λ w, w.(db) <| auditLogs := [] |>) (commitAudit r action req status).
Proof.
  unfold commitAudit.
  assert (∀ alog, preserves (λ w, w.(db) <| auditLogs := [] |>) (Export alog)) as Hexport.
  { intros alog w. destruct (Export_effect alog w) as [logs ->]. done. }
  frame.
Qed.

(** An audited handler is rejected when its body is. *)
Lemma unless_InitRequest q P r action zero body :
  (∀ aReq, unless q P (body aReq)) → unless q P (InitRequest r action zero body).
Proof.
  intros Hbody s Hs. unfold rejected, InitRequest, on_world, zoom. cbv zeta.
  lazymatch goal with |- context [body ?n ?s0] =>
    destruct (Hbody n s0 Hs) as [[Hres Hkeep]|HP]; [left|by right];
    destruct (body n s0) as [result s1] end. simpl in Hres, Hkeep.
  lazymatch goal with |- context [commitAudit ?r ?a ?q ?st s1.(hs_world)] =>
    pose proof (commitAudit_unaudited r a q st s1.(hs_world)) as Hc;
    destruct (commitAudit r a q st s1.(hs_world)) as [cres w2] end. simpl in Hc.
  assert (unaudited (s1 <| hs_world := w2 |>) = unaudited s) as Heq by exact (eq_trans Hc Hkeep).
  by destruct cres.
Qed.
End audits.

(** ** The requests *)

Section endpoints.
Context `{!Environment, !UuidText, !Authorizer, !Auditor}.
Context `{!Pbkdf2, !Sha256, !SSHKeygen, !Cron, !Tailnet, !RFC3339, !MetricsCache, !NamesGenerator, !Hcl}.
Context `{!Validate CreateUserRequest, !Validate UpdateUserProfileRequest}.
Context `{!Validate UpdateUserPasswordRequest, !Validate UpdateRoles, !Validate CreateTokenRequest}.
Context `{!Validate CreateOrganizationRequest, !Validate CreateParameterRequest}.
Context `{!Validate CreateWorkspaceBuildRequest, !Validate CreateWorkspaceRequest}.
Context `{!Validate UpdateWorkspaceRequest, !Validate UpdateWorkspaceAutostartRequest}.
Context `{!Validate UpdateWorkspaceTTLRequest, !Validate PutExtendWorkspaceRequest}.
Context `{!Validate CreateTemplateRequest, !Validate UpdateTemplateMeta}.
Context `{!Validate CreateTemplateVersionDryRunRequest, !Validate UpdateActiveTemplateVersion}.
Context `{!Validate CreateTemplateVersionRequest}.
Context `{!Validate CreateGroupRequest, !Validate PatchGroupRequest, !Validate UpdateTemplateACL}.
Context `{!Jwt, !Validate AddLicenseRequest}.
Context (api : Options) (encode : list ParameterValue → json) (decode : json → res (list ParameterValue)).
(** The enterprise server: its options, hooks and replicas, and the outcomes of
    setting up the coordinator for high availability and of accepting a websocket. *)
Context (o : EnterpriseOptions) (hooks : EnterpriseAPI) (all : list Replica) (ha_error accept : option error).

(** A handler that sees the hooks, run with those of the server. *)
Definition with_hooks (m : EHandler unit) : Handler unit := λ s, let '(r, s') := m (s, hooks) in (r, s'.1).

Inductive endpoint :=
(* /users *)
| PostUser (body : json_body CreateUserRequest)
| DeleteUser (user : User)
| PutUserProfile (user : User) (body : json_body UpdateUserProfileRequest)
| PutUserStatus (status : UserStatus) (user : User)
| PutUserPassword (user : User) (body : json_body UpdateUserPasswordRequest)
| PutUserRoles (user : User) (body : json_body UpdateRoles)
| PostToken (user : User) (body : json_body CreateTokenRequest)
| PostAPIKey (user : User)
| DeleteAPIKey (user : User)
| PutGitSSHKey (user : User)
(* /organizations *)
| PostOrganizations (body : json_body CreateOrganizationRequest)
| PutMemberRoles (user : User) (organization : Organization) (member : OrganizationMember)
    (body : json_body UpdateRoles)
| PostWorkspaces (organization : Organization) (user : User) (body : json_body CreateWorkspaceRequest)
| PostTemplate (organization : Organization) (body : json_body CreateTemplateRequest)
| PostTemplateVersion (organization : Organization) (body : json_body CreateTemplateVersionRequest)
(* /files, /parameters *)
| PostFile (body : error + bytes)
| PostParameter (body : json_body CreateParameterRequest)
| DeleteParameter
(* /templates, /templateversions *)
| DeleteTemplate (template : Template)
| PatchTemplate (template : Template) (body : json_body UpdateTemplateMeta)
| PatchTemplateVersions (template : Template) (body : json_body UpdateActiveTemplateVersion)
| PatchCancelVersion (version : TemplateVersion) (template : Template)
| PostDryRun (version : TemplateVersion) (template : Template)
    (body : json_body CreateTemplateVersionDryRunRequest)
| PatchCancelDryRun (version : TemplateVersion) (template : Template)
(* /workspaces, /workspacebuilds *)
| PatchWorkspace (workspace : Workspace) (body : json_body UpdateWorkspaceRequest)
| PutAutostart (workspace : Workspace) (body : json_body UpdateWorkspaceAutostartRequest)
| PutTTL (workspace : Workspace) (body : json_body UpdateWorkspaceTTLRequest)
| PutExtend (workspace : Workspace) (body : json_body PutExtendWorkspaceRequest)
| PostBuilds (workspace : Workspace) (body : json_body CreateWorkspaceBuildRequest)
| PatchCancelBuild (build : WorkspaceBuild)
(* /groups, /templates/{template}/acl, /licenses, /organizations/{organization}/provisionerdaemons *)
| PostGroup (organization : Organization) (body : json_body CreateGroupRequest)
| PatchGroup (group : Group) (body : json_body PatchGroupRequest)
| DeleteGroup (group : Group)
| PatchACL (template : Template) (body : json_body UpdateTemplateACL)
| PostLicense (body : json_body AddLicenseRequest)
| DeleteLicenseID
| ServeDaemon.

Definition handle (e : endpoint) (r : Request) : Handler unit :=
  match e with
  | PostUser body => postUser api r body
  | DeleteUser user => deleteUser r user
  | PutUserProfile user body => putUserProfile r user body
  | PutUserStatus status user => putUserStatus status r user
  | PutUserPassword user body => putUserPassword api r user body
  | PutUserRoles user body => putUserRoles r user body
  | PostToken user body => postToken api r user body
  | PostAPIKey user => postAPIKey api r user
  | DeleteAPIKey user => deleteAPIKey r user
  | PutGitSSHKey user => regenerateGitSSHKey api r user
  | PostOrganizations body => postOrganizations r body
  | PutMemberRoles user organization member body => putMemberRoles r user organization member body
  | PostWorkspaces organization user body => postWorkspacesByOrganization api r organization user body
  | PostTemplate organization body => postTemplateByOrganization r organization body
  | PostTemplateVersion organization body => postTemplateVersionsByOrganization r organization body
  | PostFile body => postFile r body
  | PostParameter body => postParameter r body
  | DeleteParameter => deleteParameter r
  | DeleteTemplate template => deleteTemplate r template
  | PatchTemplate template body => patchTemplateMeta r template body
  | PatchTemplateVersions template body => patchActiveTemplateVersion r template body
  | PatchCancelVersion version template => patchCancelTemplateVersion r version template
  | PostDryRun version template body => postTemplateVersionDryRun encode r version template body
  | PatchCancelDryRun version template => patchTemplateVersionDryRunCancel decode r version template
  | PatchWorkspace workspace body => patchWorkspace r workspace body
  | PutAutostart workspace body => putWorkspaceAutostart r workspace body
  | PutTTL workspace body => putWorkspaceTTL r workspace body
  | PutExtend workspace body => putExtendWorkspace r workspace body
  | PostBuilds workspace body => postWorkspaceBuilds api r workspace body
  | PatchCancelBuild build => patchCancelWorkspaceBuild r build
  | PostGroup organization body => postGroupByOrganization r organization body
  | PatchGroup group body => patchGroup r group body
  | DeleteGroup group => deleteGroup r group
  | PatchACL template body => patchTemplateACL r template body
  | PostLicense body => with_hooks (postLicense o all ha_error r body)
  | DeleteLicenseID => with_hooks (deleteLicense o all ha_error r)
  | ServeDaemon => _ ← provisionerDaemonServe api.(AccessURL_Hostname) accept r; mret tt
  end.

(** A body that is read. *)
Definition valid_body {T} `{!Validate T} (body : json_body T) : option T :=
  match body with
  | inr v => match validate_Struct v with None => Some v | Some _ => None end
  | inl _ => None
  end.

Definition found {A} (r : res A) : option A := match r with Ok a => Some a | _ => None end.

(** The object the parameter routes name. *)
Definition parameter_object (r : Request) (q : data) : option Object :=
  id ← uuid_Parse (URLParam r "id");
  found (scope_resource (ParameterScope_of_string (URLParam r "scope")) id q).

(** The template of the version a build is made from. *)
Definition build_template (workspaceID requested : uuid) (q : data) : option Template :=
  id ← (if requested == uuid_Nil
        then WorkspaceBuild_TemplateVersionID <$> found (GetLatestWorkspaceBuildByWorkspaceID workspaceID q)
        else Some requested);
  version ← found (GetTemplateVersionByID id q);
  found (GetTemplateByID (null_val version.(TemplateVersion_TemplateID)) q).

(** The permissions a change of roles takes. *)
Definition role_changes (obj : Object) (from to : list string) : list (string * Object) :=
  let '(added, removed) := ChangeRoleSet from to in
  (if added == [] then [] else [(ActionCreate, obj)]) ++ (if removed == ∅ then [] else [(ActionDelete, obj)]).

(** The tags of a daemon's request, when each is a key and a value. *)
Fixpoint daemon_tags (raw : list string) (tags : StringMap) : option StringMap :=
  match raw with
  | [] => Some tags
  | tag :: raw => match SplitN 2 tag "="%char with
                  | key :: value :: _ => daemon_tags raw (<[key := value]> tags)
                  | _ => None
                  end
  end.

(** The permissions a request needs; [None] when it fails before it needs any
    more. *)
Definition needs (e : endpoint) (r : Request) (q : data) : option (list (string * Object)) :=
  let own (user : User) obj := WithOwner (uuid_String user.(User_ID)) obj in
  match e with
  | PostUser body =>
      req ← valid_body body;
      Some [(ActionCreate, ResourceUser);
            (ActionCreate, InOrg req.(CreateUserRequest_OrganizationID) ResourceOrganizationMember)]
  | DeleteUser _ => Some [(ActionDelete, ResourceUser)]
  | PutUserProfile _ _ => Some [(ActionUpdate, ResourceUser)]
  | PutUserStatus _ _ => Some [(ActionDelete, ResourceUser)]
  | PutUserPassword user body =>
      req ← valid_body body;
      Some ((ActionUpdate, own user ResourceUserData) ::
            (if req.(UpdateUserPasswordRequest_OldPassword) == EmptyString
             then [(ActionUpdate, ResourceUser)] else []))
  | PutUserRoles user body =>
      req ← valid_body body;
      Some ((ActionRead, ResourceUser) ::
            role_changes ResourceRoleAssignment user.(User_RBACRoles) (req.(UpdateRoles_Roles) ++ [RoleMember]))
  | PostToken user _ | PostAPIKey user => Some [(ActionCreate, own user ResourceAPIKey)]
  | DeleteAPIKey user => Some [(ActionDelete, own user ResourceAPIKey)]
  | PutGitSSHKey user => Some [(ActionUpdate, own user ResourceUserData)]
  | PostOrganizations _ => Some [(ActionCreate, ResourceOrganization)]
  | PutMemberRoles _ organization member body =>
      req ← valid_body body;
      Some (role_changes (InOrg organization.(Organization_ID) ResourceOrgRoleAssignment)
              member.(OrganizationMember_Roles)
              (req.(UpdateRoles_Roles) ++ [RoleOrgMember organization.(Organization_ID)]))
  | PostWorkspaces organization user body =>
      req ← valid_body body;
      template ← found (GetTemplateByID req.(CreateWorkspaceRequest_TemplateID) q);
      Some [(ActionCreate, own user (InOrg organization.(Organization_ID) ResourceWorkspace));
            (ActionRead, Template_RBACObject template)]
  | PostTemplate organization _ => Some [(ActionCreate, InOrg organization.(Organization_ID) ResourceTemplate)]
  | PostTemplateVersion organization body =>
      req ← valid_body body;
      let templateID := req.(CreateTemplateVersionRequest_TemplateID) in
      template ← (if templateID != uuid_Nil then found (GetTemplateByID templateID q) else Some Template_zero);
      file ← found (GetFileByID req.(CreateTemplateVersionRequest_FileID) q);
      Some [(ActionCreate, if template.(Template_ID) != uuid_Nil then Template_RBACObject template
                           else InOrg organization.(Organization_ID) ResourceTemplate);
            (ActionRead, File_RBACObject file)]
  | PostFile _ =>
      key ← r.(context_APIKey);
      Some [(ActionCreate, WithOwner (uuid_String key.(APIKey_UserID)) ResourceFile)]
  | PostParameter _ | DeleteParameter => obj ← parameter_object r q; Some [(ActionUpdate, obj)]
  | DeleteTemplate template => Some [(ActionDelete, Template_RBACObject template)]
  | PatchTemplate template _ | PatchTemplateVersions template _ =>
      Some [(ActionUpdate, Template_RBACObject template)]
  | PatchCancelVersion version template => Some [(ActionUpdate, TemplateVersion_RBACObject version template)]
  | PostDryRun version template _ =>
      key ← r.(context_APIKey);
      Some [(ActionRead, TemplateVersion_RBACObject version template);
            (ActionCreate, dry_run_workspace version key.(APIKey_UserID))]
  | PatchCancelDryRun version template =>
      id ← uuid_Parse (URLParam r "jobID");
      job ← found (GetProvisionerJobByID id q);
      let workspace := dry_run_workspace version job.(ProvisionerJob_InitiatorID) in
      Some [(ActionRead, TemplateVersion_RBACObject version template);
            (ActionRead, workspace); (ActionUpdate, workspace)]
  | PatchWorkspace workspace _ | PutAutostart workspace _ | PutTTL workspace _ | PutExtend workspace _ =>
      Some [(ActionUpdate, Workspace_RBACObject workspace)]
  | PostBuilds workspace body =>
      req ← valid_body body;
      action ← match req.(CreateWorkspaceBuildRequest_Transition) with
               | WorkspaceTransitionDelete => Some ActionDelete
               | WorkspaceTransitionStart | WorkspaceTransitionStop => Some ActionUpdate
               | WorkspaceTransition_other _ => None
               end;
      template ← build_template workspace.(Workspace_ID) req.(CreateWorkspaceBuildRequest_TemplateVersionID) q;
      Some ((action, Workspace_RBACObject workspace) ::
            (if (if req.(CreateWorkspaceBuildRequest_ProvisionerState) is Some _ then true else false)
                || req.(CreateWorkspaceBuildRequest_Orphan)
             then [(ActionUpdate, Template_RBACObject template)] else []))
  | PatchCancelBuild build =>
      workspace ← found (GetWorkspaceByID build.(WorkspaceBuild_WorkspaceID) q);
      Some [(ActionUpdate, Workspace_RBACObject workspace)]
  | PostGroup organization _ => Some [(ActionCreate, InOrg organization.(Organization_ID) ResourceGroup)]
  | PatchGroup group _ => Some [(ActionUpdate, Group_RBACObject group)]
  | DeleteGroup group => Some [(ActionDelete, Group_RBACObject group)]
  | PatchACL template _ => Some [(ActionCreate, Template_RBACObject template)]
  | PostLicense _ => Some [(ActionCreate, ResourceLicense)]
  | DeleteLicenseID => Some [(ActionDelete, ResourceLicense)]
  | ServeDaemon =>
      key ← r.(context_APIKey);
      tags ← daemon_tags (default [] (r.(URL_Query) !! "tag")) ∅;
      Some (if bool_decide (MutateTags key.(APIKey_UserID) tags !! "scope" = Some "organization")
            then [(ActionCreate, ResourceProvisionerDaemon)] else [])
  end.

Definition permitted (e : endpoint) (r : Request) (q : data) : Prop :=
  ∃ l, needs e r q = Some l ∧ Forall (permits r) l.

Context `{!AuditorLaws}.

(** One step of a handler that only looks. *)
Ltac look :=
  lazymatch goal with
  | |- unless _ _ (InitRequest _ _ _ _) => apply unless_InitRequest; intros ?
  | |- unless _ _ (_ ≫= _) => eapply unless_bind; [solve [eauto with checks]|cbv beta; intros ? ?]
  end.
Ltac read_body :=
  lazymatch goal with H : _ = inr ?v ∧ _ |- _ => destruct H as [-> ?]; rename v into req end; cbv zeta.
(** All that is needed has been asked. *)
Ltac asked :=
  apply unless_holds; eexists; split;
  [unfold needs, parameter_object, build_template, valid_body, found, mbind, option_bind; cbv beta iota;
   repeat lazymatch goal with
     | H : ?a = Ok _ |- context [?a] => rewrite H; cbv beta iota
     | H : ?a = None |- context [?a] => rewrite H; cbv beta iota
     | H : ?a = Some _ |- context [?a] => rewrite H; cbv beta iota
     end; reflexivity
  |repeat apply Forall_cons_2; try assumption; try apply Forall_nil_2].

Lemma postUser_asks body r q : unless q (permitted (PostUser body) r q) (postUser api r body).
Proof. unfold postUser. look. look. look. read_body. look. asked. Qed.
Lemma deleteUser_asks user r q : unless q (permitted (DeleteUser user) r q) (deleteUser r user).
Proof. unfold deleteUser. do 3 look. asked. Qed.
Lemma putUserProfile_asks user body r q :
  unless q (permitted (PutUserProfile user body) r q) (putUserProfile r user body).
Proof. unfold putUserProfile. do 3 look. asked. Qed.
Lemma putUserStatus_asks status user r q :
  unless q (permitted (PutUserStatus status user) r q) (putUserStatus status r user).
Proof. unfold putUserStatus. do 4 look. asked. Qed.
Lemma putUserPassword_asks user body r q :
  unless q (permitted (PutUserPassword user body) r q) (putUserPassword api r user body).
Proof.
  unfold putUserPassword. do 4 look. read_body.
  eapply (unless_bind _ _ (λ _, True)); [by destruct (userpassword_Validate _)|intros _ _].
  eapply unless_bind; [apply checks_if; [eauto with checks|]|intros [] Hold].
  { eapply (checks_bind _ _ (λ _, True)); [eauto with checks|intros ok _].
    eapply checks_weaken; [eauto with checks|done]. }
  asked. by case_bool_decide; repeat constructor.
Qed.
Lemma postToken_asks user body r q : unless q (permitted (PostToken user body) r q) (postToken api r user body).
Proof. unfold postToken. look. asked. Qed.
Lemma postAPIKey_asks user r q : unless q (permitted (PostAPIKey user) r q) (postAPIKey api r user).
Proof. unfold postAPIKey. look. asked. Qed.
Lemma deleteAPIKey_asks user r q : unless q (permitted (DeleteAPIKey user) r q) (deleteAPIKey r user).
Proof. unfold deleteAPIKey. look. asked. Qed.
Lemma regenerateGitSSHKey_asks user r q :
  unless q (permitted (PutGitSSHKey user) r q) (regenerateGitSSHKey api r user).
Proof. unfold regenerateGitSSHKey. do 2 look. asked. Qed.
Lemma postOrganizations_asks body r q :
  unless q (permitted (PostOrganizations body) r q) (postOrganizations r body).
Proof. unfold postOrganizations. do 2 look. asked. Qed.

Lemma role_changes_permitted r obj from to (x y : unit) :
  (if (ChangeRoleSet from to).1 == [] then x = tt else permits r (ActionCreate, obj)) →
  (if (ChangeRoleSet from to).2 == ∅ then y = tt else permits r (ActionDelete, obj)) →
  Forall (permits r) (role_changes obj from to).
Proof.
  unfold role_changes. destruct (ChangeRoleSet from to) as [added removed]; simpl. intros Hadd Hrem.
  apply Forall_app_2; [destruct (bool_decide (added = []))|destruct (bool_decide (removed = ∅))];
    by repeat apply Forall_cons_2; try apply Forall_nil_2.
Qed.
Lemma putUserRoles_asks user body r q :
  unless q (permitted (PutUserRoles user body) r q) (putUserRoles r user body).
Proof.
  unfold putUserRoles. do 7 look. read_body.
  pose proof (role_changes_permitted r ResourceRoleAssignment user.(User_RBACRoles)) as Hroles.
  destruct (ChangeRoleSet _ _) as [added removed] eqn:Hset. do 2 look.
  asked. eapply Hroles; by rewrite Hset.
Qed.
Lemma putMemberRoles_asks user organization member body r q :
  unless q (permitted (PutMemberRoles user organization member body) r q)
    (putMemberRoles r user organization member body).
Proof.
  unfold putMemberRoles. do 4 look. read_body.
  pose proof (role_changes_permitted r (InOrg organization.(Organization_ID) ResourceOrgRoleAssignment)
    member.(OrganizationMember_Roles)) as Hroles.
  destruct (ChangeRoleSet _ _) as [added removed] eqn:Hset. do 2 look.
  asked. eapply Hroles; by rewrite Hset.
Qed.
Lemma postWorkspaces_asks organization user body r q :
  unless q (permitted (PostWorkspaces organization user body) r q)
    (postWorkspacesByOrganization api r organization user body).
Proof.
  unfold postWorkspacesByOrganization. do 4 look. read_body.
  eapply (unless_bind _ _ (λ template, GetTemplateByID req.(CreateWorkspaceRequest_TemplateID) q = Ok template
    ∧ permits r (ActionRead, Template_RBACObject template))).
  - unfold create_template. eapply checks_bind; [eauto with checks|intros template ?].
    do 3 (eapply checks_bind; [eauto with checks|cbv beta; intros [] ?]). done.
  - intros template [? ?]. asked.
Qed.
Lemma postTemplate_asks organization body r q :
  unless q (permitted (PostTemplate organization body) r q) (postTemplateByOrganization r organization body).
Proof. unfold postTemplateByOrganization. do 3 look. cbv zeta. look. asked. Qed.
Lemma postTemplateVersion_asks organization body r q :
  unless q (permitted (PostTemplateVersion organization body) r q)
    (postTemplateVersionsByOrganization r organization body).
Proof.
  unfold postTemplateVersionsByOrganization. do 3 look. read_body.
  eapply (unless_bind _ _ (λ t, (if req.(CreateTemplateVersionRequest_TemplateID) != uuid_Nil
    then found (GetTemplateByID req.(CreateTemplateVersionRequest_TemplateID) q) else Some Template_zero) = Some t)).
  - destruct (negb _); [|by intros s]. eapply checks_weaken; [eauto with checks|]. by intros t ->.
  - intros template Htemplate. do 3 look. unfold found in Htemplate. asked.
Qed.

Lemma context_key r key : httpmw_APIKey r = Ok key → r.(context_APIKey) = Some key.
Proof. unfold httpmw_APIKey. destruct (context_APIKey r); [|done]. by intros [= ->]. Qed.
Lemma postFile_asks body r q : unless q (permitted (PostFile body) r q) (postFile r body).
Proof.
  unfold postFile. eapply unless_bind; [apply checks_get|cbv beta; intros key Hkey]. apply context_key in Hkey.
  cbv zeta. look. asked.
Qed.

Lemma readScopeAndID_checks r q :
  checks q (λ scoped, scoped.1 = ParameterScope_of_string (URLParam r "scope") ∧
                      uuid_Parse (URLParam r "id") = Some scoped.2) (readScopeAndID r).
Proof.
  unfold readScopeAndID. cbv zeta. eapply (checks_bind _ (λ _, True)); [by destruct (ParameterScope_of_string _)|].
  intros _ _. by destruct (uuid_Parse _) eqn:?.
Qed.
Lemma parameterRBACResource_checks scope id q :
  checks q (λ obj, scope_resource scope id q = Ok obj) (parameterRBACResource scope id).
Proof. unfold parameterRBACResource. eauto with checks. Qed.
Lemma postParameter_asks body r q : unless q (permitted (PostParameter body) r q) (postParameter r body).
Proof.
  unfold postParameter. eapply unless_bind; [apply readScopeAndID_checks|cbv beta; intros [scope id] [Hs Hid]]; simpl in Hs, Hid; subst scope.
  eapply unless_bind; [apply parameterRBACResource_checks|cbv beta; intros obj Hobj]. look. asked.
Qed.
Lemma deleteParameter_asks r q : unless q (permitted DeleteParameter r q) (deleteParameter r).
Proof.
  unfold deleteParameter. eapply unless_bind; [apply readScopeAndID_checks|cbv beta; intros [scope id] [Hs Hid]]; simpl in Hs, Hid; subst scope.
  eapply unless_bind; [apply parameterRBACResource_checks|cbv beta; intros obj Hobj]. look. asked.
Qed.

Lemma deleteTemplate_asks template r q :
  unless q (permitted (DeleteTemplate template) r q) (deleteTemplate r template).
Proof. unfold deleteTemplate. do 3 look. asked. Qed.
Lemma patchTemplateMeta_asks template body r q :
  unless q (permitted (PatchTemplate template body) r q) (patchTemplateMeta r template body).
Proof. unfold patchTemplateMeta. do 3 look. asked. Qed.
Lemma patchActiveTemplateVersion_asks template body r q :
  unless q (permitted (PatchTemplateVersions template body) r q) (patchActiveTemplateVersion r template body).
Proof. unfold patchActiveTemplateVersion. do 3 look. asked. Qed.
Lemma patchCancelTemplateVersion_asks version template r q :
  unless q (permitted (PatchCancelVersion version template) r q) (patchCancelTemplateVersion r version template).
Proof. unfold patchCancelTemplateVersion, authorize_version. look. asked. Qed.
Lemma postTemplateVersionDryRun_asks version template body r q :
  unless q (permitted (PostDryRun version template body) r q)
    (postTemplateVersionDryRun encode r version template body).
Proof.
  unfold postTemplateVersionDryRun, authorize_version.
  eapply unless_bind; [apply checks_get|cbv beta; intros key Hkey]. apply context_key in Hkey. do 2 look. asked.
Qed.
Lemma fetchTemplateVersionDryRunJob_checks r version template q :
  checks q (λ job, ∃ id, uuid_Parse (URLParam r "jobID") = Some id ∧ GetProvisionerJobByID id q = Ok job ∧
      permits r (ActionRead, TemplateVersion_RBACObject version template) ∧
      permits r (ActionRead, dry_run_workspace version job.(ProvisionerJob_InitiatorID)))
    (fetchTemplateVersionDryRunJob decode r version template).
Proof.
  unfold fetchTemplateVersionDryRunJob, authorize_version. cbv zeta.
  eapply checks_bind; [eauto with checks|intros [] ?].
  destruct (uuid_Parse _) as [id|]; [|by apply checks_reply].
  do 5 (eapply checks_bind; [eauto with checks|cbv beta; intros ? ?]). intros s ?. split; [done|]. by exists id.
Qed.
Lemma patchTemplateVersionDryRunCancel_asks version template r q :
  unless q (permitted (PatchCancelDryRun version template) r q)
    (patchTemplateVersionDryRunCancel decode r version template).
Proof.
  unfold patchTemplateVersionDryRunCancel.
  eapply unless_bind; [apply fetchTemplateVersionDryRunJob_checks|cbv beta; intros job (id & Hid & Hjob & Hv & Hw)].
  look. asked.
Qed.

Lemma patchWorkspace_asks workspace body r q :
  unless q (permitted (PatchWorkspace workspace body) r q) (patchWorkspace r workspace body).
Proof. unfold patchWorkspace. do 3 look. asked. Qed.
Lemma putWorkspaceAutostart_asks workspace body r q :
  unless q (permitted (PutAutostart workspace body) r q) (putWorkspaceAutostart r workspace body).
Proof. unfold putWorkspaceAutostart. do 3 look. asked. Qed.
Lemma putWorkspaceTTL_asks workspace body r q :
  unless q (permitted (PutTTL workspace body) r q) (putWorkspaceTTL r workspace body).
Proof. unfold putWorkspaceTTL. do 3 look. asked. Qed.
Lemma putExtendWorkspace_asks workspace body r q :
  unless q (permitted (PutExtend workspace body) r q) (putExtendWorkspace r workspace body).
Proof. unfold putExtendWorkspace. look. asked. Qed.
Lemma build_version_checks workspaceID requested q :
  checks q (λ version, ∃ id, GetTemplateVersionByID id q = Ok version ∧
      (if requested == uuid_Nil
       then WorkspaceBuild_TemplateVersionID <$> found (GetLatestWorkspaceBuildByWorkspaceID workspaceID q)
       else Some requested) = Some id) (build_version workspaceID requested).
Proof.
  unfold build_version.
  eapply (checks_bind _ (λ id, (if requested == uuid_Nil
     then WorkspaceBuild_TemplateVersionID <$> found (GetLatestWorkspaceBuildByWorkspaceID workspaceID q)
     else Some requested) = Some id)).
  - destruct (requested == uuid_Nil); [|done].
    eapply checks_bind; [eauto with checks|intros latest Hl]. rewrite Hl. done.
  - intros id Hid. eapply checks_weaken; [eauto with checks|]. intros version ?. by exists id.
Qed.
Lemma custom_state_checks r template req q :
  checks q (λ _, (if req.(CreateWorkspaceBuildRequest_ProvisionerState) is Some _ then true else false)
                 || req.(CreateWorkspaceBuildRequest_Orphan) = true →
                 permits r (ActionUpdate, Template_RBACObject template)) (custom_state r template req).
Proof.
  unfold custom_state. cbv zeta. eapply checks_bind; [eauto with checks|intros [] Hp].
  assert (∀ m : Handler (option bytes), checks q (λ _, True) m → checks q (λ _,
    (if req.(CreateWorkspaceBuildRequest_ProvisionerState) is Some _ then true else false)
    || req.(CreateWorkspaceBuildRequest_Orphan) = true →
    permits r (ActionUpdate, Template_RBACObject template)) m) as Hany.
  { intros m Hm. eapply checks_weaken; [exact Hm|]. intros _ _ Hc. by rewrite Hc in Hp. }
  apply Hany. destruct (CreateWorkspaceBuildRequest_Orphan req); [|done].
  eapply (checks_bind _ (λ _, True)); [by destruct (negb _)|intros _ _].
  by destruct (CreateWorkspaceBuildRequest_ProvisionerState req).
Qed.
Lemma postWorkspaceBuilds_asks workspace body r q :
  unless q (permitted (PostBuilds workspace body) r q) (postWorkspaceBuilds api r workspace body).
Proof.
  unfold postWorkspaceBuilds. do 2 look. read_body.
  eapply (unless_bind _ _ (λ action, match req.(CreateWorkspaceBuildRequest_Transition) with
      | WorkspaceTransitionDelete => Some ActionDelete
      | WorkspaceTransitionStart | WorkspaceTransitionStop => Some ActionUpdate
      | WorkspaceTransition_other _ => None
      end = Some action)).
  { by destruct (CreateWorkspaceBuildRequest_Transition req). }
  intros action Haction. look.
  eapply unless_bind; [apply build_version_checks|cbv beta; intros version (id & Hversion & Hid)]. look.
  eapply unless_bind; [apply custom_state_checks|cbv beta; intros state Hstate].
  unfold found in Hid. asked. destruct (_ || _); [|constructor]. repeat constructor. by apply Hstate.
Qed.
Lemma patchCancelWorkspaceBuild_asks build r q :
  unless q (permitted (PatchCancelBuild build) r q) (patchCancelWorkspaceBuild r build).
Proof. unfold patchCancelWorkspaceBuild, build_workspace. do 2 look. asked. Qed.

Lemma postGroup_asks organization body r q :
  unless q (permitted (PostGroup organization body) r q) (postGroupByOrganization r organization body).
Proof. unfold postGroupByOrganization. do 2 look. asked. Qed.
Lemma patchGroup_asks group body r q :
  unless q (permitted (PatchGroup group body) r q) (patchGroup r group body).
Proof. unfold patchGroup. do 3 look. asked. Qed.
Lemma deleteGroup_asks group r q : unless q (permitted (DeleteGroup group) r q) (deleteGroup r group).
Proof. unfold deleteGroup. do 3 look. asked. Qed.
Lemma patchTemplateACL_asks template body r q :
  unless q (permitted (PatchACL template body) r q) (patchTemplateACL r template body).
Proof. unfold patchTemplateACL. do 3 look. asked. Qed.

(** What the hooks do not see is as without them. *)
Lemma with_hooks_bind {A B} q P Q (m : Handler A) (k : A → Handler B) (rest : B → EHandler unit) :
  checks q Q m → (∀ a, Q a → P) → unless q P (with_hooks (plainly (m ≫= k) ≫= rest)).
Proof.
  intros Hm HQ s Hs. destruct (Hm s Hs) as [Hdb Hres]. unfold rejected, unaudited, with_hooks.
  unfold mbind, EH_bind, plainly, zoom, H_bind. simpl.
  destruct (m s) as [[[p|a]|e|p] s1]; simpl in *; [left; by rewrite Hdb, Hs| |left; by rewrite Hdb, Hs..].
  right. by eapply HQ.
Qed.
Lemma postLicense_asks body r q :
  unless q (permitted (PostLicense body) r q) (with_hooks (postLicense o all ha_error r body)).
Proof.
  unfold postLicense, insert_license. eapply with_hooks_bind; [eauto with checks|]. cbv beta. intros [] ?.
  eexists. split; [done|]. by repeat constructor.
Qed.
Lemma deleteLicense_asks r q :
  unless q (permitted DeleteLicenseID r q) (with_hooks (deleteLicense o all ha_error r)).
Proof.
  unfold deleteLicense, delete_license. eapply with_hooks_bind; [eauto with checks|]. cbv beta. intros [] ?.
  eexists. split; [done|]. by repeat constructor.
Qed.

Lemma query_tags_checks q raw tags :
  checks q (λ tags', daemon_tags raw tags = Some tags') (query_tags raw tags).
Proof.
  revert tags. induction raw as [|tag raw IH]; intros tags; [done|]. simpl.
  destruct (SplitN 2 tag _) as [|key [|value l]]; [by apply checks_reply..|apply IH].
Qed.
Lemma query_provisioners_checks q raw seen : checks q (λ _, True) (query_provisioners raw seen).
Proof.
  revert seen. induction raw as [|p raw IH]; intros seen; [done|]. simpl.
  case_bool_decide; [apply IH|]. case_bool_decide; [apply IH|by apply checks_reply].
Qed.
Lemma provisionerDaemonServe_asks r q : unless q (permitted ServeDaemon r q) (handle ServeDaemon r).
Proof.
  simpl. unfold provisionerDaemonServe. cbv zeta.
  apply unless_assoc. eapply unless_bind; [apply query_tags_checks|cbv beta; intros tags Htags].
  apply unless_assoc. look.
  apply unless_assoc. eapply unless_bind; [apply query_provisioners_checks|intros provisioners _].
  apply unless_assoc. eapply unless_bind; [apply checks_get|cbv beta; intros key Hkey]. apply context_key in Hkey.
  apply unless_assoc. look. apply unless_holds. eexists. split.
  - unfold needs. rewrite Hkey. simpl. rewrite Htags. done.
  - case_bool_decide; [by repeat constructor|constructor].
Qed.

(** C1: A request of any of the writing routes that is answered with success, or
    changes anything in the store but the audit log, had every permission
    [needs] lists for it: the object it names, the objects its body names, and the
    role assignments and provisioner state it asks for. *)
Theorem writes_are_authorized e r s :
  ¬ rejected (handle e r) s → permitted e r s.(hs_world).(db).
Proof.
  intros Hno. enough (unless s.(hs_world).(db) (permitted e r s.(hs_world).(db)) (handle e r)) as Hasks.
  { by destruct (Hasks s eq_refl). }
  destruct e; simpl; eauto using postUser_asks, deleteUser_asks, putUserProfile_asks, putUserStatus_asks,
    putUserPassword_asks, putUserRoles_asks, postToken_asks, postAPIKey_asks, deleteAPIKey_asks,
    regenerateGitSSHKey_asks, postOrganizations_asks, putMemberRoles_asks, postWorkspaces_asks,
    postTemplate_asks, postTemplateVersion_asks, postFile_asks, postParameter_asks, deleteParameter_asks,
    deleteTemplate_asks, patchTemplateMeta_asks, patchActiveTemplateVersion_asks,
    patchCancelTemplateVersion_asks, postTemplateVersionDryRun_asks, patchTemplateVersionDryRunCancel_asks,
    patchWorkspace_asks, putWorkspaceAutostart_asks, putWorkspaceTTL_asks, putExtendWorkspace_asks,
    postWorkspaceBuilds_asks, patchCancelWorkspaceBuild_asks, postGroup_asks, patchGroup_asks,
    deleteGroup_asks, patchTemplateACL_asks, postLicense_asks, deleteLicense_asks.
  apply provisionerDaemonServe_asks.
Qed.
End endpoints.

(** ** A concrete request *)

Module EndpointExamples.
Import Scenario.
#[local] Existing Instances text env policy identity_hash blank_rfc3339 nop nop_laws.
#[local] Existing Instances PasswordExamples.pad_key ScheduleExamples.daily.
#[local] Instance accept_all T : Validate T := λ _, None.
#[local] Instance no_keys : SSHKeygen :=
  {| ed25519KeyGen := throw ErrNoRows; ecdsaKeyGen := throw ErrNoRows; rsa4096KeyGen := throw ErrNoRows |}.
#[local] Instance no_nodes : Tailnet :=
  {| coordinator_Node _ := None; derp_RegionName _ := None; latency_times_1000 j := j |}.
#[local] Instance no_metrics : MetricsCache :=
  {| TemplateUniqueUsers _ := 0; TemplateBuildTimeStats _ := []; TemplateDAUs _ := None |}.
#[local] Instance one_name : NamesGenerator := λ _, "name".
#[local] Instance no_hcl : Hcl := λ _, inl ErrNoRows.

#[local] Instance no_jwt : Jwt :=
  {| jwt_Parse _ _ _ := inl ErrNoRows; jwt_ParseWithClaims _ _ _ := inl ErrNoRows |}.
Definition options : EnterpriseOptions := mkEnterpriseOptions true true false [] EmptyString 0 false ∅.

(** The owner deletes a session of the member. *)
Definition delete : Request := by_owner <| URLParams := {["keyid" := "dddddddddd"]} |>.

Lemma writes_are_authorized_witness :
  permits delete (ActionDelete, WithOwner (uuid_String 7%N) ResourceAPIKey).
Proof.
  destruct (writes_are_authorized api (λ _, JNull) (λ _, Ok []) options EnterpriseAPI_New [] None None
              (DeleteAPIKey member) delete s)
    as (l & Hl & Hall).
  - intros [Hno _]. vm_compute in Hno. by apply Hno.
  - injection Hl as [= <-]. by apply Forall_cons_1 in Hall as [Hp _].
Defined.
End EndpointExamples.
