(* ===== verification/ApiProps.v ===== *)
(** * Properties of the API

    What a successful request leaves in the store: the roles it grants, the
    sessions it ends, the builds it queues, and the bounds on the times it
    accepts. *)

From Stdlib Require Import Ascii.
From stdpp Require Import prelude gmap strings.
From S2P Require Import Prelude Encoding Cryptorand UserPassword Schedule Rbac RbacProps Models Queries.
From S2P Require Import ModelMethods Store StoreUsers StoreOrgs StoreMisc StoreTemplates StoreJobs StoreWorkspaces.
From S2P Require Import StoreProps World ProvisionerdServer AutobuildProps Auditing Sdk Http HttpMw Scenario HttpProps.
From S2P Require Import QueryParams Api ApiUsers ApiKeys ApiJobs ApiBuilds ApiWorkspaces ApiTemplates ApiVersions Endpoints.

Local Open Scope Z_scope.

(** ** Handlers that leave the store alone *)

Abbreviation keeps m := (preserves (λ s, s.(hs_world).(db)) m).

Lemma keeps_ret {A} (a : A) : keeps (mret (M := Handler) a).
Proof. done. Qed.
Lemma keeps_bind {A B} (m : Handler A) (k : A → Handler B) : keeps m → (∀ a, keeps (k a)) → keeps (m ≫= k).
Proof.
  intros Hm Hk s. rewrite h_bind_run. specialize (Hm s).
  destruct (m s) as [[[p|a]|e|p] s1]; simpl in *; [done|by rewrite Hk|done..].
Qed.
Lemma keeps_get {A} (r : res A) : keeps (get r).
Proof. intros s. by destruct r. Qed.
Lemma keeps_reply {A} status body : keeps (reply (A := A) status body).
Proof. done. Qed.
Lemma keeps_attempt_h {A} (m : GoM world A) : preserves db m → keeps (attempt_h m).
Proof.
  intros Hm s. specialize (Hm s.(hs_world)). unfold attempt_h, on_world, zoom.
  by destruct (m s.(hs_world)) as [[]].
Qed.
Lemma keeps_run {A} (m : GoM world A) : preserves db m → keeps (run m).
Proof.
  intros Hm s. specialize (Hm s.(hs_world)). unfold run, on_world, zoom.
  by destruct (m s.(hs_world)) as [[]].
Qed.
Lemma keeps_catch {A} (m : GoM world A) handle : preserves db m → (∀ e, keeps (handle e)) → keeps (catch m handle).
Proof.
  intros Hm Hh. apply keeps_bind; [by apply keeps_attempt_h|]. intros [e|a]; [apply Hh|done].
Qed.
Lemma keeps_set_New aReq a : keeps (set_New aReq a).
Proof. done. Qed.
Lemma preserves_userOrganizationIDs user : preserves db (userOrganizationIDs user).
Proof. intros w. unfold userOrganizationIDs. by destruct (GetOrganizationIDsByMemberIDs _ _) as [[]| |]. Qed.

(** ** Requests that succeed *)

Definition succeeds (m : Handler unit) (s s' : hstate) : Prop :=
  ∃ p, m s = (Ok (inl p), s') ∧ p.(Reply_Status) < 300.

(** A step that only looks went through. *)
Lemma succeeds_checks {A} q Q (m : Handler A) k s s' :
  checks q Q m → s.(hs_world).(db) = q → succeeds (m ≫= k) s s' →
  ∃ a s1, Q a ∧ s1.(hs_world).(db) = q ∧ m s = (Ok (inr a), s1) ∧ succeeds (k a) s1 s'.
Proof.
  intros Hm Hs (p & Hrun & Hp). destruct (Hm s Hs) as [Hdb Hres]. rewrite h_bind_run in Hrun.
  destruct (m s) as [[[p'|a]|e|e] s1]; simpl in *; [|by exists a, s1; split_and!; [..|exists p]|discriminate..].
  injection Hrun as [= -> ->]. lia.
Qed.
(** So did one that changes the store. *)
Lemma succeeds_catch {A} (m : GoM world A) handle k s s' :
  (∀ e, refusing (handle e)) → (∀ e s a, (handle e s).1 ≠ Ok (inr a)) → succeeds (catch m handle ≫= k) s s' →
  ∃ a w1, m s.(hs_world) = (Ok a, w1) ∧ succeeds (k a) (s <| hs_world := w1 |>) s'.
Proof.
  intros Href Hno (p & Hrun & Hp). rewrite h_bind_run, catch_run in Hrun.
  destruct (m s.(hs_world)) as [[a|e|e] w1]; [by exists a, w1; split; [|exists p]| |discriminate].
  specialize (Href e (s <| hs_world := w1 |>)). specialize (Hno e (s <| hs_world := w1 |>)).
  destruct (handle e _) as [[[p'|a]|e'|e'] s1]; simpl in *; [|by destruct (Hno a)|discriminate..].
  injection Hrun as [= -> ->]. lia.
Qed.
Lemma succeeds_keeps m s s' : keeps m → succeeds m s s' → s'.(hs_world).(db) = s.(hs_world).(db).
Proof. intros Hm (p & Hrun & _). specialize (Hm s). by rewrite Hrun in Hm. Qed.
Lemma succeeds_InitRequest `{!Environment, !Auditor, !AuditorLaws} r action zero body s s' :
  succeeds (InitRequest r action zero body) s s' →
  ∃ aReq s0 s1, s0.(hs_world) = s.(hs_world) ∧ succeeds (body aReq) s0 s1 ∧ unaudited s' = unaudited s1.
Proof.
  intros (p & Hrun & Hp). unfold InitRequest, on_world, zoom in Hrun. cbv zeta in Hrun.
  lazymatch type of Hrun with context [body ?n ?s0] =>
    exists n, s0; destruct (body n s0) as [result s1] eqn:Hbody end. exists s1.
  lazymatch type of Hrun with context [commitAudit ?r ?a ?q ?st s1.(hs_world)] =>
    pose proof (commitAudit_unaudited r a q st s1.(hs_world)) as Hc;
    destruct (commitAudit r a q st s1.(hs_world)) as [[u|e|e] w2] end; [|discriminate..].
  injection Hrun as [= -> <-]. split; [done|]. split; [by exists p|exact Hc].
Qed.

(** Take the next step of a request that succeeded. *)
Tactic Notation "next" hyp(H) "as" simple_intropattern(a) simple_intropattern(Ha) :=
  let HQ := fresh "HQ" in
  eapply succeeds_checks in H as (a & ?s & HQ & ? & _ & H); [|solve [eauto with checks]|eassumption];
  cbv beta in HQ; revert HQ; intros Ha.

(** ** Roles *)

Lemma change_roles_added has to role : role ∈ to → role ∉ has → role ∈ (change_roles has to).1.
Proof.
  revert has. induction to as [|r to IH]; intros has Hin Hout; [by apply elem_of_nil in Hin|]. simpl.
  case_decide as Hr.
  - apply IH; [|set_solver]. apply elem_of_cons in Hin as [->|]; [done|done].
  - destruct (change_roles has to) as [added rest] eqn:Hc. simpl. apply elem_of_cons.
    destruct (decide (role = r)) as [->|]; [by left|right].
    change (role ∈ (added, rest).1). rewrite <-Hc. apply IH; [set_solver|done].
Qed.

Lemma checks_each {A} q (Q : A → Prop) l body :
  (∀ x, checks q (λ _, Q x) (body x)) → checks q (λ _, ∀ x, x ∈ l → Q x) (each l body).
Proof.
  intros Hbody. induction l as [|x l IH]; [intros s Hs; split; [done|]; simpl; by intros x ?%elem_of_nil|].
  simpl. eapply checks_bind; [apply Hbody|]. cbv beta. intros _ Hx. eapply checks_weaken; [apply IH|].
  cbv beta. intros _ Hl y [->|Hy]%elem_of_cons; auto.
Qed.

Lemma unique_sorted_roles_elem roles role : role ∈ unique_sorted_roles roles ↔ role ∈ roles.
Proof.
  unfold unique_sorted_roles. rewrite (sort_by_perm string_lt).
  destruct (dedup_roles_spec ∅ roles) as [_ Hin]. rewrite Hin. set_solver.
Qed.

(** What updating a user's roles does. *)
Lemma UpdateUserRoles_run arg q u q' :
  UpdateUserRoles arg q = (Ok u, q') →
  ∃ pre old post, q.(users) = pre ++ old :: post ∧ old.(User_ID) = arg.(UpdateUserRolesParams_ID) ∧
    q' = q <| users := pre ++ old <| User_RBACRoles :=
                unique_sorted_roles arg.(UpdateUserRolesParams_GrantedRoles) |> :: post |>.
Proof.
  unfold UpdateUserRoles, update_row. set (P := λ user, user.(User_ID) == _).
  destruct (find_first_spec P q.(users)) as [(pre & old & post & Hq & Hpre & Hold & _)|[Hall _]];
    [|rewrite update_first_none by done; done].
  rewrite Hq, update_first_app by done. intros [= <- <-].
  exists pre, old, post. by apply bool_decide_eq_true in Hold.
Qed.

Section roles.
Context `{!Environment, !UuidText, !Authorizer, !Auditor, !AuditorLaws, !Validate UpdateRoles}.

(** What a successful change of roles did. *)
Lemma putUserRoles_run r user body s s' :
  succeeds (putUserRoles r user body) s s' →
  ∃ auth key params pre old post,
    r.(context_Authorization) = Some auth ∧ r.(context_APIKey) = Some key ∧ body = inr params ∧
    key.(APIKey_UserID) ≠ user.(User_ID) ∧
    (∀ role, role ∈ params.(UpdateRoles_Roles) → role ∉ user.(User_RBACRoles) →
       CanAssignRole auth.(Authorization_Roles) role = true) ∧
    s.(hs_world).(db).(users) = pre ++ old :: post ∧ old.(User_ID) = user.(User_ID) ∧
    s'.(hs_world).(db).(users) =
      pre ++ old <| User_RBACRoles := unique_sorted_roles params.(UpdateRoles_Roles) |> :: post.
Proof.
  intros Hrun. unfold putUserRoles in Hrun.
  eapply succeeds_checks in Hrun as (auth & t1 & Hauth & Ht1 & _ & Hrun); [|apply checks_get|reflexivity].
  next Hrun as key Hkey. apply context_key in Hkey.
  apply succeeds_InitRequest in Hrun as (aReq & t3 & t4 & Hw & Hrun & Hs').
  assert (t3.(hs_world).(db) = s.(hs_world).(db)) as Ht3 by by rewrite Hw.
  next Hrun as u0 Hu0. next Hrun as u1 Hself. next Hrun as params [Hbody _]. next Hrun as u2 Hread. cbv zeta in Hrun.
  pose proof (change_roles_added (list_to_set user.(User_RBACRoles)) (params.(UpdateRoles_Roles) ++ [RoleMember]))
    as Hadded. fold (ChangeRoleSet user.(User_RBACRoles) (params.(UpdateRoles_Roles) ++ [RoleMember])) in Hadded.
  destruct (ChangeRoleSet _ _) as [added removed]. simpl in Hadded.
  next Hrun as u3 Hu3. next Hrun as u4 Hu4.
  eapply succeeds_checks in Hrun as (u5 & t5 & Hcan & Ht5 & _ & Hrun);
    [|apply checks_each; intros role; apply checks_require; eauto with checks|eassumption].
  apply succeeds_catch in Hrun as (updated & w1 & Hup & Hrun); [|intros ?; by apply refusing_reply|done].
  apply bind_ok in Hup as ([] & w2 & Hsite & Hup). unfold lift_res in Hsite.
  destruct (check_site_roles _) as [[]| |]; [|done..]. injection Hsite as [= <-].
  unfold wrap, store, zoom in Hup. destruct (UpdateUserRoles _ _) as [[u|e|e] q'] eqn:Hq; [|done..].
  injection Hup as [= -> <-]. apply UpdateUserRoles_run in Hq as (pre & old & post & Hold & Hid & ->).
  apply succeeds_keeps in Hrun; [|apply keeps_bind; [done|intros _]; apply keeps_bind;
    [apply keeps_catch; [apply preserves_userOrganizationIDs|done]|done]].
  exists auth, key, params, pre, old, post. split_and!; try done.
  - unfold UserAuthorization in Hauth. destruct (context_Authorization r); [by injection Hauth as ->|done].
  - intros Heq. by rewrite Heq, bool_decide_eq_true_2 in Hself.
  - intros role Hrole Hnew. apply Hcan. apply elem_of_app. left. apply Hadded; [set_solver|set_solver].
  - rewrite <-Ht5. exact Hold.
  - apply (f_equal users) in Hs'. unfold unaudited in Hs'. simpl in Hs'. rewrite Hs'.
    apply (f_equal users) in Hrun. simpl in Hrun. rewrite Hrun. done.
Qed.

(** C3: nobody escalates through [PUT /users/{user}/roles]. When, after the request
    succeeds, a user has one of the privileged roles (owner, auditor, template
    admin, user admin), then either the user had it before, or the request came
    from somebody else who is an owner. [user] is the row of the user the URL
    names. *)
Theorem putUserRoles_no_escalation (r : Request) (user : User) (body : json_body UpdateRoles) (s s' : hstate)
    (Hrow : ∀ u, u ∈ s.(hs_world).(db).(users) → u.(User_ID) = user.(User_ID) → u = user)
    (Hrun : succeeds (putUserRoles r user body) s s')
    (u' : User) (Hu' : u' ∈ s'.(hs_world).(db).(users)) (role : string)
    (Hpriv : role ∈ [Rbac.owner; auditor; templateAdmin; userAdmin]) (Hrole : role ∈ u'.(User_RBACRoles)) :
  (∃ u, u ∈ s.(hs_world).(db).(users) ∧ u.(User_ID) = u'.(User_ID) ∧ role ∈ u.(User_RBACRoles)) ∨
  ∃ auth key longRole,
    r.(context_Authorization) = Some auth ∧ r.(context_APIKey) = Some key ∧ key.(APIKey_UserID) ≠ u'.(User_ID) ∧
    longRole ∈ auth.(Authorization_Roles) ∧ roleSplit longRole = Ok (Rbac.owner, EmptyString).
Proof.
  apply putUserRoles_run in Hrun
    as (auth & key & params & pre & old & post & Hauth & Hkey & _ & Hself & Hcan & Hs & Hid & Hs').
  rewrite Hs'  in Hu'. apply elem_of_app in Hu' as [Hu'|[->|Hu']%elem_of_cons].
  - left. exists u'. rewrite Hs. set_solver.
  - simpl in *. rewrite unique_sorted_roles_elem in Hrole.
    destruct (decide (role ∈ user.(User_RBACRoles))) as [Hhad|Hnew].
    + left. exists old. assert (old ∈ s.(hs_world).(db).(users)) as Hold by (rewrite Hs; set_solver).
      split_and!; [done..|]. by rewrite (Hrow old Hold Hid).
    + right. assert (roleSplit role = Ok (role, EmptyString)) as Hsplit.
      { repeat (apply elem_of_cons in Hpriv as [->|Hpriv]; [done|]). by apply elem_of_nil in Hpriv. }
      destruct (CanAssignRole_privileged _ _ _ _ Hsplit Hpriv (Hcan role Hrole Hnew))
        as (longRole & orgID & Hlong & Hls & Horg).
      exists auth, key, longRole. split_and!; [done..|congruence|done|]. rewrite Hls. by destruct Horg as [-> | ->].
  - left. exists u'. rewrite Hs. set_solver.
Qed.
End roles.

(** ** Passwords *)

Section passwords.
Context `{!Environment, !UuidText, !Authorizer, !Auditor, !AuditorLaws, !Pbkdf2, !Pbkdf2Laws}.
Context `{!Validate UpdateUserPasswordRequest}.

Lemma replace_password_run user hashed w w' :
  replace_password user hashed w = (Ok tt, w') →
  ∃ pre old post,
    w.(db).(users) = pre ++ old :: post ∧ old.(User_ID) = user.(User_ID) ∧
    w'.(db) = w.(db) <| users := pre ++ old <| User_HashedPassword := bytes_of hashed |> :: post |>
      <| apiKeys := filter (λ k, k.(APIKey_UserID) ≠ user.(User_ID)) w.(db).(apiKeys) |>.
Proof.
  intros Hrun. unfold replace_password in Hrun. apply bind_ok in Hrun as ([] & w1 & Hup & Hdel).
  unfold wrap, store, zoom, UpdateUserHashedPassword, void, update_row in Hup.
  unfold mbind, gom_bind, mret, gom_ret in Hup. set (P := λ u, u.(User_ID) == _) in Hup.
  destruct (find_first_spec P w.(db).(users)) as [(pre & old & post & Hq & Hpre & Hold & _)|[Hall _]];
    [|rewrite update_first_none in Hup by done; done].
  rewrite Hq, update_first_app in Hup by done. injection Hup as [= <-].
  unfold wrap, store, zoom, DeleteAPIKeysByUserID in Hdel. injection Hdel as [= <-].
  exists pre, old, post. split; [done|]. split; [by apply bool_decide_eq_true in Hold|].
  simpl. rewrite delete_backwards_filter, firstn_all, drop_all, app_nil_r by done.
  rewrite (list_filter_iff _ (λ k, k.(APIKey_UserID) ≠ user.(User_ID))); [done|].
  intros k. by rewrite bool_decide_eq_false.
Qed.

(** C6: changing a password takes the old one, and ends every session. When
    [PUT /users/{user}/password] succeeds, the old password given was the right
    one, or none was given and the caller may update users; the stored hash accepts
    the new password; and every API key of the user is gone, those of the other
    users are as before. *)
Theorem putUserPassword_revokes (api : Options) (r : Request) (user : User)
    (body : json_body UpdateUserPasswordRequest) (s s' : hstate)
    (Hrun : succeeds (putUserPassword api r user body) s s') :
  ∃ params pre old post hashed,
    body = inr params ∧
    (if params.(UpdateUserPasswordRequest_OldPassword) == EmptyString
     then permits r (ActionUpdate, ResourceUser)
     else Compare api.(simulatedHash) (string_of user.(User_HashedPassword))
            params.(UpdateUserPasswordRequest_OldPassword) = Ok true) ∧
    s.(hs_world).(db).(users) = pre ++ old :: post ∧ old.(User_ID) = user.(User_ID) ∧
    s'.(hs_world).(db).(users) = pre ++ old <| User_HashedPassword := bytes_of hashed |> :: post ∧
    Compare api.(simulatedHash) hashed params.(UpdateUserPasswordRequest_Password) = Ok true ∧
    s'.(hs_world).(db).(apiKeys) =
      filter (λ k, k.(APIKey_UserID) ≠ user.(User_ID)) s.(hs_world).(db).(apiKeys).
Proof.
  unfold putUserPassword in Hrun. apply succeeds_InitRequest in Hrun as (aReq & t0 & t1 & Hw & Hrun & Hs').
  assert (t0.(hs_world).(db) = s.(hs_world).(db)) as Ht0 by by rewrite Hw.
  next Hrun as u0 _. next Hrun as u1 _. next Hrun as params [Hbody _]. cbv zeta in Hrun.
  eapply (succeeds_checks _ (λ _, True)) in Hrun as (u2 & t2 & _ & Ht2 & _ & Hrun);
    [|by destruct (userpassword_Validate _)|eassumption].
  eapply (succeeds_checks _ (λ _, if params.(UpdateUserPasswordRequest_OldPassword) == EmptyString
     then permits r (ActionUpdate, ResourceUser)
     else Compare api.(simulatedHash) (string_of user.(User_HashedPassword))
            params.(UpdateUserPasswordRequest_OldPassword) = Ok true)) in Hrun
    as (u3 & t3 & Hold & Ht3 & _ & Hrun); [| |eassumption].
  2: { destruct (_ == _); [eauto with checks|]. eapply checks_bind; [eauto with checks|intros ok Hok].
       eapply checks_weaken; [eauto with checks|]. by intros _ ->. }
  eapply (succeeds_checks _ (λ _, True)) in Hrun as (u4 & t4 & _ & Ht4 & _ & Hrun);
    [|by case_match; [case_match|..]|eassumption].
  apply succeeds_catch in Hrun as (hashed & w1 & Hhash & Hrun); [|intros ?; by apply refusing_reply|done].
  unfold random, zoom in Hhash. destruct (Hash _ _) as [[h|e|e] n] eqn:Hh; [|done..].
  injection Hhash as [= -> <-]. apply Hash_run in Hh.
  apply succeeds_catch in Hrun as ([] & w2 & Hrep & Hrun); [|intros ?; by apply refusing_reply|done].
  apply replace_password_run in Hrep as (pre & old & post & Hq & Hid & Hdb). simpl in Hq, Hdb.
  apply succeeds_keeps in Hrun; [|apply keeps_bind; done].
  unfold unaudited in Hs'. simpl in Hrun. rewrite Hrun, Hdb, Ht4 in Hs'. rewrite Ht4 in Hq.
  exists params, pre, old, post, hashed. split_and!; try done.
  - by apply (f_equal users) in Hs'.
  - rewrite Hh, Compare_salted. f_equal. by apply bool_decide_eq_true_2.
  - by apply (f_equal apiKeys) in Hs'.
Qed.
End passwords.

(** ** Builds *)

Section builds.
Context `{!Environment, !UuidText, !UuidTextLaws, !Authorizer, !Tailnet, !Validate CreateWorkspaceBuildRequest}.

Lemma unmarshal_marshal_WorkspaceProvisionJob job :
  unmarshal_WorkspaceProvisionJob (marshal_WorkspaceProvisionJob job) = Ok job.
Proof.
  unfold unmarshal_WorkspaceProvisionJob, marshal_WorkspaceProvisionJob, unmarshal_struct. simpl.
  unfold parse_uuid. rewrite uuid_Parse_String. by destruct job.
Qed.

(** The tables of the queue. *)
Definition queue (w : world) : list WorkspaceBuild * list ProvisionerJob :=
  (w.(db).(workspaceBuilds), w.(db).(provisionerJobs)).

Lemma preserves_delete_old_params existing name : preserves queue (delete_old_params existing name).
Proof.
  apply preserves_for_each. intros v. destruct (_ == _); [|done]. apply preserves_bind; [|intros; frame].
  apply preserves_attempt. intros w. unfold store, zoom, DeleteParameterValueByID, swap_delete_row.
  by destruct (index_first _ _).
Qed.
Lemma preserves_insert_workspace_param now id param : preserves queue (insert_workspace_param now id param).
Proof. done. Qed.

(** The build and the job that [insert_build] adds. *)
Lemma insert_build_run nb params w b j w' :
  insert_build nb params w = (Ok (b, j), w') →
  queue w' = ((queue w).1 ++ [b], (queue w).2 ++ [j]) ∧
  b.(WorkspaceBuild_WorkspaceID) = nb.(new_workspace).(Workspace_ID) ∧
  b.(WorkspaceBuild_BuildNumber) = nb.(new_number) ∧ b.(WorkspaceBuild_JobID) = j.(ProvisionerJob_ID) ∧
  b.(WorkspaceBuild_Transition) = nb.(new_transition) ∧
  j.(ProvisionerJob_Type) = ProvisionerJobTypeWorkspaceBuild ∧ Valid j.(ProvisionerJob_StartedAt) = false ∧
  unmarshal_WorkspaceProvisionJob j.(ProvisionerJob_Input) =
    Ok (mkWorkspaceProvisionJob b.(WorkspaceBuild_ID) false).
Proof.
  intros Hrun. unfold insert_build in Hrun. apply bind_ok in Hrun as (existing & w1 & Hex & Hrun).
  assert (queue w1 = queue w) as Hq1.
  { eapply preserves_run; [|exact Hex]. unfold rows_or_empty. frame. }
  apply bind_ok in Hrun as (now & w2 & [= <- <-] & Hrun). apply bind_ok in Hrun as ([] & w3 & Hparams & Hrun).
  eapply (preserves_run queue) in Hparams as Hq3; last first.
  { apply preserves_for_each. intros param. apply preserves_bind; [apply preserves_delete_old_params|].
    intros _. apply preserves_insert_workspace_param. }
  clear Hparams Hex. injection Hrun as [= <- <- <-]. split_and!; try reflexivity.
  - rewrite <-(eq_trans Hq3 Hq1). reflexivity.
  - apply unmarshal_marshal_WorkspaceProvisionJob.
Qed.

Lemma checks_run {A} q (m : GoM world A) : preserves db m → checks q (λ _, True) (run m).
Proof.
  intros Hm s Hs. pose proof (keeps_run m Hm s) as Hk. unfold run, on_world, zoom in *.
  destruct (m s.(hs_world)) as [[]]; simpl in *; by rewrite Hk.
Qed.
Lemma preserves_convertProvisionerJob job : preserves db (convertProvisionerJob job).
Proof. change db with (λ w, id w.(db)). unfold convertProvisionerJob, ConvertProvisionerJobStatus. frame. Qed.

(** The number of the latest build, which has no active job; 0 without one. *)
Lemma prior_build_checks ws q :
  checks q (λ prior, match GetLatestWorkspaceBuildByWorkspaceID ws q with
                     | Ok b => prior.1 = b.(WorkspaceBuild_BuildNumber)
                     | _ => prior.1 = 0
                     end) (prior_build ws).
Proof.
  unfold prior_build. eapply checks_bind; [apply checks_attempt_query|]. intros [e|b] Hb; rewrite Hb.
  { by destruct (errors_Is e ErrNoRows). }
  eapply checks_bind; [apply checks_attempt_query|]. intros pj _. eapply (checks_bind q (λ _, True)).
  { destruct pj; [by intros ?|]. eapply checks_bind; [apply checks_run, preserves_convertProvisionerJob|]. by intros ? _ ?. }
  intros active _. eapply checks_bind; [eauto with checks|]. by intros _ _.
Qed.
Lemma check_import_checks q status failed canceled : checks q (λ _, True) (check_import status failed canceled).
Proof. by destruct status. Qed.

Lemma preserves_mapM {A B T} (f : world → T) (g : A → GoM world B) l :
  (∀ x, preserves f (g x)) → preserves f (mapM g l).
Proof.
  intros Hg. induction l as [|x l IH]; [done|]. apply preserves_bind; [apply Hg|intros ?].
  apply preserves_bind; [exact IH|done].
Qed.
Lemma preserves_convert_resources api resources metadata agents apps :
  preserves db (convert_resources api resources metadata agents apps).
Proof.
  apply preserves_mapM. intros resource. apply preserves_bind; [|done]. apply preserves_mapM. intros agent.
  change db with (λ w, id w.(db)). unfold convertWorkspaceAgent, agent_status. frame.
Qed.
Lemma preserves_convertWorkspaceBuild api b ws j us rs ms ags aps v :
  preserves db (convertWorkspaceBuild api b ws j us rs ms ags aps v).
Proof.
  unfold convertWorkspaceBuild. cbv zeta. repeat case_match; try done.
  apply preserves_bind; [apply preserves_wrap, preserves_convert_resources|]. intros ?.
  apply preserves_bind; [apply preserves_convertProvisionerJob|done].
Qed.
Lemma preserves_publishWorkspaceUpdate ws : preserves db (publishWorkspaceUpdate ws).
Proof. change db with (λ w, id w.(db)). unfold publishWorkspaceUpdate. frame. Qed.

(** The number of a new build is above those of its workspace. *)
Lemma above_next b q prior :
  numbered q → match GetLatestWorkspaceBuildByWorkspaceID b.(WorkspaceBuild_WorkspaceID) q with
               | Ok p => prior = p.(WorkspaceBuild_BuildNumber)
               | _ => prior = 0
               end → b.(WorkspaceBuild_BuildNumber) = prior + 1 → above b q.
Proof.
  intros Hnum Hprior Hb. destruct (latest_build_spec b.(WorkspaceBuild_WorkspaceID) q (proj1 Hnum))
    as [(p & Hp & _)|[He Hno]].
  - rewrite Hp in Hprior. subst prior. by eapply above_latest.
  - rewrite He in Hprior. subst prior. split; [lia|]. intros b' Hb' Heq. destruct (Hno b' Hb' Heq).
Qed.

(** C8: a successful [POST /workspaces/{workspace}/builds] queues exactly one build.
    One build is added, of the workspace and with the requested transition,
    numbered one above the workspace's latest, and the build numbers stay unique;
    one job is added, waiting, whose input decodes (with the decoder the
    provisioner daemon's server uses) to that build. (No build has the last 32-bit
    number.) *)
Theorem postWorkspaceBuilds_queues (api : Options) (r : Request) (workspace : Workspace)
    (body : json_body CreateWorkspaceBuildRequest) (s s' : hstate)
    (Hnum : numbered s.(hs_world).(db))
    (Hmax : ∀ b, b ∈ s.(hs_world).(db).(workspaceBuilds) → b.(WorkspaceBuild_BuildNumber) < 2 ^ 31 - 1)
    (Hrun : succeeds (postWorkspaceBuilds api r workspace body) s s') :
  ∃ req b j,
    body = inr req ∧ b.(WorkspaceBuild_Transition) = req.(CreateWorkspaceBuildRequest_Transition) ∧
    b.(WorkspaceBuild_WorkspaceID) = workspace.(Workspace_ID) ∧ b.(WorkspaceBuild_JobID) = j.(ProvisionerJob_ID) ∧
    b.(WorkspaceBuild_BuildNumber) =
      match GetLatestWorkspaceBuildByWorkspaceID workspace.(Workspace_ID) s.(hs_world).(db) with
      | Ok p => p.(WorkspaceBuild_BuildNumber) + 1
      | _ => 1
      end ∧
    s'.(hs_world).(db).(workspaceBuilds) = s.(hs_world).(db).(workspaceBuilds) ++ [b] ∧
    s'.(hs_world).(db).(provisionerJobs) = s.(hs_world).(db).(provisionerJobs) ++ [j] ∧
    numbered s'.(hs_world).(db) ∧ Valid j.(ProvisionerJob_StartedAt) = false ∧
    unmarshal_WorkspaceProvisionJob j.(ProvisionerJob_Input) =
      Ok (mkWorkspaceProvisionJob b.(WorkspaceBuild_ID) false).
Proof.
  unfold postWorkspaceBuilds in Hrun.
  eapply succeeds_checks in Hrun as (key & t0 & _ & Ht0 & _ & Hrun); [|apply checks_get|reflexivity].
  next Hrun as req [Hbody _].
  eapply (succeeds_checks _ (λ _, True)) in Hrun as (action & t1 & _ & Ht1 & _ & Hrun);
    [|by destruct (CreateWorkspaceBuildRequest_Transition req)|eassumption].
  next Hrun as u0 _.
  eapply succeeds_checks in Hrun as (version & t2 & _ & Ht2 & _ & Hrun); [|apply build_version_checks|eassumption].
  next Hrun as template _.
  eapply succeeds_checks in Hrun as (state & t3 & _ & Ht3 & _ & Hrun); [|apply custom_state_checks|eassumption].
  next Hrun as versionJob _.
  eapply succeeds_checks in Hrun as (vj & t4 & _ & Ht4 & _ & Hrun);
    [|apply checks_run, preserves_convertProvisionerJob|eassumption].
  eapply succeeds_checks in Hrun as (u1 & t5 & _ & Ht5 & _ & Hrun); [|apply check_import_checks|eassumption].
  eapply succeeds_checks in Hrun as (prior & t6 & Hprior & Ht6 & _ & Hrun); [|apply prior_build_checks|eassumption].
  cbv beta in Hprior.
  apply succeeds_catch in Hrun as ([b j] & w1 & Hins & Hrun); [|intros ?; by apply refusing_reply|done].
  apply insert_build_run in Hins as (Hq & Hws & Hn & Hjob & Htrans & _ & Hwait & Hinput). simpl in Hws, Hn, Htrans.
  apply succeeds_keeps in Hrun; last first.
  { apply keeps_bind; [by apply keeps_catch|intros us]. apply keeps_bind; [|intros ab].
    { apply keeps_catch; [apply preserves_convertWorkspaceBuild|done]. }
    apply keeps_bind; [apply keeps_run, preserves_publishWorkspaceUpdate|done]. }
  simpl in Hrun. unfold queue in Hq. rewrite Ht6 in Hq. injection Hq as Hbuilds Hjobs.
  assert (0 <= prior.1 < 2 ^ 31 - 1) as Hbound.
  { destruct (latest_build_spec workspace.(Workspace_ID) s.(hs_world).(db) (proj1 Hnum)) as [(p & Hp & Hin & _)|[He _]];
      rewrite ?Hp, ?He in Hprior; rewrite Hprior; [|done]. split; [|by apply Hmax].
    by apply (proj1 (Forall_forall _ _) (proj1 Hnum)). }
  rewrite int32_wrap_small in Hn by lia.
  assert (above b s.(hs_world).(db)) as Habove by (apply (above_next _ _ prior.1); [done|by rewrite Hws|done]).
  exists req, b, j. split_and!; try done.
  - rewrite Hn. destruct (GetLatestWorkspaceBuildByWorkspaceID _ _); by rewrite Hprior.
  - by rewrite Hrun.
  - by rewrite Hrun.
  - pose proof (numbered_add _ _ Hnum Habove) as Hnum'. unfold numbered in *. rewrite Hrun, Hbuilds. exact Hnum'.
Qed.
End builds.

(** ** Audit entries *)

Section audit_entries.
Context `{!Environment, !Auditor, !AuditorLaws}.

(** What can be identified can be described. *)
Lemma ResourceID_described a id : ResourceID a = Ok id →
  (∃ t, audit_ResourceType a = Ok t) ∧ ∃ t, ResourceTarget a = Ok t.
Proof. destruct a; try done; intros _; split; by eexists. Qed.

Lemma either_ok {R} old new oldID newID (fn : Auditable → res R) :
  ResourceID old = Ok oldID → ResourceID new = Ok newID → oldID ≠ uuid_Nil ∨ newID ≠ uuid_Nil →
  either old new fn = fn (if newID != uuid_Nil then new else old).
Proof.
  intros Hold Hnew Hne. unfold either. rewrite Hnew. simpl. case_bool_decide as Hn; [|done]. simpl.
  rewrite Hold. simpl. rewrite bool_decide_eq_false_2; [done|]. by destruct Hne.
Qed.

Lemma gom_step {S A B} (m : GoM S A) (k : A → GoM S B) s a s' : m s = (Ok a, s') → (m ≫= k) s = k a s'.
Proof. intros Hm. unfold mbind, gom_bind. by rewrite Hm. Qed.

(** The entry a request commits. *)
Lemma commitAudit_run r action old new oldID newID status key rid w :
  ResourceID old = Ok oldID → ResourceID new = Ok newID → oldID ≠ uuid_Nil ∨ newID ≠ uuid_Nil →
  r.(context_APIKey) = Some key → r.(context_RequestID) = Some rid →
  (status < 400 → ∃ d, Diff old new = Ok d) → 0 <= status < 2 ^ 31 →
  ∃ alog w1, commitAudit r action (mkAuditRequest old new) status w = (Ok tt, (Export alog w1).2) ∧
    w1.(db) = w.(db) ∧ alog.(AuditLog_StatusCode) = status ∧ alog.(AuditLog_UserID) = key.(APIKey_UserID) ∧
    alog.(AuditLog_ResourceID) = (if newID != uuid_Nil then newID else oldID) ∧
    alog.(AuditLog_Action) = action ∧ alog.(AuditLog_RequestID) = rid ∧
    (400 <= status → alog.(AuditLog_Diff) = empty_object).
Proof.
  intros Hold Hnew Hne Hkey Hrid Hdiff Hst.
  assert (ResourceID (if newID != uuid_Nil then new else old) = Ok (if newID != uuid_Nil then newID else oldID)) as Hid
    by by destruct (negb _).
  destruct (ResourceID_described _ _ Hid) as [[ty Hty] [tgt Htgt]].
  assert (∃ diff, (400 <= status → diff = empty_object) ∧
    (if status <? 400 then d ← lift_res (S := world) (Diff old new); mret (default empty_object (marshal_diff d))
     else mret empty_object) w = (Ok diff, w)) as (diff & Hempty & Hrun).
  { destruct (Z.ltb_spec status 400) as [Hlt|Hge]; [|by exists empty_object].
    destruct (Hdiff Hlt) as [d Hd]. exists (default empty_object (marshal_diff d)). split; [lia|].
    unfold mbind, gom_bind, lift_res, mret, gom_ret. by rewrite Hd. }
  assert ((oldID == uuid_Nil) && (newID == uuid_Nil) = false) as Hb.
  { apply andb_false_iff. rewrite !bool_decide_eq_false. tauto. }
  unfold commitAudit. rewrite (gom_step _ _ _ oldID w) by (unfold lift_res; simpl; by rewrite Hold).
  rewrite (gom_step _ _ _ newID w) by (unfold lift_res; simpl; by rewrite Hnew).
  rewrite Hb, (gom_step _ _ _ diff w) by exact Hrun.
  cbn [Request_Old Request_New]. rewrite !(either_ok _ _ _ _ _ Hold Hnew Hne), Hid, Hty, Htgt.
  unfold httpmw_APIKey, RequestID. rewrite Hkey, Hrid.
  do 7 (erewrite gom_step; [|reflexivity]). rewrite void_run. unfold attempt.
  lazymatch goal with |- context [Export ?alog ?w1] =>
    exists alog, w1; pose proof (Export_no_panic alog w1) as Hnp; destruct (Export alog w1) as [[]] end;
    simpl in Hnp; [| |done]; (split_and!; try done; simpl; by apply int32_wrap_small; lia).
Qed.

(** C15: every response of an audited handler is recorded as it was sent. When the
    handler of a request that the middleware authenticated names a resource and
    answers with [p], the response is [p], the store is what the handler left, and
    the auditor is handed one entry: with the status of the response, the user of
    the key, the ID of the resource, the action and the request's ID, and with an
    empty diff when the response is an error. *)
Theorem InitRequest_audits (r : Request) (action : AuditAction) (zero : Auditable) (body : nat → Handler unit)
    (s s1 : hstate) (p : Reply) (old new : Auditable) (oldID newID : uuid) (key : APIKey) (rid : uuid)
    (Hbody : body (length s.(hs_audits)) (s <| hs_audits := s.(hs_audits) ++ [mkAuditRequest zero zero] |>) =
             (Ok (inl p), s1))
    (Hreq : s1.(hs_audits) !! length s.(hs_audits) = Some (mkAuditRequest old new))
    (Hold : ResourceID old = Ok oldID) (Hnew : ResourceID new = Ok newID)
    (Hne : oldID ≠ uuid_Nil ∨ newID ≠ uuid_Nil)
    (Hkey : r.(context_APIKey) = Some key) (Hrid : r.(context_RequestID) = Some rid)
    (Hdiff : p.(Reply_Status) < 400 → ∃ d, Diff old new = Ok d)
    (Hst : 0 <= p.(Reply_Status) < 2 ^ 31) :
  ∃ alog w1,
    InitRequest r action zero body s = (Ok (inl p), s1 <| hs_world := (Export alog w1).2 |>) ∧
    w1.(db) = s1.(hs_world).(db) ∧ alog.(AuditLog_StatusCode) = p.(Reply_Status) ∧
    alog.(AuditLog_UserID) = key.(APIKey_UserID) ∧
    alog.(AuditLog_ResourceID) = (if newID != uuid_Nil then newID else oldID) ∧
    alog.(AuditLog_Action) = action ∧ alog.(AuditLog_RequestID) = rid ∧
    (400 <= p.(Reply_Status) → alog.(AuditLog_Diff) = empty_object).
Proof.
  destruct (commitAudit_run r action old new oldID newID p.(Reply_Status) key rid s1.(hs_world))
    as (alog & w1 & Hrun & Hw1 & Hrest); try done.
  exists alog, w1. split; [|by split]. unfold InitRequest, on_world, zoom. cbv zeta.
  rewrite Hbody, Hreq. simpl. by rewrite Hrun.
Qed.
End audit_entries.

(** ** Times *)

(** The time to live that is stored. For a request in milliseconds that is not
    zero and fits the 64-bit nanoseconds of a duration, less than a minute is
    refused, a minute more than seven days is refused, and everything between is
    stored rounded down to whole minutes, whatever the template's default. *)
Theorem validWorkspaceTTLMillis_spec (m def : Z) (Hm : m ≠ 0)
    (Hrange : - 2 ^ 63 <= m * Millisecond < 2 ^ 63) :
  validWorkspaceTTLMillis (Some m) def =
    if m <? 60000 then Err errTTLMin
    else if 7 * 24 * 60 * 60000 + 60000 <=? m then Err errTTLMax
    else Ok (mkNull (m / 60000 * Minute) true).
Proof.
  unfold validWorkspaceTTLMillis, NilOrZero, int64_wrap, wrap_signed, Duration_Truncate. cbn [default from_option id].
  rewrite (proj2 (Z.eqb_neq m 0) Hm). rewrite Z.mod_small by lia.
  replace (m * Millisecond + 2 ^ (64 - 1) - 2 ^ (64 - 1)) with (m * Millisecond) by lia.
  change (Minute <=? 0) with false. cbv iota.
  change Millisecond with 1000000 in *. change Minute with (60000 * 1000000).
  rewrite Z.mul_rem_distr_r by lia. change ttlMin with (60000 * 1000000). change ttlMax with (10080 * (60000 * 1000000)).
  pose proof (Z.quot_rem m 60000). assert (m - Z.rem m 60000 = 60000 * Z.quot m 60000) as Ht by lia.
  replace (m * 1000000 - Z.rem m 60000 * 1000000) with (60000 * Z.quot m 60000 * 1000000) by lia.
  destruct (Z.ltb_spec m 60000) as [Hsmall|Hbig].
  - assert (Z.quot m 60000 <= 0).
    { destruct (Z.le_gt_cases 0 m); [rewrite Z.quot_small by lia; lia|].
      pose proof (Z.quot_opp_l (-m) 60000). rewrite Z.opp_involutive in *.
      pose proof (Z.quot_pos (-m) 60000). lia. }
    destruct (Z.ltb_spec (60000 * Z.quot m 60000 * 1000000) (60000 * 1000000)); [done|lia].
  - rewrite Z.quot_div_nonneg by lia. pose proof (Z.div_mod m 60000). pose proof (Z.mod_pos_bound m 60000).
    destruct (Z.ltb_spec (60000 * (m / 60000) * 1000000) (60000 * 1000000)); [lia|].
    destruct (Z.leb_spec (7 * 24 * 60 * 60000 + 60000) m);
      destruct (Z.ltb_spec (10080 * (60000 * 1000000)) (60000 * (m / 60000) * 1000000)); try lia; [done|].
    do 2 f_equal. lia.
Qed.

(** A request for far more than seven days whose nanoseconds wrap around. *)
Example validWorkspaceTTLMillis_wraps :
  validWorkspaceTTLMillis (Some (2 ^ 58 + 60000)) 0 = Ok (mkNull Minute true).
Proof. vm_compute. reflexivity. Qed.

Section extend.
Context `{!Environment, !UuidText, !Authorizer, !RFC3339, !Validate PutExtendWorkspaceRequest}.

(** An extension that reports success. *)
Lemma extend_deadline_run ws newDeadline w out w' :
  extend_deadline ws newDeadline w = (Ok out, w') → out.1 < 300 → numbered w.(db) →
  NoDup (WorkspaceBuild_ID <$> w.(db).(workspaceBuilds)) →
  ∃ pre b post job,
    w.(db).(workspaceBuilds) = pre ++ b :: post ∧ GetLatestWorkspaceBuildByWorkspaceID ws w.(db) = Ok b ∧
    w'.(db) = w.(db) <| workspaceBuilds := pre ++ b <| WorkspaceBuild_Deadline := newDeadline |> :: post |> ∧
    b.(WorkspaceBuild_Transition) = WorkspaceTransitionStart ∧ IsZero b.(WorkspaceBuild_Deadline) = false ∧
    GetProvisionerJobByID b.(WorkspaceBuild_JobID) w.(db) = Ok job ∧
    Valid job.(ProvisionerJob_CompletedAt) = true ∧
    clock w.(ticks) + 29 * Minute <= newDeadline ∧ null_val job.(ProvisionerJob_CompletedAt) <= newDeadline.
Proof.
  intros Hrun Hok Hnum Hids. unfold extend_deadline in Hrun.
  apply bind_ok in Hrun as (br & w1 & Hb & Hrun). unfold attempt, query in Hb.
  destruct (latest_build_spec ws w.(db) (proj1 Hnum)) as [(b & Hlatest & Hin & _)|[He _]];
    [rewrite Hlatest in Hb|rewrite He in Hb]; injection Hb as [= <- <-]; [|injection Hrun as [= <- _]; done].
  apply bind_ok in Hrun as (jr & w2 & Hj & Hrun). unfold attempt, query in Hj.
  destruct (GetProvisionerJobByID _ _) as [job|e|e] eqn:Hjob;
    [injection Hj as [= <- <-]|injection Hj as [= <- <-]; injection Hrun as [= <- _]; done|done].
  case_bool_decide as Hstart; [|injection Hrun as [= <- _]; done]. cbn [negb] in Hrun.
  destruct (Valid job.(ProvisionerJob_CompletedAt)) eqn:Hdone; [|injection Hrun as [= <- _]; done]. cbn [negb] in Hrun.
  destruct (IsZero _) eqn:Hzero; [injection Hrun as [= <- _]; done|].
  apply bind_ok in Hrun as (vr & w3 & Hv & Hrun).
  unfold attempt, validWorkspaceDeadline, time_Now, throw, mbind, gom_bind, mret, gom_ret in Hv. cbn in Hv.
  destruct (Before newDeadline _) eqn:Hsoon; [injection Hv as [= <- _]; injection Hrun as [= <- _]; done|].
  destruct (Before newDeadline _) eqn:Hstarted in Hv; [injection Hv as [= <- _]; injection Hrun as [= <- _]; done|].
  injection Hv as [= <- <-]. apply bind_ok in Hrun as (ur & w4 & Hup & Hrun).
  destruct (update_first_split WorkspaceBuild_ID (λ x,
      x <| WorkspaceBuild_UpdatedAt := b.(WorkspaceBuild_UpdatedAt) |>
        <| WorkspaceBuild_ProvisionerState := b.(WorkspaceBuild_ProvisionerState) |>
        <| WorkspaceBuild_Deadline := newDeadline |>) _ b Hids Hin) as (pre & post & Hl & Hfirst).
  exists pre, b, post, job. apply Z.ltb_ge in Hsoon, Hstarted. split_and!; try done.
  unfold attempt, store, zoom, UpdateWorkspaceBuildByID, update_row in Hup. cbn -[update_first] in Hup, Hfirst.
  lazymatch type of Hup with context [update_first ?P ?f ?l] =>
    replace (update_first P f l) with (Some (f b, pre ++ f b :: post)) in Hup by (symmetry; exact Hfirst) end.
  injection Hup as [= <- <-]. injection Hrun as [= _ <-]. by destruct b.
Qed.

Lemma authorize_state r action object status body s : (authorize r action object (reply status body) s).2 = s.
Proof. unfold authorize. rewrite h_bind_run. unfold get. by destruct (http_Authorize r action object) as [[]| |]. Qed.
Lemma Read_state {T} `{!Validate T} (body : json_body T) s : (Read body s).2 = s.
Proof. unfold Read. destruct body as [e|v]; [done|]. by destruct (validate_Struct v) as [[]|]. Qed.

(** Extending a deadline. When [PUT /workspaces/{workspace}/extend] succeeds, only
    the deadline of the workspace's latest build has changed: a completed start
    that had a deadline. The new one is the requested one, at least 29 minutes
    after the clock and not before the start was completed. *)
Theorem putExtendWorkspace_extends (r : Request) (workspace : Workspace)
    (body : json_body PutExtendWorkspaceRequest) (s s' : hstate)
    (Hnum : numbered s.(hs_world).(db))
    (Hids : NoDup (WorkspaceBuild_ID <$> s.(hs_world).(db).(workspaceBuilds)))
    (Hrun : succeeds (putExtendWorkspace r workspace body) s s') :
  ∃ req pre b post job,
    body = inr req ∧ s.(hs_world).(db).(workspaceBuilds) = pre ++ b :: post ∧
    GetLatestWorkspaceBuildByWorkspaceID workspace.(Workspace_ID) s.(hs_world).(db) = Ok b ∧
    s'.(hs_world).(db) = s.(hs_world).(db)
      <| workspaceBuilds := pre ++ b <| WorkspaceBuild_Deadline := req.(PutExtendWorkspaceRequest_Deadline) |> :: post |> ∧
    b.(WorkspaceBuild_Transition) = WorkspaceTransitionStart ∧ IsZero b.(WorkspaceBuild_Deadline) = false ∧
    GetProvisionerJobByID b.(WorkspaceBuild_JobID) s.(hs_world).(db) = Ok job ∧
    Valid job.(ProvisionerJob_CompletedAt) = true ∧
    clock s.(hs_world).(ticks) + 29 * Minute <= req.(PutExtendWorkspaceRequest_Deadline) ∧
    null_val job.(ProvisionerJob_CompletedAt) <= req.(PutExtendWorkspaceRequest_Deadline).
Proof.
  unfold putExtendWorkspace in Hrun.
  eapply succeeds_checks in Hrun as (u & s1 & _ & _ & Hs1 & Hrun); [|eauto with checks|reflexivity].
  apply (f_equal snd) in Hs1. unfold ResourceNotFound, Write in Hs1. rewrite authorize_state in Hs1. simpl in Hs1. subst s1.
  eapply succeeds_checks in Hrun as (req & s1 & Hbody & _ & Hs1 & Hrun); [|apply checks_Read|reflexivity].
  destruct Hbody as [Hbody _].
  apply (f_equal snd) in Hs1. rewrite Read_state in Hs1. simpl in Hs1. subst s1.
  destruct Hrun as (p & Hrun & Hp).
  rewrite h_bind_run in Hrun. unfold run, on_world, zoom in Hrun.
  destruct (extend_deadline _ _ _) as [[out|e|e] w1] eqn:Hext; [|done..]. simpl in Hrun.
  rewrite h_bind_run in Hrun. pose proof (preserves_publishWorkspaceUpdate workspace.(Workspace_ID) w1) as Hpub.
  unfold run, on_world, zoom in Hrun.
  lazymatch type of Hrun with context [publishWorkspaceUpdate _ ?w] => change w with w1 in Hrun end.
  destruct (publishWorkspaceUpdate _ w1) as [[[]|e|e] w2]; [|done..]. simpl in Hpub.
  injection Hrun as [= <- <-]. apply extend_deadline_run in Hext as (pre & b & post & job & Hl & Hb & Hw & Hrest);
    [|done..]. exists req, pre, b, post, job. split_and!; try done; [|apply Hrest..]. simpl. by rewrite Hpub.
Qed.
End extend.

(** ** Concrete requests *)

(** A request that is seen to succeed when it is run. *)
Lemma succeeds_run m s :
  match (m s).1 with Ok (inl p) => p.(Reply_Status) <? 300 | _ => false end = true → succeeds m s (m s).2.
Proof.
  intros Hrun. unfold succeeds. destruct (m s) as [[[p|[]]|e|e] s']; [|done..]. exists p. split; [done|].
  by apply Z.ltb_lt.
Qed.

Module ApiExamples.
Import Scenario.
#[local] Existing Instances text unary_uuid_text_laws env policy blank_rfc3339 nop nop_laws.
#[local] Existing Instances PasswordExamples.pad_key PasswordExamples.pad_key_laws.
#[local] Existing Instances EndpointExamples.accept_all EndpointExamples.no_nodes.

(** An owner makes the member a user admin. *)
Definition grant : Handler unit := putUserRoles by_owner member (inr (mkUpdateRoles [userAdmin])).
Lemma putUserRoles_no_escalation_witness :
  ∃ auth longRole, by_owner.(context_Authorization) = Some auth ∧ longRole ∈ auth.(Authorization_Roles) ∧
    roleSplit longRole = Ok (Rbac.owner, EmptyString).
Proof.
  destruct (putUserRoles_no_escalation by_owner member (inr (mkUpdateRoles [userAdmin])) s (grant s).2) with
    (u' := member <| User_RBACRoles := [userAdmin] |>) (role := userAdmin)
    as [(u & Hu & Hid & Hrole)|(auth & key & longRole & Hauth & _ & _ & Hlong & Hsplit)].
  - intros u [->|[->|[]%elem_of_nil]%elem_of_cons]%elem_of_cons; [discriminate|done].
  - apply succeeds_run. vm_compute. reflexivity.
  - vm_compute. right. left.
  - vm_compute. right. right. right. left.
  - by left.
  - exfalso. apply elem_of_cons in Hu as [->|[->|[]%elem_of_nil]%elem_of_cons]; [discriminate|].
    vm_compute in Hrole. by apply elem_of_cons in Hrole as [?|[]%elem_of_nil].
  - by exists auth, longRole.
Defined.

(** The owner resets the member's password. *)
Definition reset : Handler unit :=
  putUserPassword api by_owner member (inr (mkUpdateUserPasswordRequest EmptyString "correct horse battery")).
Lemma putUserPassword_revokes_witness : (reset s).2.(hs_world).(db).(apiKeys) = [owner_key].
Proof.
  destruct (putUserPassword_revokes api by_owner member
    (inr (mkUpdateUserPasswordRequest EmptyString "correct horse battery")) s (reset s).2)
    as (params & pre & old & post & hashed & _ & _ & _ & _ & _ & _ & Hkeys).
  - apply succeeds_run. vm_compute. reflexivity.
  - rewrite Hkeys. vm_compute. reflexivity.
Defined.

Lemma numbered_q : numbered q.
Proof. split; simpl; repeat constructor; [done|set_solver]. Qed.

(** The member stops the workspace. *)
Definition stop_request : CreateWorkspaceBuildRequest :=
  mkCreateWorkspaceBuildRequest uuid_Nil WorkspaceTransitionStop false None false [].
Definition stop : Handler unit := postWorkspaceBuilds api by_member workspace (inr stop_request).
Lemma postWorkspaceBuilds_queues_witness : ∃ b j,
  (stop s).2.(hs_world).(db).(workspaceBuilds) = [build; b] ∧ b.(WorkspaceBuild_BuildNumber) = 2 ∧
  unmarshal_WorkspaceProvisionJob j.(ProvisionerJob_Input) = Ok (mkWorkspaceProvisionJob b.(WorkspaceBuild_ID) false).
Proof.
  destruct (postWorkspaceBuilds_queues api by_member workspace (inr stop_request) s (stop s).2)
    as (req & b & j & _ & _ & _ & _ & Hn & Hb & _ & _ & _ & Hinput).
  - exact numbered_q.
  - intros b [->|[]%elem_of_nil]%elem_of_cons. vm_compute. reflexivity.
  - apply succeeds_run. vm_compute. reflexivity.
  - exists b, j. split; [exact Hb|]. split; [rewrite Hn; vm_compute; reflexivity|exact Hinput].
Defined.

(** The member asks for two more hours. *)
Definition later : time := unix_epoch + 4 * Hour.
Definition extend : Handler unit := putExtendWorkspace by_member workspace (inr (mkPutExtendWorkspaceRequest later)).
Lemma putExtendWorkspace_extends_witness :
  (extend s).2.(hs_world).(db).(workspaceBuilds) = [build <| WorkspaceBuild_Deadline := later |>].
Proof.
  destruct (putExtendWorkspace_extends by_member workspace (inr (mkPutExtendWorkspaceRequest later)) s (extend s).2)
    as (req & pre & b & post & job & Hreq & Hl & _ & Hs' & _).
  - exact numbered_q.
  - apply NoDup_singleton.
  - apply succeeds_run. vm_compute. reflexivity.
  - injection Hreq as [= <-]. change ([build] = pre ++ b :: post) in Hl. symmetry in Hl.
    apply app_eq_unit in Hl as [[-> Hl]|[_ Hl]]; [|discriminate Hl]. injection Hl as -> ->.
    rewrite Hs'. reflexivity.
Defined.

Lemma validWorkspaceTTLMillis_spec_witness :
  validWorkspaceTTLMillis (Some 5400500) 0 = Ok (mkNull (90 * Minute) true).
Proof. rewrite (validWorkspaceTTLMillis_spec 5400500 0); [vm_compute; reflexivity|done|done]. Defined.

(** The refused rename of a workspace is recorded as such. *)
Definition refuse_rename (aReq : nat) : Handler unit :=
  _ ← set_Old aReq (AuditWorkspace workspace); ResourceNotFound.
Lemma InitRequest_audits_witness : ∃ alog w1,
  InitRequest by_member AuditActionWrite (AuditWorkspace Workspace_zero) refuse_rename s =
    (Ok (inl (mkReply 404 (BodyResponse (message "Resource not found or you do not have access to this resource")))),
     (refuse_rename 0 (s <| hs_audits := [mkAuditRequest (AuditWorkspace Workspace_zero) (AuditWorkspace Workspace_zero)] |>)).2
       <| hs_world := (Export alog w1).2 |>) ∧
  alog.(AuditLog_StatusCode) = 404 ∧ alog.(AuditLog_Diff) = empty_object ∧ alog.(AuditLog_UserID) = 7%N.
Proof.
  destruct (InitRequest_audits by_member AuditActionWrite (AuditWorkspace Workspace_zero) refuse_rename s
    (refuse_rename 0 (s <| hs_audits := [mkAuditRequest (AuditWorkspace Workspace_zero) (AuditWorkspace Workspace_zero)] |>)).2
    (mkReply 404 (BodyResponse (message "Resource not found or you do not have access to this resource")))
    (AuditWorkspace workspace) (AuditWorkspace Workspace_zero) 3%N 0%N member_key 50%N)
    as (alog & w1 & Hrun & _ & Hst & Huser & _ & _ & _ & Hdiff); try reflexivity.
  - left. discriminate.
  - intros Hlt. vm_compute in Hlt. discriminate.
  - done.
  - exists alog, w1. split; [exact Hrun|]. split; [exact Hst|]. split; [apply Hdiff; done|exact Huser].
Defined.

(** ** Behaviours the requests do not promise *)

#[local] Existing Instances EndpointExamples.no_metrics EndpointExamples.no_hcl EndpointExamples.one_name.

Definition param : CreateParameterRequest :=
  mkCreateParameterRequest uuid_Nil "region" "eu" ParameterSourceSchemeData
    ParameterDestinationSchemeEnvironmentVariable.

(** The parameters of a new template are stored for no template. *)
Example postTemplate_parameters_lost :
  let '(result, s') := postTemplateByOrganization by_owner org
    (inr (mkCreateTemplateRequest "docker" EmptyString EmptyString EmptyString 4%N [param] None None)) s in
  (match result with Ok (inl p) => p.(Reply_Status) | _ => 0 end) = StatusCreated ∧
  ParameterValue_ScopeID <$> s'.(hs_world).(db).(parameterValues) = [uuid_Nil].
Proof. vm_compute. split; reflexivity. Qed.

(** A version is found by its name without a permission being asked for. *)
Example templateVersionByOrganizationAndName_open :
  let r := bare <| URLParams := {["templateversionname" := EmptyString]} |> in
  match (templateVersionByOrganizationAndName r org
           (s <| hs_world := w <| db := q <| templateVersions := [version <| TemplateVersion_CreatedBy := 7%N |>] |> |> |>)).1 with
  | Ok (inl p) => p.(Reply_Status)
  | _ => 0
  end = StatusOK.
Proof. vm_compute. reflexivity. Qed.

(** An orphaned build with another transition than delete panics. *)
Example postWorkspaceBuilds_orphan_panics :
  match (postWorkspaceBuilds api by_owner workspace
           (inr (mkCreateWorkspaceBuildRequest uuid_Nil WorkspaceTransitionStop false None true [])) s).1 with
  | Panic _ => True
  | _ => False
  end.
Proof. vm_compute. exact I. Qed.
End ApiExamples.
