(* ===== verification/EnterpriseProps.v ===== *)
(** * Properties of the enterprise API

    The access lists of templates stay well typed under every route of [endpoint], and
    an update of one does exactly what it asks. *)

From Stdlib Require Import Ascii.
From stdpp Require Import prelude gmap strings.
From S2P Require Import Prelude Encoding Cryptorand UserPassword Schedule Rbac Models Queries.
From S2P Require Import ModelMethods Store StoreUsers StoreOrgs StoreMisc StoreTemplates StoreJobs StoreWorkspaces World.
From S2P Require Import ProvisionerdProto ProvisionerdServer Autobuild AutobuildProps Auditing Sdk Http HttpMw Scenario HttpProps.
From S2P Require Import QueryParams Api ApiUsers ApiKeys ApiOrgs ApiMisc ApiJobs ApiBuilds ApiWorkspaces ApiTemplates.
From S2P Require Import ApiVersions License Enterprise Endpoints ApiProps.

Local Open Scope Z_scope.

(** ** Roles *)

(** The actions a role stands for. *)
Definition role_actions (actions : list string) : Prop := actions = [ActionRead] ∨ actions = [WildcardSymbol].
Definition acl_typed (acl : gmap string (list string)) : Prop := map_Forall (λ _, role_actions) acl.
Definition template_typed (t : Template) : Prop := acl_typed t.(Template_UserACL) ∧ acl_typed t.(Template_GroupACL).
(** Every access list of the store grants roles only. *)
Definition templates_typed (q : data) : Prop := Forall template_typed q.(templates).

(** ** Invariants of the templates under handlers *)

Section invariant.
Context (I : list Template → Prop).

(** The computation keeps the invariant of the table. *)
Definition keeps_templates {A} (m : GoM world A) : Prop := ∀ w, I w.(db).(templates) → I (m w).2.(db).(templates).
Definition handler_keeps {A} (m : Handler A) : Prop := ∀ s,
  I s.(hs_world).(db).(templates) → I (m s).2.(hs_world).(db).(templates).

Lemma kt_ret {A} (a : A) : keeps_templates (mret a).
Proof. by intros w. Qed.
Lemma kt_frame {A} (m : GoM world A) : preserves (λ w, w.(db).(templates)) m → keeps_templates m.
Proof. intros Hm w. by rewrite Hm. Qed.
Lemma kt_bind {A B} (m : GoM world A) (k : A → GoM world B) :
  keeps_templates m → (∀ a, keeps_templates (k a)) → keeps_templates (m ≫= k).
Proof.
  intros Hm Hk w Hw. specialize (Hm w Hw). unfold mbind, gom_bind.
  destruct (m w) as [[a|e|p] w1]; [by apply Hk|done..].
Qed.
Lemma kt_wrap {A} msg (m : GoM world A) : keeps_templates m → keeps_templates (wrap msg m).
Proof. intros Hm w Hw. specialize (Hm w Hw). unfold wrap. by destruct (m w) as [[]]. Qed.
Lemma kt_wrap_text {A} msg (m : GoM world A) : keeps_templates m → keeps_templates (wrap_text msg m).
Proof. intros Hm w Hw. specialize (Hm w Hw). unfold wrap_text. by destruct (m w) as [[]]. Qed.
Lemma kt_attempt {A} (m : GoM world A) : keeps_templates m → keeps_templates (attempt m).
Proof. intros Hm w Hw. specialize (Hm w Hw). unfold attempt. by destruct (m w) as [[]]. Qed.
Lemma kt_for_each {A} (l : list A) body :
  (∀ x, keeps_templates (body x)) → keeps_templates (for_each l body).
Proof. intros Hb. induction l as [|x l IH]; [by intros w|]. by apply kt_bind. Qed.
Lemma kt_store {A} (m : StoreM A) : (∀ q, I q.(templates) → I (m q).2.(templates)) → keeps_templates (store m).
Proof. intros Hm w Hw. specialize (Hm _ Hw). unfold store, zoom. by destruct (m w.(db)). Qed.

Lemma kt_mapM {A B} (f : A → GoM world B) l : (∀ x, keeps_templates (f x)) → keeps_templates (mapM f l).
Proof.
  intros Hf. induction l as [|x l IH]; [by intros w|]. simpl. apply kt_bind; [done|]. intros y.
  apply kt_bind; [done|]. intros k. apply kt_ret.
Qed.
Lemma hk_ret {A} (a : A) : handler_keeps (mret a).
Proof. by intros s. Qed.
Lemma hk_bind {A B} (m : Handler A) (k : A → Handler B) :
  handler_keeps m → (∀ a, handler_keeps (k a)) → handler_keeps (m ≫= k).
Proof.
  intros Hm Hk s Hs. specialize (Hm s Hs). rewrite h_bind_run.
  destruct (m s) as [[[p|a]|e|p] s1]; [done|by apply Hk|done..].
Qed.
Lemma hk_get {A} (r : res A) : handler_keeps (get r).
Proof. intros s. by destruct r. Qed.
Lemma hk_reply {A} status body : handler_keeps (reply (A := A) status body).
Proof. by intros s. Qed.
Lemma hk_require cond otherwise : handler_keeps otherwise → handler_keeps (require cond otherwise).
Proof. intros Hno. unfold require. destruct cond; [apply hk_ret|done]. Qed.
Lemma hk_Read {T} `{!Validate T} (body : json_body T) : handler_keeps (Read body).
Proof. intros s. unfold Read. destruct body as [e|v]; [done|]. by destruct (validate_Struct v) as [[]|]. Qed.
Lemma hk_attempt_h {A} (m : GoM world A) : keeps_templates m → handler_keeps (attempt_h m).
Proof. intros Hm s Hs. specialize (Hm _ Hs). unfold attempt_h, on_world, zoom. by destruct (m _) as [[]]. Qed.
Lemma hk_run {A} (m : GoM world A) : keeps_templates m → handler_keeps (run m).
Proof. intros Hm s Hs. specialize (Hm _ Hs). unfold run, on_world, zoom. by destruct (m _) as [[]]. Qed.
Lemma hk_catch {A} (m : GoM world A) handle :
  keeps_templates m → (∀ e, handler_keeps (handle e)) → handler_keeps (catch m handle).
Proof. intros Hm Hh. apply hk_bind; [by apply hk_attempt_h|]. intros [e|a]; [apply Hh|by intros s]. Qed.
Lemma hk_set_Old aReq a : handler_keeps (set_Old aReq a).
Proof. by intros s. Qed.
Lemma hk_set_New aReq a : handler_keeps (set_New aReq a).
Proof. by intros s. Qed.
Lemma hk_each {A} (l : list A) body : (∀ x, handler_keeps (body x)) → handler_keeps (each l body).
Proof. intros Hb. induction l as [|x l IH]; [by intros s|]. by apply hk_bind. Qed.
Lemma hk_authorize `{!Authorizer, !UuidText} r action object otherwise :
  handler_keeps otherwise → handler_keeps (authorize r action object otherwise).
Proof. intros Hno. apply hk_bind; [apply hk_get|]. intros ok. by apply hk_require. Qed.

Lemma hk_InitRequest `{!Environment, !Auditor, !AuditorLaws} r action zero body :
  (∀ aReq, handler_keeps (body aReq)) → handler_keeps (InitRequest r action zero body).
Proof.
  intros Hbody s Hs. unfold InitRequest, on_world, zoom. cbv zeta.
  lazymatch goal with |- context [body ?n ?s0] =>
    specialize (Hbody n s0 Hs); destruct (body n s0) as [result s1] end. simpl in Hbody.
  lazymatch goal with |- context [commitAudit ?r ?a ?q ?st s1.(hs_world)] =>
    pose proof (commitAudit_unaudited r a q st s1.(hs_world)) as Hc;
    destruct (commitAudit r a q st s1.(hs_world)) as [cres w2] end. simpl in Hc.
  assert (w2.(db).(templates) = s1.(hs_world).(db).(templates)) as Heq by exact (f_equal templates Hc).
  rewrite <-Heq in Hbody. by destruct cres.
Qed.

(** Steps whose outcome matters for what follows. *)
Lemma hk_run_query {A B} (f : data → res A) (k : A → Handler B) :
  (∀ a q, f q = Ok a → handler_keeps (k a)) → handler_keeps (run (query f) ≫= k).
Proof.
  intros Hk s Hs. rewrite h_bind_run. unfold run, on_world, zoom, query.
  destruct (f s.(hs_world).(db)) as [a|e|p] eqn:Hf; [by eapply Hk|done..].
Qed.
Lemma hk_require_write {B} cond status resp (k : unit → Handler B) :
  (cond = true → handler_keeps (k tt)) → handler_keeps (require cond (Write status resp) ≫= k).
Proof. intros Hk. unfold require. destruct cond; [intros s; by apply Hk|by intros s]. Qed.

(** Handlers that see the hooks. *)
Definition ehandler_keeps {A} (m : EHandler A) : Prop := ∀ s,
  I s.1.(hs_world).(db).(templates) → I (m s).2.1.(hs_world).(db).(templates).
Lemma ek_bind {A B} (m : EHandler A) (k : A → EHandler B) :
  ehandler_keeps m → (∀ a, ehandler_keeps (k a)) → ehandler_keeps (m ≫= k).
Proof.
  intros Hm Hk s Hs. specialize (Hm s Hs). unfold mbind, EH_bind.
  destruct (m s) as [[[p|a]|e|p] s1]; [done|by apply Hk|done..].
Qed.
Lemma ek_plainly {A} (m : Handler A) : handler_keeps m → ehandler_keeps (plainly m).
Proof. intros Hm [h a] Hs. specialize (Hm h Hs). unfold plainly, zoom. simpl. by destruct (m h). Qed.
Lemma ek_update `{!Environment, !Jwt} o all ha_error : ehandler_keeps (update_or_fail o all ha_error).
Proof.
  intros [h a] Hs. unfold update_or_fail, updateEntitlements, plainly, zoom. simpl.
  assert (keeps_templates (license_Entitlements (Z.of_nat (length all)) o.(GitAuthConfigs) o.(Keys) (enablements o)))
    as Hkeep by (apply kt_frame; unfold license_Entitlements; frame).
  specialize (Hkeep h.(hs_world) Hs). by destruct (license_Entitlements _ _ _ _ _) as [[]].
Qed.
Lemma hk_with_hooks hooks m : ehandler_keeps m → handler_keeps (with_hooks hooks m).
Proof. intros Hm s Hs. specialize (Hm (s, hooks) Hs). unfold with_hooks. by destruct (m (s, hooks)). Qed.

Lemma hk_query_tags raw tags : handler_keeps (query_tags raw tags).
Proof.
  revert tags. induction raw as [|tag raw IH]; intros tags; [by intros s|]. simpl.
  by destruct (SplitN 2 tag _) as [|key [|value l]]; [by intros s..|].
Qed.
Lemma hk_query_provisioners raw seen : handler_keeps (query_provisioners raw seen).
Proof.
  revert seen. induction raw as [|p raw IH]; intros seen; [by intros s|]. simpl.
  case_bool_decide; [apply IH|]. case_bool_decide; [apply IH|by intros s].
Qed.
End invariant.

(** A store method of another table. *)
Lemma kt_other {A} I (m : StoreM A) : preserves templates m → keeps_templates I (store m).
Proof. intros Hm. apply kt_store. intros q. by rewrite Hm. Qed.

(** The methods that change one table, with the table they change. *)
Ltac other_table :=
  apply kt_other; let q := fresh in intros q;
  repeat (lazymatch goal with
    | |- context [@insert_row] => unfold insert_row
    | |- context [@update_row] => unfold update_row
    | |- context [@swap_delete_row] => unfold swap_delete_row
    | |- context [@shift_delete_row] => unfold shift_delete_row
    | |- context [@range_delete_rows] => unfold range_delete_rows
    | |- context [@void] => unfold void
    | |- templates (?m _).2 = _ => let h := get_head m in unfold h
    end; unfold mbind, gom_bind; cbv beta zeta);
  repeat (case_match; simplify_eq/=); done.

Create HintDb templates.

(** One step through a computation. *)
Ltac keep_step :=
  lazymatch goal with
  | |- ∀ _, _ => intros ?
  | |- let _ := _ in _ => cbv zeta
  | |- keeps_templates _ (mret _) => apply kt_ret
  | |- keeps_templates _ (_ ≫= _) => apply kt_bind
  | |- keeps_templates _ (wrap _ _) => apply kt_wrap
  | |- keeps_templates _ (wrap_text _ _) => apply kt_wrap_text
  | |- keeps_templates _ (attempt _) => apply kt_attempt
  | |- keeps_templates _ (for_each _ _) => apply kt_for_each
  | |- keeps_templates _ (mapM _ _) => apply kt_mapM
  | |- keeps_templates _ (λ _, _) => intros ? ?; repeat (case_match; simplify_eq/=); done
  | |- keeps_templates _ (store _) => first [solve [apply kt_other; frame] | solve [eauto with templates] | solve [other_table]]
  | |- keeps_templates _ (match ?x with _ => _ end) => destruct x
  | |- keeps_templates _ ?m =>
      first [solve [apply kt_frame; frame] | solve [eauto with templates] | let h := get_head m in unfold h; cbv beta zeta]
  | |- handler_keeps _ (mret _) => apply hk_ret
  | |- handler_keeps _ (_ ≫= _) => apply hk_bind
  | |- handler_keeps _ (reply _ _) => apply hk_reply
  | |- handler_keeps _ (get _) => apply hk_get
  | |- handler_keeps _ (Read _) => apply hk_Read
  | |- handler_keeps _ (require _ _) => apply hk_require
  | |- handler_keeps _ (authorize _ _ _ _) => apply hk_authorize
  | |- handler_keeps _ (attempt_h _) => apply hk_attempt_h
  | |- handler_keeps _ (run _) => apply hk_run
  | |- handler_keeps _ (catch _ _) => apply hk_catch
  | |- handler_keeps _ (set_Old _ _) => apply hk_set_Old
  | |- handler_keeps _ (set_New _ _) => apply hk_set_New
  | |- handler_keeps _ (query_tags _ _) => apply hk_query_tags
  | |- handler_keeps _ (query_provisioners _ _) => apply hk_query_provisioners
  | |- handler_keeps _ (with_hooks _ _) => apply hk_with_hooks
  | |- ehandler_keeps _ (_ ≫= _) => apply ek_bind
  | |- ehandler_keeps _ (plainly _) => apply ek_plainly
  | |- ehandler_keeps _ (update_or_fail _ _ _) => apply ek_update
  | |- ehandler_keeps _ ?m => let h := get_head m in unfold h
  | |- handler_keeps _ (SetCookie _) => intros ?; done
  | |- handler_keeps _ (each _ _) => apply hk_each
  | |- handler_keeps _ (InitRequest _ _ _ _) => apply hk_InitRequest; [typeclasses eauto|]
  | |- handler_keeps _ (match ?x with _ => _ end) => destruct x
  | |- handler_keeps _ ?m => first [solve [eauto with templates] | let h := get_head m in unfold h; cbv beta zeta]
  end.
Ltac keep := repeat keep_step.

(** ** Roles and access lists *)

Lemma role_round_trip role actions :
  convertSDKTemplateRole role = Some actions → role_actions actions ∧ convertToTemplateRole actions = role.
Proof. destruct role; intros [= <-]; (split; [by (left + right)|done]). Qed.

(** A role a request may ask for. *)
Definition role_ok (role : TemplateRole) : Prop :=
  match role with TemplateRole_other _ => False | _ => True end.
Lemma validateTemplateRole_ok role : validateTemplateRole role = None → role_ok role.
Proof. by destruct role. Qed.

Lemma foldl_perms l (acl : gmap string (list string)) id :
  NoDup l.*1 →
  foldl (λ acl '(id, role), if role == TemplateRoleDeleted then delete id acl
    else <[id := default [] (convertSDKTemplateRole role)]> acl) acl l !! id =
  match (list_to_map l : gmap string TemplateRole) !! id with
  | None => acl !! id
  | Some role => if role == TemplateRoleDeleted then None else Some (default [] (convertSDKTemplateRole role))
  end.
Proof.
  revert acl. induction l as [|[k role] l IH]; intros acl; [done|].
  cbn [foldl fmap list_fmap fst]. intros [Hk Hl]%NoDup_cons. rewrite IH by done. simpl.
  destruct (decide (k = id)) as [->|Hne].
  - rewrite lookup_insert_eq, (not_elem_of_list_to_map_1 l id) by done.
    case_bool_decide; [by rewrite lookup_delete_eq|by rewrite lookup_insert_eq].
  - rewrite (lookup_insert_ne _ k) by done. destruct (_ !! id); [done|].
    case_bool_decide; [by rewrite lookup_delete_ne|by rewrite lookup_insert_ne].
Qed.
(** What an update makes of an entry. *)
Lemma apply_perms_lookup perms acl id :
  apply_perms perms acl !! id =
  match perms !! id with
  | None => acl !! id
  | Some role => if role == TemplateRoleDeleted then None else Some (default [] (convertSDKTemplateRole role))
  end.
Proof. unfold apply_perms. rewrite foldl_perms by apply NoDup_fst_map_to_list. by rewrite list_to_map_to_list. Qed.

Lemma apply_perms_typed perms acl :
  map_Forall (λ _, role_ok) perms → acl_typed acl → acl_typed (apply_perms perms acl).
Proof.
  intros Hperms Hacl id actions. rewrite apply_perms_lookup. destruct (perms !! id) as [role|] eqn:Hrole; [|apply Hacl].
  specialize (Hperms _ _ Hrole). case_bool_decide; [done|]. intros [= <-].
  destruct (convertSDKTemplateRole role) as [actions|] eqn:Hconv; [by apply role_round_trip in Hconv as []|].
  by destruct role.
Qed.

Lemma valid_perms `{!UuidText} perms field isUser q :
  validateTemplateACLPerms perms field isUser q = [] → map_Forall (λ _, role_ok) perms.
Proof.
  intros Hnone id role Hrole. apply validateTemplateRole_ok.
  destruct (validateTemplateRole role) as [err|] eqn:Herr; [|done]. exfalso.
  assert (mkValidationError field (error_string err) ∈ validateTemplateACLPerms perms field isUser q) as Hin.
  { unfold validateTemplateACLPerms. apply list_elem_of_bind. exists (id, role). split; [|by apply elem_of_map_to_list].
    simpl. rewrite Herr. by apply list_elem_of_singleton. }
  rewrite Hnone in Hin. by apply elem_of_nil in Hin.
Qed.

Lemma void_state {S A} (m : GoM S A) s : (void m s).2 = (m s).2.
Proof. unfold void, mbind, gom_bind. by destruct (m s) as [[]]. Qed.
Lemma kt_update_template {A} P (f : Template → Template) (m : StoreM A) :
  (∀ q, (m q).2 = (update_row templates P f q).2) → (∀ t, template_typed t → template_typed (f t)) →
  keeps_templates (Forall template_typed) (store m).
Proof.
  intros Hm Hf. apply kt_store. intros q Hq. rewrite Hm. unfold update_row.
  destruct (update_first P f q.(templates)) as [[t l]|] eqn:Hup; [|done]. simpl.
  revert t l Hup Hq. generalize q.(templates). intros l0. induction l0 as [|t0 l0 IH]; intros t l; simpl; [done|].
  destruct (P t0); [intros [= <- <-] [? ?]%Forall_cons; auto|].
  destruct (update_first P f l0) as [[t1 l1]|]; [|done]. intros [= <- <-] [? ?]%Forall_cons. eauto.
Qed.


Section typed.
Context `{!Environment, !UuidText, !Authorizer, !Auditor, !AuditorLaws}.
Context `{!Pbkdf2, !Sha256, !SSHKeygen, !Cron, !Tailnet, !RFC3339, !MetricsCache, !NamesGenerator, !Hcl}.
Context `{!Validate CreateUserRequest, !Validate UpdateUserProfileRequest}.
Context `{!Validate UpdateUserPasswordRequest, !Validate UpdateRoles, !Validate CreateTokenRequest}.
Context `{!Validate CreateOrganizationRequest, !Validate CreateParameterRequest}.
Context `{!Validate CreateWorkspaceBuildRequest, !Validate CreateWorkspaceRequest}.
Context `{!Validate UpdateWorkspaceRequest, !Validate UpdateWorkspaceAutostartRequest}.
Context `{!Validate UpdateWorkspaceTTLRequest, !Validate PutExtendWorkspaceRequest}.
Context `{!Validate CreateTemplateRequest, !Validate UpdateTemplateMeta}.
Context `{!Validate CreateTemplateVersionDryRunRequest, !Validate UpdateActiveTemplateVersion}.
Context `{!Validate CreateTemplateVersionRequest}.
Context `{!Validate CreateGroupRequest, !Validate PatchGroupRequest, !Validate UpdateTemplateACL}.
Context `{!Jwt, !Validate AddLicenseRequest}.
Context (api : Options) (encode : list ParameterValue → json) (decode : json → res (list ParameterValue)).
Context (o : EnterpriseOptions) (hooks : EnterpriseAPI) (all : list Replica) (ha_error accept : option error).

Lemma postTemplate_typed r organization body :
  handler_keeps (Forall template_typed) (postTemplateByOrganization r organization body).
Proof.
  keep. apply kt_store. intros q Hq. apply Forall_app_2; [done|]. apply Forall_singleton.
  split; [apply map_Forall_empty|]. apply map_Forall_singleton. by left.
Qed.
Lemma deleteTemplate_typed r template : handler_keeps (Forall template_typed) (deleteTemplate r template).
Proof. keep. eapply kt_update_template; [intros q; first [apply void_state|reflexivity]|done]. Qed.
Lemma patchTemplateMeta_typed r template body :
  handler_keeps (Forall template_typed) (patchTemplateMeta r template body).
Proof. keep. eapply kt_update_template; [intros q; first [apply void_state|reflexivity]|done]. Qed.
Lemma patchActiveTemplateVersion_typed r template body :
  handler_keeps (Forall template_typed) (patchActiveTemplateVersion r template body).
Proof. keep. eapply kt_update_template; [intros q; first [apply void_state|reflexivity]|done]. Qed.
Lemma GetTemplateByID_typed id q t :
  Forall template_typed q.(templates) → GetTemplateByID id q = Ok t → template_typed t.
Proof.
  unfold GetTemplateByID, first_row. intros Hall.
  destruct (find_first_spec (λ t, t.(Template_ID) == id) q.(templates))
    as [(pre & t' & post & Hq & _ & _ & ->)|[_ ->]]; [|done].
  intros [= ->]. rewrite Hq in Hall. by apply Forall_app in Hall as [_ [? _]%Forall_cons].
Qed.
Lemma update_acl_typed id req :
  map_Forall (λ _, role_ok) req.(UpdateTemplateACL_UserPerms) →
  map_Forall (λ _, role_ok) req.(UpdateTemplateACL_GroupPerms) →
  keeps_templates (Forall template_typed) (update_acl id req).
Proof.
  intros Hu Hg w Hw. unfold update_acl. unfold mbind at 1, gom_bind at 1, wrap at 1, query.
  destruct (GetTemplateByID id w.(db)) as [t|e|p] eqn:Ht; [|done..].
  destruct (GetTemplateByID_typed _ _ _ Hw Ht) as [HU HG].
  revert w Hw Ht. intros w Hw _. revert w Hw. apply kt_wrap. eapply kt_update_template; [intros q; reflexivity|].
  intros t' _. split; by apply apply_perms_typed.
Qed.
Lemma patchTemplateACL_typed r template body :
  handler_keeps (Forall template_typed) (patchTemplateACL r template body).
Proof.
  unfold patchTemplateACL. apply hk_InitRequest; [typeclasses eauto|]. intros aReq.
  do 3 (apply hk_bind; [keep|intros ?]).
  apply hk_run_query. intros userErrs q1 [= <-]. apply hk_run_query. intros groupErrs q2 [= <-]. cbv zeta.
  apply hk_require_write. intros [Hu Hg]%bool_decide_eq_true_1%nil_length_inv%app_nil.
  apply hk_bind; [apply hk_catch|]; [|keep|keep]. apply update_acl_typed; by eapply valid_perms.
Qed.

(** C30: The access lists of templates stay well typed. If every entry of the lists of
    every template is the actions of a role, a request of any of the routes of
    [endpoint], whatever its outcome, leaves it so. These are the routes for users, keys,
    organizations, files, parameters, templates, workspaces, builds, groups, access lists,
    licenses and daemons that a signed-in user writes with; the first user, logins, SCIM
    and the agents have routes of their own that are not among them. *)
Theorem access_lists_typed e r s :
  templates_typed s.(hs_world).(db) →
  templates_typed (handle api encode decode o hooks all ha_error accept e r s).2.(hs_world).(db).
Proof.
  revert s. change (handler_keeps (Forall template_typed) (handle api encode decode o hooks all ha_error accept e r)).
  destruct e; simpl; eauto using postTemplate_typed, deleteTemplate_typed, patchTemplateMeta_typed,
    patchActiveTemplateVersion_typed, patchTemplateACL_typed; keep.
Qed.
End typed.

(** ** What an update of an access list does *)

(** The role an access list shows for an ID. *)
Definition shown_role (acl : gmap string (list string)) (id : string) : TemplateRole :=
  match acl !! id with Some actions => convertToTemplateRole actions | None => TemplateRoleDeleted end.

(** The roles after an update: those asked for, and the old ones otherwise. *)
Definition updated_roles (perms : gmap string TemplateRole) (old new : gmap string (list string)) : Prop :=
  ∀ id, shown_role new id = match perms !! id with Some role => role | None => shown_role old id end.

Lemma apply_perms_shown perms acl :
  map_Forall (λ _, role_ok) perms → updated_roles perms acl (apply_perms perms acl).
Proof.
  intros Hperms id. unfold shown_role. rewrite apply_perms_lookup. destruct (perms !! id) as [role|] eqn:Hrole; [|done].
  specialize (Hperms _ _ Hrole). by destruct role.
Qed.

Lemma checks_run_query {A} q (f : data → res A) : checks q (λ a, f q = Ok a) (run (query f)).
Proof. intros s Hs. unfold run, on_world, zoom, query. rewrite Hs. by destruct (f q). Qed.
#[export] Hint Resolve checks_run_query : checks.

Section exact.
Context `{!Environment, !UuidText, !Authorizer, !Auditor, !AuditorLaws, !Validate UpdateTemplateACL}.

(** The transaction replaces one row. *)
Lemma update_acl_run id req w t' w' :
  update_acl id req w = (Ok t', w') →
  ∃ pre t post, w.(db).(templates) = pre ++ t :: post ∧ t.(Template_ID) = id ∧
    Forall (λ t, t.(Template_ID) ≠ id) pre ∧
    t' = t <| Template_GroupACL := apply_perms req.(UpdateTemplateACL_GroupPerms) t.(Template_GroupACL) |>
           <| Template_UserACL := apply_perms req.(UpdateTemplateACL_UserPerms) t.(Template_UserACL) |> ∧
    w' = w <| db := w.(db) <| templates := pre ++ t' :: post |> |>.
Proof.
  unfold update_acl, mbind, gom_bind, wrap, query, GetTemplateByID, first_row, store, zoom, UpdateTemplateACLByID, update_row.
  destruct (find_first_spec (λ t, t.(Template_ID) == id) w.(db).(templates))
    as [(pre & t & post & Hq & Hpre & Hid & ->)|[_ ->]]; [|done].
  simpl. apply bool_decide_eq_true_1 in Hid as Heq. rewrite Heq.
  lazymatch goal with |- context [update_first ?P ?f _] => rewrite Hq, (update_first_app P f pre t post Hpre Hid) end.
  intros [= <- <-]. exists pre, t, post. split_and!; [done..| |done|done].
  eapply Forall_impl; [exact Hpre|]. cbv beta. by intros ? ?%bool_decide_eq_false_1.
Qed.

(** An update of a template's access lists that succeeds gives every user and
    every group in the request the role asked for, takes away the entries asked to
    be deleted, leaves the other entries as they were, and changes nothing else in the
    store but the audit log. *)
Theorem acl_update_exact r template req s s' :
  succeeds (patchTemplateACL r template (inr req)) s s' →
  ∃ pre t t' post,
    s.(hs_world).(db).(templates) = pre ++ t :: post ∧ t.(Template_ID) = template.(Template_ID) ∧
    Forall (λ t, t.(Template_ID) ≠ template.(Template_ID)) pre ∧
    unaudited s' = (unaudited s) <| templates := pre ++ t' :: post |> ∧
    t' = t <| Template_UserACL := t'.(Template_UserACL) |> <| Template_GroupACL := t'.(Template_GroupACL) |> ∧
    updated_roles req.(UpdateTemplateACL_UserPerms) t.(Template_UserACL) t'.(Template_UserACL) ∧
    updated_roles req.(UpdateTemplateACL_GroupPerms) t.(Template_GroupACL) t'.(Template_GroupACL).
Proof.
  intros Hrun. unfold patchTemplateACL in Hrun.
  apply succeeds_InitRequest in Hrun as (aReq & s0 & s1 & Hw & Hrun & ->).
  assert (s0.(hs_world).(db) = s.(hs_world).(db)) as Hs0 by by rewrite Hw.
  next Hrun as [] _. next Hrun as [] _. next Hrun as req' [[= <-] _].
  next Hrun as userErrs [= Hu]. next Hrun as groupErrs [= Hg]. subst userErrs groupErrs. cbv zeta in Hrun.
  next Hrun as [] Hlen. apply bool_decide_eq_true_1, nil_length_inv, app_nil in Hlen as [Hu Hg].
  apply succeeds_catch in Hrun as (t' & w1 & Hup & Hrun); [|by intros; apply refusing_reply|done].
  apply update_acl_run in Hup as (pre & t & post & Hq & Hid & Hpre & Ht' & ->).
  eapply succeeds_keeps in Hrun as Hdb; [|by intros ?].
  exists pre, t, t', post. split_and!; [congruence|done|done| |by rewrite Ht'|..].
  - unfold unaudited. rewrite Hdb. simpl.
    lazymatch goal with |- (db (hs_world ?s7)) <| templates := _ |> <| auditLogs := _ |> = _ =>
      replace (db (hs_world s7)) with (db (hs_world s)) by congruence end. done.
  - rewrite Ht'. by eapply apply_perms_shown, valid_perms.
  - rewrite Ht'. by eapply apply_perms_shown, valid_perms.
Qed.
End exact.

(** ** A concrete update *)

Module AclExamples.
Import Scenario.
#[local] Existing Instances text env policy identity_hash blank_rfc3339 nop nop_laws.
#[local] Existing Instances PasswordExamples.pad_key ScheduleExamples.daily.
#[local] Existing Instances EndpointExamples.accept_all EndpointExamples.no_keys EndpointExamples.no_nodes.
#[local] Existing Instances EndpointExamples.no_metrics EndpointExamples.one_name EndpointExamples.no_hcl.
#[local] Existing Instances EndpointExamples.no_jwt.

(** The owner lets the member administer the template. *)
Definition promote : UpdateTemplateACL := mkUpdateTemplateACL {[uuid_String 7%N := TemplateRoleAdmin]} ∅.
Definition promoted : res (Reply + unit) * hstate := patchTemplateACL by_owner template (inr promote) s.

Lemma access_lists_typed_witness :
  templates_typed (handle api (λ _, JNull) (λ _, Ok []) EndpointExamples.options EnterpriseAPI_New [] None None
    (PatchACL template (inr promote)) by_owner s).2.(hs_world).(db).
Proof.
  apply (access_lists_typed api (λ _, JNull) (λ _, Ok []) EndpointExamples.options EnterpriseAPI_New [] None None
    (PatchACL template (inr promote)) by_owner s).
  apply Forall_singleton. split; apply map_Forall_empty.
Defined.

Lemma acl_update_exact_witness : ∃ pre t t' post,
  s.(hs_world).(db).(templates) = pre ++ t :: post ∧ t.(Template_ID) = 8%N ∧
  shown_role t'.(Template_UserACL) (uuid_String 7%N) = TemplateRoleAdmin.
Proof.
  destruct (acl_update_exact by_owner template promote s promoted.2) as (pre & t & t' & post & Hq & Hid & _ & _ & _ & Hroles & _).
  - exists (mkReply StatusOK (BodyResponse (message "Successfully updated template ACL list."))).
    split; by vm_compute.
  - exists pre, t, t', post. split_and!; [exact Hq|exact Hid|]. by rewrite Hroles.
Defined.
End AclExamples.
