(* ===== verification/QuotaProps.v ===== *)
(** * Properties of quotas and of the server's hooks

    A build's cost is committed exactly when the owner's budget allows, or the
    previous build cost more, and then it is what the owner's consumption grows by;
    the builds that the code permits otherwise are an example.
    The hooks of the enterprise server follow the entitlements. *)

From stdpp Require Import prelude gmap strings.
From S2P Require Import Prelude Encoding Rbac Models Queries ModelMethods Store StoreUsers StoreOrgs StoreMisc.
From S2P Require Import StoreJobs StoreTemplates StoreWorkspaces World ProvisionerdProto ProvisionerdServer.
From S2P Require Import Autobuild AutobuildProps Auditing Sdk License LicenseProps Http HttpMw Api ApiUsers ApiTemplates.
From S2P Require Import Scenario HttpProps Enterprise.

Local Open Scope Z_scope.

(** ** Quotas *)

Lemma int64_wrap_add a b : int64_wrap (int64_wrap a + b) = int64_wrap (a + b).
Proof.
  unfold int64_wrap, wrap_signed. f_equal.
  replace ((a + 2 ^ (64 - 1)) mod 2 ^ 64 - 2 ^ (64 - 1) + b + 2 ^ (64 - 1)) with ((a + 2 ^ (64 - 1)) mod 2 ^ 64 + b) by lia.
  rewrite Zplus_mod_idemp_l. f_equal. lia.
Qed.

Lemma sum_int64_wrap l : sum_int64 l = int64_wrap (foldr Z.add 0 l).
Proof.
  enough (∀ acc, foldl (λ sum x, int64_wrap (sum + x)) (int64_wrap acc) l = int64_wrap (acc + foldr Z.add 0 l))
    as Hsum by exact (Hsum 0).
  induction l as [|x l IH]; intros acc; simpl; [by rewrite Z.add_0_r|].
  rewrite int64_wrap_add, IH. f_equal. lia.
Qed.
Lemma sum_app l1 l2 : foldr Z.add 0 (l1 ++ l2) = foldr Z.add 0 l1 + foldr Z.add 0 l2.
Proof. induction l1 as [|x l1 IH]; simpl; [done|]. rewrite IH. lia. Qed.

Section last_created.
Context (workspaceID : uuid).

(** One round of the loop of [last_created_build]. *)
Definition later (last build : WorkspaceBuild) : WorkspaceBuild :=
  if build.(WorkspaceBuild_WorkspaceID) != workspaceID then last
  else if After build.(WorkspaceBuild_CreatedAt) last.(WorkspaceBuild_CreatedAt) then build else last.
(** Another build of the workspace is older. *)
Definition older (t : time) (x : WorkspaceBuild) : Prop :=
  x.(WorkspaceBuild_WorkspaceID) = workspaceID → x.(WorkspaceBuild_CreatedAt) < t.

Lemma later_before t l acc :
  Forall (older t) l → acc.(WorkspaceBuild_CreatedAt) < t → (foldl later acc l).(WorkspaceBuild_CreatedAt) < t.
Proof.
  intros Hl. revert acc. induction Hl as [|x l Hx _ IH]; intros acc Hacc; [done|]. cbn [foldl]. apply IH.
  unfold later. case_bool_decide as Hws; simpl; [|done]. destruct (After _ _); auto.
Qed.
Lemma later_stays l acc : Forall (older acc.(WorkspaceBuild_CreatedAt)) l → foldl later acc l = acc.
Proof.
  induction 1 as [|x l Hx _ IH]; [done|]. cbn [foldl]. enough (later acc x = acc) as -> by done.
  unfold later. case_bool_decide as Hws; simpl; [|done]. specialize (Hx Hws). unfold After.
  by destruct (Z.ltb_spec acc.(WorkspaceBuild_CreatedAt) x.(WorkspaceBuild_CreatedAt)); [lia|].
Qed.
Lemma later_newest pre b post :
  b.(WorkspaceBuild_WorkspaceID) = workspaceID → 0 < b.(WorkspaceBuild_CreatedAt) →
  Forall (older b.(WorkspaceBuild_CreatedAt)) (pre ++ post) →
  foldl later WorkspaceBuild_zero (pre ++ b :: post) = b.
Proof.
  intros Hws H0 [Hpre Hpost]%Forall_app. rewrite foldl_app. cbn [foldl].
  pose proof (later_before _ _ WorkspaceBuild_zero Hpre H0) as Hlt.
  enough (later (foldl later WorkspaceBuild_zero pre) b = b) as -> by by apply later_stays.
  unfold later at 1. rewrite Hws, (bool_decide_eq_true_2 (_ = _)) by done. unfold After. simpl.
  by destruct (Z.ltb_spec (foldl later WorkspaceBuild_zero pre).(WorkspaceBuild_CreatedAt) b.(WorkspaceBuild_CreatedAt)); [|lia].
Qed.
Lemma later_other pre b b' post acc :
  b.(WorkspaceBuild_WorkspaceID) ≠ workspaceID →
  b'.(WorkspaceBuild_WorkspaceID) = b.(WorkspaceBuild_WorkspaceID) →
  foldl later acc (pre ++ b' :: post) = foldl later acc (pre ++ b :: post).
Proof.
  intros Hne Heq. rewrite !foldl_app. cbn [foldl]. unfold later at 2 5. rewrite Heq.
  by rewrite (bool_decide_eq_false_2 (_ = _)).
Qed.
End last_created.

(** What a workspace adds to the consumption of a user. *)
Definition contribution (userID : uuid) (q : data) (workspace : Workspace) : list Z :=
  if workspace.(Workspace_OwnerID) != userID then []
  else if workspace.(Workspace_Deleted) then []
  else [(last_created_build q workspace.(Workspace_ID)).(WorkspaceBuild_DailyCost)].

(** The build is its workspace's newest, in a table where IDs are unique. *)
Record newest_build (q : data) (b : WorkspaceBuild) : Prop := {
  newest_in : b ∈ q.(workspaceBuilds);
  newest_ids : NoDup (WorkspaceBuild_ID <$> q.(workspaceBuilds));
  newest_created : 0 < b.(WorkspaceBuild_CreatedAt);
  newest_last x : x ∈ q.(workspaceBuilds) → x.(WorkspaceBuild_WorkspaceID) = b.(WorkspaceBuild_WorkspaceID) →
    x = b ∨ x.(WorkspaceBuild_CreatedAt) < b.(WorkspaceBuild_CreatedAt);
}.

(** The store with the cost of a build recorded. *)
Definition with_cost (b : WorkspaceBuild) (cost : Z) (q q' : data) : Prop :=
  ∃ pre post, q.(workspaceBuilds) = pre ++ b :: post ∧
    q' = q <| workspaceBuilds := pre ++ b <| WorkspaceBuild_DailyCost := cost |> :: post |>.

Lemma newest_others q b pre post :
  newest_build q b → q.(workspaceBuilds) = pre ++ b :: post →
  Forall (older b.(WorkspaceBuild_WorkspaceID) b.(WorkspaceBuild_CreatedAt)) (pre ++ post).
Proof.
  intros [_ Hids _ Hlast] Hq. apply Forall_forall. intros x Hx Hws.
  destruct (Hlast x) as [->|]; [rewrite Hq; set_solver|done| |done]. exfalso.
  rewrite Hq, fmap_app, fmap_cons in Hids. apply NoDup_app in Hids as (_ & Hpre & [Hb _]%NoDup_cons).
  apply elem_of_app in Hx as [Hx|Hx].
  - apply (Hpre b.(WorkspaceBuild_ID)); [by apply list_elem_of_fmap_2|by left].
  - by apply Hb, list_elem_of_fmap_2.
Qed.

(** Recording the cost of the newest build changes one workspace's share. *)
Lemma recorded_share q q' b cost userID workspace :
  newest_build q b → with_cost b cost q q' →
  workspace.(Workspace_ID) = b.(WorkspaceBuild_WorkspaceID) →
  workspace.(Workspace_OwnerID) = userID → workspace.(Workspace_Deleted) = false →
  contribution userID q workspace = [b.(WorkspaceBuild_DailyCost)] ∧ contribution userID q' workspace = [cost].
Proof.
  intros Hnew (pre & post & Hq & ->) Hid Ho Hd. unfold contribution.
  rewrite Ho, Hd, (bool_decide_eq_true_2 (userID = userID)) by done. simpl.
  pose proof (newest_others _ _ _ _ Hnew Hq) as Hold. rewrite <-Hid in Hold.
  unfold last_created_build. rewrite Hq. split; do 2 f_equal.
  - by apply later_newest; [|apply Hnew|].
  - lazymatch goal with |- WorkspaceBuild_DailyCost ?x = _ =>
      assert (x = b <| WorkspaceBuild_DailyCost := cost |>) as ->; [|done] end.
    by apply (later_newest _ pre (b <| WorkspaceBuild_DailyCost := cost |>) post); [|apply Hnew|].
Qed.
Lemma other_share q q' b cost userID workspace :
  with_cost b cost q q' → workspace.(Workspace_ID) ≠ b.(WorkspaceBuild_WorkspaceID) →
  contribution userID q' workspace = contribution userID q workspace.
Proof.
  intros (pre & post & Hq & ->) Hid. unfold contribution, last_created_build. rewrite Hq.
  destruct (negb _); [done|]. destruct (Workspace_Deleted workspace); [done|]. do 2 f_equal.
  by apply later_other.
Qed.

Lemma consumed_recorded q q' b cost ws userID consumed :
  newest_build q b → with_cost b cost q q' → NoDup (Workspace_ID <$> q.(workspaces)) →
  ws ∈ q.(workspaces) → ws.(Workspace_ID) = b.(WorkspaceBuild_WorkspaceID) →
  ws.(Workspace_OwnerID) = userID → ws.(Workspace_Deleted) = false → b.(WorkspaceBuild_DailyCost) = 0 →
  GetQuotaConsumedForUser userID q = Ok consumed →
  GetQuotaConsumedForUser userID q' = Ok (int64_wrap (cost + consumed)).
Proof.
  intros Hnew Hcost Hids (wpre & wpost & Hws)%list_elem_of_split Hid Ho Hd H0 [= <-].
  unfold GetQuotaConsumedForUser. f_equal.
  change (sum_int64 (q'.(workspaces) ≫= contribution userID q') =
          int64_wrap (cost + sum_int64 (q.(workspaces) ≫= contribution userID q))).
  assert (q'.(workspaces) = q.(workspaces)) as -> by by destruct Hcost as (pre & post & _ & ->).
  destruct (recorded_share _ _ _ _ _ _ Hnew Hcost Hid Ho Hd) as [Hold Hrec].
  assert (∀ l, Workspace_ID ws ∉ Workspace_ID <$> l →
    l ≫= contribution userID q' = l ≫= contribution userID q) as Hothers.
  { induction l as [|x l IH]; [done|]. rewrite fmap_cons, !bind_cons. intros [Hx Hl]%not_elem_of_cons. rewrite IH by done. f_equal.
    eapply other_share; [done|]. congruence. }
  rewrite Hws, fmap_app, fmap_cons in Hids. apply NoDup_app in Hids as (_ & Hpre & [Hpost _]%NoDup_cons).
  rewrite Hws, !bind_app, !bind_cons, !Hothers, Hrec, Hold, H0.
  - rewrite !sum_int64_wrap, !sum_app. simpl. rewrite (Z.add_comm cost (int64_wrap _)), int64_wrap_add. f_equal. lia.
  - done.
  - intros Hin. apply (Hpre _ Hin). by left.
Qed.

Section commit.
Context `{!UuidText}.

(** The build before a build, and what it costs. *)
Definition previous_build (q : data) (b : WorkspaceBuild) : res WorkspaceBuild :=
  GetWorkspaceBuildByWorkspaceIDAndBuildNumber
    (mkGetWorkspaceBuildByWorkspaceIDAndBuildNumberParams b.(WorkspaceBuild_WorkspaceID)
       (int32_wrap (b.(WorkspaceBuild_BuildNumber) - 1))) q.
Definition previous_cost (q : data) (b : WorkspaceBuild) : Z :=
  match previous_build q b with Ok previous => previous.(WorkspaceBuild_DailyCost) | _ => 0 end.
(** The previous build of the workspace cost more than this one does so far. *)
Definition costs_less (q : data) (b : WorkspaceBuild) : bool :=
  match previous_build q b with
  | Ok previous => b.(WorkspaceBuild_DailyCost) <? previous.(WorkspaceBuild_DailyCost)
  | _ => false
  end.
Lemma costs_less_previous q b : b.(WorkspaceBuild_DailyCost) = 0 → costs_less q b = (0 <? previous_cost q b).
Proof. unfold costs_less, previous_cost. intros ->. by destruct (previous_build q b). Qed.

(** Recording the cost. *)
Lemma UpdateWorkspaceBuildCostByID_run q b cost :
  b ∈ q.(workspaceBuilds) → NoDup (WorkspaceBuild_ID <$> q.(workspaceBuilds)) →
  ∃ b' q', UpdateWorkspaceBuildCostByID (mkUpdateWorkspaceBuildCostByIDParams b.(WorkspaceBuild_ID) cost) q = (Ok b', q')
    ∧ with_cost b cost q q'.
Proof.
  intros Hb Hids.
  destruct (update_first_split WorkspaceBuild_ID (λ x, x <| WorkspaceBuild_DailyCost := cost |>) _ b Hids Hb)
    as (pre & post & Hq & Hup).
  exists (b <| WorkspaceBuild_DailyCost := cost |>). eexists.
  unfold UpdateWorkspaceBuildCostByID, update_row. cbn -[update_first].
  lazymatch goal with |- context [update_first ?P ?f ?l] =>
    replace (update_first P f l) with (Some (b <| WorkspaceBuild_DailyCost := cost |>,
      pre ++ b <| WorkspaceBuild_DailyCost := cost |> :: post)) by (symmetry; exact Hup) end.
  split; [done|]. by exists pre, post.
Qed.

(** The transaction, on either verdict. *)
Lemma commit_quota_run request w b ws consumed budget :
  ws.(Workspace_ID) = b.(WorkspaceBuild_WorkspaceID) →
  GetQuotaConsumedForUser ws.(Workspace_OwnerID) w.(db) = Ok consumed →
  GetQuotaAllowanceForUser ws.(Workspace_OwnerID) w.(db) = Ok budget →
  let cost := request.(CommitQuotaRequest_DailyCost) in
  let total := int64_wrap (cost + consumed) in
  commit_quota request b ws w =
  if (total <=? budget) || costs_less w.(db) b
  then (_ ← store (UpdateWorkspaceBuildCostByID (mkUpdateWorkspaceBuildCostByIDParams b.(WorkspaceBuild_ID) cost));
        mret (true, total, budget)) w
  else (Ok (false, consumed, budget), w).
Proof.
  intros Hid Hc Hb. cbv zeta. unfold commit_quota, costs_less, previous_build. rewrite <-Hid.
  unfold mbind at 1, gom_bind at 1, query at 1. rewrite Hc.
  unfold mbind at 1, gom_bind at 1, query at 1. rewrite Hb.
  unfold mbind at 1, gom_bind at 1, attempt, query at 1. rewrite Z.leb_antisym.
  assert (∀ e, first_row (λ b0 : WorkspaceBuild, (WorkspaceBuild_WorkspaceID b0 == ws.(Workspace_ID)) &&
    (WorkspaceBuild_BuildNumber b0 == int32_wrap (WorkspaceBuild_BuildNumber b - 1))) w.(db).(workspaceBuilds) = Err e →
    errors_Is e ErrNoRows = true) as Hno.
  { unfold first_row. destruct (find_first _ _); simpl; by intros e [= <-]. }
  unfold GetWorkspaceBuildByWorkspaceIDAndBuildNumber. cbn -[first_row].
  destruct (first_row _ _) as [previous|e|p] eqn:Hprev.
  - unfold mbind at 1, gom_bind at 1. simpl.
    by destruct (_ <? int64_wrap _), (_ <? WorkspaceBuild_DailyCost previous).
  - rewrite (Hno e eq_refl). unfold mbind at 1, gom_bind at 1. simpl. by destruct (_ <? int64_wrap _).
  - unfold first_row in Hprev. by destruct (find_first _ _).
Qed.

End commit.

(** ** The hooks of the server *)

Section hooks.
Context `{!Environment, !Jwt} (o : EnterpriseOptions).

(** The hooks agree with the entitlements of the last update. The coordinator for
    high availability is in use only with the feature; setting it up may fail. *)
Definition hooks_agree (a : EnterpriseAPI) : Prop :=
  match a.(API_entitlements) with
  | None => a = EnterpriseAPI_New
  | Some e =>
      a.(API_auditor) = feature_on e FeatureAuditLog ∧
      a.(API_WorkspaceClientCoordinateOverride) = feature_on e FeatureBrowserOnly ∧
      a.(API_QuotaCommitter) = feature_on e FeatureTemplateRBAC ∧
      a.(API_meshes) = feature_on e FeatureHighAvailability ∧
      (a.(API_TailnetCoordinator) = true → feature_on e FeatureHighAvailability = true)
  end.

(** The servers that can come about: updates, at any time, on any store, with any
    replicas, whether or not the coordinator can be set up. [failed] records
    that it could not be, once. *)
Inductive server_runs : bool → EnterpriseAPI → Prop :=
| server_new : server_runs false EnterpriseAPI_New
| server_update failed a replicas ha_error w r w' a' :
    server_runs failed a → updateEntitlements o replicas ha_error (w, a) = (r, (w', a')) →
    server_runs (failed || bool_decide (is_Some ha_error)) a'.

Lemma switch_changed old new name hook :
  match old with Some e => hook = feature_on e name | None => True end →
  switch (featureChanged old new name) hook = feature_on new name.
Proof.
  unfold switch, featureChanged. destruct old as [e|]; intros Hold; [|done]. simpl.
  rewrite Hold. by destruct (feature_on e name), (feature_on new name).
Qed.

Lemma apply_entitlements_agree ha_error new a :
  hooks_agree a → hooks_agree (apply_entitlements ha_error new a).
Proof.
  intros Ha. unfold hooks_agree in *. simpl.
  assert (∀ name hook, (∀ e, a.(API_entitlements) = Some e → hook = feature_on e name) →
    switch (featureChanged a.(API_entitlements) new name) hook = feature_on new name) as Hswitch.
  { intros name hook Hh. apply switch_changed. destruct (API_entitlements a); auto. }
  destruct (API_entitlements a) as [e|].
  - destruct Ha as (H1 & H2 & H3 & H4 & H5). split_and!; [apply Hswitch; by intros ? [= <-]..|].
    unfold featureChanged, switch. simpl. case_bool_decide as Hc; simpl.
    + by destruct (feature_on new FeatureHighAvailability).
    + by rewrite <-Hc.
  - split_and!; [by apply Hswitch..|]. unfold switch, featureChanged. simpl.
    destruct (negb _); simpl; [done|]. by subst a.
Qed.

Lemma apply_entitlements_coordinator new a :
  (∀ e, a.(API_entitlements) = Some e → a.(API_TailnetCoordinator) = feature_on e FeatureHighAvailability) →
  (apply_entitlements None new a).(API_TailnetCoordinator) = feature_on new FeatureHighAvailability.
Proof.
  intros Hco. simpl. rewrite andb_false_r, andb_true_r, <-surjective_pairing. apply switch_changed.
  destruct (API_entitlements a); auto.
Qed.

(** Whatever the licenses become, the hooks of the enterprise server follow the
    entitlements of the last update: the configured auditor is in use exactly when
    audit logging is enabled, client connections are vetted exactly when the
    deployment is browser-only, costs are committed exactly when template access
    control is enabled, and a change of replicas changes the mesh exactly with
    high availability. The coordinator for high availability is in use only with
    that feature, and exactly then when setting it up never failed. *)
Theorem hooks_follow_entitlements failed a :
  server_runs failed a →
  hooks_agree a ∧
  (failed = false → ∀ e, a.(API_entitlements) = Some e →
     a.(API_TailnetCoordinator) = feature_on e FeatureHighAvailability).
Proof.
  induction 1 as [|failed a replicas ha_error w r w' a' _ [IH1 IH2] Hup]; [by split|].
  unfold updateEntitlements in Hup. destruct (license_Entitlements _ _ _ _ w) as [[e|err|p] w1].
  - injection Hup as <- <- <-. split; [by apply apply_entitlements_agree|].
    intros [Hf Hha]%orb_false_iff e' He'. destruct ha_error; [by apply bool_decide_eq_false_1 in Hha; destruct Hha|].
    injection He' as <-. apply apply_entitlements_coordinator; auto.
  - injection Hup as <- <- <-. split; [done|]. intros [Hf _]%orb_false_iff. auto.
  - injection Hup as <- <- <-. split; [done|]. intros [Hf _]%orb_false_iff. auto.
Qed.
End hooks.

(** ** Examples *)

Module QuotaExamples.
Import Scenario.
#[local] Existing Instances text env policy LicenseExamples.letters.
#[local] Instance one_name : NamesGenerator := λ _, "name".

(** The member's workspace has a second build, and the member a budget of ten. *)
Definition second : WorkspaceBuild :=
  build <| WorkspaceBuild_ID := 12%N |> <| WorkspaceBuild_JobID := 13%N |> <| WorkspaceBuild_BuildNumber := 2 |>
        <| WorkspaceBuild_CreatedAt := unix_epoch + Hour |>.
Definition team : Group := Group_zero <| Group_ID := 20%N |> <| Group_OrganizationID := 9%N |>
  <| Group_Name := "team" |> <| Group_QuotaAllowance := 10 |>.
Definition other_team : Group := team <| Group_ID := 21%N |> <| Group_Name := "other" |> <| Group_QuotaAllowance := 0 |>.
Definition with_builds (first_cost : Z) : world :=
  w <| db := q <| workspaceBuilds := [build <| WorkspaceBuild_DailyCost := first_cost |>; second] |>
               <| groups := [team; other_team] |>
               <| groupMembers := [mkGroupMember 7%N 20%N; mkGroupMember 7%N 21%N] |> |>.
Definition asking (cost : Z) : CommitQuotaRequest := mkCommitQuotaRequest (uuid_String 13%N) cost.


(** A build that follows one with a cost is permitted however much it costs: its own
    cost is still zero when it is compared with the previous one's. *)
Example over_budget_permitted :
  (committer_CommitQuota (asking 100) (with_builds 1)).1 = Ok (mkCommitQuotaResponse true 100 10).
Proof. by vm_compute. Qed.

(** A daemon that connects from outside is served without a place for a quota
    committer: committing a cost panics. *)
Definition daemon_request : Request := by_owner <| URL_Query := {["provisioner" := ["terraform"]]} |>.
Definition external : res Server :=
  match provisionerDaemonServe "https://coder" None daemon_request s with
  | (Ok (inr server), _) => Ok server
  | (Ok (inl _), _) => Err ErrNoRows
  | (Err e, _) => Err e
  | (Panic p, _) => Panic p
  end.
Definition running_second (server : Server) : world :=
  (with_builds 0) <| db := (with_builds 0).(db) <| provisionerJobs := [ProvisionerJob_zero
    <| ProvisionerJob_ID := 13%N |> <| ProvisionerJob_WorkerID := non_null server.(Server_ID) |>] |> |>.
Example external_daemon_quota_panics : ∃ server,
  external = Ok server ∧
  (CommitQuota server (asking 1) (running_second server)).1 =
    Panic "invalid memory address or nil pointer dereference".
Proof. eexists. by vm_compute. Qed.

(** A request to remove a user from one group removes the user from another. *)
Definition in_other_team : world :=
  (with_builds 0) <| db := (with_builds 0).(db) <| groupMembers := [mkGroupMember 7%N 21%N] |> |>.
Example removal_hits_other_groups :
  let '(r, w) := update_group 20%N (mkPatchGroupRequest [] [uuid_String 7%N] EmptyString None None) in_other_team in
  r = Ok team ∧ w.(db).(groupMembers) = [].
Proof. by vm_compute. Qed.

(** A license that has everything, with high availability configured. *)
Definition licensed : world := w <| db := q <| licenses := [mkLicense 1 0 "a" (unix_epoch + 24 * Hour) (null_of uuid_Nil)] |> |>.
Definition relaying : EnterpriseOptions := mkEnterpriseOptions true true false [] "http://relay" 0 false ∅.
Definition updated (ha_error : option error) (a : EnterpriseAPI) : EnterpriseAPI :=
  (updateEntitlements relaying [] ha_error (licensed, a)).2.2.

Lemma hooks_follow_entitlements_witness :
  hooks_agree (updated None EnterpriseAPI_New) ∧ (updated None EnterpriseAPI_New).(API_TailnetCoordinator) = true.
Proof.
  destruct (hooks_follow_entitlements relaying false (updated None EnterpriseAPI_New)) as [Hagree Hco].
  - change false with (false || bool_decide (is_Some (None : option error))).
    set (u := updateEntitlements relaying [] None (licensed, EnterpriseAPI_New)).
    apply (server_update relaying false EnterpriseAPI_New [] None licensed u.1 u.2.1); [constructor|].
    unfold updated. fold u. by destruct u as [? [? ?]].
  - split; [exact Hagree|]. by vm_compute.
Defined.

(** When the coordinator for high availability cannot be set up once, later updates
    do not try again. *)
Example ha_failure_sticks :
  (updated None (updated (Some ErrNoRows) EnterpriseAPI_New)).(API_TailnetCoordinator) = false ∧
  (updated None EnterpriseAPI_New).(API_TailnetCoordinator) = true.
Proof. by vm_compute. Qed.
End QuotaExamples.
