(* ===== verification/ApiOAuthProps.v ===== *)
(** * Properties of signing in through a provider

    A login through GitHub or OpenID Connect ends in a session of the user the
    identity is linked to or whose address it has, if that user signs in this way, or
    of a new user where signups are allowed; no other user is touched. The callback
    runs only for the browser that started the login. *)

From Stdlib Require Import Ascii.
From stdpp Require Import prelude gmap strings.
From S2P Require Import Prelude Encoding Cryptorand UserPassword Rbac Models Queries ModelMethods Store.
From S2P Require Import StoreUsers StoreOrgs StoreMisc World Auditing Sdk Http HttpMw QueryParams Api ApiUsers ApiKeys.
From S2P Require Import License ApiTemplates ApiOAuth Scenario HttpProps.

Local Open Scope Z_scope.

Lemma find_first_elem {A} (P : A → bool) l x : find_first P l = Some x → x ∈ l ∧ P x = true.
Proof.
  destruct (find_first_spec P l) as [(pre & y & post & -> & _ & Hy & ->)|[_ ->]]; [|done].
  intros [= ->]. split; [apply elem_of_app; by right; left|done].
Qed.

Section login.
Context `{!Environment, !UuidText, !Pbkdf2, !Sha256, !SSHKeygen, !NamesGenerator}.
Context (api : Options).

(** ** What the steps leave alone *)

(** The keys of users, and how many users there are. *)
Abbreviation keys_of := (λ w : world, w.(db).(apiKeys)).
Abbreviation users_of := (λ w : world, w.(db).(users)).

Lemma preserves_maybe_row {A T} (f : world → T) msg (g : data → res A) : preserves f (maybe_row msg g).
Proof. unfold maybe_row. frame. Qed.
Lemma preserves_GetRandomName {T} (g : data → T) : preserves (λ w, g w.(db)) GetRandomName.
Proof. done. Qed.
Hint Resolve preserves_maybe_row preserves_GetRandomName : frame.
Lemma preserves_findLinkedUser {T} (g : data → T) linkedID email :
  preserves (λ w, g w.(db)) (findLinkedUser linkedID email).
Proof. unfold findLinkedUser, find_by_email. frame. Qed.
Lemma preserves_alternatives {T} (g : data → T) tries original :
  preserves (λ w, g w.(db)) (alternatives tries original).
Proof. induction tries as [|tries IH]; simpl; [frame|]. unfold username_from, username_taken. frame. Qed.
Hint Resolve preserves_findLinkedUser preserves_alternatives : frame.

(** A store method changes one table; walk through a computation to show that the
    table in question is another. *)
Ltac one_table :=
  apply preserves_store; let q := fresh in intros q;
  repeat (lazymatch goal with
    | |- context [@insert_row] => unfold insert_row
    | |- context [@update_row] => unfold update_row
    | |- context [@void] => unfold void
    | |- _ (?m _).2 = _ => let h := get_head m in unfold h
    end; unfold mbind, gom_bind; cbv beta zeta);
  repeat (case_match; simplify_eq/=); done.
Ltac framed :=
  repeat (cbv zeta; lazymatch goal with
    | |- ∀ _, _ => intros ?
    | |- preserves _ (_ ≫= _) => apply preserves_bind
    | |- preserves _ (match ?x with _ => _ end) => destruct x
    | |- preserves _ (wrap _ _) => apply preserves_wrap
    | |- preserves _ (void _) => apply preserves_void
    | |- preserves _ ?m => first [solve [frame] | solve [one_table] | let h := get_head m in unfold h; cbv beta zeta]
    end).

Lemma CreateUser_keys req : preserves keys_of (CreateUser api req).
Proof. framed. Qed.
Lemma keep_link_keys params user link : preserves keys_of (keep_link params user link).
Proof. framed. Qed.
Lemma keep_link_users params user link : preserves users_of (keep_link params user link).
Proof. framed. Qed.
Lemma mirror_profile_keys params user : preserves keys_of (mirror_profile params user).
Proof. framed. Qed.

(** Take a step that leaves the users alone. *)
Tactic Notation "skip" hyp(H) "as" simple_intropattern(a) ident(w1) :=
  let Hm := fresh "Hm" in
  apply bind_ok in H as (a & w1 & Hm & H); apply (preserves_run users_of) in Hm; [|framed].

Lemma CreateUser_users req w user org w' :
  CreateUser api req w = (Ok (user, org), w') → w'.(db).(users) = w.(db).(users) ++ [user].
Proof.
  unfold CreateUser. intros Hrun. cbv zeta in Hrun. skip Hrun as [orgID roles] w1. skip Hrun as id w2.
  skip Hrun as created w3. skip Hrun as updated w4. skip Hrun as hashed w5.
  apply bind_ok in Hrun as (u & w6 & Hins & Hrun).
  assert (w6.(db).(users) = w5.(db).(users) ++ [u]) as Hu.
  { unfold wrap, store, zoom, InsertUser in Hins. destruct (existsb _ _); [done|].
    by injection Hins as <- <-. }
  clear Hins. skip Hrun as keys w7. skip Hrun as keyCreated w8. skip Hrun as keyUpdated w9. skip Hrun as sshkey w10.
  skip Hrun as memberCreated w11. skip Hrun as memberUpdated w12. skip Hrun as member w13.
  injection Hrun as <- <- <-. congruence.
Qed.

Lemma sign_up_users params w user w' :
  sign_up api params w = (Ok user, w') → w'.(db).(users) = w.(db).(users) ++ [user].
Proof.
  unfold sign_up. intros Hrun. skip Hrun as orgs w1. cbv zeta in Hrun. skip Hrun as taken w2.
  skip Hrun as username w3. apply bind_ok in Hrun as ([u org] & w4 & Hcreate & Hrun).
  apply wrap_ok, CreateUser_users in Hcreate. injection Hrun as <- <-. simpl. congruence.
Qed.
Lemma sign_up_keys params : preserves keys_of (sign_up api params).
Proof. unfold sign_up. pose proof CreateUser_keys. framed. Qed.

(** ** Who signs in *)

(** The user an identity stands for: the one its link names, unless that user is
    deleted, or else the one with its address. *)
Inductive identified (params : oauthLoginParams) (q : data) : User → Prop :=
  | identified_by_link link u :
      GetUserLinkByLinkedID params.(oauthLoginParams_LinkedID) q = Ok link →
      GetUserByID link.(UserLink_UserID) q = Ok u → u.(User_Deleted) = false → identified params q u
  | identified_by_address u :
      (∀ link v, GetUserLinkByLinkedID params.(oauthLoginParams_LinkedID) q = Ok link →
                 GetUserByID link.(UserLink_UserID) q = Ok v → v.(User_Deleted) = true) →
      GetUserByEmailOrUsername
        (mkGetUserByEmailOrUsernameParams EmptyString params.(oauthLoginParams_Email) false) q = Ok u →
      identified params q u.

Lemma maybe_row_ok {A} msg (f : data → res A) w o w' :
  maybe_row msg f w = (Ok o, w') → w' = w ∧ match o with Some a => f w.(db) = Ok a | None => ∀ a, f w.(db) ≠ Ok a end.
Proof.
  unfold maybe_row, query, attempt, mbind, gom_bind, asks. destruct (f w.(db)) as [a|e|p]; simpl; [| |done].
  - by intros [= <- <-].
  - destruct (errors_Is e ErrNoRows); [|done]. by intros [= <- <-].
Qed.

(** The search finds that user, and the zero user when there is none. *)
Lemma find_by_email_ok email w u link w' :
  find_by_email email w = (Ok (u, link), w') →
  ∀ v, GetUserByEmailOrUsername (mkGetUserByEmailOrUsernameParams EmptyString email false) w.(db) = Ok v →
  v.(User_ID) = u.(User_ID) ∧ (u.(User_ID) ≠ uuid_Nil → v = u).
Proof.
  unfold find_by_email. intros Hrun v Hv. apply bind_ok in Hrun as (o & w1 & Ho & Hrun).
  apply maybe_row_ok in Ho as [-> Ho]. destruct o as [x|]; [|by destruct (Ho v)]. rewrite Ho in Hv. injection Hv as ->.
  simpl in Hrun. case_bool_decide as Hnil.
  - injection Hrun as <- _ _. by rewrite Hnil.
  - apply bind_ok in Hrun as (l & w2 & _ & Hrun). by injection Hrun as <- _ _.
Qed.
Lemma find_by_email_found email w u link w' :
  find_by_email email w = (Ok (u, link), w') → u.(User_ID) ≠ uuid_Nil →
  GetUserByEmailOrUsername (mkGetUserByEmailOrUsernameParams EmptyString email false) w.(db) = Ok u.
Proof.
  unfold find_by_email. intros Hrun Hu. apply bind_ok in Hrun as (o & w1 & Ho & Hrun).
  apply maybe_row_ok in Ho as [-> Ho]. case_bool_decide as Hnil; [by injection Hrun as <- _ _|].
  apply bind_ok in Hrun as (l & w2 & _ & Hrun). injection Hrun as <- _ _. by destruct o.
Qed.

Lemma findLinkedUser_ok params w u link w' :
  findLinkedUser params.(oauthLoginParams_LinkedID) params.(oauthLoginParams_Email) w = (Ok (u, link), w') →
  (u.(User_ID) ≠ uuid_Nil → identified params w.(db) u) ∧
  ∀ v, identified params w.(db) v → v.(User_ID) = u.(User_ID).
Proof.
  unfold findLinkedUser. intros Hrun. apply bind_ok in Hrun as (o & w1 & Ho & Hrun).
  apply maybe_row_ok in Ho as [-> Ho]. destruct o as [l|].
  - apply bind_ok in Hrun as (x & w2 & Hx & Hrun). apply wrap_ok in Hx. injection Hx as Hx <-.
    destruct x.(User_Deleted) eqn:Hdel; simpl in Hrun.
    + split.
      * intros Hu. apply identified_by_address; [congruence|]. by eapply find_by_email_found.
      * intros v [l' v' Hl Hv Hkept|v' _ Hv]; [congruence|]. by eapply find_by_email_ok.
    + injection Hrun as <- <- _. split; [intros _; by eapply identified_by_link|].
      intros v [l' v' Hl Hv _|v' Hgone _]; [congruence|]. specialize (Hgone _ _ Ho Hx). congruence.
  - split.
    + intros Hu. apply identified_by_address; [by intros l v Hl; destruct (Ho l)|]. by eapply find_by_email_found.
    + intros v [l' v' Hl Hv Hkept|v' _ Hv]; [by destruct (Ho l')|]. by eapply find_by_email_ok.
Qed.

Abbreviation others id := (filter (λ u : User, u.(User_ID) ≠ id)).

(** An update of one user by its ID keeps the IDs, and the other users. *)
Lemma update_first_others id (f : User → User) l u l' :
  (∀ v, (f v).(User_ID) = v.(User_ID)) →
  update_first (λ v, v.(User_ID) == id) f l = Some (u, l') →
  u.(User_ID) = id ∧ User_ID <$> l' = User_ID <$> l ∧ others id l' = others id l.
Proof.
  intros Hf. revert l'. induction l as [|v l IH]; intros l' Hl; simpl in Hl; [done|].
  case_bool_decide as Hv.
  - injection Hl as <- <-. rewrite Hf. rewrite !fmap_cons, Hf. split_and!; [done..|].
    rewrite !filter_cons_False; [done|by rewrite Hv; intros []|by rewrite Hf, Hv; intros []].
  - destruct (update_first _ _ _) as [[y l'']|]; [|done]. injection Hl as <- <-.
    destruct (IH _ eq_refl) as (Hy & Hids & Hothers). rewrite !fmap_cons, Hids. split_and!; [done..|].
    rewrite !filter_cons_True by done. by rewrite Hothers.
Qed.

Lemma mirror_profile_users params user w u w' :
  mirror_profile params user w = (Ok u, w') →
  u.(User_ID) = user.(User_ID) ∧ User_ID <$> w'.(db).(users) = User_ID <$> w.(db).(users) ∧
  others user.(User_ID) w'.(db).(users) = others user.(User_ID) w.(db).(users).
Proof.
  unfold mirror_profile. intros Hrun. cbv zeta in Hrun. destruct (_ || _); [|by injection Hrun as <- <-].
  skip Hrun as now w1. rewrite <-Hm. apply wrap_ok in Hrun.
  unfold store, zoom, UpdateUserProfile, update_row in Hrun. simpl in Hrun.
  destruct (update_first _ _ _) as [[x l]|] eqn:Hupd; [|done]. injection Hrun as <- <-. simpl.
  by apply update_first_others in Hupd.
Qed.

(** The accounts after a login: those before it, or one more where signups are
    allowed and the identity stands for no user. *)
Definition signed_in (params : oauthLoginParams) (q q' : data) (id : uuid) : Prop :=
  others id q'.(users) = others id q.(users) ∧
  ((∃ u, identified params q u ∧ u.(User_ID) = id ∧ id ≠ uuid_Nil ∧
         u.(User_LoginType) = params.(oauthLoginParams_LoginType) ∧
         User_ID <$> q'.(users) = User_ID <$> q.(users)) ∨
   (params.(oauthLoginParams_AllowSignups) = true ∧
    (∀ u, identified params q u → u.(User_ID) = uuid_Nil) ∧
    User_ID <$> q'.(users) = (User_ID <$> q.(users)) ++ [id])).

Lemma oauth_user_ok params w u w' :
  oauth_user api params w = (Ok u, w') →
  w'.(db).(apiKeys) = w.(db).(apiKeys) ∧ signed_in params w.(db) w'.(db) u.(User_ID).
Proof.
  unfold oauth_user. intros Hrun. apply bind_ok in Hrun as ([v link] & w1 & Hfind & Hrun).
  apply wrap_ok in Hfind. pose proof (preserves_run (λ w, w.(db)) _ _ _ _
    (preserves_findLinkedUser (λ d, d) _ _) Hfind) as Hdb1. simpl in Hdb1.
  apply findLinkedUser_ok in Hfind as [Hfound Hnone].
  destruct (negb _ && _) eqn:Hsignup; [done|]. destruct (_ && (_ != _)) eqn:Htype; [done|].
  apply bind_ok in Hrun as (x & w2 & Hx & Hrun). apply bind_ok in Hrun as ([] & w3 & Hkeep & Hrun).
  pose proof (preserves_run keys_of _ _ _ _ (keep_link_keys _ _ _) Hkeep) as Hkeys3.
  pose proof (preserves_run users_of _ _ _ _ (keep_link_users _ _ _) Hkeep) as Husers3.
  pose proof (preserves_run keys_of _ _ _ _ (mirror_profile_keys _ _) Hrun) as Hkeys4.
  apply mirror_profile_users in Hrun as (Hid & Hids & Hothers). simpl in *.
  rewrite Husers3 in Hids, Hothers. unfold signed_in. rewrite Hid, Hids, Hothers, <-Hdb1.
  destruct (decide (v.(User_ID) = uuid_Nil)) as [Hnil|Hknown].
  - rewrite (bool_decide_eq_true_2 (v.(User_ID) = uuid_Nil)) in * by done. simpl in *.
    pose proof (preserves_run keys_of _ _ _ _ (sign_up_keys _) Hx) as Hkeys2.
    apply sign_up_users in Hx as Husers2. simpl in *. rewrite Husers2, fmap_app, filter_app.
    split; [congruence|]. split.
    { rewrite (filter_cons_False (A := User)) by (by intros []). by rewrite filter_nil, app_nil_r. }
    right. rewrite Hdb1. split_and!; [|by intros y Hy; rewrite (Hnone _ Hy)|done].
    by destruct (oauthLoginParams_AllowSignups params).
  - rewrite (bool_decide_eq_false_2 (v.(User_ID) = uuid_Nil)) in * by done. simpl in *. injection Hx as <- <-.
    split; [congruence|]. split; [done|]. left. exists v. rewrite Hdb1. split_and!; [by apply Hfound|done..| |done].
    by case_bool_decide.
Qed.

(** What a login leaves: one key more, of the user that signed in, and the cookie
    that carries it. *)
Definition session_of (params : oauthLoginParams) (q q' : data) (cookie : http_Cookie) : Prop :=
  ∃ id key secret,
    signed_in params q q' id ∧ q'.(apiKeys) = q.(apiKeys) ++ [key] ∧
    key.(APIKey_UserID) = id ∧ key.(APIKey_LoginType) = params.(oauthLoginParams_LoginType) ∧
    key.(APIKey_HashedSecret) = sha256_Sum256 (bytes_of secret) ∧ key.(APIKey_Scope) = APIKeyScopeAll ∧
    cookie.(Cookie_Name) = SessionTokenKey ∧ cookie.(Cookie_Value) = key.(APIKey_ID) +:+ "-" +:+ secret.

Lemma oauthLogin_ok r params w cookie w' :
  oauthLogin api r params w = (Ok cookie, w') → session_of params w.(db) w'.(db) cookie.
Proof.
  unfold oauthLogin. intros Hrun. apply bind_ok in Hrun as (u & w1 & Hu & Hrun).
  apply wrap_ok, oauth_user_ok in Hu as [Hkeys Hin]. apply wrap_ok, createAPIKey_run in Hrun as
    (id & secret & key & n & _ & Hname & Hvalue & Hdb & Hid & Hhash & Huser & Htype & _ & Hscope).
  exists u.(User_ID), key, secret. rewrite Hdb, Hid. simpl. rewrite Hkeys. split_and!; try done.
Qed.

(** ** The callbacks *)

(** The session cookies of a response so far. *)
Definition sessions (s : hstate) : list http_Cookie :=
  filter (λ c, c.(Cookie_Name) = SessionTokenKey) s.(hs_cookies).
(** The handler gives out a session. *)
Definition issues {A} (m : Handler A) (s s' : hstate) : Prop :=
  (m s).2 = s' ∧ sessions s = [] ∧ sessions s' ≠ [].

(** A step that changes no row and gives out no session. *)
Abbreviation seen := (λ s : hstate, (s.(hs_world).(db), sessions s)).
Definition quiet {A} (m : Handler A) : Prop := preserves seen m.

Lemma quiet_bind {A B} (m : Handler A) (k : A → Handler B) : quiet m → (∀ a, quiet (k a)) → quiet (m ≫= k).
Proof.
  intros Hm Hk s. specialize (Hm s). rewrite h_bind_run. destruct (m s) as [[[p|a]|e|p] s1]; simpl in *; [done| |done..].
  by rewrite (Hk a s1).
Qed.
Lemma quiet_catch {A} (m : GoM world A) handle :
  preserves (λ w, w.(db)) m → (∀ e, quiet (handle e)) → quiet (catch m handle).
Proof.
  intros Hm Hh s. specialize (Hm s.(hs_world)). unfold catch. rewrite h_bind_run. unfold attempt_h, on_world, zoom.
  destruct (m _) as [[a|e|p] w]; simpl in *; [by rewrite Hm| |by rewrite Hm]. rewrite (Hh e _). simpl. by rewrite Hm.
Qed.
Lemma quiet_run {A} (m : GoM world A) : preserves (λ w, w.(db)) m → quiet (run m).
Proof.
  intros Hm s. specialize (Hm s.(hs_world)). unfold run, on_world, zoom. destruct (m _) as [[a|e|p] w]; simpl in *; by rewrite Hm.
Qed.

Lemma issues_bind {A B} (m : Handler A) (k : A → Handler B) s s' :
  quiet m → issues (m ≫= k) s s' →
  ∃ a s1, m s = (Ok (inr a), s1) ∧ s1.(hs_world).(db) = s.(hs_world).(db) ∧ issues (k a) s1 s'.
Proof.
  intros Hm (Hrun & Hs & Hs'). rewrite h_bind_run in Hrun. specialize (Hm s). simpl in Hm. injection Hm as Hdb Hsame.
  destruct (m s) as [[[p|a]|e|p] s1]; simpl in *; [congruence| |congruence..].
  exists a, s1. split_and!; [done..|]. split_and!; [done|congruence|done].
Qed.
Lemma issues_quiet {A} (m : Handler A) s s' : quiet m → ¬ issues m s s'.
Proof. intros Hm (Hrun & Hs & Hs'). specialize (Hm s). simpl in Hm. congruence. Qed.

Lemma finish_login_issues r params s s' :
  issues (finish_login api r params) s s' →
  ∃ cookie, sessions s' = [cookie] ∧ session_of params s.(hs_world).(db) s'.(hs_world).(db) cookie.
Proof.
  intros (Hrun & Hs & Hs'). unfold finish_login, catch in Hrun. rewrite !h_bind_run in Hrun.
  unfold attempt_h, on_world, zoom in Hrun.
  destruct (oauthLogin api r params s.(hs_world)) as [[cookie|e|p] w] eqn:Hlogin; simpl in Hrun.
  - apply oauthLogin_ok in Hlogin. subst s'. exists cookie. simpl.
    split; [|done]. destruct Hlogin as (id & key & secret & _ & _ & _ & _ & _ & _ & Hname & _).
    unfold sessions in *. simpl. by rewrite filter_app, Hs, filter_cons_True, filter_nil.
  - destruct Hs'. subst s'. rewrite <-Hs. by destruct (as_httpError e) as [[[code msg] detail]|].
  - destruct Hs'. by subst s'.
Qed.

Lemma quiet_reply {A} status body : quiet (A := A) (reply status body).
Proof. done. Qed.
Lemma quiet_require cond otherwise : quiet otherwise → quiet (require cond otherwise).
Proof. by destruct cond. Qed.
Lemma quiet_SetCookie c : c.(Cookie_Name) ≠ SessionTokenKey → quiet (SetCookie c).
Proof.
  intros Hc s. unfold sessions. simpl. by rewrite filter_app, filter_cons_False, filter_nil, app_nil_r.
Qed.
Lemma quiet_random {A} m handle : (∀ e, quiet (handle e)) → quiet (catch (random (A := A) m) handle).
Proof. apply quiet_catch. intros w. unfold random, zoom. by destruct (m _). Qed.
Lemma quiet_asked {A} (x : res A) msg : quiet (catch (lift_res x) (internal msg)).
Proof. by apply quiet_catch. Qed.
Lemma catch_res_ok {A} (x : res A) handle a s s1 :
  (∀ e b t t1, handle e t ≠ (Ok (inr b), t1)) → catch (lift_res x) handle s = (Ok (inr a), s1) → x = Ok a.
Proof.
  intros Hh Hrun. unfold catch in Hrun. rewrite h_bind_run in Hrun. destruct x as [b|e|p]; simpl in Hrun; [|by apply Hh in Hrun|done].
  by injection Hrun as <- _.
Qed.

(** The callback goes on only for a code the provider takes, in the browser that
    holds the state of the request. *)
Lemma ExtractOAuth2_issues config r next s s' :
  issues (ExtractOAuth2 config r next) s s' →
  ∃ c grant s1, config = Some c ∧ s1.(hs_world).(db) = s.(hs_world).(db) ∧
    url_Get r.(URL_Query) "state" ≠ EmptyString ∧
    Cookie r OAuth2StateKey = Some (url_Get r.(URL_Query) "state") ∧
    c.(Exchange) (url_Get r.(URL_Query) "code") = Ok grant ∧
    issues (next (mkOAuth2State grant (default EmptyString (Cookie r OAuth2RedirectKey)))) s1 s'.
Proof.
  destruct config as [c|]; [|intros []%issues_quiet; apply quiet_reply]. intros Hrun. unfold ExtractOAuth2 in Hrun.
  cbv zeta in Hrun. case_bool_decide as Hcode.
  { exfalso. revert Hrun. apply issues_quiet. apply quiet_bind; [by apply quiet_random|intros state].
    by do 2 (apply quiet_bind; [by apply quiet_SetCookie|intros _]). }
  apply issues_bind in Hrun as ([] & s1 & Hstate & Hdb1 & Hrun); [|by apply quiet_require].
  case_bool_decide as Hempty; [done|]. clear Hstate.
  apply issues_bind in Hrun as (value & s2 & Hcookie & Hdb2 & Hrun); [|destruct (Cookie r OAuth2StateKey); by intros ?].
  destruct (Cookie r OAuth2StateKey) as [v|]; [|done]. injection Hcookie as <- <-.
  apply issues_bind in Hrun as ([] & s3 & Hmatch & Hdb3 & Hrun); [|by apply quiet_require].
  case_bool_decide as Hsame; [|done]. clear Hmatch. subst v.
  apply issues_bind in Hrun as (grant & s4 & Hgrant & Hdb4 & Hrun); [|apply quiet_asked].
  apply catch_res_ok in Hgrant; [|done]. exists c, grant, s4. split_and!; congruence.
Qed.

(** *** GitHub *)

(** The provider vouches for an active membership in an allowed organization. *)
Definition organization_member (config : GithubOAuth2Config) (token : oauth2_Token) : Prop :=
  ∃ memberships m org, config.(ListOrganizationMemberships) token = Ok memberships ∧ m ∈ memberships ∧
    m.(Membership_State) = "active" ∧ m.(Membership_Login) = Some org ∧ org ∈ config.(AllowOrganizations).

Lemma quiet_deref {A} (p : option A) : quiet (deref p).
Proof. by destruct p. Qed.
Lemma quiet_selected allowed memberships : quiet (selected_memberships allowed memberships).
Proof.
  induction memberships as [|m ms IH]; simpl; [done|]. destruct (_ || _); [done|].
  apply quiet_bind; [apply quiet_deref|intros login]. by apply quiet_bind.
Qed.
Lemma selected_member allowed memberships s names s1 :
  selected_memberships allowed memberships s = (Ok (inr names), s1) →
  ∀ org, org ∈ names → org ∈ allowed ∧
    ∃ m, m ∈ memberships ∧ m.(Membership_State) = "active" ∧ m.(Membership_Login) = Some org.
Proof.
  revert s names s1. induction memberships as [|m ms IH]; intros s names s1 Hrun org Horg; simpl in Hrun.
  { injection Hrun as <- _. by apply elem_of_nil in Horg. }
  assert (∀ m' : github_Membership, m' ∈ ms → m' ∈ m :: ms) as Hin by (by right).
  destruct (_ || _) eqn:Hskip; [destruct (IH _ _ _ Hrun _ Horg) as [? (m' & ? & ?)]; eauto 6|].
  apply orb_false_iff in Hskip as [Hactive _]. apply negb_false_iff, bool_decide_eq_true in Hactive.
  rewrite h_bind_run in Hrun. destruct (Membership_Login m) as [login|] eqn:Hlogin; [|done]. simpl in Hrun.
  rewrite h_bind_run in Hrun. destruct (selected_memberships allowed ms s) as [[[p|rest]|e|p] s2] eqn:Hrest; [done| |done..].
  injection Hrun as <- _. specialize (IH _ _ _ Hrest org). case_bool_decide as Hall.
  - apply elem_of_cons in Horg as [->|Horg]; [split; [done|]; exists m; split_and!; [by left|done..]|].
    destruct (IH Horg) as [? (m' & ? & ?)]. eauto 6.
  - destruct (IH Horg) as [? (m' & ? & ?)]. eauto 6.
Qed.

(** The organizations of the user, when they are asked for. *)
Lemma membership_issues config token (k : list string → Handler unit) s s' :
  issues ((if config.(AllowEveryone) then mret []
           else memberships ← catch (lift_res (config.(ListOrganizationMemberships) token))
                  (internal "Internal error fetching authenticated Github user organizations.");
                selected ← selected_memberships config.(AllowOrganizations) memberships;
                _ ← require (selected != []) (Write StatusUnauthorized
                      (message "You aren't a member of the authorized Github organizations!"));
                mret selected) ≫= k) s s' →
  ∃ names s1, (config.(AllowEveryone) = true ∨ organization_member config token) ∧
    s1.(hs_world).(db) = s.(hs_world).(db) ∧ issues (k names) s1 s'.
Proof.
  destruct (AllowEveryone config); intros Hrun.
  { apply issues_bind in Hrun as (names & s1 & _ & Hdb & Hrun); [|by intros ?]. eauto 6. }
  apply issues_bind in Hrun as (names & s1 & Hnames & Hdb & Hrun); last first.
  { apply quiet_bind; [apply quiet_asked|intros ms]. apply quiet_bind; [apply quiet_selected|intros sel].
    apply quiet_bind; [by apply quiet_require|by intros _ ?]. }
  exists names, s1. split_and!; [right|done..]. rewrite h_bind_run in Hnames.
  destruct (catch _ _ s) as [[[p|ms]|e|p] s2] eqn:Hms; [done| |done..].
  apply catch_res_ok in Hms; [|done]. rewrite h_bind_run in Hnames.
  destruct (selected_memberships _ ms s2) as [[[p|sel]|e|p] s3] eqn:Hsel; [done| |done..].
  rewrite h_bind_run in Hnames. destruct sel as [|org sel]; [done|].
  destruct (selected_member _ _ _ _ _ Hsel org) as [Hall (m & Hm & Hactive & Hlogin)]; [by left|].
  by exists ms, m, org.
Qed.

(** The provider names a membership of the user in an allowed team. *)
Definition team_member (config : GithubOAuth2Config) (token : oauth2_Token) (ghUser : github_User) : Prop :=
  ∃ team login m, team ∈ config.(AllowTeams) ∧ ghUser.(GithubUser_Login) = Some login ∧
    (config.(TeamMembership) token team.(GithubTeam_Organization) team.(GithubTeam_Slug) login).1 = Some m.

Lemma team_of_member config token team login names m :
  team_of config token team login names = Some m →
  team.(GithubTeam_Organization) ∈ names ∧
  (config.(TeamMembership) token team.(GithubTeam_Organization) team.(GithubTeam_Slug) login).1 = Some m.
Proof.
  unfold team_of. induction names as [|org names IH] using rev_ind; [done|]. rewrite foldl_app. simpl.
  case_bool_decide as Horg; [subst org|]; intros Hm.
  - split; [|done]. apply elem_of_app. by right; left.
  - destruct (IH Hm). split; [|done]. apply elem_of_app. by left.
Qed.
Lemma allowed_team_member config token login names teams m :
  allowed_team config token login names teams = Some m →
  ∃ team, team ∈ teams ∧ team.(GithubTeam_Organization) ∈ names ∧
    (config.(TeamMembership) token team.(GithubTeam_Organization) team.(GithubTeam_Slug) login).1 = Some m.
Proof.
  induction teams as [|team teams IH]; simpl; [done|]. destruct (team_of _ _ _ _ _) as [m'|] eqn:Hteam.
  - intros [= ->]. apply team_of_member in Hteam. exists team. split; [by left|done].
  - intros Hm. destruct (IH Hm) as (t & Ht & ?). exists t. split; [by right|done].
Qed.

Lemma team_issues config token ghUser names (k : unit → Handler unit) s s' :
  issues ((if negb config.(AllowEveryone) && (length config.(AllowTeams) != 0%nat) then
       login ← (if existsb (λ team, bool_decide (team.(GithubTeam_Organization) ∈ names)) config.(AllowTeams)
                then deref ghUser.(GithubUser_Login) else mret EmptyString);
       match allowed_team config token login names config.(AllowTeams) with
       | Some _ => mret tt
       | None => Write StatusUnauthorized (message ("You aren't a member of an authorized team in the [" +:+
                   Join names " " +:+ "] Github organization(s)!"))
       end
     else mret tt) ≫= k) s s' →
  ∃ s1, (config.(AllowEveryone) = true ∨ config.(AllowTeams) = [] ∨ team_member config token ghUser) ∧
    s1.(hs_world).(db) = s.(hs_world).(db) ∧ issues (k tt) s1 s'.
Proof.
  destruct (negb _ && _) eqn:Hask; intros Hrun; last first.
  { apply issues_bind in Hrun as ([] & s1 & _ & Hdb & Hrun); [|by intros ?]. exists s1. split_and!; [|done..].
    destruct (AllowEveryone config), (AllowTeams config); by auto. }
  apply issues_bind in Hrun as ([] & s1 & Hteam & Hdb & Hrun); last first.
  { apply quiet_bind; [destruct (existsb _ _); [apply quiet_deref|by intros ?]|intros login].
    destruct (allowed_team _ _ _ _ _); by intros ?. }
  exists s1. split_and!; [right; right|done..]. rewrite h_bind_run in Hteam. destruct (existsb _ _) eqn:Hsome.
  - destruct (GithubUser_Login ghUser) as [login|] eqn:Hlogin; [|done]. simpl in Hteam.
    destruct (allowed_team _ _ _ _ _) as [m|] eqn:Hm; [|done].
    apply allowed_team_member in Hm as (team & ? & _ & ?). by exists team, login, m.
  - simpl in Hteam. destruct (allowed_team _ _ _ _ _) as [m|] eqn:Hm; [|done].
    apply allowed_team_member in Hm as (team & Hin & Horg & _).
    assert (existsb (λ t, bool_decide (GithubTeam_Organization t ∈ names)) config.(AllowTeams) = true); [|congruence].
    apply existsb_exists. exists team. split; [by apply list_elem_of_In|by apply bool_decide_eq_true_2].
Qed.

(** What the login of a GitHub user asks for. *)
Definition github_login (config : GithubOAuth2Config) (state : OAuth2State) (ghUser : github_User)
    (email : github_UserEmail) : oauthLoginParams := {|
  oauthLoginParams_State := state;
  oauthLoginParams_LinkedID := Itoa ghUser.(GithubUser_ID);
  oauthLoginParams_LoginType := LoginTypeGithub;
  oauthLoginParams_AllowSignups := config.(Github_AllowSignups);
  oauthLoginParams_Email := email.(GithubEmail_Email);
  oauthLoginParams_Username := default EmptyString ghUser.(GithubUser_Login);
  oauthLoginParams_AvatarURL := ghUser.(GithubUser_AvatarURL) |}.

(** C21: Signing in through GitHub. When [GET /users/oauth2/github/callback] sets a
    session cookie, the request carried a state that its cookie holds too and GitHub
    took the code. Unless the configuration allows everyone, the user is an active
    member of an allowed organization and, if teams are configured, GitHub reports a
    membership of any state in one of them. The address is the verified primary one.
    The cookie is the only session and carries the one new API key. The key belongs to
    an existing user that signs in through GitHub: the one the GitHub identity is
    linked to, or, if there is no such link or its user is deleted, the one that has the
    address. If the identity stands for no user in this way the key belongs to a new
    user, and signups are allowed. Every other user is unchanged. *)
Theorem github_login_sound oauth config r s s'
    (Hrun : issues (ExtractOAuth2 oauth r (userOAuth2Github api config r)) s s') :
  ∃ provider grant ghUser emails email cookie,
    let token := grant.(grant_Token) in
    let state := url_Get r.(URL_Query) "state" in
    oauth = Some provider ∧ provider.(Exchange) (url_Get r.(URL_Query) "code") = Ok grant ∧
    state ≠ EmptyString ∧ Cookie r OAuth2StateKey = Some state ∧
    config.(AuthenticatedUser) token = Ok ghUser ∧
    (config.(AllowEveryone) = true ∨ organization_member config token) ∧
    (config.(AllowEveryone) = true ∨ config.(AllowTeams) = [] ∨ team_member config token ghUser) ∧
    config.(ListEmails) token = Ok emails ∧ email ∈ emails ∧ email.(GithubEmail_Verified) = true ∧ email.(GithubEmail_Primary) = true ∧
    sessions s' = [cookie] ∧
    session_of (github_login config (mkOAuth2State grant (default EmptyString (Cookie r OAuth2RedirectKey))) ghUser email)
      s.(hs_world).(db) s'.(hs_world).(db) cookie.
Proof.
  apply ExtractOAuth2_issues in Hrun as (provider & grant & s1 & -> & Hdb1 & Hstate & Hcookie & Hgrant & Hrun).
  unfold userOAuth2Github in Hrun. cbv zeta in Hrun.
  apply membership_issues in Hrun as (names & s2 & Horg & Hdb2 & Hrun).
  apply issues_bind in Hrun as (ghUser & s3 & Hgh & Hdb3 & Hrun); [|apply quiet_asked].
  apply catch_res_ok in Hgh; [|done]. apply team_issues in Hrun as (s4 & Hteam & Hdb4 & Hrun).
  apply issues_bind in Hrun as (emails & s5 & Hemails & Hdb5 & Hrun); [|apply quiet_asked].
  apply catch_res_ok in Hemails; [|done].
  destruct (find_first _ emails) as [email|] eqn:Hemail; [|by apply issues_quiet in Hrun].
  apply find_first_elem in Hemail as [Hin [Hver Hprimary]%andb_true_iff].
  apply finish_login_issues in Hrun as (cookie & Hsession & Hof).
  exists provider, grant, ghUser, emails, email, cookie. rewrite <-Hdb1, <-Hdb2, <-Hdb3, <-Hdb4, <-Hdb5. by split_and!.
Qed.

(** *** OpenID Connect *)

Context (mail_ParseAddress : string → bool) (json_text : json → string).

(** The address the claims name: the one of the email, or a name that is one. *)
Definition claimed_email (claims : gmap string json) (email : string) : Prop :=
  claims !! "email" = Some (JString email) ∨
  claims !! "email" = None ∧ email = string_claim claims "preferred_username" ∧ mail_ParseAddress email = true.

Lemma oidc_email_claimed claims username s email s1 :
  username = string_claim claims "preferred_username" →
  oidc_email mail_ParseAddress json_text claims username s = (Ok (inr email), s1) → claimed_email claims email.
Proof.
  unfold oidc_email, claimed_email. intros Hname Hrun.
  destruct (claims !! "email") as [[]|]; try done; [injection Hrun as <- _; by left|].
  destruct (mail_ParseAddress username) eqn:Hmail; [|done]. injection Hrun as <- _. by right.
Qed.
Lemma quiet_oidc_email claims username : quiet (oidc_email mail_ParseAddress json_text claims username).
Proof. unfold oidc_email. destruct (claims !! "email") as [[]|]; [..|destruct (mail_ParseAddress username)]; by intros ?. Qed.
Lemma quiet_username_from str : quiet (run (username_from str)).
Proof.
  apply quiet_run. unfold username_from. destruct (_ != _); [done|]. apply preserves_bind; [by intros ?|by intros ? ?].
Qed.

(** C22: Signing in through OpenID Connect. When [GET /users/oidc/callback] sets a
    session cookie, the request carried a state that its cookie holds too, the
    provider took the code and the ID token it gave verifies. The address is the claimed
    email, or without one the preferred name if that is an address; unless the
    configuration ignores it, the claim [email_verified] is not the boolean false; and
    the text of the address ends with the configured domain, if there is one. The cookie
    is the only session and carries the one new API key. The key belongs to an existing
    user that signs in through OpenID Connect: the one linked to the issuer and
    subject, or, if there is no such link or its user is deleted, the one that has the
    address, whatever subject that user is linked to. If the identity stands for no user
    in this way the key belongs to a new user, and signups are allowed. Every other user
    is unchanged. *)
Theorem oidc_login_sound oauth config r s s'
    (Hrun : issues (ExtractOAuth2 oauth r (userOIDC api mail_ParseAddress json_text config r)) s s') :
  ∃ provider grant raw idToken claims email params cookie,
    let state := url_Get r.(URL_Query) "state" in
    oauth = Some provider ∧ provider.(Exchange) (url_Get r.(URL_Query) "code") = Ok grant ∧
    state ≠ EmptyString ∧ Cookie r OAuth2StateKey = Some state ∧
    grant.(grant_id_token) = Some raw ∧ config.(Verify) raw = Ok idToken ∧
    idToken.(IDToken_Claims) = Ok claims ∧ claimed_email claims email ∧
    (claims !! "email_verified" ≠ Some (JBool false) ∨ config.(IgnoreEmailVerified) = true) ∧
    (config.(EmailDomain) = EmptyString ∨ HasSuffix (ToLower email) (ToLower config.(EmailDomain)) = true) ∧
    params.(oauthLoginParams_LinkedID) = idToken.(IDToken_Issuer) +:+ "||" +:+ idToken.(IDToken_Subject) ∧
    params.(oauthLoginParams_LoginType) = LoginTypeOIDC ∧ params.(oauthLoginParams_Email) = email ∧
    params.(oauthLoginParams_AllowSignups) = config.(OIDC_AllowSignups) ∧
    sessions s' = [cookie] ∧ session_of params s.(hs_world).(db) s'.(hs_world).(db) cookie.
Proof.
  apply ExtractOAuth2_issues in Hrun as (provider & grant & s1 & -> & Hdb1 & Hstate & Hcookie & Hgrant & Hrun).
  unfold userOIDC in Hrun. cbn [OAuth2State_Token] in Hrun. cbv zeta in Hrun.
  apply issues_bind in Hrun as (raw & s2 & Hraw & Hdb2 & Hrun); [|destruct (grant_id_token grant); by intros ?].
  destruct (grant_id_token grant) as [t|] eqn:Htoken; [|done]. injection Hraw as -> <-.
  apply issues_bind in Hrun as (idToken & s3 & Hver & Hdb3 & Hrun); [|by apply quiet_catch].
  apply catch_res_ok in Hver; [|done].
  apply issues_bind in Hrun as (claims & s4 & Hclaims & Hdb4 & Hrun); [|apply quiet_asked].
  apply catch_res_ok in Hclaims; [|done].
  apply issues_bind in Hrun as (email & s5 & Hemail & Hdb5 & Hrun); [|apply quiet_oidc_email].
  apply oidc_email_claimed in Hemail; [|done].
  apply issues_bind in Hrun as ([] & s6 & Hverified & Hdb6 & Hrun);
    [|destruct (claims !! "email_verified") as [[| [] | | | | | ]|]; try (by intros ?); by apply quiet_require].
  apply issues_bind in Hrun as (username & s7 & _ & Hdb7 & Hrun); 
    [|destruct (NameValid _); [apply quiet_username_from|by intros ?]].
  apply issues_bind in Hrun as ([] & s8 & Hdomain & Hdb8 & Hrun); [|by apply quiet_require].
  apply finish_login_issues in Hrun as (cookie & Hsession & Hof).
  eexists provider, grant, raw, idToken, claims, email, _, cookie.
  rewrite <-Hdb1, <-Hdb3, <-Hdb4, <-Hdb5, <-Hdb6, <-Hdb7, <-Hdb8. split_and!; [..|eassumption]; try done.
  - destruct (claims !! "email_verified") as [[| [] | | | | | ]|]; try (by left). right.
    by destruct (IgnoreEmailVerified config).
  - case_bool_decide; [by left|right]. by destruct (HasSuffix _ _).
Qed.
End login.

(** ** Concrete logins *)
Module OAuthExamples.
Import Scenario.
#[local] Existing Instances text env identity_hash PasswordExamples.pad_key.
#[local] Instance no_keys : SSHKeygen :=
  {| ed25519KeyGen := mret ("private", "public"); ecdsaKeyGen := mret (EmptyString, EmptyString);
     rsa4096KeyGen := mret (EmptyString, EmptyString) |}.
#[local] Instance one_name : NamesGenerator := λ _, "name".

Definition token : oauth2_Token := mkToken "access" "refresh" (unix_epoch + 24 * Hour).
Definition provider : OAuth2Config :=
  {| AuthCodeURL state := "https://github.com/login?state=" +:+ state;
     Exchange code := if code == "code" then Ok (mkGrant token (Some "jwt")) else Err ErrNoRows |}.
Definition callback : Request :=
  bare <| URL_Query := {[ "code" := ["code"]; "state" := ["xyz"] ]} |> <| Cookies := [(OAuth2StateKey, "xyz")] |>.

(** The members of one organization may sign in; the member of the deployment
    did so before. *)
Definition github : GithubOAuth2Config := {|
  AuthenticatedUser _ := Ok (mkGithubUser 42 (Some "dev") EmptyString);
  ListEmails _ := Ok [mkGithubEmail "old@coder.com" false false; mkGithubEmail "dev@coder.com" true true];
  ListOrganizationMemberships _ := Ok [mkMembership "pending" (Some "other"); mkMembership "active" (Some "coder")];
  TeamMembership _ _ _ _ := (None, None);
  Github_AllowSignups := false;
  AllowEveryone := false;
  AllowOrganizations := ["coder"];
  AllowTeams := [] |}.
Definition linked (type : LoginType) (id : string) : hstate :=
  s <| hs_world := w <| db := q
    <| users := [owner <| User_Email := "root@coder.com" |>; member <| User_LoginType := type |> <| User_Email := "dev@coder.com" |>] |>
    <| userLinks := [mkUserLink 7%N type id EmptyString EmptyString time_zero] |> |> |>.
Definition after_github (config : GithubOAuth2Config) (r : Request) (s : hstate) : hstate :=
  (ExtractOAuth2 (Some provider) r (userOAuth2Github api config r) s).2.

Lemma github_login_sound_witness :
  ∃ key, (after_github github callback (linked LoginTypeGithub "42")).(hs_world).(db).(apiKeys) = q.(apiKeys) ++ [key] ∧
    key.(APIKey_LoginType) = LoginTypeGithub.
Proof.
  destruct (github_login_sound api (Some provider) github callback (linked LoginTypeGithub "42")
              (after_github github callback (linked LoginTypeGithub "42")))
    as (c & grant & ghUser & emails & email & cookie & Hrun).
  - split_and!; [done..|by vm_compute].
  - destruct Hrun as (_ & _ & _ & _ & _ & _ & _ & _ & _ & _ & _ & _ & id & key & secret & _ & Hkeys & _ & Htype & _).
    exists key. split; [exact Hkeys|exact Htype].
Defined.

(** The session is the member's, also when only the address is the same. *)
Example github_session :
  APIKey_UserID <$> last (after_github github callback (linked LoginTypeGithub "42")).(hs_world).(db).(apiKeys) = Some 7%N ∧
  APIKey_UserID <$> last (after_github github callback (linked LoginTypeGithub "41")).(hs_world).(db).(apiKeys) = Some 7%N.
Proof. by vm_compute. Qed.
(** A state that the browser does not hold, or a user that signs in otherwise. *)
Example github_refused :
  sessions (after_github github (callback <| Cookies := [(OAuth2StateKey, "abc")] |>) (linked LoginTypeGithub "42")) = [] ∧
  sessions (after_github github callback (linked LoginTypeOIDC "42")) = [].
Proof. by vm_compute. Qed.
(** A team is enough that GitHub answers with a membership, even a pending one. *)
Example pending_team_accepted :
  length (sessions (after_github {|
    AuthenticatedUser := github.(AuthenticatedUser); ListEmails := github.(ListEmails);
    ListOrganizationMemberships := github.(ListOrganizationMemberships);
    TeamMembership _ _ _ _ := (Some (mkMembership "pending" None), None);
    Github_AllowSignups := false; AllowEveryone := false; AllowOrganizations := ["coder"];
    AllowTeams := [mkGithubTeam "coder" "core"] |} callback (linked LoginTypeGithub "42"))) = 1%nat.
Proof. by vm_compute. Qed.

(** *** OpenID Connect *)

Definition oidc_with (subject email : string) (verified : json) : OIDCConfig := {|
  Verify _ := Ok (mkIDToken "https://id" subject (Ok
    {[ "email" := JString email; "email_verified" := verified; "preferred_username" := JString "dev" ]}));
  EmailDomain := "coder.com";
  OIDC_AllowSignups := true;
  IgnoreEmailVerified := false |}.
Definition fresh : hstate := linked LoginTypePassword EmptyString.
Definition after_oidc (config : OIDCConfig) (s : hstate) : hstate :=
  (ExtractOAuth2 (Some provider) callback (userOIDC api (λ _, true) (λ _, EmptyString) config callback) s).2.

Lemma oidc_login_sound_witness :
  ∃ key, (after_oidc (oidc_with "me" "me@coder.com" (JBool true)) fresh).(hs_world).(db).(apiKeys) = q.(apiKeys) ++ [key] ∧
    key.(APIKey_LoginType) = LoginTypeOIDC.
Proof.
  destruct (oidc_login_sound api (λ _, true) (λ _, EmptyString) (Some provider)
              (oidc_with "me" "me@coder.com" (JBool true)) callback fresh
              (after_oidc (oidc_with "me" "me@coder.com" (JBool true)) fresh))
    as (c & grant & raw & idToken & claims & email & params & cookie & Hrun).
  - split_and!; [done..|by vm_compute].
  - destruct Hrun as (_ & _ & _ & _ & _ & _ & _ & _ & _ & _ & _ & Hoidc & _ & _ & _ & id & key & secret & _ & Hkeys & _ & Htype & _).
    exists key. split; [exact Hkeys|exact (eq_trans Htype Hoidc)].
Defined.

(** Every user that signed in: *)
Definition session_user (s : hstate) : option uuid :=
  match sessions s with [] => None | _ => APIKey_UserID <$> last s.(hs_world).(db).(apiKeys) end.

(** the domain is only a suffix of the text of the address, *)
Example suffix_is_no_domain :
  length (sessions (after_oidc (oidc_with "me" "me@notcoder.com" (JBool true)) fresh)) = 1%nat.
Proof. by vm_compute. Qed.
(** an address is unverified only if the claim is the boolean, *)
Example text_counts_as_verified :
  length (sessions (after_oidc (oidc_with "me" "me@coder.com" (JString "false")) fresh)) = 1%nat ∧
  sessions (after_oidc (oidc_with "me" "me@coder.com" (JBool false)) fresh) = [].
Proof. by vm_compute. Qed.
(** and an identity of another subject signs in as the user with its address, whose
    link keeps naming the first subject. *)
Example other_subject_signs_in :
  session_user (after_oidc (oidc_with "other" "dev@coder.com" (JBool true)) (linked LoginTypeOIDC "https://id||me"))
    = Some 7%N ∧
  UserLink_LinkedID <$> (after_oidc (oidc_with "other" "dev@coder.com" (JBool true))
    (linked LoginTypeOIDC "https://id||me")).(hs_world).(db).(userLinks) = ["https://id||me"].
Proof. by vm_compute. Qed.
End OAuthExamples.
