(* ===== verification/ApiGitAuthProps.v ===== *)
(** * Properties of git authentication

    Git in a workspace gets a token of the owner of the workspace, for the provider of
    the URL, and no other link is touched; a token that was granted is what git gets
    next; the providers of a configuration have different names. *)

From Stdlib Require Import Ascii.
From stdpp Require Import prelude gmap strings pretty.
From S2P Require Import Prelude Encoding Cryptorand UserPassword Rbac Models Net NetUrl Queries ModelMethods Store.
From S2P Require Import StoreUsers StoreMisc StoreWorkspaces World Auditing Sdk Http HttpMw QueryParams AppUrl Api ApiUsers ApiKeys.
From S2P Require Import License ApiTemplates Scenario HttpProps ApiOAuth ApiGitAuth.

Local Open Scope Z_scope.

Section gitauth.
Context `{!Environment, !UuidText, !GitProviders}.
Context (AccessURL : url_URL) (configs : list git_Config).

(** ** Credentials *)

Definition credentials (resp : WorkspaceAgentGitAuthResponse) : Prop :=
  resp.(WorkspaceAgentGitAuthResponse_Username) ≠ EmptyString ∨ resp.(WorkspaceAgentGitAuthResponse_Password) ≠ EmptyString.
(** The response carries credentials. *)
Definition gives {A} (m : Handler A) (s : hstate) (resp : WorkspaceAgentGitAuthResponse) (s' : hstate) : Prop :=
  m s = (Ok (inl (mkReply StatusOK (BodyAgentGitAuth resp))), s') ∧ credentials resp.
Definition carries (p : Reply) : Prop := ∃ resp, p = mkReply StatusOK (BodyAgentGitAuth resp) ∧ credentials resp.

Lemma gives_bind {A B} (m : Handler A) (k : A → Handler B) s resp s' :
  gives (m ≫= k) s resp s' → avoids carries m → ∃ a s1, yields m s a s1 ∧ gives (k a) s1 resp s'.
Proof.
  intros [Hrun Hcred] Hm. apply (avoids_skip (P := carries)) in Hrun as (a & s1 & Ha & Hrun); [|by exists resp|done]. by exists a, s1.
Qed.
Lemma avoids_gives {A} (m : Handler A) s resp s' : avoids carries m → ¬ gives m s resp s'.
Proof. intros Hm [Hrun Hcred]. apply Hm in Hrun. apply Hrun. by exists resp. Qed.
(** Neither a refusal nor the page to get a token from carries any. *)
Lemma ask_carries_none status url :
  ¬ carries (mkReply status (BodyAgentGitAuth (mkWorkspaceAgentGitAuthResponse EmptyString EmptyString url))).
Proof. intros (resp & [= _ <-] & Hcred). by destruct Hcred. Qed.
Hint Resolve ask_carries_none : avoids.
Hint Extern 1 (¬ carries _) => by intros (? & ? & _) : avoids.

(** ** Where a token comes from *)

(** The token is that of the link, or what it was refreshed to, and validates if
    tokens of the provider are validated. *)
Definition token_of (config : git_Config) (link : GitAuthLink) (token : string) : Prop :=
  (token = link.(GitAuthLink_OAuthAccessToken) ∨
   ∃ t, oauth_Refresh config.(git_OAuth) (mkToken link.(GitAuthLink_OAuthAccessToken)
          link.(GitAuthLink_OAuthRefreshToken) link.(GitAuthLink_OAuthExpiry)) = Ok t ∧ token = t.(AccessToken)) ∧
  (config.(git_ValidateURL) = EmptyString ∨ validateGitToken config.(git_ValidateURL) token = Ok true).

(** The links of other users or providers. *)
Definition other_links (owner : uuid) (id : string) (q : data) : list GitAuthLink :=
  filter (λ l, is_git_auth_link owner id l = false) q.(gitAuthLinks).

Lemma git_token_gives config token s resp s' :
  gives (git_token config token) s resp s' → resp = formatGitAuthAccessToken config.(git_Type) token ∧ s' = s.
Proof. intros [Hrun _]. by injection Hrun as <- <-. Qed.

(** The world after a number of looks at the link: each is preceded by what other
    requests do and followed by a reading of the clock. *)
Definition polled (others : list (GoM world unit)) (w : world) : world :=
  foldl (λ w other, (Now (other w).2).2) w others.

Lemma attempt_world (other : GoM world unit) s x s' :
  yields (attempt_h other) s x s' → s' = s <| hs_world := (other s.(hs_world)).2 |>.
Proof. unfold yields, attempt_h, on_world, zoom. destruct (other _) as [[] w']; by intros [= _ <-]. Qed.

Lemma await_token_gives config owner others s resp s' :
  gives (await_token config owner others) s resp s' →
  ∃ n link token, s' = s <| hs_world := polled (take n others) s.(hs_world) |> ∧
    git_link config owner s'.(hs_world).(db) = Ok link ∧ token_of config link token ∧
    resp = formatGitAuthAccessToken config.(git_Type) token.
Proof.
  revert s. induction others as [|other others IH]; intros s Hg; [by destruct Hg|]. cbn [await_token] in Hg.
  apply gives_bind in Hg as (x & s1 & ->%attempt_world & Hg); [|by eauto with avoids].
  apply gives_bind in Hg as (link & s2 & Hlink & Hg); [|by eauto with avoids].
  apply yields_query in Hlink as [Hlink ->]; [|done].
  apply gives_bind in Hg as (now & s2 & (w & Hnow & ->)%yields_run & Hg); [|by eauto with avoids].
  assert (w = (Now (other s.(hs_world)).2).2) as -> by by injection Hnow as <- <-. clear Hnow.
  set (s2 := s <| hs_world := (Now (other s.(hs_world)).2).2 |>).
  assert (gives (await_token config owner others) s2 resp s' → ∃ n link token,
    s' = s <| hs_world := polled (take n (other :: others)) s.(hs_world) |> ∧
    git_link config owner s'.(hs_world).(db) = Ok link ∧ token_of config link token ∧
    resp = formatGitAuthAccessToken config.(git_Type) token) as Hagain.
  { intros (n & l & token & Hs3 & ?)%IH. by exists (S n), l, token. }
  destruct (Before _ _); [by apply Hagain|].
  apply gives_bind in Hg as (valid & s3 & Hvalid & Hg); [|by eauto with avoids].
  assert (s3 = s2 ∧ (valid = true → git_ValidateURL config = EmptyString ∨
    validateGitToken (git_ValidateURL config) link.(GitAuthLink_OAuthAccessToken) = Ok true)) as [-> Hurl].
  { clear Hg. case_bool_decide; [apply yields_ret in Hvalid as [_ ->]; auto|].
    destruct (validateGitToken _ _) as [v|e|msg]; [| |done]; apply yields_ret in Hvalid as [-> ->]; split; [done|by intros ->; right|done|done]. }
  clear Hvalid. destruct valid; [|by apply Hagain]. apply git_token_gives in Hg as [-> ->].
  exists 1%nat, link, link.(GitAuthLink_OAuthAccessToken). split_and!; [done..| |done]. split; [by left|auto].
Qed.

Lemma update_other_links arg q :
  other_links arg.(UpdateGitAuthLinkParams_UserID) arg.(UpdateGitAuthLinkParams_ProviderID) (UpdateGitAuthLink arg q).2 =
  other_links arg.(UpdateGitAuthLinkParams_UserID) arg.(UpdateGitAuthLinkParams_ProviderID) q.
Proof.
  unfold other_links, UpdateGitAuthLink, modify. simpl. induction q.(gitAuthLinks) as [|l ls IH]; [done|].
  rewrite fmap_cons, !filter_cons, IH. destruct (is_git_auth_link _ _ l) eqn:Hl.
  - rewrite decide_False by (unfold is_git_auth_link in *; simpl; congruence). by rewrite decide_False by congruence.
  - by rewrite !decide_True by done.
Qed.

Lemma stored_token_gives config owner s resp s' :
  gives (stored_token AccessURL config owner) s resp s' →
  (∃ link token, git_link config owner s.(hs_world).(db) = Ok link ∧ token_of config link token ∧
    resp = formatGitAuthAccessToken config.(git_Type) token) ∧
  other_links owner config.(git_ID) s'.(hs_world).(db) = other_links owner config.(git_ID) s.(hs_world).(db).
Proof.
  intros Hg. unfold stored_token in Hg.
  apply gives_bind in Hg as (redirect & s1 & Hredirect & Hg); [|by eauto with avoids].
  apply yields_lift in Hredirect as [_ ->]; [|done].
  apply gives_bind in Hg as (link & s1 & Hlink & Hg); [|by eauto with avoids].
  apply yields_query in Hlink as [Hlink ->]; [|intros e ? ? ?; destruct (errors_Is e _); apply no_yields_reply].
  apply gives_bind in Hg as (expired & s1 & Hexpired & Hg); [|by eauto with avoids].
  assert (s1.(hs_world).(db) = s.(hs_world).(db)) as Hdb.
  { destruct (git_NoRefresh config); [|by apply yields_ret in Hexpired as [_ ->]].
    apply yields_bind in Hexpired as (now & s2 & (w & Hnow & ->)%yields_run & [_ ->]%yields_ret). by injection Hnow as <- <-. }
  destruct expired; [by apply avoids_gives in Hg; [|eauto with avoids]|].
  apply gives_bind in Hg as (token & s2 & Htoken & Hg); [|by eauto with avoids].
  apply yields_lift in Htoken as [Htoken ->]; [|intros; apply no_yields_reply].
  apply gives_bind in Hg as (valid & s2 & Hvalid & Hg); [|by eauto with avoids].
  assert (s2 = s1 ∧ (git_ValidateURL config = EmptyString ∨
          validateGitToken (git_ValidateURL config) (AccessToken token) = Ok valid)) as [-> Hurl].
  { clear Hg; case_bool_decide; [apply yields_ret in Hvalid as [_ ->]; auto|]. apply yields_lift in Hvalid as [? ->]; [auto|done]. }
  clear Hvalid. destruct valid; [|cbn [negb] in Hg; by apply avoids_gives in Hg; [|eauto with avoids]].
  apply gives_bind in Hg as (u & s2 & Hupdate & [-> ->]%git_token_gives); [|by eauto with avoids].
  split; [exists link, (AccessToken token); split_and!; [done|split; [right; by exists token|done]|done]|]. rewrite <- Hdb.
  case_bool_decide; simpl in Hupdate; [by apply yields_ret in Hupdate as [_ ->]|].
  apply yields_bind in Hupdate as (now & s3 & (w & Hnow & ->)%yields_run & Hupdate). injection Hnow as <- <-.
  apply yields_catch in Hupdate as (w & Hw & ->); [|done].
  injection Hw as <- <-. exact (update_other_links (mkUpdateGitAuthLinkParams _ _ _ _ _ _) _).
Qed.

(** ** Git gets the tokens of the owner of the workspace *)

(** The workspace the agent was built for. *)
Definition runs_in (agent : WorkspaceAgent) (workspace : Workspace) (q : data) : Prop :=
  ∃ resource build, GetWorkspaceResourceByID agent.(WorkspaceAgent_ResourceID) q = Ok resource ∧
    GetWorkspaceBuildByJobID resource.(WorkspaceResource_JobID) q = Ok build ∧
    GetWorkspaceByID build.(WorkspaceBuild_WorkspaceID) q = Ok workspace.

Lemma agent_workspace_yields agent m1 m2 m3 s workspace s' :
  yields (agent_workspace agent m1 m2 m3) s workspace s' → runs_in agent workspace s.(hs_world).(db) ∧ s' = s.
Proof.
  intros Hy. unfold agent_workspace in Hy. apply yields_bind in Hy as (resource & s1 & Hr & Hy).
  apply yields_query in Hr as [Hr ->]; [|done]. apply yields_bind in Hy as (build & s1 & Hb & Hy).
  apply yields_query in Hb as [Hb ->]; [|done]. apply yields_query in Hy as [Hw ->]; [|done]. split; [by exists resource, build|done].
Qed.
(** C32: Git in a workspace only gets a token of the owner of the workspace the agent
    runs in, linked to a configured provider whose expression matches the URL, valid if
    tokens of the provider are validated. A request that waits for a token gets one of a
    link that is there when it answers, and itself changes nothing: the store is what
    the other requests have made of it. One that does not wait gets one of a link that
    was there, possibly refreshed, and changes no other link. *)
Theorem git_tokens_of_owner r agent others s resp s' :
  workspaceAgentsGitAuth AccessURL configs r agent others s = (Ok (inl (mkReply StatusOK (BodyAgentGitAuth resp))), s') →
  credentials resp →
  let waits := url_Has r.(URL_Query) "listen" in
  ∃ config workspace link token,
    config ∈ configs ∧ config.(git_Match) (url_Get r.(URL_Query) "url") = true ∧
    runs_in agent workspace s.(hs_world).(db) ∧
    git_link config workspace.(Workspace_OwnerID) (if waits then s' else s).(hs_world).(db) = Ok link ∧
    token_of config link token ∧ resp = formatGitAuthAccessToken config.(git_Type) token ∧
    if waits then ∃ n, s' = s <| hs_world := polled (take n others) s.(hs_world) |>
    else other_links workspace.(Workspace_OwnerID) config.(git_ID) s'.(hs_world).(db) =
         other_links workspace.(Workspace_OwnerID) config.(git_ID) s.(hs_world).(db).
Proof.
  intros Hrun Hcred waits. pose proof (conj Hrun Hcred : gives _ s resp s') as Hg. clear Hrun Hcred. revert Hg.
  unfold workspaceAgentsGitAuth. fold waits. case_bool_decide; [by intros [? _]|].
  destruct (git_provider configs _) as [config|] eqn:Hconfig; [|by intros [? _]]. intros Hg.
  apply last_Some_elem_of in Hconfig. apply list_elem_of_filter in Hconfig as [Hmatch Hin].
  apply gives_bind in Hg as (workspace & s1 & [Hworkspace ->]%agent_workspace_yields & Hg); [|unfold agent_workspace; by eauto 10 with avoids].
  destruct waits.
  - apply await_token_gives in Hg as (n & link & token & Hs' & Hlink & Htoken & ->).
    exists config, workspace, link, token. split_and!; [done..|]. by exists n.
  - apply stored_token_gives in Hg as [(link & token & Hlink & Htoken & ->) Hothers].
    by exists config, workspace, link, token.
Qed.

(** ** A granted token is used *)

Definition link_token (l : GitAuthLink) : oauth2_Token :=
  mkToken l.(GitAuthLink_OAuthAccessToken) l.(GitAuthLink_OAuthRefreshToken) l.(GitAuthLink_OAuthExpiry).

Lemma update_first_link arg l q :
  find_first (is_git_auth_link arg.(UpdateGitAuthLinkParams_UserID) arg.(UpdateGitAuthLinkParams_ProviderID)) q.(gitAuthLinks)
    = Some l →
  ∃ l', find_first (is_git_auth_link arg.(UpdateGitAuthLinkParams_UserID) arg.(UpdateGitAuthLinkParams_ProviderID))
          (UpdateGitAuthLink arg q).2.(gitAuthLinks) = Some l' ∧
    link_token l' = mkToken arg.(UpdateGitAuthLinkParams_OAuthAccessToken) arg.(UpdateGitAuthLinkParams_OAuthRefreshToken)
                      arg.(UpdateGitAuthLinkParams_OAuthExpiry).
Proof.
  unfold UpdateGitAuthLink, modify. simpl. induction q.(gitAuthLinks) as [|x ls IH]; [done|]. simpl.
  destruct (is_git_auth_link _ _ x) eqn:Hx; [|rewrite Hx; apply IH].
  intros _. eexists. split; [unfold is_git_auth_link in *; simpl; rewrite Hx; reflexivity|done].
Qed.
Lemma publish_last channel m msg status body s p s' :
  (catch (Publish channel m) (bad_request msg) ≫= λ _, reply (A := unit) status body) s = (Ok (inl p), s') →
  s'.(hs_world).(db) = s.(hs_world).(db).
Proof.
  rewrite h_bind_run, catch_run. unfold Publish. destruct (publish_error _); simpl; intros Hrun; by injection Hrun as <- <-.
Qed.

Lemma callback_links config r key state s p s1 :
  httpmw_APIKey r = Ok key → gitAuthCallback config r state s = (Ok (inl p), s1) →
  ∃ link links, git_link config key.(APIKey_UserID) s1.(hs_world).(db) = Ok link ∧
    link_token link = state.(OAuth2State_Token).(grant_Token) ∧
    s1.(hs_world).(db) = s.(hs_world).(db) <| gitAuthLinks := links |>.
Proof.
  intros Hkey. unfold gitAuthCallback. rewrite Hkey. set (granted := grant_Token _).
  assert (granted = mkToken granted.(AccessToken) granted.(RefreshToken) granted.(Expiry)) as Hgranted by by destruct granted.
  intros Hrun. apply bind_replies in Hrun as [|(k & s2 & [[= ->] ->]%yields_get & Hrun)]; [done|].
  apply bind_replies in Hrun as [Hrun|(found & s2 & Hfound & Hrun)].
  { revert Hrun. unfold attempt_h, on_world, zoom, query. by destruct (git_link _ _ _). }
  revert Hfound. unfold yields, attempt_h, on_world, zoom, query, git_link, GetGitAuthLink, first_row. simpl.
  destruct (find_first _ _) as [l|] eqn:Hfind; simpl; intros [= <- <-];
    (apply bind_replies in Hrun as [|(u & s2 & Hlink & Hrun)]; [done|]); injection Hlink as <- <-.
  all: apply publish_last in Hrun as ->; simpl.
  - destruct (update_first_link (mkUpdateGitAuthLinkParams config.(git_ID) k.(APIKey_UserID)
        (database_Now (clock s.(hs_world).(ticks))) granted.(AccessToken) granted.(RefreshToken) granted.(Expiry))
      l s.(hs_world).(db) Hfind) as (l' & Hl & Hl').
    exists l'. eexists. split_and!; [exact (f_equal (of_option ErrNoRows) Hl)|exact (eq_trans Hl' (eq_sym Hgranted))|reflexivity].
  - eexists _, _. split.
    { rewrite find_first_snoc, Hfind. unfold is_git_auth_link. simpl. rewrite !bool_decide_eq_true_2 by done. reflexivity. }
    split; [exact (eq_sym Hgranted)|reflexivity].
Qed.

(** Once a user has granted a token on the page of a provider, git in each of the
    user's workspaces gets that token for the URLs of the provider, as long as the
    provider neither replaces nor refuses it. *)
Theorem granted_token_is_used config r key state s p s1 r' agent workspace redirect :
  let granted := state.(OAuth2State_Token).(grant_Token) in
  gitAuthCallback config r state s = (Ok (inl p), s1) → httpmw_APIKey r = Ok key →
  runs_in agent workspace s.(hs_world).(db) → workspace.(Workspace_OwnerID) = key.(APIKey_UserID) →
  git_provider configs (url_Get r'.(URL_Query) "url") = Some config → url_Get r'.(URL_Query) "url" ≠ EmptyString →
  url_Has r'.(URL_Query) "listen" = false → parse_path AccessURL ("/gitauth/" +:+ config.(git_ID)) = Ok redirect →
  config.(git_NoRefresh) = false → oauth_Refresh config.(git_OAuth) granted = Ok granted →
  config.(git_ValidateURL) = EmptyString ∨ validateGitToken config.(git_ValidateURL) granted.(AccessToken) = Ok true →
  workspaceAgentsGitAuth AccessURL configs r' agent [] s1 =
    (Ok (inl (mkReply StatusOK (BodyAgentGitAuth (formatGitAuthAccessToken config.(git_Type) granted.(AccessToken))))), s1).
Proof.
  intros granted Hrun Hkey (resource & build & Hr & Hb & Hw) Howner Hprovider Hurl Hlisten Hpath Hrefresh Hsame Hvalid.
  destruct (callback_links _ _ _ _ _ _ _ Hkey Hrun) as (link & links & Hlink & Htoken & Hdb).
  unfold workspaceAgentsGitAuth. rewrite bool_decide_eq_false_2, Hprovider, Hlisten by done.
  assert (GetWorkspaceResourceByID agent.(WorkspaceAgent_ResourceID) s1.(hs_world).(db) = Ok resource) as Hr1 by by rewrite Hdb.
  assert (GetWorkspaceBuildByJobID resource.(WorkspaceResource_JobID) s1.(hs_world).(db) = Ok build) as Hb1 by by rewrite Hdb.
  assert (GetWorkspaceByID build.(WorkspaceBuild_WorkspaceID) s1.(hs_world).(db) = Ok workspace) as Hw1 by by rewrite Hdb.
  unfold agent_workspace. rewrite h_bind_run, h_bind_run, catch_query, Hr1, h_bind_run, catch_query, Hb1, catch_query, Hw1.
  unfold stored_token. cbv beta iota. rewrite h_bind_run, catch_run, Hpath, Howner, Hrefresh. cbv beta iota zeta delta [lift_res].
  assert (s1 <| hs_world := s1.(hs_world) |> = s1) as Hs1 by by destruct s1.
  rewrite Hs1, h_bind_run, catch_query, Hlink. cbv beta iota.
  change (mkToken _ _ _) with (link_token link). rewrite Htoken. fold granted.
  erewrite h_bind_ok by reflexivity. cbv beta iota.
  rewrite h_bind_run, catch_run, Hsame. cbv beta iota delta [lift_res]. rewrite Hs1.
  assert (link.(GitAuthLink_OAuthAccessToken) = granted.(AccessToken)) as -> by exact (f_equal AccessToken Htoken).
  rewrite (h_bind_ok _ _ s1 true s1).
  2:{ case_bool_decide as He; [done|]. destruct Hvalid as [|Hvalid]; [done|]. rewrite catch_run, Hvalid. by destruct s1. }
  cbn [negb]. rewrite (h_bind_ok _ _ s1 tt s1); [done|]. by rewrite bool_decide_eq_true_2.
Qed.
End gitauth.

(** ** Examples *)

Module GitAuthExamples.
Import Scenario.
#[local] Existing Instances text env.
(** The provider takes every token; no token expires. *)
#[local] Instance accepting : GitProviders := {|
  github_Endpoint := ("https://github.com/login/oauth/authorize", "https://github.com/login/oauth/access_token");
  oauth_AuthCodeURL _ _ state := "https://github.com/login/oauth/authorize?state=" +:+ state;
  oauth_Exchange _ _ _ := Err ErrNoRows;
  oauth_Refresh _ token := Ok token;
  regexp_Compile _ := Ok (λ _, false);
  http_Get _ token := Ok (if token == "granted" then StatusOK else StatusUnauthorized, EmptyString) |}.

Definition accessURL : url_URL :=
  url_zero <| url_Scheme := "https" |> <| url_Host := "coder.example.com" |>.
Definition entry : GitAuthConfig :=
  mkGitAuthConfig EmptyString GitProviderGitHub "id" "secret" EmptyString EmptyString "https://git.example.com/user" EmptyString false [].
Definition github : list git_Config := match ConvertConfig [entry] accessURL with Ok configs => configs | _ => [] end.
Definition config : git_Config := match github with c :: _ => c | [] => mkgit_Config
  (mkoauth2_Config EmptyString EmptyString EmptyString EmptyString EmptyString []) false EmptyString (λ _, false) EmptyString false EmptyString end.

Definition resource : WorkspaceResource := WorkspaceResource_zero <| WorkspaceResource_ID := 20%N |> <| WorkspaceResource_JobID := 1%N |>.
Definition agent : WorkspaceAgent := WorkspaceAgent_zero <| WorkspaceAgent_ID := 21%N |> <| WorkspaceAgent_ResourceID := 20%N |>.
(** The owner of the deployment linked an account, the member has not. *)
Definition start : hstate :=
  s <| hs_world := w <| db := q <| workspaceResources := [resource] |> <| workspaceAgents := [agent] |>
    <| gitAuthLinks := [mkGitAuthLink "github" 5%N time_zero time_zero "granted" EmptyString time_zero] |> |> |>.
Definition ask_for (url : string) : Request := bare <| URL_Query := {[ "url" := [url] ]} |>.
Definition grant (token : string) : OAuth2State :=
  mkOAuth2State (mkGrant (mkToken token "refresh" (unix_epoch + 24 * Hour)) None) "/gitauth".
Definition granted : hstate := (gitAuthCallback config by_member (grant "granted") start).2.

(** The member has no link; git waits, and the member grants a token. *)
Definition wait_for (url : string) : Request := bare <| URL_Query := {[ "url" := [url]; "listen" := [EmptyString] ]} |>.
Definition granting : GoM world unit := λ _, (Ok tt, granted.(hs_world)).
Definition waited : hstate := start <| hs_world := polled [granting] start.(hs_world) |>.
Lemma git_tokens_of_owner_witness :
  ∃ link, (workspaceAgentsGitAuth accessURL github (wait_for "https://github.com/coder/coder") agent [granting] start).1 =
    Ok (inl (mkReply StatusOK (BodyAgentGitAuth (mkWorkspaceAgentGitAuthResponse "granted" EmptyString EmptyString)))) ∧
    git_link config 7%N waited.(hs_world).(db) = Ok link.
Proof.
  destruct (git_tokens_of_owner accessURL github (wait_for "https://github.com/coder/coder") agent [granting] start
              (mkWorkspaceAgentGitAuthResponse "granted" EmptyString EmptyString) waited)
    as (c & workspace & link & token & Hin & _ & (resource & build & Hr & Hb & Hw) & Hlink & _).
  - by vm_compute.
  - by left.
  - exists link. split; [by vm_compute|].
    vm_compute in Hr. injection Hr as <-. vm_compute in Hb. injection Hb as <-. vm_compute in Hw. injection Hw as <-.
    apply list_elem_of_singleton in Hin as ->. exact Hlink.
Defined.

Lemma granted_token_is_used_witness :
  (workspaceAgentsGitAuth accessURL github (ask_for "https://github.com/coder/coder") agent [] granted).1 =
    Ok (inl (mkReply StatusOK (BodyAgentGitAuth (mkWorkspaceAgentGitAuthResponse "granted" EmptyString EmptyString)))).
Proof.
  rewrite (granted_token_is_used accessURL github config by_member member_key (grant "granted") start
             (mkReply StatusTemporaryRedirect (BodyRedirect EmptyString "/gitauth")) granted
             (ask_for "https://github.com/coder/coder") agent workspace
             (accessURL <| url_Path := "/gitauth/github" |>)).
  - reflexivity.
  - by vm_compute.
  - done.
  - exists resource, build. by vm_compute.
  - done.
  - done.
  - done.
  - done.
  - by vm_compute.
  - done.
  - done.
  - right. by vm_compute.
Defined.

Definition answer (url : string) (s : hstate) : res (Reply + unit) :=
  (workspaceAgentsGitAuth accessURL github (ask_for url) agent [] s).1.
(** Before the member granted a token git is told where to get one; a token that the
    provider refuses counts as none. *)
Example asked :
  let page := Ok (inl (mkReply StatusOK (BodyAgentGitAuth (mkWorkspaceAgentGitAuthResponse EmptyString EmptyString
                "https://coder.example.com/gitauth/github")))) in
  answer "https://github.com/coder/coder" start = page ∧
  answer "https://github.com/coder/coder" (gitAuthCallback config by_member (grant "revoked") start).2 = page.
Proof. by vm_compute. Qed.
(** The default expression also matches other hosts that contain the name. *)
Example other_host_gets_token :
  answer "https://github.com.evil.example/x" granted = answer "https://github.com/coder/coder" granted.
Proof. by vm_compute. Qed.
(** The URL the operator gave to validate tokens is not used. *)
Example validate_url_ignored :
  entry.(entry_ValidateURL) = "https://git.example.com/user" ∧ config.(git_ValidateURL) = "https://api.github.com/user".
Proof. by vm_compute. Qed.
End GitAuthExamples.
