(* ===== verification/ApiAgentsProps.v ===== *)
(** * Properties of the handlers of agents

    Who gets the token of an agent, who opens a terminal, what the reports and the
    connection of an agent write. *)

From Stdlib Require Import Ascii.
From stdpp Require Import prelude gmap strings pretty.
From S2P Require Import Prelude Encoding Cryptorand Rbac Models Net NetUrl Queries ModelMethods Store.
From S2P Require Import StoreUsers StoreMisc StoreJobs StoreWorkspaces StoreProps World Auditing ProvisionerdServer ProvisionerdProps Schedule Autobuild AutobuildProps.
From S2P Require Import Sdk Http HttpMw QueryParams AppUrl RealIP InstanceIdentity Api ApiJobs ApiBuilds ApiApps.
From S2P Require Import Scenario HttpProps ApiAgents ApiProps.

Local Open Scope Z_scope.

(** ** Tokens for instances *)

Section identity.
Context `{!Environment, !UuidText}.

(** The agent that runs on an instance, of the latest build of its workspace. *)
Definition instance_agent (instanceID : string) (agent : WorkspaceAgent) (q : data) : Prop :=
  agent ∈ q.(workspaceAgents) ∧ agent.(WorkspaceAgent_AuthInstanceID) = non_null instanceID ∧
  ∃ resource job jobData build,
    GetWorkspaceResourceByID agent.(WorkspaceAgent_ResourceID) q = Ok resource ∧
    GetProvisionerJobByID resource.(WorkspaceResource_JobID) q = Ok job ∧
    job.(ProvisionerJob_Type) = ProvisionerJobTypeWorkspaceBuild ∧
    unmarshal_WorkspaceProvisionJob job.(ProvisionerJob_Input) = Ok jobData ∧
    GetWorkspaceBuildByID jobData.(WorkspaceProvisionJob_WorkspaceBuildID) q = Ok build ∧
    ∃ latest, GetLatestWorkspaceBuildByWorkspaceID build.(WorkspaceBuild_WorkspaceID) q = Ok latest ∧
      latest.(WorkspaceBuild_ID) = build.(WorkspaceBuild_ID).

Definition gives_token (p : Reply) : Prop := ∃ token, p = mkReply StatusOK (BodyAgentAuth token).
Hint Extern 1 (¬ gives_token _) => by intros (? & ?) : avoids.

Local Tactic Notation "later" hyp(H) "as" ident(a) ident(s1) ident(Ha) :=
  apply (avoids_skip (P := gives_token)) in H as (a & s1 & Ha & H); [|by eexists|by eauto 10 with avoids].

Lemma handleAuthInstanceID_gives instanceID s token s' :
  handleAuthInstanceID instanceID s = (Ok (inl (mkReply StatusOK (BodyAgentAuth token))), s') →
  s' = s ∧ ∃ agent, instance_agent instanceID agent s.(hs_world).(db) ∧
    token = mkWorkspaceAgentAuthenticateResponse (uuid_String agent.(WorkspaceAgent_AuthToken)).
Proof.
  intros Hrun. unfold handleAuthInstanceID in Hrun.
  later Hrun as agent s1 Hstep. apply yields_query in Hstep as [Hagent ->]; [|by intros e; destruct (errors_Is e _)].
  later Hrun as resource s1 Hstep. apply yields_query in Hstep as [Hresource ->]; [|done].
  later Hrun as job s1 Hstep. apply yields_query in Hstep as [Hjob ->]; [|done].
  later Hrun as u s1 Hstep. apply yields_require in Hstep as [Htype%bool_decide_eq_true ->]; [|done].
  later Hrun as jobData s1 Hstep. apply yields_lift in Hstep as [Hdata ->]; [|done].
  later Hrun as build s1 Hstep. apply yields_query in Hstep as [Hbuild ->]; [|done].
  later Hrun as latest s1 Hstep. apply yields_query in Hstep as [Hlatest ->]; [|done].
  later Hrun as v s1 Hstep. apply yields_require in Hstep as [Hsame%bool_decide_eq_true ->]; [|done].
  injection Hrun as <- <-. split; [done|]. exists agent. split; [|done].
  apply first_row_elem in Hagent as [Hin [Hvalid Hid%bool_decide_eq_true]%andb_true_iff].
  split; [exact (proj1 (elem_of_reverse _ _) Hin)|]. split; [|by exists resource, job, jobData, build; split_and!; [..|exists latest]].
  destruct (WorkspaceAgent_AuthInstanceID agent) as [iid b]. simpl in *. by subst.
Qed.

(** C33: An AWS instance only gets the token of an agent for a document that names the
    agent's instance and whose signature a certificate verifies: by its RSA key, over the
    digest of exactly that document. The certificate is one of the operator, or the
    default one of a region the operator gave none for. The agent belongs to the latest
    build of its workspace: an ID the cloud uses again gives no access. Nothing is
    written. *)
Theorem instance_token_current `{!JsonText, !Sha256, !Aws.RsaCertificates, !Validate AWSInstanceIdentityToken}
    defaults certificates body s token s' :
  postWorkspaceAuthAWSInstanceIdentity defaults certificates body s =
    (Ok (inl (mkReply StatusOK (BodyAgentAuth token))), s') →
  s' = s ∧
  ∃ req instanceID agent, body = inr req ∧
    Aws.signed_document defaults req.(AWSInstanceIdentityToken_Signature) req.(AWSInstanceIdentityToken_Document) certificates
      instanceID ∧
    instance_agent instanceID agent s.(hs_world).(db) ∧
    token.(WorkspaceAgentAuthenticateResponse_SessionToken) = uuid_String agent.(WorkspaceAgent_AuthToken).
Proof.
  intros Hrun. unfold postWorkspaceAuthAWSInstanceIdentity, unauthorized, Read in Hrun.
  later Hrun as req s1 Hstep.
  assert (body = inr req ∧ s1 = s) as [-> ->].
  { destruct body as [e|req']; [done|]. destruct (validate_Struct req') as [[e|errs]|]; [done..|].
    by apply yields_ret in Hstep as [-> ->]. }
  clear Hstep.
  later Hrun as identity s1 Hstep. apply yields_lift in Hstep as [Hvalid%Aws.aws_identity_sound ->]; [|done].
  apply handleAuthInstanceID_gives in Hrun as [-> (agent & Hagent & ->)]. split; [done|].
  by exists req, identity.(Aws.InstanceID), agent.
Qed.
End identity.

(** ** Terminals *)

Section terminals.
Context `{!Environment, !UuidText, !Authorizer, !Tailnet, !Websockets}.
Context (api : Options).

(** The agent has connected, has not disconnected since, and was seen of late. *)
Definition connected_at (agent : WorkspaceAgent) (now : time) : Prop :=
  Valid agent.(WorkspaceAgent_FirstConnectedAt) = true ∧ Valid agent.(WorkspaceAgent_LastConnectedAt) = true ∧
  null_val agent.(WorkspaceAgent_DisconnectedAt) <= null_val agent.(WorkspaceAgent_LastConnectedAt) ∧
  Sub now (null_val agent.(WorkspaceAgent_LastConnectedAt)) <= api.(AgentInactiveDisconnectTimeout).

Lemma agent_status_connected agent w status w' :
  agent_status api agent w = (Ok status, w') → status.1 = WorkspaceAgentConnected →
  connected_at agent (database_Now (clock w.(ticks))).
Proof.
  unfold agent_status, connected_at. destruct (Valid (WorkspaceAgent_FirstConnectedAt agent)); simpl.
  2:{ destruct (0 <? _); [|by intros [= <- <-]]. unfold mbind, gom_bind; simpl. intros [= <- <-]. simpl. by destruct (_ <? _). }
  destruct (After _ _) eqn:Hafter; [by intros [= <- <-]|]. unfold mbind, gom_bind; simpl. intros [= <- <-].
  destruct (Z.ltb_spec (AgentInactiveDisconnectTimeout api) (Sub (database_Now (clock w.(ticks)))
    (null_val (WorkspaceAgent_LastConnectedAt agent)))); simpl; [done|].
  destruct (Valid (WorkspaceAgent_LastConnectedAt agent)); [|done]. intros _. split_and!; [done..| |done].
  unfold After in Hafter. apply Z.ltb_ge in Hafter. lia.
Qed.

Lemma preserves_convertWorkspaceAgent agent apps : preserves db (convertWorkspaceAgent api agent apps).
Proof. change db with (λ w, id w.(db)). unfold convertWorkspaceAgent, agent_status. frame. Qed.

Lemma convert_connected agent apps w a w' :
  convertWorkspaceAgent api agent apps w = (Ok a, w') → a.(sdkWorkspaceAgent_Status) = WorkspaceAgentConnected →
  connected_at agent (database_Now (clock w.(ticks))).
Proof.
  unfold convertWorkspaceAgent. intros Hrun. apply bind_ok in Hrun as (envs & w1 & Henvs & Hrun).
  apply bind_ok in Hrun as (latency & w2 & Hlatency & Hrun). apply bind_ok in Hrun as (status & w3 & Hstatus & Hrun).
  apply lift_res_ok in Henvs as [_ ->]. apply lift_res_ok in Hlatency as [_ ->].
  injection Hrun as <- <-. by eapply agent_status_connected.
Qed.

(** A terminal is only opened on the agent that was asked for, for someone that may
    run commands in its workspace, and while the agent is connected; nothing is
    written. *)
Theorem terminal_authorized Acquire r workspace agent s t s' :
  workspaceAgentPTY api Acquire r workspace agent s = (Ok (inr (Some t)), s') →
  http_Authorize r ActionCreate (Workspace_ExecutionRBAC workspace) = Ok true ∧
  connected_at agent (database_Now (clock s.(hs_world).(ticks))) ∧
  t.(terminal_Agent) = agent.(WorkspaceAgent_ID) ∧ Acquire agent.(WorkspaceAgent_ID) = None ∧
  0 <= t.(terminal_Height) < 2 ^ 16 ∧ 0 <= t.(terminal_Width) < 2 ^ 16 ∧
  s'.(hs_world).(db) = s.(hs_world).(db).
Proof.
  intros Hrun. change (yields (workspaceAgentPTY api Acquire r workspace agent) s (Some t) s') in Hrun.
  unfold workspaceAgentPTY in Hrun. apply yields_bind in Hrun as (u & s1 & Hauth & Hrun).
  apply yields_authorize in Hauth as [Hauth ->]; [|done]. apply yields_bind in Hrun as (u' & s1 & Hconn & Hrun).
  apply yields_bind in Hconn as (a & s2 & Hconvert & Hconn). apply yields_require in Hconn as [Hstatus%bool_decide_eq_true ->]; [|done].
  apply yields_catch in Hconvert as (w & Hconvert & ->); [|done].
  pose proof (preserves_convertWorkspaceAgent agent [] s.(hs_world)) as Hdb. rewrite Hconvert in Hdb. simpl in Hdb.
  apply yields_bind in Hrun as (reconnect & s1 & Hreconnect & Hrun).
  destruct (uuid_Parse _); [|done]. apply yields_ret in Hreconnect as [-> ->].
  apply yields_bind in Hrun as (u'' & s1 & Haccept & Hrun). unfold accept_websocket in Haccept.
  destruct (websocket_Accept r); [done|]. apply yields_ret in Haccept as [-> ->]. apply yields_ret in Hrun as [Ht ->].
  destruct (Acquire _); [done|]. injection Ht as ->. unfold uint16_wrap. simpl.
  split_and!; try done; [by eapply convert_connected|apply Z.mod_pos_bound..]; lia.
Qed.
End terminals.

(** ** The health of applications *)

Section health.
Context `{!Environment, !UuidText}.

Definition reportable (h : WorkspaceAppHealth) : Prop :=
  h ∈ [WorkspaceAppHealthInitializing; WorkspaceAppHealthHealthy; WorkspaceAppHealthUnhealthy].
(** The row to write for a report, if there is one. *)
Definition new_app (apps : list WorkspaceApp) (report : uuid * WorkspaceAppHealth) : option WorkspaceApp :=
  match find_first (λ app, app.(WorkspaceApp_ID) == report.1) apps with
  | Some old => if old.(WorkspaceApp_Health) == report.2 then None else Some (old <| WorkspaceApp_Health := report.2 |>)
  | None => None
  end.
Definition may_report (apps : list WorkspaceApp) (report : uuid * WorkspaceAppHealth) : Prop :=
  ∃ old, find_first (λ app, app.(WorkspaceApp_ID) == report.1) apps = Some old ∧
    old.(WorkspaceApp_HealthcheckUrl) ≠ EmptyString ∧ reportable report.2.

Lemma new_healths_yields apps healths s newApps s' :
  yields (new_healths apps healths) s newApps s' →
  s' = s ∧ Forall (may_report apps) healths ∧ newApps = omap (new_app apps) healths.
Proof.
  revert s newApps s'. induction healths as [|[id h] healths IH]; intros s newApps s' Hy; [by apply yields_ret in Hy as [-> ->]|].
  cbn [new_healths] in Hy. apply yields_bind in Hy as (old & s1 & Hold & Hy).
  destruct (find_first _ apps) as [old'|] eqn:Hfind; [|done]. apply yields_ret in Hold as [-> ->].
  apply yields_bind in Hy as (u & s1 & Hurl & Hy). apply yields_require in Hurl as [Hurl ->]; [|done].
  apply yields_bind in Hy as (u' & s1 & Hh & Hy).
  assert (reportable h ∧ s1 = s) as [Hreport ->] by (unfold reportable; destruct h; try done; by apply yields_ret in Hh as [_ ->]; split; [set_solver|]).
  apply yields_bind in Hy as (rest & s1 & Hrest & Hy). apply IH in Hrest as (-> & Hall & ->). apply yields_ret in Hy as [-> ->].
  split; [done|]. split; [constructor; [|done]; exists old'; split_and!; [done| |done]; by apply negb_true_iff, bool_decide_eq_false in Hurl|].
  assert (new_app apps (id, h) = if old'.(WorkspaceApp_Health) == h then None else Some (old' <| WorkspaceApp_Health := h |>)) as Hnew
    by (unfold new_app; simpl; by rewrite Hfind).
  cbn [omap list_omap]. rewrite Hnew. by repeat case_bool_decide.
Qed.

Definition set_from (app new : WorkspaceApp) : WorkspaceApp :=
  if app.(WorkspaceApp_ID) == new.(WorkspaceApp_ID) then app <| WorkspaceApp_Health := new.(WorkspaceApp_Health) |> else app.
Lemma set_from_ID app new : (set_from app new).(WorkspaceApp_ID) = app.(WorkspaceApp_ID).
Proof. unfold set_from. by destruct (_ == _). Qed.

Definition set_apps (f : WorkspaceApp → WorkspaceApp) (s : hstate) : hstate :=
  s <| hs_world := s.(hs_world) <| db := s.(hs_world).(db)
    <| workspaceApps := f <$> s.(hs_world).(db).(workspaceApps) |> |> |>.

Lemma update_health_run new s :
  NoDup (WorkspaceApp_ID <$> s.(hs_world).(db).(workspaceApps)) →
  new.(WorkspaceApp_ID) ∈ WorkspaceApp_ID <$> s.(hs_world).(db).(workspaceApps) →
  update_health new s = (Ok (inr tt), set_apps (λ app, set_from app new) s).
Proof.
  intros Hnd (row & Hid & Hrow)%list_elem_of_fmap. unfold update_health. rewrite catch_store.
  unfold UpdateWorkspaceAppHealthByID. simpl. rewrite Hid. rewrite (update_row_unique workspaceApps WorkspaceApp_ID) by done.
  unfold set_apps, set_from. by rewrite Hid.
Qed.
Lemma update_healths_run news s :
  NoDup (WorkspaceApp_ID <$> s.(hs_world).(db).(workspaceApps)) →
  Forall (λ new, new.(WorkspaceApp_ID) ∈ WorkspaceApp_ID <$> s.(hs_world).(db).(workspaceApps)) news →
  update_healths news s = (Ok (inr tt), set_apps (λ app, foldl set_from app news) s).
Proof.
  revert s. induction news as [|new news IH]; intros s Hnd Hin.
  - simpl. unfold set_apps. rewrite list_fmap_id. by destruct s as [[[]]].
  - apply Forall_cons in Hin as [Hnew Hin]. cbn [update_healths]. erewrite h_bind_ok by by apply update_health_run.
    assert (WorkspaceApp_ID <$> (set_apps (λ app, set_from app new) s).(hs_world).(db).(workspaceApps) =
            WorkspaceApp_ID <$> s.(hs_world).(db).(workspaceApps)) as Hids.
    { simpl. rewrite <- list_fmap_compose. apply list_fmap_ext. intros i app _. apply set_from_ID. }
    rewrite IH by (rewrite Hids; done). unfold set_apps. simpl. rewrite <- list_fmap_compose. done.
Qed.

(** The reported health. *)
Definition with_health (healths : gmap uuid WorkspaceAppHealth) (app : WorkspaceApp) : WorkspaceApp :=
  match healths !! app.(WorkspaceApp_ID) with Some h => app <| WorkspaceApp_Health := h |> | None => app end.

Lemma new_app_ID apps report new : new_app apps report = Some new → new.(WorkspaceApp_ID) = report.1.
Proof.
  unfold new_app. destruct (find_first_spec (λ app, app.(WorkspaceApp_ID) == report.1) apps)
    as [(pre & old & post & -> & _ & Hid & ->)|[_ ->]]; [|done].
  destruct (_ == report.2); [done|]. intros [= <-]. by apply bool_decide_eq_true in Hid.
Qed.
Lemma set_from_others apps app reports :
  app.(WorkspaceApp_ID) ∉ reports.*1 → foldl set_from app (omap (new_app apps) reports) = app.
Proof.
  induction reports as [|report reports IH]; [done|]. intros Hnot. cbn [omap list_omap].
  destruct (new_app apps report) as [new|] eqn:Hnew; [|apply IH; set_solver]. simpl.
  apply new_app_ID in Hnew. unfold set_from at 2. rewrite bool_decide_eq_false_2 by (rewrite Hnew; set_solver).
  apply IH. set_solver.
Qed.
Lemma set_from_reports apps table app reports :
  NoDup (WorkspaceApp_ID <$> table) → NoDup reports.*1 → apps ⊆ table → app ∈ table → Forall (may_report apps) reports →
  foldl set_from app (omap (new_app apps) reports) = with_health (list_to_map reports) app.
Proof.
  intros Hids Hreports Hsub Happ. unfold with_health.
  induction reports as [|[id h] reports IH]; intros Hall; [by simpl; rewrite lookup_empty|].
  apply Forall_cons in Hall as [(old & Hold & _) Hall]. apply NoDup_cons in Hreports as [Hnot Hreports]. simpl in Hold, Hnot.
  destruct (decide (app.(WorkspaceApp_ID) = id)) as [<-|Hne].
  - simpl. rewrite lookup_insert_eq.
    destruct (find_first_spec (λ a, a.(WorkspaceApp_ID) == app.(WorkspaceApp_ID)) apps)
      as [(pre & old' & post & Happs & _ & Hid%bool_decide_eq_true & Hfirst)|[_ Hfirst]]; [|congruence].
    assert (old' = app) as -> by (eapply (NoDup_key_inj WorkspaceApp_ID); [exact Hids|apply Hsub; set_solver|done|done]).
    unfold new_app at 1. simpl. rewrite Hfirst. case_bool_decide as Hh.
    + rewrite set_from_others by done. by destruct app; simpl in *; subst.
    + simpl. unfold set_from at 2. rewrite bool_decide_eq_true_2 by done. by rewrite set_from_others.
  - simpl. rewrite lookup_insert_ne by done. rewrite <- IH by done.
    destruct (new_app apps (id, h)) as [new|] eqn:Hnew; [|done]. simpl. apply new_app_ID in Hnew. simpl in Hnew.
    unfold set_from at 2. by rewrite bool_decide_eq_false_2 by congruence.
Qed.

Lemma may_report_app apps report : may_report apps report →
  reportable report.2 ∧ ∃ app, app ∈ apps ∧ app.(WorkspaceApp_ID) = report.1 ∧ app.(WorkspaceApp_HealthcheckUrl) ≠ EmptyString.
Proof.
  intros (old & Hold & Hurl & Hh). split; [done|]. exists old.
  destruct (find_first_spec (λ app, app.(WorkspaceApp_ID) == report.1) apps)
    as [(pre & old' & post & -> & _ & Hid%bool_decide_eq_true & Hfirst)|[_ Hnone]]; [|congruence].
  assert (old = old') as -> by congruence. split_and!; [set_solver|done..].
Qed.
Lemma new_apps_in apps table reports :
  apps ⊆ table → Forall (may_report apps) reports →
  Forall (λ new, new.(WorkspaceApp_ID) ∈ WorkspaceApp_ID <$> table) (omap (new_app apps) reports).
Proof.
  intros Hsub Hall. apply Forall_forall. intros new (report & Hin & Hnew)%list_elem_of_omap. apply new_app_ID in Hnew as ->.
  rewrite Forall_forall in Hall. apply Hall, may_report_app in Hin as (_ & app & Happ & <- & _).
  apply list_elem_of_fmap. exists app. split; [done|by apply Hsub].
Qed.

Context `{!Validate PostWorkspaceAppHealthsRequest}.

Definition is_ok (p : Reply) : Prop := p.(Reply_Status) = StatusOK.
Hint Extern 1 (¬ is_ok _) => done : avoids.
Lemma avoids_new_healths apps reports : avoids is_ok (new_healths apps reports).
Proof. induction reports as [|[id h] reports IH]; cbn [new_healths]; eauto 20 with avoids. Qed.
Lemma avoids_update_healths news : avoids is_ok (update_healths news).
Proof. induction news as [|new news IH]; cbn [update_healths]; unfold update_health; eauto 20 with avoids. Qed.
Lemma avoids_Read {T} `{!Validate T} (body : json_body T) : avoids is_ok (Read body).
Proof. unfold Read. destruct body as [e|v]; [|destruct (validate_Struct v) as [[]|]]; eauto with avoids. Qed.
Hint Resolve avoids_new_healths avoids_update_healths avoids_Read : avoids.

Lemma Read_yields {T} `{!Validate T} (body : json_body T) s v s' : yields (Read body) s v s' → body = inr v ∧ s' = s.
Proof.
  unfold Read. destruct body as [e|v']; [done|]. destruct (validate_Struct v') as [[]|]; [done..|]. by intros [-> ->]%yields_ret.
Qed.
Local Tactic Notation "later" hyp(H) "as" ident(a) ident(s1) ident(Ha) :=
  apply (avoids_skip (P := is_ok)) in H as (a & s1 & Ha & H); [|done|by eauto 10 with avoids].

(** When an agent's report of the health of its applications is accepted, each
    application that is reported has the reported health and nothing else changed; all
    of them are applications of the agent that are checked, with a health that can be
    reported. *)
Theorem app_health_exact agent body s p s' :
  NoDup (WorkspaceApp_ID <$> s.(hs_world).(db).(workspaceApps)) →
  postWorkspaceAppHealth agent body s = (Ok (inl p), s') → p.(Reply_Status) = StatusOK →
  ∃ req, body = inr req ∧
    s'.(hs_world).(db) = s.(hs_world).(db) <| workspaceApps :=
      with_health req.(PostWorkspaceAppHealthsRequest_Healths) <$> s.(hs_world).(db).(workspaceApps) |> ∧
    ∀ id h, req.(PostWorkspaceAppHealthsRequest_Healths) !! id = Some h →
      reportable h ∧ ∃ app, app ∈ s.(hs_world).(db).(workspaceApps) ∧ app.(WorkspaceApp_ID) = id ∧
        app.(WorkspaceApp_AgentID) = agent.(WorkspaceAgent_ID) ∧ app.(WorkspaceApp_HealthcheckUrl) ≠ EmptyString.
Proof.
  intros Hids Hrun Hok. unfold postWorkspaceAppHealth in Hrun. later Hrun as req s1 Hread. apply Read_yields in Hread as [-> ->].
  cbv zeta in Hrun. later Hrun as u s1 Hempty. apply yields_require in Hempty as [_ ->]; [|done].
  later Hrun as apps s1 Happs. apply yields_query in Happs as [Happs ->]; [|done].
  later Hrun as news s1 Hnews. apply new_healths_yields in Hnews as (-> & Hall & ->).
  later Hrun as u' s1 Hupdate.
  assert (apps = filter (λ app, app.(WorkspaceApp_AgentID) = agent.(WorkspaceAgent_ID)) s.(hs_world).(db).(workspaceApps)) as Hfilter.
  { revert Happs. unfold GetWorkspaceAppsByAgentID, rows_or_none. by destruct (filter _ _); [|intros [= <-]]. }
  assert (apps ⊆ s.(hs_world).(db).(workspaceApps)) as Hsub by (intros app Happ; subst; by apply list_elem_of_filter in Happ as []).
  unfold yields in Hupdate. rewrite update_healths_run in Hupdate by (done || by apply new_apps_in). injection Hupdate as <- <-.
  later Hrun as resource s1 Hr. apply yields_query in Hr as [_ ->]; [|done].
  later Hrun as job s1 Hj. apply yields_query in Hj as [_ ->]; [|done].
  later Hrun as workspace s1 Hw. apply yields_query in Hw as [_ ->]; [|done].
  later Hrun as v s1 Hpub. apply yields_run in Hpub as (w & Hpub & ->). injection Hrun as <- <-.
  exists req. split; [done|].
  assert (w.(db) = (set_apps (λ app, foldl set_from app (omap (new_app apps)
      (map_to_list req.(PostWorkspaceAppHealthsRequest_Healths)))) s).(hs_world).(db)) as Hdb.
  { exact (preserves_run db _ _ _ _ (preserves_publishWorkspaceUpdate workspace.(Workspace_ID)) Hpub). }
  change ((s <| hs_world := w |>).(hs_world).(db)) with w.(db). simpl. rewrite Hdb.
  split.
  - assert ((λ app, foldl set_from app (omap (new_app apps) (map_to_list req.(PostWorkspaceAppHealthsRequest_Healths)))) <$>
              s.(hs_world).(db).(workspaceApps) =
            with_health req.(PostWorkspaceAppHealthsRequest_Healths) <$> s.(hs_world).(db).(workspaceApps)) as Hset.
    { apply list_fmap_ext. intros i app Happ%list_elem_of_lookup_2.
      rewrite (set_from_reports apps s.(hs_world).(db).(workspaceApps)) by (done || apply NoDup_fst_map_to_list).
      by rewrite list_to_map_to_list. }
    unfold set_apps. simpl. by rewrite Hset.
  - intros id h Hid. apply elem_of_map_to_list in Hid. rewrite Forall_forall in Hall.
    apply Hall, may_report_app in Hid as (Hh & app & Happ & Hid & Hurl). simpl in *. split; [done|]. exists app. subst apps.
    by apply list_elem_of_filter in Happ as [? ?].
Qed.
End health.

(** ** Statistics *)

Section stats.
Context `{!Environment, !UuidText, !Websockets}.

(** The reports that differ from the one before. *)
Fixpoint changes (last : AgentStatsReportResponse) (reports : list AgentStatsReportResponse) : list AgentStatsReportResponse :=
  match reports with
  | [] => []
  | rep :: reports => if decide (last = rep) then changes last reports else rep :: changes rep reports
  end.
(** The last report that was stored, if it can be read. *)
Definition last_report (agentID : uuid) (q : data) : option AgentStatsReportResponse :=
  match GetLatestAgentStat agentID q with
  | Ok stat => match unmarshal_report stat.(AgentStat_Payload) with Ok rep => Some rep | _ => None end
  | _ => Some zero_report
  end.
Definition stat_of (agent : WorkspaceAgent) (workspace : Workspace) (stat : AgentStat) : Prop :=
  stat.(AgentStat_AgentID) = agent.(WorkspaceAgent_ID) ∧ stat.(AgentStat_WorkspaceID) = workspace.(Workspace_ID) ∧
  stat.(AgentStat_UserID) = workspace.(Workspace_OwnerID) ∧ stat.(AgentStat_TemplateID) = workspace.(Workspace_TemplateID).

Lemma activity_bump_no_panic id : no_panic (activity_bump id).
Proof.
  unfold activity_bump. apply no_panic_bind.
  { apply no_panic_attempt, no_panic_query. intros q. unfold GetLatestWorkspaceBuildByWorkspaceID. by repeat case_match. }
  intros [e|build]; [by destruct (errors_Is e _)|]. apply no_panic_bind; [eauto with no_panic|intros job].
  repeat case_match; try done. apply no_panic_bind; [done|intros now]. case_match; [done|].
  do 2 (apply no_panic_bind; [done|intros ?]). apply no_panic_bind; [|done]. apply no_panic_wrap, no_panic_store.
  intros q. unfold UpdateWorkspaceBuildByID, update_row. by destruct (update_first _ _ _) as [[]|].
Qed.
Definition stats_tables (q : data) : list AgentStat * list Workspace := (q.(agentStats), q.(workspaces)).
Lemma activity_bump_run id w :
  ∃ w', activityBumpWorkspace id w = (Ok tt, w') ∧ w'.(db).(agentStats) = w.(db).(agentStats) ∧
    w'.(db).(workspaces) = w.(db).(workspaces).
Proof.
  assert (preserves (λ w, stats_tables w.(db)) (activityBumpWorkspace id)) as Hframe.
  { apply preserves_void, preserves_attempt. unfold activity_bump. apply preserves_bind; [frame|intros [e|build]];
      [by destruct (errors_Is e _)|]. apply preserves_bind; [frame|intros job]. do 2 (case_match; [done|]).
    apply preserves_bind; [frame|intros now]. case_match; [done|].
    do 2 (apply preserves_bind; [frame|intros ?]). apply preserves_void, preserves_wrap, (preserves_store stats_tables).
    intros q. unfold UpdateWorkspaceBuildByID, update_row. by destruct (update_first _ _ _) as [[]|]. }
  specialize (Hframe w). pose proof (activity_bump_no_panic id w) as Hpanic. revert Hframe. unfold activityBumpWorkspace.
  rewrite void_run. unfold attempt. destruct (activity_bump id w) as [[u|e|p] w1]; [..|done]; intros [= Hs Hw]; by exists w1.
Qed.

Lemma update_last_used_run workspace now w :
  workspace.(Workspace_ID) ∈ Workspace_ID <$> w.(db).(workspaces) →
  ∃ w', update_last_used workspace now w = (Ok tt, w') ∧ w'.(db).(agentStats) = w.(db).(agentStats) ∧
    Workspace_ID <$> w'.(db).(workspaces) = Workspace_ID <$> w.(db).(workspaces).
Proof.
  intros (row & Hid & Hrow)%list_elem_of_fmap.
  unfold update_last_used, store, zoom, UpdateWorkspaceLastUsedAt, update_workspace. rewrite void_run. unfold update_row.
  destruct (find_first_spec (λ ws, ws.(Workspace_ID) == workspace.(Workspace_ID)) w.(db).(workspaces))
    as [(pre & x & post & Hl & Hpre & Hx & _)|[Hnone _]].
  - cbn [UpdateWorkspaceLastUsedAtParams_ID]. rewrite Hl, update_first_app by done. eexists. split; [reflexivity|]. simpl.
    by rewrite !fmap_app, !fmap_cons.
  - rewrite Forall_forall in Hnone. apply Hnone, bool_decide_eq_false in Hrow. by rewrite Hid in Hrow.
Qed.

Lemma read_reports_run agent workspace last reports w :
  workspace.(Workspace_ID) ∈ Workspace_ID <$> w.(db).(workspaces) →
  ∃ stats w', read_reports agent workspace last reports w = (Ok tt, w') ∧ w'.(db).(agentStats) = w.(db).(agentStats) ++ stats ∧
    AgentStat_Payload <$> stats = marshal_report <$> changes last reports ∧ Forall (stat_of agent workspace) stats.
Proof.
  revert last w. induction reports as [|rep reports IH]; intros last w Hin.
  { exists [], w. split_and!; [done|by rewrite app_nil_r|done|done]. }
  cbn [read_reports changes]. case_bool_decide as Hsame; [by rewrite decide_True; [apply IH|]|]. rewrite decide_False by done.
  destruct (activity_bump_run workspace.(Workspace_ID) w) as (w1 & Hbump & Hstats & Hws).
  set (w2 := (insert_stat (database_Now (clock w1.(ticks))) agent workspace (marshal_report rep) (w1 <| ticks := S w1.(ticks) |>)).2).
  set (w3 := w2 <| ticks := S w2.(ticks) |>).
  destruct (update_last_used_run workspace (database_Now (clock w2.(ticks))) w3) as (w4 & Hused & Hstats4 & Hids4);
    [simpl; by rewrite Hws|].
  destruct (IH rep w4) as (stats & w5 & Hrun & Hstats5 & Hpayload & Hall); [by rewrite Hids4; simpl; rewrite Hws|].
  eexists (_ :: stats), w5. split.
  { erewrite bind_step by exact Hbump. erewrite bind_step by reflexivity. erewrite bind_step by reflexivity.
    cbv beta iota. erewrite (bind_step Now) by reflexivity. erewrite bind_step by (apply attempt_step; exact Hused). exact Hrun. }
  rewrite Hstats5, Hstats4. simpl. rewrite Hstats, <- app_assoc. split_and!; [reflexivity|exact (f_equal (cons _) Hpayload)|by constructor].
Qed.

Lemma run_ok {A} (m : GoM world A) s a w : m s.(hs_world) = (Ok a, w) → run m s = (Ok (inr a), s <| hs_world := w |>).
Proof. intros Hm. unfold run, on_world, zoom. by rewrite Hm. Qed.
Lemma unmarshal_report_no_panic m : panics (unmarshal_report m) = false.
Proof.
  unfold unmarshal_report, unmarshal_struct. destruct (raw_json m) as [[| | | | | |fields]|]; try done.
  apply unmarshal_fields_no_panic. intros k j x. unfold unmarshal_int64.
  destruct (EqualFold k _); [|destruct (EqualFold k _); [|destruct (EqualFold k _); [|done]]]; destruct j; try done; by destruct (_ && _).
Qed.

(** The connection an agent reports its statistics on stores a report exactly when
    it differs from the one before, the first from the last that is stored; every row
    is that of the agent, its workspace and the owner. *)
Theorem stats_deduplicated r agent reports workspace s :
  GetWorkspaceByAgentID agent.(WorkspaceAgent_ID) s.(hs_world).(db) = Ok workspace → websocket_Accept r = None →
  ∃ stats s', workspaceAgentReportStatsWebsocket r agent reports s = (Ok (inr tt), s') ∧
    s'.(hs_world).(db).(agentStats) = s.(hs_world).(db).(agentStats) ++ stats ∧
    AgentStat_Payload <$> stats =
      marshal_report <$> from_option (λ last, changes last reports) [] (last_report agent.(WorkspaceAgent_ID) s.(hs_world).(db)) ∧
    Forall (stat_of agent workspace) stats.
Proof.
  intros Hworkspace Haccept. unfold workspaceAgentReportStatsWebsocket, stats_workspace, accept_websocket.
  rewrite h_bind_run, catch_query, Hworkspace, Haccept. erewrite h_bind_ok by reflexivity.
  assert (workspace.(Workspace_ID) ∈ Workspace_ID <$> s.(hs_world).(db).(workspaces)) as Hin.
  { unfold GetWorkspaceByAgentID in Hworkspace. repeat (destruct (find_or_none _ _ _); [simpl in Hworkspace|done..]).
    apply first_row_elem in Hworkspace as [Hin _]. apply list_elem_of_fmap. by exists workspace. }
  unfold last_report. destruct (GetLatestAgentStat _ _) as [stat|e|p] eqn:Hlatest.
  - pose proof (unmarshal_report_no_panic stat.(AgentStat_Payload)) as Hpanic.
    destruct (unmarshal_report _) as [last|e|p] eqn:Hlast; [| |done].
    + destruct (read_reports_run agent workspace last reports s.(hs_world) Hin) as (stats & w' & Hrun & Hstats).
      exists stats, (s <| hs_world := w' |>). split; [|exact Hstats]. apply run_ok.
      erewrite bind_step by (apply attempt_step; unfold query; by rewrite Hlatest). cbv beta iota.
      by erewrite bind_step by (apply attempt_step; unfold lift_res; by rewrite Hlast).
    + exists [], (s <| hs_world := s.(hs_world) |>). split; [|split_and!; [by rewrite app_nil_r|done|done]]. apply run_ok.
      erewrite bind_step by (apply attempt_step; unfold query; by rewrite Hlatest). cbv beta iota.
      unfold mbind, gom_bind, attempt, lift_res. by rewrite Hlast.
  - destruct (read_reports_run agent workspace zero_report reports s.(hs_world) Hin) as (stats & w' & Hrun & Hstats).
    exists stats, (s <| hs_world := w' |>). split; [|exact Hstats]. apply run_ok. unfold mbind, gom_bind, attempt, query. by rewrite Hlatest.
  - unfold GetLatestAgentStat in Hlatest. by destruct (latest_agent_stat _ _).
Qed.
End stats.

(** ** The connection of an agent *)

Section session.
Context `{!Environment, !UuidText, !Websockets}.
Context (api : Options).

(** What others do between the ticks of the connection: they may take time, but leave
    the store alone. *)
Definition quiet_other (m : GoM world unit) : Prop :=
  ∀ w, panics (m w).1 = false ∧ (m w).2.(db) = w.(db) ∧ (w.(ticks) <= (m w).2.(ticks))%nat.

Definition set_times (sess : agent_session) (updated : time) (a : WorkspaceAgent) : WorkspaceAgent :=
  a <| WorkspaceAgent_FirstConnectedAt := sess.(session_FirstConnectedAt) |>
    <| WorkspaceAgent_LastConnectedAt := sess.(session_LastConnectedAt) |>
    <| WorkspaceAgent_DisconnectedAt := sess.(session_DisconnectedAt) |>
    <| WorkspaceAgent_UpdatedAt := updated |>.
(** The row of the agent has the times of the session, and nothing else changed. *)
Definition recorded (sess : agent_session) (q q' : data) : Prop :=
  ∃ updated, q' = q <| workspaceAgents :=
    (λ a, if a.(WorkspaceAgent_ID) == sess.(session_Agent) then set_times sess updated a else a) <$> q.(workspaceAgents) |>.

Lemma updateConnectionTimes_run sess w :
  NoDup (WorkspaceAgent_ID <$> w.(db).(workspaceAgents)) →
  sess.(session_Agent) ∈ WorkspaceAgent_ID <$> w.(db).(workspaceAgents) →
  ∃ w', updateConnectionTimes api sess w = (Ok tt, w') ∧ recorded sess w.(db) w'.(db) ∧ w'.(ticks) = S w.(ticks).
Proof.
  intros Hids (agent & Hid & Hagent)%list_elem_of_fmap. set (now := database_Now (clock w.(ticks))).
  exists (w <| ticks := S w.(ticks) |> <| db := w.(db) <| workspaceAgents :=
    (λ a, if a.(WorkspaceAgent_ID) == sess.(session_Agent) then set_times sess now a else a) <$> w.(db).(workspaceAgents) |> |>).
  split_and!; [|by exists now|done].
  unfold updateConnectionTimes. erewrite bind_step by reflexivity.
  unfold store, zoom, UpdateWorkspaceAgentConnectionByID. cbn [UpdateWorkspaceAgentConnectionByIDParams_ID]. rewrite Hid.
  rewrite (update_row_unique workspaceAgents WorkspaceAgent_ID) by done. reflexivity.
Qed.

(** A later write of the session replaces an earlier one. *)
Lemma recorded_trans sess sess' q q1 q2 :
  sess'.(session_Agent) = sess.(session_Agent) → recorded sess q q1 → recorded sess' q1 q2 → recorded sess' q q2.
Proof.
  intros Hsame [u ->] [u' ->]. exists u'. simpl. rewrite <- list_fmap_compose, Hsame.
  assert ((λ a, if a.(WorkspaceAgent_ID) == sess.(session_Agent) then set_times sess' u' a else a) ∘
          (λ a, if a.(WorkspaceAgent_ID) == sess.(session_Agent) then set_times sess u a else a) <$> q.(workspaceAgents) =
          (λ a, if a.(WorkspaceAgent_ID) == sess.(session_Agent) then set_times sess' u' a else a) <$> q.(workspaceAgents)) as ->; [|done].
  apply list_fmap_ext. intros i a _. unfold compose. destruct (a.(WorkspaceAgent_ID) == sess.(session_Agent)) eqn:Ha; [|by rewrite Ha].
  assert (((set_times sess u a).(WorkspaceAgent_ID) == sess.(session_Agent)) = true) as -> by exact Ha. done.
Qed.
Lemma recorded_ids sess q q' : recorded sess q q' →
  WorkspaceAgent_ID <$> q'.(workspaceAgents) = WorkspaceAgent_ID <$> q.(workspaceAgents) ∧
  q'.(workspaceBuilds) = q.(workspaceBuilds).
Proof.
  intros [u ->]. split; [|done]. simpl. rewrite <- list_fmap_compose. apply list_fmap_ext.
  intros i a _. unfold compose. by destruct (_ == _).
Qed.

(** The store at the start, where the agent is and its build is the latest. *)
Context (q : data) (build : WorkspaceBuild) (agent : WorkspaceAgent).
Definition session_start : Prop :=
  NoDup (WorkspaceAgent_ID <$> q.(workspaceAgents)) ∧ agent ∈ q.(workspaceAgents) ∧
  ∃ latest, GetLatestWorkspaceBuildByWorkspaceID build.(WorkspaceBuild_WorkspaceID) q = Ok latest ∧
    latest.(WorkspaceBuild_ID) = build.(WorkspaceBuild_ID).
(** The session wrote its times. *)
Definition in_session (sess : agent_session) (w : world) : Prop :=
  sess.(session_Agent) = agent.(WorkspaceAgent_ID) ∧ recorded sess q w.(db).

Lemma write_times sess sess' w :
  session_start → in_session sess w ∨ w.(db) = q → sess'.(session_Agent) = agent.(WorkspaceAgent_ID) →
  ∃ w', updateConnectionTimes api sess' w = (Ok tt, w') ∧ in_session sess' w' ∧ w'.(ticks) = S w.(ticks).
Proof.
  intros (Hids & Hagent & _) Hw Hid.
  assert (WorkspaceAgent_ID <$> w.(db).(workspaceAgents) = WorkspaceAgent_ID <$> q.(workspaceAgents)) as Hsame
    by (destruct Hw as [[_ [Hsame _]%recorded_ids]| ->]; done).
  destruct (updateConnectionTimes_run sess' w) as (w' & Hrun & Hrec & Hticks); [by rewrite Hsame| |].
  { rewrite Hsame, Hid. apply list_elem_of_fmap. by exists agent. }
  exists w'. split_and!; [done|split; [done|]|done].
  destruct Hw as [[Hid' Hrec']| <-]; [|done]. eapply recorded_trans; [|exact Hrec'|exact Hrec]. congruence.
Qed.
Lemma latest_build_run sess w : session_start → in_session sess w → ensureLatestBuild build w = (Ok tt, w).
Proof.
  intros (_ & _ & latest & Hlatest & Hid) [_ Hrec]. unfold ensureLatestBuild.
  erewrite bind_step; [by rewrite bool_decide_eq_true_2|]. unfold query. destruct Hrec as [u ->].
  change (GetLatestWorkspaceBuildByWorkspaceID _ _) with
    (GetLatestWorkspaceBuildByWorkspaceID build.(WorkspaceBuild_WorkspaceID) q). by rewrite Hlatest.
Qed.
Lemma session_tick_run sess w : session_start → in_session sess w →
  let sess' := sess <| session_LastConnectedAt := non_null (database_Now (clock w.(ticks))) |> in
  ∃ w', session_tick api build sess w = (Ok (sess', true), w') ∧ in_session sess' w' ∧ (w.(ticks) < w'.(ticks))%nat.
Proof.
  intros Hstart Hin sess'. destruct (write_times sess sess' (w <| ticks := S w.(ticks) |>)) as (w' & Hrun & Hin' & Hticks);
    [done|by left|by destruct Hin|].
  exists w'. split_and!; [|done|rewrite Hticks; simpl; lia]. unfold session_tick. erewrite bind_step by reflexivity.
  erewrite bind_step by (apply attempt_step; exact Hrun). cbv beta iota.
  by erewrite bind_step by (apply attempt_step, (latest_build_run sess'); done).
Qed.

(** The session was last seen at reading [n] of the clock. *)
Definition seen_at (sess0 : agent_session) (n : nat) (sess : agent_session) (w : world) : Prop :=
  in_session sess w ∧ sess = sess0 <| session_LastConnectedAt := non_null (database_Now (clock n)) |> ∧ (n < w.(ticks))%nat.

Lemma quiet_other_run m w : quiet_other m → ∃ x w', attempt m w = (Ok x, w') ∧ w'.(db) = w.(db) ∧ (w.(ticks) <= w'.(ticks))%nat.
Proof. intros Hm. destruct (Hm w) as (Hpanic & Hdb & Hticks). unfold attempt. destruct (m w) as [[] w']; [by eauto..|done]. Qed.
Lemma session_loop_run others sess0 n sess w :
  session_start → Forall quiet_other others → seen_at sess0 n sess w →
  ∃ n' sess' w', session_loop api build sess others w = (Ok sess', w') ∧ seen_at sess0 n' sess' w' ∧ (n <= n')%nat ∧
    (w.(ticks) <= w'.(ticks))%nat.
Proof.
  intros Hstart Hothers. revert n sess w.
  induction Hothers as [|other others Hother _ IH]; intros n sess w Hseen; [by exists n, sess, w|]. cbn [session_loop].
  destruct (quiet_other_run other w Hother) as (x & w1 & Hrun1 & Hdb1 & Hticks1).
  destruct Hseen as (Hin & Hsess & Hn).
  destruct (session_tick_run sess w1 Hstart) as (w2 & Hrun2 & Hin2 & Hticks2); [by destruct Hin; split; [|rewrite Hdb1]|].
  destruct (IH w1.(ticks) (sess <| session_LastConnectedAt := non_null (database_Now (clock w1.(ticks))) |>) w2)
    as (n' & sess' & w' & Hrun & Hseen & Hle & Hticks); [split_and!; [done|by subst|done]|].
  exists n', sess', w'. split_and!; [|done|lia|lia].
  erewrite bind_step by exact Hrun1. erewrite bind_step by exact Hrun2. exact Hrun.
Qed.

(** The connection up to the point where it is closed. *)
Definition session_so_far (others : list (GoM world unit)) : GoM world agent_session :=
  sess ← open_session agent;
  _ ← updateConnectionTimes api sess;
  _ ← publishWorkspaceUpdate build.(WorkspaceBuild_WorkspaceID);
  session_loop api build sess others.

(** The times of the agent as the connection found them, with when it was first seen. *)
Definition opened (first : time) : agent_session :=
  mkSession agent.(WorkspaceAgent_ID)
    (if Valid agent.(WorkspaceAgent_FirstConnectedAt) then agent.(WorkspaceAgent_FirstConnectedAt) else non_null first)
    (non_null first) agent.(WorkspaceAgent_DisconnectedAt).
Lemma open_session_run w :
  ∃ n w', open_session agent w = (Ok ((opened (database_Now (clock w.(ticks)))) <| session_LastConnectedAt :=
      non_null (database_Now (clock n)) |>), w') ∧ w'.(db) = w.(db) ∧ (w.(ticks) <= n)%nat ∧ w'.(ticks) = S n.
Proof.
  unfold open_session, opened. destruct (Valid agent.(WorkspaceAgent_FirstConnectedAt)).
  - exists w.(ticks). eexists. split; [reflexivity|]. done.
  - exists (S w.(ticks)). eexists. split; [reflexivity|]. simpl. split_and!; [done|lia|done].
Qed.
Lemma publish_run id w :
  ∃ w', publishWorkspaceUpdate id w = (Ok tt, w') ∧ w'.(db) = w.(db) ∧ w'.(ticks) = w.(ticks).
Proof.
  unfold publishWorkspaceUpdate. rewrite void_run. unfold attempt, Publish. destruct (publish_error _); by eexists.
Qed.
Lemma session_so_far_run others w :
  session_start → w.(db) = q → Forall quiet_other others →
  ∃ n sess w', session_so_far others w = (Ok sess, w') ∧ seen_at (opened (database_Now (clock w.(ticks)))) n sess w' ∧
    (w.(ticks) <= n)%nat.
Proof.
  intros Hstart Hq Hothers. destruct (open_session_run w) as (n & w1 & Hopen & Hdb1 & Hn & Hticks1).
  set (sess := (opened _) <| session_LastConnectedAt := _ |>) in Hopen.
  destruct (write_times sess sess w1) as (w2 & Hwrite & Hin & Hticks2); [done|right; congruence|done|].
  destruct (publish_run build.(WorkspaceBuild_WorkspaceID) w2) as (w3 & Hpub & Hdb3 & Hticks3).
  destruct (session_loop_run others (opened (database_Now (clock w.(ticks)))) n sess w3)
    as (n' & sess' & w' & Hloop & Hseen & Hle & _); [done|done| |].
  { split_and!; [by destruct Hin; split; [|rewrite Hdb3]|done|lia]. }
  exists n', sess', w'. split_and!; [|done|lia]. unfold session_so_far.
  erewrite bind_step by exact Hopen. erewrite bind_step by exact Hwrite. erewrite bind_step by exact Hpub. exact Hloop.
Qed.
Lemma close_session_run sess w :
  session_start → in_session sess w →
  ∃ w', close_session api build sess w = (Ok tt, w') ∧
    in_session (sess <| session_DisconnectedAt := non_null (database_Now (clock w.(ticks))) |>) w'.
Proof.
  intros Hstart Hin. set (sess' := sess <| session_DisconnectedAt := _ |>).
  destruct (write_times sess sess' (w <| ticks := S w.(ticks) |>)) as (w1 & Hwrite & Hin1 & _); [done|by left|by destruct Hin|].
  destruct (publish_run build.(WorkspaceBuild_WorkspaceID) w1) as (w2 & Hpub & Hdb & _).
  exists w2. split; [|by destruct Hin1; split; [|rewrite Hdb]]. unfold close_session. erewrite bind_step by reflexivity.
  erewrite bind_step by (apply attempt_step; exact Hwrite). exact Hpub.
Qed.
Lemma serve_session_run others w :
  session_start → w.(db) = q → Forall quiet_other others →
  ∃ n sess w1 w', session_so_far others w = (Ok sess, w1) ∧ seen_at (opened (database_Now (clock w.(ticks)))) n sess w1 ∧
    (w.(ticks) <= n)%nat ∧ serve_session api build agent others w = (Ok tt, w') ∧
    in_session (sess <| session_DisconnectedAt := non_null (database_Now (clock w1.(ticks))) |>) w'.
Proof.
  intros Hstart Hq Hothers. destruct (session_so_far_run others w Hstart Hq Hothers) as (n & sess & w1 & Hrun & Hseen & Hn).
  destruct (close_session_run sess w1 Hstart) as (w' & Hclose & Hin); [by destruct Hseen|].
  exists n, sess, w1, w'. split_and!; try done. unfold session_so_far in Hrun. unfold serve_session.
  apply bind_ok in Hrun as (sess1 & w2 & Hopen & Hrun). apply bind_ok in Hrun as (u & w3 & Hwrite & Hrun).
  apply bind_ok in Hrun as (u' & w4 & Hpub & Hrun).
  erewrite bind_step by exact Hopen. erewrite bind_step by (apply attempt_step; exact Hwrite). cbv beta iota.
  erewrite bind_step by exact Hpub. erewrite bind_step by exact Hrun. exact Hclose.
Qed.
End session.

Section session_theorem.
Context `{!Environment, !UuidText, !Websockets}.

Lemma recorded_row sess q q' a :
  recorded sess q q' → a ∈ q'.(workspaceAgents) → a.(WorkspaceAgent_ID) = sess.(session_Agent) →
  a.(WorkspaceAgent_FirstConnectedAt) = sess.(session_FirstConnectedAt) ∧
  a.(WorkspaceAgent_LastConnectedAt) = sess.(session_LastConnectedAt) ∧
  a.(WorkspaceAgent_DisconnectedAt) = sess.(session_DisconnectedAt).
Proof.
  intros [u ->]. simpl. intros (b & -> & _)%list_elem_of_fmap. destruct (b.(WorkspaceAgent_ID) == sess.(session_Agent)) eqn:Hb; [done|].
  by apply bool_decide_eq_false in Hb.
Qed.

Lemma coordinate_run api r agent others resource build latest s w' :
  GetWorkspaceResourceByID agent.(WorkspaceAgent_ResourceID) s.(hs_world).(db) = Ok resource →
  GetWorkspaceBuildByJobID resource.(WorkspaceResource_JobID) s.(hs_world).(db) = Ok build →
  GetLatestWorkspaceBuildByWorkspaceID build.(WorkspaceBuild_WorkspaceID) s.(hs_world).(db) = Ok latest →
  latest.(WorkspaceBuild_ID) = build.(WorkspaceBuild_ID) → websocket_Accept r = None →
  serve_session api build agent others s.(hs_world) = (Ok tt, w') →
  workspaceAgentCoordinate api r agent others s = (Ok (inr tt), s <| hs_world := w' |>).
Proof.
  intros Hr Hb Hlatest Hsame Haccept Hserve. unfold workspaceAgentCoordinate. cbv zeta.
  rewrite h_bind_run, catch_query, Hr, h_bind_run, catch_query, Hb, h_bind_run, catch_run.
  unfold ensureLatestBuild at 1. erewrite bind_step by (unfold query; by rewrite Hlatest).
  rewrite bool_decide_eq_true_2 by done. simpl negb. cbv iota.
  unfold accept_websocket. rewrite Haccept. destruct s as [w h1 h2]. by apply run_ok.
Qed.

(** While an agent of the latest build keeps its connection open and nobody else
    writes, the row of the agent says that it is connected; when the connection has
    ended the row says that it is disconnected. No other row and no other table
    changes. *)
Theorem agent_session_recorded api r agent others resource build latest s :
  (∀ m n, (m < n)%nat → database_Now (clock m) < database_Now (clock n)) →
  NoDup (WorkspaceAgent_ID <$> s.(hs_world).(db).(workspaceAgents)) → agent ∈ s.(hs_world).(db).(workspaceAgents) →
  GetWorkspaceResourceByID agent.(WorkspaceAgent_ResourceID) s.(hs_world).(db) = Ok resource →
  GetWorkspaceBuildByJobID resource.(WorkspaceResource_JobID) s.(hs_world).(db) = Ok build →
  GetLatestWorkspaceBuildByWorkspaceID build.(WorkspaceBuild_WorkspaceID) s.(hs_world).(db) = Ok latest →
  latest.(WorkspaceBuild_ID) = build.(WorkspaceBuild_ID) → websocket_Accept r = None → Forall quiet_other others →
  null_val agent.(WorkspaceAgent_DisconnectedAt) <= database_Now (clock s.(hs_world).(ticks)) →
  ∃ sess w1 s' disconnected,
    session_so_far api build agent others s.(hs_world) = (Ok sess, w1) ∧
    recorded sess s.(hs_world).(db) w1.(db) ∧
    (∀ a now, a ∈ w1.(db).(workspaceAgents) → a.(WorkspaceAgent_ID) = agent.(WorkspaceAgent_ID) →
       Sub now (null_val a.(WorkspaceAgent_LastConnectedAt)) <= api.(AgentInactiveDisconnectTimeout) → connected_at api a now) ∧
    workspaceAgentCoordinate api r agent others s = (Ok (inr tt), s') ∧
    recorded (sess <| session_DisconnectedAt := non_null disconnected |>) s.(hs_world).(db) s'.(hs_world).(db) ∧
    (∀ a w, a ∈ s'.(hs_world).(db).(workspaceAgents) → a.(WorkspaceAgent_ID) = agent.(WorkspaceAgent_ID) →
       (agent_status api a w).1 = Ok (WorkspaceAgentDisconnected, Some disconnected)).
Proof.
  intros Hclock Hids Hagent Hr Hb Hlatest Hsame Haccept Hothers Hbefore.
  assert (session_start s.(hs_world).(db) build agent) as Hstart by (split_and!; [done|done|by exists latest]).
  destruct (serve_session_run api s.(hs_world).(db) build agent others s.(hs_world))
    as (n & sess & w1 & w' & Hsofar & (Hin & Hsess & Hn) & Hle & Hserve & Hend); [done..|].
  exists sess, w1, (s <| hs_world := w' |>), (database_Now (clock w1.(ticks))).
  destruct Hin as [Hid Hrec], Hend as [Hid' Hrec'].
  split_and!; [done|done| |by eapply coordinate_run|done|].
  - intros a now Ha Haid Htime. destruct (recorded_row _ _ _ _ Hrec Ha) as (Hfirst & Hlast & Hdisc); [congruence|].
    unfold connected_at. rewrite Hlast in Htime. rewrite Hfirst, Hlast, Hdisc, Hsess in *. unfold opened; simpl in *.
    split_and!; [by destruct (Valid agent.(WorkspaceAgent_FirstConnectedAt)) eqn:Hv|done| |done].
    destruct (decide (n = s.(hs_world).(ticks))) as [->|Hne]; [done|]. specialize (Hclock s.(hs_world).(ticks) n). lia.
  - intros a w Ha Haid. destruct (recorded_row _ _ _ _ Hrec' Ha) as (Hfirst & Hlast & Hdisc); [simpl; congruence|].
    simpl in Hfirst, Hlast, Hdisc. unfold agent_status. rewrite Hfirst, Hlast, Hdisc, Hsess. unfold opened; simpl.
    specialize (Hclock n w1.(ticks) Hn).
    assert (Valid (if Valid agent.(WorkspaceAgent_FirstConnectedAt) then agent.(WorkspaceAgent_FirstConnectedAt)
                   else non_null (database_Now (clock s.(hs_world).(ticks)))) = true) as ->
      by by destruct (Valid agent.(WorkspaceAgent_FirstConnectedAt)) eqn:Hv.
    simpl. unfold After. rewrite (proj2 (Z.ltb_lt _ _)) by done. done.
Qed.
End session_theorem.

(** ** Examples *)

Module AgentExamples.
Import Scenario.
#[local] Existing Instances text env policy IdentityExamples.one_document IdentityExamples.identity_digest IdentityExamples.text_keys.
#[local] Instance accept_any T : Validate T := λ _, None.
#[local] Instance no_coordinator : Tailnet :=
  {| coordinator_Node _ := None; derp_RegionName _ := None; latency_times_1000 j := j |}.
#[local] Instance open_sockets : Websockets := λ _, None.

Definition resource : WorkspaceResource := WorkspaceResource_zero <| WorkspaceResource_ID := 20%N |> <| WorkspaceResource_JobID := 1%N |>.
(** The agent of the member's workspace, on an instance; it has connected before. *)
Definition agent : WorkspaceAgent :=
  WorkspaceAgent_zero <| WorkspaceAgent_ID := 21%N |> <| WorkspaceAgent_ResourceID := 20%N |> <| WorkspaceAgent_AuthToken := 22%N |>
    <| WorkspaceAgent_AuthInstanceID := non_null "i-123" |> <| WorkspaceAgent_FirstConnectedAt := non_null unix_epoch |>
    <| WorkspaceAgent_LastConnectedAt := non_null (unix_epoch + Hour) |>
    <| WorkspaceAgent_DisconnectedAt := non_null (unix_epoch + Minute) |>.
Definition other_agent : WorkspaceAgent := WorkspaceAgent_zero <| WorkspaceAgent_ID := 23%N |>.
Definition app (id : uuid) (check_url : string) : WorkspaceApp :=
  mkWorkspaceApp id time_zero 21%N "Code" EmptyString (null_of EmptyString) (null_of EmptyString) check_url 5 6
    WorkspaceAppHealthInitializing false AppSharingLevelOwner "code".
Definition job : ProvisionerJob :=
  (completed_job 1) <| ProvisionerJob_Type := ProvisionerJobTypeWorkspaceBuild |>
    <| ProvisionerJob_Input := marshal_WorkspaceProvisionJob (mkWorkspaceProvisionJob 2%N false) |>.
Definition start_with (builds : list WorkspaceBuild) : hstate :=
  s <| hs_world := w <| db := q <| workspaceResources := [resource] |> <| workspaceAgents := [other_agent; agent] |>
    <| provisionerJobs := [job; completed_job 10] |> <| workspaceApps := [app 31 "http://localhost/health"; app 32 EmptyString] |>
    <| workspaceBuilds := builds |> |> |>.
Definition start : hstate := start_with [build].
(** The workspace was built again. *)
Definition rebuilt : hstate :=
  start_with [build; build <| WorkspaceBuild_ID := 5%N |> <| WorkspaceBuild_JobID := 10%N |> <| WorkspaceBuild_BuildNumber := 2 |>].

Definition aws_login : json_body AWSInstanceIdentityToken := inr (mkAWSInstanceIdentityToken "b3RoZXJhd3M=" "aws").
Definition login (s : hstate) : res (Reply + unit) * hstate :=
  postWorkspaceAuthAWSInstanceIdentity IdentityExamples.defaults [] aws_login s.

Lemma instance_token_current_witness :
  ∃ agent, instance_agent "i-123" agent start.(hs_world).(db) ∧
    (login start).1 = Ok (inl (mkReply StatusOK (BodyAgentAuth
      (mkWorkspaceAgentAuthenticateResponse (uuid_String agent.(WorkspaceAgent_AuthToken)))))).
Proof.
  destruct (instance_token_current IdentityExamples.defaults [] aws_login start
              (mkWorkspaceAgentAuthenticateResponse (uuid_String 22%N)) start)
    as (_ & req & instanceID & a & Hreq & (sig & region & text & block & key & _ & Hid & _) & Ha & Htoken); [by vm_compute|].
  injection Hreq as <-. vm_compute in Hid. injection Hid as <-. exists a. split; [exact Ha|].
  cbn [WorkspaceAgentAuthenticateResponse_SessionToken] in Htoken. rewrite <- Htoken. by vm_compute.
Defined.
(** The instance of a build that is not the latest gets nothing. *)
Example outdated_instance_refused :
  (login rebuilt).1 = Ok (inl (mkReply StatusBadRequest (BodyResponse (message
    ("Resource found for id " +:+ quote "i-123" +:+ ", but isn't registered on the latest history."))))).
Proof. by vm_compute. Qed.

(** *** Terminals *)

Definition terminal_request : Request :=
  by_member <| URL_Query := {[ "reconnect" := ["u111"]; "height" := ["65616"]; "width" := ["wide"]; "command" := ["bash"] ]} |>.
Definition open_terminal (r : Request) (agent : WorkspaceAgent) : res (Reply + option terminal) * hstate :=
  workspaceAgentPTY api (λ _, None) r workspace agent start.
Lemma terminal_authorized_witness :
  (open_terminal terminal_request agent).1 = Ok (inr (Some (mkTerminal 21%N 3%N 80 80 "bash"))) ∧
  http_Authorize terminal_request ActionCreate (Workspace_ExecutionRBAC workspace) = Ok true.
Proof.
  split; [by vm_compute|].
  destruct (terminal_authorized api (λ _, None) terminal_request workspace agent start
    (mkTerminal 21%N 3%N 80 80 "bash") (open_terminal terminal_request agent).2) as [Hauth _]; [by vm_compute|exact Hauth].
Defined.
(** Another member does not see the workspace. *)
Example terminal_refused :
  (open_terminal ((by_user (member <| User_ID := 8%N |>) member_key) <| URL_Query := terminal_request.(URL_Query) |>) agent).1 =
  (ResourceNotFound (A := unit) start).1 ≫= λ r, match r with inl p => Ok (inl p) | inr _ => Err ErrNoRows end.
Proof. by vm_compute. Qed.

(** *** Health *)

Definition healths (l : list (uuid * WorkspaceAppHealth)) : json_body PostWorkspaceAppHealthsRequest :=
  inr (mkPostWorkspaceAppHealthsRequest (list_to_map l)).
Definition report_health (l : list (uuid * WorkspaceAppHealth)) : res (Reply + unit) * hstate :=
  postWorkspaceAppHealth agent (healths l) start.
Lemma app_health_exact_witness :
  (report_health [(31%N, WorkspaceAppHealthHealthy)]).2.(hs_world).(db) =
    start.(hs_world).(db) <| workspaceApps :=
      [(app 31 "http://localhost/health") <| WorkspaceApp_Health := WorkspaceAppHealthHealthy |>; app 32 EmptyString] |>.
Proof.
  destruct (app_health_exact agent (healths [(31%N, WorkspaceAppHealthHealthy)]) start (mkReply StatusOK BodyNone)
              (report_health [(31%N, WorkspaceAppHealthHealthy)]).2) as (req & Hreq & Hdb & _).
  - apply (bool_decide_unpack _). by vm_compute.
  - by vm_compute.
  - done.
  - injection Hreq as <-. rewrite Hdb. by vm_compute.
Defined.
(** An application that is not checked has no health to report. *)
Example health_refused :
  (report_health [(31%N, WorkspaceAppHealthHealthy); (32%N, WorkspaceAppHealthHealthy)]).2 = start.
Proof. by vm_compute. Qed.

(** *** Statistics *)

Definition reports : list AgentStatsReportResponse :=
  [zero_report; mkAgentStatsReportResponse 1 10 20; mkAgentStatsReportResponse 1 10 20; zero_report].
Lemma stats_deduplicated_witness :
  ∃ stats s', workspaceAgentReportStatsWebsocket bare agent reports start = (Ok (inr tt), s') ∧
    AgentStat_Payload <$> stats = [marshal_report (mkAgentStatsReportResponse 1 10 20); marshal_report zero_report].
Proof.
  destruct (stats_deduplicated bare agent reports workspace start ltac:(by vm_compute) eq_refl)
    as (stats & s' & Hrun & _ & Hpayload & _).
  exists stats, s'. split; [exact Hrun|]. rewrite Hpayload. by vm_compute.
Defined.

(** *** Connections *)

Lemma clock_grows m n : (m < n)%nat → database_Now (clock m) < database_Now (clock n).
Proof.
  intros Hmn. unfold database_Now, database_Time. simpl.
  pose proof (Round_near (unix_epoch + Hour + Second * Z.of_nat m) Microsecond eq_refl).
  pose proof (Round_near (unix_epoch + Hour + Second * Z.of_nat n) Microsecond eq_refl).
  unfold Second, Microsecond, Nanosecond in *. nia.
Qed.
Definition wait : GoM world unit := void time_Now.
Lemma agent_session_recorded_witness :
  ∃ s' disconnected, workspaceAgentCoordinate api bare agent [wait; wait] start = (Ok (inr tt), s') ∧
    ∀ a w, a ∈ s'.(hs_world).(db).(workspaceAgents) → a.(WorkspaceAgent_ID) = 21%N →
      (agent_status api a w).1 = Ok (WorkspaceAgentDisconnected, Some disconnected).
Proof.
  destruct (agent_session_recorded api bare agent [wait; wait] resource build build start)
    as (sess & w1 & s' & disconnected & _ & _ & _ & Hrun & _ & Hstatus).
  - exact clock_grows.
  - apply (bool_decide_unpack _). by vm_compute.
  - right; left.
  - by vm_compute.
  - by vm_compute.
  - by vm_compute.
  - done.
  - done.
  - repeat constructor.
  - by vm_compute.
  - exists s', disconnected. split; [exact Hrun|exact Hstatus].
Defined.

Definition status (s : hstate) : list (res (WorkspaceAgentStatus * option time)) :=
  (λ a, (agent_status api a s.(hs_world)).1) <$> filter (λ a, a.(WorkspaceAgent_ID) = 21%N) s.(hs_world).(db).(workspaceAgents).
(** An agent connects again before its old connection has ended: once that one ends
    the agent counts as disconnected, although the new connection is open. *)
Example old_connection_disconnects :
  fst <$> (status (workspaceAgentCoordinate api bare agent [void (session_so_far api build agent [])] start).2 ≫=
           λ r, match r with Ok x => [x] | _ => [] end) = [WorkspaceAgentDisconnected].
Proof. by vm_compute. Qed.
End AgentExamples.
