(* ===== verification/ApiAuditProps.v ===== *)
(** * The audit log: properties

    The dates of a search query are those of the calendar, and what the audit log
    shows of a change is what was recorded of it. *)

From Stdlib Require Import Ascii.
From stdpp Require Import prelude gmap strings.
From S2P Require Import Prelude Encoding Rbac Models Net Queries ModelMethods Store StoreUsers StoreMisc StoreProps World.
From S2P Require Import Auditing ProvisionerdServer Sdk Http HttpMw QueryParams Api ApiUsers Scenario HttpProps ApiAudit.

Local Open Scope Z_scope.

(** ** Dates *)

Definition date : Type := Z * Z * Z.
Definition valid_date (d : date) : Prop := let '(year, month, day) := d in date_ok month day year = true.
Definition next_date (d : date) : date :=
  let '(year, month, day) := d in
  if day <? days_in month year then (year, month, day + 1)
  else if month <? 12 then (year, month + 1, 1) else (year + 1, 1, 1).
Definition midnight (d : date) : time := let '(year, month, day) := d in Date year month day.

Lemma days_in_pos month year : 28 <= days_in month year <= 31.
Proof. unfold days_in. repeat case_match; lia. Qed.

Lemma div_succ y k : 0 < k → y / k - (y - 1) / k = if y mod k =? 0 then 1 else 0.
Proof.
  intros Hk. pose proof (Z.div_mod y k ltac:(lia)) as H1. pose proof (Z.mod_pos_bound y k Hk) as H2.
  pose proof (Z.div_mod (y - 1) k ltac:(lia)) as H3. pose proof (Z.mod_pos_bound (y - 1) k Hk) as H4.
  destruct (Z.eqb_spec (y mod k) 0); nia.
Qed.

Lemma days_of_year year : days_before_months 12 year = if is_leap year then 366 else 365.
Proof. unfold days_before_months, days_in. simpl. destruct (is_leap year); lia. Qed.

Lemma next_year year : days_before_year (year + 1) = days_before_year year + days_before_months 12 year.
Proof.
  rewrite days_of_year. unfold days_before_year, is_leap. replace (year + 1 - 1) with year by lia.
  pose proof (div_succ year 4 ltac:(lia)). pose proof (div_succ year 100 ltac:(lia)). pose proof (div_succ year 400 ltac:(lia)).
  assert (year mod 100 = 0 → year mod 4 = 0) by (rewrite !Z.mod_divide by lia; intros [k ->]; exists (k * 25); lia).
  assert (year mod 400 = 0 → year mod 100 = 0) by (rewrite !Z.mod_divide by lia; intros [k ->]; exists (k * 4); lia).
  destruct (Z.eqb_spec (year mod 4) 0), (Z.eqb_spec (year mod 100) 0), (Z.eqb_spec (year mod 400) 0); simpl; lia.
Qed.

(** The days of the calendar follow each other. *)
Lemma next_midnight d : valid_date d → valid_date (next_date d) ∧ midnight (next_date d) = midnight d + 24 * Hour.
Proof.
  destruct d as [[year month] day]. unfold valid_date, next_date, date_ok, midnight.
  rewrite !andb_true_iff, !Z.leb_le. intros [[[Hm1 Hm2] Hd1] Hd2].
  pose proof (days_in_pos month year).
  destruct (Z.ltb_spec day (days_in month year)) as [Hd|Hd].
  { split; [rewrite !andb_true_iff, !Z.leb_le; lia|]. unfold Date. lia. }
  assert (days_before_months (Z.to_nat month) year
          = days_before_months (Z.to_nat (month - 1)) year + days_in month year) as Hmonth.
  { replace (Z.to_nat month) with (S (Z.to_nat (month - 1))) by lia. cbn [days_before_months].
    by replace (Z.of_nat (S (Z.to_nat (month - 1)))) with month by lia. }
  destruct (Z.ltb_spec month 12) as [Hm|Hm].
  - pose proof (days_in_pos (month + 1) year).
    split; [rewrite !andb_true_iff, !Z.leb_le; lia|]. unfold Date.
    replace (month + 1 - 1) with month by lia. rewrite Hmonth. replace day with (days_in month year) by lia. ring.
  - pose proof (days_in_pos 1 (year + 1)). replace month with 12 in * by lia.
    split; [rewrite !andb_true_iff, !Z.leb_le; lia|]. unfold Date. rewrite next_year.
    change (Z.to_nat 12) with 12%nat in Hmonth. rewrite Hmonth.
    replace day with (days_in 12 year) by lia. change (days_before_months (Z.to_nat (1 - 1)) (year + 1)) with 0. ring.
Qed.

(** *** Their text *)

Definition digit_char (n : Z) : ascii := ascii_of_nat (Z.to_nat (48 + n)).
Definition print2 (n : Z) : string := String (digit_char (n / 10)) (String (digit_char (n mod 10)) EmptyString).
Definition print_date (d : date) : string :=
  let '(year, month, day) := d in
  print2 (year / 100) +:+ print2 (year mod 100) +:+ "-" +:+ print2 month +:+ "-" +:+ print2 day.

Lemma digit_digit_char n : 0 <= n <= 9 → digit (digit_char n) = Some n.
Proof.
  intros Hn. unfold digit, digit_char. rewrite nat_ascii_embedding by lia. rewrite Z2Nat.id by lia.
  rewrite (proj2 (Z.leb_le _ _)), (proj2 (Z.leb_le _ _)) by lia. simpl. f_equal. lia.
Qed.

Lemma ParseDate_print d :
  valid_date d → 0 <= d.1.1 <= 9999 → ParseDate (print_date d) = Some (midnight d).
Proof.
  destruct d as [[year month] day]. unfold valid_date. simpl. intros Hok Hy.
  assert (1 <= month <= 12 ∧ 1 <= day <= 31) as [Hm Hd].
  { pose proof (days_in_pos month year). unfold date_ok in Hok. rewrite !andb_true_iff, !Z.leb_le in Hok. lia. }
  assert (∀ n, 0 <= n <= 99 → 0 <= n / 10 <= 9 ∧ 0 <= n mod 10 <= 9 ∧ 10 * (n / 10) + n mod 10 = n) as Hsplit.
  { intros n Hn. pose proof (Z.div_mod n 10 ltac:(lia)). pose proof (Z.mod_pos_bound n 10 ltac:(lia)). lia. }
  assert (0 <= year / 100 <= 99 ∧ 0 <= year mod 100 <= 99 ∧ 100 * (year / 100) + year mod 100 = year) as (H1 & H2 & H3).
  { pose proof (Z.div_mod year 100 ltac:(lia)). pose proof (Z.mod_pos_bound year 100 ltac:(lia)). lia. }
  destruct (Hsplit _ H1) as (? & ? & ?), (Hsplit _ H2) as (? & ? & ?), (Hsplit month) as (? & ? & ?), (Hsplit day) as (? & ? & ?); try lia.
  unfold ParseDate, print_date, print2. cbn -[date_ok Date digit digit_char Z.mul Z.add Z.div Z.modulo].
  rewrite !digit_digit_char by lia. cbn -[date_ok Date Z.mul Z.add Z.div Z.modulo]. rewrite !Z.mul_0_r, !Z.add_0_l.
  replace (10 * (10 * (10 * (year / 100 / 10) + (year / 100) mod 10) + year mod 100 / 10) + (year mod 100) mod 10) with year by lia.
  replace (10 * (month / 10) + month mod 10) with month by lia. replace (10 * (day / 10) + day mod 10) with day by lia.
  by rewrite Hok.
Qed.

(** *** Their search *)

Definition quote_char : ascii := ascii_of_nat 34.
(** The text stands for itself in a query. *)
Definition plain_char (c : ascii) : Prop := c ≠ " "%char ∧ c ≠ ":"%char ∧ c ≠ quote_char ∧ ascii_lower c = c.
Fixpoint plain (s : string) : Prop :=
  match s with EmptyString => True | String c s => plain_char c ∧ plain s end.
Fixpoint without (d : ascii) (s : string) : Prop :=
  match s with EmptyString => True | String c s => c ≠ d ∧ c ≠ quote_char ∧ without d s end.

Lemma plain_app s t : plain (s +:+ t) ↔ plain s ∧ plain t.
Proof. induction s as [|c s IH]; simpl; [tauto|]. rewrite IH. tauto. Qed.
Lemma without_app d s t : without d (s +:+ t) ↔ without d s ∧ without d t.
Proof. induction s as [|c s IH]; simpl; [tauto|]. rewrite IH. tauto. Qed.
Lemma plain_without_space s : plain s → without " "%char s.
Proof. induction s as [|c s IH]; simpl; [done|]. unfold plain_char. intros [(? & ? & ? & ?) ?]. auto. Qed.
Lemma plain_without_colon s : plain s → without ":"%char s.
Proof. induction s as [|c s IH]; simpl; [done|]. unfold plain_char. intros [(? & ? & ? & ?) ?]. auto. Qed.
Lemma ToLower_app s t : ToLower (s +:+ t) = ToLower s +:+ ToLower t.
Proof. induction s as [|c s IH]; [done|]. exact (f_equal (String _) IH). Qed.
Lemma ToLower_plain s : plain s → ToLower s = s.
Proof. induction s as [|c s IH]; [done|]. intros [(? & ? & ? & ?) ?]. simpl. f_equal; auto. Qed.
Lemma str_app_empty (s : string) : s +:+ EmptyString = s.
Proof. induction s as [|c s IH]; [done|]. exact (f_equal (String _) IH). Qed.

Lemma quoted_fields_run d cur p s :
  without d p → quoted_fields d false cur (p +:+ s) = quoted_fields d false (cur +:+ p) s.
Proof.
  revert cur. induction p as [|c p IH]; intros cur; simpl; [by rewrite str_app_empty|].
  intros (Hd & Hq & Hp). rewrite !bool_decide_false by done. simpl. rewrite IH by done. by rewrite string_app_assoc.
Qed.
Lemma quoted_fields_two d p s :
  without d p → without d s → d ≠ quote_char → p ≠ EmptyString → s ≠ EmptyString →
  quoted_fields d false EmptyString (p +:+ String d s) = [p; s].
Proof.
  intros Hp Hs Hd Hp0 Hs0. rewrite quoted_fields_run by done. simpl.
  rewrite (bool_decide_false (d = _)) by done. simpl. rewrite (bool_decide_true (d = d)) by done. simpl.
  rewrite bool_decide_false by done. f_equal.
  rewrite <- (str_app_empty s) at 1. rewrite quoted_fields_run by done. simpl. by rewrite bool_decide_false.
Qed.
Lemma trim_quotes_without d s : without d s → trim_quotes s = s.
Proof.
  unfold trim_quotes. assert (∀ t, without d t → trim_right t = t) as Hr.
  { induction t as [|c t IH]; [done|]. intros (_ & Hq & Ht). simpl. rewrite IH by done.
    rewrite (bool_decide_false (c = _)) by done. by rewrite andb_false_r. }
  intros Hs. rewrite <- (Hr s Hs) at 2. f_equal. destruct s as [|c s]; [done|]. destruct Hs as (_ & Hq & _).
  simpl. by rewrite bool_decide_false.
Qed.
Lemma split_pair k v :
  plain k → plain v → k ≠ EmptyString → v ≠ EmptyString →
  splitQueryParameterByDelimiter (k +:+ String ":"%char v) ":"%char false = [k; v].
Proof.
  intros Hk%plain_without_colon Hv%plain_without_colon Hk0 Hv0. unfold splitQueryParameterByDelimiter.
  rewrite quoted_fields_two by done. simpl. by rewrite !(trim_quotes_without ":"%char).
Qed.

Lemma plain_digit n : 0 <= n <= 9 → plain_char (digit_char n).
Proof.
  intros Hn. assert (n ∈ seqZ 0 10) as Hin by (apply elem_of_seqZ; lia). vm_compute in Hin.
  unfold plain_char. repeat (apply elem_of_cons in Hin as [->|Hin]; [by vm_compute|]). by apply elem_of_nil in Hin.
Qed.
Lemma plain2 n : 0 <= n <= 99 → plain (print2 n).
Proof.
  intros Hn. pose proof (Z.div_mod n 10 ltac:(lia)). pose proof (Z.mod_pos_bound n 10 ltac:(lia)).
  unfold print2. simpl. split_and!; try done; apply plain_digit; lia.
Qed.
Lemma plain_date d : valid_date d → 0 <= d.1.1 <= 9999 → plain (print_date d) ∧ print_date d ≠ EmptyString.
Proof.
  destruct d as [[year month] day]. intros Hok Hy. cbn [fst] in Hy. split; [|done].
  assert (1 <= month <= 12 ∧ 1 <= day <= 31) as [Hm Hd].
  { pose proof (days_in_pos month year). unfold valid_date, date_ok in Hok. rewrite !andb_true_iff, !Z.leb_le in Hok. lia. }
  pose proof (Z.div_mod year 100 ltac:(lia)). pose proof (Z.mod_pos_bound year 100 ltac:(lia)).
  unfold print_date. rewrite !plain_app. split_and!; try (apply plain2; lia); by vm_compute.
Qed.

(** The query for the days from one date to another. *)
Definition days_query (from to : date) : string :=
  ("date_from" +:+ String ":"%char (print_date from)) +:+ String " "%char ("date_to" +:+ String ":"%char (print_date to)).

(** ** Diffs *)

(** What is shown of a recorded change of a field. *)
Definition shown_field (on : OldNew) : option AuditDiffField :=
  old ← value_json on.(Old); new ← value_json on.(New'); Some (mkAuditDiffField old new on.(Secret)).

Lemma entry_json_shown k on kj :
  entry_json (k, on) = Some kj → kj.1 = k ∧ Some (unmarshal_diff_field kj.2) = shown_field on.
Proof.
  unfold entry_json, shown_field. simpl. destruct (value_json on.(Old)) as [old|]; [|done].
  destruct (value_json on.(New')) as [new|]; [|done]. simpl. intros [= <-]. by split.
Qed.

Lemma insert_fields_lookup (fields : list (string * json)) (d : gmap string AuditDiffField) name :
  NoDup fields.*1 →
  (∀ j, (name, j) ∈ fields →
     foldl (λ d kj, <[kj.1 := unmarshal_diff_field kj.2]> d) d fields !! name = Some (unmarshal_diff_field j)) ∧
  (name ∉ fields.*1 → foldl (λ d kj, <[kj.1 := unmarshal_diff_field kj.2]> d) d fields !! name = d !! name).
Proof.
  revert d. induction fields as [|[k j0] fields IH]; intros d Hnd; [by split; [intros ? ?%elem_of_nil|]|].
  apply NoDup_cons in Hnd as [Hk Hnd]. simpl.
  destruct (IH (<[k := unmarshal_diff_field j0]> d) Hnd) as [IH1 IH2]. split.
  - intros j [Heq|Hj]%elem_of_cons; [|by apply IH1]. simplify_eq.
    rewrite IH2 by done. apply lookup_insert_eq.
  - rewrite not_elem_of_cons. intros [Hne Hno]. rewrite IH2 by done. by apply lookup_insert_ne.
Qed.

(** The diff that is shown is the one that was recorded. *)
Lemma diff_roundtrip m raw name :
  marshal_diff m = Some raw → unmarshal_diff raw !! name = m !! name ≫= shown_field.
Proof.
  unfold marshal_diff. intros (fields & Hf%mapM_Some_1 & ->)%fmap_Some. unfold unmarshal_diff. simpl.
  set (l := sort_by _ _) in Hf. assert (l ≡ₚ map_to_list m) as Hl by apply sort_by_perm.
  assert (fields.*1 = l.*1) as Hkeys.
  { clear Hl. induction Hf as [|[k on] kj l' fields' Hx _ IH]; [done|]. simpl.
    apply entry_json_shown in Hx as [-> _]. f_equal. apply IH. }
  assert (NoDup fields.*1) as Hnd by (rewrite Hkeys, Hl; apply NoDup_fst_map_to_list).
  destruct (insert_fields_lookup fields ∅ name Hnd) as [Hin Hout].
  destruct (m !! name) as [on|] eqn:Hm; simpl.
  - assert ((name, on) ∈ l) as Hel by (by rewrite Hl, elem_of_map_to_list).
    apply list_elem_of_lookup in Hel as [i Hi]. destruct (Forall2_lookup_l _ _ _ _ _ Hf Hi) as ([k j] & Hj & Hx).
    apply entry_json_shown in Hx as [Hk <-]. simpl in Hk. subst k. apply Hin. by apply list_elem_of_lookup_2 in Hj.
  - rewrite Hout; [apply lookup_empty|]. rewrite Hkeys, Hl. intros ([k on] & -> & Hel)%list_elem_of_fmap.
    apply elem_of_map_to_list in Hel. simpl in Hm. congruence.
Qed.

(** ** The list *)

(** The [WHERE] of the query in [queries/auditlogs.sql]. *)
Definition audit_where (arg : GetAuditLogsOffsetParams) (q : data) (alog : AuditLog) : Prop :=
  (arg.(GetAuditLogsOffsetParams_ResourceType) = EmptyString ∨
   ResourceType_string alog.(AuditLog_ResourceType) = arg.(GetAuditLogsOffsetParams_ResourceType)) ∧
  (arg.(GetAuditLogsOffsetParams_ResourceID) = uuid_Nil ∨
   alog.(AuditLog_ResourceID) = arg.(GetAuditLogsOffsetParams_ResourceID)) ∧
  (arg.(GetAuditLogsOffsetParams_ResourceTarget) = EmptyString ∨
   alog.(AuditLog_ResourceTarget) = arg.(GetAuditLogsOffsetParams_ResourceTarget)) ∧
  (arg.(GetAuditLogsOffsetParams_Action) = EmptyString ∨
   AuditAction_string alog.(AuditLog_Action) = arg.(GetAuditLogsOffsetParams_Action)) ∧
  (arg.(GetAuditLogsOffsetParams_Username) = EmptyString ∨
   ∃ user, GetUserByID alog.(AuditLog_UserID) q = Ok user ∧ user.(User_Username) = arg.(GetAuditLogsOffsetParams_Username)) ∧
  (arg.(GetAuditLogsOffsetParams_Email) = EmptyString ∨
   ∃ user, GetUserByID alog.(AuditLog_UserID) q = Ok user ∧ user.(User_Email) = arg.(GetAuditLogsOffsetParams_Email)) ∧
  (arg.(GetAuditLogsOffsetParams_DateFrom) = time_zero ∨
   arg.(GetAuditLogsOffsetParams_DateFrom) <= alog.(AuditLog_Time)) ∧
  (arg.(GetAuditLogsOffsetParams_DateTo) = time_zero ∨
   alog.(AuditLog_Time) <= arg.(GetAuditLogsOffsetParams_DateTo)).

(** An entry of the resource and the days that are asked for. *)
Definition audit_asked (arg : GetAuditLogsOffsetParams) (alog : AuditLog) : Prop :=
  (arg.(GetAuditLogsOffsetParams_ResourceID) = uuid_Nil ∨
   alog.(AuditLog_ResourceID) = arg.(GetAuditLogsOffsetParams_ResourceID)) ∧
  (arg.(GetAuditLogsOffsetParams_DateFrom) = time_zero ∨
   arg.(GetAuditLogsOffsetParams_DateFrom) <= alog.(AuditLog_Time)) ∧
  (arg.(GetAuditLogsOffsetParams_DateTo) = time_zero ∨
   alog.(AuditLog_Time) <= arg.(GetAuditLogsOffsetParams_DateTo)).

Lemma Contains_refl s : Contains s s = true.
Proof.
  assert (String.prefix s s = true) as Hpre.
  { induction s as [|c s IH]; [done|]. simpl. by destruct (Ascii.ascii_dec c c). }
  destruct s as [|c s]; [done|]. cbn [Contains]. by rewrite Hpre.
Qed.
Lemma EqualFold_refl s : EqualFold s s = true.
Proof. unfold EqualFold. by rewrite bool_decide_eq_true_2. Qed.

Lemma same_user q id field want :
  want = EmptyString ∨ (∃ user, GetUserByID id q = Ok user ∧ field user = want) → audit_user_differs q id field want = false.
Proof.
  unfold audit_user_differs. intros [->|(user & -> & <-)]; [done|]. by rewrite EqualFold_refl, andb_false_r.
Qed.

(** The in-memory store finds what the query asks for. *)
Lemma where_matches arg q alog : audit_where arg q alog → audit_matches arg q alog = true.
Proof.
  intros (Htype & Hid & _ & Haction & Hname & Hemail & Hfrom & Hto). unfold audit_matches.
  rewrite (same_user _ _ _ _ Hname), (same_user _ _ _ _ Hemail).
  match goal with |- (if ?c1 then _ else if ?c2 then _ else if ?c3 then _ else if ?c4 then _ else if ?c5 then _ else _) = _ =>
    assert (c1 = false) as ->; [|assert (c2 = false) as ->; [|assert (c3 = false) as ->]] end.
  - destruct Haction as [->| <-]; [done|]. by rewrite Contains_refl, andb_false_r.
  - destruct Htype as [->| <-]; [done|]. by rewrite Contains_refl, andb_false_r.
  - destruct Hid as [->| ->]; [done|]. rewrite (bool_decide_eq_true_2 (_ = arg.(GetAuditLogsOffsetParams_ResourceID))) by done. apply andb_false_r.
  - unfold IsZero, Before, After.
    destruct (Z.eqb_spec arg.(GetAuditLogsOffsetParams_DateFrom) time_zero), (Z.eqb_spec arg.(GetAuditLogsOffsetParams_DateTo) time_zero),
      (Z.ltb_spec alog.(AuditLog_Time) arg.(GetAuditLogsOffsetParams_DateFrom)),
      (Z.ltb_spec arg.(GetAuditLogsOffsetParams_DateTo) alog.(AuditLog_Time)); simpl; done || lia.
Qed.
(** What it finds is of the resource and the days. *)
Lemma matches_asked arg q alog : audit_matches arg q alog = true → audit_asked arg alog.
Proof.
  unfold audit_matches, audit_asked, IsZero, Before, After.
  do 2 (destruct (_ && _); [done|]).
  destruct (decide (arg.(GetAuditLogsOffsetParams_ResourceID) = uuid_Nil)) as [Hid|Hid],
    (decide (alog.(AuditLog_ResourceID) = arg.(GetAuditLogsOffsetParams_ResourceID))) as [Hres|Hres];
    rewrite ?(bool_decide_eq_true_2 _ Hid), ?(bool_decide_eq_false_2 _ Hid),
      ?(bool_decide_eq_true_2 _ Hres), ?(bool_decide_eq_false_2 _ Hres); simpl; try done.
  all: do 2 (destruct (audit_user_differs _ _ _ _); [done|]).
  all: destruct (Z.eqb_spec arg.(GetAuditLogsOffsetParams_DateFrom) time_zero), (Z.eqb_spec arg.(GetAuditLogsOffsetParams_DateTo) time_zero),
      (Z.ltb_spec alog.(AuditLog_Time) arg.(GetAuditLogsOffsetParams_DateFrom)),
      (Z.ltb_spec arg.(GetAuditLogsOffsetParams_DateTo) alog.(AuditLog_Time)); simpl; try done; intros _; split_and!; auto.
Qed.

(** The entries the loop finds. *)
Definition audit_found (arg : GetAuditLogsOffsetParams) (q : data) (limit offset : Z) (alogs : list AuditLog) : list AuditLog :=
  take (Z.to_nat (Z.max 1 limit)) (filter (λ alog, audit_matches arg q alog = true) (drop (Z.to_nat offset) alogs)).

Lemma audit_loop_page arg q offset alogs logs :
  audit_loop arg q offset alogs logs =
  logs ++ (audit_row q <$> audit_found arg q (arg.(GetAuditLogsOffsetParams_Limit) - Z.of_nat (length logs)) offset alogs).
Proof.
  unfold audit_found. revert offset logs. induction alogs as [|alog alogs IH]; intros offset logs.
  { rewrite drop_nil, filter_nil, take_nil. by rewrite app_nil_r. }
  simpl. destruct (Z.ltb_spec 0 offset) as [Hoff|Hoff].
  { rewrite IH. by replace (Z.to_nat offset) with (S (Z.to_nat (offset - 1))) by lia. }
  replace (Z.to_nat offset) with 0%nat by lia. simpl. rewrite filter_cons.
  destruct (audit_matches arg q alog) eqn:Hmatch; simpl.
  - rewrite length_app. simpl. destruct (Z.leb_spec (arg.(GetAuditLogsOffsetParams_Limit)) (Z.of_nat (length logs + 1))).
    + by replace (Z.to_nat (Z.max 1 _)) with 1%nat by lia.
    + rewrite IH, length_app, <-app_assoc. simpl. replace (Z.to_nat offset) with 0%nat by lia. do 2 f_equal. simpl.
      set (n := Z.to_nat _). set (k := Z.to_nat _). by replace k with (S n) by lia.
  - rewrite IH. by replace (Z.to_nat offset) with 0%nat by lia.
Qed.

Section list.
Context `{!Environment, !UuidText, !TimeText, !Authorizer}.

(** An entry as it is shown. *)
Definition shows (q : data) (log : sdkAuditLog) (alog : AuditLog) : Prop :=
  log.(sdkAuditLog_ID) = alog.(AuditLog_ID) ∧ log.(sdkAuditLog_RequestID) = alog.(AuditLog_RequestID) ∧
  log.(sdkAuditLog_Action) = alog.(AuditLog_Action) ∧ log.(sdkAuditLog_ResourceType) = alog.(AuditLog_ResourceType) ∧
  log.(sdkAuditLog_ResourceID) = alog.(AuditLog_ResourceID) ∧
  log.(sdkAuditLog_ResourceTarget) = alog.(AuditLog_ResourceTarget) ∧
  log.(sdkAuditLog_StatusCode) = alog.(AuditLog_StatusCode) ∧
  (∀ user, GetUserByID alog.(AuditLog_UserID) q = Ok user →
     ∃ u, log.(sdkAuditLog_User) = Some u ∧ u.(sdkUser_ID) = alog.(AuditLog_UserID) ∧ u.(sdkUser_Username) = user.(User_Username)) ∧
  (∀ m, marshal_diff m = Some alog.(AuditLog_Diff) →
     ∀ name field, (name, field) ∈ log.(sdkAuditLog_Diff) ↔ m !! name ≫= shown_field = Some field).

Lemma convert_shows q alog count : shows q (convertAuditLog ((audit_row q alog) <| GetAuditLogsOffsetRow_Count := count |>)) alog.
Proof.
  unfold shows. split_and!; try done.
  - intros user Huser. unfold convertAuditLog, audit_user, audit_row. simpl. rewrite Huser. simpl. by eexists.
  - intros m Hm name field. simpl. by rewrite elem_of_map_to_list, (diff_roundtrip _ _ _ Hm).
Qed.

Lemma listed_page q arg dblogs :
  GetAuditLogsOffset arg q = Ok dblogs →
  Forall2 (shows q) (convertAuditLogs dblogs)
    (audit_found arg q arg.(GetAuditLogsOffsetParams_Limit) arg.(GetAuditLogsOffsetParams_Offset) q.(auditLogs)).
Proof.
  unfold GetAuditLogsOffset. case_match; [done|]. rewrite audit_loop_page. intros [= <-]. simpl.
  rewrite Z.sub_0_r. unfold convertAuditLogs. rewrite !Forall2_fmap_l. apply Forall_Forall2_diag, Forall_true.
  intros alog. apply convert_shows.
Qed.

Lemma yields_parsePagination r s page s' : yields (parsePagination r) s page s' → s' = s.
Proof. unfold parsePagination. repeat case_match; try done. by intros [_ ->]%yields_ret. Qed.
Lemma avoids_parsePagination (P : Reply → Prop) r :
  (∀ resp, ¬ P (mkReply StatusBadRequest (BodyResponse resp))) → avoids P (parsePagination r).
Proof. intros HP. unfold parsePagination. repeat case_match; by eauto with avoids. Qed.

Definition lists (p : Reply) : Prop := ∃ resp, p = mkReply StatusOK (BodyAuditLogs resp).
Hint Extern 1 (¬ lists _) => by intros (? & ?) : avoids.
Hint Extern 1 (avoids _ (parsePagination _)) => apply avoids_parsePagination; intros ? : avoids.
Hint Extern 1 (avoids _ Forbidden) => apply avoids_reply : avoids.
Hint Extern 1 (avoids _ (InternalServerError _)) => apply avoids_reply : avoids.
Local Tactic Notation "later" hyp(H) "as" ident(a) ident(s1) ident(Ha) :=
  apply (avoids_skip (P := lists)) in H as (a & s1 & Ha & H); [|by eexists|by eauto 10 with avoids].

(** What is listed, of the entries of the log. *)
Lemma found_entries arg q limit offset alogs (entries := audit_found arg q limit offset alogs) :
  entries `sublist_of` alogs ∧ Forall (audit_asked arg) entries ∧
  (0 < limit → Z.of_nat (length entries) <= limit) ∧
  (offset = 0 → Z.of_nat (length alogs) <= limit →
     ∀ alog, alog ∈ alogs → audit_where arg q alog → alog ∈ entries).
Proof.
  unfold entries, audit_found. split_and!.
  - etrans; [apply sublist_take|]. etrans; [apply sublist_filter|apply sublist_drop].
  - apply Forall_take, Forall_forall. intros alog [Hm _]%list_elem_of_filter. by eapply matches_asked.
  - intros Hlimit. rewrite length_take. lia.
  - intros -> Hlimit alog Hin Hwhere. rewrite drop_0, take_ge.
    + apply list_elem_of_filter. split; [by apply where_matches|done].
    + pose proof (length_filter (λ alog, audit_matches arg q alog = true) alogs). lia.
Qed.

(** C29: The audit log is only shown to those that may read it, as it was recorded, and
    listing it writes nothing. What is listed are entries of the log, none more often than
    it was recorded, of the resource and the days the query asks for, and not more than a
    limit above zero. Asked without an offset and with a limit that the log does not
    exceed, the list has every entry that satisfies the [WHERE] of the SQL query; nothing
    is said about the order of the list, and about what an offset skips. Each entry is
    shown with the changes recorded of it, field by field, and, as long as there is that
    user, with the user that made them. *)
Theorem audit_log_shown r s resp s' :
  api_auditLogs r s = (Ok (inl (mkReply StatusOK (BodyAuditLogs resp))), s') →
  s' = s ∧ http_Authorize r ActionRead ResourceAuditLog = Ok true ∧
  ∃ page filter entries, yields (parsePagination r) s page s ∧ auditSearchQuery (url_Get r.(URL_Query) "q") = (filter, []) ∧
    Forall2 (shows s.(hs_world).(db)) resp.(AuditLogResponse_AuditLogs) entries ∧
    let alogs := s.(hs_world).(db).(auditLogs) in
    let limit := int32_wrap page.(sdkPagination_Limit) in
    entries `sublist_of` alogs ∧ Forall (audit_asked filter) entries ∧
    (0 < limit → Z.of_nat (length entries) <= limit) ∧
    (int32_wrap page.(sdkPagination_Offset) = 0 → Z.of_nat (length alogs) <= limit →
       ∀ alog, alog ∈ alogs → audit_where filter s.(hs_world).(db) alog → alog ∈ entries).
Proof.
  unfold api_auditLogs. intros Hrun.
  later Hrun as u s1 Hauth. apply yields_authorize in Hauth as [Hauth ->]; [|done].
  later Hrun as page s1 Hpage. pose proof (yields_parsePagination _ _ _ _ Hpage) as ->.
  destruct (auditSearchQuery _) as [filter errs] eqn:Hq.
  later Hrun as u2 s1 Herrs. apply yields_require in Herrs as [Herrs%bool_decide_eq_true ->]; [|done]. subst errs.
  later Hrun as dblogs s1 Hrows. apply yields_query in Hrows as [Hrows ->]; [|done].
  assert (s' = s ∧ resp.(AuditLogResponse_AuditLogs) = convertAuditLogs dblogs) as [-> Hresp].
  { destruct dblogs; injection Hrun as <- <-; done. }
  split_and!; [done..|]. eexists page, filter, _. do 2 (split; [done|]).
  split; [rewrite Hresp; by apply (listed_page _ _ _ Hrows)|].
  match type of Hrows with GetAuditLogsOffset ?arg ?q = _ =>
    destruct (found_entries arg q arg.(GetAuditLogsOffsetParams_Limit) arg.(GetAuditLogsOffsetParams_Offset) q.(auditLogs))
      as (Hsub & Hasked & Hlimit & Hall) end.
  do 3 (split; [assumption|]). intros Hoff Hlen alog Hin (? & ? & _ & ?). apply Hall; [done..|].
  do 2 (split; [done|]). split; [by left|done].
Qed.

(** ** Searching for days *)

Lemma days_query_params from to :
  valid_date from → 0 <= from.1.1 <= 9999 → valid_date to → 0 <= to.1.1 <= 9999 →
  auditSearchQuery (days_query from to) = audit_filter (url_Set "date_to" (print_date to) (url_Set "date_from" (print_date from) ∅)).
Proof.
  intros Hf Hfy Ht Hty. destruct (plain_date from Hf Hfy) as [Pf Nf], (plain_date to Ht Hty) as [Pt Nt].
  assert (∀ k v, plain k → plain v → without " "%char (k +:+ String ":"%char v)) as Hspace.
  { intros k v Hk%plain_without_space Hv%plain_without_space. rewrite without_app. by split. }
  assert (plain "date_from" ∧ plain "date_to") as [Pkf Pkt] by by vm_compute.
  unfold auditSearchQuery, days_query. rewrite bool_decide_false by done.
  assert (∀ p s, ToLower (p +:+ String " "%char s) = ToLower p +:+ String " "%char (ToLower s)) as Hlow1 by (intros; apply ToLower_app).
  assert (∀ k v, plain k → plain v → ToLower (k +:+ String ":"%char v) = k +:+ String ":"%char v) as Hlow2.
  { intros k v Hk Hv. rewrite ToLower_app, (ToLower_plain k) by done. f_equal.
    exact (f_equal (String ":"%char) (ToLower_plain v Hv)). }
  rewrite Hlow1, !Hlow2 by done.
  unfold splitQueryParameterByDelimiter at 1. rewrite quoted_fields_two by (done || by apply Hspace).
  cbn [audit_search_params]. by rewrite !split_pair.
Qed.

Lemma midnight_pos d : valid_date d → 2 <= d.1.1 → 0 < midnight d.
Proof.
  destruct d as [[year month] day]. intros Hok Hy. cbn [fst] in Hy. unfold midnight, Date, days_before_year.
  unfold valid_date, date_ok in Hok. rewrite !andb_true_iff, !Z.leb_le in Hok.
  assert (∀ n, 0 <= days_before_months n year) as Hmonths.
  { induction n as [|n IH]; cbn [days_before_months]; [lia|]. pose proof (days_in_pos (Z.of_nat (S n)) year). lia. }
  specialize (Hmonths (Z.to_nat (month - 1))).
  assert ((year - 1) / 100 <= (year - 1) / 4) by (apply Z.div_le_compat_l; lia).
  assert (0 <= (year - 1) / 400) by (apply Z.div_pos; lia).
  unfold Hour, Minute, Second, Nanosecond. nia.
Qed.

Lemma query_String_get vals k : query_String vals EmptyString k = url_Get vals k.
Proof.
  unfold query_String, parseQueryParam. destruct (url_Has vals k) eqn:Hhas; simpl; [by case_bool_decide as H'; rewrite ?H'|].
  unfold url_Get. apply bool_decide_eq_false, eq_None_not_Some in Hhas. by rewrite Hhas.
Qed.

(** The parameters of the query, and what becomes of them. *)
Lemma days_params from to (vals := url_Set "date_to" to (url_Set "date_from" from ∅)) :
  query_String vals EmptyString "date_from" = from ∧ query_String vals EmptyString "date_to" = to ∧
  query_String vals EmptyString "resource_type" = EmptyString ∧ query_String vals EmptyString "action" = EmptyString ∧
  query_String vals EmptyString "username" = EmptyString ∧ query_String vals EmptyString "email" = EmptyString ∧
  query_UUID vals uuid_Nil "resource_id" = (uuid_Nil, []).
Proof. rewrite !query_String_get. by split_and!; vm_compute. Qed.

Lemma midnights_apart c d : midnight c < midnight d → midnight c + 24 * Hour <= midnight d.
Proof.
  destruct c as [[yc mc] dc], d as [[yd md] dd]. unfold midnight, Date.
  assert (0 < 24 * Hour) as Hday by done. revert Hday. generalize (24 * Hour). intros day Hday Hlt.
  apply Z.mul_lt_mono_pos_r in Hlt; [|done]. rewrite <- Z.mul_succ_l. apply Z.mul_le_mono_nonneg_r; lia.
Qed.

Lemma dates_match filter from to q alog :
  0 < from → 0 < to →
  filter = mkGetAuditLogsOffsetParams 0 0 EmptyString uuid_Nil EmptyString EmptyString EmptyString EmptyString from to →
  audit_matches filter q alog = true ↔ from <= alog.(AuditLog_Time) <= to.
Proof.
  intros Hf Ht ->. unfold audit_matches, audit_user_differs, IsZero, Before, After, time_zero. simpl.
  rewrite !(proj2 (Z.eqb_neq _ _)) by lia. simpl.
  destruct (Z.ltb_spec alog.(AuditLog_Time) from), (Z.ltb_spec to alog.(AuditLog_Time)); split; (done || lia).
Qed.

(** C37: A query for the days from one date to another, both of the years 2 to 9999, is
    one for the entries of these days. It is refused exactly if the last day is before the
    first. Otherwise every entry from the midnight the first day begins with up to one
    second before the midnight the last day ends with is found, and whatever is found was
    recorded on one of the days; nothing is said of entries within the last second of the
    last day. *)
Theorem audit_days_exact from to :
  valid_date from → valid_date to → 2 <= from.1.1 <= 9999 → 2 <= to.1.1 <= 9999 →
  if midnight to <? midnight from
  then ∃ err, (auditSearchQuery (days_query from to)).2 = [err]
  else ∃ filter, auditSearchQuery (days_query from to) = (filter, []) ∧
    ∀ q alog,
      (midnight from <= alog.(AuditLog_Time) <= midnight (next_date to) - Second → audit_matches filter q alog = true) ∧
      (audit_matches filter q alog = true → midnight from <= alog.(AuditLog_Time) < midnight (next_date to)).
Proof.
  intros Hf Ht Hfy Hty. rewrite days_query_params by (done || lia). unfold audit_filter.
  destruct (days_params (print_date from) (print_date to)) as (-> & -> & -> & -> & -> & -> & ->).
  rewrite !ParseDate_print by (done || lia). destruct (plain_date to Ht ltac:(lia)) as [_ Hne].
  rewrite (bool_decide_false (print_date to = _)) by done. cbn -[midnight Z.ltb Z.leb auditLogs next_date].
  pose proof (midnight_pos _ Hf ltac:(lia)). pose proof (midnight_pos _ Ht ltac:(lia)).
  destruct (next_midnight _ Ht) as [_ ->]. pose proof (midnights_apart to from) as Hapart. revert Hapart.
  assert (24 * Hour = 23 * Hour + 59 * Minute + 59 * Second + Second ∧ 0 < Second ∧
          0 <= 23 * Hour + 59 * Minute + 59 * Second) as (-> & Hsec & Hrest) by done.
  revert Hrest. generalize (23 * Hour + 59 * Minute + 59 * Second). intros rest Hrest Hapart.
  unfold Before, Add. destruct (Z.ltb_spec (midnight to) (midnight from)) as [Hlt|Hge].
  - rewrite (proj2 (Z.ltb_lt _ _)) by lia. by eexists.
  - rewrite (proj2 (Z.ltb_ge _ _)) by lia. eexists. split; [done|]. intros q alog.
    rewrite (dates_match _ (midnight from) (midnight to + rest)); [|lia..|done]. lia.
Qed.
End list.

(** ** Examples *)

Module AuditExamples.
Import Scenario.
#[local] Existing Instances text env policy blank_time.

Definition day (month day : Z) : date := (2022, month, day).

Definition renamed : gmap string OldNew := {["username" := mkOldNew (VString "dev") (VString "devel") false]}.
Definition entry (id : uuid) (user : User) (at_ : time) (m : gmap string OldNew) : AuditLog := {|
  AuditLog_ID := id; AuditLog_Time := at_; AuditLog_UserID := user.(User_ID); AuditLog_OrganizationID := 9%N;
  AuditLog_Ip := parseIP "127.0.0.1"; AuditLog_UserAgent := non_null "curl"; AuditLog_ResourceType := ResourceTypeUser;
  AuditLog_ResourceID := 7%N; AuditLog_ResourceTarget := "dev"; AuditLog_Action := AuditActionWrite;
  AuditLog_Diff := default RawNil (marshal_diff m); AuditLog_StatusCode := StatusOK;
  AuditLog_AdditionalFields := empty_object; AuditLog_RequestID := 50%N; AuditLog_ResourceIcon := EmptyString |}.
(** The member's name was changed at noon, and something else half a second before midnight. *)
Definition entries : list AuditLog :=
  [entry 60 owner (midnight (day 2 28) + 12 * Hour) renamed;
   entry 61 member (midnight (day 3 1) - Second / 2) ∅;
   entry 62 member (midnight (day 3 1)) ∅].
Definition start : hstate := s <| hs_world := w <| db := q <| auditLogs := entries |> |> |>.
Definition list_request (user : Request) (search : string) : Request :=
  user <| URL_Query := <["q" := [search]]> (<["limit" := ["10"]]> ∅) |>.
Definition listed (search : string) : option AuditLogResponse :=
  match (api_auditLogs (list_request by_owner search) start).1 with
  | Ok (inl (mkReply _ (BodyAuditLogs resp))) => Some resp
  | _ => None
  end.
Definition today : AuditLogResponse := Eval vm_compute in default (mkAuditLogResponse [] 0) (listed (days_query (day 2 28) (day 2 28))).

Lemma audit_log_shown_witness :
  sdkAuditLog_ID <$> today.(AuditLogResponse_AuditLogs) = [60%N] ∧
  ∃ log, log ∈ today.(AuditLogResponse_AuditLogs) ∧
    ∀ name field, (name, field) ∈ log.(sdkAuditLog_Diff) ↔ renamed !! name ≫= shown_field = Some field.
Proof.
  destruct (audit_log_shown (list_request by_owner (days_query (day 2 28) (day 2 28))) start today start)
    as (_ & _ & page & filter & entries & Hpage & Hq & Hshown & Hsub & _); [by vm_compute|].
  split; [done|]. inversion Hshown as [|log alog logs alogs Hlog Hrest Hlogs]. eexists. split; [left|].
  assert (alog ∈ AuditExamples.entries) as Hin.
  { apply sublist_submseteq in Hsub. eapply elem_of_submseteq; [|done]. subst entries. left. }
  assert (alog = entry 60 owner (midnight (day 2 28) + 12 * Hour) renamed) as ->.
  { destruct Hlog as (Hid & _). apply elem_of_cons in Hin as [->|Hin]; [reflexivity|].
    do 2 (apply elem_of_cons in Hin as [->|Hin]; [discriminate Hid|]). destruct (not_elem_of_nil _ Hin). }
  destruct Hlog as (_ & _ & _ & _ & _ & _ & _ & _ & Hdiff). apply (Hdiff renamed). by vm_compute.
Defined.

(** February had 28 days. *)
Lemma audit_days_exact_witness :
  ∃ filter, auditSearchQuery (days_query (day 2 28) (day 2 28)) = (filter, []) ∧
    ∀ q alog,
      (midnight (day 2 28) <= alog.(AuditLog_Time) <= midnight (day 3 1) - Second → audit_matches filter q alog = true) ∧
      (audit_matches filter q alog = true → midnight (day 2 28) <= alog.(AuditLog_Time) < midnight (day 3 1)).
Proof. apply (audit_days_exact (day 2 28) (day 2 28)); by vm_compute. Defined.
(** The entry half a second before the midnight is not found, though the documentation
    calls the last day inclusive. *)
Example last_second_missed :
  sdkAuditLog_ID <$> today.(AuditLogResponse_AuditLogs) = [60%N] ∧
  midnight (day 2 28) <= midnight (day 3 1) - Second / 2 < midnight (day 3 1).
Proof. by vm_compute. Qed.
(** A search for templates finds versions of templates, which the SQL query does not. *)
Example contains_matches :
  let search := mkGetAuditLogsOffsetParams 10 0 "template" uuid_Nil EmptyString EmptyString EmptyString EmptyString time_zero time_zero in
  let alog := (entry 63 member (midnight (day 3 1)) ∅) <| AuditLog_ResourceType := ResourceTypeTemplateVersion |> in
  audit_matches search q alog = true ∧ ResourceType_string alog.(AuditLog_ResourceType) ≠ "template".
Proof. by vm_compute. Qed.

(** Only the owner may read the log. *)
Example member_refused : (api_auditLogs (list_request by_member EmptyString) start).1 = (Forbidden (A := unit) start).1.
Proof. by vm_compute. Qed.
(** Two dates the wrong way round are refused; a text that is no date is not. *)
Example reversed_refused : listed (days_query (day 3 1) (day 2 28)) = None.
Proof. by vm_compute. Qed.
Example no_date_ignored : length ∘ AuditLogResponse_AuditLogs <$> listed "date_from:2022-02-29" = Some 3%nat.
Proof. by vm_compute. Qed.
(** A search for the changes of groups is a search for all changes. *)
Example groups_ignored : length ∘ AuditLogResponse_AuditLogs <$> listed "resource_type:group" = Some 3%nat.
Proof. by vm_compute. Qed.
Example starts_ignored : length ∘ AuditLogResponse_AuditLogs <$> listed "action:start" = Some 3%nat.
Proof. by vm_compute. Qed.
End AuditExamples.
